(* ===== verification/_CoqProject ===== *)
-Q . S2P
Prelude.v
Float32.v
StdMap.v
Data.v
Text.v
Calendar.v
Config.v
Record.v
Rank.v
Promotion.v
Names.v
Server.v
HeroTask.v
HeroPlay.v
HeroShop.v
HeroDeal.v
HeroDaily.v
HeroSave.v
HeroLoad.v
World.v
Dispatch.v
Manager.v
Frames.v
Process.v
NoDangling.v
Commands.v
Settle.v
Bytes.v
Crc.v
Md5.v
Cipher.v
Wire.v
Packet.v
Serial.v
BitMask.v
Tables.v
Helpers.v
Queues.v
Pools.v
TcpServer.v
TcpClient.v
Timers.v
Deadlines.v
GateServer.v
Keepalive.v
LoginServer.v
Admission.v
Database.v
DbServer.v
Payments.v
Platform.v
Loop.v
Stops.v
Startup.v
GameStart.v
VirtualClient.v
WebSocket.v
