(* ===== verification/Prelude.v ===== *)
(** * DreamHeroes servers: a verification library

    The repository holds the servers of a mobile game: a [login] server, one or
    more gates ([gateserver]), game servers ([gameserver]), a database server
    ([databaseserver]) and the code they share ([common]).  A client logs in at
    the login server, is sent to a gate, and through it talks to the session
    of its hero on a game server; heroes are kept in MySQL by the database
    server.  This file is the root of the library: notation, machine integers,
    the handler monad, generic lemmas and automation.

    ** Parts and files

    Shared code (src/common)
    - Prelude.v: wrap-around integers, the state-and-exit monad of the handlers
      with its weakest-precondition rules.  Float32.v: the binary32 arithmetic
      of the recharge.  StdMap.v: [std::map] as a list in key order.
    - Text.v, Calendar.v: utilities.cpp ([sprintf]'s conversions, [atoi],
      [SplitStringA]; time conversions and day tests).
    - Tables.v, Helpers.v: utilities.cpp ([encrypt_string], [urlencode];
      [itoa], versions, the checksum object, the second pair of base64
      functions).
    - Bytes.v, Crc.v, Md5.v, Cipher.v: crypt.cpp and md5.cpp.
    - Wire.v: message_interface.cpp and the reading and writing of
      tcpsession.cpp.  Packet.v: thread_buffer.h, protoc_common.h and Base64.
      Serial.v: packet_interface.h.
      Queues.v: the pairs of queues between the network and the main
      thread (call_back.cpp).  TcpServer.v: tcpserver.cpp and the life cycle
      of a tcp_session.  TcpClient.v: tcpclient.cpp.  Pools.v:
      io_service_pool.cpp, task_thread_pool.cpp.
    - Loop.v: server_frame.cpp, the main loop behind an interface of which the
      four servers (their server.cpp) are instances.  Stops.v: the game server
      in that loop, and how it stops.
      Startup.v: the configuration files and tables, and how three of the
      servers start.
    - Timers.v: event_manager.h and event_table_object.cpp.  Deadlines.v:
      the interface of Timers.v for programs whose methods change no events, a
      map of the times left.  BitMask.v: update_object.h, common_helper.h and battleserver/UpdateMask.h.
    - Payments.v (first part): HttpManager.cpp.  Database.v: database.cpp.
      WebSocket.v: http_client.cpp, http_server.cpp.
    Game server (src/gameserver)
    - Data.v, Config.v: the messages and GameConfig.cpp.  Record.v, Rank.v,
      Promotion.v, Names.v: RecordManager.cpp, RankManager.cpp,
      ShopSalesPromotionManager.cpp, the names and order numbers of
      DreamHeroManager.cpp.
    - Server.v: the state a hero method works on: the hero object and the
      process globals.  HeroTask.v, HeroPlay.v, HeroShop.v, HeroDeal.v,
      HeroDaily.v, HeroSave.v, HeroLoad.v: DreamHero.cpp, one definition per
      method (HeroSave.v also has the reading side in db_quest.cpp).
    - World.v, Dispatch.v, Manager.v, Process.v: session.cpp, gate_manager.cpp,
      DreamHeroManager.cpp, db_client, GSHttpManager.cpp: the objects, the
      pointers between them, the messages, the timers, and the process as a
      transition system.  Frames.v, NoDangling.v, Commands.v, Settle.v: what
      is proved about it.  Payments.v, Platform.v: the tasks and the notices
      of the platform.  GameStart.v: how the server starts.
    Other servers
    - GateServer.v: user_manager.cpp, user_session.cpp, game_manager.cpp,
      game_client.cpp, login_client.cpp of src/gateserver.  Keepalive.v: the
      timers of its sessions, on top of Deadlines.v.  LoginServer.v:
      account_manager.cpp, gate_manager.cpp, gate_session.cpp,
      user_session.cpp, LGHttpManager.cpp of src/login.  Admission.v: both
      together, with the connections between them.  DbServer.v: db_quest.cpp,
      game_session.cpp, game_manager.cpp of src/databaseserver, on top of
      Database.v.
    Test client
    - VirtualClient.v: client.cpp, client_manager.cpp and the account lists of
      src/virtualclient, each robot with a connection of TcpClient.v.

    ** How code is modelled

    A method is a function with the method's name: of the state it changes
    (handlers in the monad of this file), or of its arguments.  Integers keep
    their width: [i32], [u16], [u32], [u64] wrap around, notations [+ᵢ], [-ᵢ],
    [*ᵢ].  Enumerations that the code fills by a cast stay integers.  What a
    server sends, logs or asks of the database is emitted as a list, in order.
    Following a null or freed pointer, and an assertion or exception, are
    values of the result ([Dangling], [Fault], [Throws], [Aborts]), never left
    out.  Threads are steps: one step is what a thread does between two
    accesses to data that another thread uses (Database.v, TcpServer.v,
    TcpClient.v, Pools.v, Payments.v).

    ** What is shown

    - Admission: a game server is only given users whom the login server
      verified, each once; messages reach the session of their user
      (Admission.v, GateServer.v, LoginServer.v).
    - The game process: sessions, heroes and registry stay linked one to one
      and no pointer dangles while the gates keep their protocol; commands
      need their level (NoDangling.v, Commands.v).
    - Money: a deal is paid once, for what was confirmed twice (HeroDeal.v,
      Payments.v); prices, prizes, lottery and spirit are exactly the
      configured ones (HeroShop.v, HeroDaily.v, HeroPlay.v, Settle.v).
    - Persistence: a saved hero is read back as the same hero and restored
      (HeroSave.v, HeroLoad.v); requests to the database server are answered
      once, from their own rows; tasks finish once, in order (DbServer.v,
      Database.v).
    - Invariants of data: the ranking, the promotions, the configuration
      tables, the records, the names (Rank.v, Promotion.v, Config.v,
      Record.v, Names.v).
    - The network: a connection is a FIFO channel whatever pieces a socket
      delivers, bounded and hostile input included; checksums and digests are
      the standard ones; connections that reuse a session are kept apart; a
      client can always be connected again, but has no voice after a failed
      write (Wire.v, Packet.v, Crc.v, Md5.v, TcpServer.v, TcpClient.v).
    - Silence: a gate closes a session once a minute after its last sign of
      life, and not before (Keepalive.v).
    - The process: events fire on time and never on a destroyed object
      (Timers.v); the loop hands out the time that passes and stops a server
      by the signal only (Loop.v); a game server stops when its heroes are
      saved, and only one of them (Stops.v); the servers of one centre find
      each other and start into the invariants above (Startup.v, GameStart.v);
      tasks run once, in order (Pools.v); a robot of the test client logs in
      once and goes to the gate it was told (VirtualClient.v).
    Where the code does not do what it means to, an [Example] next to the
    theorem runs the code into it.

    ** Fuel and bounds

    Recursion follows the data except in these places, each with a theorem
    that the fuel is enough: [generateName] tries 102 names, more than the
    101 heroes that can clash; the calls between promotions take at most
    [call_fuel] 5 steps; [print_d] and [split] take the length of the number
    or the text; the loops over received bytes ([read_loop], [parse_body],
    MD5 blocks) take the number of bytes; a pass over the timed events takes
    its events plus those that callbacks may add (a budget, since a callback
    that always adds an event that is due at once never lets the pass end).

    ** Parameters

    Code that is not in the repository is a parameter: MySQL rows and answers
    (class [DBRow], the events and outcomes of Database.v, the predicate [Q]
    of DbServer.v), protocol buffers (class [Protobuf], whose laws are that
    parsing undoes serialising and that type names are found again), jsoncpp
    and the platform's answers, the compression library ([CompressStrategy]:
    what it compresses it restores), [rand] and [random_shuffle] as given
    streams and permutations, the configuration files, the resolver and the
    sockets ([Env] of Startup.v), SHA-1 and the Base64 iterators of Boost, and
    what memory holds before it is written (WebSocket.v).  The object that [localtime] shares between
    its callers is an argument where the code keeps it.  The time zone is a fixed offset.  Callbacks of
    timed events are an arbitrary function on the heap.  Fields that the code
    leaves uninitialised start as arbitrary or, where nothing reads them
    before they are set, as zero.  Loops that erase from a map while they
    iterate take a flag for the two compilers' behaviour.  Boost.Asio appears
    as the completion handlers that are still to run.

    ** Not modelled

    Generated code (src/common/message), whose messages are records of Data.v;
    drivers and wrappers of libraries (MySQL++, curl, jsoncpp,
    log4cxx, crash dumps); the compression tasks, which nothing
    creates; the tables of message handlers that [main] fills and the log;
    the search for checksums of utilities.h, which nothing calls; the battle server, an unfinished
    prototype, but for its masks; accessors, and the templates that bind a
    method to its arguments; the Windows dialog of the test client and the
    curl test. *)
From Stdlib Require Export ZArith Lia String Ascii.
From stdpp Require Export base tactics list numbers strings option sorting.
From Stdlib Require Import ZArith.
#[global] Open Scope Z_scope.

(** ** Machine integers

    A C++ [int] is a [Z] in the 32-bit range; every arithmetic result is
    wrapped with [i32] (two's complement, the behaviour of the compilers the
    project builds with).  [u32], [u64] are the unsigned wrap-arounds. *)
Definition i32 (z : Z) : Z := (z + 2^31) mod 2^32 - 2^31.
Definition u8 (z : Z) : Z := z mod 2^8.
Definition u16 (z : Z) : Z := z mod 2^16.
Definition u32 (z : Z) : Z := z mod 2^32.
Definition u64 (z : Z) : Z := z mod 2^64.
Definition s64 (z : Z) : Z := (z + 2^63) mod 2^64 - 2^63.
Definition is_i32 (z : Z) : Prop := -2^31 <= z < 2^31.
Definition is_u32 (z : Z) : Prop := 0 <= z < 2^32.

Declare Scope cint_scope.
Delimit Scope cint_scope with cint.
Notation "a +ᵢ b" := (i32 (a + b)) (at level 50, left associativity) : cint_scope.
Notation "a -ᵢ b" := (i32 (a - b)) (at level 50, left associativity) : cint_scope.
Notation "a *ᵢ b" := (i32 (a * b)) (at level 40, left associativity) : cint_scope.
#[global] Open Scope cint_scope.

Lemma i32_id z : is_i32 z -> i32 z = z.
Proof.
  unfold is_i32, i32. intros H.
  rewrite Z.mod_small by lia. lia.
Qed.

Lemma i32_range z : is_i32 (i32 z).
Proof.
  unfold is_i32, i32.
  pose proof (Z.mod_pos_bound (z + 2^31) (2^32) ltac:(lia)). lia.
Qed.

Lemma u32_id z : is_u32 z -> u32 z = z.
Proof. unfold is_u32, u32. intros H. apply Z.mod_small. lia. Qed.

Lemma u32_range z : is_u32 (u32 z).
Proof. unfold is_u32, u32. apply Z.mod_pos_bound. lia. Qed.

Lemma i32_sub_nonneg a b : is_i32 a -> 0 <= b <= a -> a -ᵢ b = a - b.
Proof. unfold is_i32. intros. apply i32_id. unfold is_i32. lia. Qed.

(** Wrapped equations are linear up to multiples of 2^32. *)
Lemma i32_wraps z : exists k, i32 z = z + k * 2^32.
Proof.
  exists (- ((z + 2^31) / 2^32)). unfold i32.
  pose proof (Z.div_mod (z + 2^31) (2^32) ltac:(lia)). lia.
Qed.

Lemma i32_congr a b k : a = b + k * 2^32 -> i32 a = i32 b.
Proof. intros ->. unfold i32. f_equal. rewrite <- (Z.mod_add (b + 2^31) k (2^32)) by lia. f_equal. lia. Qed.

Lemma i32_eq_iff a b : i32 a = i32 b <-> exists k, a = b + k * 2^32.
Proof.
  split; [|intros [k Hk]; by eapply i32_congr].
  destruct (i32_wraps a) as [ka Ha], (i32_wraps b) as [kb Hb]. intros Heq.
  exists (kb - ka). lia.
Qed.

Lemma i32_eq_mod a b : (a - b) mod 2^32 = 0 -> i32 a = i32 b.
Proof.
  intros H. apply i32_congr with (k := (a - b) / 2^32).
  pose proof (Z.div_mod (a - b) (2^32) ltac:(lia)). lia.
Qed.

(** Equality of wrapped sums: expose the wrap-arounds and compare modulo 2^32. *)
Ltac i32_solve :=
  repeat match goal with
    | H : i32 _ = i32 _ |- _ => apply i32_eq_iff in H as [? H]
    end;
  lazymatch goal with
  | |- i32 _ = i32 _ => apply i32_eq_mod
  | |- _ => idtac
  end;
  repeat match goal with
    | |- context [i32 ?z] =>
        let k := fresh "k" in let H := fresh "Hk" in
        destruct (i32_wraps z) as [k H]; rewrite H in *; clear H
    end;
  Z.div_mod_to_equations; lia.

Create HintDb cint.
#[export] Hint Resolve i32_range u32_range : cint.

(** ** The handler monad

    A method of a C++ object is a state transformer; [None] is undefined
    behaviour of the C++ code (null dereference, out-of-range element access). *)
Definition M (S A : Type) : Type := S -> option (A * S).
Definition ret {S A} (a : A) : M S A := fun s => Some (a, s).
Definition ub {S A} : M S A := fun _ => None.
Definition bind {S A B} (m : M S A) (f : A -> M S B) : M S B :=
  fun s => match m s with Some (a, s') => f a s' | None => None end.
Definition gets {S A} (f : S -> A) : M S A := fun s => Some (f s, s).
Definition modify {S} (f : S -> S) : M S unit := fun s => Some (tt, f s).
Definition when {S} (b : bool) (m : M S unit) : M S unit := if b then m else ret tt.
Fixpoint mfor {S A} (l : list A) (f : A -> M S unit) : M S unit :=
  match l with
  | [] => ret tt
  | x :: l' => bind (f x) (fun _ => mfor l' f)
  end.

Declare Scope monad_scope.
Delimit Scope monad_scope with monad.
Notation "'let*' x := m 'in' k" := (bind m (fun x => k))
  (at level 10, x name, m at level 100, k at level 200) : monad_scope.
Notation "m ;;; k" := (bind m (fun _ => k))
  (at level 100, k at level 200, right associativity) : monad_scope.
#[global] Open Scope monad_scope.

(** Total-correctness weakest precondition: the code does not run into
    undefined behaviour and ends in a state that satisfies [Q]. *)
Definition wp {S A} (m : M S A) (Q : A -> S -> Prop) (s : S) : Prop :=
  match m s with Some (a, s') => Q a s' | None => False end.

Section WpRules.
Context {S : Type}.
Implicit Types s : S.

Lemma wp_ret {A} (a : A) Q s : Q a s -> wp (ret a) Q s.
Proof. done. Qed.

Lemma wp_bind {A B} (m : M S A) (f : A -> M S B) Q s :
  wp m (fun a s' => wp (f a) Q s') s -> wp (bind m f) Q s.
Proof. unfold wp, bind. by destruct (m s) as [[a s']|]. Qed.

Lemma wp_gets {A} (f : S -> A) Q s : Q (f s) s -> wp (gets f) Q s.
Proof. done. Qed.

Lemma wp_modify (f : S -> S) Q s : Q tt (f s) -> wp (modify f) Q s.
Proof. done. Qed.

Lemma wp_mono {A} (m : M S A) (Q R : A -> S -> Prop) s :
  wp m Q s -> (forall a s', Q a s' -> R a s') -> wp m R s.
Proof. unfold wp. destruct (m s) as [[a s']|]; [|done]. eauto. Qed.

Lemma wp_when b (m : M S unit) Q s :
  (b = true -> wp m Q s) -> (b = false -> Q tt s) -> wp (when b m) Q s.
Proof. destruct b; cbn; eauto using wp_ret. Qed.

Lemma wp_if {A} (b : bool) (m1 m2 : M S A) Q s :
  (b = true -> wp m1 Q s) -> (b = false -> wp m2 Q s) ->
  wp (if b then m1 else m2) Q s.
Proof. destruct b; eauto. Qed.

(** Loop rule: an invariant on the elements already processed. *)
Lemma wp_mfor {A} (I : list A -> S -> Prop) (f : A -> M S unit) l Q s :
  I [] s ->
  (forall done x rest s', l = done ++ x :: rest -> I done s' ->
      wp (f x) (fun _ s'' => I (done ++ [x]) s'') s') ->
  (forall s', I l s' -> Q tt s') ->
  wp (mfor l f) Q s.
Proof.
  intros H0 Hstep HQ.
  enough (Hgen : forall rest done s', l = done ++ rest -> I done s' ->
            wp (mfor rest f) (fun _ => I l) s').
  { eapply wp_mono; [by apply (Hgen l [] s)|]. intros [] s'. apply HQ. }
  induction rest as [|x rest IH]; intros done s' -> HI; cbn.
  - rewrite app_nil_r in *. by apply wp_ret.
  - apply wp_bind. eapply wp_mono; [by eapply Hstep|].
    intros [] s'' HI'. apply (IH (done ++ [x])); [|done]. by rewrite <- app_assoc.
Qed.

(** A total run agrees with its [wp]. *)
Lemma wp_run {A} (m : M S A) Q s a s' : m s = Some (a, s') -> wp m Q s -> Q a s'.
Proof. unfold wp. by intros ->. Qed.

Lemma wp_total {A} (m : M S A) Q s :
  wp m Q s -> exists a s', m s = Some (a, s') /\ Q a s'.
Proof. unfold wp. destruct (m s) as [[a s']|]; [eauto|done]. Qed.

Lemma wp_unit (m : M S unit) (Q : S -> Prop) s :
  wp m (fun _ s' => Q s') s -> exists s', m s = Some (tt, s') /\ Q s'.
Proof. intros ([] & s' & H)%wp_total. by exists s'. Qed.
End WpRules.

(** One step of symbolic execution of a handler. *)
Ltac wp_step :=
  lazymatch goal with
  | |- wp (bind _ _) _ _ => apply wp_bind
  | |- wp (ret _) _ _ => apply wp_ret
  | |- wp (gets _) _ _ => apply wp_gets
  | |- wp (modify _) _ _ => apply wp_modify
  | |- wp (when _ _) _ _ => apply wp_when; intros ?Hc
  | |- wp (if _ then _ else _) _ _ => apply wp_if; intros ?Hc
  end.
Ltac wp_run_all := repeat (wp_step; cbv beta).

(** Boolean tests of the code become propositions. *)
Ltac to_prop :=
  repeat match goal with
    | H : (_ && _)%bool = true |- _ => apply andb_prop in H as [? ?]
    | H : (_ || _)%bool = false |- _ => apply orb_false_elim in H as [? ?]
    | H : negb _ = true |- _ => apply negb_true_iff in H
    | H : negb _ = false |- _ => apply negb_false_iff in H
    | H : (_ <? _) = true |- _ => apply Z.ltb_lt in H
    | H : (_ <? _) = false |- _ => apply Z.ltb_ge in H
    | H : (_ <=? _) = true |- _ => apply Z.leb_le in H
    | H : (_ <=? _) = false |- _ => apply Z.leb_gt in H
    | H : (_ =? _) = true |- _ => apply Z.eqb_eq in H
    | H : (_ =? _) = false |- _ => apply Z.eqb_neq in H
    end.

(** ** Lists *)
Lemma nodup_fmap_inj {A B} (f : A -> B) (l : list A) x y :
  NoDup (f <$> l) -> x ∈ l -> y ∈ l -> f x = f y -> x = y.
Proof.
  induction l as [|z l IH]; intros Hnd Hx Hy Hf; [by apply elem_of_nil in Hx|].
  cbn in Hnd. apply NoDup_cons in Hnd as [Hz Hnd].
  apply elem_of_cons in Hx as [->|Hx], Hy as [->|Hy]; [done| | |by apply IH];
    exfalso; apply Hz; apply list_elem_of_fmap; eauto.
Qed.

Definition zsum (l : list Z) : Z := foldr Z.add 0 l.

Lemma zsum_app l1 l2 : zsum (l1 ++ l2) = zsum l1 + zsum l2.
Proof. induction l1 as [|x l IH]; [done|]. unfold zsum in *. cbn [app foldr]. lia. Qed.

(** A loop of wrapped additions is one wrapped sum. *)
Lemma fold_i32_sum {A} (f : A -> Z) (l : list A) : forall a,
  is_i32 a -> fold_left (fun g x => g +ᵢ f x) l a = i32 (a + zsum (map f l)).
Proof.
  induction l as [|x l IH]; intros a Ha; cbn [fold_left].
  - cbn. by rewrite Z.add_0_r, i32_id.
  - rewrite IH by apply i32_range.
    change (zsum (map f (x :: l))) with (f x + zsum (map f l)).
    generalize (zsum (map f l)). intros z. i32_solve.
Qed.

Lemma filter_ext_in {A} (P1 P2 : A -> Prop) `{!forall x, Decision (P1 x), !forall x, Decision (P2 x)}
    (l : list A) :
  (forall x, x ∈ l -> P1 x <-> P2 x) -> filter P1 l = filter P2 l.
Proof.
  induction l as [|x l IH]; intros Hiff; [done|].
  rewrite !filter_cons, IH by (intros y Hy; apply Hiff, elem_of_cons; by right).
  destruct (decide (P1 x)) as [H1|H1], (decide (P2 x)) as [H2|H2]; try done;
    exfalso; [apply H2|apply H1]; apply (Hiff x); try done; apply elem_of_cons; by left.
Qed.
