(* ===== verification/Float32.v ===== *)
(** * Single-precision arithmetic of the recharge promotion

    The paid-out amount of a deal is computed in C++ [float]s; they are the
    binary32 numbers of the Standard Library's [SpecFloat] (round to nearest
    even, no extended intermediate precision). *)
From S2P Require Import Prelude.
From Stdlib Require Import SpecFloat.

Definition float32 : Type := spec_float.

(** [(float)z] *)
Definition f32_of_int (z : Z) : float32 := binary_normalize 24 128 z 0 false.
Definition f32_add (a b : float32) : float32 := SFadd 24 128 a b.
Definition f32_mul (a b : float32) : float32 := SFmul 24 128 a b.
Definition f32_div (a b : float32) : float32 := SFdiv 24 128 a b.

(** [(int)x]: truncation toward zero, undefined outside of [int]. *)
Definition f32_to_int (x : float32) : option Z :=
  match x with
  | S754_zero _ => Some 0
  | S754_finite sx m e =>
      let mag := if e <? 0 then Zpos m / 2 ^ (- e) else Zpos m * 2 ^ e in
      let v := if sx then - mag else mag in
      if (-2^31 <=? v) && (v <? 2^31) then Some v else None
  | _ => None
  end.

(** [(float)ratting / (float)100 + 1] *)
Definition recharge_scale (ratting : Z) : float32 :=
  f32_add (f32_div (f32_of_int ratting) (f32_of_int 100)) (f32_of_int 1).

(** [add = (float)amount * scale], converted to [int]. *)
Definition recharge_amount (amount ratting : Z) : option Z :=
  f32_to_int (f32_mul (f32_of_int amount) (recharge_scale ratting)).

(** ** Without a promotion the amount is exact *)

(** Rounding leaves a full mantissa alone. *)
Lemma round_full sx m e :
  digits2_pos m = 24%positive -> -149 <= e <= 104 ->
  binary_round_aux 24 128 sx (Zpos m) e loc_Exact = S754_finite sx m e.
Proof.
  intros Hd He. unfold binary_round_aux, shr_fexp, Zdigits2, fexp, emin. rewrite Hd.
  replace (Z.max (24 + e - 24) (3 - 128 - 24) - e) with 0 by lia. cbn [shr shr_record_of_loc shr_m].
  cbn [loc_of_shr_record round_nearest_even Zdigits2]. rewrite Hd.
  replace (Z.max (24 + e - 24) (3 - 128 - 24) - e) with 0 by lia. cbn [shr shr_record_of_loc shr_m].
  rewrite (proj2 (Z.leb_le _ _)) by lia. done.
Qed.

Lemma digits_shift m d : digits2_pos (Pos.iter xO m d) = (digits2_pos m + d)%positive.
Proof.
  induction d as [|d IH] using Pos.peano_ind; [cbn; lia|].
  rewrite Pos.iter_succ. cbn. rewrite IH. lia.
Qed.

Lemma shift_value m d : Zpos (Pos.iter xO m d) = Zpos m * 2 ^ Zpos d.
Proof.
  induction d as [|d IH] using Pos.peano_ind; [cbn; lia|].
  rewrite Pos.iter_succ, Pos2Z.inj_xO, IH, Pos2Z.inj_succ, Z.pow_succ_r by lia. lia.
Qed.

(** The mantissa of an integer below 2^24, shifted to full width. *)
Lemma f32_of_small m : (digits2_pos m <= 24)%positive ->
  exists mz, f32_of_int (Zpos m) = S754_finite false mz (Zpos (digits2_pos m) - 24) /\
    digits2_pos mz = 24%positive /\ Zpos mz = Zpos m * 2 ^ (24 - Zpos (digits2_pos m)).
Proof.
  intros Hd. unfold f32_of_int, binary_normalize, binary_round, shl_align, fexp, emin.
  replace (Z.max (Zpos (digits2_pos m) + 0 - 24) (3 - 128 - 24) - 0) with (Zpos (digits2_pos m) - 24) by lia.
  destruct (Zpos (digits2_pos m) - 24) as [|p|p] eqn:E; [| lia |].
  - exists m. rewrite round_full by lia. split; [done|]. split; [lia|].
    replace (24 - Zpos (digits2_pos m)) with 0 by lia. lia.
  - exists (Pos.iter xO m p).
    assert (Hdz : digits2_pos (Pos.iter xO m p) = 24%positive) by (rewrite digits_shift; lia).
    replace (Z.max (Zpos (digits2_pos m) + 0 - 24) (3 - 128 - 24)) with (Z.neg p) by lia.
    rewrite round_full by lia. split; [done|]. split; [done|]. rewrite shift_value. do 2 f_equal. lia.
Qed.

Lemma recharge_scale_zero : recharge_scale 0 = S754_finite false 8388608 (-23).
Proof. vm_compute. reflexivity. Qed.

(** Multiplying by one shifts the mantissa out and back. *)
Lemma f32_mul_one m e : digits2_pos m = 24%positive -> -149 <= e <= 104 ->
  f32_mul (S754_finite false m e) (S754_finite false 8388608 (-23)) = S754_finite false m e.
Proof.
  intros Hd He. cbn [f32_mul SFmul xorb]. unfold f32_mul, SFmul. cbn [xorb].
  rewrite Pos.mul_comm. change (8388608 * m)%positive with (Pos.iter xO m 23).
  unfold binary_round_aux, shr_fexp at 1, Zdigits2, fexp, emin. rewrite digits_shift, Hd.
  replace (Z.max (Zpos (24 + 23) + (e + -23) - 24) (3 - 128 - 24) - (e + -23)) with 23 by lia.
  cbn -[Z.add Z.sub Z.leb shr_fexp]. replace (e + -23 + 23) with e by lia.
  unfold shr_fexp, Zdigits2, fexp, emin. rewrite Hd.
  replace (Z.max (24 + e - 24) (3 - 128 - 24) - e) with 0 by lia. cbn [shr shr_record_of_loc shr_m].
  by rewrite (proj2 (Z.leb_le _ _)) by lia.
Qed.

Lemma digits_bound m : Zpos m < 2 ^ 24 -> (digits2_pos m <= 24)%positive.
Proof.
  intros H. apply Pos.le_nlt. intros Hd.
  assert (Hlow : forall p, 2 ^ (Zpos (digits2_pos p) - 1) <= Zpos p).
  { induction p as [p IH|p IH|]; cbn [digits2_pos]; [| |done];
      rewrite Pos2Z.inj_succ; replace (Z.succ (Zpos (digits2_pos p)) - 1)
        with (Z.succ (Zpos (digits2_pos p) - 1)) by lia;
      rewrite Z.pow_succ_r by lia; lia. }
  specialize (Hlow m). assert (2 ^ 24 <= 2 ^ (Zpos (digits2_pos m) - 1)) by (apply Z.pow_le_mono_r; lia). lia.
Qed.

Lemma recharge_amount_exact amount : 0 <= amount < 2 ^ 24 -> recharge_amount amount 0 = Some amount.
Proof.
  intros Ha. unfold recharge_amount. rewrite recharge_scale_zero.
  destruct amount as [|m|m]; [done| |lia].
  pose proof (digits_bound m ltac:(lia)) as Hd.
  destruct (f32_of_small m Hd) as (mz & -> & Hdz & Hv).
  rewrite f32_mul_one by lia. cbn [f32_to_int].
  destruct (Z.ltb_spec (Zpos (digits2_pos m) - 24) 0).
  - replace (- (Zpos (digits2_pos m) - 24)) with (24 - Zpos (digits2_pos m)) by lia.
    rewrite Hv, Z.div_mul by (apply Z.pow_nonzero; lia).
    rewrite (proj2 (Z.leb_le _ _)), (proj2 (Z.ltb_lt _ _)) by lia. done.
  - replace (Zpos (digits2_pos m) - 24) with 0 by lia. replace (24 - Zpos (digits2_pos m)) with 0 in Hv by lia.
    rewrite Hv, !Z.pow_0_r, !Z.mul_1_r.
    rewrite (proj2 (Z.leb_le _ _)), (proj2 (Z.ltb_lt _ _)) by lia. done.
Qed.

(** A five percent promotion pays 104 for 100: 1.05 is rounded down and the
    product truncated. *)
Example five_percent_of_100 : recharge_amount 100 5 = Some 104.
Proof. vm_compute. reflexivity. Qed.
