(* ===== verification/StdMap.v ===== *)
(** * std::map and the containers of common/common_template.h

    [std::map] is a list of key/value pairs in ascending key order: the order
    is observable because the server iterates over its maps.  The key order
    is the class [StdLess] (the [std::less] of the key type). *)
From S2P Require Import Prelude.

(** [std::less<K>]: a strict total order on the keys. *)
Class StdLess (K : Type) := {
  kltb : K -> K -> bool;
  kltb_irrefl : forall k, kltb k k = false;
  kltb_trans : forall a b c, kltb a b = true -> kltb b c = true -> kltb a c = true;
  kltb_total : forall a b, kltb a b = false -> kltb b a = false -> a = b
}.

#[export] Instance Z_less : StdLess Z.
Proof.
  refine {| kltb := Z.ltb |}; intros; to_prop;
    try apply Z.ltb_lt; try apply Z.ltb_ge; to_prop; lia.
Defined.

(** [std::pair<int,int>] compares lexicographically. *)
Definition pair_ltb (a b : Z * Z) : bool :=
  (a.1 <? b.1) || ((a.1 =? b.1) && (a.2 <? b.2)).

#[export] Instance pair_less : StdLess (Z * Z).
Proof.
  refine {| kltb := pair_ltb |}; unfold pair_ltb.
  - intros [a b]; cbn. rewrite Z.ltb_irrefl, Z.eqb_refl, Z.ltb_irrefl. done.
  - intros [a b] [c d] [e f]; cbn. intros H1 H2.
    apply orb_true_iff in H1, H2. apply orb_true_iff.
    rewrite !andb_true_iff in *. rewrite !Z.ltb_lt, !Z.eqb_eq in *. lia.
  - intros [a b] [c d]; cbn. intros H1 H2.
    apply orb_false_iff in H1 as [H1 H1'], H2 as [H2 H2'].
    rewrite !andb_false_iff in *. rewrite !Z.ltb_ge, !Z.eqb_neq in *.
    f_equal; lia.
Defined.

Section Map.
Context {K V : Type} `{StdLess K}.
Implicit Types m : list (K * V).

Definition keqb (a b : K) : bool := negb (kltb a b) && negb (kltb b a).

(** [find]: the value stored under an equivalent key. *)
Fixpoint mfind (k : K) m : option V :=
  match m with
  | [] => None
  | (k', v) :: m' => if keqb k k' then Some v else mfind k m'
  end.

(** [m[k] = v]: overwrite, or insert at the ordered position. *)
Fixpoint mput (k : K) (v : V) m : list (K * V) :=
  match m with
  | [] => [(k, v)]
  | (k', v') :: m' =>
      if kltb k k' then (k, v) :: (k', v') :: m'
      else if kltb k' k then (k', v') :: mput k v m'
      else (k', v) :: m'
  end.

(** [m.insert(value_type(k, v))]: no effect when the key is present. *)
Definition minsert (k : K) (v : V) m : list (K * V) :=
  match mfind k m with Some _ => m | None => mput k v m end.

(** [m.erase(it)] for the iterator [it = m.find(k)]. *)
Fixpoint merase (k : K) m : list (K * V) :=
  match m with
  | [] => []
  | (k', v') :: m' => if keqb k k' then m' else (k', v') :: merase k m'
  end.

Definition mhas (k : K) m : bool := match mfind k m with Some _ => true | None => false end.

(** The representation invariant: strictly ascending keys. *)
Definition msorted m : Prop := StronglySorted (fun a b => kltb a b = true) m.*1.

Lemma keqb_eq a b : keqb a b = true <-> a = b.
Proof.
  unfold keqb. split.
  - intros Hk. to_prop. by apply kltb_total.
  - intros ->. by rewrite kltb_irrefl.
Qed.

Lemma keqb_refl a : keqb a a = true.
Proof. by apply keqb_eq. Qed.

Lemma keqb_neq a b : keqb a b = false <-> a <> b.
Proof. rewrite <- keqb_eq. destruct (keqb a b); split; congruence. Qed.

Lemma kltb_neq a b : kltb a b = true -> a <> b.
Proof. intros Hl ->. by rewrite kltb_irrefl in Hl. Qed.

Lemma mfind_put_eq k v m : mfind k (mput k v m) = Some v.
Proof.
  induction m as [|[k' v'] m IH]; cbn; [by rewrite keqb_refl|].
  destruct (kltb k k') eqn:E1; cbn; [by rewrite keqb_refl|].
  destruct (kltb k' k) eqn:E2; cbn.
  - by rewrite (proj2 (keqb_neq k k')) by (intros ->; by rewrite kltb_irrefl in E2).
  - by rewrite (proj2 (keqb_eq k k')) by (by apply kltb_total).
Qed.

Lemma mfind_put_ne k k2 v m : k <> k2 -> mfind k2 (mput k v m) = mfind k2 m.
Proof.
  intros Hne. induction m as [|[k' v'] m IH]; cbn.
  - by rewrite (proj2 (keqb_neq k2 k)) by done.
  - destruct (kltb k k') eqn:E1; cbn.
    { by rewrite (proj2 (keqb_neq k2 k)) by done. }
    destruct (kltb k' k) eqn:E2; cbn.
    { by rewrite IH. }
    assert (k = k') as -> by by apply kltb_total.
    by rewrite (proj2 (keqb_neq k2 k')) by done.
Qed.

Lemma mfind_put k k2 v m :
  mfind k2 (mput k v m) = if keqb k2 k then Some v else mfind k2 m.
Proof.
  destruct (keqb k2 k) eqn:E.
  - apply keqb_eq in E as ->. apply mfind_put_eq.
  - apply keqb_neq in E. by apply mfind_put_ne.
Qed.

Lemma mfind_insert_eq k v m :
  mfind k (minsert k v m) = match mfind k m with Some w => Some w | None => Some v end.
Proof. unfold minsert. destruct (mfind k m) eqn:E; [done|]. apply mfind_put_eq. Qed.

Lemma mfind_insert_ne k k2 v m : k <> k2 -> mfind k2 (minsert k v m) = mfind k2 m.
Proof. intros. unfold minsert. destruct (mfind k m); [done|]. by apply mfind_put_ne. Qed.

Lemma mfind_erase_ne k k2 m : k <> k2 -> mfind k2 (merase k m) = mfind k2 m.
Proof.
  intros Hne. induction m as [|[k' v'] m IH]; cbn; [done|].
  destruct (keqb k k') eqn:E; cbn.
  - apply keqb_eq in E as ->. by rewrite (proj2 (keqb_neq k2 k')) by done.
  - by rewrite IH.
Qed.

Lemma mfind_In k v m : mfind k m = Some v -> (k, v) ∈ m.
Proof.
  induction m as [|[k' v'] m IH]; cbn; [done|].
  destruct (keqb k k') eqn:E; intros Hf.
  - apply keqb_eq in E as ->. simplify_eq. left.
  - right. eauto.
Qed.

Lemma mfind_None_keys k m : mfind k m = None <-> k ∉ m.*1.
Proof.
  induction m as [|[k' v'] m IH]; cbn.
  - split; [intros _ Hin; by apply elem_of_nil in Hin|done].
  - destruct (keqb k k') eqn:E.
    + apply keqb_eq in E as ->. split; [done|]. intros Hn. exfalso. apply Hn. left.
    + apply keqb_neq in E. rewrite IH, not_elem_of_cons. tauto.
Qed.

Lemma msorted_NoDup m : msorted m -> NoDup m.*1.
Proof.
  unfold msorted. induction 1 as [|k l Hs IH Hall]; constructor; [|done].
  intros Hin. rewrite Forall_forall in Hall.
  specialize (Hall k Hin). cbn in Hall. by rewrite kltb_irrefl in Hall.
Qed.

Lemma mIn_find k v m : msorted m -> (k, v) ∈ m -> mfind k m = Some v.
Proof.
  intros Hs%msorted_NoDup. induction m as [|[k' v'] m IH]; cbn.
  - by intros ?%elem_of_nil.
  - inversion Hs as [|? ? Hn Hnd]; subst. intros [Heq|Hin]%elem_of_cons.
    + simplify_eq. by rewrite keqb_refl.
    + rewrite (proj2 (keqb_neq k k')); [eauto|].
      intros ->. apply Hn. apply list_elem_of_fmap. by exists (k', v).
Qed.

Lemma mput_keys k v m k2 : k2 ∈ (mput k v m).*1 <-> k2 = k \/ k2 ∈ m.*1.
Proof.
  induction m as [|[k' v'] m IH]; cbn.
  - rewrite list_elem_of_singleton. split; [by left|].
    intros [->|Hn]; [done|]. by apply elem_of_nil in Hn.
  - destruct (kltb k k') eqn:E1; cbn; [by rewrite !elem_of_cons|].
    destruct (kltb k' k) eqn:E2; cbn.
    + rewrite !elem_of_cons, IH. tauto.
    + assert (k = k') as -> by by apply kltb_total. rewrite !elem_of_cons. tauto.
Qed.

Lemma mput_sorted k v m : msorted m -> msorted (mput k v m).
Proof.
  unfold msorted. induction m as [|[k' v'] m IH]; cbn; intros Hs.
  { repeat constructor. }
  inversion Hs as [|? ? Hs' Hall]; subst.
  destruct (kltb k k') eqn:E1; cbn.
  { constructor; [done|]. constructor; [done|].
    eapply Forall_impl; [exact Hall|]. intros; eapply kltb_trans; eauto. }
  destruct (kltb k' k) eqn:E2; cbn.
  { constructor; [by apply IH|]. rewrite Forall_forall in *.
    intros x [->|Hx]%mput_keys; [done|]. by apply Hall. }
  assert (k = k') as -> by by apply kltb_total. done.
Qed.

Lemma merase_subset k m x : x ∈ (merase k m).*1 -> x ∈ m.*1.
Proof.
  induction m as [|[k' v'] m IH]; cbn; [done|].
  destruct (keqb k k'); cbn; rewrite ?elem_of_cons; tauto.
Qed.

Lemma merase_sorted k m : msorted m -> msorted (merase k m).
Proof.
  unfold msorted. induction m as [|[k' v'] m IH]; cbn; intros Hs; [done|].
  inversion Hs as [|? ? Hs' Hall]; subst.
  destruct (keqb k k') eqn:E; cbn; [done|].
  constructor; [by apply IH|]. rewrite Forall_forall in *.
  intros x Hx%merase_subset. by apply Hall.
Qed.

Lemma mfind_erase_eq k m : msorted m -> mfind k (merase k m) = None.
Proof.
  intros Hs. apply mfind_None_keys. intros Hin.
  apply msorted_NoDup in Hs.
  induction m as [|[k' v'] m IH]; cbn in *; [by apply elem_of_nil in Hin|].
  inversion Hs as [|? ? Hn Hnd]; subst.
  destruct (keqb k k') eqn:E; cbn in *.
  - by apply keqb_eq in E as ->.
  - apply keqb_neq in E. apply elem_of_cons in Hin as [->|Hin]; [done|]. by apply IH.
Qed.

Lemma minsert_sorted k v m : msorted m -> msorted (minsert k v m).
Proof. unfold minsert. destruct (mfind k m); auto using mput_sorted. Qed.

(** A table whose rows carry their own key. *)
Definition keyed (f : V -> K) m : Prop := msorted m /\ forall k v, mfind k m = Some v -> f v = k.

Lemma keyed_nil f : keyed f [].
Proof. split; [constructor|done]. Qed.

Lemma keyed_put f k v m : keyed f m -> f v = k -> keyed f (mput k v m).
Proof.
  intros [Hs Hk] Hv. split; [by apply mput_sorted|]. intros k2 v2. rewrite mfind_put.
  destruct (keqb k2 k) eqn:E; [|apply Hk]. apply keqb_eq in E as ->. by intros [= <-].
Qed.

Lemma keyed_insert f k v m : keyed f m -> f v = k -> keyed f (minsert k v m).
Proof. intros Hm Hv. unfold minsert. destruct (mfind k m); [done|by apply keyed_put]. Qed.

Lemma keyed_In f k v m : keyed f m -> (k, v) ∈ m -> f v = k /\ mfind k m = Some v.
Proof.
  intros [Hs Hk] Hin. assert (mfind k m = Some v) as Hf by (by apply mIn_find).
  split; [by apply Hk|done].
Qed.

(** The invariant of a concrete table, by evaluation. *)
Fixpoint keyed_check (f : V -> K) m : bool :=
  match m with
  | [] => true
  | (k, v) :: m' => keqb (f v) k && forallb (fun kv => kltb k kv.1) m' && keyed_check f m'
  end.

Lemma keyed_check_sound f m : keyed_check f m = true -> keyed f m.
Proof.
  induction m as [|[k v] m IH]; intros Hc; [apply keyed_nil|].
  cbn in Hc. apply andb_prop in Hc as [Hc Hm]. apply andb_prop in Hc as [Hv Hk].
  apply keqb_eq in Hv. destruct (IH Hm) as [Hs Hf]. split.
  - unfold msorted. cbn. constructor; [exact Hs|]. apply Forall_forall.
    intros x Hx. apply list_elem_of_fmap in Hx as (kv & -> & Hin).
    rewrite forallb_forall in Hk. by apply Hk, list_elem_of_In.
  - intros k' v'. cbn. destruct (keqb k' k) eqn:E; [|apply Hf].
    apply keqb_eq in E as ->. by intros [= <-].
Qed.

(** Filling a map: [insert] keeps the first row of a key, [[] =] the last. *)
Lemma mfind_fold_insert {A} (key : A -> K) (val : A -> V) (l : list A) k : forall m,
  mfind k (fold_left (fun m x => minsert (key x) (val x) m) l m)
  = match mfind k m with
    | Some v => Some v
    | None => val <$> find (fun x => keqb k (key x)) l
    end.
Proof.
  induction l as [|x l IH]; intros m; cbn; [by destruct (mfind k m)|].
  rewrite IH. destruct (keqb k (key x)) eqn:E.
  - apply keqb_eq in E as ->. rewrite mfind_insert_eq. by destruct (mfind (key x) m).
  - rewrite mfind_insert_ne; [done|]. intros He. subst k. by rewrite keqb_refl in E.
Qed.

(** Maps with the same lookups are equal. *)
Lemma msorted_ext m1 : forall m2, msorted m1 -> msorted m2 ->
  (forall k, mfind k m1 = mfind k m2) -> m1 = m2.
Proof.
  unfold msorted. induction m1 as [|[k1 v1] m1 IH]; intros [|[k2 v2] m2] Hs1 Hs2 Heq.
  - done.
  - specialize (Heq k2). cbn in Heq. by rewrite keqb_refl in Heq.
  - specialize (Heq k1). cbn in Heq. by rewrite keqb_refl in Heq.
  - inversion Hs1 as [|? ? Hs1' Ha1]; inversion Hs2 as [|? ? Hs2' Ha2]; subst.
    fold (fmap (M:=list) fst m1) in *; fold (fmap (M:=list) fst m2) in *.
    rewrite Forall_forall in Ha1, Ha2.
    assert (k1 = k2) as ->.
    { apply kltb_total.
      - destruct (kltb k1 k2) eqn:E; [|done]. exfalso.
        pose proof (Heq k1) as Hk. cbn in Hk. rewrite keqb_refl in Hk.
        rewrite (proj2 (keqb_neq k1 k2)) in Hk by by apply kltb_neq.
        symmetry in Hk. apply mfind_In in Hk.
        assert (k1 ∈ m2.*1) as Hin by (apply list_elem_of_fmap; by exists (k1, v1)).
        specialize (Ha2 _ Hin). eapply kltb_trans in Ha2; [|exact E].
        by rewrite kltb_irrefl in Ha2.
      - destruct (kltb k2 k1) eqn:E; [|done]. exfalso.
        pose proof (Heq k2) as Hk. cbn in Hk. rewrite keqb_refl in Hk.
        rewrite (proj2 (keqb_neq k2 k1)) in Hk by by apply kltb_neq.
        apply mfind_In in Hk.
        assert (k2 ∈ m1.*1) as Hin by (apply list_elem_of_fmap; by exists (k2, v2)).
        specialize (Ha1 _ Hin). eapply kltb_trans in Ha1; [|exact E].
        by rewrite kltb_irrefl in Ha1. }
    pose proof (Heq k2) as Hk. cbn in Hk. rewrite !keqb_refl in Hk. simplify_eq.
    f_equal. apply IH; try done. intros k.
    pose proof (Heq k) as Hk. cbn in Hk. destruct (keqb k k2) eqn:E; [|done].
    apply keqb_eq in E as ->.
    assert (Hno : forall m, (forall x, x ∈ m.*1 -> kltb k2 x = true) -> mfind k2 m = None).
    { intros m Hm. apply mfind_None_keys. intros Hin. specialize (Hm _ Hin).
      by rewrite kltb_irrefl in Hm. }
    by rewrite (Hno m1), (Hno m2).
Qed.

(** Inserting past the last key appends. *)
Lemma mput_last k v m : (forall x, x ∈ m.*1 -> kltb x k = true) -> mput k v m = m ++ [(k, v)].
Proof.
  induction m as [|[k' v'] m IH]; intros Hall; [done|]. cbn.
  assert (Hk : kltb k' k = true) by (apply Hall; by left).
  destruct (kltb k k') eqn:E.
  { pose proof (kltb_trans _ _ _ E Hk) as Hkk. by rewrite kltb_irrefl in Hkk. }
  rewrite Hk, IH; [done|]. intros x Hx. apply Hall. by right.
Qed.

Lemma mput_put k v v' m : mput k v (mput k v' m) = mput k v m.
Proof.
  induction m as [|[k1 v1] m IH]; cbn; [by rewrite kltb_irrefl|].
  destruct (kltb k k1) eqn:E1; cbn; [by rewrite kltb_irrefl|].
  destruct (kltb k1 k) eqn:E2; cbn; rewrite ?E1, ?E2; [by rewrite IH|done].
Qed.

Lemma mput_found k v m : msorted m -> mfind k m = Some v -> mput k v m = m.
Proof.
  unfold msorted. induction m as [|[k1 v1] m IH]; cbn; intros Hs Hf; [done|].
  inversion Hs as [|? ? Hs' Hall]; subst. destruct (keqb k k1) eqn:E.
  - apply keqb_eq in E as ->. injection Hf as ->. by rewrite kltb_irrefl.
  - assert (Hlt : kltb k1 k = true).
    { rewrite Forall_forall in Hall. apply Hall. apply list_elem_of_fmap. exists (k, v).
      split; [done|]. by apply mfind_In. }
    destruct (kltb k k1) eqn:E1.
    { pose proof (kltb_trans _ _ _ E1 Hlt) as Hx. by rewrite kltb_irrefl in Hx. }
    by rewrite Hlt, IH.
Qed.

Lemma mput_again k v v' m : (forall x, x ∈ m.*1 -> kltb x k = true) ->
  mput k v' (m ++ [(k, v)]) = m ++ [(k, v')].
Proof.
  induction m as [|[k1 v1] m IH]; intros Hall; cbn; [by rewrite kltb_irrefl|].
  assert (Hk : kltb k1 k = true) by (apply Hall; by left).
  destruct (kltb k k1) eqn:E.
  { pose proof (kltb_trans _ _ _ E Hk) as Hkk. by rewrite kltb_irrefl in Hkk. }
  rewrite Hk, IH; [done|]. intros x Hx. apply Hall. by right.
Qed.

Lemma msorted_app_lt m1 k v m2 x : msorted (m1 ++ (k, v) :: m2) -> x ∈ m1.*1 -> kltb x k = true.
Proof.
  induction m1 as [|[k' v'] m1 IH]; intros Hs Hx; [by apply elem_of_nil in Hx|].
  inversion Hs as [|? ? Hs' Hall]; subst. apply elem_of_cons in Hx as [->|Hx]; [|by apply IH].
  cbn. fold (fmap (M:=list) fst (m1 ++ (k, v) :: m2)) in Hall.
  rewrite Forall_forall in Hall. apply Hall. apply list_elem_of_fmap. exists (k, v). split; [done|].
  apply elem_of_app. right. by left.
Qed.

(** A map read back entry by entry, in order, is the same map. *)
Lemma fold_mput_sorted m2 : forall m1, msorted (m1 ++ m2) ->
  fold_left (fun m kv => mput kv.1 kv.2 m) m2 m1 = m1 ++ m2.
Proof.
  induction m2 as [|[k v] m2 IH]; intros m1 Hs; cbn; [by rewrite app_nil_r|].
  rewrite mput_last by (intros x; by apply (msorted_app_lt m1 k v m2)).
  rewrite IH by (by rewrite <- app_assoc). by rewrite <- app_assoc.
Qed.

Lemma msorted_filter (f : K * V -> bool) m : msorted m -> msorted (List.filter f m).
Proof.
  unfold msorted. induction m as [|kv m IH]; intros Hs; [constructor|]. cbn.
  inversion Hs as [|? ? Hs' Hall]; subst. destruct (f kv); [|by apply IH].
  constructor; [by apply IH|]. apply Forall_forall. intros x Hx.
  rewrite Forall_forall in Hall. apply Hall.
  apply list_elem_of_fmap in Hx as (kv' & -> & Hin). apply list_elem_of_fmap. exists kv'. split; [done|].
  apply list_elem_of_In, filter_In in Hin as [Hin _]. by apply list_elem_of_In.
Qed.
End Map.

Create HintDb stdmap.
#[export] Hint Resolve mput_sorted merase_sorted minsert_sorted : stdmap.
