(* ===== verification/Data.v ===== *)
(** * Messages and configuration tables

    The protocol messages of message/*.proto the game server builds and reads,
    and the configuration structures of gameserver/GameConfig.h.  Enum fields
    the code fills by casting a database integer stay integers ([Z]) with
    named constants.  Record setters are the generated [set_*] accessors. *)
From S2P Require Import Prelude.

(** message/dream_heroes.proto: [enum GameError]. *)
Inductive GameError :=
| Error_NO
| Error_CanNotEnterGameTheInstanceIsLock
| Error_CanNotEnterGameTheCharacterIsLock
| Error_CanNotEnterGameTheSectionIsLock
| Error_CanNotEnterGameNotEnoughSpirit
| Error_CanNotBuyHeroNotEnoughgold
| Error_CanNotPassGameTheInstanceNotHaveEnoughGold
| Error_NotEnterTheExitGame
| Error_NotFoundTheChapterWhenEnterGame
| Error_TheChapterIsNotLock
| Error_UnlockChapterFailedNotFoundTheUnlockChapter
| Error_UnlockChapterFailedTheRequiredSectionNotPass
| Error_UnlockChapterFailedYouHaveToCompleteEnoughTasks
| Error_UnlockChapterFailedYouNotHaveEnoughGold
| Error_RefreshAdvertisementTaskFailedInCD
| Error_RefreshAdvertisementTaskFailedNotFoundGiveUpTaskID
| Error_RefreshAdvertisementTaskFailedUnknow
| Error_RefreshAdvertisementTaskFailedNotEnoughGold
| Error_BuyHeroFailedNotEnoughGold
| Error_BuyHeroFailedThePriceIsOld
| Error_BuyHeroFailedNotFoundGrid
| Error_BuyHeroFailedNotPassRequiredSection
| Error_ModifyCurrentFailedTheCharacterIsLock
| Error_BuyGoldFailedNotFoundConfig
| Error_BuyGoldFailedNotFoundOrder
| Error_BuyGoldFailedTheOrderHaveBeenCompleted
| Error_CreateDealFailedTheHttpErrorRespone
| Error_CreateDealFailedTheHttpResponeFailed
| Error_CreateDealDailedTheHttpResponeErrorProduct_id
| Error_VerifyDealFailedTheHttpErrorRespone
| Error_VerifyDealFailedTheHttpResponeFailed
| Error_BuySpiritFailedNotEnoughJewel
| Error_BuySpiritFailedCanNotBuyMoreSpirit
| Error_BuySpiritFailedNotFoundConfig
| Error_CmdFailedRequiredGMLevel
| Error_ReliveFailedNotEnoughGod
| Error_FailedToBuyLotionNotEnoughGold
| Error_FailedToBuyLotionNotEnoughJewel
| Error_FailedToBuyLotionAlreadyHaveLotion
| Error_FailedToBuyNotFoundThisLotion
| Error_FailedExitGameNotFoundTheUseLotion
| Error_FailedToLotteryTodayHaveBeenLotteried
| Error_FailedToLotteryNothingCanBeLotteried
| Error_FailedToLotteryErrorRating
| Error_FailedToLotteryErrorLotionConfig
| Error_FailedToApplyDealOrderNotFooundConfig
| Error_FailedToEnterDailyGameYouHaveBeenAlreadyBeginGame
| Error_FailedToUpdateDailyProgressErrorProgress
| Error_FailedToUpdateDailyProgressTheGameNotBegin
| Error_FailedToUpdateDailyProgressNoHp
| Error_FailedToUpdateDailyProgressIsMaxProgress
| Error_FailedToReceivedDailyGamePrizeNOPrize
| Error_FailedToResetDailyGameNotEnoughJewel
| Error_FailedToResetDailyGameUseOut
| Error_FailedToResetDailyGameTheProgressIsZero
| Error_FailedToResetDailyGameTheTheHpIsFull
| Error_FailedToConcernWeiXinHaveBeenConcernedWeiXin
| Error_FailedToConcernWeiXinErrorCdkey
| Error_FailedToConcernWeiXinErrorCanNotConcernWeiXin
| Error_Unknow.

#[export] Instance GameError_eq_dec : EqDecision GameError.
Proof. solve_decision. Defined.

Definition err_ok (e : GameError) : bool := match e with Error_NO => true | _ => false end.

Lemma err_ok_true e : err_ok e = true <-> e = Error_NO.
Proof. destruct e; split; cbn; congruence. Qed.

(** message/common.proto *)
Record MsgIntPair := mkIntPair {
  number_1 : Z;
  number_2 : Z
}.

Definition set_number_1 (v : Z) (x : MsgIntPair) : MsgIntPair :=
  mkIntPair v (number_2 x).
Definition set_number_2 (v : Z) (x : MsgIntPair) : MsgIntPair :=
  mkIntPair (number_1 x) v.

Record MsgIntBoolPair := mkIntBoolPair {
  ib_number : Z;
  ib_valid : bool
}.

Record MsgObjConfig := mkObjConfig {
  obj_type : Z;
  obj_id : Z
}.

Record MsgDropBoxConfig := mkDropBox {
  db_obj : MsgObjConfig;
  db_base_gold : Z;
  db_random_gold : Z
}.

Record MsgTaskInfo := mkTaskInfo {
  taskid : Z;
  argument_1 : Z;
  usetime : Z
}.

Record MsgTaskConditionInfo := mkTaskCondition {
  tc_type : Z;
  tc_argument_1 : Z;
  tc_argument_2 : Z
}.

Record MsgTaskConfigInfo := mkTaskConfig {
  tk_taskid : Z;
  tk_condition : list MsgTaskConditionInfo;
  tk_require_time : Z;
  tk_require_chapter : Z;
  tk_require_section : Z;
  tk_require_complete_count : Z;
  tk_gift_gold : Z;
  tk_difficulty : Z;
  tk_describe : string
}.

Record MsgShopConfigInfo := mkShopConfig {
  sh_grid_id : Z;
  sh_hero_id : Z;
  sh_require_gold : Z;
  sh_cheape_gold : Z;
  sh_require_chapter_id : Z;
  sh_require_section_id : Z;
  sh_describe : string;
  sh_open : bool
}.

Definition set_sh_grid_id (v : Z) (x : MsgShopConfigInfo) : MsgShopConfigInfo :=
  mkShopConfig v
    (sh_hero_id x) (sh_require_gold x) (sh_cheape_gold x) (sh_require_chapter_id x)
    (sh_require_section_id x) (sh_describe x) (sh_open x).
Definition set_sh_hero_id (v : Z) (x : MsgShopConfigInfo) : MsgShopConfigInfo :=
  mkShopConfig
    (sh_grid_id x) v (sh_require_gold x) (sh_cheape_gold x) (sh_require_chapter_id x)
    (sh_require_section_id x) (sh_describe x) (sh_open x).
Definition set_sh_require_gold (v : Z) (x : MsgShopConfigInfo) : MsgShopConfigInfo :=
 
    mkShopConfig (sh_grid_id x) (sh_hero_id x) v (sh_cheape_gold x) (sh_require_chapter_id x)
    (sh_require_section_id x) (sh_describe x) (sh_open x).
Definition set_sh_cheape_gold (v : Z) (x : MsgShopConfigInfo) : MsgShopConfigInfo :=
 
    mkShopConfig (sh_grid_id x) (sh_hero_id x) (sh_require_gold x) v (sh_require_chapter_id x)
    (sh_require_section_id x) (sh_describe x) (sh_open x).
Definition set_sh_require_chapter_id (v : Z) (x : MsgShopConfigInfo) : MsgShopConfigInfo :=
 
    mkShopConfig (sh_grid_id x) (sh_hero_id x) (sh_require_gold x) (sh_cheape_gold x) v
    (sh_require_section_id x) (sh_describe x) (sh_open x).
Definition set_sh_require_section_id (v : Z) (x : MsgShopConfigInfo) : MsgShopConfigInfo :=
 
    mkShopConfig (sh_grid_id x) (sh_hero_id x) (sh_require_gold x) (sh_cheape_gold x)
    (sh_require_chapter_id x) v (sh_describe x) (sh_open x).
Definition set_sh_describe (v : string) (x : MsgShopConfigInfo) : MsgShopConfigInfo :=
 
    mkShopConfig (sh_grid_id x) (sh_hero_id x) (sh_require_gold x) (sh_cheape_gold x)
    (sh_require_chapter_id x) (sh_require_section_id x) v (sh_open x).
Definition set_sh_open (v : bool) (x : MsgShopConfigInfo) : MsgShopConfigInfo :=
  mkShopConfig
    (sh_grid_id x) (sh_hero_id x) (sh_require_gold x) (sh_cheape_gold x) (sh_require_chapter_id
    x) (sh_require_section_id x) (sh_describe x) v.

Record MsgChapterConfigInfo := mkChapterConfig {
  ch_chapter_id : Z;
  ch_required_chapter_id : Z;
  ch_required_section_id : Z;
  ch_required_task_complete_count : Z;
  ch_require_gold : Z;
  ch_max_section_count : Z;
  ch_describe : string
}.

(** [money] is a float the server only copies: its 32-bit pattern. *)
Record MsgGoldShopConfigInfo := mkGoldShop {
  gs_id : Z;
  gs_resource_id : Z;
  gs_gold : Z;
  gs_money_bits : Z;
  gs_describe : string;
  gs_jewel : Z;
  gs_product_id : string
}.

(** [MsgHeroData]: the part of a hero the client sees. *)
Record MsgHeroData := mkHeroData {
  hd_name : string;
  hd_gold : Z;
  hd_records : list MsgIntPair;
  hd_heroes : list bool;
  hd_tasks : list MsgTaskInfo;
  hd_current_hero : Z;
  hd_complete_task_count : Z;
  hd_new_tutorial : Z;
  hd_jewel : Z;
  hd_spirit : Z;
  hd_day_buy_spirit : Z;
  hd_lotions : list Z;
  hd_daily_game_progress : Z;
  hd_daily_game_gold : Z;
  hd_daily_game_score : Z;
  hd_daily_game_hp_pct : Z;
  hd_daily_game_record_progress : Z;
  hd_daily_reset_game_count : Z;
  hd_daily_top_grogress : Z;
  hd_daily_game_anger : Z;
  hd_concern_weixin : bool;
  hd_grid_notify_state : list MsgIntBoolPair
}.

Definition set_hd_name (v : string) (x : MsgHeroData) : MsgHeroData :=
  mkHeroData v (hd_gold x)
    (hd_records x) (hd_heroes x) (hd_tasks x) (hd_current_hero x) (hd_complete_task_count x)
    (hd_new_tutorial x) (hd_jewel x) (hd_spirit x) (hd_day_buy_spirit x) (hd_lotions x)
    (hd_daily_game_progress x) (hd_daily_game_gold x) (hd_daily_game_score x)
    (hd_daily_game_hp_pct x) (hd_daily_game_record_progress x) (hd_daily_reset_game_count x)
    (hd_daily_top_grogress x) (hd_daily_game_anger x) (hd_concern_weixin x) (hd_grid_notify_state
    x).
Definition set_hd_gold (v : Z) (x : MsgHeroData) : MsgHeroData :=
  mkHeroData (hd_name x) v
    (hd_records x) (hd_heroes x) (hd_tasks x) (hd_current_hero x) (hd_complete_task_count x)
    (hd_new_tutorial x) (hd_jewel x) (hd_spirit x) (hd_day_buy_spirit x) (hd_lotions x)
    (hd_daily_game_progress x) (hd_daily_game_gold x) (hd_daily_game_score x)
    (hd_daily_game_hp_pct x) (hd_daily_game_record_progress x) (hd_daily_reset_game_count x)
    (hd_daily_top_grogress x) (hd_daily_game_anger x) (hd_concern_weixin x) (hd_grid_notify_state
    x).
Definition set_hd_records (v : list MsgIntPair) (x : MsgHeroData) : MsgHeroData :=
  mkHeroData
    (hd_name x) (hd_gold x) v (hd_heroes x) (hd_tasks x) (hd_current_hero x)
    (hd_complete_task_count x) (hd_new_tutorial x) (hd_jewel x) (hd_spirit x) (hd_day_buy_spirit
    x) (hd_lotions x) (hd_daily_game_progress x) (hd_daily_game_gold x) (hd_daily_game_score x)
    (hd_daily_game_hp_pct x) (hd_daily_game_record_progress x) (hd_daily_reset_game_count x)
    (hd_daily_top_grogress x) (hd_daily_game_anger x) (hd_concern_weixin x) (hd_grid_notify_state
    x).
Definition set_hd_heroes (v : list bool) (x : MsgHeroData) : MsgHeroData :=
  mkHeroData (hd_name
    x) (hd_gold x) (hd_records x) v (hd_tasks x) (hd_current_hero x) (hd_complete_task_count x)
    (hd_new_tutorial x) (hd_jewel x) (hd_spirit x) (hd_day_buy_spirit x) (hd_lotions x)
    (hd_daily_game_progress x) (hd_daily_game_gold x) (hd_daily_game_score x)
    (hd_daily_game_hp_pct x) (hd_daily_game_record_progress x) (hd_daily_reset_game_count x)
    (hd_daily_top_grogress x) (hd_daily_game_anger x) (hd_concern_weixin x) (hd_grid_notify_state
    x).
Definition set_hd_tasks (v : list MsgTaskInfo) (x : MsgHeroData) : MsgHeroData :=
  mkHeroData
    (hd_name x) (hd_gold x) (hd_records x) (hd_heroes x) v (hd_current_hero x)
    (hd_complete_task_count x) (hd_new_tutorial x) (hd_jewel x) (hd_spirit x) (hd_day_buy_spirit
    x) (hd_lotions x) (hd_daily_game_progress x) (hd_daily_game_gold x) (hd_daily_game_score x)
    (hd_daily_game_hp_pct x) (hd_daily_game_record_progress x) (hd_daily_reset_game_count x)
    (hd_daily_top_grogress x) (hd_daily_game_anger x) (hd_concern_weixin x) (hd_grid_notify_state
    x).
Definition set_hd_current_hero (v : Z) (x : MsgHeroData) : MsgHeroData :=
  mkHeroData (hd_name
    x) (hd_gold x) (hd_records x) (hd_heroes x) (hd_tasks x) v (hd_complete_task_count x)
    (hd_new_tutorial x) (hd_jewel x) (hd_spirit x) (hd_day_buy_spirit x) (hd_lotions x)
    (hd_daily_game_progress x) (hd_daily_game_gold x) (hd_daily_game_score x)
    (hd_daily_game_hp_pct x) (hd_daily_game_record_progress x) (hd_daily_reset_game_count x)
    (hd_daily_top_grogress x) (hd_daily_game_anger x) (hd_concern_weixin x) (hd_grid_notify_state
    x).
Definition set_hd_complete_task_count (v : Z) (x : MsgHeroData) : MsgHeroData :=
  mkHeroData
    (hd_name x) (hd_gold x) (hd_records x) (hd_heroes x) (hd_tasks x) (hd_current_hero x) v
    (hd_new_tutorial x) (hd_jewel x) (hd_spirit x) (hd_day_buy_spirit x) (hd_lotions x)
    (hd_daily_game_progress x) (hd_daily_game_gold x) (hd_daily_game_score x)
    (hd_daily_game_hp_pct x) (hd_daily_game_record_progress x) (hd_daily_reset_game_count x)
    (hd_daily_top_grogress x) (hd_daily_game_anger x) (hd_concern_weixin x) (hd_grid_notify_state
    x).
Definition set_hd_new_tutorial (v : Z) (x : MsgHeroData) : MsgHeroData :=
  mkHeroData (hd_name
    x) (hd_gold x) (hd_records x) (hd_heroes x) (hd_tasks x) (hd_current_hero x)
    (hd_complete_task_count x) v (hd_jewel x) (hd_spirit x) (hd_day_buy_spirit x) (hd_lotions x)
    (hd_daily_game_progress x) (hd_daily_game_gold x) (hd_daily_game_score x)
    (hd_daily_game_hp_pct x) (hd_daily_game_record_progress x) (hd_daily_reset_game_count x)
    (hd_daily_top_grogress x) (hd_daily_game_anger x) (hd_concern_weixin x) (hd_grid_notify_state
    x).
Definition set_hd_jewel (v : Z) (x : MsgHeroData) : MsgHeroData :=
  mkHeroData (hd_name x)
    (hd_gold x) (hd_records x) (hd_heroes x) (hd_tasks x) (hd_current_hero x)
    (hd_complete_task_count x) (hd_new_tutorial x) v (hd_spirit x) (hd_day_buy_spirit x)
    (hd_lotions x) (hd_daily_game_progress x) (hd_daily_game_gold x) (hd_daily_game_score x)
    (hd_daily_game_hp_pct x) (hd_daily_game_record_progress x) (hd_daily_reset_game_count x)
    (hd_daily_top_grogress x) (hd_daily_game_anger x) (hd_concern_weixin x) (hd_grid_notify_state
    x).
Definition set_hd_spirit (v : Z) (x : MsgHeroData) : MsgHeroData :=
  mkHeroData (hd_name x)
    (hd_gold x) (hd_records x) (hd_heroes x) (hd_tasks x) (hd_current_hero x)
    (hd_complete_task_count x) (hd_new_tutorial x) (hd_jewel x) v (hd_day_buy_spirit x)
    (hd_lotions x) (hd_daily_game_progress x) (hd_daily_game_gold x) (hd_daily_game_score x)
    (hd_daily_game_hp_pct x) (hd_daily_game_record_progress x) (hd_daily_reset_game_count x)
    (hd_daily_top_grogress x) (hd_daily_game_anger x) (hd_concern_weixin x) (hd_grid_notify_state
    x).
Definition set_hd_day_buy_spirit (v : Z) (x : MsgHeroData) : MsgHeroData :=
  mkHeroData (hd_name
    x) (hd_gold x) (hd_records x) (hd_heroes x) (hd_tasks x) (hd_current_hero x)
    (hd_complete_task_count x) (hd_new_tutorial x) (hd_jewel x) (hd_spirit x) v (hd_lotions x)
    (hd_daily_game_progress x) (hd_daily_game_gold x) (hd_daily_game_score x)
    (hd_daily_game_hp_pct x) (hd_daily_game_record_progress x) (hd_daily_reset_game_count x)
    (hd_daily_top_grogress x) (hd_daily_game_anger x) (hd_concern_weixin x) (hd_grid_notify_state
    x).
Definition set_hd_lotions (v : list Z) (x : MsgHeroData) : MsgHeroData :=
  mkHeroData (hd_name
    x) (hd_gold x) (hd_records x) (hd_heroes x) (hd_tasks x) (hd_current_hero x)
    (hd_complete_task_count x) (hd_new_tutorial x) (hd_jewel x) (hd_spirit x) (hd_day_buy_spirit
    x) v (hd_daily_game_progress x) (hd_daily_game_gold x) (hd_daily_game_score x)
    (hd_daily_game_hp_pct x) (hd_daily_game_record_progress x) (hd_daily_reset_game_count x)
    (hd_daily_top_grogress x) (hd_daily_game_anger x) (hd_concern_weixin x) (hd_grid_notify_state
    x).
Definition set_hd_daily_game_progress (v : Z) (x : MsgHeroData) : MsgHeroData :=
  mkHeroData
    (hd_name x) (hd_gold x) (hd_records x) (hd_heroes x) (hd_tasks x) (hd_current_hero x)
    (hd_complete_task_count x) (hd_new_tutorial x) (hd_jewel x) (hd_spirit x) (hd_day_buy_spirit
    x) (hd_lotions x) v (hd_daily_game_gold x) (hd_daily_game_score x) (hd_daily_game_hp_pct x)
    (hd_daily_game_record_progress x) (hd_daily_reset_game_count x) (hd_daily_top_grogress x)
    (hd_daily_game_anger x) (hd_concern_weixin x) (hd_grid_notify_state x).
Definition set_hd_daily_game_gold (v : Z) (x : MsgHeroData) : MsgHeroData :=
  mkHeroData
    (hd_name x) (hd_gold x) (hd_records x) (hd_heroes x) (hd_tasks x) (hd_current_hero x)
    (hd_complete_task_count x) (hd_new_tutorial x) (hd_jewel x) (hd_spirit x) (hd_day_buy_spirit
    x) (hd_lotions x) (hd_daily_game_progress x) v (hd_daily_game_score x) (hd_daily_game_hp_pct
    x) (hd_daily_game_record_progress x) (hd_daily_reset_game_count x) (hd_daily_top_grogress x)
    (hd_daily_game_anger x) (hd_concern_weixin x) (hd_grid_notify_state x).
Definition set_hd_daily_game_score (v : Z) (x : MsgHeroData) : MsgHeroData :=
  mkHeroData
    (hd_name x) (hd_gold x) (hd_records x) (hd_heroes x) (hd_tasks x) (hd_current_hero x)
    (hd_complete_task_count x) (hd_new_tutorial x) (hd_jewel x) (hd_spirit x) (hd_day_buy_spirit
    x) (hd_lotions x) (hd_daily_game_progress x) (hd_daily_game_gold x) v (hd_daily_game_hp_pct
    x) (hd_daily_game_record_progress x) (hd_daily_reset_game_count x) (hd_daily_top_grogress x)
    (hd_daily_game_anger x) (hd_concern_weixin x) (hd_grid_notify_state x).
Definition set_hd_daily_game_hp_pct (v : Z) (x : MsgHeroData) : MsgHeroData :=
  mkHeroData
    (hd_name x) (hd_gold x) (hd_records x) (hd_heroes x) (hd_tasks x) (hd_current_hero x)
    (hd_complete_task_count x) (hd_new_tutorial x) (hd_jewel x) (hd_spirit x) (hd_day_buy_spirit
    x) (hd_lotions x) (hd_daily_game_progress x) (hd_daily_game_gold x) (hd_daily_game_score x) v
    (hd_daily_game_record_progress x) (hd_daily_reset_game_count x) (hd_daily_top_grogress x)
    (hd_daily_game_anger x) (hd_concern_weixin x) (hd_grid_notify_state x).
Definition set_hd_daily_game_record_progress (v : Z) (x : MsgHeroData) : MsgHeroData :=
 
    mkHeroData (hd_name x) (hd_gold x) (hd_records x) (hd_heroes x) (hd_tasks x) (hd_current_hero
    x) (hd_complete_task_count x) (hd_new_tutorial x) (hd_jewel x) (hd_spirit x)
    (hd_day_buy_spirit x) (hd_lotions x) (hd_daily_game_progress x) (hd_daily_game_gold x)
    (hd_daily_game_score x) (hd_daily_game_hp_pct x) v (hd_daily_reset_game_count x)
    (hd_daily_top_grogress x) (hd_daily_game_anger x) (hd_concern_weixin x) (hd_grid_notify_state
    x).
Definition set_hd_daily_reset_game_count (v : Z) (x : MsgHeroData) : MsgHeroData :=
  mkHeroData
    (hd_name x) (hd_gold x) (hd_records x) (hd_heroes x) (hd_tasks x) (hd_current_hero x)
    (hd_complete_task_count x) (hd_new_tutorial x) (hd_jewel x) (hd_spirit x) (hd_day_buy_spirit
    x) (hd_lotions x) (hd_daily_game_progress x) (hd_daily_game_gold x) (hd_daily_game_score x)
    (hd_daily_game_hp_pct x) (hd_daily_game_record_progress x) v (hd_daily_top_grogress x)
    (hd_daily_game_anger x) (hd_concern_weixin x) (hd_grid_notify_state x).
Definition set_hd_daily_top_grogress (v : Z) (x : MsgHeroData) : MsgHeroData :=
  mkHeroData
    (hd_name x) (hd_gold x) (hd_records x) (hd_heroes x) (hd_tasks x) (hd_current_hero x)
    (hd_complete_task_count x) (hd_new_tutorial x) (hd_jewel x) (hd_spirit x) (hd_day_buy_spirit
    x) (hd_lotions x) (hd_daily_game_progress x) (hd_daily_game_gold x) (hd_daily_game_score x)
    (hd_daily_game_hp_pct x) (hd_daily_game_record_progress x) (hd_daily_reset_game_count x) v
    (hd_daily_game_anger x) (hd_concern_weixin x) (hd_grid_notify_state x).
Definition set_hd_daily_game_anger (v : Z) (x : MsgHeroData) : MsgHeroData :=
  mkHeroData
    (hd_name x) (hd_gold x) (hd_records x) (hd_heroes x) (hd_tasks x) (hd_current_hero x)
    (hd_complete_task_count x) (hd_new_tutorial x) (hd_jewel x) (hd_spirit x) (hd_day_buy_spirit
    x) (hd_lotions x) (hd_daily_game_progress x) (hd_daily_game_gold x) (hd_daily_game_score x)
    (hd_daily_game_hp_pct x) (hd_daily_game_record_progress x) (hd_daily_reset_game_count x)
    (hd_daily_top_grogress x) v (hd_concern_weixin x) (hd_grid_notify_state x).
Definition set_hd_concern_weixin (v : bool) (x : MsgHeroData) : MsgHeroData :=
  mkHeroData
    (hd_name x) (hd_gold x) (hd_records x) (hd_heroes x) (hd_tasks x) (hd_current_hero x)
    (hd_complete_task_count x) (hd_new_tutorial x) (hd_jewel x) (hd_spirit x) (hd_day_buy_spirit
    x) (hd_lotions x) (hd_daily_game_progress x) (hd_daily_game_gold x) (hd_daily_game_score x)
    (hd_daily_game_hp_pct x) (hd_daily_game_record_progress x) (hd_daily_reset_game_count x)
    (hd_daily_top_grogress x) (hd_daily_game_anger x) v (hd_grid_notify_state x).
Definition set_hd_grid_notify_state (v : list MsgIntBoolPair) (x : MsgHeroData) : MsgHeroData :=

     mkHeroData (hd_name x) (hd_gold x) (hd_records x) (hd_heroes x) (hd_tasks x)
    (hd_current_hero x) (hd_complete_task_count x) (hd_new_tutorial x) (hd_jewel x) (hd_spirit x)
    (hd_day_buy_spirit x) (hd_lotions x) (hd_daily_game_progress x) (hd_daily_game_gold x)
    (hd_daily_game_score x) (hd_daily_game_hp_pct x) (hd_daily_game_record_progress x)
    (hd_daily_reset_game_count x) (hd_daily_top_grogress x) (hd_daily_game_anger x)
    (hd_concern_weixin x) v.

(** message/dream_heroes.proto *)
Record MsgSpiritShopInfo := mkSpiritShop {
  ss_index : Z;
  ss_spirit : Z;
  ss_need_jewel : Z;
  ss_resource_id : Z;
  ss_describe : string
}.

Definition LotionUseType_gold : Z := 1.
Definition LotionUseType_jewel : Z := 2.

Record MsgLotionShopConfigInfo := mkLotionShop {
  ls_lotion_id : Z;
  ls_use_type : Z;
  ls_use_count : Z;
  ls_resource_id : Z;
  ls_big_resource_id : Z;
  ls_describe : string;
  ls_name : string;
  ls_spell_id : Z
}.

(** [enum enLotteryBox] *)
Definition Lottery_Jewel : Z := 0.
Definition Lottery_Gold : Z := 1.
Definition Lottery_Lotion : Z := 2.

(** gameserver/GameConfig.h *)
Record globalConfig := mkGlobalConfig {
  config_gold_ : Z;
  hero_unlock_count_ : Z;
  day_Refresh_time_ : Z;
  day_free_task_count_ : Z;
  day_task_advertisement_task_cd_ : Z;
  hero_max_tasks_count_ : Z;
  channel_id_ : Z;
  game_id_ : Z;
  refresh_task_gold_ : Z;
  relive_gold_ : Z;
  config_max_spirit_ : Z;
  config_jewel_ : Z;
  config_recover_spirit_minute_ : Z;
  config_recover_spirit_ : Z;
  config_enter_game_use_spirit_ : Z;
  config_day_buy_spirit_ : Z;
  config_weixin_gold : Z;
  daily_game_record_config_ : list Z;
  daily_game_reset_jewel_config_ : list Z;
  config_weixin_cd_key : string
}.

Definition set_config_gold_ (v : Z) (x : globalConfig) : globalConfig :=
  mkGlobalConfig v
    (hero_unlock_count_ x) (day_Refresh_time_ x) (day_free_task_count_ x)
    (day_task_advertisement_task_cd_ x) (hero_max_tasks_count_ x) (channel_id_ x) (game_id_ x)
    (refresh_task_gold_ x) (relive_gold_ x) (config_max_spirit_ x) (config_jewel_ x)
    (config_recover_spirit_minute_ x) (config_recover_spirit_ x) (config_enter_game_use_spirit_
    x) (config_day_buy_spirit_ x) (config_weixin_gold x) (daily_game_record_config_ x)
    (daily_game_reset_jewel_config_ x) (config_weixin_cd_key x).
Definition set_hero_unlock_count_ (v : Z) (x : globalConfig) : globalConfig :=
  mkGlobalConfig
    (config_gold_ x) v (day_Refresh_time_ x) (day_free_task_count_ x)
    (day_task_advertisement_task_cd_ x) (hero_max_tasks_count_ x) (channel_id_ x) (game_id_ x)
    (refresh_task_gold_ x) (relive_gold_ x) (config_max_spirit_ x) (config_jewel_ x)
    (config_recover_spirit_minute_ x) (config_recover_spirit_ x) (config_enter_game_use_spirit_
    x) (config_day_buy_spirit_ x) (config_weixin_gold x) (daily_game_record_config_ x)
    (daily_game_reset_jewel_config_ x) (config_weixin_cd_key x).
Definition set_day_Refresh_time_ (v : Z) (x : globalConfig) : globalConfig :=
  mkGlobalConfig
    (config_gold_ x) (hero_unlock_count_ x) v (day_free_task_count_ x)
    (day_task_advertisement_task_cd_ x) (hero_max_tasks_count_ x) (channel_id_ x) (game_id_ x)
    (refresh_task_gold_ x) (relive_gold_ x) (config_max_spirit_ x) (config_jewel_ x)
    (config_recover_spirit_minute_ x) (config_recover_spirit_ x) (config_enter_game_use_spirit_
    x) (config_day_buy_spirit_ x) (config_weixin_gold x) (daily_game_record_config_ x)
    (daily_game_reset_jewel_config_ x) (config_weixin_cd_key x).
Definition set_day_free_task_count_ (v : Z) (x : globalConfig) : globalConfig :=
  mkGlobalConfig
    (config_gold_ x) (hero_unlock_count_ x) (day_Refresh_time_ x) v
    (day_task_advertisement_task_cd_ x) (hero_max_tasks_count_ x) (channel_id_ x) (game_id_ x)
    (refresh_task_gold_ x) (relive_gold_ x) (config_max_spirit_ x) (config_jewel_ x)
    (config_recover_spirit_minute_ x) (config_recover_spirit_ x) (config_enter_game_use_spirit_
    x) (config_day_buy_spirit_ x) (config_weixin_gold x) (daily_game_record_config_ x)
    (daily_game_reset_jewel_config_ x) (config_weixin_cd_key x).
Definition set_day_task_advertisement_task_cd_ (v : Z) (x : globalConfig) : globalConfig :=
 
    mkGlobalConfig (config_gold_ x) (hero_unlock_count_ x) (day_Refresh_time_ x)
    (day_free_task_count_ x) v (hero_max_tasks_count_ x) (channel_id_ x) (game_id_ x)
    (refresh_task_gold_ x) (relive_gold_ x) (config_max_spirit_ x) (config_jewel_ x)
    (config_recover_spirit_minute_ x) (config_recover_spirit_ x) (config_enter_game_use_spirit_
    x) (config_day_buy_spirit_ x) (config_weixin_gold x) (daily_game_record_config_ x)
    (daily_game_reset_jewel_config_ x) (config_weixin_cd_key x).
Definition set_hero_max_tasks_count_ (v : Z) (x : globalConfig) : globalConfig :=
 
    mkGlobalConfig (config_gold_ x) (hero_unlock_count_ x) (day_Refresh_time_ x)
    (day_free_task_count_ x) (day_task_advertisement_task_cd_ x) v (channel_id_ x) (game_id_ x)
    (refresh_task_gold_ x) (relive_gold_ x) (config_max_spirit_ x) (config_jewel_ x)
    (config_recover_spirit_minute_ x) (config_recover_spirit_ x) (config_enter_game_use_spirit_
    x) (config_day_buy_spirit_ x) (config_weixin_gold x) (daily_game_record_config_ x)
    (daily_game_reset_jewel_config_ x) (config_weixin_cd_key x).
Definition set_channel_id_ (v : Z) (x : globalConfig) : globalConfig :=
  mkGlobalConfig
    (config_gold_ x) (hero_unlock_count_ x) (day_Refresh_time_ x) (day_free_task_count_ x)
    (day_task_advertisement_task_cd_ x) (hero_max_tasks_count_ x) v (game_id_ x)
    (refresh_task_gold_ x) (relive_gold_ x) (config_max_spirit_ x) (config_jewel_ x)
    (config_recover_spirit_minute_ x) (config_recover_spirit_ x) (config_enter_game_use_spirit_
    x) (config_day_buy_spirit_ x) (config_weixin_gold x) (daily_game_record_config_ x)
    (daily_game_reset_jewel_config_ x) (config_weixin_cd_key x).
Definition set_game_id_ (v : Z) (x : globalConfig) : globalConfig :=
  mkGlobalConfig
    (config_gold_ x) (hero_unlock_count_ x) (day_Refresh_time_ x) (day_free_task_count_ x)
    (day_task_advertisement_task_cd_ x) (hero_max_tasks_count_ x) (channel_id_ x) v
    (refresh_task_gold_ x) (relive_gold_ x) (config_max_spirit_ x) (config_jewel_ x)
    (config_recover_spirit_minute_ x) (config_recover_spirit_ x) (config_enter_game_use_spirit_
    x) (config_day_buy_spirit_ x) (config_weixin_gold x) (daily_game_record_config_ x)
    (daily_game_reset_jewel_config_ x) (config_weixin_cd_key x).
Definition set_refresh_task_gold_ (v : Z) (x : globalConfig) : globalConfig :=
  mkGlobalConfig
    (config_gold_ x) (hero_unlock_count_ x) (day_Refresh_time_ x) (day_free_task_count_ x)
    (day_task_advertisement_task_cd_ x) (hero_max_tasks_count_ x) (channel_id_ x) (game_id_ x) v
    (relive_gold_ x) (config_max_spirit_ x) (config_jewel_ x) (config_recover_spirit_minute_ x)
    (config_recover_spirit_ x) (config_enter_game_use_spirit_ x) (config_day_buy_spirit_ x)
    (config_weixin_gold x) (daily_game_record_config_ x) (daily_game_reset_jewel_config_ x)
    (config_weixin_cd_key x).
Definition set_relive_gold_ (v : Z) (x : globalConfig) : globalConfig :=
  mkGlobalConfig
    (config_gold_ x) (hero_unlock_count_ x) (day_Refresh_time_ x) (day_free_task_count_ x)
    (day_task_advertisement_task_cd_ x) (hero_max_tasks_count_ x) (channel_id_ x) (game_id_ x)
    (refresh_task_gold_ x) v (config_max_spirit_ x) (config_jewel_ x)
    (config_recover_spirit_minute_ x) (config_recover_spirit_ x) (config_enter_game_use_spirit_
    x) (config_day_buy_spirit_ x) (config_weixin_gold x) (daily_game_record_config_ x)
    (daily_game_reset_jewel_config_ x) (config_weixin_cd_key x).
Definition set_config_max_spirit_ (v : Z) (x : globalConfig) : globalConfig :=
  mkGlobalConfig
    (config_gold_ x) (hero_unlock_count_ x) (day_Refresh_time_ x) (day_free_task_count_ x)
    (day_task_advertisement_task_cd_ x) (hero_max_tasks_count_ x) (channel_id_ x) (game_id_ x)
    (refresh_task_gold_ x) (relive_gold_ x) v (config_jewel_ x) (config_recover_spirit_minute_ x)
    (config_recover_spirit_ x) (config_enter_game_use_spirit_ x) (config_day_buy_spirit_ x)
    (config_weixin_gold x) (daily_game_record_config_ x) (daily_game_reset_jewel_config_ x)
    (config_weixin_cd_key x).
Definition set_config_jewel_ (v : Z) (x : globalConfig) : globalConfig :=
  mkGlobalConfig
    (config_gold_ x) (hero_unlock_count_ x) (day_Refresh_time_ x) (day_free_task_count_ x)
    (day_task_advertisement_task_cd_ x) (hero_max_tasks_count_ x) (channel_id_ x) (game_id_ x)
    (refresh_task_gold_ x) (relive_gold_ x) (config_max_spirit_ x) v
    (config_recover_spirit_minute_ x) (config_recover_spirit_ x) (config_enter_game_use_spirit_
    x) (config_day_buy_spirit_ x) (config_weixin_gold x) (daily_game_record_config_ x)
    (daily_game_reset_jewel_config_ x) (config_weixin_cd_key x).
Definition set_config_recover_spirit_minute_ (v : Z) (x : globalConfig) : globalConfig :=
 
    mkGlobalConfig (config_gold_ x) (hero_unlock_count_ x) (day_Refresh_time_ x)
    (day_free_task_count_ x) (day_task_advertisement_task_cd_ x) (hero_max_tasks_count_ x)
    (channel_id_ x) (game_id_ x) (refresh_task_gold_ x) (relive_gold_ x) (config_max_spirit_ x)
    (config_jewel_ x) v (config_recover_spirit_ x) (config_enter_game_use_spirit_ x)
    (config_day_buy_spirit_ x) (config_weixin_gold x) (daily_game_record_config_ x)
    (daily_game_reset_jewel_config_ x) (config_weixin_cd_key x).
Definition set_config_recover_spirit_ (v : Z) (x : globalConfig) : globalConfig :=
 
    mkGlobalConfig (config_gold_ x) (hero_unlock_count_ x) (day_Refresh_time_ x)
    (day_free_task_count_ x) (day_task_advertisement_task_cd_ x) (hero_max_tasks_count_ x)
    (channel_id_ x) (game_id_ x) (refresh_task_gold_ x) (relive_gold_ x) (config_max_spirit_ x)
    (config_jewel_ x) (config_recover_spirit_minute_ x) v (config_enter_game_use_spirit_ x)
    (config_day_buy_spirit_ x) (config_weixin_gold x) (daily_game_record_config_ x)
    (daily_game_reset_jewel_config_ x) (config_weixin_cd_key x).
Definition set_config_enter_game_use_spirit_ (v : Z) (x : globalConfig) : globalConfig :=
 
    mkGlobalConfig (config_gold_ x) (hero_unlock_count_ x) (day_Refresh_time_ x)
    (day_free_task_count_ x) (day_task_advertisement_task_cd_ x) (hero_max_tasks_count_ x)
    (channel_id_ x) (game_id_ x) (refresh_task_gold_ x) (relive_gold_ x) (config_max_spirit_ x)
    (config_jewel_ x) (config_recover_spirit_minute_ x) (config_recover_spirit_ x) v
    (config_day_buy_spirit_ x) (config_weixin_gold x) (daily_game_record_config_ x)
    (daily_game_reset_jewel_config_ x) (config_weixin_cd_key x).
Definition set_config_day_buy_spirit_ (v : Z) (x : globalConfig) : globalConfig :=
 
    mkGlobalConfig (config_gold_ x) (hero_unlock_count_ x) (day_Refresh_time_ x)
    (day_free_task_count_ x) (day_task_advertisement_task_cd_ x) (hero_max_tasks_count_ x)
    (channel_id_ x) (game_id_ x) (refresh_task_gold_ x) (relive_gold_ x) (config_max_spirit_ x)
    (config_jewel_ x) (config_recover_spirit_minute_ x) (config_recover_spirit_ x)
    (config_enter_game_use_spirit_ x) v (config_weixin_gold x) (daily_game_record_config_ x)
    (daily_game_reset_jewel_config_ x) (config_weixin_cd_key x).
Definition set_config_weixin_gold (v : Z) (x : globalConfig) : globalConfig :=
  mkGlobalConfig
    (config_gold_ x) (hero_unlock_count_ x) (day_Refresh_time_ x) (day_free_task_count_ x)
    (day_task_advertisement_task_cd_ x) (hero_max_tasks_count_ x) (channel_id_ x) (game_id_ x)
    (refresh_task_gold_ x) (relive_gold_ x) (config_max_spirit_ x) (config_jewel_ x)
    (config_recover_spirit_minute_ x) (config_recover_spirit_ x) (config_enter_game_use_spirit_
    x) (config_day_buy_spirit_ x) v (daily_game_record_config_ x) (daily_game_reset_jewel_config_
    x) (config_weixin_cd_key x).
Definition set_daily_game_record_config_ (v : list Z) (x : globalConfig) : globalConfig :=
 
    mkGlobalConfig (config_gold_ x) (hero_unlock_count_ x) (day_Refresh_time_ x)
    (day_free_task_count_ x) (day_task_advertisement_task_cd_ x) (hero_max_tasks_count_ x)
    (channel_id_ x) (game_id_ x) (refresh_task_gold_ x) (relive_gold_ x) (config_max_spirit_ x)
    (config_jewel_ x) (config_recover_spirit_minute_ x) (config_recover_spirit_ x)
    (config_enter_game_use_spirit_ x) (config_day_buy_spirit_ x) (config_weixin_gold x) v
    (daily_game_reset_jewel_config_ x) (config_weixin_cd_key x).
Definition set_daily_game_reset_jewel_config_ (v : list Z) (x : globalConfig) : globalConfig :=
 
    mkGlobalConfig (config_gold_ x) (hero_unlock_count_ x) (day_Refresh_time_ x)
    (day_free_task_count_ x) (day_task_advertisement_task_cd_ x) (hero_max_tasks_count_ x)
    (channel_id_ x) (game_id_ x) (refresh_task_gold_ x) (relive_gold_ x) (config_max_spirit_ x)
    (config_jewel_ x) (config_recover_spirit_minute_ x) (config_recover_spirit_ x)
    (config_enter_game_use_spirit_ x) (config_day_buy_spirit_ x) (config_weixin_gold x)
    (daily_game_record_config_ x) v (config_weixin_cd_key x).
Definition set_config_weixin_cd_key (v : string) (x : globalConfig) : globalConfig :=
 
    mkGlobalConfig (config_gold_ x) (hero_unlock_count_ x) (day_Refresh_time_ x)
    (day_free_task_count_ x) (day_task_advertisement_task_cd_ x) (hero_max_tasks_count_ x)
    (channel_id_ x) (game_id_ x) (refresh_task_gold_ x) (relive_gold_ x) (config_max_spirit_ x)
    (config_jewel_ x) (config_recover_spirit_minute_ x) (config_recover_spirit_ x)
    (config_enter_game_use_spirit_ x) (config_day_buy_spirit_ x) (config_weixin_gold x)
    (daily_game_record_config_ x) (daily_game_reset_jewel_config_ x) v.

(** [BaseShopPromotion] and its three subclasses; the tag [PromotionType_] is
    the constructor. *)
Inductive Promotion :=
| HeroPromotion (cheap_hero_ : list (Z * Z))
| RechargeRattingPromotion (recharge_ratting_ rechagre_type : Z)
| OpenHideHeroPromotion (hide_grid_ids_ : list Z).

(** [EventTimeBase] and its subclasses [TimeNormal], [TimeWeek],
    [TimeOpenServerOffsetTime]. *)
Inductive TimeEventType := Time_Normal | Time_Week | Time_OpenServerOffsetTime.

#[export] Instance TimeEventType_eq_dec : EqDecision TimeEventType.
Proof. solve_decision. Defined.

Record EventTime := mkEventTime {
  type_ : TimeEventType;
  show_time_ : Z;
  begin_time_ : Z;
  end_time_ : Z
}.

Record TimeShopSalesPromotionConfig := mkPromotionConfig {
  pc_id_ : Z;
  pc_time : option EventTime;
  pc_promotion : option Promotion;
  pc_name : string;
  pc_time_describe : string;
  pc_describe : string
}.

Record ObjDropBoxConfig := mkObjDropBox {
  ob_obj_id_ : Z;
  ob_type_ : Z;
  ob_base_gold_ : Z;
  ob_random_gold_ : Z
}.

Record GoldShopConfigInfo := mkGoldShopConfig {
  appstore_product_id_ : string;
  gold_info_ : MsgGoldShopConfigInfo
}.

Record LotteryDrawBoxConfig := mkLotteryBox {
  lottery_type_ : Z;
  sub_index_ : Z;
  base_count_ : Z;
  random_count_ : Z;
  rating_ : Z
}.

Record DailyGamePrizeConfig := mkPrizeConfig {
  begin_rank_ : Z;
  end_rank_ : Z;
  prize_gold_ : Z
}.
