(* ===== verification/Text.v ===== *)
(** * Strings: sprintf's %d, atoi, and SplitStringA of common/utilities.cpp

    The server keeps the composite columns of a hero ("1,2;3,4") as text:
    [SaveHero] prints them and the database server splits and parses them.
    This file has the printing and parsing primitives and their laws. *)
From S2P Require Import Prelude.

Abbreviation chars := list_ascii_of_string.
Abbreviation of_chars := string_of_list_ascii.

(** ** sprintf("%d") and atoi *)

Definition digit (d : Z) : ascii := ascii_of_N (Z.to_N (48 + d)).

Fixpoint print_aux (fuel : nat) (n : Z) (acc : string) : string :=
  match fuel with
  | O => acc
  | S f =>
      let acc' := String (digit (n mod 10)) acc in
      if n <? 10 then acc' else print_aux f (n / 10) acc'
  end.

(** [%u], [%llu]: decimal digits without sign. *)
Definition print_u (n : Z) : string := print_aux (S (Z.to_nat (Z.log2 n))) n "".

(** [%d]. *)
Definition print_d (n : Z) : string :=
  if n <? 0 then String "-" (print_u (- n)) else print_u n.

Definition is_digit (a : ascii) : bool :=
  (48 <=? Z.of_N (N_of_ascii a)) && (Z.of_N (N_of_ascii a) <=? 57).
Definition digit_val (a : ascii) : Z := Z.of_N (N_of_ascii a) - 48.

Definition is_space (a : ascii) : bool :=
  let n := Z.of_N (N_of_ascii a) in (n =? 32) || ((9 <=? n) && (n <=? 13)).

Fixpoint atoi_digits (v : Z) (s : string) : Z :=
  match s with
  | EmptyString => v
  | String a s' => if is_digit a then atoi_digits (v * 10 + digit_val a) s' else v
  end.

Fixpoint skip_space (s : string) : string :=
  match s with
  | EmptyString => EmptyString
  | String a s' => if is_space a then skip_space s' else s
  end.

(** C's [atoi]: blanks, an optional sign, digits up to the first other character. *)
Definition atoi (s : string) : Z :=
  match skip_space s with
  | String "-" s' => - atoi_digits 0 s'
  | String "+" s' => atoi_digits 0 s'
  | s' => atoi_digits 0 s'
  end.

Lemma digit_code d : 0 <= d < 10 -> N_of_ascii (digit d) = Z.to_N (48 + d).
Proof. intros H. unfold digit. apply N_ascii_embedding. lia. Qed.

Lemma digit_is_digit d : 0 <= d < 10 -> is_digit (digit d) = true.
Proof. intros H. unfold is_digit. rewrite digit_code, Z2N.id by lia.
  apply andb_true_intro. split; apply Z.leb_le; lia. Qed.

Lemma digit_val_digit d : 0 <= d < 10 -> digit_val (digit d) = d.
Proof. intros H. unfold digit_val. rewrite digit_code, Z2N.id by lia. lia. Qed.

Lemma mod10_range n : 0 <= n mod 10 < 10.
Proof. apply Z.mod_pos_bound. lia. Qed.
#[export] Hint Resolve mod10_range : cint.

Lemma atoi_digits_print fuel n acc :
  0 <= n < 2 ^ Z.of_nat fuel ->
  atoi_digits 0 (print_aux fuel n acc) = atoi_digits n acc.
Proof.
  revert n acc. induction fuel as [|f IH]; intros n acc Hn.
  - assert (n = 0) as -> by (cbn in Hn; lia). done.
  - cbn [print_aux]. destruct (n <? 10) eqn:E; to_prop.
    + cbn. rewrite digit_is_digit, digit_val_digit by apply mod10_range.
      f_equal. rewrite Z.mod_small; lia.
    + rewrite IH.
      * cbn. rewrite digit_is_digit, digit_val_digit by apply mod10_range.
        f_equal. pose proof (Z.div_mod n 10). lia.
      * rewrite Nat2Z.inj_succ, Z.pow_succ_r in Hn by lia. split.
        { apply Z.div_pos; lia. }
        apply Z.div_lt_upper_bound; lia.
Qed.

Lemma print_u_fuel n : 0 <= n -> 0 <= n < 2 ^ Z.of_nat (S (Z.to_nat (Z.log2 n))).
Proof.
  intros Hn. split; [done|]. rewrite Nat2Z.inj_succ.
  destruct (Z.eq_dec n 0) as [->|Hz]; [cbn; lia|].
  rewrite Z2Nat.id by apply Z.log2_nonneg. apply Z.log2_spec. lia.
Qed.

Lemma atoi_digits_print_u n : 0 <= n -> atoi_digits 0 (print_u n) = n.
Proof. intros Hn. unfold print_u. by rewrite atoi_digits_print by by apply print_u_fuel. Qed.

(** The printed text is a non-empty run of digits. *)
Lemma print_aux_head fuel n acc : fuel <> O ->
  exists d s, print_aux fuel n acc = String (digit d) s /\ 0 <= d < 10.
Proof.
  revert n acc. induction fuel as [|f IH]; intros n acc Hf; [done|]. cbn.
  destruct (n <? 10); [eauto using mod10_range|].
  destruct f as [|f]; [eauto using mod10_range|]. by apply IH.
Qed.

Definition all_chars (P : ascii -> Prop) (s : string) : Prop := Forall P (chars s).

Lemma print_aux_chars fuel n acc :
  all_chars (fun a => is_digit a = true) acc ->
  all_chars (fun a => is_digit a = true) (print_aux fuel n acc).
Proof.
  revert n acc. induction fuel as [|f IH]; intros n acc Ha; [done|]. cbn.
  assert (all_chars (fun a => is_digit a = true) (String (digit (n mod 10)) acc)).
  { constructor; [apply digit_is_digit, mod10_range|done]. }
  destruct (n <? 10); [done|]. by apply IH.
Qed.

(** The characters of a printed integer: digits and the minus sign. *)
Definition num_char (a : ascii) : Prop := is_digit a = true \/ a = "-"%char.

Lemma print_d_chars n : all_chars num_char (print_d n).
Proof.
  assert (Hu : forall m, all_chars num_char (print_u m)).
  { intros m. eapply Forall_impl; [apply (print_aux_chars _ m ""); constructor|].
    intros a Ha. by left. }
  unfold print_d. destruct (n <? 0); [|apply Hu]. constructor; [by right|apply Hu].
Qed.

Lemma print_d_nonempty n : print_d n <> EmptyString.
Proof.
  unfold print_d. destruct (n <? 0); [done|]. unfold print_u.
  destruct (print_aux_head (S (Z.to_nat (Z.log2 n))) n "" ltac:(done)) as (d & s & -> & _).
  done.
Qed.

Lemma digit_cases d : 0 <= d < 10 ->
  is_space (digit d) = false /\ digit d <> "-"%char /\ digit d <> "+"%char.
Proof.
  intros Hd. assert (d = 0 \/ d = 1 \/ d = 2 \/ d = 3 \/ d = 4 \/ d = 5 \/ d = 6 \/ d = 7
    \/ d = 8 \/ d = 9) as Hc by lia.
  repeat (destruct Hc as [->|Hc]; [vm_compute; repeat split; congruence|]).
  subst. vm_compute; repeat split; congruence.
Qed.

(** [atoi] reads back what [%d] printed. *)
Lemma atoi_print_d n : atoi (print_d n) = n.
Proof.
  unfold print_d. destruct (n <? 0) eqn:E; to_prop.
  - transitivity (- atoi_digits 0 (print_u (- n))); [reflexivity|].
    rewrite atoi_digits_print_u; lia.
  - pose proof (atoi_digits_print_u n E) as Hv.
    destruct (print_aux_head (S (Z.to_nat (Z.log2 n))) n "" ltac:(done))
      as (d & s & Heq & Hd).
    unfold print_u in *. rewrite Heq in *.
    pose proof (digit_cases d Hd) as (Hs & Hm & Hp).
    unfold atoi. cbn [skip_space]. rewrite Hs.
    destruct (digit d) as [[] [] [] [] [] [] [] []]; done.
Qed.

(** ** SplitStringA *)

Fixpoint prefixb (p l : list ascii) : bool :=
  match p, l with
  | [], _ => true
  | a :: p', b :: l' => Ascii.eqb a b && prefixb p' l'
  | _, _ => false
  end.

Fixpoint lfind (sub l : list ascii) (i : nat) : option nat :=
  if prefixb sub l then Some i else match l with [] => None | _ :: l' => lfind sub l' (S i) end.

(** [std::string::find(sub, pos)]. *)
Definition sfind (s sub : string) (pos : nat) : option nat :=
  if (pos <=? length (chars s))%nat then lfind (chars sub) (drop pos (chars s)) pos else None.

(** [std::string::substr(pos, len)] and [substr(pos)]. *)
Definition substr (s : string) (pos len : nat) : string :=
  of_chars (take len (drop pos (chars s))).
Definition substr_to_end (s : string) (pos : nat) : string := of_chars (drop pos (chars s)).

(** The loop that collects the positions of the delimiter; every turn moves
    past one delimiter, so the length of the text is enough fuel. *)
Fixpoint split_positions (fuel : nat) (s delim : string) (newPos : option nat) : list nat :=
  match fuel, newPos with
  | S f, Some p => p :: split_positions f s delim (sfind s delim (p + length (chars delim)))
  | _, _ => []
  end.

(** The loop over [positions]: piece 0 ends at the first delimiter, piece [i]
    starts after delimiter [i-1]; empty pieces are dropped. *)
Definition piece (s : string) (dl : nat) (positions : list nat) (i : nat) : string :=
  match i with
  | O => substr s 0 (nth 0 positions 0%nat)
  | S i' =>
      let offset := (nth i' positions 0%nat + dl)%nat in
      if (offset <? length (chars s))%nat then
        if (i =? length positions)%nat then substr_to_end s offset
        else substr s offset (nth i positions 0%nat - nth i' positions 0%nat - dl)
      else EmptyString
  end.

Definition nonempty (s : string) : bool := negb (String.eqb s EmptyString).

Definition SplitStringA (strIn strDelimiter : string) : Z * list string :=
  let dl := length (chars strDelimiter) in
  if (dl =? 0)%nat || (length (chars strIn) =? 0)%nat then (0, [])
  else match sfind strIn strDelimiter 0 with
  | None => (1, [strIn])
  | Some p =>
      let positions := split_positions (S (length (chars strIn))) strIn strDelimiter (Some p) in
      (Z.of_nat (length positions),
       List.filter nonempty (map (piece strIn dl positions) (seq 0 (S (length positions)))))
  end.

(** The vector the callers read. *)
Definition split (strIn delim : string) : list string := (SplitStringA strIn delim).2.

(** *** Specification for the one-character delimiters the project uses *)

Fixpoint split_chars (c : ascii) (l : list ascii) : list (list ascii) :=
  match l with
  | [] => [[]]
  | a :: l' =>
      if Ascii.eqb a c then [] :: split_chars c l'
      else match split_chars c l' with
           | h :: t => (a :: h) :: t
           | [] => [[a]]
           end
  end.

Definition split_spec (c : ascii) (s : string) : list string :=
  List.filter nonempty (map of_chars (split_chars c (chars s))).

Section OneChar.
Context (c : ascii).

Lemma lfind_skip l : forall i, c ∉ l -> lfind [c] l i = None.
Proof.
  induction l as [|a l IH]; intros i Hn; [done|]. cbn.
  apply not_elem_of_cons in Hn as [Hca Hn].
  destruct (Ascii.eqb_spec c a); [done|]. cbn. by apply IH.
Qed.

Lemma lfind_hit pre : forall l i, c ∉ pre ->
  lfind [c] (pre ++ c :: l) i = Some (i + length pre)%nat.
Proof.
  induction pre as [|a pre IH]; intros l i Hn; cbn.
  - rewrite Ascii.eqb_refl. cbn. f_equal. lia.
  - apply not_elem_of_cons in Hn as [Hca Hn].
    destruct (Ascii.eqb_spec c a); [done|]. cbn. rewrite IH by done. f_equal. lia.
Qed.

Lemma split_chars_none l : c ∉ l -> split_chars c l = [l].
Proof.
  induction l as [|a l IH]; intros Hn; [done|]. cbn.
  apply not_elem_of_cons in Hn as [Hca Hn].
  destruct (Ascii.eqb_spec a c); [done|]. by rewrite IH.
Qed.

Lemma split_chars_hit pre l : c ∉ pre ->
  split_chars c (pre ++ c :: l) = pre :: split_chars c l.
Proof.
  induction pre as [|a pre IH]; intros Hn; cbn.
  - by rewrite Ascii.eqb_refl.
  - apply not_elem_of_cons in Hn as [Hca Hn].
    destruct (Ascii.eqb_spec a c); [done|]. by rewrite IH.
Qed.

Lemma first_occurrence (l : list ascii) :
  c ∉ l \/ exists pre l', l = pre ++ c :: l' /\ c ∉ pre.
Proof.
  destruct (decide (c ∈ l)) as [Hin|]; [right|by left].
  apply list_elem_of_split_l in Hin as (pre & l' & -> & Hn). eauto.
Qed.

Abbreviation delim := (String c EmptyString).

(** The pieces cut at absolute positions, starting at offset [o]. *)
Fixpoint pieces_at (L : list ascii) (o : nat) (ps : list nat) : list (list ascii) :=
  match ps with
  | [] => [drop o L]
  | p :: ps' => take (p - o) (drop o L) :: pieces_at L (S p) ps'
  end.

Lemma positions_split fuel s o :
  (length (drop o (chars s)) < fuel)%nat -> (o <= length (chars s))%nat ->
  pieces_at (chars s) o (split_positions fuel s delim (sfind s delim o)) =
  split_chars c (drop o (chars s)).
Proof.
  revert o. induction fuel as [|f IH]; intros o Hf Ho; [lia|].
  unfold sfind. destruct (Nat.leb_spec o (length (chars s))); [|lia].
  change (chars delim) with [c].
  destruct (first_occurrence (drop o (chars s))) as [Hn|(pre & l' & Heq & Hn)].
  - rewrite lfind_skip by done. cbn. by rewrite split_chars_none.
  - rewrite Heq, lfind_hit, split_chars_hit by done. cbn [split_positions pieces_at].
    rewrite Heq. f_equal.
    { rewrite take_app_le by lia. apply take_ge. lia. }
    assert (Hd : drop (S (o + length pre)) (chars s) = l').
    { replace (S (o + length pre)) with (o + S (length pre))%nat by lia.
      rewrite <- drop_drop, Heq. rewrite drop_app_ge by lia.
      by replace (S (length pre) - length pre)%nat with 1%nat by lia. }
    assert (Hlen : length (chars s) = (o + (length pre + S (length l')))%nat).
    { apply (f_equal length) in Heq. rewrite length_drop, length_app in Heq. cbn in Heq. lia. }
    change (length [c]) with 1%nat. rewrite Nat.add_1_r, IH, Hd; [done| |lia].
    rewrite Hd. rewrite Heq, length_app in Hf. cbn in Hf. lia.
Qed.

Lemma pieces_code s ps2 : forall ps1 p0,
  map (piece s 1 (ps1 ++ p0 :: ps2)) (seq (S (length ps1)) (S (length ps2))) =
  map of_chars (pieces_at (chars s) (S p0) ps2).
Proof.
  induction ps2 as [|p ps2 IH]; intros ps1 p0.
  - cbn [map seq piece pieces_at length].
    rewrite app_nth2, Nat.sub_diag by lia. cbn [nth]. rewrite length_app.
    rewrite (proj2 (Nat.eqb_eq _ _)) by (cbn; lia). rewrite Nat.add_1_r.
    destruct (Nat.ltb_spec (S p0) (length (chars s))); [done|].
    by rewrite drop_ge by lia.
  - change (S (length (p :: ps2))) with (S (S (length ps2))).
    rewrite <- cons_seq. cbn [map pieces_at]. f_equal.
    + cbn [piece]. rewrite app_nth2, Nat.sub_diag by lia. cbn [nth].
      rewrite (app_nth2 ps1) by lia.
      replace (S (length ps1) - length ps1)%nat with 1%nat by lia. cbn [nth].
      rewrite length_app. rewrite (proj2 (Nat.eqb_neq _ _)) by (cbn; lia).
      rewrite Nat.add_1_r.
      destruct (Nat.ltb_spec (S p0) (length (chars s))).
      * unfold substr. do 2 f_equal. lia.
      * rewrite drop_ge by lia. by rewrite take_nil.
    + specialize (IH (ps1 ++ [p0]) p). rewrite <- app_assoc in IH.
      replace (length (ps1 ++ [p0])) with (S (length ps1)) in IH
        by (rewrite length_app; cbn; lia).
      exact IH.
Qed.

(** SplitStringA returns exactly the non-empty pieces. *)
Lemma split_ok s : split s delim = split_spec c s.
Proof.
  unfold split, SplitStringA, split_spec.
  destruct s as [|a s']; [done|]. set (s := String a s').
  change (length (chars delim)) with 1%nat.
  change ((1 =? 0)%nat || (length (chars s) =? 0)%nat) with false. cbv iota.
  pose proof (positions_split (S (length (chars s))) s 0) as Hp.
  rewrite drop_0 in Hp. specialize (Hp ltac:(lia) ltac:(lia)).
  destruct (sfind s delim 0) as [p|] eqn:E.
  - cbn [snd]. rewrite <- Hp. f_equal.
    change (split_positions (S (length (chars s))) s delim (Some p))
      with (p :: split_positions (length (chars s)) s delim (sfind s delim (p + 1))).
    set (ps := split_positions _ _ _ _).
    cbn [length]. rewrite <- cons_seq. cbn [map pieces_at]. f_equal.
    { cbn. unfold substr. by rewrite Nat.sub_0_r. }
    apply (pieces_code s ps [] p).
  - cbn [snd]. rewrite <- Hp. cbn. unfold s. by rewrite string_of_list_ascii_of_string.
Qed.
End OneChar.

(** ** Joining with a separator

    The loops of [SaveHero]: [if (i != 0) temp += sep; temp += item;]. *)
Fixpoint join (sep : string) (l : list string) : string :=
  match l with
  | [] => EmptyString
  | x :: l' => match l' with [] => x | _ => x +:+ sep +:+ join sep l' end
  end.

Lemma chars_app s t : chars (s +:+ t) = chars s ++ chars t.
Proof. induction s as [|a s IH]; [done|].
  change (a :: chars (s +:+ t) = a :: chars s ++ chars t). by rewrite IH.
Qed.

Lemma chars_inj s t : chars s = chars t -> s = t.
Proof.
  intros Heq. rewrite <- (string_of_list_ascii_of_string s), Heq.
  apply string_of_list_ascii_of_string.
Qed.

Lemma str_app_assoc s t u : (s +:+ t) +:+ u = s +:+ (t +:+ u).
Proof. apply chars_inj. by rewrite !chars_app, app_assoc. Qed.

Lemma str_app_nil_r s : s +:+ EmptyString = s.
Proof. apply chars_inj. rewrite chars_app. apply app_nil_r. Qed.

Lemma str_app_empty s t : s +:+ t = EmptyString -> s = EmptyString /\ t = EmptyString.
Proof. by destruct s. Qed.

Lemma join_snoc d l x : l <> [] -> join d (l ++ [x]) = join d l +:+ d +:+ x.
Proof.
  induction l as [|y [|z l] IH]; intros Hne; [done|done|].
  change (join d ((y :: z :: l) ++ [x])) with (y +:+ d +:+ join d ((z :: l) ++ [x])).
  change (join d (y :: z :: l)) with (y +:+ d +:+ join d (z :: l)).
  rewrite IH by done. by rewrite !str_app_assoc.
Qed.

Definition no_char (c : ascii) (s : string) : Prop := c ∉ chars s.

Lemma no_char_app c s t : no_char c (s +:+ t) <-> no_char c s /\ no_char c t.
Proof. unfold no_char. rewrite chars_app. apply not_elem_of_app. Qed.

Lemma split_chars_join c l :
  Forall (no_char c) l -> l <> [] ->
  split_chars c (chars (join (String c EmptyString) l)) = map chars l.
Proof.
  induction l as [|x [|y l] IH]; intros Hall Hne; [done| |].
  - inversion Hall; subst. cbn. by rewrite split_chars_none.
  - inversion Hall; subst. change (join _ (x :: y :: l))
      with (x +:+ String c EmptyString +:+ join (String c EmptyString) (y :: l)).
    rewrite !chars_app. cbn [chars app]. rewrite split_chars_hit by done.
    rewrite IH by done. done.
Qed.

(** Splitting undoes joining. *)
Lemma split_join c l :
  Forall (fun s => no_char c s /\ s <> EmptyString) l ->
  split (join (String c EmptyString) l) (String c EmptyString) = l.
Proof.
  intros Hall. rewrite split_ok. unfold split_spec.
  destruct (decide (l = [])) as [->|Hne]; [done|].
  rewrite split_chars_join; [|by eapply Forall_impl; [done|]; intros ? [? ?]|done].
  rewrite map_map. induction Hall as [|x l [Hx Hx'] Hall IH]; [done|]. cbn.
  rewrite string_of_list_ascii_of_string. unfold nonempty at 1.
  destruct (String.eqb_spec x EmptyString); [done|]. cbn. f_equal.
  destruct (decide (l = [])) as [->|]; [done|]. by apply IH.
Qed.

Lemma join_nonempty c l :
  Forall (fun s => s <> EmptyString) l -> l <> [] -> join c l <> EmptyString.
Proof.
  intros Hall Hne. destruct l as [|x [|y l]]; [done| |].
  - by inversion Hall.
  - inversion Hall; subst. cbn. by destruct x.
Qed.

Lemma join_no_char c d l :
  Forall (no_char c) l -> no_char c d -> no_char c (join d l).
Proof.
  intros Hall Hd. induction l as [|x l IH]; [apply not_elem_of_nil|].
  inversion Hall; subst. destruct l as [|y l]; [done|].
  change (no_char c (x +:+ d +:+ join d (y :: l))).
  rewrite !no_char_app. auto.
Qed.

Lemma print_d_no_char c n : is_digit c = false -> c <> "-"%char -> no_char c (print_d n).
Proof.
  intros Hc Hm Hin. pose proof (print_d_chars n) as Hall. unfold all_chars in Hall.
  rewrite Forall_forall in Hall. destruct (Hall c Hin); congruence.
Qed.

Lemma print_d_item c n : is_digit c = false -> c <> "-"%char ->
  no_char c (print_d n) /\ print_d n <> EmptyString.
Proof. split; [by apply print_d_no_char|apply print_d_nonempty]. Qed.

Create HintDb text.
#[export] Hint Resolve print_d_no_char print_d_nonempty print_d_item : text.

(** ** sprintf

    An interpreter for the conversions the server uses: [%d], [%u], [%llu]
    and [%s].  Running out of arguments (undefined in C) prints nothing. *)
Inductive arg := AD (z : Z) | AU (z : Z) | AS (s : string).

Definition show_arg (a : arg) : string :=
  match a with AD z => print_d z | AU z => print_u z | AS s => s end.

Fixpoint sprintf (fmt : string) (args : list arg) : string :=
  match fmt with
  | EmptyString => EmptyString
  | String c r =>
      if Ascii.eqb c "%" then
        match args, r with
        | a :: args', String d r' =>
            if Ascii.eqb d "l" then
              match r' with
              | String _ (String _ r'') => show_arg a +:+ sprintf r'' args'
              | _ => EmptyString
              end
            else show_arg a +:+ sprintf r' args'
        | _, _ => EmptyString
        end
      else String c (sprintf r args)
  end.

Example sprintf_ex :
  sprintf "(%llu, '%s', %d,'%d')" [AU 7; AS "bob"; AD (-3); AD 0] = "(7, 'bob', -3,'0')".
Proof. vm_compute. reflexivity. Qed.

(** ** Properties *)

(** SplitStringA with a one-character delimiter returns exactly the
    non-empty pieces between the delimiters, for every input, and it undoes
    the joins by which the server writes its composite columns. *)
Theorem SplitStringA_correct c :
  (forall s, split s (String c EmptyString) = split_spec c s) /\
  (forall l, Forall (fun s => no_char c s /\ s <> EmptyString) l ->
     split (join (String c EmptyString) l) (String c EmptyString) = l).
Proof. split; [apply split_ok|apply split_join]. Qed.
