(* ===== verification/Calendar.v ===== *)
(** * Time: localtime, mktime and the day tests of the server

    libc's [localtime] and [mktime] for a process whose time zone is a fixed
    offset [tz] (seconds east of UTC, no daylight saving), the helpers of
    common/utilities.cpp and the two "is it today" tests of the game server:
    [GameConfig::isInToday] and the free function [isInToday] of
    gameserver/stdafx.cpp. *)
From S2P Require Import Prelude Text.

(** ** struct tm *)
Record tm := mkTm {
  tm_sec : Z; tm_min : Z; tm_hour : Z; tm_mday : Z; tm_mon : Z;
  tm_year : Z; tm_wday : Z; tm_yday : Z
}.

(** Proleptic Gregorian calendar: the day number (0 = 1970-01-01) of a date
    and the date of a day number, both by 400-year eras of 146097 days. *)
Definition doy_of (m d : Z) : Z := (153 * (if m <=? 2 then m + 9 else m - 3) + 2) / 5 + d - 1.

Definition days_from_civil (y m d : Z) : Z :=
  let y' := if m <=? 2 then y - 1 else y in
  let era := y' / 400 in
  let yoe := y' mod 400 in
  let doe := yoe * 365 + yoe / 4 - yoe / 100 + doy_of m d in
  era * 146097 + doe - 719468.

(** Date within an era: year of era, month, day. *)
Definition civil_of_doe (doe : Z) : Z * Z * Z :=
  let yoe := (doe - doe / 1460 + doe / 36524 - doe / 146096) / 365 in
  let doy := doe - (365 * yoe + yoe / 4 - yoe / 100) in
  let mp := (5 * doy + 2) / 153 in
  let d := doy - (153 * mp + 2) / 5 + 1 in
  let m := if mp <? 10 then mp + 3 else mp - 9 in
  ((if m <=? 2 then yoe + 1 else yoe), m, d).

Definition civil_from_days (days : Z) : Z * Z * Z :=
  let z := days + 719468 in
  let '(y, m, d) := civil_of_doe (z mod 146097) in
  (y + z / 146097 * 400, m, d).

(** [localtime]: the broken-down local time of [t]. *)
Definition localtime (tz t : Z) : tm :=
  let l := t + tz in
  let days := l / 86400 in
  let s := l mod 86400 in
  let '(y, m, d) := civil_from_days days in
  mkTm (s mod 60) (s / 60 mod 60) (s / 3600) d (m - 1) (y - 1900)
       ((days + 4) mod 7) (days - days_from_civil y 1 1).

(** [mktime]: seconds since the epoch of a local date and time. *)
Definition mktime (tz : Z) (p : tm) : Z :=
  days_from_civil (tm_year p + 1900) (tm_mon p + 1) (tm_mday p) * 86400
  + tm_hour p * 3600 + tm_min p * 60 + tm_sec p - tz.

(** *** The calendar functions are inverse to each other *)

(** The year of an era and the day of that year (the year starts in March). *)
Definition yoe_of (doe : Z) : Z := (doe - doe / 1460 + doe / 36524 - doe / 146096) / 365.
Definition year_start (yoe : Z) : Z := 365 * yoe + yoe / 4 - yoe / 100.

Lemma yoe_bounds doe : 0 <= doe < 146097 -> 0 <= yoe_of doe < 400.
Proof. unfold yoe_of. intros. Z.div_mod_to_equations. lia. Qed.

Lemma doy_bounds doe : 0 <= doe < 146097 -> 0 <= doe - year_start (yoe_of doe) <= 365.
Proof. unfold year_start, yoe_of. intros. Z.div_mod_to_equations. lia. Qed.

(** The month and the day of the month of a day of the year. *)
Lemma month_of_doy doy : 0 <= doy <= 365 ->
  let mp := (5 * doy + 2) / 153 in
  let d := doy - (153 * mp + 2) / 5 + 1 in
  let m := if mp <? 10 then mp + 3 else mp - 9 in
  1 <= m <= 12 /\ 1 <= d <= 31 /\ doy_of m d = doy.
Proof.
  intros H mp d m.
  assert (Hmp : 0 <= mp <= 11) by (unfold mp; Z.div_mod_to_equations; lia).
  assert (Hm : 1 <= m <= 12 /\ (if m <=? 2 then m + 9 else m - 3) = mp).
  { unfold m. destruct (Z.ltb_spec mp 10); destruct (Z.leb_spec (mp - 9) 2);
      destruct (Z.leb_spec (mp + 3) 2); lia. }
  destruct Hm as [Hm Hmm]. split; [done|]. unfold doy_of. rewrite Hmm.
  split; unfold d; [|lia]. unfold mp. Z.div_mod_to_equations. lia.
Qed.

Lemma civil_of_doe_ok doe : 0 <= doe < 146097 ->
  let '(y, m, d) := civil_of_doe doe in
  let y' := if m <=? 2 then y - 1 else y in
  0 <= y' < 400 /\ 1 <= m <= 12 /\ 1 <= d <= 31 /\ year_start y' + doy_of m d = doe.
Proof.
  intros H. pose proof (yoe_bounds doe H) as Hy. pose proof (doy_bounds doe H) as Hd.
  pose proof (month_of_doy _ Hd) as Hm. unfold civil_of_doe.
  fold (yoe_of doe). fold (year_start (yoe_of doe)).
  set (mp := (5 * (doe - year_start (yoe_of doe)) + 2) / 153) in *. cbv zeta in Hm |- *.
  set (m := if mp <? 10 then mp + 3 else mp - 9) in *.
  replace (if m <=? 2 then (if m <=? 2 then yoe_of doe + 1 else yoe_of doe) - 1
           else if m <=? 2 then yoe_of doe + 1 else yoe_of doe) with (yoe_of doe)
    by (destruct (m <=? 2); lia).
  destruct Hm as (? & ? & Hm). repeat split; lia.
Qed.

Lemma civil_round_trip days :
  let '(y, m, d) := civil_from_days days in days_from_civil y m d = days.
Proof.
  unfold civil_from_days.
  pose proof (Z.mod_pos_bound (days + 719468) 146097 ltac:(lia)) as Hb.
  pose proof (civil_of_doe_ok _ Hb) as Hok.
  destruct (civil_of_doe ((days + 719468) mod 146097)) as [[y m] d].
  destruct Hok as (? & ? & ? & Hok). unfold year_start in Hok. unfold days_from_civil.
  pose proof (Z.div_mod (days + 719468) 146097 ltac:(lia)) as Hdm.
  assert (He : (if m <=? 2 then y + (days + 719468) / 146097 * 400 - 1
                else y + (days + 719468) / 146097 * 400)
             = (if m <=? 2 then y - 1 else y) + (days + 719468) / 146097 * 400)
    by (destruct (m <=? 2); lia).
  rewrite He, Z.div_add, Z.mod_add by lia.
  rewrite Z.div_small, Z.mod_small by lia. lia.
Qed.

(** ** common/utilities.cpp *)

(** [convert_unix_time]: year, month, day, hour, minute, second. *)
Definition convert_unix_time (tz t : Z) : Z * Z * Z * Z * Z * Z :=
  let p := localtime tz (u32 t) in
  (tm_year p + 1900, tm_mon p + 1, tm_mday p, tm_hour p, tm_min p, tm_sec p).

Definition date_string (y m d h mi s : Z) : string :=
  print_d y +:+ "-" +:+ print_d m +:+ "-" +:+ print_d d +:+ " "
    +:+ print_d h +:+ ":" +:+ print_d mi +:+ ":" +:+ print_d s.

Definition build_unix_time_to_string (tz t : Z) : string :=
  let '(y, m, d, h, mi, s) := convert_unix_time tz t in date_string y m d h mi s.

Definition make_unix_time (tz year month day hour minute second : Z) : Z :=
  u32 (mktime tz (mkTm second minute hour day (month - 1) (year - 1900) 0 0)).

Definition same_day (tz t1 t2 : Z) : bool :=
  let p1 := localtime tz (u32 t1) in
  let p2 := localtime tz (u32 t2) in
  (tm_year p1 =? tm_year p2) && (tm_yday p1 =? tm_yday p2).

Definition same_month (tz t1 t2 : Z) : bool :=
  let p1 := localtime tz (u32 t1) in
  let p2 := localtime tz (u32 t2) in
  (tm_year p1 =? tm_year p2) && (tm_mon p1 =? tm_mon p2).

Definition same_week (tz t1 t2 : Z) : bool :=
  let p1 := localtime tz (u32 t1) in
  let p2 := localtime tz (u32 t2) in
  if (tm_year p1 =? tm_year p2) && (tm_mon p1 =? tm_mon p2) then
    tm_wday p1 + (tm_mday p2 - tm_mday p1) <? 7
  else false.

Definition is_dayofweek (tz t dow : Z) : bool := tm_wday (localtime tz (u32 t)) =? dow.

Definition in_duration (tz t hstart hend : Z) : bool :=
  let p := localtime tz (u32 t) in (hstart <=? tm_hour p) && (tm_hour p <? hend).

(** [get_time]: the text the server writes into the *_time columns; [now] is
    the clock that [time()] reads.  The day of the month is printed plus one. *)
Definition get_time (tz now cur_time : Z) : string :=
  let p := localtime tz (if cur_time =? 0 then now else cur_time) in
  date_string (tm_year p + 1900) (tm_mon p + 1) (tm_mday p + 1)
    (tm_hour p) (tm_min p) (tm_sec p).

(** ** The day tests *)

(** [GameConfig::isInToday]: [now] is [g_server_time], [hour] is
    [_global_config.day_Refresh_time_]. *)
Definition with_time (p : tm) (h m s : Z) : tm :=
  mkTm s m h (tm_mday p) (tm_mon p) (tm_year p) (tm_wday p) (tm_yday p).

Definition today_refresh_time (tz now hour : Z) : Z :=
  mktime tz (with_time (localtime tz now) hour 0 0).

Definition GameConfig_isInToday (tz now hour time : Z) : bool :=
  let today := today_refresh_time tz now hour in
  let tomorrow := today + 24 * 60 * 60 in
  (time <? tomorrow) && (today <=? time).

(** [::isInToday] of gameserver/stdafx.cpp. *)
Definition isInToday (tz now hour time : Z) : bool :=
  let temp_time := u64 (now - i32 (hour * 60 * 60)) in
  same_day tz temp_time time.

(** [GameConfig::getOpenServerPassedDay]. *)
Definition getOpenServerPassedDay (tz server_open_time curTime : Z) : Z :=
  let today := today_refresh_time tz server_open_time 0 in
  i32 (Z.quot (curTime - today) (24 * 60 * 60)).

(** *** Laws *)

(** The local day number and second of the day, the abstraction the day
    tests are specified with. *)
Definition day_of (tz t : Z) : Z := (t + tz) / 86400.
Definition sec_of_day (tz t : Z) : Z := (t + tz) mod 86400.
Definition midnight (tz t : Z) : Z := day_of tz t * 86400 - tz.

Lemma midnight_le tz t : midnight tz t <= t < midnight tz t + 86400.
Proof.
  unfold midnight, day_of.
  pose proof (Z.div_mod (t + tz) 86400 ltac:(lia)).
  pose proof (Z.mod_pos_bound (t + tz) 86400 ltac:(lia)). lia.
Qed.

Lemma localtime_date tz t :
  days_from_civil (tm_year (localtime tz t) + 1900) (tm_mon (localtime tz t) + 1)
    (tm_mday (localtime tz t)) = day_of tz t.
Proof.
  unfold localtime, day_of. pose proof (civil_round_trip ((t + tz) / 86400)) as H.
  destruct (civil_from_days _) as [[y m] d]. cbn [tm_year tm_mon tm_mday].
  rewrite <- H. f_equal; lia.
Qed.

Lemma today_refresh_midnight tz now hour :
  today_refresh_time tz now hour = midnight tz now + hour * 3600.
Proof.
  unfold today_refresh_time, mktime, with_time. cbn [tm_year tm_mon tm_mday tm_hour tm_min tm_sec].
  rewrite localtime_date. unfold midnight. lia.
Qed.

Lemma same_day_days tz t1 t2 :
  is_u32 t1 -> is_u32 t2 ->
  same_day tz t1 t2 = (day_of tz t1 =? day_of tz t2).
Proof.
  intros H1 H2. unfold same_day. rewrite !u32_id by done.
  apply eq_true_iff_eq. rewrite andb_true_iff, !Z.eqb_eq.
  unfold localtime, day_of.
  destruct (civil_from_days ((t1 + tz) / 86400)) as [[y1 m1] d1] eqn:E1.
  destruct (civil_from_days ((t2 + tz) / 86400)) as [[y2 m2] d2] eqn:E2.
  cbn [tm_year tm_yday]. split.
  - intros [Hy Hd]. assert (y1 = y2) as -> by lia. lia.
  - intros Heq. rewrite Heq in *. rewrite E1 in E2. injection E2 as -> -> ->. lia.
Qed.

Lemma localtime_clock tz t :
  tm_hour (localtime tz t) * 3600 + tm_min (localtime tz t) * 60 + tm_sec (localtime tz t)
  = sec_of_day tz t.
Proof.
  unfold localtime, sec_of_day. destruct (civil_from_days _) as [[y m] d].
  cbn [tm_hour tm_min tm_sec]. set (s := (t + tz) mod 86400).
  rewrite (Z.div_mod s 60) at 4 by lia.
  replace (s / 3600) with (s / 60 / 60) by (rewrite Z.div_div by lia; done).
  pose proof (Z.div_mod (s / 60) 60 ltac:(lia)). lia.
Qed.

Lemma mktime_localtime tz t : mktime tz (localtime tz t) = t.
Proof.
  unfold mktime. rewrite localtime_date.
  pose proof (localtime_clock tz t) as H. unfold sec_of_day in H. unfold day_of.
  pose proof (Z.div_mod (t + tz) 86400 ltac:(lia)). lia.
Qed.

Lemma make_unix_time_fields tz p :
  make_unix_time tz (tm_year p + 1900) (tm_mon p + 1) (tm_mday p) (tm_hour p) (tm_min p) (tm_sec p)
  = u32 (mktime tz p).
Proof.
  unfold make_unix_time, mktime. cbn [tm_year tm_mon tm_mday tm_hour tm_min tm_sec].
  by rewrite !Z.sub_add.
Qed.

Lemma isInToday_spec tz now hour time :
  GameConfig_isInToday tz now hour time = true <->
  midnight tz now + hour * 3600 <= time < midnight tz now + hour * 3600 + 86400.
Proof.
  unfold GameConfig_isInToday. rewrite today_refresh_midnight, andb_true_iff, Z.ltb_lt, Z.leb_le.
  lia.
Qed.

(** ** Properties *)

(** The hero's daily counters are reset by [GameConfig::isInToday].  For
    every clock, zone and stamp it accepts exactly the 24 hours that start at
    the refresh hour of the server's local day; in particular a stamp taken
    now counts as "today" exactly when the refresh hour has already passed. *)
Theorem day_refresh_window tz now hour time :
  (GameConfig_isInToday tz now hour time = true <->
     midnight tz now + hour * 3600 <= time < midnight tz now + hour * 3600 + 86400) /\
  GameConfig_isInToday tz now hour now
    = (hour * 3600 <=? sec_of_day tz now) && (sec_of_day tz now <? hour * 3600 + 86400).
Proof.
  split; [apply isInToday_spec|]. apply eq_true_iff_eq.
  rewrite isInToday_spec, andb_true_iff, Z.leb_le, Z.ltb_lt.
  unfold midnight, day_of, sec_of_day.
  pose proof (Z.div_mod (now + tz) 86400 ltac:(lia)). lia.
Qed.

(** The libc calendar the server reads its clock with is a bijection
    between seconds and local dates: [mktime] undoes [localtime], and
    [make_unix_time] undoes [convert_unix_time] for every 32-bit stamp. *)
Theorem convert_make_unix_time tz t :
  is_u32 t ->
  mktime tz (localtime tz t) = t /\
  let '(y, m, d, h, mi, s) := convert_unix_time tz t in
  make_unix_time tz y m d h mi s = t.
Proof.
  intros Ht. split; [apply mktime_localtime|].
  unfold convert_unix_time. rewrite (u32_id t) by done.
  rewrite make_unix_time_fields, mktime_localtime. by apply u32_id.
Qed.

Lemma convert_make_unix_time_witness :
  is_u32 1500000000 /\
  mktime 28800 (localtime 28800 1500000000) = 1500000000 /\
  let '(y, m, d, h, mi, s) := convert_unix_time 28800 1500000000 in
  make_unix_time 28800 y m d h mi s = 1500000000.
Proof.
  assert (is_u32 1500000000) as H by (unfold is_u32; lia).
  split; [exact H|]. exact (convert_make_unix_time 28800 1500000000 H).
Defined.
