(* ===== verification/Config.v ===== *)
(** * gameserver/GameConfig: the configuration tables

    [GameConfig] holds the tables the game server reads from its database at
    start-up.  The getters are the lookups every handler uses (a pointer that
    may be [NULL] is an [option]); [Load] builds the tables from the rows of
    the queries.  The row type and its cells are MySQL++ (not part of the
    repository) and stay a parameter, class [DBRow]. *)
From S2P Require Import Prelude StdMap Data Text Calendar.

(** ** Tables (GameConfig.h) *)
Record MapBehaviorConfig := mkMapBehavior {
  mb_key_ : Z * Z;
  mb_obj_behavior_id_ : Z;
  mb_obj_count_ : Z;
  mb_max_pos_count_ : Z
}.

Record MapRandomObjConfig := mkMapRandomObj {
  mr_type_ : Z;
  mr_obj_id_ : Z
}.

Record MapRandomObjsConfig := mkMapRandomObjs {
  mo_key_ : Z * Z;
  mo_obj_behavior_id_ : Z;
  mo_objs_ : list MapRandomObjConfig
}.

Abbreviation MAPTASKS := (list (Z * MsgTaskConfigInfo)).
Abbreviation MAPSHOPHEROCONFIGS := (list (Z * MsgShopConfigInfo)).
Abbreviation MAPCHAPTERCONFIGINFOS := (list (Z * MsgChapterConfigInfo)).
Abbreviation MAPGOLDSHOPCONFIGINFOS := (list (Z * GoldShopConfigInfo)).
Abbreviation CHANNELMAPGOLDSHOPCONFIGINFOS := (list (Z * list (Z * GoldShopConfigInfo))).
Abbreviation MAPTIMESHOPSALESPROMOTIONCONFIGS := (list (Z * TimeShopSalesPromotionConfig)).
Abbreviation MAPDROPBOXCONFIGS := (list (Z * ObjDropBoxConfig)).
Abbreviation MAPTYPEDROPBOXCONFIGS := (list (Z * list (Z * ObjDropBoxConfig))).
Abbreviation MAPBEHAVIORCONFIGS := (list (Z * MapBehaviorConfig)).
Abbreviation MAPRANDOMOBJCONFIGS := (list (Z * MapRandomObjsConfig)).
Abbreviation MAPLOTIONSHOPCONFIGS := (list (Z * MsgLotionShopConfigInfo)).
Abbreviation MAPSPIRITSHOP := (list (Z * MsgSpiritShopInfo)).

(** [class GameConfig]; maps are ordered association lists ([StdMap]). *)
Record GameConfig := mkGameConfig {
  _tasks : MAPTASKS;
  _shop_heroes : MAPSHOPHEROCONFIGS;
  _shop_time_sales_promotion : MAPTIMESHOPSALESPROMOTIONCONFIGS;
  _chapter_config_infos : MAPCHAPTERCONFIGINFOS;
  _gold_shop_config_infos : CHANNELMAPGOLDSHOPCONFIGINFOS;
  _drop_box_configs : MAPTYPEDROPBOXCONFIGS;
  _map_behavior_config : list ((Z * Z) * MAPBEHAVIORCONFIGS);
  _map_random_obj_configs : list ((Z * Z) * MAPRANDOMOBJCONFIGS);
  _map_drop_box_configs : list ((Z * Z) * MAPTYPEDROPBOXCONFIGS);
  _map_spirit_shop : MAPSPIRITSHOP;
  _map_lotion_shop_configs : MAPLOTIONSHOPCONFIGS;
  _lottery_draw_configs : list LotteryDrawBoxConfig;
  _daily_game_prize_configs : list DailyGamePrizeConfig;
  _global_config : globalConfig;
  _server_open_time : Z;
  _server_char : Z;
  _need_connect_platform : bool;
  _game_id : Z;
  _server_type : Z;
  _can_concern_weixin : bool;
  _server_title : string
}.

Definition set__tasks (v : MAPTASKS) (x : GameConfig) : GameConfig :=
  mkGameConfig v
    (_shop_heroes x) (_shop_time_sales_promotion x) (_chapter_config_infos x)
    (_gold_shop_config_infos x) (_drop_box_configs x) (_map_behavior_config x)
    (_map_random_obj_configs x) (_map_drop_box_configs x) (_map_spirit_shop x)
    (_map_lotion_shop_configs x) (_lottery_draw_configs x) (_daily_game_prize_configs x)
    (_global_config x) (_server_open_time x) (_server_char x) (_need_connect_platform x)
    (_game_id x) (_server_type x) (_can_concern_weixin x) (_server_title x).
Definition set__shop_heroes (v : MAPSHOPHEROCONFIGS) (x : GameConfig) : GameConfig :=
 
    mkGameConfig (_tasks x) v (_shop_time_sales_promotion x) (_chapter_config_infos x)
    (_gold_shop_config_infos x) (_drop_box_configs x) (_map_behavior_config x)
    (_map_random_obj_configs x) (_map_drop_box_configs x) (_map_spirit_shop x)
    (_map_lotion_shop_configs x) (_lottery_draw_configs x) (_daily_game_prize_configs x)
    (_global_config x) (_server_open_time x) (_server_char x) (_need_connect_platform x)
    (_game_id x) (_server_type x) (_can_concern_weixin x) (_server_title x).
Definition set__shop_time_sales_promotion (v : MAPTIMESHOPSALESPROMOTIONCONFIGS) (x : GameConfig)
    : GameConfig :=
  mkGameConfig (_tasks x) (_shop_heroes x) v (_chapter_config_infos x)
    (_gold_shop_config_infos x) (_drop_box_configs x) (_map_behavior_config x)
    (_map_random_obj_configs x) (_map_drop_box_configs x) (_map_spirit_shop x)
    (_map_lotion_shop_configs x) (_lottery_draw_configs x) (_daily_game_prize_configs x)
    (_global_config x) (_server_open_time x) (_server_char x) (_need_connect_platform x)
    (_game_id x) (_server_type x) (_can_concern_weixin x) (_server_title x).
Definition set__chapter_config_infos (v : MAPCHAPTERCONFIGINFOS) (x : GameConfig) : GameConfig
    :=
  mkGameConfig (_tasks x) (_shop_heroes x) (_shop_time_sales_promotion x) v
    (_gold_shop_config_infos x) (_drop_box_configs x) (_map_behavior_config x)
    (_map_random_obj_configs x) (_map_drop_box_configs x) (_map_spirit_shop x)
    (_map_lotion_shop_configs x) (_lottery_draw_configs x) (_daily_game_prize_configs x)
    (_global_config x) (_server_open_time x) (_server_char x) (_need_connect_platform x)
    (_game_id x) (_server_type x) (_can_concern_weixin x) (_server_title x).
Definition set__gold_shop_config_infos (v : CHANNELMAPGOLDSHOPCONFIGINFOS) (x : GameConfig) :
    GameConfig :=
  mkGameConfig (_tasks x) (_shop_heroes x) (_shop_time_sales_promotion x)
    (_chapter_config_infos x) v (_drop_box_configs x) (_map_behavior_config x)
    (_map_random_obj_configs x) (_map_drop_box_configs x) (_map_spirit_shop x)
    (_map_lotion_shop_configs x) (_lottery_draw_configs x) (_daily_game_prize_configs x)
    (_global_config x) (_server_open_time x) (_server_char x) (_need_connect_platform x)
    (_game_id x) (_server_type x) (_can_concern_weixin x) (_server_title x).
Definition set__drop_box_configs (v : MAPTYPEDROPBOXCONFIGS) (x : GameConfig) : GameConfig :=
 
    mkGameConfig (_tasks x) (_shop_heroes x) (_shop_time_sales_promotion x)
    (_chapter_config_infos x) (_gold_shop_config_infos x) v (_map_behavior_config x)
    (_map_random_obj_configs x) (_map_drop_box_configs x) (_map_spirit_shop x)
    (_map_lotion_shop_configs x) (_lottery_draw_configs x) (_daily_game_prize_configs x)
    (_global_config x) (_server_open_time x) (_server_char x) (_need_connect_platform x)
    (_game_id x) (_server_type x) (_can_concern_weixin x) (_server_title x).
Definition set__map_behavior_config (v : list ((Z * Z) * MAPBEHAVIORCONFIGS)) (x : GameConfig) :
    GameConfig :=
  mkGameConfig (_tasks x) (_shop_heroes x) (_shop_time_sales_promotion x)
    (_chapter_config_infos x) (_gold_shop_config_infos x) (_drop_box_configs x) v
    (_map_random_obj_configs x) (_map_drop_box_configs x) (_map_spirit_shop x)
    (_map_lotion_shop_configs x) (_lottery_draw_configs x) (_daily_game_prize_configs x)
    (_global_config x) (_server_open_time x) (_server_char x) (_need_connect_platform x)
    (_game_id x) (_server_type x) (_can_concern_weixin x) (_server_title x).
Definition set__map_random_obj_configs (v : list ((Z * Z) * MAPRANDOMOBJCONFIGS)) (x :
    GameConfig) : GameConfig :=
  mkGameConfig (_tasks x) (_shop_heroes x)
    (_shop_time_sales_promotion x) (_chapter_config_infos x) (_gold_shop_config_infos x)
    (_drop_box_configs x) (_map_behavior_config x) v (_map_drop_box_configs x) (_map_spirit_shop
    x) (_map_lotion_shop_configs x) (_lottery_draw_configs x) (_daily_game_prize_configs x)
    (_global_config x) (_server_open_time x) (_server_char x) (_need_connect_platform x)
    (_game_id x) (_server_type x) (_can_concern_weixin x) (_server_title x).
Definition set__map_drop_box_configs (v : list ((Z * Z) * MAPTYPEDROPBOXCONFIGS)) (x :
    GameConfig) : GameConfig :=
  mkGameConfig (_tasks x) (_shop_heroes x)
    (_shop_time_sales_promotion x) (_chapter_config_infos x) (_gold_shop_config_infos x)
    (_drop_box_configs x) (_map_behavior_config x) (_map_random_obj_configs x) v
    (_map_spirit_shop x) (_map_lotion_shop_configs x) (_lottery_draw_configs x)
    (_daily_game_prize_configs x) (_global_config x) (_server_open_time x) (_server_char x)
    (_need_connect_platform x) (_game_id x) (_server_type x) (_can_concern_weixin x)
    (_server_title x).
Definition set__map_spirit_shop (v : MAPSPIRITSHOP) (x : GameConfig) : GameConfig :=
 
    mkGameConfig (_tasks x) (_shop_heroes x) (_shop_time_sales_promotion x)
    (_chapter_config_infos x) (_gold_shop_config_infos x) (_drop_box_configs x)
    (_map_behavior_config x) (_map_random_obj_configs x) (_map_drop_box_configs x) v
    (_map_lotion_shop_configs x) (_lottery_draw_configs x) (_daily_game_prize_configs x)
    (_global_config x) (_server_open_time x) (_server_char x) (_need_connect_platform x)
    (_game_id x) (_server_type x) (_can_concern_weixin x) (_server_title x).
Definition set__map_lotion_shop_configs (v : MAPLOTIONSHOPCONFIGS) (x : GameConfig) : GameConfig
    :=
  mkGameConfig (_tasks x) (_shop_heroes x) (_shop_time_sales_promotion x)
    (_chapter_config_infos x) (_gold_shop_config_infos x) (_drop_box_configs x)
    (_map_behavior_config x) (_map_random_obj_configs x) (_map_drop_box_configs x)
    (_map_spirit_shop x) v (_lottery_draw_configs x) (_daily_game_prize_configs x)
    (_global_config x) (_server_open_time x) (_server_char x) (_need_connect_platform x)
    (_game_id x) (_server_type x) (_can_concern_weixin x) (_server_title x).
Definition set__lottery_draw_configs (v : list LotteryDrawBoxConfig) (x : GameConfig) :
    GameConfig :=
  mkGameConfig (_tasks x) (_shop_heroes x) (_shop_time_sales_promotion x)
    (_chapter_config_infos x) (_gold_shop_config_infos x) (_drop_box_configs x)
    (_map_behavior_config x) (_map_random_obj_configs x) (_map_drop_box_configs x)
    (_map_spirit_shop x) (_map_lotion_shop_configs x) v (_daily_game_prize_configs x)
    (_global_config x) (_server_open_time x) (_server_char x) (_need_connect_platform x)
    (_game_id x) (_server_type x) (_can_concern_weixin x) (_server_title x).
Definition set__daily_game_prize_configs (v : list DailyGamePrizeConfig) (x : GameConfig) :
    GameConfig :=
  mkGameConfig (_tasks x) (_shop_heroes x) (_shop_time_sales_promotion x)
    (_chapter_config_infos x) (_gold_shop_config_infos x) (_drop_box_configs x)
    (_map_behavior_config x) (_map_random_obj_configs x) (_map_drop_box_configs x)
    (_map_spirit_shop x) (_map_lotion_shop_configs x) (_lottery_draw_configs x) v (_global_config
    x) (_server_open_time x) (_server_char x) (_need_connect_platform x) (_game_id x)
    (_server_type x) (_can_concern_weixin x) (_server_title x).
Definition set__global_config (v : globalConfig) (x : GameConfig) : GameConfig :=
  mkGameConfig
    (_tasks x) (_shop_heroes x) (_shop_time_sales_promotion x) (_chapter_config_infos x)
    (_gold_shop_config_infos x) (_drop_box_configs x) (_map_behavior_config x)
    (_map_random_obj_configs x) (_map_drop_box_configs x) (_map_spirit_shop x)
    (_map_lotion_shop_configs x) (_lottery_draw_configs x) (_daily_game_prize_configs x) v
    (_server_open_time x) (_server_char x) (_need_connect_platform x) (_game_id x) (_server_type
    x) (_can_concern_weixin x) (_server_title x).
Definition set__server_open_time (v : Z) (x : GameConfig) : GameConfig :=
  mkGameConfig (_tasks
    x) (_shop_heroes x) (_shop_time_sales_promotion x) (_chapter_config_infos x)
    (_gold_shop_config_infos x) (_drop_box_configs x) (_map_behavior_config x)
    (_map_random_obj_configs x) (_map_drop_box_configs x) (_map_spirit_shop x)
    (_map_lotion_shop_configs x) (_lottery_draw_configs x) (_daily_game_prize_configs x)
    (_global_config x) v (_server_char x) (_need_connect_platform x) (_game_id x) (_server_type
    x) (_can_concern_weixin x) (_server_title x).
Definition set__server_char (v : Z) (x : GameConfig) : GameConfig :=
  mkGameConfig (_tasks x)
    (_shop_heroes x) (_shop_time_sales_promotion x) (_chapter_config_infos x)
    (_gold_shop_config_infos x) (_drop_box_configs x) (_map_behavior_config x)
    (_map_random_obj_configs x) (_map_drop_box_configs x) (_map_spirit_shop x)
    (_map_lotion_shop_configs x) (_lottery_draw_configs x) (_daily_game_prize_configs x)
    (_global_config x) (_server_open_time x) v (_need_connect_platform x) (_game_id x)
    (_server_type x) (_can_concern_weixin x) (_server_title x).
Definition set__need_connect_platform (v : bool) (x : GameConfig) : GameConfig :=
  mkGameConfig
    (_tasks x) (_shop_heroes x) (_shop_time_sales_promotion x) (_chapter_config_infos x)
    (_gold_shop_config_infos x) (_drop_box_configs x) (_map_behavior_config x)
    (_map_random_obj_configs x) (_map_drop_box_configs x) (_map_spirit_shop x)
    (_map_lotion_shop_configs x) (_lottery_draw_configs x) (_daily_game_prize_configs x)
    (_global_config x) (_server_open_time x) (_server_char x) v (_game_id x) (_server_type x)
    (_can_concern_weixin x) (_server_title x).
Definition set__game_id (v : Z) (x : GameConfig) : GameConfig :=
  mkGameConfig (_tasks x)
    (_shop_heroes x) (_shop_time_sales_promotion x) (_chapter_config_infos x)
    (_gold_shop_config_infos x) (_drop_box_configs x) (_map_behavior_config x)
    (_map_random_obj_configs x) (_map_drop_box_configs x) (_map_spirit_shop x)
    (_map_lotion_shop_configs x) (_lottery_draw_configs x) (_daily_game_prize_configs x)
    (_global_config x) (_server_open_time x) (_server_char x) (_need_connect_platform x) v
    (_server_type x) (_can_concern_weixin x) (_server_title x).
Definition set__server_type (v : Z) (x : GameConfig) : GameConfig :=
  mkGameConfig (_tasks x)
    (_shop_heroes x) (_shop_time_sales_promotion x) (_chapter_config_infos x)
    (_gold_shop_config_infos x) (_drop_box_configs x) (_map_behavior_config x)
    (_map_random_obj_configs x) (_map_drop_box_configs x) (_map_spirit_shop x)
    (_map_lotion_shop_configs x) (_lottery_draw_configs x) (_daily_game_prize_configs x)
    (_global_config x) (_server_open_time x) (_server_char x) (_need_connect_platform x)
    (_game_id x) v (_can_concern_weixin x) (_server_title x).
Definition set__can_concern_weixin (v : bool) (x : GameConfig) : GameConfig :=
  mkGameConfig
    (_tasks x) (_shop_heroes x) (_shop_time_sales_promotion x) (_chapter_config_infos x)
    (_gold_shop_config_infos x) (_drop_box_configs x) (_map_behavior_config x)
    (_map_random_obj_configs x) (_map_drop_box_configs x) (_map_spirit_shop x)
    (_map_lotion_shop_configs x) (_lottery_draw_configs x) (_daily_game_prize_configs x)
    (_global_config x) (_server_open_time x) (_server_char x) (_need_connect_platform x)
    (_game_id x) (_server_type x) v (_server_title x).
Definition set__server_title (v : string) (x : GameConfig) : GameConfig :=
  mkGameConfig (_tasks
    x) (_shop_heroes x) (_shop_time_sales_promotion x) (_chapter_config_infos x)
    (_gold_shop_config_infos x) (_drop_box_configs x) (_map_behavior_config x)
    (_map_random_obj_configs x) (_map_drop_box_configs x) (_map_spirit_shop x)
    (_map_lotion_shop_configs x) (_lottery_draw_configs x) (_daily_game_prize_configs x)
    (_global_config x) (_server_open_time x) (_server_char x) (_need_connect_platform x)
    (_game_id x) (_server_type x) (_can_concern_weixin x) v.


(** ** Getters and setters *)
Definition getShopConfig (c : GameConfig) (grid_id : Z) : option MsgShopConfigInfo :=
  mfind grid_id (_shop_heroes c).

Definition setHeroShopConfig (grid_id : Z) (open : bool) (c : GameConfig) : GameConfig :=
  match mfind grid_id (_shop_heroes c) with
  | Some shop_config =>
      set__shop_heroes (mput grid_id (set_sh_open open shop_config) (_shop_heroes c)) c
  | None => c
  end.

Definition getShopConfigs (c : GameConfig) : MAPSHOPHEROCONFIGS := _shop_heroes c.
Definition getMapTasks (c : GameConfig) : MAPTASKS := _tasks c.

Definition getGoldShopConfigInfos (c : GameConfig) (channel : Z) : option MAPGOLDSHOPCONFIGINFOS :=
  mfind channel (_gold_shop_config_infos c).

Fixpoint find_product (key : string) (m : MAPGOLDSHOPCONFIGINFOS) : option GoldShopConfigInfo :=
  match m with
  | [] => None
  | (_, v) :: m' =>
      if String.eqb (appstore_product_id_ v) key then Some v else find_product key m'
  end.

Definition getGoldShopConfigInfo_product (c : GameConfig) (channel : Z) (key : string)
    : option GoldShopConfigInfo :=
  match getGoldShopConfigInfos c channel with
  | Some map_configs => find_product key map_configs
  | None => None
  end.

(** By shop id: the channel map is dereferenced without a test, so an unknown
    channel is undefined behaviour (outer [None]). *)
Definition getGoldShopConfigInfo_id (c : GameConfig) (channel id : Z)
    : option (option GoldShopConfigInfo) :=
  match getGoldShopConfigInfos c channel with
  | Some map_configs => Some (mfind id map_configs)
  | None => None
  end.

Definition getChapterConfigInfo (c : GameConfig) (id : Z) : option MsgChapterConfigInfo :=
  mfind id (_chapter_config_infos c).
Definition getMapTask (c : GameConfig) (id : Z) : option MsgTaskConfigInfo :=
  mfind id (_tasks c).
Definition getTimeShopSalesPromotionConfigs (c : GameConfig) : MAPTIMESHOPSALESPROMOTIONCONFIGS :=
  _shop_time_sales_promotion c.
Definition getTimeShopSalesPromotionConfig (c : GameConfig) (id : Z)
    : option TimeShopSalesPromotionConfig :=
  mfind id (_shop_time_sales_promotion c).
Definition getLotionShops (c : GameConfig) : MAPLOTIONSHOPCONFIGS := _map_lotion_shop_configs c.
Definition getLotionShop (c : GameConfig) (index : Z) : option MsgLotionShopConfigInfo :=
  mfind index (_map_lotion_shop_configs c).
Definition getDropBox (c : GameConfig) : MAPTYPEDROPBOXCONFIGS := _drop_box_configs c.
Definition getMapDropBox (c : GameConfig) (chapter_id section_id : Z)
    : option MAPTYPEDROPBOXCONFIGS :=
  mfind (chapter_id, section_id) (_map_drop_box_configs c).
Definition getSpiritShops (c : GameConfig) : MAPSPIRITSHOP := _map_spirit_shop c.
Definition getSpiritShop (c : GameConfig) (index : Z) : option MsgSpiritShopInfo :=
  mfind index (_map_spirit_shop c).
Definition getGlobalConfig (c : GameConfig) : globalConfig := _global_config c.
Definition getLotteryDrawBoxs (c : GameConfig) : list LotteryDrawBoxConfig := _lottery_draw_configs c.
Definition getDailyGamePrizeConfigs (c : GameConfig) : list DailyGamePrizeConfig :=
  _daily_game_prize_configs c.
Definition isConcernWeiXin (c : GameConfig) : bool := _can_concern_weixin c.

Definition generateTitle (c : GameConfig) : GameConfig :=
  set__server_title (print_d (_game_id c) +:+ ";" +:+ print_d (_server_char c) +:+ ";"
                     +:+ print_d (_server_type c)) c.


(** ** Load *)

(** A result row of MySQL++: a cell converted to an integer or read as text. *)
Class DBRow (Row : Type) := {
  row_int : Row -> string -> Z;
  row_str : Row -> string -> string
}.

Section Load.
Context {Row : Type} `{DBRow Row}.

Definition row_bool (r : Row) (c : string) : bool := negb (row_int r c =? 0).

(** The cells of a condition column pair. *)
Definition task_condition (r : Row) (ty a1 a2 : string) : MsgTaskConditionInfo :=
  mkTaskCondition (row_int r ty) (row_int r a1) (row_int r a2).

Definition load_task (r : Row) : MsgTaskConfigInfo :=
  mkTaskConfig (row_int r "task_id")
    [task_condition r "type_1" "argument_1" "argument_1_1";
     task_condition r "type_2" "argument_2" "argument_2_1"]
    (row_int r "require_time") (row_int r "require_chapter") (row_int r "require_section")
    (row_int r "require_complete_task_count") (row_int r "gift_gold") (row_int r "difficulty")
    (row_str r "describe").

Definition load_tasks (rows : list Row) (c : GameConfig) : GameConfig :=
  fold_left (fun c r => let t := load_task r in
                        set__tasks (minsert (tk_taskid t) t (_tasks c)) c) rows c.

Definition load_shop (r : Row) : MsgShopConfigInfo :=
  mkShopConfig (row_int r "grid_id") (row_int r "hero_id") (row_int r "require_gold") 0
    (row_int r "require_chapter_id") (row_int r "require_section_id") (row_str r "describe")
    (row_bool r "open").

Definition load_shops (rows : list Row) (c : GameConfig) : GameConfig :=
  fold_left (fun c r => let t := load_shop r in
                        set__shop_heroes (minsert (sh_grid_id t) t (_shop_heroes c)) c) rows c.

Definition load_chapter (r : Row) : MsgChapterConfigInfo :=
  mkChapterConfig (row_int r "chapter_id") (row_int r "require_chapter_id")
    (row_int r "require_section_id") (row_int r "require_task_complete_count")
    (row_int r "require_gold") (row_int r "max_section_count") (row_str r "describe").

Definition load_chapters (rows : list Row) (c : GameConfig) : GameConfig :=
  fold_left (fun c r => let t := load_chapter r in
      set__chapter_config_infos (minsert (ch_chapter_id t) t (_chapter_config_infos c)) c) rows c.

(** The first row of [global_config]; the second component is what the rank
    manager is told: the rank size and the maximal daily progress. *)
Definition load_global (rows : list Row) (c : GameConfig) : GameConfig * option (Z * Z) :=
  match rows with
  | [] => (c, None)
  | row :: _ =>
      let g := _global_config c in
      (set__global_config
         (mkGlobalConfig (row_int row "config_gold") (row_int row "hero_unlock_count")
            (row_int row "day_refresh_time") (row_int row "day_free_task_count")
            (row_int row "day_task_advertisement_task_cd") (row_int row "hero_max_tasks_count")
            (row_int row "channel_id") (row_int row "game_id") (row_int row "refresh_task_gold")
            (row_int row "relive_gold") (row_int row "config_max_spirit")
            (row_int row "config_jewel") (row_int row "config_recover_spirit_minute")
            (row_int row "config_recover_spirit") (row_int row "config_enter_game_use_spirit")
            (row_int row "config_day_buy_spirit") (row_int row "weixin_gold")
            (daily_game_record_config_ g) (daily_game_reset_jewel_config_ g)
            (row_str row "weixin_cd_key")) c,
       Some (row_int row "daily_game_max_rank_size", row_int row "daily_game_max_progress"))
  end.

(** A [grid_ids] column: "grid,gold;grid,gold". *)
Definition parse_cheap_hero (grid_ids : string) : list (Z * Z) :=
  fold_left (fun m pair_entry =>
      match split pair_entry "," with
      | [grid_id; cheap_gold] => mput (atoi grid_id) (atoi cheap_gold) m
      | _ => m
      end) (split grid_ids ";") [].

Definition load_promotion_kind (r : Row) : option Promotion :=
  let promotion_type := row_int r "promotion_type" in
  if promotion_type =? 0 then
    Some (HeroPromotion (parse_cheap_hero (row_str r "grid_ids")))
  else if promotion_type =? 1 then
    Some (RechargeRattingPromotion (row_int r "recharge_ratting") (row_int r "recharge_type"))
  else if promotion_type =? 2 then
    Some (OpenHideHeroPromotion (map atoi (split (row_str r "open_hide_grides") ",")))
  else None.

Definition load_promotion_time (r : Row) : option EventTime :=
  let time_type := row_int r "time_type" in
  if time_type =? 0 then
    Some (mkEventTime Time_Normal (row_int r "UNIX_TIMESTAMP(`show_time`)")
            (row_int r "UNIX_TIMESTAMP(`begin_time`)") (row_int r "UNIX_TIMESTAMP(`end_time`)"))
  else if time_type =? 1 then
    Some (mkEventTime Time_Week (row_int r "show_time_week") (row_int r "begin_time_week")
            (row_int r "end_time_week"))
  else if time_type =? 2 then
    Some (mkEventTime Time_OpenServerOffsetTime (row_int r "offset_show_time")
            (row_int r "offset_begin_time") (row_int r "offset_end_time"))
  else None.

Definition load_promotion (r : Row) : TimeShopSalesPromotionConfig :=
  mkPromotionConfig (row_int r "sales_promotion_id") (load_promotion_time r)
    (load_promotion_kind r) (row_str r "name") (row_str r "time_describe") (row_str r "describe").

Definition load_promotions (rows : list Row) (c : GameConfig) : GameConfig :=
  fold_left (fun c r => let t := load_promotion r in
      set__shop_time_sales_promotion
        (minsert (pc_id_ t) t (_shop_time_sales_promotion c)) c) rows c.

Definition load_gold (r : Row) : GoldShopConfigInfo :=
  mkGoldShopConfig (row_str r "appstore_key")
    (mkGoldShop (row_int r "shop_id") (row_int r "resource_id") (row_int r "gold")
       (row_int r "money") (row_str r "describe") (row_int r "jewel") (row_str r "appstore_key")).

Definition load_gold_shop (rows : list Row) (c : GameConfig) : GameConfig :=
  fold_left (fun c r =>
      let channel := row_int r "channel" in
      let info := load_gold r in
      let m := _gold_shop_config_infos c in
      let entry := match mfind channel m with Some e => e | None => [] end in
      set__gold_shop_config_infos
        (mput channel (mput (gs_id (gold_info_ info)) info entry) m) c) rows c.

Definition load_drop (r : Row) : ObjDropBoxConfig :=
  mkObjDropBox (row_int r "obj_id") (row_int r "obj_type") (row_int r "base_gold")
    (row_int r "random_gold").

(** [m[type][id] = entry] with the missing inner map created. *)
Definition put_drop (ty id : Z) (entry : ObjDropBoxConfig) (m : MAPTYPEDROPBOXCONFIGS)
    : MAPTYPEDROPBOXCONFIGS :=
  let inner := match mfind ty m with Some e => e | None => [] end in
  mput ty (mput id entry inner) m.

Definition load_drop_box (rows : list Row) (c : GameConfig) : GameConfig :=
  fold_left (fun c r => let e := load_drop r in
      set__drop_box_configs (put_drop (ob_type_ e) (ob_obj_id_ e) e (_drop_box_configs c)) c) rows c.

Definition load_map_obj_count (rows : list Row) (c : GameConfig) : GameConfig :=
  fold_left (fun c r =>
      let key := (row_int r "chapter_id", row_int r "section_id") in
      let entry := mkMapBehavior key (row_int r "obj_behavior_id") (row_int r "obj_count")
                     (row_int r "max_pos_count") in
      let m := _map_behavior_config c in
      let inner := match mfind key m with Some e => e | None => [] end in
      set__map_behavior_config (mput key (mput (mb_obj_behavior_id_ entry) entry inner) m) c) rows c.

(** One row of [random_object]: it is used only when the object has a drop box. *)
Definition load_random_object (r : Row) (c : GameConfig) : GameConfig :=
  let behavior_id := row_int r "behavior_id" in
  let key := (row_int r "chapter_id", row_int r "section_id") in
  let entry := mkMapRandomObj (row_int r "obj_type") (row_int r "obj_id") in
  let rm := _map_random_obj_configs c in
  let inner := match mfind key rm with Some e => e | None => [] end in
  let rm1 := minsert key [] rm in
  match mfind (mr_type_ entry) (_drop_box_configs c) with
  | None => set__map_random_obj_configs rm1 c
  | Some boxes =>
      match mfind (mr_obj_id_ entry) boxes with
      | None => set__map_random_obj_configs rm1 c
      | Some box =>
          let objs := match mfind behavior_id inner with
                      | Some o => o | None => mkMapRandomObjs key behavior_id [] end in
          let objs' := mkMapRandomObjs (mo_key_ objs) (mo_obj_behavior_id_ objs)
                         (mo_objs_ objs ++ [entry]) in
          let dm := _map_drop_box_configs c in
          let dinner := match mfind key dm with Some e => e | None => [] end in
          set__map_drop_box_configs
            (mput key (put_drop (mr_type_ entry) (mr_obj_id_ entry) box dinner) dm)
            (set__map_random_obj_configs (mput key (mput behavior_id objs' inner) rm1) c)
      end
  end.

Definition load_random_objects (rows : list Row) (c : GameConfig) : GameConfig :=
  fold_left (fun c r => load_random_object r c) rows c.

Definition load_spirit_shop (rows : list Row) (c : GameConfig) : GameConfig :=
  fold_left (fun c r =>
      let e := mkSpiritShop (row_int r "index") (row_int r "spirit") (row_int r "need_jewel")
                 (row_int r "resource_id") (row_str r "describe") in
      set__map_spirit_shop (mput (ss_index e) e (_map_spirit_shop c)) c) rows c.

Definition load_lotion_shop (rows : list Row) (c : GameConfig) : GameConfig :=
  fold_left (fun c r =>
      let e := mkLotionShop (row_int r "lotion_id") (row_int r "use_type") (row_int r "use_count")
                 (row_int r "resource_id") (row_int r "big_resource_id") (row_str r "describe")
                 (row_str r "name") (row_int r "spell_id") in
      set__map_lotion_shop_configs (mput (ls_lotion_id e) e (_map_lotion_shop_configs c)) c) rows c.

Definition load_lottery (rows : list Row) (c : GameConfig) : GameConfig :=
  fold_left (fun c r =>
      set__lottery_draw_configs (_lottery_draw_configs c ++
        [mkLotteryBox (row_int r "type") (row_int r "sub_type") (row_int r "base_count")
           (row_int r "randdom_count") (row_int r "rating")]) c) rows c.

Definition load_daily_prize (rows : list Row) (c : GameConfig) : GameConfig :=
  fold_left (fun c r =>
      set__daily_game_prize_configs (_daily_game_prize_configs c ++
        [mkPrizeConfig (row_int r "rank_begin") (row_int r "rank_end") (row_int r "gold")]) c) rows c.

Definition load_daily_record (rows : list Row) (c : GameConfig) : GameConfig :=
  fold_left (fun c r =>
      let g := _global_config c in
      set__global_config (set_daily_game_record_config_
        (daily_game_record_config_ g ++ [row_int r "daily_game_record_progress"]) g) c) rows c.

Definition load_daily_reset (rows : list Row) (c : GameConfig) : GameConfig :=
  fold_left (fun c r =>
      let g := _global_config c in
      set__global_config (set_daily_game_reset_jewel_config_
        (daily_game_reset_jewel_config_ g ++ [row_int r "reset_jewel"]) g) c) rows c.

(** [GameConfig::Load]: [store] runs a query. *)
Definition Load (store : string -> list Row) (c : GameConfig) : GameConfig * option (Z * Z) :=
  let c := load_tasks (store "select * from `dream_heroes_task_config`;") c in
  let c := load_shops (store "select * from `hero_shop_config`;") c in
  let c := load_chapters (store "select * from `chapter_unlock_config`;") c in
  let '(c, rank) := load_global (store "select * from `global_config`;") c in
  let c := load_promotions (store "select * , UNIX_TIMESTAMP(`show_time`), UNIX_TIMESTAMP(`begin_time`), UNIX_TIMESTAMP(`end_time`) from `time_shop_sales_promotion`;") c in
  let c := load_gold_shop (store "select * from gold_shop_config_info;") c in
  let c := load_drop_box (store "select * from drop_box;") c in
  let c := load_map_obj_count (store "select * from map_obj_count;") c in
  let c := load_random_objects (store "select * from random_object;") c in
  let c := load_spirit_shop (store "select * from `spirit_shop_config`;") c in
  let c := load_lotion_shop (store "select * from `lotion_shop_config`;") c in
  let c := load_lottery (store "select * from `lottery_draw_box_config`;") c in
  let c := load_daily_prize (store "select * from daily_game_prize;") c in
  let c := load_daily_record (store "select * from daily_game_record_config ORDER by daily_game_record_progress ASC;") c in
  let c := load_daily_reset (store "select * from daily_game_reset_config ORDER by reset_jewel ASC;") c in
  (c, rank).
End Load.

(** ** Well-formed tables

    Every row is stored under its own key, in key order, and the per-section
    drop boxes are copies of rows of the drop-box table. *)
Record config_wf (c : GameConfig) : Prop := {
  wf_tasks : keyed tk_taskid (_tasks c);
  wf_shop : keyed sh_grid_id (_shop_heroes c);
  wf_chapters : keyed ch_chapter_id (_chapter_config_infos c);
  wf_promotions : keyed pc_id_ (_shop_time_sales_promotion c);
  wf_spirit : keyed ss_index (_map_spirit_shop c);
  wf_lotion : keyed ls_lotion_id (_map_lotion_shop_configs c);
  wf_gold : forall ch m, mfind ch (_gold_shop_config_infos c) = Some m ->
      keyed (fun v => gs_id (gold_info_ v)) m;
  wf_drop : forall ty m, mfind ty (_drop_box_configs c) = Some m -> keyed ob_obj_id_ m;
  wf_map_drop : forall key ty id b m, mfind key (_map_drop_box_configs c) = Some m ->
      (m' ← mfind ty m; mfind id m') = Some b ->
      (m' ← mfind ty (_drop_box_configs c); mfind id m') = Some b
}.

Lemma fold_left_inv {A B} (P : A -> Prop) (f : A -> B -> A) (l : list B) : forall a,
  P a -> (forall a b, P a -> P (f a b)) -> P (fold_left f l a).
Proof. induction l as [|b l IH]; intros a Ha Hf; cbn; [done|]. by apply IH; [apply Hf|]. Qed.

(** An edit of one table: the other conjuncts are untouched. *)
Ltac wf_edit := intros ? ? []; constructor; cbn; try done.

Lemma mfind_put_drop ty id e m ty' id' :
  (m' ← mfind ty' (put_drop ty id e m); mfind id' m')
  = if (ty' =? ty) && (id' =? id) then Some e else (m' ← mfind ty' m; mfind id' m').
Proof.
  unfold put_drop. destruct (Z.eqb_spec ty' ty) as [->|Hne].
  - rewrite mfind_put_eq. cbn. destruct (Z.eqb_spec id' id) as [->|Hne'].
    + apply mfind_put_eq.
    + rewrite mfind_put_ne by congruence. by destruct (mfind ty m).
  - by rewrite mfind_put_ne by congruence.
Qed.

Section LoadWf.
Context {Row : Type} `{DBRow Row}.
Implicit Types (c : GameConfig) (rows : list Row).

Lemma load_tasks_wf rows c : config_wf c -> config_wf (load_tasks rows c).
Proof. intros Hc. apply (fold_left_inv config_wf); [done|]. wf_edit. by apply keyed_insert. Qed.
Lemma load_shops_wf rows c : config_wf c -> config_wf (load_shops rows c).
Proof. intros Hc. apply (fold_left_inv config_wf); [done|]. wf_edit. by apply keyed_insert. Qed.
Lemma load_chapters_wf rows c : config_wf c -> config_wf (load_chapters rows c).
Proof. intros Hc. apply (fold_left_inv config_wf); [done|]. wf_edit. by apply keyed_insert. Qed.
Lemma load_promotions_wf rows c : config_wf c -> config_wf (load_promotions rows c).
Proof. intros Hc. apply (fold_left_inv config_wf); [done|]. wf_edit. by apply keyed_insert. Qed.
Lemma load_spirit_shop_wf rows c : config_wf c -> config_wf (load_spirit_shop rows c).
Proof. intros Hc. apply (fold_left_inv config_wf); [done|]. wf_edit. by apply keyed_put. Qed.
Lemma load_lotion_shop_wf rows c : config_wf c -> config_wf (load_lotion_shop rows c).
Proof. intros Hc. apply (fold_left_inv config_wf); [done|]. wf_edit. by apply keyed_put. Qed.

Lemma load_gold_shop_wf rows c : config_wf c -> config_wf (load_gold_shop rows c).
Proof.
  intros Hc. apply (fold_left_inv config_wf); [done|]. intros c1 r Hc1.
  destruct Hc1. constructor; cbn; try done. intros ch m. rewrite mfind_put.
  destruct (keqb ch (row_int r "channel")) eqn:E; [|by apply wf_gold0].
  apply keqb_eq in E. intros [= <-]. apply keyed_put; [|done].
  destruct (mfind (row_int r "channel") (_gold_shop_config_infos c1)) eqn:Em;
    [by eapply wf_gold0|apply keyed_nil].
Qed.

Lemma load_map_obj_count_wf rows c : config_wf c -> config_wf (load_map_obj_count rows c).
Proof. intros Hc. apply (fold_left_inv config_wf); [done|]. wf_edit. Qed.
Lemma load_lottery_wf rows c : config_wf c -> config_wf (load_lottery rows c).
Proof. intros Hc. apply (fold_left_inv config_wf); [done|]. wf_edit. Qed.
Lemma load_daily_prize_wf rows c : config_wf c -> config_wf (load_daily_prize rows c).
Proof. intros Hc. apply (fold_left_inv config_wf); [done|]. wf_edit. Qed.
Lemma load_daily_record_wf rows c : config_wf c -> config_wf (load_daily_record rows c).
Proof. intros Hc. apply (fold_left_inv config_wf); [done|]. wf_edit. Qed.
Lemma load_daily_reset_wf rows c : config_wf c -> config_wf (load_daily_reset rows c).
Proof. intros Hc. apply (fold_left_inv config_wf); [done|]. wf_edit. Qed.

Lemma load_global_wf rows c : config_wf c -> config_wf (load_global rows c).1.
Proof. intros []. destruct rows; by constructor. Qed.

(** The drop boxes are loaded before any section refers to them. *)
Lemma load_drop_box_wf rows c :
  config_wf c -> _map_drop_box_configs c = [] ->
  config_wf (load_drop_box rows c) /\ _map_drop_box_configs (load_drop_box rows c) = [].
Proof.
  intros Hc He.
  apply (fold_left_inv (fun c => config_wf c /\ _map_drop_box_configs c = [])); [done|]. intros c1 r [Hc1 He1].
  split; [|done]. destruct Hc1. constructor; cbn; try done.
  - intros ty m. unfold put_drop. rewrite mfind_put.
    destruct (keqb ty (row_int r "obj_type")) eqn:E; [|by apply wf_drop0].
    intros [= <-]. apply keyed_put; [|done].
    destruct (mfind (row_int r "obj_type") (_drop_box_configs c1)) eqn:Em;
      [by eapply wf_drop0|apply keyed_nil].
  - rewrite He1. done.
Qed.

Lemma load_random_object_wf r c : config_wf c -> config_wf (load_random_object r c).
Proof.
  intros []. unfold load_random_object. cbn [mr_type_ mr_obj_id_].
  destruct (mfind (row_int r "obj_type") (_drop_box_configs c)) as [boxes|] eqn:Eb;
    [|by constructor].
  destruct (mfind (row_int r "obj_id") boxes) as [box|] eqn:Ex; [|by constructor].
  constructor; cbn; try done. intros key ty id b m. rewrite mfind_put.
  destruct (keqb key _) eqn:Ek; [|by apply wf_map_drop0]. intros [= <-].
  rewrite mfind_put_drop. destruct (_ && _) eqn:Et.
  - apply andb_prop in Et as [Ht Hi]. apply Z.eqb_eq in Ht as ->, Hi as ->.
    rewrite Eb. cbn. congruence.
  - destruct (mfind (row_int r "chapter_id", row_int r "section_id") (_map_drop_box_configs c))
      as [m0|] eqn:Em; [|done]. by eapply wf_map_drop0.
Qed.

Lemma load_random_objects_wf rows c : config_wf c -> config_wf (load_random_objects rows c).
Proof. intros Hc. apply (fold_left_inv config_wf); [done|]. intros. by apply load_random_object_wf. Qed.

Lemma load_tasks_find rows c id :
  mfind id (_tasks (load_tasks rows c))
  = match mfind id (_tasks c) with
    | Some t => Some t
    | None => load_task <$> find (fun r => keqb id (tk_taskid (load_task r))) rows
    end.
Proof.
  assert (Ht : forall c, _tasks (load_tasks rows c)
    = fold_left (fun m r => minsert (tk_taskid (load_task r)) (load_task r) m) rows (_tasks c)).
  { unfold load_tasks. induction rows as [|r l IH]; intros c1; [done|]. cbn [fold_left].
    by rewrite IH. }
  rewrite Ht. apply (mfind_fold_insert (fun r => tk_taskid (load_task r))).
Qed.

(** Each loader leaves the other tables alone. *)
Lemma load_keeps {A} (proj : GameConfig -> A) (f : GameConfig -> Row -> GameConfig) rows c :
  (forall c r, proj (f c r) = proj c) -> proj (fold_left f rows c) = proj c.
Proof.
  intros Hf. revert c. induction rows as [|r rows IH]; intros c; [done|]. cbn. by rewrite IH.
Qed.

Lemma load_global_keeps_tasks rows c : _tasks (load_global rows c).1 = _tasks c.
Proof. by destruct rows. Qed.
Lemma load_global_keeps_drop rows c :
  _map_drop_box_configs (load_global rows c).1 = _map_drop_box_configs c.
Proof. by destruct rows. Qed.

Lemma load_random_object_tasks r c : _tasks (load_random_object r c) = _tasks c.
Proof.
  unfold load_random_object. cbn [mr_type_ mr_obj_id_].
  destruct (mfind (row_int r "obj_type") (_drop_box_configs c)) as [m|]; [|done].
  by destruct (mfind (row_int r "obj_id") m).
Qed.

(** The tables of [Load], after the tasks. *)
Lemma Load_tasks store c :
  _tasks (Load store c).1
  = _tasks (load_tasks (store "select * from `dream_heroes_task_config`;"%string) c).
Proof.
  unfold Load. destruct (load_global _ _) as [c1 rank] eqn:Eg.
  apply (f_equal fst) in Eg. cbn [fst] in *.
  repeat (etransitivity; [apply (load_keeps _tasks); intros;
    first [reflexivity|apply load_random_object_tasks]|]).
  rewrite <- Eg, load_global_keeps_tasks.
  repeat (etransitivity; [apply (load_keeps _tasks); intros; reflexivity|]).
  reflexivity.
Qed.

Lemma Load_wf store c :
  config_wf c -> _map_drop_box_configs c = [] -> config_wf (Load store c).1.
Proof.
  intros Hc He. unfold Load. destruct (load_global _ _) as [c1 rank] eqn:Eg.
  apply (f_equal fst) in Eg. cbn [fst] in *.
  apply load_daily_reset_wf, load_daily_record_wf, load_daily_prize_wf, load_lottery_wf,
    load_lotion_shop_wf, load_spirit_shop_wf, load_random_objects_wf, load_map_obj_count_wf.
  apply load_drop_box_wf.
  - apply load_gold_shop_wf, load_promotions_wf. rewrite <- Eg.
    by apply load_global_wf, load_chapters_wf, load_shops_wf, load_tasks_wf.
  - repeat (etransitivity; [apply (load_keeps _map_drop_box_configs); intros; reflexivity|]).
    rewrite <- Eg, load_global_keeps_drop.
    repeat (etransitivity; [apply (load_keeps _map_drop_box_configs); intros; reflexivity|]). done.
Qed.
End LoadWf.

(** ** Properties *)

(** C24: loading the configuration builds well-formed tables from any database
    rows: every row is found under its own key, the drop boxes of a map section
    are rows of the drop-box table, and of several task rows with one id the
    first one counts. *)
Theorem Load_correct {Row : Type} `{DBRow Row} (store : string -> list Row) c :
  config_wf c -> _map_drop_box_configs c = [] -> _tasks c = [] ->
  config_wf (Load store c).1 /\
  forall id, getMapTask (Load store c).1 id
    = load_task <$> find (fun r => tk_taskid (load_task r) =? id)
                      (store "select * from `dream_heroes_task_config`;"%string).
Proof.
  intros Hc He Ht. split; [by apply Load_wf|]. intros id. unfold getMapTask.
  rewrite Load_tasks, load_tasks_find, Ht. cbn [mfind]. f_equal.
  generalize (store "select * from `dream_heroes_task_config`;"%string). intros l.
  induction l as [|r l IH]; [done|]. cbn in IH |- *. rewrite IH.
  destruct (Z.eqb_spec (row_int r "task_id") id) as [->|Hne].
  - by rewrite keqb_refl.
  - by rewrite (proj2 (keqb_neq id _)) by congruence.
Qed.

(** Rows as association lists of cells. *)
Definition demo_row : Type := list (string * Z).
#[export] Instance demo_row_cells : DBRow demo_row := {|
  row_int r c := match find (fun kv => String.eqb kv.1 c) r with Some (_, v) => v | None => 0 end;
  row_str r c := ""%string
|}.
Definition empty_config : GameConfig :=
  mkGameConfig [] [] [] [] [] [] [] [] [] [] [] [] []
    (mkGlobalConfig 0 0 0 0 0 0 0 0 0 0 0 0 0 0 0 0 0 [] [] "") 0 0 false 0 0 false "".
Definition demo_store (q : string) : list demo_row :=
  if String.eqb q "select * from `dream_heroes_task_config`;" then
    [[("task_id", 7); ("gift_gold", 50)]; [("task_id", 7); ("gift_gold", 60)]]%string
  else [].

Lemma empty_config_wf : config_wf empty_config.
Proof. constructor; cbn; first [apply keyed_nil|done]. Qed.

Lemma Load_correct_witness :
  config_wf empty_config /\ _map_drop_box_configs empty_config = [] /\ _tasks empty_config = [] /\
  config_wf (Load demo_store empty_config).1 /\
  (tk_gift_gold <$> getMapTask (Load demo_store empty_config).1 7) = Some 50.
Proof.
  pose proof (Load_correct demo_store empty_config empty_config_wf eq_refl eq_refl) as [Hwf Ht].
  split; [exact empty_config_wf|]. split; [reflexivity|]. split; [reflexivity|].
  split; [exact Hwf|]. rewrite (Ht 7). vm_compute. reflexivity.
Defined.
