(* ===== verification/Record.v ===== *)
(** * gameserver/RecordManager: the audit log of the game server

    Every gameplay handler appends a row to the vector of its record type;
    [update] turns each vector into INSERT statements of at most ten rows and
    empties it.  Rows are the texts [sprintf] prints (the same formats); the
    10240-byte row buffer only matters for the receipt of [dealWaitToVerifyRecord],
    whose length the client chooses, and is checked there. *)
From S2P Require Import Prelude Text Calendar.

(** ** Record types *)
Inductive RecordType :=
| RecordTypeLogin
| RecordTypeLoginOut
| RecordTypeEnterGame
| RecordTypeLeaveGame
| RecordTypeTaskComplete
| RecordTypeTaskAccepte
| RecordTypeTaskGiveUp
| RecordTypeChapterUnlock
| RecordTypeGoldModify
| RecordTypeBuyHero
| RecordTypeDealWaitToPay
| RecordTypeDealToPay
| RecordTypeWaitToVerify
| RecordTypeGiveUpDeal
| RecordTypeRelive
| RecordTypeOnlineCount
| RecordTypeBuySpirit
| RecordDailyGame
| RecordDailyGameReward
| RecordDailyLotteryRecord
| RecordCreateName.

#[export] Instance RecordType_eq_dec : EqDecision RecordType.
Proof. solve_decision. Defined.

(** The loop [for (i = RecordTypeLogin; i < RecordTypeMax; i++)]. *)
Definition record_types : list RecordType :=
  [RecordTypeLogin; RecordTypeLoginOut; RecordTypeEnterGame; RecordTypeLeaveGame;
   RecordTypeTaskComplete; RecordTypeTaskAccepte; RecordTypeTaskGiveUp; RecordTypeChapterUnlock;
   RecordTypeGoldModify; RecordTypeBuyHero; RecordTypeDealWaitToPay; RecordTypeDealToPay;
   RecordTypeWaitToVerify; RecordTypeGiveUpDeal; RecordTypeRelive; RecordTypeOnlineCount;
   RecordTypeBuySpirit; RecordDailyGame; RecordDailyGameReward; RecordDailyLotteryRecord;
   RecordCreateName].

(** [enum GoldModifyType] *)
Inductive GoldModifyType :=
| GoldModify_LeaveGame
| GoldModify_KillMonster
| GoldModify_CompleteTask
| GoldModify_UnlockChapter
| GoldModify_BuyHero
| GoldModify_BuyGold
| GoldModify_AcceptTask
| GoldModify_ReliveRecord
| GoldModify_DailyGameReward
| GoldModify_DailyLottery
| GoldModify_DailyConcernWeiXin.

Definition gold_modify_code (g : GoldModifyType) : Z :=
  match g with
  | GoldModify_LeaveGame => 0 | GoldModify_KillMonster => 1 | GoldModify_CompleteTask => 2
  | GoldModify_UnlockChapter => 3 | GoldModify_BuyHero => 4 | GoldModify_BuyGold => 5
  | GoldModify_AcceptTask => 6 | GoldModify_ReliveRecord => 7
  | GoldModify_DailyGameReward => 8 | GoldModify_DailyLottery => 9
  | GoldModify_DailyConcernWeiXin => 10
  end.

(** The constructor's [_sql_head]. *)
Definition _sql_head (t : RecordType) : string :=
  match t with
  | RecordTypeLogin => "insert into `login_record`(`account_id`, `nick_name`, `record_time`) values "
  | RecordTypeLoginOut => "insert into `login_out_record`(`account_id`, `nick_name`, `record_time`) values "
  | RecordTypeEnterGame => "insert into `enter_game_record`(`account_id`, `nick_name`, `chapter_id`, `section_id`, `current_gold`, `record_time`) values "
  | RecordTypeLeaveGame => "insert into `leave_game_record`(`account_id`, `nick_name`, `chapter_id`, `section_id`, `success`, `gold`, `current_gold`, `record_time`) values"
  | RecordTypeTaskComplete => "insert into `task_complete_record`(`account_id`, `nick_name`, `chapter_id`, `section_id`, `task_id`, `gold`, `current_gold`, `record_time`) values"
  | RecordTypeTaskAccepte => "insert into `task_accepte_record`(`account_id`, `nick_name`, `gold`, `current_gold`, `task_id`, `record_time`) values"
  | RecordTypeTaskGiveUp => "insert into `task_give_up_record`(`account_id`, `nick_name`, `task_id`, `record_time`) values"
  | RecordTypeChapterUnlock => "insert into `chapter_unlock_record`(`account_id`, `nick_name`, `chapter_id`, `gold`,  `current_gold`,`record_time`) values"
  | RecordTypeGoldModify => "insert into `modify_gold_record`(`account_id`, `nick_name`, `gold`,  `current_gold`,`modify_type`, `record_time`) values"
  | RecordTypeBuyHero => "insert into `buy_hero_record`(`account_id`, `nick_name`, `grid_hero`, `gold`, `current_gold`, `record_time`) values"
  | RecordTypeDealWaitToPay => "insert into `deal_wait_to_pay`(`account_id`, `status`, `price`, `order_id`, `product_id`, `record_time`) values"
  | RecordTypeDealToPay => "insert into `deal_to_pay`(`account_id`, `status`, `order_id`, `modify_gold`, `current_gold`, `product_id`, `modify_jewel`, `current_jewel`, `record_time`) values"
  | RecordTypeWaitToVerify => "insert into `deal_wait_to_verify_reocrd`(`account_id`, `order_id`, `name`, `receipt`, `record_time`) values"
  | RecordTypeGiveUpDeal => "insert into `give_up_deal`(`account_id`, `status`, `price`, `order_id`, `product_id`, `record_time`) values"
  | RecordTypeRelive => "insert into `relive_record`(`account_id`, `nick_name`, `gold`, `current_gold`, `record_time`) values"
  | RecordTypeOnlineCount => "insert into `game_online_record`(`online_player_count`, `offline_player_count`, `record_time`) values"
  | RecordTypeBuySpirit => "insert into `buy_spirit_record`(`account_id`, `nick_name`,`spirit`, `day_buy_count`, `current_spirit`, `use_jewel`, `current_jewel`, `record_time`) values"
  | RecordDailyGame => "insert into `daily_game_record`(`account_id`, `nick_name`, `daily_game_rank`, `daily_game_score`, `record_time`) values"
  | RecordDailyGameReward => "insert into `daily_game_reward`(`account_id`, `nick_name`, `daily_game_rank`, `daily_gold`, `current_gold`, `record_time`) values"
  | RecordDailyLotteryRecord => "insert into `daily_lottery_record`(`account_id`, `nick_name`, `daily_gold`, `current_gold`, `daily_jewel`, `current_jewel`, `lottery_lotion`, `record_time`) values"
  | RecordCreateName => "insert into `create_name_record`(`name`, `day_create_count`, `day_title`, `record_time`) values"
  end.

(** ** State: one vector of rows per type *)
Record RecordManager := mkRecordManager { _record : RecordType -> list string }.

Definition push_record (t : RecordType) (row : string) (r : RecordManager) : RecordManager :=
  mkRecordManager (fun t' => if decide (t' = t) then _record r t' ++ [row] else _record r t').

Definition empty_records : RecordManager := mkRecordManager (fun _ => []).

(** ** Appending rows *)
Section Rows.
(** [getCurTime()]: the text of [g_server_time]. *)
Context (tz g_server_time : Z).

Definition getCurTime : string := build_unix_time_to_string tz g_server_time.

Definition goldModifyRecord (acc : Z) (nick_name : string) (gold : Z) (current_gold : Z)
    (en : GoldModifyType) (r : RecordManager) : RecordManager :=
  push_record RecordTypeGoldModify (sprintf "(%llu, '%s', %d, %d, %d,'%s')"
    [AU acc; AS nick_name; AD gold; AD current_gold; AD (gold_modify_code en); AS getCurTime]) r.

Definition generateNameRecord (nick_name : string) (day_create_count : Z) (day_title : string)
    (r : RecordManager) : RecordManager :=
  push_record RecordCreateName (sprintf "('%s', %d, '%s', '%s')"
    [AS nick_name; AD day_create_count; AS day_title; AS getCurTime]) r.

Definition dailyLotteryRecord (acc : Z) (nick_name : string) (jewel : Z) (current_jewel : Z)
    (gold : Z) (current_gold : Z) (lotion_id : Z) (r : RecordManager) : RecordManager :=
  let r1 := push_record RecordDailyLotteryRecord (sprintf "(%llu, '%s', %d, %d, %d, %d, %d,'%s')"
    [AU acc; AS nick_name; AD jewel; AD current_jewel; AD gold; AD current_jewel; AD lotion_id; AS getCurTime]) r in
  if negb (gold =? 0) then goldModifyRecord acc nick_name gold current_gold GoldModify_DailyLottery r1 else r1.

Definition dailyGameRewardRecord (acc : Z) (nick_name : string) (daily_game_rank : Z)
    (daily_gold : Z) (current_gold : Z) (r : RecordManager) : RecordManager :=
  let r1 := push_record RecordDailyGameReward (sprintf "(%llu, '%s', %d, %d, %d,'%s')"
    [AU acc; AS nick_name; AD daily_game_rank; AD daily_gold; AD current_gold; AS getCurTime]) r in
  if negb (daily_gold =? 0) then goldModifyRecord acc nick_name daily_gold current_gold GoldModify_DailyGameReward r1 else r1.

Definition dailyGameRecord (acc : Z) (nick_name : string) (daily_game_rank : Z)
    (daily_game_score : Z) (r : RecordManager) : RecordManager :=
  push_record RecordDailyGame (sprintf "(%llu, '%s', %d, %d, '%s')"
    [AU acc; AS nick_name; AD daily_game_rank; AD daily_game_score; AS getCurTime]) r.

Definition reliveRecord (acc : Z) (nick_name : string) (gold : Z) (current_gold : Z)
    (r : RecordManager) : RecordManager :=
  push_record RecordTypeRelive (sprintf "(%llu, '%s', %d, %d,'%s')"
    [AU acc; AS nick_name; AD gold; AD current_gold; AS getCurTime]) r.

Definition buySpiritRecord (acc : Z) (nick_name : string) (spirit : Z) (day_buy_count : Z)
    (current_spirit : Z) (use_jewel : Z) (current_jewel : Z)
    (r : RecordManager) : RecordManager :=
  push_record RecordTypeBuySpirit (sprintf "(%llu, '%s', %d, %d, %d, %d, %d, '%s')"
    [AU acc; AS nick_name; AD spirit; AD day_buy_count; AD current_spirit; AD use_jewel; AD current_jewel; AS getCurTime]) r.

Definition loginRecord (acc : Z) (nick_name : string) (r : RecordManager) : RecordManager :=
  push_record RecordTypeLogin (sprintf "(%llu, '%s','%s')"
    [AU acc; AS nick_name; AS getCurTime]) r.

Definition loginOutRecord (acc : Z) (nick_name : string) (r : RecordManager) : RecordManager :=
  push_record RecordTypeLoginOut (sprintf "(%llu, '%s','%s')"
    [AU acc; AS nick_name; AS getCurTime]) r.

Definition enterGameRecord (acc : Z) (nick_name : string) (chapter_id : Z) (section_id : Z)
    (current_gold : Z) (r : RecordManager) : RecordManager :=
  push_record RecordTypeEnterGame (sprintf "(%llu, '%s', %d, %d, %d,'%s')"
    [AU acc; AS nick_name; AD chapter_id; AD section_id; AD current_gold; AS getCurTime]) r.

Definition leaveGameRecord (acc : Z) (nick_name : string) (chapter_id : Z) (section_id : Z)
    (success : bool) (gold : Z) (current_gold : Z) (r : RecordManager) : RecordManager :=
  push_record RecordTypeLeaveGame (sprintf "(%llu, '%s', %d, %d, %d, %d, %d, '%s')"
    [AU acc; AS nick_name; AD chapter_id; AD section_id; AD (Z.b2z success); AD gold; AD current_gold; AS getCurTime]) r.

Definition taskCompleteRecord (acc : Z) (nick_name : string) (chapter_id : Z) (section_id : Z)
    (task_id : Z) (gold : Z) (current_gold : Z) (r : RecordManager) : RecordManager :=
  push_record RecordTypeTaskComplete (sprintf "(%llu, '%s', %d, %d, %d, %d, %d,'%s')"
    [AU acc; AS nick_name; AD chapter_id; AD section_id; AD task_id; AD gold; AD current_gold; AS getCurTime]) r.

Definition taskAccepteRecordRecord (acc : Z) (nick_name : string) (gold : Z) (current_gold : Z)
    (task_id : Z) (r : RecordManager) : RecordManager :=
  push_record RecordTypeTaskAccepte (sprintf "(%llu, '%s', %d, %d, %d,'%s')"
    [AU acc; AS nick_name; AD gold; AD current_gold; AD task_id; AS getCurTime]) r.

Definition taskGiveUpRecord (acc : Z) (nick_name : string) (task_id : Z)
    (r : RecordManager) : RecordManager :=
  push_record RecordTypeTaskGiveUp (sprintf "(%llu, '%s', %d, '%s')"
    [AU acc; AS nick_name; AD task_id; AS getCurTime]) r.

Definition chapterUnlockRecord (acc : Z) (nick_name : string) (chapter_id : Z) (gold : Z)
    (current_gold : Z) (r : RecordManager) : RecordManager :=
  push_record RecordTypeChapterUnlock (sprintf "(%llu, '%s', %d, %d, %d,'%s')"
    [AU acc; AS nick_name; AD chapter_id; AD gold; AD current_gold; AS getCurTime])
    (goldModifyRecord acc nick_name gold current_gold GoldModify_UnlockChapter r).

Definition buyHeroRecord (acc : Z) (nick_name : string) (grid : Z) (gold : Z)
    (current_gold : Z) (r : RecordManager) : RecordManager :=
  push_record RecordTypeBuyHero (sprintf "(%llu, '%s', %d, %d, %d, '%s')"
    [AU acc; AS nick_name; AD grid; AD gold; AD current_gold; AS getCurTime])
    (goldModifyRecord acc nick_name gold current_gold GoldModify_BuyHero r).

Definition dealWaitToPayRecord (acc : Z) (key_code : string) (status : Z) (price : Z)
    (order_id : Z) (r : RecordManager) : RecordManager :=
  push_record RecordTypeDealWaitToPay (sprintf "(%llu, %d, %d, %d, '%s', '%s')"
    [AU acc; AD status; AD price; AD order_id; AS key_code; AS getCurTime]) r.

(** The receipt may overrun the row buffer. *)
Definition dealWaitToVerifyRecord (acc : Z) (name : string) (order_id : Z) (recepit : string)
    (r : RecordManager)
    : option RecordManager :=
  let row := sprintf "(%llu, %d, '%s', '%s', '%s')"
    [AU acc; AD order_id; AS name; AS recepit; AS getCurTime] in
  if Z.of_nat (String.length row) <? 10240 then Some (push_record RecordTypeWaitToVerify row r) else None.

Definition dealPayRecord (acc : Z) (key_code : string) (status : Z) (order_id : Z)
    (modify_gold : Z) (current_gold : Z) (modify_jewel : Z) (current_jewel : Z)
    (r : RecordManager) : RecordManager :=
  push_record RecordTypeDealToPay (sprintf "(%llu, %d, %d, %d, %d, '%s', %d, %d,'%s')"
    [AU acc; AD status; AD order_id; AD modify_gold; AD current_gold; AS key_code; AD modify_jewel; AD current_jewel; AS getCurTime]) r.

Definition gameOnlineRecord (online_count : Z) (offline_count : Z)
    (r : RecordManager) : RecordManager :=
  push_record RecordTypeOnlineCount (sprintf "(%d, %d, '%s')"
    [AD online_count; AD offline_count; AS getCurTime]) r.

Definition giveUpDealRecord (acc : Z) (key_code : string) (status : Z) (price : Z)
    (order_id : Z) (r : RecordManager) : RecordManager :=
  push_record RecordTypeGiveUpDeal (sprintf "(%llu, %d, %d, %d, '%s', '%s')"
    [AU acc; AD status; AD price; AD order_id; AS key_code; AS getCurTime]) r.

End Rows.

(** ** update *)

(** One turn of the inner loop: [j], the statement under construction and the
    statements sent so far. *)
Definition update_row (head : string) (st : Z * string * list string) (row : string)
    : Z * string * list string :=
  let '(j, sql_record, sent) := st in
  let '(j, sql_record, sent) :=
    if 10 <=? j then (0, EmptyString, sent ++ [sql_record]) else (j, sql_record, sent) in
  let sql_record := if j =? 0 then sql_record +:+ head else sql_record +:+ "," in
  (j + 1, sql_record +:+ row, sent).

(** The loop over one vector and the final partial statement. *)
Definition update_type (head : string) (rows : list string) : list string :=
  let '(_, sql_record, sent) := fold_left (update_row head) rows (0, EmptyString, []) in
  if String.eqb sql_record EmptyString then sent else sent ++ [sql_record].

(** The statements sent to the database server, and the emptied vectors. *)
Definition update (r : RecordManager) : RecordManager * list string :=
  (mkRecordManager (fun _ => []),
   concat (map (fun t => update_type (_sql_head t) (_record r t)) record_types)).

(** *** What [update] sends *)

(** A statement for a batch of rows. *)
Definition statement (head : string) (rows : list string) : string := head +:+ join "," rows.

(** [update] cuts the rows into batches: all of them full except the last. *)
Definition batched (n : nat) (rows : list string) (batches : list (list string)) : Prop :=
  concat batches = rows /\
  Forall (fun b => b <> [] /\ (length b <= n)%nat) batches /\
  Forall (fun b => length b = n) (removelast batches).

Definition pending (head : string) (cur : list string) : string :=
  match cur with [] => EmptyString | _ => statement head cur end.

Lemma pending_snoc head cur row :
  (if Z.of_nat (length cur) =? 0 then pending head cur +:+ head
   else pending head cur +:+ ",") +:+ row = pending head (cur ++ [row]).
Proof.
  destruct cur as [|x cur]; [done|].
  replace (Z.of_nat (length (x :: cur)) =? 0) with false
    by (symmetry; apply Z.eqb_neq; cbn [length]; lia).
  unfold pending. rewrite <- app_comm_cons. unfold statement.
  rewrite app_comm_cons, join_snoc by done. by rewrite !str_app_assoc.
Qed.

Lemma update_rows_inv head rows : forall cur sent,
  (length cur <= 10)%nat -> (cur = [] -> sent = []) ->
  Forall (fun b => length b = 10%nat) sent ->
  exists cur' sent' j,
    fold_left (update_row head) rows
      (Z.of_nat (length cur), pending head cur, map (statement head) sent)
    = (j, pending head cur', map (statement head) sent') /\
    concat sent' ++ cur' = concat sent ++ cur ++ rows /\
    (length cur' <= 10)%nat /\ (cur' = [] -> sent' = []) /\
    Forall (fun b => length b = 10%nat) sent'.
Proof.
  induction rows as [|row rows IH]; intros cur sent Hlen Hne Hall.
  { exists cur, sent, (Z.of_nat (length cur)). rewrite app_nil_r. done. }
  cbn [fold_left].
  destruct (decide (length cur = 10%nat)) as [Hfull|Hfull].
  - destruct (IH [row] (sent ++ [cur])) as (cur' & sent' & j & Hf & Hc & H').
    { cbn. lia. } { done. } { apply Forall_app. split; [done|]. by constructor. }
    exists cur', sent', j. split; [|split; [|done]].
    + rewrite <- Hf. f_equal. unfold update_row. rewrite Hfull.
      change (10 <=? Z.of_nat 10) with true. cbv iota. cbn. f_equal. rewrite map_app. cbn.
      destruct cur; [done|]. done.
    + rewrite Hc, concat_app. cbn. by rewrite app_nil_r, <- !app_assoc.
  - destruct (IH (cur ++ [row]) sent) as (cur' & sent' & j & Hf & Hc & H').
    { rewrite length_app. cbn. lia. } { intros Hnil. by destruct cur. } { done. }
    exists cur', sent', j. split; [|split; [|done]].
    + rewrite <- Hf. f_equal. unfold update_row.
      replace (10 <=? Z.of_nat (length cur)) with false by (symmetry; apply Z.leb_gt; lia).
      rewrite pending_snoc, length_app. cbn [length].
      replace (Z.of_nat (length cur + 1)) with (Z.of_nat (length cur) + 1) by lia. done.
    + rewrite Hc. by rewrite <- !app_assoc.
Qed.

Lemma pending_empty head cur : head <> EmptyString -> pending head cur = EmptyString <-> cur = [].
Proof.
  intros Hh. destruct cur; cbn; [done|]. split; [|done]. unfold statement.
  intros He. by apply str_app_empty in He as [? _].
Qed.

Lemma sql_head_nonempty t : _sql_head t <> EmptyString.
Proof. by destruct t. Qed.

Lemma update_type_batched head rows : head <> EmptyString ->
  exists batches, update_type head rows = map (statement head) batches /\ batched 10 rows batches.
Proof.
  intros Hh. destruct (update_rows_inv head rows [] []) as (cur & sent & j & Hf & Hc & Hl & Hn & Ha);
    [cbn; lia|done|constructor|].
  unfold update_type. change (0, EmptyString, []) with
    (Z.of_nat (length (@nil string)), pending head [], map (statement head) []).
  rewrite Hf. cbn in Hc.
  assert (Hsent : Forall (fun b => b <> [] /\ (length b <= 10)%nat) sent).
  { eapply Forall_impl; [exact Ha|]. intros b Hb. cbn beta in Hb. split; [by intros ->|lia]. }
  destruct (String.eqb_spec (pending head cur) EmptyString) as [He|He].
  - apply pending_empty in He; [|done]. rewrite (Hn He) in *. subst cur. cbn in Hc. subst rows.
    exists []. done.
  - assert (Hcur : cur <> []) by (intros ->; by apply He).
    exists (sent ++ [cur]). rewrite map_app. cbn. split; [by destruct cur|].
    split; [|split].
    + by rewrite concat_app; cbn; rewrite app_nil_r.
    + apply Forall_app. split; [done|]. by constructor.
    + by rewrite removelast_last.
Qed.

(** ** Properties *)

(** [RecordManager::update] loses, duplicates and reorders nothing: for
    every record type the rows logged since the last update are sent as INSERT
    statements with the head of that type, in batches of ten rows of which only
    the last may be shorter, and afterwards every vector is empty. *)
Theorem update_sends_every_row r :
  exists batches : list (list (list string)),
    Forall2 (fun t b => batched 10 (_record r t) b) record_types batches /\
    (update r).2 = concat (zip_with (fun t b => map (statement (_sql_head t)) b)
                             record_types batches) /\
    (forall t, t ∈ record_types) /\ (forall t, _record (update r).1 t = []).
Proof.
  enough (Hex : forall l, exists batches,
    Forall2 (fun t b => batched 10 (_record r t) b) l batches /\
    map (fun t => update_type (_sql_head t) (_record r t)) l
    = zip_with (fun t b => map (statement (_sql_head t)) b) l batches).
  { destruct (Hex record_types) as (batches & Hb & Hm). exists batches.
    split; [done|]. split; [cbn [update snd]; by rewrite Hm|].
    split; [|done]. intros t; apply (bool_decide_unpack _); by destruct t. }
  induction l as [|t l (batches & Hb & Hm)]; [by exists []|].
  destruct (update_type_batched (_sql_head t) (_record r t)) as (b & Hu & Hbt);
    [apply sql_head_nonempty|].
  exists (b :: batches). split; [by constructor|]. cbn. by rewrite Hu, Hm.
Qed.
