(* ===== verification/Rank.v ===== *)
(** * gameserver/RankManager: the ranking of the daily game

    The ranking is a list of entries kept in rank order and an index from
    account to rank.  Scores enter through [updateHeroDailyRank]; [save]
    writes the list to the database. *)
From S2P Require Import Prelude StdMap Data Text Calendar Config.

Record DailyGameRankTg := mkRankTg {
  name_ : string;
  acc_ : Z;
  score_ : Z;
  rank_ : Z;
  time_ : Z
}.

Definition set_name_ (v : string) (x : DailyGameRankTg) : DailyGameRankTg :=
  mkRankTg v (acc_
    x) (score_ x) (rank_ x) (time_ x).
Definition set_acc_ (v : Z) (x : DailyGameRankTg) : DailyGameRankTg :=
  mkRankTg (name_ x) v
    (score_ x) (rank_ x) (time_ x).
Definition set_score_ (v : Z) (x : DailyGameRankTg) : DailyGameRankTg :=
  mkRankTg (name_ x)
    (acc_ x) v (rank_ x) (time_ x).
Definition set_rank_ (v : Z) (x : DailyGameRankTg) : DailyGameRankTg :=
  mkRankTg (name_ x)
    (acc_ x) (score_ x) v (time_ x).
Definition set_time_ (v : Z) (x : DailyGameRankTg) : DailyGameRankTg :=
  mkRankTg (name_ x)
    (acc_ x) (score_ x) (rank_ x) v.

Record RankManager := mkRankManager {
  _heroes_daily_rank : list DailyGameRankTg;
  _heroes_rank : list (Z * Z);
  _daily_max_rank_size : Z;
  _min_daily_score : Z;
  _daily_game_begin_time : Z;
  _max_daily_progress : Z
}.

Definition set__heroes_daily_rank (v : list DailyGameRankTg) (x : RankManager) : RankManager :=
 
    mkRankManager v (_heroes_rank x) (_daily_max_rank_size x) (_min_daily_score x)
    (_daily_game_begin_time x) (_max_daily_progress x).
Definition set__heroes_rank (v : list (Z * Z)) (x : RankManager) : RankManager :=
  mkRankManager
    (_heroes_daily_rank x) v (_daily_max_rank_size x) (_min_daily_score x)
    (_daily_game_begin_time x) (_max_daily_progress x).
Definition set__daily_max_rank_size (v : Z) (x : RankManager) : RankManager :=
  mkRankManager
    (_heroes_daily_rank x) (_heroes_rank x) v (_min_daily_score x) (_daily_game_begin_time x)
    (_max_daily_progress x).
Definition set__min_daily_score (v : Z) (x : RankManager) : RankManager :=
  mkRankManager
    (_heroes_daily_rank x) (_heroes_rank x) (_daily_max_rank_size x) v (_daily_game_begin_time x)
    (_max_daily_progress x).
Definition set__daily_game_begin_time (v : Z) (x : RankManager) : RankManager :=
  mkRankManager
    (_heroes_daily_rank x) (_heroes_rank x) (_daily_max_rank_size x) (_min_daily_score x) v
    (_max_daily_progress x).
Definition set__max_daily_progress (v : Z) (x : RankManager) : RankManager :=
  mkRankManager
    (_heroes_daily_rank x) (_heroes_rank x) (_daily_max_rank_size x) (_min_daily_score x)
    (_daily_game_begin_time x) v.


(** The comparison [DailyRank]: a higher score first, then the earlier time. *)
Definition DailyRank (t1 t2 : DailyGameRankTg) : bool :=
  if score_ t1 >? score_ t2 then true
  else if score_ t1 =? score_ t2 then time_ t1 <? time_ t2
  else false.

(** [std::list::sort] with [DailyRank]: a stable sort. *)
Fixpoint insert_rank (x : DailyGameRankTg) (l : list DailyGameRankTg) : list DailyGameRankTg :=
  match l with
  | [] => [x]
  | y :: l' => if DailyRank y x then y :: insert_rank x l' else x :: y :: l'
  end.
Definition sort_rank (l : list DailyGameRankTg) : list DailyGameRankTg :=
  foldr insert_rank [] l.

(** ** Operations *)
Definition ClearRankList (r : RankManager) : RankManager :=
  set__heroes_rank [] (set__heroes_daily_rank [] r).

Definition getHeroDailyRank (acc : Z) (r : RankManager) : Z :=
  match mfind acc (_heroes_rank r) with
  | Some rank => rank
  | None => i32 (_daily_max_rank_size r + 1)
  end.

Definition getDailyGameBeginTime (r : RankManager) : Z := _daily_game_begin_time r.
Definition getMaxDailyProgress (r : RankManager) : Z := _max_daily_progress r.
Definition setMaxDailyProgress (progress : Z) (r : RankManager) : RankManager :=
  set__max_daily_progress progress r.
Definition setDailyGameBeginTime (begin_time : Z) (r : RankManager) : RankManager :=
  set__daily_game_begin_time begin_time r.
Definition setDailyMaxRankSize (rank_size : Z) (r : RankManager) : RankManager :=
  set__daily_max_rank_size rank_size r.

(** [GetDailyGamePrize]: the first prize interval that contains the rank. *)
Fixpoint prize_of (configs : list DailyGamePrizeConfig) (rank : Z) : Z :=
  match configs with
  | [] => 0
  | c :: l => if (rank >=? begin_rank_ c) && (rank <=? end_rank_ c) then prize_gold_ c
              else prize_of l rank
  end.
Definition GetDailyGamePrize (c : GameConfig) (rank : Z) : Z :=
  prize_of (getDailyGamePrizeConfigs c) rank.

Section LoadRank.
Context {Row : Type} `{DBRow Row}.

Definition load_rank_row (tz now hour : Z) (r : RankManager) (row : Row) : RankManager :=
  let temp_time := row_int row "UNIX_TIMESTAMP(`time`)" in
  if isInToday tz now hour temp_time then
    let entry := mkRankTg (row_str row "name") (row_int row "account_id") (row_int row "score")
                   (row_int row "rank") temp_time in
    set__heroes_rank (mput (acc_ entry) (rank_ entry) (_heroes_rank r))
      (set__heroes_daily_rank (_heroes_daily_rank r ++ [entry]) r)
  else r.

(** [RankManager::Load] on the rows of its query. *)
Definition RankManager_Load (tz now hour : Z) (rows : list Row) (r : RankManager) : RankManager :=
  fold_left (load_rank_row tz now hour) rows (ClearRankList r).
End LoadRank.

(** One row of the ranking in the save statement. *)
Definition rank_row (tz : Z) (e : DailyGameRankTg) : string :=
  sprintf "(%llu, '%s', %d, %d, '%s')"
    [AU (acc_ e); AS (name_ e); AD (score_ e); AD (rank_ e);
     AS (build_unix_time_to_string tz (time_ e))].

Definition rank_head : string :=
  "replace into hero_daily_game_rank(`account_id`, `name`, `score`, `rank`, `time`) values".

(** One turn of the loop of [save]: the counter, the statement under
    construction and the statements sent.  After a full statement the counter
    restarts at 0 and the loop's [number++] makes it 1. *)
Definition save_row (tz : Z) (st : Z * string * list string) (e : DailyGameRankTg)
    : Z * string * list string :=
  let '(number, sql_rank, sent) := st in
  let sql_rank := if number =? 0 then rank_head else sql_rank +:+ "," in
  let sql_rank := sql_rank +:+ rank_row tz e in
  let '(number, sql_rank, sent) :=
    if number >=? 20 then (0, EmptyString, sent ++ [sql_rank]) else (number, sql_rank, sent) in
  (number + 1, sql_rank, sent).

Definition rank_statements (tz : Z) (l : list DailyGameRankTg) : list string :=
  let '(_, sql_rank, sent) := fold_left (save_row tz) l (0, EmptyString, []) in
  if String.eqb sql_rank EmptyString then sent else sent ++ [sql_rank].

(** [RankManager::save]: the statements sent to the database server. *)
Definition save (tz : Z) (r : RankManager) : list string :=
  "DELETE FROM hero_daily_game_rank;" :: rank_statements tz (_heroes_daily_rank r).

(** [removeHero]'s loop.  [erase] returns the next element and the loop's [++it]
    steps over it; when the removed entry is the last one, the step is past
    the end (undefined, [None]). *)
Fixpoint remove_loop (acc temp_rank : Z) (l : list DailyGameRankTg) (m : list (Z * Z))
    : option (list DailyGameRankTg * list (Z * Z)) :=
  match l with
  | [] => Some ([], m)
  | entry :: l' =>
      let entry := set_rank_ temp_rank entry in
      let m := mput (acc_ entry) temp_rank m in
      if acc_ entry =? acc then
        match l' with
        | [] => None
        | next :: l'' =>
            match remove_loop acc temp_rank l'' m with
            | Some (res, m) => Some (next :: res, m)
            | None => None
            end
        end
      else
        let temp_rank := temp_rank + 1 in
        match remove_loop acc temp_rank l' (mput (acc_ entry) temp_rank m) with
        | Some (res, m) => Some (entry :: res, m)
        | None => None
        end
  end.

Definition removeHero (acc : Z) (r : RankManager) : option RankManager :=
  match remove_loop acc 1 (_heroes_daily_rank r) [] with
  | Some (l, m) => Some (set__heroes_rank m (set__heroes_daily_rank l r))
  | None => None
  end.

(** [updateHeroDailyRank]: overwrite the first entry of the account. *)
Fixpoint overwrite_entry (acc : Z) (name : string) (score : Z) (l : list DailyGameRankTg)
    : option (list DailyGameRankTg) :=
  match l with
  | [] => None
  | entry :: l' =>
      if acc_ entry =? acc then Some (set_name_ name (set_score_ score entry) :: l')
      else match overwrite_entry acc name score l' with
           | Some res => Some (entry :: res)
           | None => None
           end
  end.

(** The renumbering loop: new ranks, the new index, the rank of [acc]. *)
Fixpoint renumber (acc temp_rank : Z) (l : list DailyGameRankTg) (m : list (Z * Z)) (rank : Z)
    : list DailyGameRankTg * list (Z * Z) * Z :=
  match l with
  | [] => ([], m, rank)
  | entry :: l' =>
      let entry := set_rank_ temp_rank entry in
      let m := mput (acc_ entry) temp_rank m in
      let rank := if acc_ entry =? acc then rank_ entry else rank in
      let '(res, m, rank) := renumber acc (temp_rank + 1) l' m rank in
      (entry :: res, m, rank)
  end.

Definition updateHeroDailyRank (now acc : Z) (name : string) (score : Z) (r : RankManager)
    : RankManager * Z :=
  let rank := i32 (_daily_max_rank_size r + 1) in
  let full := negb (Z.of_nat (length (_heroes_rank r)) <? u64 (_daily_max_rank_size r)) in
  let '(need_add, need_rank) :=
    if score <=? _min_daily_score r then (negb full, false) else (true, true) in
  let '(l, need_add) :=
    match overwrite_entry acc name score (_heroes_daily_rank r) with
    | Some l => (l, false)
    | None => (_heroes_daily_rank r, need_add)
    end in
  let r := set__heroes_daily_rank l r in
  let '(r, rank) :=
    if need_add then
      let rank := Z.of_nat (length l) + 1 in
      let entry := mkRankTg name acc score rank (u32 now) in
      (set__heroes_daily_rank (l ++ [entry])
         (set__min_daily_score score
            (set__heroes_rank (mput acc rank (_heroes_rank r)) r)), rank)
    else (r, rank) in
  if need_rank then
    let '(l, m, rank) := renumber acc 1 (sort_rank (_heroes_daily_rank r)) [] rank in
    (set__heroes_daily_rank l (set__heroes_rank m r), rank)
  else (r, rank).

(** ** Laws *)
Definition rank_le (a b : DailyGameRankTg) : Prop := DailyRank b a = false.

Lemma DailyRank_spec a b :
  DailyRank a b = true <-> score_ b < score_ a \/ (score_ a = score_ b /\ time_ a < time_ b).
Proof.
  unfold DailyRank. rewrite Z.gtb_ltb. destruct (Z.ltb_spec (score_ b) (score_ a)); [intuition lia|].
  destruct (Z.eqb_spec (score_ a) (score_ b)); [rewrite Z.ltb_lt; intuition lia|].
  split; [done|lia].
Qed.

Lemma rank_le_spec a b :
  rank_le a b <-> score_ b < score_ a \/ (score_ a = score_ b /\ time_ a <= time_ b).
Proof.
  unfold rank_le. rewrite <- not_true_iff_false, DailyRank_spec. lia.
Qed.

Lemma insert_rank_perm x l : insert_rank x l ≡ₚ x :: l.
Proof.
  induction l as [|y l IH]; cbn; [done|]. destruct (DailyRank y x); [|done].
  rewrite IH. apply Permutation_swap.
Qed.

Lemma sort_rank_perm l : sort_rank l ≡ₚ l.
Proof. induction l as [|x l IH]; cbn; [done|]. by rewrite insert_rank_perm, IH. Qed.

Lemma insert_rank_sorted x l : StronglySorted rank_le l -> StronglySorted rank_le (insert_rank x l).
Proof.
  induction 1 as [|y l Hl IH Hy]; cbn; [repeat constructor|].
  rewrite Forall_forall in Hy.
  destruct (DailyRank y x) eqn:E; constructor.
  - done.
  - apply Forall_forall. intros z. rewrite insert_rank_perm, elem_of_cons.
    intros [->|Hz]; [|by apply Hy]. apply DailyRank_spec in E. apply rank_le_spec. lia.
  - constructor; [done|]. by apply Forall_forall.
  - constructor; [done|]. apply Forall_forall. intros z Hz. specialize (Hy z Hz).
    rewrite rank_le_spec in *. assert (rank_le x y) as H by done. rewrite rank_le_spec in H. lia.
Qed.

Lemma sort_rank_sorted l : StronglySorted rank_le (sort_rank l).
Proof. induction l; cbn; [constructor|by apply insert_rank_sorted]. Qed.

(** An entry without its rank: what the ranking is about. *)
Definition content (e : DailyGameRankTg) : DailyGameRankTg := set_rank_ 0 e.

Lemma content_acc (l : list DailyGameRankTg) : acc_ <$> (content <$> l) = acc_ <$> l.
Proof. induction l; cbn; by f_equal. Qed.

Lemma content_sorted (l : list DailyGameRankTg) : StronglySorted rank_le (content <$> l) <-> StronglySorted rank_le l.
Proof.
  induction l as [|x l IH]; cbn; [split; constructor|].
  split; intros H; inversion H as [|? ? Hs Hf]; subst; constructor; try (by apply IH).
  - by rewrite Forall_fmap in Hf.
  - by rewrite Forall_fmap.
Qed.

Lemma renumber_spec acc l : forall k m rank,
  let '(l', m', rank') := renumber acc k l m rank in
  content <$> l' = content <$> l /\
  rank_ <$> l' = seqZ k (Z.of_nat (length l)) /\
  (forall a, a ∉ (acc_ <$> l) -> mfind a m' = mfind a m) /\
  (NoDup (acc_ <$> l) -> forall e, e ∈ l' -> mfind (acc_ e) m' = Some (rank_ e)) /\
  (NoDup (acc_ <$> l) ->
     if decide (acc ∈ (acc_ <$> l)) then exists e, e ∈ l' /\ acc_ e = acc /\ rank_ e = rank'
     else rank' = rank).
Proof.
  induction l as [|x l IH]; intros k m rank; cbn [renumber].
  { split; [done|]. split; [done|]. split; [done|].
    split; [intros _ e He; by apply elem_of_nil in He|].
    intros _. rewrite decide_False; [done|]. apply not_elem_of_nil. }
  set (m1 := mput (acc_ (set_rank_ k x)) k m).
  set (rank1 := if acc_ (set_rank_ k x) =? acc then rank_ (set_rank_ k x) else rank).
  specialize (IH (k + 1) m1 rank1). destruct (renumber acc (k + 1) l m1 rank1) as [[l' m'] rank'].
  destruct IH as (Hc & Hr & Hm & Hfind & Hrank).
  split; [cbn; by f_equal|]. split.
  { cbn [length fmap list_fmap]. rewrite Hr, (seqZ_cons k) by lia. f_equal. by replace (Z.pred (Z.of_nat (S (length l)))) with (Z.of_nat (length l)) by lia. }
  split.
  { cbn. intros a Ha. apply not_elem_of_cons in Ha as [Hne Ha].
    rewrite Hm by done. unfold m1. by apply mfind_put_ne. }
  assert (Hin : acc_ <$> l' = acc_ <$> l) by (by rewrite <- content_acc, Hc, content_acc).
  split.
  - cbn. intros Hnd. apply NoDup_cons in Hnd as [Hx Hnd]. intros e He.
    apply elem_of_cons in He as [->|He].
    + rewrite Hm by done. apply mfind_put_eq.
    + by apply Hfind.
  - cbn. intros Hnd. apply NoDup_cons in Hnd as [Hx Hnd]. specialize (Hrank Hnd).
    unfold rank1 in Hrank. cbn in Hrank. destruct (Z.eqb_spec (acc_ x) acc) as [Heq|Hne].
    + rewrite decide_True by (subst; apply elem_of_cons; by left).
      rewrite decide_False in Hrank by (by subst). exists (set_rank_ k x).
      rewrite Hrank. repeat split; [apply elem_of_cons; by left|done].
    + destruct (decide (acc ∈ acc_ <$> l)) as [Hacc|Hacc].
      * rewrite decide_True by (apply elem_of_cons; by right).
        destruct Hrank as (e & He & ? & ?). exists e. split; [apply elem_of_cons; by right|done].
      * rewrite decide_False; [done|]. rewrite elem_of_cons. intros [?|?]; [by subst|done].
Qed.

(** The entries of other accounts. *)
Definition others (acc : Z) (l : list DailyGameRankTg) : list DailyGameRankTg :=
  filter (fun e => acc_ e <> acc) l.

Lemma overwrite_entry_spec acc name score l :
  match overwrite_entry acc name score l with
  | Some l' =>
      acc_ <$> l' = acc_ <$> l /\ others acc l' = others acc l /\
      exists e, e ∈ l' /\ acc_ e = acc /\ score_ e = score /\ name_ e = name
  | None => acc ∉ (acc_ <$> l)
  end.
Proof.
  induction l as [|x l IH]; cbn; [apply not_elem_of_nil|].
  destruct (Z.eqb_spec (acc_ x) acc) as [Heq|Hne].
  - split; [done|]. split.
    + unfold others. rewrite !filter_cons, !decide_False by (cbn; tauto). done.
    + eexists. split; [apply elem_of_cons; by left|]. done.
  - destruct (overwrite_entry acc name score l) as [l'|].
    + destruct IH as (Ha & Ho & e & He & H). split; [cbn; by f_equal|]. split.
      * unfold others in *. rewrite !filter_cons, !decide_True by done. by f_equal.
      * exists e. split; [apply elem_of_cons; by right|done].
    + rewrite elem_of_cons. intros [?|?]; [by subst|done].
Qed.

Definition rank_wf (r : RankManager) : Prop := NoDup (acc_ <$> _heroes_daily_rank r).

(** The list that [updateHeroDailyRank] sorts: the account's entry rewritten,
    or a new entry at the end. *)
Definition entered (now acc : Z) (name : string) (score : Z) (l : list DailyGameRankTg)
    : list DailyGameRankTg :=
  match overwrite_entry acc name score l with
  | Some l' => l'
  | None => l ++ [mkRankTg name acc score (Z.of_nat (length l) + 1) (u32 now)]
  end.

Lemma entered_spec now acc name score l :
  NoDup (acc_ <$> l) ->
  NoDup (acc_ <$> entered now acc name score l) /\
  others acc (entered now acc name score l) = others acc l /\
  exists e, e ∈ entered now acc name score l /\ acc_ e = acc /\ score_ e = score /\ name_ e = name.
Proof.
  intros Hnd. unfold entered. pose proof (overwrite_entry_spec acc name score l) as H.
  destruct (overwrite_entry acc name score l) as [l'|].
  - destruct H as (Ha & Ho & He). by rewrite Ha.
  - split; [|split].
    + rewrite fmap_app. apply NoDup_app. split; [done|]. split; [|apply NoDup_singleton].
      intros a Ha Ha'. cbn in Ha'. apply list_elem_of_singleton in Ha'. by subst.
    + unfold others. rewrite filter_app, filter_cons, decide_False by (cbn; tauto).
      cbn. by rewrite app_nil_r.
    + eexists. split; [apply elem_of_app; right; by apply list_elem_of_singleton|]. done.
Qed.

Lemma update_ranked_eq now acc name score r :
  _min_daily_score r < score ->
  let '(r', rank) := updateHeroDailyRank now acc name score r in
  exists rank0,
  renumber acc 1 (sort_rank (entered now acc name score (_heroes_daily_rank r))) [] rank0
  = (_heroes_daily_rank r', _heroes_rank r', rank).
Proof.
  intros Hs. unfold updateHeroDailyRank, entered.
  rewrite (proj2 (Z.leb_gt _ _)) by done.
  destruct (overwrite_entry acc name score (_heroes_daily_rank r)) as [l'|];
    destruct (renumber _ _ _ _ _) as [[l m] rank] eqn:E; cbn in E |- *; by eexists.
Qed.

Lemma others_acc_fmap acc l l' : content <$> l = content <$> l' ->
  content <$> others acc l = content <$> others acc l'.
Proof.
  revert l'. induction l as [|x l IH]; intros [|y l']; try done. cbn [fmap list_fmap].
  intros [= Hn Ha Hs Ht Hl]. unfold others in *. rewrite !filter_cons, Ha.
  destruct (decide (acc_ y <> acc)); [|by apply IH].
  cbn [fmap list_fmap]. f_equal; [unfold content, set_rank_; by rewrite Hn, Ha, Hs, Ht|by apply IH].
Qed.

(** ** Properties *)

(** C18: a score above the current threshold is ranked correctly.  After
    [updateHeroDailyRank] the list is in descending score order (equal scores:
    earlier time first), the ranks are 1, 2, ..., n, [getHeroDailyRank] answers
    every listed account with its rank, the reported rank is that of the
    account's entry with the new score, and the entries of all other accounts
    are unchanged up to their rank. *)
Theorem updateHeroDailyRank_correct now acc name score r :
  rank_wf r -> _min_daily_score r < score ->
  let '(r', rank) := updateHeroDailyRank now acc name score r in
  let l := _heroes_daily_rank r' in
  rank_wf r' /\
  StronglySorted rank_le l /\
  rank_ <$> l = seqZ 1 (Z.of_nat (length l)) /\
  (forall e, e ∈ l -> getHeroDailyRank (acc_ e) r' = rank_ e) /\
  (exists e, e ∈ l /\ acc_ e = acc /\ score_ e = score /\ name_ e = name /\ rank_ e = rank) /\
  content <$> others acc l ≡ₚ content <$> others acc (_heroes_daily_rank r).
Proof.
  intros Hwf Hs. pose proof (update_ranked_eq now acc name score r Hs) as Heq.
  destruct (updateHeroDailyRank now acc name score r) as [r' rank].
  destruct Heq as [rank0 Heq].
  set (es := entered now acc name score (_heroes_daily_rank r)) in *.
  destruct (entered_spec now acc name score _ Hwf) as (Hnd & Ho & x & Hx & Hxa & Hxs & Hxn).
  fold es in Hnd, Ho, Hx.
  assert (Hp : sort_rank es ≡ₚ es) by apply sort_rank_perm.
  assert (Hnd' : NoDup (acc_ <$> sort_rank es)) by (by rewrite Hp).
  pose proof (renumber_spec acc (sort_rank es) 1 [] rank0) as Hspec. rewrite Heq in Hspec.
  destruct Hspec as (Hc & Hr & _ & Hfind & Hrank). specialize (Hfind Hnd'). specialize (Hrank Hnd').
  set (l := _heroes_daily_rank r') in *.
  assert (Hacc : acc_ <$> l = acc_ <$> sort_rank es) by (by rewrite <- content_acc, Hc, content_acc).
  assert (Hlen : length l = length (sort_rank es)).
  { apply (f_equal length) in Hacc. by rewrite !length_fmap in Hacc. }
  cbv zeta. split; [unfold rank_wf; fold l; by rewrite Hacc|].
  split; [apply content_sorted; rewrite Hc; apply content_sorted, sort_rank_sorted|].
  split; [by rewrite Hr, Hlen|].
  split; [intros e He; unfold getHeroDailyRank; by rewrite (Hfind e He)|].
  split.
  - rewrite decide_True in Hrank by (rewrite Hp; apply list_elem_of_fmap; by exists x).
    destruct Hrank as (e & He & Hea & Her). exists e. repeat split; try done.
    all: assert (Hce : content e ∈ content <$> sort_rank es)
      by (rewrite <- Hc; apply list_elem_of_fmap; by exists e).
    all: apply list_elem_of_fmap in Hce as (y & Hey & Hy).
    all: assert (y = x) as -> by (apply (nodup_fmap_inj acc_ (sort_rank es)); [done|done|by rewrite Hp|];
           rewrite Hxa, <- Hea; by injection Hey).
    all: injection Hey; congruence.
  - rewrite (others_acc_fmap acc l (sort_rank es) Hc), <- Ho.
    unfold others. by rewrite Hp.
Qed.

(** A ranking with two heroes. *)
Definition rank_demo : RankManager :=
  mkRankManager [mkRankTg "ann" 1 40 1 5; mkRankTg "bob" 2 30 2 6] [(1, 1); (2, 2)] 100 30 0 50.

Lemma updateHeroDailyRank_correct_witness :
  rank_wf rank_demo /\ _min_daily_score rank_demo < 50 /\
  let '(r', rank) := updateHeroDailyRank 9 2 "bob" 50 rank_demo in
  StronglySorted rank_le (_heroes_daily_rank r') /\ rank = 1.
Proof.
  assert (Hwf : rank_wf rank_demo) by (apply (bool_decide_unpack _); vm_compute; exact I).
  assert (Hs : _min_daily_score rank_demo < 50) by reflexivity.
  split; [exact Hwf|]. split; [exact Hs|].
  split; [exact (proj1 (proj2 (updateHeroDailyRank_correct 9 2 "bob" 50 rank_demo Hwf Hs)))|].
  reflexivity.
Defined.

(** [_min_daily_score] is the score added last, not the least score of the
    list: after 10 and 20 a third hero's 15 is appended below the 10. *)
Example late_score_not_ranked :
  let r0 := mkRankManager [] [] 100 0 0 50 in
  let r1 := (updateHeroDailyRank 1 1 "ann" 10 r0).1 in
  let r2 := (updateHeroDailyRank 2 2 "bob" 20 r1).1 in
  let r3 := (updateHeroDailyRank 3 3 "cy" 15 r2).1 in
  map (fun e => (acc_ e, score_ e, rank_ e)) (_heroes_daily_rank r3)
  = [(2, 20, 1); (1, 10, 2); (3, 15, 3)].
Proof. vm_compute. reflexivity. Qed.

(** A full statement of [save] resets the counter to 0 before the loop's
    increment: the second statement has no INSERT head. *)
Example save_second_statement_headless :
  let es := map (fun k => mkRankTg "h" k 0 k 0) (seqZ 1 22) in
  nth_error (rank_statements 0 es) 1 = Some (",(22, 'h', 0, 22, '1970-1-1 0:0:0')")%string.
Proof. vm_compute. reflexivity. Qed.
