(* ===== verification/Promotion.v ===== *)
(** * gameserver/ShopSalesPromotionManager: timed sales promotions

    A promotion waits, is announced (applied), runs (executed) and is
    destroyed; while it runs it lowers hero prices, raises the recharge ratio
    or opens hidden heroes.  [apply], [excute], [exit] and [DayPass] call each
    other; [call] is that recursion with fuel. *)
From S2P Require Import Prelude StdMap Data Text Calendar Config.

(** [enum ShopSalesPromotionType] *)
Inductive ShopSalesPromotionType :=
| ShopSalesPromotionType_Wait
| ShopSalesPromotionType_Apply
| ShopSalesPromotionType_Excute
| ShopSalesPromotionType_Destroy.

#[export] Instance ShopSalesPromotionType_eq_dec : EqDecision ShopSalesPromotionType.
Proof. solve_decision. Defined.

(** The callbacks a promotion registers with the event manager; [apply] and
    [excute] share the event type EVENT_SHOP_SALES_PROMOTION_APPLY. *)
Inductive PromotionTimer := Timer_apply | Timer_excute | Timer_exit.
Definition apply_event (t : PromotionTimer) : bool :=
  match t with Timer_exit => false | _ => true end.

(** [class TimeShopPromotion]; [_timers] are its pending events and their delays. *)
Record TimeShopPromotion := mkTimeShopPromotion {
  _id : Z;
  _type : ShopSalesPromotionType;
  _name : string;
  _time_describe : string;
  _describe : string;
  _timers : list (PromotionTimer * Z)
}.

Definition set__id (v : Z) (x : TimeShopPromotion) : TimeShopPromotion :=
  mkTimeShopPromotion v
    (_type x) (_name x) (_time_describe x) (_describe x) (_timers x).
Definition set__type (v : ShopSalesPromotionType) (x : TimeShopPromotion) : TimeShopPromotion :=

     mkTimeShopPromotion (_id x) v (_name x) (_time_describe x) (_describe x) (_timers x).
Definition set__name (v : string) (x : TimeShopPromotion) : TimeShopPromotion :=
 
    mkTimeShopPromotion (_id x) (_type x) v (_time_describe x) (_describe x) (_timers x).
Definition set__time_describe (v : string) (x : TimeShopPromotion) : TimeShopPromotion :=
 
    mkTimeShopPromotion (_id x) (_type x) (_name x) v (_describe x) (_timers x).
Definition set__describe (v : string) (x : TimeShopPromotion) : TimeShopPromotion :=
 
    mkTimeShopPromotion (_id x) (_type x) (_name x) (_time_describe x) v (_timers x).
Definition set__timers (v : list (PromotionTimer * Z)) (x : TimeShopPromotion) :
    TimeShopPromotion :=
  mkTimeShopPromotion (_id x) (_type x) (_name x) (_time_describe x)
    (_describe x) v.

Record ShopSalesPromotionManager := mkPromotionManager {
  _cheap_gold : list (Z * Z);
  _shopSalesPromotions : list TimeShopPromotion;
  _recharge_ratting : Z;
  _recharge_gold_ratting : Z;
  _recharge_jewel_ratting : Z
}.

Definition set__cheap_gold (v : list (Z * Z)) (x : ShopSalesPromotionManager) :
    ShopSalesPromotionManager :=
  mkPromotionManager v (_shopSalesPromotions x)
    (_recharge_ratting x) (_recharge_gold_ratting x) (_recharge_jewel_ratting x).
Definition set__shopSalesPromotions (v : list TimeShopPromotion) (x : ShopSalesPromotionManager)
    : ShopSalesPromotionManager :=
  mkPromotionManager (_cheap_gold x) v (_recharge_ratting x)
    (_recharge_gold_ratting x) (_recharge_jewel_ratting x).
Definition set__recharge_ratting (v : Z) (x : ShopSalesPromotionManager) :
    ShopSalesPromotionManager :=
  mkPromotionManager (_cheap_gold x) (_shopSalesPromotions x) v
    (_recharge_gold_ratting x) (_recharge_jewel_ratting x).
Definition set__recharge_gold_ratting (v : Z) (x : ShopSalesPromotionManager) :
    ShopSalesPromotionManager :=
  mkPromotionManager (_cheap_gold x) (_shopSalesPromotions x)
    (_recharge_ratting x) v (_recharge_jewel_ratting x).
Definition set__recharge_jewel_ratting (v : Z) (x : ShopSalesPromotionManager) :
    ShopSalesPromotionManager :=
  mkPromotionManager (_cheap_gold x) (_shopSalesPromotions x)
    (_recharge_ratting x) (_recharge_gold_ratting x) v.


(** ** The manager's registers *)
Definition modifyRechargeRatting (ratting : Z) (m : ShopSalesPromotionManager) :=
  set__recharge_ratting (_recharge_ratting m +ᵢ ratting) m.
Definition modifyGoldRechargeRatting (ratting : Z) (m : ShopSalesPromotionManager) :=
  set__recharge_gold_ratting (_recharge_gold_ratting m +ᵢ ratting) m.
Definition modifyJewelRechargeRatting (ratting : Z) (m : ShopSalesPromotionManager) :=
  set__recharge_jewel_ratting (_recharge_jewel_ratting m +ᵢ ratting) m.
Definition getRechargeRatting (m : ShopSalesPromotionManager) : Z := _recharge_ratting m.
Definition getGoldRechargeRatting (m : ShopSalesPromotionManager) : Z :=
  _recharge_ratting m +ᵢ _recharge_gold_ratting m.
Definition getJewelRechargeRatting (m : ShopSalesPromotionManager) : Z :=
  _recharge_ratting m +ᵢ _recharge_jewel_ratting m.

Definition getCheapGold (grid : Z) (m : ShopSalesPromotionManager) : Z :=
  match mfind grid (_cheap_gold m) with Some c => c | None => 0 end.

Definition modifyCheapGold (grid cheap_gold : Z) (m : ShopSalesPromotionManager) :=
  let cg := minsert grid 0 (_cheap_gold m) in
  let number := match mfind grid cg with Some n => n | None => 0 end in
  set__cheap_gold (mput grid (number +ᵢ cheap_gold) cg) m.

(** ** One promotion

    The state its methods work on: the object, its manager and the global
    configuration. *)
Record PState := mkPState {
  ps_this : TimeShopPromotion;
  ps_mgr : ShopSalesPromotionManager;
  ps_config : GameConfig
}.
Definition on_this (f : TimeShopPromotion -> TimeShopPromotion) : M PState unit :=
  modify (fun s => mkPState (f (ps_this s)) (ps_mgr s) (ps_config s)).
Definition on_mgr (f : ShopSalesPromotionManager -> ShopSalesPromotionManager) : M PState unit :=
  modify (fun s => mkPState (ps_this s) (f (ps_mgr s)) (ps_config s)).
Definition on_config (f : GameConfig -> GameConfig) : M PState unit :=
  modify (fun s => mkPState (ps_this s) (ps_mgr s) (f (ps_config s))).
Definition set_type (t : ShopSalesPromotionType) : M PState unit := on_this (set__type t).
Definition deref {S A} (o : option A) : M S A := match o with Some a => ret a | None => ub end.

(** [getTimeShopSalesPromotionConfig(_id)], dereferenced. *)
Definition config_entry : M PState TimeShopSalesPromotionConfig :=
  let* s := gets (fun s => s) in
  deref (getTimeShopSalesPromotionConfig (ps_config s) (_id (ps_this s))).

(** [GetTime()], dereferenced. *)
Definition cur_time : M PState EventTime :=
  let* c := config_entry in deref (pc_time c).

Definition addEvent (t : PromotionTimer) (delay : Z) : M PState unit :=
  on_this (fun p => set__timers (_timers p ++ [(t, delay)]) p).

(** [removeEvents(this, type)] when [hasEvent(this, type)]. *)
Definition removeEvents (is_apply : bool) : M PState unit :=
  on_this (fun p => set__timers
    (filter (fun x => apply_event x.1 <> is_apply) (_timers p)) p).

(** [PromotionType_], the tag of the configuration object. *)
Definition PromotionType_ (p : Promotion) : Z :=
  match p with
  | HeroPromotion _ => 0
  | RechargeRattingPromotion _ _ => 1
  | OpenHideHeroPromotion _ => 2
  end.

(** The switch of the recharge branch of [excute(bool)]: it tests
    [PromotionType_] against ALL = 0, GOLD = 1 and JEWEL = 2. *)
Definition modify_ratting (kind modify : Z) : ShopSalesPromotionManager -> ShopSalesPromotionManager :=
  if kind =? 0 then modifyRechargeRatting modify
  else if kind =? 1 then modifyGoldRechargeRatting modify
  else if kind =? 2 then modifyJewelRechargeRatting modify
  else fun m => m.

(** [excute(bool b)] *)
Definition excute_b (b : bool) : M PState unit :=
  set_type ShopSalesPromotionType_Excute ;;;
  let* c := config_entry in
  let* promotion := deref (pc_promotion c) in
  match promotion with
  | HeroPromotion cheap_hero_ =>
      mfor cheap_hero_ (fun it =>
        on_mgr (modifyCheapGold it.1 (if b then it.2 else i32 (- it.2))))
  | RechargeRattingPromotion recharge_ratting_ _ =>
      on_mgr (modify_ratting (PromotionType_ promotion)
                (if b then recharge_ratting_ else i32 (- recharge_ratting_)))
  | OpenHideHeroPromotion hide_grid_ids_ =>
      mfor hide_grid_ids_ (fun grid_id => on_config (setHeroShopConfig grid_id b))
  end.

(** [TimeShopPromotion::exit] *)
Definition promotion_exit : M PState unit :=
  removeEvents false ;;;
  set_type ShopSalesPromotionType_Wait ;;;
  excute_b false ;;;
  set_type ShopSalesPromotionType_Destroy.

Section Timed.
Context (tz g_server_time : Z).

Definition week_time : Z := tm_wday (localtime tz g_server_time).

(** The window tests of the three phases of [DayPass]: [Some b] is the test of
    the branch, [None] a branch without effect. *)
Definition wait_due (c : GameConfig) (t : EventTime) : option bool :=
  match type_ t with
  | Time_Week =>
      Some (if show_time_ t <=? end_time_ t then
              (week_time >=? show_time_ t) && (week_time <=? end_time_ t)
            else (week_time <=? show_time_ t) || (week_time >=? end_time_ t))
  | Time_OpenServerOffsetTime =>
      let passed_day := getOpenServerPassedDay tz (_server_open_time c) g_server_time in
      if show_time_ t >? end_time_ t then None
      else Some ((passed_day >=? show_time_ t) && (passed_day <=? end_time_ t))
  | Time_Normal => Some false
  end.

Definition apply_due (c : GameConfig) (t : EventTime) : bool :=
  match type_ t with
  | Time_Week =>
      if begin_time_ t <=? end_time_ t then
        (week_time >=? begin_time_ t) && (week_time <=? end_time_ t)
      else (week_time <=? begin_time_ t) || (week_time >=? end_time_ t)
  | Time_OpenServerOffsetTime =>
      let passed_day := getOpenServerPassedDay tz (_server_open_time c) g_server_time in
      (passed_day >=? begin_time_ t) && (passed_day <=? end_time_ t)
  | Time_Normal => false
  end.

Definition excute_over (c : GameConfig) (t : EventTime) : bool :=
  match type_ t with
  | Time_Week =>
      if begin_time_ t <=? end_time_ t then
        (week_time <? begin_time_ t) || (week_time >? end_time_ t)
      else (week_time >? begin_time_ t) && (week_time <? end_time_ t)
  | Time_OpenServerOffsetTime =>
      let passed_day := getOpenServerPassedDay tz (_server_open_time c) g_server_time in
      (passed_day <? begin_time_ t) || (passed_day >? end_time_ t)
  | Time_Normal => false
  end.

Inductive Call := Call_apply | Call_excute | Call_DayPass.

Definition type_is (t : ShopSalesPromotionType) : M PState bool :=
  gets (fun s => bool_decide (_type (ps_this s) = t)).

(** The body of [TimeShopPromotion::apply]. *)
Definition apply_body (self : Call -> M PState unit) : M PState unit :=
  removeEvents true ;;;
  set_type ShopSalesPromotionType_Apply ;;;
  let* t := cur_time in
  match type_ t with
  | Time_Normal =>
      let delay_time := begin_time_ t - g_server_time in
      if delay_time <=? 0 then self Call_excute
      else addEvent Timer_excute (delay_time * 1000)
  | Time_Week | Time_OpenServerOffsetTime => self Call_DayPass
  end.

(** The body of [TimeShopPromotion::excute()]. *)
Definition excute_body (self : Call -> M PState unit) : M PState unit :=
  excute_b true ;;;
  let* t := cur_time in
  match type_ t with
  | Time_Normal =>
      let delay_time := end_time_ t - g_server_time in
      if delay_time >? 0 then addEvent Timer_exit (delay_time * 1000) else promotion_exit
  | Time_Week | Time_OpenServerOffsetTime => self Call_DayPass
  end.

(** The body of [TimeShopPromotion::DayPass]. *)
Definition DayPass_body (self : Call -> M PState unit) : M PState unit :=
  let* t := cur_time in
  let* c := gets ps_config in
  let* waiting := type_is ShopSalesPromotionType_Wait in
  match (if waiting then wait_due c t else Some false) with
  | None => ret tt
  | Some due =>
      when due (self Call_apply) ;;;
      let* applied := type_is ShopSalesPromotionType_Apply in
      when (applied && apply_due c t) (self Call_excute) ;;;
      let* running := type_is ShopSalesPromotionType_Excute in
      when (running && excute_over c t) promotion_exit
  end.

Fixpoint call (fuel : nat) (m : Call) : M PState unit :=
  match fuel with
  | O => ub
  | S f =>
      match m with
      | Call_apply => apply_body (call f)
      | Call_excute => excute_body (call f)
      | Call_DayPass => DayPass_body (call f)
      end
  end.

(** The nesting is DayPass, apply, DayPass, excute, DayPass. *)
Definition call_fuel : nat := 5.

(** [TimeShopPromotion::init]; the configuration is dereferenced before it is
    tested against NULL. *)
Definition promotion_init (id : Z) : M PState bool :=
  on_this (fun p => set__type ShopSalesPromotionType_Wait (set__id id p)) ;;;
  let* c := config_entry in
  on_this (fun p => set__name (pc_name c) (set__time_describe (pc_time_describe c)
                      (set__describe (pc_describe c) p))) ;;;
  let* t := cur_time in
  match type_ t with
  | Time_Normal =>
      if show_time_ t >? end_time_ t then ret false
      else
        let delay_time := show_time_ t - g_server_time in
        (if delay_time <=? 0 then call call_fuel Call_apply
         else addEvent Timer_apply (delay_time * 1000)) ;;;
        ret true
  | Time_Week | Time_OpenServerOffsetTime =>
      call call_fuel Call_DayPass ;;; ret true
  end.
End Timed.

(** ** The manager's loops *)
Record PMState := mkPMState { pm_mgr : ShopSalesPromotionManager; pm_config : GameConfig }.

(** Run a method of one promotion against the manager. *)
Definition run_promotion {A} (p : TimeShopPromotion) (m : M PState A) (s : PMState)
    : option (A * TimeShopPromotion * PMState) :=
  match m (mkPState p (pm_mgr s) (pm_config s)) with
  | Some (a, s') => Some (a, ps_this s', mkPMState (ps_mgr s') (ps_config s'))
  | None => None
  end.

(** [ShopSalesPromotionManager::DayPass] *)
Fixpoint day_pass_all (tz now : Z) (l : list TimeShopPromotion) (s : PMState)
    : option (list TimeShopPromotion * PMState) :=
  match l with
  | [] => Some ([], s)
  | entry :: l' =>
      match run_promotion entry (call tz now call_fuel Call_DayPass) s with
      | None => None
      | Some (_, entry, s) =>
          match day_pass_all tz now l' s with
          | None => None
          | Some (l', s) => Some (entry :: l', s)
          end
      end
  end.

Definition ShopSalesPromotionManager_DayPass (tz now : Z) (s : PMState) : option PMState :=
  match day_pass_all tz now (_shopSalesPromotions (pm_mgr s)) s with
  | None => None
  | Some (l, s) => Some (mkPMState (set__shopSalesPromotions l (pm_mgr s)) (pm_config s))
  end.

Definition new_promotion : TimeShopPromotion :=
  mkTimeShopPromotion 0 ShopSalesPromotionType_Wait "" "" "" [].

(** [ShopSalesPromotionManager::init]: one promotion per configured id. *)
Fixpoint init_all (tz now : Z) (ids : list Z) (s : PMState) : option PMState :=
  match ids with
  | [] => Some s
  | id :: ids' =>
      match run_promotion new_promotion (promotion_init tz now id) s with
      | None => None
      | Some (ok, entry, s) =>
          init_all tz now ids'
            (if ok then mkPMState (set__shopSalesPromotions
                           (_shopSalesPromotions (pm_mgr s) ++ [entry]) (pm_mgr s)) (pm_config s)
             else s)
      end
  end.

Definition ShopSalesPromotionManager_init (tz now : Z) (s : PMState) : option PMState :=
  init_all tz now (getTimeShopSalesPromotionConfigs (pm_config s)).*1 s.

(** [ShopSalesPromotionManager::update]: drop destroyed promotions. *)
Definition ShopSalesPromotionManager_update (m : ShopSalesPromotionManager) :=
  set__shopSalesPromotions
    (filter (fun p => _type p <> ShopSalesPromotionType_Destroy) (_shopSalesPromotions m)) m.

(** [ReqActivityAnnouncement]: the announced or running promotions. *)
Record MsgActivity := mkActivity {
  ac_id : Z; ac_name : string; ac_time_describe : string; ac_describe : string
}.
Definition activities (m : ShopSalesPromotionManager) : list MsgActivity :=
  map (fun p => mkActivity (_id p) (_name p) (_time_describe p) (_describe p))
    (filter (fun p => _type p = ShopSalesPromotionType_Apply
                      \/ _type p = ShopSalesPromotionType_Excute) (_shopSalesPromotions m)).

(** ** A promotion gives back what it takes *)

(** What a running promotion contributes to the price of a grid and to the
    gold ratio. *)
Definition cheap_delta (p : Promotion) (g : Z) : Z :=
  match p with
  | HeroPromotion l => foldr (fun it acc => (if it.1 =? g then it.2 else 0) + acc) 0 l
  | _ => 0
  end.
Definition gold_delta (p : Promotion) : Z :=
  match p with RechargeRattingPromotion r _ => r | _ => 0 end.

Definition active (s : PState) : Z :=
  if bool_decide (_type (ps_this s) = ShopSalesPromotionType_Excute) then 1 else 0.

(** The registers with the contribution of this promotion taken out. *)
Definition residue_cheap (p : Promotion) (g : Z) (s : PState) : Z :=
  i32 (getCheapGold g (ps_mgr s) - active s * cheap_delta p g).
Definition residue_gold (p : Promotion) (s : PState) : Z :=
  i32 (_recharge_gold_ratting (ps_mgr s) - active s * gold_delta p).

(** [s'] differs from [s] only by this promotion's own contribution. *)
Definition balanced (p : Promotion) (s s' : PState) : Prop :=
  (forall g, residue_cheap p g s' = residue_cheap p g s) /\
  residue_gold p s' = residue_gold p s /\
  getRechargeRatting (ps_mgr s') = getRechargeRatting (ps_mgr s) /\
  _recharge_jewel_ratting (ps_mgr s') = _recharge_jewel_ratting (ps_mgr s).

(** The promotion is configured with a time and an offer. *)
Definition configured (t : EventTime) (p : Promotion) (s : PState) : Prop :=
  exists c, getTimeShopSalesPromotionConfig (ps_config s) (_id (ps_this s)) = Some c /\
    pc_time c = Some t /\ pc_promotion c = Some p.

Lemma configured_same t p s s' :
  _id (ps_this s') = _id (ps_this s) ->
  _shop_time_sales_promotion (ps_config s') = _shop_time_sales_promotion (ps_config s) ->
  configured t p s -> configured t p s'.
Proof.
  intros Hi Hc (c & H & ?). exists c. split; [|done].
  unfold getTimeShopSalesPromotionConfig in *. by rewrite Hi, Hc.
Qed.

Section Balance.
Context (t : EventTime) (p : Promotion).

(** What every method preserves, and the phase it ends in. *)
Definition keeps (ph : ShopSalesPromotionType -> Prop) (s s' : PState) : Prop :=
  balanced p s s' /\ configured t p s' /\ ph (_type (ps_this s')).

Lemma balanced_refl s : balanced p s s.
Proof. done. Qed.
Lemma balanced_trans s1 s2 s3 : balanced p s1 s2 -> balanced p s2 s3 -> balanced p s1 s3.
Proof.
  intros (A1 & B1 & C1 & D1) (A2 & B2 & C2 & D2). repeat split; intros; congruence.
Qed.

Lemma keeps_trans ph1 ph2 s1 s2 s3 : keeps ph1 s1 s2 -> keeps ph2 s2 s3 -> keeps ph2 s1 s3.
Proof. intros (? & ? & ?) (? & ? & ?). split; [by eapply balanced_trans|done]. Qed.

Lemma keeps_weaken (ph1 ph2 : ShopSalesPromotionType -> Prop) s s' :
  (forall x, ph1 x -> ph2 x) -> keeps ph1 s s' -> keeps ph2 s s'.
Proof. intros H (? & ? & ?). split; [done|]. split; [done|]. by apply H. Qed.

Lemma wp_config (Q : TimeShopSalesPromotionConfig -> PState -> Prop) s :
  configured t p s ->
  (forall c, pc_time c = Some t -> pc_promotion c = Some p -> Q c s) -> wp config_entry Q s.
Proof.
  intros (c & Hc & Ht & Hp) HQ. unfold config_entry. wp_run_all. rewrite Hc. by apply HQ.
Qed.

Lemma wp_time (Q : EventTime -> PState -> Prop) s :
  configured t p s -> Q t s -> wp cur_time Q s.
Proof.
  intros Hc HQ. unfold cur_time. apply wp_bind. apply wp_config; [done|].
  intros c Ht Hp. rewrite Ht. done.
Qed.

(** Changing the phase, timers and names only. *)
Lemma getCheapGold_modify g grid cheap m :
  getCheapGold g (modifyCheapGold grid cheap m)
  = if grid =? g then getCheapGold g m +ᵢ cheap else getCheapGold g m.
Proof.
  unfold getCheapGold, modifyCheapGold. cbn [_cheap_gold set__cheap_gold].
  destruct (Z.eqb_spec grid g) as [->|Hne].
  - rewrite mfind_put_eq. unfold minsert. destruct (mfind g (_cheap_gold m)) eqn:E.
    + by rewrite E.
    + by rewrite mfind_put_eq.
  - rewrite mfind_put_ne by congruence. by rewrite mfind_insert_ne by congruence.
Qed.

Lemma cheap_loop (b : bool) l : forall (Q : unit -> PState -> Prop) s,
  (forall s', ps_this s' = ps_this s -> ps_config s' = ps_config s ->
     (forall g, i32 (getCheapGold g (ps_mgr s'))
        = i32 (getCheapGold g (ps_mgr s) + (if b then 1 else -1) * cheap_delta (HeroPromotion l) g)) ->
     (_recharge_ratting (ps_mgr s'), _recharge_gold_ratting (ps_mgr s'),
      _recharge_jewel_ratting (ps_mgr s'))
     = (_recharge_ratting (ps_mgr s), _recharge_gold_ratting (ps_mgr s),
        _recharge_jewel_ratting (ps_mgr s)) -> Q tt s') ->
  wp (mfor l (fun it => on_mgr (modifyCheapGold it.1 (if b then it.2 else i32 (- it.2))))) Q s.
Proof.
  induction l as [|[k v] l IH]; intros Q s HQ; cbn [mfor].
  - apply wp_ret, HQ; try done. intros g. f_equal. cbn. lia.
  - apply wp_bind. unfold on_mgr at 1. apply wp_modify. apply IH. intros s' Ht Hc Hg Hr.
    apply HQ; try done. intros g. rewrite Hg. cbn [ps_mgr]. rewrite getCheapGold_modify.
    cbn [cheap_delta foldr fst snd]. destruct (Z.eqb_spec k g).
    + destruct b; i32_solve.
    + by destruct b; i32_solve.
Qed.

Lemma setHeroShopConfig_promotions g b c :
  _shop_time_sales_promotion (setHeroShopConfig g b c) = _shop_time_sales_promotion c.
Proof. unfold setHeroShopConfig. by destruct (mfind g (_shop_heroes c)). Qed.

Lemma open_loop (b : bool) l : forall (Q : unit -> PState -> Prop) s,
  (forall s', ps_this s' = ps_this s -> ps_mgr s' = ps_mgr s ->
     _shop_time_sales_promotion (ps_config s') = _shop_time_sales_promotion (ps_config s) ->
     Q tt s') ->
  wp (mfor l (fun g => on_config (setHeroShopConfig g b))) Q s.
Proof.
  induction l as [|g l IH]; intros Q s HQ; cbn [mfor].
  - by apply wp_ret, HQ.
  - apply wp_bind. unfold on_config at 1. apply wp_modify. apply IH. intros s' Ht Hm Hc.
    apply HQ; [done|done|]. rewrite Hc. apply setHeroShopConfig_promotions.
Qed.

(** [excute(b)] adds (or takes back) the contribution. *)
Lemma excute_b_effect (b : bool) s (Q : unit -> PState -> Prop) :
  configured t p s ->
  (forall s', _type (ps_this s') = ShopSalesPromotionType_Excute ->
     configured t p s' ->
     (forall g, i32 (getCheapGold g (ps_mgr s'))
        = i32 (getCheapGold g (ps_mgr s) + (if b then 1 else -1) * cheap_delta p g)) ->
     i32 (_recharge_gold_ratting (ps_mgr s'))
       = i32 (_recharge_gold_ratting (ps_mgr s) + (if b then 1 else -1) * gold_delta p) ->
     getRechargeRatting (ps_mgr s') = getRechargeRatting (ps_mgr s) ->
     _recharge_jewel_ratting (ps_mgr s') = _recharge_jewel_ratting (ps_mgr s) -> Q tt s') ->
  wp (excute_b b) Q s.
Proof.
  intros Hc HQ. unfold excute_b, set_type, on_this. wp_run_all.
  apply wp_config; [by eapply configured_same|]. intros c Ht Hp. rewrite Hp.
  apply wp_bind, wp_ret. cbv beta.
  set (s1 := mkPState _ _ _).
  assert (Hc1 : configured t p s1) by (by eapply configured_same).
  destruct p as [l|r k|l].
  - apply cheap_loop. intros s' Hthis Hcfg Hg Hr. injection Hr as Hr1 Hr2 Hr3.
    apply HQ; try done.
    + by rewrite Hthis.
    + by eapply configured_same; [| |exact Hc1]; rewrite ?Hthis, ?Hcfg.
    + rewrite Hr2. cbn. destruct b; i32_solve.
  - unfold on_mgr. apply wp_modify. apply HQ; try done.
    + intros g. unfold getCheapGold. destruct b; cbn; i32_solve.
    + cbn. destruct b; i32_solve.
  - apply open_loop. intros s' Hthis Hm Hcfg. apply HQ; try (by rewrite Hm).
    + by rewrite Hthis.
    + by eapply configured_same; [| |exact Hc1]; rewrite ?Hthis, ?Hcfg.
    + intros g. rewrite Hm. cbn. destruct b; i32_solve.
    + rewrite Hm. cbn. destruct b; i32_solve.
Qed.

Abbreviation Wait := ShopSalesPromotionType_Wait.
Abbreviation Apply := ShopSalesPromotionType_Apply.
Abbreviation Excute := ShopSalesPromotionType_Excute.
Abbreviation Destroy := ShopSalesPromotionType_Destroy.

Lemma active_Excute s : _type (ps_this s) = Excute -> active s = 1.
Proof. intros H. unfold active. by rewrite bool_decide_eq_true_2. Qed.
Lemma active_other s : _type (ps_this s) <> Excute -> active s = 0.
Proof. intros H. unfold active. by rewrite bool_decide_eq_false_2. Qed.

Lemma excute_b_keeps s : configured t p s -> _type (ps_this s) <> Excute ->
  wp (excute_b true) (fun _ => keeps (eq Excute) s) s.
Proof.
  intros Hc Ht. apply excute_b_effect; [done|]. intros s' Ht' Hc' Hg Hr Hrr Hj.
  split; [|done]. unfold balanced, residue_cheap, residue_gold.
  rewrite (active_Excute s'), (active_other s) by done.
  split; [|split; [|done]]; [intros g; specialize (Hg g)|]; i32_solve.
Qed.

Lemma exit_keeps s : configured t p s -> _type (ps_this s) = Excute ->
  wp promotion_exit (fun _ => keeps (eq Destroy) s) s.
Proof.
  intros Hc Ht. unfold promotion_exit, removeEvents, set_type, on_this. wp_run_all.
  apply excute_b_effect; [by eapply configured_same|]. intros s' Ht' Hc' Hg Hr Hrr Hj.
  wp_run_all. cbn [ps_mgr] in Hg, Hr, Hrr, Hj.
  split; [|split; [by eapply configured_same|done]].
  unfold balanced, residue_cheap, residue_gold. cbn [ps_mgr].
  rewrite (active_Excute s) by done. rewrite active_other by done.
  split; [|split; [|done]]; [intros g; specialize (Hg g)|]; i32_solve.
Qed.

(** A change of phase outside [Excute], of timers or names keeps the books. *)
Lemma keeps_this (ph : ShopSalesPromotionType -> Prop) f s :
  configured t p s -> (forall x, _id (f x) = _id x) ->
  _type (f (ps_this s)) = _type (ps_this s) \/
    (_type (f (ps_this s)) <> Excute /\ _type (ps_this s) <> Excute) ->
  ph (_type (f (ps_this s))) ->
  keeps ph s (mkPState (f (ps_this s)) (ps_mgr s) (ps_config s)).
Proof.
  intros Hc Hid Ht Hph. split; [|split; [eapply configured_same; [apply Hid|done|done]|done]].
  assert (Ha : active (mkPState (f (ps_this s)) (ps_mgr s) (ps_config s)) = active s).
  { unfold active. cbn. destruct Ht as [->|[H1 H2]]; [done|].
    by rewrite !bool_decide_eq_false_2. }
  unfold balanced, residue_cheap, residue_gold. by rewrite Ha.
Qed.
Definition ran (x : ShopSalesPromotionType) : Prop := x = Excute \/ x = Destroy.
Definition started (x : ShopSalesPromotionType) : Prop := x <> Wait.
Definition any_phase (x : ShopSalesPromotionType) : Prop := True.

Lemma keeps_then {A B} (m : M PState A) (k : A -> M PState B) ph1 ph2 s :
  wp m (fun _ => keeps ph1 s) s ->
  (forall a s', configured t p s' -> ph1 (_type (ps_this s')) -> wp (k a) (fun _ => keeps ph2 s') s') ->
  wp (bind m k) (fun _ => keeps ph2 s) s.
Proof.
  intros Hm Hk. apply wp_bind. eapply wp_mono; [exact Hm|]. intros a s' Hs'.
  pose proof Hs' as (_ & Hc & Hph). eapply wp_mono; [by apply (Hk a)|].
  intros b s'' Hs''. exact (keeps_trans _ _ _ _ _ Hs' Hs'').
Qed.

Lemma keeps_id (ph : ShopSalesPromotionType -> Prop) s :
  configured t p s -> ph (_type (ps_this s)) -> keeps ph s s.
Proof. done. Qed.

Lemma type_is_wp x (Q : bool -> PState -> Prop) s :
  Q (bool_decide (_type (ps_this s) = x)) s -> wp (type_is x) Q s.
Proof. done. Qed.

Context (tz now : Z).

(** A [DayPass] of a promotion that has already run. *)
Lemma DayPass_ran f s : configured t p s -> ran (_type (ps_this s)) ->
  wp (call tz now (S f) Call_DayPass) (fun _ => keeps ran s) s.
Proof.
  intros Hc Hr. cbn [call]. unfold DayPass_body. apply wp_bind, wp_time; [done|].
  apply wp_bind, wp_gets. apply wp_bind, type_is_wp.
  rewrite bool_decide_eq_false_2 by (by destruct Hr as [->| ->]).
  apply wp_bind, wp_ret. apply wp_bind, type_is_wp.
  rewrite bool_decide_eq_false_2 by (by destruct Hr as [->| ->]).
  apply wp_bind, wp_ret. apply wp_bind, type_is_wp.
  apply wp_when; intros Hx; [|by apply keeps_id].
  apply andb_prop in Hx as [Hx _]. apply bool_decide_eq_true in Hx.
  eapply wp_mono; [by apply exit_keeps|]. intros [] s'. apply keeps_weaken.
  intros x <-. by right.
Qed.

Lemma excute_keeps f s : configured t p s -> _type (ps_this s) <> Excute ->
  wp (call tz now (S (S f)) Call_excute) (fun _ => keeps ran s) s.
Proof.
  intros Hc Ht. cbn [call]. unfold excute_body.
  eapply keeps_then; [by apply excute_b_keeps|]. intros [] s1 Hc1 Ht1. cbv beta.
  apply wp_bind, wp_time; [done|].
  assert (Hdp : wp (call tz now (S f) Call_DayPass) (fun _ => keeps ran s1) s1)
    by (apply DayPass_ran; [done|by left]).
  destruct (type_ t); [|done|done]. apply wp_if; intros _.
  - unfold addEvent, on_this. apply wp_modify.
    apply (keeps_this _ (fun x => set__timers (_timers x ++ _) x)); [done|done|by left|by left].
  - eapply wp_mono; [by apply exit_keeps|]. intros [] s'. apply keeps_weaken.
    intros x <-. by right.
Qed.

(** The last two phases of [DayPass], from an announced promotion. *)
Lemma DayPass_tail f s c : configured t p s -> started (_type (ps_this s)) ->
  wp (let* applied := type_is Apply in
      when (applied && apply_due tz now c t) (call tz now (S (S f)) Call_excute) ;;;
      let* running := type_is Excute in
      when (running && excute_over tz now c t) promotion_exit) (fun _ => keeps started s) s.
Proof.
  intros Hc Hs. apply wp_bind, type_is_wp.
  eapply keeps_then with (ph1 := started).
  - apply wp_when; intros Hx; [|by apply keeps_id].
    apply andb_prop in Hx as [Hx _]. apply bool_decide_eq_true in Hx.
    eapply wp_mono; [apply excute_keeps; [done|by rewrite Hx]|].
    intros [] s'. apply keeps_weaken. by intros x [->| ->].
  - intros [] s1 Hc1 Hs1. cbv beta. apply wp_bind, type_is_wp.
    apply wp_when; intros Hx; [|by apply keeps_id].
    apply andb_prop in Hx as [Hx _]. apply bool_decide_eq_true in Hx.
    eapply wp_mono; [by apply exit_keeps|]. intros [] s'. apply keeps_weaken. by intros x <-.
Qed.

Lemma DayPass_started f s : configured t p s -> started (_type (ps_this s)) ->
  wp (call tz now (S (S (S f))) Call_DayPass) (fun _ => keeps started s) s.
Proof.
  intros Hc Hs. change (call tz now (S (S (S f))) Call_DayPass)
    with (DayPass_body tz now (call tz now (S (S f)))).
  unfold DayPass_body. apply wp_bind, wp_time; [done|].
  apply wp_bind, wp_gets. apply wp_bind, type_is_wp.
  rewrite bool_decide_eq_false_2 by done.
  apply wp_bind, wp_ret. by apply DayPass_tail.
Qed.

Lemma apply_keeps f s : configured t p s -> _type (ps_this s) <> Excute ->
  wp (call tz now (S (S (S (S f)))) Call_apply) (fun _ => keeps started s) s.
Proof.
  intros Hc Ht. change (call tz now (S (S (S (S f)))) Call_apply)
    with (apply_body now (call tz now (S (S (S f))))).
  unfold apply_body. eapply keeps_then with (ph1 := fun x => x <> Excute).
  { unfold removeEvents, on_this. apply wp_modify.
    apply (keeps_this _ (fun x => set__timers (filter _ (_timers x)) x)); [done|done|by left|done]. }
  intros [] s1 Hc1 Ht1. cbv beta. eapply keeps_then with (ph1 := eq Apply).
  { unfold set_type, on_this. apply wp_modify.
    apply (keeps_this _ (set__type Apply)); [done|done|by right|done]. }
  intros [] s2 Hc2 Ht2. cbv beta. apply wp_bind, wp_time; [done|].
  assert (Hdp : wp (call tz now (S (S (S f))) Call_DayPass) (fun _ => keeps started s2) s2)
    by (apply DayPass_started; [done|by rewrite <- Ht2]).
  destruct (type_ t); [|done|done]. apply wp_if; intros _.
  - eapply wp_mono; [apply excute_keeps; [done|by rewrite <- Ht2]|].
    intros [] s'. apply keeps_weaken. by intros x [->| ->].
  - unfold addEvent, on_this. apply wp_modify.
    apply (keeps_this _ (fun x => set__timers (_timers x ++ _) x));
      [done|done|by left|cbn; by rewrite <- Ht2].
Qed.

Lemma DayPass_keeps s : configured t p s ->
  wp (call tz now call_fuel Call_DayPass) (fun _ => keeps any_phase s) s.
Proof.
  intros Hc. destruct (decide (_type (ps_this s) = Wait)) as [Hw|Hw];
    [|eapply wp_mono; [by apply DayPass_started|]; intros [] s'; by apply keeps_weaken].
  unfold call_fuel. change (call tz now 5 Call_DayPass) with (DayPass_body tz now (call tz now 4)).
  unfold DayPass_body. apply wp_bind, wp_time; [done|].
  apply wp_bind, wp_gets. apply wp_bind, type_is_wp. rewrite bool_decide_eq_true_2 by done.
  destruct (wait_due tz now (ps_config s) t) as [[|]|]; [| |by apply keeps_id].
  - eapply keeps_then; [apply apply_keeps; [done|by rewrite Hw]|].
    intros [] s1 Hc1 Hs1. cbv beta. eapply wp_mono; [by apply DayPass_tail|].
    intros [] s'. by apply keeps_weaken.
  - apply wp_bind, wp_ret. apply wp_bind, type_is_wp. rewrite Hw.
    apply wp_bind, wp_ret. apply wp_bind, type_is_wp. rewrite Hw. by apply keeps_id.
Qed.
End Balance.

(** The day passes of a promotion, at the given server times. *)
Fixpoint day_passes (tz : Z) (times : list Z) (s : PState) : option PState :=
  match times with
  | [] => Some s
  | now :: times' =>
      match call tz now call_fuel Call_DayPass s with
      | Some (_, s') => day_passes tz times' s'
      | None => None
      end
  end.

Lemma day_passes_keeps tz t p times : forall s, configured t p s ->
  exists s', day_passes tz times s = Some s' /\ keeps t p any_phase s s'.
Proof.
  induction times as [|now times IH]; intros s Hc; [by exists s|].
  destruct (wp_total _ _ _ (DayPass_keeps t p tz now s Hc)) as ([] & s1 & Hr & Hk).
  destruct (IH s1 (proj1 (proj2 Hk))) as (s' & Hr' & Hk').
  exists s'. cbn [day_passes]. rewrite Hr. split; [done|by eapply keeps_trans].
Qed.

(** ** Properties *)


(** A weekly offer (grid 5 cheaper by 300 from Tuesday to Thursday). *)
Definition promo_demo_config : GameConfig :=
  mkGameConfig [] []
    [(1, mkPromotionConfig 1 (Some (mkEventTime Time_Week 1 2 4))
           (Some (HeroPromotion [(5, 300)])) "sale" "" "")]
    [] [] [] [] [] [] [] [] [] []
    (mkGlobalConfig 0 0 0 0 0 0 0 0 0 0 0 0 0 0 0 0 0 [] [] "") 0 0 false 0 0 false "".
Definition promo_demo : PState :=
  mkPState (mkTimeShopPromotion 1 ShopSalesPromotionType_Wait "sale" "" "" [])
    (mkPromotionManager [] [] 0 0 0) promo_demo_config.

(** Monday 2017-07-17, 12:00 UTC, and the following days. *)
Definition demo_day (k : Z) : Z := 1500292800 + k * 86400.


(** A weekly promotion does not come back: the day after its window it is
    destroyed, and the next week's day passes leave it destroyed. *)
Example weekly_promotion_runs_once :
  (fun s => (_type (ps_this s), getCheapGold 5 (ps_mgr s)))
    <$> day_passes 0 (map demo_day (seqZ 0 10)) promo_demo
  = Some (ShopSalesPromotionType_Destroy, 0).
Proof. vm_compute. reflexivity. Qed.

(** The recharge switch tests the class tag, so a promotion of the jewel ratio
    (type 2) raises the gold ratio. *)
Example jewel_promotion_raises_gold :
  let c := mkPromotionConfig 1 (Some (mkEventTime Time_Week 1 1 4))
             (Some (RechargeRattingPromotion 50 2)) "jewels" "" "" in
  let s := mkPState (ps_this promo_demo) (ps_mgr promo_demo)
             (set__shop_time_sales_promotion [(1, c)] promo_demo_config) in
  (fun s => (getGoldRechargeRatting (ps_mgr s), getJewelRechargeRatting (ps_mgr s)))
    <$> day_passes 0 [demo_day 0] s
  = Some (50, 0).
Proof. vm_compute. reflexivity. Qed.
