(* ===== verification/Names.v ===== *)
(** * gameserver/DreamHeroManager: generated names and order numbers

    New heroes and deal orders get generated names: the server character, the
    three letters of the day, and the six decimal digits of a counter, each
    digit replaced through a table that is shuffled every day. *)
From S2P Require Import Prelude StdMap Text Calendar Config Record.

(** The naming part of [class DreamHeroManager]; [_day_number] is the [u8[6][10]] table. *)
Record NameGen := mkNameGen {
  _day_number : list (list Z);
  _day_create_heroes_count : Z;
  _hero_day_title : string;
  _char_configs : list ascii;
  _names : list string;
  _last_save_time : Z;
  _heroes_orders : list (string * Z);
  _deal_order_id : Z;
  _save_all_heroes_ok : bool
}.

Definition set__day_number (v : list (list Z)) (x : NameGen) : NameGen :=
  mkNameGen v
    (_day_create_heroes_count x) (_hero_day_title x) (_char_configs x) (_names x)
    (_last_save_time x) (_heroes_orders x) (_deal_order_id x) (_save_all_heroes_ok x).
Definition set__day_create_heroes_count (v : Z) (x : NameGen) : NameGen :=
  mkNameGen
    (_day_number x) v (_hero_day_title x) (_char_configs x) (_names x) (_last_save_time x)
    (_heroes_orders x) (_deal_order_id x) (_save_all_heroes_ok x).
Definition set__hero_day_title (v : string) (x : NameGen) : NameGen :=
  mkNameGen (_day_number
    x) (_day_create_heroes_count x) v (_char_configs x) (_names x) (_last_save_time x)
    (_heroes_orders x) (_deal_order_id x) (_save_all_heroes_ok x).
Definition set__char_configs (v : list ascii) (x : NameGen) : NameGen :=
  mkNameGen (_day_number
    x) (_day_create_heroes_count x) (_hero_day_title x) v (_names x) (_last_save_time x)
    (_heroes_orders x) (_deal_order_id x) (_save_all_heroes_ok x).
Definition set__names (v : list string) (x : NameGen) : NameGen :=
  mkNameGen (_day_number x)
    (_day_create_heroes_count x) (_hero_day_title x) (_char_configs x) v (_last_save_time x)
    (_heroes_orders x) (_deal_order_id x) (_save_all_heroes_ok x).
Definition set__last_save_time (v : Z) (x : NameGen) : NameGen :=
  mkNameGen (_day_number x)
    (_day_create_heroes_count x) (_hero_day_title x) (_char_configs x) (_names x) v
    (_heroes_orders x) (_deal_order_id x) (_save_all_heroes_ok x).
Definition set__heroes_orders (v : list (string * Z)) (x : NameGen) : NameGen :=
  mkNameGen
    (_day_number x) (_day_create_heroes_count x) (_hero_day_title x) (_char_configs x) (_names x)
    (_last_save_time x) v (_deal_order_id x) (_save_all_heroes_ok x).
Definition set__deal_order_id (v : Z) (x : NameGen) : NameGen :=
  mkNameGen (_day_number x)
    (_day_create_heroes_count x) (_hero_day_title x) (_char_configs x) (_names x)
    (_last_save_time x) (_heroes_orders x) v (_save_all_heroes_ok x).
Definition set__save_all_heroes_ok (v : bool) (x : NameGen) : NameGen :=
  mkNameGen (_day_number
    x) (_day_create_heroes_count x) (_hero_day_title x) (_char_configs x) (_names x)
    (_last_save_time x) (_heroes_orders x) (_deal_order_id x) v.


(** The constructor: [_char_configs] is "a" to "z". *)
Definition alphabet : list ascii := map (fun k => ascii_of_N (97 + N.of_nat k)) (seq 0 26).
Definition new_NameGen : NameGen :=
  mkNameGen (repeat (repeat 0 10) 6) 0 "" alphabet [] 0 [] 0 false.

(** The element [_day_number[i][j]]; an index out of range is undefined. *)
Definition day_digit (tbl : list (list Z)) (i : nat) (j : Z) : option Z :=
  row ← nth_error tbl i; if j <? 0 then None else nth_error row (Z.to_nat j).

(** The digit loop of [generateStr]. *)
Fixpoint name_digits (tbl : list (list Z)) (key number_temp : Z) (i n : nat) : option (list Z) :=
  match n with
  | O => Some []
  | S n' =>
      d ← day_digit tbl i (Z.rem (Z.quot key number_temp) 10);
      ds ← name_digits tbl key (number_temp *ᵢ 10) (S i) n';
      Some (d :: ds)
  end.

(** [generateStr(key, argu)]: [current_server_char + _hero_day_title] is a
    one-character prefix; the title is used up to its first NUL ([sprintf]). *)
Definition generateStr (server_char : ascii) (g : NameGen) (key : Z) (argu : string) : option string :=
  let str_name := String server_char (_hero_day_title g) in
  numbers ← name_digits (_day_number g) key 1 0 6;
  Some (sprintf "%s%d%d%d%d%d%d%s" ([AS str_name] ++ map AD numbers ++ [AS argu])).

Definition AddHeroOrder (acc : Z) (order : string) (g : NameGen) : NameGen * bool :=
  match find (fun kv => String.eqb kv.1 order) (_heroes_orders g) with
  | Some _ => (g, false)
  | None => (set__heroes_orders (_heroes_orders g ++ [(order, acc)]) g, true)
  end.

Definition getOrderAcc (order : string) (g : NameGen) : Z :=
  match find (fun kv => String.eqb kv.1 order) (_heroes_orders g) with
  | Some (_, acc) => acc
  | None => 0
  end.

Section Generate.
Context (tz g_server_time : Z) (server_char : ascii).

(** The loop over [_names] in [generateName]: a clash asks for the next name
    and goes on with the remaining names. *)
Fixpoint clash_loop (next : NameGen * RecordManager -> option (string * (NameGen * RecordManager)))
    (names : list string) (name : string) (s : NameGen * RecordManager)
    : option (string * (NameGen * RecordManager)) :=
  match names with
  | [] => Some (name, s)
  | n :: names' =>
      if String.eqb name n then
        '(name', s') ← next s; clash_loop next names' name' s'
      else clash_loop next names' name s
  end.

(** [generateName(count)]; beyond 100 clashes the name is taken as it is.
    [fuel] bounds the recursion, which stops at [count = 101]. *)
Fixpoint generateName_fuel (fuel : nat) (count : Z) (s : NameGen * RecordManager)
    : option (string * (NameGen * RecordManager)) :=
  match fuel with
  | O => None
  | S f =>
      let '(g, r) := s in
      let g := set__day_create_heroes_count (_day_create_heroes_count g +ᵢ 1) g in
      if count >? 100 then
        name ← generateStr server_char g (_day_create_heroes_count g) "q"; Some (name, (g, r))
      else
        name ← generateStr server_char g (_day_create_heroes_count g) "";
        let r := generateNameRecord tz g_server_time name (_day_create_heroes_count g)
                   (_hero_day_title g) r in
        clash_loop (generateName_fuel f (count + 1)) (_names g) name (g, r)
  end.

Definition generateName (s : NameGen * RecordManager) : option (string * (NameGen * RecordManager)) :=
  generateName_fuel 102 0 s.
End Generate.

Definition generateDealOrderID (server_char : ascii) (acc : Z) (g : NameGen) : option (string * NameGen) :=
  let g := set__deal_order_id (_deal_order_id g +ᵢ 1) g in
  order ← generateStr server_char g (_deal_order_id g) "order";
  Some (order, (AddHeroOrder acc order g).1).

(** [refreshHeroTitle]; the NUL pushed at the end ends the title. *)
Definition refreshHeroTitle (tz g_server_time server_open_time : Z) (g : NameGen) : option NameGen :=
  if g_server_time >? server_open_time then
    let p := localtime tz server_open_time in
    let day_spawn := tm_hour p * 60 * 60 + tm_min p * 60 + tm_sec p in
    let number := Z.quot (g_server_time - (server_open_time - day_spawn)) (60 * 60 * 24) in
    let char_at (k : Z) := if k <? 0 then None else nth_error (_char_configs g) (Z.to_nat k) in
    c1 ← char_at (Z.rem number 26);
    c2 ← char_at (Z.rem (Z.quot number 26) 26);
    c3 ← char_at (Z.rem (Z.quot number (26 * 26)) 26);
    Some (set__hero_day_title (String c1 (String c2 (String c3 EmptyString))) g)
  else Some (set__hero_day_title "aaa" g).

(** [refreshDayNumber]: every row becomes a shuffle of 0..9; [shuffles] are the
    results of [std::random_shuffle].  The counter restarts. *)
Definition refreshDayNumber (tz g_server_time server_open_time : Z) (shuffles : list (list Z))
    (g : NameGen) : option NameGen :=
  refreshHeroTitle tz g_server_time server_open_time
    (set__day_create_heroes_count 0 (set__day_number shuffles g)).

(** The text of the digit table, and the status row that [save] writes. *)
Definition day_number_text (tbl : list (list Z)) : string :=
  join ";" (map (fun row => join "," (map print_d row)) tbl).

Definition manager_save (tz g_server_time server_char heroes_count daily_game_begin_time : Z)
    (g : NameGen) : NameGen * string :=
  let g := set__last_save_time (u64 g_server_time) g in
  (g, sprintf "replace into `heroes_status`(`sid`, `server_id`, `day_create_heroes_count`, `day_number`, `heroes_online_count`, `save_time`, `deal_order_id`, `daily_game_begin_time`) values (%d, '%s', %d, '%s', %d, '%s', %d, '%s');"
    [AD 0; AS (String (ascii_of_N (Z.to_N (u8 server_char))) EmptyString);
     AD (_day_create_heroes_count g); AS (day_number_text (_day_number g)); AD heroes_count;
     AS (build_unix_time_to_string tz (_last_save_time g)); AD (_deal_order_id g);
     AS (build_unix_time_to_string tz daily_game_begin_time)]).

(** [Load] of the [heroes_status] row: the table is overwritten cell by cell;
    cells beyond 6 x 10 are undefined. *)
Fixpoint put_row (row : list Z) (j : nat) (cells : list string) : option (list Z) :=
  match cells with
  | [] => Some row
  | c :: cells' => if (j <? 10)%nat then put_row (<[j := u8 (atoi c)]> row) (S j) cells' else None
  end.
Fixpoint put_rows (tbl : list (list Z)) (i : nat) (rows : list string) : option (list (list Z)) :=
  match rows with
  | [] => Some tbl
  | r :: rows' =>
      row ← nth_error tbl i;
      row' ← put_row row 0 (split r ",");
      put_rows (<[i := row']> tbl) (S i) rows'
  end.

Section LoadStatus.
Context {Row : Type} `{DBRow Row}.
(** The status row and the names of all characters; the second component is
    the begin of the daily game for the rank manager. *)
Definition manager_Load (status names : list Row) (g : NameGen) : option (NameGen * option Z) :=
  match status with
  | [] => Some (g, None)
  | row :: _ =>
      tbl ← put_rows (_day_number g) 0 (split (row_str row "day_number") ";");
      let g := set__day_create_heroes_count (row_int row "day_create_heroes_count")
                 (set__day_number tbl g) in
      let g := set__last_save_time (row_int row "UNIX_TIMESTAMP(`save_time`)") g in
      let g := set__deal_order_id (row_int row "deal_order_id") g in
      Some (set__names (_names g ++ map (fun r => row_str r "name") names) g,
            Some (u32 (row_int row "UNIX_TIMESTAMP(`daily_game_begin_time`)")))
  end.
End LoadStatus.

(** ** Distinct counters give distinct names *)

(** Every row of the table is a permutation of the ten digits, as
    [refreshDayNumber] leaves it. *)
Definition digit_rows (tbl : list (list Z)) : Prop :=
  length tbl = 6%nat /\ Forall (fun row => row ≡ₚ seqZ 0 10) tbl.

Lemma print_d_digit d : 0 <= d < 10 -> print_d d = String (digit d) EmptyString.
Proof.
  intros H. assert (Hd : d = 0 \/ d = 1 \/ d = 2 \/ d = 3 \/ d = 4 \/ d = 5 \/ d = 6 \/ d = 7
    \/ d = 8 \/ d = 9) by lia.
  by repeat destruct Hd as [->|Hd]; [..|subst].
Qed.

Lemma digit_inj a b : 0 <= a < 10 -> 0 <= b < 10 -> digit a = digit b -> a = b.
Proof.
  intros Ha Hb He. apply (f_equal N_of_ascii) in He. rewrite !digit_code in He by done. lia.
Qed.

Lemma day_digit_row tbl i j : digit_rows tbl -> (i < 6)%nat -> 0 <= j < 10 ->
  exists d, day_digit tbl i j = Some d /\ 0 <= d < 10 /\
    forall j', 0 <= j' < 10 -> day_digit tbl i j' = Some d -> j' = j.
Proof.
  intros [Hlen Hrows] Hi Hj. unfold day_digit.
  destruct (nth_error tbl i) as [row|] eqn:Hr; [|apply nth_error_None in Hr; lia].
  assert (Hrow : row ≡ₚ seqZ 0 10).
  { rewrite Forall_forall in Hrows. apply Hrows, list_elem_of_In. by eapply nth_error_In. }
  assert (Hl : length row = 10%nat) by (by rewrite Hrow).
  assert (Hnd : List.NoDup row) by (apply NoDup_ListNoDup; rewrite Hrow; apply NoDup_seqZ).
  cbn. rewrite (proj2 (Z.ltb_ge _ _)) by lia.
  destruct (nth_error row (Z.to_nat j)) as [d|] eqn:Hd; [|apply nth_error_None in Hd; lia].
  exists d. split; [done|]. split.
  - assert (Hin : d ∈ seqZ 0 10)
      by (rewrite <- Hrow; apply list_elem_of_In; by eapply nth_error_In).
    apply elem_of_seqZ in Hin. lia.
  - intros j' Hj'. rewrite (proj2 (Z.ltb_ge _ _)) by lia. intros Hd'.
    apply Z2Nat.inj; [lia|lia|]. rewrite List.NoDup_nth_error in Hnd.
    apply Hnd; [lia|congruence].
Qed.

(** The digits of a counter below 10^n, looked up from row [i] on. *)
Lemma name_digits_spec tbl : digit_rows tbl -> forall n i k p, (i + n <= 6)%nat ->
  0 <= k -> (p = 10 ^ Z.of_nat i) ->
  exists ds, name_digits tbl k p i n = Some ds /\ length ds = n /\
    Forall (fun d => 0 <= d < 10) ds /\
    forall k', 0 <= k' -> name_digits tbl k' p i n = Some ds ->
      (k' / p) mod 10 ^ Z.of_nat n = (k / p) mod 10 ^ Z.of_nat n.
Proof.
  intros Htbl. induction n as [|n IH]; intros i k p Hi Hk Hp.
  { exists []. repeat split; [constructor|]. intros. by rewrite !Z.mod_1_r. }
  assert (Hp0 : 0 < p) by (subst; lia).
  assert (Hpr : is_i32 (p * 10)).
  { subst p. unfold is_i32. assert (Hi' : Z.of_nat i <= 5) by lia.
    pose proof (Z.pow_le_mono_r 10 (Z.of_nat i) 5). lia. }
  assert (Hrem : forall k, 0 <= k -> Z.rem (Z.quot k p) 10 = (k / p) mod 10).
  { intros k0 Hk0. rewrite Z.quot_div_nonneg, Z.rem_mod_nonneg by (try apply Z.div_pos; lia). done. }
  destruct (day_digit_row tbl i ((k / p) mod 10) Htbl) as (d & Hd & Hdr & Hinj);
    [lia|apply Z.mod_pos_bound; lia|].
  destruct (IH (S i) k (p * 10)) as (ds & Hds & Hl & Hall & Huniq); [lia|done| |].
  { subst p. replace (Z.of_nat (S i)) with (Z.of_nat i + 1) by lia. rewrite Z.pow_add_r; lia. }
  exists (d :: ds). cbn [name_digits]. rewrite Hrem, Hd, i32_id by done.
  split; [cbn; by rewrite Hds|]. split; [cbn; lia|]. split; [by constructor|].
  intros k' Hk'. cbn. rewrite Hrem by done.
  destruct (day_digit tbl i ((k' / p) mod 10)) as [d'|] eqn:Hd'; [|done]. cbn.
  destruct (name_digits tbl k' (p * 10) (S i) n) as [ds'|] eqn:Hds'; [|done]. cbn.
  intros [= -> ->].
  assert (Hdig : (k' / p) mod 10 = (k / p) mod 10)
    by (apply Hinj; [apply Z.mod_pos_bound; lia|done]).
  specialize (Huniq k' Hk' Hds').
  replace (Z.of_nat (S n)) with (1 + Z.of_nat n) by lia.
  rewrite Z.pow_add_r, Z.pow_1_r by lia.
  rewrite !Z.rem_mul_r by lia. rewrite !Z.div_div by lia. lia.
Qed.

(** The digits of a name, read back from its text. *)
Lemma digits_text_inj ds : forall ds' s s',
  length ds = length ds' -> Forall (fun d => 0 <= d < 10) ds -> Forall (fun d => 0 <= d < 10) ds' ->
  foldr (fun d acc => print_d d +:+ acc) s ds = foldr (fun d acc => print_d d +:+ acc) s' ds' ->
  ds = ds'.
Proof.
  induction ds as [|d ds IH]; intros [|d' ds'] s s' Hl H H'; try done. cbn.
  inversion H; inversion H'; subst. rewrite !print_d_digit by done.
  cbn. intros [= Hd Heq]. f_equal; [by apply digit_inj|]. injection Hl as Hl. by eapply IH.
Qed.

Lemma generateStr_text server_char g key argu ds :
  name_digits (_day_number g) key 1 0 6 = Some ds -> length ds = 6%nat ->
  generateStr server_char g key argu
  = Some (String server_char (_hero_day_title g)
          +:+ foldr (fun d acc => print_d d +:+ acc) argu ds).
Proof.
  intros Hds Hl. unfold generateStr. rewrite Hds. cbn [mbind option_bind].
  do 6 (destruct ds as [|? ds]; [done|]). destruct ds; [|done].
  f_equal. cbn. by rewrite str_app_nil_r.
Qed.

Lemma str_app_inj_l s t u : s +:+ t = s +:+ u -> t = u.
Proof.
  intros H. apply (f_equal chars) in H. rewrite !chars_app in H.
  apply chars_inj. by eapply app_inv_head.
Qed.

(** ** A generated name is new *)

Lemma str_length_app s t : String.length (s +:+ t) = (String.length s + String.length t)%nat.
Proof. induction s as [|a s IH]; [done|]. change (S (String.length (s +:+ t)) = S (String.length s) + String.length t)%nat. lia. Qed.

Lemma digits_text_length ds s : Forall (fun d => 0 <= d < 10) ds ->
  String.length (foldr (fun d acc => print_d d +:+ acc) s ds) = (length ds + String.length s)%nat.
Proof.
  induction 1 as [|d ds Hd _ IH]; [done|]. cbn [foldr]. rewrite str_length_app, IH, print_d_digit by done. done.
Qed.

Lemma generateStr_total server_char g key argu : digit_rows (_day_number g) -> 0 <= key ->
  exists name, generateStr server_char g key argu = Some name /\
    String.length name = (String.length (_hero_day_title g) + 7 + String.length argu)%nat.
Proof.
  intros Ht Hk. destruct (name_digits_spec _ Ht 6 0 key 1) as (ds & E & L & A & _); [lia|lia|done|].
  eexists. split; [by apply generateStr_text|]. rewrite str_length_app, digits_text_length by done.
  rewrite L. cbn. lia.
Qed.

Lemma clash_loop_fresh next names name s :
  (name ∈ names -> exists name' s', next s = Some (name', s') /\ (name' ∉ names)) ->
  exists name' s', clash_loop next names name s = Some (name', s') /\ (name' ∉ names) /\
    ((name' = name /\ s' = s) \/ next s = Some (name', s')).
Proof.
  assert (Hnone : forall l nm st, nm ∉ l -> clash_loop next l nm st = Some (nm, st)).
  { induction l as [|n l IH]; intros nm st Hin; [done|]. apply not_elem_of_cons in Hin as [H1 H2]. cbn.
    destruct (String.eqb_spec nm n); [done|]. by apply IH. }
  intros Hnext. destruct (decide (name ∈ names)) as [Hin|Hout].
  - destruct (Hnext Hin) as (name' & s' & Hn & Hfresh). exists name', s'. split; [|by split; [|right]].
    clear Hnext. induction names as [|n l IH]; [by apply elem_of_nil in Hin|]. cbn.
    apply not_elem_of_cons in Hfresh as [H1 H2].
    destruct (String.eqb_spec name n); [rewrite Hn; cbn; by apply Hnone|].
    apply IH; [|done]. by apply elem_of_cons in Hin as [?|?].
  - exists name, s. split; [by apply Hnone|]. split; [done|by left].
Qed.

(** The counter is all that changes of the generator. *)
Definition counted (c : Z) (g : NameGen) : NameGen := set__day_create_heroes_count c g.

Section Fresh.
Context (tz now : Z) (server_char : ascii).

Lemma generateName_fuel_fresh fuel : forall count g r,
  Z.of_nat fuel = 102 - count -> 0 <= count <= 101 -> digit_rows (_day_number g) ->
  0 <= _day_create_heroes_count g -> _day_create_heroes_count g + Z.of_nat fuel < 2^31 ->
  Forall (fun n => (String.length n < String.length (_hero_day_title g) + 8)%nat) (_names g) ->
  exists name c r', generateName_fuel tz now server_char fuel count (g, r) = Some (name, (counted c g, r')) /\
    (name ∉ _names g) /\ _day_create_heroes_count g < c <= _day_create_heroes_count g + Z.of_nat fuel.
Proof.
  induction fuel as [|fuel IH]; intros count g r Hf Hc Ht H0 Hb Hlen; [lia|]. cbn [generateName_fuel].
  set (c := _day_create_heroes_count g +ᵢ 1).
  assert (Hcv : c = _day_create_heroes_count g + 1) by (apply i32_id; unfold is_i32; lia).
  rewrite Z.gtb_ltb. destruct (Z.ltb_spec 100 count).
  - destruct (generateStr_total server_char (counted c g) c "q" Ht ltac:(lia)) as (name & E & L).
    unfold counted in E, L. cbn [_day_create_heroes_count set__day_create_heroes_count] in *. rewrite E.
    cbn [mbind option_bind]. exists name, c, r. split; [done|]. split; [|lia].
    intros Hin. rewrite Forall_forall in Hlen. specialize (Hlen name Hin). cbn in L. lia.
  - destruct (generateStr_total server_char (counted c g) c "" Ht ltac:(lia)) as (name & E & _).
    unfold counted in E. cbn [_day_create_heroes_count set__day_create_heroes_count _names _hero_day_title] in *.
    rewrite E. cbn [mbind option_bind].
    set (r1 := generateNameRecord tz now name c (_hero_day_title g) r).
    destruct (IH (count + 1) (counted c g) r1) as (name' & c' & r' & E' & Hfresh & Hc');
      [lia|lia|done|cbn; lia|cbn; lia|done|]. cbn [_day_create_heroes_count counted set__day_create_heroes_count _names] in *.
    destruct (clash_loop_fresh (generateName_fuel tz now server_char fuel (count + 1)) (_names g) name
                (counted c g, r1)) as (n2 & s2 & E2 & Hn2 & Hcase).
    { intros _. exists name', (counted c' (counted c g), r'). split; [exact E'|done]. }
    unfold counted in E2 at 1. rewrite E2. destruct Hcase as [[-> ->]|Hnext].
    + exists name, c, r1. split; [done|]. split; [done|lia].
    + rewrite E' in Hnext. injection Hnext as <- <-. exists name', c', r'.
      split; [done|]. split; [done|lia].
Qed.
End Fresh.

(** ** Properties *)

(** within a day no two heroes (or deal orders) get the same generated
    name: while every row of the digit table is a permutation of 0..9, names
    are produced for all counters from 0 to 999999 and two counters give the
    same name only if they are equal. *)
Theorem generateStr_injective server_char g argu k1 k2 :
  digit_rows (_day_number g) -> 0 <= k1 < 1000000 -> 0 <= k2 < 1000000 ->
  generateStr server_char g k1 argu <> None /\
  (generateStr server_char g k1 argu = generateStr server_char g k2 argu -> k1 = k2).
Proof.
  intros Htbl H1 H2.
  destruct (name_digits_spec _ Htbl 6 0 k1 1) as (d1 & E1 & L1 & A1 & U1); [lia|lia|done|].
  destruct (name_digits_spec _ Htbl 6 0 k2 1) as (d2 & E2 & L2 & A2 & _); [lia|lia|done|].
  rewrite (generateStr_text _ _ _ _ _ E1 L1), (generateStr_text _ _ _ _ _ E2 L2).
  split; [done|]. intros [= Heq]. apply str_app_inj_l in Heq.
  apply digits_text_inj in Heq; [|congruence|done|done]. subst d2.
  specialize (U1 k2 ltac:(lia) E2). rewrite !Z.div_1_r in U1.
  change (10 ^ Z.of_nat 6) with 1000000 in U1. rewrite !Z.mod_small in U1 by lia. lia.
Qed.

Definition names_demo : NameGen :=
  mkNameGen (repeat (seqZ 0 10) 6) 0 "abc" alphabet [] 0 [] 0 false.

Lemma generateStr_injective_witness :
  digit_rows (_day_number names_demo) /\
  generateStr "s" names_demo 42 "" = Some "sabc240000"%string /\
  generateStr "s" names_demo 42 "" <> generateStr "s" names_demo 43 "".
Proof.
  assert (Ht : digit_rows (_day_number names_demo)).
  { split; [reflexivity|]. repeat constructor; reflexivity. }
  split; [exact Ht|]. split; [vm_compute; reflexivity|].
  intros He. assert (Hk : 42 = 43); [|discriminate Hk].
  assert (H1 : 0 <= 42 < 1000000) by lia. assert (H2 : 0 <= 43 < 1000000) by lia.
  exact (proj2 (generateStr_injective "s" names_demo "" 42 43 Ht H1 H2) He).
Defined.


