(* ===== verification/Server.v ===== *)
(** * The game server's state, its messages and the handler monad

    A hero method of gameserver/DreamHero.cpp runs on the hero object and on
    the process globals it reaches (gGameConfig, gRankManager, gRecordManager,
    gShopSalesPromotionManager, the name generator of gDreamHeroManager, the
    sessions, the clock, [rand]).  What it sends is appended to [out]. *)
From S2P Require Import Prelude StdMap Data Text Calendar Config Record Rank Promotion Names.

(** ** Messages to the client (message/dream_heroes.proto) *)

(** [MsgS2CHeroesInit] *)
Record HeroesInit := mkHeroesInit {
  hi_info : MsgHeroData;
  hi_task_config_infos : list MsgTaskConfigInfo;
  hi_sprit_shop_infos : list MsgSpiritShopInfo;
  hi_lotion_shop_configs : list MsgLotionShopConfigInfo;
  hi_current_advertisement_count : Z;
  hi_last_advertisement_time : Z;
  hi_gm_level : Z;
  hi_free_advertisement_config_count : Z;
  hi_advertisement_time_cd : Z;
  hi_refresh_task_gold : Z;
  hi_relive_gold : Z;
  hi_max_spirit : Z;
  hi_config_recover_spirit_minute : Z;
  hi_config_recover_spirit : Z;
  hi_config_enter_game_use_spirit : Z;
  hi_config_day_buy_spirit : Z;
  hi_daily_game_time : Z;
  hi_last_buy_spirit_time : Z;
  hi_last_recover_spirit_time : Z;
  hi_day_refresh_time : Z;
  hi_last_lottery_time : Z;
  hi_server_time : Z;
  hi_last_reset_daily_game_time : Z;
  hi_concern_weixin_config : bool;
  hi_special_creatures : list MsgIntPair;
  hi_max_daily_game_progress : Z;
  hi_concern_weixin_gold : Z;
  hi_reset_jewel_configs : list Z;
  hi_daily_game_record_configs : list Z
}.


Inductive S2C :=
| MsgS2CNewTaskNotify (task : MsgTaskConfigInfo)
| MsgS2CResetDailyGameProgressACK (error : GameError)
    (daily_game_progress daily_reset_game_count last_reset_daily_game_time current_jewel : Z)
| MsgS2CUnlockChapterACK (error : GameError) (chapter_id current_gold : Z)
| MsgS2CExitGameACK (error : GameError) (chapter_id section_id : Z) (success : bool)
    (current_gold : Z) (task_gift : list MsgIntPair) (task_infos : list MsgTaskInfo)
    (current_lotions : list Z) (complete_task_count : Z) (special_creatures : list MsgIntPair)
| MsgS2CAdvertisementRefreshTaskACK (error : GameError) (give_up_task_id : Z)
    (infos : list MsgTaskConfigInfo) (current_gold : Z)
| MsgS2CAdvertisementApplyTaskACK (error : GameError) (infos : list MsgTaskConfigInfo) (current_gold : Z)
| MsgS2CReliveACK (error : GameError) (current_gold : Z)
| MsgS2CCmdModifyTaskCompleteCountACK (current_task_count : Z)
| MsgS2CCmdReplaceTaskACK (error : GameError) (infos : list MsgTaskConfigInfo)
| MsgS2CModifyCurrentHeroACK (error : GameError) (current_grid : Z)
| MsgS2CCmdResetMapACK (error : GameError) (chapter_id section_id : Z)
| MsgS2CCmdModifyGoldACK (gold : Z)
| MsgS2CBuyHeroACK (error : GameError) (grid current_gold : Z)
| MsgS2CModifyNewTutorialACK (flag : Z)
| MsgS2CEnterGameACK (error : GameError) (chapter_id section_id : Z) (kill_list : list MsgObjConfig)
    (drop_box_configs : list MsgDropBoxConfig) (spirit : Z)
| MsgS2CCmdResetGameACK (error : GameError) (info : MsgHeroData)
    (current_advertisement_count last_advertisement_time : Z)
| MsgS2CVerifyDealACK (error : GameError) (order_id current_gold current_jewel : Z)
    (product_id : string) (status : Z)
| MsgS2CCrearteDealACK (error : GameError) (key_code : string) (status price order_id : Z)
    (platform_url secret_key : string)
| MsgS2CConcernWeiXinACK (error : GameError) (gold current_gold : Z)
| MsgS2CHeroesInit (init : HeroesInit)
| MsgS2CApplyDealACK (error : GameError) (id : Z) (order_id product_id : string)
| MsgS2CBuySpiritACK (error : GameError) (index jewel spirit : Z)
| MsgS2CReceiveDailyGamePrizeACK (error : GameError) (current_gold : Z)
| MsgS2CCmdNotifySpecialCreatureHisModify (special_creatures : list MsgIntPair)
| MsgS2CModifyNotifyGridStateACK (grid_notify_state : list MsgIntBoolPair)
| MsgS2CDayLotteryACK (error : GameError) (type index count : Z) (current_lotions : list Z)
    (current_gold current_jewel last_lottery_time : Z)
| MsgS2CBuyLotionACK (error : GameError) (lotion_id current_gold current_jewel : Z)
| MsgS2CGoldShopConfigsACK (infos : list MsgGoldShopConfigInfo)
    (recharge_gold_ratting recharge_jewel_ratting : Z)
| MsgS2CRecoverSpiritNotify (current_spirit : Z)
| MsgS2CNotifyDailyGamePrize (gold time : Z)
| MsgS2CUpdateDailyGameProgressACK (error : GameError) (score rank daily_game_progress
    daily_game_progress_record hp_pct anger daily_game_time server_time : Z)
| MsgS2CShopConfigACK (shop_infos : list MsgShopConfigInfo)
| MsgS2CSGameGlobalConfigACK (chapter_infos : list MsgChapterConfigInfo)
| MsgS2CDailyGameRankListACK (infos : list (string * Z * Z))
| MsgS2CActivityAnnouncementACK (activity : list MsgActivity)
| MsgS2CNotifyError (error : GameError)
| MsgS2CCmdModifyJewelACK (error : GameError) (current_jewel : Z)
| MsgS2CCmdModifySpiritACK (error : GameError) (current_spirit : Z)
| MsgS2CCmdResetDailyLotteryACK (error : GameError)
| MsgS2CCmdResetDailyGameACK (error : GameError)
| MsgS2CCmdClearDailyRankListACK (error : GameError)
| MsgS2CCmdResetConcernWeiXinACK (error : GameError)
| MsgS2CCmdModifyGMLevelACK (error : GameError) (level : Z) (name : string).

(** ** HTTP tasks (gameserver/GSHttpManager): the arguments of [init] *)
Inductive HttpTask :=
| CreateDealHttpTask (acc : Z) (name key_code : string) (channel : Z)
| VerifyDealHttpTaskIOS (acc : Z) (name receipt : string) (order_id : Z).

(** [enum DealStatusType] *)
Inductive DealStatusType :=
| DealStatusType_WaitToPay
| DealStatusType_WaitPrepareToPay
| DealStatusType_Complete
| DealStatusType_WaitPrepareToVerify
| DealStatusType_Failed.

#[export] Instance DealStatusType_eq_dec : EqDecision DealStatusType.
Proof. solve_decision. Defined.

Definition deal_code (d : DealStatusType) : Z :=
  match d with
  | DealStatusType_WaitToPay => 0 | DealStatusType_WaitPrepareToPay => 1
  | DealStatusType_Complete => 2 | DealStatusType_WaitPrepareToVerify => 3
  | DealStatusType_Failed => 4
  end.

(** ** What leaves the process *)
Inductive Effect :=
| OSend (gate tranid : Z) (msg : S2C)          (* gGSGateManager.sendMessage *)
| OSql (sql : string)                          (* MsgSaveDataGS2DB to the database server *)
| ORecordSql (sql : string)                    (* MsgRecordSqlGS2DB *)
| OHttp (task : HttpTask)                      (* gHttpManager.addHttpTask *)
| OReqHeroData (account tranid : Z)            (* MsgReqHeroDataGS2DB *)
| OSaveAllHeroes.                              (* MsgSaveAllHeroesGS2DB *)

(** [class Session]: [m_state] is [_session_online_] or not; [_dream_hero] points to a hero object. *)
Record Session := mkSession {
  m_tranid : Z;
  m_account : Z;
  m_gate : Z;
  m_online : bool;
  _dream_hero : option Z;
  s_channel : Z
}.

Definition set_m_tranid (v : Z) (x : Session) : Session :=
  mkSession v (m_account x) (m_gate x)
    (m_online x) (_dream_hero x) (s_channel x).
Definition set_m_account (v : Z) (x : Session) : Session :=
  mkSession (m_tranid x) v (m_gate x)
    (m_online x) (_dream_hero x) (s_channel x).
Definition set_m_gate (v : Z) (x : Session) : Session :=
  mkSession (m_tranid x) (m_account x) v
    (m_online x) (_dream_hero x) (s_channel x).
Definition set_m_online (v : bool) (x : Session) : Session :=
  mkSession (m_tranid x) (m_account
    x) (m_gate x) v (_dream_hero x) (s_channel x).
Definition set__dream_hero (v : option Z) (x : Session) : Session :=
  mkSession (m_tranid x)
    (m_account x) (m_gate x) (m_online x) v (s_channel x).
Definition set_s_channel (v : Z) (x : Session) : Session :=
  mkSession (m_tranid x) (m_account
    x) (m_gate x) (m_online x) (_dream_hero x) v.

(** The globals.  [rand_stream] is the sequence of values [rand()] returns (never negative), [rand_pos] how many were drawn. *)
Record Server := mkServer {
  g_server_time : Z;
  timezone : Z;
  gGameConfig : GameConfig;
  gRankManager : RankManager;
  gShopSalesPromotionManager : ShopSalesPromotionManager;
  gRecordManager : RecordManager;
  gNames : NameGen;
  http_channel : Z;
  sessions : list (Z * Session);
  rand_stream : nat -> N;
  rand_pos : nat;
  out : list Effect
}.

Definition set_g_server_time (v : Z) (x : Server) : Server :=
  mkServer v (timezone x)
    (gGameConfig x) (gRankManager x) (gShopSalesPromotionManager x) (gRecordManager x) (gNames x)
    (http_channel x) (sessions x) (rand_stream x) (rand_pos x) (out x).
Definition set_timezone (v : Z) (x : Server) : Server :=
  mkServer (g_server_time x) v
    (gGameConfig x) (gRankManager x) (gShopSalesPromotionManager x) (gRecordManager x) (gNames x)
    (http_channel x) (sessions x) (rand_stream x) (rand_pos x) (out x).
Definition set_gGameConfig (v : GameConfig) (x : Server) : Server :=
  mkServer (g_server_time x)
    (timezone x) v (gRankManager x) (gShopSalesPromotionManager x) (gRecordManager x) (gNames x)
    (http_channel x) (sessions x) (rand_stream x) (rand_pos x) (out x).
Definition set_gRankManager (v : RankManager) (x : Server) : Server :=
  mkServer (g_server_time
    x) (timezone x) (gGameConfig x) v (gShopSalesPromotionManager x) (gRecordManager x) (gNames
    x) (http_channel x) (sessions x) (rand_stream x) (rand_pos x) (out x).
Definition set_gShopSalesPromotionManager (v : ShopSalesPromotionManager) (x : Server) : Server
    :=
  mkServer (g_server_time x) (timezone x) (gGameConfig x) (gRankManager x) v
    (gRecordManager x) (gNames x) (http_channel x) (sessions x) (rand_stream x) (rand_pos x) (out
    x).
Definition set_gRecordManager (v : RecordManager) (x : Server) : Server :=
  mkServer
    (g_server_time x) (timezone x) (gGameConfig x) (gRankManager x) (gShopSalesPromotionManager
    x) v (gNames x) (http_channel x) (sessions x) (rand_stream x) (rand_pos x) (out x).
Definition set_gNames (v : NameGen) (x : Server) : Server :=
  mkServer (g_server_time x)
    (timezone x) (gGameConfig x) (gRankManager x) (gShopSalesPromotionManager x) (gRecordManager
    x) v (http_channel x) (sessions x) (rand_stream x) (rand_pos x) (out x).
Definition set_http_channel (v : Z) (x : Server) : Server :=
  mkServer (g_server_time x)
    (timezone x) (gGameConfig x) (gRankManager x) (gShopSalesPromotionManager x) (gRecordManager
    x) (gNames x) v (sessions x) (rand_stream x) (rand_pos x) (out x).
Definition set_sessions (v : list (Z * Session)) (x : Server) : Server :=
  mkServer
    (g_server_time x) (timezone x) (gGameConfig x) (gRankManager x) (gShopSalesPromotionManager
    x) (gRecordManager x) (gNames x) (http_channel x) v (rand_stream x) (rand_pos x) (out x).
Definition set_rand_stream (v : nat -> N) (x : Server) : Server :=
  mkServer (g_server_time x)
    (timezone x) (gGameConfig x) (gRankManager x) (gShopSalesPromotionManager x) (gRecordManager
    x) (gNames x) (http_channel x) (sessions x) v (rand_pos x) (out x).
Definition set_rand_pos (v : nat) (x : Server) : Server :=
  mkServer (g_server_time x) (timezone
    x) (gGameConfig x) (gRankManager x) (gShopSalesPromotionManager x) (gRecordManager x) (gNames
    x) (http_channel x) (sessions x) (rand_stream x) v (out x).
Definition set_out (v : list Effect) (x : Server) : Server :=
  mkServer (g_server_time x)
    (timezone x) (gGameConfig x) (gRankManager x) (gShopSalesPromotionManager x) (gRecordManager
    x) (gNames x) (http_channel x) (sessions x) (rand_stream x) (rand_pos x) v.


(** ** The hero object (DreamHero.h) *)
Record DealWaitToPay := mkDeal {
  key_code_ : string;
  status_ : Z;
  price_ : Z;
  order_id_ : Z;
  receipt_ : string;
  deal_type_ : DealStatusType
}.
Definition set_deal_type_ (t : DealStatusType) (d : DealWaitToPay) : DealWaitToPay :=
  mkDeal (key_code_ d) (status_ d) (price_ d) (order_id_ d) (receipt_ d) t.

(** The events a hero registers with the event manager. *)
Inductive HeroEvent := EVENT_SAVE_PLAYER_DATA_ | EVENT_DESTROY_PLAYER_.
#[export] Instance HeroEvent_eq_dec : EqDecision HeroEvent.
Proof. solve_decision. Defined.

(** [class DreamHero]; [_session] is the session's transport id, [_events] its pending events. *)
Record DreamHero := mkDreamHero {
  _special_kills : list ((Z * Z) * list MsgObjConfig);
  _special_creatures : list (Z * Z);
  _info : MsgHeroData;
  _current_chapter : Z;
  _current_section : Z;
  _current_task_count : Z;
  _last_task_advertisement_time : Z;
  _account : Z;
  _session : option Z;
  _online : bool;
  _deals_wait_to_pay : list (Z * DealWaitToPay);
  _gm_level : Z;
  _last_recover_spirit_time : Z;
  _last_buy_spirit_time : Z;
  _last_day_lottery_time : Z;
  _destroy_clock : bool;
  _daily_game_time : Z;
  _daily_game_prize_time : Z;
  _last_daily_reset_game_time : Z;
  _channel : Z;
  _events : list HeroEvent
}.

Definition set__special_kills (v : list ((Z * Z) * list MsgObjConfig)) (x : DreamHero) :
    DreamHero :=
  mkDreamHero v (_special_creatures x) (_info x) (_current_chapter x)
    (_current_section x) (_current_task_count x) (_last_task_advertisement_time x) (_account x)
    (_session x) (_online x) (_deals_wait_to_pay x) (_gm_level x) (_last_recover_spirit_time x)
    (_last_buy_spirit_time x) (_last_day_lottery_time x) (_destroy_clock x) (_daily_game_time x)
    (_daily_game_prize_time x) (_last_daily_reset_game_time x) (_channel x) (_events x).
Definition set__special_creatures (v : list (Z * Z)) (x : DreamHero) : DreamHero :=
  mkDreamHero
    (_special_kills x) v (_info x) (_current_chapter x) (_current_section x) (_current_task_count
    x) (_last_task_advertisement_time x) (_account x) (_session x) (_online x)
    (_deals_wait_to_pay x) (_gm_level x) (_last_recover_spirit_time x) (_last_buy_spirit_time x)
    (_last_day_lottery_time x) (_destroy_clock x) (_daily_game_time x) (_daily_game_prize_time x)
    (_last_daily_reset_game_time x) (_channel x) (_events x).
Definition set__info (v : MsgHeroData) (x : DreamHero) : DreamHero :=
  mkDreamHero
    (_special_kills x) (_special_creatures x) v (_current_chapter x) (_current_section x)
    (_current_task_count x) (_last_task_advertisement_time x) (_account x) (_session x) (_online
    x) (_deals_wait_to_pay x) (_gm_level x) (_last_recover_spirit_time x) (_last_buy_spirit_time
    x) (_last_day_lottery_time x) (_destroy_clock x) (_daily_game_time x) (_daily_game_prize_time
    x) (_last_daily_reset_game_time x) (_channel x) (_events x).
Definition set__current_chapter (v : Z) (x : DreamHero) : DreamHero :=
  mkDreamHero
    (_special_kills x) (_special_creatures x) (_info x) v (_current_section x)
    (_current_task_count x) (_last_task_advertisement_time x) (_account x) (_session x) (_online
    x) (_deals_wait_to_pay x) (_gm_level x) (_last_recover_spirit_time x) (_last_buy_spirit_time
    x) (_last_day_lottery_time x) (_destroy_clock x) (_daily_game_time x) (_daily_game_prize_time
    x) (_last_daily_reset_game_time x) (_channel x) (_events x).
Definition set__current_section (v : Z) (x : DreamHero) : DreamHero :=
  mkDreamHero
    (_special_kills x) (_special_creatures x) (_info x) (_current_chapter x) v
    (_current_task_count x) (_last_task_advertisement_time x) (_account x) (_session x) (_online
    x) (_deals_wait_to_pay x) (_gm_level x) (_last_recover_spirit_time x) (_last_buy_spirit_time
    x) (_last_day_lottery_time x) (_destroy_clock x) (_daily_game_time x) (_daily_game_prize_time
    x) (_last_daily_reset_game_time x) (_channel x) (_events x).
Definition set__current_task_count (v : Z) (x : DreamHero) : DreamHero :=
  mkDreamHero
    (_special_kills x) (_special_creatures x) (_info x) (_current_chapter x) (_current_section x)
    v (_last_task_advertisement_time x) (_account x) (_session x) (_online x) (_deals_wait_to_pay
    x) (_gm_level x) (_last_recover_spirit_time x) (_last_buy_spirit_time x)
    (_last_day_lottery_time x) (_destroy_clock x) (_daily_game_time x) (_daily_game_prize_time x)
    (_last_daily_reset_game_time x) (_channel x) (_events x).
Definition set__last_task_advertisement_time (v : Z) (x : DreamHero) : DreamHero :=
  mkDreamHero
    (_special_kills x) (_special_creatures x) (_info x) (_current_chapter x) (_current_section x)
    (_current_task_count x) v (_account x) (_session x) (_online x) (_deals_wait_to_pay x)
    (_gm_level x) (_last_recover_spirit_time x) (_last_buy_spirit_time x) (_last_day_lottery_time
    x) (_destroy_clock x) (_daily_game_time x) (_daily_game_prize_time x)
    (_last_daily_reset_game_time x) (_channel x) (_events x).
Definition set__account (v : Z) (x : DreamHero) : DreamHero :=
  mkDreamHero (_special_kills x)
    (_special_creatures x) (_info x) (_current_chapter x) (_current_section x)
    (_current_task_count x) (_last_task_advertisement_time x) v (_session x) (_online x)
    (_deals_wait_to_pay x) (_gm_level x) (_last_recover_spirit_time x) (_last_buy_spirit_time x)
    (_last_day_lottery_time x) (_destroy_clock x) (_daily_game_time x) (_daily_game_prize_time x)
    (_last_daily_reset_game_time x) (_channel x) (_events x).
Definition set__session (v : option Z) (x : DreamHero) : DreamHero :=
  mkDreamHero
    (_special_kills x) (_special_creatures x) (_info x) (_current_chapter x) (_current_section x)
    (_current_task_count x) (_last_task_advertisement_time x) (_account x) v (_online x)
    (_deals_wait_to_pay x) (_gm_level x) (_last_recover_spirit_time x) (_last_buy_spirit_time x)
    (_last_day_lottery_time x) (_destroy_clock x) (_daily_game_time x) (_daily_game_prize_time x)
    (_last_daily_reset_game_time x) (_channel x) (_events x).
Definition set__online (v : bool) (x : DreamHero) : DreamHero :=
  mkDreamHero (_special_kills x)
    (_special_creatures x) (_info x) (_current_chapter x) (_current_section x)
    (_current_task_count x) (_last_task_advertisement_time x) (_account x) (_session x) v
    (_deals_wait_to_pay x) (_gm_level x) (_last_recover_spirit_time x) (_last_buy_spirit_time x)
    (_last_day_lottery_time x) (_destroy_clock x) (_daily_game_time x) (_daily_game_prize_time x)
    (_last_daily_reset_game_time x) (_channel x) (_events x).
Definition set__deals_wait_to_pay (v : list (Z * DealWaitToPay)) (x : DreamHero) : DreamHero :=
 
    mkDreamHero (_special_kills x) (_special_creatures x) (_info x) (_current_chapter x)
    (_current_section x) (_current_task_count x) (_last_task_advertisement_time x) (_account x)
    (_session x) (_online x) v (_gm_level x) (_last_recover_spirit_time x) (_last_buy_spirit_time
    x) (_last_day_lottery_time x) (_destroy_clock x) (_daily_game_time x) (_daily_game_prize_time
    x) (_last_daily_reset_game_time x) (_channel x) (_events x).
Definition set__gm_level (v : Z) (x : DreamHero) : DreamHero :=
  mkDreamHero (_special_kills x)
    (_special_creatures x) (_info x) (_current_chapter x) (_current_section x)
    (_current_task_count x) (_last_task_advertisement_time x) (_account x) (_session x) (_online
    x) (_deals_wait_to_pay x) v (_last_recover_spirit_time x) (_last_buy_spirit_time x)
    (_last_day_lottery_time x) (_destroy_clock x) (_daily_game_time x) (_daily_game_prize_time x)
    (_last_daily_reset_game_time x) (_channel x) (_events x).
Definition set__last_recover_spirit_time (v : Z) (x : DreamHero) : DreamHero :=
  mkDreamHero
    (_special_kills x) (_special_creatures x) (_info x) (_current_chapter x) (_current_section x)
    (_current_task_count x) (_last_task_advertisement_time x) (_account x) (_session x) (_online
    x) (_deals_wait_to_pay x) (_gm_level x) v (_last_buy_spirit_time x) (_last_day_lottery_time
    x) (_destroy_clock x) (_daily_game_time x) (_daily_game_prize_time x)
    (_last_daily_reset_game_time x) (_channel x) (_events x).
Definition set__last_buy_spirit_time (v : Z) (x : DreamHero) : DreamHero :=
  mkDreamHero
    (_special_kills x) (_special_creatures x) (_info x) (_current_chapter x) (_current_section x)
    (_current_task_count x) (_last_task_advertisement_time x) (_account x) (_session x) (_online
    x) (_deals_wait_to_pay x) (_gm_level x) (_last_recover_spirit_time x) v
    (_last_day_lottery_time x) (_destroy_clock x) (_daily_game_time x) (_daily_game_prize_time x)
    (_last_daily_reset_game_time x) (_channel x) (_events x).
Definition set__last_day_lottery_time (v : Z) (x : DreamHero) : DreamHero :=
  mkDreamHero
    (_special_kills x) (_special_creatures x) (_info x) (_current_chapter x) (_current_section x)
    (_current_task_count x) (_last_task_advertisement_time x) (_account x) (_session x) (_online
    x) (_deals_wait_to_pay x) (_gm_level x) (_last_recover_spirit_time x) (_last_buy_spirit_time
    x) v (_destroy_clock x) (_daily_game_time x) (_daily_game_prize_time x)
    (_last_daily_reset_game_time x) (_channel x) (_events x).
Definition set__destroy_clock (v : bool) (x : DreamHero) : DreamHero :=
  mkDreamHero
    (_special_kills x) (_special_creatures x) (_info x) (_current_chapter x) (_current_section x)
    (_current_task_count x) (_last_task_advertisement_time x) (_account x) (_session x) (_online
    x) (_deals_wait_to_pay x) (_gm_level x) (_last_recover_spirit_time x) (_last_buy_spirit_time
    x) (_last_day_lottery_time x) v (_daily_game_time x) (_daily_game_prize_time x)
    (_last_daily_reset_game_time x) (_channel x) (_events x).
Definition set__daily_game_time (v : Z) (x : DreamHero) : DreamHero :=
  mkDreamHero
    (_special_kills x) (_special_creatures x) (_info x) (_current_chapter x) (_current_section x)
    (_current_task_count x) (_last_task_advertisement_time x) (_account x) (_session x) (_online
    x) (_deals_wait_to_pay x) (_gm_level x) (_last_recover_spirit_time x) (_last_buy_spirit_time
    x) (_last_day_lottery_time x) (_destroy_clock x) v (_daily_game_prize_time x)
    (_last_daily_reset_game_time x) (_channel x) (_events x).
Definition set__daily_game_prize_time (v : Z) (x : DreamHero) : DreamHero :=
  mkDreamHero
    (_special_kills x) (_special_creatures x) (_info x) (_current_chapter x) (_current_section x)
    (_current_task_count x) (_last_task_advertisement_time x) (_account x) (_session x) (_online
    x) (_deals_wait_to_pay x) (_gm_level x) (_last_recover_spirit_time x) (_last_buy_spirit_time
    x) (_last_day_lottery_time x) (_destroy_clock x) (_daily_game_time x) v
    (_last_daily_reset_game_time x) (_channel x) (_events x).
Definition set__last_daily_reset_game_time (v : Z) (x : DreamHero) : DreamHero :=
  mkDreamHero
    (_special_kills x) (_special_creatures x) (_info x) (_current_chapter x) (_current_section x)
    (_current_task_count x) (_last_task_advertisement_time x) (_account x) (_session x) (_online
    x) (_deals_wait_to_pay x) (_gm_level x) (_last_recover_spirit_time x) (_last_buy_spirit_time
    x) (_last_day_lottery_time x) (_destroy_clock x) (_daily_game_time x) (_daily_game_prize_time
    x) v (_channel x) (_events x).
Definition set__channel (v : Z) (x : DreamHero) : DreamHero :=
  mkDreamHero (_special_kills x)
    (_special_creatures x) (_info x) (_current_chapter x) (_current_section x)
    (_current_task_count x) (_last_task_advertisement_time x) (_account x) (_session x) (_online
    x) (_deals_wait_to_pay x) (_gm_level x) (_last_recover_spirit_time x) (_last_buy_spirit_time
    x) (_last_day_lottery_time x) (_destroy_clock x) (_daily_game_time x) (_daily_game_prize_time
    x) (_last_daily_reset_game_time x) v (_events x).
Definition set__events (v : list HeroEvent) (x : DreamHero) : DreamHero :=
  mkDreamHero
    (_special_kills x) (_special_creatures x) (_info x) (_current_chapter x) (_current_section x)
    (_current_task_count x) (_last_task_advertisement_time x) (_account x) (_session x) (_online
    x) (_deals_wait_to_pay x) (_gm_level x) (_last_recover_spirit_time x) (_last_buy_spirit_time
    x) (_last_day_lottery_time x) (_destroy_clock x) (_daily_game_time x) (_daily_game_prize_time
    x) (_last_daily_reset_game_time x) (_channel x) v.


(** ** The monad of hero methods *)
Record HS := mkHS { this : DreamHero; srv : Server }.

Definition on_hero (f : DreamHero -> DreamHero) : M HS unit :=
  modify (fun s => mkHS (f (this s)) (srv s)).
Definition on_info (f : MsgHeroData -> MsgHeroData) : M HS unit :=
  on_hero (fun h => set__info (f (_info h)) h).
Definition on_srv (f : Server -> Server) : M HS unit :=
  modify (fun s => mkHS (this s) (f (srv s))).
Definition get_hero : M HS DreamHero := gets this.
Definition get_info : M HS MsgHeroData := gets (fun s => _info (this s)).
Definition get_config : M HS GameConfig := gets (fun s => gGameConfig (srv s)).
Definition get_global : M HS globalConfig := gets (fun s => getGlobalConfig (gGameConfig (srv s))).
Definition get_time_now : M HS Z := gets (fun s => g_server_time (srv s)).

Definition emit (e : Effect) (s : Server) : Server := set_out (out s ++ [e]) s.

(** [Session::sendPBMessage]: only an online session passes the message on. *)
Definition session_send (p : Session) (msg : S2C) (s : Server) : Server :=
  if m_online p then emit (OSend (m_gate p) (m_tranid p) msg) s else s.

(** [DreamHero::sendPBMessage]: a session pointer that is no session of the
    process is undefined behaviour. *)
Definition sendPBMessage (msg : S2C) : M HS unit := fun s =>
  match _session (this s) with
  | None => Some (tt, s)
  | Some t =>
      match mfind t (sessions (srv s)) with
      | Some p => Some (tt, mkHS (this s) (session_send p msg (srv s)))
      | None => None
      end
  end.

(** A call of a [gRecordManager] method with the server clock. *)
Definition record_call (f : Z -> Z -> RecordManager -> RecordManager) : M HS unit :=
  on_srv (fun s => set_gRecordManager (f (timezone s) (g_server_time s) (gRecordManager s)) s).

(** [gGSDBClient.sendPBMessage] of an SQL statement, [gHttpManager.addHttpTask]. *)
Definition send_sql (sql : string) : M HS unit := on_srv (emit (OSql sql)).
Definition add_http (t : HttpTask) : M HS unit := on_srv (emit (OHttp t)).

(** [rand()] *)
Definition rand : M HS Z := fun s =>
  let v := Z.of_N (rand_stream (srv s) (rand_pos (srv s))) in
  Some (v, mkHS (this s) (set_rand_pos (S (rand_pos (srv s))) (srv s))).

(** [gGameConfig.isInToday] *)
Definition in_today (time : Z) : M HS bool :=
  gets (fun s => GameConfig_isInToday (timezone (srv s)) (g_server_time (srv s))
                   (day_Refresh_time_ (getGlobalConfig (gGameConfig (srv s)))) time).

(** [v[i]] of a vector or a repeated field. *)
Definition elem {A} (l : list A) (i : Z) : M HS A :=
  if i <? 0 then ub
  else match nth_error l (Z.to_nat i) with Some a => ret a | None => ub end.

(** A record of this hero: account and nickname are filled in. *)
Definition hero_record (f : Z -> Z -> Z -> string -> RecordManager -> RecordManager) : M HS unit :=
  let* h := get_hero in record_call (fun tz now => f tz now (_account h) (hd_name (_info h))).

(** ** Rules for the primitive steps *)

(** The hero's session pointer is null or a session of the process. *)
Definition session_valid (s : HS) : Prop :=
  match _session (this s) with
  | None => True
  | Some t => mhas t (sessions (srv s)) = true
  end.

(** What a message to the hero's client adds to the output. *)
Definition delivery (s : HS) (msg : S2C) : list Effect :=
  match _session (this s) with
  | None => []
  | Some t =>
      match mfind t (sessions (srv s)) with
      | Some p => if m_online p then [OSend (m_gate p) (m_tranid p) msg] else []
      | None => []
      end
  end.

Definition sent (msg : S2C) (s : HS) : HS :=
  mkHS (this s) (set_out (out (srv s) ++ delivery s msg) (srv s)).

Lemma set_out_same s : set_out (out s) s = s.
Proof. by destruct s. Qed.

Lemma wp_send msg (Q : unit -> HS -> Prop) s :
  session_valid s -> Q tt (sent msg s) -> wp (sendPBMessage msg) Q s.
Proof.
  unfold session_valid, wp, sendPBMessage, sent, delivery, mhas.
  destruct s as [h sv]. cbn [this srv]. destruct (_session h) as [t|].
  - destruct (mfind t (sessions sv)) as [p|]; [|done]. intros _. unfold session_send.
    destruct (m_online p); cbn; [done|]. by rewrite app_nil_r, set_out_same.
  - by rewrite app_nil_r, set_out_same.
Qed.

Lemma wp_rand (Q : Z -> HS -> Prop) s :
  (forall v, 0 <= v -> v = Z.of_N (rand_stream (srv s) (rand_pos (srv s))) ->
     Q v (mkHS (this s) (set_rand_pos (S (rand_pos (srv s))) (srv s)))) ->
  wp rand Q s.
Proof. intros H. apply H; [lia|done]. Qed.

Lemma wp_elem {A} (l : list A) i (Q : A -> HS -> Prop) s :
  0 <= i < Z.of_nat (length l) ->
  (forall a, nth_error l (Z.to_nat i) = Some a -> Q a s) -> wp (elem l i) Q s.
Proof.
  intros Hi HQ. unfold elem. rewrite (proj2 (Z.ltb_ge _ _)) by lia.
  destruct (nth_error l (Z.to_nat i)) eqn:E; [by apply HQ|].
  apply nth_error_None in E. lia.
Qed.

Lemma wp_hero_record f (Q : unit -> HS -> Prop) s :
  (forall r, Q tt (mkHS (this s) (set_gRecordManager r (srv s)))) -> wp (hero_record f) Q s.
Proof. intros H. apply H. Qed.

Lemma wp_on_hero f (Q : unit -> HS -> Prop) s :
  Q tt (mkHS (f (this s)) (srv s)) -> wp (on_hero f) Q s.
Proof. done. Qed.
Lemma wp_on_info f (Q : unit -> HS -> Prop) s :
  Q tt (mkHS (set__info (f (_info (this s))) (this s)) (srv s)) -> wp (on_info f) Q s.
Proof. done. Qed.
Lemma wp_on_srv f (Q : unit -> HS -> Prop) s :
  Q tt (mkHS (this s) (f (srv s))) -> wp (on_srv f) Q s.
Proof. done. Qed.

(** Symbolic execution of a hero method. *)
Ltac hs_step :=
  lazymatch goal with
  | |- wp (bind _ _) _ _ => apply wp_bind
  | |- wp (ret _) _ _ => apply wp_ret
  | |- wp get_hero _ _ => apply wp_gets
  | |- wp get_info _ _ => apply wp_gets
  | |- wp get_config _ _ => apply wp_gets
  | |- wp get_global _ _ => apply wp_gets
  | |- wp get_time_now _ _ => apply wp_gets
  | |- wp (gets _) _ _ => apply wp_gets
  | |- wp (in_today _) _ _ => apply wp_gets
  | |- wp (on_hero _) _ _ => apply wp_on_hero
  | |- wp (on_info _) _ _ => apply wp_on_info
  | |- wp (on_srv _) _ _ => apply wp_on_srv
  | |- wp (hero_record _) _ _ => apply wp_hero_record; intros ?
  | |- wp (send_sql _) _ _ => apply wp_on_srv
  | |- wp (add_http _) _ _ => apply wp_on_srv
  | |- wp (sendPBMessage _) _ _ => apply wp_send
  | |- wp (when _ _) _ _ => apply wp_when; intros ?Hc
  | |- wp (if _ then _ else _) _ _ => apply wp_if; intros ?Hc
  | |- wp (match ?x with _ => _ end) _ _ => let E := fresh "E" in destruct x eqn:E
  end; cbv beta.
Ltac hs_run := repeat hs_step.

(** ** A small server for the examples *)
Definition demo_global : globalConfig :=
  mkGlobalConfig 1000 3 5 2 600 3 1 1 100 200 120 50 6 1 6 5 500 [10; 20] [20; 40] "KEY".

Definition demo_config : GameConfig :=
  mkGameConfig
    [(1, mkTaskConfig 1 [] 0 0 0 0 50 1 "kill ten"); (2, mkTaskConfig 2 [] 0 1 3 0 80 1 "reach 1-3");
     (3, mkTaskConfig 3 [] 0 0 0 5 90 2 "veterans only"); (4, mkTaskConfig 4 [] 0 0 0 0 60 1 "survive")]
    [(4, mkShopConfig 4 40 700 0 1 2 "archer" true); (6, mkShopConfig 6 60 300 0 0 0 "monk" true)]
    [] [(2, mkChapterConfig 2 1 3 0 400 10 "forest")]
    [(7, [(1, mkGoldShopConfig "gold.100" (mkGoldShop 1 0 100 6 "pouch" 10 "gold.100"))])]
    [] [] [] []
    [(1, mkSpiritShop 1 20 15 0 "drink")]
    [(0, mkLotionShop 0 LotionUseType_gold 150 0 0 "" "speed" 1);
     (1, mkLotionShop 1 LotionUseType_jewel 5 0 0 "" "luck" 2)]
    [mkLotteryBox Lottery_Gold 0 100 50 6; mkLotteryBox Lottery_Lotion 2 0 0 3;
     mkLotteryBox Lottery_Jewel 0 5 0 1]
    [mkPrizeConfig 1 1 1000; mkPrizeConfig 2 10 300]
    demo_global 1500000000 97 false 1 0 true "".

Definition demo_info : MsgHeroData :=
  mkHeroData "sabc000001" 900 [mkIntPair 1 3; mkIntPair 0 0] [true; true; true] [mkTaskInfo 1 0 0]
    0 2 0 40 60 0 [] 0 0 0 100 0 0 0 0 false [].

Definition demo_hero : DreamHero :=
  mkDreamHero [] [] demo_info (-1) (-1) 0 1500000000 42 (Some 5) true
    [(900, mkDeal "gold.100" 0 6 900 "" DealStatusType_WaitToPay)] 0
    1500000000 0 0 false 0 0 0 7 [].

Definition demo_server : Server :=
  mkServer 1500010000 0 demo_config (mkRankManager [] [] 100 0 1500000000 50)
    (mkPromotionManager [(6, 50)] [] 0 0 0) empty_records new_NameGen 1
    [(5, mkSession 5 42 1 true (Some 1) 7)] (fun n => N.of_nat (n * 7 + 4)) 0 [].

Definition demo : HS := mkHS demo_hero demo_server.

Lemma demo_config_wf : config_wf demo_config.
Proof.
  constructor; try (apply keyed_check_sound; vm_compute; reflexivity); try done.
  cbn. intros ch m. destruct (keqb ch 7); [|done]. intros [= <-].
  apply keyed_check_sound. vm_compute. reflexivity.
Qed.

Lemma demo_session_valid : session_valid demo.
Proof. reflexivity. Qed.
