(* ===== verification/HeroTask.v ===== *)
(** * gameserver/DreamHero: the task list of a hero

    [RadnomTaskInfo] draws a new task among those the hero may get,
    [RefreshTask] is the shared body of applying for a task and of giving one
    up for another, [dayRefresh] hands out the daily task. *)
From S2P Require Import Prelude StdMap Data Text Calendar Config Record Rank Promotion Names Server.

(** A default-constructed [MsgTaskConfigInfo] with task id 0. *)
Definition no_task : MsgTaskConfigInfo := mkTaskConfig 0 [] 0 0 0 0 0 0 "".

(** The record loop of [RadnomTaskInfo]: it stops at the first record of the
    chapter. *)
Fixpoint section_reached (records : list MsgIntPair) (chapter section : Z) : bool :=
  match records with
  | [] => false
  | pair_entry :: records' =>
      if number_1 pair_entry =? chapter then section <=? number_2 pair_entry
      else section_reached records' chapter section
  end.

(** The [continue] conditions.  The given-up task is only compared inside the
    loop over the hero's tasks. *)
Definition task_candidate (info : MsgHeroData) (give_up_task : Z) (config_entry : MsgTaskConfigInfo)
    : bool :=
  if existsb (fun t => (taskid t =? tk_taskid config_entry)
                       || (give_up_task =? tk_taskid config_entry)) (hd_tasks info) then false
  else if hd_complete_task_count info <? tk_require_complete_count config_entry then false
  else if negb (tk_require_chapter config_entry =? 0) then
    section_reached (hd_records info) (tk_require_chapter config_entry)
      (tk_require_section config_entry)
  else true.

(** [vcTemp] *)
Definition candidate_ids (info : MsgHeroData) (give_up_task : Z) (tasks : MAPTASKS) : list Z :=
  map (fun it => tk_taskid it.2) (List.filter (fun it => task_candidate info give_up_task it.2) tasks).

Definition RadnomTaskInfo (give_up_task : Z) : M HS MsgTaskConfigInfo :=
  let* info := get_info in
  let* cfg := get_config in
  let vcTemp := candidate_ids info give_up_task (getMapTasks cfg) in
  if negb (Z.of_nat (length vcTemp) =? 0) then
    let* r := rand in
    let* id_task := elem vcTemp (Z.rem r (Z.of_nat (length vcTemp))) in
    match getMapTask cfg id_task with
    | Some task_config_entry => ret task_config_entry
    | None => ret no_task
    end
  else ret no_task.

(** A task freshly added to the list. *)
Definition new_task (id : Z) : MsgTaskInfo := mkTaskInfo id 0 0.
Definition add_task (id : Z) : M HS unit :=
  on_info (fun i => set_hd_tasks (hd_tasks i ++ [new_task id]) i).

(** The erase loop: the first task with the id. *)
Fixpoint erase_task (id : Z) (l : list MsgTaskInfo) : option (list MsgTaskInfo) :=
  match l with
  | [] => None
  | t :: l' =>
      if taskid t =? id then Some l'
      else match erase_task id l' with Some r => Some (t :: r) | None => None end
  end.

(** The first test of [RefreshTask]: gold, then the cool-down. *)
Definition refresh_check (gold : bool) (now : Z) (g : globalConfig) (h : DreamHero) : GameError :=
  if (hd_gold (_info h) <? refresh_task_gold_ g) && gold then
    Error_RefreshAdvertisementTaskFailedNotEnoughGold
  else if _current_task_count h >? day_free_task_count_ g then
    let diff_time := now - _last_task_advertisement_time h in
    if diff_time <? day_task_advertisement_task_cd_ g then
      Error_RefreshAdvertisementTaskFailedInCD
    else Error_NO
  else Error_NO.

(** Giving up the old task and taking the place for the new one. *)
Definition refresh_slot (give_up_task_id : Z) : M HS GameError :=
  let* g := get_global in
  let* now := get_time_now in
  let* info := get_info in
  let* msgError :=
    (if negb (give_up_task_id =? 0) then
       match erase_task give_up_task_id (hd_tasks info) with
       | Some tasks => on_info (set_hd_tasks tasks) ;;; ret Error_NO
       | None => ret Error_RefreshAdvertisementTaskFailedNotFoundGiveUpTaskID
       end
     else ret Error_NO) in
  if err_ok msgError then
    let* info := get_info in
    if Z.of_nat (length (hd_tasks info)) <=? hero_max_tasks_count_ g -ᵢ 1 then
      on_hero (fun h => set__last_task_advertisement_time (u32 now)
                          (set__current_task_count (_current_task_count h +ᵢ 1) h)) ;;;
      ret Error_NO
    else ret Error_RefreshAdvertisementTaskFailedUnknow
  else ret msgError.

(** The payment.  The price is taken whether or not the request offers gold;
    the records show the price only when it does. *)
Definition refresh_pay (gold : bool) (current_gold : Z) (task : MsgTaskConfigInfo) : M HS Z :=
  let* g := get_global in
  let refresh_gold := if gold then refresh_task_gold_ g else 0 in
  let current_gold := current_gold -ᵢ refresh_task_gold_ g in
  on_info (set_hd_gold current_gold) ;;;
  hero_record (fun tz now acc name =>
    goldModifyRecord tz now acc name (i32 (- refresh_gold)) current_gold GoldModify_AcceptTask) ;;;
  hero_record (fun tz now acc name =>
    taskAccepteRecordRecord tz now acc name refresh_gold current_gold (tk_taskid task)) ;;;
  ret current_gold.

(** From the draw to the reply. *)
Definition refresh_finish (give_up_task_id : Z) (gold : bool) (current_gold : Z)
    (msgError : GameError) : M HS unit :=
  let* info_task_config := RadnomTaskInfo give_up_task_id in
  let have_task := negb (tk_taskid info_task_config =? 0) && err_ok msgError in
  when have_task (add_task (tk_taskid info_task_config)) ;;;
  let* current_gold :=
    (if err_ok msgError && negb (tk_taskid info_task_config =? 0)
     then refresh_pay gold current_gold info_task_config else ret current_gold) in
  let infos := if have_task then [info_task_config] else [] in
  if negb (give_up_task_id =? 0) then
    hero_record (fun tz now acc name => taskGiveUpRecord tz now acc name give_up_task_id) ;;;
    sendPBMessage (MsgS2CAdvertisementRefreshTaskACK msgError give_up_task_id infos current_gold)
  else
    sendPBMessage (MsgS2CAdvertisementApplyTaskACK msgError infos current_gold).

Definition RefreshTask (give_up_task_id : Z) (gold : bool) : M HS unit :=
  let* h := get_hero in
  let* g := get_global in
  let* now := get_time_now in
  let current_gold := hd_gold (_info h) in
  let msgError := refresh_check gold now g h in
  let* msgError := (if err_ok msgError then refresh_slot give_up_task_id else ret msgError) in
  refresh_finish give_up_task_id gold current_gold msgError.

Definition ReqAdvertisementApplyTask (gold : bool) : M HS unit := RefreshTask 0 gold.
Definition ReqAdvertisementRefreshTask (give_up_task_id : Z) (gold : bool) : M HS unit :=
  RefreshTask give_up_task_id gold.

Definition ReqModifyTaskCompleteCount (task_complete_count : Z) : M HS unit :=
  let count := if task_complete_count <? 0 then 0 else task_complete_count in
  on_info (set_hd_complete_task_count count) ;;;
  let* info := get_info in
  sendPBMessage (MsgS2CCmdModifyTaskCompleteCountACK (hd_complete_task_count info)).

(** [size_t i < task_count]: a negative count is converted to a huge one. *)
Fixpoint replace_loop (n : nat) (infos : list MsgTaskConfigInfo) : M HS (list MsgTaskConfigInfo) :=
  match n with
  | O => ret infos
  | S n' =>
      let* info_task_config := RadnomTaskInfo 0 in
      if negb (tk_taskid info_task_config =? 0) then
        add_task (tk_taskid info_task_config) ;;;
        replace_loop n' (infos ++ [info_task_config])
      else replace_loop n' infos
  end.

Definition ReqReplaceTask (task_count : Z) : M HS unit :=
  let* g := get_global in
  let task_count := if task_count >? hero_max_tasks_count_ g then hero_max_tasks_count_ g
                    else task_count in
  on_info (set_hd_tasks []) ;;;
  let* infos := replace_loop (Z.to_nat (u64 task_count)) [] in
  sendPBMessage (MsgS2CCmdReplaceTaskACK Error_NO infos).

(** [dayRefresh]: the daily task and the daily spirit counter. *)
Definition dayRefresh (need_send_msg : bool) : M HS unit :=
  let* h := get_hero in
  let* can_Refresh_task :=
    (if negb (_last_task_advertisement_time h =? 0) then
       let* today := in_today (_last_task_advertisement_time h) in ret (negb today)
     else ret true) in
  when can_Refresh_task (
    on_hero (set__current_task_count 0) ;;;
    let* info := get_info in
    let* g := get_global in
    when (Z.of_nat (length (hd_tasks info)) <? hero_max_tasks_count_ g) (
      let* task_config_entry := RadnomTaskInfo 0 in
      when (negb (tk_taskid task_config_entry =? 0)) (
        when need_send_msg (sendPBMessage (MsgS2CNewTaskNotify task_config_entry)) ;;;
        add_task (tk_taskid task_config_entry)))) ;;;
  let* h := get_hero in
  let* can_Refresh_spirit :=
    (if negb (_last_buy_spirit_time h =? 0) then
       let* today := in_today (_last_buy_spirit_time h) in ret (negb today)
     else ret true) in
  when can_Refresh_spirit (on_info (set_hd_day_buy_spirit 0)).

(** ** Which tasks may be drawn *)

(** A record of the chapter with at least the section: the first record of the
    chapter decides. *)
Lemma section_reached_spec records c sec :
  section_reached records c sec = true <->
  exists p, find (fun p => number_1 p =? c) records = Some p /\ sec <= number_2 p.
Proof.
  induction records as [|p l IH]; cbn; [split; [done|by intros (? & ? & ?)]|].
  destruct (number_1 p =? c); [|done]. rewrite Z.leb_le. split.
  - intros H. by exists p.
  - by intros (q & [= ->] & ?).
Qed.

(** The conditions in the words of the game: a task the hero does not hold
    (and, while it holds any task, not the one it gives up), enough completed
    tasks, and the required section reached. *)
Definition eligible (info : MsgHeroData) (given_up : Z) (t : MsgTaskConfigInfo) : Prop :=
  (forall h, h ∈ hd_tasks info -> taskid h <> tk_taskid t /\ given_up <> tk_taskid t) /\
  tk_require_complete_count t <= hd_complete_task_count info /\
  (tk_require_chapter t <> 0 ->
     exists p, find (fun p => number_1 p =? tk_require_chapter t) (hd_records info) = Some p /\
       tk_require_section t <= number_2 p).

Lemma task_candidate_eligible info g t : task_candidate info g t = true <-> eligible info g t.
Proof.
  unfold task_candidate, eligible.
  destruct (existsb _ _) eqn:E.
  - split; [done|]. intros [Hno _]. apply existsb_exists in E as (h & Hin & Hh).
    apply list_elem_of_In in Hin. destruct (Hno h Hin) as [H1 H2].
    apply orb_prop in Hh as [Hh|Hh]; apply Z.eqb_eq in Hh; congruence.
  - assert (Hno : forall h, h ∈ hd_tasks info -> taskid h <> tk_taskid t /\ g <> tk_taskid t).
    { intros h Hin%list_elem_of_In.
      assert (Hf : (taskid h =? tk_taskid t) || (g =? tk_taskid t) = false).
      { apply not_true_iff_false. intros Ht. apply not_true_iff_false in E. apply E.
        apply existsb_exists. by exists h. }
      to_prop. done. }
    destruct (Z.ltb_spec (hd_complete_task_count info) (tk_require_complete_count t)).
    { split; [done|lia]. }
    destruct (Z.eqb_spec (tk_require_chapter t) 0); cbn.
    + split; [|done]. intros _. split; [done|]. split; [lia|done].
    + rewrite section_reached_spec. split; [|tauto]. intros ?. split; [done|]. split; [lia|done].
Qed.

Section Draw.
Context (cfg : GameConfig) (Hcfg : config_wf cfg).

Lemma candidate_ids_spec info g id :
  id ∈ candidate_ids info g (_tasks cfg) <->
  exists t, getMapTask cfg id = Some t /\ tk_taskid t = id /\ eligible info g t.
Proof.
  unfold candidate_ids, getMapTask. rewrite list_elem_of_In, in_map_iff.
  split.
  - intros ([k t] & Hid & Hin). apply filter_In in Hin as [Hin Hc]. cbn in *.
    apply list_elem_of_In in Hin. destruct (keyed_In _ _ _ _ (wf_tasks _ Hcfg) Hin) as [Hk Hf].
    exists t. subst. rewrite Hf. split; [done|]. split; [done|]. by apply task_candidate_eligible.
  - intros (t & Hf & Hid & He). exists (id, t). split; [done|]. apply filter_In.
    split; [|by apply task_candidate_eligible]. apply list_elem_of_In. by apply mfind_In.
Qed.

(** Symbolic execution of a draw. *)
Lemma wp_RadnomTaskInfo g (Q : MsgTaskConfigInfo -> HS -> Prop) s :
  gGameConfig (srv s) = cfg ->
  (candidate_ids (_info (this s)) g (_tasks cfg) = [] -> Q no_task s) ->
  (forall t n, getMapTask cfg (tk_taskid t) = Some t -> eligible (_info (this s)) g t ->
     Q t (mkHS (this s) (set_rand_pos n (srv s)))) ->
  wp (RadnomTaskInfo g) Q s.
Proof.
  intros Hc H0 H1. unfold RadnomTaskInfo. hs_run; rewrite Hc in *; change (getMapTasks cfg) with (_tasks cfg) in *.
  - to_prop. apply wp_rand. intros v Hv _. apply wp_bind.
    set (ids := candidate_ids (_info (this s)) g (_tasks cfg)) in *.
    apply wp_elem; [rewrite Z.rem_mod_nonneg by lia; apply Z.mod_pos_bound; lia|].
    intros id Hid. apply nth_error_In, list_elem_of_In, candidate_ids_spec in Hid.
    destruct Hid as (t & Hf & Hk & He). rewrite Hf. apply wp_ret. subst id. by apply H1.
  - to_prop. apply H0. destruct (candidate_ids _ _ _); [done|]. cbn in *. lia.
Qed.
End Draw.

Lemma erase_task_spec id l :
  match erase_task id l with
  | Some l' => exists pre t post, l = pre ++ t :: post /\ l' = pre ++ post /\ taskid t = id /\
      id ∉ (taskid <$> pre)
  | None => id ∉ (taskid <$> l)
  end.
Proof.
  induction l as [|t l IH]; cbn; [apply not_elem_of_nil|].
  destruct (Z.eqb_spec (taskid t) id) as [Heq|Hne].
  - exists [], t, l. repeat split; [done|]. apply not_elem_of_nil.
  - destruct (erase_task id l) as [l'|].
    + destruct IH as (pre & u & post & -> & -> & Hu & Hpre). exists (t :: pre), u, post.
      repeat split; [done|]. cbn. rewrite not_elem_of_cons. by split; [congruence|].
    + rewrite not_elem_of_cons. by split; [congruence|].
Qed.

(** The invariant of the task list: distinct tasks, at most [n] of them. *)
Definition tasks_inv (n : Z) (l : list MsgTaskInfo) : Prop :=
  NoDup (taskid <$> l) /\ Z.of_nat (length l) <= n.

Lemma erase_task_inv n id l l' :
  erase_task id l = Some l' -> tasks_inv n l -> tasks_inv n l' /\ id ∉ (taskid <$> l').
Proof.
  intros He [Hnd Hlen]. pose proof (erase_task_spec id l) as H. rewrite He in H.
  destruct H as (pre & t & post & -> & -> & Ht & Hpre).
  rewrite !fmap_app in *. cbn in Hnd. apply NoDup_app in Hnd as (H1 & H2 & H3).
  apply NoDup_cons in H3 as [H3 H4]. split; [split|].
  - rewrite fmap_app. apply NoDup_app. split; [done|]. split; [|done].
    intros x Hx Hx'. apply (H2 x Hx). apply elem_of_cons. by right.
  - rewrite length_app in *. cbn in Hlen. lia.
  - rewrite not_elem_of_app. split; [done|]. by rewrite <- Ht.
Qed.

Lemma tasks_inv_add n id l : tasks_inv (n - 1) l -> id ∉ (taskid <$> l) ->
  tasks_inv n (l ++ [new_task id]).
Proof.
  intros [Hnd Hlen] Hin. split.
  - rewrite fmap_app. apply NoDup_app. split; [done|]. split; [|apply NoDup_singleton].
    intros x Hx Hx'. cbn in Hx'. apply list_elem_of_singleton in Hx'. by subst.
  - rewrite length_app. cbn. lia.
Qed.

Lemma eligible_not_held info g t : eligible info g t -> tk_taskid t ∉ (taskid <$> hd_tasks info).
Proof.
  intros [Hno _] Hin. apply list_elem_of_fmap in Hin as (h & Hh & Hin).
  by destruct (Hno h Hin).
Qed.

(** ** RefreshTask *)

(** The reply of a refresh. *)
Definition refresh_ack (given_up : Z) (e : GameError) (infos : list MsgTaskConfigInfo) (gold : Z) : S2C :=
  if negb (given_up =? 0) then MsgS2CAdvertisementRefreshTaskACK e given_up infos gold
  else MsgS2CAdvertisementApplyTaskACK e infos gold.

(** The list the new task is added to. *)
Definition kept_tasks (given_up : Z) (l l' : list MsgTaskInfo) : Prop :=
  if given_up =? 0 then l' = l else erase_task given_up l = Some l'.

(** What a refresh that is refused leaves of the task list: a refusal for lack
    of room comes after the old task is gone. *)
Definition refused_tasks (given_up : Z) (e : GameError) (l l' : list MsgTaskInfo) : Prop :=
  l' = l \/ (e = Error_RefreshAdvertisementTaskFailedUnknow /\ kept_tasks given_up l l').

(** The state a refresh works up to, without its records and messages. *)
Definition refreshed (s s' : HS) (tasks : list MsgTaskInfo) (gold count stamp : Z) : Prop :=
  this s' = set__last_task_advertisement_time stamp (set__current_task_count count
              (set__info (set_hd_gold gold (set_hd_tasks tasks (_info (this s)))) (this s))).

Lemma set_tasks_same i : set_hd_tasks (hd_tasks i) i = i.
Proof. by destruct i. Qed.
Lemma set_info_same h : set__info (_info h) h = h.
Proof. by destruct h. Qed.
Lemma hs_eta s : mkHS (this s) (srv s) = s.
Proof. by destruct s. Qed.

(** The first phases of a refresh and their effect on the hero. *)
Lemma wp_refresh_slot given_up (Q : GameError -> HS -> Prop) s :
  (forall e tasks, refused_tasks given_up e (hd_tasks (_info (this s))) tasks -> e <> Error_NO ->
     Q e (mkHS (set__info (set_hd_tasks tasks (_info (this s))) (this s)) (srv s))) ->
  (forall tasks, kept_tasks given_up (hd_tasks (_info (this s))) tasks ->
     Z.of_nat (length tasks) <= hero_max_tasks_count_ (_global_config (gGameConfig (srv s))) -ᵢ 1 ->
     Q Error_NO (mkHS (set__last_task_advertisement_time (u32 (g_server_time (srv s)))
        (set__current_task_count (_current_task_count (this s) +ᵢ 1)
          (set__info (set_hd_tasks tasks (_info (this s))) (this s)))) (srv s))) ->
  wp (refresh_slot given_up) Q s.
Proof.
  intros Hbad Hok. unfold refused_tasks, kept_tasks in *.
  assert (Hbad' : forall e, e <> Error_NO -> Q e s).
  { intros e He. specialize (Hbad e _ (or_introl eq_refl) He).
    by rewrite set_tasks_same, set_info_same, hs_eta in Hbad. }
  unfold refresh_slot. hs_run; to_prop; cbn [err_ok this srv] in *; try done; try by apply Hbad'.
  - rewrite (proj2 (Z.eqb_neq _ _)) in * by done. by apply Hok.
  - rewrite (proj2 (Z.eqb_neq _ _)) in * by done. apply Hbad; [by right|done].
  - rewrite (proj2 (Z.eqb_eq _ _)) in * by done. specialize (Hok _ eq_refl).
    rewrite set_tasks_same, set_info_same in Hok. by apply Hok.
Qed.

(** The contract of a refresh: what the answer [e], [infos] means for the task
    list, the gold, the counter and the stamp of the last refresh. *)
Definition refresh_outcome (given_up : Z) (gold : bool) (s : HS) (e : GameError)
    (infos : list MsgTaskConfigInfo) (tasks : list MsgTaskInfo) (gold' count stamp : Z) : Prop :=
  let cfg := gGameConfig (srv s) in
  let g := _global_config cfg in
  let i := _info (this s) in
  match e with
  | Error_NO =>
      refresh_check gold (g_server_time (srv s)) g (this s) = Error_NO /\
      count = _current_task_count (this s) +ᵢ 1 /\ stamp = u32 (g_server_time (srv s)) /\
      exists kept, kept_tasks given_up (hd_tasks i) kept /\
        Z.of_nat (length kept) <= hero_max_tasks_count_ g -ᵢ 1 /\
        ((infos = [] /\ tasks = kept /\ gold' = hd_gold i /\
            (candidate_ids (set_hd_tasks kept i) given_up (_tasks cfg) = []
             \/ 0 ∈ candidate_ids (set_hd_tasks kept i) given_up (_tasks cfg))) \/
         exists t, infos = [t] /\ getMapTask cfg (tk_taskid t) = Some t /\ tk_taskid t <> 0 /\
           eligible (set_hd_tasks kept i) given_up t /\ tasks = kept ++ [new_task (tk_taskid t)] /\
           gold' = hd_gold i -ᵢ refresh_task_gold_ g)
  | _ =>
      infos = [] /\ refused_tasks given_up e (hd_tasks i) tasks /\ gold' = hd_gold i /\
      count = _current_task_count (this s) /\ stamp = _last_task_advertisement_time (this s)
  end.

(** The outcome keeps the task list distinct and within its bound. *)
Lemma kept_tasks_inv n given_up l l' : kept_tasks given_up l l' -> tasks_inv n l -> tasks_inv n l'.
Proof.
  unfold kept_tasks. destruct (given_up =? 0); [by intros ->|].
  intros He Hi. by eapply erase_task_inv.
Qed.

Lemma refresh_outcome_inv given_up gold s e infos tasks gold' count stamp :
  let max := hero_max_tasks_count_ (_global_config (gGameConfig (srv s))) in
  is_i32 max -> 0 < max ->
  refresh_outcome given_up gold s e infos tasks gold' count stamp ->
  tasks_inv max (hd_tasks (_info (this s))) -> tasks_inv max tasks.
Proof.
  intros max Hmax Hpos Ho Hi. unfold refresh_outcome in Ho.
  assert (Hbad : refused_tasks given_up e (hd_tasks (_info (this s))) tasks -> tasks_inv max tasks).
  { intros [->|[_ Hk]]; [done|by eapply kept_tasks_inv]. }
  destruct e; try (by apply Hbad; apply Ho).
  destruct Ho as (_ & _ & _ & kept & Hk & Hlen & Hcase).
  pose proof (kept_tasks_inv _ _ _ _ Hk Hi) as Hki.
  destruct Hcase as [(_ & -> & _)|(t & _ & _ & _ & He & -> & _)]; [done|].
  apply tasks_inv_add.
  - destruct Hki as [Hnd _]. split; [done|]. unfold is_i32 in *. fold max in Hlen.
    rewrite i32_id in Hlen by (unfold is_i32; lia). lia.
  - by apply eligible_not_held in He.
Qed.

(** The reply phase: it adds the drawn task and takes the price, or only answers. *)
Lemma wp_refresh_reply given_up e infos gold s (Q : unit -> HS -> Prop) :
  session_valid s ->
  (forall s', this s' = this s ->
     out (srv s') = out (srv s) ++ delivery s (refresh_ack given_up e infos gold) -> Q tt s') ->
  wp (if negb (given_up =? 0) then
        hero_record (fun tz now acc name => taskGiveUpRecord tz now acc name given_up) ;;;
        sendPBMessage (MsgS2CAdvertisementRefreshTaskACK e given_up infos gold)
      else sendPBMessage (MsgS2CAdvertisementApplyTaskACK e infos gold)) Q s.
Proof.
  intros Hs HQ. unfold refresh_ack in HQ. hs_run; rewrite ?Hc in HQ; try done; by apply HQ.
Qed.

Lemma wp_refresh_finish_bad given_up gold cur e s (Q : unit -> HS -> Prop) :
  config_wf (gGameConfig (srv s)) -> session_valid s -> err_ok e = false ->
  (forall s', this s' = this s ->
     out (srv s') = out (srv s) ++ delivery s (refresh_ack given_up e [] cur) -> Q tt s') ->
  wp (refresh_finish given_up gold cur e) Q s.
Proof.
  intros Hcfg Hs He HQ. unfold refresh_finish. apply wp_bind.
  apply (wp_RadnomTaskInfo _ Hcfg); [done|intros _|intros t n _ _];
    rewrite He, ?andb_false_r; cbn [andb];
    repeat (apply wp_bind, wp_ret); apply wp_refresh_reply; done.
Qed.

Lemma wp_refresh_finish_ok given_up gold cur s (Q : unit -> HS -> Prop) :
  let cfg := gGameConfig (srv s) in
  config_wf cfg -> session_valid s ->
  (forall s', this s' = this s ->
     candidate_ids (_info (this s)) given_up (_tasks cfg) = []
       \/ 0 ∈ candidate_ids (_info (this s)) given_up (_tasks cfg) ->
     out (srv s') = out (srv s) ++ delivery s (refresh_ack given_up Error_NO [] cur) -> Q tt s') ->
  (forall t s', getMapTask cfg (tk_taskid t) = Some t -> tk_taskid t <> 0 ->
     eligible (_info (this s)) given_up t ->
     let gold' := cur -ᵢ refresh_task_gold_ (_global_config cfg) in
     this s' = set__info (set_hd_gold gold' (set_hd_tasks
                 (hd_tasks (_info (this s)) ++ [new_task (tk_taskid t)]) (_info (this s)))) (this s) ->
     out (srv s') = out (srv s) ++ delivery s (refresh_ack given_up Error_NO [t] gold') -> Q tt s') ->
  wp (refresh_finish given_up gold cur Error_NO) Q s.
Proof.
  intros cfg Hcfg Hs H0 H1. unfold refresh_finish. apply wp_bind.
  apply (wp_RadnomTaskInfo _ Hcfg); [done|intros Hnone|intros t n Hf He].
  - cbn [tk_taskid no_task]. repeat (apply wp_bind, wp_ret). apply wp_refresh_reply; auto.
  - destruct (Z.eqb_spec (tk_taskid t) 0) as [Hz|Hz]; cbn [negb andb err_ok when].
    + repeat (apply wp_bind, wp_ret). apply wp_refresh_reply; [done|]. intros s' Ht Ho.
      apply H0; [done| |done]. right. apply (candidate_ids_spec _ Hcfg).
      exists t. by rewrite <- Hz.
    + apply wp_bind. unfold add_task, refresh_pay.
      hs_run; try done; apply (H1 t); try done; unfold refresh_ack; by rewrite Hc.
Qed.

Lemma wp_RefreshTask given_up gold s :
  config_wf (gGameConfig (srv s)) -> session_valid s ->
  wp (RefreshTask given_up gold) (fun _ s' => exists e infos tasks gold' count stamp,
    refreshed s s' tasks gold' count stamp /\
    refresh_outcome given_up gold s e infos tasks gold' count stamp /\
    out (srv s') = out (srv s) ++ delivery s (refresh_ack given_up e infos gold')) s.
Proof.
  intros Hcfg Hs. unfold RefreshTask. repeat (apply wp_bind; first [apply wp_gets|idtac]).
  cbv beta. set (cur := hd_gold (_info (this s))).
  destruct (err_ok (refresh_check _ _ _ _)) eqn:Hchk.
  - apply err_ok_true in Hchk. apply wp_refresh_slot.
    + intros e tasks Href He. apply wp_refresh_finish_bad; [done|done|by apply not_true_iff_false; rewrite err_ok_true|].
      cbn [this srv]. intros s' Ht Ho.
      exists e, [], tasks, cur, (_current_task_count (this s)), (_last_task_advertisement_time (this s)).
      split; [|split; [|done]].
      * unfold refreshed. rewrite Ht. unfold cur. by destruct (this s) as [? ? []].
      * unfold refresh_outcome. by destruct e.
    + intros tasks Hk Hlen. apply wp_refresh_finish_ok; [done|done| |]; cbn [this srv].
      * intros s' Ht Hc Ho. exists Error_NO, [], tasks, cur, (_current_task_count (this s) +ᵢ 1),
          (u32 (g_server_time (srv s))).
        split; [|split; [|exact Ho]].
        -- unfold refreshed. rewrite Ht. unfold cur. by destruct (this s) as [? ? []].
        -- split; [done|]. split; [done|]. split; [done|]. exists tasks.
           split; [done|]. split; [done|]. by left.
      * intros t s' Hf Hz He. cbv zeta. intros Ht Ho.
        exists Error_NO, [t], (tasks ++ [new_task (tk_taskid t)]),
          (cur -ᵢ refresh_task_gold_ (_global_config (gGameConfig (srv s)))),
          (_current_task_count (this s) +ᵢ 1), (u32 (g_server_time (srv s))).
        split; [|split; [|exact Ho]].
        -- unfold refreshed. rewrite Ht. by destruct (this s) as [? ? []].
        -- split; [done|]. split; [done|]. split; [done|]. exists tasks.
           split; [done|]. split; [done|]. right. by exists t.
  - apply wp_ret. apply wp_refresh_finish_bad; [done|done|done|].
    intros s' Ht Ho.
    eexists _, [], (hd_tasks (_info (this s))), cur, (_current_task_count (this s)),
      (_last_task_advertisement_time (this s)).
    split; [|split; [|exact Ho]].
    + unfold refreshed. rewrite Ht. unfold cur. by destruct (this s) as [? ? []].
    + unfold refresh_outcome. destruct (refresh_check _ _ _ _); try done; (split; [done|split; [by left|done]]).
Qed.

(** ** Properties *)

(** C16: a task draw is total and fair game.  It changes nothing but the random
    position; it returns a configured task the hero may get, or the empty task
    exactly when there is none; and every such task is returned for some value
    of [rand]. *)
Theorem RadnomTaskInfo_correct given_up s :
  config_wf (gGameConfig (srv s)) ->
  let cfg := gGameConfig (srv s) in
  let info := _info (this s) in
  (exists t n, RadnomTaskInfo given_up s = Some (t, mkHS (this s) (set_rand_pos n (srv s))) /\
     ((t = no_task /\ forall t', getMapTask cfg (tk_taskid t') = Some t' -> ~ eligible info given_up t')
      \/ (getMapTask cfg (tk_taskid t) = Some t /\ eligible info given_up t))) /\
  (forall t, getMapTask cfg (tk_taskid t) = Some t -> eligible info given_up t ->
     exists v, forall s', this s' = this s -> gGameConfig (srv s') = cfg ->
       rand_stream (srv s') (rand_pos (srv s')) = v ->
       exists s'', RadnomTaskInfo given_up s' = Some (t, s'')).
Proof.
  intros Hcfg cfg info. split.
  - assert (Hwp : wp (RadnomTaskInfo given_up) (fun t s' => exists n,
        s' = mkHS (this s) (set_rand_pos n (srv s)) /\
        ((t = no_task /\ forall t', getMapTask cfg (tk_taskid t') = Some t' -> ~ eligible info given_up t')
         \/ (getMapTask cfg (tk_taskid t) = Some t /\ eligible info given_up t))) s).
    { apply (wp_RadnomTaskInfo cfg Hcfg); [done|intros Hnone|intros t n Hf He].
      - exists (rand_pos (srv s)). split; [by destruct s as [? []]|]. left. split; [done|].
        intros t' Hf He. assert (Hin : tk_taskid t' ∈ candidate_ids info given_up (_tasks cfg))
          by (apply (candidate_ids_spec cfg Hcfg); by exists t').
        unfold info in Hin. rewrite Hnone in Hin. by apply elem_of_nil in Hin.
      - exists n. split; [done|]. by right. }
    destruct (wp_total _ _ _ Hwp) as (t & s' & Hr & n & -> & H). by exists t, n.
  - intros t Hf He. set (ids := candidate_ids info given_up (_tasks cfg)).
    assert (Hin : tk_taskid t ∈ ids) by (apply (candidate_ids_spec cfg Hcfg); by exists t).
    apply list_elem_of_In, In_nth_error in Hin as [k Hk].
    assert (Hlt : (k < length ids)%nat) by (apply nth_error_Some; congruence).
    exists (N.of_nat k). intros s' Ht Hc Hv. unfold RadnomTaskInfo.
    cbv beta delta [bind get_info get_config gets]. rewrite Ht, Hc.
    change (candidate_ids (_info (this s)) given_up (getMapTasks cfg)) with ids.
    rewrite (proj2 (Z.eqb_neq _ 0)) by lia. cbn [negb]. unfold rand. rewrite Hv.
    rewrite Z.rem_small by lia. unfold elem. rewrite (proj2 (Z.ltb_ge _ _)) by lia.
    replace (Z.to_nat (Z.of_N (N.of_nat k))) with k by lia. rewrite Hk. cbn [ret].
    rewrite Hf. eexists. reflexivity.
Qed.

Lemma RadnomTaskInfo_correct_witness :
  config_wf (gGameConfig (srv demo)) /\
  (exists t n, RadnomTaskInfo 0 demo = Some (t, mkHS (this demo) (set_rand_pos n (srv demo)))) /\
  (tk_taskid ∘ fst <$> RadnomTaskInfo 0 demo) = Some 2.
Proof.
  split; [exact demo_config_wf|]. split; [|vm_compute; reflexivity].
  destruct (RadnomTaskInfo_correct 0 demo demo_config_wf) as [(t & n & Hr & _) _].
  exists t, n. exact Hr.
Defined.

(** C12: applying for a task, or trading one in, has exactly one of the described
    outcomes, and the client is told which: refused (gold and counters
    untouched), accepted with a new task at the end of the list and the price
    taken, or accepted without a task when none was available.  A list of
    distinct tasks within the configured maximum stays so. *)
Theorem RefreshTask_correct given_up gold s :
  config_wf (gGameConfig (srv s)) -> session_valid s ->
  exists s' e infos tasks gold' count stamp,
    RefreshTask given_up gold s = Some (tt, s') /\
    refreshed s s' tasks gold' count stamp /\
    refresh_outcome given_up gold s e infos tasks gold' count stamp /\
    out (srv s') = out (srv s) ++ delivery s (refresh_ack given_up e infos gold') /\
    let max := hero_max_tasks_count_ (_global_config (gGameConfig (srv s))) in
    (is_i32 max -> 0 < max -> tasks_inv max (hd_tasks (_info (this s))) -> tasks_inv max tasks).
Proof.
  intros Hcfg Hs. destruct (wp_total _ _ _ (wp_RefreshTask given_up gold s Hcfg Hs))
    as ([] & s' & Hr & e & infos & tasks & gold' & count & stamp & H1 & H2 & H3).
  exists s', e, infos, tasks, gold', count, stamp. repeat (split; [done|]).
  intros max Hm Hp. by apply (refresh_outcome_inv given_up gold s e infos tasks gold' count stamp).
Qed.

Lemma RefreshTask_correct_witness :
  config_wf (gGameConfig (srv demo)) /\ session_valid demo /\
  (exists s', RefreshTask 1 true demo = Some (tt, s')) /\
  ((fun r => (map taskid (hd_tasks (_info (this r.2))), hd_gold (_info (this r.2))))
     <$> RefreshTask 1 true demo) = Some ([2], 800).
Proof.
  split; [exact demo_config_wf|]. split; [exact demo_session_valid|].
  split; [|vm_compute; reflexivity].
  destruct (RefreshTask_correct 1 true demo demo_config_wf demo_session_valid)
    as (s' & _ & _ & _ & _ & _ & _ & Hr & _).
  exists s'. exact Hr.
Defined.

(** A request without gold is charged all the same, below zero if need be. *)
Example refresh_charges_without_gold :
  let poor := mkHS (set__info (set_hd_gold 30 demo_info) demo_hero) demo_server in
  (fun r => hd_gold (_info (this r.2))) <$> RefreshTask 0 false poor = Some (-70).
Proof. vm_compute. reflexivity. Qed.

(** The only task given up can be drawn again at once: the given-up id is only
    tested inside the loop over the remaining tasks. *)
Example given_up_task_redrawn :
  let lucky := mkHS demo_hero (set_rand_stream (fun _ => 0%N) demo_server) in
  (fun r => map taskid (hd_tasks (_info (this r.2)))) <$> RefreshTask 1 true lucky = Some [1].
Proof. vm_compute. reflexivity. Qed.
