(* ===== verification/HeroPlay.v ===== *)
(** * gameserver/DreamHero: entering and leaving a map section, chapters

    [EnterGame] and [ReqExitGame] bracket a run through a section;
    [ReqUnlockChapter] opens a chapter; the small GM and setting handlers of
    the same file are here too. *)
From S2P Require Import Prelude StdMap Data Text Calendar Config Record Rank Promotion Names Server HeroTask.

(** [fillSpecialCreatureList] *)
Definition special_creature_list (h : DreamHero) : list MsgIntPair :=
  map (fun kv => mkIntPair kv.1 kv.2) (_special_creatures h).

(** ** Entering *)

(** The drop boxes of the reply: all boxes of all types. *)
Definition drop_box_list (c : GameConfig) : list MsgDropBoxConfig :=
  concat (map (fun it_type_drop =>
    map (fun it_map_drop =>
      mkDropBox (mkObjConfig (ob_type_ it_map_drop.2) (ob_obj_id_ it_map_drop.2))
        (ob_base_gold_ it_map_drop.2) (ob_random_gold_ it_map_drop.2)) it_type_drop.2)
    (getDropBox c)).

Definition EnterGame (chapter_id section_id : Z) (admin : bool) : M HS unit :=
  let* g := get_global in
  let* cfg := get_config in
  let* h := get_hero in
  let use_spirit_config := config_enter_game_use_spirit_ g in
  let spirit := hd_spirit (_info h) in
  let en_error :=
    if admin then Error_NO
    else if (chapter_id =? -1) && (section_id =? -1) then Error_NO
    else if negb (use_spirit_config =? 0) && (spirit <? use_spirit_config) then
      Error_CanNotEnterGameNotEnoughSpirit
    else Error_NO in
  if err_ok en_error then
    let kill_list := match mfind (chapter_id, section_id) (_special_kills h) with
                     | Some kills => kills | None => [] end in
    let spirit := spirit -ᵢ use_spirit_config in
    let spirit := if spirit <? 0 then 0 else spirit in
    on_hero (fun h => set__current_section section_id (set__current_chapter chapter_id h)) ;;;
    on_info (set_hd_spirit spirit) ;;;
    let* info := get_info in
    hero_record (fun tz now acc name =>
      enterGameRecord tz now acc name chapter_id section_id (hd_gold info)) ;;;
    sendPBMessage (MsgS2CEnterGameACK en_error chapter_id section_id kill_list (drop_box_list cfg)
                     (hd_spirit info))
  else
    sendPBMessage (MsgS2CEnterGameACK en_error chapter_id section_id [] [] spirit).

Definition ReqEnterGame (chapter_id section_id : Z) : M HS unit :=
  EnterGame chapter_id section_id false.

(** ** Leaving *)
Record MsgC2SReqExitGame := mkExitGame {
  eg_chapter_id : Z;
  eg_section_id : Z;
  eg_success : bool;
  eg_gold : Z;
  eg_task_infos : list MsgTaskInfo;
  eg_complete_tasks : list Z;
  eg_special_kill_list : list MsgObjConfig;
  eg_special_creatures : list MsgIntPair;
  eg_use_lotions : list Z
}.

(** The lotion check: every used lotion must be one the hero has (the working
    copy is not reduced, so one lotion answers for several uses). *)
Fixpoint use_lotions_ok (use_lotions vclotions : list Z) : bool :=
  match use_lotions with
  | [] => true
  | current_lotion_id :: use' =>
      existsb (fun it => current_lotion_id =? it) vclotions && use_lotions_ok use' vclotions
  end.

(** The lotions that are left. *)
Definition remaining_lotions (use_lotions lotions : list Z) : list Z :=
  List.filter (fun l => negb (existsb (fun u => u =? l) use_lotions)) lotions.

(** The reported task states overwrite the first task with the same id. *)
Fixpoint copy_task (task_entry : MsgTaskInfo) (tasks : list MsgTaskInfo) : list MsgTaskInfo :=
  match tasks with
  | [] => []
  | cur_info :: tasks' =>
      if taskid cur_info =? taskid task_entry then task_entry :: tasks'
      else cur_info :: copy_task task_entry tasks'
  end.
Definition copy_tasks (task_infos tasks : list MsgTaskInfo) : list MsgTaskInfo :=
  fold_left (fun l t => copy_task t l) task_infos tasks.

(** The loop over the completed tasks: the task leaves the list and its gift is
    noted; ids that are unknown or not held get a gift of 0. *)
Fixpoint complete_loop (ids : list Z) (count all_task_gold : Z) (gifts : list MsgIntPair)
    : M HS (Z * Z * list MsgIntPair) :=
  match ids with
  | [] => ret (count, all_task_gold, gifts)
  | task_id :: ids' =>
      let* cfg := get_config in
      let* h := get_hero in
      match getMapTask cfg task_id with
      | Some info_task_config =>
          match erase_task task_id (hd_tasks (_info h)) with
          | Some tasks =>
              let task_gift_gold := tk_gift_gold info_task_config in
              let all_task_gold := all_task_gold +ᵢ task_gift_gold in
              on_info (set_hd_tasks tasks) ;;;
              hero_record (fun tz now acc name =>
                taskCompleteRecord tz now acc name (_current_chapter h) (_current_section h) task_id
                  task_gift_gold (all_task_gold +ᵢ hd_gold (_info h))) ;;;
              complete_loop ids' (count +ᵢ 1) all_task_gold
                (gifts ++ [mkIntPair task_id task_gift_gold])
          | None => complete_loop ids' count all_task_gold (gifts ++ [mkIntPair task_id 0])
          end
      | None => complete_loop ids' count all_task_gold (gifts ++ [mkIntPair task_id 0])
      end
  end.

(** A passed section advances every record of the chapter that stands right
    before it. *)
Definition advance_records (chapter section : Z) (records : list MsgIntPair) : list MsgIntPair :=
  map (fun pair_entry =>
    if (number_1 pair_entry =? chapter) && (section =? number_2 pair_entry +ᵢ 1)
    then set_number_2 section pair_entry else pair_entry) records.

(** Special kills and creatures reported by the client. *)
Definition add_kill (kills : list MsgObjConfig) (k : MsgObjConfig) : list MsgObjConfig :=
  if existsb (fun it => (obj_id it =? obj_id k) && (obj_type it =? obj_type k)) kills then kills
  else kills ++ [k].
Definition merge_kills (key : Z * Z) (list_ : list MsgObjConfig)
    (m : list ((Z * Z) * list MsgObjConfig)) : list ((Z * Z) * list MsgObjConfig) :=
  let kills := match mfind key m with Some k => k | None => [] end in
  mput key (fold_left add_kill list_ kills) m.
Definition merge_creatures (l : list MsgIntPair) (m : list (Z * Z)) : list (Z * Z) :=
  fold_left (fun m p => mput (number_1 p) (number_2 p) m) l m.

(** The body for a run that is accepted: returns the count of completed tasks,
    the gold, the task gifts and their sum. *)
Definition exit_settle (msg : MsgC2SReqExitGame) : M HS (Z * Z * list MsgIntPair * Z) :=
  when (negb (Z.of_nat (length (eg_use_lotions msg)) =? 0))
    (on_info (fun i => set_hd_lotions (remaining_lotions (eg_use_lotions msg) (hd_lotions i)) i)) ;;;
  on_info (fun i => set_hd_tasks (copy_tasks (eg_task_infos msg) (hd_tasks i)) i) ;;;
  let* info := get_info in
  let* r := complete_loop (eg_complete_tasks msg) (hd_complete_task_count info) 0 [] in
  let '(cur_complete_task_count, all_task_gold, task_gift) := r in
  let* info := get_info in
  let gold_entry := if hd_gold info <? 0 then 0 else hd_gold info in
  let gold_entry := gold_entry +ᵢ eg_gold msg in
  let gold_entry := fold_left (fun g p => g +ᵢ number_2 p) task_gift gold_entry in
  when (eg_success msg)
    (on_info (fun i => set_hd_records
      (advance_records (eg_chapter_id msg) (eg_section_id msg) (hd_records i)) i)) ;;;
  on_info (fun i => set_hd_complete_task_count cur_complete_task_count (set_hd_gold gold_entry i)) ;;;
  on_hero (fun h => set__special_creatures
      (merge_creatures (eg_special_creatures msg) (_special_creatures h))
    (set__special_kills (merge_kills (_current_chapter h, _current_section h)
      (eg_special_kill_list msg) (_special_kills h)) h)) ;;;
  ret (cur_complete_task_count, gold_entry, task_gift, all_task_gold).

(** The four records of an accepted run. *)
Definition exit_records (msg : MsgC2SReqExitGame) (current_gold all_task_gold : Z) : M HS unit :=
  let* h := get_hero in
  let gold := hd_gold (_info h) in
  let gold_modify_leave_record := gold -ᵢ current_gold in
  let monster_gold := gold_modify_leave_record -ᵢ all_task_gold in
  hero_record (fun tz now acc name =>
    leaveGameRecord tz now acc name (_current_chapter h) (_current_section h) (eg_success msg)
      gold_modify_leave_record gold) ;;;
  hero_record (fun tz now acc name =>
    goldModifyRecord tz now acc name monster_gold (gold -ᵢ all_task_gold) GoldModify_KillMonster) ;;;
  hero_record (fun tz now acc name =>
    goldModifyRecord tz now acc name all_task_gold gold GoldModify_CompleteTask) ;;;
  hero_record (fun tz now acc name =>
    goldModifyRecord tz now acc name gold_modify_leave_record gold GoldModify_LeaveGame).

(** The error of a request: not the section the hero is in, or a lotion it
    does not have. *)
Definition exit_error (msg : MsgC2SReqExitGame) (h : DreamHero) : GameError :=
  if ((eg_chapter_id msg =? -1) && (eg_section_id msg =? -1))
     || negb (eg_chapter_id msg =? _current_chapter h)
     || negb (eg_section_id msg =? _current_section h) then Error_NotEnterTheExitGame
  else if use_lotions_ok (eg_use_lotions msg) (hd_lotions (_info h)) then Error_NO
  else Error_FailedExitGameNotFoundTheUseLotion.

Definition leave_section : M HS unit :=
  on_hero (fun h => set__current_section (-1) (set__current_chapter (-1) h)).

Definition ReqExitGame (msg : MsgC2SReqExitGame) : M HS unit :=
  let* h := get_hero in
  let error := exit_error msg h in
  if err_ok error then
    let* r := exit_settle msg in
    let '(count, gold, task_gift, all_task_gold) := r in
    let* info := get_info in
    exit_records msg (hd_gold (_info h)) all_task_gold ;;;
    leave_section ;;;
    let* h := get_hero in
    sendPBMessage (MsgS2CExitGameACK error (eg_chapter_id msg) (eg_section_id msg) (eg_success msg)
      gold task_gift (hd_tasks info) (hd_lotions info) count (special_creature_list h))
  else
    leave_section ;;;
    sendPBMessage (MsgS2CExitGameACK error (eg_chapter_id msg) (eg_section_id msg) (eg_success msg)
      0 [] [] [] (hd_complete_task_count (_info h)) (special_creature_list h)).

(** ** Chapters *)

(** The loop over the records: [None] is the early [return] for a chapter that
    is already open, otherwise whether the required section is passed. *)
Fixpoint unlock_scan (chapter_id : Z) (c : MsgChapterConfigInfo) (records : list MsgIntPair)
    (passed : bool) : option bool :=
  match records with
  | [] => Some passed
  | pair_entry :: records' =>
      if number_1 pair_entry =? chapter_id then None
      else unlock_scan chapter_id c records'
             (if (ch_required_chapter_id c =? number_1 pair_entry)
                 && (number_2 pair_entry >=? ch_required_section_id c) then true else passed)
  end.

Definition unlock_reply (en_error : GameError) (chapter_id current_gold : Z) : M HS unit :=
  let* info := get_info in
  when (err_ok en_error)
    (hero_record (fun tz now acc name =>
       chapterUnlockRecord tz now acc name chapter_id (current_gold -ᵢ hd_gold info) (hd_gold info))) ;;;
  sendPBMessage (MsgS2CUnlockChapterACK en_error chapter_id
    (if err_ok en_error then hd_gold info else current_gold)).

Definition ReqUnlockChapter (chapter_id : Z) : M HS unit :=
  let* info := get_info in
  let* cfg := get_config in
  let current_gold := hd_gold info in
  match getChapterConfigInfo cfg chapter_id with
  | None => unlock_reply Error_UnlockChapterFailedNotFoundTheUnlockChapter chapter_id current_gold
  | Some info_config =>
      if hd_complete_task_count info <? ch_required_task_complete_count info_config then
        unlock_reply Error_UnlockChapterFailedYouHaveToCompleteEnoughTasks chapter_id current_gold
      else
        match unlock_scan chapter_id info_config (hd_records info) false with
        | None => ret tt
        | Some false =>
            unlock_reply Error_UnlockChapterFailedTheRequiredSectionNotPass chapter_id current_gold
        | Some true =>
            let gold_current := hd_gold info -ᵢ ch_require_gold info_config in
            if gold_current <? 0 then
              unlock_reply Error_UnlockChapterFailedYouNotHaveEnoughGold chapter_id current_gold
            else
              on_info (fun i => set_hd_gold gold_current
                (set_hd_records (hd_records i ++ [mkIntPair chapter_id 0]) i)) ;;;
              unlock_reply Error_NO chapter_id current_gold
        end
  end.

(** ** Relive, settings and GM handlers *)
Definition ReqReliveReq : M HS unit :=
  let* g := get_global in
  let* info := get_info in
  let* error :=
    (if hd_gold info >=? relive_gold_ g then
       let current_gold := hd_gold info -ᵢ relive_gold_ g in
       on_info (set_hd_gold current_gold) ;;;
       hero_record (fun tz now acc name =>
         reliveRecord tz now acc name (relive_gold_ g) current_gold) ;;;
       hero_record (fun tz now acc name =>
         goldModifyRecord tz now acc name (i32 (- relive_gold_ g)) current_gold
           GoldModify_ReliveRecord) ;;;
       ret Error_NO
     else ret Error_ReliveFailedNotEnoughGod) in
  let* info := get_info in
  sendPBMessage (MsgS2CReliveACK error (hd_gold info)).

(** A negative index is undefined ([RepeatedField::Get]). *)
Definition ReqModifyCurrentHero (grid_id : Z) : M HS unit :=
  let* info := get_info in
  let* en :=
    (if Z.of_nat (length (hd_heroes info)) >? grid_id then
       let* b_character := elem (hd_heroes info) grid_id in
       if (b_character : bool) then on_info (set_hd_current_hero grid_id) ;;; ret Error_NO
       else ret Error_ModifyCurrentFailedTheCharacterIsLock
     else ret Error_ModifyCurrentFailedTheCharacterIsLock) in
  let* info := get_info in
  sendPBMessage (MsgS2CModifyCurrentHeroACK en (hd_current_hero info)).

Definition ReqResetMap (chapter_id section_id : Z) : M HS unit :=
  on_hero (fun h => set__special_kills (merase (chapter_id, section_id) (_special_kills h)) h) ;;;
  sendPBMessage (MsgS2CCmdResetMapACK Error_NO chapter_id section_id).

Definition ReqModifyGold (gold : Z) : M HS unit :=
  let* info := get_info in
  let current_gold := hd_gold info +ᵢ gold in
  let current_gold := if current_gold <? 0 then 0 else current_gold in
  on_info (set_hd_gold current_gold) ;;;
  sendPBMessage (MsgS2CCmdModifyGoldACK current_gold).

Definition ReqModifyTutorialFlag (flag : Z) : M HS unit :=
  on_info (set_hd_new_tutorial flag) ;;;
  let* info := get_info in
  sendPBMessage (MsgS2CModifyNewTutorialACK (hd_new_tutorial info)).

Definition ReqRemoveAllSpecialCreatureList : M HS unit :=
  on_hero (set__special_creatures []) ;;;
  sendPBMessage (MsgS2CCmdNotifySpecialCreatureHisModify []).

Definition ReqSetSpecialCreatureList (creature_id status : Z) : M HS unit :=
  on_hero (fun h => set__special_creatures (mput creature_id status (_special_creatures h)) h) ;;;
  let* h := get_hero in
  sendPBMessage (MsgS2CCmdNotifySpecialCreatureHisModify (special_creature_list h)).

Definition ReqModifyNotifyGridState (grid_notify_state : list MsgIntBoolPair) : M HS unit :=
  on_info (set_hd_grid_notify_state grid_notify_state) ;;;
  sendPBMessage (MsgS2CModifyNotifyGridStateACK grid_notify_state).

Definition SendResetGameACK (en : GameError) : M HS unit :=
  let* h := get_hero in
  sendPBMessage (MsgS2CCmdResetGameACK en (_info h) (_current_task_count h)
    (_last_task_advertisement_time h)).

Definition getGMLevel (h : DreamHero) : Z := _gm_level h.
Definition SetGMLevel (level : Z) : M HS unit := on_hero (set__gm_level level).
Definition getSpirit (h : DreamHero) : Z := hd_spirit (_info h).
Definition setSpirit (spirit : Z) : M HS unit := on_info (set_hd_spirit spirit).
Definition getJewel (h : DreamHero) : Z := hd_jewel (_info h).
Definition setJewel (jewel : Z) : M HS unit := on_info (set_hd_jewel jewel).

(** [recoverSpirit]: one tick of the spirit recovery. *)
Definition recoverSpirit : M HS unit :=
  let* info := get_info in
  let* g := get_global in
  let* now := get_time_now in
  let spirit := hd_spirit info in
  let spirit :=
    if spirit <? config_max_spirit_ g then
      let spirit := spirit +ᵢ config_recover_spirit_ g in
      if spirit >=? config_max_spirit_ g then config_max_spirit_ g else spirit
    else spirit in
  on_info (set_hd_spirit spirit) ;;;
  on_hero (set__last_recover_spirit_time (u32 now)) ;;;
  let* info := get_info in
  sendPBMessage (MsgS2CRecoverSpiritNotify (hd_spirit info)).

(** ** What a run is worth *)

(** The gift of a configured task. *)
Definition gift_of (c : GameConfig) (id : Z) : Z :=
  match getMapTask c id with Some t => tk_gift_gold t | None => 0 end.

(** The held tasks a request completes: configured ones it names. *)
Definition completes (c : GameConfig) (ids : list Z) (t : MsgTaskInfo) : Prop :=
  taskid t ∈ ids /\ is_Some (getMapTask c (taskid t)).
#[export] Instance completes_dec c ids t : Decision (completes c ids t).
Proof. unfold completes. apply _. Defined.
Definition completed (c : GameConfig) (ids : list Z) (tasks : list MsgTaskInfo) : list MsgTaskInfo :=
  filter (completes c ids) tasks.
Definition uncompleted (c : GameConfig) (ids : list Z) (tasks : list MsgTaskInfo) : list MsgTaskInfo :=
  filter (fun t => ~ completes c ids t) tasks.
Definition gift_sum (c : GameConfig) (tasks : list MsgTaskInfo) : Z :=
  zsum (map (fun t => gift_of c (taskid t)) tasks).

Lemma completed_nil c tasks : completed c [] tasks = [] /\ uncompleted c [] tasks = tasks.
Proof.
  assert (H : forall t, ~ completes c [] t) by (intros t [Hin _]; by apply elem_of_nil in Hin).
  unfold completed, uncompleted. induction tasks as [|t l [IH1 IH2]]; [done|].
  rewrite !filter_cons, decide_False, decide_True by done. by rewrite IH1, IH2.
Qed.

(** An id that completes nothing can be left out. *)
Lemma completed_skip c id ids tasks :
  id ∉ (taskid <$> tasks) \/ getMapTask c id = None ->
  completed c (id :: ids) tasks = completed c ids tasks /\
  uncompleted c (id :: ids) tasks = uncompleted c ids tasks.
Proof.
  intros H. assert (Hiff : forall t, t ∈ tasks -> completes c (id :: ids) t <-> completes c ids t).
  { intros t Ht. unfold completes. rewrite elem_of_cons. split; [|tauto].
    intros [[Heq|Hin] Hs]; [|done]. exfalso. destruct H as [H|H].
    - apply H. rewrite <- Heq. apply list_elem_of_fmap. by exists t.
    - rewrite Heq, H in Hs. by destruct Hs. }
  unfold completed, uncompleted. split; apply filter_ext_in; intros t Ht; by rewrite Hiff.
Qed.

(** Completing a held, configured task. *)
Lemma completed_step c id ids tasks tasks' :
  NoDup (taskid <$> tasks) -> erase_task id tasks = Some tasks' -> is_Some (getMapTask c id) ->
  NoDup (taskid <$> tasks') /\
  uncompleted c (id :: ids) tasks = uncompleted c ids tasks' /\
  length (completed c (id :: ids) tasks) = S (length (completed c ids tasks')) /\
  gift_sum c (completed c (id :: ids) tasks) = gift_of c id + gift_sum c (completed c ids tasks').
Proof.
  intros Hnd He Hs. pose proof (erase_task_spec id tasks) as H. rewrite He in H.
  destruct H as (pre & t & post & -> & -> & Ht & Hpre).
  assert (Hpost : (id ∉ taskid <$> post) /\ NoDup (taskid <$> (pre ++ post))).
  { rewrite fmap_app in Hnd. cbn in Hnd. apply NoDup_app in Hnd as (H1 & H2 & H3).
    apply NoDup_cons in H3 as [H3 H4]. split; [by rewrite <- Ht|].
    rewrite fmap_app. apply NoDup_app. split; [done|]. split; [|done].
    intros x Hx Hx'. apply (H2 x Hx). apply elem_of_cons. by right. }
  destruct Hpost as [Hpost Hnd']. split; [done|].
  assert (Hc : completes c (id :: ids) t).
  { split; [apply elem_of_cons; by left|by rewrite Ht]. }
  destruct (completed_skip c id ids pre) as [C1 U1]; [by left|].
  destruct (completed_skip c id ids post) as [C2 U2]; [by left|].
  unfold completed, uncompleted, gift_sum in *.
  rewrite !filter_app, !filter_cons.
  rewrite (decide_True (P := completes c (id :: ids) t)) by done.
  rewrite (decide_False (P := ~ completes c (id :: ids) t)) by tauto.
  rewrite C1, U1, C2, U2, !map_app, !zsum_app, !length_app. cbn. rewrite Ht.
  split; [done|]. split; [lia|]. unfold zsum. cbn. lia.
Qed.

Lemma wp_complete_loop ids : forall count all gifts s (Q : _ -> HS -> Prop),
  let c := gGameConfig (srv s) in
  let tasks := hd_tasks (_info (this s)) in
  NoDup (taskid <$> tasks) ->
  (forall r count' all' new,
     i32 count' = i32 (count + Z.of_nat (length (completed c ids tasks))) ->
     (is_i32 count -> is_i32 count') ->
     map number_1 new = ids ->
     zsum (map number_2 new) = gift_sum c (completed c ids tasks) ->
     Q (count', all', gifts ++ new)
       (mkHS (set__info (set_hd_tasks (uncompleted c ids tasks) (_info (this s))) (this s))
             (set_gRecordManager r (srv s)))) ->
  wp (complete_loop ids count all gifts) Q s.
Proof.
  induction ids as [|id ids IH]; intros count all gifts s Q c tasks Hnd HQ; cbn [complete_loop].
  - apply wp_ret. destruct (completed_nil c tasks) as [Hc Hu].
    specialize (HQ (gRecordManager (srv s)) count all []).
    rewrite Hc, Hu, app_nil_r in HQ. unfold tasks in HQ.
    rewrite set_tasks_same, set_info_same in HQ.
    assert (Hsrv : set_gRecordManager (gRecordManager (srv s)) (srv s) = srv s) by (by destruct (srv s)).
    rewrite Hsrv, hs_eta in HQ. apply HQ; try done. cbn. f_equal. lia.
  - assert (Hskip : (id ∉ (taskid <$> tasks) \/ getMapTask c id = None) ->
      wp (complete_loop ids count all (gifts ++ [mkIntPair id 0])) Q s).
    { intros Hs. destruct (completed_skip c id ids tasks Hs) as [Hc Hu].
      apply IH; [done|]. intros r count' all' new H1 H2 H3 H4. rewrite <- app_assoc.
      rewrite Hc, Hu in HQ. apply HQ; [done|done|cbn; by f_equal|]. done. }
    hs_run.
    + destruct (completed_step c id ids tasks l Hnd E0) as (Hnd' & Hu & Hl & Hg); [unfold c; by rewrite E|].
      cbn [srv this set_gRecordManager] in *.
      apply IH; cbn [_info set__info hd_tasks set_hd_tasks]; [done|].
      intros r' count' all' new H1 H2 H3 H4. rewrite <- app_assoc. cbn [app].
      eapply eq_rect; [apply (HQ r' count' all' (mkIntPair id (tk_gift_gold m) :: new))|].
      * change (i32 count' = i32 (count +ᵢ 1 + Z.of_nat (length (completed c ids l)))) in H1.
        rewrite Hl, H1, Nat2Z.inj_succ. i32_solve.
      * intros _. apply H2, i32_range.
      * cbn. by f_equal.
      * cbn. unfold zsum in *. cbn. rewrite H4, Hg. f_equal. unfold gift_of, c. by rewrite E.
      * f_equal. rewrite Hu. by destruct (this s) as [? ? []].
    + apply Hskip. left. pose proof (erase_task_spec id tasks) as H. unfold tasks in *. by rewrite E0 in H.
    + apply Hskip. by right.
Qed.

(** ** The outcome of leaving a section *)

(** Reported task states never change which tasks are held. *)
Lemma copy_tasks_ids infos : forall tasks, taskid <$> copy_tasks infos tasks = taskid <$> tasks.
Proof.
  induction infos as [|t infos IH]; intros tasks; [done|]. unfold copy_tasks in *. cbn.
  rewrite IH. clear IH. induction tasks as [|u l IHl]; [done|]. cbn.
  destruct (Z.eqb_spec (taskid u) (taskid t)); cbn; [by f_equal|by rewrite IHl].
Qed.

(** The hero data after an accepted run. *)
Definition exit_info (c : GameConfig) (msg : MsgC2SReqExitGame) (i : MsgHeroData) : MsgHeroData :=
  let held := copy_tasks (eg_task_infos msg) (hd_tasks i) in
  let finished := completed c (eg_complete_tasks msg) held in
  set_hd_complete_task_count (i32 (hd_complete_task_count i + Z.of_nat (length finished)))
  (set_hd_gold (i32 (Z.max 0 (hd_gold i) + eg_gold msg + gift_sum c finished))
  (set_hd_records (if eg_success msg
                   then advance_records (eg_chapter_id msg) (eg_section_id msg) (hd_records i)
                   else hd_records i)
  (set_hd_tasks (uncompleted c (eg_complete_tasks msg) held)
  (set_hd_lotions (remaining_lotions (eg_use_lotions msg) (hd_lotions i)) i)))).

Lemma remaining_lotions_nil l : remaining_lotions [] l = l.
Proof. unfold remaining_lotions. induction l as [|x l IH]; [done|]. cbn. by f_equal. Qed.

Lemma wp_exit_settle msg s (Q : _ -> HS -> Prop) :
  let i := _info (this s) in
  NoDup (taskid <$> hd_tasks i) -> is_i32 (hd_complete_task_count i) ->
  (forall r count gold gifts all,
     let i' := exit_info (gGameConfig (srv s)) msg i in
     count = hd_complete_task_count i' -> gold = hd_gold i' ->
     map number_1 gifts = eg_complete_tasks msg ->
     Q (count, gold, gifts, all)
       (mkHS (set__special_creatures
                (merge_creatures (eg_special_creatures msg) (_special_creatures (this s)))
             (set__special_kills
                (merge_kills (_current_chapter (this s), _current_section (this s))
                  (eg_special_kill_list msg) (_special_kills (this s)))
             (set__info i' (this s))))
             (set_gRecordManager r (srv s)))) ->
  wp (exit_settle msg) Q s.
Proof.
  intros i Hnd Hcount HQ. unfold exit_settle.
  apply wp_bind. eapply (wp_mono _ (fun _ s' => s' =
    mkHS (set__info (set_hd_lotions (remaining_lotions (eg_use_lotions msg) (hd_lotions i)) i) (this s)) (srv s))).
  { hs_run; [done|]. destruct (eg_use_lotions msg); [|done].
    rewrite remaining_lotions_nil. unfold i. by destruct s as [[? ? []] ?]. }
  intros [] ? ->. apply wp_bind, wp_on_info. cbn [this srv set__info _info]. apply wp_bind, wp_gets.
  apply wp_bind, wp_complete_loop.
  { change (NoDup (taskid <$> copy_tasks (eg_task_infos msg) (hd_tasks i))). by rewrite copy_tasks_ids. }
  intros r count' all' new H1 H2 H3 H4.
  cbn -[i32 completed uncompleted gift_sum] in H1, H2, H3, H4 |- *.
  assert (Hc : count' = i32 (hd_complete_task_count i + Z.of_nat (length (completed (gGameConfig (srv s))
       (eg_complete_tasks msg) (copy_tasks (eg_task_infos msg) (hd_tasks i)))))).
  { rewrite <- H1. symmetry. by apply i32_id, H2. }
  assert (Hg : fold_left (fun g p => g +ᵢ number_2 p) new
       ((if hd_gold i <? 0 then 0 else hd_gold i) +ᵢ eg_gold msg)
     = hd_gold (exit_info (gGameConfig (srv s)) msg i)).
  { rewrite fold_i32_sum by apply i32_range. rewrite H4. cbn -[i32 gift_sum completed].
    assert (Hm : (if hd_gold i <? 0 then 0 else hd_gold i) = Z.max 0 (hd_gold i)).
    { destruct (Z.ltb_spec (hd_gold i) 0); lia. }
    rewrite Hm. generalize (gift_sum (gGameConfig (srv s)) (completed (gGameConfig (srv s))
       (eg_complete_tasks msg) (copy_tasks (eg_task_infos msg) (hd_tasks i)))). intros z. i32_solve. }
  specialize (HQ r count' (hd_gold (exit_info (gGameConfig (srv s)) msg i)) new all' Hc eq_refl H3).
  clear H1 H2 H4. hs_run; cbn [app];
    match goal with |- Q ?p ?st => match type of HQ with Q ?p' ?st' =>
      replace p with p' by (do 3 f_equal; exact (eq_sym Hg));
      replace st with st'; [exact HQ|clear HQ] end end;
    unfold i in *; destruct s as [[? ? []] ?];
    cbn -[i32 completed uncompleted gift_sum copy_tasks Z.ltb] in *; unfold exit_info in *;
    cbn -[i32 completed uncompleted gift_sum copy_tasks Z.ltb] in *; by rewrite <- Hg, Hc, Hc0.
Qed.

Lemma use_lotions_ok_spec uses l :
  use_lotions_ok uses l = true <-> forall u, u ∈ uses -> u ∈ l.
Proof.
  induction uses as [|x uses IH]; cbn.
  - split; [intros _ u Hu; by apply elem_of_nil in Hu|done].
  - rewrite andb_true_iff, IH, existsb_exists. setoid_rewrite elem_of_cons. split.
    + intros [(y & Hy & Heq) Hin] u [->|Hu]; [|by apply Hin].
      apply Z.eqb_eq in Heq. subst. by apply list_elem_of_In.
    + intros H. split; [|auto]. exists x. split; [apply list_elem_of_In; auto|by apply Z.eqb_eq].
Qed.

(** A request is accepted when it names the section the hero is in and uses
    only lotions the hero has. *)
Definition exit_allowed (msg : MsgC2SReqExitGame) (h : DreamHero) : Prop :=
  (eg_chapter_id msg, eg_section_id msg) = (_current_chapter h, _current_section h) /\
  (_current_chapter h, _current_section h) <> (-1, -1) /\
  (forall u, u ∈ eg_use_lotions msg -> u ∈ hd_lotions (_info h)).

Lemma exit_error_spec msg h :
  if err_ok (exit_error msg h) then exit_allowed msg h else ~ exit_allowed msg h.
Proof.
  unfold exit_error, exit_allowed. pose proof (use_lotions_ok_spec (eg_use_lotions msg) (hd_lotions (_info h))) as Hu.
  destruct (_ || _) eqn:E; cbn [err_ok].
  - intros ([= H1 H2] & H3 & _). rewrite H1, H2, !Z.eqb_refl in E. cbn in E.
    rewrite !orb_false_r in E. to_prop. congruence.
  - apply orb_false_elim in E as [E E3]. apply orb_false_elim in E as [E1 E2]. to_prop.
    destruct (use_lotions_ok _ _); cbn.
    + split; [congruence|]. split; [|by apply Hu].
      intros [= H1 H2]. rewrite E2, E3, H1, H2 in E1. done.
    + intros (_ & _ & H). by apply Hu in H.
Qed.

Lemma wp_exit_records msg cur all s (Q : unit -> HS -> Prop) :
  (forall r, Q tt (mkHS (this s) (set_gRecordManager r (srv s)))) -> wp (exit_records msg cur all) Q s.
Proof. intros HQ. unfold exit_records. hs_run. apply (HQ _). Qed.

(** The hero after leaving a section, and after an accepted run. *)
Definition outside (h : DreamHero) : DreamHero := set__current_section (-1) (set__current_chapter (-1) h).
Definition settled (c : GameConfig) (msg : MsgC2SReqExitGame) (h : DreamHero) : DreamHero :=
  set__special_creatures (merge_creatures (eg_special_creatures msg) (_special_creatures h))
  (set__special_kills (merge_kills (_current_chapter h, _current_section h)
     (eg_special_kill_list msg) (_special_kills h))
  (set__info (exit_info c msg (_info h)) h)).

Lemma wp_ReqExitGame msg s (Q : unit -> HS -> Prop) :
  session_valid s -> NoDup (taskid <$> hd_tasks (_info (this s))) ->
  is_i32 (hd_complete_task_count (_info (this s))) ->
  (exit_allowed msg (this s) -> forall gifts s', map number_1 gifts = eg_complete_tasks msg ->
     let h' := settled (gGameConfig (srv s)) msg (this s) in
     this s' = outside h' ->
     out (srv s') = out (srv s) ++ delivery s (MsgS2CExitGameACK Error_NO (eg_chapter_id msg)
       (eg_section_id msg) (eg_success msg) (hd_gold (_info h')) gifts (hd_tasks (_info h'))
       (hd_lotions (_info h')) (hd_complete_task_count (_info h')) (special_creature_list h')) ->
     Q tt s') ->
  (~ exit_allowed msg (this s) -> forall s', this s' = outside (this s) ->
     out (srv s') = out (srv s) ++ delivery s (MsgS2CExitGameACK (exit_error msg (this s))
       (eg_chapter_id msg) (eg_section_id msg) (eg_success msg) 0 [] [] []
       (hd_complete_task_count (_info (this s))) (special_creature_list (this s))) -> Q tt s') ->
  wp (ReqExitGame msg) Q s.
Proof.
  intros Hs Hnd Hc Hok Hbad. unfold ReqExitGame, leave_section.
  apply wp_bind, wp_gets. pose proof (exit_error_spec msg (this s)) as He.
  destruct (err_ok (exit_error msg (this s))) eqn:E.
  - apply err_ok_true in E. rewrite E. apply wp_bind. apply wp_exit_settle; [done|done|].
    intros r count gold gifts all. cbv zeta. intros -> -> Hg. apply wp_bind, wp_gets.
    apply wp_bind, wp_exit_records. intros r'. hs_run; [done|]. by apply (Hok He gifts).
  - hs_run; [done|]. by apply (Hbad He).
Qed.

(** A run moves a record by at most one section. *)
Lemma advance_records_spec c sec records :
  Forall2 (fun p p' => p' = p \/ (number_1 p = c /\ sec = number_2 p +ᵢ 1 /\ p' = mkIntPair c sec))
    records (advance_records c sec records).
Proof.
  induction records as [|p l IH]; constructor; [|done].
  destruct (_ && _) eqn:E; [right|by left]. to_prop. split; [done|]. split; [done|].
  destruct p as [a b]. cbn in *. by subst.
Qed.

(** ** Entering: the price and the refusal *)
Definition enter_allowed (chapter_id section_id : Z) (admin : bool) (g : globalConfig)
    (h : DreamHero) : Prop :=
  admin = true \/ (chapter_id, section_id) = (-1, -1) \/ config_enter_game_use_spirit_ g = 0 \/
  config_enter_game_use_spirit_ g <= hd_spirit (_info h).

Definition entered (chapter_id section_id spirit : Z) (h : DreamHero) : DreamHero :=
  set__info (set_hd_spirit spirit (_info h))
    (set__current_section section_id (set__current_chapter chapter_id h)).

Lemma wp_EnterGame ch sec admin s (Q : unit -> HS -> Prop) :
  let g := getGlobalConfig (gGameConfig (srv s)) in
  let cost := config_enter_game_use_spirit_ g in
  let spirit := hd_spirit (_info (this s)) in
  session_valid s -> 0 <= spirit < 2^31 -> 0 <= cost < 2^31 ->
  (enter_allowed ch sec admin g (this s) -> forall s',
     this s' = entered ch sec (Z.max 0 (spirit - cost)) (this s) ->
     out (srv s') = out (srv s) ++ delivery s (MsgS2CEnterGameACK Error_NO ch sec
        (from_option id [] (mfind (ch, sec) (_special_kills (this s))))
        (drop_box_list (gGameConfig (srv s))) (Z.max 0 (spirit - cost))) -> Q tt s') ->
  (~ enter_allowed ch sec admin g (this s) -> forall s', this s' = this s ->
     out (srv s') = out (srv s) ++ delivery s
       (MsgS2CEnterGameACK Error_CanNotEnterGameNotEnoughSpirit ch sec [] [] spirit) -> Q tt s') ->
  wp (EnterGame ch sec admin) Q s.
Proof.
  intros g cost spirit Hs Hi Hcost Hok Hbad. unfold EnterGame.
  apply wp_bind, wp_gets, wp_bind, wp_gets, wp_bind, wp_gets. fold g cost spirit.
  assert (Hsp : (if spirit -ᵢ cost <? 0 then 0 else spirit -ᵢ cost) = Z.max 0 (spirit - cost)).
  { rewrite i32_id by (unfold is_i32; lia). destruct (Z.ltb_spec (spirit - cost) 0); lia. }
  unfold enter_allowed in Hok, Hbad. fold cost spirit in Hok, Hbad.
  match goal with |- context [err_ok ?e] => assert (He :
    (e = Error_NO /\ enter_allowed ch sec admin g (this s)) \/
    (e = Error_CanNotEnterGameNotEnoughSpirit /\ ~ enter_allowed ch sec admin g (this s))) end.
  { unfold enter_allowed. fold cost spirit. destruct admin; [by left; auto|].
    destruct (_ && _) eqn:E1; [to_prop; left; split; [done|]; right; left; by subst|].
    assert (H1 : (ch, sec) <> (-1, -1)) by (intros [= -> ->]; done).
    destruct (Z.eqb_spec cost 0) as [H2|H2]; [left; tauto|].
    destruct (Z.ltb_spec spirit cost) as [H3|H3]; [right|left]; (split; [done|]); [|tauto].
    intros [H|[H|[H|H]]]; [done|done|done|lia]. }
  destruct He as [[-> Ha]|[-> Ha]]; cbn [err_ok].
  - hs_run; [done|]. rewrite Hsp. apply (Hok Ha); [done|]. cbn. by destruct (mfind _ _).
  - hs_run; [done|]. by apply (Hbad Ha).
Qed.

(** ** Unlocking *)

(** What a chapter asks for: enough completed tasks, the required section of
    some record passed, and the gold. *)
Definition unlock_allowed (c : MsgChapterConfigInfo) (i : MsgHeroData) : Prop :=
  ch_required_task_complete_count c <= hd_complete_task_count i /\
  (exists p, p ∈ hd_records i /\ number_1 p = ch_required_chapter_id c /\
     ch_required_section_id c <= number_2 p) /\  ch_require_gold c <= hd_gold i.

Lemma unlock_scan_spec ch c records : forall passed,
  match unlock_scan ch c records passed with
  | None => ch ∈ (number_1 <$> records)
  | Some b => (ch ∉ number_1 <$> records) /\     (b = true <-> passed = true \/ exists p, p ∈ records /\ number_1 p = ch_required_chapter_id c /\
     ch_required_section_id c <= number_2 p)
  end.
Proof.
  induction records as [|p l IH]; intros passed; cbn.
  - split; [apply not_elem_of_nil|]. split; [by left|].
    intros [H|(p & Hp & _)]; [done|by apply elem_of_nil in Hp].
  - destruct (Z.eqb_spec (number_1 p) ch) as [<-|Hne]; [apply elem_of_cons; by left|].
    specialize (IH (if (ch_required_chapter_id c =? number_1 p)
                       && (number_2 p >=? ch_required_section_id c) then true else passed)).
    destruct (unlock_scan _ _ _ _); [|apply elem_of_cons; by right]. setoid_rewrite elem_of_cons.
    destruct IH as [H1 ->]. split; [intros [?|?]; congruence|].
    destruct (_ && _) eqn:E.
    + apply andb_prop in E as [E1 E2]. apply Z.eqb_eq in E1. apply Z.geb_le in E2.
      split; [intros _|by left]. right. exists p. split; [by left|done].
    + split; [intros [?|(q & ? & ?)]; [by left|right; exists q; by split; [right|]]|].
      intros [?|(q & [->|Hq] & H2 & H3)]; [by left| |right; by exists q].
      exfalso. apply andb_false_iff in E as [E|E]; [by apply Z.eqb_neq in E|].
      rewrite Z.geb_leb in E. apply Z.leb_gt in E. lia.
Qed.

Lemma wp_unlock_reply e ch gold s (Q : unit -> HS -> Prop) :
  session_valid s ->
  (forall s', this s' = this s -> out (srv s') = out (srv s) ++ delivery s
     (MsgS2CUnlockChapterACK e ch (if err_ok e then hd_gold (_info (this s)) else gold)) -> Q tt s') ->
  wp (unlock_reply e ch gold) Q s.
Proof. intros Hs HQ. unfold unlock_reply. hs_run; try done; by apply HQ. Qed.

Definition unlocked (ch price : Z) (h : DreamHero) : DreamHero :=
  set__info (set_hd_gold (hd_gold (_info h) - price)
    (set_hd_records (hd_records (_info h) ++ [mkIntPair ch 0]) (_info h))) h.

Lemma wp_ReqUnlockChapter ch s (Q : unit -> HS -> Prop) :
  let i := _info (this s) in
  session_valid s ->
  (forall c, getChapterConfigInfo (gGameConfig (srv s)) ch = Some c -> is_i32 (hd_gold i - ch_require_gold c)) ->
  (forall c, getChapterConfigInfo (gGameConfig (srv s)) ch = Some c ->
     (ch ∉ number_1 <$> hd_records i) -> unlock_allowed c i -> forall s',
     this s' = unlocked ch (ch_require_gold c) (this s) ->
     out (srv s') = out (srv s) ++ delivery s
       (MsgS2CUnlockChapterACK Error_NO ch (hd_gold i - ch_require_gold c)) -> Q tt s') ->
  (forall s', (forall c, getChapterConfigInfo (gGameConfig (srv s)) ch = Some c ->
       (ch ∈ number_1 <$> hd_records i) \/ ~ unlock_allowed c i) ->
     this s' = this s ->
     (out (srv s') = out (srv s) /\ (ch ∈ number_1 <$> hd_records i)
      \/ exists e, e <> Error_NO /\
           out (srv s') = out (srv s) ++ delivery s (MsgS2CUnlockChapterACK e ch (hd_gold i))) ->
     Q tt s') ->
  wp (ReqUnlockChapter ch) Q s.
Proof.
  intros i Hs Hint Hok Hbad. unfold ReqUnlockChapter.
  apply wp_bind, wp_gets, wp_bind, wp_gets. fold i.
  destruct (getChapterConfigInfo _ ch) as [c|].
  2: { apply wp_unlock_reply; [done|]. intros s' H1 H2. apply Hbad; [done|done|].
       right. eexists. split; [|exact H2]. done. }
  specialize (Hint c eq_refl). specialize (Hok c eq_refl).
  assert (Hbad' : forall e, e <> Error_NO -> err_ok e = false -> ~ unlock_allowed c i ->
            wp (unlock_reply e ch (hd_gold i)) Q s).
  { intros e He Hf Hn. apply wp_unlock_reply; [done|]. rewrite Hf. intros s' H1 H2.
    apply Hbad; [|done|right; by exists e]. intros c' [= <-]. by right. }
  unfold unlock_allowed in *.
  apply wp_if; intros Hcount; to_prop; [apply Hbad'; [done|done|lia]|].
  pose proof (unlock_scan_spec ch c (hd_records i) false) as Hscan.
  destruct (unlock_scan _ _ _ _) as [b|].
  2: { apply wp_ret. apply Hbad; [|done|by left]. intros c' [= <-]. by left. }
  destruct Hscan as [Hnew Hb]. destruct b.
  2: { apply Hbad'; [done|done|]. intros (_ & Hp & _). cut (false = true); [done|].
       apply Hb. by right. }
  destruct (proj1 Hb eq_refl) as [|Hp]; [done|]. rewrite i32_id by done.
  apply wp_if; intros Hgold; to_prop; [apply Hbad'; [done|done|lia]|].
  hs_run. apply wp_unlock_reply; [done|]. cbn [err_ok]. intros s' H1 H2.
  apply Hok; [done|split; [done|split; [done|lia]]|by rewrite H1|by rewrite H2].
Qed.

(** ** Properties *)

(** C10: leaving a section settles the run exactly once.  A request for the
    section the hero is in, using lotions it has, yields the gold it reports
    plus the gifts of the held tasks it completes, removes those tasks and the
    used lotions, counts the tasks and moves the records of the chapter by one
    section at most; any other request changes nothing.  Either way the hero is
    outside, where every further exit is refused. *)
Theorem ReqExitGame_correct msg s :
  session_valid s -> NoDup (taskid <$> hd_tasks (_info (this s))) ->
  is_i32 (hd_complete_task_count (_info (this s))) ->
  let h' := settled (gGameConfig (srv s)) msg (this s) in
  exists s', ReqExitGame msg s = Some (tt, s') /\
    (forall msg', exit_error msg' (this s') = Error_NotEnterTheExitGame) /\
    (exit_allowed msg (this s) -> this s' = outside h' /\
       Forall2 (fun p p' => p' = p \/
           (number_1 p = eg_chapter_id msg /\ eg_section_id msg = number_2 p +ᵢ 1 /\
            p' = mkIntPair (eg_chapter_id msg) (eg_section_id msg)))
         (hd_records (_info (this s))) (hd_records (_info (this s'))) /\
       exists gifts, map number_1 gifts = eg_complete_tasks msg /\
       out (srv s') = out (srv s) ++ delivery s (MsgS2CExitGameACK Error_NO (eg_chapter_id msg)
         (eg_section_id msg) (eg_success msg) (hd_gold (_info h')) gifts (hd_tasks (_info h'))
         (hd_lotions (_info h')) (hd_complete_task_count (_info h')) (special_creature_list h'))) /\
    (~ exit_allowed msg (this s) -> this s' = outside (this s) /\
       out (srv s') = out (srv s) ++ delivery s (MsgS2CExitGameACK (exit_error msg (this s))
         (eg_chapter_id msg) (eg_section_id msg) (eg_success msg) 0 [] [] []
         (hd_complete_task_count (_info (this s))) (special_creature_list (this s)))).
Proof.
  intros Hs Hnd Hc h'.
  assert (Hout : forall h msg', exit_error msg' (outside h) = Error_NotEnterTheExitGame).
  { intros h msg'. unfold exit_error, outside. cbn [_current_chapter _current_section
      set__current_section set__current_chapter]. by destruct (_ =? -1), (_ =? -1). }
  apply wp_unit, wp_ReqExitGame; [done|done|done| |].
  - intros Ha gifts s' Hg h'' Ht Ho. rewrite Ht. split; [by intros; apply Hout|].
    split; [intros _|done]. split; [done|]. split; [|by exists gifts].
    cbn. destruct (eg_success msg); [apply advance_records_spec|].
    apply Forall_Forall2_diag, Forall_forall. by left.
  - intros Ha s' Ht Ho. rewrite Ht. by split; [intros; apply Hout|].
Qed.

Definition demo_exit : MsgC2SReqExitGame :=
  mkExitGame 1 4 true 120 [mkTaskInfo 1 10 0] [1; 9] [] [] [].
Definition demo_inside : HS :=
  mkHS (set__current_section 4 (set__current_chapter 1 demo_hero)) demo_server.

Lemma ReqExitGame_correct_witness :
  session_valid demo_inside /\ exit_error demo_exit (this demo_inside) = Error_NO /\
  (exists s', ReqExitGame demo_exit demo_inside = Some (tt, s') /\
     exit_error demo_exit (this s') = Error_NotEnterTheExitGame) /\
  ((fun r => (hd_gold (_info (this r.2)), map number_2 (hd_records (_info (this r.2)))))
     <$> ReqExitGame demo_exit demo_inside) = Some (1070, [4; 0]).
Proof.
  split; [reflexivity|]. split; [reflexivity|]. split; [|vm_compute; reflexivity].
  destruct (ReqExitGame_correct demo_exit demo_inside) as (s' & Hr & He & _).
  - reflexivity.
  - apply NoDup_singleton.
  - unfold is_i32. cbn. lia.
  - exists s'. split; [exact Hr|apply He].
Defined.

(** C21: entering a section costs the configured spirit, never below zero, and is
    refused only to a player that cannot pay it; a refused request leaves the
    hero as it was, and the reply tells the spirit that is left. *)
Theorem EnterGame_correct ch sec admin s :
  let g := getGlobalConfig (gGameConfig (srv s)) in
  let cost := config_enter_game_use_spirit_ g in
  let spirit := hd_spirit (_info (this s)) in
  session_valid s -> 0 <= spirit < 2^31 -> 0 <= cost < 2^31 ->
  exists s', EnterGame ch sec admin s = Some (tt, s') /\
    0 <= hd_spirit (_info (this s')) <= spirit /\
    (enter_allowed ch sec admin g (this s) ->
       this s' = entered ch sec (Z.max 0 (spirit - cost)) (this s) /\
       out (srv s') = out (srv s) ++ delivery s (MsgS2CEnterGameACK Error_NO ch sec
         (from_option id [] (mfind (ch, sec) (_special_kills (this s))))
         (drop_box_list (gGameConfig (srv s))) (Z.max 0 (spirit - cost)))) /\
    (~ enter_allowed ch sec admin g (this s) -> this s' = this s /\
       out (srv s') = out (srv s) ++ delivery s
         (MsgS2CEnterGameACK Error_CanNotEnterGameNotEnoughSpirit ch sec [] [] spirit)).
Proof.
  intros g cost spirit Hs Hi Hc. apply wp_unit, wp_EnterGame; [done|done|done| |].
  - intros Ha s' Ht Ho. split; [rewrite Ht; cbn; fold g cost spirit; lia|]. by split.
  - intros Ha s' Ht Ho. split; [rewrite Ht; fold spirit; lia|]. by split.
Qed.

Lemma EnterGame_correct_witness :
  session_valid demo /\ hd_spirit demo_info = 60 /\
  (exists s', EnterGame 1 4 false demo = Some (tt, s') /\ 0 <= hd_spirit (_info (this s')) <= 60) /\
  ((fun r => (hd_spirit (_info (this r.2)), _current_section (this r.2)))
     <$> EnterGame 1 4 false demo) = Some (54, 4).
Proof.
  split; [reflexivity|]. split; [reflexivity|]. split; [|vm_compute; reflexivity].
  destruct (EnterGame_correct 1 4 false demo) as (s' & Hr & He & _); [reflexivity|cbn; lia|cbn; lia|].
  exists s'. split; [exact Hr|exact He].
Defined.

(** A chapter opens exactly for a hero that has completed enough tasks,
    passed the required section and can pay, once: the record is added at the
    end, the price is taken, and the chapters of the records stay distinct.
    Otherwise the hero is unchanged and an error is answered, except for a
    chapter that is already open, which may get no answer at all. *)
Theorem ReqUnlockChapter_correct ch s :
  let i := _info (this s) in
  let cfg := gGameConfig (srv s) in
  session_valid s ->
  (forall c, getChapterConfigInfo cfg ch = Some c -> is_i32 (hd_gold i - ch_require_gold c)) ->
  exists s', ReqUnlockChapter ch s = Some (tt, s') /\
    (NoDup (number_1 <$> hd_records i) -> NoDup (number_1 <$> hd_records (_info (this s')))) /\
    ((exists c, getChapterConfigInfo cfg ch = Some c /\ (ch ∉ number_1 <$> hd_records i) /\
        unlock_allowed c i /\ this s' = unlocked ch (ch_require_gold c) (this s) /\
        0 <= hd_gold (_info (this s')) /\
        out (srv s') = out (srv s) ++ delivery s
          (MsgS2CUnlockChapterACK Error_NO ch (hd_gold (_info (this s')))))
     \/ ((forall c, getChapterConfigInfo cfg ch = Some c ->
           (ch ∈ number_1 <$> hd_records i) \/ ~ unlock_allowed c i) /\
        this s' = this s /\
        (out (srv s') = out (srv s) /\ (ch ∈ number_1 <$> hd_records i)
         \/ exists e, e <> Error_NO /\
              out (srv s') = out (srv s) ++ delivery s (MsgS2CUnlockChapterACK e ch (hd_gold i))))).
Proof.
  intros i cfg Hs Hint. apply wp_unit, wp_ReqUnlockChapter; [done|done| |].
  - intros c Hc Hnew Ha s' Ht Ho. split.
    + intros Hnd. rewrite Ht. cbn. fold i. rewrite fmap_app. apply NoDup_app.
      split; [done|]. split; [|apply NoDup_singleton].
      intros x Hx ->%list_elem_of_singleton. done.
    + left. exists c. rewrite Ho, Ht. do 4 (split; [done|]). split; [|done].
      destruct Ha as (_ & _ & Ha). change (0 <= hd_gold i - ch_require_gold c). fold i in Ha. lia.
  - intros s' Hn Ht Ho. split; [by rewrite Ht|]. by right.
Qed.

Lemma ReqUnlockChapter_correct_witness :
  session_valid demo /\
  (exists s', ReqUnlockChapter 2 demo = Some (tt, s') /\
     NoDup (number_1 <$> hd_records (_info (this s')))) /\
  ((fun r => (hd_gold (_info (this r.2)), map number_1 (hd_records (_info (this r.2)))))
     <$> ReqUnlockChapter 2 demo) = Some (500, [1; 0; 2]).
Proof.
  split; [reflexivity|]. split; [|vm_compute; reflexivity].
  destruct (ReqUnlockChapter_correct 2 demo) as (s' & Hr & Hnd & _); [reflexivity| |].
  - intros c Hc. vm_compute in Hc. injection Hc as <-. unfold is_i32. cbn. lia.
  - exists s'. split; [exact Hr|]. apply Hnd. apply (bool_decide_unpack _). vm_compute. exact I.
Defined.
