(* ===== verification/HeroShop.v ===== *)
(** * gameserver/DreamHero: shops, lottery and the concern gift

    The handlers that spend the hero's gold and jewels ([ReqBuyHero],
    [ReqBuySpirit], [ReqBuyLotion]) and those that hand them out
    ([ReqDayLottery], [ReqConcernWeiXin]). *)
From S2P Require Import Prelude StdMap Data Text Calendar Config Record Rank Promotion Names Server HeroTask.

(** ** Buying a hero *)

(** [records] contain the required section of the required chapter. *)
Definition section_passed (c : MsgShopConfigInfo) (records : list MsgIntPair) : bool :=
  existsb (fun p => (number_1 p =? sh_require_chapter_id c)
                    && (sh_require_section_id c <=? number_2 p)) records.

(** The flags of the heroes, extended so that the bought grid exists. *)
Definition grow_heroes (grid : Z) (heroes : list bool) : list bool :=
  let heroes_length := Z.of_nat (length heroes) in
  if heroes_length <=? grid +ᵢ 1
  then heroes ++ replicate (Z.to_nat (grid + 1 - heroes_length + 1)) false
  else heroes.

(** [set_heroes(i, true)]: out of range is undefined. *)
Definition set_hero (grid : Z) : M HS unit :=
  let* info := get_info in
  if (grid <? 0) || (Z.of_nat (length (hd_heroes info)) <=? grid) then ub
  else on_info (set_hd_heroes (<[Z.to_nat grid := true]> (hd_heroes info))).

Definition hero_price (c : MsgShopConfigInfo) (cheap_gold : Z) : Z :=
  let current_require_gold := sh_require_gold c -ᵢ cheap_gold in
  if current_require_gold <? 0 then 0 else current_require_gold.

(** The checks before the purchase, in the order of the code; [Some price] lets
    the purchase go ahead. *)
Definition buy_hero_check (grid gold : Z) (cfg : GameConfig) (prom : ShopSalesPromotionManager)
    (info : MsgHeroData) : GameError * Z :=
  match getShopConfig cfg grid with
  | None => (Error_BuyHeroFailedNotFoundGrid, 0)
  | Some buy_grid_config =>
      if negb (sh_require_chapter_id buy_grid_config =? 0)
         && negb (sh_require_section_id buy_grid_config =? 0)
         && negb (section_passed buy_grid_config (hd_records info))
      then (Error_BuyHeroFailedNotPassRequiredSection, 0)
      else
        let current_require_gold := hero_price buy_grid_config (getCheapGold grid prom) in
        if negb (current_require_gold =? gold) then (Error_BuyHeroFailedThePriceIsOld, 0)
        else
          let modify_gold := hd_gold info -ᵢ current_require_gold in
          if modify_gold <? 0 then (Error_BuyHeroFailedNotEnoughGold, 0)
          else (Error_NO, modify_gold)
  end.

Definition ReqBuyHero (grid gold : Z) : M HS unit :=
  let* info := get_info in
  let* cfg := get_config in
  let* prom := gets (fun s => gShopSalesPromotionManager (srv s)) in
  let current_gold := hd_gold info in
  let en := buy_hero_check grid gold cfg prom info in
  when (err_ok en.1) (
    on_info (set_hd_gold en.2) ;;;
    on_info (fun i => set_hd_heroes (grow_heroes grid (hd_heroes i)) i) ;;;
    set_hero grid ;;;
    let* info := get_info in
    hero_record (fun tz now acc name =>
      buyHeroRecord tz now acc name grid (current_gold -ᵢ hd_gold info) (hd_gold info))) ;;;
  let* info := get_info in
  sendPBMessage (MsgS2CBuyHeroACK en.1 grid (hd_gold info)).

(** ** Buying spirit *)
Definition ReqBuySpirit (index : Z) : M HS unit :=
  let* info := get_info in
  let* cfg := get_config in
  let* g := get_global in
  let* now := get_time_now in
  let day_buy_spirit := hd_day_buy_spirit info in
  let* error :=
    (if day_buy_spirit >=? config_day_buy_spirit_ g then ret Error_BuySpiritFailedCanNotBuyMoreSpirit
     else
       match getSpiritShop cfg index with
       | Some config_info =>
           let need_jewel := ss_need_jewel config_info in
           let spirit_config := ss_spirit config_info in
           if need_jewel <=? hd_jewel info then
             let jewel := hd_jewel info -ᵢ need_jewel in
             let spirit := hd_spirit info +ᵢ spirit_config in
             on_info (fun i => set_hd_spirit spirit (set_hd_jewel jewel i)) ;;;
             hero_record (fun tz now acc name =>
               buySpiritRecord tz now acc name spirit_config day_buy_spirit spirit need_jewel jewel) ;;;
             on_info (fun i => set_hd_day_buy_spirit (hd_day_buy_spirit i +ᵢ 1) i) ;;;
             on_hero (set__last_buy_spirit_time (u32 now)) ;;;
             ret Error_NO
           else ret Error_BuySpiritFailedNotEnoughJewel
       | None => ret Error_BuySpiritFailedNotFoundConfig
       end) in
  let* info := get_info in
  sendPBMessage (MsgS2CBuySpiritACK error index (hd_jewel info) (hd_spirit info)).

(** ** Lotions *)

(** The payment: other values of the use type charge nothing. *)
Definition pay_lotion (c : MsgLotionShopConfigInfo) (info : MsgHeroData) : GameError * MsgHeroData :=
  if ls_use_type c =? LotionUseType_jewel then
    if hd_jewel info <? ls_use_count c then (Error_FailedToBuyLotionNotEnoughJewel, info)
    else (Error_NO, set_hd_jewel (hd_jewel info -ᵢ ls_use_count c) info)
  else if ls_use_type c =? LotionUseType_gold then
    if hd_gold info <? ls_use_count c then (Error_FailedToBuyLotionNotEnoughGold, info)
    else (Error_NO, set_hd_gold (hd_gold info -ᵢ ls_use_count c) info)
  else (Error_NO, info).

Definition buy_lotion (lotion_id : Z) (cfg : GameConfig) (info : MsgHeroData) : GameError * MsgHeroData :=
  if (lotion_id >=? 0) && (lotion_id <=? 3) then
    match getLotionShop cfg lotion_id with
    | Some shop_config =>
        if existsb (fun l => l =? lotion_id) (hd_lotions info)
        then (Error_FailedToBuyLotionAlreadyHaveLotion, info)
        else
          let r := pay_lotion shop_config info in
          if err_ok r.1 then (Error_NO, set_hd_lotions (hd_lotions r.2 ++ [lotion_id]) r.2) else r
    | None => (Error_FailedToBuyNotFoundThisLotion, info)
    end
  else (Error_FailedToBuyNotFoundThisLotion, info).

Definition ReqBuyLotion (lotion_id : Z) : M HS unit :=
  let* info := get_info in
  let* cfg := get_config in
  let r := buy_lotion lotion_id cfg info in
  on_info (fun _ => r.2) ;;;
  let* info := get_info in
  sendPBMessage (MsgS2CBuyLotionACK r.1 lotion_id (hd_gold info) (hd_jewel info)).

(** ** The daily lottery *)

(** The boxes in the draw: no lotion the hero already has. *)
Definition lottery_boxes (configs : list LotteryDrawBoxConfig) (lotions : list Z) :
    list LotteryDrawBoxConfig :=
  List.filter (fun b => if lottery_type_ b =? Lottery_Lotion
                        then negb (existsb (fun l => sub_index_ b =? l) lotions) else true) configs.

(** [map_random_lottery] and the sum of the ratings. *)
Fixpoint lottery_map (boxes : list LotteryDrawBoxConfig) (rating : Z)
    (m : list (Z * LotteryDrawBoxConfig)) : list (Z * LotteryDrawBoxConfig) * Z :=
  match boxes with
  | [] => (m, rating)
  | entry :: boxes' => lottery_map boxes' (rating +ᵢ rating_ entry) (mput rating entry m)
  end.

(** The walk to the last key that is not above the drawn value. *)
Fixpoint lottery_pick (m : list (Z * LotteryDrawBoxConfig)) (current_rating : Z)
    (entry : LotteryDrawBoxConfig) : LotteryDrawBoxConfig :=
  match m with
  | [] => entry
  | (k, v) :: m' => if k >? current_rating then entry else lottery_pick m' current_rating v
  end.

(** What the reply of a lottery tells. *)
Record LotteryReply := mkLotteryReply {
  lr_error : GameError;
  lr_type : Z;
  lr_index : Z;
  lr_count : Z;
  lr_lotions : list Z;
  lr_gold : Z;
  lr_jewel : Z
}.
Definition lottery_refused (e : GameError) (i : MsgHeroData) : LotteryReply :=
  mkLotteryReply e Lottery_Jewel 0 0 (hd_lotions i) (hd_gold i) (hd_jewel i).

(** The prize of the drawn box. *)
Definition lottery_prize (entry : LotteryDrawBoxConfig) (i : MsgHeroData) : M HS LotteryReply :=
  let reply := mkLotteryReply Error_NO (lottery_type_ entry) in
  let record jewel gold lotion :=
    let* i := get_info in
    hero_record (fun tz now acc name =>
      dailyLotteryRecord tz now acc name jewel (hd_jewel i) gold (hd_gold i) lotion) in
  if lottery_type_ entry =? Lottery_Lotion then
    if (sub_index_ entry >=? 0) && (sub_index_ entry <=? 3) then
      on_info (fun i => set_hd_lotions (hd_lotions i ++ [sub_index_ entry]) i) ;;;
      record 0 0 (sub_index_ entry) ;;;
      ret (reply (sub_index_ entry) 0 (hd_lotions i ++ [sub_index_ entry]) (hd_gold i) (hd_jewel i))
    else
      record 0 0 (-1) ;;;
      ret (mkLotteryReply Error_FailedToLotteryErrorLotionConfig (lottery_type_ entry) 0 0
             (hd_lotions i) (hd_gold i) (hd_jewel i))
  else
    let* random_count :=
      (if random_count_ entry >? 0 then let* r := rand in ret (Z.rem r (random_count_ entry))
       else ret 0) in
    let add_count := base_count_ entry +ᵢ random_count in
    if negb (add_count =? 0) && (lottery_type_ entry =? Lottery_Gold) then
      let gold := hd_gold i +ᵢ add_count in
      on_info (set_hd_gold gold) ;;;
      record 0 add_count (-1) ;;;
      ret (reply 0 add_count (hd_lotions i) gold (hd_jewel i))
    else if negb (add_count =? 0) && (lottery_type_ entry =? Lottery_Jewel) then
      let jewel := hd_jewel i +ᵢ add_count in
      on_info (set_hd_jewel jewel) ;;;
      record add_count 0 (-1) ;;;
      ret (reply 0 add_count (hd_lotions i) (hd_gold i) jewel)
    else
      record 0 0 (-1) ;;;
      ret (reply 0 add_count (hd_lotions i) (hd_gold i) (hd_jewel i)).

Definition lottery_draw : M HS LotteryReply :=
  let* i := get_info in
  let* cfg := get_config in
  let* now := get_time_now in
  match lottery_boxes (getLotteryDrawBoxs cfg) (hd_lotions i) with
  | [] => ret (lottery_refused Error_FailedToLotteryNothingCanBeLotteried i)
  | first :: rest =>
      let '(map_random_lottery, rating) := lottery_map (first :: rest) 0 [] in
      if rating >? 0 then
        on_hero (set__last_day_lottery_time (u32 now)) ;;;
        let* r := rand in
        let entry := lottery_pick map_random_lottery (Z.rem r rating) first in
        lottery_prize entry i
      else ret (lottery_refused Error_FailedToLotteryErrorRating i)
  end.

Definition ReqDayLottery : M HS unit :=
  let* h := get_hero in
  let* today := in_today (_last_day_lottery_time h) in
  let* r :=
    (if negb today then lottery_draw
     else ret (lottery_refused Error_FailedToLotteryTodayHaveBeenLotteried (_info h))) in
  let* h := get_hero in
  sendPBMessage (MsgS2CDayLotteryACK (lr_error r) (lr_type r) (lr_index r) (lr_count r) (lr_lotions r)
    (lr_gold r) (lr_jewel r) (_last_day_lottery_time h)).

(** ** The concern gift *)
Definition concern_check (cd_key : string) (cfg : GameConfig) (info : MsgHeroData) : GameError :=
  if negb (isConcernWeiXin cfg) then Error_FailedToConcernWeiXinErrorCanNotConcernWeiXin
  else if hd_concern_weixin info then Error_FailedToConcernWeiXinHaveBeenConcernedWeiXin
  else if String.eqb (config_weixin_cd_key (getGlobalConfig cfg)) cd_key then Error_NO
  else Error_FailedToConcernWeiXinErrorCdkey.

Definition ReqConcernWeiXin (cd_key : string) : M HS unit :=
  let* info := get_info in
  let* cfg := get_config in
  let* g := get_global in
  let error := concern_check cd_key cfg info in
  let add_gold := if err_ok error then config_weixin_gold g else 0 in
  when (err_ok error) (
    on_info (set_hd_concern_weixin true) ;;;
    let gold := hd_gold info +ᵢ add_gold in
    on_info (set_hd_gold gold) ;;;
    hero_record (fun tz now acc name =>
      goldModifyRecord tz now acc name add_gold gold GoldModify_DailyConcernWeiXin)) ;;;
  let* info := get_info in
  sendPBMessage (MsgS2CConcernWeiXinACK error add_gold (hd_gold info)).

Definition ResetWeiXin : M HS unit := on_info (set_hd_concern_weixin false).

(** [ReqGoldShopConfigs]: no answer for a channel without a shop. *)
Definition ReqGoldShopConfigs : M HS unit :=
  let* h := get_hero in
  let* cfg := get_config in
  let* prom := gets (fun s => gShopSalesPromotionManager (srv s)) in
  match getGoldShopConfigInfos cfg (_channel h) with
  | Some infos =>
      sendPBMessage (MsgS2CGoldShopConfigsACK (map (fun kv => gold_info_ kv.2) infos)
        (getGoldRechargeRatting prom) (getJewelRechargeRatting prom))
  | None => ret tt
  end.

(** ** The weighted draw *)

Definition weight (boxes : list LotteryDrawBoxConfig) : Z := zsum (map rating_ boxes).

Lemma weight_cons b l : weight (b :: l) = rating_ b + weight l.
Proof. done. Qed.
Lemma weight_app l1 l2 : weight (l1 ++ l2) = weight l1 + weight l2.
Proof. unfold weight. by rewrite map_app, zsum_app. Qed.
Lemma weight_nonneg l : Forall (fun b => 0 <= rating_ b) l -> 0 <= weight l.
Proof. induction 1 as [|b l Hb _ IH]; [done|]. rewrite weight_cons. lia. Qed.

(** Keys above the drawn value do not matter, and a key that is the largest
    one up to it decides. *)
Lemma pick_put_above m k v r : k > r -> forall e, lottery_pick (mput k v m) r e = lottery_pick m r e.
Proof.
  intros Hk. induction m as [|[k' v'] m IH]; intros e; cbn.
  - by rewrite (proj2 (Z.gtb_lt k r)) by lia.
  - destruct (Z.ltb_spec k k'); cbn.
    { rewrite (proj2 (Z.gtb_lt k r)), (proj2 (Z.gtb_lt k' r)) by lia. done. }
    destruct (Z.ltb_spec k' k); cbn.
    + destruct (k' >? r); [done|apply IH].
    + replace k' with k by lia. by rewrite (proj2 (Z.gtb_lt k r)) by lia.
Qed.

Lemma pick_put_last m k v r : (forall x, x ∈ m.*1 -> x <= k) -> k <= r ->
  msorted m -> forall e, lottery_pick (mput k v m) r e = v.
Proof.
  intros Hkeys Hk. induction m as [|[k' v'] m IH]; intros Hs e; cbn.
  - rewrite Z.gtb_ltb. by rewrite (proj2 (Z.ltb_ge r k)) by lia.
  - assert (Hk' : k' <= k) by (apply Hkeys; by left).
    rewrite (proj2 (Z.ltb_ge k k')) by lia. inversion Hs as [|? ? Hs' Hall]; subst.
    destruct (Z.ltb_spec k' k); cbn.
    + rewrite Z.gtb_ltb, (proj2 (Z.ltb_ge r k')) by lia. apply IH; [|done].
      intros x Hx. apply Hkeys. by right.
    + rewrite Z.gtb_ltb, (proj2 (Z.ltb_ge r k')) by lia.
      destruct m as [|[k2 v2] m]; [done|]. exfalso.
      apply Forall_cons in Hall as [H2 _]. apply Z.ltb_lt in H2. cbn in H2.
      assert (k2 <= k) by (apply Hkeys; right; by left). lia.
Qed.

Lemma lottery_map_above boxes : forall rating m r e,
  Forall (fun b => 0 <= rating_ b) boxes -> r < rating -> rating + weight boxes < 2^31 -> 0 <= r ->
  lottery_pick (lottery_map boxes rating m).1 r e = lottery_pick m r e.
Proof.
  induction boxes as [|b l IH]; intros rating m r e Hp Hr Hw H0; [done|]. cbn [lottery_map].
  apply Forall_cons in Hp as [Hb Hp]. rewrite weight_cons in Hw. pose proof (weight_nonneg l Hp).
  rewrite i32_id by (unfold is_i32; lia). rewrite IH; [|done|lia|lia|lia].
  apply pick_put_above. lia.
Qed.

Lemma lottery_map_total boxes : forall rating m,
  Forall (fun b => 0 <= rating_ b) boxes -> 0 <= rating -> rating + weight boxes < 2^31 ->
  (lottery_map boxes rating m).2 = rating + weight boxes.
Proof.
  induction boxes as [|b l IH]; intros rating m Hp H0 Hw; cbn [lottery_map].
  - cbn. lia.
  - apply Forall_cons in Hp as [Hb Hp]. rewrite weight_cons in *. pose proof (weight_nonneg l Hp).
    rewrite i32_id by (unfold is_i32; lia). rewrite IH by (try done; lia). lia.
Qed.

Lemma lottery_map_pick pre b post : forall rating m r e,
  Forall (fun b => 0 <= rating_ b) (pre ++ b :: post) -> 0 <= rating ->
  rating + weight (pre ++ b :: post) < 2^31 ->
  msorted m -> (forall x, x ∈ m.*1 -> x <= rating) ->
  rating + weight pre <= r < rating + weight pre + rating_ b ->
  lottery_pick (lottery_map (pre ++ b :: post) rating m).1 r e = b.
Proof.
  induction pre as [|c pre IH]; intros rating m r e Hp H0 Hw Hs Hk Hr.
  - cbn [app lottery_map]. cbn [app] in Hp, Hw. change (weight []) with 0 in Hr.
    rewrite weight_cons in Hw. apply Forall_cons in Hp as [Hb Hp]. pose proof (weight_nonneg post Hp).
    rewrite i32_id by (unfold is_i32; lia).
    rewrite lottery_map_above; [|done|lia|lia|lia]. apply pick_put_last; [done|lia|done].
  - cbn [app lottery_map] in *. rewrite weight_cons in Hw, Hr. apply Forall_cons in Hp as [Hc Hp].
    pose proof (weight_nonneg _ Hp). rewrite i32_id by (unfold is_i32; lia).
    apply IH; [done|lia|lia|by apply mput_sorted| |lia].
    intros x Hx. apply mput_keys in Hx as [->|Hx]; [lia|]. specialize (Hk x Hx). lia.
Qed.

(** Every value below the sum of the ratings falls to exactly one box. *)
Lemma weight_split boxes : forall r,
  Forall (fun b => 0 <= rating_ b) boxes -> 0 <= r < weight boxes ->
  exists pre b post, boxes = pre ++ b :: post /\ weight pre <= r < weight pre + rating_ b.
Proof.
  induction boxes as [|b l IH]; intros r Hp Hr; [cbn in Hr; lia|]. rewrite weight_cons in Hr.
  apply Forall_cons in Hp as [Hb Hp]. destruct (Z.lt_ge_cases r (rating_ b)).
  - exists [], b, l. split; [done|]. cbn. lia.
  - destruct (IH (r - rating_ b) Hp) as (pre & c & post & -> & Hc); [lia|].
    exists (b :: pre), c, post. split; [done|]. rewrite weight_cons. lia.
Qed.

(** ** What the lottery gives *)

(** The amount of a gold or jewel box, for the next value [v] of [rand]. *)
Definition prize_count (b : LotteryDrawBoxConfig) (v : Z) : Z :=
  base_count_ b +ᵢ (if random_count_ b >? 0 then v mod random_count_ b else 0).

Definition prize_info (b : LotteryDrawBoxConfig) (v : Z) (i : MsgHeroData) : MsgHeroData :=
  if lottery_type_ b =? Lottery_Lotion then
    if (0 <=? sub_index_ b) && (sub_index_ b <=? 3)
    then set_hd_lotions (hd_lotions i ++ [sub_index_ b]) i else i
  else if prize_count b v =? 0 then i
  else if lottery_type_ b =? Lottery_Gold then set_hd_gold (hd_gold i +ᵢ prize_count b v) i
  else if lottery_type_ b =? Lottery_Jewel then set_hd_jewel (hd_jewel i +ᵢ prize_count b v) i
  else i.

Lemma set_rand_pos_same s : set_rand_pos (rand_pos s) s = s.
Proof. by destruct s. Qed.

(** The reply shows the hero data it leaves. *)
Definition reply_shows (r : LotteryReply) (i : MsgHeroData) : Prop :=
  lr_lotions r = hd_lotions i /\ lr_gold r = hd_gold i /\ lr_jewel r = hd_jewel i.

Lemma wp_lottery_prize b s (Q : LotteryReply -> HS -> Prop) :
  let i := _info (this s) in
  let i' := prize_info b (Z.of_N (rand_stream (srv s) (rand_pos (srv s)))) i in
  (forall rep rec n, reply_shows rep i' ->
     Q rep (mkHS (set__info i' (this s)) (set_gRecordManager rec (set_rand_pos n (srv s))))) ->
  wp (lottery_prize b i) Q s.
Proof.
  intros i i' HQ.
  assert (HQ0 : i' = i -> forall rep rec n, reply_shows rep i ->
     Q rep (mkHS (this s) (set_gRecordManager rec (set_rand_pos n (srv s))))).
  { intros Heq rep rec n Hrep. rewrite Heq in HQ. specialize (HQ rep rec n Hrep).
    unfold i in HQ. by rewrite set_info_same in HQ. }
  unfold i', prize_info in HQ, HQ0. unfold lottery_prize, prize_count in *.
  rewrite Z.geb_leb. destruct (lottery_type_ b =? Lottery_Lotion).
  { destruct (_ && _).
    - hs_run. specialize (HQ (mkLotteryReply Error_NO (lottery_type_ b) (sub_index_ b) 0
        (hd_lotions i ++ [sub_index_ b]) (hd_gold i) (hd_jewel i)) r (rand_pos (srv s)) (conj eq_refl (conj eq_refl eq_refl))).
      by rewrite set_rand_pos_same in HQ.
    - hs_run. specialize (HQ0 eq_refl (mkLotteryReply Error_FailedToLotteryErrorLotionConfig (lottery_type_ b) 0 0
        (hd_lotions i) (hd_gold i) (hd_jewel i)) r (rand_pos (srv s)) (conj eq_refl (conj eq_refl eq_refl))).
      by rewrite set_rand_pos_same in HQ0. }
  apply wp_bind. eapply (wp_mono _ (fun c s' => exists n,
    c = (if random_count_ b >? 0 then Z.of_N (rand_stream (srv s) (rand_pos (srv s))) mod random_count_ b else 0) /\
    s' = mkHS (this s) (set_rand_pos n (srv s)))).
  { hs_run.
    - apply wp_rand. intros v Hv ->. hs_run. exists (S (rand_pos (srv s))). split; [|done].
      rewrite Hc. apply Z.gtb_lt in Hc. by apply Z.rem_mod_nonneg.
    - exists (rand_pos (srv s)). rewrite Hc. split; [done|]. rewrite set_rand_pos_same. by destruct s. }
  intros c s' (n & -> & ->). cbv zeta.
  destruct (_ +ᵢ _ =? 0) eqn:E; cbn [negb andb] in *.
  { hs_run. by apply HQ0. }
  destruct (lottery_type_ b =? Lottery_Gold); [hs_run; by apply HQ|].
  destruct (lottery_type_ b =? Lottery_Jewel); hs_run; [by apply HQ|by apply HQ0].
Qed.

(** Lotions are distinct and known. *)
Definition lotions_inv (l : list Z) : Prop := NoDup l /\ Forall (fun x => 0 <= x <= 3) l.

Lemma lotions_inv_add x l : lotions_inv l -> 0 <= x <= 3 -> x ∉ l -> lotions_inv (l ++ [x]).
Proof.
  intros [Hnd Hall] Hx Hin. split.
  - apply NoDup_app. split; [done|]. split; [|apply NoDup_singleton].
    intros y Hy ->%list_elem_of_singleton. done.
  - apply Forall_app. split; [done|]. by apply Forall_singleton.
Qed.

Lemma prize_lotions configs i b v :
  b ∈ lottery_boxes configs (hd_lotions i) -> lotions_inv (hd_lotions i) ->
  lotions_inv (hd_lotions (prize_info b v i)).
Proof.
  intros Hb Hi. unfold prize_info. apply list_elem_of_In, filter_In in Hb as [_ Hb].
  destruct (lottery_type_ b =? Lottery_Lotion).
  - destruct (_ && _) eqn:E; [|done]. to_prop. cbn. apply lotions_inv_add; [done|lia|].
    intros Hin. apply not_true_iff_false in Hb. apply Hb, existsb_exists.
    exists (sub_index_ b). split; [by apply list_elem_of_In|by apply Z.eqb_eq].
  - repeat case_match; done.
Qed.

Lemma lottery_boxes_weight configs lotions :
  Forall (fun b => 0 <= rating_ b) configs ->
  Forall (fun b => 0 <= rating_ b) (lottery_boxes configs lotions) /\
  weight (lottery_boxes configs lotions) <= weight configs.
Proof.
  induction 1 as [|b l Hb Hl [IH1 IH2]]; [done|]. unfold lottery_boxes in *. cbn [List.filter].
  rewrite weight_cons. destruct (if _ =? _ then _ else true).
  - rewrite weight_cons. split; [by constructor|lia].
  - split; [done|lia].
Qed.

(** The hero after a draw: [b] is the drawn box, [v] the value of [rand] its
    amount is computed from. *)
Definition drawn (b : LotteryDrawBoxConfig) (v now : Z) (h : DreamHero) : DreamHero :=
  set__info (prize_info b v (_info h)) (set__last_day_lottery_time (u32 now) h).

Lemma wp_lottery_draw s (Q : LotteryReply -> HS -> Prop) :
  let i := _info (this s) in
  let boxes := lottery_boxes (_lottery_draw_configs (gGameConfig (srv s))) (hd_lotions i) in
  let rnd k := Z.of_N (rand_stream (srv s) (k + rand_pos (srv s))%nat) in
  Forall (fun b => 0 <= rating_ b) boxes -> weight boxes < 2^31 ->
  (weight boxes = 0 -> forall rep, reply_shows rep i -> lr_error rep <> Error_NO -> Q rep s) ->
  (forall pre b post rep rec n, boxes = pre ++ b :: post ->
     weight pre <= rnd 0%nat mod weight boxes < weight pre + rating_ b ->
     let h' := drawn b (rnd 1%nat) (g_server_time (srv s)) (this s) in
     reply_shows rep (_info h') ->
     Q rep (mkHS h' (set_gRecordManager rec (set_rand_pos n (srv s))))) ->
  wp lottery_draw Q s.
Proof.
  intros i boxes rnd Hp Hw Hnone Hdraw. unfold lottery_draw.
  apply wp_bind, wp_gets, wp_bind, wp_gets, wp_bind, wp_gets.
  change (getLotteryDrawBoxs (gGameConfig (srv s))) with (_lottery_draw_configs (gGameConfig (srv s))).
  fold i. fold boxes. destruct boxes as [|first rest].
  { apply wp_ret. by apply Hnone. }
  pose proof (lottery_map_total (first :: rest) 0 [] Hp ltac:(lia) ltac:(lia)) as Ht.
  assert (Hpick : forall pre b post r, first :: rest = pre ++ b :: post ->
    weight pre <= r < weight pre + rating_ b ->
    lottery_pick (lottery_map (first :: rest) 0 []).1 r first = b).
  { intros pre b post r Heq Hr. rewrite Heq in *.
    apply lottery_map_pick; [done|lia|lia|constructor|by intros x Hx%elem_of_nil|lia]. }
  destruct (lottery_map _ _ _) as [m rating] eqn:Em. cbn [snd] in Ht. subst rating.
  pose proof (weight_nonneg _ Hp) as H0. apply wp_if; intros Hc; apply Z.gtb_lt in Hc || rewrite Z.gtb_ltb, Z.ltb_ge in Hc.
  2: { apply wp_ret. apply Hnone; [lia|done|done]. }
  apply wp_bind, wp_on_hero, wp_bind, wp_rand. intros v Hv Hveq. cbn [srv this] in *.
  rewrite Z.rem_mod_nonneg by lia.
  destruct (weight_split (first :: rest) (v mod weight (first :: rest)) Hp) as (pre & b & post & Heq & Hr).
  { by apply Z.mod_pos_bound. }
  specialize (Hpick pre b post (v mod weight (first :: rest)) Heq Hr). cbn [fst] in Hpick.
  rewrite Z.add_0_l, Hpick.
  match goal with |- wp _ _ ?st => apply (wp_lottery_prize b st) end. intros rep rec n Hrep.
  specialize (Hdraw pre b post rep rec n Heq). subst v. exact (Hdraw Hr Hrep).
Qed.

Definition lottery_today (s : HS) : bool :=
  GameConfig_isInToday (timezone (srv s)) (g_server_time (srv s))
    (day_Refresh_time_ (getGlobalConfig (gGameConfig (srv s)))) (_last_day_lottery_time (this s)).

(** C17: the daily lottery is a fair weighted draw.  When today's draw is still
    open, the box at any position of the list of boxes (without lotions the
    hero owns) is drawn for exactly as many of the values below the sum of the
    ratings as its rating says; the hero gets that box's prize and the draw is
    stamped.  Otherwise nothing changes.  The hero's lotions stay distinct and
    known, and the client is shown the hero data that results. *)
Theorem ReqDayLottery_correct s :
  let i := _info (this s) in
  let configs := _lottery_draw_configs (gGameConfig (srv s)) in
  let boxes := lottery_boxes configs (hd_lotions i) in
  let rnd k := Z.of_N (rand_stream (srv s) (k + rand_pos (srv s))%nat) in
  session_valid s -> Forall (fun b => 0 <= rating_ b) configs -> weight configs < 2^31 ->
  exists s' rep, ReqDayLottery s = Some (tt, s') /\
    out (srv s') = out (srv s) ++ delivery s (MsgS2CDayLotteryACK (lr_error rep) (lr_type rep)
      (lr_index rep) (lr_count rep) (lr_lotions rep) (lr_gold rep) (lr_jewel rep)
      (_last_day_lottery_time (this s'))) /\
    reply_shows rep (_info (this s')) /\
    (lotions_inv (hd_lotions i) -> lotions_inv (hd_lotions (_info (this s')))) /\
    if lottery_today s || (weight boxes =? 0) then this s' = this s /\ lr_error rep <> Error_NO
    else exists pre b post, boxes = pre ++ b :: post /\
      weight pre <= rnd 0%nat mod weight boxes < weight pre + rating_ b /\
      this s' = drawn b (rnd 1%nat) (g_server_time (srv s)) (this s).
Proof.
  intros i configs boxes rnd Hs Hp Hw. destruct (lottery_boxes_weight configs (hd_lotions i) Hp) as [Hp' Hle].
  fold boxes in Hp', Hle. pose proof (weight_nonneg _ Hp').
  assert (Hwp : wp ReqDayLottery (fun _ s' => exists rep,
    out (srv s') = out (srv s) ++ delivery s (MsgS2CDayLotteryACK (lr_error rep) (lr_type rep)
      (lr_index rep) (lr_count rep) (lr_lotions rep) (lr_gold rep) (lr_jewel rep)
      (_last_day_lottery_time (this s'))) /\
    reply_shows rep (_info (this s')) /\
    (lotions_inv (hd_lotions i) -> lotions_inv (hd_lotions (_info (this s')))) /\
    if lottery_today s || (weight boxes =? 0) then this s' = this s /\ lr_error rep <> Error_NO
    else exists pre b post, boxes = pre ++ b :: post /\
      weight pre <= rnd 0%nat mod weight boxes < weight pre + rating_ b /\
      this s' = drawn b (rnd 1%nat) (g_server_time (srv s)) (this s)) s).
  { unfold ReqDayLottery. apply wp_bind, wp_gets, wp_bind, wp_gets. fold (lottery_today s).
    destruct (lottery_today s); cbn [negb orb].
    { hs_run; [done|]. by exists (lottery_refused Error_FailedToLotteryTodayHaveBeenLotteried i). }
    apply wp_bind. apply wp_lottery_draw; fold i configs boxes; [done|lia| |].
    - intros Hz rep Hrep He. rewrite Hz. hs_run; [done|]. by exists rep.
    - intros pre b post rep rec n Heq Hr. cbv zeta. intros Hrep. hs_run; [done|]. exists rep.
      split; [done|]. split; [done|]. split.
      + cbn. apply (prize_lotions configs). change (b ∈ boxes). rewrite Heq. apply elem_of_app. right. by left.
      + destruct (Z.eqb_spec (weight boxes) 0); [|by exists pre, b, post].
        exfalso. rewrite Heq in *. rewrite Forall_app, Forall_cons in Hp'. destruct Hp' as (H1 & H2 & H3).
        pose proof (weight_nonneg _ H1). pose proof (weight_nonneg _ H3).
        rewrite weight_app, weight_cons in *. lia. }
  apply wp_unit in Hwp as (s' & Hr & rep & H'). exists s', rep. by split.
Qed.

Lemma ReqDayLottery_correct_witness :
  session_valid demo /\ weight (_lottery_draw_configs demo_config) = 10 /\
  (exists s', ReqDayLottery demo = Some (tt, s') /\
     (lotions_inv [] -> lotions_inv (hd_lotions (_info (this s'))))) /\
  ((fun r => hd_gold (_info (this r.2))) <$> ReqDayLottery demo) = Some 1011.
Proof.
  split; [reflexivity|]. split; [reflexivity|]. split; [|vm_compute; reflexivity].
  destruct (ReqDayLottery_correct demo) as (s' & rep & Hr & _ & _ & Hl & _); [reflexivity| |vm_compute; reflexivity|].
  - repeat constructor; cbn; lia.
  - exists s'. split; [exact Hr|exact Hl].
Defined.

(** ** Purchases *)

(** Whether the hero of a grid is owned. *)
Definition owned (heroes : list bool) (k : nat) : bool := from_option id false (heroes !! k).

Lemma owned_grow grid heroes k : owned (grow_heroes grid heroes) k = owned heroes k.
Proof.
  unfold grow_heroes. destruct (_ <=? _); [|done]. unfold owned.
  destruct (decide (k < length heroes)%nat) as [H|H].
  - by rewrite lookup_app_l.
  - rewrite lookup_app_r by lia. rewrite (lookup_ge_None_2 heroes) by lia. cbn.
    destruct (replicate _ false !! _) as [b|] eqn:E; [|done].
    by apply lookup_replicate in E as [-> _].
Qed.

Lemma grow_heroes_length grid heroes : 0 <= grid < 2^31 - 1 ->
  grid < Z.of_nat (length (grow_heroes grid heroes)).
Proof.
  intros Hg. unfold grow_heroes. rewrite i32_id by (unfold is_i32; lia).
  destruct (Z.leb_spec (Z.of_nat (length heroes)) (grid + 1)); [|lia].
  rewrite length_app, length_replicate. lia.
Qed.

(** What a hero costs in the reading of the shop: the section passed, the price
    shown to the client still valid, and the gold there. *)
Definition hero_sold (c : MsgShopConfigInfo) (price gold : Z) (i : MsgHeroData) : Prop :=
  (sh_require_chapter_id c = 0 \/ sh_require_section_id c = 0 \/
   exists p, p ∈ hd_records i /\ number_1 p = sh_require_chapter_id c /\
     sh_require_section_id c <= number_2 p) /\
  price = gold /\ price <= hd_gold i.

Lemma section_passed_spec c records : section_passed c records = true <->
  exists p, p ∈ records /\ number_1 p = sh_require_chapter_id c /\ sh_require_section_id c <= number_2 p.
Proof.
  unfold section_passed. rewrite existsb_exists. split; intros (p & H1 & H2); exists p.
  - apply list_elem_of_In in H1. to_prop. done.
  - destruct H2. split; [by apply list_elem_of_In|]. apply andb_true_intro.
    split; [by apply Z.eqb_eq|by apply Z.leb_le].
Qed.

Lemma buy_hero_check_spec grid gold cfg prom i :
  match getShopConfig cfg grid with
  | None => buy_hero_check grid gold cfg prom i = (Error_BuyHeroFailedNotFoundGrid, 0)
  | Some c => let price := hero_price c (getCheapGold grid prom) in
      is_i32 (hd_gold i - price) ->
      (hero_sold c price gold i /\ buy_hero_check grid gold cfg prom i = (Error_NO, hd_gold i - price)) \/
      (~ hero_sold c price gold i /\ exists e, buy_hero_check grid gold cfg prom i = (e, 0) /\ err_ok e = false)
  end.
Proof.
  unfold buy_hero_check. destruct (getShopConfig cfg grid) as [c|]; [|done]. cbv zeta.
  set (price := hero_price _ _). intros Hi. unfold hero_sold.
  pose proof (section_passed_spec c (hd_records i)) as Hp.
  destruct (Z.eqb_spec (sh_require_chapter_id c) 0) as [Hc|Hc];
    destruct (Z.eqb_spec (sh_require_section_id c) 0) as [Hs|Hs];
    destruct (section_passed c (hd_records i)); cbn [negb andb];
    rewrite ?i32_id by done;
    destruct (Z.eqb_spec price gold); cbn [negb];
    destruct (Z.ltb_spec (hd_gold i - price) 0);
    first [ left; split; [|done]; (split; [first [by left|by right; left|right; right; by apply Hp]|split; [done|lia]])
          | right; split; [|by eexists];
            first [intros (_ & _ & ?); lia | intros (_ & ? & _); done
                  | intros ([?|[?|Hx]] & _); [done|done|apply Hp in Hx; done]] ].
Qed.

Definition bought (grid price : Z) (i : MsgHeroData) : MsgHeroData :=
  set_hd_heroes (<[Z.to_nat grid := true]> (grow_heroes grid (hd_heroes i)))
    (set_hd_gold (hd_gold i - price) i).

Lemma wp_ReqBuyHero grid gold s (Q : unit -> HS -> Prop) :
  let i := _info (this s) in
  let price c := hero_price c (getCheapGold grid (gShopSalesPromotionManager (srv s))) in
  session_valid s ->
  (forall c, getShopConfig (gGameConfig (srv s)) grid = Some c ->
     0 <= grid < 2^31 - 1 /\ is_i32 (hd_gold i - price c)) ->
  (forall c s', getShopConfig (gGameConfig (srv s)) grid = Some c -> hero_sold c (price c) gold i ->
     this s' = set__info (bought grid (price c) i) (this s) ->
     out (srv s') = out (srv s) ++ delivery s (MsgS2CBuyHeroACK Error_NO grid (hd_gold i - price c)) ->
     Q tt s') ->
  (forall e s', e <> Error_NO ->
     (forall c, getShopConfig (gGameConfig (srv s)) grid = Some c -> ~ hero_sold c (price c) gold i) ->
     this s' = this s ->
     out (srv s') = out (srv s) ++ delivery s (MsgS2CBuyHeroACK e grid (hd_gold i)) -> Q tt s') ->
  wp (ReqBuyHero grid gold) Q s.
Proof.
  intros i price Hs Hg Hok Hbad. unfold ReqBuyHero.
  apply wp_bind, wp_gets, wp_bind, wp_gets, wp_bind, wp_gets. fold i.
  pose proof (buy_hero_check_spec grid gold (gGameConfig (srv s)) (gShopSalesPromotionManager (srv s)) i) as Hc.
  assert (Hbad' : forall e, err_ok e = false ->
     (forall c, getShopConfig (gGameConfig (srv s)) grid = Some c -> ~ hero_sold c (price c) gold i) ->
     wp (sendPBMessage (MsgS2CBuyHeroACK e grid (hd_gold i))) Q s).
  { intros e He Hn. apply wp_send; [done|]. apply (Hbad e); [by intros ->|done|done|done]. }
  destruct (getShopConfig _ grid) as [c|] eqn:Ec.
  - destruct (Hg c eq_refl) as [Hgrid Hi]. destruct (Hc Hi) as [[Ha ->]|(Ha & e & -> & He)]; cbn [fst snd].
    + cbn [err_ok when]. hs_run. unfold set_hero. hs_run; to_prop; try done.
      * apply orb_prop in Hc0. pose proof (grow_heroes_length grid (hd_heroes i) Hgrid) as Hl.
        destruct Hc0 as [Hc0|Hc0]; to_prop; [lia|]. cbn in Hc0. fold i in Hc0. lia.
      * by apply (Hok c).
    + rewrite He. apply wp_bind, wp_ret, wp_bind, wp_gets. apply Hbad'; [done|]. by intros c' [= <-].
  - rewrite Hc. apply wp_bind, wp_ret, wp_bind, wp_gets. by apply Hbad'.
Qed.

(** A hero is sold exactly when the required section is passed, the price the
    client saw is the current one and the gold is there: the price is taken and
    that hero, and no other, becomes owned.  Otherwise nothing changes and an
    error is answered. *)
Theorem ReqBuyHero_correct grid gold s :
  let i := _info (this s) in
  let price c := hero_price c (getCheapGold grid (gShopSalesPromotionManager (srv s))) in
  session_valid s ->
  (forall c, getShopConfig (gGameConfig (srv s)) grid = Some c ->
     0 <= grid < 2^31 - 1 /\ is_i32 (hd_gold i - price c)) ->
  exists s', ReqBuyHero grid gold s = Some (tt, s') /\
    ((exists c, getShopConfig (gGameConfig (srv s)) grid = Some c /\ hero_sold c (price c) gold i /\
        this s' = set__info (bought grid (price c) i) (this s) /\
        0 <= hd_gold (_info (this s')) /\ hd_gold (_info (this s')) = hd_gold i - gold /\
        (forall k, owned (hd_heroes (_info (this s'))) k
           = if decide (k = Z.to_nat grid) then true else owned (hd_heroes i) k) /\
        out (srv s') = out (srv s) ++ delivery s
          (MsgS2CBuyHeroACK Error_NO grid (hd_gold (_info (this s')))))
     \/ ((forall c, getShopConfig (gGameConfig (srv s)) grid = Some c -> ~ hero_sold c (price c) gold i) /\
        this s' = this s /\ exists e, e <> Error_NO /\
        out (srv s') = out (srv s) ++ delivery s (MsgS2CBuyHeroACK e grid (hd_gold i)))).
Proof.
  intros i price Hs Hg. apply wp_unit, wp_ReqBuyHero; [done|done| |].
  - intros c s' Hc Ha Ht Ho. left. exists c. rewrite Ho, Ht. do 3 (split; [done|]).
    destruct Ha as (_ & Hp & Hle). change (price c = gold) in Hp. change (price c <= hd_gold i) in Hle.
    split; [change (0 <= hd_gold i - price c); lia|].
    split; [change (hd_gold i - price c = hd_gold i - gold); lia|]. split; [|done].
    intros k. change (owned (<[Z.to_nat grid := true]> (grow_heroes grid (hd_heroes i))) k
      = if decide (k = Z.to_nat grid) then true else owned (hd_heroes i) k).
    destruct (Hg c Hc) as [Hgrid _]. pose proof (grow_heroes_length grid (hd_heroes i) Hgrid).
    destruct (decide _) as [->|Hne].
    + unfold owned. rewrite list_lookup_insert_eq; [done|lia].
    + rewrite <- (owned_grow grid (hd_heroes i)). unfold owned. by rewrite list_lookup_insert_ne.
  - intros e s' He Hn Ht Ho. right. split; [done|]. split; [done|]. by exists e.
Qed.

Lemma ReqBuyHero_correct_witness :
  session_valid demo /\
  (exists s', ReqBuyHero 6 250 demo = Some (tt, s')) /\
  ((fun r => (hd_gold (_info (this r.2)), hd_heroes (_info (this r.2)))) <$> ReqBuyHero 6 250 demo)
    = Some (650, [true; true; true; false; false; false; true; false]).
Proof.
  split; [reflexivity|]. split; [|vm_compute; reflexivity].
  destruct (ReqBuyHero_correct 6 250 demo) as (s' & Hr & _); [reflexivity| |by exists s'].
  intros c Hc. vm_compute in Hc. injection Hc as <-. unfold is_i32. repeat split; by vm_compute.
Defined.

(** The hero after buying spirit. *)
Definition refilled (c : MsgSpiritShopInfo) (now : Z) (h : DreamHero) : DreamHero :=
  let i := _info h in
  set__last_buy_spirit_time (u32 now)
    (set__info (set_hd_day_buy_spirit (hd_day_buy_spirit i +ᵢ 1)
       (set_hd_spirit (hd_spirit i +ᵢ ss_spirit c) (set_hd_jewel (hd_jewel i -ᵢ ss_need_jewel c) i))) h).

(** spirit is sold for jewels at most [config_day_buy_spirit_] times between
    two daily resets: a purchase needs the jewels and takes them, adds the
    configured spirit, counts and is stamped; anything else is refused without
    a change. *)
Theorem ReqBuySpirit_correct index s :
  let i := _info (this s) in
  let cfg := gGameConfig (srv s) in
  let limit := config_day_buy_spirit_ (getGlobalConfig cfg) in
  session_valid s -> is_i32 limit -> is_i32 (hd_day_buy_spirit i) -> is_i32 (hd_jewel i) ->
  (forall c, getSpiritShop cfg index = Some c -> 0 <= ss_need_jewel c) ->
  exists s' e, ReqBuySpirit index s = Some (tt, s') /\
    out (srv s') = out (srv s) ++ delivery s
      (MsgS2CBuySpiritACK e index (hd_jewel (_info (this s'))) (hd_spirit (_info (this s')))) /\
    (hd_day_buy_spirit i <= limit -> hd_day_buy_spirit (_info (this s')) <= limit) /\
    ((e = Error_NO /\ exists c, getSpiritShop cfg index = Some c /\
        hd_day_buy_spirit i < limit /\ ss_need_jewel c <= hd_jewel i /\
        this s' = refilled c (g_server_time (srv s)) (this s) /\
        hd_jewel (_info (this s')) = hd_jewel i - ss_need_jewel c)
     \/ (e <> Error_NO /\ this s' = this s /\
        (limit <= hd_day_buy_spirit i \/ getSpiritShop cfg index = None \/
         exists c, getSpiritShop cfg index = Some c /\ hd_jewel i < ss_need_jewel c))).
Proof.
  intros i cfg limit Hs Hl Hd Hj Hc0.
  cut (wp (ReqBuySpirit index) (fun _ s' => exists e,
    out (srv s') = out (srv s) ++ delivery s
      (MsgS2CBuySpiritACK e index (hd_jewel (_info (this s'))) (hd_spirit (_info (this s')))) /\
    ((e = Error_NO /\ exists c, getSpiritShop cfg index = Some c /\
        hd_day_buy_spirit i < limit /\ ss_need_jewel c <= hd_jewel i /\
        this s' = refilled c (g_server_time (srv s)) (this s))
     \/ (e <> Error_NO /\ this s' = this s /\
        (limit <= hd_day_buy_spirit i \/ getSpiritShop cfg index = None \/
         exists c, getSpiritShop cfg index = Some c /\ hd_jewel i < ss_need_jewel c)))) s).
  { intros (s' & Hr & e & Ho & H)%wp_unit. exists s', e. do 2 (split; [done|]).
    unfold is_i32 in *. destruct H as [(He & c & Hc & Hlt & Hle & Ht)|(He & Ht & H)].
    - rewrite Ht. pose proof (Hc0 c Hc).
      assert (Hd' : hd_day_buy_spirit i +ᵢ 1 = hd_day_buy_spirit i + 1) by (apply i32_id; unfold is_i32; lia).
      assert (Hj' : hd_jewel i -ᵢ ss_need_jewel c = hd_jewel i - ss_need_jewel c) by (apply i32_id; unfold is_i32; lia).
      split; [change (hd_day_buy_spirit i <= limit -> hd_day_buy_spirit i +ᵢ 1 <= limit); lia|].
      left. split; [done|]. by exists c.
    - rewrite Ht. split; [done|]. right. done. }
  subst limit cfg i. unfold ReqBuySpirit. hs_run; rewrite ?Z.geb_leb in *; to_prop; try done.
  - exists Error_BuySpiritFailedCanNotBuyMoreSpirit. split; [done|]. right. split; [done|]. split; [done|]. by left.
  - exists Error_NO. split; [done|]. left. split; [done|]. by exists m.
  - exists Error_BuySpiritFailedNotEnoughJewel. split; [done|]. right. split; [done|]. split; [done|].
    right; right. by exists m.
  - exists Error_BuySpiritFailedNotFoundConfig. split; [done|]. right. split; [done|]. split; [done|].
    right; by left.
Qed.

Lemma ReqBuySpirit_correct_witness :
  session_valid demo /\
  (exists s' e, ReqBuySpirit 1 demo = Some (tt, s') /\
     (0 <= 5 -> hd_day_buy_spirit (_info (this s')) <= 5) /\
     out (srv s') = delivery demo
       (MsgS2CBuySpiritACK e 1 (hd_jewel (_info (this s'))) (hd_spirit (_info (this s'))))) /\
  ((fun r => (hd_jewel (_info (this r.2)), hd_spirit (_info (this r.2)))) <$> ReqBuySpirit 1 demo)
    = Some (25, 80).
Proof.
  split; [reflexivity|]. split; [|vm_compute; reflexivity].
  destruct (ReqBuySpirit_correct 1 demo) as (s' & e & Hr & Ho & Hd & _);
    [reflexivity|unfold is_i32; cbn; lia|unfold is_i32; cbn; lia|unfold is_i32; cbn; lia| |by exists s', e].
  intros c Hc. vm_compute in Hc. injection Hc as <-. cbn. lia.
Defined.

(** The price of a lotion in gold and in jewels. *)
Definition lotion_price (c : MsgLotionShopConfigInfo) : Z * Z :=
  if ls_use_type c =? LotionUseType_jewel then (0, ls_use_count c)
  else if ls_use_type c =? LotionUseType_gold then (ls_use_count c, 0)
  else (0, 0).

Definition lotion_bought (lotion : Z) (c : MsgLotionShopConfigInfo) (i : MsgHeroData) : MsgHeroData :=
  set_hd_lotions (hd_lotions i ++ [lotion])
    (set_hd_gold (hd_gold i - (lotion_price c).1) (set_hd_jewel (hd_jewel i - (lotion_price c).2) i)).

(** The two sides of a purchase. *)
Definition lotion_sold (lotion : Z) (cfg : GameConfig) (i : MsgHeroData) (c : MsgLotionShopConfigInfo) : Prop :=
  0 <= lotion <= 3 /\ getLotionShop cfg lotion = Some c /\ (lotion ∉ hd_lotions i) /\
  (ls_use_type c = LotionUseType_jewel -> ls_use_count c <= hd_jewel i) /\
  (ls_use_type c = LotionUseType_gold -> ls_use_count c <= hd_gold i).

Lemma buy_lotion_spec lotion cfg i :
  is_i32 (hd_gold i) -> is_i32 (hd_jewel i) ->
  (forall c, getLotionShop cfg lotion = Some c -> 0 <= ls_use_count c) ->
  let r := buy_lotion lotion cfg i in
  (r.1 = Error_NO /\ exists c, lotion_sold lotion cfg i c /\ r.2 = lotion_bought lotion c i) \/
  (r.1 <> Error_NO /\ r.2 = i /\ forall c, ~ lotion_sold lotion cfg i c).
Proof.
  unfold is_i32. intros Hg Hj Hpos. cbv zeta. unfold buy_lotion, lotion_sold. rewrite Z.geb_leb.
  destruct (_ && _) eqn:E; to_prop.
  2: { right. split; [done|]. split; [done|]. intros c [Hr _].
       apply andb_false_iff in E as [E|E]; apply Z.leb_gt in E; lia. }
  destruct (getLotionShop cfg lotion) as [c|].
  2: { right. split; [done|]. split; [done|]. by intros c (_ & ? & _). }
  specialize (Hpos c eq_refl). destruct (existsb _ _) eqn:Ex.
  { right. split; [done|]. split; [done|]. intros c' (_ & _ & Hn & _). apply Hn.
    apply existsb_exists in Ex as (x & Hx & Heq). apply Z.eqb_eq in Heq. subst. by apply list_elem_of_In. }
  assert (Hn : lotion ∉ hd_lotions i).
  { intros Hin. apply not_true_iff_false in Ex. apply Ex, existsb_exists. exists lotion.
    split; [by apply list_elem_of_In|apply Z.eqb_refl]. }
  unfold pay_lotion, lotion_bought, lotion_price.
  destruct (Z.eqb_spec (ls_use_type c) LotionUseType_jewel) as [E1|E1];
    [|destruct (Z.eqb_spec (ls_use_type c) LotionUseType_gold) as [E2|E2]].
  - destruct (Z.ltb_spec (hd_jewel i) (ls_use_count c)); cbn [fst snd err_ok].
    + right. split; [done|]. split; [done|]. intros c' (_ & [= <-] & _ & Hp & _). specialize (Hp E1). lia.
    + left. split; [done|]. exists c. rewrite E1. cbn -[i32].
      rewrite i32_id, Z.sub_0_r by (unfold is_i32; lia). split; [|by destruct i].
      split; [lia|]. split; [done|]. split; [done|]. by split.
  - destruct (Z.ltb_spec (hd_gold i) (ls_use_count c)); cbn [fst snd err_ok].
    + right. split; [done|]. split; [done|]. intros c' (_ & [= <-] & _ & _ & Hp). specialize (Hp E2). lia.
    + left. split; [done|]. exists c. rewrite E2. cbn -[i32].
      rewrite i32_id, Z.sub_0_r by (unfold is_i32; lia). split; [|by destruct i].
      split; [lia|]. split; [done|]. split; [done|]. by split.
  - cbn [fst snd err_ok]. left. split; [done|]. exists c.
    rewrite (proj2 (Z.eqb_neq _ _) E1), (proj2 (Z.eqb_neq _ _) E2). cbn [fst snd].
    rewrite !Z.sub_0_r. split; [|by destruct i]. split; [lia|]. split; [done|]. split; [done|]. by split.
Qed.

(** a lotion is sold once: exactly when it exists in the shop, is not held
    yet and can be paid in its currency, it is added at the end and its price
    taken; otherwise nothing changes.  The lotions stay distinct and known. *)
Theorem ReqBuyLotion_correct lotion s :
  let i := _info (this s) in
  let cfg := gGameConfig (srv s) in
  session_valid s -> is_i32 (hd_gold i) -> is_i32 (hd_jewel i) ->
  (forall c, getLotionShop cfg lotion = Some c -> 0 <= ls_use_count c) ->
  exists s' e, ReqBuyLotion lotion s = Some (tt, s') /\
    out (srv s') = out (srv s) ++ delivery s
      (MsgS2CBuyLotionACK e lotion (hd_gold (_info (this s'))) (hd_jewel (_info (this s')))) /\
    (lotions_inv (hd_lotions i) -> lotions_inv (hd_lotions (_info (this s')))) /\
    ((e = Error_NO /\ exists c, lotion_sold lotion cfg i c /\
        this s' = set__info (lotion_bought lotion c i) (this s)) \/
     (e <> Error_NO /\ this s' = this s /\ forall c, ~ lotion_sold lotion cfg i c)).
Proof.
  intros i cfg Hs Hg Hj Hc. pose proof (buy_lotion_spec lotion cfg i Hg Hj Hc) as Hspec.
  cbv zeta in Hspec. set (r := buy_lotion lotion cfg i) in *.
  cut (wp (ReqBuyLotion lotion) (fun _ s' => this s' = set__info r.2 (this s) /\
    out (srv s') = out (srv s) ++ delivery s
      (MsgS2CBuyLotionACK r.1 lotion (hd_gold r.2) (hd_jewel r.2))) s).
  { intros (s' & Hr & Ht & Ho)%wp_unit. exists s', r.1. rewrite Ho, Ht. do 2 (split; [done|]).
    destruct Hspec as [(He & c & Hsold & Hi)|(He & Hi & Hn)]; rewrite Hi.
    - split; [|left; split; [done|by exists c]]. destruct Hsold as (H1 & _ & H2 & _).
      intros Hl. by apply lotions_inv_add.
    - split; [done|]. right. split; [done|]. split; [|done]. unfold i. by rewrite set_info_same. }
  unfold ReqBuyLotion. hs_run; done.
Qed.

Lemma ReqBuyLotion_correct_witness :
  session_valid demo /\
  (exists s', ReqBuyLotion 1 demo = Some (tt, s') /\
     (lotions_inv [] -> lotions_inv (hd_lotions (_info (this s'))))) /\
  ((fun r => (hd_jewel (_info (this r.2)), hd_lotions (_info (this r.2)))) <$> ReqBuyLotion 1 demo)
    = Some (35, [1]).
Proof.
  split; [reflexivity|]. split; [|vm_compute; reflexivity].
  destruct (ReqBuyLotion_correct 1 demo) as (s' & e & Hr & _ & Hl & _);
    [reflexivity|unfold is_i32; cbn; lia|unfold is_i32; cbn; lia| |exists s'; split; [exact Hr|exact Hl]].
  intros c Hc. vm_compute in Hc. injection Hc as <-. cbn. lia.
Defined.

(** the concern gift is given at most once: only with the configured key and
    to a hero that has not had it, it adds the configured gold; after that every
    request, whatever its key, leaves the hero as it is. *)
Theorem ReqConcernWeiXin_correct key s :
  let i := _info (this s) in
  let cfg := gGameConfig (srv s) in
  let g := getGlobalConfig cfg in
  session_valid s ->
  exists s' e, ReqConcernWeiXin key s = Some (tt, s') /\
    ((e = Error_NO /\ hd_concern_weixin i = false /\ isConcernWeiXin cfg = true /\
        key = config_weixin_cd_key g /\
        this s' = set__info (set_hd_gold (hd_gold i +ᵢ config_weixin_gold g) (set_hd_concern_weixin true i)) (this s) /\
        out (srv s') = out (srv s) ++ delivery s
          (MsgS2CConcernWeiXinACK e (config_weixin_gold g) (hd_gold (_info (this s')))))
     \/ (e <> Error_NO /\ this s' = this s /\
        out (srv s') = out (srv s) ++ delivery s (MsgS2CConcernWeiXinACK e 0 (hd_gold i)))) /\
    (forall key' s'', this s'' = this s' -> hd_concern_weixin (_info (this s')) = true ->
       session_valid s'' -> exists s3, ReqConcernWeiXin key' s'' = Some (tt, s3) /\ this s3 = this s').
Proof.
  intros i cfg g Hs.
  assert (Hagain : forall key' s'', hd_concern_weixin (_info (this s'')) = true -> session_valid s'' ->
            exists s3, ReqConcernWeiXin key' s'' = Some (tt, s3) /\ this s3 = this s'').
  { intros key' s'' Hc Hv. apply wp_unit. unfold ReqConcernWeiXin.
    apply wp_bind, wp_gets, wp_bind, wp_gets, wp_bind, wp_gets.
    assert (He : err_ok (concern_check key' (gGameConfig (srv s'')) (_info (this s''))) = false).
    { unfold concern_check. rewrite Hc. by destruct (negb _). }
    rewrite He. cbn [when]. by hs_run. }
  cut (wp (ReqConcernWeiXin key) (fun _ s' => exists e,
    ((e = Error_NO /\ hd_concern_weixin i = false /\ isConcernWeiXin cfg = true /\
        key = config_weixin_cd_key g /\
        this s' = set__info (set_hd_gold (hd_gold i +ᵢ config_weixin_gold g) (set_hd_concern_weixin true i)) (this s) /\
        out (srv s') = out (srv s) ++ delivery s
          (MsgS2CConcernWeiXinACK e (config_weixin_gold g) (hd_gold (_info (this s')))))
     \/ (e <> Error_NO /\ this s' = this s /\
        out (srv s') = out (srv s) ++ delivery s (MsgS2CConcernWeiXinACK e 0 (hd_gold i))))) s).
  { intros (s' & Hr & e & H)%wp_unit. exists s', e. split; [done|]. split; [done|].
    intros key' s'' Ht Hc Hv. rewrite <- Ht in Hc |- *. by apply Hagain. }
  unfold ReqConcernWeiXin. apply wp_bind, wp_gets, wp_bind, wp_gets, wp_bind, wp_gets. fold i cfg.
  unfold concern_check. destruct (isConcernWeiXin cfg) eqn:E1; cbn [negb].
  2: { cbn [err_ok when]. hs_run; [done|]. eexists. right. split; [|done]. done. }
  destruct (hd_concern_weixin i) eqn:E2.
  { cbn [err_ok when]. hs_run; [done|]. eexists. right. split; [|done]. done. }
  destruct (String.eqb_spec (config_weixin_cd_key (getGlobalConfig cfg)) key) as [Hk|Hk].
  - cbn [err_ok when]. hs_run; [done|]. exists Error_NO. left. by subst key.
  - cbn [err_ok when]. hs_run; [done|]. eexists. right. split; [|done]. done.
Qed.

Lemma ReqConcernWeiXin_correct_witness :
  session_valid demo /\
  (exists s', ReqConcernWeiXin "KEY" demo = Some (tt, s')) /\
  ((fun r => hd_gold (_info (this r.2))) <$> ReqConcernWeiXin "KEY" demo) = Some 1400.
Proof.
  split; [reflexivity|]. split; [|vm_compute; reflexivity].
  destruct (ReqConcernWeiXin_correct "KEY" demo) as (s' & e & Hr & _); [reflexivity|].
  exists s'. exact Hr.
Defined.
