(* ===== verification/HeroDeal.v ===== *)
(** * gameserver/DreamHero and GSHttpManager: deals for real money

    A deal is created by an HTTP task ([ReqCrearteDeal], [addDealWaitToPay]),
    verified by another one ([ReqVerifyDeal]) and paid out by [addDealPay]. *)
From S2P Require Import Prelude Float32 StdMap Data Text Calendar Config Record Rank Promotion Names Server HeroTask.

(** ** Creating a deal *)

(** The deals that a new request gives up. *)
Definition waits_to_pay (d : DealWaitToPay) : bool := bool_decide (deal_type_ d = DealStatusType_WaitToPay).

(** The loop over [_deals_wait_to_pay].  [win32] is the platform of the build:
    elsewhere the erased iterator is incremented, which is undefined. *)
Fixpoint give_up_loop (win32 : bool) (deals : list (Z * DealWaitToPay)) : M HS unit :=
  match deals with
  | [] => ret tt
  | (order, d) :: deals' =>
      if waits_to_pay d then
        hero_record (fun tz now acc _ =>
          giveUpDealRecord tz now acc (key_code_ d) (status_ d) (price_ d) (order_id_ d)) ;;;
        on_hero (fun h => set__deals_wait_to_pay (merase order (_deals_wait_to_pay h)) h) ;;;
        if win32 then give_up_loop win32 deals' else ub
      else give_up_loop win32 deals'
  end.

Definition ReqCrearteDeal (win32 : bool) (key_code : string) (channel : Z) : M HS unit :=
  let* h := get_hero in
  give_up_loop win32 (_deals_wait_to_pay h) ;;;
  let* h := get_hero in
  add_http (CreateDealHttpTask (_account h) (hd_name (_info h)) key_code channel).

(** [addDealWaitToPay]: the answer of the platform to the creation. *)
Definition addDealWaitToPay (key_code secret_key : string) (status price order_id : Z)
    (notify_url : string) (error : GameError) : M HS unit :=
  when (err_ok error)
    (on_hero (fun h => set__deals_wait_to_pay
       (minsert order_id (mkDeal key_code status price order_id "" DealStatusType_WaitToPay)
          (_deals_wait_to_pay h)) h)) ;;;
  sendPBMessage (MsgS2CCrearteDealACK error key_code status price order_id notify_url secret_key) ;;;
  when (err_ok error)
    (hero_record (fun tz now acc _ => dealWaitToPayRecord tz now acc key_code status price order_id)).

(** ** Verifying *)

(** The row buffer and the statement buffer hold 10240 bytes; a receipt that
    overruns one of them is undefined behaviour. *)
Definition verify_sql (order_id : Z) (receipt : string) : string :=
  sprintf "replace into deal_wait_to_pay(`order_id`, `complete_status`, `receipt`) 				values(%d, %d, '%s') "
    [AD order_id; AD (deal_code DealStatusType_WaitPrepareToVerify); AS receipt].

Definition ReqVerifyDeal (order_id : Z) (receipt : string) : M HS unit :=
  let* h := get_hero in
  match mfind order_id (_deals_wait_to_pay h) with
  | Some _ =>
      let* s := gets srv in
      match dealWaitToVerifyRecord (timezone s) (g_server_time s) (_account h) (hd_name (_info h))
              order_id receipt (gRecordManager s) with
      | Some r =>
          on_srv (set_gRecordManager r) ;;;
          if Z.of_nat (String.length (verify_sql order_id receipt)) <? 10240 then
            send_sql (verify_sql order_id receipt) ;;;
            add_http (VerifyDealHttpTaskIOS (_account h) (hd_name (_info h)) receipt order_id)
          else ub
      | None => ub
      end
  | None => ret tt
  end.

(** ** Paying out *)

(** What a verified deal pays: gold and jewels of the product, scaled by the
    running promotions. *)
Definition pay_amounts (c : GoldShopConfigInfo) (prom : ShopSalesPromotionManager) : option (Z * Z) :=
  add_gold ← recharge_amount (gs_gold (gold_info_ c)) (getGoldRechargeRatting prom);
  add_jewel ← recharge_amount (gs_jewel (gold_info_ c)) (getJewelRechargeRatting prom);
  Some (add_gold, add_jewel).

Definition set_deal_type (order_id : Z) (t : DealStatusType) (deals : list (Z * DealWaitToPay)) :
    list (Z * DealWaitToPay) :=
  match mfind order_id deals with
  | Some d => mput order_id (set_deal_type_ t d) deals
  | None => deals
  end.

Definition can_pay (d : DealWaitToPay) : bool :=
  match deal_type_ d with
  | DealStatusType_WaitToPay | DealStatusType_WaitPrepareToPay => true
  | _ => false
  end.

(** The payment itself: the error and the amounts. *)
Definition pay_deal (key_code : string) (status order_id : Z) (error : GameError)
    : M HS (GameError * Z * Z) :=
  let* h := get_hero in
  let* cfg := get_config in
  let* prom := gets (fun s => gShopSalesPromotionManager (srv s)) in
  let mark t := on_hero (fun h => set__deals_wait_to_pay
                  (set_deal_type order_id t (_deals_wait_to_pay h)) h) in
  if err_ok error then
    match getGoldShopConfigInfo_product cfg (_channel h) key_code with
    | Some entry_config =>
        match mfind order_id (_deals_wait_to_pay h) with
        | Some entry =>
            if status =? 0 then
              if can_pay entry then
                mark DealStatusType_Complete ;;;
                match pay_amounts entry_config prom with
                | Some (add_gold, add_jewel) =>
                    on_info (fun i => set_hd_jewel (hd_jewel i +ᵢ add_jewel)
                                        (set_hd_gold (hd_gold i +ᵢ add_gold) i)) ;;;
                    ret (Error_NO, add_gold, add_jewel)
                | None => ub
                end
              else if bool_decide (deal_type_ entry = DealStatusType_Complete) then
                ret (Error_BuyGoldFailedTheOrderHaveBeenCompleted, 0, 0)
              else ret (Error_Unknow, 0, 0)
            else
              mark DealStatusType_Failed ;;;
              ret (Error_Unknow, 0, 0)
        | None => ret (Error_BuyGoldFailedNotFoundOrder, 0, 0)
        end
    | None => ret (Error_BuyGoldFailedNotFoundConfig, 0, 0)
    end
  else ret (Error_Unknow, 0, 0).

Definition addDealPay (key_code : string) (status order_id : Z) (error : GameError) (send_msg : bool)
    : M HS unit :=
  let* r := pay_deal key_code status order_id error in
  let '(error, add_gold, add_jewel) := r in
  let* info := get_info in
  when send_msg (sendPBMessage (MsgS2CVerifyDealACK error order_id (hd_gold info) (hd_jewel info)
                   key_code status)) ;;;
  when (err_ok error) (
    hero_record (fun tz now acc name =>
      goldModifyRecord tz now acc name add_gold (hd_gold info) GoldModify_BuyHero) ;;;
    hero_record (fun tz now acc _ =>
      dealPayRecord tz now acc key_code status order_id add_gold (hd_gold info) add_jewel (hd_jewel info))).

(** ** Applying by shop id *)
Definition ReqApplyHeroDeal (id : Z) : M HS unit :=
  let* h := get_hero in
  let* cfg := get_config in
  match getGoldShopConfigInfo_id cfg (_channel h) id with
  | None => ub
  | Some (Some config_entry) =>
      let* s := gets srv in
      match generateDealOrderID (ascii_of_N (Z.to_N (_server_char cfg))) (_account h) (gNames s) with
      | Some (_, names) =>
          on_srv (set_gNames names) ;;;
          add_http (CreateDealHttpTask (_account h) (hd_name (_info h))
                      (appstore_product_id_ config_entry) (http_channel s)) ;;;
          sendPBMessage (MsgS2CApplyDealACK Error_NO id "" "")
      | None => ub
      end
  | Some None => sendPBMessage (MsgS2CApplyDealACK Error_FailedToApplyDealOrderNotFooundConfig id "" "")
  end.

(** ** Each deal is paid at most once *)

Lemma find_set_deal_type o t deals k :
  mfind k (set_deal_type o t deals) =
    if decide (k = o) then set_deal_type_ t <$> mfind o deals else mfind k deals.
Proof.
  unfold set_deal_type. destruct (mfind o deals) as [d|] eqn:E.
  - destruct (decide (k = o)) as [->|Hne]; [by rewrite mfind_put_eq|]. by apply mfind_put_ne.
  - by destruct (decide (k = o)) as [->|].
Qed.

(** The hero after a payment. *)
Definition paid (order_id add_gold add_jewel : Z) (h : DreamHero) : DreamHero :=
  set__info (set_hd_jewel (hd_jewel (_info h) +ᵢ add_jewel) (set_hd_gold (hd_gold (_info h) +ᵢ add_gold) (_info h)))
    (set__deals_wait_to_pay (set_deal_type order_id DealStatusType_Complete (_deals_wait_to_pay h)) h).

(** When a call pays. *)
Definition payable (key_code : string) (status order_id : Z) (error : GameError) (s : HS)
    (add_gold add_jewel : Z) : Prop :=
  error = Error_NO /\ status = 0 /\
  (exists d, mfind order_id (_deals_wait_to_pay (this s)) = Some d /\ can_pay d = true) /\
  exists c, getGoldShopConfigInfo_product (gGameConfig (srv s)) (_channel (this s)) key_code = Some c /\
    pay_amounts c (gShopSalesPromotionManager (srv s)) = Some (add_gold, add_jewel).

(** The amounts of every product of the hero's shop fit an [int]. *)
Definition amounts_fit (s : HS) : Prop :=
  forall key c, getGoldShopConfigInfo_product (gGameConfig (srv s)) (_channel (this s)) key = Some c ->
    is_Some (pay_amounts c (gShopSalesPromotionManager (srv s))).

Definition only_deals (s : HS) (deals : list (Z * DealWaitToPay)) : HS :=
  mkHS (set__deals_wait_to_pay deals (this s)) (srv s).

Lemma set_deals_same h : set__deals_wait_to_pay (_deals_wait_to_pay h) h = h.
Proof. by destruct h. Qed.

Lemma wp_pay_deal key status order error s (Q : GameError * Z * Z -> HS -> Prop) :
  amounts_fit s ->
  (forall g j, payable key status order error s g j ->
     Q (Error_NO, g, j) (mkHS (paid order g j (this s)) (srv s))) ->
  (forall e deals, err_ok e = false -> (forall g j, ~ payable key status order error s g j) ->
     deals = _deals_wait_to_pay (this s) \/
       deals = set_deal_type order DealStatusType_Failed (_deals_wait_to_pay (this s)) ->
     Q (e, 0, 0) (only_deals s deals)) ->
  wp (pay_deal key status order error) Q s.
Proof.
  intros Hfit Hpay Hno.
  assert (Hsame : forall e, err_ok e = false -> (forall g j, ~ payable key status order error s g j) -> Q (e, 0, 0) s).
  { intros e He Hn. specialize (Hno e _ He Hn (or_introl eq_refl)). unfold only_deals in Hno.
    by rewrite set_deals_same, hs_eta in Hno. }
  unfold pay_deal. apply wp_bind, wp_gets, wp_bind, wp_gets, wp_bind, wp_gets. unfold payable in *.
  destruct (err_ok error) eqn:He.
  2: { apply wp_ret, Hsame; [done|]. intros g j (-> & _). done. }
  apply err_ok_true in He.
  destruct (getGoldShopConfigInfo_product _ _ key) as [c|] eqn:Ec.
  2: { apply wp_ret, Hsame; [done|]. by intros g j (_ & _ & _ & c & ? & _). }
  destruct (mfind order _) as [d|] eqn:Ed.
  2: { apply wp_ret, Hsame; [done|]. by intros g j (_ & _ & (d & ? & _) & _). }
  destruct (Z.eqb_spec status 0) as [Hst|Hst].
  2: { hs_run. apply Hno; [done| |by right]. intros g j (_ & ? & _). done. }
  destruct (can_pay d) eqn:Hp.
  2: { hs_run; (apply Hsame; [done|]; intros g j (_ & _ & (d' & [= <-] & ?) & _); congruence). }
  destruct (Hfit key c Ec) as [[g j] Hgj]. rewrite Hgj. hs_run. apply (Hpay g j).
  split; [done|]. split; [done|]. split; [by exists d|by exists c].
Qed.

(** A server that differs from [s] only in its records and its output. *)
Definition logged (s s' : Server) : Prop :=
  exists r o, s' = set_gRecordManager r (set_out o s).

Lemma logged_refl s : logged s s.
Proof. exists (gRecordManager s), (out s). by destruct s. Qed.

Lemma logged_trans s1 s2 s3 : logged s1 s2 -> logged s2 s3 -> logged s1 s3.
Proof. intros (r1 & o1 & ->) (r2 & o2 & ->). by exists r2, o2. Qed.

Lemma logged_record r s s' : logged s s' -> logged s (set_gRecordManager r s').
Proof. intros (r1 & o1 & ->). by exists r, o1. Qed.
Lemma logged_out o s s' : logged s s' -> logged s (set_out o s').
Proof. intros (r1 & o1 & ->). by exists r1, o. Qed.
Ltac logged := cbn [srv sent]; repeat first [apply logged_refl|apply logged_record|apply logged_out].

Lemma wp_addDealPay key status order error (send : bool) s (Q : unit -> HS -> Prop) :
  session_valid s -> amounts_fit s ->
  (forall g j s', payable key status order error s g j ->
     this s' = paid order g j (this s) -> logged (srv s) (srv s') ->
     out (srv s') = out (srv s) ++ (if send then delivery s (MsgS2CVerifyDealACK Error_NO order
        (hd_gold (_info (this s'))) (hd_jewel (_info (this s'))) key status) else []) -> Q tt s') ->
  (forall e deals s', e <> Error_NO -> (forall g j, ~ payable key status order error s g j) ->
     this s' = set__deals_wait_to_pay deals (this s) -> logged (srv s) (srv s') ->
     deals = _deals_wait_to_pay (this s) \/
       deals = set_deal_type order DealStatusType_Failed (_deals_wait_to_pay (this s)) ->
     out (srv s') = out (srv s) ++ (if send then delivery s (MsgS2CVerifyDealACK e order
        (hd_gold (_info (this s))) (hd_jewel (_info (this s))) key status) else []) -> Q tt s') ->
  wp (addDealPay key status order error send) Q s.
Proof.
  intros Hs Hfit Hpay Hno. unfold addDealPay. apply wp_bind, wp_pay_deal; [done| |].
  - intros g j Hp. specialize (Hpay g j).
    destruct send; hs_run; try done; (apply Hpay; [done|done|logged|by rewrite ?app_nil_r]).
  - intros e deals He Hn Hd. specialize (Hno e deals).
    assert (He' : e <> Error_NO) by (by intros ->).
    destruct send; rewrite He; cbn [when]; hs_run; try done;
      (apply Hno; [done|done|done|logged|done|by rewrite ?app_nil_r]).
Qed.

(** A sequence of payment answers from the platform. *)
Record PayCall := mkPayCall {
  pc_key : string; pc_status : Z; pc_order : Z; pc_error : GameError; pc_send : bool }.
Definition pay_call (p : PayCall) : M HS unit :=
  addDealPay (pc_key p) (pc_status p) (pc_order p) (pc_error p) (pc_send p).

Record Credit := mkCredit { cr_order : Z; cr_gold : Z; cr_jewel : Z }.

Definition failed_deal (o : Z) (h : DreamHero) : Prop :=
  exists d, mfind o (_deals_wait_to_pay h) = Some d /\ deal_type_ d = DealStatusType_Failed.

(** A credit comes from a call that reports success for a product on sale, and
    is the amount of that product. *)
Definition credited (s : HS) (calls : list PayCall) (c : Credit) : Prop :=
  exists p cfg, p ∈ calls /\ pc_order p = cr_order c /\ pc_status p = 0 /\ pc_error p = Error_NO /\
    getGoldShopConfigInfo_product (gGameConfig (srv s)) (_channel (this s)) (pc_key p) = Some cfg /\
    pay_amounts cfg (gShopSalesPromotionManager (srv s)) = Some (cr_gold c, cr_jewel c).

Definition call_payable (p : PayCall) (s : HS) : Prop :=
  exists g j, payable (pc_key p) (pc_status p) (pc_order p) (pc_error p) s g j.

(** The ledger: what has been credited since [h0].  A deal that was open is
    still open, credited or failed. *)
Record ledger (h0 : DreamHero) (credits : list Credit) (h : DreamHero) : Prop := {
  led_once : NoDup (map cr_order credits);
  led_open : forall c, c ∈ credits -> exists d, mfind (cr_order c) (_deals_wait_to_pay h0) = Some d /\ can_pay d = true;
  led_done : forall c, c ∈ credits -> exists d, mfind (cr_order c) (_deals_wait_to_pay h) = Some d /\ can_pay d = false;
  led_keep : forall o d, mfind o (_deals_wait_to_pay h) = Some d -> can_pay d = true ->
    mfind o (_deals_wait_to_pay h0) = Some d;
  led_state : forall o d, mfind o (_deals_wait_to_pay h0) = Some d -> can_pay d = true ->
    mfind o (_deals_wait_to_pay h) = Some d \/ (o ∈ map cr_order credits) \/ failed_deal o h;
  led_gold : i32 (hd_gold (_info h)) = i32 (hd_gold (_info h0) + zsum (map cr_gold credits));
  led_jewel : i32 (hd_jewel (_info h)) = i32 (hd_jewel (_info h0) + zsum (map cr_jewel credits));
  led_same : _session h = _session h0 /\ _channel h = _channel h0
}.

Lemma ledger_nil h : ledger h [] h.
Proof.
  constructor; try done; try (intros c Hc; by apply elem_of_nil in Hc);
    [constructor|by left|cbn; by rewrite Z.add_0_r|cbn; by rewrite Z.add_0_r].
Qed.

Lemma ledger_pay h0 credits h o g j d :
  ledger h0 credits h -> mfind o (_deals_wait_to_pay h) = Some d -> can_pay d = true ->
  ledger h0 (credits ++ [mkCredit o g j]) (paid o g j h).
Proof.
  intros [H1 H2 H3 H4 Hst H5 H6 H7] Hd Hp. unfold paid.
  assert (Hnew : o ∉ map cr_order credits).
  { intros Hin. apply (list_elem_of_fmap cr_order) in Hin as (c & -> & Hc).
    destruct (H3 c Hc) as (d' & Hd' & Hp'). congruence. }
  constructor; cbn -[i32 set_deal_type].
  - rewrite map_app. apply NoDup_app. split; [done|]. split; [|apply NoDup_singleton].
    intros x Hx ->%list_elem_of_singleton. done.
  - intros c [Hc|Hc]%elem_of_app; [by apply H2|]. apply list_elem_of_singleton in Hc as ->.
    exists d. split; [by apply H4|done].
  - intros c Hc. rewrite find_set_deal_type. destruct (decide _) as [Heq|Hne].
    + rewrite Hd. by eexists.
    + apply elem_of_app in Hc as [Hc|Hc]; [by apply H3|]. by apply list_elem_of_singleton in Hc as ->.
  - intros k d' Hk Hp'. rewrite find_set_deal_type in Hk. destruct (decide (k = o)) as [->|]; [|by apply H4].
    rewrite Hd in Hk. injection Hk as <-. done.
  - intros k d' Hk Hp'. rewrite map_app. unfold failed_deal. cbn -[set_deal_type]. rewrite find_set_deal_type.
    destruct (decide (k = o)) as [->|].
    + right. left. apply elem_of_app. right. by apply list_elem_of_singleton.
    + destruct (Hst k d' Hk Hp') as [?|[?|?]]; [by left| |by right; right].
      right. left. apply elem_of_app. by left.
  - rewrite map_app, zsum_app. cbn -[i32]. revert H5. generalize (zsum (map cr_gold credits)). intros z H5. i32_solve.
  - rewrite map_app, zsum_app. cbn -[i32]. revert H6. generalize (zsum (map cr_jewel credits)). intros z H6. i32_solve.
  - done.
Qed.

Lemma ledger_fail h0 credits h o :
  ledger h0 credits h ->
  ledger h0 credits (set__deals_wait_to_pay (set_deal_type o DealStatusType_Failed (_deals_wait_to_pay h)) h).
Proof.
  intros [H1 H2 H3 H4 Hst H5 H6 H7]. constructor; cbn -[set_deal_type]; try done.
  - intros c Hc. rewrite find_set_deal_type. destruct (H3 c Hc) as (d & Hd & Hp).
    destruct (decide _) as [<-|]; [|by exists d]. rewrite Hd. by eexists.
  - intros k d Hk Hp. rewrite find_set_deal_type in Hk. destruct (decide (k = o)) as [->|]; [|by apply H4].
    destruct (mfind o (_deals_wait_to_pay h)); [|done]. cbn in Hk. injection Hk as <-. done.
  - intros k d Hk Hp. unfold failed_deal. cbn -[set_deal_type]. rewrite find_set_deal_type.
    destruct (decide (k = o)) as [->|]; [|by apply Hst].
    destruct (Hst o d Hk Hp) as [Hf|[?|(d' & Hf & _)]]; [|by right; left|];
      right; right; rewrite Hf; by eexists.
Qed.

(** Failed deals stay failed. *)
Lemma failed_deal_set k o t h :
  failed_deal k h -> (t = DealStatusType_Failed \/ k <> o) ->
  failed_deal k (set__deals_wait_to_pay (set_deal_type o t (_deals_wait_to_pay h)) h).
Proof.
  intros (d & Hd & Ht) Hk. unfold failed_deal. cbn -[set_deal_type]. rewrite find_set_deal_type.
  destruct (decide (k = o)) as [->|]; [|by exists d]. rewrite Hd. destruct Hk as [->|]; [by eexists|done].
Qed.

(** ** Properties *)

Lemma logged_fit s s' : amounts_fit s -> session_valid s -> logged (srv s) (srv s') ->
  _session (this s') = _session (this s) -> _channel (this s') = _channel (this s) ->
  amounts_fit s' /\ session_valid s'.
Proof.
  intros Hf Hv (r & o & Hsrv) Hs Hc. unfold amounts_fit, session_valid in *. rewrite Hsrv, Hs, Hc.
  split; [exact Hf|exact Hv].
Qed.

(** C14: one answer of the platform pays a deal exactly when it reports success
    for a product on sale and an open deal of this hero: the deal is closed and
    gold and jewels grow by the product's scaled amounts.  In every other case
    gold and jewels stay, the deal is at most marked as failed, and an error is
    answered. *)
Theorem addDealPay_correct key status order error (send : bool) s :
  session_valid s -> amounts_fit s ->
  exists s', addDealPay key status order error send s = Some (tt, s') /\ exists e,
    out (srv s') = out (srv s) ++ (if send then delivery s (MsgS2CVerifyDealACK e order
      (hd_gold (_info (this s'))) (hd_jewel (_info (this s'))) key status) else []) /\
    ((e = Error_NO /\ exists g j, payable key status order error s g j /\ this s' = paid order g j (this s) /\
        forall key' status' error' s'' g' j', this s'' = this s' ->
          ~ payable key' status' order error' s'' g' j')
     \/ (e <> Error_NO /\ (forall g j, ~ payable key status order error s g j) /\
        _info (this s') = _info (this s) /\
        (this s' = this s \/
         this s' = set__deals_wait_to_pay
           (set_deal_type order DealStatusType_Failed (_deals_wait_to_pay (this s))) (this s)))).
Proof.
  intros Hs Hfit. apply wp_unit, wp_addDealPay; [done|done| |].
  - intros g j s' Hp Ht _ Ho. exists Error_NO. split; [done|]. left. split; [done|]. exists g, j.
    split; [done|]. split; [done|]. intros key' status' error' s'' g' j' Hs'' (_ & _ & (d & Hd & Hcan) & _).
    rewrite Hs'', Ht in Hd. unfold paid in Hd. cbn -[set_deal_type] in Hd.
    rewrite find_set_deal_type, decide_True in Hd by done.
    destruct (mfind order _); [|done]. by injection Hd as <-.
  - intros e deals s' He Hn Ht _ Hd Ho. exists e. rewrite Ht. split; [done|]. right.
    do 3 (split; [done|]). destruct Hd as [->| ->]; [left; by rewrite set_deals_same|by right].
Qed.

Lemma demo_amounts_fit : amounts_fit demo.
Proof.
  intros key c Hc.
  change (find_product key [(1, mkGoldShopConfig "gold.100" (mkGoldShop 1 0 100 6 "pouch" 10 "gold.100"))]
    = Some c) in Hc.
  cbn [find_product] in Hc. destruct (String.eqb _ key); [|discriminate Hc]. injection Hc as <-.
  eexists. vm_compute. reflexivity.
Qed.

Lemma addDealPay_correct_witness :
  session_valid demo /\ amounts_fit demo /\
  (exists s' e, addDealPay "gold.100" 0 900 Error_NO true demo = Some (tt, s') /\
     out (srv s') = delivery demo (MsgS2CVerifyDealACK e 900 (hd_gold (_info (this s')))
       (hd_jewel (_info (this s'))) "gold.100" 0)) /\
  ((fun r => (hd_gold (_info (this r.2)), hd_jewel (_info (this r.2))))
     <$> addDealPay "gold.100" 0 900 Error_NO true demo) = Some (1000, 50).
Proof.
  split; [reflexivity|]. split; [exact demo_amounts_fit|]. split; [|vm_compute; reflexivity].
  destruct (addDealPay_correct "gold.100" 0 900 Error_NO true demo) as (s' & Hr & e & Ho & _);
    [reflexivity|exact demo_amounts_fit|]. exists s', e. split; [exact Hr|exact Ho].
Defined.

(** The calls handled so far, against the state they started from. *)
Record handled_calls (s : HS) (handled : list PayCall) (credits : list Credit) (s' : HS) : Prop := {
  hc_logged : logged (srv s) (srv s');
  hc_ledger : ledger (this s) credits (this s');
  hc_credited : Forall (credited s handled) credits;
  hc_answered : forall p, p ∈ handled -> call_payable p s ->
    (pc_order p ∈ map cr_order credits) \/ failed_deal (pc_order p) (this s')
}.

Lemma credited_app s handled p c : credited s handled c -> credited s (handled ++ [p]) c.
Proof.
  intros (q & cfg & Hq & H). exists q, cfg. split; [|done]. apply elem_of_app. by left.
Qed.

(** Being payable depends on the deal, the shop and the promotions only. *)
Lemma payable_later p s s' g j d :
  logged (srv s) (srv s') -> _channel (this s') = _channel (this s) ->
  payable (pc_key p) (pc_status p) (pc_order p) (pc_error p) s g j ->
  mfind (pc_order p) (_deals_wait_to_pay (this s')) = Some d -> can_pay d = true ->
  payable (pc_key p) (pc_status p) (pc_order p) (pc_error p) s' g j.
Proof.
  intros (r & o & Hsrv) Hch (He & Hst & _ & Hc) Hd Hp. unfold payable. rewrite Hsrv, Hch.
  split; [done|]. split; [done|]. split; [by exists d|exact Hc].
Qed.

Lemma handled_paid s handled credits s1 p g j s2 :
  handled_calls s handled credits s1 ->
  payable (pc_key p) (pc_status p) (pc_order p) (pc_error p) s1 g j ->
  this s2 = paid (pc_order p) g j (this s1) -> logged (srv s1) (srv s2) ->
  handled_calls s (handled ++ [p]) (credits ++ [mkCredit (pc_order p) g j]) s2.
Proof.
  intros [Hlog Hled Hcr Hans] (He & Hst & (d & Hd & Hp) & cfg & Hcfg & Ham) Ht Hlog2.
  destruct (led_same _ _ _ Hled) as [_ Hch]. rewrite Hch in Hcfg.
  constructor; rewrite ?Ht.
  - by eapply logged_trans.
  - by eapply ledger_pay.
  - apply Forall_app. split; [eapply Forall_impl; [exact Hcr|]; intros c; apply credited_app|].
    apply Forall_singleton. exists p, cfg. destruct Hlog as (r & o & Hsrv). rewrite Hsrv in Hcfg, Ham.
    do 5 (split; [first [done|apply elem_of_app; right; by apply list_elem_of_singleton]|]). done.
  - intros q [Hq|Hq]%elem_of_app Hpay.
    2: { apply list_elem_of_singleton in Hq as ->. left. rewrite map_app. apply elem_of_app. right.
         by apply list_elem_of_singleton. }
    destruct (Hans q Hq Hpay) as [Hin|Hf]; [left; rewrite map_app; apply elem_of_app; by left|].
    right. apply (failed_deal_set _ _ _ _ Hf). right. intros Heq. destruct Hf as (d' & Hd' & Hf).
    rewrite Heq, Hd in Hd'. injection Hd' as <-. unfold can_pay in Hp. by rewrite Hf in Hp.
Qed.

Lemma handled_refused s handled credits s1 p deals s2 :
  handled_calls s handled credits s1 -> ~ call_payable p s1 ->
  deals = _deals_wait_to_pay (this s1) \/
    deals = set_deal_type (pc_order p) DealStatusType_Failed (_deals_wait_to_pay (this s1)) ->
  this s2 = set__deals_wait_to_pay deals (this s1) -> logged (srv s1) (srv s2) ->
  handled_calls s (handled ++ [p]) credits s2.
Proof.
  intros [Hlog Hled Hcr Hans] Hn Hd Ht Hlog2. destruct (led_same _ _ _ Hled) as [_ Hch].
  assert (Hkeep : forall k, failed_deal k (this s1) -> failed_deal k (this s2)).
  { intros k Hk. rewrite Ht. destruct Hd as [->| ->]; [by rewrite set_deals_same|].
    apply failed_deal_set; [done|by left]. }
  constructor.
  - by eapply logged_trans.
  - rewrite Ht. destruct Hd as [->| ->]; [by rewrite set_deals_same|by apply ledger_fail].
  - eapply Forall_impl; [exact Hcr|]. intros c. apply credited_app.
  - intros q [Hq|Hq]%elem_of_app Hpay.
    { destruct (Hans q Hq Hpay) as [?|?]; [by left|right; by apply Hkeep]. }
    apply list_elem_of_singleton in Hq as ->. destruct Hpay as (g & j & Hpay).
    pose proof Hpay as (_ & _ & (d & Hd0 & Hp) & _).
    destruct (led_state _ _ _ Hled _ d Hd0 Hp) as [Hopen|[?|Hf]]; [|by left|right; by apply Hkeep].
    exfalso. apply Hn. exists g, j. by apply (payable_later p s s1 g j d).
Qed.

(** C1: whatever answers of the platform arrive, in whatever order and however
    often repeated, every deal is paid at most once, only deals that were open
    are paid, and the gold and jewels of the hero are exactly what the paid
    deals add up to, each at the amounts of a product whose success was
    reported.  An open deal whose success is reported is paid, unless a failure
    was reported for it. *)
Theorem deals_paid_once (calls : list PayCall) s :
  session_valid s -> amounts_fit s ->
  exists s' credits, mfor calls pay_call s = Some (tt, s') /\ ledger (this s) credits (this s') /\
    Forall (credited s calls) credits /\
    (forall p, p ∈ calls -> call_payable p s ->
       (pc_order p ∈ map cr_order credits) \/ failed_deal (pc_order p) (this s')).
Proof.
  intros Hs Hfit.
  cut (wp (mfor calls pay_call) (fun _ s' => exists credits, handled_calls s calls credits s') s).
  { intros (s' & Hr & credits & H)%wp_unit. destruct H. by exists s', credits. }
  apply (wp_mfor (fun handled s' => exists credits, handled_calls s handled credits s')).
  - exists []. constructor; [apply logged_refl|apply ledger_nil|done|].
    intros p Hp. by apply elem_of_nil in Hp.
  - intros handled p rest s1 _ (credits & Hh).
    destruct (led_same _ _ _ (hc_ledger _ _ _ _ Hh)) as [Hse Hch].
    destruct (logged_fit s s1 Hfit Hs (hc_logged _ _ _ _ Hh) Hse Hch) as [Hfit1 Hs1].
    apply wp_addDealPay; [done|done| |].
    + intros g j s2 Hp Ht Hlog2 _. exists (credits ++ [mkCredit (pc_order p) g j]).
      by apply (handled_paid s handled credits s1).
    + intros e deals s2 _ Hn Ht Hlog2 Hd _. exists credits.
      apply (handled_refused s handled credits s1 p deals); try done. intros (g & j & Hp). by apply (Hn g j).
  - done.
Qed.

Lemma deals_paid_once_witness :
  let twice := [mkPayCall "gold.100" 0 900 Error_NO true; mkPayCall "gold.100" 0 900 Error_NO true] in
  session_valid demo /\ amounts_fit demo /\
  (exists s' credits, mfor twice pay_call demo = Some (tt, s') /\ NoDup (map cr_order credits)) /\
  ((fun r => hd_gold (_info (this r.2))) <$> mfor twice pay_call demo) = Some 1000.
Proof.
  intros twice. split; [reflexivity|]. split; [exact demo_amounts_fit|]. split; [|vm_compute; reflexivity].
  destruct (deals_paid_once twice demo) as (s' & credits & Hr & Hl & _); [reflexivity|exact demo_amounts_fit|].
  exists s', credits. split; [exact Hr|exact (led_once _ _ _ Hl)].
Defined.

(** without a running promotion a deal pays exactly the amounts of the shop
    (the single-precision arithmetic loses nothing below 2^24). *)
Theorem pay_amounts_exact c prom :
  getGoldRechargeRatting prom = 0 -> getJewelRechargeRatting prom = 0 ->
  0 <= gs_gold (gold_info_ c) < 2^24 -> 0 <= gs_jewel (gold_info_ c) < 2^24 ->
  pay_amounts c prom = Some (gs_gold (gold_info_ c), gs_jewel (gold_info_ c)).
Proof.
  intros Hg Hj H1 H2. unfold pay_amounts. rewrite Hg, Hj, !recharge_amount_exact by done. done.
Qed.

Lemma pay_amounts_exact_witness :
  getGoldRechargeRatting (gShopSalesPromotionManager demo_server) = 0 /\
  pay_amounts (mkGoldShopConfig "p" (mkGoldShop 1 0 1980 6 "" 77 "p")) (gShopSalesPromotionManager demo_server)
    = Some (1980, 77).
Proof.
  split; [reflexivity|]. apply (pay_amounts_exact (mkGoldShopConfig "p" (mkGoldShop 1 0 1980 6 "" 77 "p")));
    [reflexivity|reflexivity|cbn; lia|cbn; lia].
Defined.

(** Outside of Windows the first deal that is given up increments an erased
    iterator. *)
Example create_deal_posix_undefined :
  ReqCrearteDeal false "gold.100" 1 demo = None /\ is_Some (ReqCrearteDeal true "gold.100" 1 demo).
Proof. split; [vm_compute; reflexivity|]. eexists. vm_compute. reflexivity. Qed.
