(* ===== verification/HeroDaily.v ===== *)
(** * gameserver/DreamHero: the daily game

    Progress and score of the day's game ([ReqUpdateDailyGameProgress]), the
    paid restart ([ReqResetDailyGameProgress]) and the prizes
    ([TryToGetGamePrize], [DailyGamePrize], [ReqReceiveDailyGamePrize]). *)
From S2P Require Import Prelude StdMap Data Text Calendar Config Record Rank Promotion Names Server HeroTask.

Definition get_rank : M HS RankManager := gets (fun s => gRankManager (srv s)).

(** ** Restart for jewels *)
Definition reset_count (today : bool) (info : MsgHeroData) : Z :=
  if negb today then 1 else hd_daily_reset_game_count info +ᵢ 1.

(** [reset_game_count - 1] is compared with a [size_t]. *)
Definition reset_price (g : globalConfig) (reset_game_count : Z) : option Z :=
  if u64 (reset_game_count -ᵢ 1) >=? Z.of_nat (length (daily_game_reset_jewel_config_ g)) then None
  else daily_game_reset_jewel_config_ g !! Z.to_nat (u64 (reset_game_count -ᵢ 1)).

Definition ReqResetDailyGameProgress : M HS unit :=
  let* h := get_hero in
  let* g := get_global in
  let* now := get_time_now in
  let info := _info h in
  let* game_today := in_today (_daily_game_time h) in
  let* reset_today := in_today (_last_daily_reset_game_time h) in
  let* error :=
    (if negb game_today || (hd_daily_game_progress info =? 0)
     then ret Error_FailedToResetDailyGameTheProgressIsZero
     else
       let reset_game_count := reset_count reset_today info in
       match reset_price g reset_game_count with
       | None => ret Error_FailedToResetDailyGameUseOut
       | Some jewel =>
           if jewel >? hd_jewel info then ret Error_FailedToResetDailyGameNotEnoughJewel
           else if negb (hd_daily_game_hp_pct info =? 100) || negb (hd_daily_game_progress info =? 0) then
             on_info (fun i => set_hd_daily_game_anger 0 (set_hd_daily_game_hp_pct 100
               (set_hd_daily_game_record_progress 0 (set_hd_daily_game_progress 0 i)))) ;;;
             on_info (fun i => set_hd_jewel (hd_jewel i -ᵢ jewel) i) ;;;
             on_hero (set__last_daily_reset_game_time (u32 now)) ;;;
             on_info (set_hd_daily_reset_game_count reset_game_count) ;;;
             ret Error_NO
           else ret Error_FailedToResetDailyGameTheTheHpIsFull
       end) in
  let* h := get_hero in
  let info := _info h in
  sendPBMessage (MsgS2CResetDailyGameProgressACK error (hd_daily_game_progress info)
    (hd_daily_reset_game_count info) (_last_daily_reset_game_time h) (hd_jewel info)).

(** ** GM resets *)

(** [removeHero] of the account that is last in the ranking is undefined. *)
Definition ResetDailyGame : M HS unit :=
  on_info (fun i => set_hd_daily_game_score 0 (set_hd_daily_reset_game_count 0
    (set_hd_daily_game_record_progress 0 (set_hd_daily_game_progress 0
    (set_hd_daily_game_anger 0 (set_hd_daily_game_hp_pct 100 i)))))) ;;;
  on_hero (fun h => set__last_daily_reset_game_time 0 (set__daily_game_prize_time 0
    (set__daily_game_time 0 h))) ;;;
  let* h := get_hero in
  let* r := get_rank in
  match removeHero (_account h) r with
  | Some r => on_srv (set_gRankManager r)
  | None => ub
  end.

Definition ResetDailyLottery : M HS unit := on_hero (set__last_day_lottery_time 0).

(** ** Prizes *)
Definition ReqReceiveDailyGamePrize : M HS unit :=
  let* info := get_info in
  let daily_game_gold := hd_daily_game_gold info in
  let* error :=
    (if daily_game_gold =? 0 then ret Error_FailedToReceivedDailyGamePrizeNOPrize
     else
       let gold := hd_gold info +ᵢ daily_game_gold in
       on_info (fun i => set_hd_daily_game_gold 0 (set_hd_gold gold i)) ;;;
       hero_record (fun tz now acc name => dailyGameRewardRecord tz now acc name 0 gold gold) ;;;
       ret Error_NO) in
  let* info := get_info in
  sendPBMessage (MsgS2CReceiveDailyGamePrizeACK error (hd_gold info)).

(** The prize of the ranking, given by [RankManager::DailyGameUpdate]. *)
Definition DailyGamePrize (gold : Z) : M HS unit :=
  let* h := get_hero in
  when (negb (_daily_game_prize_time h =? _daily_game_time h)) (
    on_hero (set__daily_game_time (_daily_game_prize_time h)) ;;;
    on_info (set_hd_daily_game_gold gold) ;;;
    let* h := get_hero in
    sendPBMessage (MsgS2CNotifyDailyGamePrize (hd_daily_game_gold (_info h)) (_daily_game_time h))).

(** The prize of a game that is over: by progress, as if it were a rank. *)
Definition TryToGetGamePrize (sendmsg : bool) : M HS unit :=
  let* h := get_hero in
  let* r := get_rank in
  let* cfg := get_config in
  when (negb (getDailyGameBeginTime r =? _daily_game_time h)) (
    when (negb (_daily_game_time h =? 0) && negb (_daily_game_time h =? _daily_game_prize_time h)) (
      let rank := hd_daily_game_progress (_info h) +ᵢ 1 in
      on_info (set_hd_daily_game_gold (GetDailyGamePrize cfg rank)) ;;;
      on_hero (set__daily_game_prize_time (_daily_game_time h)) ;;;
      when sendmsg (
        let* h := get_hero in
        sendPBMessage (MsgS2CNotifyDailyGamePrize (hd_daily_game_gold (_info h)) (_daily_game_time h))))).

(** ** Progress *)
Record MsgC2SReqUpdateDailyGameProgress := mkUpdateDaily {
  ud_hp_pct : Z;
  ud_daily_game_progress : Z;
  ud_score : Z;
  ud_anger : Z
}.

(** A new game of the day starts with the first report. *)
Definition start_daily_game (begin_time : Z) (h : DreamHero) : DreamHero :=
  if negb (begin_time =? _daily_game_time h) then
    set__daily_game_time begin_time
      (set__info (set_hd_daily_reset_game_count 0 (set_hd_daily_game_anger 0 (set_hd_daily_game_score 0
         (set_hd_daily_game_progress 0 (set_hd_daily_game_hp_pct 100 (_info h)))))) h)
  else h.

(** The checks of the report, on the game that has been started. *)
Definition daily_check (msg : MsgC2SReqUpdateDailyGameProgress) (max_progress : Z) (i : MsgHeroData) :
    GameError :=
  if hd_daily_game_progress i =? max_progress then Error_FailedToUpdateDailyProgressIsMaxProgress
  else if ((ud_daily_game_progress msg =? 1)
           || (ud_daily_game_progress msg =? hd_daily_game_record_progress i +ᵢ 1))
          && (hd_daily_game_hp_pct i =? 0) then Error_FailedToUpdateDailyProgressNoHp
  else if hd_daily_game_hp_pct i >? 0 then
    let hp_pct := if ud_hp_pct msg <? 0 then 0 else ud_hp_pct msg in
    let progress_temp := if hp_pct >? 0 then hd_daily_game_progress i +ᵢ 1 else hd_daily_game_progress i in
    if (progress_temp =? ud_daily_game_progress msg)
       || (ud_daily_game_progress msg =? hd_daily_game_record_progress i +ᵢ 1) then Error_NO
    else Error_FailedToUpdateDailyProgressErrorProgress
  else Error_FailedToUpdateDailyProgressNoHp.

Definition daily_settled (msg : MsgC2SReqUpdateDailyGameProgress) (i : MsgHeroData) : MsgHeroData :=
  let hp_pct := if ud_hp_pct msg <? 0 then 0 else ud_hp_pct msg in
  let progress := ud_daily_game_progress msg in
  set_hd_daily_game_hp_pct hp_pct (set_hd_daily_game_anger (ud_anger msg)
    (set_hd_daily_top_grogress (if progress >? hd_daily_top_grogress i then progress
                                else hd_daily_top_grogress i)
    (set_hd_daily_game_progress (if hp_pct >? 0 then progress else hd_daily_game_progress i)
    (set_hd_daily_game_score (ud_score msg) i)))).

Definition ReqUpdateDailyGameProgress (msg : MsgC2SReqUpdateDailyGameProgress) : M HS unit :=
  let* r := get_rank in
  let* now := get_time_now in
  on_hero (start_daily_game (getDailyGameBeginTime r)) ;;;
  let* h := get_hero in
  let error := daily_check msg (getMaxDailyProgress r) (_info h) in
  let* rank :=
    (if err_ok error then
       on_srv (set_gRankManager (updateHeroDailyRank now (_account h) (hd_name (_info h)) (ud_score msg) r).1) ;;;
       on_info (daily_settled msg) ;;;
       let* r := get_rank in
       let rank := getHeroDailyRank (_account h) r in
       hero_record (fun tz now acc name => dailyGameRecord tz now acc name rank (ud_score msg)) ;;;
       ret rank
     else ret 101) in
  let* h := get_hero in
  let i := _info h in
  sendPBMessage (MsgS2CUpdateDailyGameProgressACK error (hd_daily_game_score i) rank
    (hd_daily_game_progress i) (hd_daily_game_record_progress i) (hd_daily_game_hp_pct i)
    (hd_daily_game_anger i) (_daily_game_time h) now).

(** ** The restart *)

(** The state a restart leads to, for its price. *)
Definition restarted (jewel count now : Z) (h : DreamHero) : DreamHero :=
  set__last_daily_reset_game_time (u32 now)
    (set__info (set_hd_daily_reset_game_count count (set_hd_jewel (hd_jewel (_info h) -ᵢ jewel)
      (set_hd_daily_game_anger 0 (set_hd_daily_game_hp_pct 100
      (set_hd_daily_game_record_progress 0 (set_hd_daily_game_progress 0 (_info h))))))) h).

Definition today (time : Z) (s : HS) : bool :=
  GameConfig_isInToday (timezone (srv s)) (g_server_time (srv s))
    (day_Refresh_time_ (getGlobalConfig (gGameConfig (srv s)))) time.

Lemma reset_price_spec g count jewel :
  1 <= count < 2^31 -> Z.of_nat (length (daily_game_reset_jewel_config_ g)) < 2^31 ->
  reset_price g count = Some jewel <->
  count <= Z.of_nat (length (daily_game_reset_jewel_config_ g)) /\
  daily_game_reset_jewel_config_ g !! Z.to_nat (count - 1) = Some jewel.
Proof.
  intros Hc Hl. unfold reset_price. rewrite i32_id by (unfold is_i32; lia).
  unfold u64. rewrite Z.mod_small by lia.
  destruct (Z.geb_spec (count - 1) (Z.of_nat (length (daily_game_reset_jewel_config_ g)))).
  - split; [done|lia].
  - split; [intros H'; split; [lia|done]|tauto].
Qed.

(** the daily game is restarted against jewels, each restart of a day at the
    next configured price and never more often than there are prices: progress,
    anger and health start afresh, the price is taken, the restart counted and
    stamped.  A refused restart changes nothing. *)
Theorem ReqResetDailyGameProgress_correct s :
  let i := _info (this s) in
  let prices := daily_game_reset_jewel_config_ (getGlobalConfig (gGameConfig (srv s))) in
  let count := if today (_last_daily_reset_game_time (this s)) s
               then hd_daily_reset_game_count i + 1 else 1 in
  session_valid s -> is_i32 (hd_jewel i) -> Forall (fun p => 0 <= p) prices ->
  Z.of_nat (length prices) < 2^31 -> 0 <= hd_daily_reset_game_count i < 2^31 - 1 ->
  exists s', ReqResetDailyGameProgress s = Some (tt, s') /\ exists e,
    out (srv s') = out (srv s) ++ delivery s (MsgS2CResetDailyGameProgressACK e
      (hd_daily_game_progress (_info (this s'))) (hd_daily_reset_game_count (_info (this s')))
      (_last_daily_reset_game_time (this s')) (hd_jewel (_info (this s')))) /\
    (hd_daily_reset_game_count i <= Z.of_nat (length prices) ->
       hd_daily_reset_game_count (_info (this s')) <= Z.of_nat (length prices)) /\
    ((e = Error_NO /\ today (_daily_game_time (this s)) s = true /\ hd_daily_game_progress i <> 0 /\
        exists jewel, prices !! Z.to_nat (count - 1) = Some jewel /\ jewel <= hd_jewel i /\
          this s' = restarted jewel count (g_server_time (srv s)) (this s) /\
          hd_jewel (_info (this s')) = hd_jewel i - jewel)
     \/ (e <> Error_NO /\ this s' = this s)).
Proof.
  intros i prices count Hs Hj Hp Hlen Hcnt. apply wp_unit. unfold ReqResetDailyGameProgress.
  apply wp_bind, wp_gets, wp_bind, wp_gets, wp_bind, wp_gets, wp_bind, wp_gets, wp_bind, wp_gets.
  fold (today (_daily_game_time (this s)) s) (today (_last_daily_reset_game_time (this s)) s) i.
  assert (Hcount : reset_count (today (_last_daily_reset_game_time (this s)) s) i = count).
  { unfold reset_count, count. destruct (today _ s); cbn [negb]; [|done].
    by rewrite i32_id by (unfold is_i32; lia). }
  assert (Hc1 : 1 <= count < 2^31) by (unfold count; destruct (today _ s); lia).
  rewrite Hcount. apply wp_bind.
  eapply (wp_mono _ (fun e s1 =>
    (e = Error_NO /\ today (_daily_game_time (this s)) s = true /\ hd_daily_game_progress i <> 0 /\
       exists jewel, reset_price (getGlobalConfig (gGameConfig (srv s))) count = Some jewel /\
         jewel <= hd_jewel i /\ s1 = mkHS (restarted jewel count (g_server_time (srv s)) (this s)) (srv s))
    \/ (e <> Error_NO /\ s1 = s))).
  { hs_run; try (right; done). left. apply orb_false_elim in Hc as [H1 H2]. to_prop.
    rewrite Z.gtb_ltb in *. to_prop. do 3 (split; [done|]). eexists. by split. }
  intros e s1 [(-> & Ht & Hpr & jewel & Hprice & Hle & ->)|[He ->]].
  - hs_run; [done|]. exists Error_NO. split; [done|].
    apply reset_price_spec in Hprice as [Hn Hprice]; [|done|done]. fold prices in Hn, Hprice.
    split; [intros _; exact Hn|]. left. do 3 (split; [done|]). exists jewel. do 3 (split; [done|]).
    assert (0 <= jewel) by (eapply Forall_lookup_1; [exact Hp|exact Hprice]).
    change (hd_jewel i -ᵢ jewel = hd_jewel i - jewel). unfold is_i32 in Hj.
    apply i32_id. unfold is_i32. lia.
  - hs_run; [done|]. exists e. split; [done|]. split; [done|]. by right.
Qed.

(** A hero in the middle of today's game. *)
Definition demo_playing : HS :=
  mkHS (set__daily_game_time 1500030000
         (set__info (set_hd_daily_game_progress 3 demo_info) demo_hero))
    (set_g_server_time 1500040000 demo_server).

Lemma ReqResetDailyGameProgress_correct_witness :
  session_valid demo_playing /\
  (exists s', ReqResetDailyGameProgress demo_playing = Some (tt, s') /\
     (0 <= 2 -> hd_daily_reset_game_count (_info (this s')) <= 2)) /\
  ((fun r => (hd_jewel (_info (this r.2)), hd_daily_reset_game_count (_info (this r.2))))
     <$> ReqResetDailyGameProgress demo_playing) = Some (20, 1).
Proof.
  split; [reflexivity|]. split; [|vm_compute; reflexivity].
  destruct (ReqResetDailyGameProgress_correct demo_playing) as (s' & Hr & e & _ & Hn & _);
    [reflexivity|unfold is_i32; cbn; lia|repeat constructor; lia|cbn; lia|cbn; lia|].
  exists s'. split; [exact Hr|exact Hn].
Defined.

(** ** Prizes *)

(** A prize is received once: it is added to the gold and cleared, so that
    asking again, with any messages in between that leave the hero alone, gives
    nothing. *)
Theorem ReqReceiveDailyGamePrize_correct s :
  let i := _info (this s) in
  session_valid s ->
  exists s', ReqReceiveDailyGamePrize s = Some (tt, s') /\
    hd_daily_game_gold (_info (this s')) = 0 /\
    (hd_daily_game_gold i <> 0 ->
       this s' = set__info (set_hd_daily_game_gold 0 (set_hd_gold (hd_gold i +ᵢ hd_daily_game_gold i) i)) (this s) /\
       out (srv s') = out (srv s) ++ delivery s
         (MsgS2CReceiveDailyGamePrizeACK Error_NO (hd_gold i +ᵢ hd_daily_game_gold i))) /\
    (hd_daily_game_gold i = 0 -> this s' = this s /\
       out (srv s') = out (srv s) ++ delivery s
         (MsgS2CReceiveDailyGamePrizeACK Error_FailedToReceivedDailyGamePrizeNOPrize (hd_gold i))).
Proof.
  intros i Hs. apply wp_unit. unfold ReqReceiveDailyGamePrize. hs_run; to_prop; done.
Qed.

Lemma ReqReceiveDailyGamePrize_correct_witness :
  let rich := mkHS (set__info (set_hd_daily_game_gold 70 demo_info) demo_hero) demo_server in
  session_valid rich /\
  (exists s', ReqReceiveDailyGamePrize rich = Some (tt, s') /\ hd_daily_game_gold (_info (this s')) = 0) /\
  ((fun r => hd_gold (_info (this r.2))) <$> ReqReceiveDailyGamePrize rich) = Some 970.
Proof.
  intros rich. split; [reflexivity|]. split; [|vm_compute; reflexivity].
  destruct (ReqReceiveDailyGamePrize_correct rich) as (s' & Hr & H0 & _); [reflexivity|].
  exists s'. split; [exact Hr|exact H0].
Defined.

(** ** Progress *)

(** What the game of the day keeps: health is a percentage the client reported,
    progress between nothing and the last stage, no saved progress. *)
Definition daily_inv (max : Z) (i : MsgHeroData) : Prop :=
  0 <= hd_daily_game_progress i <= max /\ 0 <= hd_daily_game_hp_pct i /\
  hd_daily_game_record_progress i = 0.

Lemma start_daily_game_inv max t h : 0 <= max ->
  daily_inv max (_info h) -> daily_inv max (_info (start_daily_game t h)).
Proof.
  intros Hm (H1 & H2 & H3). unfold start_daily_game. destruct (negb _); [|done].
  unfold daily_inv. cbn. lia.
Qed.

(** A report is accepted from a living hero that has not finished: for the next
    stage when it survived it, for the current one when it did not, or for
    stage one. *)
Definition report_accepted (msg : MsgC2SReqUpdateDailyGameProgress) (max : Z) (i : MsgHeroData) : Prop :=
  hd_daily_game_progress i <> max /\ 0 < hd_daily_game_hp_pct i /\
  (ud_daily_game_progress msg = 1 \/
   ud_daily_game_progress msg = hd_daily_game_progress i + (if 0 <? ud_hp_pct msg then 1 else 0)).

Lemma daily_check_spec msg max i :
  daily_inv max i -> max < 2^31 - 1 ->
  if err_ok (daily_check msg max i) then report_accepted msg max i else ~ report_accepted msg max i.
Proof.
  intros (H1 & H2 & H3) Hm. unfold daily_check, report_accepted. rewrite H3. change (0 +ᵢ 1) with 1.
  rewrite i32_id by (unfold is_i32; lia). rewrite !Z.gtb_ltb.
  destruct (Z.eqb_spec (hd_daily_game_progress i) max); [cbn; tauto|].
  destruct (Z.eqb_spec (hd_daily_game_hp_pct i) 0) as [Hz|Hz].
  { rewrite Hz. cbn [andb]. destruct (_ && _); cbn; lia. }
  rewrite andb_false_r. rewrite (proj2 (Z.ltb_lt 0 (hd_daily_game_hp_pct i))) by lia.
  assert (Hhp : (0 <? (if ud_hp_pct msg <? 0 then 0 else ud_hp_pct msg)) = (0 <? ud_hp_pct msg)).
  { destruct (Z.ltb_spec (ud_hp_pct msg) 0); [|done]. symmetry. apply Z.ltb_ge. lia. }
  rewrite Hhp. destruct (0 <? ud_hp_pct msg);
    destruct (_ || _) eqn:E; cbn [err_ok]; try (apply orb_prop in E); try (apply orb_false_elim in E);
    destruct E; to_prop; lia.
Qed.

Lemma wp_ReqUpdateDailyGameProgress msg s (Q : unit -> HS -> Prop) :
  let r := gRankManager (srv s) in
  let h := start_daily_game (getDailyGameBeginTime r) (this s) in
  let reply e rank i := MsgS2CUpdateDailyGameProgressACK e (hd_daily_game_score i) rank
    (hd_daily_game_progress i) (hd_daily_game_record_progress i) (hd_daily_game_hp_pct i)
    (hd_daily_game_anger i) (_daily_game_time h) (g_server_time (srv s)) in
  session_valid s ->
  (forall s', daily_check msg (getMaxDailyProgress r) (_info h) = Error_NO ->
     let r' := (updateHeroDailyRank (g_server_time (srv s)) (_account (this s)) (hd_name (_info (this s)))
                  (ud_score msg) r).1 in
     let i' := daily_settled msg (_info h) in
     this s' = set__info i' h -> gRankManager (srv s') = r' ->
     out (srv s') = out (srv s) ++ delivery s (reply Error_NO (getHeroDailyRank (_account (this s)) r') i') -> Q tt s') ->
  (forall s' e, daily_check msg (getMaxDailyProgress r) (_info h) = e -> e <> Error_NO ->
     this s' = h -> gRankManager (srv s') = r ->
     out (srv s') = out (srv s) ++ delivery s (reply e 101 (_info h)) -> Q tt s') ->
  wp (ReqUpdateDailyGameProgress msg) Q s.
Proof.
  intros r h reply Hs Hok Hbad. unfold ReqUpdateDailyGameProgress, get_rank.
  assert (Hsame : _session h = _session (this s) /\ _account h = _account (this s)
            /\ hd_name (_info h) = hd_name (_info (this s))).
  { unfold h, start_daily_game. by destruct (negb _). }
  destruct Hsame as (Hse & Hacc & Hname).
  apply wp_bind, wp_gets, wp_bind, wp_gets, wp_bind, wp_on_hero. fold r h.
  apply wp_bind, wp_gets. cbn [this srv].
  assert (Hs' : session_valid (mkHS h (srv s))) by (unfold session_valid; cbn [this srv]; by rewrite Hse).
  assert (Hd : forall msg, delivery (mkHS h (srv s)) msg = delivery s msg)
    by (intros m; unfold delivery; cbn [this srv]; by rewrite Hse).
  destruct (err_ok (daily_check msg (getMaxDailyProgress r) (_info h))) eqn:E.
  - apply err_ok_true in E. rewrite E. cbn [err_ok]. hs_run; [done|]. apply (Hok _ E); [done|by rewrite Hacc, Hname|].
    cbn [out sent srv this set_out set_gRankManager set_gRecordManager]. rewrite <- Hd. unfold reply.
    by rewrite <- Hacc, <- Hname.
  - hs_run; [done|]. apply (Hbad _ (daily_check msg (getMaxDailyProgress r) (_info h)));
      [done|by intros He; rewrite He in E|done|done|].
    cbn [out sent srv this set_out]. by rewrite Hd.
Qed.

Lemma daily_settled_inv msg max i :
  daily_inv max i -> report_accepted msg max i -> daily_inv max (daily_settled msg i).
Proof.
  intros (H1 & H2 & H3) (Hne & Hhp & Hpr). unfold daily_inv, daily_settled. cbn.
  rewrite Z.gtb_ltb. split; [|split; [|done]].
  - destruct (Z.ltb_spec (ud_hp_pct msg) 0); cbn; [lia|].
    destruct (Z.ltb_spec 0 (ud_hp_pct msg)); [|lia]. lia.
  - destruct (Z.ltb_spec (ud_hp_pct msg) 0); lia.
Qed.

(** A report of the daily game is accepted exactly from a living hero that
    has not finished, for the next stage if it survived, the current one if it
    fell, or the first; then progress, health, anger, score and the ranking
    follow the report and the reply carries the hero's rank.  A refused report
    leaves the (freshly started) game and the ranking alone.  Progress never
    passes the last stage. *)
Theorem ReqUpdateDailyGameProgress_correct msg s :
  let r := gRankManager (srv s) in
  let max := getMaxDailyProgress r in
  let h := start_daily_game (getDailyGameBeginTime r) (this s) in
  let reply e rank i := MsgS2CUpdateDailyGameProgressACK e (hd_daily_game_score i) rank
    (hd_daily_game_progress i) (hd_daily_game_record_progress i) (hd_daily_game_hp_pct i)
    (hd_daily_game_anger i) (_daily_game_time h) (g_server_time (srv s)) in
  session_valid s -> daily_inv max (_info (this s)) -> max < 2^31 - 1 ->
  exists s', ReqUpdateDailyGameProgress msg s = Some (tt, s') /\
    daily_inv max (_info (this s')) /\
    (report_accepted msg max (_info h) ->
       let r' := (updateHeroDailyRank (g_server_time (srv s)) (_account (this s))
                    (hd_name (_info (this s))) (ud_score msg) r).1 in
       let i' := daily_settled msg (_info h) in
       this s' = set__info i' h /\ gRankManager (srv s') = r' /\
       out (srv s') = out (srv s) ++
         delivery s (reply Error_NO (getHeroDailyRank (_account (this s)) r') i')) /\
    (~ report_accepted msg max (_info h) -> this s' = h /\ gRankManager (srv s') = r /\
       exists e, e <> Error_NO /\ out (srv s') = out (srv s) ++ delivery s (reply e 101 (_info h))).
Proof.
  intros r max h reply Hs Hinv Hmax.
  assert (Hinv' : daily_inv max (_info h)) by (apply start_daily_game_inv; [destruct Hinv; lia|done]).
  pose proof (daily_check_spec msg max (_info h) Hinv' Hmax) as Hspec.
  apply wp_unit, wp_ReqUpdateDailyGameProgress; [done| |]; fold r h max.
  - intros s' He. rewrite He in Hspec. cbn [err_ok] in Hspec. cbv zeta. intros Ht Hr Ho.
    split; [rewrite Ht; by apply daily_settled_inv|]. by split.
  - intros s' e He Hne Ht Hr Ho. assert (Hf : err_ok e = false).
    { destruct (err_ok e) eqn:E; [|done]. by apply err_ok_true in E. }
    rewrite He, Hf in Hspec. split; [by rewrite Ht|]. split; [done|].
    intros _. split; [done|]. split; [done|]. by exists e.
Qed.

Lemma ReqUpdateDailyGameProgress_correct_witness :
  let alive := mkHS (set__daily_game_time 1500000000 (set__info (set_hd_daily_game_hp_pct 100
     (set_hd_daily_game_progress 3 demo_info)) demo_hero)) demo_server in
  let report := mkUpdateDaily 80 4 777 5 in
  session_valid alive /\ daily_inv 50 (_info (this alive)) /\
  (exists s', ReqUpdateDailyGameProgress report alive = Some (tt, s') /\ daily_inv 50 (_info (this s'))) /\
  ((fun r => (hd_daily_game_progress (_info (this r.2)), map score_ (_heroes_daily_rank (gRankManager (srv r.2)))))
     <$> ReqUpdateDailyGameProgress report alive) = Some (4, [777]).
Proof.
  intros alive report. assert (Hinv : daily_inv 50 (_info (this alive))) by (unfold daily_inv; cbn; lia).
  split; [reflexivity|]. split; [exact Hinv|]. split; [|vm_compute; reflexivity].
  destruct (ReqUpdateDailyGameProgress_correct report alive) as (s' & Hr & Hi & _);
    [reflexivity|exact Hinv|cbn; lia|]. exists s'. split; [exact Hr|exact Hi].
Defined.

(** The prize of a finished game is computed from the progress as if it were a
    rank: no progress at all earns the prize of the first place. *)
Example idle_hero_wins :
  let idle := mkHS (set__daily_game_time 1499900000 (set__info (set_hd_daily_game_progress 0 demo_info) demo_hero))
                demo_server in
  ((fun r => hd_daily_game_gold (_info (this r.2))) <$> TryToGetGamePrize true idle) = Some 1000.
Proof. vm_compute. reflexivity. Qed.
