(* ===== verification/HeroSave.v ===== *)
(** * Saving a hero and reading it back

    gameserver/DreamHero.cpp [SaveHero] writes a hero into one row of the table
    [character], composite data as text; databaseserver/db_quest.cpp
    [dbDoQueryHeroInfo] and [dbDoQueryHeroDeals] read the rows back into the
    message from which [DreamHero::set_info] restores the hero. *)
From S2P Require Import Prelude StdMap Data Text Calendar Config Record Rank Promotion Names Server.

(** ** The text columns *)
Definition records_text (l : list MsgIntPair) : string :=
  join ";" (map (fun pair_entry => sprintf "%d,%d" [AD (number_1 pair_entry); AD (number_2 pair_entry)]) l).
Definition heroes_text (l : list bool) : string :=
  join ";" (map (fun b_temp : bool => sprintf "%d" [AD (if b_temp then 1 else 0)]) l).
Definition tasks_text (l : list MsgTaskInfo) : string :=
  join ";" (map (fun t => sprintf "%d,%d,%d" [AD (taskid t); AD (argument_1 t); AD (usetime t)]) l).

(** One section with its kills; a section without kills is left out. *)
Definition kills_text (kills : list MsgObjConfig) : string :=
  foldr (fun k temp_str => ":" +:+ sprintf "%d,%d" [AD (obj_id k); AD (obj_type k)] +:+ temp_str)
    EmptyString kills.
Definition special_kill_text (m : list ((Z * Z) * list MsgObjConfig)) : string :=
  join ";" (map (fun it => sprintf "%d,%d" [AD it.1.1; AD it.1.2] +:+ kills_text it.2)
    (List.filter (fun it => negb (String.eqb (kills_text it.2) "")) m)).

Definition creatures_text (m : list (Z * Z)) : string :=
  join ";" (map (fun it => sprintf "%d,%d" [AD it.1; AD it.2]) m).
Definition grid_text (l : list MsgIntBoolPair) : string :=
  join ";" (map (fun p => sprintf "%d,%d" [AD (ib_number p); AD (if ib_valid p then 1 else 0)]) l).
Definition lotions_text (l : list Z) : string :=
  join "," (map (fun l => sprintf "%d" [AD l]) l).

(** ** SaveHero *)
Definition save_format : string := "replace into `character`(`account_id`, `name`, `gold`, `record_his`, `heroes_state`, `tasks`,`special_kill`,		`current_hero`, `current_chapter`, `current_section`, `complete_task_count`, `special_creatures`, 		 `free_task_count`,`last_task_advertisement_time`,`gm_level`, `current_task_count`, `tutorial_flag`,		 `jewel`, `spirit`,`last_recover_spirit_time`,`day_buy_spirit`, `last_buy_spirit_time`, `lotions`, `last_lottery_time`,		 `daily_game_progress`, `daily_game_score`, `daily_game_gold`, `daily_game_time`, `daily_game_prize_time`,`daily_game_hp_pct`,		 `daily_game_record_progress`, `daily_reset_game_count`, `last_daily_reset_game_time`, `daily_top_grogress`, `daily_game_anger`, `concern_weixin`, `grid_state_notify`) values 		(%llu, '%s', %d, '%s', '%s', '%s', '%s', %d, %d, %d, %d, '%s',%d, '%s', %d, %d, %d, %d, %d,		 '%s', %d, '%s', '%s', '%s', %d, %d, %d, '%s','%s', %d, %d, %d, '%s', %d, %d, %d, '%s');".

Definition save_args (tz : Z) (h : DreamHero) : list arg :=
  let time t := AS (build_unix_time_to_string tz t) in
  let i := _info h in
    [AU (_account h); AS (hd_name i); AD (hd_gold i); AS (records_text (hd_records i));
     AS (heroes_text (hd_heroes i)); AS (tasks_text (hd_tasks i));
     AS (special_kill_text (_special_kills h)); AD (hd_current_hero i); AD (_current_chapter h);
     AD (_current_section h); AD (hd_complete_task_count i); AS (creatures_text (_special_creatures h));
     AD (_current_task_count h); time (_last_task_advertisement_time h); AD (_gm_level h);
     AD (_current_task_count h); AD (hd_new_tutorial i); AD (hd_jewel i); AD (hd_spirit i);
     time (_last_recover_spirit_time h); AD (hd_day_buy_spirit i); time (_last_buy_spirit_time h);
     AS (lotions_text (hd_lotions i)); time (_last_day_lottery_time h); AD (hd_daily_game_progress i);
     AD (hd_daily_game_score i); AD (hd_daily_game_gold i); time (_daily_game_time h);
     time (_daily_game_prize_time h); AD (hd_daily_game_hp_pct i); AD (hd_daily_game_record_progress i);
     AD (hd_daily_reset_game_count i); time (_last_daily_reset_game_time h); AD (hd_daily_top_grogress i);
     AD (hd_daily_game_anger i); AD (if hd_concern_weixin i then 1 else 0);
     AS (grid_text (hd_grid_notify_state i))].

Definition save_sql (tz : Z) (h : DreamHero) : string := sprintf save_format (save_args tz h).

Definition deal_head : string := "replace into deal_wait_to_pay(`order_id`, `account_id`, `key_code`, `status`, `price`, `deal_time`,`complete_status`) 				values".
Definition deal_row (tz now acc : Z) (d : DealWaitToPay) : string :=
  sprintf "(%d, %llu, '%s', %d, %d, '%s', %d)"
    [AD (order_id_ d); AU acc; AS (key_code_ d); AD (status_ d); AD (price_ d);
     AS (build_unix_time_to_string tz now); AD (deal_code (deal_type_ d))].

(** The statement buffer [temp] holds 4096 bytes, a deal row 256; overrunning
    one is undefined.  The loop meant to drop completed deals starts where the
    row loop ended, at the end, and drops none. *)
Definition SaveHero : M HS unit :=
  let* h := get_hero in
  let* s := gets srv in
  let sql := save_sql (timezone s) h in
  if Z.of_nat (String.length sql) <? 4096 then
    send_sql sql ;;;
    let rows := map (fun kv => deal_row (timezone s) (g_server_time s) (_account h) kv.2)
                  (_deals_wait_to_pay h) in
    if negb (Z.of_nat (length rows) =? 0) then
      if forallb (fun r => Z.of_nat (String.length r) <? 256) rows then
        send_sql (deal_head +:+ join "," rows)
      else ub
    else ret tt
  else ub.

(** ** The messages of the database server (message/msg_game_db.proto) *)
Record MsgDealInfo := mkDealInfo {
  dl_order : Z;
  dl_product_id : string;
  dl_status : Z;
  dl_complete_status : Z;
  dl_cur_receipt : string
}.

Record MsgMapSpecialKill := mkMapSpecialKill {
  mk_chapter_id : Z;
  mk_section_id : Z;
  mk_kills : list MsgObjConfig
}.

Record MsgHeroDataDB2GS := mkHeroDataDB2GS {
  dbi_account : Z;
  dbi_data : MsgHeroData;
  dbi_current_chapter : Z;
  dbi_current_section : Z;
  dbi_free_task_count : Z;
  dbi_last_task_advertisement_time : Z;
  dbi_special_kills : list MsgMapSpecialKill;
  dbi_gm_level : Z;
  dbi_deals : list MsgDealInfo;
  dbi_special_creatures : list MsgIntPair;
  dbi_last_recover_spirit_time : Z;
  dbi_last_buy_spirit_time : Z;
  dbi_last_lottery_time : Z;
  dbi_daily_game_time : Z;
  dbi_daily_game_prize_time : Z;
  dbi_last_daily_reset_game_time : Z
}.

(** ** dbDoQueryHeroInfo: parsing the text columns *)
Definition parse_records (records_str : string) : list MsgIntPair :=
  concat (map (fun strTemp =>
    match split strTemp "," with
    | [a; b] => [mkIntPair (atoi a) (atoi b)]
    | _ => []
    end) (split records_str ";")).

Definition parse_heroes (heroesstate : string) : list bool :=
  map (fun strTemp => negb (atoi strTemp =? 0)) (split heroesstate ";").

Definition parse_tasks (heroestasks : string) : list MsgTaskInfo :=
  concat (map (fun strTemp =>
    match split strTemp "," with
    | [a; b; c] => [mkTaskInfo (atoi a) (atoi b) (atoi c)]
    | _ => []
    end) (split heroestasks ";")).

Definition parse_kills (outVC1 : list string) : list MsgObjConfig :=
  concat (map (fun k =>
    match split k "," with
    | [id_temp; type_temp] => [mkObjConfig (atoi type_temp) (atoi id_temp)]
    | _ => []
    end) outVC1).

Definition parse_special_kill (herospecialkills : string) : list MsgMapSpecialKill :=
  concat (map (fun strTemp =>
    match split strTemp ":" with
    | place :: kill :: kills =>
        match split place "," with
        | [chapter_id; section_id] =>
            [mkMapSpecialKill (atoi chapter_id) (atoi section_id) (parse_kills (kill :: kills))]
        | _ => []
        end
    | _ => []
    end) (split herospecialkills ";")).

Definition parse_lotions (lotions_str : string) : list Z := map atoi (split lotions_str ",").

Definition parse_creatures (special_creatures : string) : list MsgIntPair :=
  concat (map (fun strTemp =>
    match split strTemp "," with
    | a :: b :: _ => [mkIntPair (atoi a) (atoi b)]
    | _ => []
    end) (split special_creatures ";")).

Definition parse_grid (grid_state_notify : string) : list MsgIntBoolPair :=
  concat (map (fun strTemp =>
    match split strTemp "," with
    | a :: b :: _ => [mkIntBoolPair (atoi a) (negb (atoi b =? 0))]
    | _ => []
    end) (split grid_state_notify ";")).

Section Query.
Context {Row : Type} `{DBRow Row}.

Definition read_hero (row : Row) : MsgHeroData :=
  mkHeroData (row_str row "name") (row_int row "gold") (parse_records (row_str row "record_his"))
    (parse_heroes (row_str row "heroes_state")) (parse_tasks (row_str row "tasks"))
    (row_int row "current_hero") (row_int row "complete_task_count") (row_int row "tutorial_flag")
    (row_int row "jewel") (row_int row "spirit") (row_int row "day_buy_spirit")
    (parse_lotions (row_str row "lotions")) (row_int row "daily_game_progress")
    (row_int row "daily_game_gold") (row_int row "daily_game_score") (row_int row "daily_game_hp_pct")
    (row_int row "daily_game_record_progress") (row_int row "daily_reset_game_count")
    (row_int row "daily_top_grogress") (row_int row "daily_game_anger")
    (negb (row_int row "concern_weixin" =? 0)) (parse_grid (row_str row "grid_state_notify")).

(** The answer to [queryHeroInfo] before the deals are added; [None] asks the
    game server to create the hero. *)
Definition dbDoQueryHeroInfo (rows : list Row) : option MsgHeroDataDB2GS :=
  match rows with
  | row :: _ =>
      Some (mkHeroDataDB2GS (row_int row "account_id") (read_hero row)
        (row_int row "current_chapter") (row_int row "current_section") (row_int row "free_task_count")
        (row_int row "UNIX_TIMESTAMP(`last_task_advertisement_time`)")
        (parse_special_kill (row_str row "special_kill")) (row_int row "gm_level") []
        (parse_creatures (row_str row "special_creatures"))
        (row_int row "UNIX_TIMESTAMP(`last_recover_spirit_time`)")
        (row_int row "UNIX_TIMESTAMP(`last_buy_spirit_time`)")
        (row_int row "UNIX_TIMESTAMP(`last_lottery_time`)")
        (row_int row "UNIX_TIMESTAMP(`daily_game_time`)")
        (row_int row "UNIX_TIMESTAMP(`daily_game_prize_time`)")
        (row_int row "UNIX_TIMESTAMP(`last_daily_reset_game_time`)"))
  | [] => None
  end.

Definition dbDoQueryHeroDeals (rows : list Row) (info : MsgHeroDataDB2GS) : MsgHeroDataDB2GS :=
  let deals := map (fun row => mkDealInfo (row_int row "order_id") (row_str row "key_code")
                 (row_int row "status") (row_int row "complete_status") (row_str row "receipt")) rows in
  mkHeroDataDB2GS (dbi_account info) (dbi_data info) (dbi_current_chapter info)
    (dbi_current_section info) (dbi_free_task_count info) (dbi_last_task_advertisement_time info)
    (dbi_special_kills info) (dbi_gm_level info) (dbi_deals info ++ deals) (dbi_special_creatures info)
    (dbi_last_recover_spirit_time info) (dbi_last_buy_spirit_time info) (dbi_last_lottery_time info)
    (dbi_daily_game_time info) (dbi_daily_game_prize_time info) (dbi_last_daily_reset_game_time info).
End Query.

(** ** Parsing undoes printing *)

(** Items of a column: not empty and without the separator. *)
Definition item (c : ascii) (s : string) : Prop := no_char c s /\ s <> EmptyString.

Lemma split_items c (l : list string) : Forall (item c) l ->
  split (join (String c EmptyString) l) (String c EmptyString) = l.
Proof. apply split_join. Qed.

Lemma show_item c z : is_digit c = false -> c <> "-"%char -> item c (print_d z).
Proof. apply print_d_item. Qed.

(** The [sprintf]s of the columns are joins of decimal numbers. *)
Lemma print2 a b : sprintf "%d,%d" [AD a; AD b] = join "," [print_d a; print_d b].
Proof. cbn. by rewrite str_app_nil_r. Qed.
Lemma print3 a b c : sprintf "%d,%d,%d" [AD a; AD b; AD c] = join "," [print_d a; print_d b; print_d c].
Proof. cbn. by rewrite str_app_nil_r. Qed.
Lemma print1 a : sprintf "%d" [AD a] = print_d a.
Proof. cbn. by rewrite str_app_nil_r. Qed.

Lemma split_numbers l : split (join "," (map print_d l)) "," = map print_d l.
Proof.
  apply split_items, Forall_map, Forall_true. intros z. by apply show_item.
Qed.

Lemma numbers_item c l : is_digit c = false -> c <> "-"%char -> c <> ","%char -> l <> [] ->
  item c (join "," (map print_d l)).
Proof.
  intros H1 H2 H3 Hl. split.
  - apply join_no_char.
    + apply Forall_map, Forall_true. intros z. by apply print_d_no_char.
    + unfold no_char. cbn. by intros ->%list_elem_of_singleton.
  - apply join_nonempty; [|by destruct l].
    apply Forall_map, Forall_true. intros z. apply print_d_nonempty.
Qed.

Lemma concat_single {A B} (f : A -> list B) (g : A -> B) l :
  (forall a, f a = [g a]) -> concat (map f l) = map g l.
Proof. intros Hf. induction l as [|a l IH]; [done|]. cbn. by rewrite Hf, IH. Qed.

(** A column of number groups, parsed group by group. *)
Lemma column_roundtrip {A B} (nums : A -> list Z) (parse : string -> list B) (back : A -> B) (l : list A) :
  (forall a, nums a <> []) ->
  (forall a, parse (join "," (map print_d (nums a))) = [back a]) ->
  concat (map parse (split (join ";" (map (fun a => join "," (map print_d (nums a))) l)) ";"))
  = map back l.
Proof.
  intros Hne Hp. rewrite split_items.
  - rewrite map_map. by apply concat_single.
  - apply Forall_map, Forall_true. intros a. by apply numbers_item.
Qed.

Lemma records_roundtrip l : parse_records (records_text l) = l.
Proof.
  unfold parse_records, records_text.
  rewrite (map_ext _ (fun p => join "," (map print_d [number_1 p; number_2 p])))
    by (intros p; apply print2).
  rewrite (column_roundtrip (fun p => [number_1 p; number_2 p]) _ id); [apply map_id|done|].
  intros [a b]. rewrite split_numbers. cbn. by rewrite !atoi_print_d.
Qed.

Lemma tasks_roundtrip l : parse_tasks (tasks_text l) = l.
Proof.
  unfold parse_tasks, tasks_text.
  rewrite (map_ext _ (fun t => join "," (map print_d [taskid t; argument_1 t; usetime t])))
    by (intros t; apply print3).
  rewrite (column_roundtrip (fun t => [taskid t; argument_1 t; usetime t]) _ id); [apply map_id|done|].
  intros [a b c]. rewrite split_numbers. cbn. by rewrite !atoi_print_d.
Qed.

Lemma heroes_roundtrip l : parse_heroes (heroes_text l) = l.
Proof.
  unfold parse_heroes, heroes_text. rewrite (map_ext _ (fun b : bool => print_d (if b then 1 else 0)))
    by (intros b; apply print1).
  rewrite split_items.
  - rewrite map_map. rewrite <- (map_id l) at 2. apply map_ext. intros b.
    rewrite atoi_print_d. by destruct b.
  - apply Forall_map, Forall_true. intros b. by apply show_item.
Qed.

Lemma lotions_roundtrip l : parse_lotions (lotions_text l) = l.
Proof.
  unfold parse_lotions, lotions_text. rewrite (map_ext _ print_d) by (intros z; apply print1).
  rewrite split_numbers, map_map. rewrite <- (map_id l) at 2. apply map_ext, atoi_print_d.
Qed.

Lemma creatures_roundtrip m : parse_creatures (creatures_text m) = map (fun kv => mkIntPair kv.1 kv.2) m.
Proof.
  unfold parse_creatures, creatures_text.
  rewrite (map_ext _ (fun it => join "," (map print_d [it.1; it.2]))) by (intros it; apply print2).
  apply (column_roundtrip (fun it => [it.1; it.2])); [done|].
  intros [a b]. rewrite split_numbers. cbn. by rewrite !atoi_print_d.
Qed.

Lemma grid_roundtrip l : parse_grid (grid_text l) = l.
Proof.
  unfold parse_grid, grid_text.
  rewrite (map_ext _ (fun p => join "," (map print_d [ib_number p; if ib_valid p then 1 else 0])))
    by (intros p; apply print2).
  rewrite (column_roundtrip (fun p => [ib_number p; if ib_valid p then 1 else 0]) _ id); [apply map_id|done|].
  intros [a b]. rewrite split_numbers. cbn. rewrite !atoi_print_d. by destruct b.
Qed.

(** The text of one section: place and kills, joined by colons. *)
Lemma kills_join s kills :
  s +:+ kills_text kills = join ":" (s :: map (fun k => join "," (map print_d [obj_id k; obj_type k])) kills).
Proof.
  revert s. induction kills as [|k kills IH]; intros s; [apply str_app_nil_r|].
  change (kills_text (k :: kills)) with (":" +:+ sprintf "%d,%d" [AD (obj_id k); AD (obj_type k)] +:+ kills_text kills).
  rewrite print2, IH. done.
Qed.

Lemma kills_text_empty kills : String.eqb (kills_text kills) EmptyString = bool_decide (kills = []).
Proof. by destruct kills. Qed.

Lemma parse_kills_print kills :
  parse_kills (map (fun k => join "," (map print_d [obj_id k; obj_type k])) kills) = kills.
Proof.
  unfold parse_kills. rewrite map_map, (concat_single _ id); [apply map_id|].
  intros [ty id]. rewrite split_numbers. cbn. by rewrite !atoi_print_d.
Qed.

(** The sections that have kills. *)
Definition with_kills (m : list ((Z * Z) * list MsgObjConfig)) : list ((Z * Z) * list MsgObjConfig) :=
  List.filter (fun it => negb (bool_decide (it.2 = []))) m.

Lemma section_items it :
  let text := sprintf "%d,%d" [AD it.1.1; AD it.1.2] +:+ kills_text it.2 in
  item ";" text /\ split text ":" = join "," (map print_d [it.1.1; it.1.2])
    :: map (fun k => join "," (map print_d [obj_id k; obj_type k])) it.2.
Proof.
  cbv zeta. rewrite print2, kills_join.
  change [print_d it.1.1; print_d it.1.2] with (map print_d [it.1.1; it.1.2]).
  assert (Hall : forall c, is_digit c = false -> c <> "-"%char -> c <> ","%char ->
    Forall (item c) (join "," (map print_d [it.1.1; it.1.2])
      :: map (fun k => join "," (map print_d [obj_id k; obj_type k])) it.2)).
  { intros c H1 H2 H3. constructor; [by apply numbers_item|].
    apply Forall_map, Forall_true. intros k. by apply numbers_item. }
  split; [|by apply split_items, Hall]. split.
  - apply join_no_char; [|unfold no_char; cbn; by intros ?%list_elem_of_singleton].
    eapply Forall_impl; [by apply (Hall ";"%char)|]. by intros x [? _].
  - apply join_nonempty; [|done]. eapply Forall_impl; [by apply (Hall ";"%char)|]. by intros x [_ ?].
Qed.

Lemma special_kill_roundtrip m :
  parse_special_kill (special_kill_text m)
  = map (fun it => mkMapSpecialKill it.1.1 it.1.2 it.2) (with_kills m).
Proof.
  unfold parse_special_kill, special_kill_text, with_kills.
  rewrite (filter_ext _ (fun it => negb (bool_decide (it.2 = [])))) by (intros it; by rewrite kills_text_empty).
  rewrite split_items by (apply Forall_map, Forall_true; intros it; apply (section_items it)).
  rewrite map_map.
  assert (Hne : Forall (fun it : (Z * Z) * list MsgObjConfig => it.2 <> []) (List.filter (fun it => negb (bool_decide (it.2 = []))) m)).
  { apply Forall_forall. intros it Hit. apply list_elem_of_In, filter_In in Hit as [_ Hit].
    by destruct (bool_decide_reflect (it.2 = [])). }
  induction Hne as [|[[c s] kills] l Hk _ IH]; [done|]. rewrite !map_cons. cbn [concat]. rewrite IH.
  destruct (section_items ((c, s), kills)) as [_ ->]. cbn [fst snd] in *.
  destruct kills as [|k kills]; [done|]. rewrite map_cons.
  change (join "," (map print_d [obj_id k; obj_type k]) :: map _ kills)
    with (map (fun k => join "," (map print_d [obj_id k; obj_type k])) (k :: kills)).
  rewrite parse_kills_print, split_numbers. cbn [map]. by rewrite !atoi_print_d.
Qed.

(** ** The row of a saved hero *)

(** The column names of the statement: what stands between the backticks, after
    the table name. *)
Fixpoint quoted (l : list string) : list string :=
  match l with
  | _ :: name :: l' => name :: quoted l'
  | _ => []
  end.
Definition save_columns : list string := tail (quoted (split save_format "`")).

(** The database keeps in every column the value of its argument; a time column
    reads back as the time it was written from. *)
Section Stored.
Context {Row : Type} `{DBRow Row}.

Definition holds (row : Row) (col : string) (a : arg) : Prop :=
  match a with
  | AD z | AU z => row_int row col = z
  | AS s => row_str row col = s
  end.
Definition stored (tz : Z) (h : DreamHero) (row : Row) : Prop :=
  Forall2 (holds row) save_columns (save_args tz h).
Definition unix_timestamp (col : string) : string := "UNIX_TIMESTAMP(`" +:+ col +:+ "`)".
Definition save_times (h : DreamHero) : list (string * Z) :=
  [("last_task_advertisement_time", _last_task_advertisement_time h);
   ("last_recover_spirit_time", _last_recover_spirit_time h);
   ("last_buy_spirit_time", _last_buy_spirit_time h); ("last_lottery_time", _last_day_lottery_time h);
   ("daily_game_time", _daily_game_time h); ("daily_game_prize_time", _daily_game_prize_time h);
   ("last_daily_reset_game_time", _last_daily_reset_game_time h)].
Definition reads_times (tz : Z) (h : DreamHero) (row : Row) : Prop :=
  Forall (fun ct => row_str row ct.1 = build_unix_time_to_string tz ct.2 ->
    row_int row (unix_timestamp ct.1) = ct.2) (save_times h).

(** What a saved hero is read back as.  The free-task count is stored twice;
    sections without kills are not stored. *)
Definition hero_message (h : DreamHero) : MsgHeroDataDB2GS :=
  mkHeroDataDB2GS (_account h) (_info h) (_current_chapter h) (_current_section h)
    (_current_task_count h) (_last_task_advertisement_time h)
    (map (fun it => mkMapSpecialKill it.1.1 it.1.2 it.2) (with_kills (_special_kills h)))
    (_gm_level h) [] (map (fun kv => mkIntPair kv.1 kv.2) (_special_creatures h))
    (_last_recover_spirit_time h) (_last_buy_spirit_time h) (_last_day_lottery_time h)
    (_daily_game_time h) (_daily_game_prize_time h) (_last_daily_reset_game_time h).
End Stored.

Lemma save_columns_eq : save_columns =
  ["account_id"; "name"; "gold"; "record_his"; "heroes_state"; "tasks"; "special_kill";
   "current_hero"; "current_chapter"; "current_section"; "complete_task_count"; "special_creatures";
   "free_task_count"; "last_task_advertisement_time"; "gm_level"; "current_task_count"; "tutorial_flag";
   "jewel"; "spirit"; "last_recover_spirit_time"; "day_buy_spirit"; "last_buy_spirit_time"; "lotions";
   "last_lottery_time"; "daily_game_progress"; "daily_game_score"; "daily_game_gold"; "daily_game_time";
   "daily_game_prize_time"; "daily_game_hp_pct"; "daily_game_record_progress"; "daily_reset_game_count";
   "last_daily_reset_game_time"; "daily_top_grogress"; "daily_game_anger"; "concern_weixin";
   "grid_state_notify"]%string.
Proof. vm_compute. reflexivity. Qed.

(** C11: a hero that is saved and read back is the same hero: from the row that
    the statement of [SaveHero] stores, the database server rebuilds every
    field of the hero data, the chapter and section, counters, stamps, special
    kills and creatures. *)
Theorem saved_hero_is_read_back {Row : Type} `{DBRow Row} tz h (row : Row) rest :
  stored tz h row -> reads_times tz h row ->
  dbDoQueryHeroInfo (row :: rest) = Some (hero_message h).
Proof.
  unfold stored. rewrite save_columns_eq. unfold save_args. cbv zeta. intros Hst Htimes.
  repeat (apply Forall2_cons in Hst as [? Hst]). cbn [holds] in *.
  unfold reads_times, save_times in Htimes. repeat (apply Forall_cons in Htimes as [? Htimes]).
  cbn [fst snd] in *.
  repeat match goal with
    | Hc : row_str row ?col = build_unix_time_to_string tz ?t -> _ |- _ =>
        specialize (Hc ltac:(assumption));
        let c := eval vm_compute in (unix_timestamp col) in
        change (row_int row c = t) in Hc
    end.
  unfold dbDoQueryHeroInfo, hero_message, read_hero.
  repeat match goal with Hc : row_str row _ = _ |- _ => rewrite Hc; clear Hc end.
  repeat match goal with Hc : row_int row _ = _ |- _ => rewrite Hc; clear Hc end.
  rewrite records_roundtrip, heroes_roundtrip, tasks_roundtrip, lotions_roundtrip, grid_roundtrip,
    special_kill_roundtrip, creatures_roundtrip.
  assert (Hw : negb ((if hd_concern_weixin (_info h) then 1 else 0) =? 0) = hd_concern_weixin (_info h))
    by (by destruct (hd_concern_weixin _)).
  rewrite Hw. do 2 f_equal. by destruct (_info h).
Qed.

(** A row for the witness: the arguments under their columns, the times also
    under their second name. *)
Definition saved_row : Type := list (string * arg).
Definition lookup_arg (r : saved_row) (col : string) : option arg :=
  snd <$> List.find (fun kv => String.eqb kv.1 col) r.
#[export] Instance saved_row_db : DBRow saved_row := {|
  row_int r col := match lookup_arg r col with Some (AD z) | Some (AU z) => z | _ => 0 end;
  row_str r col := match lookup_arg r col with Some (AS s) => s | _ => EmptyString end |}.
Definition row_of (tz : Z) (h : DreamHero) : saved_row :=
  combine save_columns (save_args tz h) ++ map (fun ct => (unix_timestamp ct.1, AU ct.2)) (save_times h).

Lemma saved_hero_is_read_back_witness :
  stored 0 demo_hero (row_of 0 demo_hero) /\
  dbDoQueryHeroInfo [row_of 0 demo_hero] = Some (hero_message demo_hero).
Proof.
  assert (Hst : stored 0 demo_hero (row_of 0 demo_hero)).
  { unfold stored. rewrite save_columns_eq. repeat constructor. }
  split; [exact Hst|]. apply (saved_hero_is_read_back 0 demo_hero); [exact Hst|].
  repeat constructor.
Defined.
