(* ===== verification/HeroLoad.v ===== *)
(** * gameserver/DreamHero: loading a hero and greeting its client

    [set_info] restores a hero from the database message, [LoadFromConfig]
    makes a new one, [SendClientInit] tells the client everything at login;
    the timers of the object are here too. *)
From S2P Require Import Prelude Float32 StdMap Data Text Calendar Config Record Rank Promotion Names Server HeroTask HeroDeal HeroDaily HeroSave.

(** ** Timers: the pending events of the object *)
Definition hasEvent (e : HeroEvent) (h : DreamHero) : bool := bool_decide (e ∈ _events h).
Definition removeEvents (e : HeroEvent) (h : DreamHero) : DreamHero :=
  set__events (filter (fun x => x <> e) (_events h)) h.
Definition addEvent (e : HeroEvent) (h : DreamHero) : DreamHero := set__events (_events h ++ [e]) h.

Definition StartSave (h : DreamHero) : DreamHero :=
  if negb (hasEvent EVENT_SAVE_PLAYER_DATA_ h) then addEvent EVENT_SAVE_PLAYER_DATA_ h else h.
Definition StopSave (h : DreamHero) : DreamHero :=
  if hasEvent EVENT_SAVE_PLAYER_DATA_ h then removeEvents EVENT_SAVE_PLAYER_DATA_ h else h.
Definition StartDestroyTime (h : DreamHero) : DreamHero :=
  let h := set__destroy_clock true h in
  let h := if hasEvent EVENT_DESTROY_PLAYER_ h then removeEvents EVENT_DESTROY_PLAYER_ h else h in
  addEvent EVENT_DESTROY_PLAYER_ h.
Definition StopDestroyClock (h : DreamHero) : DreamHero :=
  let h := if hasEvent EVENT_DESTROY_PLAYER_ h then removeEvents EVENT_DESTROY_PLAYER_ h else h in
  set__destroy_clock false h.

(** The test is inverted: the event is removed when it is not there. *)
Definition set_online (online : bool) (h : DreamHero) : DreamHero :=
  let h := if negb (hasEvent EVENT_DESTROY_PLAYER_ h) then removeEvents EVENT_DESTROY_PLAYER_ h else h in
  set__online online h.
Definition is_online (h : DreamHero) : bool := _online h.

(** The constructor; members it does not set have an arbitrary value. *)
Definition new_hero (session : option Z) (recover lottery game prize reset channel : Z) : DreamHero :=
  mkDreamHero [] [] (mkHeroData "test" 0 [] [] [] 0 0 0 0 0 0 [] 0 0 0 0 0 0 0 0 false [])
    (-1) (-1) 0 0 0 session false [] 0 recover 0 lottery false game prize reset channel [].

(** ** set_info *)

(** [(DealStatusType)z]: other values are not of the enumeration. *)
Definition deal_type_of (z : Z) : option DealStatusType :=
  if z =? 0 then Some DealStatusType_WaitToPay
  else if z =? 1 then Some DealStatusType_WaitPrepareToPay
  else if z =? 2 then Some DealStatusType_Complete
  else if z =? 3 then Some DealStatusType_WaitPrepareToVerify
  else if z =? 4 then Some DealStatusType_Failed
  else None.

Definition add_kills (m : list ((Z * Z) * list MsgObjConfig)) (entry : MsgMapSpecialKill) :
    list ((Z * Z) * list MsgObjConfig) :=
  let pair_entry := (mk_chapter_id entry, mk_section_id entry) in
  fold_left (fun m k => mput pair_entry (from_option id [] (mfind pair_entry m) ++ [k]) m)
    (mk_kills entry) m.

Fixpoint load_deals (deals : list MsgDealInfo) (m : list (Z * DealWaitToPay)) :
    option (list (Z * DealWaitToPay)) :=
  match deals with
  | [] => Some m
  | d :: deals' =>
      t ← deal_type_of (dl_complete_status d);
      load_deals deals' (minsert (dl_order d)
        (mkDeal (dl_product_id d) (dl_status d) 0 (dl_order d) (dl_cur_receipt d) t) m)
  end.

(** The pending deals are taken up again. *)
Definition resume_deal (kv : Z * DealWaitToPay) : M HS unit :=
  let d := kv.2 in
  match deal_type_ d with
  | DealStatusType_WaitPrepareToPay => addDealPay (key_code_ d) (status_ d) (order_id_ d) Error_NO false
  | DealStatusType_WaitPrepareToVerify =>
      let* h := get_hero in
      add_http (VerifyDealHttpTaskIOS (_account h) (hd_name (_info h)) (receipt_ d) (order_id_ d))
  | _ => ret tt
  end.

(** Spirit recovered while offline.  The stamp is computed in single precision:
    [g_server_time] is rounded to a multiple of 128 seconds. *)
Definition f32_to_u32 (x : float32) : option Z :=
  match x with
  | SpecFloat.S754_zero _ => Some 0
  | SpecFloat.S754_finite false m e =>
      let v := if e <? 0 then Zpos m / 2 ^ (- e) else Zpos m * 2 ^ e in
      if v <? 2^32 then Some v else None
  | _ => None
  end.
Definition f32_sub (a b : float32) : float32 := SpecFloat.SFsub 24 128 a b.

Definition recover_offline (now : Z) (g : globalConfig) (last spirit : Z) : option (Z * Z) :=
  let entry_time := f32_of_int (config_recover_spirit_minute_ g *ᵢ 60) in
  let time_pass := u32 (now - last) in
  recorver_times ← f32_to_int (f32_div (f32_of_int time_pass) entry_time);
  let recorver_spirit := config_recover_spirit_ g *ᵢ recorver_times in
  let temp_spirit := recorver_spirit +ᵢ spirit in
  let temp_spirit := if temp_spirit >? config_max_spirit_ g then config_max_spirit_ g else temp_spirit in
  if negb (recorver_times =? 0) then
    stamp ← f32_to_u32 (f32_sub (f32_of_int now)
      (f32_sub (f32_of_int time_pass) (f32_mul (f32_of_int recorver_times) entry_time)));
    Some (temp_spirit, stamp)
  else Some (temp_spirit, last).

Definition restore_fields (m : MsgHeroDataDB2GS) (channel : Z) (deals : list (Z * DealWaitToPay))
    (h : DreamHero) : DreamHero :=
  mkDreamHero (fold_left add_kills (dbi_special_kills m) [])
    (fold_left (fun c p => mput (number_1 p) (number_2 p) c) (dbi_special_creatures m) [])
    (dbi_data m) (dbi_current_chapter m) (dbi_current_section m) (dbi_free_task_count m)
    (u32 (dbi_last_task_advertisement_time m)) (dbi_account m) (_session h) (_online h) deals
    (dbi_gm_level m) (u32 (dbi_last_recover_spirit_time m)) (u32 (dbi_last_buy_spirit_time m))
    (u32 (dbi_last_lottery_time m)) (_destroy_clock h) (u32 (dbi_daily_game_time m))
    (u32 (dbi_daily_game_prize_time m)) (u32 (dbi_last_daily_reset_game_time m)) channel (_events h).

(** A game of another day starts afresh; the saved progress is always lost. *)
Definition restore_daily (begin_time : Z) (h : DreamHero) : DreamHero :=
  let i := _info h in
  let i := if negb (begin_time =? _daily_game_time h) then
             set_hd_daily_game_anger 0 (set_hd_daily_game_hp_pct 100 (set_hd_daily_reset_game_count 0
               (set_hd_daily_game_score 0 (set_hd_daily_game_progress 0 i))))
           else i in
  set__info (set_hd_daily_game_record_progress 0 i) h.

Definition set_info (m : MsgHeroDataDB2GS) (channel : Z) : M HS unit :=
  let* h := get_hero in
  match load_deals (dbi_deals m) (_deals_wait_to_pay h) with
  | None => ub
  | Some deals =>
      on_hero (restore_fields m channel deals) ;;;
      mfor deals resume_deal ;;;
      let* now := get_time_now in
      let* g := get_global in
      let* h := get_hero in
      (if now >? _last_recover_spirit_time h then
         match recover_offline now g (_last_recover_spirit_time h) (hd_spirit (_info h)) with
         | Some (spirit, stamp) =>
             on_info (set_hd_spirit spirit) ;;; on_hero (set__last_recover_spirit_time stamp)
         | None => ub
         end
       else ret tt) ;;;
      let* r := get_rank in
      on_hero (restore_daily (getDailyGameBeginTime r)) ;;;
      TryToGetGamePrize false
  end.

(** ** A new hero *)
Definition fresh_info (g : globalConfig) (name : string) (i : MsgHeroData) : MsgHeroData :=
  mkHeroData name (config_gold_ g) [mkIntPair 1 1; mkIntPair 0 0]
    (replicate (Z.to_nat (u64 (hero_unlock_count_ g))) true) [] 0 0 0 (config_jewel_ g)
    (config_max_spirit_ g) (hd_day_buy_spirit i) [] 0 0 0 100 0 0 0 0 false [].

Definition fresh_hero (channel : Z) (i : MsgHeroData) (h : DreamHero) : DreamHero :=
  mkDreamHero [] [] i 0 0 0 0 (_account h) (_session h) (_online h) (_deals_wait_to_pay h) 1
    0 0 0 (_destroy_clock h) 0 0 0 channel (_events h).

(** Every new hero gets GM level 1. *)
Definition LoadFromConfig (channel : Z) : M HS unit :=
  let* s := gets srv in
  let cfg := gGameConfig s in
  match generateName (timezone s) (g_server_time s) (ascii_of_N (Z.to_N (_server_char cfg)))
          (gNames s, gRecordManager s) with
  | None => ub
  | Some (name, (names, records)) =>
      on_srv (fun s => set_gRecordManager records (set_gNames names s)) ;;;
      on_hero (fun h => fresh_hero channel (fresh_info (getGlobalConfig cfg) name (_info h)) h)
  end.

Definition ResetGame : M HS unit :=
  let* h := get_hero in
  LoadFromConfig (_channel h) ;;;
  let* h := get_hero in
  sendPBMessage (MsgS2CCmdResetGameACK Error_NO (_info h) (_current_task_count h)
    (_last_task_advertisement_time h)).

(** ** Login *)
Definition task_configs (c : GameConfig) (tasks : list MsgTaskInfo) : list MsgTaskConfigInfo :=
  concat (map (fun entry =>
    if negb (taskid entry =? 0) then
      match getMapTask c (taskid entry) with Some entry_config => [entry_config] | None => [] end
    else []) tasks).

Definition heroes_init (h : DreamHero) (s : Server) : HeroesInit :=
  let c := gGameConfig s in
  let g := getGlobalConfig c in
  mkHeroesInit (_info h) (task_configs c (hd_tasks (_info h))) (map snd (getSpiritShops c))
    (map snd (getLotionShops c)) (_current_task_count h) (_last_task_advertisement_time h)
    (_gm_level h) (day_free_task_count_ g) (day_task_advertisement_task_cd_ g) (refresh_task_gold_ g)
    (relive_gold_ g) (config_max_spirit_ g) (config_recover_spirit_minute_ g) (config_recover_spirit_ g)
    (config_enter_game_use_spirit_ g) (config_day_buy_spirit_ g) (_daily_game_time h)
    (_last_buy_spirit_time h) (_last_recover_spirit_time h) (day_Refresh_time_ g)
    (_last_day_lottery_time h) (g_server_time s) (_last_daily_reset_game_time h) (isConcernWeiXin c)
    (map (fun kv => mkIntPair kv.1 kv.2) (_special_creatures h)) (getMaxDailyProgress (gRankManager s))
    (config_weixin_gold g) (daily_game_reset_jewel_config_ g) (daily_game_record_config_ g).

Definition SendClientInit : M HS unit :=
  on_hero StopDestroyClock ;;;
  dayRefresh false ;;;
  on_hero StartSave ;;;
  let* h := get_hero in
  let* s := gets srv in
  sendPBMessage (MsgS2CHeroesInit (heroes_init h s)) ;;;
  on_hero (set__online true) ;;;
  hero_record (fun tz now acc name => loginRecord tz now acc name).

(** ** Restoring what was saved *)

Lemma add_kills_last m c s kills :
  kills <> [] -> (forall x, x ∈ m.*1 -> kltb x (c, s) = true) ->
  add_kills m (mkMapSpecialKill c s kills) = m ++ [((c, s), kills)].
Proof.
  intros Hne Hall. unfold add_kills. cbn [mk_chapter_id mk_section_id mk_kills].
  assert (Hgen : forall ks pre, pre <> [] ->
    fold_left (fun m k => mput (c, s) (from_option id [] (mfind (c, s) m) ++ [k]) m) ks (m ++ [((c, s), pre)])
    = m ++ [((c, s), pre ++ ks)]).
  { induction ks as [|k ks IH]; intros pre Hd; cbn; [by rewrite app_nil_r|].
    rewrite <- (mput_last (c, s) pre m) by done. rewrite mfind_put_eq. cbn [from_option id].
    assert (Hput : mput (c, s) (pre ++ [k]) (mput (c, s) pre m) = m ++ [((c, s), pre ++ [k])]).
    { rewrite (mput_last (c, s) pre m Hall). by apply mput_again. }
    rewrite Hput, IH by (by destruct pre). by rewrite <- app_assoc. }
  destruct kills as [|k ks]; [done|]. cbn [fold_left].
  assert (Hf : mfind (c, s) m = None).
  { apply mfind_None_keys. intros Hin. specialize (Hall _ Hin). by rewrite kltb_irrefl in Hall. }
  rewrite Hf. cbn [from_option app]. rewrite mput_last by done. by rewrite Hgen.
Qed.

Lemma restore_kills m2 : forall m1, msorted (m1 ++ m2) -> Forall (fun it => it.2 <> []) m2 ->
  fold_left add_kills (map (fun it => mkMapSpecialKill it.1.1 it.1.2 it.2) m2) m1 = m1 ++ m2.
Proof.
  induction m2 as [|[[c s] kills] m2 IH]; intros m1 Hs Hall; cbn [map fold_left]; [by rewrite app_nil_r|].
  cbn [fst snd].
  apply Forall_cons in Hall as [Hk Hall].
  rewrite add_kills_last by (done || (intros x; by apply (msorted_app_lt m1 (c, s) kills m2))).
  rewrite IH; [by rewrite <- app_assoc|by rewrite <- app_assoc|done].
Qed.

Lemma restore_creatures m : msorted m ->
  fold_left (fun c p => mput (number_1 p) (number_2 p) c) (map (fun kv => mkIntPair kv.1 kv.2) m) [] = m.
Proof.
  intros Hs. rewrite <- (fold_mput_sorted m [] Hs) at 2. generalize (@nil (Z * Z)).
  clear Hs. induction m as [|kv m IH]; intros acc; [done|]. cbn. apply IH.
Qed.

Lemma with_kills_nonempty m : Forall (fun it => it.2 <> []) (with_kills m).
Proof.
  apply Forall_forall. intros it Hit. apply list_elem_of_In, filter_In in Hit as [_ Hit].
  by destruct (bool_decide_reflect (it.2 = [])).
Qed.

Definition stamps_ok (h : DreamHero) : Prop :=
  is_u32 (_last_task_advertisement_time h) /\ is_u32 (_last_recover_spirit_time h) /\
  is_u32 (_last_buy_spirit_time h) /\ is_u32 (_last_day_lottery_time h) /\
  is_u32 (_daily_game_time h) /\ is_u32 (_daily_game_prize_time h) /\
  is_u32 (_last_daily_reset_game_time h).

(** Spirit and stamp after loading. *)
Definition spirit_loaded (now : Z) (g : globalConfig) (last spirit : Z) : option (Z * Z) :=
  if now >? last then recover_offline now g last spirit else Some (spirit, last).

Lemma spirit_loaded_bound now g last spirit sp st :
  spirit_loaded now g last spirit = Some (sp, st) -> sp <= Z.max spirit (config_max_spirit_ g).
Proof.
  unfold spirit_loaded. destruct (now >? last); [|intros [= <- _]; lia].
  unfold recover_offline. destruct (f32_to_int _) as [times|]; [|done]. cbn [mbind option_bind].
  set (t := _ +ᵢ spirit).
  assert (Ht : (if t >? config_max_spirit_ g then config_max_spirit_ g else t) <= config_max_spirit_ g).
  { rewrite Z.gtb_ltb. destruct (Z.ltb_spec (config_max_spirit_ g) t); lia. }
  revert Ht. generalize (if t >? config_max_spirit_ g then config_max_spirit_ g else t). intros x Hx.
  destruct (negb (times =? 0)); [|intros [= <- _]; lia].
  destruct (f32_to_u32 _); [|done]. cbn [mbind option_bind]. intros [= <- _]. lia.
Qed.

(** The object [h0] after [h] was loaded into it. *)
Definition reloaded (h h0 : DreamHero) (spirit stamp channel : Z) : DreamHero :=
  mkDreamHero (with_kills (_special_kills h)) (_special_creatures h)
    (set_hd_daily_game_record_progress 0 (set_hd_spirit spirit (_info h)))
    (_current_chapter h) (_current_section h) (_current_task_count h) (_last_task_advertisement_time h)
    (_account h) (_session h0) (_online h0) [] (_gm_level h) stamp (_last_buy_spirit_time h)
    (_last_day_lottery_time h) (_destroy_clock h0) (_daily_game_time h) (_daily_game_prize_time h)
    (_last_daily_reset_game_time h) channel (_events h0).


(** A saved hero of the running game day. *)
Definition demo_saved : DreamHero :=
  set__special_kills [((1, 2), [mkObjConfig 1 7]); ((1, 3), [])] (set__daily_game_time 1500000000 demo_hero).
Definition demo_blank : HS := mkHS (new_hero (Some 5) 0 0 0 0 0 7) demo_server.


(** The stamp of the last recovery is a single-precision number: it can lie in
    the future, and then nothing recovers until that time has passed. *)
Example stamp_in_the_future :
  recover_offline 1500010060 demo_global (1500010060 - 360) 60 = Some (61, 1500010112).
Proof. vm_compute. reflexivity. Qed.

(** ** A new hero *)

(** What holds of every hero data the server plays with. *)
Record hero_inv (max_progress : Z) (i : MsgHeroData) : Prop := {
  inv_tasks : NoDup (taskid <$> hd_tasks i);
  inv_chapters : NoDup (number_1 <$> hd_records i);
  inv_daily : daily_inv max_progress i
}.

(** A new hero starts in a well-formed state: a name no hero has, the
    configured gold, jewels and full spirit, the two open chapters, no tasks and
    no lotions, and the daily game not begun; it is also given GM level 1. *)
Theorem LoadFromConfig_correct channel s :
  let g := getGlobalConfig (gGameConfig (srv s)) in
  let names := gNames (srv s) in
  digit_rows (_day_number names) -> 0 <= _day_create_heroes_count names < 2^31 - 102 ->
  Forall (fun n => (String.length n < String.length (_hero_day_title names) + 8)%nat) (_names names) ->
  exists s' name, LoadFromConfig channel s = Some (tt, s') /\
    this s' = fresh_hero channel (fresh_info g name (_info (this s))) (this s) /\
    (name ∉ _names names) /\ _gm_level (this s') = 1 /\
    hd_gold (_info (this s')) = config_gold_ g /\ hd_spirit (_info (this s')) = config_max_spirit_ g /\
    (forall max, 0 <= max -> hero_inv max (_info (this s'))).
Proof.
  intros g names Ht Hc Hlen.
  destruct (generateName_fuel_fresh (timezone (srv s)) (g_server_time (srv s))
    (ascii_of_N (Z.to_N (_server_char (gGameConfig (srv s))))) 102 0 names (gRecordManager (srv s)))
    as (name & c & r & E & Hfresh & _); [lia|lia|done|lia|lia|done|].
  assert (Hwp : wp (LoadFromConfig channel) (fun _ s' =>
     this s' = fresh_hero channel (fresh_info g name (_info (this s))) (this s)) s).
  { unfold LoadFromConfig. apply wp_bind, wp_gets. unfold generateName.
    fold names. rewrite E. by hs_run. }
  apply wp_unit in Hwp as (s' & Hr & Hs'). exists s', name. rewrite Hs'.
  do 6 (split; [done|]). intros max Hm. constructor; cbn.
  - constructor.
  - by repeat constructor; apply (bool_decide_unpack _).
  - unfold daily_inv. cbn. lia.
Qed.

Lemma LoadFromConfig_correct_witness :
  let s := mkHS (new_hero (Some 5) 0 0 0 0 0 0) (set_gNames names_demo demo_server) in
  digit_rows (_day_number (gNames (srv s))) /\
  (exists s', LoadFromConfig 7 s = Some (tt, s') /\ hd_gold (_info (this s')) = 1000) /\
  ((fun r => hd_name (_info (this r.2))) <$> LoadFromConfig 7 s) = Some "aabc100000"%string.
Proof.
  intros s. assert (Ht : digit_rows (_day_number (gNames (srv s)))).
  { split; [reflexivity|]. repeat constructor; reflexivity. }
  split; [exact Ht|]. split; [|vm_compute; reflexivity].
  destruct (LoadFromConfig_correct 7 s Ht) as (s' & name & Hr & _ & _ & _ & Hg & _);
    [cbn; lia|constructor|]. exists s'. split; [exact Hr|exact Hg].
Defined.
