(* ===== verification/World.v ===== *)
(** * gameserver: sessions, gates and the registry of heroes

    The objects of the game server process and the pointers between them:
    hero objects (allocated by [DreamHeroManager::CreateHero], deleted by
    [DestroyHero]), sessions ([GateManager::m_Onlines], class [Session]), the
    registered gates and [DreamHeroManager::_heroes].  A method that follows a
    pointer to an object that is gone ends the run as [Dangling]. *)
From S2P Require Import Prelude StdMap Data Text Calendar Config Record Rank Promotion Names Server HeroTask HeroPlay HeroShop HeroDeal HeroDaily HeroSave HeroLoad.

(** ** The process *)

(** [objects] holds the live heroes by address, [_heroes] the registry by
    account, [m_Gates] the gate session registered under each gate id, and
    [next_object] the address of the next allocation. *)
Record World := mkWorld {
  globals : Server;
  objects : list (Z * DreamHero);
  _heroes : list (Z * Z);
  m_Gates : list (Z * Z);
  next_object : Z
}.
Definition set_globals (v : Server) (w : World) : World :=
  mkWorld v (objects w) (_heroes w) (m_Gates w) (next_object w).
Definition set_objects (v : list (Z * DreamHero)) (w : World) : World :=
  mkWorld (globals w) v (_heroes w) (m_Gates w) (next_object w).
Definition set__heroes (v : list (Z * Z)) (w : World) : World :=
  mkWorld (globals w) (objects w) v (m_Gates w) (next_object w).
Definition set_m_Gates (v : list (Z * Z)) (w : World) : World :=
  mkWorld (globals w) (objects w) (_heroes w) v (next_object w).

(** ** Running the process

    A run ends with a value, or it followed a null or dangling pointer, or a
    method of a live hero had undefined behaviour of its own. *)
Inductive Run (A : Type) : Type :=
| Ok (a : A) (w : World)
| Dangling
| Undefined.
Arguments Ok {A} a w.
Arguments Dangling {A}.
Arguments Undefined {A}.

Definition W (A : Type) : Type := World -> Run A.
Definition wret {A} (a : A) : W A := fun w => Ok a w.
Definition dangling {A} : W A := fun _ => Dangling.
Definition undefined {A} : W A := fun _ => Undefined.
Definition wbind {A B} (m : W A) (f : A -> W B) : W B := fun w =>
  match m w with Ok a w' => f a w' | Dangling => Dangling | Undefined => Undefined end.
Definition wgets {A} (f : World -> A) : W A := fun w => Ok (f w) w.
Definition wmodify (f : World -> World) : W unit := fun w => Ok tt (f w).
Definition wwhen (b : bool) (m : W unit) : W unit := if b then m else wret tt.
Fixpoint wfor {A} (l : list A) (f : A -> W unit) : W unit :=
  match l with
  | [] => wret tt
  | x :: l' => wbind (f x) (fun _ => wfor l' f)
  end.

Declare Scope world_scope.
Delimit Scope world_scope with world.
Notation "'let*' x := m 'in' k" := (wbind m (fun x => k))
  (at level 10, x name, m at level 100, k at level 200) : world_scope.
Notation "m ;;; k" := (wbind m (fun _ => k))
  (at level 100, k at level 200, right associativity) : world_scope.
#[global] Open Scope world_scope.

Definition on_globals (f : Server -> Server) : W unit :=
  wmodify (fun w => set_globals (f (globals w)) w).

(** A method call on the hero at an address. *)
Definition call_hero {A} (p : Z) (m : M HS A) : W A := fun w =>
  match mfind p (objects w) with
  | Some h =>
      match m (mkHS h (globals w)) with
      | Some (a, s) => Ok a (set_objects (mput p (this s) (objects w)) (set_globals (srv s) w))
      | None => Undefined
      end
  | None => Dangling
  end.

(** Reading through a hero pointer. *)
Definition deref_hero (p : Z) : W DreamHero := fun w =>
  match mfind p (objects w) with Some h => Ok h w | None => Dangling end.

(** [new DreamHero()]: the members the constructor leaves unset are written
    before they are read. *)
Definition new_object (h : DreamHero) : W Z := fun w =>
  Ok (next_object w) (mkWorld (globals w) (mput (next_object w) h (objects w)) (_heroes w)
                        (m_Gates w) (next_object w + 1)).
Definition delete_object (p : Z) : W unit := fun w =>
  if mhas p (objects w) then Ok tt (set_objects (merase p (objects w)) w) else Dangling.

(** The session object at its transport id. *)
Definition get_session (t : Z) : W Session := fun w =>
  match mfind t (sessions (globals w)) with Some ss => Ok ss w | None => Dangling end.
Definition on_session (t : Z) (f : Session -> Session) : W unit :=
  let* ss := get_session t in
  on_globals (fun g => set_sessions (mput t (f ss) (sessions g)) g).
Definition setDreamHero (p : option Z) (t : Z) : W unit := on_session t (set__dream_hero p).

(** ** DreamHeroManager: looking up, creating and destroying heroes *)

(** [GetHero] sets the parent of the hero it returns. *)
Definition GetHero (account : Z) : W (option Z) := fun w =>
  match mfind account (_heroes w) with
  | Some p => if mhas p (objects w) then Ok (Some p) w else Dangling
  | None => Ok None w
  end.

Definition register (p : Z) : W unit :=
  let* h := deref_hero p in
  wmodify (fun w => set__heroes (minsert (_account h) p (_heroes w)) w).

Definition blank_hero : DreamHero := new_hero None 0 0 0 0 0 0.

(** [CreateHero(HeroDataMsg, acc, session)]: a hero the database knows. *)
Definition CreateHero_info (HeroDataMsg : MsgHeroDataDB2GS) (acc t : Z) : W Z :=
  let* hero := GetHero acc in
  let* ss := get_session t in
  let* p :=
    match hero with
    | Some p => wret p
    | None =>
        let* p := new_object blank_hero in
        call_hero p (set_info HeroDataMsg (s_channel ss)) ;;;
        register p ;;;
        wret p
    end in
  call_hero p (on_hero (set__account acc) ;;; on_hero (set__session (Some t)) ;;;
               on_hero StopDestroyClock)%monad ;;;
  wret p.

(** [CreateHero(acc, session)]: a new hero. *)
Definition CreateHero (acc t : Z) : W Z :=
  let* hero := GetHero acc in
  let* ss := get_session t in
  let* p :=
    match hero with
    | Some p => wret p
    | None =>
        let* p := new_object blank_hero in
        call_hero p (LoadFromConfig (s_channel ss)) ;;;
        wret p
    end in
  call_hero p (on_hero (set__session (Some t)) ;;; on_hero (set__account acc) ;;;
               on_hero StopDestroyClock)%monad ;;;
  register p ;;;
  wret p.

(** [DestroyHero]: only the registered object of the account is deleted. *)
Definition DestroyHero (p : Z) : W unit :=
  let* h := deref_hero p in
  let* reg := wgets (fun w => mfind (_account h) (_heroes w)) in
  match reg with
  | Some p_temp =>
      wwhen (p_temp =? p) (
        delete_object p_temp ;;;
        wmodify (fun w => set__heroes (merase (_account h) (_heroes w)) w))
  | None => wret tt
  end.

(** [DreamHero::Destroy], run by the destroy timer. *)
Definition Destroy (p : Z) : W unit :=
  call_hero p (hero_record (fun tz now acc name => loginOutRecord tz now acc name)) ;;;
  let* h := deref_hero p in
  match _session h with
  | Some t => setDreamHero None t
  | None => wret tt
  end ;;;
  DestroyHero p.

(** [GetHeroByName]: the first hero with the name, in the order of accounts. *)
Fixpoint find_by_name (name : string) (heroes : list (Z * Z)) : W (option Z) :=
  match heroes with
  | [] => wret None
  | (_, p) :: heroes' =>
      let* h := deref_hero p in
      if String.eqb (hd_name (_info h)) name then wret (Some p) else find_by_name name heroes'
  end.
Definition GetHeroByName (name : string) : W (option Z) :=
  let* heroes := wgets _heroes in find_by_name name heroes.

(** ** Session *)
Definition session_sendPBMessage (t : Z) (msg : S2C) : W unit :=
  let* ss := get_session t in on_globals (session_send ss msg).

Definition on_session_hero (t : Z) (m : M HS unit) : W unit :=
  let* ss := get_session t in
  match _dream_hero ss with Some p => call_hero p m | None => wret tt end.

(** The constructor's body; [channel] is the value of the unset [_channel]. *)
Definition Session_Session (t account gate channel : Z) : W unit :=
  on_globals (fun g => set_sessions (mput t (mkSession t account gate true None channel) (sessions g)) g) ;;;
  let* hero := GetHero account in
  match hero with
  | Some p =>
      call_hero p (on_hero StopDestroyClock) ;;;
      setDreamHero (Some p) t ;;;
      call_hero p (on_hero (set__session (Some t))) ;;;
      call_hero p SendClientInit
  | None => on_globals (emit (OReqHeroData account t))
  end.

(** [close], and the destructor's body. *)
Definition Session_close (t : Z) : W unit := on_session_hero t (on_hero StartDestroyTime).
Definition Session_destroy (t : Z) : W unit :=
  on_session_hero t (on_hero StartDestroyTime ;;; on_hero (set__session None))%monad ;;;
  setDreamHero None t.

Definition setReconnet (t : Z) : W unit :=
  on_session t (set_m_online true) ;;; on_session_hero t (on_hero (set_online true)).
Definition setWaitReconnet (t : Z) : W unit :=
  on_session t (set_m_online false) ;;; on_session_hero t (on_hero (set_online false)).

(** ** GateManager *)
Definition INVALID_GATE_ID : Z := 0.
Definition MAX_GATE_ID : Z := 255.
Definition valid_gate (nId : Z) : bool := (nId >? INVALID_GATE_ID) && (nId <? MAX_GATE_ID).

Definition addGate (nId pkGate : Z) : W bool :=
  if valid_gate nId then wmodify (fun w => set_m_Gates (mput nId pkGate (m_Gates w)) w) ;;; wret true
  else wret false.

(** [releaseObject]: the destructor, then the memory. *)
Definition release_session (t : Z) : W unit :=
  Session_close t ;;;
  Session_destroy t ;;;
  on_globals (fun g => set_sessions (merase t (sessions g)) g).

(** [removeUser] does nothing for an unknown id. *)
Definition removeUser (t : Z) : W unit :=
  let* ss := wgets (fun w => mfind t (sessions (globals w))) in
  match ss with Some _ => release_session t | None => wret tt end.

Definition removeUserByGate (nGateId : Z) : W unit :=
  let* all := wgets (fun w => sessions (globals w)) in
  wfor (map fst (List.filter (fun kv => m_gate kv.2 =? nGateId) all)) release_session.

Definition removeAllUsers : W unit :=
  let* all := wgets (fun w => sessions (globals w)) in
  wfor (map fst all) release_session.

Definition removeGate (nId pkGate : Z) : W unit :=
  if valid_gate nId then
    let* gate := wgets (fun w => mfind nId (m_Gates w)) in
    if bool_decide (gate = Some pkGate) then
      removeUserByGate nId ;;;
      wmodify (fun w => set_m_Gates (merase nId (m_Gates w)) w)
    else wret tt
  else wret tt.

(** [addUser]: [None] when the id is in use by somebody else. *)
Definition addUser (t account gate channel : Z) : W (option Z) :=
  let* ss := wgets (fun w => mfind t (sessions (globals w))) in
  match ss with
  | None => Session_Session t account gate channel ;;; wret (Some t)
  | Some ss =>
      if (m_gate ss =? gate) && (m_account ss =? account) then setReconnet t ;;; wret (Some t)
      else wret None
  end.

Definition offlineUser (t : Z) : W unit :=
  let* ss := wgets (fun w => mfind t (sessions (globals w))) in
  match ss with Some _ => setWaitReconnet t | None => wret tt end.

(** What [sendMessage] puts on the wire of a registered gate. *)
Definition gate_sendMessage (w : World) (nGate flag : Z) (msg : S2C) : option (Z * Z * S2C) :=
  if valid_gate nGate then
    match mfind nGate (m_Gates w) with Some gate => Some (gate, flag, msg) | None => None end
  else None.

(** ** GateSession: the messages of a gate.  A refused user is dereferenced. *)
Definition parseAddUser (gate t account channel unset : Z) : W unit :=
  let* p := addUser t account gate unset in
  match p with Some t => on_session t (set_s_channel channel) | None => dangling end.
