(* ===== verification/Dispatch.v ===== *)
(** * gameserver: messages of clients, gates, the database and the platform

    [Session::parsePBMessage] with its callbacks, the answers of the database
    server (GameDBClient) and the results of the HTTP tasks (GSHttpManager
    [logicExcute]). *)
From S2P Require Import Prelude StdMap Data Text Calendar Config Record Rank Promotion Names Server HeroTask HeroPlay HeroShop HeroDeal HeroDaily HeroSave HeroLoad World.

(** ** Messages of the client that have a callback (message/dream_heroes.proto) *)
Inductive C2S :=
| MsgC2SReqGameGlobalConfig
| MsgC2SReqShopConfig
| MsgC2SReqEnterGame (chapter_id section_id : Z)
| C2SReqExitGame (msg : MsgC2SReqExitGame)
| MsgC2SReqUnlockChapter (chapter_id : Z)
| MsgC2SReqAdvertisementApplyTask (gold : bool)
| MsgC2SReqAdvertisementRefreshTask (task_id : Z) (gold : bool)
| MsgC2SReqGoldShopConfigs
| MsgC2SReqBuyHero (grid gold : Z)
| MsgC2SReqModifyCurrentHero (current_grid : Z)
| MsgC2SReqCrearteDeal (key_code : string) (channel : Z)
| MsgC2SReqVerifyDeal (order_id : Z) (receipt : string)
| MsgC2SReqModifyNewTutorial (flag : Z)
| MsgC2SReliveReq
| MsgC2SReqBuySpirit (index : Z)
| MsgC2SReqConcernWeiXin (cd_key : string)
| MsgC2SReqBuyLotion (lotion_id : Z)
| MsgC2SReqDayLottery
| MsgC2SReqEnterDailyGame
| MsgC2SReqReceiveDailyGamePrize
| C2SReqUpdateDailyGameProgress (msg : MsgC2SReqUpdateDailyGameProgress)
| MsgC2SReqResetDailyGameProgress
| MsgC2SReqDailyGameRankList
| MsgC2SReqActivityAnnouncement
| MsgC2SReqModifyNotifyGridState (grid_notify_state : list MsgIntBoolPair)
| MsgC2SCmdReqResetConcernWeiXin
| MsgC2SCmdReqModifyGMLevel (name : string) (level : Z)
| MsgC2SCmdReqEnterGame (chapter_id section_id : Z)
| MsgC2SCmdReqResetMap (chapter_id section_id : Z)
| MsgC2SCmdReqResetGame
| MsgC2SCmdReqModifyGold (gold : Z)
| MsgS2CCmdReqReplaceTask (task_count : Z)
| MsgC2SCmdReqModifyTaskCompleteCount (count : Z)
| MsgC2SCmdReqSetSpecialCreatureHis (creature_id status : Z)
| MsgC2SCmdReqRemoveSpecialCreatureListHis
| MsgC2SCmdReqModifyJewel (jewel : Z)
| MsgC2SCmdReqModifySpirit (spirit : Z)
| MsgC2SCmdReqResetDailyLottery
| MsgC2SCmdReqResetDailyGame
| MsgC2SCmdClearDailyRankList
| OtherMessage (type_name : string).

(** ** The callbacks *)

(** A callback without the null test dereferences [_dream_hero]. *)
Definition on_hero_unchecked (t : Z) (m : M HS unit) : W unit :=
  let* ss := get_session t in
  match _dream_hero ss with Some p => call_hero p m | None => dangling end.

(** [this->sendPBMessage] of the session, from within a method call. *)
Definition reply (ss : Session) (msg : S2C) : M HS unit := on_srv (session_send ss msg).

(** The two shapes of the GM commands: refused ones answer [MsgS2CNotifyError],
    or the command's own reply with the error. *)
Definition gm_notify (ss : Session) (m : M HS unit) : M HS unit := (
  let* h := get_hero in
  if getGMLevel h >? 0 then m else reply ss (MsgS2CNotifyError Error_CmdFailedRequiredGMLevel))%monad.
Definition gm_reply (ss : Session) (m : M HS unit) (ack : GameError -> DreamHero -> S2C) : M HS unit := (
  let* h := get_hero in
  let* error := (if getGMLevel h >? 0 then m ;;; ret Error_NO
                 else ret Error_CmdFailedRequiredGMLevel) in
  let* h := get_hero in
  reply ss (ack error h))%monad.

Definition parseReqShopConfig (t : Z) : W unit :=
  let* g := wgets globals in
  session_sendPBMessage t (MsgS2CShopConfigACK
    (map (fun kv => set_sh_cheape_gold (getCheapGold (sh_grid_id kv.2) (gShopSalesPromotionManager g)) kv.2)
       (getShopConfigs (gGameConfig g)))).

Definition parseReqGameGlobalConfig (t : Z) : W unit :=
  let* g := wgets globals in
  session_sendPBMessage t (MsgS2CSGameGlobalConfigACK (map snd (_chapter_config_infos (gGameConfig g)))).

Definition parseReqDailyGameRankList (t : Z) : W unit :=
  let* g := wgets globals in
  session_sendPBMessage t (MsgS2CDailyGameRankListACK
    (map (fun e => (name_ e, rank_ e, score_ e)) (_heroes_daily_rank (gRankManager g)))).

Definition parseReqActivityAnnouncement (t : Z) : W unit :=
  let* g := wgets globals in
  session_sendPBMessage t (MsgS2CActivityAnnouncementACK (activities (gShopSalesPromotionManager g))).

(** The level of another hero needs GM level 3; a hero that is not loaded is
    updated in the database (a buffer of 512 bytes). *)
Definition gm_level_sql (level : Z) (name : string) : string :=
  sprintf "update `character` set `gm_level` = %d where `name` = '%s'" [AD level; AS name].
Definition parseCmdReqMdodifyGMLevel (t : Z) (name : string) (level : Z) : W unit :=
  let* ss := get_session t in
  match _dream_hero ss with
  | None => wret tt
  | Some p =>
      let* h := deref_hero p in
      let* error :=
        (if getGMLevel h <? 3 then wret Error_CmdFailedRequiredGMLevel
         else
           let* hero := GetHeroByName name in
           match hero with
           | Some q => call_hero q (SetGMLevel level) ;;; wret Error_NO
           | None =>
               if Z.of_nat (String.length (gm_level_sql level name)) <? 512 then
                 on_globals (emit (OSql (gm_level_sql level name))) ;;; wret Error_NO
               else undefined
           end) in
      session_sendPBMessage t (MsgS2CCmdModifyGMLevelACK error level name)
  end.

Section Platform.
(** Whether this is the Windows build (see [ReqCrearteDeal]). *)
Context (win32 : bool).

(** The callbacks that only pass the message on to the hero. *)
Definition hero_request (msg : C2S) : option (M HS unit) :=
  match msg with
  | MsgC2SReqEnterGame c s => Some (ReqEnterGame c s)
  | C2SReqExitGame m => Some (ReqExitGame m)
  | MsgC2SReqUnlockChapter c => Some (ReqUnlockChapter c)
  | MsgC2SReqAdvertisementApplyTask g => Some (ReqAdvertisementApplyTask g)
  | MsgC2SReqAdvertisementRefreshTask id g => Some (ReqAdvertisementRefreshTask id g)
  | MsgC2SReqGoldShopConfigs => Some ReqGoldShopConfigs
  | MsgC2SReqBuyHero grid gold => Some (ReqBuyHero grid gold)
  | MsgC2SReqModifyCurrentHero grid => Some (ReqModifyCurrentHero grid)
  | MsgC2SReqCrearteDeal k c => Some (ReqCrearteDeal win32 k c)
  | MsgC2SReqVerifyDeal o r => Some (ReqVerifyDeal o r)
  | MsgC2SReqModifyNewTutorial f => Some (ReqModifyTutorialFlag f)
  | MsgC2SReliveReq => Some ReqReliveReq
  | MsgC2SReqBuySpirit i => Some (ReqBuySpirit i)
  | MsgC2SReqConcernWeiXin k => Some (ReqConcernWeiXin k)
  | MsgC2SReqBuyLotion l => Some (ReqBuyLotion l)
  | MsgC2SReqDayLottery => Some ReqDayLottery
  | MsgC2SReqEnterDailyGame => Some (ret tt)
  | MsgC2SReqReceiveDailyGamePrize => Some ReqReceiveDailyGamePrize
  | C2SReqUpdateDailyGameProgress m => Some (ReqUpdateDailyGameProgress m)
  | MsgC2SReqResetDailyGameProgress => Some ReqResetDailyGameProgress
  | MsgC2SReqModifyNotifyGridState l => Some (ReqModifyNotifyGridState l)
  | _ => None
  end.

(** The GM commands run on the sender's hero; three of them do not test it
    against null. *)
Definition gm_command (ss : Session) (msg : C2S) : option (bool * M HS unit) :=
  match msg with
  | MsgC2SCmdReqResetConcernWeiXin =>
      Some (true, gm_reply ss ResetWeiXin (fun e _ => MsgS2CCmdResetConcernWeiXinACK e))
  | MsgC2SCmdReqEnterGame c s => Some (true, gm_notify ss (EnterGame c s true))
  | MsgC2SCmdReqResetMap c s => Some (true, gm_notify ss (ReqResetMap c s))
  | MsgC2SCmdReqResetGame => Some (true, gm_notify ss ResetGame)
  | MsgC2SCmdReqModifyGold g => Some (true, gm_notify ss (ReqModifyGold g))
  | MsgS2CCmdReqReplaceTask n => Some (true, gm_notify ss (ReqReplaceTask n))
  | MsgC2SCmdReqModifyTaskCompleteCount n => Some (true, gm_notify ss (ReqModifyTaskCompleteCount n))
  | MsgC2SCmdReqSetSpecialCreatureHis c s => Some (true, gm_notify ss (ReqSetSpecialCreatureList c s))
  | MsgC2SCmdReqRemoveSpecialCreatureListHis => Some (true, gm_notify ss ReqRemoveAllSpecialCreatureList)
  | MsgC2SCmdReqModifyJewel j =>
      Some (true, gm_reply ss (let* h := get_hero in setJewel (getJewel h +ᵢ j))%monad
                    (fun e h => MsgS2CCmdModifyJewelACK e (getJewel h)))
  | MsgC2SCmdReqModifySpirit s =>
      Some (false, gm_reply ss (let* h := get_hero in setSpirit (getSpirit h +ᵢ s))%monad
                     (fun e h => MsgS2CCmdModifySpiritACK e (getSpirit h)))
  | MsgC2SCmdReqResetDailyLottery =>
      Some (true, gm_reply ss ResetDailyLottery (fun e _ => MsgS2CCmdResetDailyLotteryACK e))
  | MsgC2SCmdReqResetDailyGame =>
      Some (false, gm_reply ss ResetDailyGame (fun e _ => MsgS2CCmdResetDailyGameACK e))
  | MsgC2SCmdClearDailyRankList =>
      Some (false, gm_reply ss (on_srv (fun s => set_gRankManager (ClearRankList (gRankManager s)) s))
                     (fun e _ => MsgS2CCmdClearDailyRankListACK e))
  | _ => None
  end.

(** [Session::parsePBMessage]; a message without callback is only logged. *)
Definition parsePBMessage (t : Z) (msg : C2S) : W unit :=
  let* ss := get_session t in
  match hero_request msg, gm_command ss msg with
  | Some m, _ => on_session_hero t m
  | None, Some (true, m) => on_session_hero t m
  | None, Some (false, m) => on_hero_unchecked t m
  | None, None =>
      match msg with
      | MsgC2SReqGameGlobalConfig => parseReqGameGlobalConfig t
      | MsgC2SReqShopConfig => parseReqShopConfig t
      | MsgC2SReqDailyGameRankList => parseReqDailyGameRankList t
      | MsgC2SReqActivityAnnouncement => parseReqActivityAnnouncement t
      | MsgC2SCmdReqModifyGMLevel name level => parseCmdReqMdodifyGMLevel t name level
      | _ => wret tt
      end
  end.

(** [GateSession::parseUserMsg]: messages of unknown users are only logged. *)
Definition parseUserMsg (t : Z) (msg : C2S) : W unit :=
  let* ss := wgets (fun w => mfind t (sessions (globals w))) in
  match ss with Some _ => parsePBMessage t msg | None => wret tt end.
End Platform.

(** ** Answers of the database server *)
Definition parseDBQueryNeedCreateHero (t : Z) : W unit :=
  let* ss := get_session t in
  let* p := CreateHero (m_account ss) t in
  setDreamHero (Some p) t ;;;
  call_hero p SendClientInit.

Definition praseDBQueryHeroInfo (t : Z) (HeroDataMsg : MsgHeroDataDB2GS) : W unit :=
  let* ss := get_session t in
  match _dream_hero ss with
  | None => let* p := CreateHero_info HeroDataMsg (m_account ss) t in setDreamHero (Some p) t
  | Some _ => wret tt
  end ;;;
  on_session_hero t SendClientInit.

Definition when_user (t : Z) (m : W unit) : W unit :=
  let* ss := wgets (fun w => mfind t (sessions (globals w))) in
  match ss with Some _ => m | None => wret tt end.
Definition parseNeedCreateHero (t : Z) : W unit := when_user t (parseDBQueryNeedCreateHero t).
Definition parseQueryHeroInfo (t : Z) (msg : MsgHeroDataDB2GS) : W unit :=
  when_user t (praseDBQueryHeroInfo t msg).
Definition parseMsgSaveAllHeroes : W unit :=
  on_globals (fun g => set_gNames (set__save_all_heroes_ok true (gNames g)) g).

(** ** Results of the HTTP tasks *)

(** [OfflineHeroDealWaitToPay]; the buffer holds 2048 bytes. *)
Definition offline_deal_sql (tz now order_id acc : Z) (product_id : string) (status : Z) : string :=
  sprintf "replace into deal_wait_to_pay(`order_id`, `account_id`, `key_code`, `status`, `price`, `deal_time`,`complete_status`) 				values(%d, %llu, '%s', %d, %d, '%s', %d) "
    [AD order_id; AU acc; AS product_id; AD status; AD 0; AS (build_unix_time_to_string tz now);
     AD (deal_code (if negb (status =? 0) then DealStatusType_Failed
                    else DealStatusType_WaitPrepareToPay))].
Definition OfflineHeroDealWaitToPay (order_id acc : Z) (product_id : string) (status : Z) : W unit :=
  let* g := wgets globals in
  let sql := offline_deal_sql (timezone g) (g_server_time g) order_id acc product_id status in
  if Z.of_nat (String.length sql) <? 2048 then on_globals (emit (OSql sql)) else undefined.

Definition CreateDeal_logicExcute (acc : Z) (key_code secret_key : string) (status price order_id : Z)
    (url_platform_call_back : string) (error : GameError) : W unit :=
  let* hero := GetHero acc in
  match hero with
  | Some p => call_hero p (addDealWaitToPay key_code secret_key status price order_id
                             url_platform_call_back error)
  | None => wret tt
  end.

Definition VerifyDeal_logicExcute (acc : Z) (product_id : string) (status order_id : Z)
    (error : GameError) : W unit :=
  let* hero := GetHero acc in
  match hero with
  | Some p => call_hero p (addDealPay product_id status order_id error true)
  | None => if err_ok error then OfflineHeroDealWaitToPay order_id acc product_id status else wret tt
  end.

(** [PlatformClient::parseClinchADealNotify], behind the answer it gives: an
    order that the platform says is paid. *)
Definition clinch_deal (acc : Z) (product_id : string) (order_id : Z) : W unit :=
  if acc =? 0 then wret tt else VerifyDeal_logicExcute acc product_id 0 order_id Error_NO.
