(* ===== verification/Manager.v ===== *)
(** * gameserver: periodic work

    DreamHeroManager's timers (the minute tick with the day refresh, spirit
    recovery, collection of counts, saving) and RankManager's settlement of the
    daily game ([DailyGameUpdate]), which walk over all heroes. *)
From S2P Require Import Prelude StdMap Data Text Calendar Config Record Rank Promotion Names Server HeroTask HeroPlay HeroShop HeroDeal HeroDaily HeroSave HeroLoad World.

(** A loop over the registry in the order of accounts. *)
Definition each_hero (m : M HS unit) : W unit :=
  let* heroes := wgets _heroes in
  wfor heroes (fun kv => call_hero kv.2 m).

Definition world_sql (sql : string) : W unit := on_globals (emit (OSql sql)).

(** ** RankManager::DailyGameUpdate *)

(** The offline hero's prize is written to its row. *)
Definition prize_sql (tz prize_gold game_time acc : Z) : string :=
  sprintf "update `character` set `daily_game_gold`=%d, `daily_game_prize_time`='%s' where `account_id`=%llu;"
    [AD prize_gold; AS (build_unix_time_to_string tz game_time); AU acc].

(** The loop over the ranking.  [number] and [i] count the rows of the two
    statements under construction; after 20 rows [number] restarts at 0 and is
    incremented before the next row, so that the next statement has no head. *)
Fixpoint settle_loop (begin_time : Z) (l : list DailyGameRankTg) (number i : Z) (sql_rank sql : string)
    : W (string * string) :=
  match l with
  | [] => wret (sql_rank, sql)
  | entry :: l' =>
      let* g := wgets globals in
      let sql_rank := if number =? 0 then rank_head else sql_rank +:+ "," in
      let prize_gold := GetDailyGamePrize (gGameConfig g) (rank_ entry) in
      let* hero := GetHero (acc_ entry) in
      let sql_rank := sql_rank +:+ rank_row (timezone g) entry in
      let* st := (if number >=? 20 then world_sql sql_rank ;;; wret (0, EmptyString)
                  else wret (number, sql_rank)) in
      let '(number, sql_rank) := st in
      let* st :=
        (match hero with
         | Some p => call_hero p (DailyGamePrize prize_gold) ;;; wret (i, sql)
         | None =>
             let i := i + 1 in
             let sql := sql +:+ prize_sql (timezone g) prize_gold begin_time (acc_ entry) in
             if i >=? 20 then world_sql sql ;;; wret (0, EmptyString) else wret (i, sql)
         end) in
      let '(i, sql) := st in
      settle_loop begin_time l' (number + 1) i sql_rank sql
  end.

Definition DailyGameUpdate : W unit :=
  let* g := wgets globals in
  let r := gRankManager g in
  world_sql "DELETE FROM hero_daily_game_rank;" ;;;
  let* st := settle_loop (_daily_game_begin_time r) (_heroes_daily_rank r) 0 0 EmptyString EmptyString in
  let '(sql_rank, sql) := st in
  wwhen (nonempty sql_rank) (world_sql sql_rank) ;;;
  wwhen (nonempty sql) (world_sql sql) ;;;
  each_hero (TryToGetGamePrize true) ;;;
  on_globals (fun g => set_gRankManager
    (set__daily_game_begin_time (u32 (g_server_time g)) (set__heroes_rank [] (set__heroes_daily_rank []
       (gRankManager g)))) g).

(** ** DreamHeroManager *)
Definition DreamHeroManager_dayRefresh : W unit :=
  DailyGameUpdate ;;;
  each_hero (dayRefresh true).

Definition DreamHeroManager_recoverSpirit : W unit := each_hero recoverSpirit.

(** [save]: the status row. *)
Definition DreamHeroManager_save : W unit :=
  let* w := wgets id in
  let g := globals w in
  let '(names, sql) := manager_save (timezone g) (g_server_time g) (_server_char (gGameConfig g))
                         (Z.of_nat (length (_heroes w))) (getDailyGameBeginTime (gRankManager g)) (gNames g) in
  on_globals (fun g => set_gNames names g) ;;;
  world_sql sql.

(** [refreshDayNumber] ends with [save]; [shuffles] are the results of
    [std::random_shuffle]. *)
Definition DreamHeroManager_refreshDayNumber (shuffles : list (list Z)) : W unit :=
  let* g := wgets globals in
  match refreshDayNumber (timezone g) (g_server_time g) (_server_open_time (gGameConfig g)) shuffles
          (gNames g) with
  | Some names => on_globals (set_gNames names) ;;; DreamHeroManager_save
  | None => undefined
  end.

Definition world_DayPass : W unit :=
  let* g := wgets globals in
  match ShopSalesPromotionManager_DayPass (timezone g) (g_server_time g)
          (mkPMState (gShopSalesPromotionManager g) (gGameConfig g)) with
  | Some s => on_globals (fun g => set_gGameConfig (pm_config s)
                            (set_gShopSalesPromotionManager (pm_mgr s) g))
  | None => undefined
  end.

(** [eventPerMin]: the full hours at which a day begins.  [p1] points to the
    object that every call of [localtime] writes, and [dayRefresh] calls it:
    [p2] is what the object holds then. *)
Definition eventPerMin (shuffles : list (list Z)) (p2 : tm) : W unit :=
  let* g := wgets globals in
  let p1 := localtime (timezone g) (g_server_time g) in
  wwhen (tm_min p1 =? 0) (
    let refreshes := tm_hour p1 =? day_Refresh_time_ (getGlobalConfig (gGameConfig g)) in
    wwhen refreshes DreamHeroManager_dayRefresh ;;;
    wwhen (tm_hour (if refreshes then p2 else p1) =? 0) (world_DayPass ;;; DreamHeroManager_refreshDayNumber shuffles)).
(** With no hero loaded, the last time that [dayRefresh] converts is that of
    the last entry of the ranking, or the begin of the daily game. *)
Definition left_by_dayRefresh (g : Server) : tm :=
  localtime (timezone g) (from_option time_ (_daily_game_begin_time (gRankManager g)) (last (_heroes_daily_rank (gRankManager g)))).

(** [SaveDreamHeroes], when the server stops. *)
Definition SaveDreamHeroes : W unit :=
  let* g := wgets globals in
  wfor (Rank.save (timezone g) (gRankManager g)) world_sql ;;;
  DreamHeroManager_save ;;;
  each_hero SaveHero ;;;
  on_globals (emit OSaveAllHeroes).

(** [CollectInfo]: heroes online and offline. *)
Fixpoint count_online (heroes : list (Z * Z)) (online_count offline_count : Z) : W (Z * Z) :=
  match heroes with
  | [] => wret (online_count, offline_count)
  | (_, p) :: heroes' =>
      let* h := deref_hero p in
      if is_online h then count_online heroes' (online_count +ᵢ 1) offline_count
      else count_online heroes' online_count (offline_count +ᵢ 1)
  end.
Definition CollectInfo : W unit :=
  let* heroes := wgets _heroes in
  let* counts := count_online heroes 0 0 in
  on_globals (fun g => set_gRecordManager
    (gameOnlineRecord (timezone g) (g_server_time g) counts.1 counts.2 (gRecordManager g)) g).
