(* ===== verification/Frames.v ===== *)
(** * Methods of a hero leave the pointers alone

    No request, timer or answer that runs on a hero object changes whose hero
    it is, which session it talks to, the sessions of the process, or whether
    the database server has answered that all heroes are saved. *)
From S2P Require Import Prelude Float32 StdMap Data Text Calendar Config Record Rank Promotion Names Server HeroTask HeroPlay HeroShop HeroDeal HeroDaily HeroSave HeroLoad.
#[local] Open Scope monad_scope.

Definition all_saved (g : Server) : bool := _save_all_heroes_ok (gNames g).
Definition same_links (s s' : HS) : Prop :=
  _session (this s') = _session (this s) /\ _account (this s') = _account (this s) /\
  sessions (srv s') = sessions (srv s) /\ all_saved (srv s') = all_saved (srv s).

#[export] Instance same_links_preorder : PreOrder same_links.
Proof.
  split; [by intros s|]. intros s1 s2 s3 (? & ? & ? & ?) (? & ? & ? & ?). unfold same_links. by repeat split; etransitivity.
Qed.

Definition Frame {A} (m : M HS A) : Prop := forall s a s', m s = Some (a, s') -> same_links s s'.

Lemma frame_ret {A} (a : A) : Frame (ret a).
Proof. by intros s a' s' [= _ <-]. Qed.
Lemma frame_ub {A} : Frame (@ub HS A).
Proof. done. Qed.
Lemma frame_gets {A} (f : HS -> A) : Frame (gets f).
Proof. by intros s a' s' [= _ <-]. Qed.
Lemma frame_bind {A B} (m : M HS A) (f : A -> M HS B) :
  Frame m -> (forall a, Frame (f a)) -> Frame (bind m f).
Proof.
  intros Hm Hf s b s''. unfold bind. destruct (m s) as [[a s']|] eqn:E; [|done]. intros Hb.
  etransitivity; [by eapply Hm|by eapply Hf].
Qed.
Lemma frame_when b (m : M HS unit) : Frame m -> Frame (when b m).
Proof. destruct b; [done|intros; apply frame_ret]. Qed.
Lemma frame_on_hero f :
  (forall h, _session (f h) = _session h /\ _account (f h) = _account h) -> Frame (on_hero f).
Proof. intros Hf s [] s' [= <-]. destruct (Hf (this s)). by repeat split. Qed.
Lemma frame_on_info f : Frame (on_info f).
Proof. by intros s [] s' [= <-]. Qed.
Lemma frame_on_srv f : (forall g, sessions (f g) = sessions g /\ all_saved (f g) = all_saved g) -> Frame (on_srv f).
Proof. intros Hf s [] s' [= <-]. split; [done|]. split; [done|]. apply Hf. Qed.
Lemma frame_send msg : Frame (sendPBMessage msg).
Proof.
  intros s [] s'. unfold sendPBMessage, session_send.
  destruct (_session (this s)) as [t|]; [|by intros [= <-]].
  destruct (mfind t _) as [p|]; [|done]. destruct (m_online p); by intros [= <-].
Qed.
Lemma frame_record f : Frame (record_call f).
Proof. apply frame_on_srv. by split. Qed.
Lemma frame_hero_record f : Frame (hero_record f).
Proof. apply frame_bind; [apply frame_gets|]. intros h. apply frame_record. Qed.
Lemma frame_sql sql : Frame (send_sql sql).
Proof. apply frame_on_srv. by split. Qed.
Lemma frame_http t : Frame (add_http t).
Proof. apply frame_on_srv. by split. Qed.
Lemma frame_rand : Frame rand.
Proof. by intros s a s' [= _ <-]. Qed.
Lemma frame_elem {A} (l : list A) i : Frame (elem l i).
Proof.
  unfold elem. destruct (i <? 0); [apply frame_ub|]. destruct (nth_error _ _); [apply frame_ret|apply frame_ub].
Qed.
Lemma frame_mfor {A} (l : list A) f : (forall x, Frame (f x)) -> Frame (mfor l f).
Proof.
  intros Hf. induction l as [|x l IH]; [apply frame_ret|]. cbn. by apply frame_bind.
Qed.

Create HintDb frame.
#[export] Hint Resolve frame_ret frame_ub frame_gets frame_on_info frame_send frame_record
  frame_hero_record frame_sql frame_http frame_rand frame_elem : frame.

(** Structural steps; the leaves are solved by the hint database. *)
Ltac frame_step :=
  lazymatch goal with
  | |- Frame (bind _ _) => apply frame_bind
  | |- Frame (when _ _) => apply frame_when
  | |- Frame (mfor _ _) => apply frame_mfor
  | |- Frame (on_hero _) =>
      first [solve [eauto 1 with frame] | apply frame_on_hero]; intros ?h; split; try reflexivity;
      repeat match goal with |- context [if ?b then _ else _] => destruct b end; reflexivity
  | |- Frame (on_srv _) => apply frame_on_srv; split; reflexivity
  | |- Frame get_hero => apply frame_gets
  | |- Frame get_info => apply frame_gets
  | |- Frame get_config => apply frame_gets
  | |- Frame get_global => apply frame_gets
  | |- Frame get_time_now => apply frame_gets
  | |- Frame get_rank => apply frame_gets
  | |- Frame (in_today _) => apply frame_gets
  | |- Frame (match ?x with _ => _ end) => destruct x
  | |- forall _, _ => intros ?
  | |- Frame _ => solve [eauto with frame]
  end; cbv beta zeta.
Ltac frame := cbv beta zeta; repeat frame_step.

(** ** The methods *)
Lemma frame_start_daily_game b : Frame (on_hero (start_daily_game b)).
Proof. apply frame_on_hero. intros h. unfold start_daily_game. by destruct (negb _). Qed.
Lemma frame_StopDestroyClock : Frame (on_hero StopDestroyClock).
Proof. apply frame_on_hero. intros h. unfold StopDestroyClock. by destruct (hasEvent _ _). Qed.
Lemma frame_StartDestroyTime : Frame (on_hero StartDestroyTime).
Proof. apply frame_on_hero. intros h. unfold StartDestroyTime. by destruct (hasEvent _ _). Qed.
Lemma frame_StartSave : Frame (on_hero StartSave).
Proof. apply frame_on_hero. intros h. unfold StartSave. by destruct (negb _). Qed.
Lemma frame_set_online b : Frame (on_hero (set_online b)).
Proof. apply frame_on_hero. intros h. unfold set_online. by destruct (negb _). Qed.
#[export] Hint Resolve frame_start_daily_game frame_StopDestroyClock frame_StartDestroyTime
  frame_StartSave frame_set_online : frame.

Lemma frame_RadnomTaskInfo g : Frame (RadnomTaskInfo g).
Proof. unfold RadnomTaskInfo. frame. Qed.
#[export] Hint Resolve frame_RadnomTaskInfo : frame.

Lemma frame_RefreshTask g b : Frame (RefreshTask g b).
Proof. unfold RefreshTask, refresh_slot, refresh_finish, refresh_pay, add_task. frame. Qed.
Lemma frame_ReqModifyTaskCompleteCount n : Frame (ReqModifyTaskCompleteCount n).
Proof. unfold ReqModifyTaskCompleteCount. frame. Qed.
Lemma frame_replace_loop n : forall l, Frame (replace_loop n l).
Proof. induction n as [|n IH]; intros l; cbn [replace_loop]; unfold add_task; frame; apply IH. Qed.
#[export] Hint Resolve frame_replace_loop : frame.
Lemma frame_ReqReplaceTask n : Frame (ReqReplaceTask n).
Proof. unfold ReqReplaceTask. frame. Qed.
Lemma frame_dayRefresh b : Frame (dayRefresh b).
Proof. unfold dayRefresh, add_task. frame. Qed.
#[export] Hint Resolve frame_RefreshTask frame_dayRefresh : frame.

Lemma frame_EnterGame c s a : Frame (EnterGame c s a).
Proof. unfold EnterGame. frame. Qed.
Lemma frame_complete_loop ids : forall count gold gifts, Frame (complete_loop ids count gold gifts).
Proof. induction ids as [|id ids IH]; intros; cbn [complete_loop]; frame; apply IH. Qed.
#[export] Hint Resolve frame_complete_loop : frame.
Lemma frame_ReqExitGame m : Frame (ReqExitGame m).
Proof. unfold ReqExitGame, exit_settle, exit_records, leave_section. frame. Qed.
Lemma frame_ReqUnlockChapter c : Frame (ReqUnlockChapter c).
Proof. unfold ReqUnlockChapter, unlock_reply. frame. Qed.
Lemma frame_ReqReliveReq : Frame ReqReliveReq.
Proof. unfold ReqReliveReq. frame. Qed.
Lemma frame_ReqModifyCurrentHero g : Frame (ReqModifyCurrentHero g).
Proof. unfold ReqModifyCurrentHero. frame. Qed.
Lemma frame_ReqResetMap c s : Frame (ReqResetMap c s).
Proof. unfold ReqResetMap. frame. Qed.
Lemma frame_ReqModifyGold g : Frame (ReqModifyGold g).
Proof. unfold ReqModifyGold. frame. Qed.
Lemma frame_ReqModifyTutorialFlag f : Frame (ReqModifyTutorialFlag f).
Proof. unfold ReqModifyTutorialFlag. frame. Qed.
Lemma frame_ReqRemoveAllSpecialCreatureList : Frame ReqRemoveAllSpecialCreatureList.
Proof. unfold ReqRemoveAllSpecialCreatureList. frame. Qed.
Lemma frame_ReqSetSpecialCreatureList c s : Frame (ReqSetSpecialCreatureList c s).
Proof. unfold ReqSetSpecialCreatureList. frame. Qed.
Lemma frame_ReqModifyNotifyGridState l : Frame (ReqModifyNotifyGridState l).
Proof. unfold ReqModifyNotifyGridState. frame. Qed.
Lemma frame_recoverSpirit : Frame recoverSpirit.
Proof. unfold recoverSpirit. frame. Qed.

Lemma frame_ReqBuyHero grid gold : Frame (ReqBuyHero grid gold).
Proof. unfold ReqBuyHero, set_hero. frame. Qed.
Lemma frame_ReqBuySpirit i : Frame (ReqBuySpirit i).
Proof. unfold ReqBuySpirit. frame. Qed.
Lemma frame_ReqBuyLotion l : Frame (ReqBuyLotion l).
Proof. unfold ReqBuyLotion. frame. Qed.
Lemma frame_ReqDayLottery : Frame ReqDayLottery.
Proof. unfold ReqDayLottery, lottery_draw, lottery_prize. frame. Qed.
Lemma frame_ReqConcernWeiXin k : Frame (ReqConcernWeiXin k).
Proof. unfold ReqConcernWeiXin. frame. Qed.
Lemma frame_ResetWeiXin : Frame ResetWeiXin.
Proof. unfold ResetWeiXin. frame. Qed.
Lemma frame_ReqGoldShopConfigs : Frame ReqGoldShopConfigs.
Proof. unfold ReqGoldShopConfigs. frame. Qed.

Lemma frame_give_up_loop win32 deals : Frame (give_up_loop win32 deals).
Proof. induction deals as [|[o d] deals IH]; cbn [give_up_loop]; frame; apply IH. Qed.
#[export] Hint Resolve frame_give_up_loop : frame.
Lemma frame_ReqCrearteDeal win32 k c : Frame (ReqCrearteDeal win32 k c).
Proof. unfold ReqCrearteDeal. frame. Qed.
Lemma frame_addDealWaitToPay k s st pr o u e : Frame (addDealWaitToPay k s st pr o u e).
Proof. unfold addDealWaitToPay. frame. Qed.
Lemma frame_ReqVerifyDeal o r : Frame (ReqVerifyDeal o r).
Proof. unfold ReqVerifyDeal. frame. Qed.
Lemma frame_addDealPay k st o e b : Frame (addDealPay k st o e b).
Proof. unfold addDealPay, pay_deal. frame. Qed.
#[export] Hint Resolve frame_addDealPay : frame.

Lemma frame_ReqResetDailyGameProgress : Frame ReqResetDailyGameProgress.
Proof. unfold ReqResetDailyGameProgress. frame. Qed.
Lemma frame_ResetDailyGame : Frame ResetDailyGame.
Proof. unfold ResetDailyGame. frame. Qed.
Lemma frame_ResetDailyLottery : Frame ResetDailyLottery.
Proof. unfold ResetDailyLottery. frame. Qed.
Lemma frame_ReqReceiveDailyGamePrize : Frame ReqReceiveDailyGamePrize.
Proof. unfold ReqReceiveDailyGamePrize. frame. Qed.
Lemma frame_DailyGamePrize g : Frame (DailyGamePrize g).
Proof. unfold DailyGamePrize. frame. Qed.
Lemma frame_TryToGetGamePrize b : Frame (TryToGetGamePrize b).
Proof. unfold TryToGetGamePrize. frame. Qed.
#[export] Hint Resolve frame_TryToGetGamePrize : frame.
Lemma frame_ReqUpdateDailyGameProgress m : Frame (ReqUpdateDailyGameProgress m).
Proof. unfold ReqUpdateDailyGameProgress. frame. Qed.

Lemma frame_SaveHero : Frame SaveHero.
Proof. unfold SaveHero. frame. Qed.
(** A new name is the only thing a new hero takes from the manager. *)
Lemma generateName_saved tz now c fuel : forall count g r name g' r',
  generateName_fuel tz now c fuel count (g, r) = Some (name, (g', r')) -> _save_all_heroes_ok g' = _save_all_heroes_ok g.
Proof.
  induction fuel as [|fuel IH]; intros count g r name g' r' E; [done|]. cbn [generateName_fuel] in E. destruct (count >? 100).
  - destruct (generateStr _ _ _ _); [|discriminate]. by injection E as <- <- <-.
  - destruct (generateStr _ _ _ _) as [n|]; [|discriminate]. cbn [mbind option_bind] in E. set (g1 := set__day_create_heroes_count _ g) in E.
    change (_save_all_heroes_ok g) with (_save_all_heroes_ok g1). revert E. generalize (generateNameRecord tz now n (_day_create_heroes_count g1) (_hero_day_title g1) r).
    generalize (_names g1). intros names. revert n. generalize g1. induction names as [|x names IHn]; intros g2 n r2 E; cbn [clash_loop] in E; [by simplify_eq|].
    destruct (String.eqb n x); [|by eapply IHn]. destruct (generateName_fuel tz now c fuel (count + 1) (g2, r2)) as [[n3 [g3 r3]]|] eqn:E3; [|discriminate].
    cbn in E. rewrite <- (IH _ _ _ _ _ _ E3). by eapply IHn.
Qed.
Lemma frame_LoadFromConfig c : Frame (LoadFromConfig c).
Proof.
  intros s a s'. unfold LoadFromConfig, bind, gets. destruct (generateName _ _ _ _) as [[name [names records]]|] eqn:E; [|done].
  apply generateName_saved in E. intros [= _ <-]. by repeat split.
Qed.
#[export] Hint Resolve frame_LoadFromConfig : frame.
Lemma frame_ResetGame : Frame ResetGame.
Proof. unfold ResetGame. frame. Qed.
Lemma frame_SendClientInit : Frame SendClientInit.
Proof. unfold SendClientInit. frame. Qed.

(** [set_info] makes the object the hero of the message's account. *)
Lemma set_info_links m c s s' : set_info m c s = Some (tt, s') ->
  _session (this s') = _session (this s) /\ _account (this s') = dbi_account m /\
  sessions (srv s') = sessions (srv s) /\ all_saved (srv s') = all_saved (srv s).
Proof.
  unfold set_info, bind at 1. cbn [get_hero gets]. unfold get_hero, gets. cbv beta iota.
  destruct (load_deals _ _) as [deals|]; [|done].
  unfold bind at 1. unfold on_hero at 1. unfold modify at 1. cbv beta iota.
  set (s1 := mkHS _ _).
  match goal with |- ?m s1 = _ -> _ => assert (Hf : Frame m) end.
  { unfold resume_deal. frame. }
  intros (H1 & H2 & H3 & H4)%Hf. rewrite H1, H2, H3, H4. by repeat split.
Qed.
