(* ===== verification/Process.v ===== *)
(** * gameserver: the process as a transition system

    The events the game server reacts to, and the invariant of the pointers
    between sessions, heroes and the registry: every run whose events respect
    the protocol of the gates keeps it, and never follows a null or dangling
    pointer. *)
From S2P Require Import Prelude StdMap Data Text Calendar Config Record Rank Promotion Names Server HeroTask HeroPlay HeroShop HeroDeal HeroDaily HeroSave HeroLoad World Dispatch Manager Frames.

(** ** Events *)
Inductive Event :=
| GateRegister (nId pkGate : Z)
| GateClose (nId pkGate : Z)
| AddUser (gate t account channel unset : Z)
| RemoveUser (t : Z)
| OfflineUser (t : Z)
| UserMsg (t : Z) (msg : C2S)
| NeedCreateHero (t : Z)
| QueryHeroInfo (t : Z) (msg : MsgHeroDataDB2GS)
| SavedAllHeroes
| CreateDealDone (acc : Z) (key_code secret_key : string) (status price order_id : Z) (url : string)
    (error : GameError)
| VerifyDealDone (acc : Z) (product_id : string) (status order_id : Z) (error : GameError)
| SetClock (now : Z)
| SaveTimer (p : Z)
| DestroyTimer (p : Z)
| MinuteTimer (shuffles : list (list Z)) (p2 : tm)
| RecoverTimer
| CollectTimer
| StatusTimer
| StopServer
| OrderNotify (acc : Z) (product_id : string) (order_id : Z).

Section Platform.
Context (win32 : bool).

Definition step (ev : Event) : W unit :=
  match ev with
  | GateRegister nId pkGate => let* ok := addGate nId pkGate in wret tt
  | GateClose nId pkGate => removeGate nId pkGate
  | AddUser gate t account channel unset => parseAddUser gate t account channel unset
  | RemoveUser t => removeUser t
  | OfflineUser t => offlineUser t
  | UserMsg t msg => parseUserMsg win32 t msg
  | NeedCreateHero t => parseNeedCreateHero t
  | QueryHeroInfo t msg => parseQueryHeroInfo t msg
  | SavedAllHeroes => parseMsgSaveAllHeroes
  | CreateDealDone acc k s st pr o u e => CreateDeal_logicExcute acc k s st pr o u e
  | VerifyDealDone acc p st o e => VerifyDeal_logicExcute acc p st o e
  | SetClock now => on_globals (set_g_server_time now)
  | SaveTimer p => call_hero p SaveHero
  | DestroyTimer p => Destroy p
  | MinuteTimer shuffles p2 => eventPerMin shuffles p2
  | RecoverTimer => DreamHeroManager_recoverSpirit
  | CollectTimer => CollectInfo
  | StatusTimer => DreamHeroManager_save
  | StopServer => SaveDreamHeroes
  | OrderNotify acc p o => clinch_deal acc p o
  end.

(** ** What the environment promises

    A gate announces a user under a fresh transport id while no other session
    of the account is open (or the same user again); the database answers with
    the row it was asked for; the event manager runs only pending events; the
    object of [localtime] is as the refresh leaves it; and the three commands without a null test come from players whose hero is
    loaded. *)
Definition allowed (ev : Event) (w : World) : Prop :=
  match ev with
  | AddUser gate t account _ _ =>
      forall t' ss, mfind t' (sessions (globals w)) = Some ss ->
        (t' = t -> m_gate ss = gate /\ m_account ss = account) /\ (m_account ss = account -> t' = t)
  | UserMsg t msg =>
      forall ss m, mfind t (sessions (globals w)) = Some ss -> gm_command ss msg = Some (false, m) ->
        _dream_hero ss <> None
  | QueryHeroInfo t msg =>
      forall ss, mfind t (sessions (globals w)) = Some ss -> dbi_account msg = m_account ss
  | SaveTimer p => exists h, mfind p (objects w) = Some h /\ EVENT_SAVE_PLAYER_DATA_ ∈ _events h
  | DestroyTimer p => exists h, mfind p (objects w) = Some h /\ EVENT_DESTROY_PLAYER_ ∈ _events h
  | MinuteTimer _ p2 => _heroes w = [] -> p2 = left_by_dayRefresh (globals w)
  | _ => True
  end.

(** Runs of allowed events. *)
Inductive runs : World -> list Event -> World -> Prop :=
| runs_nil w : runs w [] w
| runs_cons w ev w' evs w'' :
    allowed ev w -> step ev w = Ok tt w' -> runs w' evs w'' -> runs w (ev :: evs) w''.
End Platform.

(** The process after start-up: configured, nobody connected. *)
Definition started (g : Server) : World := mkWorld (set_sessions [] g) [] [] [] 1.

(** ** The invariant *)
Record linked (w : World) : Prop := {
  lk_sessions : forall t ss p, mfind t (sessions (globals w)) = Some ss -> _dream_hero ss = Some p ->
    exists h, mfind p (objects w) = Some h /\ _session h = Some t /\ _account h = m_account ss;
  lk_objects : forall p h t, mfind p (objects w) = Some h -> _session h = Some t ->
    exists ss, mfind t (sessions (globals w)) = Some ss /\ _dream_hero ss = Some p;
  lk_registered : forall p h, mfind p (objects w) = Some h ->
    mfind (_account h) (_heroes w) = Some p /\ p < next_object w;
  lk_heroes : forall acc p, mfind acc (_heroes w) = Some p ->
    exists h, mfind p (objects w) = Some h /\ _account h = acc;
  lk_accounts : forall t1 t2 ss1 ss2, mfind t1 (sessions (globals w)) = Some ss1 ->
    mfind t2 (sessions (globals w)) = Some ss2 -> m_account ss1 = m_account ss2 -> t1 = t2;
  lk_sorted : msorted (sessions (globals w)) /\ msorted (objects w) /\ msorted (_heroes w)
}.

(** No pointer is null or dangling where it is followed, and [Q] holds after. *)
Definition wwp {A} (m : W A) (Q : A -> World -> Prop) (w : World) : Prop :=
  match m w with Ok a w' => Q a w' | Dangling => False | Undefined => True end.

Lemma wwp_ret {A} (a : A) Q w : Q a w -> wwp (wret a) Q w.
Proof. done. Qed.
Lemma wwp_bind {A B} (m : W A) (f : A -> W B) Q w :
  wwp m (fun a w' => wwp (f a) Q w') w -> wwp (wbind m f) Q w.
Proof. unfold wwp, wbind. by destruct (m w). Qed.
Lemma wwp_gets {A} (f : World -> A) Q w : Q (f w) w -> wwp (wgets f) Q w.
Proof. done. Qed.
Lemma wwp_modify f (Q : unit -> World -> Prop) w : Q tt (f w) -> wwp (wmodify f) Q w.
Proof. done. Qed.
Lemma wwp_globals f (Q : unit -> World -> Prop) w :
  Q tt (set_globals (f (globals w)) w) -> wwp (on_globals f) Q w.
Proof. done. Qed.
Lemma wwp_undefined {A} (Q : A -> World -> Prop) w : wwp undefined Q w.
Proof. done. Qed.
Lemma wwp_mono {A} (m : W A) (Q R : A -> World -> Prop) w :
  wwp m Q w -> (forall a w', Q a w' -> R a w') -> wwp m R w.
Proof. unfold wwp. destruct (m w); eauto. Qed.
Lemma wwp_if {A} (b : bool) (m1 m2 : W A) Q w :
  (b = true -> wwp m1 Q w) -> (b = false -> wwp m2 Q w) -> wwp (if b then m1 else m2) Q w.
Proof. destruct b; eauto. Qed.
Lemma wwp_when b (m : W unit) Q w :
  (b = true -> wwp m Q w) -> (b = false -> Q tt w) -> wwp (wwhen b m) Q w.
Proof. destruct b; cbn; eauto. Qed.
Lemma wwp_for {A} (I : World -> Prop) (l : list A) f Q w :
  I w -> (forall x w', x ∈ l -> I w' -> wwp (f x) (fun _ => I) w') ->
  (forall w', I w' -> Q tt w') -> wwp (wfor l f) Q w.
Proof.
  intros H0 Hf HQ. revert w H0. induction l as [|x l IH]; intros w H0; cbn; [by apply HQ|].
  apply wwp_bind. eapply wwp_mono; [apply Hf; [left|done]|]. intros [] w' HI. apply IH; [|done].
  intros y w'' Hy. apply Hf. by right.
Qed.
Lemma wwp_session t (Q : Session -> World -> Prop) w ss :
  mfind t (sessions (globals w)) = Some ss -> Q ss w -> wwp (get_session t) Q w.
Proof. unfold wwp, get_session. by intros ->. Qed.
Lemma wwp_on_session t f (Q : unit -> World -> Prop) w ss :
  mfind t (sessions (globals w)) = Some ss ->
  Q tt (set_globals (set_sessions (mput t (f ss) (sessions (globals w))) (globals w)) w) ->
  wwp (on_session t f) Q w.
Proof. intros Hs HQ. apply wwp_bind. by eapply wwp_session. Qed.
Lemma wwp_call_on_hero p f (Q : unit -> World -> Prop) w h :
  mfind p (objects w) = Some h ->
  Q tt (set_objects (mput p (f h) (objects w)) w) -> wwp (call_hero p (on_hero f)) Q w.
Proof. unfold wwp, call_hero. intros ->. cbn. by destruct w. Qed.
Lemma wwp_deref p (Q : DreamHero -> World -> Prop) w h :
  mfind p (objects w) = Some h -> Q h w -> wwp (deref_hero p) Q w.
Proof. unfold wwp, deref_hero. by intros ->. Qed.

(** ** Lookups after an update *)
Section Lookups.
Context {V : Type}.
Implicit Types m : list (Z * V).

Lemma find_put k k2 (v : V) m : mfind k2 (mput k v m) = if decide (k2 = k) then Some v else mfind k2 m.
Proof.
  destruct (decide (k2 = k)) as [->|Hne]; [apply mfind_put_eq|]. by apply mfind_put_ne.
Qed.
Lemma find_insert k k2 (v : V) m : mfind k m = None ->
  mfind k2 (minsert k v m) = if decide (k2 = k) then Some v else mfind k2 m.
Proof. intros Hk. unfold minsert. rewrite Hk. apply find_put. Qed.
Lemma insert_present k (v w : V) m : mfind k m = Some w -> minsert k v m = m.
Proof. unfold minsert. by intros ->. Qed.
Lemma find_erase k k2 m : msorted m -> mfind k2 (merase k m) = if decide (k2 = k) then None else mfind k2 m.
Proof.
  intros Hs. destruct (decide (k2 = k)) as [->|Hne]; [by apply mfind_erase_eq|]. by apply mfind_erase_ne.
Qed.
End Lookups.

Create HintDb sorted.
#[export] Hint Resolve mput_sorted merase_sorted minsert_sorted : sorted.

(** Case analysis on the updated keys. *)
Ltac decide_key a b :=
  let H := fresh "Hkey" in
  destruct (decide (a = b)) as [H|H]; [first [subst a|idtac]|]; simplify_eq.
Ltac lookups :=
  repeat (rewrite find_put in * || (rewrite find_erase in * by eauto with sorted) ||
          (rewrite find_insert in * by done));
  repeat match goal with
    | |- context [decide (?a = ?a)] => rewrite (decide_True (P := a = a)) by reflexivity
    | H : context [decide (?a = ?b)] |- _ => decide_key a b
    | |- context [decide (?a = ?b)] => decide_key a b
    end.

(** ** Changes of the links *)

(** Two worlds with the same links. *)
Definition hero_links (h : DreamHero) : Z * option Z := (_account h, _session h).
Record same_shape (w w' : World) : Prop := {
  sh_sessions : sessions (globals w') = sessions (globals w);
  sh_heroes : _heroes w' = _heroes w;
  sh_objects : forall q, hero_links <$> mfind q (objects w') = hero_links <$> mfind q (objects w)
}.
#[export] Instance same_shape_preorder : PreOrder same_shape.
Proof.
  split; [by constructor|]. intros w1 w2 w3 [] []. constructor; etransitivity; eauto.
Qed.

Section Linked.
Context (w : World) (Hw : linked w).

Lemma linked_shape g : sessions g = sessions (globals w) -> linked (set_globals g w).
Proof.
  destruct Hw as [H1 H2 H3 H4 H5 H6]. intros Hs. constructor; cbn; rewrite ?Hs; assumption.
Qed.

(** A hero keeps its account and session. *)
Lemma linked_hero p h h' g :
  mfind p (objects w) = Some h -> _session h' = _session h -> _account h' = _account h ->
  sessions g = sessions (globals w) -> linked (set_objects (mput p h' (objects w)) (set_globals g w)).
Proof.
  intros Hp Hs Ha Hg. destruct Hw as [H1 H2 H3 H4 H5 (H6 & H7 & H8)]. constructor; cbn; rewrite ?Hg.
  - intros t ss q Ht Hq. destruct (H1 t ss q Ht Hq) as (h1 & Hh1 & Hs1 & Ha1). lookups.
    + exists h'. by rewrite Hs, Ha.
    + by exists h1.
  - intros q hq t Hq Ht. lookups; [rewrite Hs in Ht|]; by eapply H2.
  - intros q hq Hq. lookups; [rewrite Ha|]; by apply H3.
  - intros acc q Hq. destruct (H4 acc q Hq) as (h1 & Hh1 & Ha1). lookups; [|by exists h1]. by exists h'.
  - done.
  - eauto with sorted.
Qed.

(** A session keeps its account and hero. *)
Lemma linked_session t ss ss' :
  mfind t (sessions (globals w)) = Some ss -> _dream_hero ss' = _dream_hero ss ->
  m_account ss' = m_account ss ->
  linked (set_globals (set_sessions (mput t ss' (sessions (globals w))) (globals w)) w).
Proof.
  intros Ht Hd Ha. destruct Hw as [H1 H2 H3 H4 H5 (H6 & H7 & H8)]. constructor; cbn.
  - intros t1 s1 q Ht1 Hq. lookups; [|by apply (H1 t1)].
    rewrite Hd in Hq. rewrite Ha. by apply (H1 t).
  - intros q hq t1 Hq Ht1. destruct (H2 q hq t1 Hq Ht1) as (s1 & Hs1 & Hq1). lookups; [|by exists s1].
    exists ss'. by rewrite Hd.
  - done.
  - done.
  - intros t1 t2 s1 s2 E1 E2 Heq. lookups; try done; try rewrite Ha in Heq;
      try (symmetry; by eapply H5); by eapply H5.
  - eauto with sorted.
Qed.

(** A new session of an account without one. *)
Lemma linked_new_session t ss :
  mfind t (sessions (globals w)) = None -> _dream_hero ss = None ->
  (forall t' ss', mfind t' (sessions (globals w)) = Some ss' -> m_account ss' <> m_account ss) ->
  linked (set_globals (set_sessions (mput t ss (sessions (globals w))) (globals w)) w).
Proof.
  intros Ht Hd Ha. destruct Hw as [H1 H2 H3 H4 H5 (H6 & H7 & H8)]. constructor; cbn.
  - intros t1 s1 q Ht1 Hq. lookups. by apply (H1 t1).
  - intros q hq t1 Hq Ht1. destruct (H2 q hq t1 Hq Ht1) as (s1 & Hs1 & Hq1). lookups. by exists s1.
  - done.
  - done.
  - intros t1 t2 s1 s2 E1 E2 Heq. lookups; first [done|by edestruct Ha|by eapply H5].
  - eauto with sorted.
Qed.

(** The session of an account is attached to the account's hero. *)
Lemma linked_attach t ss p h h' g :
  mfind t (sessions (globals w)) = Some ss -> mfind p (objects w) = Some h ->
  _account h = m_account ss -> _account h' = _account h -> _session h' = Some t ->
  sessions g = mput t (set__dream_hero (Some p) ss) (sessions (globals w)) ->
  linked (set_objects (mput p h' (objects w)) (set_globals g w)).
Proof.
  intros Ht Hp Ha Ha' Hs' Hg. destruct Hw as [H1 H2 H3 H4 H5 (H6 & H7 & H8)].
  (* nobody else is attached to the hero, the session to nobody else *)
  assert (Hother : forall t1 s1, mfind t1 (sessions (globals w)) = Some s1 -> _dream_hero s1 = Some p -> t1 = t).
  { intros t1 s1 E1 Eq. destruct (H1 t1 s1 p E1 Eq) as (h1 & Hh1 & _ & Hacc1).
    apply (H5 t1 t s1 ss); congruence. }
  assert (Hthis : forall q hq, mfind q (objects w) = Some hq -> _session hq = Some t -> q = p).
  { intros q hq Hq Hst. destruct (H2 q hq t Hq Hst) as (s1 & Hs1 & Hd1). rewrite Ht in Hs1.
    injection Hs1 as <-. destruct (H1 t ss q Ht Hd1) as (hq' & Hq' & _ & Haq).
    destruct (H3 q hq' Hq') as [Hr1 _], (H3 p h Hp) as [Hr2 _]. congruence. }
  constructor; cbn; rewrite ?Hg.
  - intros t1 s1 q Ht1 Hq. lookups; cbn in *; simplify_eq.
    + exists h'. split; [done|]. split; [done|]. congruence.
    + match goal with H : _ <> ?t |- _ => destruct H end. by eapply Hother.
    + by apply (H1 t1 s1 q).
  - intros q hq t1 Hq Ht1. lookups.
    + by exists (set__dream_hero (Some p) ss).
    + match goal with H : _ <> _ |- _ => destruct H end. by eapply Hthis.
    + by apply (H2 q hq).
  - intros q hq Hq. lookups; [rewrite Ha'; by apply H3|by apply H3].
  - intros acc q Hq. destruct (H4 acc q Hq) as (h1 & Hh1 & Ha1). lookups; [|by exists h1].
    exists h'. split; [done|congruence].
  - intros t1 t2 s1 s2 E1 E2 Heq. lookups; try done; cbn in Heq; eapply H5; eauto.
  - eauto with sorted.
Qed.

(** A new hero is registered for an account without one and attached. *)
Lemma linked_create t ss h g :
  mfind t (sessions (globals w)) = Some ss -> mfind (m_account ss) (_heroes w) = None ->
  _account h = m_account ss -> _session h = Some t ->
  sessions g = mput t (set__dream_hero (Some (next_object w)) ss) (sessions (globals w)) ->
  linked (mkWorld g (mput (next_object w) h (objects w)) (minsert (m_account ss) (next_object w) (_heroes w))
            (m_Gates w) (next_object w + 1)).
Proof.
  intros Ht Hno Ha Hs Hg. destruct Hw as [H1 H2 H3 H4 H5 (H6 & H7 & H8)].
  assert (Hfree : mfind (next_object w) (objects w) = None).
  { destruct (mfind (next_object w) (objects w)) as [x|] eqn:E; [|done]. apply H3 in E as [_ E]. lia. }
  assert (Hnone : forall q, _dream_hero ss = Some q -> False).
  { intros q Hq. destruct (H1 t ss q Ht Hq) as (hq & Eq & _ & Haq). apply H3 in Eq as [Eq _]. congruence. }
  constructor; cbn; rewrite ?Hg.
  - intros t1 s1 q Ht1 Hq. lookups; cbn in *; simplify_eq.
    + by exists h.
    + destruct (H1 _ _ _ Ht1 Hq) as (h1 & Hh1 & _). congruence.
    + by apply (H1 t1 s1 q).
  - intros q hq t1 Hq Ht1. lookups.
    + by exists (set__dream_hero (Some (next_object w)) ss).
    + destruct (H2 q hq t Hq Ht1) as (s1 & Hs1 & Hd1). exfalso. apply (Hnone q). congruence.
    + by apply (H2 q hq).
  - intros q hq Hq. rewrite find_put in Hq. destruct (decide (q = next_object w)) as [->|Hne].
    + injection Hq as <-. rewrite Ha, find_insert, decide_True by done. split; [done|lia].
    + destruct (H3 q hq Hq) as [Hr Hlt]. rewrite find_insert by done. split; [|lia].
      destruct (decide _); [congruence|done].
  - intros acc q Hq. rewrite find_insert in Hq by done. rewrite find_put.
    destruct (decide (acc = m_account ss)) as [->|Hne]; simplify_eq.
    + rewrite decide_True by done. by exists h.
    + destruct (H4 acc q Hq) as (h1 & Hh1 & Ha1). rewrite decide_False by congruence. by exists h1.
  - intros t1 t2 s1 s2 E1 E2 Heq. lookups; try done; cbn in Heq; eapply H5; eauto.
  - split_and!; [by apply mput_sorted|by apply mput_sorted|by apply minsert_sorted].
Qed.

(** A hero leaves: its session forgets it, the registry and the memory too. *)
Lemma linked_destroy p h g :
  mfind p (objects w) = Some h ->
  (forall t, mfind t (sessions g) =
     match mfind t (sessions (globals w)) with
     | Some ss => Some (if decide (_session h = Some t) then set__dream_hero None ss else ss)
     | None => None
     end) ->
  msorted (sessions g) ->
  linked (mkWorld g (merase p (objects w)) (merase (_account h) (_heroes w)) (m_Gates w) (next_object w)).
Proof.
  intros Hp Hg Hsg. destruct Hw as [H1 H2 H3 H4 H5 (H6 & H7 & H8)].
  assert (Hold : forall t ss, mfind t (sessions g) = Some ss -> exists ss0,
    mfind t (sessions (globals w)) = Some ss0 /\ m_account ss = m_account ss0 /\
    ((_session h = Some t /\ _dream_hero ss = None) \/ (_session h <> Some t /\ ss = ss0))).
  { intros t ss Ht. rewrite Hg in Ht. destruct (mfind t _) as [s0|]; [|done]. exists s0.
    destruct (decide _); simplify_eq; split; try done; split; try done; [left|right]; done. }
  constructor; cbn.
  - intros t ss q Ht Hq. apply Hold in Ht as (s0 & Ht & Ha & [[_ ?]|[Hne ->]]); [congruence|].
    destruct (H1 t s0 q Ht Hq) as (h1 & Hh1 & Hs1 & Ha1). lookups. by exists h1.
  - intros q hq t Hq Hst. lookups. destruct (H2 q hq t Hq Hst) as (s0 & Hs0 & Hd0).
    exists s0. split; [|done]. rewrite Hg, Hs0. destruct (decide _) as [Hh|]; [|done].
    destruct (H2 p h t Hp Hh) as (s1 & Hs1 & Hd1). congruence.
  - intros q hq Hq. rewrite find_erase in Hq by done. destruct (decide (q = p)); [done|].
    destruct (H3 q hq Hq) as [Hr Hlt]. split; [|done].
    rewrite find_erase by done. destruct (decide _); [|done]. apply H3 in Hp as [Hp _]. congruence.
  - intros acc q Hq. rewrite find_erase in Hq by done. destruct (decide (acc = _account h)); [done|].
    destruct (H4 acc q Hq) as (h1 & Hh1 & Ha1). rewrite find_erase by done. exists h1.
    by rewrite decide_False by congruence.
  - intros t1 t2 s1 s2 E1 E2 Heq. apply Hold in E1 as (x1 & E1 & A1 & _), E2 as (x2 & E2 & A2 & _).
    eapply H5; eauto. congruence.
  - eauto with sorted.
Qed.

(** A session without hero is closed. *)
Lemma linked_close t ss g :
  mfind t (sessions (globals w)) = Some ss -> _dream_hero ss = None ->
  sessions g = merase t (sessions (globals w)) -> linked (set_globals g w).
Proof.
  intros Ht Hd Hg. destruct Hw as [H1 H2 H3 H4 H5 (H6 & H7 & H8)]. constructor; cbn; rewrite ?Hg.
  - intros t1 s1 q Ht1 Hq. lookups. by apply (H1 t1).
  - intros q hq t1 Hq Ht1. destruct (H2 q hq t1 Hq Ht1) as (s1 & Hs1 & Hq1).
    rewrite find_erase by done. exists s1. by rewrite decide_False by congruence.
  - done.
  - done.
  - intros t1 t2 s1 s2 E1 E2 Heq. lookups. by eapply H5.
  - eauto with sorted.
Qed.

(** A session lets go of its hero. *)
Lemma linked_detach t ss p h h' g :
  mfind t (sessions (globals w)) = Some ss -> _dream_hero ss = Some p -> mfind p (objects w) = Some h ->
  _account h' = _account h -> _session h' = None ->
  sessions g = mput t (set__dream_hero None ss) (sessions (globals w)) ->
  linked (set_objects (mput p h' (objects w)) (set_globals g w)).
Proof.
  intros Ht Hd Hp Ha Hs Hg. destruct Hw as [H1 H2 H3 H4 H5 (H6 & H7 & H8)]. constructor; cbn; rewrite ?Hg.
  - intros t1 s1 q Ht1 Hq. lookups; cbn in *; simplify_eq.
    + destruct (H1 t1 s1 p Ht1 Hq) as (x & Hx & Hsx & _), (H1 t ss p Ht Hd) as (y & Hy & Hsy & _). congruence.
    + by apply (H1 t1 s1 q).
  - intros q hq t1 Hq Ht1. lookups; [|by apply (H2 q hq)].
    destruct (H2 q hq t Hq Ht1) as (s1 & Hs1 & Hd1). congruence.
  - intros q hq Hq. lookups; [rewrite Ha; by apply H3|by apply H3].
  - intros acc q Hq. destruct (H4 acc q Hq) as (h1 & Hh1 & Ha1). lookups; [|by exists h1].
    exists h'. split; [done|congruence].
  - intros t1 t2 s1 s2 E1 E2 Heq. lookups; try done; cbn in Heq; eapply H5; eauto.
  - eauto with sorted.
Qed.
End Linked.

(** ** The steps keep the links *)
Definition keeps_linked (m : W unit) (w : World) : Prop :=
  wwp m (fun _ w' => linked w' /\ same_shape w w') w.

Lemma call_linked {A} p (m : M HS A) w h (Q : A -> World -> Prop) :
  linked w -> mfind p (objects w) = Some h -> Frame m ->
  (forall a w', linked w' -> same_shape w w' -> Q a w') -> wwp (call_hero p m) Q w.
Proof.
  intros Hw Hp Hm HQ. unfold wwp, call_hero. rewrite Hp.
  destruct (m _) as [[a s]|] eqn:E; [|done]. apply Hm in E as (H1 & H2 & H3 & _). cbn in *. apply HQ.
  - by apply (linked_hero w Hw p h).
  - constructor; cbn; [done|done|]. intros q. rewrite find_put.
    destruct (decide (q = p)) as [->|]; [|done]. rewrite Hp. cbn. unfold hero_links. by rewrite H1, H2.
Qed.

Lemma globals_linked f w : linked w -> (forall g, sessions (f g) = sessions g) ->
  keeps_linked (on_globals f) w.
Proof.
  intros Hw Hf. apply wwp_globals. split; [by apply linked_shape|]. by constructor; cbn.
Qed.

Lemma keeps_bind (m1 m2 : W unit) w :
  keeps_linked m1 w -> (forall w', linked w' -> same_shape w w' -> keeps_linked m2 w') ->
  keeps_linked (m1 ;;; m2) w.
Proof.
  intros H1 H2. apply wwp_bind. eapply wwp_mono; [exact H1|]. intros [] w' [Hw' Hs].
  eapply wwp_mono; [by apply H2|]. intros [] w'' [Hw'' Hs']. split; [done|]. by etransitivity.
Qed.

Lemma keeps_ret w : linked w -> keeps_linked (wret tt) w.
Proof. intros Hw. by apply wwp_ret. Qed.

Lemma keeps_when b m w : linked w -> (b = true -> keeps_linked m w) -> keeps_linked (wwhen b m) w.
Proof. intros Hw Hm. destruct b; [by apply Hm|by apply keeps_ret]. Qed.

Lemma keeps_for {A} (l : list A) f w :
  linked w -> (forall x w', x ∈ l -> linked w' -> same_shape w w' -> keeps_linked (f x) w') ->
  keeps_linked (wfor l f) w.
Proof.
  intros Hw Hf. apply (wwp_for (fun w' => linked w' /\ same_shape w w')); [done| |done].
  intros x w' Hx [Hw' Hs]. eapply wwp_mono; [by apply Hf|]. intros [] w'' [? ?]. split; [done|].
  by etransitivity.
Qed.

Lemma keeps_call p m w h : linked w -> mfind p (objects w) = Some h -> Frame m ->
  keeps_linked (call_hero p m) w.
Proof. intros Hw Hp Hm. by eapply call_linked. Qed.

Lemma shape_object w w' q h : same_shape w w' -> mfind q (objects w) = Some h ->
  exists h', mfind q (objects w') = Some h' /\ _account h' = _account h /\ _session h' = _session h.
Proof.
  intros Hs Hq. pose proof (sh_objects _ _ Hs q) as E. rewrite Hq in E.
  destruct (mfind q (objects w')) as [h'|]; [|done]. cbn in E. unfold hero_links in E.
  injection E as E1 E2. by exists h'.
Qed.

Lemma each_hero_linked m w : linked w -> Frame m -> keeps_linked (each_hero m) w.
Proof.
  intros Hw Hm. apply wwp_bind, wwp_gets. apply keeps_for; [done|].
  intros [acc p] w' Hin Hw' Hs. apply mIn_find in Hin; [|by apply (lk_sorted _ Hw)].
  destruct (lk_heroes _ Hw acc p Hin) as (h & Hp & _).
  destruct (shape_object _ _ _ _ Hs Hp) as (h' & Hp' & _). by eapply keeps_call.
Qed.

Lemma GetHero_linked acc w (Q : option Z -> World -> Prop) :
  linked w ->
  (forall p h, mfind acc (_heroes w) = Some p -> mfind p (objects w) = Some h -> _account h = acc -> Q (Some p) w) ->
  (mfind acc (_heroes w) = None -> Q None w) -> wwp (GetHero acc) Q w.
Proof.
  intros Hw H1 H2. unfold wwp, GetHero. destruct (mfind acc (_heroes w)) as [p|] eqn:E; [|by apply H2].
  destruct (lk_heroes _ Hw acc p E) as (h & Hp & Ha). unfold mhas. rewrite Hp. by eapply H1.
Qed.

(** A method on the session's hero, if there is one. *)
Lemma session_hero_linked t ss m w :
  linked w -> mfind t (sessions (globals w)) = Some ss -> Frame m -> keeps_linked (on_session_hero t m) w.
Proof.
  intros Hw Ht Hm. apply wwp_bind. eapply wwp_session; [done|].
  destruct (_dream_hero ss) as [p|] eqn:E; [|by apply keeps_ret].
  destruct (lk_sessions _ Hw t ss p Ht E) as (h & Hp & _). by eapply keeps_call.
Qed.
