(* ===== verification/NoDangling.v ===== *)
(** * gameserver: no pointer dangles

    Every step that the environment may take keeps the links between sessions,
    heroes and the registry, and follows no null or dangling pointer. *)
From S2P Require Import Prelude StdMap Data Text Calendar Config Record Rank Promotion Names Server HeroTask HeroPlay HeroShop HeroDeal HeroDaily HeroSave HeroLoad World Dispatch Manager Frames Process.

Definition ends_linked {A} (m : W A) (w : World) : Prop := wwp m (fun _ => linked) w.

Lemma keeps_ends m w : keeps_linked m w -> ends_linked m w.
Proof. intros H. eapply wwp_mono; [exact H|]. by intros [] w' [? _]. Qed.

Lemma ends_bind {A} (m1 : W unit) (m2 : W A) w :
  ends_linked m1 w -> (forall w', linked w' -> ends_linked m2 w') -> ends_linked (m1 ;;; m2) w.
Proof. intros H1 H2. apply wwp_bind. eapply wwp_mono; [exact H1|]. intros []. apply H2. Qed.

(** ** Sessions end *)

(** The session is gone, the others are as they were. *)
Definition released (t : Z) (w w' : World) : Prop :=
  linked w' /\ forall t', t' <> t -> mfind t' (sessions (globals w')) = mfind t' (sessions (globals w)).

Lemma erase_released t ss w0 w :
  linked w -> mfind t (sessions (globals w)) = Some ss -> _dream_hero ss = None ->
  (forall t', t' <> t -> mfind t' (sessions (globals w)) = mfind t' (sessions (globals w0))) ->
  released t w0 (set_globals (set_sessions (merase t (sessions (globals w))) (globals w)) w).
Proof.
  intros Hw Ht Hd Hsame. split; [by eapply linked_close|]. intros t' Hne. cbn.
  rewrite find_erase by apply (lk_sorted _ Hw). rewrite decide_False by done. by apply Hsame.
Qed.

(** The destructor forgets the hero on both sides. *)
Lemma destroy_linked t ss w :
  linked w -> mfind t (sessions (globals w)) = Some ss ->
  wwp (Session_destroy t) (fun _ w' => linked w' /\
    mfind t (sessions (globals w')) = Some (set__dream_hero None ss) /\
    forall t', t' <> t -> mfind t' (sessions (globals w')) = mfind t' (sessions (globals w))) w.
Proof.
  intros Hw Ht.
  assert (Hput : forall t', t' <> t -> mfind t' (mput t (set__dream_hero None ss) (sessions (globals w)))
                            = mfind t' (sessions (globals w))) by (intros; by apply mfind_put_ne).
  apply wwp_bind, wwp_bind. eapply wwp_session; [exact Ht|].
  destruct (_dream_hero ss) as [p|] eqn:Ed.
  - destruct (lk_sessions _ Hw t ss p Ht Ed) as (h & Hp & _ & _).
    unfold wwp at 1, call_hero. rewrite Hp. cbn [bind on_hero modify this srv].
    eapply wwp_on_session; [exact Ht|]. split; [|by cbn; rewrite mfind_put_eq].
    eapply (linked_detach _ Hw t ss p h); try done. unfold StartDestroyTime. by destruct (hasEvent _ _).
  - apply wwp_ret. eapply wwp_on_session; [exact Ht|]. split; [|by cbn; rewrite mfind_put_eq].
    by eapply linked_session.
Qed.

Lemma release_linked t ss w :
  linked w -> mfind t (sessions (globals w)) = Some ss ->
  wwp (release_session t) (fun _ => released t w) w.
Proof.
  intros Hw Ht. apply wwp_bind.
  eapply wwp_mono; [by eapply session_hero_linked; eauto using frame_StartDestroyTime|].
  intros [] w1 [Hw1 Hs1]. rewrite <- (sh_sessions _ _ Hs1) in Ht.
  apply wwp_bind. eapply wwp_mono; [by eapply destroy_linked|]. intros [] w2 (Hw2 & Ht2 & Hsame).
  apply wwp_globals. eapply erase_released; [done|exact Ht2|by destruct ss|].
  intros t' Hne. by rewrite Hsame, (sh_sessions _ _ Hs1).
Qed.

Lemma release_all_linked l w :
  linked w -> NoDup l -> (forall t, t ∈ l -> is_Some (mfind t (sessions (globals w)))) ->
  ends_linked (wfor l release_session) w.
Proof.
  revert w. induction l as [|t l IH]; intros w Hw Hnd Hall; [done|].
  apply NoDup_cons in Hnd as [Hn Hnd]. destruct (Hall t) as [ss Ht]; [by left|].
  apply wwp_bind. eapply wwp_mono; [by eapply release_linked|]. intros [] w' [Hw' Hsame]. apply IH; [done|done|].
  intros t' Hin. rewrite Hsame by (by intros ->). apply Hall. by right.
Qed.

Lemma removeUserByGate_linked g w : linked w -> ends_linked (removeUserByGate g) w.
Proof.
  intros Hw. apply wwp_bind, wwp_gets. destruct (lk_sorted _ Hw) as (Hs & _ & _).
  apply release_all_linked; [done| |].
  - pose proof (msorted_filter (fun kv : Z * Session => m_gate kv.2 =? g) _ Hs) as Hf.
    by apply msorted_NoDup in Hf.
  - intros t (kv & -> & Hin)%list_elem_of_fmap. apply list_elem_of_In, filter_In in Hin as [Hin _].
    apply list_elem_of_In in Hin. destruct kv as [t ss]. exists ss. by apply mIn_find.
Qed.

Lemma linked_gates l w : linked w -> linked (set_m_Gates l w).
Proof. intros []. by constructor. Qed.

(** ** Sessions begin, heroes are created *)

Lemma new_session_linked t account gate channel w :
  linked w -> mfind t (sessions (globals w)) = None ->
  (forall t' ss, mfind t' (sessions (globals w)) = Some ss -> m_account ss <> account) ->
  wwp (Session_Session t account gate channel)
    (fun _ w' => linked w' /\ is_Some (mfind t (sessions (globals w')))) w.
Proof.
  intros Hw Ht Hfree. set (ss := mkSession t account gate true None channel). apply wwp_bind, wwp_globals.
  set (w1 := set_globals _ w). assert (Hw1 : linked w1) by (by apply linked_new_session).
  assert (Ht1 : mfind t (sessions (globals w1)) = Some ss) by apply mfind_put_eq.
  apply wwp_bind, GetHero_linked; [done| |].
  2: { intros _. apply wwp_globals. split; [by apply linked_shape|by exists ss]. }
  intros p h _ Hp Ha. apply wwp_bind. eapply wwp_call_on_hero; [exact Hp|].
  apply wwp_bind. eapply wwp_on_session; [exact Ht1|]. apply wwp_bind.
  eapply wwp_call_on_hero; [cbn; apply mfind_put_eq|]. cbn [objects set_objects set_globals globals].
  rewrite mput_put. set (w2 := set_objects _ _).
  assert (Hw2 : linked w2).
  { apply (linked_attach w1 Hw1 t ss p h); try done; unfold StopDestroyClock; by destruct (hasEvent _ _). }
  eapply wwp_mono; [eapply (keeps_call p _ w2); [done|apply mfind_put_eq|apply frame_SendClientInit]|].
  intros [] w3 [Hw3 Hs3]. split; [done|]. rewrite (sh_sessions _ _ Hs3). cbn. rewrite mfind_put_eq. by eexists.
Qed.

(** The session is given its hero: a fresh object, or the registered one. *)
Lemma attach_created t ss p h0 w0 g (Q : unit -> World -> Prop) w :
  linked w0 -> mfind t (sessions (globals w0)) = Some ss ->
  mfind (m_account ss) (_heroes w0) = None -> p = next_object w0 ->
  sessions g = sessions (globals w0) -> _account h0 = m_account ss -> _session h0 = Some t ->
  w = mkWorld g (mput p h0 (objects w0)) (minsert (m_account ss) p (_heroes w0)) (m_Gates w0) (p + 1) ->
  (forall w', linked w' -> mfind t (sessions (globals w')) = Some (set__dream_hero (Some p) ss) -> Q tt w') ->
  wwp (setDreamHero (Some p) t) Q w.
Proof.
  intros Hw Ht Hno -> Hg Ha Hs -> HQ. eapply wwp_on_session; [cbn; rewrite Hg; exact Ht|].
  apply HQ; [|cbn; apply mfind_put_eq]. unfold set_globals.
  cbn [objects _heroes m_Gates next_object globals]. apply (linked_create w0 Hw t ss h0); try done.
  cbn. by rewrite Hg.
Qed.

Lemma attach_existing t ss p h h' g w0 (Q : unit -> World -> Prop) w :
  linked w0 -> mfind t (sessions (globals w0)) = Some ss -> mfind p (objects w0) = Some h ->
  _account h = m_account ss -> _account h' = m_account ss -> _session h' = Some t ->
  sessions g = sessions (globals w0) ->
  w = set_objects (mput p h' (objects w0)) (set_globals g w0) ->
  (forall w', linked w' -> mfind t (sessions (globals w')) = Some (set__dream_hero (Some p) ss) -> Q tt w') ->
  wwp (setDreamHero (Some p) t) Q w.
Proof.
  intros Hw Ht Hp Ha Ha' Hs Hg -> HQ. eapply wwp_on_session; [cbn; rewrite Hg; exact Ht|].
  apply HQ; [|cbn; apply mfind_put_eq]. cbn. apply (linked_attach w0 Hw t ss p h); try done; [congruence|].
  cbn. by rewrite Hg.
Qed.

Lemma clocked h : _account (StopDestroyClock h) = _account h /\ _session (StopDestroyClock h) = _session h.
Proof. unfold StopDestroyClock. by destruct (hasEvent _ _). Qed.

Lemma fresh_address w : linked w -> mfind (next_object w) (objects w) = None.
Proof.
  intros Hw. destruct (mfind (next_object w) (objects w)) as [h|] eqn:E; [|done].
  destruct (lk_registered _ Hw _ _ E). lia.
Qed.

(** [CreateHero] and [CreateHero_info], followed by the session's assignment. *)
Lemma create_linked t ss w (Q : Z -> unit -> World -> Prop) (R : unit -> World -> Prop) :
  linked w -> mfind t (sessions (globals w)) = Some ss ->
  (forall p w', linked w' -> mfind t (sessions (globals w')) = Some (set__dream_hero (Some p) ss) -> Q p tt w') ->
  forall k : Z -> W unit, (forall p w', wwp (setDreamHero (Some p) t) (Q p) w' -> wwp (k p) R w') ->
  wwp (let* p := CreateHero (m_account ss) t in k p) R w.
Proof.
  intros Hw Ht HQ k Hk. unfold CreateHero.
  apply wwp_bind, wwp_bind, GetHero_linked; [done| |].
  - intros p h Hr Hp Ha. apply wwp_bind. eapply wwp_session; [exact Ht|]. apply wwp_bind, wwp_ret.
    apply wwp_bind. unfold wwp at 1, call_hero. rewrite Hp. cbn [bind on_hero modify this srv].
    apply wwp_bind, wwp_bind. set (h' := StopDestroyClock _).
    assert (Hh' : _account h' = m_account ss /\ _session h' = Some t) by (apply clocked).
    destruct Hh' as [Ha' Hs']. eapply wwp_deref; [cbn; apply mfind_put_eq|]. apply wwp_modify.
    rewrite Ha'. cbn [_heroes set_objects set_globals]. rewrite (insert_present _ _ _ _ Hr).
    apply wwp_ret, Hk. eapply (attach_existing t ss p h h' (globals w) w); try done. by apply HQ.
  - intros Hno. apply wwp_bind. eapply wwp_session; [exact Ht|].
    apply wwp_bind, wwp_bind. unfold new_object. unfold wwp at 1. set (p := next_object w).
    apply wwp_bind. unfold wwp at 1, call_hero. cbn [objects set_objects]. rewrite mfind_put_eq.
    destruct (LoadFromConfig _ _) as [[[] s1]|] eqn:E; [|done].
    apply frame_LoadFromConfig in E as (Hs1 & Ha1 & Hg1 & _). cbn in Hs1, Ha1, Hg1.
    apply wwp_ret. apply wwp_bind. unfold wwp at 1, call_hero. cbn [objects set_objects].
    rewrite mfind_put_eq. cbn [bind on_hero modify this srv]. rewrite !mput_put.
    apply wwp_bind, wwp_bind. set (h' := StopDestroyClock _).
    assert (Hh' : _account h' = m_account ss /\ _session h' = Some t) by (apply clocked).
    destruct Hh' as [Ha' Hs']. eapply wwp_deref; [cbn; apply mfind_put_eq|]. apply wwp_modify. rewrite Ha'.
    apply wwp_ret, Hk. eapply (attach_created t ss p h' w (srv s1)); try done. intros; by apply (HQ p).
Qed.

Lemma create_info_linked msg t ss w (Q : Z -> unit -> World -> Prop) (R : unit -> World -> Prop) :
  linked w -> mfind t (sessions (globals w)) = Some ss -> dbi_account msg = m_account ss ->
  (forall p w', linked w' -> mfind t (sessions (globals w')) = Some (set__dream_hero (Some p) ss) -> Q p tt w') ->
  forall k : Z -> W unit, (forall p w', wwp (setDreamHero (Some p) t) (Q p) w' -> wwp (k p) R w') ->
  wwp (let* p := CreateHero_info msg (m_account ss) t in k p) R w.
Proof.
  intros Hw Ht Hacc HQ k Hk. unfold CreateHero_info.
  apply wwp_bind, wwp_bind, GetHero_linked; [done| |].
  - intros p h Hr Hp Ha. apply wwp_bind. eapply wwp_session; [exact Ht|]. apply wwp_bind, wwp_ret.
    apply wwp_bind. unfold wwp at 1, call_hero. rewrite Hp. cbn [bind on_hero modify this srv].
    set (h' := StopDestroyClock _).
    assert (Hh' : _account h' = m_account ss /\ _session h' = Some t) by (apply clocked).
    destruct Hh' as [Ha' Hs']. apply wwp_ret, Hk.
    eapply (attach_existing t ss p h h' (globals w) w); try done. by apply HQ.
  - intros Hno. apply wwp_bind. eapply wwp_session; [exact Ht|].
    apply wwp_bind, wwp_bind. unfold new_object. unfold wwp at 1. set (p := next_object w).
    apply wwp_bind. unfold wwp at 1, call_hero. cbn [objects set_objects]. rewrite mfind_put_eq.
    destruct (set_info _ _ _) as [[[] s1]|] eqn:E; [|done].
    apply set_info_links in E as (Hs1 & Ha1 & Hg1 & _). cbn in Hs1, Ha1, Hg1.
    apply wwp_bind, wwp_bind. eapply wwp_deref; [cbn; apply mfind_put_eq|]. apply wwp_modify, wwp_ret.
    rewrite Ha1, Hacc. apply wwp_bind. unfold wwp at 1, call_hero. cbn [objects set_objects set__heroes].
    rewrite mfind_put_eq. cbn [bind on_hero modify this srv]. rewrite !mput_put.
    set (h' := StopDestroyClock _).
    assert (Hh' : _account h' = m_account ss /\ _session h' = Some t) by (apply clocked).
    destruct Hh' as [Ha' Hs']. apply wwp_ret, Hk.
    eapply (attach_created t ss p h' w (srv s1)); try done. intros; by apply (HQ p).
Qed.

(** ** The events *)

Lemma destroy_hero_linked p h w : linked w -> mfind p (objects w) = Some h -> ends_linked (Destroy p) w.
Proof.
  intros Hw Hp. apply wwp_bind. eapply wwp_mono; [by eapply keeps_call; eauto using frame_hero_record|].
  intros [] w1 [Hw1 Hs1]. destruct (shape_object _ _ _ _ Hs1 Hp) as (h1 & Hp1 & _).
  apply wwp_bind. eapply wwp_deref; [exact Hp1|].
  destruct (lk_registered _ Hw1 p h1 Hp1) as [Hr _]. destruct (lk_sorted _ Hw1) as (Hsort & _ & _).
  assert (Hdel : forall g,
    (forall t, mfind t (sessions g) = match mfind t (sessions (globals w1)) with
       | Some ss => Some (if decide (_session h1 = Some t) then set__dream_hero None ss else ss)
       | None => None end) -> msorted (sessions g) ->
    ends_linked (DestroyHero p) (set_globals g w1)).
  { intros g Hg Hsg. apply wwp_bind. eapply wwp_deref; [exact Hp1|]. apply wwp_bind, wwp_gets. cbn [_heroes set_globals].
    rewrite Hr, Z.eqb_refl. apply wwp_bind. unfold wwp at 1, delete_object, mhas. cbn [objects set_globals].
    rewrite Hp1. apply wwp_modify. by apply (linked_destroy w1 Hw1 p h1). }
  destruct (_session h1) as [t|] eqn:Eh.
  - destruct (lk_objects _ Hw1 p h1 t Hp1 Eh) as (ss & Ht & Hd). apply wwp_bind.
    eapply wwp_on_session; [exact Ht|]. apply Hdel; [|by apply mput_sorted].
    intros t'. cbn. rewrite find_put. destruct (decide (t' = t)) as [->|Hne].
    + rewrite Ht, decide_True by done. done.
    + destruct (mfind t' _); [|done]. by rewrite decide_False by congruence.
  - apply wwp_bind, wwp_ret. replace w1 with (set_globals (globals w1) w1) by (by destruct w1).
    apply Hdel; [|done]. intros t'. by destruct (mfind t' _).
Qed.

Lemma frame_reply ss msg : Frame (reply ss msg).
Proof. apply frame_on_srv. intros g. unfold session_send. by destruct (m_online ss). Qed.
Lemma frame_gm_notify ss m : Frame m -> Frame (gm_notify ss m).
Proof.
  intros Hm. apply frame_bind; [apply frame_gets|]. intros h. destruct (getGMLevel h >? 0); [done|apply frame_reply].
Qed.
Lemma frame_gm_reply ss m ack : Frame m -> Frame (gm_reply ss m ack).
Proof.
  intros Hm. apply frame_bind; [apply frame_gets|]. intros h. apply frame_bind.
  - destruct (getGMLevel h >? 0); [|apply frame_ret]. apply frame_bind; [done|]. intros _. apply frame_ret.
  - intros e. apply frame_bind; [apply frame_gets|]. intros h'. apply frame_reply.
Qed.

#[export] Hint Resolve frame_ReqExitGame frame_ReqUnlockChapter frame_ReqReliveReq frame_ReqModifyCurrentHero
  frame_ReqResetMap frame_ReqModifyGold frame_ReqModifyTutorialFlag frame_ReqRemoveAllSpecialCreatureList
  frame_ReqSetSpecialCreatureList frame_ReqModifyNotifyGridState frame_recoverSpirit frame_ReqBuyHero
  frame_ReqBuySpirit frame_ReqBuyLotion frame_ReqDayLottery frame_ReqConcernWeiXin frame_ResetWeiXin
  frame_ReqGoldShopConfigs frame_ReqCrearteDeal frame_addDealWaitToPay frame_ReqVerifyDeal
  frame_ReqResetDailyGameProgress frame_ResetDailyGame frame_ResetDailyLottery
  frame_ReqReceiveDailyGamePrize frame_DailyGamePrize frame_ReqUpdateDailyGameProgress frame_SaveHero
  frame_ResetGame frame_SendClientInit frame_EnterGame frame_ReqReplaceTask
  frame_ReqModifyTaskCompleteCount frame_gm_notify frame_gm_reply : frame.

Lemma frame_hero_request win32 msg m : hero_request win32 msg = Some m -> Frame m.
Proof.
  destruct msg; cbn; intros [= <-]; unfold ReqEnterGame, ReqAdvertisementApplyTask, ReqAdvertisementRefreshTask;
    eauto with frame.
Qed.
Lemma frame_gm_command ss msg b m : gm_command ss msg = Some (b, m) -> Frame m.
Proof.
  destruct msg; cbn; intros [= <- <-]; try (eauto with frame; fail);
    apply frame_gm_reply; unfold setJewel, setSpirit; frame.
Qed.

Lemma session_send_linked t ss msg w : linked w -> mfind t (sessions (globals w)) = Some ss ->
  keeps_linked (session_sendPBMessage t msg) w.
Proof.
  intros Hw Ht. apply wwp_bind. eapply wwp_session; [exact Ht|]. apply globals_linked; [done|].
  intros g. unfold session_send. by destruct (m_online ss).
Qed.

Lemma find_by_name_linked name l w (Q : option Z -> World -> Prop) :
  linked w -> (forall kv, kv ∈ l -> is_Some (mfind kv.2 (objects w))) ->
  (forall p, is_Some (mfind p (objects w)) -> Q (Some p) w) -> Q None w -> wwp (find_by_name name l) Q w.
Proof.
  intros Hw. induction l as [|[acc p] l IH]; intros Hall HQ Hno; [done|]. cbn [find_by_name].
  destruct (Hall (acc, p)) as [h Hp]; [by left|]. apply wwp_bind. eapply wwp_deref; [exact Hp|].
  apply wwp_if; intros _; [apply wwp_ret, HQ; by exists h|]. apply IH; [|done|done].
  intros kv Hin. apply Hall. by right.
Qed.

Lemma GetHeroByName_linked name w (Q : option Z -> World -> Prop) : linked w ->
  (forall p, is_Some (mfind p (objects w)) -> Q (Some p) w) -> Q None w -> wwp (GetHeroByName name) Q w.
Proof.
  intros Hw HQ Hno. apply wwp_bind, wwp_gets, find_by_name_linked; [done| |done|done].
  intros [acc p] Hin. apply mIn_find in Hin; [|by apply (lk_sorted _ Hw)].
  destruct (lk_heroes _ Hw acc p Hin) as (h & Hp & _). by exists h.
Qed.

Lemma gm_level_linked t ss name level w : linked w -> mfind t (sessions (globals w)) = Some ss ->
  ends_linked (parseCmdReqMdodifyGMLevel t name level) w.
Proof.
  intros Hw Ht. apply wwp_bind. eapply wwp_session; [exact Ht|].
  destruct (_dream_hero ss) as [p|] eqn:Ed; [|by apply wwp_ret].
  destruct (lk_sessions _ Hw t ss p Ht Ed) as (h & Hp & _).
  apply wwp_bind. eapply wwp_deref; [exact Hp|].
  assert (Hsend : forall e w', linked w' -> same_shape w w' ->
    wwp (session_sendPBMessage t (MsgS2CCmdModifyGMLevelACK e level name)) (fun _ => linked) w').
  { intros e w' Hw' Hs. apply keeps_ends, (session_send_linked t ss); [done|by rewrite (sh_sessions _ _ Hs)]. }
  apply wwp_bind, wwp_if; intros _; [by apply wwp_ret, Hsend|].
  apply wwp_bind, GetHeroByName_linked; [done| |].
  - intros q [hq Hq]. apply wwp_bind. eapply (call_linked q _ w hq); [done|done|unfold SetGMLevel; frame|].
    intros [] w' Hw' Hs. by apply wwp_ret, Hsend.
  - apply wwp_if; intros _; [|apply wwp_undefined]. apply wwp_bind.
    eapply wwp_mono; [by apply globals_linked|]. intros [] w' [Hw' Hs]. by apply wwp_ret, Hsend.
Qed.

Lemma UserMsg_linked win32 t msg w : linked w ->
  (forall ss m, mfind t (sessions (globals w)) = Some ss -> gm_command ss msg = Some (false, m) ->
     _dream_hero ss <> None) ->
  ends_linked (parseUserMsg win32 t msg) w.
Proof.
  intros Hw Hok. apply wwp_bind, wwp_gets. destruct (mfind t _) as [ss|] eqn:Ht; [|by apply wwp_ret].
  apply wwp_bind. eapply wwp_session; [exact Ht|].
  destruct (hero_request win32 msg) as [m|] eqn:Eh.
  { apply keeps_ends. eapply session_hero_linked; [done|exact Ht|by eapply frame_hero_request]. }
  destruct (gm_command ss msg) as [[[] m]|] eqn:Eg.
  - apply keeps_ends. eapply session_hero_linked; [done|exact Ht|by eapply frame_gm_command].
  - apply wwp_bind. eapply wwp_session; [exact Ht|].
    destruct (_dream_hero ss) as [p|] eqn:Ed; [|by destruct (Hok ss m)].
    destruct (lk_sessions _ Hw t ss p Ht Ed) as (h & Hp & _).
    apply keeps_ends. eapply keeps_call; [done|exact Hp|by eapply frame_gm_command].
  - destruct msg; try (by apply wwp_ret); try (apply wwp_bind, wwp_gets, keeps_ends; by eapply session_send_linked).
    by eapply gm_level_linked.
Qed.

(** ** Periodic work *)
Lemma settle_loop_linked begin_time l : forall number i sql_rank sql w (Q : string * string -> World -> Prop),
  linked w -> (forall a w', linked w' -> Q a w') -> wwp (settle_loop begin_time l number i sql_rank sql) Q w.
Proof.
  induction l as [|entry l IH]; intros number i sql_rank sql w Q Hw HQ; cbn [settle_loop]; [by apply wwp_ret, HQ|].
  apply wwp_bind, wwp_gets, wwp_bind.
  assert (Hsql : forall sql w', linked w' -> wwp (world_sql sql) (fun _ w'' => linked w'' /\ same_shape w' w'') w')
    by (intros; by apply globals_linked).
  assert (Hrest : forall hero w', linked w' -> (forall p, hero = Some p -> is_Some (mfind p (objects w'))) ->
    wwp (match hero with
         | Some p => call_hero p (DailyGamePrize (GetDailyGamePrize (gGameConfig (globals w)) (rank_ entry))) ;;; wret (i, sql)
         | None =>
             let i := i + 1 in
             let sql := sql +:+ prize_sql (timezone (globals w))
               (GetDailyGamePrize (gGameConfig (globals w)) (rank_ entry)) begin_time (acc_ entry) in
             if i >=? 20 then world_sql sql ;;; wret (0, EmptyString) else wret (i, sql)
         end) (fun _ => linked) w').
  { intros [p|] w' Hw' Hp.
    - destruct (Hp p eq_refl) as [h Eh]. apply wwp_bind.
      eapply wwp_mono; [eapply keeps_call; eauto with frame|]. by intros [] w'' [? ?].
    - apply wwp_if; intros _; [|done]. apply wwp_bind. eapply wwp_mono; [by apply Hsql|]. by intros [] w'' [? ?]. }
  assert (Hmid : forall hero, (forall p, hero = Some p -> is_Some (mfind p (objects w))) ->
    forall sr, wwp (if number >=? 20 then world_sql sr ;;; wret (0, EmptyString) else wret (number, sr))
      (fun _ w' => linked w' /\ (forall p, hero = Some p -> is_Some (mfind p (objects w')))) w).
  { intros hero Hh sr. apply wwp_if; intros _; [|done]. apply wwp_bind, wwp_globals.
    split; [by apply linked_shape|]. intros p Hp. by apply Hh. }
  apply GetHero_linked; [done| |].
  - intros p h _ Hp _. apply wwp_bind. eapply wwp_mono; [apply (Hmid (Some p)); by intros ? [= <-]|].
    intros [n sr] w' [Hw' Hh]. apply wwp_bind. eapply wwp_mono; [by apply (Hrest (Some p))|].
    intros [i' sq] w'' Hw''. by apply IH.
  - intros _. apply wwp_bind. eapply wwp_mono; [by apply (Hmid None)|].
    intros [n sr] w' [Hw' _]. apply wwp_bind. eapply wwp_mono; [by apply (Hrest None)|].
    intros [i' sq] w'' Hw''. by apply IH.
Qed.

Lemma sql_linked sql w : linked w -> ends_linked (world_sql sql) w.
Proof. intros Hw. by apply keeps_ends, globals_linked. Qed.

Lemma each_ends m w : linked w -> Frame m -> ends_linked (each_hero m) w.
Proof. intros. by apply keeps_ends, each_hero_linked. Qed.

Lemma when_ends b m w : linked w -> (b = true -> ends_linked m w) -> ends_linked (wwhen b m) w.
Proof. intros Hw Hm. destruct b; [by apply Hm|by apply wwp_ret]. Qed.

Lemma DailyGameUpdate_linked w : linked w -> ends_linked DailyGameUpdate w.
Proof.
  intros Hw. apply wwp_bind, wwp_gets, ends_bind; [by apply sql_linked|]. intros w1 Hw1.
  apply wwp_bind, settle_loop_linked; [done|]. intros [sr sq] w2 Hw2.
  apply ends_bind; [by apply when_ends; [|intros; apply sql_linked]|]. intros w3 Hw3.
  apply ends_bind; [by apply when_ends; [|intros; apply sql_linked]|]. intros w4 Hw4.
  apply ends_bind; [apply each_ends; eauto with frame|]. intros w5 Hw5. by apply keeps_ends, globals_linked.
Qed.

Lemma save_linked w : linked w -> ends_linked DreamHeroManager_save w.
Proof.
  intros Hw. apply wwp_bind, wwp_gets. cbv beta zeta.
  match goal with |- context [manager_save ?a ?b ?c ?d ?e ?f] => destruct (manager_save a b c d e f) as [names sql] end.
  apply ends_bind; [by apply keeps_ends, globals_linked|]. intros w' Hw'. by apply sql_linked.
Qed.

Lemma eventPerMin_linked shuffles p2 w : linked w -> ends_linked (eventPerMin shuffles p2) w.
Proof.
  intros Hw. apply wwp_bind, wwp_gets, when_ends; [done|intros _].
  apply ends_bind.
  - apply when_ends; [done|intros _]. apply ends_bind; [by apply DailyGameUpdate_linked|].
    intros w1 Hw1. apply each_ends; eauto with frame.
  - intros w1 Hw1. apply when_ends; [done|intros _]. apply ends_bind.
    + apply wwp_bind, wwp_gets. destruct (ShopSalesPromotionManager_DayPass _ _ _); [|apply wwp_undefined].
      by apply keeps_ends, globals_linked.
    + intros w2 Hw2. apply wwp_bind, wwp_gets. destruct (refreshDayNumber _ _ _ _ _); [|apply wwp_undefined].
      apply ends_bind; [by apply keeps_ends, globals_linked|]. apply save_linked.
Qed.

Lemma SaveDreamHeroes_linked w : linked w -> ends_linked SaveDreamHeroes w.
Proof.
  intros Hw. apply wwp_bind, wwp_gets, ends_bind.
  { apply keeps_ends, keeps_for; [done|]. intros sql w' _ Hw' _. by apply globals_linked. }
  intros w1 Hw1. apply ends_bind; [by apply save_linked|]. intros w2 Hw2.
  apply ends_bind; [apply each_ends; eauto with frame|]. intros w3 Hw3. by apply keeps_ends, globals_linked.
Qed.

Lemma CollectInfo_linked w : linked w -> ends_linked CollectInfo w.
Proof.
  intros Hw. apply wwp_bind, wwp_gets, wwp_bind.
  assert (Hc : forall l a b, (forall kv, kv ∈ l -> is_Some (mfind kv.2 (objects w))) ->
    wwp (count_online l a b) (fun _ w' => w' = w) w).
  { induction l as [|[acc p] l IH]; intros a b Hall; [done|]. cbn [count_online].
    destruct (Hall (acc, p)) as [h Hp]; [by left|]. apply wwp_bind. eapply wwp_deref; [exact Hp|].
    apply wwp_if; intros _; apply IH; intros kv Hin; apply Hall; by right. }
  eapply wwp_mono; [apply Hc|intros counts w' ->; by apply keeps_ends, globals_linked].
  intros [acc p] Hin. apply mIn_find in Hin; [|by apply (lk_sorted _ Hw)].
  destruct (lk_heroes _ Hw acc p Hin) as (h & Hp & _). by exists h.
Qed.

Lemma VerifyDeal_linked acc product status order e w : linked w -> ends_linked (VerifyDeal_logicExcute acc product status order e) w.
Proof.
  intros Hw. apply wwp_bind, GetHero_linked; [done| |intros _].
  - intros p h _ Hp _. apply keeps_ends. eapply keeps_call; eauto with frame.
  - apply wwp_if; intros _; [|by apply wwp_ret]. apply wwp_bind, wwp_gets, wwp_if; intros _; [|apply wwp_undefined].
    by apply keeps_ends, globals_linked.
Qed.

(** ** Every allowed event *)
Lemma step_linked win32 ev w : linked w -> allowed ev w -> ends_linked (step win32 ev) w.
Proof.
  intros Hw Hok. destruct ev; cbn [step allowed] in *.
  - apply wwp_bind. unfold addGate. apply wwp_if; intros _; [|by apply wwp_ret, wwp_ret].
    apply wwp_bind, wwp_modify, wwp_ret, wwp_ret. by apply linked_gates.
  - apply wwp_if; intros _; [|by apply wwp_ret]. apply wwp_bind, wwp_gets, wwp_if; intros _; [|by apply wwp_ret].
    apply ends_bind; [by apply removeUserByGate_linked|]. intros w' Hw'. apply wwp_modify. by apply linked_gates.
  - apply wwp_bind, wwp_bind, wwp_gets. destruct (mfind t _) as [ss|] eqn:Ht.
    + destruct (proj1 (Hok t ss Ht) eq_refl) as [Hg Ha].
      rewrite (proj2 (Z.eqb_eq _ _) Hg), (proj2 (Z.eqb_eq _ _) Ha). cbn [andb].
      apply wwp_bind, wwp_bind. eapply wwp_on_session; [exact Ht|]. set (w1 := set_globals _ w).
      assert (Hw1 : linked w1) by (by eapply linked_session).
      assert (Ht1 : mfind t (sessions (globals w1)) = Some (set_m_online true ss)) by apply mfind_put_eq.
      eapply wwp_mono; [by eapply session_hero_linked; eauto using frame_set_online|].
      intros [] w2 [Hw2 Hs2]. apply wwp_ret. rewrite <- (sh_sessions _ _ Hs2) in Ht1.
      eapply wwp_on_session; [exact Ht1|]. by eapply linked_session.
    + apply wwp_bind. eapply wwp_mono; [apply new_session_linked; [done|done|]|].
      { intros t' ss Ht' Heq. destruct (Hok t' ss Ht') as [_ H]. rewrite (H Heq) in Ht'. congruence. }
      intros [] w1 [Hw1 [ss Ht1]]. apply wwp_ret. eapply wwp_on_session; [exact Ht1|]. by eapply linked_session.
  - apply wwp_bind, wwp_gets. destruct (mfind t _) as [ss|] eqn:Ht; [|by apply wwp_ret].
    eapply wwp_mono; [by eapply release_linked|]. by intros [] w' [? _].
  - apply wwp_bind, wwp_gets. destruct (mfind t _) as [ss|] eqn:Ht; [|by apply wwp_ret].
    apply wwp_bind. eapply wwp_on_session; [exact Ht|].
    eapply keeps_ends, (session_hero_linked t (set_m_online false ss));
      [by eapply linked_session|apply mfind_put_eq|apply frame_set_online].
  - by apply UserMsg_linked.
  - apply wwp_bind, wwp_gets. destruct (mfind t _) as [ss|] eqn:Ht; [|by apply wwp_ret].
    apply wwp_bind. eapply wwp_session; [exact Ht|].
    apply (create_linked t ss w (fun p _ w' => wwp (call_hero p SendClientInit) (fun _ => linked) w'));
      [done|exact Ht| |intros p w' H; apply wwp_bind; exact H].
    intros p w' Hw' Ht'. destruct (lk_sessions _ Hw' t _ p Ht' eq_refl) as (h & Hp & _).
    apply keeps_ends. eapply keeps_call; eauto with frame.
  - apply wwp_bind, wwp_gets. destruct (mfind t _) as [ss|] eqn:Ht; [|by apply wwp_ret].
    apply wwp_bind. eapply wwp_session; [exact Ht|]. destruct (_dream_hero ss) as [p|] eqn:Ed.
    + apply wwp_bind, wwp_ret, keeps_ends. eapply session_hero_linked; eauto with frame.
    + apply wwp_bind.
      apply (create_info_linked msg t ss w (fun _ _ w' => wwp (on_session_hero t SendClientInit) (fun _ => linked) w'));
        [done|exact Ht|by apply Hok| |done].
      intros p w' Hw' Ht'. apply keeps_ends. eapply session_hero_linked; eauto with frame.
  - by apply keeps_ends, globals_linked.
  - apply wwp_bind, GetHero_linked; [done| |intros _; by apply wwp_ret].
    intros p h _ Hp _. apply keeps_ends. eapply keeps_call; eauto with frame.
  - by apply VerifyDeal_linked.
  - by apply keeps_ends, globals_linked.
  - destruct Hok as (h & Hp & _). apply keeps_ends. eapply keeps_call; eauto with frame.
  - destruct Hok as (h & Hp & _). by eapply destroy_hero_linked.
  - by apply eventPerMin_linked.
  - apply each_ends; eauto with frame.
  - by apply CollectInfo_linked.
  - by apply save_linked.
  - by apply SaveDreamHeroes_linked.
  - apply wwp_if; intros _; [by apply wwp_ret|by apply VerifyDeal_linked].
Qed.

Lemma started_linked g : linked (started g).
Proof. constructor; cbn; try done. by repeat split; constructor. Qed.

Lemma runs_linked win32 w evs w' : runs win32 w evs w' -> linked w -> linked w'.
Proof.
  induction 1 as [w|w ev w1 evs w2 Hok Hst _ IH]; [done|]. intros Hw. apply IH.
  pose proof (step_linked win32 ev w Hw Hok) as H. unfold ends_linked, wwp in H. by rewrite Hst in H.
Qed.

(** No event that may come next follows a null or dangling pointer. *)
Definition never_dangles win32 w : Prop := forall ev, allowed ev w -> step win32 ev w <> Dangling.

(** A live hero talks to a session of the process: what the theorems about the
    requests assume. *)
Lemma linked_session_valid w p h : linked w -> mfind p (objects w) = Some h -> session_valid (mkHS h (globals w)).
Proof.
  intros Hw Hp. unfold session_valid. cbn. destruct (_session h) as [t|] eqn:E; [|done].
  destruct (lk_objects _ Hw p h t Hp E) as (ss & Ht & _). unfold mhas. by rewrite Ht.
Qed.

(** ** Properties *)


(** A player connects through gate 1, gets a new hero and buys spirit. *)
Definition demo_login : list Event := [GateRegister 1 77; AddUser 1 9 42 7 0; NeedCreateHero 9].
Definition demo_events : list Event := demo_login ++ [UserMsg 9 (MsgC2SReqBuySpirit 1)].
Definition world_after (evs : list Event) : World :=
  match wfor evs (step false) (started demo_server) with Ok _ w => w | _ => started demo_server end.

Lemma runs_app win32 w evs w' evs' w'' :
  runs win32 w evs w' -> runs win32 w' evs' w'' -> runs win32 w (evs ++ evs') w''.
Proof. induction 1; [done|]. intros. eapply runs_cons; eauto. Qed.

Lemma demo_login_runs : runs false (started demo_server) demo_login (world_after demo_login).
Proof.
  eapply runs_cons; [exact I|reflexivity|].
  eapply runs_cons; [|vm_compute; reflexivity|].
  { intros t' ss Ht. vm_compute in Ht. discriminate Ht. }
  eapply runs_cons; [exact I|vm_compute; reflexivity|]. vm_compute. apply runs_nil.
Qed.


(** What happens when the promises are broken: a second session of an account
    leaves the first one behind, and the hero is deleted under the second. *)
Example second_session_dangles :
  wfor [AddUser 1 9 42 7 0; NeedCreateHero 9; AddUser 1 10 42 7 0; RemoveUser 9; DestroyTimer 1;
        UserMsg 10 MsgC2SReqDayLottery] (step false) (started demo_server) = Dangling.
Proof. vm_compute. reflexivity. Qed.

(** A command without a null test from a player whose hero is not loaded. *)
Example command_before_hero :
  wfor [AddUser 1 9 42 7 0; UserMsg 9 MsgC2SCmdReqResetDailyGame] (step false) (started demo_server) = Dangling.
Proof. vm_compute. reflexivity. Qed.
