(* ===== verification/Commands.v ===== *)
(** * gameserver: game master commands

    The commands of [Session] that need a GM level: who may run them, what
    refused ones do, and how levels are granted. *)
From S2P Require Import Prelude StdMap Data Text Calendar Config Record Rank Promotion Names Server HeroTask HeroPlay HeroShop HeroDeal HeroDaily HeroSave HeroLoad World Dispatch Manager Frames Process NoDangling.

(** ** Specification *)

(** The level a command needs, and the answer to a sender without it. *)
Definition required_level (msg : C2S) : Z :=
  match msg with MsgC2SCmdReqModifyGMLevel _ _ => 3 | _ => 1 end.

Definition refusal (h : DreamHero) (msg : C2S) : option S2C :=
  let E := Error_CmdFailedRequiredGMLevel in
  match msg with
  | MsgC2SCmdReqModifyGMLevel name level => Some (MsgS2CCmdModifyGMLevelACK E level name)
  | MsgC2SCmdReqResetConcernWeiXin => Some (MsgS2CCmdResetConcernWeiXinACK E)
  | MsgC2SCmdReqModifyJewel _ => Some (MsgS2CCmdModifyJewelACK E (hd_jewel (_info h)))
  | MsgC2SCmdReqModifySpirit _ => Some (MsgS2CCmdModifySpiritACK E (hd_spirit (_info h)))
  | MsgC2SCmdReqResetDailyLottery => Some (MsgS2CCmdResetDailyLotteryACK E)
  | MsgC2SCmdReqResetDailyGame => Some (MsgS2CCmdResetDailyGameACK E)
  | MsgC2SCmdClearDailyRankList => Some (MsgS2CCmdClearDailyRankListACK E)
  | MsgC2SCmdReqEnterGame _ _ | MsgC2SCmdReqResetMap _ _ | MsgC2SCmdReqResetGame
  | MsgC2SCmdReqModifyGold _ | MsgS2CCmdReqReplaceTask _ | MsgC2SCmdReqModifyTaskCompleteCount _
  | MsgC2SCmdReqSetSpecialCreatureHis _ _ | MsgC2SCmdReqRemoveSpecialCreatureListHis =>
      Some (MsgS2CNotifyError E)
  | _ => None
  end.

(** The first hero of the registry with a name. *)
Definition hero_named (name : string) (w : World) : option Z :=
  snd <$> List.find (fun kv => match mfind kv.2 (objects w) with
                               | Some h => String.eqb (hd_name (_info h)) name
                               | None => false
                               end) (_heroes w).

(** ** Running commands *)
Lemma set_globals_id w : set_globals (globals w) w = w.
Proof. by destruct w. Qed.

Section Sender.
Context (win32 : bool) (w : World) (Hw : linked w) (t : Z) (ss : Session) (p : Z) (h : DreamHero)
  (Ht : mfind t (sessions (globals w)) = Some ss) (Hd : _dream_hero ss = Some p)
  (Hp : mfind p (objects w) = Some h).

Lemma objects_id : set_objects (mput p h (objects w)) w = w.
Proof.
  rewrite mput_found; [by destruct w|by destruct (lk_sorted _ Hw) as (_ & ? & _)|exact Hp].
Qed.

(** A call that leaves the hero alone and sends one message. *)
Lemma call_reply msg (m : M HS unit) :
  m (mkHS h (globals w)) = Some (tt, mkHS h (session_send ss msg (globals w))) ->
  call_hero p m w = Ok tt (set_globals (session_send ss msg (globals w)) w).
Proof.
  unfold call_hero. rewrite Hp. intros ->. cbn [this srv]. pose proof objects_id as Hid.
  f_equal. unfold set_objects, set_globals in *. destruct w; cbn in *. by injection Hid as ->.
Qed.

Lemma no_gm : _gm_level h < 1 -> (getGMLevel h >? 0) = false.
Proof. unfold getGMLevel. lia. Qed.

Lemma gm_notify_refused m : _gm_level h < 1 ->
  gm_notify ss m (mkHS h (globals w)) =
  Some (tt, mkHS h (session_send ss (MsgS2CNotifyError Error_CmdFailedRequiredGMLevel) (globals w))).
Proof.
  intros Hl. unfold gm_notify, get_hero, bind, gets. cbn. by rewrite no_gm.
Qed.
Lemma gm_reply_refused m ack : _gm_level h < 1 ->
  gm_reply ss m ack (mkHS h (globals w)) =
  Some (tt, mkHS h (session_send ss (ack Error_CmdFailedRequiredGMLevel h) (globals w))).
Proof.
  intros Hl. unfold gm_reply, get_hero, bind, gets. cbn. by rewrite no_gm.
Qed.

Lemma sessions_send msg g : sessions (session_send ss msg g) = sessions g.
Proof. unfold session_send. by destruct (m_online ss). Qed.

Lemma session_reply msg g :
  sessions g = sessions (globals w) ->
  session_sendPBMessage t msg (set_globals g w) = Ok tt (set_globals (session_send ss msg g) w).
Proof.
  intros Hg. unfold session_sendPBMessage, wbind, get_session. cbn. by rewrite Hg, Ht.
Qed.

Lemma user_msg msg : parseUserMsg win32 t msg w = parsePBMessage win32 t msg w.
Proof. unfold parseUserMsg, wbind, wgets. by rewrite Ht. Qed.

Lemma session_call m : on_session_hero t m w = call_hero p m w.
Proof. unfold on_session_hero, wbind, get_session. by rewrite Ht, Hd. Qed.
Lemma session_call_unchecked m : on_hero_unchecked t m w = call_hero p m w.
Proof. unfold on_hero_unchecked, wbind, get_session. by rewrite Ht, Hd. Qed.

Lemma find_by_name_spec name l :
  (forall kv, kv ∈ l -> is_Some (mfind kv.2 (objects w))) ->
  find_by_name name l w =
  Ok (snd <$> List.find (fun kv => match mfind kv.2 (objects w) with
                                   | Some h => String.eqb (hd_name (_info h)) name
                                   | None => false
                                   end) l) w.
Proof.
  induction l as [|[acc q] l IH]; intros Hl; [done|]. cbn [find_by_name List.find snd].
  destruct (Hl (acc, q)) as [hq Hq]; [by left|]. cbn in Hq. unfold wbind at 1, deref_hero.
  rewrite Hq. destruct (String.eqb _ _); [done|]. apply IH. intros kv Hkv. apply Hl. by right.
Qed.

Lemma GetHeroByName_spec name : GetHeroByName name w = Ok (hero_named name w) w.
Proof.
  apply find_by_name_spec. intros [acc q] Hin. apply mIn_find in Hin; [|by apply (lk_sorted _ Hw)].
  destruct (lk_heroes _ Hw acc q Hin) as (hq & Hq & _). by exists hq.
Qed.

Lemma hero_named_live name q : hero_named name w = Some q ->
  exists hq, mfind q (objects w) = Some hq /\ hd_name (_info hq) = name.
Proof.
  unfold hero_named. intros Hq. apply fmap_Some in Hq as ([acc q'] & Hq & ->).
  apply find_some in Hq as [_ Hq]. cbn in Hq |- *. destruct (mfind q' (objects w)) as [hq|]; [|done].
  exists hq. split; [done|]. by apply String.eqb_eq.
Qed.
End Sender.

(** ** Properties *)

(** C20: a game master command from a player below the command's level (3 for
    granting levels, 1 for the others) changes no hero, no session, no
    registry, no ranking and no configuration: the server's only reaction is
    the refusal sent to the player.  The other messages are no commands. *)
Theorem gm_commands_guarded win32 w t ss p h msg r :
  linked w ->
  mfind t (sessions (globals w)) = Some ss -> _dream_hero ss = Some p -> mfind p (objects w) = Some h ->
  refusal h msg = Some r -> _gm_level h < required_level msg ->
  parseUserMsg win32 t msg w = Ok tt (set_globals (session_send ss r (globals w)) w).
Proof.
  intros Hw Ht Hd Hp Hr Hl. rewrite user_msg with (ss := ss) by done. unfold parsePBMessage.
  unfold wbind at 1, get_session at 1. rewrite Ht.
  destruct msg; cbn [refusal] in Hr; try discriminate Hr; injection Hr as <-;
    cbn [hero_request gm_command required_level] in *;
    rewrite ?(session_call w t ss p Ht Hd), ?(session_call_unchecked w t ss p Ht Hd);
    try (eapply call_reply; try eassumption; first [by apply gm_notify_refused|by apply gm_reply_refused]).
  unfold parseCmdReqMdodifyGMLevel, getGMLevel, wbind at 1, get_session at 1. rewrite Ht, Hd.
  unfold wbind at 1, deref_hero at 1. rewrite Hp. rewrite (proj2 (Z.ltb_lt _ _) Hl).
  cbn [wbind wret]. unfold wbind, wret. rewrite <- (set_globals_id w) at 1. by rewrite (session_reply w t ss).
Qed.

(** a level is granted by players of level 3 only, to the first hero of the
    registry with the name (nothing else of any hero changes), or, when no
    loaded hero has it, by one statement to the database. *)
Theorem gm_level_granted win32 w t ss p h name level :
  linked w ->
  mfind t (sessions (globals w)) = Some ss -> _dream_hero ss = Some p -> mfind p (objects w) = Some h ->
  3 <= _gm_level h -> Z.of_nat (String.length (gm_level_sql level name)) < 512 ->
  exists w', parseUserMsg win32 t (MsgC2SCmdReqModifyGMLevel name level) w = Ok tt w' /\
    _heroes w' = _heroes w /\
    let reply g := session_send ss (MsgS2CCmdModifyGMLevelACK Error_NO level name) g in
    match hero_named name w with
    | Some q =>
        globals w' = reply (globals w) /\
        forall q', mfind q' (objects w') =
          (if decide (q' = q) then set__gm_level level else id) <$> mfind q' (objects w)
    | None => globals w' = reply (emit (OSql (gm_level_sql level name)) (globals w)) /\ objects w' = objects w
    end.
Proof.
  intros Hw Ht Hd Hp Hl Hsql. rewrite user_msg with (ss := ss) by done. unfold parsePBMessage.
  unfold wbind at 1, get_session at 1. rewrite Ht. cbn [hero_request gm_command].
  unfold parseCmdReqMdodifyGMLevel, getGMLevel, wbind at 1, get_session at 1. rewrite Ht, Hd.
  unfold wbind at 1, deref_hero at 1. rewrite Hp. rewrite (proj2 (Z.ltb_ge _ _) Hl).
  unfold wbind at 1 2. rewrite (GetHeroByName_spec w Hw). destruct (hero_named name w) as [q|] eqn:Hq.
  - destruct (hero_named_live w name q Hq) as (hq & Hhq & _).
    unfold wbind, call_hero. rewrite Hhq. cbn -[mput].
    unfold session_sendPBMessage, wbind, get_session. cbn -[mput]. rewrite Ht. eexists. split; [done|].
    cbn -[mput]. split; [done|]. split; [done|]. intros q'. rewrite find_put.
    destruct (decide (q' = q)) as [->|]; [by rewrite Hhq|]. by destruct (mfind q' (objects w)).
  - rewrite (proj2 (Z.ltb_lt _ _) Hsql). cbn. unfold session_sendPBMessage, wbind, get_session. cbn. rewrite Ht.
    eexists. split; [done|]. by cbn.
Qed.

(** ** Witnesses *)

(** The player of [demo_events] with a GM level. *)
Definition gm_session : Session := mkSession 9 42 1 true (Some 1) 7.
Definition gm_hero (level : Z) : DreamHero :=
  match mfind 1 (objects (world_after demo_login)) with
  | Some h => set__gm_level level h
  | None => blank_hero
  end.
Definition gm_world (level : Z) : World :=
  let w := world_after demo_login in
  set_objects (mput 1 (gm_hero level) (objects w)) (set_globals (globals w) w).

Lemma gm_world_linked level : linked (gm_world level).
Proof.
  assert (Hw : linked (world_after demo_login)) by (eapply runs_linked; [exact demo_login_runs|apply started_linked]).
  unfold gm_world, gm_hero. destruct (lk_sessions _ Hw 9 gm_session 1) as (h & Hh & Hs & Ha);
    [vm_compute; reflexivity..|]. rewrite Hh. by eapply linked_hero.
Qed.

Lemma gm_commands_guarded_witness :
  parseUserMsg false 9 (MsgC2SCmdReqModifyGold 1000) (gm_world 0) =
    Ok tt (set_globals (session_send gm_session (MsgS2CNotifyError Error_CmdFailedRequiredGMLevel)
             (globals (gm_world 0))) (gm_world 0)) /\
  parseUserMsg false 9 (MsgC2SCmdReqModifyGMLevel "x" 3) (gm_world 2) =
    Ok tt (set_globals (session_send gm_session
             (MsgS2CCmdModifyGMLevelACK Error_CmdFailedRequiredGMLevel 3 "x") (globals (gm_world 2))) (gm_world 2)).
Proof.
  split.
  - apply (gm_commands_guarded false (gm_world 0) 9 gm_session 1 (gm_hero 0));
      [apply gm_world_linked|vm_compute; reflexivity..].
  - apply (gm_commands_guarded false (gm_world 2) 9 gm_session 1 (gm_hero 2));
      [apply gm_world_linked|vm_compute; reflexivity..].
Defined.

Lemma gm_level_granted_witness :
  exists w', parseUserMsg false 9 (MsgC2SCmdReqModifyGMLevel (hd_name (_info (gm_hero 3))) 1) (gm_world 3) = Ok tt w' /\
    (_gm_level <$> mfind 1 (objects w')) = Some 1.
Proof.
  destruct (gm_level_granted false (gm_world 3) 9 gm_session 1 (gm_hero 3) (hd_name (_info (gm_hero 3))) 1)
    as (w' & Hrun & _ & H); [apply gm_world_linked|vm_compute; congruence..|].
  exists w'. split; [exact Hrun|]. cbv zeta in H.
  destruct (hero_named _ _) as [q|] eqn:Hq; [|vm_compute in Hq; discriminate Hq].
  vm_compute in Hq. injection Hq as <-. destruct H as [_ H]. rewrite (H 1). vm_compute. reflexivity.
Defined.
