(* ===== verification/Settle.v ===== *)
(** * gameserver: the settlement of the daily game

    What [RankManager::DailyGameUpdate] does to every hero, to the ranking and
    to the database. *)
From S2P Require Import Prelude StdMap Data Text Calendar Config Record Rank Promotion Names Server HeroTask HeroPlay HeroShop HeroDeal HeroDaily HeroSave HeroLoad World Dispatch Manager Frames Process NoDangling.

(** ** Specification *)

(** A hero in the ranking gets the prize of its rank, unless the game it played
    last has been settled before. *)
Definition rank_prized (gold : Z) (h : DreamHero) : DreamHero :=
  if _daily_game_prize_time h =? _daily_game_time h then h
  else set__info (set_hd_daily_game_gold gold (_info h)) (set__daily_game_time (_daily_game_prize_time h) h).

(** A hero of an older, unsettled game gets the prize of its progress. *)
Definition progress_prized (cfg : GameConfig) (begin_time : Z) (h : DreamHero) : DreamHero :=
  if (begin_time =? _daily_game_time h) || (_daily_game_time h =? 0) ||
     (_daily_game_time h =? _daily_game_prize_time h)
  then h
  else set__daily_game_prize_time (_daily_game_time h)
         (set__info (set_hd_daily_game_gold
            (GetDailyGamePrize cfg (hd_daily_game_progress (_info h) +ᵢ 1)) (_info h)) h).

Definition ranked (cfg : GameConfig) (l : list DailyGameRankTg) (h : DreamHero) : DreamHero :=
  match List.find (fun e => acc_ e =? _account h) l with
  | Some e => rank_prized (GetDailyGamePrize cfg (rank_ e)) h
  | None => h
  end.

(** Both, for the ranking [l]: nobody is paid twice. *)
Definition settled (cfg : GameConfig) (begin_time : Z) (l : list DailyGameRankTg) (h : DreamHero) : DreamHero :=
  match List.find (fun e => acc_ e =? _account h) l with
  | Some e => rank_prized (GetDailyGamePrize cfg (rank_ e)) h
  | None => progress_prized cfg begin_time h
  end.

(** The rows of the offline heroes. *)
Definition offline_rows (g : Server) (begin_time : Z) (heroes : list (Z * Z)) (l : list DailyGameRankTg) : string :=
  foldr (fun e s => (if mhas (acc_ e) heroes then EmptyString
                     else prize_sql (timezone g) (GetDailyGamePrize (gGameConfig g) (rank_ e)) begin_time (acc_ e))
                    +:+ s) EmptyString l.

(** The text of the character updates among the messages to the database. *)
Definition is_update (s : string) : bool :=
  match s with String a _ => Ascii.eqb a "u" | EmptyString => false end.
Definition updates (o : list Effect) : string :=
  foldr (fun e s => match e with OSql q => (if is_update q then q else EmptyString) +:+ s | _ => s end)
    EmptyString o.

(** ** Running parts of the process to the end *)
Definition wok {A} (m : W A) (Q : A -> World -> Prop) (w : World) : Prop :=
  match m w with Ok a w' => Q a w' | _ => False end.

Lemma wok_bind {A B} (m : W A) (f : A -> W B) Q w : wok m (fun a w' => wok (f a) Q w') w -> wok (wbind m f) Q w.
Proof. unfold wok, wbind. by destruct (m w). Qed.
Lemma wok_gets {A} (f : World -> A) Q w : Q (f w) w -> wok (wgets f) Q w.
Proof. done. Qed.
Lemma wok_ret {A} (a : A) Q w : Q a w -> wok (wret a) Q w.
Proof. done. Qed.
Lemma wok_mono {A} (m : W A) (Q R : A -> World -> Prop) w :
  wok m Q w -> (forall a w', Q a w' -> R a w') -> wok m R w.
Proof. unfold wok. destruct (m w); eauto. Qed.
Lemma wok_if {A} (b : bool) (m1 m2 : W A) Q w :
  (b = true -> wok m1 Q w) -> (b = false -> wok m2 Q w) -> wok (if b then m1 else m2) Q w.
Proof. destruct b; eauto. Qed.
Lemma wok_ok {A} (m : W A) Q w : wok m Q w -> exists a w', m w = Ok a w' /\ Q a w'.
Proof. unfold wok. destruct (m w); try done. eauto. Qed.

(** ** Steps that only add output and rewrite heroes one by one *)

(** [w'] is [w] with [o] sent and every hero [h] replaced by [f h]. *)
Record prizes (f : DreamHero -> DreamHero) (o : list Effect) (w w' : World) : Prop := {
  pz_globals : globals w' = set_out (out (globals w) ++ o) (globals w);
  pz_heroes : _heroes w' = _heroes w;
  pz_rest : m_Gates w' = m_Gates w /\ next_object w' = next_object w;
  pz_objects : forall q, mfind q (objects w') = f <$> mfind q (objects w);
  pz_linked : linked w'
}.

Lemma prizes_refl w : linked w -> prizes id [] w w.
Proof.
  intros Hw. constructor; try done; [by rewrite app_nil_r, set_out_same|].
  intros q. by destruct (mfind q (objects w)).
Qed.

Lemma prizes_trans f g o1 o2 w1 w2 w3 :
  prizes f o1 w1 w2 -> prizes g o2 w2 w3 -> prizes (g ∘ f) (o1 ++ o2) w1 w3.
Proof.
  intros [G1 H1 [R1 S1] O1 L1] [G2 H2 [R2 S2] O2 L2]. constructor; try congruence; [|by split; congruence|].
  - rewrite G2, G1. cbn. by rewrite app_assoc.
  - intros q. by rewrite O2, O1, <- option_fmap_compose.
Qed.

Lemma prizes_ext f g o w w' : (forall q h, mfind q (objects w) = Some h -> f h = g h) ->
  prizes f o w w' -> prizes g o w w'.
Proof.
  intros Hfg [G H R O L]. constructor; try done. intros q. rewrite O.
  destruct (mfind q (objects w)) as [h|] eqn:E; [|done]. cbn. by rewrite (Hfg q h).
Qed.

Lemma sql_prizes sql w : linked w -> wok (world_sql sql) (fun _ => prizes id [OSql sql] w) w.
Proof.
  intros Hw. constructor; cbn; try done; [|by apply linked_shape].
  intros q. by destruct (mfind q (objects w)).
Qed.

(** ** The prizes of one hero *)
Lemma updates_delivery s msg : updates (delivery s msg) = EmptyString.
Proof.
  unfold delivery. destruct (_session _); [|done]. destruct (mfind _ _) as [p|]; [|done]. by destruct (m_online p).
Qed.

(** A call with no effect, in the form of the rules below. *)
Lemma post_id (Q : unit -> HS -> Prop) h g : (forall msgs, updates msgs = EmptyString ->
  Q tt (mkHS h (set_out (out g ++ msgs) g))) -> Q tt (mkHS h g).
Proof. intros HQ. specialize (HQ [] eq_refl). by rewrite app_nil_r, set_out_same in HQ. Qed.

Lemma wp_DailyGamePrize gold h g (Q : unit -> HS -> Prop) : session_valid (mkHS h g) ->
  (forall msgs, updates msgs = EmptyString ->
     Q tt (mkHS (rank_prized gold h) (set_out (out g ++ msgs) g))) ->
  wp (DailyGamePrize gold) Q (mkHS h g).
Proof.
  intros Hs HQ. unfold DailyGamePrize, rank_prized in *. hs_run; cbn [this srv] in *.
  - exact Hs.
  - apply negb_true_iff in Hc. rewrite Hc in HQ. apply HQ, updates_delivery.
  - apply negb_false_iff in Hc. rewrite Hc in HQ. by apply post_id.
Qed.

Lemma wp_TryToGetGamePrize h g (Q : unit -> HS -> Prop) : session_valid (mkHS h g) ->
  (forall msgs, updates msgs = EmptyString ->
     Q tt (mkHS (progress_prized (gGameConfig g) (getDailyGameBeginTime (gRankManager g)) h)
             (set_out (out g ++ msgs) g))) ->
  wp (TryToGetGamePrize true) Q (mkHS h g).
Proof.
  intros Hs HQ. unfold TryToGetGamePrize, progress_prized, get_rank in *. hs_run; cbn [this srv] in *.
  - exact Hs.
  - apply negb_true_iff in Hc. apply andb_true_iff in Hc0 as [H1 H2].
    apply negb_true_iff in H1, H2. rewrite Hc, H1, H2 in HQ. apply HQ, updates_delivery.
  - done.
  - apply negb_true_iff in Hc. apply andb_false_iff in Hc0.
    replace (_ || _ || _) with true in HQ; [by apply post_id|].
    rewrite Hc. destruct Hc0 as [H|H]; apply negb_false_iff in H; rewrite H; by rewrite ?orb_true_r.
  - apply negb_false_iff in Hc. rewrite Hc in HQ. by apply post_id.
Qed.

Lemma rank_prized_links gold h : hero_links (rank_prized gold h) = hero_links h.
Proof. unfold rank_prized. by destruct (_ =? _). Qed.
Lemma progress_prized_links cfg t h : hero_links (progress_prized cfg t h) = hero_links h.
Proof. unfold progress_prized. by destruct (_ || _). Qed.
Lemma rank_prized_again g1 g2 h : rank_prized g2 (rank_prized g1 h) = rank_prized g1 h.
Proof.
  unfold rank_prized. destruct (_daily_game_prize_time h =? _) eqn:E; cbn; [by rewrite E|by rewrite Z.eqb_refl].
Qed.
Lemma progress_prized_again cfg t h :
  progress_prized cfg t (progress_prized cfg t h) = progress_prized cfg t h.
Proof.
  unfold progress_prized. destruct ((t =? _daily_game_time h) || _ || _) eqn:E; cbn; [by rewrite E|].
  by rewrite Z.eqb_refl, !orb_true_r.
Qed.

(** A call on the hero of an account. *)
Definition at_account (acc : Z) (f : DreamHero -> DreamHero) (h : DreamHero) : DreamHero :=
  if _account h =? acc then f h else h.

Lemma call_prizes (m : M HS unit) f p h w :
  linked w -> mfind p (objects w) = Some h -> hero_links (f h) = hero_links h ->
  (forall Q : unit -> HS -> Prop, (forall msgs, updates msgs = EmptyString ->
     Q tt (mkHS (f h) (set_out (out (globals w) ++ msgs) (globals w)))) -> wp m Q (mkHS h (globals w))) ->
  wok (call_hero p m) (fun _ w' => exists msgs, updates msgs = EmptyString /\
    prizes (at_account (_account h) f) msgs w w') w.
Proof.
  intros Hw Hp Hl Hm. unfold wok, call_hero. rewrite Hp.
  specialize (Hm (fun _ s => exists msgs, updates msgs = EmptyString /\
    s = mkHS (f h) (set_out (out (globals w) ++ msgs) (globals w)))).
  destruct (m _) as [[[] s]|] eqn:E.
  2: { unfold wp in Hm. rewrite E in Hm. destruct Hm. intros msgs Hu. by exists msgs. }
  unfold wp in Hm. rewrite E in Hm. destruct Hm as (msgs & Hu & ->); [intros msgs Hu; by exists msgs|].
  exists msgs. split; [done|]. injection Hl as Ha Hs. constructor; cbn -[mput]; try done.
  - intros q. unfold at_account. rewrite find_put. destruct (decide (q = p)) as [->|Hne].
    + by rewrite Hp; cbn; rewrite Z.eqb_refl.
    + destruct (mfind q (objects w)) as [x|] eqn:Hq; [|done]. cbn.
      destruct (_account x =? _account h) eqn:Ex; [|done]. apply Z.eqb_eq in Ex.
      destruct (lk_registered _ Hw q x Hq) as [H1 _], (lk_registered _ Hw p h Hp) as [H2 _]. congruence.
  - by eapply linked_hero.
Qed.

(** ** Text of the updates *)
Lemma updates_app o1 o2 : updates (o1 ++ o2) = updates o1 +:+ updates o2.
Proof.
  induction o1 as [|e o1 IH]; [done|]. cbn [app updates foldr]. fold (updates (o1 ++ o2)) (updates o1).
  rewrite IH. destruct e; [done|by rewrite str_app_assoc|done..].
Qed.

Lemma update_app s t : s <> EmptyString -> is_update (s +:+ t) = is_update s.
Proof. by destruct s. Qed.

Lemma prize_sql_update tz gold t acc : is_update (prize_sql tz gold t acc) = true.
Proof. reflexivity. Qed.

(** The statements under construction: ranking rows, updates. *)
Definition building (sql_rank sql : string) : Prop :=
  is_update sql_rank = false /\ (sql = EmptyString \/ is_update sql = true).

Lemma rank_text_ok number sql_rank tz e : is_update sql_rank = false ->
  is_update ((if number =? 0 then rank_head else sql_rank +:+ ",") +:+ rank_row tz e) = false.
Proof.
  intros H. destruct (number =? 0); [by rewrite update_app|].
  destruct sql_rank as [|a s]; [done|]. rewrite !update_app by done. done.
Qed.

Lemma sql_text_ok sql tz gold t acc : sql = EmptyString \/ is_update sql = true ->
  is_update (sql +:+ prize_sql tz gold t acc) = true.
Proof.
  intros [->|H]; [done|]. rewrite update_app; [done|]. by intros ->.
Qed.

(** ** The loop over the ranking *)
Lemma ranked_cons cfg e l h :
  ranked cfg l (at_account (acc_ e) (rank_prized (GetDailyGamePrize cfg (rank_ e))) h) = ranked cfg (e :: l) h.
Proof.
  unfold at_account, ranked. cbn [List.find]. rewrite (Z.eqb_sym (acc_ e)).
  destruct (_account h =? acc_ e) eqn:E; [|done].
  assert (Ha : _account (rank_prized (GetDailyGamePrize cfg (rank_ e)) h) = _account h)
    by (pose proof (rank_prized_links (GetDailyGamePrize cfg (rank_ e)) h) as H; by injection H).
  rewrite Ha. destruct (List.find _ l); [apply rank_prized_again|done].
Qed.

Lemma ranked_offline cfg e l h : _account h <> acc_ e -> ranked cfg l h = ranked cfg (e :: l) h.
Proof.
  intros Hne. unfold ranked. cbn [List.find]. by rewrite (proj2 (Z.eqb_neq _ _)) by congruence.
Qed.

Lemma flush_prizes number (limit : bool) sql_rank w : linked w -> is_update sql_rank = false ->
  wok (if limit then world_sql sql_rank ;;; wret (0, EmptyString) else wret (number, sql_rank))
    (fun st w' => is_update st.2 = false /\ exists o, prizes id o w w' /\ updates o = EmptyString) w.
Proof.
  intros Hw Hr. apply wok_if; intros _.
  - apply wok_bind. eapply wok_mono; [by apply sql_prizes|]. intros [] w' Hp. apply wok_ret.
    split; [done|]. eexists. split; [exact Hp|]. cbn. by rewrite Hr.
  - apply wok_ret. split; [done|]. exists []. split; [by apply prizes_refl|done].
Qed.

(** The prize of one row of the ranking. *)
Lemma pay_prizes i sql gold text acc w :
  linked w -> sql = EmptyString \/ is_update sql = true -> (forall s, s = EmptyString \/ is_update s = true -> is_update (s +:+ text) = true) ->
  wok (match mfind acc (_heroes w) with
       | Some p => call_hero p (DailyGamePrize gold) ;;; wret (i, sql)
       | None =>
           let i := i + 1 in
           let sql := sql +:+ text in
           if i >=? 20 then world_sql sql ;;; wret (0, EmptyString) else wret (i, sql)
       end)
    (fun st w' => (st.2 = EmptyString \/ is_update st.2 = true) /\ exists o,
       prizes (at_account acc (rank_prized gold)) o w w' /\
       updates o +:+ st.2 = sql +:+ (if mhas acc (_heroes w) then EmptyString else text)) w.
Proof.
  intros Hw Hs Ht. unfold mhas. destruct (mfind acc (_heroes w)) as [p|] eqn:Hacc.
  - destruct (lk_heroes _ Hw acc p Hacc) as (h & Hp & Ha). apply wok_bind. eapply wok_mono.
    + eapply (call_prizes _ (rank_prized gold)); [exact Hw|exact Hp|apply rank_prized_links|].
      intros Q HQ. apply wp_DailyGamePrize; [|exact HQ]. by eapply linked_session_valid.
    + rewrite Ha. intros [] w' (msgs & Hu & Hz). apply wok_ret. split; [done|]. exists msgs.
      split; [done|]. by rewrite Hu, str_app_nil_r.
  - assert (Hext : forall o w', prizes id o w w' -> prizes (at_account acc (rank_prized gold)) o w w').
    { intros o w'. apply prizes_ext. intros q h Hq. unfold at_account.
      destruct (_account h =? acc) eqn:E; [|done]. apply Z.eqb_eq in E.
      destruct (lk_registered _ Hw q h Hq) as [H _]. congruence. }
    cbv zeta. apply wok_if; intros _.
    + apply wok_bind. eapply wok_mono; [by apply sql_prizes|]. intros [] w' Hz. apply wok_ret.
      split; [by left|]. eexists. split; [by apply Hext|]. cbn. rewrite (Ht sql Hs). by rewrite !str_app_nil_r.
    + apply wok_ret. split; [right; by apply Ht|]. exists []. split; [by apply Hext, prizes_refl|done].
Qed.

Lemma offline_rows_globals g o begin_time heroes l :
  offline_rows (set_out o g) begin_time heroes l = offline_rows g begin_time heroes l.
Proof. done. Qed.

Lemma settle_loop_prizes begin_time l : forall number i sql_rank sql w,
  linked w -> building sql_rank sql ->
  wok (settle_loop begin_time l number i sql_rank sql) (fun st w' => building st.1 st.2 /\ exists o,
    prizes (ranked (gGameConfig (globals w)) l) o w w' /\
    updates o +:+ st.2 = sql +:+ offline_rows (globals w) begin_time (_heroes w) l) w.
Proof.
  induction l as [|e l IH]; intros number i sql_rank sql w Hw [Hr Hs]; cbn [settle_loop].
  { apply wok_ret. split; [done|]. exists []. split; [by apply prizes_refl|]. by rewrite str_app_nil_r. }
  apply wok_bind, wok_gets, wok_bind.
  assert (Hget : GetHero (acc_ e) w = Ok (mfind (acc_ e) (_heroes w)) w).
  { unfold GetHero. destruct (mfind (acc_ e) (_heroes w)) as [p|] eqn:E; [|done].
    destruct (lk_heroes _ Hw _ p E) as (h & Hp & _). unfold mhas. by rewrite Hp. }
  unfold wok at 1. rewrite Hget. apply wok_bind.
  eapply wok_mono; [apply flush_prizes; [done|by apply rank_text_ok]|].
  intros [number1 sr1] w1 [Hr1 (o1 & Z1 & U1)]. cbn [snd] in Hr1. apply wok_bind.
  rewrite <- (pz_heroes _ _ _ _ Z1). eapply wok_mono; [apply pay_prizes; [by eapply pz_linked|done|intros; by apply sql_text_ok]|].
  intros [i2 sq2] w2 [Hs2 (o2 & Z2 & U2)]. cbn [snd] in Hs2, U2.
  eapply wok_mono; [apply IH; [by eapply pz_linked|done]|].
  intros [sr3 sq3] w3 [Hb (o3 & Z3 & U3)]. cbn [fst snd] in *. split; [done|]. exists (o1 ++ o2 ++ o3).
  rewrite (pz_globals _ _ _ _ Z2), (pz_globals _ _ _ _ Z1), !offline_rows_globals,
    (pz_heroes _ _ _ _ Z2), (pz_heroes _ _ _ _ Z1) in *. cbn [gGameConfig set_out] in *. split.
  - eapply prizes_ext; [|eapply prizes_trans; [exact Z1|eapply prizes_trans; [exact Z2|exact Z3]]].
    intros q h _. apply ranked_cons.
  - rewrite !updates_app, U1, !str_app_assoc, U3, <- (str_app_assoc (updates o2)), U2, !str_app_assoc. done.
Qed.

(** ** The heroes that are not ranked *)
Lemma progress_loop (l : list (Z * Z)) : forall w,
  linked w -> (forall kv, kv ∈ l -> kv ∈ _heroes w) ->
  wok (wfor l (fun kv => call_hero kv.2 (TryToGetGamePrize true))) (fun _ w' => exists o,
    updates o = EmptyString /\
    prizes (fun h => if decide (_account h ∈ l.*1)
                     then progress_prized (gGameConfig (globals w)) (getDailyGameBeginTime (gRankManager (globals w))) h
                     else h) o w w') w.
Proof.
  induction l as [|[acc p] l IH]; intros w Hw Hin; cbn [wfor].
  { exists []. split; [done|]. eapply prizes_ext; [|by apply prizes_refl]. intros q h _. done. }
  assert (Hreg : mfind acc (_heroes w) = Some p) by (apply mIn_find; [apply (lk_sorted _ Hw)|apply Hin; by left]).
  destruct (lk_heroes _ Hw acc p Hreg) as (h & Hp & Ha). apply wok_bind. eapply wok_mono.
  { eapply (call_prizes _ (progress_prized _ _)); [exact Hw|exact Hp|apply progress_prized_links|].
    intros Q HQ. apply wp_TryToGetGamePrize; [|exact HQ]. by eapply linked_session_valid. }
  intros [] w1 (o1 & U1 & Z1). eapply wok_mono; [apply IH; [by eapply pz_linked|]|].
  { intros kv Hkv. rewrite (pz_heroes _ _ _ _ Z1). apply Hin. by right. }
  intros [] w2 (o2 & U2 & Z2). exists (o1 ++ o2). split; [by rewrite updates_app, U1, U2|].
  rewrite (pz_globals _ _ _ _ Z1) in Z2. cbn [gGameConfig gRankManager set_out] in Z2.
  eapply prizes_ext; [|eapply prizes_trans; [exact Z1|exact Z2]].
  intros q x _. cbn. unfold at_account. rewrite Ha. set (f := progress_prized _ _).
  assert (Hf : _account (f x) = _account x) by (pose proof (progress_prized_links _ _ x : hero_links (f x) = _) as H; by injection H).
  destruct (Z.eqb_spec (_account x) acc) as [->|Hne].
  - rewrite (decide_True (P := acc ∈ acc :: _)) by left. rewrite Hf.
    destruct (decide _); [apply progress_prized_again|done].
  - destruct (decide (_account x ∈ l.*1)) as [Hl|Hl].
    + by rewrite decide_True by (by right).
    + rewrite decide_False; [done|]. intros H. apply elem_of_cons in H as [?|?]; done.
Qed.

Lemma progress_of_ranked cfg begin_time l h :
  progress_prized cfg begin_time (ranked cfg l h) = settled cfg begin_time l h.
Proof.
  unfold ranked, settled. destruct (List.find _ l) as [e|]; [|done]. unfold rank_prized.
  destruct (_daily_game_prize_time h =? _daily_game_time h) eqn:E; unfold progress_prized; cbn.
  - by rewrite (Z.eqb_sym _ (_daily_game_prize_time h)), E, orb_true_r.
  - by rewrite Z.eqb_refl, orb_true_r.
Qed.

(** The two statements that are left over. *)
Lemma rest_prizes sql w : linked w ->
  wok (wwhen (nonempty sql) (world_sql sql)) (fun _ w' => exists o,
    prizes id o w w' /\ updates o = if is_update sql then sql else EmptyString) w.
Proof.
  intros Hw. destruct sql as [|a s]; cbn.
  - exists []. split; [by apply prizes_refl|done].
  - eexists. split; [by apply sql_prizes|]. cbn. destruct (Ascii.eqb a "u"); [by rewrite str_app_nil_r|done].
Qed.

(** ** Properties *)

(** C25: the settlement always ends; every loaded hero of the ranking gets the
    prize of its rank, every other one with an older unsettled game the prize
    of its progress, a hero whose last game is settled nothing, and nobody two
    prizes; every hero of the ranking that is not loaded gets its prize by
    exactly one statement; the old ranking is deleted first in the database
    and is empty afterwards, the next game begins now, and nothing else of the
    process changes. *)
Theorem DailyGameUpdate_correct w :
  linked w ->
  let g := globals w in let r := gRankManager g in
  exists o w', DailyGameUpdate w = Ok tt w' /\
    (forall p, mfind p (objects w') =
       settled (gGameConfig g) (getDailyGameBeginTime r) (_heroes_daily_rank r) <$> mfind p (objects w)) /\
    globals w' = set_gRankManager (set__daily_game_begin_time (u32 (g_server_time g))
                   (set__heroes_rank [] (set__heroes_daily_rank [] r))) (set_out (out g ++ o) g) /\
    updates o = offline_rows g (_daily_game_begin_time r) (_heroes w) (_heroes_daily_rank r) /\
    head o = Some (OSql "DELETE FROM hero_daily_game_rank;") /\ _heroes w' = _heroes w.
Proof.
  intros Hw g r. enough (H : wok DailyGameUpdate (fun _ w' => exists o,
    (forall p, mfind p (objects w') =
       settled (gGameConfig g) (getDailyGameBeginTime r) (_heroes_daily_rank r) <$> mfind p (objects w)) /\
    globals w' = set_gRankManager (set__daily_game_begin_time (u32 (g_server_time g))
                   (set__heroes_rank [] (set__heroes_daily_rank [] r))) (set_out (out g ++ o) g) /\
    updates o = offline_rows g (_daily_game_begin_time r) (_heroes w) (_heroes_daily_rank r) /\
    head o = Some (OSql "DELETE FROM hero_daily_game_rank;") /\ _heroes w' = _heroes w) w).
  { apply wok_ok in H as ([] & w' & Hr & o & H). by exists o, w'. }
  apply wok_bind, wok_gets, wok_bind. eapply wok_mono; [by apply sql_prizes|]. intros [] w1 Z1.
  apply wok_bind. eapply wok_mono; [apply settle_loop_prizes; [by eapply pz_linked|split; [done|by left]]|].
  intros [sr sq] w2 [[Hb1 Hb2] (o2 & Z2 & U2)]. cbn [fst snd] in *.
  apply wok_bind. eapply wok_mono; [apply rest_prizes; by eapply pz_linked|]. intros [] w3 (o3 & Z3 & U3).
  apply wok_bind. eapply wok_mono; [apply rest_prizes; by eapply pz_linked|]. intros [] w4 (o4 & Z4 & U4).
  apply wok_bind, wok_bind, wok_gets.
  eapply wok_mono; [apply progress_loop; [by eapply pz_linked|done]|]. intros [] w5 (o5 & U5 & Z5).
  assert (Z : prizes (settled (gGameConfig g) (getDailyGameBeginTime r) (_heroes_daily_rank r))
                ([OSql "DELETE FROM hero_daily_game_rank;"] ++ o2 ++ o3 ++ o4 ++ o5) w w5).
  { eapply prizes_ext; [|eapply prizes_trans; [exact Z1|eapply prizes_trans; [exact Z2|
      eapply prizes_trans; [exact Z3|eapply prizes_trans; [exact Z4|exact Z5]]]]].
    intros q h Hq. cbn [compose id].
    rewrite (pz_globals _ _ _ _ Z4), (pz_globals _ _ _ _ Z3), (pz_globals _ _ _ _ Z2), (pz_globals _ _ _ _ Z1),
      (pz_heroes _ _ _ _ Z4), (pz_heroes _ _ _ _ Z3), (pz_heroes _ _ _ _ Z2), (pz_heroes _ _ _ _ Z1).
    cbn [gGameConfig gRankManager set_out].
    rewrite decide_True; [apply progress_of_ranked|].
    assert (Ha : _account (ranked (gGameConfig (globals w)) (_heroes_daily_rank r) h) = _account h).
    { unfold ranked. destruct (List.find _ _) as [e|]; [|done].
      pose proof (rank_prized_links (GetDailyGamePrize (gGameConfig (globals w)) (rank_ e)) h) as H. by injection H. }
    fold g in Ha. fold g. fold r. rewrite Ha. destruct (lk_registered _ Hw q h Hq) as [H _]. apply mfind_In in H.
    apply list_elem_of_fmap. by exists (_account h, q). }
  exists ([OSql "DELETE FROM hero_daily_game_rank;"] ++ o2 ++ o3 ++ o4 ++ o5).
  cbn [globals set_globals objects _heroes]. split; [apply (pz_objects _ _ _ _ Z)|].
  rewrite (pz_globals _ _ _ _ Z). split; [done|]. split; [|split; [done|apply (pz_heroes _ _ _ _ Z)]].
  rewrite (pz_globals _ _ _ _ Z1), (pz_heroes _ _ _ _ Z1), offline_rows_globals in U2.
  assert (Hsq : (if is_update sq then sq else EmptyString) = sq) by (destruct Hb2 as [->| ->]; done).
  rewrite !updates_app, U3, U4, U5, Hb1, Hsq, str_app_nil_r. exact U2.
Qed.

(** The player of [demo_login] has played the day's game and is first, a player
    who is not loaded second. *)
Definition played_hero : DreamHero :=
  match mfind 1 (objects (world_after demo_login)) with
  | Some h => set__daily_game_time 1500000000 h
  | None => blank_hero
  end.
Definition played_world : World :=
  let w := world_after demo_login in
  let g := globals w in
  let r := set__heroes_daily_rank [mkRankTg "first" 42 90 1 1500001000; mkRankTg "second" 77 80 2 1500001000]
             (gRankManager g) in
  set_objects (mput 1 played_hero (objects w)) (set_globals (set_gRankManager r g) w).

Lemma played_world_linked : linked played_world.
Proof.
  assert (Hw : linked (world_after demo_login)) by (eapply runs_linked; [exact demo_login_runs|apply started_linked]).
  unfold played_world, played_hero. destruct (lk_sessions _ Hw 9 (mkSession 9 42 1 true (Some 1) 7) 1) as (h & Hh & Hs & Ha);
    [vm_compute; reflexivity..|].
  revert Hw Hh. generalize (world_after demo_login). intros w Hw Hh. cbv zeta. rewrite Hh. by eapply linked_hero.
Qed.

Lemma DailyGameUpdate_correct_witness :
  linked played_world /\
  (exists o w', DailyGameUpdate played_world = Ok tt w' /\
     ((fun h => hd_daily_game_gold (_info h)) <$> mfind 1 (objects w')) = Some 1000 /\
     updates o = prize_sql 0 300 1500000000 77).
Proof.
  split; [apply played_world_linked|].
  destruct (DailyGameUpdate_correct played_world played_world_linked) as (o & w' & Hr & Ho & _ & Hu & _).
  exists o, w'. split; [exact Hr|]. split; [rewrite (Ho 1); vm_compute; reflexivity|].
  rewrite Hu. vm_compute. reflexivity.
Defined.

(** The 22nd row of the ranking starts a statement without a head. *)
Example second_batch_headless :
  let l := repeat (mkRankTg "x" 5 1 1 1500001000) 22 in
  (fun r => match r with Ok st _ => st.1 | _ => EmptyString end)
    (settle_loop 0 l 0 0 EmptyString EmptyString (started demo_server)) =
  ",(5, 'x', 1, 1, '2017-7-14 2:56:40')".
Proof. vm_compute. reflexivity. Qed.

(** *** The day begins at midnight, but not for the digit table

    The refresh hour is 0 and a hero got its place in the ranking at 2:56: at
    midnight [p1->tm_hour] is 2 after the refresh, and neither the promotions
    nor the table of digits see the new day. *)
Definition midnight_world (rank : list DailyGameRankTg) : World :=
  let g := set_g_server_time 1500076800 demo_server in
  let c := set__global_config (mkGlobalConfig 1000 3 0 2 600 3 1 1 100 200 120 50 6 1 6 5 500 [10; 20] [20; 40] "KEY") (gGameConfig g) in
  started (set_gRankManager (set__daily_game_begin_time 1499990400 (set__heroes_daily_rank rank (gRankManager g))) (set_gGameConfig c g)).
Definition digits_at_midnight (rank : list DailyGameRankTg) : option (list (list Z)) :=
  let w := midnight_world rank in
  match eventPerMin (repeat (rev (seqZ 0 10)) 6) (left_by_dayRefresh (globals w)) w with
  | Ok _ w' => Some (_day_number (gNames (globals w'))) | _ => None
  end.
Example midnight_after_a_score : digits_at_midnight [mkRankTg "first" 42 90 1 1500001000] = Some (_day_number new_NameGen).
Proof. vm_compute. reflexivity. Qed.
Example midnight_without_score : digits_at_midnight [] = Some (repeat (rev (seqZ 0 10)) 6).
Proof. vm_compute. reflexivity. Qed.
