(* ===== verification/Bytes.v ===== *)
(** * common: bytes and little-endian numbers *)
From S2P Require Import Prelude.

(** Bytes are [Z]s in [0, 256). *)
Definition is_byte (b : Z) : Prop := 0 <= b < 256.

(** The bytes of a number in memory, and the number read back. *)
Fixpoint le_bytes (n : nat) (z : Z) : list Z :=
  match n with O => [] | S n => z mod 256 :: le_bytes n (z / 256) end.
Fixpoint le_value (l : list Z) : Z :=
  match l with [] => 0 | b :: l' => b + 256 * le_value l' end.

Lemma length_le_bytes k : forall z, length (le_bytes k z) = k.
Proof. induction k as [|k IH]; intros z; cbn; [done|]. by rewrite IH. Qed.

Lemma le_bytes_range k : forall z, Forall is_byte (le_bytes k z).
Proof.
  induction k as [|k IH]; intros z; cbn [le_bytes]; constructor; [|apply IH].
  unfold is_byte. by apply Z.mod_pos_bound.
Qed.

Lemma le_value_bytes k : forall z, 0 <= z < 256 ^ Z.of_nat k -> le_value (le_bytes k z) = z.
Proof.
  induction k as [|k IH]; intros z Hz; cbn [le_bytes le_value]; [cbn in Hz; lia|].
  rewrite Nat2Z.inj_succ, Z.pow_succ_r in Hz by lia.
  rewrite IH; [pose proof (Z.div_mod z 256); lia|]. split; [apply Z.div_pos; lia|].
  apply Z.div_lt_upper_bound; lia.
Qed.

Lemma le_value_range l : Forall is_byte l -> 0 <= le_value l < 256 ^ Z.of_nat (length l).
Proof.
  induction 1 as [|b l Hb _ IH]; cbn [le_value length]; [done|].
  rewrite Nat2Z.inj_succ, Z.pow_succ_r by lia. unfold is_byte in Hb. lia.
Qed.
