(* ===== verification/Crc.v ===== *)
(** * common: the checksum of messages (crypt.cpp, [ssl::sslCrc32])

    The table-driven CRC-32 over [char]s, proved equal to the division by the
    reflected polynomial bit by bit, and what the checksum detects. *)
From S2P Require Import Prelude Bytes.

(** A [char] of the project's compilers is signed. *)
Definition schar (b : Z) : Z := if b <? 128 then b else b - 256.

(** ** The code *)
Definition crc_table : list Z :=
  [0x00000000; 0x77073096; 0xee0e612c; 0x990951ba; 0x076dc419; 0x706af48f; 0xe963a535; 0x9e6495a3;
   0x0edb8832; 0x79dcb8a4; 0xe0d5e91e; 0x97d2d988; 0x09b64c2b; 0x7eb17cbd; 0xe7b82d07; 0x90bf1d91;
   0x1db71064; 0x6ab020f2; 0xf3b97148; 0x84be41de; 0x1adad47d; 0x6ddde4eb; 0xf4d4b551; 0x83d385c7;
   0x136c9856; 0x646ba8c0; 0xfd62f97a; 0x8a65c9ec; 0x14015c4f; 0x63066cd9; 0xfa0f3d63; 0x8d080df5;
   0x3b6e20c8; 0x4c69105e; 0xd56041e4; 0xa2677172; 0x3c03e4d1; 0x4b04d447; 0xd20d85fd; 0xa50ab56b;
   0x35b5a8fa; 0x42b2986c; 0xdbbbc9d6; 0xacbcf940; 0x32d86ce3; 0x45df5c75; 0xdcd60dcf; 0xabd13d59;
   0x26d930ac; 0x51de003a; 0xc8d75180; 0xbfd06116; 0x21b4f4b5; 0x56b3c423; 0xcfba9599; 0xb8bda50f;
   0x2802b89e; 0x5f058808; 0xc60cd9b2; 0xb10be924; 0x2f6f7c87; 0x58684c11; 0xc1611dab; 0xb6662d3d;
   0x76dc4190; 0x01db7106; 0x98d220bc; 0xefd5102a; 0x71b18589; 0x06b6b51f; 0x9fbfe4a5; 0xe8b8d433;
   0x7807c9a2; 0x0f00f934; 0x9609a88e; 0xe10e9818; 0x7f6a0dbb; 0x086d3d2d; 0x91646c97; 0xe6635c01;
   0x6b6b51f4; 0x1c6c6162; 0x856530d8; 0xf262004e; 0x6c0695ed; 0x1b01a57b; 0x8208f4c1; 0xf50fc457;
   0x65b0d9c6; 0x12b7e950; 0x8bbeb8ea; 0xfcb9887c; 0x62dd1ddf; 0x15da2d49; 0x8cd37cf3; 0xfbd44c65;
   0x4db26158; 0x3ab551ce; 0xa3bc0074; 0xd4bb30e2; 0x4adfa541; 0x3dd895d7; 0xa4d1c46d; 0xd3d6f4fb;
   0x4369e96a; 0x346ed9fc; 0xad678846; 0xda60b8d0; 0x44042d73; 0x33031de5; 0xaa0a4c5f; 0xdd0d7cc9;
   0x5005713c; 0x270241aa; 0xbe0b1010; 0xc90c2086; 0x5768b525; 0x206f85b3; 0xb966d409; 0xce61e49f;
   0x5edef90e; 0x29d9c998; 0xb0d09822; 0xc7d7a8b4; 0x59b33d17; 0x2eb40d81; 0xb7bd5c3b; 0xc0ba6cad;
   0xedb88320; 0x9abfb3b6; 0x03b6e20c; 0x74b1d29a; 0xead54739; 0x9dd277af; 0x04db2615; 0x73dc1683;
   0xe3630b12; 0x94643b84; 0x0d6d6a3e; 0x7a6a5aa8; 0xe40ecf0b; 0x9309ff9d; 0x0a00ae27; 0x7d079eb1;
   0xf00f9344; 0x8708a3d2; 0x1e01f268; 0x6906c2fe; 0xf762575d; 0x806567cb; 0x196c3671; 0x6e6b06e7;
   0xfed41b76; 0x89d32be0; 0x10da7a5a; 0x67dd4acc; 0xf9b9df6f; 0x8ebeeff9; 0x17b7be43; 0x60b08ed5;
   0xd6d6a3e8; 0xa1d1937e; 0x38d8c2c4; 0x4fdff252; 0xd1bb67f1; 0xa6bc5767; 0x3fb506dd; 0x48b2364b;
   0xd80d2bda; 0xaf0a1b4c; 0x36034af6; 0x41047a60; 0xdf60efc3; 0xa867df55; 0x316e8eef; 0x4669be79;
   0xcb61b38c; 0xbc66831a; 0x256fd2a0; 0x5268e236; 0xcc0c7795; 0xbb0b4703; 0x220216b9; 0x5505262f;
   0xc5ba3bbe; 0xb2bd0b28; 0x2bb45a92; 0x5cb36a04; 0xc2d7ffa7; 0xb5d0cf31; 0x2cd99e8b; 0x5bdeae1d;
   0x9b64c2b0; 0xec63f226; 0x756aa39c; 0x026d930a; 0x9c0906a9; 0xeb0e363f; 0x72076785; 0x05005713;
   0x95bf4a82; 0xe2b87a14; 0x7bb12bae; 0x0cb61b38; 0x92d28e9b; 0xe5d5be0d; 0x7cdcefb7; 0x0bdbdf21;
   0x86d3d2d4; 0xf1d4e242; 0x68ddb3f8; 0x1fda836e; 0x81be16cd; 0xf6b9265b; 0x6fb077e1; 0x18b74777;
   0x88085ae6; 0xff0f6a70; 0x66063bca; 0x11010b5c; 0x8f659eff; 0xf862ae69; 0x616bffd3; 0x166ccf45;
   0xa00ae278; 0xd70dd2ee; 0x4e048354; 0x3903b3c2; 0xa7672661; 0xd06016f7; 0x4969474d; 0x3e6e77db;
   0xaed16a4a; 0xd9d65adc; 0x40df0b66; 0x37d83bf0; 0xa9bcae53; 0xdebb9ec5; 0x47b2cf7f; 0x30b5ffe9;
   0xbdbdf21c; 0xcabac28a; 0x53b39330; 0x24b4a3a6; 0xbad03605; 0xcdd70693; 0x54de5729; 0x23d967bf;
   0xb3667a2e; 0xc4614ab8; 0x5d681b02; 0x2a6f2b94; 0xb40bbe37; 0xc30c8ea1; 0x5a05df1b; 0x2d02ef8d].

Definition crc_entry (i : Z) : Z := nth (Z.to_nat i) crc_table 0.

(** [DO1]: [crc] is an [unsigned long], the [char] is converted to it. *)
Definition DO1 (crc b : Z) : Z :=
  Z.lxor (crc_entry (Z.land (Z.lxor crc (u64 (schar b))) 0xFF)) (Z.shiftr crc 8).

(** The step of the tail: [crc] is converted to [int] first. *)
Definition tail_step (crc b : Z) : Z :=
  Z.lxor (crc_entry (Z.land (Z.lxor (i32 crc) (schar b)) 0xFF)) (Z.shiftr crc 8).

(** [while (len >= 8) { DO8; len -= 8; }], then the tail. *)
Definition DO8 (crc : Z) (data : list Z) : Z := fold_left DO1 (firstn 8 data) crc.
Fixpoint crc_loop (fuel : nat) (crc : Z) (data : list Z) : Z :=
  match fuel with
  | S fuel =>
      if (8 <=? length data)%nat then crc_loop fuel (DO8 crc data) (skipn 8 data)
      else fold_left tail_step data crc
  | O => crc
  end.

Definition crc32 (crc : Z) (data : list Z) : Z :=
  Z.lxor (crc_loop (S (length data)) (Z.lxor crc 0xffffffff) data) 0xffffffff.

(** The result of [crc32] is an [unsigned int]. *)
Definition sslCrc32 (data : list Z) : Z := u32 (crc32 0 data).
Definition sslChecksum (data : list Z) (key : Z) : bool := key =? sslCrc32 data.

(** ** Specification: division by the polynomial, one bit at a time *)
Definition crc_bit (c : Z) : Z :=
  Z.lxor (Z.shiftr c 1) (if Z.odd c then 0xEDB88320 else 0).
Fixpoint crc_bits (n : nat) (c : Z) : Z :=
  match n with O => c | S n => crc_bits n (crc_bit c) end.
Definition crc_byte (c b : Z) : Z := crc_bits 8 (Z.lxor c b).
Definition crc_spec (data : list Z) : Z :=
  Z.lxor (fold_left crc_byte data 0xffffffff) 0xffffffff.

(** ** Equivalence *)
Lemma table_entries : forallb (fun i => crc_entry (Z.of_nat i) =? crc_bits 8 (Z.of_nat i)) (seq 0 256) = true.
Proof. vm_compute. reflexivity. Qed.

Lemma crc_entry_spec i : is_byte i -> crc_entry i = crc_bits 8 i.
Proof.
  intros Hi. pose proof table_entries as H. rewrite forallb_forall in H.
  specialize (H (Z.to_nat i)). rewrite Z2Nat.id in H by (unfold is_byte in Hi; lia).
  apply Z.eqb_eq, H. apply in_seq. unfold is_byte in Hi. lia.
Qed.

Lemma crc_bit_lxor a b : crc_bit (Z.lxor a b) = Z.lxor (crc_bit a) (crc_bit b).
Proof.
  unfold crc_bit. rewrite Z.shiftr_lxor, <- !Z.bit0_odd, Z.lxor_spec.
  set (P := 0xEDB88320). destruct (Z.testbit a 0), (Z.testbit b 0); cbn [xorb];
    apply Z.bits_inj'; intros n _; rewrite !Z.lxor_spec, ?Z.bits_0;
    destruct (Z.testbit (Z.shiftr a 1) n), (Z.testbit (Z.shiftr b 1) n), (Z.testbit P n); reflexivity.
Qed.
Lemma crc_bits_lxor n a b : crc_bits n (Z.lxor a b) = Z.lxor (crc_bits n a) (crc_bits n b).
Proof. revert a b. induction n as [|n IH]; intros a b; [done|]. cbn [crc_bits]. by rewrite crc_bit_lxor, IH. Qed.
Lemma crc_bits_shift n a : crc_bits n (Z.shiftl a (Z.of_nat n)) = a.
Proof.
  revert a. induction n as [|n IH]; intros a; [apply Z.shiftl_0_r|].
  cbn [crc_bits]. replace (crc_bit (Z.shiftl a (Z.of_nat (S n)))) with (Z.shiftl a (Z.of_nat n)); [apply IH|].
  unfold crc_bit. rewrite <- Z.bit0_odd, Z.shiftl_spec_low by lia. rewrite Z.lxor_0_r.
  rewrite Z.shiftr_shiftl_l by lia. f_equal. lia.
Qed.

(** The low byte of a combination with a byte, and the rest. *)
Lemma bits_above n i k : 0 <= n < 2 ^ k -> 0 <= k <= i -> Z.testbit n i = false.
Proof.
  intros Hn Hk. rewrite <- (Z.mod_small n (2 ^ k)) by done. apply Z.mod_pow2_bits_high. lia.
Qed.

Lemma low_byte_spec c i : 0 <= i -> Z.testbit (Z.land c 0xFF) i = Z.testbit c i && (i <? 8).
Proof.
  intros Hi. replace 0xFF with (Z.ones 8) by reflexivity. rewrite Z.land_spec, Z.testbit_ones_nonneg by lia. done.
Qed.
Lemma low_byte_range c : is_byte (Z.land c 0xFF).
Proof.
  unfold is_byte. replace 0xFF with (Z.ones 8) by reflexivity. rewrite Z.land_ones by lia. apply Z.mod_pos_bound. done.
Qed.

Lemma split_low c b : is_byte b ->
  Z.lxor c b = Z.lxor (Z.land (Z.lxor c b) 0xFF) (Z.shiftl (Z.shiftr c 8) 8).
Proof.
  intros Hb. apply Z.bits_inj'. intros i Hi. rewrite !Z.lxor_spec, low_byte_spec, Z.lxor_spec by done.
  rewrite Z.shiftl_spec by done. destruct (Z.ltb_spec i 8).
  - rewrite (Z.testbit_neg_r _ (i - 8)) by lia. by rewrite andb_true_r, xorb_false_r.
  - rewrite Z.shiftr_spec by lia. replace (i - 8 + 8) with i by lia.
    rewrite (bits_above b i 8) by (unfold is_byte in Hb; lia). by rewrite andb_false_r, xorb_false_r, xorb_false_l.
Qed.

(** The sign of a [char] is above the byte that is used. *)
Lemma low_byte_ext c d : (forall i, 0 <= i < 8 -> Z.testbit c i = Z.testbit d i) -> Z.land c 0xFF = Z.land d 0xFF.
Proof.
  intros H. apply Z.bits_inj'. intros i Hi. rewrite !low_byte_spec by done.
  destruct (Z.ltb_spec i 8); [by rewrite H|by rewrite !andb_false_r].
Qed.
Lemma mod_low x i k : 0 <= i < k -> Z.testbit (x mod 2 ^ k) i = Z.testbit x i.
Proof. intros. apply Z.mod_pow2_bits_low. lia. Qed.
Lemma schar_low b i : is_byte b -> 0 <= i < 8 -> Z.testbit (schar b) i = Z.testbit b i.
Proof.
  intros Hb Hi. unfold schar. destruct (Z.ltb_spec b 128); [done|].
  rewrite <- (mod_low (b - 256) i 8), <- (mod_low b i 8) by lia. f_equal.
  replace (b - 256) with (b + (-1) * 2 ^ 8) by lia. apply Z.mod_add. lia.
Qed.
Lemma i32_low c i : 0 <= i < 31 -> Z.testbit (i32 c) i = Z.testbit c i.
Proof.
  intros Hi. unfold i32. rewrite <- (mod_low (_ - _) i 31), <- (mod_low c i 31) by lia. f_equal.
  assert (E : (c + 2 ^ 31) mod 2 ^ 32 - 2 ^ 31 = c + (-2 * ((c + 2 ^ 31) / 2 ^ 32)) * 2 ^ 31)
    by (pose proof (Z.div_mod (c + 2 ^ 31) (2 ^ 32)); lia).
  rewrite E. apply Z.mod_add. lia.
Qed.

Lemma step_spec c x b : is_byte b -> (forall i, 0 <= i < 8 -> Z.testbit x i = Z.testbit (Z.lxor c b) i) ->
  Z.lxor (crc_entry (Z.land x 0xFF)) (Z.shiftr c 8) = crc_byte c b.
Proof.
  intros Hb Hx. rewrite (low_byte_ext x (Z.lxor c b)) by done.
  rewrite crc_entry_spec by apply low_byte_range. unfold crc_byte.
  rewrite (split_low c b) at 2 by done. rewrite crc_bits_lxor. f_equal.
  symmetry. apply (crc_bits_shift 8).
Qed.
Lemma DO1_spec c b : is_byte b -> DO1 c b = crc_byte c b.
Proof.
  intros Hb. apply step_spec; [done|]. intros i Hi. rewrite !Z.lxor_spec. f_equal.
  unfold u64. rewrite mod_low by lia. by apply schar_low.
Qed.
Lemma tail_step_spec c b : is_byte b -> tail_step c b = crc_byte c b.
Proof.
  intros Hb. apply step_spec; [done|]. intros i Hi. rewrite !Z.lxor_spec. f_equal; [apply i32_low; lia|by apply schar_low].
Qed.

Lemma fold_left_ext {A B} (P : B -> Prop) (f g : A -> B -> A) data c :
  (forall c b, P b -> f c b = g c b) -> Forall P data -> fold_left f data c = fold_left g data c.
Proof.
  intros Hf Hd. revert c. induction Hd as [|b data Hb _ IH]; intros c; cbn [fold_left]; [done|].
  rewrite Hf by done. apply IH.
Qed.

Lemma crc_loop_spec fuel : forall c data, (length data < fuel)%nat -> Forall is_byte data ->
  crc_loop fuel c data = fold_left crc_byte data c.
Proof.
  induction fuel as [|fuel IH]; intros c data Hf Hd; [lia|]. cbn [crc_loop].
  destruct (Nat.leb_spec 8 (length data)) as [H8|H8].
  - rewrite IH; [|rewrite length_skipn; lia|by apply Forall_drop].
    unfold DO8. rewrite (fold_left_ext is_byte DO1 crc_byte) by (try apply DO1_spec; by apply Forall_take).
    rewrite <- fold_left_app. by rewrite take_drop.
  - apply (fold_left_ext is_byte); [apply tail_step_spec|done].
Qed.

(** ** What a step does to 32-bit states *)
Lemma u32_bits a : 0 <= a -> (forall i, 32 <= i -> Z.testbit a i = false) -> is_u32 a.
Proof.
  intros Ha H. unfold is_u32. split; [done|]. destruct (Z.eq_dec a 0) as [->|]; [done|].
  apply Z.log2_lt_pow2; [lia|]. destruct (Z.lt_ge_cases (Z.log2 a) 32) as [|Hge]; [done|].
  specialize (H _ Hge). rewrite Z.bit_log2 in H by lia. done.
Qed.
Lemma u32_lxor a b : is_u32 a -> is_u32 b -> is_u32 (Z.lxor a b).
Proof.
  intros Ha Hb. apply u32_bits.
  - apply Z.lxor_nonneg. unfold is_u32 in *. lia.
  - intros i Hi. unfold is_u32 in *. rewrite Z.lxor_spec, !(bits_above _ i 32) by lia. done.
Qed.

Lemma crc_bit_u32 c : is_u32 c -> is_u32 (crc_bit c).
Proof.
  intros Hc. apply u32_lxor; [|by destruct (Z.odd c)]. unfold is_u32 in *. rewrite Z.shiftr_div_pow2 by lia.
  split; [apply Z.div_pos; lia|]. apply Z.div_lt_upper_bound; lia.
Qed.

(** The top bit of the result tells the low bit of the state. *)
Lemma crc_bit_inj c d : is_u32 c -> is_u32 d -> crc_bit c = crc_bit d -> c = d.
Proof.
  intros Hc Hd E. assert (Htop : forall x, is_u32 x -> Z.testbit (crc_bit x) 31 = Z.odd x).
  { intros x Hx. unfold crc_bit, is_u32 in *. rewrite Z.lxor_spec, Z.shiftr_spec, (bits_above x _ 32) by lia.
    by destruct (Z.odd x). }
  assert (Ho : Z.odd c = Z.odd d) by (rewrite <- (Htop c), <- (Htop d) by done; by rewrite E).
  unfold crc_bit in E. rewrite Ho in E.
  assert (Es : Z.shiftr c 1 = Z.shiftr d 1).
  { apply (f_equal (fun x => Z.lxor x (if Z.odd d then 0xEDB88320 else 0))) in E.
    by rewrite !Z.lxor_assoc, !Z.lxor_nilpotent, !Z.lxor_0_r in E. }
  rewrite (Zdiv2_odd_eqn c), (Zdiv2_odd_eqn d), !Z.div2_spec, Es, Ho. done.
Qed.

Lemma crc_bits_u32 n : forall c, is_u32 c -> is_u32 (crc_bits n c).
Proof. induction n as [|n IH]; intros c Hc; cbn [crc_bits]; [done|]. by apply IH, crc_bit_u32. Qed.
Lemma crc_bits_inj n : forall c d, is_u32 c -> is_u32 d -> crc_bits n c = crc_bits n d -> c = d.
Proof.
  induction n as [|n IH]; intros c d Hc Hd E; [done|]. cbn [crc_bits] in E.
  apply crc_bit_inj; [done..|]. by apply IH in E; [|apply crc_bit_u32..].
Qed.

Lemma byte_u32 b : is_byte b -> is_u32 b.
Proof. unfold is_byte, is_u32. lia. Qed.
Lemma crc_byte_u32 c b : is_u32 c -> is_byte b -> is_u32 (crc_byte c b).
Proof. intros Hc Hb. apply crc_bits_u32, u32_lxor; [done|by apply byte_u32]. Qed.
Lemma crc_byte_inj c d b e : is_u32 c -> is_u32 d -> is_byte b -> is_byte e ->
  crc_byte c b = crc_byte d e -> Z.lxor c b = Z.lxor d e.
Proof.
  intros Hc Hd Hb He. unfold crc_byte. apply crc_bits_inj; apply u32_lxor; eauto using byte_u32.
Qed.
Lemma lxor_cancel_r a b c : Z.lxor a c = Z.lxor b c -> a = b.
Proof.
  intros E. apply (f_equal (fun x => Z.lxor x c)) in E.
  by rewrite !Z.lxor_assoc, Z.lxor_nilpotent, !Z.lxor_0_r in E.
Qed.

(** Folding a step that stays in 32 bits and can be undone. *)
Section Fold.
Context (step : Z -> Z -> Z)
  (step_u32 : forall c b, is_u32 c -> is_byte b -> is_u32 (step c b))
  (step_inj : forall c d b e, is_u32 c -> is_u32 d -> is_byte b -> is_byte e ->
     step c b = step d e -> Z.lxor c b = Z.lxor d e).

Lemma fold_step_u32 data : forall c, is_u32 c -> Forall is_byte data -> is_u32 (fold_left step data c).
Proof.
  induction data as [|b data IH]; intros c Hc Hd; cbn [fold_left]; [done|]. inversion Hd; subst.
  apply IH; [by apply step_u32|done].
Qed.
Lemma fold_step_inj data : forall c d, is_u32 c -> is_u32 d -> Forall is_byte data ->
  fold_left step data c = fold_left step data d -> c = d.
Proof.
  induction data as [|b data IH]; intros c d Hc Hd Hall E; cbn [fold_left] in E; [done|]. inversion Hall; subst.
  apply IH in E; [|by apply step_u32..|done]. apply step_inj in E; [|done..]. by apply lxor_cancel_r in E.
Qed.
Lemma fold_step_detects c pre b b' post : is_u32 c ->
  Forall is_byte (pre ++ b :: post) -> is_byte b' ->
  fold_left step (pre ++ b' :: post) c = fold_left step (pre ++ b :: post) c -> b' = b.
Proof.
  intros Hc Hall Hb' E. apply Forall_app in Hall as [Hpre Hall]. inversion Hall; subst.
  rewrite !fold_left_app in E. cbn [fold_left] in E.
  set (d := fold_left step pre c) in E. assert (Hd : is_u32 d) by (by apply fold_step_u32).
  apply fold_step_inj in E; [|by apply step_u32..|done]. apply step_inj in E; [|done..].
  rewrite !(Z.lxor_comm d) in E. by apply lxor_cancel_r in E.
Qed.
End Fold.

Lemma crc32_spec data : Forall is_byte data -> crc32 0 data = crc_spec data.
Proof. intros Hd. unfold crc32, crc_spec. by rewrite crc_loop_spec by (done || lia). Qed.
Lemma crc_spec_u32 data : Forall is_byte data -> is_u32 (crc_spec data).
Proof. intros Hd. apply u32_lxor; [|done].
  by apply (fold_step_u32 crc_byte crc_byte_u32). Qed.
Lemma sslCrc32_spec data : Forall is_byte data -> sslCrc32 data = crc_spec data.
Proof. intros Hd. unfold sslCrc32. rewrite crc32_spec by done. by apply u32_id, crc_spec_u32. Qed.

Lemma crc_spec_detects pre b b' post :
  Forall is_byte (pre ++ b :: post) -> is_byte b' ->
  crc_spec (pre ++ b' :: post) = crc_spec (pre ++ b :: post) -> b' = b.
Proof.
  intros Hall Hb' E. unfold crc_spec in E. apply lxor_cancel_r in E.
  by apply (fold_step_detects crc_byte crc_byte_u32 crc_byte_inj) in E.
Qed.

(** ** Properties *)

(** C26: the table-driven checksum, with its unrolled loop and its mixture of
    signed and unsigned conversions, is the CRC-32 of the bytes (bit by bit
    division by the polynomial 0xEDB88320), and a checksum that was right
    becomes wrong when any one byte of the data is changed. *)
Theorem sslCrc32_correct data :
  Forall is_byte data ->
  sslCrc32 data = crc_spec data /\
  forall pre b post b', data = pre ++ b :: post -> is_byte b' -> b' <> b ->
    sslChecksum (pre ++ b' :: post) (sslCrc32 data) = false.
Proof.
  intros Hd. split; [by apply sslCrc32_spec|]. intros pre b post b' -> Hb' Hne.
  assert (Hd' : Forall is_byte (pre ++ b' :: post)).
  { apply Forall_app in Hd as [? Hd]. inversion Hd; subst. apply Forall_app. split; [done|by constructor]. }
  unfold sslChecksum. apply Z.eqb_neq. rewrite !sslCrc32_spec by done. intros E.
  by apply Hne, (crc_spec_detects pre b b' post).
Qed.

(** The check value of CRC-32: the checksum of "123456789". *)
Lemma sslCrc32_correct_witness :
  let data := [49; 50; 51; 52; 53; 54; 55; 56; 57] in
  sslCrc32 data = 0xCBF43926 /\ crc_spec data = 0xCBF43926 /\
  sslChecksum [49; 50; 51; 52; 0; 54; 55; 56; 57] 0xCBF43926 = false.
Proof.
  intros data. assert (Hd : Forall is_byte data) by (repeat constructor; unfold is_byte; lia).
  destruct (sslCrc32_correct data Hd) as [E H].
  assert (Hc : sslCrc32 data = 0xCBF43926) by reflexivity.
  split; [exact Hc|]. split; [rewrite <- E; exact Hc|].
  rewrite <- Hc. apply (H [49; 50; 51; 52] 53 [54; 55; 56; 57] 0); [reflexivity|unfold is_byte; lia|lia].
Defined.
