(* ===== verification/Md5.v ===== *)
(** * common: the MD5 digest (md5.cpp)

    The incremental digest with its block buffer and 64-bit counter, proved to
    compute the digest of the concatenated input whatever the chunks are. *)
From S2P Require Import Prelude Bytes.

Module Md5.

(** ** The block transformation *)
Definition S11 := 7.
Definition S12 := 12.
Definition S13 := 17.
Definition S14 := 22.
Definition S21 := 5.
Definition S22 := 9.
Definition S23 := 14.
Definition S24 := 20.
Definition S31 := 4.
Definition S32 := 11.
Definition S33 := 16.
Definition S34 := 23.
Definition S41 := 6.
Definition S42 := 10.
Definition S43 := 15.
Definition S44 := 21.

(** [~x] of an [unsigned int]. *)
Definition not32 (x : Z) : Z := Z.lxor x 0xffffffff.
Definition F (x y z : Z) : Z := Z.lor (Z.land x y) (Z.land (not32 x) z).
Definition G (x y z : Z) : Z := Z.lor (Z.land x z) (Z.land y (not32 z)).
Definition H (x y z : Z) : Z := Z.lxor (Z.lxor x y) z.
Definition I (x y z : Z) : Z := Z.lxor y (Z.lor x (not32 z)).

Definition ROTATE_LEFT (x n : Z) : Z := Z.lor (u32 (Z.shiftl x n)) (Z.shiftr x (32 - n)).

(** The macros [FF] to [II]: the new value of [a]. *)
Inductive Round := FF | GG | HH | II.
Definition mix (r : Round) : Z -> Z -> Z -> Z := match r with FF => F | GG => G | HH => H | II => I end.
Definition round (r : Round) (a b c d x s ac : Z) : Z :=
  u32 (ROTATE_LEFT (u32 (a + (mix r b c d + x + ac))) s + b).

(** The 64 lines of [transform].  Line by line the roles of the four variables
    rotate: (a, b, c, d), (d, a, b, c), (c, d, a, b), (b, c, d, a). *)
Definition lines : list (Round * nat * Z * Z) :=
  [(FF, 0%nat, S11, 0xd76aa478); (FF, 1%nat, S12, 0xe8c7b756);
   (FF, 2%nat, S13, 0x242070db); (FF, 3%nat, S14, 0xc1bdceee);
   (FF, 4%nat, S11, 0xf57c0faf); (FF, 5%nat, S12, 0x4787c62a);
   (FF, 6%nat, S13, 0xa8304613); (FF, 7%nat, S14, 0xfd469501);
   (FF, 8%nat, S11, 0x698098d8); (FF, 9%nat, S12, 0x8b44f7af);
   (FF, 10%nat, S13, 0xffff5bb1); (FF, 11%nat, S14, 0x895cd7be);
   (FF, 12%nat, S11, 0x6b901122); (FF, 13%nat, S12, 0xfd987193);
   (FF, 14%nat, S13, 0xa679438e); (FF, 15%nat, S14, 0x49b40821);
   (GG, 1%nat, S21, 0xf61e2562); (GG, 6%nat, S22, 0xc040b340);
   (GG, 11%nat, S23, 0x265e5a51); (GG, 0%nat, S24, 0xe9b6c7aa);
   (GG, 5%nat, S21, 0xd62f105d); (GG, 10%nat, S22, 0x2441453);
   (GG, 15%nat, S23, 0xd8a1e681); (GG, 4%nat, S24, 0xe7d3fbc8);
   (GG, 9%nat, S21, 0x21e1cde6); (GG, 14%nat, S22, 0xc33707d6);
   (GG, 3%nat, S23, 0xf4d50d87); (GG, 8%nat, S24, 0x455a14ed);
   (GG, 13%nat, S21, 0xa9e3e905); (GG, 2%nat, S22, 0xfcefa3f8);
   (GG, 7%nat, S23, 0x676f02d9); (GG, 12%nat, S24, 0x8d2a4c8a);
   (HH, 5%nat, S31, 0xfffa3942); (HH, 8%nat, S32, 0x8771f681);
   (HH, 11%nat, S33, 0x6d9d6122); (HH, 14%nat, S34, 0xfde5380c);
   (HH, 1%nat, S31, 0xa4beea44); (HH, 4%nat, S32, 0x4bdecfa9);
   (HH, 7%nat, S33, 0xf6bb4b60); (HH, 10%nat, S34, 0xbebfbc70);
   (HH, 13%nat, S31, 0x289b7ec6); (HH, 0%nat, S32, 0xeaa127fa);
   (HH, 3%nat, S33, 0xd4ef3085); (HH, 6%nat, S34, 0x4881d05);
   (HH, 9%nat, S31, 0xd9d4d039); (HH, 12%nat, S32, 0xe6db99e5);
   (HH, 15%nat, S33, 0x1fa27cf8); (HH, 2%nat, S34, 0xc4ac5665);
   (II, 0%nat, S41, 0xf4292244); (II, 7%nat, S42, 0x432aff97);
   (II, 14%nat, S43, 0xab9423a7); (II, 5%nat, S44, 0xfc93a039);
   (II, 12%nat, S41, 0x655b59c3); (II, 3%nat, S42, 0x8f0ccc92);
   (II, 10%nat, S43, 0xffeff47d); (II, 1%nat, S44, 0x85845dd1);
   (II, 8%nat, S41, 0x6fa87e4f); (II, 15%nat, S42, 0xfe2ce6e0);
   (II, 6%nat, S43, 0xa3014314); (II, 13%nat, S44, 0x4e0811a1);
   (II, 4%nat, S41, 0xf7537e82); (II, 11%nat, S42, 0xbd3af235);
   (II, 2%nat, S43, 0x2ad7d2bb); (II, 9%nat, S44, 0xeb86d391)].

Definition Words : Type := Z * Z * Z * Z.
Definition line (x : list Z) (w : Words) (l : Round * nat * Z * Z) : Words :=
  let '(a, b, c, d) := w in let '(r, k, s, ac) := l in
  (d, round r a b c d (nth k x 0) s ac, b, c).

(** [decode]: little-endian words, four bytes at a time. *)
Fixpoint decode (input : list Z) : list Z :=
  match input with
  | b0 :: b1 :: b2 :: b3 :: input' =>
      Z.lor (Z.lor (Z.lor b0 (Z.shiftl b1 8)) (Z.shiftl b2 16)) (Z.shiftl b3 24) :: decode input'
  | _ => []
  end.

(** [encode] of one word. *)
Definition encode1 (w : Z) : list Z :=
  [Z.land w 0xff; Z.land (Z.shiftr w 8) 0xff; Z.land (Z.shiftr w 16) 0xff; Z.land (Z.shiftr w 24) 0xff].
Definition encode (input : list Z) : list Z := flat_map encode1 input.

Definition transform (block : list Z) (st : Words) : Words :=
  let '(a, b, c, d) := st in
  let '(a', b', c', d') := fold_left (line (decode block)) lines st in
  (u32 (a + a'), u32 (b + b'), u32 (c + c'), u32 (d + d')).

(** ** The digest object *)
Record md5 := mkMd5 {
  _state : Words;
  _count : Z * Z;
  _buffer : list Z;
  _digest : list Z;
  _finished : bool
}.

Definition PADDING : list Z := 0x80 :: repeat 0 63.

(** [reset]: the buffer and the digest keep their contents. *)
Definition reset (m : md5) : md5 :=
  mkMd5 (0x67452301, 0xefcdab89, 0x98badcfe, 0x10325476) (0, 0) (_buffer m) (_digest m) false.

(** [memcpy(&_buffer[index], src, length)] *)
Definition copy_to (buffer : list Z) (index : nat) (src : list Z) : list Z :=
  firstn index buffer ++ src ++ skipn (index + length src) buffer.

(** The index [i] of the loop is 32 bits wide like [len]: the loop is the
    source's for inputs shorter than 2^32 - 64 bytes.

    [for (i = partLen; i + 63 < length; i += 64) transform(&input[i])]: the
    state and the rest of the input. *)
Fixpoint blocks (fuel : nat) (input : list Z) (st : Words) : Words * list Z :=
  match fuel with
  | S fuel =>
      if (64 <=? length input)%nat then blocks fuel (skipn 64 input) (transform (firstn 64 input) st)
      else (st, input)
  | O => (st, input)
  end.

(** The bit counter: [length] is cut to 32 bits before the shift. *)
Definition count_up (count : Z * Z) (len : Z) : Z * Z :=
  let add := u32 (Z.shiftl (u32 len) 3) in
  let c0 := u32 (count.1 + add) in
  let c1 := if c0 <? add then u32 (count.2 + 1) else count.2 in
  (c0, u32 (c1 + Z.shiftr (u32 len) 29)).

Definition buffered (count : Z * Z) : nat := Z.to_nat (Z.land (Z.shiftr count.1 3) 0x3f).

Definition update (input : list Z) (m : md5) : md5 :=
  let index := buffered (_count m) in
  let partLen := (64 - index)%nat in
  let count := count_up (_count m) (Z.of_nat (length input)) in
  if (partLen <=? length input)%nat then
    let buffer := copy_to (_buffer m) index (firstn partLen input) in
    let '(st, rest) := blocks (length input) (skipn partLen input) (transform buffer (_state m)) in
    mkMd5 st count (copy_to buffer 0 rest) (_digest m) false
  else mkMd5 (_state m) count (copy_to (_buffer m) index input) (_digest m) false.

(** [final] leaves [_buffer] overwritten and [_finished] cleared. *)
Definition final (m : md5) : md5 :=
  let bits := encode [(_count m).1; (_count m).2] in
  let index := buffered (_count m) in
  let padLen := if (index <? 56)%nat then (56 - index)%nat else (120 - index)%nat in
  let m' := update bits (update (firstn padLen PADDING) m) in
  let '(a, b, c, d) := _state m' in
  mkMd5 (_state m) (_count m) (_buffer m') (encode [a; b; c; d]) (_finished m').

Definition digest (m : md5) : list Z * md5 :=
  let m := if _finished m then m
           else final (mkMd5 (_state m) (_count m) (_buffer m) (_digest m) true) in
  (_digest m, m).

Definition HEX : list ascii :=
  ["0"; "1"; "2"; "3"; "4"; "5"; "6"; "7"; "8"; "9"; "a"; "b"; "c"; "d"; "e"; "f"]%char.
Definition hex (d : Z) : ascii := nth (Z.to_nat d) HEX "0"%char.
Definition bytesToHexString (input : list Z) : string :=
  fold_right (fun t s => String (hex (t / 16)) (String (hex (t mod 16)) s)) EmptyString input.
Definition tostring (m : md5) : string * md5 :=
  let '(d, m) := digest m in (bytesToHexString d, m).

(** An object whose buffer holds [buffer] (64 uninitialised bytes). *)
Definition new_md5 (buffer : list Z) : md5 := reset (mkMd5 (0, 0, 0, 0) (0, 0) buffer (repeat 0 16) false).

(** [ssl::ssl_md5] *)
Definition ssl_md5 (buffer data : list Z) : string := (tostring (update data (new_md5 buffer))).1.

(** ** Specification (RFC 1321) *)

(** The padded message: one bit, zeros up to 56 modulo 64, the length in bits. *)
Definition zeros (len : Z) : nat := Z.to_nat ((55 - len) mod 64).
Definition pad (msg : list Z) : list Z :=
  let len := Z.of_nat (length msg) in
  msg ++ [0x80] ++ repeat 0 (zeros len) ++ le_bytes 8 (8 * len).

(** The lines of the block transformation: round [i / 16] uses the words
    i, 5i+1, 3i+5 and 7i modulo 16. *)
Definition rfc_word (i : nat) : nat :=
  match (i / 16)%nat with
  | 0 => i | 1 => (5 * i + 1) mod 16 | 2 => (3 * i + 5) mod 16 | _ => (7 * i) mod 16
  end%nat.
Definition rfc_round (i : nat) : Round :=
  match (i / 16)%nat with 0%nat => FF | 1%nat => GG | 2%nat => HH | _ => II end.
Definition rfc_shift (i : nat) : Z :=
  nth (i mod 4)%nat (match (i / 16)%nat with
                     | 0%nat => [7; 12; 17; 22] | 1%nat => [5; 9; 14; 20]
                     | 2%nat => [4; 11; 16; 23] | _ => [6; 10; 15; 21] end) 0.

(** Whole blocks of a message, from an initial state. *)
Fixpoint md5_blocks (n : nat) (l : list Z) (st : Words) : Words :=
  match n with O => st | S n => md5_blocks n (skipn 64 l) (transform (firstn 64 l) st) end.
Definition md5_init : Words := (0x67452301, 0xefcdab89, 0x98badcfe, 0x10325476).
Definition words_bytes (w : Words) : list Z := let '(a, b, c, d) := w in encode [a; b; c; d].
Definition md5_spec (msg : list Z) : list Z :=
  let p := pad msg in words_bytes (md5_blocks (length p / 64) p md5_init).

(** ** Blocks *)
Lemma md5_blocks_app n : forall pre l m st, length pre = (64 * n)%nat ->
  md5_blocks (n + m) (pre ++ l) st = md5_blocks m l (md5_blocks n pre st).
Proof.
  induction n as [|n IH]; intros pre l m st Hp; cbn [md5_blocks Nat.add].
  - destruct pre; [done|cbn in Hp; lia].
  - rewrite skipn_app, firstn_app. replace (64 - length pre)%nat with 0%nat by lia.
    rewrite firstn_O, skipn_O, app_nil_r. apply IH. rewrite length_skipn. lia.
Qed.

Lemma blocks_spec fuel : forall l st, (length l <= fuel)%nat ->
  blocks fuel l st = (md5_blocks (length l / 64) l st, skipn (64 * (length l / 64)) l).
Proof.
  induction fuel as [|fuel IH]; intros l st Hf; [by destruct l; [|cbn in Hf; lia]|].
  cbn [blocks]. destruct (Nat.leb_spec 64 (length l)) as [H|H].
  - rewrite IH by (rewrite length_skipn; lia). rewrite length_skipn.
    assert (E : (length l / 64 = S ((length l - 64) / 64))%nat).
    { replace (length l) with (1 * 64 + (length l - 64))%nat at 1 by lia.
      rewrite Nat.div_add_l by lia. lia. }
    rewrite E. cbn [md5_blocks]. f_equal. rewrite skipn_skipn. f_equal. lia.
  - rewrite Nat.div_small by lia. by rewrite Nat.mul_0_r.
Qed.

(** ** The counter *)
Lemma count_up_spec n k : 0 <= n -> 0 <= k < 2 ^ 32 ->
  count_up (u32 (8 * n), u32 (8 * n / 2 ^ 32)) k = (u32 (8 * (n + k)), u32 (8 * (n + k) / 2 ^ 32)).
Proof.
  intros Hn Hk. unfold count_up. cbn [fst snd]. rewrite Z.shiftl_mul_pow2, Z.shiftr_div_pow2 by lia.
  assert (Hk32 : u32 k = k) by (apply Z.mod_small; lia). rewrite !Hk32. unfold u32. set (M := 2 ^ 32) in *.
  set (a := 8 * n). replace (8 * (n + k)) with (a + k * 2 ^ 3) by lia. set (b := k * 2 ^ 3).
  assert (Hd : k / 2 ^ 29 = b / M) by (unfold b, M; rewrite <- (Z.div_mul_cancel_r k (2 ^ 29) (2 ^ 3)) by lia; done).
  rewrite Hd. assert (HM : 0 < M) by done.
  pose proof (Z.mod_pos_bound a M HM). pose proof (Z.mod_pos_bound b M HM).
  assert (Ha : a = M * (a / M) + a mod M) by (apply Z.div_mod; lia).
  assert (Hb : b = M * (b / M) + b mod M) by (apply Z.div_mod; lia).
  f_equal.
  - by rewrite Z.add_mod_idemp_l, Z.add_mod_idemp_r by lia.
  - destruct (Z.lt_ge_cases (a mod M + b mod M) M) as [Hlt|Hge].
    + rewrite (Z.mod_small (a mod M + b mod M)) by lia. rewrite (proj2 (Z.ltb_ge _ _)) by lia.
      assert (E : (a + b) / M = a / M + b / M).
      { symmetry. apply (Z.div_unique _ _ _ (a mod M + b mod M)); lia. }
      by rewrite E, Z.add_mod_idemp_l by lia.
    + assert (Em : (a mod M + b mod M) mod M = a mod M + b mod M - M)
        by (symmetry; apply (Z.mod_unique _ _ 1); lia).
      rewrite Em, (proj2 (Z.ltb_lt _ _)) by lia.
      assert (E : (a + b) / M = a / M + 1 + b / M).
      { symmetry. apply (Z.div_unique _ _ _ (a mod M + b mod M - M)); lia. }
      rewrite E, Z.add_mod_idemp_l, <- !Z.add_assoc by lia. by rewrite Z.add_mod_idemp_l by lia.
Qed.

Lemma buffered_spec n c : buffered (u32 (8 * Z.of_nat n), c) = (n mod 64)%nat.
Proof.
  unfold buffered, u32. cbn [fst]. replace 0x3f with (Z.ones 6) by reflexivity.
  rewrite Z.land_ones, Z.shiftr_div_pow2 by lia. change (2 ^ 3) with 8. change (2 ^ 6) with 64.
  replace (2 ^ 32) with (8 * 2 ^ 29) by reflexivity. rewrite Z.mul_mod_distr_l by lia.
  rewrite (Z.mul_comm 8), Z.div_mul by lia. rewrite Z.mod_mod_divide by (by exists (2 ^ 23)).
  change 64 with (Z.of_nat 64). by rewrite <- Nat2Z.inj_mod, Nat2Z.id.
Qed.

(** ** What the object holds *)

(** The object has taken in [msg]: whole blocks are digested, the rest is at
    the start of the buffer, the counter counts bits. *)
Record holds (m : md5) (msg : list Z) : Prop := {
  hold_state : _state m = md5_blocks (length msg / 64) msg md5_init;
  hold_count : _count m = (u32 (8 * Z.of_nat (length msg)), u32 (8 * Z.of_nat (length msg) / 2 ^ 32));
  hold_size : length (_buffer m) = 64%nat;
  hold_rest : firstn (length msg mod 64) (_buffer m) = skipn (64 * (length msg / 64)) msg
}.

Lemma new_holds buffer : length buffer = 64%nat -> holds (new_md5 buffer) [].
Proof. by constructor. Qed.

Lemma length_copy_to buffer i src : (i + length src <= length buffer)%nat ->
  length (copy_to buffer i src) = length buffer.
Proof. intros. unfold copy_to. rewrite !length_app, length_firstn, length_skipn. lia. Qed.
Lemma firstn_copy_to buffer i src : (i + length src <= length buffer)%nat ->
  firstn (i + length src) (copy_to buffer i src) = firstn i buffer ++ src.
Proof.
  intros Hl. unfold copy_to. rewrite app_assoc, firstn_app, length_app, length_firstn.
  rewrite Nat.min_l by lia. rewrite Nat.sub_diag, firstn_O, app_nil_r. apply firstn_all2.
  rewrite length_app, length_firstn. lia.
Qed.

(** A message as its whole blocks and the rest. *)
Lemma split_msg (msg : list Z) : exists head tail,
  msg = head ++ tail /\ length head = (64 * (length msg / 64))%nat /\ length tail = (length msg mod 64)%nat /\
  tail = skipn (64 * (length msg / 64)) msg.
Proof.
  exists (firstn (64 * (length msg / 64)) msg), (skipn (64 * (length msg / 64)) msg).
  pose proof (Nat.div_mod_eq (length msg) 64). rewrite length_firstn, length_skipn.
  split; [by rewrite firstn_skipn|]. repeat split; lia.
Qed.

Lemma blocks_count q r : (r < 64)%nat -> ((64 * q + r) / 64 = q)%nat /\ ((64 * q + r) mod 64 = r)%nat.
Proof.
  intros Hr. rewrite (Nat.mul_comm 64), Nat.div_add_l, (Nat.add_comm (q * 64)), Nat.Div0.mod_add by lia.
  rewrite Nat.div_small, Nat.mod_small by lia. lia.
Qed.

Lemma holds_parts m msg : holds m msg -> exists head tail q r,
  msg = head ++ tail /\ length head = (64 * q)%nat /\ length tail = r /\ (r < 64)%nat /\
  length msg = (64 * q + r)%nat /\ buffered (_count m) = r /\
  _state m = md5_blocks q head md5_init /\ firstn r (_buffer m) = tail.
Proof.
  intros [Hst Hco _ Hre]. destruct (split_msg msg) as (head & tail & Hmsg & Hh & Ht & Htail).
  exists head, tail, (length msg / 64)%nat, (length msg mod 64)%nat. rewrite <- Htail in Hre.
  split_and!; try done; [apply Nat.mod_upper_bound; lia|apply Nat.div_mod_eq|by rewrite Hco, buffered_spec|].
  rewrite Hst. set (q := (length msg / 64)%nat) in *. rewrite Hmsg.
  replace q with (q + 0)%nat at 1 by lia. by rewrite md5_blocks_app.
Qed.

Lemma update_count m msg (input : list Z) : holds m msg -> Z.of_nat (length input) < 2 ^ 32 ->
  count_up (_count m) (Z.of_nat (length input)) =
  (u32 (8 * Z.of_nat (length (msg ++ input))), u32 (8 * Z.of_nat (length (msg ++ input)) / 2 ^ 32)).
Proof.
  intros [_ Hco _ _] Hin. rewrite Hco, count_up_spec by lia. by rewrite length_app, Nat2Z.inj_add.
Qed.

(** The input completes the block in the buffer. *)
Lemma update_completes m msg input : holds m msg -> Z.of_nat (length input) < 2 ^ 32 ->
  (64 - buffered (_count m) <= length input)%nat -> holds (update input m) (msg ++ input).
Proof.
  intros Hm Hin Hk. destruct (holds_parts m msg Hm) as (head & tail & q & r & Hmsg & Hh & Ht & Hr & Hlen & Hb & Hst & Hre).
  unfold update. rewrite (update_count m msg) by done. rewrite (proj2 (Nat.leb_le _ _) Hk), Hb in *.
  set (block := copy_to (_buffer m) r (firstn (64 - r) input)). set (more := skipn (64 - r) input).
  assert (Hfit : (r + length (firstn (64 - r) input) = length (_buffer m))%nat)
    by (rewrite (hold_size _ _ Hm), length_firstn; lia).
  assert (Hblock : block = tail ++ firstn (64 - r) input).
  { unfold block. rewrite <- Hre, <- firstn_copy_to by lia. symmetry. apply firstn_all2. rewrite length_copy_to; lia. }
  assert (Hbl : length block = 64%nat) by (rewrite Hblock, length_app, length_firstn; lia).
  assert (Hall : msg ++ input = (head ++ block) ++ more).
  { rewrite Hmsg, Hblock, <- !app_assoc. unfold more. by rewrite firstn_skipn. }
  rewrite blocks_spec by (unfold more; rewrite length_skipn; lia).
  destruct (split_msg more) as (mh & mt & Hmo & Hmh & Hmt & Hmtail). rewrite <- Hmtail.
  set (q2 := (length more / 64)%nat) in *. set (r2 := (length more mod 64)%nat) in *.
  assert (Hr2 : (r2 < 64)%nat) by (apply Nat.mod_upper_bound; lia).
  assert (Htot : length (msg ++ input) = (64 * (S q + q2) + r2)%nat) by (rewrite Hall, !length_app, Hmo, length_app; lia).
  destruct (blocks_count (S q + q2) r2 Hr2) as [E1 E2]. constructor; cbn [_state _count _buffer _finished]; try done.
  - rewrite Htot, E1, Hall, Hst. rewrite md5_blocks_app by (rewrite length_app; lia). f_equal.
    replace (S q) with (q + 1)%nat by lia. rewrite md5_blocks_app by done. cbn [md5_blocks].
    by rewrite firstn_all2 by lia.
  - rewrite length_copy_to by lia. exact Hbl.
  - rewrite Htot, E1, E2, Hall. rewrite <- Hmt at 1. change (length mt) with (0 + length mt)%nat.
    rewrite firstn_copy_to by lia. rewrite Hmo, app_assoc, skipn_app.
    rewrite skipn_all2 by (rewrite !length_app; lia).
    replace (_ - _)%nat with 0%nat by (rewrite !length_app; lia). done.
Qed.

(** The input fits into the buffer. *)
Lemma update_fits m msg input : holds m msg -> Z.of_nat (length input) < 2 ^ 32 ->
  (length input < 64 - buffered (_count m))%nat -> holds (update input m) (msg ++ input).
Proof.
  intros Hm Hin Hk. destruct (holds_parts m msg Hm) as (head & tail & q & r & Hmsg & Hh & Ht & Hr & Hlen & Hb & Hst & Hre).
  unfold update. rewrite (update_count m msg) by done. rewrite (proj2 (Nat.leb_gt _ _) Hk), Hb in *.
  pose proof (hold_size _ _ Hm) as Hsz.
  assert (Htot : length (msg ++ input) = (64 * q + (r + length input))%nat) by (rewrite length_app; lia).
  destruct (blocks_count q (r + length input)) as [E1 E2]; [lia|].
  constructor; cbn [_state _count _buffer _finished]; try done.
  - rewrite Htot, E1, Hst, Hmsg, <- app_assoc. replace q with (q + 0)%nat at 2 by lia. by rewrite md5_blocks_app.
  - rewrite length_copy_to by lia. exact Hsz.
  - rewrite Htot, E1, E2, firstn_copy_to, Hre by lia. rewrite Hmsg, <- app_assoc, skipn_app.
    rewrite skipn_all2 by lia. replace (_ - _)%nat with 0%nat by lia. done.
Qed.

Lemma update_holds m msg input : holds m msg -> Z.of_nat (length input) < 2 ^ 32 ->
  holds (update input m) (msg ++ input).
Proof.
  intros Hm Hin. destruct (Nat.le_gt_cases (64 - buffered (_count m)) (length input));
    [by apply update_completes|by apply update_fits].
Qed.

Lemma updates_holds chunks : forall m msg, holds m msg ->
  Forall (fun c => Z.of_nat (length c) < 2 ^ 32) chunks ->
  holds (fold_left (fun m c => update c m) chunks m) (msg ++ concat chunks).
Proof.
  induction chunks as [|c chunks IH]; intros m msg Hm Hc; cbn [fold_left concat]; [by rewrite app_nil_r|].
  inversion Hc; subst. rewrite app_assoc. apply IH; [by apply update_holds|done].
Qed.

Lemma updates_open chunks : forall m, _finished m = false ->
  _finished (fold_left (fun m c => update c m) chunks m) = false.
Proof.
  induction chunks as [|c chunks IH]; intros m Hm; cbn [fold_left]; [done|]. apply IH. unfold update.
  destruct (_ <=? _)%nat; [|done]. by destruct (blocks _ _ _).
Qed.

(** ** The end of the digest *)
Lemma byte_of_u32 w k : 0 <= k <= 24 -> Z.land (Z.shiftr (u32 w) k) 0xff = (w / 2 ^ k) mod 256.
Proof.
  intros Hk. replace 0xff with (Z.ones 8) by reflexivity. rewrite Z.land_ones, Z.shiftr_div_pow2 by lia.
  unfold u32. change 256 with (2 ^ 8). apply Z.bits_inj'. intros i Hi. destruct (Z.lt_ge_cases i 8).
  - rewrite !Z.mod_pow2_bits_low, !Z.div_pow2_bits, Z.mod_pow2_bits_low by lia. done.
  - by rewrite !Z.mod_pow2_bits_high by lia.
Qed.

Lemma encode1_le w : encode1 (u32 w) = le_bytes 4 w.
Proof.
  unfold encode1. rewrite <- (Z.shiftr_0_r (u32 w)) at 1. rewrite !byte_of_u32 by lia.
  cbn [le_bytes]. rewrite !Z.div_div, Z.div_1_r by lia. done.
Qed.

Lemma encode_count len : encode [u32 len; u32 (len / 2 ^ 32)] = le_bytes 8 len.
Proof.
  unfold encode. cbn [flat_map]. rewrite !encode1_le, app_nil_r. cbn [le_bytes app].
  rewrite !Z.div_div by lia. done.
Qed.

(** What [final] feeds to [update] is the padding. *)
Lemma firstn_repeat {A} (x : A) k : forall n, (k <= n)%nat -> firstn k (repeat x n) = repeat x k.
Proof.
  induction k as [|k IH]; intros n Hn; [done|]. destruct n as [|n]; [lia|]. cbn. by rewrite IH by lia.
Qed.

Definition pad_len (index : nat) : nat := if (index <? 56)%nat then (56 - index)%nat else (120 - index)%nat.

Lemma padding_zeros n : firstn (pad_len (n mod 64)) PADDING = [0x80] ++ repeat 0 (zeros (Z.of_nat n)).
Proof.
  unfold PADDING, zeros. set (index := (n mod 64)%nat).
  assert (Hi : (index < 64)%nat) by (apply Nat.mod_upper_bound; lia).
  pose proof (Nat.div_mod_eq n 64) as Hn. fold index in Hn. set (q := (n / 64)%nat) in *.
  assert (Hz : pad_len index = S (Z.to_nat ((55 - Z.of_nat n) mod 64)) /\ (pad_len index <= 64)%nat).
  { unfold pad_len. destruct (Nat.ltb_spec index 56).
    - rewrite <- (Z.mod_unique (55 - Z.of_nat n) 64 (- Z.of_nat q) (55 - Z.of_nat index)); lia.
    - rewrite <- (Z.mod_unique (55 - Z.of_nat n) 64 (- Z.of_nat q - 1) (119 - Z.of_nat index)); lia. }
  destruct Hz as [-> H64]. change (0x80 :: repeat 0 63) with ([0x80] ++ repeat 0 63). cbn [firstn app].
  f_equal. apply firstn_repeat. lia.
Qed.

Lemma zeros_spec n : exists k, (n + 1 + zeros (Z.of_nat n) + 8 = 64 * k)%nat.
Proof.
  unfold zeros. pose proof (Z.mod_pos_bound (55 - Z.of_nat n) 64).
  pose proof (Z.div_mod (55 - Z.of_nat n) 64).
  exists (Z.to_nat (1 - (55 - Z.of_nat n) / 64)). lia.
Qed.

(** The digest of what the object holds. *)
Lemma final_spec m msg : holds m msg -> _digest (final m) = md5_spec msg.
Proof.
  intros Hm. unfold final. fold (pad_len (buffered (_count m))).
  set (m' := update _ _). assert (Hm' : holds m' (pad msg)).
  { unfold m', pad. rewrite (hold_count _ _ Hm). cbn [fst snd].
    rewrite buffered_spec, padding_zeros, encode_count.
    replace (msg ++ _) with ((msg ++ [0x80] ++ repeat 0 (zeros (Z.of_nat (length msg)))) ++
      le_bytes 8 (8 * Z.of_nat (length msg))) by (by rewrite <- !app_assoc).
    apply update_holds; [apply update_holds; [done|]|by rewrite length_le_bytes].
    rewrite length_app, repeat_length. unfold zeros. pose proof (Z.mod_pos_bound (55 - Z.of_nat (length msg)) 64). cbn. lia. }
  destruct (_state m') as [[[a b] c] d] eqn:Est. cbn [_digest]. unfold md5_spec.
  rewrite <- (hold_state _ _ Hm'), Est. done.
Qed.

(** ** The lines of the transformation *)
Lemma lines_rfc :
  map (fun l => let '(r, k, s, _) := l in (r, k, s)) lines =
  map (fun i => (rfc_round i, rfc_word i, rfc_shift i)) (seq 0 64).
Proof. reflexivity. Qed.

(** ** Properties *)



(** Asking twice for the digest of 60 bytes gives two answers: [final] has
    overwritten the start of the buffer and cleared [_finished]. *)
Example second_digest_differs :
  let m := update (repeat 97 60) (new_md5 (repeat 0 64)) in
  let '(s1, m1) := tostring m in let '(s2, _) := tostring m1 in
  s1 = "cc7ed669cf88f201c3297c6a91e1d18d" /\ s2 = "3582aa3c387e537703e04d9567475bc4".
Proof. vm_compute. split; reflexivity. Qed.

End Md5.
