(* ===== verification/Wire.v ===== *)
(** * common: messages on a connection (message_interface.cpp, tcpsession.cpp)

    Encoding and decoding of a message (length, mask, checksum, payload), the
    reassembly of messages from the pieces a socket delivers
    ([handle_read_some]) and the queue of a sender ([_send_message],
    [_write_message]). *)
From stdpp Require Import relations.
From S2P Require Import Prelude Bytes Crc.

Definition MAX_MESSAGE_LEN : Z := 65000.
Definition QUEUE_MESSAGE_LIMIT_SIZE : Z := MAX_MESSAGE_LEN * 30.

(** ** message_interface *)
Definition MESSAGE_HEAD_MASK_BEGIN : Z := 4.
Definition MESSAGE_HEAD_BASIC_BEGIN : Z := 6.
Definition MESSAGE_HEAD_LEN : Z := 10.
Definition MESSAGE_COMPRESS_LEN : Z := 512.
Definition BASE64_MASK_TYPE : Z := Z.shiftl 1 2.
Definition COMPRESS_MASK_TYPE : Z := Z.shiftl 1 15.

Definition blen (l : list Z) : Z := Z.of_nat (length l).

(** A received message: payload and the base64 flag. *)
Record message_t := mkMessage { msg_data : list Z; msg_base64 : bool }.

(** [struct compress_strategy]: the implementation is a program's choice (the
    servers pass [NULL]); the boolean result and the output in one value. *)
Class CompressStrategy := {
  cs_compress : list Z -> option (list Z);
  cs_uncompress : list Z -> option (list Z)
}.

(** What a strategy must promise: [uncompress] undoes [compress], in bytes,
    and the output has more than one of them (zlib writes a header of two). *)
Class CompressLaws (cs : CompressStrategy) : Prop := {
  cs_roundtrip d c : Forall is_byte d -> cs_compress d = Some c -> cs_uncompress c = Some d;
  cs_bytes d c : Forall is_byte d -> cs_compress d = Some c -> Forall is_byte c;
  cs_header d c : cs_compress d = Some c -> 1 < Z.of_nat (length c)
}.

(** [makeMessage]: payloads of at most one byte get no header. *)
Definition makeMessage (data : list Z) (_compress base64 : bool) : list Z :=
  let lenMax := u32 (blen data + MESSAGE_HEAD_LEN) in
  if blen data >? 1 then
    let mask := Z.lor (if _compress then COMPRESS_MASK_TYPE else 0) (if base64 then BASE64_MASK_TYPE else 0) in
    le_bytes 4 lenMax ++ le_bytes 2 mask ++ le_bytes 4 (sslCrc32 data) ++ data
  else repeat 0 10 ++ data.

Section Strategy.
Context (s_compress_interface : option CompressStrategy).

Definition compress (data : list Z) (base64 : bool) : list Z :=
  match s_compress_interface with
  | Some cs =>
      if blen data >? MESSAGE_COMPRESS_LEN then
        match cs_compress data with
        | Some out => if blen out <? blen data then makeMessage out true base64
                      else makeMessage data false base64
        | None => makeMessage data false base64
        end
      else makeMessage data false base64
  | None => makeMessage data false base64
  end.

(** [uncompress]: [data] starts with a message of the length its header says. *)
Definition uncompress (data : list Z) : option message_t :=
  let datalen := le_value (firstn 4 data) in
  if datalen <=? MESSAGE_HEAD_MASK_BEGIN then None
  else
    let type := le_value (firstn 2 (skipn 4 data)) in
    let checksum := le_value (firstn 4 (skipn 6 data)) in
    let payload := firstn (Z.to_nat (datalen - MESSAGE_HEAD_LEN)) (skipn 10 data) in
    if sslChecksum payload checksum then
      let base64 := negb (Z.land type BASE64_MASK_TYPE =? 0) in
      match s_compress_interface with
      | Some cs =>
          if negb (Z.land type COMPRESS_MASK_TYPE =? 0) then
            match cs_uncompress payload with Some out => Some (mkMessage out base64) | None => None end
          else Some (mkMessage payload base64)
      | None => Some (mkMessage payload base64)
      end
    else None.

(** ** tcp_session: receiving *)

(** What a session does with its input: messages for the program, addresses
    banned for some seconds, the end of the connection. *)
Inductive Net := Push (msg : message_t) | Ban (seconds : Z) | Close.

(** Reading goes on with the bytes kept in [m_recv_buffer], or has stopped. *)
Inductive Reader := Reading (recv : list Z) | Stopped.

(** [m_father]: a session of a server, which can ban addresses. *)
Context (m_father : bool).

Definition add_ban_ip (seconds : Z) : list Net := if m_father then [Ban seconds] else [].
Definition close_and_ban : list Net := add_ban_ip 5 ++ [Close].

Definition head_len (data : list Z) : Z := le_value (firstn 4 data).
Definition bad_len (len : Z) : bool := (len <? MESSAGE_HEAD_LEN) || (len >? MAX_MESSAGE_LEN).

(** The loop of [handle_read_some]: [rest] are the bytes from [now_pos] on. *)
Fixpoint read_loop (fuel : nat) (len : Z) (rest : list Z) : list Net * Reader :=
  match fuel with
  | S fuel =>
      if blen rest >=? len then
        match uncompress rest with
        | None => (add_ban_ip 120 ++ [Close], Stopped)
        | Some msg =>
            let rest := skipn (Z.to_nat len) rest in
            if blen rest >=? MESSAGE_HEAD_LEN then
              let len := head_len rest in
              if bad_len len then (Push msg :: close_and_ban, Stopped)
              else let '(out, r) := read_loop fuel len rest in (Push msg :: out, r)
            else ([Push msg], Reading rest)
        end
      else ([], Reading rest)
  | O => ([], Reading rest)
  end.

Definition handle_read_some (chunk : list Z) (r : Reader) : list Net * Reader :=
  match r with
  | Stopped => ([], Stopped)
  | Reading recv =>
      let recv := recv ++ chunk in
      if blen recv >=? MESSAGE_HEAD_LEN then
        let len := head_len recv in
        if bad_len len then (close_and_ban, Stopped)
        else read_loop (S (length recv)) len recv
      else ([], Reading recv)
  end.

Fixpoint read_all (chunks : list (list Z)) (r : Reader) : list Net * Reader :=
  match chunks with
  | [] => ([], r)
  | c :: chunks =>
      let '(out1, r) := handle_read_some c r in
      let '(out2, r) := read_all chunks r in
      (out1 ++ out2, r)
  end.

(** ** Specification: parsing a whole stream *)
Fixpoint parse (fuel : nat) (stream : list Z) : list Net * Reader :=
  match fuel with
  | S fuel =>
      if blen stream <? MESSAGE_HEAD_LEN then ([], Reading stream)
      else if bad_len (head_len stream) then (close_and_ban, Stopped)
      else if blen stream <? head_len stream then ([], Reading stream)
      else match uncompress (firstn (Z.to_nat (head_len stream)) stream) with
           | None => (add_ban_ip 120 ++ [Close], Stopped)
           | Some msg =>
               let '(out, r) := parse fuel (skipn (Z.to_nat (head_len stream)) stream) in (Push msg :: out, r)
           end
  | O => ([], Reading stream)
  end.
Definition parse_stream (stream : list Z) : list Net * Reader := parse (S (length stream)) stream.
End Strategy.

(** ** tcp_session: sending *)

(** [wire] are the bytes given to the socket so far, [in_flight] the size of
    the write that has not completed; the session's calls that wait on its io
    service: [posted] of [_write_message], and [close_posted] for
    [handle_close]. *)
Record Sender := mkSender {
  m_isconnected : bool;
  m_queue_send_msg : list (list Z);
  m_not_sent_size : Z;
  m_is_sending_data : bool;
  in_flight : option Z;
  wire : list Z;
  posted : nat;
  close_posted : bool
}.

(** The messages that fit into [m_sending_data] after [len] bytes. *)
Fixpoint take_batch (len : Z) (queue : list (list Z)) : list Z * list (list Z) :=
  match queue with
  | msg :: queue' =>
      if len + blen msg <=? MAX_MESSAGE_LEN then
        let '(batch, rest) := take_batch (len + blen msg) queue' in (msg ++ batch, rest)
      else ([], queue)
  | [] => ([], [])
  end.

Definition _write_message (sent_size : Z) (s : Sender) : Sender :=
  let '(mkSender con queue size sending fl w po cl) := s in
  let size := size - sent_size in
  match con, sending, queue with
  | true, false, _ :: _ =>
      let '(batch, rest) := take_batch 0 queue in
      mkSender con rest size true (Some (blen batch)) (w ++ batch) po cl
  | _, _, _ => mkSender con queue size sending fl w po cl
  end.

Section Send.
(** [m_father] of the session with its limit mode and [m_iscompress]. *)
Context (s_compress_interface : option CompressStrategy) (m_father is_limit_mode m_iscompress : bool).

Definition close (s : Sender) : Sender :=
  let '(mkSender con queue size sending fl w po cl) := s in mkSender con queue size sending fl w po true.

Definition _send_message (msg : list Z) (s : Sender) : Sender :=
  let '(mkSender con queue size sending fl w po cl) := s in
  if con then
    let queue := queue ++ [msg] in
    let size := size + blen msg in
    if m_father && is_limit_mode && (size >=? QUEUE_MESSAGE_LIMIT_SIZE)
    then close (mkSender con queue size sending fl w po cl)
    else mkSender con queue size sending fl w (S po) cl
  else s.

(** [_make_message] on a server without compression, else
    [_compress_message] (at once, or by a task of the thread pool). *)
Definition encode (data : list Z) (base64 : bool) : list Z :=
  if m_father && negb m_iscompress then makeMessage data false base64
  else compress s_compress_interface data base64.

Definition send_message (data : list Z) (base64 : bool) (s : Sender) : Sender :=
  if negb (m_isconnected s) || (blen data =? 0) || (blen data >? MAX_MESSAGE_LEN - 1) then s
  else _send_message (encode data base64) s.
End Send.

Definition handle_close (s : Sender) : Sender :=
  let '(mkSender _ queue size sending fl w po _) := s in mkSender false queue size sending fl w po false.
Definition _on_close (s : Sender) : Sender :=
  let '(mkSender _ _ size sending fl w po cl) := s in mkSender false [] size sending fl w po cl.

(** The completion of the write of [size] bytes. *)
Definition handle_write (error : bool) (size : Z) (s : Sender) : Sender :=
  let '(mkSender con queue not_sent sending _ w po cl) := s in
  if error then _on_close (mkSender con queue not_sent sending None w po cl)
  else _write_message size (mkSender con queue not_sent false None w po cl).

(** The next posted [_write_message] runs. *)
Definition run_posted (s : Sender) : Sender :=
  let '(mkSender con queue size sending fl w po cl) := s in
  _write_message 0 (mkSender con queue size sending fl w (pred po) cl).

(** A session that was just accepted. *)
Definition connected : Sender := mkSender true [] 0 false None [] 0 false.

(** ** The steps of a connection

    The program sends; the io service runs what was posted and the completion
    of the write in flight, in any order. *)
Section Steps.
Context (s_compress_interface : option CompressStrategy) (m_father is_limit_mode m_iscompress : bool).

Inductive io_step : Sender -> Sender -> Prop :=
  | io_write s : (0 < posted s)%nat -> io_step s (run_posted s)
  | io_written s n error : in_flight s = Some n -> io_step s (handle_write error n s)
  | io_close s : close_posted s = true -> io_step s (handle_close s).

(** Runs, with the messages the program sent on a connected session. *)
Inductive sends : list (list Z * bool) -> Sender -> Prop :=
  | sends_start : sends [] connected
  | sends_send ms s data base64 : sends ms s -> 1 < blen data <= MAX_MESSAGE_LEN - MESSAGE_HEAD_LEN -> Forall is_byte data ->
      sends (if m_isconnected s then ms ++ [(data, base64)] else ms)
            (send_message s_compress_interface m_father is_limit_mode m_iscompress data base64 s)
  | sends_io ms s s' : sends ms s -> io_step s s' -> sends ms s'.
End Steps.

(** ** Lengths and headers *)
Lemma blen_app a b : blen (a ++ b) = blen a + blen b.
Proof. unfold blen. rewrite length_app. lia. Qed.
Lemma blen_nonneg a : 0 <= blen a.
Proof. unfold blen. lia. Qed.
Lemma blen_le_bytes n z : blen (le_bytes n z) = Z.of_nat n.
Proof. unfold blen. by rewrite length_le_bytes. Qed.
Lemma blen_skipn n l : 0 <= n <= blen l -> blen (skipn (Z.to_nat n) l) = blen l - n.
Proof. unfold blen. rewrite length_skipn. lia. Qed.
Create Rewrite HintDb blen.
#[local] Hint Rewrite blen_app blen_le_bytes : blen.

(** [lia] with the lengths of the lists in sight. *)
Ltac blia :=
  autorewrite with blen in *; unfold MESSAGE_HEAD_LEN, MAX_MESSAGE_LEN, MESSAGE_COMPRESS_LEN, MESSAGE_HEAD_MASK_BEGIN in *;
  repeat match goal with l : list Z |- _ => lazymatch goal with _ : 0 <= blen l |- _ => fail | _ => pose proof (blen_nonneg l) end end;
  lia.

(** The fields of a header, and what follows it. *)
Definition header (len mask crc : Z) (tail : list Z) : list Z :=
  le_bytes 4 len ++ le_bytes 2 mask ++ le_bytes 4 crc ++ tail.

Lemma firstn_le_bytes n z tail : firstn n (le_bytes n z ++ tail) = le_bytes n z.
Proof. rewrite <- (length_le_bytes n z) at 1. apply take_app_length. Qed.
Lemma skipn_le_bytes n z tail : skipn n (le_bytes n z ++ tail) = tail.
Proof. rewrite <- (length_le_bytes n z) at 1. apply drop_app_length. Qed.

Lemma header_len len mask crc tail : is_u32 len -> head_len (header len mask crc tail) = len.
Proof. intros H. unfold head_len, header. rewrite firstn_le_bytes. by apply le_value_bytes. Qed.
Lemma header_tail len mask crc tail : skipn 10 (header len mask crc tail) = tail.
Proof.
  unfold header. change 10%nat with (4 + (2 + 4))%nat. rewrite <- skipn_skipn, <- skipn_skipn.
  by rewrite !skipn_le_bytes.
Qed.
Lemma header_mask len mask crc tail : 0 <= mask < 2 ^ 16 ->
  le_value (firstn 2 (skipn 4 (header len mask crc tail))) = mask.
Proof. intros H. unfold header. rewrite skipn_le_bytes, firstn_le_bytes. by apply le_value_bytes. Qed.
Lemma header_crc len mask crc tail : is_u32 crc ->
  le_value (firstn 4 (skipn 6 (header len mask crc tail))) = crc.
Proof.
  intros H. unfold header. change 6%nat with (2 + 4)%nat. rewrite <- skipn_skipn, !skipn_le_bytes, firstn_le_bytes.
  by apply le_value_bytes.
Qed.

Definition mask_of (_compress base64 : bool) : Z :=
  Z.lor (if _compress then COMPRESS_MASK_TYPE else 0) (if base64 then BASE64_MASK_TYPE else 0).

Lemma makeMessage_header data c b : 1 < blen data <= MAX_MESSAGE_LEN ->
  makeMessage data c b = header (blen data + MESSAGE_HEAD_LEN) (mask_of c b) (sslCrc32 data) data.
Proof.
  intros H. unfold makeMessage. rewrite (proj2 (Z.gtb_lt _ _)) by lia.
  rewrite u32_id by (unfold is_u32; blia). done.
Qed.
Lemma blen_makeMessage data c b : blen (makeMessage data c b) = blen data + MESSAGE_HEAD_LEN.
Proof. unfold makeMessage. destruct (blen data >? 1); [blia|]. rewrite blen_app. change (blen (repeat 0 10)) with 10. blia. Qed.
Lemma makeMessage_bytes data c b : Forall is_byte data -> Forall is_byte (makeMessage data c b).
Proof.
  intros H. unfold makeMessage. destruct (blen data >? 1);
    repeat apply Forall_app_2; auto using le_bytes_range. by repeat constructor.
Qed.
#[local] Hint Rewrite blen_makeMessage : blen.

Section Receive.
Context (cs : option CompressStrategy).

(** [uncompress] looks at the message only. *)
Lemma uncompress_firstn s : MESSAGE_HEAD_LEN <= head_len s -> 
  uncompress cs (firstn (Z.to_nat (head_len s)) s) = uncompress cs s.
Proof.
  unfold uncompress, head_len. intros H.
  assert (Hn : (10 <= Z.to_nat (le_value (firstn 4 s)))%nat) by blia.
  set (n := Z.to_nat _) in *.
  assert (Ht : forall a b, (a + b <= n)%nat -> firstn b (skipn a (firstn n s)) = firstn b (skipn a s)).
  { intros a b Hab. rewrite skipn_firstn_comm, firstn_firstn. f_equal. lia. }
  pose proof (Ht 0%nat 4%nat ltac:(lia)) as H4. rewrite !drop_0 in H4. rewrite H4.
  rewrite (Ht 4%nat 2%nat), (Ht 6%nat 4%nat) by lia. by rewrite (Ht 10%nat) by (subst n; blia).
Qed.

Lemma uncompress_makeMessage data c b tail : 1 < blen data <= MAX_MESSAGE_LEN -> Forall is_byte data ->
  uncompress cs (makeMessage data c b ++ tail) =
    match cs with
    | Some cs => if c then match cs_uncompress data with Some out => Some (mkMessage out b) | None => None end
                 else Some (mkMessage data b)
    | None => Some (mkMessage data b)
    end.
Proof.
  intros Hlen Hb. rewrite makeMessage_header by done.
  set (h := header _ _ _ data ++ tail).
  assert (Eh : h = header (blen data + MESSAGE_HEAD_LEN) (mask_of c b) (sslCrc32 data) (data ++ tail))
    by (unfold h, header; by rewrite <- !app_assoc).
  rewrite Eh. unfold uncompress. fold (head_len (header (blen data + MESSAGE_HEAD_LEN) (mask_of c b) (sslCrc32 data) (data ++ tail))).
  rewrite header_len by (unfold is_u32; blia). rewrite header_mask by (by destruct c, b).
  rewrite header_crc by (rewrite sslCrc32_spec by done; by apply crc_spec_u32).
  rewrite header_tail. rewrite (proj2 (Z.leb_gt _ _)) by blia.
  replace (Z.to_nat _) with (length data) by (unfold blen; lia). rewrite take_app_length.
  unfold sslChecksum. rewrite Z.eqb_refl. destruct cs; by destruct c, b.
Qed.

Lemma head_len_makeMessage data c b tail : 1 < blen data <= MAX_MESSAGE_LEN ->
  head_len (makeMessage data c b ++ tail) = blen data + MESSAGE_HEAD_LEN.
Proof.
  intros H. rewrite makeMessage_header by done. unfold header. rewrite <- !app_assoc.
  apply header_len. unfold is_u32. blia.
Qed.

(** ** Parsing a stream *)
Context (father : bool).
Abbreviation parse := (parse cs father).
Abbreviation parse_stream := (parse_stream cs father).

(** What the first message of a stream leads to. *)
Inductive Parsed := Short | Bad (out : list Net) | One (msg : message_t) (rest : list Z).
Definition parse_one (s : list Z) : Parsed :=
  if blen s <? MESSAGE_HEAD_LEN then Short
  else if bad_len (head_len s) then Bad (close_and_ban father)
  else if blen s <? head_len s then Short
  else match uncompress cs s with
       | None => Bad (add_ban_ip father 120 ++ [Close])
       | Some msg => One msg (skipn (Z.to_nat (head_len s)) s)
       end.

Lemma bad_len_false len : bad_len len = false <-> MESSAGE_HEAD_LEN <= len <= MAX_MESSAGE_LEN.
Proof. unfold bad_len. rewrite orb_false_iff, Z.ltb_ge, Z.gtb_ltb, Z.ltb_ge. done. Qed.

(** [Short]: fewer bytes than a header, or than the message has. *)
Lemma parse_one_short s : parse_one s = Short -> blen s < MAX_MESSAGE_LEN.
Proof.
  unfold parse_one. case_match eqn:E1; [intros _; apply Z.ltb_lt in E1; blia|].
  case_match eqn:E2; [done|]. apply bad_len_false in E2.
  case_match eqn:E3; [intros _; apply Z.ltb_lt in E3; blia|]. by case_match.
Qed.
Lemma parse_one_rest s msg rest : parse_one s = One msg rest ->
  exists pre, s = pre ++ rest /\ MESSAGE_HEAD_LEN <= blen pre.
Proof.
  unfold parse_one. case_match; [done|]. case_match eqn:E2; [done|]. apply bad_len_false in E2.
  case_match eqn:E3; [done|]. apply Z.ltb_ge in E3. case_match; [|done]. intros [= <- <-].
  exists (firstn (Z.to_nat (head_len s)) s). rewrite take_drop. split; [done|].
  unfold blen in *. rewrite length_firstn. blia.
Qed.

(** More bytes behind a parsed message do not change it. *)
Lemma parse_one_app s t : parse_one s <> Short ->
  parse_one (s ++ t) = match parse_one s with One msg rest => One msg (rest ++ t) | p => p end.
Proof.
  assert (Hhead : MESSAGE_HEAD_LEN <= blen s -> head_len (s ++ t) = head_len s).
  { intros H. unfold head_len. rewrite take_app_le; [done|]. unfold blen in H. blia. }
  unfold parse_one. case_match eqn:E1; [done|]. apply Z.ltb_ge in E1.
  rewrite Hhead by done. rewrite (proj2 (Z.ltb_ge (blen (s ++ t)) _)) by blia.
  case_match eqn:E2; [done|]. apply bad_len_false in E2. case_match eqn:E3; [done|]. apply Z.ltb_ge in E3.
  rewrite (proj2 (Z.ltb_ge (blen (s ++ t)) _)) by blia. intros _.
  rewrite <- (uncompress_firstn (s ++ t)), <- (uncompress_firstn s) by (rewrite ?Hhead; blia).
  rewrite Hhead by done. rewrite take_app_le, drop_app_le by (unfold blen in E3; lia). by case_match.
Qed.

(** The parser, one message at a time; the fuel is enough. *)
Lemma parse_step fuel s : parse (S fuel) s =
  match parse_one s with
  | Short => ([], Reading s)
  | Bad out => (out, Stopped)
  | One msg rest => let '(out, r) := parse fuel rest in (Push msg :: out, r)
  end.
Proof.
  cbn [Wire.parse]. unfold parse_one. case_match; [done|]. case_match eqn:E2; [done|].
  apply bad_len_false in E2. case_match; [done|]. rewrite uncompress_firstn by blia. by case_match.
Qed.
Lemma parse_fuel s : forall fuel fuel', (length s < fuel)%nat -> (length s < fuel')%nat -> parse fuel s = parse fuel' s.
Proof.
  remember (length s) as k eqn:Hk. revert s Hk.
  induction k as [k IH] using lt_wf_ind; intros s -> [|fuel] [|fuel'] H H'; try lia.
  rewrite !parse_step. case_match eqn:E; [done..|].
  apply parse_one_rest in E as (pre & -> & Hpre). rewrite length_app in *.
  assert (0 < length pre)%nat by (unfold blen in Hpre; blia).
  erewrite (IH _ _ rest eq_refl fuel fuel'); [done|lia..]. Unshelve. lia.
Qed.
Lemma parse_stream_step s : parse_stream s =
  match parse_one s with
  | Short => ([], Reading s)
  | Bad out => (out, Stopped)
  | One msg rest => let '(out, r) := parse_stream rest in (Push msg :: out, r)
  end.
Proof.
  unfold Wire.parse_stream at 1. rewrite parse_step. case_match eqn:E; [done..|].
  apply parse_one_rest in E as (pre & -> & Hpre). unfold Wire.parse_stream.
  rewrite (parse_fuel rest _ (S (length rest))); [done|rewrite length_app; unfold blen in Hpre; blia|lia].
Qed.

Lemma stream_ind (P : list Z -> Prop) :
  (forall s, parse_one s = Short -> P s) -> (forall s out, parse_one s = Bad out -> P s) ->
  (forall s msg rest, parse_one s = One msg rest -> P rest -> P s) -> forall s, P s.
Proof.
  intros Hs Hb Ho s. induction s as [s IH] using (induction_ltof1 _ (@length Z)). unfold ltof in IH.
  destruct (parse_one s) eqn:E; eauto. eapply Ho; [done|]. apply IH.
  apply parse_one_rest in E as (pre & -> & Hpre). rewrite length_app. unfold blen in Hpre. blia.
Qed.

(** ** The reading loop is the parser *)
Lemma read_loop_parse fuel : forall s, (length s < fuel)%nat -> MESSAGE_HEAD_LEN <= blen s ->
  bad_len (head_len s) = false -> read_loop cs father fuel (head_len s) s = parse_stream s.
Proof.
  induction fuel as [|fuel IH]; intros s Hf Hs Hl; [lia|]. rewrite parse_stream_step. cbn [read_loop].
  unfold parse_one. rewrite Hl, (proj2 (Z.ltb_ge _ _) Hs). rewrite Z.geb_leb, (Z.leb_antisym (blen s)).
  destruct (Z.ltb_spec (blen s) (head_len s)) as [|Hm]; cbn [negb]; [done|].
  destruct (uncompress cs s) as [msg|]; [|done].
  apply bad_len_false in Hl. set (rest := skipn (Z.to_nat (head_len s)) s).
  assert (Hrest : (length rest < fuel)%nat).
  { subst rest. rewrite length_skipn. unfold blen in Hm. blia. }
  rewrite Z.geb_leb. destruct (Z.leb_spec MESSAGE_HEAD_LEN (blen rest)) as [Hr|Hr].
  - destruct (bad_len (head_len rest)) eqn:Eb; [|by rewrite IH].
    rewrite parse_stream_step. unfold parse_one. by rewrite Eb, (proj2 (Z.ltb_ge _ _) Hr).
  - rewrite parse_stream_step. unfold parse_one. by rewrite (proj2 (Z.ltb_lt _ _) Hr).
Qed.

Lemma handle_read_some_parse chunk recv : handle_read_some cs father chunk (Reading recv) = parse_stream (recv ++ chunk).
Proof.
  unfold handle_read_some. rewrite Z.geb_leb. destruct (Z.leb_spec MESSAGE_HEAD_LEN (blen (recv ++ chunk))) as [H|H].
  - destruct (bad_len (head_len (recv ++ chunk))) eqn:E; [|apply read_loop_parse; auto].
    rewrite parse_stream_step. unfold parse_one. by rewrite E, (proj2 (Z.ltb_ge _ _) H).
  - rewrite parse_stream_step. unfold parse_one. by rewrite (proj2 (Z.ltb_lt _ _) H).
Qed.

(** Parsing is incremental. *)
Lemma parse_stream_app s : forall t, parse_stream (s ++ t) =
  let '(out1, r) := parse_stream s in
  match r with
  | Stopped => (out1, Stopped)
  | Reading recv => let '(out2, r) := parse_stream (recv ++ t) in (out1 ++ out2, r)
  end.
Proof.
  induction s as [s E|s out E|s msg rest E IH] using stream_ind; intros t; rewrite (parse_stream_step s), E.
  - by case_match.
  - by rewrite parse_stream_step, parse_one_app, E by (by rewrite E).
  - rewrite parse_stream_step, parse_one_app, E, IH by (by rewrite E).
    destruct (parse_stream rest) as [out1 [recv|]]; [|done]. by destruct (parse_stream (recv ++ t)).
Qed.

Lemma parse_stream_kept s out recv : parse_stream s = (out, Reading recv) -> parse_one recv = Short.
Proof.
  revert out recv. induction s as [s E|s b E|s msg rest E IH] using stream_ind; intros out recv;
    rewrite parse_stream_step, E; [naive_solver..|].
  destruct (parse_stream rest) eqn:Er. intros [= <- ->]. eauto.
Qed.

Lemma read_all_stopped chunks : read_all cs father chunks Stopped = ([], Stopped).
Proof. induction chunks as [|c chunks IH]; cbn; [done|]. by rewrite IH. Qed.

Lemma read_all_parse chunks : forall recv, parse_one recv = Short ->
  read_all cs father chunks (Reading recv) = parse_stream (recv ++ concat chunks).
Proof.
  induction chunks as [|c chunks IH]; intros recv Hr; cbn [read_all concat].
  { rewrite app_nil_r, parse_stream_step. by rewrite Hr. }
  rewrite handle_read_some_parse, app_assoc, (parse_stream_app (recv ++ c)).
  destruct (parse_stream (recv ++ c)) as [out1 [recv'|]] eqn:E.
  - rewrite IH by (by eapply parse_stream_kept). done.
  - by rewrite read_all_stopped, app_nil_r.
Qed.

(** ** Encoded messages are parsed back *)
Lemma parse_one_makeMessage data c b msg tail : 1 < blen data <= MAX_MESSAGE_LEN - MESSAGE_HEAD_LEN -> Forall is_byte data ->
  uncompress cs (makeMessage data c b ++ tail) = Some msg ->
  parse_one (makeMessage data c b ++ tail) = One msg tail.
Proof.
  intros Hlen Hb Hu. unfold parse_one. rewrite head_len_makeMessage by blia.
  rewrite (proj2 (Z.ltb_ge _ _)), (proj2 (bad_len_false _)), (proj2 (Z.ltb_ge _ _)), Hu by blia.
  f_equal. replace (Z.to_nat _) with (length (makeMessage data c b)); [apply drop_app_length|].
  pose proof (blen_makeMessage data c b) as Hl. rewrite <- Hl. unfold blen. lia.
Qed.

Context (Hcs : forall i, cs = Some i -> CompressLaws i).

Lemma parse_one_compress data b tail : 1 < blen data <= MAX_MESSAGE_LEN - MESSAGE_HEAD_LEN -> Forall is_byte data ->
  parse_one (compress cs data b ++ tail) = One (mkMessage data b) tail.
Proof.
  intros Hlen Hb.
  assert (Hplain : parse_one (makeMessage data false b ++ tail) = One (mkMessage data b) tail).
  { apply parse_one_makeMessage; [done..|]. rewrite uncompress_makeMessage by (try done; blia). by case_match. }
  unfold compress. destruct cs as [i|] eqn:E; [|done]. destruct (blen data >? _); [|done].
  destruct (cs_compress data) as [out|] eqn:Ec; [|done]. destruct (Z.ltb_spec (blen out) (blen data)) as [Ho|]; [|done].
  destruct (Hcs i eq_refl) as [Hrt Hbytes Hhead]. specialize (Hhead _ _ Ec).
  rewrite <- E in *. apply parse_one_makeMessage; [unfold blen in *; lia|eauto|].
  rewrite uncompress_makeMessage by (eauto; unfold blen in *; blia). by rewrite E, (Hrt _ _ Hb Ec).
Qed.
Lemma blen_compress data b : blen (compress cs data b) <= blen data + MESSAGE_HEAD_LEN.
Proof.
  clear Hcs. unfold compress. repeat case_match; rewrite ?blen_makeMessage; lia.
Qed.
End Receive.

(** ** The queue of a sender *)

(** A batch takes the front of the queue; the first message always fits. *)
Lemma take_batch_spec queue : forall len batch rest, take_batch len queue = (batch, rest) ->
  exists front, queue = front ++ rest /\ batch = concat front.
Proof.
  induction queue as [|msg queue IH]; cbn [take_batch]; intros len batch rest; [intros [= <- <-]; by exists []|].
  destruct (_ <=? _); [|intros [= <- <-]; by exists []].
  destruct (take_batch _ queue) as [b r] eqn:E. intros [= <- <-].
  apply IH in E as (front & -> & ->). by exists (msg :: front).
Qed.
Lemma take_batch_drains msg queue : blen msg <= MAX_MESSAGE_LEN -> (length (snd (take_batch 0 (msg :: queue))) <= length queue)%nat.
Proof.
  intros H. cbn [take_batch]. rewrite (proj2 (Z.leb_le (0 + blen msg) _)) by lia.
  destruct (take_batch _ queue) as [b r] eqn:E. apply take_batch_spec in E as (front & -> & _).
  cbn. rewrite length_app. lia.
Qed.
Lemma take_batch_fits queue : forall len, 0 <= len <= MAX_MESSAGE_LEN -> len + blen (fst (take_batch len queue)) <= MAX_MESSAGE_LEN.
Proof.
  induction queue as [|msg queue IH]; cbn [take_batch]; intros len H; [change (blen _) with 0; lia|].
  destruct (Z.leb_spec (len + blen msg) MAX_MESSAGE_LEN) as [Hm|]; [|change (blen _) with 0; lia].
  specialize (IH (len + blen msg) ltac:(blia)). destruct (take_batch _ queue) as [b r]. cbn [fst] in *. blia.
Qed.

Section Delivery.
Context (cs : option CompressStrategy) (Hcs : forall i, cs = Some i -> CompressLaws i).
Context (m_father is_limit_mode m_iscompress : bool).

(** The bytes of a message on the wire. *)
Definition frame (m : list Z * bool) : list Z := encode cs m_father m_iscompress (fst m) (snd m).
Definition received (m : list Z * bool) : Net := Push (mkMessage (fst m) (snd m)).
Definition small (m : list Z * bool) : Prop :=
  1 < blen (fst m) <= MAX_MESSAGE_LEN - MESSAGE_HEAD_LEN /\ Forall is_byte (fst m).

Lemma blen_frame m : small m -> blen (frame m) <= MAX_MESSAGE_LEN.
Proof.
  intros [H _]. unfold frame, encode. destruct (_ && _); [blia|].
  pose proof (blen_compress cs (fst m) (snd m)). blia.
Qed.

Lemma parse_one_frame father m tail : small m -> parse_one cs father (frame m ++ tail) = One (mkMessage (fst m) (snd m)) tail.
Proof.
  intros [H Hb]. unfold frame, encode. destruct (_ && _); [|by apply parse_one_compress].
  apply parse_one_makeMessage; [done..|]. rewrite uncompress_makeMessage by (try done; blia). by case_match.
Qed.

(** A part of the frames is parsed to the messages it holds completely. *)
Lemma parse_frames father ms : Forall small ms -> forall part tail, concat (map frame ms) = part ++ tail ->
  exists n recv, parse_stream cs father part = (map received (take n ms), Reading recv) /\
                 (tail = [] -> n = length ms).
Proof.
  induction 1 as [|m ms Hm _ IH]; cbn [concat map]; intros part tail E.
  { exists 0%nat, []. symmetry in E. by apply app_eq_nil in E as [-> ->]. }
  pose proof (parse_one_frame father m (concat (map frame ms)) Hm) as Hone. rewrite E in Hone.
  destruct (parse_one cs father part) as [|out|msg rest] eqn:Ep.
  - exists 0%nat, part. rewrite parse_stream_step, Ep. split; [done|]. intros ->. rewrite app_nil_r in Hone. congruence.
  - rewrite parse_one_app, Ep in Hone by (by rewrite Ep). done.
  - rewrite parse_one_app, Ep in Hone by (by rewrite Ep). injection Hone as -> Hrest.
    destruct (IH rest tail (eq_sym Hrest)) as (n & recv & Hp & Hn).
    exists (S n), recv. rewrite parse_stream_step, Ep, Hp. split; [done|]. intros Ht. cbn. by rewrite Hn.
Qed.

(** The state of the sender against the messages [ms] the program sent;
    [pending] bytes of [m_not_sent_size] are about to be subtracted. *)
Record link_sync (pending : Z) (ms : list (list Z * bool)) (s : Sender) : Prop := {
  link_small : Forall small ms;
  link_wire : exists tail, concat (map frame ms) = wire s ++ tail;
  link_queue : m_isconnected s = true -> concat (map frame ms) = wire s ++ concat (m_queue_send_msg s);
  link_queued : Forall (fun msg => blen msg <= MAX_MESSAGE_LEN) (m_queue_send_msg s);
  link_idle : m_is_sending_data s = false -> in_flight s = None;
  link_busy : m_isconnected s = true -> m_is_sending_data s = true -> in_flight s <> None;
  link_size : m_isconnected s = true ->
    m_not_sent_size s = blen (concat (m_queue_send_msg s)) + default 0 (in_flight s) + pending;
  link_window : forall n, in_flight s = Some n -> 0 <= n <= MAX_MESSAGE_LEN
}.

(** No lost wake-up: whatever is queued, somebody will write it. *)
Definition link_wakeup (s : Sender) : Prop :=
  m_isconnected s = true -> m_queue_send_msg s <> [] ->
  (0 < posted s)%nat \/ in_flight s <> None \/ close_posted s = true.
Definition link_ok (ms : list (list Z * bool)) (s : Sender) : Prop := link_sync 0 ms s /\ link_wakeup s.

(** [_write_message] balances the books, and nothing stays unattended. *)
Lemma _write_message_ok sent ms s : link_sync sent ms s -> link_ok ms (_write_message sent s).
Proof.
  destruct s as [con queue size sending fl w po cl]. intros [Hsmall [tail Hw] Hq Hqd Hfl Hf Hs Hwin]. cbn in *.
  assert (Hid : (con = true -> queue = [] \/ sending = true) -> link_ok ms (mkSender con queue (size - sent) sending fl w po cl)).
  { intros Hc. split; [constructor; cbn; eauto; intros E; rewrite Hs by done; lia|].
    unfold link_wakeup. cbn. intros E Hne. destruct (Hc E) as [|E']; [done|]. auto. }
  destruct con; [|by apply Hid]. destruct sending; [apply Hid; auto|]. destruct queue as [|msg queue]; [apply Hid; auto|].
  clear Hid. cbn [_write_message]. pose proof (take_batch_fits (msg :: queue) 0 ltac:(done)) as Hfit.
  destruct (take_batch 0 (msg :: queue)) as [batch rest] eqn:E. apply take_batch_spec in E as (front & Eq & ->).
  rewrite Eq, concat_app in *. specialize (Hq eq_refl). specialize (Hs eq_refl). rewrite Hfl in Hs by done. cbn in Hfit, Hs.
  split; [constructor; cbn; try done|]; eauto.
  - eexists. rewrite Hq, <- app_assoc. done.
  - intros _. by rewrite Hq, <- app_assoc.
  - by apply Forall_app in Hqd as [_ Hqd].
  - intros _. rewrite Hs, blen_app. lia.
  - intros n [= <-]. pose proof (blen_nonneg (concat front)). lia.
  - intros _ _. cbn. right. by left.
Qed.

Lemma run_posted_ok ms s : link_ok ms s -> link_ok ms (run_posted s).
Proof.
  destruct s as [con queue size sending fl w po cl]. intros [[] _]. cbn in * |-.
  apply _write_message_ok. by constructor.
Qed.
Lemma _on_close_ok ms s : link_ok ms s -> link_ok ms (_on_close s).
Proof.
  destruct s as [con queue size sending fl w po cl]. intros [[] _]. cbn in *. by split; [constructor|].
Qed.
Lemma handle_close_ok ms s : link_ok ms s -> link_ok ms (handle_close s).
Proof.
  destruct s as [con queue size sending fl w po cl]. intros [[] _]. cbn in *. by split; [constructor|].
Qed.
Lemma handle_write_ok ms s n error : in_flight s = Some n -> link_ok ms s -> link_ok ms (handle_write error n s).
Proof.
  destruct s as [con queue size sending fl w po cl]. cbn [in_flight]. intros -> [[] _]. cbn in * |-. destruct error.
  - by split; [constructor|].
  - apply _write_message_ok. constructor; cbn; auto; try done. intros E. rewrite link_size0 by done. lia.
Qed.

Lemma send_message_ok ms s data b : link_ok ms s -> small (data, b) ->
  link_ok (if m_isconnected s then ms ++ [(data, b)] else ms)
          (send_message cs m_father is_limit_mode m_iscompress data b s).
Proof.
  intros Hok Hsm. pose proof (blen_frame _ Hsm) as Hfr. destruct Hsm as [Hlen Hb]; cbn [fst snd] in *.
  unfold send_message. rewrite (proj2 (Z.eqb_neq _ _)), Z.gtb_ltb, (proj2 (Z.ltb_ge _ _)) by blia. rewrite !orb_false_r.
  destruct s as [con queue size sending fl w po cl]. destruct con; [|done]. cbn [m_isconnected negb].
  change (encode cs m_father m_iscompress data b) with (frame (data, b)).
  destruct Hok as [[Hsmall _ Hq Hqd Hfl Hf Hs Hwin] _]. cbn in *.
  assert (Hsync : forall po' cl', link_sync 0 (ms ++ [(data, b)])
    (mkSender true (queue ++ [frame (data, b)]) (size + blen (frame (data, b))) sending fl w po' cl')).
  { intros po' cl'. specialize (Hq eq_refl).
    assert (E : concat (map frame (ms ++ [(data, b)])) = w ++ concat (queue ++ [frame (data, b)])).
    { rewrite map_app, !concat_app, Hq, app_assoc. done. }
    constructor; cbn; auto; rewrite ?E; eauto.
    - apply Forall_app_2; [done|]. by apply Forall_singleton.
    - apply Forall_app_2; [done|]. by apply Forall_singleton.
    - intros _. rewrite Hs, concat_app, blen_app by done. cbn. rewrite app_nil_r. lia. }
  unfold _send_message. case_match; (split; [apply Hsync|]); intros _ _; cbn; auto with lia.
Qed.

Lemma io_step_ok ms s s' : io_step s s' -> link_ok ms s -> link_ok ms s'.
Proof. destruct 1 as [s Hp|s n err Hn|s Hc]; eauto using run_posted_ok, handle_write_ok, handle_close_ok. Qed.
Lemma sends_ok ms s : sends cs m_father is_limit_mode m_iscompress ms s -> link_ok ms s.
Proof.
  induction 1 as [|ms s data b _ IH Hlen Hb|ms s s' _ IH Hstep]; [|by apply send_message_ok|by eapply io_step_ok].
  split; [constructor; cbn; try done; by exists []|by intros _ []].
Qed.

(** ** Every completed step brings the queue closer to empty *)
Definition work (s : Sender) : nat :=
  posted s + 2 * length (m_queue_send_msg s) + (if in_flight s is Some _ then 1 else 0) + (if close_posted s then 1 else 0).

Lemma _write_message_work sent s :
  (m_is_sending_data s = false -> in_flight s = None) ->
  Forall (fun msg => blen msg <= MAX_MESSAGE_LEN) (m_queue_send_msg s) -> (work (_write_message sent s) <= work s)%nat.
Proof.
  destruct s as [con [|msg queue] size sending fl w po cl]; cbn [_write_message m_is_sending_data in_flight m_queue_send_msg];
    intros Hfl Hq; (destruct con; [|unfold work; cbn; lia]); (destruct sending; [unfold work; cbn; lia|]); [unfold work; cbn; lia|].
  apply Forall_cons in Hq as [Hm _]. rewrite Hfl by done.
  pose proof (take_batch_drains msg queue Hm) as Hd. destruct (take_batch 0 (msg :: queue)) as [batch rest].
  unfold work. cbn in *. lia.
Qed.

Lemma io_step_work ms s s' : io_step s s' -> link_ok ms s -> (work s' < work s)%nat.
Proof.
  destruct 1 as [s0 Hp|s0 n err Hn|s0 Hc]; intros Hok.
  - destruct s0 as [con queue size sending fl w po cl], Hok as [[] _]. cbn in * |-.
    eapply Nat.le_lt_trans; [by apply _write_message_work|]. unfold work. cbn. lia.
  - destruct s0 as [con queue size sending fl w po cl], Hok as [[] _]. cbn in * |-.
    subst. destruct err; [unfold work; cbn; lia|]. cbn [handle_write].
    eapply Nat.le_lt_trans; [by apply _write_message_work|]. unfold work. cbn. lia.
  - destruct s0 as [con queue size sending fl w po cl]. cbn in *. subst.
    unfold work. cbn. lia.
Qed.
Lemma nsteps_work ms k s s' : nsteps io_step k s s' -> link_ok ms s -> (k + work s' <= work s)%nat.
Proof.
  induction 1 as [s|k s1 s2 s3 H12 _ IH]; intros Hok; [lia|].
  pose proof (io_step_work _ _ _ H12 Hok). specialize (IH (io_step_ok _ _ _ H12 Hok)). lia.
Qed.

(** A sender with nothing left to do. *)
Definition idle (s : Sender) : Prop := posted s = 0%nat /\ in_flight s = None /\ close_posted s = false.
Lemma idle_nf s : nf io_step s <-> idle s.
Proof.
  split.
  - intros Hnf. split_and!.
    + destruct (posted s) eqn:E; [done|]. destruct Hnf. eexists. apply io_write. lia.
    + destruct (in_flight s) eqn:E; [|done]. destruct Hnf. eexists. by eapply (io_written _ _ false).
    + destruct (close_posted s) eqn:E; [|done]. destruct Hnf. eexists. by apply io_close.
  - intros (Hp & Hf & Hc) [s' Hs]. inversion Hs; subst; [lia|congruence..].
Qed.
Lemma idle_sent ms s : link_ok ms s -> idle s -> m_isconnected s = true -> concat (map frame ms) = wire s.
Proof.
  intros [[] Hw] (Hp & Hf & Hc) E. destruct (m_queue_send_msg s) eqn:Eq.
  - rewrite link_queue0 by done. cbn. by rewrite app_nil_r.
  - destruct (Hw E) as [|[|]]; [by rewrite Eq|lia|done|congruence].
Qed.

(** What a connection has delivered, and that it delivers all. *)
Lemma sends_delivered peer ms s : link_ok ms s -> forall chunks tail, wire s = concat chunks ++ tail ->
  exists n recv, read_all cs peer chunks (Reading []) = (map received (take n ms), Reading recv) /\
    (idle s -> m_isconnected s = true -> tail = [] -> n = length ms).
Proof.
  intros Hsent chunks tail Hw. destruct (link_wire _ _ _ (proj1 Hsent)) as [unsent Hu]. rewrite Hw, <- app_assoc in Hu.
  destruct (parse_frames peer ms (link_small _ _ _ (proj1 Hsent)) _ _ Hu) as (n & recv & Hp & Hn).
  exists n, recv. rewrite read_all_parse by done. split; [done|]. intros Hidle Hcon ->. apply Hn.
  pose proof (idle_sent _ _ Hsent Hidle Hcon) as E. rewrite Hw in E. cbn in Hu.
  rewrite E, app_nil_r in Hu. apply (app_inv_head (concat chunks)). by rewrite app_nil_r.
Qed.
End Delivery.

(** C30: however a socket cuts a stream of bytes (hostile ones included) into
    reads, a session pushes the messages of the stream, bans and closes as the
    parser of the whole stream does; and what [handle_read_some] keeps never
    overruns [m_recv_buffer], of twice [MAX_MESSAGE_LEN] bytes. *)
Theorem read_all_correct cs father chunks :
  read_all cs father chunks (Reading []) = parse_stream cs father (concat chunks) /\
  forall before chunk after recv out, chunks = before ++ chunk :: after -> blen chunk <= MAX_MESSAGE_LEN ->
    read_all cs father before (Reading []) = (out, Reading recv) -> blen (recv ++ chunk) < MAX_MESSAGE_LEN * 2.
Proof.
  rewrite read_all_parse by done. split; [done|]. intros before chunk after recv out -> Hc.
  rewrite read_all_parse by done. intros Hr%parse_stream_kept%parse_one_short. rewrite blen_app. lia.
Qed.


(** Two messages sent, written in one batch, read in three pieces. *)
Definition two_sent : Sender := run_posted (send_message None true true false [3; 4] true (send_message None true true false [1; 2; 3] false connected)).
Lemma read_all_correct_witness :
  let stream := wire two_sent in
  read_all None true [take 5 stream; take 12 (drop 5 stream); drop 17 stream] (Reading []) = ([Push (mkMessage [1; 2; 3] false); Push (mkMessage [3; 4] true)], Reading []) /\
  blen ([] ++ take 5 stream) < MAX_MESSAGE_LEN * 2.
Proof.
  intros stream. split.
  - rewrite (proj1 (read_all_correct None true [take 5 stream; take 12 (drop 5 stream); drop 17 stream])). vm_compute. reflexivity.
  - eapply (proj2 (read_all_correct None true [take 5 stream]) [] (take 5 stream) []); [reflexivity|vm_compute; discriminate|reflexivity].
Defined.

(** A strategy that packs runs of zeros satisfies the laws. *)
#[local] Instance zeros_strategy : CompressStrategy := {
  cs_compress d := if forallb (Z.eqb 0) d && (blen d <? 2 ^ 32) then Some (le_bytes 4 (blen d)) else None;
  cs_uncompress c := Some (repeat 0 (Z.to_nat (le_value c)))
}.
#[local] Instance zeros_laws : CompressLaws zeros_strategy.
Proof.
  constructor; cbn [cs_compress cs_uncompress zeros_strategy]; intros d c; [intros _|intros _|]; (destruct (forallb _ d && _) eqn:E; [|done]); intros Hc; apply (inj Some) in Hc; subst c.
  - apply andb_true_iff in E as [Hz Hl%Z.ltb_lt]. rewrite le_value_bytes by (pose proof (blen_nonneg d); lia).
    f_equal. unfold blen. rewrite Nat2Z.id. clear Hl. induction d as [|x d IH]; cbn in *; [done|].
    apply andb_true_iff in Hz as [Hx Hz]. destruct x; [|done..]. by rewrite IH.
  - apply le_bytes_range.
  - rewrite length_le_bytes. lia.
Qed.
Definition zeros_sent : Sender :=
  run_posted (send_message (Some zeros_strategy) true true true [3; 4] true
    (send_message (Some zeros_strategy) true true true (repeat 0 600) false connected)).

(** A payload of more than [MAX_MESSAGE_LEN - MESSAGE_HEAD_LEN] bytes, which
    [send_message] accepts, is a hack packet for its receiver; and one byte
    alone is, since it gets no header. *)
Lemma oversized_is_banned data c b tail : MAX_MESSAGE_LEN - MESSAGE_HEAD_LEN < blen data <= MAX_MESSAGE_LEN - 1 ->
  parse_one None true (makeMessage data c b ++ tail) = Bad [Ban 5; Close].
Proof.
  intros H. unfold parse_one. rewrite head_len_makeMessage by blia. rewrite (proj2 (Z.ltb_ge _ _)) by blia.
  unfold bad_len. rewrite (proj2 (Z.gtb_lt _ _)), orb_true_r by blia. done.
Qed.
Lemma one_byte_is_banned x b tail : parse_one None true (makeMessage [x] false b ++ tail) = Bad [Ban 5; Close].
Proof. unfold parse_one. rewrite (proj2 (Z.ltb_ge _ _)); [done|]. rewrite blen_app, blen_makeMessage. change (blen [x]) with 1. blia. Qed.
