(* ===== verification/Packet.v ===== *)
(** * common: messages in packets

    What lies between a protocol buffers message and the bytes of a [Wire]
    message: [Base64Encode] and [Base64Decode] (utilities.cpp), the buffers of
    thread_buffer.h, [ProtocBufferCommon] and [ProtocMsgBase]
    (protoc_common.h).  Bytes are [Z]s; serialising, parsing and the names of
    message types are protocol buffers' own. *)
From stdpp Require Import gmap.
From Stdlib Require Import Znumtheory.
From S2P Require Import Prelude Bytes Crc Wire.

(** ** Base64 *)
Definition base64digits : list Z := map (fun a => Z.of_N (N_of_ascii a))
  (list_ascii_of_string "ABCDEFGHIJKLMNOPQRSTUVWXYZabcdefghijklmnopqrstuvwxyz0123456789+/").
Definition PAD : Z := 61.
Definition b64 (i : Z) : Z := nth (Z.to_nat i) base64digits 0.

Fixpoint Base64Encode (l : list Z) : list Z :=
  match l with
  | a :: b :: c :: l =>
      b64 (Z.shiftr a 2) :: b64 (Z.lor (Z.land (Z.shiftl a 4) 0x30) (Z.shiftr b 4)) ::
      b64 (Z.lor (Z.land (Z.shiftl b 2) 0x3c) (Z.shiftr c 6)) :: b64 (Z.land c 0x3f) :: Base64Encode l
  | [a; b] =>
      [b64 (Z.shiftr a 2); b64 (Z.lor (Z.land (Z.shiftl a 4) 0x30) (Z.shiftr b 4)); b64 (Z.land (Z.shiftl b 2) 0x3c); PAD]
  | [a] => [b64 (Z.shiftr a 2); b64 (Z.land (Z.shiftl a 4) 0x30); PAD; PAD]
  | [] => []
  end.

Definition LMoveBit (base MoveNum : Z) : Z :=
  if MoveNum =? 0 then 1 else if MoveNum =? 1 then MoveNum else u8 (Z.shiftl base (MoveNum - 1)).

(** The index of a character in [base64_alphabet], of which [=] is the last. *)
Fixpoint index_of (c j : Z) (l : list Z) : option Z :=
  match l with [] => None | d :: l => if c =? d then Some j else index_of c (j + 1) l end.
Definition alphabet_index (c : Z) : option Z := index_of c 0 (base64digits ++ [PAD]).

(** [temp1] outlives a group: a character that is none of the alphabet leaves
    what was there. *)
Definition load_temp (buf temp1 : list Z) : list Z :=
  zip_with (fun c t => default t (alphabet_index c)) buf temp1.
Definition get (l : list Z) (i : Z) : Z := nth (Z.to_nat i) l 0.
Definition put (l : list Z) (i v : Z) : list Z := <[Z.to_nat i := v]> l.

(** The loop over [k]; [cell] holds the three bytes of the group. *)
Fixpoint decode_k (ks : list Z) (temp1 cell : list Z) (outlen : Z) : list Z * list Z * Z :=
  match ks with
  | [] => (temp1, cell, outlen)
  | k :: ks =>
      let i := 3 - (k - 1) in
      if get temp1 i =? 64 then decode_k ks temp1 cell outlen
      else
        let temp2 := u8 (Z.land (get temp1 (3 - k)) (LMoveBit 2 (k * 2) - 1) * LMoveBit 2 (8 - 2 * k)) in
        let v := u8 (get temp1 i / LMoveBit 2 ((k - 1) * 2) + temp2) in
        decode_k ks (put temp1 i v) (put cell (3 - k) v) (outlen + 1)
  end.
Fixpoint decode_groups (code temp1 : list Z) : list Z * Z :=
  match code with
  | c0 :: c1 :: c2 :: c3 :: code =>
      let '(temp1, cell, n) := decode_k [1; 2; 3] (load_temp [c0; c1; c2; c3] temp1) [0; 0; 0] 0 in
      let '(buffer, outlen) := decode_groups code temp1 in
      (cell ++ buffer, n + outlen)
  | _ => ([], 0)
  end.

Section Junk.
(** [temp1] is not initialised. *)
Context (junk : list Z).
(** The first [outlen] bytes of the buffer. *)
Definition Base64Decode (code : list Z) : list Z :=
  let '(buffer, outlen) := decode_groups code junk in take (Z.to_nat outlen) buffer.
End Junk.

(** ** Buffers

    The send buffer is the thread's, and only grows. *)
Definition _buffer_default_length : Z := 262144.
Definition getThreadBuffer (maxlen _buffer_length : Z) : Z :=
  if maxlen >? _buffer_length then
    if maxlen <? _buffer_default_length then _buffer_default_length else u32 (maxlen * 150) / 100
  else _buffer_length.

(** What became of a call: it may throw (the servers' main loops catch
    nothing) or fail an assertion. *)
Inductive Outcome (A : Type) := Done (a : A) | Refused | Throws | Aborts.
Arguments Done {A}. Arguments Refused {A}. Arguments Throws {A}. Arguments Aborts {A}.
Definition obind {A B} (x : Outcome A) (f : A -> Outcome B) : Outcome B :=
  match x with Done a => f a | Refused => Refused | Throws => Throws | Aborts => Aborts end.
Notation "x <<- y ; z" := (obind y (fun x => z)) (at level 20, y at level 100, z at level 200, right associativity).

(** [thread_send_buffer]. *)
Record send_buffer := mkSendBuffer { s_bytes : list Z; s_max_length : Z }.
Definition write (item : list Z) (b : send_buffer) : Outcome send_buffer :=
  if blen (s_bytes b) + blen item >=? s_max_length b then Throws
  else Done (mkSendBuffer (s_bytes b ++ item) (s_max_length b)).
Definition getFinallyBuff (base64 : bool) (b : send_buffer) : list Z := if base64 then Base64Encode (s_bytes b) else s_bytes b.

(** [thread_recv_buffer]: reading the last byte goes back to the first. *)
Record recv_buffer := mkRecvBuffer { r_bytes : list Z; _buff_pos : nat }.
Definition read (len : nat) (b : recv_buffer) : Outcome (list Z * recv_buffer) :=
  if (length (r_bytes b) <? _buff_pos b + len)%nat then Throws
  else let pos := (_buff_pos b + len)%nat in
       Done (take len (drop (_buff_pos b) (r_bytes b)),
             mkRecvBuffer (r_bytes b) (if (pos =? length (r_bytes b))%nat then 0%nat else pos)).
Definition addReadLen (add : nat) (b : recv_buffer) : Outcome recv_buffer :=
  if (_buff_pos b + add <=? length (r_bytes b))%nat then Done (mkRecvBuffer (r_bytes b) (_buff_pos b + add)) else Aborts.

(** ** Messages *)

(** Protocol buffers: the full name of a message's type, its bytes, and
    parsing by the name of a type (of a type that is not there, too). *)
Class Protobuf (Msg : Type) := {
  GetTypeName : Msg -> list Z;
  SerializeToArray : Msg -> list Z;
  ParseFromArray : list Z -> list Z -> option Msg
}.
Class ProtobufLaws (Msg : Type) {P : Protobuf Msg} : Prop := {
  pb_roundtrip m : ParseFromArray (GetTypeName m) (SerializeToArray m) = Some m;
  pb_named m : GetTypeName m <> [];
  pb_bytes m : Forall is_byte (GetTypeName m) /\ Forall is_byte (SerializeToArray m)
}.

Section Messages.
Context {Msg : Type} {PB : Protobuf Msg}.

(** What is handed to the session, and the new length of the buffer. *)
Definition pushProtocMessage (msg : Msg) (flag : Z) (base64 : bool) (_buffer_length : Z) : Outcome (list Z) :=
  let name := GetTypeName msg in
  let data := SerializeToArray msg in
  let max_len := 4 + blen name + blen data in
  b <<- write (le_bytes 4 flag) (mkSendBuffer [] (getThreadBuffer max_len _buffer_length));
  b <<- write (le_bytes 4 (blen name)) b;
  b <<- write name b;
  if blen data >? s_max_length b - blen (s_bytes b) then Refused
  else if blen (s_bytes b) + blen data <? s_max_length b
  then Done (getFinallyBuff base64 (mkSendBuffer (s_bytes b ++ data) (s_max_length b)))
  else Aborts.

Section Parse.
Context (junk : list Z).
Definition new_recv_buffer (buff : list Z) (base64 : bool) : recv_buffer :=
  mkRecvBuffer (if base64 then Base64Decode junk buff else buff) 0.

(** The name is checked against the length of the whole packet. *)
Definition parse_body (flag name_len : Z) (packet : recv_buffer) : Outcome (Msg * Z) :=
  if (name_len >? blen (r_bytes packet)) || (name_len =? 0) then Refused
  else
    let name := take (Z.to_nat name_len) (drop (_buff_pos packet) (r_bytes packet)) in
    packet <<- addReadLen (Z.to_nat name_len) packet;
    match ParseFromArray name (drop (_buff_pos packet) (r_bytes packet)) with
    | Some message => Done (message, flag)
    | None => Refused
    end.
Definition parse_packet (packet : recv_buffer) : Outcome (Msg * Z) :=
  r <<- read 4 packet; let '(flag, packet) := r in
  r <<- read 4 packet; let '(name_len, packet) := r in
  parse_body (le_value flag) (le_value name_len) packet.
Definition parseProtocmessage (buff : list Z) (base64 : bool) : Outcome (Msg * Z) :=
  if blen buff =? 0 then Refused else parse_packet (new_recv_buffer buff base64).
End Parse.

(** ** Handlers

    [ProtocMsgBase]: handlers by the name of a type, the first registered
    stays; one for all the others, or none. *)
Section Handlers.
Context {Handler : Type}.
Record Handlers := mkHandlers { static_call_back_funs : gmap (list Z) Handler; static_default_pb_function : option Handler }.
Definition registerSDFun (defFun : option Handler) (h : Handlers) : Handlers := mkHandlers (static_call_back_funs h) defFun.
Definition registerCBFun (str : list Z) (fun_ : Handler) (h : Handlers) : Handlers :=
  match static_call_back_funs h !! str with
  | Some _ => h
  | None => mkHandlers (<[str := fun_]> (static_call_back_funs h)) (static_default_pb_function h)
  end.
Definition callPBCBFun (h : Handlers) (msg : Msg) : option Handler :=
  match static_call_back_funs h !! GetTypeName msg with Some f => Some f | None => static_default_pb_function h end.
End Handlers.
End Messages.

(** ** Facts on base64 *)
Lemma byte_forall (P : Z -> bool) : forallb P (seqZ 0 256) = true -> forall a, is_byte a -> P a = true.
Proof.
  intros H a Ha. rewrite forallb_forall in H. apply H. apply list_elem_of_In, elem_of_seqZ. unfold is_byte in Ha. lia.
Qed.
(** The four digits of three bytes. *)
Definition digit0 (a : Z) : Z := Z.shiftr a 2.
Definition digit1 (a b : Z) : Z := Z.lor (Z.land (Z.shiftl a 4) 0x30) (Z.shiftr b 4).
Definition digit2 (b c : Z) : Z := Z.lor (Z.land (Z.shiftl b 2) 0x3c) (Z.shiftr c 6).
Definition digit3 (c : Z) : Z := Z.land c 0x3f.
Definition is_digit6 (d : Z) : Prop := 0 <= d < 64.


Lemma lor_low p q n : 0 <= n -> 0 <= q < 2 ^ n -> Z.lor (p * 2 ^ n) q = p * 2 ^ n + q.
Proof.
  intros Hn Hq. rewrite Z.add_nocarry_lor; [done|]. apply Z.bits_inj'. intros i Hi. rewrite Z.land_spec, Z.bits_0.
  destruct (Z.lt_ge_cases i n); [by rewrite Z.mul_pow2_bits_low|]. rewrite (bits_above q i n), andb_false_r by lia. done.
Qed.
Lemma digit0_eq a : digit0 a = a / 4.
Proof. unfold digit0. by rewrite Z.shiftr_div_pow2. Qed.
Lemma digit1_eq a b : is_byte a -> is_byte b -> digit1 a b = a mod 4 * 16 + b / 16.
Proof.
  intros Ha Hb. unfold digit1. rewrite Z.shiftr_div_pow2 by done. change (2 ^ 4) with 16.
  replace (Z.land (Z.shiftl a 4) 48) with (a mod 4 * 2 ^ 4); [|symmetry; apply Z.eqb_eq; exact (byte_forall (fun a => Z.land (Z.shiftl a 4) 48 =? a mod 4 * 2 ^ 4) ltac:(vm_compute; reflexivity) a Ha)].
  rewrite lor_low; [done|done|]. unfold is_byte in Hb. change (2 ^ 4) with 16. Z.div_mod_to_equations. lia.
Qed.
Lemma digit2_eq b c : is_byte b -> is_byte c -> digit2 b c = b mod 16 * 4 + c / 64.
Proof.
  intros Hb Hc. unfold digit2. rewrite Z.shiftr_div_pow2 by done. change (2 ^ 6) with 64.
  replace (Z.land (Z.shiftl b 2) 60) with (b mod 16 * 2 ^ 2); [|symmetry; apply Z.eqb_eq; exact (byte_forall (fun b => Z.land (Z.shiftl b 2) 60 =? b mod 16 * 2 ^ 2) ltac:(vm_compute; reflexivity) b Hb)].
  rewrite lor_low; [done|done|]. unfold is_byte in Hc. change (2 ^ 2) with 4. Z.div_mod_to_equations. lia.
Qed.
Lemma digit3_eq c : digit3 c = c mod 64.
Proof. change (Z.land c (Z.ones 6) = c mod 64). by rewrite Z.land_ones. Qed.
Lemma digits_range a b c : is_byte a -> is_byte b -> is_byte c ->
  is_digit6 (digit0 a) /\ is_digit6 (digit1 a b) /\ is_digit6 (digit2 b c) /\ is_digit6 (digit3 c).
Proof.
  intros Ha Hb Hc. rewrite digit0_eq, digit1_eq, digit2_eq, digit3_eq by done. unfold is_byte, is_digit6 in *. Z.div_mod_to_equations. lia.
Qed.

(** [decode_k] puts a byte together from two digits. *)
Definition joined (k hi lo : Z) : Z :=
  u8 (lo / LMoveBit 2 ((k - 1) * 2) + u8 (Z.land hi (LMoveBit 2 (k * 2) - 1) * LMoveBit 2 (8 - 2 * k))).
Lemma joined_eq hi lo : joined 1 hi lo = (lo + (hi mod 4 * 64) mod 256) mod 256 /\
  joined 2 hi lo = (lo / 4 + (hi mod 16 * 16) mod 256) mod 256 /\ joined 3 hi lo = (lo / 16 + (hi mod 64 * 4) mod 256) mod 256.
Proof.
  unfold joined, u8. cbn [LMoveBit]. change (LMoveBit 2 ((1 - 1) * 2)) with 1. change (LMoveBit 2 (1 * 2) - 1) with (Z.ones 2).
  change (LMoveBit 2 ((2 - 1) * 2)) with 4. change (LMoveBit 2 (2 * 2) - 1) with (Z.ones 4).
  change (LMoveBit 2 ((3 - 1) * 2)) with 16. change (LMoveBit 2 (3 * 2) - 1) with (Z.ones 6).
  rewrite !Z.land_ones by done. rewrite Z.div_1_r. done.
Qed.
Lemma joined_digits a b c : is_byte a -> is_byte b -> is_byte c ->
  joined 3 (digit0 a) (digit1 a b) = a /\ joined 2 (digit1 a b) (digit2 b c) = b /\ joined 1 (digit2 b c) (digit3 c) = c.
Proof.
  intros Ha Hb Hc. rewrite (proj1 (joined_eq _ _)), (proj1 (proj2 (joined_eq _ _))), (proj2 (proj2 (joined_eq _ _))).
  rewrite digit0_eq, digit1_eq, digit2_eq, digit3_eq by done. unfold is_byte in *. Z.div_mod_to_equations. lia.
Qed.

Lemma alphabet_b64 i : is_digit6 i -> alphabet_index (b64 i) = Some i.
Proof.
  intros Hi. assert (H : forallb (fun i => bool_decide (alphabet_index (b64 i) = Some i)) (seqZ 0 64) = true) by (vm_compute; reflexivity).
  rewrite forallb_forall in H. apply (bool_decide_unpack _). rewrite H; [done|]. apply list_elem_of_In, elem_of_seqZ. unfold is_digit6 in Hi. lia.
Qed.

Lemma list_ind3 {A} (P : list A -> Prop) : P [] -> (forall a, P [a]) -> (forall a b, P [a; b]) ->
  (forall a b c l, P l -> P (a :: b :: c :: l)) -> forall l, P l.
Proof.
  intros H0 H1 H2 H3. fix IH 1. intros [|a [|b [|c l]]]; [done|apply H1|apply H2|]. apply H3, IH.
Qed.

Lemma decode_full t0 t1 t2 t3 : t3 <> 64 -> t2 <> 64 -> t1 <> 64 ->
  decode_k [1; 2; 3] [t0; t1; t2; t3] [0; 0; 0] 0 =
  ([t0; joined 3 t0 t1; joined 2 t1 t2; joined 1 t2 t3], [joined 3 t0 t1; joined 2 t1 t2; joined 1 t2 t3], 3).
Proof.
  intros H3 H2 H1. cbn [decode_k]. change (get [t0; t1; t2; t3] (3 - (1 - 1))) with t3. rewrite (proj2 (Z.eqb_neq _ _) H3).
  cbn [decode_k]. change (get _ (3 - (2 - 1))) with t2 at 1. rewrite (proj2 (Z.eqb_neq _ _) H2).
  cbn [decode_k]. change (get _ (3 - (3 - 1))) with t1 at 1. rewrite (proj2 (Z.eqb_neq _ _) H1). reflexivity.
Qed.

(** What the decoder makes of the groups the encoder writes. *)
Lemma alphabet_pad : alphabet_index PAD = Some 64.
Proof. reflexivity. Qed.

Lemma load_full d0 d1 d2 d3 temp1 : length temp1 = 4%nat -> is_digit6 d0 -> is_digit6 d1 -> is_digit6 d2 -> is_digit6 d3 ->
  load_temp [b64 d0; b64 d1; b64 d2; b64 d3] temp1 = [d0; d1; d2; d3] /\
  load_temp [b64 d0; b64 d1; b64 d2; PAD] temp1 = [d0; d1; d2; 64] /\ load_temp [b64 d0; b64 d1; PAD; PAD] temp1 = [d0; d1; 64; 64].
Proof.
  intros Hl H0 H1 H2 H3. destruct temp1 as [|j0 [|j1 [|j2 [|j3 [|]]]]]; try done.
  unfold load_temp. cbn [zip_with]. by rewrite !alphabet_b64, !alphabet_pad by done.
Qed.

Lemma decode_pad1 t0 t1 t2 : t2 <> 64 -> t1 <> 64 ->
  decode_k [1; 2; 3] [t0; t1; t2; 64] [0; 0; 0] 0 = ([t0; joined 3 t0 t1; joined 2 t1 t2; 64], [joined 3 t0 t1; joined 2 t1 t2; 0], 2).
Proof.
  intros H2 H1. cbn [decode_k]. change (get [t0; t1; t2; 64] (3 - (1 - 1)) =? 64) with true. cbn match.
  change (get _ (3 - (2 - 1))) with t2 at 1. rewrite (proj2 (Z.eqb_neq _ _) H2). cbn [decode_k].
  change (get _ (3 - (3 - 1))) with t1 at 1. rewrite (proj2 (Z.eqb_neq _ _) H1). reflexivity.
Qed.
Lemma decode_pad2 t0 t1 : t1 <> 64 ->
  decode_k [1; 2; 3] [t0; t1; 64; 64] [0; 0; 0] 0 = ([t0; joined 3 t0 t1; 64; 64], [joined 3 t0 t1; 0; 0], 1).
Proof.
  intros H1. cbn [decode_k]. change (get [t0; t1; 64; 64] (3 - (1 - 1)) =? 64) with true. cbn match.
  change (get [t0; t1; 64; 64] (3 - (2 - 1)) =? 64) with true. cbn match.
  change (get _ (3 - (3 - 1))) with t1 at 1. rewrite (proj2 (Z.eqb_neq _ _) H1). reflexivity.
Qed.

Lemma digit_not_pad d : is_digit6 d -> d <> 64.
Proof. unfold is_digit6. lia. Qed.

Lemma decode_encode l : Forall is_byte l -> forall temp1, length temp1 = 4%nat ->
  exists buffer, decode_groups (Base64Encode l) temp1 = (buffer, blen l) /\ take (length l) buffer = l.
Proof.
  assert (H0 : is_byte 0) by done. induction l as [|a|a b|a b c l IH] using list_ind3; intros Hl temp1 Ht.
  - by exists [].
  - apply Forall_cons in Hl as [Ha _]. destruct (digits_range a 0 0 Ha H0 H0) as (R0 & R1 & _). destruct (joined_digits a 0 0 Ha H0 H0) as (J & _).
    assert (E : digit1 a 0 = Z.land (Z.shiftl a 4) 48) by (unfold digit1; by rewrite Z.lor_0_r).
    cbn [Base64Encode decode_groups]. change (Z.shiftr a 2) with (digit0 a). rewrite <- E.
    rewrite (proj2 (proj2 (load_full _ _ _ _ temp1 Ht R0 R1 R0 R0))), decode_pad2 by (by apply digit_not_pad). rewrite J.
    exists [a; 0; 0]. done.
  - apply Forall_cons in Hl as [Ha Hl]. apply Forall_cons in Hl as [Hb _].
    destruct (digits_range a b 0 Ha Hb H0) as (R0 & R1 & R2 & _). destruct (joined_digits a b 0 Ha Hb H0) as (J1 & J2 & _).
    assert (E : digit2 b 0 = Z.land (Z.shiftl b 2) 60) by (unfold digit2; by rewrite Z.lor_0_r).
    cbn [Base64Encode decode_groups]. change (Z.shiftr a 2) with (digit0 a). change (Z.lor _ _) with (digit1 a b). rewrite <- E.
    rewrite (proj1 (proj2 (load_full _ _ _ _ temp1 Ht R0 R1 R2 R0))), decode_pad1 by (by apply digit_not_pad). rewrite J1, J2.
    exists [a; b; 0]. done.
  - apply Forall_cons in Hl as [Ha Hl]. apply Forall_cons in Hl as [Hb Hl]. apply Forall_cons in Hl as [Hc Hl].
    destruct (digits_range a b c Ha Hb Hc) as (R0 & R1 & R2 & R3). destruct (joined_digits a b c Ha Hb Hc) as (J1 & J2 & J3).
    cbn [Base64Encode decode_groups]. change (Z.shiftr a 2) with (digit0 a). change (Z.lor (Z.land (Z.shiftl a 4) 48) _) with (digit1 a b).
    change (Z.lor (Z.land (Z.shiftl b 2) 60) _) with (digit2 b c). change (Z.land c 63) with (digit3 c).
    rewrite (proj1 (load_full _ _ _ _ temp1 Ht R0 R1 R2 R3)), decode_full by (by apply digit_not_pad).
    destruct (IH Hl [digit0 a; joined 3 (digit0 a) (digit1 a b); joined 2 (digit1 a b) (digit2 b c); joined 1 (digit2 b c) (digit3 c)] eq_refl) as (buffer & -> & Hbuf).
    rewrite J1, J2, J3. exists ([a; b; c] ++ buffer). split; [f_equal; unfold blen; cbn [length]; lia|]. cbn. by rewrite Hbuf.
Qed.
Lemma Base64Decode_Encode junk l : length junk = 4%nat -> Forall is_byte l -> Base64Decode junk (Base64Encode l) = l.
Proof.
  intros Hj Hl. destruct (decode_encode l Hl junk Hj) as (buffer & E & Hb). unfold Base64Decode. rewrite E. unfold blen. by rewrite Nat2Z.id.
Qed.

(** ** A message there and back *)
Lemma buffer_get_put (l : list Z) (i v : Z) : 0 <= i -> (Z.to_nat i < length l)%nat -> get (put l i v) i = v.
Proof. intros Hi Hl. unfold get, put. rewrite nth_lookup, list_lookup_insert_eq by done. done. Qed.
Lemma b64_byte i : is_byte (b64 i).
Proof.
  unfold b64. destruct (nth_in_or_default (Z.to_nat i) base64digits 0) as [H| ->]; [|done].
  assert (Hall : forallb (fun c => (0 <=? c) && (c <? 256)) base64digits = true) by (vm_compute; reflexivity).
  rewrite forallb_forall in Hall. specialize (Hall _ H). apply andb_true_iff in Hall as [H1%Z.leb_le H2%Z.ltb_lt]. done.
Qed.
Lemma Base64Encode_spec l : Forall is_byte (Base64Encode l) /\ blen (Base64Encode l) = 4 * ((blen l + 2) / 3).
Proof.
  assert (Hp : is_byte PAD) by done.
  induction l as [|a|a b|a b c l [IH1 IH2]] using list_ind3; cbn [Base64Encode]; (split; [repeat constructor; try apply b64_byte; done|]); [done..|].
  unfold blen in *. cbn [length]. rewrite !Nat2Z.inj_succ, IH2. replace (Z.succ (Z.succ (Z.succ (Z.of_nat (length l)))) + 2) with (Z.of_nat (length l) + 2 + 1 * 3) by lia.
  rewrite Z.div_add by done. lia.
Qed.

(** A buffer no thread has asked for yet is empty. *)
Definition buffer_ok (_buffer_length : Z) : Prop := _buffer_length = 0 \/ _buffer_default_length <= _buffer_length.
Lemma getThreadBuffer_ok maxlen cur : buffer_ok cur -> 0 < maxlen < _buffer_default_length -> _buffer_default_length <= getThreadBuffer maxlen cur.
Proof.
  unfold buffer_ok, getThreadBuffer. intros Hc Hm. destruct (Z.gtb_spec maxlen cur); [|lia].
  rewrite (proj2 (Z.ltb_lt _ _)) by lia. lia.
Qed.

Section RoundTrip.
Context {Msg : Type} {PB : Protobuf Msg} {PL : ProtobufLaws Msg}.
Definition packet (m : Msg) (flag : Z) : list Z := le_bytes 4 flag ++ le_bytes 4 (blen (GetTypeName m)) ++ GetTypeName m ++ SerializeToArray m.
Definition packet_size (m : Msg) : Z := 8 + blen (GetTypeName m) + blen (SerializeToArray m).
(** The bytes a session gets. *)
Definition wire_size (base64 : bool) (m : Msg) : Z := if base64 then 4 * ((packet_size m + 2) / 3) else packet_size m.
Definition encoded (base64 : bool) (m : Msg) (flag : Z) : list Z := if base64 then Base64Encode (packet m flag) else packet m flag.

Lemma blen_packet m flag : blen (packet m flag) = packet_size m.
Proof. unfold packet, packet_size. rewrite !blen_app, !blen_le_bytes. lia. Qed.
Lemma packet_bytes m flag : Forall is_byte (packet m flag).
Proof. destruct (pb_bytes m). unfold packet. rewrite !Forall_app. split_and!; [apply le_bytes_range..|done|done]. Qed.
Lemma encoded_spec base64 m flag : blen (encoded base64 m flag) = wire_size base64 m /\ Forall is_byte (encoded base64 m flag).
Proof.
  unfold encoded, wire_size. pose proof (packet_bytes m flag). destruct base64; [|by rewrite blen_packet].
  destruct (Base64Encode_spec (packet m flag)) as [H1 H2]. by rewrite H2, blen_packet.
Qed.
Lemma packet_size_pos m : 9 <= packet_size m.
Proof.
  unfold packet_size. pose proof (pb_named m). pose proof (blen_nonneg (SerializeToArray m)). unfold blen in *.
  destruct (GetTypeName m); [done|]. cbn [length]. lia.
Qed.

(** No message that a session can send is too large for the buffer. *)
Lemma push_done m flag base64 cur : buffer_ok cur -> packet_size m < _buffer_default_length ->
  pushProtocMessage m flag base64 cur = Done (encoded base64 m flag).
Proof.
  intros Hc Hsize. unfold pushProtocMessage. cbn zeta. unfold packet_size in Hsize.
  pose proof (blen_nonneg (GetTypeName m)). pose proof (blen_nonneg (SerializeToArray m)).
  assert (HL : _buffer_default_length <= getThreadBuffer (4 + blen (GetTypeName m) + blen (SerializeToArray m)) cur) by (apply getThreadBuffer_ok; [done|lia]).
  set (L := getThreadBuffer _ cur) in *. clearbody L.
  assert (Hw : forall item bs, blen bs + blen item < L -> write item (mkSendBuffer bs L) = Done (mkSendBuffer (bs ++ item) L)).
  { intros item bs Hlt. unfold write. cbn [s_bytes s_max_length]. destruct (Z.geb_spec (blen bs + blen item) L); [lia|done]. }
  assert (Hnil : blen [] = 0) by done.
  do 3 (rewrite Hw by (rewrite ?blen_app, ?blen_le_bytes, Hnil; lia); cbn [obind s_bytes s_max_length]).
  rewrite !blen_app, !blen_le_bytes, Hnil.
  destruct (Z.gtb_spec (blen (SerializeToArray m)) (L - (0 + Z.of_nat 4 + Z.of_nat 4 + blen (GetTypeName m)))) as [|_]; [lia|].
  destruct (Z.ltb_spec (0 + Z.of_nat 4 + Z.of_nat 4 + blen (GetTypeName m) + blen (SerializeToArray m)) L) as [_|]; [|lia].
  unfold getFinallyBuff, encoded, packet. cbn [s_bytes]. by rewrite <- !app_assoc.
Qed.

Lemma read_app item rest pre : rest <> [] -> read (length item) (mkRecvBuffer (pre ++ item ++ rest) (length pre)) =
  Done (item, mkRecvBuffer (pre ++ item ++ rest) (length (pre ++ item))).
Proof.
  intros Hr. unfold read. cbn [r_bytes _buff_pos]. rewrite !length_app.
  assert (0 < length rest)%nat by (destruct rest; [done|cbn; lia]).
  rewrite (proj2 (Nat.ltb_ge _ _)) by lia. rewrite (proj2 (Nat.eqb_neq _ _)) by lia.
  by rewrite drop_app_length, take_app_length.
Qed.

Lemma parse_encoded junk base64 m flag : length junk = 4%nat -> is_u32 flag -> packet_size m < _buffer_default_length ->
  parseProtocmessage junk (encoded base64 m flag) base64 = Done (m, flag).
Proof.
  intros Hj Hf Hsize. pose proof (packet_size_pos m) as Hpos. unfold parseProtocmessage.
  destruct (Z.eqb_spec (blen (encoded base64 m flag)) 0) as [E|_].
  { destruct (encoded_spec base64 m flag) as [Hw _]. rewrite E in Hw. unfold wire_size in Hw. destruct base64; [|lia].
    symmetry in Hw. assert (3 <= (packet_size m + 2) / 3) by (apply Z.div_le_lower_bound; lia). lia. }
  unfold new_recv_buffer. replace (if base64 then _ else _) with (packet m flag).
  2: { unfold encoded. destruct base64; [|done]. by rewrite Base64Decode_Encode by (try done; apply packet_bytes). }
  assert (Hne : GetTypeName m ++ SerializeToArray m <> []) by (pose proof (pb_named m); destruct (GetTypeName m); done).
  assert (Hn : 0 < blen (GetTypeName m)) by (pose proof (pb_named m); destruct (GetTypeName m); [done|unfold blen; cbn [length]; lia]).
  pose proof (blen_nonneg (SerializeToArray m)).
  unfold parse_packet, packet. set (n := blen (GetTypeName m)) in *.
  pose proof (read_app (le_bytes 4 flag) (le_bytes 4 n ++ GetTypeName m ++ SerializeToArray m) []) as R1.
  cbn [app length] in R1. rewrite length_le_bytes in R1. rewrite R1 by (intros E; by apply app_eq_nil in E as [E _]). clear R1. cbn [obind].
  pose proof (read_app (le_bytes 4 n) (GetTypeName m ++ SerializeToArray m) (le_bytes 4 flag) Hne) as R2. rewrite !length_le_bytes in R2. rewrite R2. clear R2. cbn [obind].
  rewrite !le_value_bytes by (unfold packet_size in Hsize; unfold is_u32, _buffer_default_length in *; cbn; lia).
  unfold parse_body. cbn [r_bytes _buff_pos]. rewrite !blen_app, !blen_le_bytes. fold n.
  rewrite (proj2 (Z.eqb_neq n 0)), orb_false_r by lia. destruct (Z.gtb_spec n (Z.of_nat 4 + (Z.of_nat 4 + (n + blen (SerializeToArray m))))); [lia|].
  rewrite length_app, !length_le_bytes. change (4 + 4)%nat with 8%nat.
  assert (Hdrop : drop 8 (le_bytes 4 flag ++ le_bytes 4 n ++ GetTypeName m ++ SerializeToArray m) = GetTypeName m ++ SerializeToArray m).
  { rewrite app_assoc, drop_app_length'; [done|]. by rewrite length_app, !length_le_bytes. }
  rewrite Hdrop. unfold n, blen. rewrite Nat2Z.id, take_app_length. unfold addReadLen. cbn [r_bytes _buff_pos].
  rewrite !length_app, !length_le_bytes. rewrite (proj2 (Nat.leb_le _ _)) by lia. cbn [obind _buff_pos r_bytes].
  rewrite <- drop_drop.
  change (Z.of_nat (length (GetTypeName m))) with n. rewrite Hdrop, drop_app_length. by rewrite pb_roundtrip.
Qed.

(** ** A connection of messages *)
Section Connection.
Context (cs : option CompressStrategy) (m_father is_limit_mode m_iscompress base64 : bool).

(** A program that sends messages with flags, its calls mixed with those of
    the network threads. *)
Definition sendable (m : Msg) : Prop := packet_size m < _buffer_default_length /\ wire_size base64 m <= MAX_MESSAGE_LEN - MESSAGE_HEAD_LEN.
Inductive says : list (Msg * Z) -> Sender -> Prop :=
  | says_start : says [] connected
  | says_send ms s m flag cur data : says ms s -> sendable m -> is_u32 flag -> buffer_ok cur ->
      pushProtocMessage m flag base64 cur = Done data ->
      says (if m_isconnected s then ms ++ [(m, flag)] else ms) (send_message cs m_father is_limit_mode m_iscompress data base64 s)
  | says_io ms s s' : says ms s -> io_step s s' -> says ms s'.

Definition in_bytes (m : Msg * Z) : list Z * bool := (encoded base64 m.1 m.2, base64).
Lemma says_sends ms s : says ms s -> sends cs m_father is_limit_mode m_iscompress (map in_bytes ms) s /\
  Forall (fun m => sendable m.1 /\ is_u32 m.2) ms.
Proof.
  induction 1 as [|ms s m flag cur data _ [IH1 IH2] [Hsize Hwire] Hflag Hcur Hpush|ms s s' _ [IH1 IH2] Hs].
  - split; [apply sends_start|done].
  - rewrite push_done in Hpush by done. injection Hpush as <-. destruct (encoded_spec base64 m flag) as [Hb1 Hb2].
    assert (Hmin : 1 < wire_size base64 m).
    { pose proof (packet_size_pos m). unfold wire_size. destruct base64; [|lia]. assert (3 <= (packet_size m + 2) / 3) by (apply Z.div_le_lower_bound; lia). lia. }
    split.
    + pose proof (sends_send cs m_father is_limit_mode m_iscompress _ s (encoded base64 m flag) base64 IH1) as Hsend.
      replace (map in_bytes (if m_isconnected s then ms ++ [(m, flag)] else ms)) with
        (if m_isconnected s then map in_bytes ms ++ [(encoded base64 m flag, base64)] else map in_bytes ms) by (destruct (m_isconnected s); [by rewrite map_app|done]).
      apply Hsend; [lia|done].
    + destruct (m_isconnected s); [|done]. apply Forall_app_2; [done|]. by apply Forall_singleton.
  - split; [by eapply sends_io|done].
Qed.
End Connection.

(** What a session's [proc_message] makes of what it was handed. *)
Definition handled (junk : list Z) (n : Net) : Outcome (Msg * Z) :=
  match n with Push msg => parseProtocmessage junk (msg_data msg) (msg_base64 msg) | _ => Refused end.
End RoundTrip.

(** ** Properties *)


(** A packet's head is read twice from its start when it ends there. *)
Lemma parse_body_faults {Msg} `{PB : Protobuf Msg} flag name_len b : 0 <= name_len ->
  parse_body flag name_len b <> Throws /\
  (parse_body flag name_len b = Aborts <-> 0 < name_len <= blen (r_bytes b) /\ blen (r_bytes b) < Z.of_nat (_buff_pos b) + name_len).
Proof.
  intros H0. unfold parse_body. destruct (Z.gtb_spec name_len (blen (r_bytes b))); [split; [done|]; split; [done|lia]|].
  destruct (Z.eqb_spec name_len 0); [split; [done|]; split; [done|lia]|]. cbn [orb].
  unfold addReadLen, blen in *. destruct (Nat.leb_spec (_buff_pos b + Z.to_nat name_len) (length (r_bytes b))); cbn [obind].
  - split; [by case_match|]. split; [by case_match|lia].
  - split; [done|]. split; [lia|done].
Qed.
Lemma read_short n b : (length (r_bytes b) < _buff_pos b + n)%nat -> read n b = Throws.
Proof. intros H. unfold read. by rewrite (proj2 (Nat.ltb_lt _ _)). Qed.
Lemma read_ok n b : (_buff_pos b + n <= length (r_bytes b))%nat -> read n b =
  Done (take n (drop (_buff_pos b) (r_bytes b)), mkRecvBuffer (r_bytes b) (if (_buff_pos b + n =? length (r_bytes b))%nat then 0%nat else (_buff_pos b + n)%nat)).
Proof. intros H. unfold read. by rewrite (proj2 (Nat.ltb_ge _ _)). Qed.

Lemma parse_packet_faults {Msg} `{PB : Protobuf Msg} bytes : Forall is_byte bytes ->
  (parse_packet (mkRecvBuffer bytes 0) = Throws <-> (length bytes < 8)%nat /\ length bytes <> 4%nat) /\
  (parse_packet (mkRecvBuffer bytes 0) = Aborts <-> (8 < length bytes)%nat /\ le_value (take 4 (drop 4 bytes)) <= blen bytes < 8 + le_value (take 4 (drop 4 bytes))).
Proof.
  intros Hb. assert (Hpos : forall k, 0 <= le_value (take 4 (drop k bytes))) by (intros k; apply le_value_range; by apply Forall_take, Forall_drop).
  unfold parse_packet. destruct (Nat.lt_ge_cases (length bytes) 4) as [Hs|Hs].
  { rewrite read_short by done. cbn [obind]. split; (split; [|done || lia]); [lia|done]. }
  rewrite read_ok by done. cbn [obind r_bytes _buff_pos Nat.add]. destruct (Nat.eqb_spec 4 (length bytes)) as [E4|N4].
  - (* the length of the name is read where the flag is *)
    rewrite read_ok by done. cbn [obind r_bytes _buff_pos Nat.add]. rewrite (proj2 (Nat.eqb_eq _ _)) by done.
    destruct (parse_body_faults (le_value (take 4 (drop 0 bytes))) (le_value (take 4 (drop 0 bytes))) (mkRecvBuffer bytes 0) (Hpos 0%nat)) as [Ht Ha].
    cbn [r_bytes _buff_pos] in Ha. split; [split; [done|lia]|]. rewrite Ha. split; lia.
  - destruct (Nat.lt_ge_cases (length bytes) 8) as [H8|H8].
    { rewrite read_short by done. cbn [obind]. split; (split; [|done || lia]); [lia|done]. }
    rewrite read_ok by done. cbn [obind r_bytes _buff_pos]. change (4 + 4)%nat with 8%nat.
    set (pos := if (8 =? length bytes)%nat then 0%nat else 8%nat).
    destruct (parse_body_faults (le_value (take 4 (drop 0 bytes))) (le_value (take 4 (drop 4 bytes))) (mkRecvBuffer bytes pos) (Hpos 4%nat)) as [Ht Ha].
    cbn [r_bytes _buff_pos] in Ha. split; [split; [done|lia]|]. rewrite Ha. subst pos. unfold blen in *.
    destruct (Nat.eqb_spec 8 (length bytes)); lia.
Qed.

(** C33: What hostile bytes do to a server: a packet (decoded) of fewer than 8
    bytes, and not of 4, makes the parser throw, which no server catches; a
    longer one whose name is said to end past it, though not to be longer than
    the whole packet, fails an assertion; no other packet does either. *)
Theorem parse_hostile {Msg} `{PB : Protobuf Msg} junk buff base64 :
  let bytes := r_bytes (new_recv_buffer junk buff base64) in
  let name_len := le_value (take 4 (drop 4 bytes)) in
  buff <> [] -> Forall is_byte bytes ->
  (parseProtocmessage junk buff base64 = Throws <-> (length bytes < 8)%nat /\ length bytes <> 4%nat) /\
  (parseProtocmessage junk buff base64 = Aborts <-> (8 < length bytes)%nat /\ name_len <= blen bytes < 8 + name_len).
Proof.
  intros bytes name_len Hne Hb. unfold parseProtocmessage. destruct (Z.eqb_spec (blen buff) 0) as [E|_].
  { unfold blen in E. destruct buff; [done|]. cbn in E. lia. }
  exact (parse_packet_faults bytes Hb).
Qed.

(** ** A type of messages, and a connection of them *)
#[local] Instance bool_protobuf : Protobuf bool := {
  GetTypeName _ := [65];
  SerializeToArray b := [if b then 1 else 0];
  ParseFromArray name data := if bool_decide (name = [65]) then match data with [1] => Some true | [0] => Some false | _ => None end else None
}.
#[local] Instance bool_laws : ProtobufLaws bool.
Proof. constructor; [by intros []|done|]. intros []; (split; by repeat constructor). Qed.

(** [read 0 0 0 7] as a flag, a name of two bytes where one is left. *)
Lemma parse_hostile_witness :
  parseProtocmessage (Msg := bool) [0; 0; 0; 0] [7; 0; 0; 0; 2; 0; 0; 0; 65] false = Aborts /\
  parseProtocmessage (Msg := bool) [0; 0; 0; 0] [1; 2] false = Throws.
Proof.
  split.
  - apply (parse_hostile (Msg := bool) [0; 0; 0; 0] [7; 0; 0; 0; 2; 0; 0; 0; 65] false); [done|by repeat constructor|]. cbn. unfold blen. cbn. lia.
  - apply (parse_hostile (Msg := bool) [0; 0; 0; 0] [1; 2] false); [done|by repeat constructor|]. cbn. lia.
Defined.

Definition posted_said : Sender := run_posted (send_message None true true false (encoded true true 5) true connected).
Definition said : Sender := handle_write false (blen (wire posted_said)) posted_said.
