(* ===== verification/Serial.v ===== *)
(** * common/packet_interface.h: messages written field by field

    [PacketSn] writes values to the send buffer of a thread and [PacketUsn]
    reads them from a receive buffer, by overloaded operators: integers,
    strings, containers, and structures that call the operators for their
    fields.  An overload is a pair of functions ([Operators]); what makes a pair
    a serialisation is the class [Lawful], whose instances follow the
    overloads.  The buffers are those of Packet.v, without Base64: the header
    constructs them with two arguments, which thread_buffer.h no longer allows. *)
From S2P Require Import Prelude StdMap Bytes Wire Packet.

(** ** The operators *)
(** [operator <<] and [operator >>] of a type. *)
Record Operators (T : Type) := mkOperators { sn : T -> send_buffer -> Outcome send_buffer; usn : recv_buffer -> Outcome (T * recv_buffer) }.
Arguments mkOperators {T}.
Arguments sn {T}.
Arguments usn {T}.

Definition addBuf (item : list Z) (b : send_buffer) : Outcome send_buffer := write item b.
Definition getBuf (size : nat) (b : recv_buffer) : Outcome (list Z * recv_buffer) := read size b.
Definition to_int (n : nat) (signed : bool) (v : Z) : Z :=
  if signed && (2 ^ (8 * Z.of_nat n - 1) <=? v) then v - 2 ^ (8 * Z.of_nat n) else v.
Definition put_int (n : nat) (z : Z) : send_buffer -> Outcome send_buffer := addBuf (le_bytes n z).
Definition get_int (n : nat) (signed : bool) (b : recv_buffer) : Outcome (Z * recv_buffer) :=
  r <<- getBuf n b; Done (to_int n signed (le_value r.1), r.2).
Definition int_op (n : nat) (signed : bool) : Operators Z := mkOperators (put_int n) (get_int n signed).
(** The overloads for numbers, [long] as Linux has it; [float] and [double] are their bit patterns. *)
Definition op_char := int_op 1 true.
Definition op_u8 := int_op 1 false.
Definition op_short := int_op 2 true.
Definition op_u16 := int_op 2 false.
Definition op_int := int_op 4 true.
Definition op_u32 := int_op 4 false.
Definition op_long := int_op 8 true.
Definition op_u64 := int_op 8 false.
Definition op_float := int_op 4 false.
Definition op_double := int_op 8 false.
(** A byte other than 0 and 1 is no [bool]. *)
Definition put_bool (x : bool) : send_buffer -> Outcome send_buffer := addBuf [if x then 1 else 0].
Definition get_bool (b : recv_buffer) : Outcome (bool * recv_buffer) :=
  r <<- getBuf 1 b; match r.1 with [0] => Done (false, r.2) | [1] => Done (true, r.2) | _ => Aborts end.
Definition op_bool : Operators bool := mkOperators put_bool get_bool.
(** [Aborts]: the string is copied from beyond what was received, and the
    assertion of [addReadLen] fails. *)
Definition put_string (s : list Z) (b : send_buffer) : Outcome send_buffer := b <<- sn op_u32 (blen s) b; addBuf s b.
Definition get_string (b : recv_buffer) : Outcome (list Z * recv_buffer) :=
  r <<- usn op_u32 b; let slen := Z.to_nat r.1 in
  let s := take slen (drop (_buff_pos r.2) (r_bytes r.2)) in
  b <<- addReadLen slen r.2; Done (s, b).
Definition op_string : Operators (list Z) := mkOperators put_string get_string.
(** Two values one after the other. *)
Definition op_pair {A B} (opA : Operators A) (opB : Operators B) : Operators (A * B) :=
  mkOperators (fun x b => b <<- sn opA x.1 b; sn opB x.2 b)
    (fun b => r <<- usn opA b; s <<- usn opB r.2; Done ((r.1, s.1), s.2)).

(** A container: its elements in the order of iteration, and how one is put in. *)
Section Container.
Context {A C : Type} (elements : C -> list A) (empty : C) (insert : C -> A -> C) (op : Operators A).
Fixpoint sn_all (l : list A) (b : send_buffer) : Outcome send_buffer :=
  match l with [] => Done b | x :: l => b <<- sn op x b; sn_all l b end.
Fixpoint usn_all (n : nat) (c : C) (b : recv_buffer) : Outcome (C * recv_buffer) :=
  match n with O => Done (c, b) | S n => r <<- usn op b; usn_all n (insert c r.1) r.2 end.
Definition put_container (c : C) (b : send_buffer) : Outcome send_buffer :=
  b <<- sn op_u32 (Z.of_nat (length (elements c))) b; sn_all (elements c) b.
Definition get_container (b : recv_buffer) : Outcome (C * recv_buffer) := r <<- usn op_u32 b; usn_all (Z.to_nat r.1) empty r.2.
Definition op_container : Operators C := mkOperators put_container get_container.
End Container.
Definition push_back {A} (l : list A) (x : A) : list A := l ++ [x].
(** [std::list], [std::deque] and [std::vector]. *)
Definition op_list {A} (op : Operators A) : Operators (list A) := op_container id [] push_back op.
Fixpoint set_insert {A} `{StdLess A} (x : A) (l : list A) : list A :=
  match l with
  | [] => [x]
  | y :: l' => if kltb x y then x :: l else if kltb y x then y :: set_insert x l' else l
  end.
Definition op_set {A} `{StdLess A} (op : Operators A) : Operators (list A) := op_container id [] (fun l x => set_insert x l) op.
Definition op_map {K V} `{StdLess K} (opK : Operators K) (opV : Operators V) : Operators (list (K * V)) :=
  op_container id [] (fun m x => mput x.1 x.2 m) (op_pair opK opV).

(** ** Packets *)
Record PacketHead := mkPacketHead { ph_number : Z; ph_trans_id : Z; ph_flag : Z }.
Definition put_head (h : PacketHead) (b : send_buffer) : Outcome send_buffer :=
  b <<- sn op_u16 (ph_number h) b; b <<- sn op_u32 (ph_trans_id h) b; sn op_u32 (ph_flag h) b.
Definition get_head (b : recv_buffer) : Outcome (PacketHead * recv_buffer) :=
  n <<- usn op_u16 b; t <<- usn op_u32 n.2; f <<- usn op_u32 t.2; Done (mkPacketHead n.1 t.1 f.1, f.2).
Definition op_head : Operators PacketHead := mkOperators put_head get_head.
(** [cur]: the length of the thread's buffer. *)
Definition new_PacketSn (max_len cur : Z) : send_buffer := mkSendBuffer [] (getThreadBuffer max_len cur).
(** The constructor reads the head and goes back to the first byte. *)
Definition new_PacketUsn (data : list Z) : Outcome (PacketHead * recv_buffer) :=
  r <<- usn op_head (mkRecvBuffer data 0); Done (r.1, mkRecvBuffer (r_bytes r.2) 0).

(** ** Laws *)
(** [f] puts [l] at the end of the buffer, or throws when the buffer would be
    full. *)
Definition appends (f : send_buffer -> Outcome send_buffer) (l : list Z) : Prop :=
  forall b, blen (s_bytes b) < s_max_length b ->
    f b = if blen (s_bytes b) + blen l <? s_max_length b then Done (mkSendBuffer (s_bytes b ++ l) (s_max_length b)) else Throws.
(** [f] reads [v] where [l] is; behind the last byte of the buffer the position
    may be the first. *)
Definition reads {A} (f : recv_buffer -> Outcome (A * recv_buffer)) (l : list Z) (v : A) : Prop :=
  (forall pre rest, rest <> [] -> f (mkRecvBuffer (pre ++ l ++ rest) (length pre)) = Done (v, mkRecvBuffer (pre ++ l ++ rest) (length (pre ++ l)))) /\
  (forall pre, exists pos, f (mkRecvBuffer (pre ++ l) (length pre)) = Done (v, mkRecvBuffer (pre ++ l) pos) /\ (pos <= length (pre ++ l))%nat).
(** [ok]: the values that survive, those in the range of their type. *)
Class Lawful {T} (op : Operators T) (bytes : T -> list Z) (ok : T -> Prop) : Prop := {
  lawful_bytes v : bytes v <> [];
  lawful_sn v : appends (sn op v) (bytes v);
  lawful_usn v : ok v -> reads (usn op) (bytes v) v
}.

Lemma appends_nil : appends Done [].
Proof. intros [l m] H. cbn in *. rewrite Z.add_0_r, (proj2 (Z.ltb_lt _ _) H). by rewrite app_nil_r. Qed.
Lemma appends_write l : appends (addBuf l) l.
Proof. intros b H. unfold addBuf, write. destruct (Z.geb_spec (blen (s_bytes b) + blen l) (s_max_length b)), (Z.ltb_spec (blen (s_bytes b) + blen l) (s_max_length b)); try done; lia. Qed.
Lemma appends_seq f g l1 l2 : appends f l1 -> appends g l2 -> appends (fun b => b <<- f b; g b) (l1 ++ l2).
Proof.
  intros Hf Hg b Hb. rewrite Hf by done. rewrite blen_app. pose proof (blen_nonneg l2). destruct (Z.ltb_spec (blen (s_bytes b) + blen l1) (s_max_length b)); cbn [obind].
  - rewrite Hg by (cbn; rewrite blen_app; lia). cbn [s_bytes s_max_length]. rewrite blen_app, <- app_assoc. by rewrite Z.add_assoc.
  - rewrite (proj2 (Z.ltb_ge _ _)) by lia. done.
Qed.
Lemma reads_ext {A} (f g : recv_buffer -> Outcome (A * recv_buffer)) l v : (forall b, f b = g b) -> reads f l v -> reads g l v.
Proof. intros E [H1 H2]. split; [intros; rewrite <- E; auto|]. intros pre. destruct (H2 pre) as [pos H]. exists pos. by rewrite <- E. Qed.
Lemma reads_done {A} (v : A) : reads (fun b => Done (v, b)) [] v.
Proof. split; intros pre; [intros rest _; by rewrite app_nil_r|]. exists (length pre). rewrite app_nil_r. done. Qed.
(** One value, then another: the first is not the last of the buffer, unless
    the second takes no bytes. *)
Lemma reads_seq {A B} f l1 (x : A) g l2 (y : B) : reads f l1 x -> reads (g x) l2 y -> (l2 = [] -> forall b, (_buff_pos b <= length (r_bytes b))%nat -> g x b = Done (y, b)) ->
  reads (fun b => r <<- f b; g r.1 r.2) (l1 ++ l2) y.
Proof.
  intros [F1 F2] [G1 G2] Hnil. split.
  - intros pre rest Hr. rewrite <- app_assoc. rewrite F1 by (intros E; by apply app_eq_nil in E as [_ E]). cbn [obind fst snd].
    pose proof (G1 (pre ++ l1) rest Hr) as H. rewrite <- !app_assoc in H. by rewrite H.
  - intros pre. destruct l2 as [|z l2].
    + rewrite app_nil_r. destruct (F2 pre) as (pos & E & Hpos). exists pos. rewrite E. cbn [obind fst snd]. by rewrite Hnil.
    + destruct (G2 (pre ++ l1)) as (pos & E & Hpos). exists pos. rewrite F1 by done. cbn [obind fst snd]. by rewrite <- app_assoc in E, Hpos.
Qed.
Lemma reads_map {A B} f l (x : A) (h : A -> B) : reads f l x -> reads (fun b => r <<- f b; Done (h r.1, r.2)) l (h x).
Proof. intros H. rewrite <- (app_nil_r l). eapply (reads_seq f l x (fun a b => Done (h a, b))); [done|apply reads_done|done]. Qed.
Lemma reads_bytes l : l <> [] -> reads (getBuf (length l)) l l.
Proof.
  intros Hl. split.
  - intros pre rest Hr. by apply read_app.
  - intros pre. eexists. unfold getBuf, read. cbn [r_bytes _buff_pos]. rewrite length_app, Nat.ltb_irrefl. rewrite drop_app_length, take_ge by done. split; [done|]. rewrite ?length_app. case_match; lia.
Qed.

(** *** Numbers *)
Definition int_ok (n : nat) (signed : bool) (z : Z) : Prop :=
  if signed then - 2 ^ (8 * Z.of_nat n - 1) <= z < 2 ^ (8 * Z.of_nat n - 1) else 0 <= z < 2 ^ (8 * Z.of_nat n).
Lemma le_value_mod n : forall z, le_value (le_bytes n z) = z mod 256 ^ Z.of_nat n.
Proof.
  induction n as [|n IH]; intros z; cbn [le_bytes le_value]; [by rewrite Z.mod_1_r|]. rewrite IH, Nat2Z.inj_succ, Z.pow_succ_r by lia.
  rewrite Z.rem_mul_r; lia.
Qed.
Lemma to_int_ok n signed z : (0 < n)%nat -> int_ok n signed z -> to_int n signed (le_value (le_bytes n z)) = z.
Proof.
  intros Hn Hz. rewrite le_value_mod. change 256 with (2 ^ 8). rewrite <- Z.pow_mul_r by lia. unfold int_ok, to_int in *.
  set (w := 8 * Z.of_nat n) in *. destruct signed; cbn [andb]; [|by apply Z.mod_small].
  assert (Hw : 2 ^ w = 2 * 2 ^ (w - 1)) by (rewrite <- Z.pow_succ_r by lia; f_equal; lia). destruct (Z.leb_spec 0 z).
  - rewrite Z.mod_small by lia. destruct (Z.leb_spec (2 ^ (w - 1)) z); lia.
  - rewrite <- (Z.mod_unique_pos z (2 ^ w) (-1) (z + 2 ^ w)) by lia. destruct (Z.leb_spec (2 ^ (w - 1)) (z + 2 ^ w)); lia.
Qed.
#[export] Instance int_lawful n signed : Lawful (int_op (S n) signed) (le_bytes (S n)) (int_ok (S n) signed).
Proof.
  split; [done|intros z; apply appends_write|]. intros z Hz.
  rewrite <- (to_int_ok (S n) signed z) at 2 by (lia || done). unfold int_op. cbn [usn].
  apply (reads_map _ _ _ (fun l => to_int (S n) signed (le_value l))). rewrite <- (length_le_bytes (S n) z) at 1. by apply reads_bytes.
Qed.
#[export] Instance bool_lawful : Lawful op_bool (fun x => [if x then 1 else 0]) (fun _ => True).
Proof.
  split; [done|intros x; apply appends_write|]. intros x _.
  assert (H : reads (getBuf 1) [if x then 1 else 0] [if x then 1 else 0]) by (by apply (reads_bytes [if x then 1 else 0])).
  apply (reads_seq _ _ _ (fun l b => match l with [0] => Done (false, b) | [1] => Done (true, b) | _ => Aborts end) [] x) in H; [exact H| |by destruct x].
  destruct x; apply reads_done.
Qed.

(** *** Strings and pairs *)
Definition short {A} (l : list A) : Prop := Z.of_nat (length l) < 2 ^ 32.
Definition string_bytes (s : list Z) : list Z := le_bytes 4 (blen s) ++ s.
Lemma reads_string s : reads (fun b => let s' := take (length s) (drop (_buff_pos b) (r_bytes b)) in b <<- addReadLen (length s) b; Done (s', b)) s s.
Proof.
  split; intros pre.
  - intros rest _. cbn [r_bytes _buff_pos]. unfold addReadLen. cbn [r_bytes _buff_pos]. rewrite !length_app, (proj2 (Nat.leb_le _ _)) by lia.
    cbn [obind]. by rewrite drop_app_length, take_app_length.
  - eexists. cbn [r_bytes _buff_pos]. unfold addReadLen. cbn [r_bytes _buff_pos]. rewrite length_app, Nat.leb_refl. cbn [obind]. by rewrite drop_app_length, take_ge.
Qed.
#[export] Instance string_lawful : Lawful op_string string_bytes short.
Proof.
  split; [done|intros s; apply appends_seq; apply appends_write|]. intros s Hs.
  apply (reads_seq (usn op_u32) (le_bytes 4 (blen s)) (blen s)
    (fun n b => let s' := take (Z.to_nat n) (drop (_buff_pos b) (r_bytes b)) in b <<- addReadLen (Z.to_nat n) b; Done (s', b))).
  - apply (lawful_usn (blen s)). unfold int_ok. unfold short, blen in *. cbn. lia.
  - unfold blen. rewrite Nat2Z.id. apply reads_string.
  - intros -> [l pos] Hpos. unfold addReadLen. cbn in *. by rewrite Nat.add_0_r, (proj2 (Nat.leb_le _ _) Hpos).
Qed.
#[export] Instance pair_lawful {A B} (opA : Operators A) bytesA okA (opB : Operators B) bytesB okB :
  Lawful opA bytesA okA -> Lawful opB bytesB okB -> Lawful (op_pair opA opB) (fun x => bytesA x.1 ++ bytesB x.2) (fun x => okA x.1 /\ okB x.2).
Proof.
  intros LA LB. split.
  - intros [x y] E. apply app_eq_nil in E as [E _]. by apply (lawful_bytes x) in E.
  - intros [x y]. by apply appends_seq; apply lawful_sn.
  - intros [x y] [Hx Hy]. apply (reads_seq (usn opA) _ x (fun x b => s <<- usn opB b; Done ((x, s.1), s.2))); [by apply lawful_usn| |].
    + apply (reads_map (usn opB) _ y (pair x)). by apply lawful_usn.
    + intros E. by apply (lawful_bytes y) in E.
Qed.

(** *** Containers *)
Section ContainerLaws.
Context {A C : Type} (elements : C -> list A) (empty : C) (insert : C -> A -> C) (op : Operators A) (bytes : A -> list Z) (ok : A -> Prop).
Context {L : Lawful op bytes ok}.
Definition all_bytes (l : list A) : list Z := concat (bytes <$> l).
Definition container_bytes (c : C) : list Z := le_bytes 4 (Z.of_nat (length (elements c))) ++ all_bytes (elements c).
(** The elements, put in one after the other, make the container again. *)
Definition container_ok (c : C) : Prop := short (elements c) /\ Forall ok (elements c) /\ foldl insert empty (elements c) = c.
Lemma sn_all_appends l : appends (sn_all op l) (all_bytes l).
Proof.
  induction l as [|x l IH]; [apply appends_nil|]. apply (appends_seq (sn op x) (sn_all op l)); [apply lawful_sn|done].
Qed.
Lemma usn_all_reads l : Forall ok l -> forall c, reads (usn_all insert op (length l) c) (all_bytes l) (foldl insert c l).
Proof.
  induction 1 as [|x l Hx _ IH]; intros c; [apply reads_done|]. unfold all_bytes. cbn [fmap list_fmap concat foldl length].
  apply (reads_seq (usn op) _ x (fun x => usn_all insert op (length l) (insert c x))); [by apply lawful_usn|apply IH|].
  intros E b _. destruct l as [|y l]; [done|]. apply app_eq_nil in E as [E _]. by apply (lawful_bytes y) in E.
Qed.
#[export] Instance container_lawful : Lawful (op_container elements empty insert op) container_bytes container_ok.
Proof.
  split; [done|intros c; apply appends_seq; [apply appends_write|apply sn_all_appends]|]. intros c (Hn & Hok & Hc).
  apply (reads_seq (usn op_u32) _ (Z.of_nat (length (elements c))) (fun n b => usn_all insert op (Z.to_nat n) empty b)).
  - apply (lawful_usn (op := op_u32)). unfold int_ok, short in *. cbn. lia.
  - rewrite Nat2Z.id. pose proof (usn_all_reads _ Hok empty) as K. by rewrite Hc in K.
  - intros E b _. destruct (elements c) as [|y l]; [cbn in *; by rewrite Hc|]. apply app_eq_nil in E as [E _]. by apply (lawful_bytes y) in E.
Qed.
End ContainerLaws.

(** Which containers are made again. *)
Lemma foldl_fold_left {A B} (f : B -> A -> B) (l : list A) : forall b, foldl f b l = fold_left f l b.
Proof. induction l as [|x l IH]; intros b; cbn; [done|apply IH]. Qed.
Lemma foldl_push_back {A} (l : list A) : forall l0, foldl push_back l0 l = l0 ++ l.
Proof. induction l as [|x l IH]; intros l0; cbn; [by rewrite app_nil_r|]. rewrite IH. unfold push_back. by rewrite <- app_assoc. Qed.
Lemma list_made {A} (ok : A -> Prop) (l : list A) : short l -> Forall ok l -> container_ok id [] push_back ok l.
Proof. intros H1 H2. split_and!; [done|done|]. apply foldl_push_back. Qed.
Lemma map_made {K V} `{StdLess K} (ok : K * V -> Prop) (m : list (K * V)) : short m -> Forall ok m -> msorted m ->
  container_ok id [] (fun m x => mput x.1 x.2 m) ok m.
Proof. intros H1 H2 H3. split_and!; [done|done|]. rewrite foldl_fold_left. exact (fold_mput_sorted m [] H3). Qed.
Lemma set_insert_last {A} `{StdLess A} (x : A) l : (forall y, y ∈ l -> kltb y x = true) -> set_insert x l = l ++ [x].
Proof.
  induction l as [|y l IH]; intros Hl; [done|]. cbn. assert (Hy : kltb y x = true) by (apply Hl; left).
  destruct (kltb x y) eqn:E; [by pose proof (kltb_trans _ _ _ Hy E) as K; rewrite kltb_irrefl in K|]. rewrite Hy, IH; [done|]. intros z Hz. apply Hl. by right.
Qed.
Lemma set_made {A} `{StdLess A} (ok : A -> Prop) (l : list A) : short l -> Forall ok l -> StronglySorted (fun a b => kltb a b = true) l ->
  container_ok id [] (fun l x => set_insert x l) ok l.
Proof.
  intros H1 H2 H3. split_and!; [done|done|]. clear H1 H2.
  assert (H0 : forall l1 l2, StronglySorted (fun a b : A => kltb a b = true) (l1 ++ l2) -> foldl (fun l x => set_insert x l) l1 l2 = l1 ++ l2).
  { intros l1 l2. revert l1. induction l2 as [|x l2 IH]; intros l1 Hs; cbn; [by rewrite app_nil_r|]. rewrite set_insert_last.
    - rewrite IH by (by rewrite <- app_assoc). by rewrite <- app_assoc.
    - intros y Hy. clear IH. induction l1 as [|z l1 IH1]; [by apply elem_of_nil in Hy|]. cbn in Hs. apply StronglySorted_inv in Hs as [Hs Hz].
      apply elem_of_cons in Hy as [->|Hy]; [|by apply IH1]. rewrite Forall_forall in Hz. apply Hz, elem_of_app. right. left. }
  by apply (H0 []).
Qed.

(** ** Packets *)
Definition head_bytes (h : PacketHead) : list Z := le_bytes 2 (ph_number h) ++ le_bytes 4 (ph_trans_id h) ++ le_bytes 4 (ph_flag h).
Definition head_ok (h : PacketHead) : Prop := int_ok 2 false (ph_number h) /\ int_ok 4 false (ph_trans_id h) /\ int_ok 4 false (ph_flag h).
#[export] Instance head_lawful : Lawful op_head head_bytes head_ok.
Proof.
  split; [done| |].
  - intros h. repeat (apply (appends_seq (addBuf _)); [apply appends_write|]). apply appends_write.
  - intros [n t f] (H1 & H2 & H3).
    apply (reads_seq (usn op_u16) _ n (fun n b => t <<- usn op_u32 b; f <<- usn op_u32 t.2; Done (mkPacketHead n t.1 f.1, f.2))); [by apply lawful_usn| |done].
    apply (reads_seq (usn op_u32) _ t (fun t b => f <<- usn op_u32 b; Done (mkPacketHead n t f.1, f.2))); [by apply lawful_usn| |done].
    apply (reads_map (usn op_u32) _ f (mkPacketHead n t)). by apply lawful_usn.
Qed.

(** A packet: a head and then a value, as every message writes and reads them.
    It is written whole or the writer throws; and what is written is read back,
    first the head by the constructor and then both by the message. *)
Theorem packet_read_back {T} (op : Operators T) bytes ok `{L : Lawful T op bytes ok} h v max_len cur : 0 < getThreadBuffer max_len cur ->
  sn (op_pair op_head op) (h, v) (new_PacketSn max_len cur) =
    (if 10 + blen (bytes v) <? getThreadBuffer max_len cur
     then Done (mkSendBuffer (head_bytes h ++ bytes v) (getThreadBuffer max_len cur)) else Throws) /\
  (head_ok h -> ok v -> exists b b', new_PacketUsn (head_bytes h ++ bytes v) = Done (h, b) /\ usn (op_pair op_head op) b = Done ((h, v), b')).
Proof.
  intros Hm. split.
  - rewrite (lawful_sn (op := op_pair op_head op) (h, v)) by done. cbn [s_bytes new_PacketSn s_max_length fst snd]. rewrite blen_app. done.
  - intros Hh Hv. destruct (lawful_usn (op := op_head) h Hh) as [H1 _]. destruct (lawful_usn (op := op_pair op_head op) (h, v) (conj Hh Hv)) as [_ H2].
    specialize (H1 [] (bytes v) (lawful_bytes v)). destruct (H2 []) as (pos & E & _). eexists _, _. split; [|exact E].
    unfold new_PacketUsn. cbn [app length] in H1. by rewrite H1.
Qed.

(** The number of elements a packet announces is not checked, and reading its
    last byte goes back to the first: when elements end where the packet ends,
    a list has as many elements as the packet says, whatever its length. *)
Lemma read_u32_aligned data j : (4 * j < length data)%nat -> (length data mod 4 = 0)%nat ->
  exists z j', usn op_u32 (mkRecvBuffer data (4 * j)) = Done (z, mkRecvBuffer data (4 * j')) /\ (4 * j' < length data)%nat /\
    z = le_value (take 4 (drop (4 * j) data)).
Proof.
  intros Hj Hd. apply Nat.Div0.div_exact in Hd. unfold op_u32, int_op. cbn [usn]. unfold get_int, getBuf, read. cbn [r_bytes _buff_pos].
  rewrite (proj2 (Nat.ltb_ge _ _)) by lia. destruct (Nat.eqb_spec (4 * j + 4) (length data)).
  - exists (le_value (take 4 (drop (4 * j) data))), 0%nat. split_and!; [done|lia|done].
  - exists (le_value (take 4 (drop (4 * j) data))), (j + 1)%nat. split_and!; [|lia|done]. cbn [obind fst snd]. unfold to_int. cbn [andb]. do 3 f_equal. lia.
Qed.
Lemma read_many_aligned data n : (length data mod 4 = 0)%nat -> forall c j, (4 * j < length data)%nat ->
  exists l b, usn_all push_back op_u32 n c (mkRecvBuffer data (4 * j)) = Done (l, b) /\ length l = (length c + n)%nat.
Proof.
  intros Hd. induction n as [|n IH]; intros c j Hj; [eexists _, _; split; [reflexivity|lia]|]. cbn [usn_all].
  destruct (read_u32_aligned data j Hj Hd) as (z & j' & -> & Hj' & _). cbn [obind fst snd].
  destruct (IH (push_back c z) j' Hj') as (l & b & E & Hl). exists l, b. split; [exact E|]. rewrite Hl. unfold push_back. rewrite length_app. cbn. lia.
Qed.
Theorem list_longer_than_packet data : data <> [] -> (length data mod 4 = 0)%nat ->
  exists l b, usn (op_list op_u32) (mkRecvBuffer data 0) = Done (l, b) /\ length l = Z.to_nat (le_value (take 4 data)).
Proof.
  intros Hne Hd. assert (H0 : (4 * 0 < length data)%nat) by (destruct data; [done|cbn; lia]). unfold op_list, op_container. cbn [usn]. unfold get_container.
  destruct (read_u32_aligned data 0 H0 Hd) as (z & j' & E & Hj' & ->). change (4 * 0)%nat with 0%nat in E. rewrite E. cbn [obind fst snd].
  destruct (read_many_aligned data (Z.to_nat (le_value (take 4 (drop (4 * 0) data)))) Hd [] j' Hj') as (l & b & E' & Hl). by exists l, b.
Qed.
Example eight_bytes_five_elements : fst <$> (match usn (op_list op_u32) (mkRecvBuffer [5; 0; 0; 0; 7; 0; 0; 0] 0) with Done x => Some x | _ => None end) = Some [7; 5; 7; 5; 7].
Proof. vm_compute. reflexivity. Qed.

(** A message with a list of named scores. *)
Definition demo_op : Operators (list (list Z * Z)) := op_list (op_pair op_string op_int).
Definition demo_head : PacketHead := mkPacketHead 3 1 0.
Definition demo_scores : list (list Z * Z) := [([65; 66], -5); ([], 70000)].
Lemma packet_read_back_witness :
  exists b b', new_PacketUsn (head_bytes demo_head ++ [2; 0; 0; 0; 2; 0; 0; 0; 65; 66; 251; 255; 255; 255; 0; 0; 0; 0; 112; 17; 1; 0]) = Done (demo_head, b) /\
    usn (op_pair op_head demo_op) b = Done ((demo_head, demo_scores), b').
Proof.
  destruct (packet_read_back demo_op _ _ demo_head demo_scores 100 0 eq_refl) as [_ H]. apply H.
  - split_and!; vm_compute; split; congruence.
  - apply list_made; [vm_compute; congruence|]. repeat constructor; vm_compute; congruence.
Defined.
