(* ===== verification/BitMask.v ===== *)
(** * Bit masks and packed fields

    battleserver/UpdateMask.h [UpdateMask], a set of numbers as the bits of an
    array of 32-bit blocks that is also used as an array of bytes;
    common/common_helper.h [CheckFlag]; common/update_object.h [UpdateObject],
    an array of 32-bit values of which it marks those that changed.  An access
    outside an array and a failed assertion are [None].  The header
    mask_update.h that update_object.h includes is not in the repository: its
    mask is an argument. *)
From S2P Require Import Prelude Bytes.

(** ** UpdateMask *)
Record UpdateMask := mkUpdateMask { mUpdateMask : list Z; mCount : Z; mBlocks : Z }.
Definition new_UpdateMask : UpdateMask := mkUpdateMask [] 0 0.
(** The blocks as bytes, on a little-endian machine. *)
Definition get_u8 (blocks : list Z) (k : Z) : option Z :=
  w ← blocks !! Z.to_nat (Z.shiftr k 2); Some (Z.land (Z.shiftr w (8 * Z.land k 3)) 255).
Definition put_u8 (blocks : list Z) (k v : Z) : option (list Z) :=
  w ← blocks !! Z.to_nat (Z.shiftr k 2);
  let s := 8 * Z.land k 3 in
  Some (<[Z.to_nat (Z.shiftr k 2) := Z.lor (Z.ldiff w (Z.shiftl 255 s)) (Z.shiftl v s)]> blocks).
Definition with_blocks (m : UpdateMask) (blocks : list Z) : UpdateMask := mkUpdateMask blocks (mCount m) (mBlocks m).
Definition SetBit (index : Z) (m : UpdateMask) : option UpdateMask :=
  guard (index < mCount m);;
  b ← get_u8 (mUpdateMask m) (Z.shiftr index 3);
  with_blocks m <$> put_u8 (mUpdateMask m) (Z.shiftr index 3) (u8 (Z.lor b (Z.shiftl 1 (Z.land index 7)))).
Definition UnsetBit (index : Z) (m : UpdateMask) : option UpdateMask :=
  guard (index < mCount m);;
  b ← get_u8 (mUpdateMask m) (Z.shiftr index 3);
  with_blocks m <$> put_u8 (mUpdateMask m) (Z.shiftr index 3) (Z.land b (Z.lxor 255 (Z.shiftl 1 (Z.land index 7)))).
Definition GetBit (index : Z) (m : UpdateMask) : option bool :=
  if index <? mCount m then
    b ← get_u8 (mUpdateMask m) (Z.shiftr index 3); Some (negb (Z.land b (Z.shiftl 1 (Z.land index 7)) =? 0))
  else Some false.
(** [for (x = mBlocks - 1; x; x--)]; [n] is [x] as a number of turns. *)
Fixpoint last_block (n : nat) (blocks : list Z) : option Z :=
  match n with
  | O => Some 0
  | S n' => w ← blocks !! n; if w =? 0 then last_block n' blocks else Some (Z.of_nat n)
  end.
Definition GetUpdateBlockCount (m : UpdateMask) : option Z :=
  guard (0 < mBlocks m);; x ← last_block (Z.to_nat (mBlocks m - 1)) (mUpdateMask m); Some (u32 (x + 1)).
Definition blocks_of (count : Z) : Z := Z.shiftr count 5 + if Z.land count 31 =? 0 then 0 else 1.
Definition SetCount (valuesCount : Z) : UpdateMask :=
  mkUpdateMask (replicate (Z.to_nat (blocks_of valuesCount)) 0) valuesCount (blocks_of valuesCount).
Definition Clear (m : UpdateMask) : UpdateMask := with_blocks m (replicate (Z.to_nat (mBlocks m)) 0).
(** [operator =] of another mask, and of the mask itself: [SetCount] has
    deleted the array before it is copied. *)
Definition assign (mask : UpdateMask) : UpdateMask := with_blocks (SetCount (mCount mask)) (mUpdateMask mask).
Definition assign_self (m : UpdateMask) : UpdateMask := SetCount (mCount m).
(** [operator &=] and [operator |=] run over the blocks of the left mask. *)
Fixpoint combine_blocks (f : Z -> Z -> Z) (l k : list Z) : option (list Z) :=
  match l, k with
  | [], _ => Some []
  | a :: l, b :: k => cons (f a b) <$> combine_blocks f l k
  | _ :: _, [] => None
  end.
Definition combine_with (f : Z -> Z -> Z) (mask m : UpdateMask) : option UpdateMask :=
  guard (mCount mask <= mCount m);; with_blocks m <$> combine_blocks f (mUpdateMask m) (mUpdateMask mask).
Definition and_eq := combine_with Z.land.
Definition or_eq := combine_with Z.lor.
Definition mask_and (m mask : UpdateMask) : option UpdateMask := guard (mCount mask <= mCount m);; and_eq mask (assign m).
Definition mask_or (m mask : UpdateMask) : option UpdateMask := guard (mCount mask <= mCount m);; or_eq mask (assign m).

(** ** CheckFlag *)
(** [1 << f] of an [int]: undefined from 32 on. *)
Definition flag_bit (f : Z) : option Z := guard (f < 32);; Some (u32 (Z.shiftl 1 f)).
Definition addFlag (v f : Z) : option Z := b ← flag_bit f; Some (Z.lor v b).
Definition removeFlag (v f : Z) : option Z := b ← flag_bit f; Some (Z.ldiff v b).
Definition hasFlag (v f : Z) : option bool := b ← flag_bit f; Some (0 <? Z.land v b).
Definition addFlags (v flag : Z) : Z := Z.lor v flag.
Definition removeFlags (v flag : Z) : Z := Z.ldiff v flag.

(** ** UpdateMask as a set *)
Definition mask_ok (m : UpdateMask) : Prop :=
  0 <= mCount m /\ mBlocks m = blocks_of (mCount m) /\ length (mUpdateMask m) = Z.to_nat (mBlocks m) /\ Forall is_u32 (mUpdateMask m).
(** The members. *)
Definition member (m : UpdateMask) (i : Z) : bool := Z.testbit (default 0 (mUpdateMask m !! Z.to_nat (i / 32))) (i mod 32).

Lemma bits_ext a b : (forall n, 0 <= n -> Z.testbit a n = Z.testbit b n) -> a = b.
Proof. apply Z.bits_inj'. Qed.
Lemma bit_255 n : 0 <= n -> Z.testbit 255 n = (n <? 8).
Proof. intros H. change 255 with (Z.ones 8). by apply Z.testbit_ones_nonneg. Qed.
Lemma bit_shift1 k n : 0 <= k -> Z.testbit (Z.shiftl 1 k) n = (k =? n).
Proof. intros H. rewrite Z.shiftl_1_l. by apply Z.pow2_bits_eqb. Qed.
(** Putting a byte into a block changes just its eight bits. *)
Lemma put_byte_bits w v s n : 0 <= s -> 0 <= n ->
  Z.testbit (Z.lor (Z.ldiff w (Z.shiftl 255 s)) (Z.shiftl (u8 v) s)) n =
  if (s <=? n) && (n <? s + 8) then Z.testbit v (n - s) else Z.testbit w n.
Proof.
  intros Hs Hn. rewrite Z.lor_spec, Z.ldiff_spec, !Z.shiftl_spec by done. destruct (Z.leb_spec s n).
  - rewrite bit_255 by lia. unfold u8. rewrite Z.testbit_mod_pow2 by lia. cbn [andb].
    destruct (Z.ltb_spec n (s + 8)), (Z.ltb_spec (n - s) 8); try lia; by rewrite ?andb_false_r, ?andb_true_r, ?orb_false_r.
  - rewrite !(Z.testbit_neg_r _ (n - s)) by lia. by rewrite andb_true_r, orb_false_r.
Qed.
Lemma byte_bits w s n : 0 <= s -> 0 <= n -> Z.testbit (Z.land (Z.shiftr w s) 255) n = (n <? 8) && Z.testbit w (n + s).
Proof. intros Hs Hn. rewrite Z.land_spec, Z.shiftr_spec, bit_255 by done. apply andb_comm. Qed.

(** A bit by its block and by its byte. *)
Lemma block_index i : Z.shiftr (Z.shiftr i 3) 2 = i / 32.
Proof. rewrite Z.shiftr_shiftr by lia. by rewrite Z.shiftr_div_pow2 by lia. Qed.
Lemma bit_position i : 8 * Z.land (Z.shiftr i 3) 3 + Z.land i 7 = i mod 32 /\ 0 <= 8 * Z.land (Z.shiftr i 3) 3 /\ 0 <= Z.land i 7 < 8.
Proof.
  assert (E3 : forall x, Z.land x 3 = x mod 4) by (intros x; by apply (Z.land_ones x 2)).
  assert (E7 : Z.land i 7 = i mod 8) by by apply (Z.land_ones i 3).
  rewrite E3, E7, Z.shiftr_div_pow2 by lia. change (2 ^ 3) with 8. pose proof (Z.mod_pos_bound i 8). pose proof (Z.mod_pos_bound (i / 8) 4).
  split; [|lia]. change 32 with (8 * 4). rewrite Z.rem_mul_r by lia. lia.
Qed.
Lemma blocks_of_bound count i : 0 <= i < count -> i / 32 < blocks_of count.
Proof.
  intros H. unfold blocks_of. change 31 with (Z.ones 5). rewrite Z.land_ones, Z.shiftr_div_pow2 by lia. change (2 ^ 5) with 32.
  destruct (Z.eqb_spec (count mod 32) 0); Z.div_mod_to_equations; lia.
Qed.
Lemma mask_block m i : mask_ok m -> 0 <= i < mCount m -> exists w, mUpdateMask m !! Z.to_nat (i / 32) = Some w /\ is_u32 w.
Proof.
  intros (H0 & Hb & Hl & Hu) Hi. pose proof (blocks_of_bound _ _ Hi). assert (0 <= i / 32) by (apply Z.div_pos; lia).
  destruct (lookup_lt_is_Some_2 (mUpdateMask m) (Z.to_nat (i / 32))) as [w Hw]; [lia|]. exists w. split; [done|]. by eapply Forall_lookup_1.
Qed.
Lemma u32_of_bits w : (forall n, 32 <= n -> Z.testbit w n = false) -> 0 <= w -> is_u32 w.
Proof.
  intros H H0. destruct (decide (w = 0)) as [->|]; [done|]. split; [done|]. apply Z.log2_lt_pow2; [lia|]. apply Z.nle_gt. intros Hl.
  pose proof (Z.bit_log2 w ltac:(lia)) as K. by rewrite H in K.
Qed.
Lemma u32_high w n : is_u32 w -> 32 <= n -> Z.testbit w n = false.
Proof. intros [H0 H1] Hn. destruct (decide (w = 0)) as [->|]; [apply Z.bits_0|]. apply Z.bits_above_log2; [done|]. apply Z.log2_lt_pow2; [lia|]. eapply Z.lt_le_trans; [exact H1|]. by apply Z.pow_le_mono_r. Qed.

(** The block that [put_u8] leaves where bit [i] of the mask is set to [v]. *)
Definition block_with (v : bool) (i w : Z) : Z := if v then Z.lor w (Z.shiftl 1 (i mod 32)) else Z.ldiff w (Z.shiftl 1 (i mod 32)).
Definition byte_with (v : bool) (i b : Z) : Z := if v then u8 (Z.lor b (Z.shiftl 1 (Z.land i 7))) else Z.land b (Z.lxor 255 (Z.shiftl 1 (Z.land i 7))).
Lemma byte_with_bits v i b n : 0 <= n -> 0 <= Z.land i 7 < 8 -> Z.testbit (byte_with v i b) n = if n <? 8 then (if Z.land i 7 =? n then v else Z.testbit b n) else false.
Proof.
  intros Hn Hi. unfold byte_with. destruct v.
  - unfold u8. rewrite Z.testbit_mod_pow2, Z.lor_spec, bit_shift1 by lia. destruct (n <? 8); [cbn [andb]|done]. by destruct (_ =? n); rewrite ?orb_true_r, ?orb_false_r.
  - rewrite Z.land_spec, Z.lxor_spec, bit_shift1, bit_255 by lia. destruct (Z.ltb_spec n 8), (Z.eqb_spec (Z.land i 7) n); cbn; rewrite ?andb_true_r, ?andb_false_r; done || lia.
Qed.
Lemma block_after v i w : is_u32 w ->
  let s := 8 * Z.land (Z.shiftr i 3) 3 in
  Z.lor (Z.ldiff w (Z.shiftl 255 s)) (Z.shiftl (byte_with v i (Z.land (Z.shiftr w s) 255)) s) = block_with v i w.
Proof.
  intros Hw s. destruct (bit_position i) as (Hp & Hs & Hk). fold s in Hp, Hs.
  assert (Hsmall : u8 (byte_with v i (Z.land (Z.shiftr w s) 255)) = byte_with v i (Z.land (Z.shiftr w s) 255)).
  { apply bits_ext. intros n Hn. unfold u8. rewrite Z.testbit_mod_pow2, byte_with_bits by lia. by destruct (n <? 8). }
  rewrite <- Hsmall. apply bits_ext. intros n Hn. rewrite put_byte_bits by lia.
  unfold block_with. rewrite <- Hp. assert (Hone : forall x, Z.testbit (if v then Z.lor x (Z.shiftl 1 (s + Z.land i 7)) else Z.ldiff x (Z.shiftl 1 (s + Z.land i 7))) n =
    if s + Z.land i 7 =? n then v else Z.testbit x n).
  { intros x. destruct v; rewrite ?Z.lor_spec, ?Z.ldiff_spec, bit_shift1 by lia; destruct (_ =? n); by rewrite ?orb_true_r, ?orb_false_r, ?andb_true_r, ?andb_false_r. }
  rewrite Hone. destruct (Z.leb_spec s n); cbn [andb]; [|destruct (Z.eqb_spec (s + Z.land i 7) n); done || lia].
  rewrite byte_with_bits, byte_bits by lia. replace (n - s + s) with n by lia.
  destruct (Z.ltb_spec n (s + 8)), (Z.ltb_spec (n - s) 8), (Z.eqb_spec (Z.land i 7) (n - s)), (Z.eqb_spec (s + Z.land i 7) n); cbn [andb]; done || lia.
Qed.

Lemma block_with_ok v i w : 0 <= i -> is_u32 w -> is_u32 (block_with v i w).
Proof.
  intros Hi Hw. assert (Hm : 0 <= i mod 32 < 32) by (apply Z.mod_pos_bound; lia). apply u32_of_bits.
  - intros n Hn. unfold block_with. destruct v; rewrite ?Z.lor_spec, ?Z.ldiff_spec, (u32_high w n), bit_shift1 by (done || lia); [|done].
    destruct (Z.eqb_spec (i mod 32) n); [lia|done].
  - destruct Hw. unfold block_with. destruct v; [apply Z.lor_nonneg; split; [lia|]|apply Z.ldiff_nonneg; left; lia]. rewrite Z.shiftl_nonneg. lia.
Qed.
(** A mask with one block changed. *)
Definition set_member (v : bool) (i : Z) (m : UpdateMask) : UpdateMask :=
  with_blocks m (alter (block_with v i) (Z.to_nat (i / 32)) (mUpdateMask m)).
Lemma set_member_ok v i m : 0 <= i -> mask_ok m -> mask_ok (set_member v i m).
Proof.
  intros Hi (H0 & Hb & Hl & Hu). split_and!; [done|done|cbn; by rewrite length_alter|]. cbn. apply Forall_alter; [done|]. intros w _ Hw. by apply block_with_ok.
Qed.
Lemma member_set v i j m : mask_ok m -> 0 <= i < mCount m -> 0 <= j -> member (set_member v i m) j = if j =? i then v else member m j.
Proof.
  intros Hm Hi Hj. destruct (mask_block m i Hm Hi) as (w & Hw & _). unfold member. cbn.
  destruct (decide (j / 32 = i / 32)) as [E|E].
  - rewrite E, list_lookup_alter_eq, Hw. cbn. assert (Hb : Z.testbit (block_with v i w) (j mod 32) = if i mod 32 =? j mod 32 then v else Z.testbit w (j mod 32)).
    { pose proof (Z.mod_pos_bound i 32). unfold block_with. destruct v; rewrite ?Z.lor_spec, ?Z.ldiff_spec, bit_shift1 by lia; destruct (_ =? _); by rewrite ?orb_true_r, ?orb_false_r, ?andb_true_r, ?andb_false_r. }
    rewrite Hb. destruct (Z.eqb_spec (i mod 32) (j mod 32)), (Z.eqb_spec j i); try done; [|by subst]. pose proof (Z.div_mod i 32). pose proof (Z.div_mod j 32). lia.
  - rewrite list_lookup_alter_ne by (assert (0 <= i / 32) by (apply Z.div_pos; lia); assert (0 <= j / 32) by (apply Z.div_pos; lia); lia).
    destruct (Z.eqb_spec j i); [by subst|done].
Qed.
Lemma bit_op (v : bool) i m : mask_ok m -> 0 <= i < mCount m -> (if v then SetBit i m else UnsetBit i m) = Some (set_member v i m).
Proof.
  intros Hm Hi. destruct (mask_block m i Hm Hi) as (w & Hw & Hu).
  assert (E : (if v then SetBit i m else UnsetBit i m) = (b ← get_u8 (mUpdateMask m) (Z.shiftr i 3); with_blocks m <$> put_u8 (mUpdateMask m) (Z.shiftr i 3) (byte_with v i b))).
  { destruct v; [unfold SetBit|unfold UnsetBit]; by rewrite option_guard_True by lia. }
  rewrite E. unfold get_u8, put_u8. rewrite !block_index, Hw. cbn [mbind option_bind]. rewrite ?block_index, ?Hw. cbn [mbind option_bind fmap option_fmap option_map].
  rewrite block_after by done. unfold set_member. do 2 f_equal. symmetry. rewrite list_insert_alter.
  revert Hw. generalize (mUpdateMask m) as l. generalize (Z.to_nat (i / 32)) as k. induction k as [|k IH]; intros [|x l]; try done; cbn; [by intros [= ->]|]. intros H. f_equal. by apply IH.
Qed.
Lemma GetBit_member i m : mask_ok m -> 0 <= i -> GetBit i m = Some ((i <? mCount m) && member m i).
Proof.
  intros Hm Hi. unfold GetBit. destruct (Z.ltb_spec i (mCount m)); [|done]. destruct (mask_block m i Hm ltac:(lia)) as (w & Hw & Hu).
  unfold get_u8. rewrite block_index, Hw. cbn [mbind option_bind andb]. do 2 f_equal. unfold member. rewrite Hw. cbn [default].
  destruct (bit_position i) as (Hp & Hs & Hk). rewrite <- Hp. set (s := 8 * _) in *. set (k := Z.land i 7) in *.
  destruct (Z.testbit w (s + k)) eqn:E.
  - rewrite (proj2 (Z.eqb_neq _ _)); [done|]. intros H0. apply (f_equal (fun z => Z.testbit z k)) in H0.
    rewrite Z.land_spec, byte_bits, bit_shift1, Z.eqb_refl, Z.bits_0, (Z.add_comm k s), E in H0 by lia. rewrite (proj2 (Z.ltb_lt _ _)) in H0 by lia. done.
  - rewrite (proj2 (Z.eqb_eq _ _)); [done|]. apply bits_ext. intros n Hn. rewrite Z.land_spec, byte_bits, bit_shift1, Z.bits_0 by lia.
    destruct (Z.eqb_spec k n) as [<-|]; [|apply andb_false_r]. rewrite (Z.add_comm k s), E. by rewrite andb_false_r.
Qed.
Lemma SetCount_ok c : 0 <= c -> mask_ok (SetCount c) /\ forall i, member (SetCount c) i = false.
Proof.
  intros Hc. split.
  - split_and!; [done|done|apply length_replicate|]. apply Forall_replicate. split; [done|]. reflexivity.
  - intros i. unfold member. cbn. destruct (replicate _ _ !! _) as [w|] eqn:E; [|apply Z.bits_0]. apply lookup_replicate in E as [-> _]. apply Z.bits_0.
Qed.

(** Two masks, block by block. *)
Lemma combine_blocks_some f l : forall k, (length l <= length k)%nat -> exists r, combine_blocks f l k = Some r /\ length r = length l /\
  forall n, r !! n = (a ← l !! n; b ← k !! n; Some (f a b)).
Proof.
  induction l as [|a l IH]; intros [|b k] H; cbn in H; try lia; [by exists []|by exists []|]. destruct (IH k ltac:(lia)) as (r & E & Hl & Hr).
  exists (f a b :: r). cbn. rewrite E. split_and!; [done|cbn; lia|]. intros [|n]; [done|]. apply Hr.
Qed.
Lemma combine_blocks_none f l : forall k, (length k < length l)%nat -> combine_blocks f l k = None.
Proof. induction l as [|a l IH]; intros [|b k] H; cbn in *; try lia; [done|]. by rewrite IH by lia. Qed.
Lemma combine_ok f m mask : mask_ok m -> mask_ok mask -> mCount mask = mCount m -> (forall a b, is_u32 a -> is_u32 b -> is_u32 (f a b)) ->
  exists m', combine_with f mask m = Some m' /\ mask_ok m' /\ mCount m' = mCount m /\
    forall n, mUpdateMask m' !! n = (a ← mUpdateMask m !! n; b ← mUpdateMask mask !! n; Some (f a b)).
Proof.
  intros (H0 & Hb & Hl & Hu) (K0 & Kb & Kl & Ku) Hc Hf. unfold combine_with. rewrite option_guard_True by lia. cbn [mbind option_bind].
  destruct (combine_blocks_some f (mUpdateMask m) (mUpdateMask mask)) as (r & E & Hr & Hn); [rewrite Hl, Kl, Hb, Kb, Hc; lia|]. rewrite E.
  exists (with_blocks m r). split_and!; [done| |done|exact Hn]. split_and!; [done|done|cbn; by rewrite Hr|]. cbn. apply Forall_lookup. intros n w. rewrite Hn.
  destruct (mUpdateMask m !! n) as [a|] eqn:Ea; [|done]. destruct (mUpdateMask mask !! n) as [b|] eqn:Eb; [|done]. intros [= <-].
  apply Hf; [exact (Forall_lookup_1 _ _ _ _ Hu Ea)|exact (Forall_lookup_1 _ _ _ _ Ku Eb)].
Qed.
Lemma land_u32 a b : is_u32 a -> is_u32 b -> is_u32 (Z.land a b).
Proof. intros Ha Hb. apply u32_of_bits; [intros n Hn; by rewrite Z.land_spec, (u32_high a)|]. apply Z.land_nonneg. left. apply Ha. Qed.
Lemma lor_u32 a b : is_u32 a -> is_u32 b -> is_u32 (Z.lor a b).
Proof. intros Ha Hb. apply u32_of_bits; [intros n Hn; by rewrite Z.lor_spec, (u32_high a), (u32_high b)|]. apply Z.lor_nonneg. split; [apply Ha|apply Hb]. Qed.

(** [UpdateMask] is a set of the numbers below [mCount]: [GetBit] is
    membership, [SetBit] and [UnsetBit] put one number in or take it out,
    [SetCount] makes an empty set, and the operators are intersection and union
    of sets of the same count. *)
Theorem UpdateMask_is_a_set m : mask_ok m ->
  (forall i, 0 <= i -> GetBit i m = Some ((i <? mCount m) && member m i)) /\
  (forall i (v : bool), 0 <= i < mCount m -> exists m', (if v then SetBit i m else UnsetBit i m) = Some m' /\ mask_ok m' /\ mCount m' = mCount m /\
     forall j, 0 <= j -> member m' j = if j =? i then v else member m j) /\
  (forall mask, mask_ok mask -> mCount mask = mCount m ->
     exists a o, and_eq mask m = Some a /\ or_eq mask m = Some o /\ mask_ok a /\ mask_ok o /\
       forall j, 0 <= j < mCount m -> member a j = member m j && member mask j /\ member o j = member m j || member mask j).
Proof.
  intros Hm. split_and!.
  - intros i. by apply GetBit_member.
  - intros i v Hi. exists (set_member v i m). split_and!; [by apply bit_op|apply set_member_ok; [lia|done]|done|]. intros j. by apply member_set.
  - intros mask Hk Hc. destruct (combine_ok Z.land m mask Hm Hk Hc land_u32) as (a & Ea & Ha & Hac & Hal).
    destruct (combine_ok Z.lor m mask Hm Hk Hc lor_u32) as (o & Eo & Ho & Hoc & Hol). exists a, o. split_and!; [done..|]. intros j Hj.
    destruct (mask_block m j Hm Hj) as (w & Hw & _), (mask_block mask j Hk ltac:(by rewrite Hc)) as (x & Hx & _).
    unfold member. rewrite Hal, Hol, Hw, Hx. cbn. by rewrite Z.land_spec, Z.lor_spec.
Qed.
(** With a mask of fewer blocks the operators, whose assertion holds, read
    past its end. *)
Lemma combine_beyond f m mask : mask_ok m -> mask_ok mask -> mBlocks mask < mBlocks m -> combine_with f mask m = None.
Proof.
  intros (H0 & Hb & Hl & Hu) (K0 & Kb & Kl & Ku) Hc. unfold combine_with. case_guard; [|done]. cbn [mbind option_bind].
  assert (0 <= mBlocks mask) by (rewrite Kb; unfold blocks_of; rewrite Z.shiftr_div_pow2 by lia; pose proof (Z.div_pos (mCount mask) (2 ^ 5)); case_match; lia).
  by rewrite combine_blocks_none by lia.
Qed.

(** The blocks to send: all behind them are zero. *)
Lemma last_block_spec n blocks : (n < length blocks)%nat -> exists x, last_block n blocks = Some x /\ 0 <= x <= Z.of_nat n /\
  (forall k, x < Z.of_nat k <= Z.of_nat n -> blocks !! k = Some 0) /\ (x = 0 \/ exists w, blocks !! Z.to_nat x = Some w /\ w <> 0).
Proof.
  induction n as [|n IH]; intros Hn; [exists 0; split_and!; [done|lia|lia|intros k Hk; lia|by left]|]. cbn [last_block].
  destruct (lookup_lt_is_Some_2 blocks (S n) Hn) as [w Hw]. rewrite Hw. cbn [mbind option_bind]. destruct (Z.eqb_spec w 0) as [->|Hne].
  - destruct (IH ltac:(lia)) as (x & E & Hx & Hz & Hl). exists x. split_and!; [done|lia|lia| |done]. intros k Hk.
    destruct (decide (k = S n)) as [->|]; [done|]. apply Hz. lia.
  - exists (Z.of_nat (S n)). split_and!; [done|lia|lia|intros k Hk; lia|]. right. exists w. by rewrite Nat2Z.id.
Qed.
Lemma GetUpdateBlockCount_spec m : mask_ok m -> 0 < mBlocks m < 2 ^ 32 -> exists n, GetUpdateBlockCount m = Some n /\ 1 <= n <= mBlocks m /\
  (forall k, n <= Z.of_nat k < mBlocks m -> mUpdateMask m !! k = Some 0) /\ (n = 1 \/ exists w, mUpdateMask m !! Z.to_nat (n - 1) = Some w /\ w <> 0).
Proof.
  intros (H0 & Hb & Hl & Hu) Hn. unfold GetUpdateBlockCount. rewrite option_guard_True by lia. cbn [mbind option_bind].
  destruct (last_block_spec (Z.to_nat (mBlocks m - 1)) (mUpdateMask m)) as (x & -> & Hx & Hz & Hlast); [lia|]. cbn [mbind option_bind].
  exists (x + 1). unfold u32. rewrite Z.mod_small by lia. split_and!; [done|lia|lia|intros k Hk; apply Hz; lia|]. replace (x + 1 - 1) with x by lia.
  destruct Hlast as [->|H]; [by left|by right].
Qed.
(** A mask without blocks is read at 2^32 - 1; a mask assigned to itself is empty. *)
Example block_count_of_nothing : GetUpdateBlockCount (SetCount 0) = None.
Proof. reflexivity. Qed.
Example self_assignment_clears : (m ← SetBit 3 (SetCount 40); GetBit 3 (assign_self m)) = Some false /\ (m ← SetBit 3 (SetCount 40); GetBit 3 (assign m)) = Some true.
Proof. split; reflexivity. Qed.
Example smaller_mask : mCount (SetCount 32) <= mCount (SetCount 33) /\ and_eq (SetCount 32) (SetCount 33) = None.
Proof. split; [discriminate|reflexivity]. Qed.

(** ** Flags *)
Lemma flags_bits v f g : 0 <= f < 32 -> is_u32 v -> 0 <= g < 32 ->
  exists a r, addFlag v f = Some a /\ removeFlag v f = Some r /\ hasFlag v g = Some (Z.testbit v g) /\
    Z.testbit a g = (f =? g) || Z.testbit v g /\ Z.testbit r g = negb (f =? g) && Z.testbit v g.
Proof.
  intros Hf Hv Hg. assert (Hb : forall f, 0 <= f < 32 -> flag_bit f = Some (Z.shiftl 1 f)).
  { intros k Hk. unfold flag_bit. rewrite option_guard_True by lia. cbn. unfold u32. rewrite Z.shiftl_1_l, Z.mod_small; [done|].
    split; [by apply Z.pow_nonneg|]. apply Z.pow_lt_mono_r; lia. }
  unfold addFlag, removeFlag, hasFlag. rewrite !Hb by done. cbn [mbind option_bind]. eexists _, _. split_and!; [done..| | |].
  - f_equal. destruct (Z.testbit v g) eqn:E.
    + apply Z.ltb_lt. assert (H0 : 0 <= Z.land v (Z.shiftl 1 g)) by (apply Z.land_nonneg; left; apply Hv).
      destruct (Z.eq_dec (Z.land v (Z.shiftl 1 g)) 0) as [Hz|]; [|lia]. apply (f_equal (fun z => Z.testbit z g)) in Hz.
      by rewrite Z.land_spec, bit_shift1, Z.eqb_refl, E, Z.bits_0 in Hz by lia.
    + apply Z.ltb_ge. rewrite (bits_ext (Z.land v (Z.shiftl 1 g)) 0); [done|]. intros n Hn. rewrite Z.land_spec, bit_shift1, Z.bits_0 by lia.
      destruct (Z.eqb_spec g n) as [<-|]; [by rewrite E|apply andb_false_r].
  - rewrite Z.lor_spec, bit_shift1 by lia. apply orb_comm.
  - rewrite Z.ldiff_spec, bit_shift1 by lia. apply andb_comm.
Qed.

(** ** UpdateObject *)
Section UpdateObject.
Context {M : Type} (setBit : Z -> M -> M) (setAll : M -> M).
Record UpdateObject := mkUpdateObject { _UValues : list Z; _UVCount : Z; _UpdateMask : M }.
(** The constructor, with the mask of [nValusCount] values. *)
Definition new_UpdateObject (nValusCount : Z) (mask : M) : UpdateObject := mkUpdateObject (replicate (Z.to_nat nValusCount) 0) nValusCount mask.
Definition value (index : Z) (o : UpdateObject) : option Z := guard (index < _UVCount o);; _UValues o !! Z.to_nat index.
Definition store (index v : Z) (o : UpdateObject) : UpdateObject := mkUpdateObject (<[Z.to_nat index := v]> (_UValues o)) (_UVCount o) (_UpdateMask o).
Definition mark (index : Z) (o : UpdateObject) : UpdateObject := mkUpdateObject (_UValues o) (_UVCount o) (setBit index (_UpdateMask o)).
Definition setUpdateMaskAll (o : UpdateObject) : UpdateObject := mkUpdateObject (_UValues o) (_UVCount o) (setAll (_UpdateMask o)).
Definition getU32Value (index : Z) (o : UpdateObject) : option Z := value index o.
Definition getS32Value (index : Z) (o : UpdateObject) : option Z := i32 <$> value index o.
Definition setU32Value (index v : Z) (o : UpdateObject) : option UpdateObject :=
  w ← value index o; Some (if w =? v then o else mark index (store index v o)).
Definition setS32Value (index v : Z) (o : UpdateObject) : option UpdateObject :=
  w ← value index o; Some (if i32 w =? v then o else mark index (store index (u32 v) o)).
(** The copy that is changed is not stored; for the other field [memcpy] writes
    behind it. *)
Definition setU16Value (index v filed : Z) (o : UpdateObject) : option UpdateObject :=
  w ← value index o;
  if filed =? 0 then Some (if Z.lor (Z.ldiff w 0xFFFF) (u16 v) =? w then o else mark index o) else None.
Definition getU16Value (index filed : Z) (o : UpdateObject) : option Z :=
  w ← value index o;
  if filed =? 1 then Some (Z.land w 0xFFFF) else if filed =? 0 then Some (Z.land (Z.shiftr w 16) 0xFFFF) else None.
Definition setU8Value (index v filed : Z) (o : UpdateObject) : option UpdateObject :=
  w ← value index o;
  let w' := if filed =? 0 then u32 (Z.shiftl v 24 + Z.land w 0x0FFF)
            else if filed =? 1 then u32 (Z.shiftl v 16 + Z.land w 0xF0FF)
            else if filed =? 2 then u32 (Z.shiftl v 8 + Z.land w 0xFF0F)
            else if filed =? 3 then u32 (v + Z.land w 0xFFF0) else w in
  let o := store index w' o in
  Some (if w =? w' then o else mark index o).
Definition getU8Value (index filed : Z) (o : UpdateObject) : option Z :=
  w ← value index o;
  if filed =? 0 then Some (Z.land (Z.shiftr (Z.land w 0xF000) 24) 0xFF)
  else if filed =? 1 then Some (Z.land (Z.shiftr (Z.land w 0x0F00) 16) 0xFF)
  else if filed =? 2 then Some (Z.land (Z.shiftr (Z.land w 0x00F0) 8) 0xFF)
  else if filed =? 3 then Some (Z.land (Z.land w 0x000F) 0xFF) else None.
Definition getU64Value (index : Z) (o : UpdateObject) : option Z :=
  guard (u32 (index + 1) < _UVCount o);;
  a ← _UValues o !! Z.to_nat index; b ← _UValues o !! Z.to_nat (u32 (index + 1)); Some (u64 (a + Z.shiftl b 32)).
Definition setU64Value (index v : Z) (o : UpdateObject) : option UpdateObject :=
  w ← getU64Value index o;
  Some (if w =? v then o
        else mark (u32 (index + 1)) (mark index (store (u32 (index + 1)) (Z.land (Z.shiftr v 32) 0xffffffff) (store index (Z.land v 0xffffffff) o)))).
(** [setU32Flag] and its three relatives. *)
Definition update_flag (f : Z -> option Z) (index : Z) (o : UpdateObject) : option UpdateObject :=
  w ← value index o; w ← f w; Some (mark index (store index w o)).
Definition setU32Flag (index flag : Z) := update_flag (fun w => addFlag w flag) index.
Definition setU32Flags (index flag : Z) := update_flag (fun w => Some (addFlags w flag)) index.
Definition removeU32Flags (index flag : Z) := update_flag (fun w => Some (removeFlags w flag)) index.
Definition removeU32Flag (index flag : Z) := update_flag (fun w => removeFlag w flag) index.
Definition hasU32Flag (index flag : Z) (o : UpdateObject) : option bool := w ← value index o; hasFlag w flag.

Definition object_ok (o : UpdateObject) : Prop := 0 <= _UVCount o < 2 ^ 32 /\ length (_UValues o) = Z.to_nat (_UVCount o) /\ Forall is_u32 (_UValues o).
Lemma value_some index o : object_ok o -> 0 <= index < _UVCount o -> exists w, value index o = Some w /\ is_u32 w /\ _UValues o !! Z.to_nat index = Some w.
Proof.
  intros (H0 & Hl & Hu) Hi. unfold value. rewrite option_guard_True by lia. destruct (lookup_lt_is_Some_2 (_UValues o) (Z.to_nat index)) as [w Hw]; [lia|].
  exists w. split_and!; [done| |done]. exact (Forall_lookup_1 _ _ _ _ Hu Hw).
Qed.
Lemma object_stored index v o : object_ok o -> is_u32 v -> object_ok (mark index (store index v o)).
Proof. intros (H0 & Hl & Hu) Hv. split_and!; [apply H0..|cbn; by rewrite length_insert|]. cbn. by apply Forall_insert. Qed.
Lemma value_stored index v o j : object_ok o -> 0 <= index < _UVCount o -> 0 <= j < _UVCount o ->
  value j (mark index (store index v o)) = if j =? index then Some v else value j o.
Proof.
  intros (H0 & Hl & Hu) Hi Hj. unfold value. cbn. rewrite !option_guard_True by lia. destruct (Z.eqb_spec j index) as [->|].
  - by rewrite list_lookup_insert_eq by lia.
  - by rewrite list_lookup_insert_ne by lia.
Qed.

(** A value that is set is read back, the others stay, and it is marked just
    when it changes. *)
Theorem setU32Value_correct index v o : object_ok o -> 0 <= index < _UVCount o -> is_u32 v ->
  exists o', setU32Value index v o = Some o' /\ object_ok o' /\ getU32Value index o' = Some v /\
    (forall j, 0 <= j < _UVCount o -> j <> index -> getU32Value j o' = getU32Value j o) /\
    _UpdateMask o' = if decide (getU32Value index o = Some v) then _UpdateMask o else setBit index (_UpdateMask o).
Proof.
  intros Ho Hi Hv. destruct (value_some index o Ho Hi) as (w & Hw & _ & _). unfold setU32Value, getU32Value. rewrite Hw. cbn [mbind option_bind].
  destruct (Z.eqb_spec w v) as [->|Hne].
  - exists o. rewrite decide_True by done. split_and!; [done|apply Ho..|done|done|done].
  - exists (mark index (store index v o)). rewrite decide_False by congruence. split; [done|]. split; [by apply object_stored|]. split_and!; [|intros j Hj Hne'|done].
    + rewrite value_stored by done. by rewrite Z.eqb_refl.
    + rewrite value_stored by done. by rewrite (proj2 (Z.eqb_neq _ _) Hne').
Qed.
(** Three of the four bytes are always read as 0, and of the last one four
    bits; and setting one of two 16-bit halves changes no value. *)
Theorem small_fields_lost o index w : value index o = Some w ->
  (forall filed, 0 <= filed < 3 -> getU8Value index filed o = Some 0) /\ getU8Value index 3 o = Some (w mod 16) /\
  (forall v filed o', setU16Value index v filed o = Some o' -> _UValues o' = _UValues o).
Proof.
  intros Hw. assert (Hz : forall m s, 0 <= m < 2 ^ s -> 0 <= s -> Z.shiftr (Z.land w m) s = 0).
  { intros m s Hm Hs. rewrite Z.shiftr_land. replace (Z.shiftr m s) with 0; [apply Z.land_0_r|]. symmetry. rewrite Z.shiftr_div_pow2 by done. by apply Z.div_small. }
  split_and!.
  - intros filed Hf. unfold getU8Value. rewrite Hw. cbn [mbind option_bind]. assert (filed = 0 \/ filed = 1 \/ filed = 2) as [->|[->| ->]] by lia; cbn; rewrite Hz by lia; done.
  - unfold getU8Value. rewrite Hw. cbn [mbind option_bind]. cbn -[Z.land Z.modulo]. rewrite <- Z.land_assoc. f_equal. change (Z.land 15 255) with (Z.ones 4). by apply Z.land_ones.
  - intros v filed o' E. unfold setU16Value in E. rewrite Hw in E. cbn in E. destruct (filed =? 0); [|done]. injection E as <-. by case_match.
Qed.
End UpdateObject.
Arguments UpdateObject : clear implicits.
