(* ===== verification/Tables.v ===== *)
(** * common: the string helpers of utilities.cpp

    The substitution tables of [encrypt_string] and [decrypt_string], the
    encoding of URLs, [itoa], the tests of user input and the checksum object. *)
From S2P Require Import Prelude Text Crc.

(** ** Substitution tables *)
Definition character_original_table : string := "abcdefghijklmnopqrstuvwxyzABCDEFGHIJKLMNOPQRSTUVWXYZ0123456789".
Definition character_encrypt_table : list string := [
  "h2OXAzK4ym3EFwJ5Gk7jCeRS8DcYMIPUQZHlq1oiNa6VgtfrxLvsn0uTdB9pbW";
  "F37VKZcUJdNpgljBnTG1SzWLYOs48vRutkPXDy9iMr0H5mhQexoabI6fAEq2wC";
  "zvFqehQwJB94ArsE51NL8fxbtSPGc0KOkIYylU67DodH2MCnVpgRWiaZjTXmu3";
  "X3RYHziS4JQ6ogLsNIpjPK5xdUlV27Otuc91CaDbveyZ0TB8WfFAwnhEGmMrkq";
  "zQ9gtdpAFlbI7OxnkrG06VsJhYcTXuWZD84Bq5R1fjeS2HLvmKywEoCi3MNaPU";
  "uHPt12gU3dKf8WmpERYhrCjInA6aLFN9JyMl0ZQvqbkTzoB75es4wxDXiGVOSc";
  "iqbYtXWrlp65RcS0ga3nyUZovHjzE1efBDI9TCL27NK4VwGdmMhskPuJxQFA8O";
  "ESmgflDu19qUjZLXnipzG5yakCMVoIr6QcRHvhWt8OxBdYA70bTsP243FeKJNw";
  "D6XdKbc8mxvYuzGAeWtfh2iE45PUnBoLg3HCRJjT9qwksFSVZpQ1MI7yOrN0al";
  "gw4Hi13ILuZtnm05pFoTz9MBy8RCfVJNjb2SOqEcUrPxvGA7eYldDWXQK6hska";
  "K4BgHUhPQJYt1Lrz97DCumwfNcp8WVSyMGeX3dAZixbTOknlF5v6a0sIjEqRo2";
  "PUpGbXWA6Nnm4KYu9t1T5zhcVqQiDjdEHLJ0OvZxwgsoBkIrl823yMaCeFR7Sf";
  "iBqCt1kzfayc2oervTPExw9ZhIJpuXY63MNKLQRnmVsH0b5W7jDGFUl8AdSgO4";
  "4OLnCqdZbyfExmX6a0Hvtrp9A8TGkzQWRPoJMViK1I2ghNlSDeuB7FjwcUs5Y3";
  "BIYrX96qVx3fwi5A2TlN4ZKDnERCt1byk0jJs8GWL7SchgpOFHPQvmoeMduazU";
  "3vVphnyJ4wQ0tO5R92YuAzbDHlC8fogqKG6SicBjmZaWTUMP7xeELsNk1XIFrd";
  "drOVYJg6AeznivK8BtW1pqGuTFXaIkbhUxLoRy43PZ9lC5wQcDNHS2sEMf7mj0";
  "XhPS2QwyUZiHWG8evLsblxFcjJrdROAmNq7Vk091DKzT5gEoI6tp4BCnYMua3f";
  "UvgNmKqMTF4WzAcaj6OP15rHGJV7S3ln0IZBYCeL8pRsDEyQk2fbhiXxudto9w";
  "8y7u3tJDYRxedKmH0WVbL9qlpGUrv2CTjQocInAZihXOB4SawN6P1fM5FgzkEs";
  "y6vpTgfkwLeBY28hlDjEqnKsVHbtuoQrMImX79xAZSa0JiFUOcR3GNd14PCW5z";
  "c4ABsWNdYEF9lODpgfzQxkPo3mUHeia0XrtvnJ7MTqj5G8uS6bVwCI2yZLK1hR";
  "Dz1rL3UgKxkvq7Qp289XbNVTcHlfWdYIBsRjnG6CEiSFoJtA5yaeZuPhO0m4Mw";
  "gFAOLYpSmKNQ0BJ26l8ykTubwUnMZXCIH1fDWqaidzE593VxjtPRos4rGh7vec";
  "NrzAmxfBWq6Dy3HJhnL7ubRT91MOtpcoPG2lgFCEwiIVaYveksSU085K4jZdXQ";
  "bmf6kl5CyE9r2uToL0Bzd3Vtqn1ZhpgUMXaKPSARHciOwQG78YWIvJsDj4xFNe";
  "4Qwrbuftad9OZ07RWTenjhA3BIcK2qEv8SJFLXNG15PiV6zgykmlxoDHpUYMCs";
  "YmoAFP3Dw0ZRcM724xJ9gzp8GjiHlXOkKEtNfqnUSr6bLsQ5u1ICBTVyhvdeaW";
  "6fw3KniqIx1PRtOF0U2CvbJTQehzMXcDZVyau5mGpsEdW9l7BHSNor8kLYA4gj";
  "uCITPp0DnbQrUlgRhS47X3dB1KcEeGMHyWANfiV2OmYv6txLFwkz8qa5osjZ9J";
  "N8mrGqe7JSgUE1ZVkozKDMjPQwTu92BtOFf0nbaxAcXH5siLdvyYC6hl3IWR4p";
  "r1XdREYSgWoThC4MjuJI3bUlfLmak2VNvc5sz9Z0tpBG8nwQFKH7eAPqDxi6Oy";
  "kCmIuVyoHrxgdbAZiS1tGpqJTK4zhWsULnvB7l3Mj6YQcPNE85ORwD02FefaX9";
  "n7OqFVPEW5KGctbUXk8Cy4YazI1Zwu9dpsfojJBS0g3HQMvelrmAT2Lx6iDNRh";
  "2PDoG6kazepcRAVgxSFvBWNLym97KidrXnYZ851Oj3M4CUEslQtHuwqbhTIfJ0";
  "jClKN4n71FTX9peHDbtfUQ82gSO5rqYwA36V0PZdzWJhLvRyaomEkGBiIMuxsc";
  "n3u0aSHWAeXTtvl2YfKr7BhzwF15qUQ4GIM8PbNJsRigdjZyOD6x9EmVcLpkCo";
  "zra0yAvDm4jB2x3pNKqR1f8C6VEwSktgs5LluFdMoZbhPI7GUcHWnX9TYieJOQ";
  "4uM6o2XkTwqFC5ZlYe8nzmivH9OdWLDxIRfJQar0NPpcSUy3gEAV7KthsjB1bG";
  "VNAzwyiGP52SImYsBnpQvtFcJCu8krod3X614TEZK0qfaexLHbR7UjM9lDOghW";
  "AqMXFevwOZygIYRNiD70khdc6JLUB5tCxb9EPr4Glzo1Q8f2s3uKTaVWnSHmpj";
  "Y1ZdOPeTg2jnbR6LH0qXupBflFwMsGErxoiaC3t4mkv7DQ5hUSJzI9VAN8yWcK";
  "DvHxq0oS4w5lb9paudR3YktPCFGOKzBgr1TMcf8VhWLAsy2iZjU6enJX7mNIEQ";
  "dHVUMsK1wB98Pbf0jJyDtaClvcR6xG7kITpm2EZoLXz3igSWneQNqrYOAFu5h4";
  "DzFbu0de6LAJ5vMBNRYQT7awjfCrKqiyZH8omIE9UPlShn4OWpcG2st1XxgV3k";
  "3BGrh7onLzRjQeAf1Tl9ZODEWxCYkbJUuP4qNIyaF5Vw6dH2pX0vtg8micMKSs";
  "NBxXuRI1w4kt8Jq6pOzml9hACFYbo2nevZaL7GiQfSsyDHPTcKr3UjWMdgV5E0";
  "4xXDbLem7Soa3Mf5r0NuyVWZpAIc2PUhC9Et68Rws1YFTkKJlvHzigjdBGQOqn";
  "uPHI8hpqQjGtwM5kabLR1OZdz6XFTcfY0vgm39CUDesrKN7JVE4S2noiWAlyBx";
  "OwgVpx290UmcsRyl8LHj3b4PqChGY6vKnST5iNfJADB7tdauXzQIrZokeWFM1E"
]%string.
Definition TABLE_COUNT : Z := 50.

(** [std::find] in the one table, and the character there in the other. *)
Fixpoint translate (from to : string) (a : ascii) : option ascii :=
  match from, to with
  | String x from, String y to => if Ascii.eqb x a then Some y else translate from to a
  | _, _ => None
  end.
Definition encrypt_get (data : string) (a : ascii) : option ascii := translate character_original_table data a.
Definition decrypt_get (data : string) (a : ascii) : option ascii := translate data character_original_table a.

(** A character without a translation empties the result and ends the loop. *)
Fixpoint translate_all (get : ascii -> option ascii) (s : string) : option string :=
  match s with
  | String a s => c ← get a; r ← translate_all get s; Some (String c r)
  | EmptyString => Some EmptyString
  end.
(** [out] is left alone when there is no such table. *)
Definition encrypt_string (s out : string) (table : Z) : string :=
  if table >=? TABLE_COUNT then out else default EmptyString (translate_all (encrypt_get (nth (Z.to_nat table) character_encrypt_table EmptyString)) s).
Definition decrypt_string (s out : string) (table : Z) : string :=
  if table >=? TABLE_COUNT then out else default EmptyString (translate_all (decrypt_get (nth (Z.to_nat table) character_encrypt_table EmptyString)) s).
Definition generate_table_key (rand : Z) : Z := rand mod TABLE_COUNT.

(** Each table permutes the characters. *)
Fixpoint string_forall (p : ascii -> bool) (s : string) : bool :=
  match s with String a s => p a && string_forall p s | EmptyString => true end.
Definition undoes (data : string) : bool :=
  string_forall (fun a => match encrypt_get data a with Some b => match decrypt_get data b with Some a' => Ascii.eqb a a' | None => false end | None => false end)
    character_original_table.
Lemma tables_permute : forallb undoes character_encrypt_table = true.
Proof. vm_compute. reflexivity. Qed.

Definition in_table (a : ascii) : Prop := a ∈ list_ascii_of_string character_original_table.
Lemma string_forall_in p s a : string_forall p s = true -> a ∈ list_ascii_of_string s -> p a = true.
Proof.
  induction s as [|b s IH]; cbn; [by intros _ ?%elem_of_nil|]. intros [H1 H2]%andb_true_iff [->|H]%elem_of_cons; [done|]. by apply IH.
Qed.
Lemma table_undoes table a : 0 <= table < TABLE_COUNT -> in_table a ->
  exists b, encrypt_get (nth (Z.to_nat table) character_encrypt_table EmptyString) a = Some b /\
            decrypt_get (nth (Z.to_nat table) character_encrypt_table EmptyString) b = Some a.
Proof.
  intros Ht Ha. pose proof tables_permute as H. rewrite forallb_forall in H.
  assert (Hin : In (nth (Z.to_nat table) character_encrypt_table EmptyString) character_encrypt_table).
  { apply nth_In. assert (HL : length character_encrypt_table = 50%nat) by reflexivity. rewrite HL. unfold TABLE_COUNT in Ht. lia. }
  apply H in Hin. unfold undoes in Hin. apply (string_forall_in _ _ a) in Hin; [|done]. cbv beta in Hin.
  destruct (encrypt_get _ a) as [b|]; [|done]. exists b. split; [done|]. destruct (decrypt_get _ b) as [a'|]; [|done]. by apply Ascii.eqb_eq in Hin as ->.
Qed.
Lemma translate_from f t a b : translate f t a = Some b -> a ∈ list_ascii_of_string f.
Proof.
  revert t. induction f as [|x f IH]; intros [|y t]; cbn; try done. destruct (Ascii.eqb_spec x a) as [->|]; [by left|]. intros H. right. by eapply IH.
Qed.

(** A text of letters and digits is decrypted with the table it was encrypted
    with; any other text is encrypted to the empty one. *)
Theorem encrypt_round_trip s out out' table : 0 <= table < TABLE_COUNT ->
  (Forall in_table (list_ascii_of_string s) -> decrypt_string (encrypt_string s out table) out' table = s) /\
  (~ Forall in_table (list_ascii_of_string s) -> encrypt_string s out table = EmptyString).
Proof.
  intros Ht. unfold decrypt_string, encrypt_string. assert (Hg : (table >=? TABLE_COUNT) = false) by lia. rewrite Hg. clear Hg.
  pose proof (fun a => table_undoes table a Ht) as Hu. revert Hu. generalize (nth (Z.to_nat table) character_encrypt_table EmptyString). intros data Hu. split.
  - intros Hs. assert (H : exists r, translate_all (encrypt_get data) s = Some r /\ translate_all (decrypt_get data) r = Some s).
    { induction s as [|a s IH]; [by exists EmptyString|]. inversion_clear Hs as [|? ? Ha Hs'].
      destruct (Hu a Ha) as (b & E1 & E2). destruct (IH Hs') as (r & F1 & F2). exists (String b r).
      cbn [translate_all]. by rewrite E1, E2, F1, F2. }
    destruct H as (r & -> & H2). cbn. by rewrite H2.
  - intros Hs. replace (translate_all (encrypt_get data) s) with (@None string); [done|]. symmetry.
    induction s as [|a s IH]; [by destruct Hs; constructor|]. cbn [translate_all]. destruct (encrypt_get data a) as [b|] eqn:E; [|reflexivity].
    rewrite IH; [reflexivity|]. intros Hall. apply Hs. constructor; [|done]. by eapply translate_from.
Qed.

(** ** URLs *)
Definition code (a : ascii) : Z := Z.of_N (N_of_ascii a).
Definition char_of (z : Z) : ascii := ascii_of_N (Z.to_N (z mod 256)).
Definition char_to_hex (x : Z) : ascii := char_of (if x >? 9 then x + 55 else x + 48).
Definition is_alpha_number_char (a : ascii) : bool :=
  let c := code a in ((97 <=? c) && (c <=? 122)) || ((65 <=? c) && (c <=? 90)) || ((48 <=? c) && (c <=? 57)).
Definition url_marks : string := "-_.!~*'()".
Definition url_char (a : ascii) : string :=
  if Ascii.eqb a " " then "+"
  else if is_alpha_number_char a || existsb (Ascii.eqb a) (list_ascii_of_string url_marks) then String a EmptyString
  else String "%" (String (char_to_hex (Z.shiftr (code a) 4)) (String (char_to_hex (code a mod 16)) EmptyString)).
(** Up to the terminating zero. *)
Fixpoint urlencode (src : string) : string :=
  match src with
  | String a src => if code a =? 0 then EmptyString else url_char a +:+ urlencode src
  | EmptyString => EmptyString
  end.
(** [char] is signed: a byte from 128 on is less than ['A']. *)
Definition s8 (z : Z) : Z := (z + 128) mod 256 - 128.
Definition hex_value (p : ascii) : Z :=
  let p := s8 (code p) in p - 48 - (if p >=? 65 then 7 else 0) - (if p >=? 97 then 32 else 0).
Definition hex_char (p0 p1 : ascii) : ascii := char_of (hex_value p0 * 16 + hex_value p1).
(** [None]: a text that ends in a percent sign is read past its end. *)
Fixpoint urldecode (encd : string) : option string :=
  match encd with
  | EmptyString => Some EmptyString
  | String a rest =>
      if negb (Ascii.eqb a "%") then String a <$> urldecode rest
      else match rest with
           | String p0 (String p1 rest) => String (hex_char p0 p1) <$> urldecode rest
           | String p0 EmptyString => Some (String (hex_char p0 (char_of 0)) EmptyString)
           | EmptyString => None
           end
  end.

(** What a character of an encoded text is decoded to: a blank, written as a
    plus sign, stays one. *)
Definition blank_plus (a : ascii) : ascii := if Ascii.eqb a " " then "+"%char else a.
Fixpoint string_map (f : ascii -> ascii) (s : string) : string :=
  match s with String a s => String (f a) (string_map f s) | EmptyString => EmptyString end.
Definition all_bytes : list ascii := map ascii_of_nat (List.seq 0 256).
Lemma in_all_bytes a : In a all_bytes.
Proof. rewrite <- (ascii_nat_embedding a). apply in_map, in_seq. pose proof (nat_ascii_bounded a). lia. Qed.
Definition url_char_ok (a : ascii) : bool :=
  match url_char a with
  | String b EmptyString => negb (Ascii.eqb b "%") && Ascii.eqb b (blank_plus a)
  | String b (String p0 (String p1 EmptyString)) => Ascii.eqb b "%" && Ascii.eqb (hex_char p0 p1) (blank_plus a)
  | _ => false
  end.
Lemma url_chars_ok : forallb url_char_ok all_bytes = true.
Proof. vm_compute. reflexivity. Qed.
Lemma urldecode_char a rest : urldecode (url_char a +:+ rest) = String (blank_plus a) <$> urldecode rest.
Proof.
  pose proof url_chars_ok as H. rewrite forallb_forall in H. specialize (H a (in_all_bytes a)). unfold url_char_ok in H.
  destruct (url_char a) as [|b [|p0 [|p1 [|? ?]]]]; try done; apply andb_true_iff in H as [H1 H2]; apply Ascii.eqb_eq in H2 as <-.
  - change (String b EmptyString +:+ rest) with (String b rest). cbn [urldecode]. by rewrite H1.
  - apply Ascii.eqb_eq in H1 as ->. reflexivity.
Qed.
Lemma url_char_length a : (String.length (url_char a) <= 3)%nat.
Proof. unfold url_char. repeat (case_match; try (cbn; lia)). Qed.
Definition no_zero (s : string) : Prop := Forall (fun a => code a <> 0) (chars s).

Lemma length_app_string a b : String.length (a +:+ b) = (String.length a + String.length b)%nat.
Proof. induction a as [|c a IH]; [done|]. exact (f_equal S IH). Qed.

(** A text without a zero byte is decoded from its encoding, but for its
    blanks, which come back as plus signs. The encoding takes three times the
    length of the text at most. *)
Theorem urldecode_urlencode s : no_zero s ->
  urldecode (urlencode s) = Some (string_map blank_plus s) /\ (String.length (urlencode s) <= 3 * String.length s)%nat.
Proof.
  induction s as [|a s IH]; intros H; [split; [done|cbn; lia]|]. inversion_clear H as [|? ? H1 H2]. destruct (IH H2) as [E L].
  cbn [urlencode string_map String.length]. rewrite (proj2 (Z.eqb_neq _ _) H1). split; [by rewrite urldecode_char, E|].
  rewrite length_app_string. pose proof (url_char_length a). lia.
Qed.
