(* ===== verification/Helpers.v ===== *)
(** * common: numbers, versions and base64 of utilities.cpp

    [itoa] and its [strreverse], the test whether a text is a number and the
    parts of a map's version, [is_valid_string], the checksum object, and the
    second pair of base64 functions, which no caller is left for, against the
    pair the packets use. *)
From Stdlib Require Import ZifyBool.
From S2P Require Import Prelude Text Bytes Crc Wire Packet.

(** ** Printing a number *)
(** The C pointers are positions of the text. *)
Fixpoint strreverse_loop (fuel : nat) (s : list ascii) (begin end_ : nat) : list ascii :=
  match fuel with
  | O => s
  | S fuel =>
      if (begin <? end_)%nat then
        let aux := nth end_ s zero in
        strreverse_loop fuel (<[begin := aux]> (<[end_ := nth begin s zero]> s)) (begin + 1) (end_ - 1)
      else s
  end.
(** From [str] to [wstr-1]: every character of a text that is not empty. *)
Definition strreverse (s : list ascii) : list ascii := strreverse_loop (length s) s 0 (length s - 1).

Definition num : list ascii := chars "0123456789abcdefghijklmnopqrstuvwxyz".
(** [None]: [num] is read at a negative index. *)
Definition num_at (i : Z) : option ascii := if i <? 0 then None else nth_error num (Z.to_nat i).
(** The loop runs at most 32 times, see [itoa_digits_spec]. *)
Fixpoint itoa_digits (fuel : nat) (value base : Z) : option (list ascii) :=
  match fuel with
  | O => None
  | S fuel =>
      c ← num_at (Z.rem value base);
      let value := Z.quot value base in
      if value =? 0 then Some [c] else (fun l => c :: l) <$> itoa_digits fuel value base
  end.
Definition itoa (value base : Z) : option string :=
  if (base <? 2) || (base >? 35) then Some EmptyString
  else
    let sign := value in
    let value := if sign <? 0 then i32 (- value) else value in
    wstr ← itoa_digits 32 value base;
    Some (of_chars (strreverse (wstr ++ (if sign <? 0 then ["-"%char] else [])))).

(** ** Numbers in texts *)
Definition first_digit (s : string) : bool := match s with String a _ => is_digit a | EmptyString => false end.
(** [std::stringstream >> int]: blanks, an optional sign, at least one digit,
    and a value an [int] holds. What follows the digits is left in the stream. *)
Definition isIntger (str : string) : bool :=
  match skip_space str with
  | String "-" s => first_digit s && (atoi_digits 0 s <=? 2 ^ 31)
  | String "+" s => first_digit s && (atoi_digits 0 s <? 2 ^ 31)
  | s => first_digit s && (atoi_digits 0 s <? 2 ^ 31)
  end.
Fixpoint version_parts (vcstr : list string) : list Z :=
  match vcstr with
  | s :: vcstr => if isIntger s then atoi s :: version_parts vcstr else []
  | [] => []
  end.
Definition MapVersionFormat (cur_version : string) : list Z := version_parts (split cur_version ".").

(** A byte above 0x80 is skipped with the one after it. *)
Definition is_alpha_number_char (c : Z) : bool :=
  ((97 <=? c) && (c <=? 122)) || ((65 <=? c) && (c <=? 90)) || ((48 <=? c) && (c <=? 57)).
Fixpoint is_valid_string (str : list Z) : bool :=
  match str with
  | p :: str =>
      if p >? 0x80 then match str with _ :: str => is_valid_string str | [] => true end
      else is_alpha_number_char p && is_valid_string str
  | [] => true
  end.

(** ** The checksum of a stream *)
Record data_stream_verifier := mkVerifier { send_index : Z; recv_index : Z }.
Definition verifier_reset : data_stream_verifier := mkVerifier 0 0.
Definition make_checksum (v : data_stream_verifier) (data : list Z) : Z * data_stream_verifier := (sslCrc32 data, v).
Definition verify_data_stream (v : data_stream_verifier) (data : list Z) (checksum : Z) : bool * data_stream_verifier :=
  (checksum =? sslCrc32 data, v).

(** ** The other base64 *)
Fixpoint base64_encode (bindata : list Z) : list Z :=
  match bindata with
  | [] => []
  | a :: bindata =>
      b64 (Z.land (Z.shiftr a 2) 0x3F) ::
      let current := Z.land (u8 (Z.shiftl a 4)) 0x30 in
      match bindata with
      | [] => [b64 current; PAD; PAD]
      | b :: bindata =>
          b64 (Z.lor current (Z.land (Z.shiftr b 4) 0x0F)) ::
          let current := Z.land (u8 (Z.shiftl b 2)) 0x3C in
          match bindata with
          | [] => [b64 current; PAD]
          | c :: bindata => b64 (Z.lor current (Z.land (Z.shiftr c 6) 0x03)) :: b64 (Z.land c 0x3F) :: base64_encode bindata
          end
      end
  end.
Definition temp_of (c : Z) : Z := default 0xFF (index_of c 0 base64digits).
Definition byte0 (t0 t1 : Z) : Z := Z.lor (Z.land (u8 (Z.shiftl t0 2)) 0xFC) (Z.land (Z.shiftr t1 4) 0x03).
Definition byte1 (t1 t2 : Z) : Z := Z.lor (Z.land (u8 (Z.shiftl t1 4)) 0xF0) (Z.land (Z.shiftr t2 2) 0x0F).
Definition byte2 (t2 t3 : Z) : Z := Z.lor (Z.land (u8 (Z.shiftl t2 6)) 0xF0) (Z.land t3 0x3F).
(** [None]: a group that is cut short is read past the end of the text. *)
Fixpoint base64_decode (base64 : list Z) : option (list Z) :=
  match base64 with
  | [] => Some []
  | c0 :: c1 :: c2 :: c3 :: base64 =>
      cons (byte0 (temp_of c0) (temp_of c1)) <$>
      (if c2 =? PAD then Some []
       else cons (byte1 (temp_of c1) (temp_of c2)) <$>
            (if c3 =? PAD then Some [] else cons (byte2 (temp_of c2) (temp_of c3)) <$> base64_decode base64))
  | [c0; c1; c2] => if c2 =? PAD then Some [byte0 (temp_of c0) (temp_of c1)] else None
  | _ => None
  end.

(** ** Facts *)
Lemma strreverse_loop_spec fuel s b e : (e - b <= fuel)%nat -> (e < length s)%nat ->
  length (strreverse_loop fuel s b e) = length s /\
  forall i, (i < length s)%nat -> nth i (strreverse_loop fuel s b e) zero =
    if (b <=? i)%nat && (i <=? e)%nat then nth (b + e - i) s zero else nth i s zero.
Proof.
  revert s b e. induction fuel as [|fuel IH]; intros s b e Hf He; cbn [strreverse_loop].
  { split; [done|]. intros i Hi. destruct (_ && _) eqn:E; [|done]. f_equal. lia. }
  destruct (b <? e)%nat eqn:Hbe.
  2: { split; [done|]. intros i Hi. destruct (_ && _) eqn:E; [|done]. f_equal. lia. }
  set (s' := <[b := _]> _). assert (Hs' : length s' = length s) by (unfold s'; by rewrite !length_insert).
  destruct (IH s' (b + 1)%nat (e - 1)%nat) as [Hl Hn]; [lia|lia|]. split; [by rewrite Hl|]. intros i Hi. rewrite Hn by lia.
  assert (Hnth : forall j, (j < length s)%nat -> nth j s' zero = if (j =? b)%nat then nth e s zero else if (j =? e)%nat then nth b s zero else nth j s zero).
  { intros j Hj. unfold s'. rewrite !nth_lookup. destruct (Nat.eqb_spec j b) as [->|].
    - rewrite list_lookup_insert_eq; [done|]. rewrite length_insert. lia.
    - rewrite list_lookup_insert_ne by done. destruct (Nat.eqb_spec j e) as [->|]; [by rewrite list_lookup_insert_eq by lia|].
      by rewrite list_lookup_insert_ne. }
  destruct ((b + 1 <=? i)%nat && (i <=? e - 1)%nat) eqn:E1.
  - rewrite Hnth by lia. rewrite (proj2 (Nat.eqb_neq _ _)), (proj2 (Nat.eqb_neq _ _)) by lia.
    assert ((b <=? i)%nat && (i <=? e)%nat = true) as -> by lia. f_equal. lia.
  - rewrite Hnth by lia. destruct (Nat.eqb_spec i b) as [->|]; [assert ((b <=? b)%nat && (b <=? e)%nat = true) as -> by lia; f_equal; lia|].
    destruct (Nat.eqb_spec i e) as [->|]; [assert ((b <=? e)%nat && (e <=? e)%nat = true) as -> by lia; f_equal; lia|].
    assert ((b <=? i)%nat && (i <=? e)%nat = false) as -> by lia. done.
Qed.
Lemma strreverse_rev s : strreverse s = rev s.
Proof.
  destruct (decide (s = [])) as [->|Hs]; [done|]. assert (0 < length s)%nat by (destruct s; [done|cbn; lia]).
  destruct (strreverse_loop_spec (length s) s 0 (length s - 1)) as [Hl Hn]; [lia|lia|]. unfold strreverse.
  apply (nth_ext _ _ zero zero); [by rewrite Hl, length_rev|]. intros i Hi. rewrite Hl in Hi. rewrite Hn, rev_nth by done.
  assert ((0 <=? i)%nat && (i <=? length s - 1)%nat = true) as -> by lia. f_equal. lia.
Qed.

(** What a text says in a base: the digits from the first on, after a minus
    sign for a number below zero. *)
Fixpoint digit_index (c : ascii) (j : Z) (l : list ascii) : option Z :=
  match l with [] => None | d :: l => if Ascii.eqb c d then Some j else digit_index c (j + 1) l end.
Fixpoint horner (base v : Z) (l : list ascii) : option Z :=
  match l with
  | [] => Some v
  | c :: l => d ← digit_index c 0 num; if d <? base then horner base (v * base + d) l else None
  end.
Definition read_number (base : Z) (s : string) : option Z :=
  match chars s with
  | [] => None
  | "-"%char :: l => Z.opp <$> horner base 0 l
  | l => horner base 0 l
  end.

Lemma num_digits i : 0 <= i < 36 -> exists c, num_at i = Some c /\ digit_index c 0 num = Some i.
Proof.
  intros Hi. assert (H : forallb (fun i => match num_at i with Some c => bool_decide (digit_index c 0 num = Some i) | None => false end) (seqZ 0 36) = true) by (vm_compute; reflexivity).
  rewrite forallb_forall in H. specialize (H i). cbv beta in H. destruct (num_at i) as [c|].
  - exists c. split; [done|]. apply (bool_decide_unpack _). rewrite H; [done|]. apply list_elem_of_In, elem_of_seqZ. lia.
  - discriminate H. apply list_elem_of_In, elem_of_seqZ. lia.
Qed.
Lemma horner_snoc base v l c : horner base v (l ++ [c]) = (w ← horner base v l; horner base w [c]).
Proof.
  revert v. induction l as [|d l IH]; intros v; [done|]. cbn [app horner]. destruct (digit_index d 0 num) as [x|]; [|done]. cbn [mbind option_bind].
  destruct (x <? base); [apply IH|done].
Qed.
Lemma itoa_digits_spec fuel value base : 2 <= base <= 35 -> 0 <= value < 2 ^ Z.of_nat fuel -> fuel <> O ->
  exists l, itoa_digits fuel value base = Some l /\ l <> [] /\ horner base 0 (rev l) = Some value.
Proof.
  intros Hb. revert value. induction fuel as [|fuel IH]; intros value Hv Hf; [done|]. cbn [itoa_digits].
  rewrite Z.rem_mod_nonneg, Z.quot_div_nonneg by lia. pose proof (Z.mod_pos_bound value base ltac:(lia)) as Hm.
  pose proof (Z.div_mod value base ltac:(lia)) as Hd.
  destruct (num_digits (value mod base)) as (c & -> & Hc); [lia|]. cbn [mbind option_bind].
  assert (Hone : forall w, horner base w [c] = Some (w * base + value mod base)).
  { intros w. cbn [horner]. rewrite Hc. cbn. by rewrite (proj2 (Z.ltb_lt _ _) (proj2 Hm)). }
  destruct (Z.eqb_spec (value / base) 0) as [E|E].
  - exists [c]. split; [done|]. split; [done|]. cbn [rev app]. rewrite Hone. f_equal. lia.
  - destruct (IH (value / base)) as (l & -> & Hl & H).
    + rewrite Nat2Z.inj_succ, Z.pow_succ_r in Hv by lia. split; [apply Z.div_pos; lia|]. apply Z.div_lt_upper_bound; nia.
    + intros ->. change (2 ^ Z.of_nat 1) with 2 in Hv. apply E, Z.div_small. lia.
    + exists (c :: l). split; [done|]. split; [done|]. cbn [rev]. rewrite horner_snoc, H. cbn [mbind option_bind]. rewrite Hone. f_equal. lia.
Qed.
Lemma itoa_digits_below fuel value base : 2 <= base -> value < 0 -> itoa_digits fuel value base = None.
Proof.
  intros Hb. revert value. induction fuel as [|fuel IH]; intros value Hv; [done|]. cbn [itoa_digits].
  pose proof (Z.quot_rem' value base) as Hq. pose proof (Z.rem_bound_pos_neg value base ltac:(lia) ltac:(lia)) as Hr.
  destruct (decide (Z.rem value base < 0)) as [H|H].
  - unfold num_at. by rewrite (proj2 (Z.ltb_lt _ _) H).
  - assert (E : Z.rem value base = 0) by lia. rewrite E. change (num_at 0) with (Some "0"%char). cbn [mbind option_bind].
    rewrite (proj2 (Z.eqb_neq _ _)) by nia. rewrite IH; [done|]. nia.
Qed.

(** [itoa] prints a text that says the number, in every base it accepts and
    for every [int] but the least, whose digits it looks up at negative
    indices; for another base it prints nothing. *)
Theorem itoa_correct value base : is_i32 value ->
  (2 <= base <= 35 -> value <> - 2 ^ 31 -> exists s, itoa value base = Some s /\ read_number base s = Some value) /\
  (2 <= base <= 35 -> itoa (- 2 ^ 31) base = None) /\
  (~ 2 <= base <= 35 -> itoa value base = Some EmptyString).
Proof.
  intros Hv. unfold is_i32 in Hv. unfold itoa. split; [|split]; intros Hb; [intros Hmin| |].
  - assert ((base <? 2) || (base >? 35) = false) as -> by lia.
    assert (Hi : (if value <? 0 then i32 (- value) else value) = Z.abs value).
    { destruct (Z.ltb_spec value 0); [|lia]. rewrite i32_id; unfold is_i32; lia. }
    rewrite Hi. destruct (itoa_digits_spec 32 (Z.abs value) base Hb) as (l & -> & Hl & H); [change (2 ^ Z.of_nat 32) with (2 ^ 32); lia|done|].
    cbn [mbind option_bind]. eexists. split; [done|]. rewrite strreverse_rev. unfold read_number. rewrite list_ascii_of_string_of_list_ascii.
    destruct (Z.ltb_spec value 0).
    + rewrite rev_app_distr. cbn [rev app]. rewrite H. cbn. f_equal. lia.
    + rewrite app_nil_r. destruct (rev l) as [|c l'] eqn:E.
      * by rewrite <- (rev_involutive l), E in Hl.
      * assert (Hc : digit_index c 0 num <> None) by (intros Hc; cbn [horner] in H; rewrite Hc in H; discriminate H).
        replace value with (Z.abs value) by lia. rewrite <- H. destruct c as [[] [] [] [] [] [] [] []]; try reflexivity. by destruct Hc.
  - assert ((base <? 2) || (base >? 35) = false) as -> by lia. change (- 2 ^ 31 <? 0) with true. cbv iota.
    change (i32 (- - 2 ^ 31)) with (- 2 ^ 31). by rewrite itoa_digits_below by lia.
  - assert ((base <? 2) || (base >? 35) = true) as -> by lia. done.
Qed.
Lemma itoa_correct_witness : is_i32 (-255) /\ exists s, itoa (-255) 16 = Some s /\ read_number 16 s = Some (-255).
Proof. assert (H : is_i32 (-255)) by (vm_compute; split; congruence). split; [exact H|]. apply (proj1 (itoa_correct (-255) 16 H)); lia. Defined.
Example itoa_hex : itoa (-255) 16 = Some "-ff"%string /\ itoa 0 10 = Some "0"%string /\ itoa 2147483647 2 = Some "1111111111111111111111111111111"%string.
Proof. by vm_compute. Qed.

(** The printed text of a number is one, exactly when an [int] holds it. *)
Lemma isIntger_print_d n : isIntger (print_d n) = bool_decide (is_i32 n).
Proof.
  assert (Hfd : forall m, 0 <= m -> exists d s, print_u m = String (digit d) s /\ 0 <= d < 10).
  { intros m Hm. destruct (print_aux_head (S (Z.to_nat (Z.log2 m))) m "" ltac:(done)) as (d & s & H & Hd). by exists d, s. }
  unfold print_d. destruct (Z.ltb_spec n 0) as [E|E].
  - destruct (Hfd (- n)) as (d & s & Heq & Hd); [lia|]. pose proof (atoi_digits_print_u (- n) ltac:(lia)) as Hv.
    unfold isIntger. change (skip_space (String "-" (print_u (- n)))) with (String "-" (print_u (- n))). cbv iota. rewrite Hv.
    rewrite Heq. cbn [first_digit]. rewrite digit_is_digit by done. unfold is_i32.
    destruct (decide (- n <= 2 ^ 31)); [rewrite bool_decide_true by lia|rewrite bool_decide_false by lia]; lia.
  - destruct (Hfd n E) as (d & s & Heq & Hd). pose proof (atoi_digits_print_u n E) as Hv. rewrite Heq in *.
    pose proof (digit_cases d Hd) as (Hs & Hm & Hp). unfold isIntger. cbn [skip_space]. rewrite Hs.
    assert (Hr : first_digit (String (digit d) s) && (atoi_digits 0 (String (digit d) s) <? 2 ^ 31) = bool_decide (is_i32 n)).
    { rewrite Hv. cbn [first_digit]. rewrite digit_is_digit by done. unfold is_i32.
      destruct (decide (n < 2 ^ 31)); [rewrite bool_decide_true by lia|rewrite bool_decide_false by lia]; lia. }
    revert Hr Hm Hp. generalize (digit d). intros c Hr Hm Hp. destruct c as [[] [] [] [] [] [] [] []]; done.
Qed.
Lemma version_parts_print l : Forall is_i32 l -> version_parts (map print_d l) = l.
Proof.
  induction 1 as [|n l Hn _ IH]; [done|]. cbn [map version_parts]. rewrite isIntger_print_d, bool_decide_true by done. by rewrite IH, atoi_print_d.
Qed.
(** The numbers of a version are read back, up to the first part that is none. *)
Lemma MapVersionFormat_print l rest : Forall is_i32 l -> Forall (fun s => no_char "." s /\ s <> EmptyString) rest ->
  match rest with s :: _ => isIntger s = false | [] => True end -> MapVersionFormat (join "." (map print_d l ++ rest)) = l.
Proof.
  intros Hl Hrest Hstop. unfold MapVersionFormat. change "."%string with (String "." EmptyString). rewrite split_join.
  - induction Hl as [|n l Hn Hl IH]; cbn [map app version_parts].
    + destruct rest as [|s rest]; [done|]. cbn [version_parts]. by rewrite Hstop.
    + rewrite isIntger_print_d, bool_decide_true by done. by rewrite IH, atoi_print_d.
  - apply Forall_app. split; [|done]. apply Forall_map, Forall_true. intros n. by apply print_d_item.
Qed.

(** [is_valid_string] accepts letters, digits and characters of two bytes, of
    which it sees the first only; the last one may lack its second byte. *)
Inductive valid_text : list Z -> Prop :=
| valid_end : valid_text []
| valid_cut p : 0x80 < p -> valid_text [p]
| valid_letter p s : is_alpha_number_char p = true -> valid_text s -> valid_text (p :: s)
| valid_wide p q s : 0x80 < p -> valid_text s -> valid_text (p :: q :: s).
Lemma is_valid_string_spec s : is_valid_string s = true <-> valid_text s.
Proof.
  split.
  - remember (length s) as n eqn:Hn. assert (Hle : (length s <= n)%nat) by lia. clear Hn. revert s Hle.
    induction n as [|n IH]; intros [|p s] Hle; cbn in Hle; try (constructor; fail); [lia|]. cbn [is_valid_string].
    destruct (p >? 128) eqn:Hp.
    + destruct s as [|q s]; [constructor; lia|]. intros H. apply valid_wide; [lia|]. apply IH; [cbn in Hle; lia|done].
    + intros [H1 H2]%andb_true_iff. apply valid_letter; [done|]. apply IH; [lia|done].
  - induction 1 as [|p Hp|p s Hp _ IH|p q s Hp _ IH]; cbn [is_valid_string]; [done| | |].
    + by assert ((p >? 128) = true) as -> by lia.
    + assert ((p >? 128) = false) as -> by (unfold is_alpha_number_char in Hp; lia). by rewrite Hp, IH.
    + by assert ((p >? 128) = true) as -> by lia.
Qed.
(** A quotation mark after such a byte goes through. *)
Example quote_is_valid : is_valid_string [0x81; 39] = true /\ is_valid_string [97; 39] = false.
Proof. done. Qed.

(** ** The two pairs of base64 functions agree *)
Lemma index_b64 d : is_digit6 d -> temp_of (b64 d) = d /\ (b64 d =? PAD) = false.
Proof.
  intros Hd. assert (H : forallb (fun i => (temp_of (b64 i) =? i) && negb (b64 i =? PAD)) (seqZ 0 64) = true) by (vm_compute; reflexivity).
  rewrite forallb_forall in H. specialize (H d). cbv beta in H. assert (Hin : In d (seqZ 0 64)) by (apply list_elem_of_In, elem_of_seqZ; unfold is_digit6 in Hd; lia).
  apply H in Hin as [H1 H2]%andb_true_iff. split; [by apply Z.eqb_eq|by apply negb_true_iff].
Qed.
Definition byte_eq (f g : Z -> Z) : bool := forallb (fun a => f a =? g a) (seqZ 0 256).
Lemma byte_eq_ok f g a : byte_eq f g = true -> is_byte a -> f a = g a.
Proof. intros H Ha. apply Z.eqb_eq. exact (byte_forall (fun a => f a =? g a) H a Ha). Qed.
Lemma encode_current a b c : is_byte a -> is_byte b -> is_byte c ->
  Z.land (Z.shiftr a 2) 0x3F = digit0 a /\
  Z.lor (Z.land (u8 (Z.shiftl a 4)) 0x30) (Z.land (Z.shiftr b 4) 0x0F) = digit1 a b /\
  Z.lor (Z.land (u8 (Z.shiftl b 2)) 0x3C) (Z.land (Z.shiftr c 6) 0x03) = digit2 b c.
Proof.
  intros Ha Hb Hc. unfold digit0, digit1, digit2. split; [|split; f_equal].
  - by apply (byte_eq_ok (fun a => Z.land (Z.shiftr a 2) 0x3F) (fun a => Z.shiftr a 2)); [vm_compute|].
  - by apply (byte_eq_ok (fun a => Z.land (u8 (Z.shiftl a 4)) 0x30) (fun a => Z.land (Z.shiftl a 4) 0x30)); [vm_compute|].
  - by apply (byte_eq_ok (fun a => Z.land (Z.shiftr a 4) 0x0F) (fun a => Z.shiftr a 4)); [vm_compute|].
  - by apply (byte_eq_ok (fun a => Z.land (u8 (Z.shiftl a 2)) 0x3C) (fun a => Z.land (Z.shiftl a 2) 0x3C)); [vm_compute|].
  - by apply (byte_eq_ok (fun a => Z.land (Z.shiftr a 6) 0x03) (fun a => Z.shiftr a 6)); [vm_compute|].
Qed.
Lemma digit6_byte d : is_digit6 d -> is_byte d.
Proof. unfold is_digit6, is_byte. lia. Qed.
Ltac byte_fact := first [by apply digit6_byte | vm_compute; reflexivity].
Lemma decode_bytes a b c : is_byte a -> is_byte b -> is_byte c ->
  byte0 (digit0 a) (digit1 a b) = a /\ byte1 (digit1 a b) (digit2 b c) = b /\ byte2 (digit2 b c) (digit3 c) = c.
Proof.
  intros Ha Hb Hc. destruct (digits_range a b c Ha Hb Hc) as (R0 & R1 & R2 & R3). unfold byte0, byte1, byte2.
  rewrite (byte_eq_ok (fun t => Z.land (u8 (Z.shiftl t 2)) 0xFC) (fun t => t mod 64 * 2 ^ 2) (digit0 a)) by byte_fact.
  rewrite (byte_eq_ok (fun t => Z.land (Z.shiftr t 4) 0x03) (fun t => t / 16 mod 4) (digit1 a b)) by byte_fact.
  rewrite (byte_eq_ok (fun t => Z.land (u8 (Z.shiftl t 4)) 0xF0) (fun t => t mod 16 * 2 ^ 4) (digit1 a b)) by byte_fact.
  rewrite (byte_eq_ok (fun t => Z.land (Z.shiftr t 2) 0x0F) (fun t => t / 4 mod 16) (digit2 b c)) by byte_fact.
  rewrite (byte_eq_ok (fun t => Z.land (u8 (Z.shiftl t 6)) 0xF0) (fun t => t mod 4 * 2 ^ 6) (digit2 b c)) by byte_fact.
  rewrite (byte_eq_ok (fun t => Z.land t 0x3F) (fun t => t mod 64) (digit3 c)) by byte_fact.
  rewrite !lor_low by (done || apply Z.mod_pos_bound; done). rewrite digit0_eq, digit1_eq, digit2_eq, digit3_eq by done.
  unfold is_byte in *. change (2 ^ 2) with 4. change (2 ^ 4) with 16. change (2 ^ 6) with 64.
  split; [|split]; Z.div_mod_to_equations; lia.
Qed.

(** The second encoder writes what the packets' encoder writes, and its
    decoder reads the bytes back from it, as the packets' decoder does. *)
Theorem base64_codecs_agree junk l : length junk = 4%nat -> Forall is_byte l ->
  base64_encode l = Base64Encode l /\ base64_decode (base64_encode l) = Some l /\ Base64Decode junk (base64_encode l) = l.
Proof.
  intros Hj Hl. assert (E : base64_encode l = Base64Encode l /\ base64_decode (base64_encode l) = Some l).
  2: { destruct E as [E D]. rewrite E in *. split; [done|]. split; [done|]. by apply Base64Decode_Encode. }
  assert (H0 : is_byte 0) by done. clear Hj. induction l as [|a|a b|a b c l IH] using list_ind3; [done| | |]; rewrite !Forall_cons in Hl; cbn [base64_encode Base64Encode].
  - destruct Hl as [Ha _]. destruct (encode_current a 0 0 Ha H0 H0) as (E0 & E1 & _). destruct (digits_range a 0 0 Ha H0 H0) as (R0 & R1 & _).
    destruct (decode_bytes a 0 0 Ha H0 H0) as (D & _). change (Z.land (Z.shiftr 0 4) 15) with 0 in E1. rewrite Z.lor_0_r in E1.
    assert (E : digit1 a 0 = Z.land (Z.shiftl a 4) 48) by (unfold digit1; by rewrite Z.lor_0_r).
    rewrite E0, E1, E. fold (digit0 a). split; [done|]. rewrite <- E. cbn [base64_decode]. rewrite Z.eqb_refl. cbn [fmap option_fmap option_map].
    rewrite (proj1 (index_b64 _ R0)), (proj1 (index_b64 _ R1)). by rewrite D.
  - destruct Hl as (Ha & Hb & _). destruct (encode_current a b 0 Ha Hb H0) as (E0 & E1 & E2). destruct (digits_range a b 0 Ha Hb H0) as (R0 & R1 & R2 & _).
    destruct (decode_bytes a b 0 Ha Hb H0) as (D0 & D1 & _). change (Z.land (Z.shiftr 0 6) 3) with 0 in E2. rewrite Z.lor_0_r in E2.
    assert (E : digit2 b 0 = Z.land (Z.shiftl b 2) 60) by (unfold digit2; by rewrite Z.lor_0_r).
    rewrite E0, E1, E2, E. fold (digit0 a) (digit1 a b). split; [done|]. rewrite <- E. cbn [base64_decode].
    rewrite (proj2 (index_b64 _ R2)), Z.eqb_refl. cbn [fmap option_fmap option_map].
    rewrite (proj1 (index_b64 _ R0)), (proj1 (index_b64 _ R1)), (proj1 (index_b64 _ R2)). by rewrite D0, D1.
  - destruct Hl as (Ha & Hb & Hc & Hl). destruct (encode_current a b c Ha Hb Hc) as (E0 & E1 & E2). destruct (digits_range a b c Ha Hb Hc) as (R0 & R1 & R2 & R3).
    destruct (decode_bytes a b c Ha Hb Hc) as (D0 & D1 & D2). destruct (IH Hl) as [E D].
    rewrite E0, E1, E2. fold (digit0 a) (digit1 a b) (digit2 b c) (digit3 c). split; [by rewrite E|]. cbn [base64_decode].
    rewrite (proj2 (index_b64 _ R2)), (proj2 (index_b64 _ R3)), D. cbn [fmap option_fmap option_map].
    rewrite (proj1 (index_b64 _ R0)), (proj1 (index_b64 _ R1)), (proj1 (index_b64 _ R2)), (proj1 (index_b64 _ R3)). by rewrite D0, D1, D2.
Qed.
