(* ===== verification/Queues.v ===== *)
(** * common: two queues that take turns

    The pair of queues of [call_back_mgr] (call_back.h, call_back.cpp), of
    [tcp_server] (tcpserver.cpp) and of [tcp_client] (tcpclient.cpp), through
    which the network threads hand callbacks and messages to the main thread;
    and lists from which one element is taken. *)
From S2P Require Import Prelude.

(** ** Two queues that take turns

    [m_queue_recv_msg] and [call_back_mgr::m_listcb]: other threads push to the
    current queue, the main thread swaps and then works on the other one
    without a lock. *)
Section TwoQueues.
Context {A : Type}.
Record TwoQueues := mkTwoQueues { queue0 : list A; queue1 : list A; current : bool }.
Definition queue_at (i : bool) (q : TwoQueues) : list A := if i then queue1 q else queue0 q.
Definition set_queue (i : bool) (l : list A) (q : TwoQueues) : TwoQueues :=
  if i then mkTwoQueues (queue0 q) l (current q) else mkTwoQueues l (queue1 q) (current q).
Definition push (x : A) (q : TwoQueues) : TwoQueues := set_queue (current q) (queue_at (current q) q ++ [x]) q.
(** [None]: the current queue is empty; otherwise the index to work on. *)
Definition swap (q : TwoQueues) : option (bool * TwoQueues) :=
  match queue_at (current q) q with [] => None | _ => Some (current q, mkTwoQueues (queue0 q) (queue1 q) (negb (current q))) end.
Definition pop (i : bool) (q : TwoQueues) : option A * TwoQueues :=
  match queue_at i q with x :: l => (Some x, set_queue i l q) | [] => (None, q) end.
Definition no_queues : TwoQueues := mkTwoQueues [] [] false.
(** In the order in which they were pushed, when the main thread is at work on
    the queue that is not current. *)
Definition pending (q : TwoQueues) : list A := queue_at (negb (current q)) q ++ queue_at (current q) q.

Lemma queue_set i l q : queue_at i (set_queue i l q) = l.
Proof. by destruct i. Qed.
Lemma queue_set_other i l q : queue_at (negb i) (set_queue i l q) = queue_at (negb i) q.
Proof. by destruct i. Qed.
Lemma current_set i l q : current (set_queue i l q) = current q.
Proof. by destruct i. Qed.
Lemma push_pending x q : pending (push x q) = pending q ++ [x].
Proof. unfold pending, push. by rewrite current_set, queue_set, queue_set_other, app_assoc. Qed.
Lemma swap_pending i q q' : queue_at (negb (current q)) q = [] -> swap q = Some (i, q') -> pending q' = pending q /\ i = negb (current q') /\ queue_at (current q') q' = [].
Proof.
  unfold swap, pending. intros H. destruct (queue_at (current q) q) eqn:E; [done|]. intros [= <- <-].
  destruct q as [q0 q1 []]; cbn in *; subst; by rewrite ?app_nil_r.
Qed.
Lemma pop_pending q x q' : pop (negb (current q)) q = (Some x, q') -> pending q = x :: pending q' /\ current q' = current q /\
  queue_at (current q) q' = queue_at (current q) q.
Proof. unfold pop, pending. destruct q as [[|a q0] [|b q1] []]; cbn; intros [= <- <-]; done. Qed.
Lemma pop_none i q q' : pop i q = (None, q') -> q' = q /\ queue_at i q = [].
Proof. unfold pop. by destruct (queue_at i q); intros [= <-]. Qed.
End TwoQueues.
Arguments TwoQueues : clear implicits.

(** The queue that is not current is empty, or is the one at work. *)
Definition at_rest {A} (q : TwoQueues A) : Prop := queue_at (negb (current q)) q = [].
Definition at_work {A} (i : bool) (q : TwoQueues A) : Prop := i = negb (current q).
Lemma push_rest {A} (x : A) q : at_rest q -> at_rest (push x q).
Proof. unfold at_rest, push. by rewrite current_set, queue_set_other. Qed.
Lemma push_work {A} i (x : A) q : at_work i q -> at_work i (push x q).
Proof. unfold at_work, push. by rewrite current_set. Qed.
Lemma swap_work {A} (q q' : TwoQueues A) i : swap q = Some (i, q') -> at_work i q'.
Proof. unfold swap, at_work. destruct (queue_at (current q) q); [done|]. intros [= <- <-]. cbn. by destruct (current q). Qed.
Lemma pop_work {A} (q q' : TwoQueues A) i x : pop i q = (Some x, q') -> at_work i q -> at_work i q'.
Proof. unfold pop, at_work. destruct (queue_at i q); [done|]. intros [= _ <-]. by rewrite current_set. Qed.
Lemma pop_rest {A} (q q' : TwoQueues A) i : pop i q = (None, q') -> at_work i q -> at_rest q.
Proof. intros [_ H]%pop_none. unfold at_work, at_rest. by intros <-. Qed.

(** One occurrence of [x] less. *)
Fixpoint remove_one {A} `{EqDecision A} (x : A) (l : list A) : list A :=
  match l with [] => [] | y :: l => if decide (x = y) then l else y :: remove_one x l end.
Lemma remove_one_perm {A} `{EqDecision A} (x : A) l : x ∈ l -> l ≡ₚ x :: remove_one x l.
Proof.
  induction l as [|y l IH]; [by intros ?%elem_of_nil|]. cbn. case_decide as E; [by subst|]. intros [->|H]%elem_of_cons; [done|].
  rewrite (IH H) at 1. constructor.
Qed.
