(* ===== verification/Pools.v ===== *)
(** * common: the pools of io services and of task threads

    io_service_pool.cpp hands its services out in turn and visits them in turn;
    task_thread_pool.cpp runs each task on the thread the task asks for.  Every
    thread has the two queues of Queues.v. *)
From stdpp Require Import gmap.
From S2P Require Import Prelude Queues.

(** ** io_service_pool *)
Section IoServices.
Context {Session : Type} `{Countable Session}.
(** [next_update_index] is a variable of the file. *)
Record io_service_pool := mkPool { io_services_ : list (gset Session); next_io_service_ : nat; next_update_index : nat }.
(** [None]: the constructor throws. *)
Definition new_pool (pool_size : nat) : option io_service_pool :=
  if decide (pool_size = 0%nat) then None else Some (mkPool (replicate pool_size ∅) 0 0).
Definition bump (i : nat) (P : io_service_pool) : nat := if (length (io_services_ P) <=? i + 1)%nat then 0%nat else (i + 1)%nat.
(** The index of the service, and of the one to be visited. *)
Definition get_io_service (P : io_service_pool) : nat * io_service_pool :=
  (next_io_service_ P, mkPool (io_services_ P) (bump (next_io_service_ P) P) (next_update_index P)).
Definition add_session (i : nat) (s : Session) (P : io_service_pool) : io_service_pool :=
  mkPool (alter (fun x => {[s]} ∪ x) i (io_services_ P)) (next_io_service_ P) (next_update_index P).
Definition del_session (i : nat) (s : Session) (P : io_service_pool) : io_service_pool :=
  mkPool (alter (fun x => x ∖ {[s]}) i (io_services_ P)) (next_io_service_ P) (next_update_index P).
(** The sessions whose [run] is called. *)
Definition update (P : io_service_pool) : list Session * io_service_pool :=
  (elements (default ∅ (io_services_ P !! next_update_index P)), mkPool (io_services_ P) (next_io_service_ P) (bump (next_update_index P) P)).

Fixpoint take_services (n : nat) (P : io_service_pool) : list nat * io_service_pool :=
  match n with
  | O => ([], P)
  | S n => let '(i, P) := get_io_service P in let '(l, P) := take_services n P in (i :: l, P)
  end.
Lemma bump_mod i P : (i < length (io_services_ P))%nat -> bump i P = ((i + 1) mod length (io_services_ P))%nat.
Proof.
  intros Hi. unfold bump. destruct (Nat.leb_spec (length (io_services_ P)) (i + 1)) as [Hle|Hlt]; [|by rewrite Nat.mod_small].
  replace (i + 1)%nat with (length (io_services_ P)) by lia. rewrite Nat.Div0.mod_same. done.
Qed.
Lemma take_services_spec n : forall P, (next_io_service_ P < length (io_services_ P))%nat ->
  (take_services n P).1 = map (fun k => (next_io_service_ P + k) mod length (io_services_ P))%nat (seq 0 n).
Proof.
  induction n as [|n IH]; intros P Hi; [done|]. cbn [take_services]. unfold get_io_service. set (P' := mkPool _ _ _).
  destruct (take_services n P') as [l P2] eqn:E. pose proof (IH P') as H1. rewrite E in H1. cbn in H1 |- *. rewrite Nat.add_0_r, Nat.mod_small by done. f_equal.
  assert (Hl : length (io_services_ P) <> 0%nat) by lia. rewrite H1, <- seq_shift, map_map by (rewrite bump_mod by done; by apply Nat.mod_upper_bound).
  apply map_ext. intros k. rewrite bump_mod by done. rewrite Nat.Div0.add_mod_idemp_l. f_equal. lia.
Qed.
End IoServices.

(** ** task_thread_pool *)
Section Tasks.
Context {Task : Type} (get_thread_index : Task -> Z).

(** A thread is between two looks at its queues, works on one of them, or has
    left its loop. *)
Inductive Pc := Looking | Working (i : bool) | Left.
Record task_thread := mkThread { m_tasks : TwoQueues Task; m_exit : bool; pc : Pc }.
Record task_thread_pool := mkTasks { m_thread_count : Z; m_threads : list task_thread }.
Definition new_thread : task_thread := mkThread no_queues false Looking.
Definition startup (thread_count : nat) : task_thread_pool := mkTasks (Z.of_nat thread_count) (replicate thread_count new_thread).
Definition thread_push (t : Task) (w : task_thread) : task_thread := mkThread (push t (m_tasks w)) (m_exit w) (pc w).
(** A task for no thread of the pool is dropped. *)
Definition push_task (t : Task) (P : task_thread_pool) : task_thread_pool :=
  if (get_thread_index t <? m_thread_count P) && (get_thread_index t >=? 0)
  then mkTasks (m_thread_count P) (alter (thread_push t) (Z.to_nat (get_thread_index t)) (m_threads P))
  else P.
(** One round of the loop of [task_thread::run]; a round on an empty queue
    sleeps. The task is executed, ended and deleted before it is popped. *)
Definition thread_step (w : task_thread) : option (list Task * task_thread) :=
  match pc w with
  | Looking =>
      if m_exit w then Some ([], mkThread (m_tasks w) (m_exit w) Left)
      else match swap (m_tasks w) with
           | Some (i, q) => Some ([], mkThread q (m_exit w) (Working i))
           | None => Some ([], w)
           end
  | Working i =>
      match pop i (m_tasks w) with
      | (Some t, q) => Some ([t], mkThread q (m_exit w) (Working i))
      | (None, _) => Some ([], mkThread (m_tasks w) (m_exit w) Looking)
      end
  | Left => None
  end.
(** The destructor of a thread: it can join when the loop has ended. *)
Definition ask_exit (w : task_thread) : task_thread := mkThread (m_tasks w) true (pc w).

Inductive Event := Push (t : Task) | Step (i : nat) | Exit (i : nat).
Definition step (ev : Event) (P : task_thread_pool) : option (list (nat * Task) * task_thread_pool) :=
  match ev with
  | Push t => Some ([], push_task t P)
  | Step i =>
      w ← m_threads P !! i; '(o, w) ← thread_step w;
      Some (map (pair i) o, mkTasks (m_thread_count P) (<[i := w]> (m_threads P)))
  | Exit i => Some ([], mkTasks (m_thread_count P) (alter ask_exit i (m_threads P)))
  end.
(** Runs, with the tasks pushed and the tasks executed, each with its thread. *)
Inductive runs (n : nat) : list Task -> list (nat * Task) -> task_thread_pool -> Prop :=
  | runs_start : runs n [] [] (startup n)
  | runs_step p o P ev o' P' : runs n p o P -> step ev P = Some (o', P') ->
      runs n (p ++ match ev with Push t => [t] | _ => [] end) (o ++ o') P'.

(** ** Facts *)
Definition mine (i : nat) (t : Task) : bool := (get_thread_index t =? Z.of_nat i).
Definition for_thread (i : nat) (l : list Task) : list Task := List.filter (mine i) l.
Definition by_thread (i : nat) (o : list (nat * Task)) : list Task := map snd (List.filter (fun x => (x.1 =? i)%nat) o).
Definition thread_ok (w : task_thread) : Prop :=
  match pc w with Working i => at_work i (m_tasks w) | _ => at_rest (m_tasks w) end.
Definition exit_ok (w : task_thread) : Prop := pc w = Left -> m_exit w = true.

Lemma thread_push_ok t w : thread_ok w -> thread_ok (thread_push t w) /\ pending (m_tasks (thread_push t w)) = pending (m_tasks w) ++ [t].
Proof.
  unfold thread_ok. cbn. intros H. split; [destruct (pc w); [by apply push_rest|by apply push_work|by apply push_rest]|apply push_pending].
Qed.
Lemma thread_step_ok w o w' : thread_ok w -> thread_step w = Some (o, w') -> thread_ok w' /\ pending (m_tasks w) = o ++ pending (m_tasks w').
Proof.
  unfold thread_ok, thread_step. intros H E. destruct (pc w) as [|i|] eqn:Hp; [| |discriminate].
  - destruct (m_exit w); [by injection E as <- <-|]. destruct (swap (m_tasks w)) as [[i q]|] eqn:Es; injection E as <- <-.
    + destruct (swap_pending _ _ _ H Es) as (Hq & _). split; [by eapply swap_work|symmetry; exact Hq].
    + by rewrite Hp.
  - destruct (pop i (m_tasks w)) as [[t|] q] eqn:Eq; injection E as <- <-.
    + split; [by eapply pop_work|]. unfold at_work in H. rewrite H in Eq. by destruct (pop_pending _ _ _ Eq) as [-> _].
    + split; [by eapply pop_rest|done].
Qed.

(** What the invariant says of every thread of a pool of [n]. *)
Record pool_ok (n : nat) (p : list Task) (o : list (nat * Task)) (P : task_thread_pool) : Prop := {
  po_count : m_thread_count P = Z.of_nat n; po_length : length (m_threads P) = n;
  po_threads i w : m_threads P !! i = Some w -> thread_ok w /\ for_thread i p = by_thread i o ++ pending (m_tasks w);
  po_executed : Forall (fun x => (x.1 < n)%nat /\ get_thread_index x.2 = Z.of_nat x.1) o
}.
Lemma for_thread_app i a b : for_thread i (a ++ b) = for_thread i a ++ for_thread i b.
Proof. apply List.filter_app. Qed.
Lemma by_thread_app i a b : by_thread i (a ++ b) = by_thread i a ++ by_thread i b.
Proof. unfold by_thread. by rewrite List.filter_app, map_app. Qed.
Lemma by_thread_map i j l : by_thread i (map (pair j) l) = if (j =? i)%nat then l else [].
Proof.
  unfold by_thread. induction l as [|t l IH]; cbn; [by destruct (j =? i)%nat|]. destruct (j =? i)%nat eqn:E; cbn; [|done]. by rewrite IH.
Qed.
Lemma start_ok n : pool_ok n [] [] (startup n).
Proof. split; [done|apply length_replicate| |done]. intros i w [-> _]%lookup_replicate. done. Qed.
Lemma push_ok n p o P t : pool_ok n p o P -> pool_ok n (p ++ [t]) o (push_task t P).
Proof.
  intros [H1 H2 H3 H4]. unfold push_task. destruct (_ && _) eqn:E.
  - apply andb_true_iff in E as [E1 E2]. apply Z.ltb_lt in E1. apply Z.geb_le in E2. split; cbn; [done|by rewrite length_alter| |done].
    intros i w Hw. rewrite for_thread_app. destruct (decide (i = Z.to_nat (get_thread_index t))) as [->|Hne].
    + rewrite list_lookup_alter_eq in Hw. apply fmap_Some in Hw as (w0 & Hw0 & ->). destruct (H3 _ _ Hw0) as [K1 K2].
      destruct (thread_push_ok t w0 K1) as [K3 K4]. split; [done|]. rewrite K4, K2, <- app_assoc. unfold for_thread, mine. cbn. rewrite Z2Nat.id by done. by rewrite Z.eqb_refl.
    + rewrite list_lookup_alter_ne in Hw by done. destruct (H3 _ _ Hw) as [K1 K2]. split; [done|]. rewrite K2. unfold for_thread, mine. cbn.
      rewrite (proj2 (Z.eqb_neq _ _)) by lia. by rewrite app_nil_r.
  - split; [done|done| |done]. intros i w Hw. destruct (H3 _ _ Hw) as [K1 K2]. split; [done|]. rewrite for_thread_app, K2. unfold for_thread, mine. cbn.
    apply lookup_lt_Some in Hw. rewrite (proj2 (Z.eqb_neq _ _)); [by rewrite app_nil_r|]. intros Hi. rewrite Hi in E.
    apply andb_false_iff in E as [E|E]; [apply Z.ltb_ge in E|rewrite Z.geb_leb in E; apply Z.leb_gt in E]; lia.
Qed.
Lemma own_tasks i p o w : for_thread i p = by_thread i o ++ pending (m_tasks w) -> Forall (fun t => get_thread_index t = Z.of_nat i) (pending (m_tasks w)).
Proof.
  intros E. apply Forall_forall. intros t Ht. assert (Hin : In t (for_thread i p)) by (rewrite E; apply in_or_app; right; by apply list_elem_of_In).
  apply filter_In in Hin as [_ Hm]. by apply Z.eqb_eq.
Qed.
Lemma pool_step_ok n p o P ev o' P' : pool_ok n p o P -> step ev P = Some (o', P') ->
  pool_ok n (p ++ match ev with Push t => [t] | _ => [] end) (o ++ o') P'.
Proof.
  intros H E. destruct ev as [t|i|i]; cbn [step] in E.
  - injection E as <- <-. rewrite app_nil_r. by apply push_ok.
  - destruct (m_threads P !! i) as [w|] eqn:Hw; [|discriminate]. cbn in E. destruct (thread_step w) as [[ex w']|] eqn:Ew; [|discriminate]. injection E as <- <-.
    destruct H as [H1 H2 H3 H4]. destruct (H3 _ _ Hw) as [K1 K2]. destruct (thread_step_ok _ _ _ K1 Ew) as [K3 K4]. pose proof (lookup_lt_Some _ _ _ Hw) as Hi.
    rewrite app_nil_r. split; cbn; [done|by rewrite length_insert| |].
    + intros j w0 Hj. rewrite by_thread_app, by_thread_map. destruct (Nat.eqb_spec i j) as [<-|Hne].
      * rewrite list_lookup_insert_eq in Hj by done. injection Hj as <-. split; [done|]. by rewrite K2, K4, app_assoc.
      * rewrite list_lookup_insert_ne in Hj by done. rewrite app_nil_r. by apply H3.
    + apply Forall_app. split; [done|]. pose proof (own_tasks _ _ _ _ K2) as Ho. rewrite K4, Forall_app in Ho. destruct Ho as [Ho _].
      apply Forall_map. eapply Forall_impl; [exact Ho|]. intros x Hx. cbn. split; [lia|done].
  - injection E as <- <-. rewrite !app_nil_r. destruct H as [H1 H2 H3 H4]. split; cbn; [done|by rewrite length_alter| |done].
    intros j w0 Hj. destruct (decide (i = j)) as [->|Hne]; [|rewrite list_lookup_alter_ne in Hj by done; by apply H3].
    rewrite list_lookup_alter_eq in Hj. apply fmap_Some in Hj as (w & Hw & ->). exact (H3 _ _ Hw).
Qed.

(** The tasks of a pool, in any interleaving of its threads: each thread
    executes the tasks that ask for it, once and in the order in which they
    were pushed, and nothing else; those it has not executed yet are in its
    queues, also when it has left its loop. *)
Theorem tasks_in_order n p o P : runs n p o P ->
  (forall i w, m_threads P !! i = Some w -> for_thread i p = by_thread i o ++ pending (m_tasks w)) /\
  Forall (fun x => (x.1 < n)%nat /\ get_thread_index x.2 = Z.of_nat x.1) o.
Proof.
  intros R. assert (H : pool_ok n p o P) by (induction R; [apply start_ok|by eapply pool_step_ok]). split; [|apply H]. intros i w Hw. by apply (po_threads _ _ _ _ H).
Qed.
End Tasks.

(** A task that comes in while its thread works is not executed when the thread
    is told to leave in the meantime. *)
Fixpoint steps (l : list (Event (Task := nat))) (P : task_thread_pool) : option (list (nat * nat) * task_thread_pool) :=
  match l with
  | [] => Some ([], P)
  | ev :: l => '(o, P) ← step (fun _ => 0) ev P; '(o', P) ← steps l P; Some (o ++ o', P)
  end.
Example task_left_behind : (fun x => (x.1, map (fun w => pending (m_tasks w)) (m_threads x.2))) <$>
  steps [Push 7%nat; Step 0; Push 8%nat; Step 0; Exit 0; Step 0; Step 0] (startup 1) = Some ([(0, 7)]%nat, [[8]%nat]).
Proof. vm_compute. reflexivity. Qed.
