(* ===== verification/TcpServer.v ===== *)
(** * The network server: pooled sessions, callbacks, received messages, bans

    common/tcpserver.cpp [tcp_server] keeps a pool of [tcp_session]s
    (tcpsession.cpp) for its connections, collects what the network threads
    receive and report (call_back.cpp [call_back_mgr]), and hands it to the
    main thread in [_real_run].  One step of the model is what one thread does
    between two accesses to shared data.  Boost.Asio appears as the handlers
    that are still to run: pending accepts, posts, reads and writes. *)
From stdpp Require Import gmap.
From S2P Require Import Prelude Queues.

Abbreviation SessId := positive.

(** ** Bans *)
Section Bans.
Record Bans := mkBans { m_unix_time : Z; m_banip : gmap Z (Z * Z) }.
(** An entry in the past is forgotten when it is looked up. *)
Definition is_ban_ip (addr : Z) (b : Bans) : bool * Bans :=
  match m_banip b !! addr with
  | Some (until, _) => if until <? m_unix_time b then (false, mkBans (m_unix_time b) (delete addr (m_banip b))) else (true, b)
  | None => (false, b)
  end.
Definition add_ban_ip (addr sec br : Z) (b : Bans) : Bans :=
  match m_banip b !! addr with
  | Some (first, _) => if first <? sec then mkBans (m_unix_time b) (<[addr := (sec, br)]> (m_banip b)) else b
  | None => mkBans (m_unix_time b) (<[addr := (u32 (m_unix_time b + sec), br)]> (m_banip b))
  end.
Definition remove_ban_ip (addr : Z) (b : Bans) : Bans := mkBans (m_unix_time b) (delete addr (m_banip b)).
Definition set_time (now : Z) (b : Bans) : Bans := mkBans now (m_banip b).
End Bans.
Definition BAN_REASON_HACK_PACKET : Z := 3.
Definition BAN_REASON_WRONG_CHECK_SUM : Z := 0.

(** ** Sessions and the server *)
Section TcpServer.
Context {Msg : Type}.

(** [epoch] counts the sockets of a session: [reset] makes a new one. *)
Record tcp_session := mkSession { m_isvalid : bool; m_isconnected : bool; m_father : bool; m_remote_ip_ui : Z; epoch : Z }.
Inductive Callback := OnAccept (s : SessId) | OnClose (s : SessId).
(** A message with the session and the socket it was read from. *)
Record Received := mkReceived { from : SessId; socket : Z; data : Msg }.
(** Where the main thread is in [_real_run]; [bool] is the queue at work. *)
Inductive Phase := Idle | BeforePoll | Polling (i : bool) | BeforeSwap | Processing (i : bool).

Record tcp_server := mkServer {
  objects : gmap SessId tcp_session;
  m_sessions : list SessId; m_accepting_count : Z; accepting : list SessId; posted : list SessId;
  reads : list (SessId * Z); writes : list (SessId * Z);
  m_queue_recv_msg : TwoQueues Received; m_cb_mgr : TwoQueues Callback; bans : Bans;
  m_cur_thread_index : Z; m_thread_count : Z; phase : Phase
}.
Definition set_objects v S := mkServer v (m_sessions S) (m_accepting_count S) (accepting S) (posted S) (reads S) (writes S) (m_queue_recv_msg S) (m_cb_mgr S) (bans S) (m_cur_thread_index S) (m_thread_count S) (phase S).
Definition set_pool v S := mkServer (objects S) v (m_accepting_count S) (accepting S) (posted S) (reads S) (writes S) (m_queue_recv_msg S) (m_cb_mgr S) (bans S) (m_cur_thread_index S) (m_thread_count S) (phase S).
Definition set_accepting n v S := mkServer (objects S) (m_sessions S) n v (posted S) (reads S) (writes S) (m_queue_recv_msg S) (m_cb_mgr S) (bans S) (m_cur_thread_index S) (m_thread_count S) (phase S).
Definition set_posted v S := mkServer (objects S) (m_sessions S) (m_accepting_count S) (accepting S) v (reads S) (writes S) (m_queue_recv_msg S) (m_cb_mgr S) (bans S) (m_cur_thread_index S) (m_thread_count S) (phase S).
Definition set_reads v S := mkServer (objects S) (m_sessions S) (m_accepting_count S) (accepting S) (posted S) v (writes S) (m_queue_recv_msg S) (m_cb_mgr S) (bans S) (m_cur_thread_index S) (m_thread_count S) (phase S).
Definition set_writes v S := mkServer (objects S) (m_sessions S) (m_accepting_count S) (accepting S) (posted S) (reads S) v (m_queue_recv_msg S) (m_cb_mgr S) (bans S) (m_cur_thread_index S) (m_thread_count S) (phase S).
Definition set_messages v S := mkServer (objects S) (m_sessions S) (m_accepting_count S) (accepting S) (posted S) (reads S) (writes S) v (m_cb_mgr S) (bans S) (m_cur_thread_index S) (m_thread_count S) (phase S).
Definition set_callbacks v S := mkServer (objects S) (m_sessions S) (m_accepting_count S) (accepting S) (posted S) (reads S) (writes S) (m_queue_recv_msg S) v (bans S) (m_cur_thread_index S) (m_thread_count S) (phase S).
Definition set_bans v S := mkServer (objects S) (m_sessions S) (m_accepting_count S) (accepting S) (posted S) (reads S) (writes S) (m_queue_recv_msg S) (m_cb_mgr S) v (m_cur_thread_index S) (m_thread_count S) (phase S).
Definition set_index v S := mkServer (objects S) (m_sessions S) (m_accepting_count S) (accepting S) (posted S) (reads S) (writes S) (m_queue_recv_msg S) (m_cb_mgr S) (bans S) v (m_thread_count S) (phase S).
Definition set_phase v S := mkServer (objects S) (m_sessions S) (m_accepting_count S) (accepting S) (posted S) (reads S) (writes S) (m_queue_recv_msg S) (m_cb_mgr S) (bans S) (m_cur_thread_index S) (m_thread_count S) v.
Definition session (s : SessId) (S : tcp_server) : tcp_session := default (mkSession false false false 0 0) (objects S !! s).
Definition on_session (s : SessId) (f : tcp_session -> tcp_session) (S : tcp_server) : tcp_server := set_objects (<[s := f (session s S)]> (objects S)) S.

(** *** tcp_session *)
Definition set_valid (b : bool) (x : tcp_session) := mkSession b (m_isconnected x) (m_father x) (m_remote_ip_ui x) (epoch x).
Definition set_connected (b : bool) (x : tcp_session) := mkSession (m_isvalid x) b (m_father x) (m_remote_ip_ui x) (epoch x).
(** The fields of [reset] that matter here, and the new socket. *)
Definition reset (x : tcp_session) := mkSession false false false 0 (epoch x + 1).
Definition add_cb (c : Callback) (S : tcp_server) : tcp_server := set_callbacks (push c (m_cb_mgr S)) S.
Definition push_message (m : Received) (S : tcp_server) : tcp_server := if m_father (session (from m) S) then set_messages (push m (m_queue_recv_msg S)) S else S.
Definition handle_close (s : SessId) (S : tcp_server) : tcp_server := on_session s (set_connected false) S.
(** What a network thread does when a connection is gone. *)
Definition _on_close (s : SessId) (S : tcp_server) : tcp_server :=
  let S := on_session s (set_connected false) S in if m_father (session s S) then add_cb (OnClose s) S else S.

(** *** tcp_server *)
Definition free_session (s : SessId) (S : tcp_server) : tcp_server := set_pool (m_sessions S ++ [s]) (on_session s (fun x => set_valid false (reset x)) S).
Definition generate_thread_index (S : tcp_server) : Z * tcp_server :=
  let i := m_cur_thread_index S in
  let n := i + 1 in
  (if i >=? m_thread_count S then 0 else i, set_index (if n >=? m_thread_count S then 0 else n) S).
Definition ban (addr sec br : Z) (S : tcp_server) : tcp_server := set_bans (add_ban_ip addr sec br (bans S)) S.

(** The accept loop of [_real_run], under its lock; [limit] is
    [s_io_once_listen_session_count]. *)
Fixpoint accept_loop (limit : Z) (pool : list SessId) (S : tcp_server) : tcp_server :=
  match pool with
  | p :: pool =>
      if m_accepting_count S <? limit
      then accept_loop limit pool (set_accepting (m_accepting_count S + 1) (accepting S ++ [p]) (set_pool pool (on_session p (set_valid true) S)))
      else S
  | [] => S
  end.

(** The handler of an accept, and its continuation on the session's thread. *)
Definition server_handle_accept (p : SessId) (addr : Z) (error : bool) (S : tcp_server) : tcp_server :=
  let S := set_accepting (m_accepting_count S - 1) (remove_one p (accepting S)) S in
  let '(banned, b) := is_ban_ip addr (bans S) in
  let S := set_bans b S in
  if banned || error then free_session p (handle_close p S) else set_posted (posted S ++ [p]) S.
Definition session_handle_accept (s : SessId) (addr : Z) (S : tcp_server) : tcp_server :=
  let S := set_posted (remove_one s (posted S)) S in
  let S := on_session s (fun x => mkSession true true true addr (epoch x)) S in
  let S := set_reads (reads S ++ [(s, epoch (session s S))]) S in
  let S := snd (generate_thread_index S) in
  add_cb (OnAccept s) S.

(** How a read ends: it goes on, the header is not one ([close_and_ban]), or a
    message does not pass its checksum. *)
Inductive ReadEnd := Goes_on | Hack_packet | Wrong_check_sum.
Definition handle_read_some (s : SessId) (e : Z) (ms : list Msg) (last : ReadEnd) (S : tcp_server) : tcp_server :=
  let S := set_reads (remove_one (s, e) (reads S)) S in
  if negb (m_isvalid (session s S)) then S
  else
    let S := foldl (fun S m => push_message (mkReceived s e m) S) S ms in
    let ip := m_remote_ip_ui (session s S) in
    match last with
    | Goes_on => set_reads (reads S ++ [(s, epoch (session s S))]) S
    | Hack_packet => if m_father (session s S) then ban ip 5 BAN_REASON_HACK_PACKET S else S
    | Wrong_check_sum => _on_close s (if m_father (session s S) then ban ip 120 BAN_REASON_WRONG_CHECK_SUM S else S)
    end.
Definition read_error (s : SessId) (e : Z) (S : tcp_server) : tcp_server :=
  let S := set_reads (remove_one (s, e) (reads S)) S in
  if m_isvalid (session s S) then _on_close s S else S.
Definition write_error (s : SessId) (e : Z) (S : tcp_server) : tcp_server :=
  let S := set_writes (remove_one (s, e) (writes S)) S in
  if m_isvalid (session s S) then _on_close s S else S.

(** *** Steps *)
Inductive Event :=
  | Run (now : Z) | Poll | RunCallback | Swap | Process
  | AcceptDone (p : SessId) (addr : Z) (error : bool) | HandleAccept (p : SessId) (addr : Z)
  | ReadSome (s : SessId) (e : Z) (ms : list Msg) (last : ReadEnd) | ReadError (s : SessId) (e : Z)
  | WriteStart (s : SessId) | WriteDone (s : SessId) (e : Z) | WriteError (s : SessId) (e : Z)
  | HandleClose (s : SessId) | Ban (addr sec br : Z) | Unban (addr : Z).
(** [Handled m e]: [proc_message] gets [m] while the session is on its socket [e]. *)
Inductive Out := Pushed (m : Received) | Called (c : Callback) | Handled (m : Received) (e : Z) | Discarded (m : Received).

Definition run_callback (c : Callback) (S : tcp_server) : tcp_server :=
  match c with OnAccept s => S | OnClose s => if m_father (session s S) then free_session s S else S end.
Definition process (m : Received) (S : tcp_server) : Out :=
  if m_isvalid (session (from m) S) && m_isconnected (session (from m) S) then Handled m (epoch (session (from m) S)) else Discarded m.
Definition step (limit : Z) (ev : Event) (S : tcp_server) : option (list Out * tcp_server) :=
  match ev with
  | Run now => match phase S with
               | Idle => Some ([], set_phase BeforePoll (accept_loop limit (m_sessions S) (set_bans (set_time now (bans S)) S)))
               | _ => None
               end
  | Poll => match phase S with
            | BeforePoll => Some ([], match swap (m_cb_mgr S) with
                                      | Some (i, q) => set_phase (Polling i) (set_callbacks q S)
                                      | None => set_phase BeforeSwap S
                                      end)
            | _ => None
            end
  | RunCallback => match phase S with
                   | Polling i => match pop i (m_cb_mgr S) with
                                  | (Some c, q) => Some ([Called c], run_callback c (set_callbacks q S))
                                  | (None, _) => Some ([], set_phase BeforeSwap S)
                                  end
                   | _ => None
                   end
  | Swap => match phase S with
            | BeforeSwap => Some ([], match swap (m_queue_recv_msg S) with
                                      | Some (i, q) => set_phase (Processing i) (set_messages q S)
                                      | None => set_phase Idle S
                                      end)
            | _ => None
            end
  | Process => match phase S with
               | Processing i => match pop i (m_queue_recv_msg S) with
                                 | (Some m, q) => Some ([process m S], set_messages q S)
                                 | (None, _) => Some ([], set_phase Idle S)
                                 end
               | _ => None
               end
  | AcceptDone p addr error => if decide (p ∈ accepting S) then Some ([], server_handle_accept p addr error S) else None
  | HandleAccept p addr => if decide (p ∈ posted S) then Some ([], session_handle_accept p addr S) else None
  | ReadSome s e ms last =>
      if decide ((s, e) ∈ reads S)
      then Some (if m_isvalid (session s S) && m_father (session s S) then map (fun m => Pushed (mkReceived s e m)) ms else [], handle_read_some s e ms last S)
      else None
  | ReadError s e => if decide ((s, e) ∈ reads S) then Some ([], read_error s e S) else None
  | WriteStart s => Some ([], set_writes (writes S ++ [(s, epoch (session s S))]) S)
  | WriteDone s e => if decide ((s, e) ∈ writes S) then Some ([], set_writes (remove_one (s, e) (writes S)) S) else None
  | WriteError s e => if decide ((s, e) ∈ writes S) then Some ([], write_error s e S) else None
  | HandleClose s => Some ([], handle_close s S)
  | Ban addr sec br => Some ([], ban addr sec br S)
  | Unban addr => Some ([], set_bans (remove_ban_ip addr (bans S)) S)
  end.

(** [create]: the pool is filled. *)
Definition create (poolcount : nat) (threads now : Z) : tcp_server :=
  foldl (fun S i => free_session (Pos.of_succ_nat i) S)
    (mkServer ∅ [] 0 [] [] [] [] no_queues no_queues (mkBans now ∅) 0 threads Idle) (seq 0 (if decide (poolcount = 0%nat) then 20 else poolcount)).
End TcpServer.
Arguments tcp_server : clear implicits.
Arguments Event : clear implicits.
Arguments Out : clear implicits.
Arguments Received : clear implicits.

(** ** The invariant *)
Section Invariant.
Context {Msg : Type}.
Abbreviation Server := (tcp_server Msg).
Abbreviation Message := (Received Msg).
Implicit Types (S : Server) (m : Message).

(** Sessions that wait in the pool, for a connection, or for the handler of a
    new connection. *)
Definition idle_sessions S : list SessId := m_sessions S ++ accepting S ++ posted S.
(** A message of the connection that its session has now. *)
Definition fresh S m : Prop := m_father (session (from m) S) = true /\ epoch (session (from m) S) = socket m.
Definition fresh_or_freed S m : Prop := m_isvalid (session (from m) S) = true -> fresh S m.

Definition messages_ok S : Prop :=
  let q := m_queue_recv_msg S in
  match phase S with
  | Idle | BeforePoll => at_rest q /\ Forall (fresh S) (queue_at (current q) q)
  | Polling _ | BeforeSwap => at_rest q /\ Forall (fresh_or_freed S) (queue_at (current q) q)
  | Processing i => at_work i q /\ Forall (fresh_or_freed S) (queue_at i q) /\ Forall (fresh S) (queue_at (current q) q)
  end.
Definition callbacks_ok S : Prop := match phase S with Polling i => at_work i (m_cb_mgr S) | _ => at_rest (m_cb_mgr S) end.

Record inv (limit : Z) S : Prop := {
  in_nodup : NoDup (idle_sessions S);
  in_live s : m_father (session s S) = true -> (s ∉ idle_sessions S) /\ m_isvalid (session s S) = true;
  in_wait s : s ∈ accepting S ++ posted S -> m_isvalid (session s S) = true;
  in_count : m_accepting_count S = Z.of_nat (length (accepting S));
  in_limit : m_accepting_count S <= Z.max 0 limit;
  in_messages : messages_ok S;
  in_callbacks : callbacks_ok S
}.

Lemma session_same s f S : session s (on_session s f S) = f (session s S).
Proof. unfold session at 1, on_session. cbn. by rewrite lookup_insert_eq. Qed.
Lemma session_other s t f S : s <> t -> session t (on_session s f S) = session t S.
Proof. intros H. unfold session, on_session. cbn. by rewrite lookup_insert_ne. Qed.
Lemma session_case s t f S : session t (on_session s f S) = if decide (s = t) then f (session s S) else session t S.
Proof. case_decide as E; [subst; apply session_same|by apply session_other]. Qed.

(** Connections that are open stay as they are. *)
Definition keeps S S' : Prop :=
  (forall s, m_father (session s S) = true -> m_father (session s S') = true /\ epoch (session s S') = epoch (session s S)) /\
  (forall s, m_isvalid (session s S') = true -> m_isvalid (session s S) = true).
Lemma fresh_keeps S S' m : keeps S S' -> fresh S m -> fresh S' m.
Proof. intros [H _] [H1 H2]. destruct (H _ H1) as [H3 H4]. split; [done|by rewrite H4]. Qed.
Lemma freed_keeps S S' m : keeps S S' -> fresh_or_freed S m -> fresh_or_freed S' m.
Proof. intros H H1 H2. eapply fresh_keeps; [done|]. apply H1. by apply H. Qed.
Lemma messages_keep S S' : keeps S S' -> m_queue_recv_msg S' = m_queue_recv_msg S -> phase S' = phase S -> messages_ok S -> messages_ok S'.
Proof.
  intros Hk Hq Hp. unfold messages_ok. rewrite Hq, Hp. destruct (phase S); cbn.
  1,2: intros [H1 H2]; split; [done|]; eapply Forall_impl; [exact H2|]; intros; by eapply fresh_keeps.
  1,2: intros [H1 H2]; split; [done|]; eapply Forall_impl; [exact H2|]; intros; by eapply freed_keeps.
  intros (H1 & H2 & H3). split_and!; [done| |].
  - eapply Forall_impl; [exact H2|]. intros. by eapply freed_keeps.
  - eapply Forall_impl; [exact H3|]. intros. by eapply fresh_keeps.
Qed.
Lemma keeps_refl S : keeps S S.
Proof. by split. Qed.
Lemma conn_keeps_trans S1 S2 S3 : keeps S1 S2 -> keeps S2 S3 -> keeps S1 S3.
Proof.
  intros [A1 A2] [B1 B2]. split.
  - intros s H. destruct (A1 s H) as [H1 H2]. destruct (B1 s H1) as [H3 H4]. split; [done|congruence].
  - auto.
Qed.
Lemma keeps_connected s b S : keeps S (on_session s (set_connected b) S).
Proof. split; intros t; rewrite session_case; case_decide as E; subst; by try (intros; split). Qed.

(** Only one session changes, in a part that the invariant does not look at, or
    nothing of the sessions. *)
Lemma inv_frame limit S S' : inv limit S -> keeps S S' -> idle_sessions S' = idle_sessions S -> accepting S' ++ posted S' = accepting S ++ posted S ->
  (forall s, m_father (session s S') = m_father (session s S)) -> (forall s, m_isvalid (session s S') = m_isvalid (session s S)) ->
  m_accepting_count S' = m_accepting_count S -> length (accepting S') = length (accepting S) ->
  messages_ok S' -> callbacks_ok S' -> inv limit S'.
Proof.
  intros [I1 I2 I3 I4 I5 I6 I7] Hk Hi Ha Hf Hv Hc Hl Hm Hcb. split; try done.
  - by rewrite Hi.
  - intros s. rewrite Hf, Hi, Hv. apply I2.
  - intros s. rewrite Ha, Hv. apply I3.
  - by rewrite Hc, Hl.
  - by rewrite Hc.
Qed.

Lemma idle_perm S S' : idle_sessions S' ≡ₚ idle_sessions S -> (forall s, s ∈ idle_sessions S' <-> s ∈ idle_sessions S) /\ (NoDup (idle_sessions S) -> NoDup (idle_sessions S')).
Proof. intros H. split; [intros s; by rewrite H|by rewrite H]. Qed.

Lemma accept_one_ok limit S p pool : inv limit S -> phase S = Idle -> m_sessions S = p :: pool -> m_accepting_count S < limit ->
  inv limit (set_accepting (m_accepting_count S + 1) (accepting S ++ [p]) (set_pool pool (on_session p (set_valid true) S))).
Proof.
  intros [I1 I2 I3 I4 I5 I6 I7] Hp Hs Hc. set (S' := set_accepting _ _ _).
  assert (Hi : idle_sessions S' ≡ₚ idle_sessions S) by (unfold idle_sessions; rewrite Hs; cbn; solve_Permutation).
  apply idle_perm in Hi as [Hi Hn]. assert (Hx : forall s, session s S' = if decide (p = s) then set_valid true (session p S) else session s S) by (intros s; apply session_case).
  assert (Hf : forall s, m_father (session s S') = m_father (session s S)) by (intros s; rewrite Hx; case_decide; by subst).
  assert (He : forall s, epoch (session s S') = epoch (session s S)) by (intros s; rewrite Hx; case_decide; by subst).
  split.
  - by apply Hn.
  - intros s. rewrite Hf, Hi, Hx. intros H. destruct (I2 s H) as [H1 H2]. split; [done|]. by case_decide.
  - intros s. rewrite Hx. cbn. case_decide as E; [done|]. rewrite !elem_of_app, list_elem_of_singleton. intros [[H|H]|H]; [| congruence|]; apply I3, elem_of_app; auto.
  - cbn. rewrite length_app. cbn. lia.
  - cbn. lia.
  - unfold messages_ok in *. cbn. rewrite Hp in *. destruct I6 as [H1 H2]. split; [done|]. eapply Forall_impl; [exact H2|].
    intros m [Hm1 Hm2]. split; [by rewrite Hf|by rewrite He].
  - unfold callbacks_ok in *. cbn. by rewrite Hp in *.
Qed.
Lemma accept_loop_ok limit pool : forall S, inv limit S -> phase S = Idle -> m_sessions S = pool ->
  inv limit (accept_loop limit pool S) /\ phase (accept_loop limit pool S) = Idle.
Proof.
  induction pool as [|p pool IH]; intros S I Hp Hs; cbn; [done|]. destruct (Z.ltb_spec (m_accepting_count S) limit); [|done].
  apply IH; [by apply accept_one_ok|done|done].
Qed.

(** A session goes back to the pool: one that waited for a connection, or one
    whose connection is reported closed. *)
Lemma free_ok limit S s : NoDup (s :: idle_sessions S) ->
  (forall t, t <> s -> m_father (session t S) = true -> (t ∉ idle_sessions S) /\ m_isvalid (session t S) = true) ->
  (forall t, t ∈ accepting S ++ posted S -> m_isvalid (session t S) = true) ->
  m_accepting_count S = Z.of_nat (length (accepting S)) -> m_accepting_count S <= Z.max 0 limit ->
  messages_ok (free_session s S) -> callbacks_ok S -> inv limit (free_session s S).
Proof.
  intros Hn Hl Hw Hc Hlim Hm Hcb.
  assert (Hx : forall t, session t (free_session s S) = if decide (s = t) then set_valid false (reset (session s S)) else session t S) by (intros t; apply session_case).
  assert (Hi : idle_sessions (free_session s S) ≡ₚ s :: idle_sessions S) by (unfold idle_sessions; cbn; solve_Permutation).
  inversion_clear Hn as [|? ? Hs Hn']. split; [by rewrite Hi; constructor| | |done|done|done|done].
  - intros t. rewrite Hx, Hi. case_decide as E; [done|]. intros H. destruct (Hl t (not_eq_sym E) H) as [H1 H2]. split; [|done].
    by intros [->|?]%elem_of_cons.
  - intros t Ht. rewrite Hx. case_decide as E; [|by apply Hw]. subst. destruct Hs. apply elem_of_app. by right.
Qed.
Lemma keeps_free S s : m_father (session s S) = false -> keeps S (free_session s S).
Proof.
  intros Hf. assert (Hx : forall t, session t (free_session s S) = if decide (s = t) then set_valid false (reset (session s S)) else session t S) by (intros t; apply session_case).
  split; intros t; rewrite Hx; case_decide as E; try done. subst. by rewrite Hf.
Qed.
Lemma messages_free S s i : phase S = Polling i -> messages_ok S -> messages_ok (free_session s S).
Proof.
  intros Hp. unfold messages_ok. cbn. rewrite Hp. intros [H1 H2]. split; [done|]. eapply Forall_impl; [exact H2|]. intros m Hm. unfold fresh_or_freed, fresh in *.
  change (session (from m) (free_session s S)) with (session (from m) (on_session s (fun x => set_valid false (reset x)) S)).
  rewrite session_case. by case_decide.
Qed.

Lemma remove_count {A} `{EqDecision A} (x : A) l : x ∈ l -> length l = S (length (remove_one x l)).
Proof. intros H. exact (Permutation_length (remove_one_perm x l H)). Qed.
Lemma remove_in {A} `{EqDecision A} (x y : A) l : y ∈ remove_one x l -> y ∈ l.
Proof. induction l as [|z l IH]; cbn; [done|]. case_decide; [by right|]. intros [->|Hy]%elem_of_cons; [by left|right; auto]. Qed.

(** What the handler of an accept leaves, before it frees the session or posts
    the next handler. *)
Lemma accept_done_ok limit S p addr error : inv limit S -> p ∈ accepting S -> inv limit (server_handle_accept p addr error S).
Proof.
  intros I Hp. pose proof I as [I1 I2 I3 I4 I5 I6 I7]. unfold server_handle_accept.
  set (S1 := set_accepting (m_accepting_count S - 1) (remove_one p (accepting S)) S).
  change (bans S1) with (bans S). destruct (is_ban_ip addr (bans S)) as [banned b]. set (S2 := set_bans b S1).
  assert (Hfp : m_father (session p S) = false).
  { destruct (m_father (session p S)) eqn:E; [|done]. destruct (I2 p E) as [[] _]. apply elem_of_app. right. apply elem_of_app. by left. }
  assert (Hperm : idle_sessions S ≡ₚ p :: idle_sessions S2).
  { unfold idle_sessions. cbn. rewrite (remove_one_perm p (accepting S) Hp) at 1. solve_Permutation. }
  pose proof (remove_count p _ Hp) as Hl.
  assert (Hlive : forall t, m_father (session t S) = true -> t <> p -> (t ∉ idle_sessions S2) /\ m_isvalid (session t S) = true).
  { intros t Ht Hne. destruct (I2 t Ht) as [H1 H2]. split; [|done]. intros H. apply H1. rewrite Hperm. by right. }
  assert (Hwait : forall t, t ∈ remove_one p (accepting S) ++ posted S -> m_isvalid (session t S) = true).
  { intros t [H%remove_in|H]%elem_of_app; apply I3, elem_of_app; auto. }
  destruct (banned || error).
  - assert (Hk : keeps S (handle_close p S2)) by exact (keeps_connected p false S).
    assert (Hx : forall t, m_father (session t (handle_close p S2)) = m_father (session t S) /\ m_isvalid (session t (handle_close p S2)) = m_isvalid (session t S)).
    { intros t. unfold handle_close. rewrite session_case. case_decide; by subst. }
    apply free_ok; [| | |cbn; lia|cbn; lia| |done].
    + change (idle_sessions (handle_close p S2)) with (idle_sessions S2). by rewrite <- Hperm.
    + intros t Hne. destruct (Hx t) as [-> ->]. intros Ht. by apply Hlive.
    + intros t Ht. destruct (Hx t) as [_ ->]. by apply Hwait.
    + apply (messages_keep S); [|done|done|exact I6]. eapply conn_keeps_trans; [exact Hk|]. apply keeps_free. destruct (Hx p) as [-> _]. done.
  - assert (Hi : idle_sessions (set_posted (posted S2 ++ [p]) S2) ≡ₚ idle_sessions S) by (rewrite Hperm; unfold idle_sessions; cbn; solve_Permutation).
    apply idle_perm in Hi as [Hi Hn]. split; [by apply Hn| | |cbn; lia|cbn; lia|exact I6|exact I7].
    + intros t. rewrite Hi. apply I2.
    + intros t. cbn. rewrite app_assoc. intros [H|H%list_elem_of_singleton]%elem_of_app; [by apply Hwait|]. subst. apply I3, elem_of_app. by left.
Qed.

Lemma add_cb_ok c S : callbacks_ok S -> callbacks_ok (add_cb c S).
Proof. unfold callbacks_ok. cbn. destruct (phase S); (apply push_rest || apply push_work). Qed.

Lemma handle_accept_ok limit S s addr : inv limit S -> s ∈ posted S -> inv limit (session_handle_accept s addr S).
Proof.
  intros [I1 I2 I3 I4 I5 I6 I7] Hs. set (S' := session_handle_accept s addr S).
  assert (Hx : forall t, session t S' = if decide (s = t) then mkSession true true true addr (epoch (session s S)) else session t S) by exact (fun t => session_case s t (fun x => mkSession true true true addr (epoch x)) S).
  assert (Hfs : m_father (session s S) = false).
  { destruct (m_father (session s S)) eqn:E; [|done]. destruct (I2 s E) as [[] _]. apply elem_of_app. right. apply elem_of_app. by right. }
  assert (Hvs : m_isvalid (session s S) = true) by (apply I3, elem_of_app; by right).
  assert (Hperm : idle_sessions S ≡ₚ s :: idle_sessions S').
  { unfold idle_sessions. cbn. rewrite (remove_one_perm s (posted S) Hs) at 1. solve_Permutation. }
  assert (Hn : NoDup (s :: idle_sessions S')) by (by rewrite <- Hperm). inversion_clear Hn as [|? ? Hn1 Hn2].
  split; [done| | |done|done| |by apply add_cb_ok].
  - intros t. rewrite Hx. case_decide as E; [by subst|]. intros Ht. destruct (I2 t Ht) as [H1 H2]. split; [|done]. intros H. apply H1. rewrite Hperm. by right.
  - intros t Ht. rewrite Hx. case_decide as E; [done|]. apply I3. apply elem_of_app in Ht as [H|H%remove_in]; apply elem_of_app; auto.
  - apply (messages_keep S); [|done|done|exact I6]. split; intros t; rewrite Hx; case_decide as E; try done; subst; congruence.
Qed.

(** A network thread only marks a session and adds messages and callbacks. *)
Record net_step S S' : Prop := {
  ns_waits : m_sessions S' = m_sessions S /\ accepting S' = accepting S /\ posted S' = posted S /\ m_accepting_count S' = m_accepting_count S;
  ns_session t : m_father (session t S') = m_father (session t S) /\ m_isvalid (session t S') = m_isvalid (session t S) /\ epoch (session t S') = epoch (session t S);
  ns_messages : messages_ok S -> messages_ok S';
  ns_callbacks : callbacks_ok S -> callbacks_ok S'
}.
Lemma net_ok limit S S' : net_step S S' -> inv limit S -> inv limit S'.
Proof.
  intros [(W1 & W2 & W3 & W4) N2 N3 N4] [I1 I2 I3 I4 I5 I6 I7].
  assert (Hi : idle_sessions S' = idle_sessions S) by (unfold idle_sessions; congruence).
  split; [by rewrite Hi| | |by rewrite W4, W2|by rewrite W4|auto|auto].
  - intros t. destruct (N2 t) as (-> & -> & _). rewrite Hi. apply I2.
  - intros t. destruct (N2 t) as (_ & -> & _). rewrite W2, W3. apply I3.
Qed.
Lemma net_refl S : net_step S S.
Proof. by split. Qed.
Lemma net_trans S1 S2 S3 : net_step S1 S2 -> net_step S2 S3 -> net_step S1 S3.
Proof.
  intros [(A1 & A2 & A3 & A4) A5 A6 A7] [(B1 & B2 & B3 & B4) B5 B6 B7]. split; [split_and!; congruence| |auto|auto].
  intros t. destruct (A5 t) as (? & ? & ?), (B5 t) as (? & ? & ?). split_and!; congruence.
Qed.
Lemma net_connected s b S : net_step S (on_session s (set_connected b) S).
Proof.
  split; [done| | |done].
  - intros t. rewrite session_case. case_decide; by subst.
  - intros H. exact (messages_keep S _ (keeps_connected s b S) eq_refl eq_refl H).
Qed.
Lemma net_close s S : net_step S (_on_close s S).
Proof.
  unfold _on_close. eapply net_trans; [apply (net_connected s false)|]. case_match; [|apply net_refl]. split; [done|done|done|apply add_cb_ok].
Qed.
Lemma net_fields S S' : objects S' = objects S -> m_sessions S' = m_sessions S -> accepting S' = accepting S -> posted S' = posted S ->
  m_accepting_count S' = m_accepting_count S -> m_queue_recv_msg S' = m_queue_recv_msg S -> m_cb_mgr S' = m_cb_mgr S -> phase S' = phase S -> net_step S S'.
Proof.
  intros Ho H1 H2 H3 H4 H5 H6 H7. assert (Hx : forall t, session t S' = session t S) by (intros t; unfold session; by rewrite Ho). split.
  - done.
  - intros t. by rewrite Hx.
  - apply messages_keep; [|done|done]. split; intros t; by rewrite Hx.
  - unfold callbacks_ok. by rewrite H6, H7.
Qed.
(** A message that was read from the session's own socket. *)
Lemma net_push m S : m_isvalid (session (from m) S) = true -> epoch (session (from m) S) = socket m -> net_step S (push_message m S).
Proof.
  intros Hv He. unfold push_message. destruct (m_father (session (from m) S)) eqn:Hf; [|apply net_refl].
  assert (Hm : fresh S m) by (by split).
  split; [done|done| |done]. unfold messages_ok. cbn. unfold at_work, push. rewrite current_set, queue_set.
  destruct (phase S) eqn:Ep; cbn; rewrite ?Ep.
  1,2: intros [H1 H2]; split; [by apply push_rest|]; apply Forall_app; split; [done|by constructor].
  1,2: intros [H1 H2]; split; [by apply push_rest|]; apply Forall_app; split; [done|]; constructor; [by intros _|done].
  intros (H1 & H2 & H3). split; [done|]. rewrite H1, queue_set_other. rewrite H1 in H2. split; [done|]. apply Forall_app. split; [done|by constructor].
Qed.

Lemma net_pushes s e ms : forall S, m_isvalid (session s S) = true -> epoch (session s S) = e ->
  net_step S (foldl (fun S x => push_message (mkReceived s e x) S) S ms).
Proof.
  induction ms as [|m ms IH]; intros S Hv He; cbn; [apply net_refl|]. pose proof (net_push (mkReceived s e m) S Hv He) as N.
  eapply net_trans; [exact N|]. destruct (ns_session _ _ N s) as (_ & H2 & H3). apply IH; congruence.
Qed.
Lemma net_read s e ms last S : (m_isvalid (session s S) = true -> e = epoch (session s S)) -> net_step S (handle_read_some s e ms last S).
Proof.
  intros He. unfold handle_read_some. set (S1 := set_reads (remove_one (s, e) (reads S)) S).
  assert (N1 : net_step S S1) by (by apply net_fields). change (session s S1) with (session s S).
  destruct (m_isvalid (session s S)) eqn:Hv; cbn [negb]; [|done].
  assert (N2 : net_step S1 (foldl (fun S x => push_message (mkReceived s e x) S) S1 ms)) by (apply net_pushes; [done|symmetry; by apply He]).
  eapply net_trans; [exact N1|]. eapply net_trans; [exact N2|]. destruct last.
  - by apply net_fields.
  - case_match; [by apply net_fields|apply net_refl].
  - eapply net_trans; [|apply net_close]. case_match; [by apply net_fields|apply net_refl].
Qed.

(** Boost.Asio: a read that succeeds was started on the session's present
    socket (the others end with an error). *)
Definition on_time (ev : Event Msg) S : Prop :=
  match ev with ReadSome s e _ _ => m_isvalid (session s S) = true -> e = epoch (session s S) | _ => True end.

Lemma step_phase limit S p : inv limit S -> (messages_ok S -> messages_ok (set_phase p S)) -> (callbacks_ok S -> callbacks_ok (set_phase p S)) -> inv limit (set_phase p S).
Proof. intros [I1 I2 I3 I4 I5 I6 I7] H1 H2. split; try done; [by apply H1|by apply H2]. Qed.

Lemma poll_ok limit S : inv limit S -> phase S = BeforePoll ->
  inv limit (match swap (m_cb_mgr S) with Some (i, q) => set_phase (Polling i) (set_callbacks q S) | None => set_phase BeforeSwap S end).
Proof.
  intros [I1 I2 I3 I4 I5 I6 I7] Hp. unfold messages_ok, callbacks_ok in I6, I7. rewrite Hp in I6, I7. destruct I6 as [H1 H2].
  assert (H3 : Forall (fresh_or_freed S) (queue_at (current (m_queue_recv_msg S)) (m_queue_recv_msg S))).
  { eapply Forall_impl; [exact H2|]. by intros m Hm _. }
  destruct (swap (m_cb_mgr S)) as [[i q]|] eqn:E; split; try done.
  by destruct (swap_pending _ _ _ I7 E) as (_ & Hi & _).
Qed.
Lemma callback_ok limit S i : inv limit S -> phase S = Polling i ->
  match pop i (m_cb_mgr S) with (Some c, q) => inv limit (run_callback c (set_callbacks q S)) | (None, _) => inv limit (set_phase BeforeSwap S) end.
Proof.
  intros I Hp. pose proof (in_callbacks _ _ I) as Hc. unfold callbacks_ok in Hc. rewrite Hp in Hc. destruct (pop i (m_cb_mgr S)) as [[c|] q] eqn:E.
  - unfold at_work in Hc. rewrite Hc in E. destruct (pop_pending _ _ _ E) as (_ & Hq & _).
    assert (I' : inv limit (set_callbacks q S)).
    { destruct I as [I1 I2 I3 I4 I5 I6 I7]. split; try done. unfold callbacks_ok. cbn. rewrite Hp. unfold at_work. by rewrite Hq. }
    destruct c as [s|s]; cbn [run_callback]; [done|]. destruct (m_father (session s (set_callbacks q S))) eqn:Hf; [|done].
    destruct I' as [I1 I2 I3 I4 I5 I6 I7]. destruct (I2 s Hf) as [H1 H2]. apply free_ok; try done; [by constructor|by intros t _; apply I2|by eapply messages_free].
  - apply pop_none in E as [_ E]. apply step_phase; [done| |].
    + unfold messages_ok. cbn. by rewrite Hp.
    + intros _. unfold callbacks_ok. cbn. unfold at_rest. unfold at_work in Hc. by rewrite <- Hc.
Qed.
Lemma swap_ok limit S : inv limit S -> phase S = BeforeSwap ->
  inv limit (match swap (m_queue_recv_msg S) with Some (i, q) => set_phase (Processing i) (set_messages q S) | None => set_phase Idle S end).
Proof.
  intros [I1 I2 I3 I4 I5 I6 I7] Hp. unfold messages_ok, callbacks_ok in I6, I7. rewrite Hp in I6, I7. destruct I6 as [H1 H2].
  destruct (swap (m_queue_recv_msg S)) as [[i q]|] eqn:E; split; try done; unfold messages_ok; cbn.
  - destruct (swap_pending _ _ _ H1 E) as (Hpe & Hi & Hc). split; [done|]. split.
    + assert (Hq : queue_at i q = queue_at (current (m_queue_recv_msg S)) (m_queue_recv_msg S)).
      { unfold swap in E. destruct (queue_at (current (m_queue_recv_msg S)) (m_queue_recv_msg S)) eqn:E1; [done|]. injection E as <- <-. rewrite <- E1.
        by destruct (m_queue_recv_msg S) as [q0 q1 []]. }
      by rewrite Hq.
    + rewrite Hc. constructor.
  - split; [done|]. unfold swap in E. by destruct (queue_at (current (m_queue_recv_msg S)) (m_queue_recv_msg S)).
Qed.
Lemma process_ok limit S i : inv limit S -> phase S = Processing i ->
  match pop i (m_queue_recv_msg S) with
  | (Some m, q) => inv limit (set_messages q S) /\ fresh_or_freed S m
  | (None, _) => inv limit (set_phase Idle S)
  end.
Proof.
  intros I Hp. pose proof (in_messages _ _ I) as Hm. unfold messages_ok in Hm. rewrite Hp in Hm. destruct Hm as (Hi & Hf & Hc).
  destruct (pop i (m_queue_recv_msg S)) as [[m|] q] eqn:E.
  - unfold at_work in Hi. assert (Hq : queue_at i (m_queue_recv_msg S) = m :: queue_at i q).
    { unfold pop in E. destruct (queue_at i (m_queue_recv_msg S)) eqn:E1; [done|]. injection E as -> <-. by rewrite queue_set. }
    rewrite Hi in E. destruct (pop_pending _ _ _ E) as (_ & Hcur & Hsame). rewrite Hq in Hf. inversion_clear Hf as [|? ? F1 F2].
    split; [|done]. destruct I as [I1 I2 I3 I4 I5 I6 I7]. split; try done; unfold messages_ok, callbacks_ok in *; cbn; rewrite Hp in *.
    split; [unfold at_work; by rewrite Hcur|]. split; [done|]. by rewrite Hcur, Hsame.
  - apply pop_none in E as [_ E]. apply step_phase; [done| |].
    + intros _. unfold messages_ok. cbn. split; [|done]. unfold at_rest. unfold at_work in Hi. by rewrite <- Hi.
    + unfold callbacks_ok. cbn. by rewrite Hp.
Qed.

Lemma conn_step_inv limit ev S o S' : inv limit S -> on_time ev S -> step limit ev S = Some (o, S') -> inv limit S'.
Proof.
  intros I Ht E. destruct ev as [now| | | | |p addr er|p addr|s e ms last|s e|s|s e|s e|s|addr sec br|addr]; cbn [step] in E.
  - destruct (phase S) eqn:Hp; try discriminate. injection E as <- <-. set (S1 := set_bans (set_time now (bans S)) S).
    assert (I1 : inv limit S1) by (eapply net_ok; [|exact I]; by apply net_fields).
    destruct (accept_loop_ok limit (m_sessions S) S1 I1 Hp eq_refl) as [I2 Hp2]. apply step_phase; [done| |].
    + unfold messages_ok. cbn. by rewrite Hp2.
    + unfold callbacks_ok. cbn. by rewrite Hp2.
  - destruct (phase S) eqn:Hp; try discriminate. injection E as <- <-. by apply poll_ok.
  - destruct (phase S) as [| |i| |] eqn:Hp; try discriminate. pose proof (callback_ok limit S i I Hp) as H.
    destruct (pop i (m_cb_mgr S)) as [[c|] q]; by injection E as <- <-.
  - destruct (phase S) eqn:Hp; try discriminate. injection E as <- <-. by apply swap_ok.
  - destruct (phase S) as [| | | |i] eqn:Hp; try discriminate. pose proof (process_ok limit S i I Hp) as H.
    destruct (pop i (m_queue_recv_msg S)) as [[m|] q]; injection E as <- <-; [by destruct H|done].
  - case_decide; [|discriminate]. injection E as <- <-. by apply accept_done_ok.
  - case_decide; [|discriminate]. injection E as <- <-. by apply handle_accept_ok.
  - case_decide; [|discriminate]. injection E as <- <-. eapply net_ok; [by apply net_read|done].
  - case_decide; [|discriminate]. injection E as <- <-. eapply net_ok; [|exact I]. unfold read_error.
    eapply net_trans; [by apply (net_fields S (set_reads (remove_one (s, e) (reads S)) S))|]. case_match; [apply net_close|apply net_refl].
  - injection E as <- <-. eapply net_ok; [|exact I]. by apply net_fields.
  - case_decide; [|discriminate]. injection E as <- <-. eapply net_ok; [|exact I]. by apply net_fields.
  - case_decide; [|discriminate]. injection E as <- <-. eapply net_ok; [|exact I]. unfold write_error.
    eapply net_trans; [by apply (net_fields S (set_writes (remove_one (s, e) (writes S)) S))|]. case_match; [apply net_close|apply net_refl].
  - injection E as <- <-. eapply net_ok; [|exact I]. apply net_connected.
  - injection E as <- <-. eapply net_ok; [|exact I]. by apply net_fields.
  - injection E as <- <-. eapply net_ok; [|exact I]. by apply net_fields.
Qed.

(** ** What was received and what was handled *)
Definition pushed (o : list (Out Msg)) : list Message := omap (fun x => match x with Pushed m => Some m | _ => None end) o.
Definition taken (o : list (Out Msg)) : list Message := omap (fun x => match x with Handled m _ | Discarded m => Some m | _ => None end) o.
Definition in_queue S : list Message := pending (m_queue_recv_msg S).
Definition own_connection (x : Out Msg) : Prop := match x with Handled m e => socket m = e | _ => True end.

Lemma on_close_queue s S : m_queue_recv_msg (_on_close s S) = m_queue_recv_msg S.
Proof. unfold _on_close. by case_match. Qed.
Lemma accept_loop_queue limit pool : forall S, m_queue_recv_msg (accept_loop limit pool S) = m_queue_recv_msg S.
Proof. induction pool as [|p pool IH]; intros S; cbn; [done|]. case_match; [by rewrite IH|done]. Qed.
Lemma pushes_queue s e ms : forall S, in_queue (foldl (fun S x => push_message (mkReceived s e x) S) S ms) =
  in_queue S ++ (if m_father (session s S) then map (mkReceived s e) ms else []).
Proof.
  induction ms as [|x ms IH]; intros S; cbn; [case_match; by rewrite app_nil_r|]. rewrite IH. unfold push_message. cbn [from].
  destruct (m_father (session s S)) eqn:Hf; [|by rewrite Hf]. change (session s (set_messages _ S)) with (session s S). rewrite Hf.
  unfold in_queue. cbn [m_queue_recv_msg set_messages]. by rewrite push_pending, <- app_assoc.
Qed.
Lemma read_queue s e ms last S : in_queue (handle_read_some s e ms last S) =
  in_queue S ++ pushed (if m_isvalid (session s S) && m_father (session s S) then map (fun x => Pushed (mkReceived s e x)) ms else []).
Proof.
  unfold handle_read_some. set (S1 := set_reads (remove_one (s, e) (reads S)) S). change (session s S1) with (session s S).
  destruct (m_isvalid (session s S)); cbn [negb andb]; [|by rewrite app_nil_r].
  assert (Hp : forall b : bool, pushed (if b then map (fun x => Pushed (mkReceived s e x)) ms else []) = if b then map (mkReceived s e) ms else []).
  { intros []; [|done]. clear. induction ms as [|x ms IH]; [done|]. cbn. f_equal. apply IH. }
  rewrite Hp. transitivity (in_queue (foldl (fun S x => push_message (mkReceived s e x) S) S1 ms)); [|by rewrite pushes_queue].
  unfold in_queue. destruct last; [done|by case_match|]. rewrite on_close_queue. by case_match.
Qed.

Lemma conn_step_queue limit ev S o S' : inv limit S -> step limit ev S = Some (o, S') ->
  in_queue S ++ pushed o = taken o ++ in_queue S' /\ Forall own_connection o.
Proof.
  intros I E. destruct ev as [now| | | | |p addr er|p addr|s e ms last|s e|s|s e|s e|s|addr sec br|addr]; cbn [step] in E.
  - destruct (phase S); try discriminate. injection E as <- <-. split; [|done]. unfold in_queue. cbn. by rewrite accept_loop_queue, app_nil_r.
  - destruct (phase S); try discriminate. injection E as <- <-. split; [|done]. unfold in_queue. destruct (swap (m_cb_mgr S)) as [[i q]|]; cbn; by rewrite app_nil_r.
  - destruct (phase S) as [| |i| |]; try discriminate. destruct (pop i (m_cb_mgr S)) as [[c|] q]; injection E as <- <-; (split; [|by repeat constructor]);
      unfold in_queue; cbn; rewrite app_nil_r; [|done]. destruct c; [done|]. cbn. by case_match.
  - destruct (phase S) eqn:Hp; try discriminate. injection E as <- <-. split; [|done]. cbn. rewrite app_nil_r.
    pose proof (in_messages _ _ I) as Hm. unfold messages_ok in Hm. rewrite Hp in Hm. destruct Hm as [Hm _].
    destruct (swap (m_queue_recv_msg S)) as [[i q]|] eqn:Eq; [|done]. unfold in_queue. cbn. symmetry. by apply (swap_pending _ _ _ Hm Eq).
  - destruct (phase S) as [| | | |i] eqn:Hp; try discriminate. pose proof (process_ok limit S i I Hp) as H.
    pose proof (in_messages _ _ I) as Hm. unfold messages_ok in Hm. rewrite Hp in Hm. destruct Hm as [Hi _]. unfold at_work in Hi.
    destruct (pop i (m_queue_recv_msg S)) as [[m|] q] eqn:Eq; injection E as <- <-; [|by rewrite app_nil_r].
    destruct H as [_ Hf]. rewrite Hi in Eq. destruct (pop_pending _ _ _ Eq) as [Hpe _]. unfold process, in_queue. rewrite Hpe.
    destruct (m_isvalid (session (from m) S)) eqn:Hv; cbn; rewrite ?app_nil_r; [|by repeat constructor].
    destruct (m_isconnected (session (from m) S)); cbn; rewrite ?app_nil_r; (split; [done|]); repeat constructor. cbn. symmetry. by apply Hf.
  - case_decide; [|discriminate]. injection E as <- <-. split; [|done]. rewrite app_nil_r. unfold server_handle_accept. cbn.
    destruct (is_ban_ip addr (bans S)) as [banned b]. by case_match.
  - case_decide; [|discriminate]. injection E as <- <-. split; [|done]. by rewrite app_nil_r.
  - case_decide; [|discriminate]. injection E as <- <-. rewrite read_queue. split; [|case_match; [by apply Forall_fmap, Forall_true|done]].
    replace (taken _) with (@nil Message); [done|]. case_match; [|done]. clear. by induction ms as [|x ms IH].
  - case_decide; [|discriminate]. injection E as <- <-. split; [|done]. rewrite app_nil_r. unfold read_error, in_queue. case_match; [|done]. by rewrite on_close_queue.
  - injection E as <- <-. split; [|done]. by rewrite app_nil_r.
  - case_decide; [|discriminate]. injection E as <- <-. split; [|done]. by rewrite app_nil_r.
  - case_decide; [|discriminate]. injection E as <- <-. split; [|done]. rewrite app_nil_r. unfold write_error, in_queue. case_match; [|done]. by rewrite on_close_queue.
  - injection E as <- <-. split; [|done]. by rewrite app_nil_r.
  - injection E as <- <-. split; [|done]. by rewrite app_nil_r.
  - injection E as <- <-. split; [|done]. by rewrite app_nil_r.
Qed.

Inductive runs (limit : Z) : list (Out Msg) -> Server -> Prop :=
  | runs_create n threads now : runs limit [] (create n threads now)
  | runs_step o S ev o' S' : runs limit o S -> on_time ev S -> step limit ev S = Some (o', S') -> runs limit (o ++ o') S'.

Lemma fill_ok limit l : forall S, NoDup l -> inv limit S -> (forall i, i ∈ l -> Pos.of_succ_nat i ∉ idle_sessions S) -> (forall s, m_father (session s S) = false) ->
  phase S = Idle -> accepting S ++ posted S = [] -> m_queue_recv_msg S = no_queues ->
  let S' := foldl (fun S i => free_session (Pos.of_succ_nat i) S) S l in inv limit S' /\ m_queue_recv_msg S' = no_queues.
Proof.
  induction l as [|i l IH]; intros S Hn I Hin Hf Hp Ha Hq; cbn; [done|]. inversion_clear Hn as [|? ? Hi Hn'].
  apply IH; [done| | | |done|done|done].
  - pose proof I as [I1 I2 I3 I4 I5 I6 I7]. apply free_ok; try done.
    + constructor; [|done]. apply Hin. by left.
    + intros t _ Ht. by rewrite Hf in Ht.
    + apply (messages_keep S); [by apply keeps_free|done|done|done].
  - intros j Hj. unfold idle_sessions. cbn. intros Hx. apply (Hin j); [by right|]. unfold idle_sessions.
    rewrite !elem_of_app, list_elem_of_singleton in Hx. rewrite !elem_of_app. destruct Hx as [[Hx|Hx]|Hx]; [by left| |by right].
    apply SuccNat2Pos.inj in Hx. by subst.
  - intros t. change (m_father (session t (on_session (Pos.of_succ_nat i) (fun x => set_valid false (reset x)) S)) = false). rewrite session_case. by case_decide.
Qed.
Lemma create_inv limit n threads now : inv limit (create n threads now : Server) /\ m_queue_recv_msg (create n threads now : Server) = no_queues.
Proof.
  unfold create. set (S0 := mkServer _ _ _ _ _ _ _ _ _ _ _ _ _).
  assert (Hx : forall s, session s S0 = mkSession false false false 0 0) by (intros s; unfold session; cbn; by rewrite lookup_empty).
  apply fill_ok; [apply NoDup_seq| | | |done|done|done].
  - split; [apply NoDup_nil_2|intros s; by rewrite Hx|by intros s ?%elem_of_nil|done|cbn; lia|by split|done].
  - intros i _. apply not_elem_of_nil.
  - intros s. by rewrite Hx.
Qed.
End Invariant.

(** ** Properties *)


(** A ban lasts its time and no longer. *)
Lemma ban_lasts addr sec br b t : m_banip b !! addr = None -> 0 <= m_unix_time b + sec < 2^32 ->
  fst (is_ban_ip addr (set_time t (add_ban_ip addr sec br b))) = (t <=? m_unix_time b + sec).
Proof.
  intros Hn Ht. unfold add_ban_ip, set_time, is_ban_ip. rewrite Hn. cbn. rewrite lookup_insert_eq, u32_id by (unfold is_u32; lia).
  destruct (Z.ltb_spec (m_unix_time b + sec) t), (Z.leb_spec t (m_unix_time b + sec)); cbn; lia || done.
Qed.

(** Two connections of session 1, one after the other: what the second brings
    is handled there, a message that was still queued when the first was
    closed is not. *)
Fixpoint steps {Msg} (limit : Z) (l : list (Event Msg)) (S : tcp_server Msg) : option (list (Out Msg) * tcp_server Msg) :=
  match l with
  | [] => Some ([], S)
  | ev :: l => '(o, S) ← step limit ev S; '(o', S) ← steps limit l S; Some (o ++ o', S)
  end.
Definition main_pass (callbacks messages : nat) : list (Event string) :=
  [Run 100; Poll] ++ replicate callbacks RunCallback ++ [Swap] ++ replicate messages Process.
Definition connect (addr : Z) : list (Event string) := [AcceptDone 1 addr false; HandleAccept 1 addr].
Definition two_connections : list (Event string) :=
  main_pass 0 0 ++ connect 7 ++ [ReadSome 1 1 ["hello"%string] Goes_on] ++ main_pass 2 2
  ++ [ReadSome 1 1 ["bye"%string] Goes_on; ReadError 1 1] ++ main_pass 2 2
  ++ main_pass 0 0 ++ connect 8 ++ [ReadSome 1 2 ["again"%string] Goes_on] ++ main_pass 2 2.

(** A list of steps whose reads are on time is a run. *)
Fixpoint all_on_time {Msg} (limit : Z) (l : list (Event Msg)) (S : tcp_server Msg) : bool :=
  match l with
  | [] => true
  | ev :: l =>
      match ev with ReadSome s e _ _ => implb (m_isvalid (session s S)) (e =? epoch (session s S)) | _ => true end &&
      match step limit ev S with Some (_, S') => all_on_time limit l S' | None => true end
  end.
Lemma conn_steps_run {Msg} limit l : forall o S o' S', @runs Msg limit o S -> all_on_time limit l S = true -> steps limit l S = Some (o', S') -> runs limit (o ++ o') S'.
Proof.
  induction l as [|ev l IH]; intros o S o' S' Hr Ht E; cbn in E, Ht; [injection E as <- <-; by rewrite app_nil_r|].
  apply andb_true_iff in Ht as [H1 H2]. destruct (step limit ev S) as [[o1 S1]|] eqn:E1; [|discriminate]. cbn in E.
  destruct (steps limit l S1) as [[o2 S2]|] eqn:E2; [|discriminate]. injection E as <- <-. rewrite app_assoc. eapply IH; [|done|exact E2].
  eapply runs_step; [exact Hr| |exact E1]. destruct ev; try exact I. cbn. intros Hv. rewrite Hv in H1. cbn in H1. by apply Z.eqb_eq.
Qed.
Lemma steps_created {Msg} limit (l : list (Event Msg)) n threads now o S :
  all_on_time limit l (create n threads now) = true -> steps limit l (create n threads now) = Some (o, S) -> runs limit o S.
Proof. intros Ht E. exact (conn_steps_run limit l [] _ o S (runs_create limit n threads now) Ht E). Qed.
Definition demo_server : tcp_server string := create 1 1 0.
Definition demo_result : list (Out string) * tcp_server string := default ([], demo_server) (steps 40 two_connections demo_server).
Lemma demo_steps : steps 40 two_connections demo_server = Some (demo_result.1, demo_result.2).
Proof. vm_compute. reflexivity. Qed.
Lemma demo_on_time : all_on_time 40 two_connections demo_server = true.
Proof. vm_compute. reflexivity. Qed.
Lemma demo_runs : runs 40 demo_result.1 demo_result.2.
Proof. exact (steps_created 40 two_connections 1 1 0 _ _ demo_on_time demo_steps). Qed.


(** A message can be handled before the main thread has heard of its
    connection: it came in between [poll] and the swap of the queues. *)
Example message_before_accept : (fun x => x.1) <$> steps 40 (main_pass 0 0 ++ [Run 100; Poll] ++ connect 7 ++ [ReadSome 1 1 ["hello"%string] Goes_on; Swap; Process; Process]
    ++ [Run 101; Poll; RunCallback]) demo_server
  = Some [Pushed (mkReceived 1 1 "hello"%string); Handled (mkReceived 1 1 "hello"%string) 1; Called (OnAccept 1)].
Proof. vm_compute. reflexivity. Qed.

(** A write of the old socket that ends late closes the new connection. *)
Example late_write_closes : (fun x => (m_isconnected (session 1 x.2), pending (m_cb_mgr x.2))) <$> steps 40
    (main_pass 0 0 ++ connect 7 ++ [WriteStart 1; ReadError 1 1] ++ main_pass 3 0 ++ main_pass 0 0 ++ connect 8 ++ [WriteError 1 1]) demo_server
  = Some (false, [OnAccept 1; OnClose 1]).
Proof. vm_compute. reflexivity. Qed.

(** To ban a banned address for longer changes nothing: the end of the ban is
    compared with the number of seconds. *)
Example ban_not_extended : m_banip (add_ban_ip 7 3600 0 (add_ban_ip 7 5 0 (mkBans 1000000 ∅))) !! 7 = Some (1000005, 0).
Proof. vm_compute. reflexivity. Qed.
