(* ===== verification/TcpClient.v ===== *)
(** * The network client: connecting, reconnecting, receiving, sending

    common/tcpclient.cpp [tcp_client], the link of the gate, game and login
    servers to each other.  One step of the model is what one thread does
    between two accesses to shared data: the io service runs posted calls and
    the ends of connects, reads and writes, in any order; the main thread runs
    [run_no_wait].  The sending half of the link is [Sender] of Wire.v. *)
From S2P Require Import Prelude Wire Queues.

Section TcpClient.
Context {Msg : Type} (s_compress_interface : option CompressStrategy).

(** An IPv4 address and a port. *)
Abbreviation Endpoint := (Z * Z)%type.
Inductive Callback := OnConnect | OnConnectFailed | OnClose.
Inductive Phase := Idle | BeforePoll | Polling (i : bool) | BeforeSwap | Processing (i : bool).

(** [connects]: the connects that have not ended; [connect_posts]: posted calls
    of [_connect]; [reads]: the reads that have not ended, each with the number
    of the connection it was started on, of which [connection] is the last. *)
Record tcp_client := mkClient {
  link : Sender;
  m_isconnecting : bool; m_isreconnect : bool; m_isinitconncted : bool;
  m_last_reconnect_time : Z; m_endpoint : Endpoint;
  connects : list Endpoint; connect_posts : list Endpoint; reads : list Z; connection : Z;
  m_queue_recv_msg : TwoQueues Msg; m_cb_mgr : TwoQueues Callback; phase : Phase
}.
Definition m_reconnect_time : Z := 5.
Definition set_link v C := mkClient v (m_isconnecting C) (m_isreconnect C) (m_isinitconncted C) (m_last_reconnect_time C) (m_endpoint C) (connects C) (connect_posts C) (reads C) (connection C) (m_queue_recv_msg C) (m_cb_mgr C) (phase C).
Definition set_connecting b v C := mkClient (link C) b (m_isreconnect C) (m_isinitconncted C) (m_last_reconnect_time C) (m_endpoint C) v (connect_posts C) (reads C) (connection C) (m_queue_recv_msg C) (m_cb_mgr C) (phase C).
Definition set_endpoint v C := mkClient (link C) (m_isconnecting C) (m_isreconnect C) (m_isinitconncted C) (m_last_reconnect_time C) v (connects C) (connect_posts C) (reads C) (connection C) (m_queue_recv_msg C) (m_cb_mgr C) (phase C).
Definition set_init C := mkClient (link C) (m_isconnecting C) (m_isreconnect C) true (m_last_reconnect_time C) (m_endpoint C) (connects C) (connect_posts C) (reads C) (connection C) (m_queue_recv_msg C) (m_cb_mgr C) (phase C).
Definition set_posts v C := mkClient (link C) (m_isconnecting C) (m_isreconnect C) (m_isinitconncted C) (m_last_reconnect_time C) (m_endpoint C) (connects C) v (reads C) (connection C) (m_queue_recv_msg C) (m_cb_mgr C) (phase C).
Definition set_last v C := mkClient (link C) (m_isconnecting C) (m_isreconnect C) (m_isinitconncted C) v (m_endpoint C) (connects C) (connect_posts C) (reads C) (connection C) (m_queue_recv_msg C) (m_cb_mgr C) (phase C).
Definition set_reads v C := mkClient (link C) (m_isconnecting C) (m_isreconnect C) (m_isinitconncted C) (m_last_reconnect_time C) (m_endpoint C) (connects C) (connect_posts C) v (connection C) (m_queue_recv_msg C) (m_cb_mgr C) (phase C).
Definition set_connection v C := mkClient (link C) (m_isconnecting C) (m_isreconnect C) (m_isinitconncted C) (m_last_reconnect_time C) (m_endpoint C) (connects C) (connect_posts C) (reads C) v (m_queue_recv_msg C) (m_cb_mgr C) (phase C).
Definition set_messages v C := mkClient (link C) (m_isconnecting C) (m_isreconnect C) (m_isinitconncted C) (m_last_reconnect_time C) (m_endpoint C) (connects C) (connect_posts C) (reads C) (connection C) v (m_cb_mgr C) (phase C).
Definition set_callbacks v C := mkClient (link C) (m_isconnecting C) (m_isreconnect C) (m_isinitconncted C) (m_last_reconnect_time C) (m_endpoint C) (connects C) (connect_posts C) (reads C) (connection C) (m_queue_recv_msg C) v (phase C).
Definition set_phase v C := mkClient (link C) (m_isconnecting C) (m_isreconnect C) (m_isinitconncted C) (m_last_reconnect_time C) (m_endpoint C) (connects C) (connect_posts C) (reads C) (connection C) (m_queue_recv_msg C) (m_cb_mgr C) v.

(** ** Operations *)
(** The constructor; [b] is what the program's own constructor assigns to
    [m_isreconnect]. *)
Definition new_client (b : bool) : tcp_client :=
  mkClient (mkSender false [] 0 false None [] 0 false) false b false 0 (0, 0) [] [] [] 0 no_queues no_queues Idle.
Definition is_connected (C : tcp_client) : bool := m_isconnected (link C).
Definition add_cb (c : Callback) (C : tcp_client) : tcp_client := set_callbacks (push c (m_cb_mgr C)) C.
Definition push_message (m : Msg) (C : tcp_client) : tcp_client := set_messages (push m (m_queue_recv_msg C)) C.
Definition reconnect (C : tcp_client) : tcp_client :=
  if is_connected C then C else if m_isconnecting C then C else set_connecting true (connects C ++ [m_endpoint C]) C.
Definition _connect (ep : Endpoint) (C : tcp_client) : tcp_client := set_init (reconnect (set_endpoint ep C)).
(** [hptr]: what [gethostbyname] answers. *)
Definition connect (hptr : option Z) (port : Z) (C : tcp_client) : tcp_client :=
  match hptr with Some ip => set_posts (connect_posts C ++ [(ip, port)]) C | None => C end.
Definition set_connected (b : bool) (s : Sender) : Sender :=
  mkSender b (m_queue_send_msg s) (m_not_sent_size s) (m_is_sending_data s) (in_flight s) (wire s) (posted s) (close_posted s).
Definition handle_connect (now : Z) (error : bool) (C : tcp_client) : tcp_client :=
  let C := set_connecting false (connects C) C in
  if is_connected C then C
  else
    let C := set_last (u32 now) C in
    if error then add_cb OnConnectFailed (set_link (set_connected false (link C)) C)
    else add_cb OnConnect (set_connection (connection C + 1) (set_link (set_connected true (link C)) C)).
(** [tcp_session::_on_close] of a session without a server. *)
Definition _on_close (C : tcp_client) : tcp_client := add_cb OnClose (set_link (Wire._on_close (link C)) C).
Definition async_read_some (C : tcp_client) : tcp_client := set_reads (reads C ++ [connection C]) C.
Definition begin_read_message (C : tcp_client) : tcp_client := async_read_some C.

(** How a read ends: it goes on, the header is not one ([close_and_ban]), or a
    message does not pass its checksum ([close] and [_on_close]). *)
Inductive ReadEnd := Goes_on | Hack_packet | Wrong_check_sum.
Definition handle_read_some (ms : list Msg) (last : ReadEnd) (C : tcp_client) : tcp_client :=
  let C := foldl (fun C m => push_message m C) C ms in
  match last with
  | Goes_on => async_read_some C
  | Hack_packet => set_link (close (link C)) C
  | Wrong_check_sum => _on_close (set_link (close (link C)) C)
  end.
(** The first half of [run] and [run_no_wait]. *)
Definition run_reconnect (now : Z) (C : tcp_client) : tcp_client :=
  if negb (is_connected C) && m_isreconnect C && negb (m_isconnecting C) && m_isinitconncted C
  then if u32 (u32 now - m_last_reconnect_time C) >? m_reconnect_time then reconnect C else C
  else C.
Definition on_callback (c : Callback) (C : tcp_client) : tcp_client :=
  match c with OnConnect => begin_read_message C | OnConnectFailed | OnClose => C end.

(** ** Steps *)
Inductive Event :=
  | Connect (hptr : option Z) (port : Z) | RunConnect (ep : Endpoint) | ConnectDone (now : Z) (error : bool)
  | Run (now : Z) | Poll | RunCallback | Swap | Process
  | ReadSome (e : Z) (ms : list Msg) (last : ReadEnd) | ReadError (e : Z)
  | Send (data : list Z) (base64 : bool) | RunWrite | WriteDone (error : bool) | CloseLink | RunClose.
Inductive Out := Pushed (m : Msg) | Called (c : Callback) | Handled (m : Msg) | WriteFailed.

Definition step (ev : Event) (C : tcp_client) : option (list Out * tcp_client) :=
  match ev with
  | Connect hptr port => Some ([], connect hptr port C)
  | RunConnect ep => if decide (ep ∈ connect_posts C) then Some ([], _connect ep (set_posts (remove_one ep (connect_posts C)) C)) else None
  | ConnectDone now error =>
      match connects C with [] => None | _ :: l => Some ([], handle_connect now error (set_connecting (m_isconnecting C) l C)) end
  | Run now => match phase C with Idle => Some ([], set_phase BeforePoll (run_reconnect now C)) | _ => None end
  | Poll => match phase C with
            | BeforePoll => Some ([], match swap (m_cb_mgr C) with
                                      | Some (i, q) => set_phase (Polling i) (set_callbacks q C)
                                      | None => set_phase BeforeSwap C
                                      end)
            | _ => None
            end
  | RunCallback => match phase C with
                   | Polling i => match pop i (m_cb_mgr C) with
                                  | (Some c, q) => Some ([Called c], on_callback c (set_callbacks q C))
                                  | (None, _) => Some ([], set_phase BeforeSwap C)
                                  end
                   | _ => None
                   end
  | Swap => match phase C with
            | BeforeSwap => Some ([], match swap (m_queue_recv_msg C) with
                                      | Some (i, q) => set_phase (Processing i) (set_messages q C)
                                      | None => set_phase Idle C
                                      end)
            | _ => None
            end
  | Process => match phase C with
               | Processing i => match pop i (m_queue_recv_msg C) with
                                 | (Some m, q) => Some ([Handled m], set_messages q C)
                                 | (None, _) => Some ([], set_phase Idle C)
                                 end
               | _ => None
               end
  | ReadSome e ms last =>
      if decide (e ∈ reads C) then Some (map Pushed ms, handle_read_some ms last (set_reads (remove_one e (reads C)) C)) else None
  | ReadError e => if decide (e ∈ reads C) then Some ([], _on_close (set_reads (remove_one e (reads C)) C)) else None
  | Send data base64 => Some ([], set_link (send_message s_compress_interface false false false data base64 (link C)) C)
  | RunWrite => if decide (0 < posted (link C))%nat then Some ([], set_link (run_posted (link C)) C) else None
  | WriteDone error =>
      match in_flight (link C) with
      | Some n => let C := set_link (handle_write error n (link C)) C in
                  Some (if error then [WriteFailed] else [], if error then add_cb OnClose C else C)
      | None => None
      end
  | CloseLink => Some ([], set_link (close (link C)) C)
  | RunClose => if close_posted (link C) then Some ([], set_link (handle_close (link C)) C) else None
  end.

Inductive runs (b : bool) : list Out -> tcp_client -> Prop :=
  | runs_new : runs b [] (new_client b)
  | runs_step o C ev o' C' : runs b o C -> step ev C = Some (o', C') -> runs b (o ++ o') C'.
Fixpoint steps (l : list Event) (C : tcp_client) : option (list Out * tcp_client) :=
  match l with
  | [] => Some ([], C)
  | ev :: l => match step ev C with
               | Some (o, C) => match steps l C with Some (o', C) => Some (o ++ o', C) | None => None end
               | None => None
               end
  end.
End TcpClient.
Arguments tcp_client : clear implicits.
Arguments Event : clear implicits.
Arguments Out : clear implicits.

(** ** The invariant *)
Section Invariant.
Context {Msg : Type} (s_compress_interface : option CompressStrategy).
Abbreviation Client := (tcp_client Msg).
Abbreviation Step := (step s_compress_interface).
Implicit Types (C : Client) (o : list (Out Msg)).

Definition queues_ok C : Prop :=
  match phase C with
  | Polling i => at_work i (m_cb_mgr C) /\ at_rest (m_queue_recv_msg C)
  | Processing i => at_rest (m_cb_mgr C) /\ at_work i (m_queue_recv_msg C)
  | _ => at_rest (m_cb_mgr C) /\ at_rest (m_queue_recv_msg C)
  end.
Record inv C : Prop := {
  in_connects : length (connects C) = if m_isconnecting C then 1%nat else 0%nat;
  in_apart : m_isconnecting C = true -> is_connected C = false;
  in_first : m_isinitconncted C = false -> m_isconnecting C = false /\ is_connected C = false;
  in_queues : queues_ok C
}.

(** Steps that do not connect: the link is not better connected afterwards. *)
Record quiet C C' : Prop := {
  q_connects : connects C' = connects C; q_connecting : m_isconnecting C' = m_isconnecting C;
  q_init : m_isinitconncted C' = m_isinitconncted C; q_connected : is_connected C' = true -> is_connected C = true;
  q_queues : queues_ok C -> queues_ok C'
}.
Lemma quiet_inv C C' : quiet C C' -> inv C -> inv C'.
Proof.
  intros [H1 H2 H3 H4 H5] [I1 I2 I3 I4].
  assert (Hf : is_connected C = false -> is_connected C' = false) by (destruct (is_connected C'); [|done]; intros E; rewrite H4 in E; done).
  split; [by rewrite H1, H2|rewrite H2; auto| |auto]. rewrite H3, H2. intros E. destruct (I3 E). auto.
Qed.
Lemma quiet_trans C1 C2 C3 : quiet C1 C2 -> quiet C2 C3 -> quiet C1 C3.
Proof. intros [] []. split; congruence || auto. Qed.
Lemma quiet_link C s : (m_isconnected s = true -> m_isconnected (link C) = true) -> quiet C (set_link s C).
Proof. by split. Qed.
Lemma quiet_add_cb C c : quiet C (add_cb c C).
Proof. split; try done. unfold queues_ok. cbn. destruct (phase C); intros [H1 H2]; (split; [by apply push_rest || by apply push_work|done]). Qed.
Lemma quiet_push C m : quiet C (push_message m C).
Proof. split; try done. unfold queues_ok. cbn. destruct (phase C); intros [H1 H2]; (split; [done|by apply push_rest || by apply push_work]). Qed.
Lemma quiet_pushes ms : forall C, quiet C (foldl (fun C m => push_message m C) C ms).
Proof. induction ms as [|m ms IH]; intros C; cbn; [by split|]. eapply quiet_trans; [apply quiet_push|apply IH]. Qed.
Lemma quiet_close C : quiet C (_on_close C).
Proof. unfold _on_close. eapply quiet_trans; [|apply quiet_add_cb]. apply quiet_link. by destruct (link C). Qed.
Lemma quiet_reads C l : quiet C (set_reads l C).
Proof. by split. Qed.
Lemma quiet_read ms last C : quiet C (handle_read_some ms last C).
Proof.
  unfold handle_read_some. eapply quiet_trans; [apply quiet_pushes|]. destruct last.
  - apply quiet_reads.
  - apply quiet_link. by destruct (link _).
  - eapply quiet_trans; [|apply quiet_close]. apply quiet_link. by destruct (link _).
Qed.
Lemma write_connected sent s : m_isconnected (_write_message sent s) = m_isconnected s.
Proof. destruct s as [[] [|m q] n [] f w po cl]; try done. cbn [_write_message]. by destruct (take_batch 0 (m :: q)). Qed.
Lemma send_connected data b (s : Sender) : m_isconnected (send_message s_compress_interface false false false data b s) = m_isconnected s.
Proof. unfold send_message, _send_message. destruct (_ || _); [done|]. by destruct s as [[]]. Qed.
Lemma quiet_phase C p : (queues_ok C -> queues_ok (set_phase p C)) -> quiet C (set_phase p C).
Proof. by split. Qed.
Lemma quiet_poll C : phase C = BeforePoll ->
  quiet C (match swap (m_cb_mgr C) with Some (i, q) => set_phase (Polling i) (set_callbacks q C) | None => set_phase BeforeSwap C end).
Proof.
  intros Hp. destruct (swap (m_cb_mgr C)) as [[i q]|] eqn:E; split; try done; unfold queues_ok; cbn; rewrite Hp; [|done].
  intros [_ H2]. split; [by eapply swap_work|done].
Qed.
Lemma quiet_swap C : phase C = BeforeSwap ->
  quiet C (match swap (m_queue_recv_msg C) with Some (i, q) => set_phase (Processing i) (set_messages q C) | None => set_phase Idle C end).
Proof.
  intros Hp. destruct (swap (m_queue_recv_msg C)) as [[i q]|] eqn:E; split; try done; unfold queues_ok; cbn; rewrite Hp; [|done].
  intros [H1 _]. split; [done|by eapply swap_work].
Qed.
Lemma quiet_pop_cb C i c q : phase C = Polling i -> pop i (m_cb_mgr C) = (Some c, q) -> quiet C (on_callback c (set_callbacks q C)).
Proof.
  intros Hp E. assert (Hq : quiet C (set_callbacks q C)).
  { split; try done. unfold queues_ok. cbn. rewrite Hp. intros [H1 H2]. split; [by eapply pop_work|done]. }
  destruct c; [|done|done]. eapply quiet_trans; [exact Hq|apply quiet_reads].
Qed.
Lemma quiet_pop_msg C i m q : phase C = Processing i -> pop i (m_queue_recv_msg C) = (Some m, q) -> quiet C (set_messages q C).
Proof. intros Hp E. split; try done. unfold queues_ok. cbn. rewrite Hp. intros [H1 H2]. split; [done|by eapply pop_work]. Qed.

Lemma reconnect_inv C : inv C -> m_isinitconncted C = true -> inv (reconnect C).
Proof.
  intros I Hi. unfold reconnect. destruct (is_connected C) eqn:Ec; [exact I|]. destruct (m_isconnecting C) eqn:Em; [exact I|]. destruct I as [I1 I2 I3 I4]. rewrite Em in I1.
  split; cbn; [|done|by rewrite Hi|done]. rewrite length_app, I1. done.
Qed.
Lemma connect_inv ep C : inv C -> inv (_connect ep C).
Proof.
  intros I. assert (I' : inv (set_init (set_endpoint ep C))) by (destruct I; by split).
  replace (_connect ep C) with (reconnect (set_init (set_endpoint ep C))); [by apply reconnect_inv|].
  unfold _connect, reconnect. change (is_connected (set_init (set_endpoint ep C))) with (is_connected C). change (is_connected (set_endpoint ep C)) with (is_connected C).
  cbn. destruct (is_connected C); [done|]. by destruct (m_isconnecting C).
Qed.
Lemma handle_connect_inv now error ep l C : inv C -> connects C = ep :: l -> inv (handle_connect now error (set_connecting (m_isconnecting C) l C)).
Proof.
  intros [I1 I2 I3 I4] Hc. rewrite Hc in I1. cbn in I1. destruct (m_isconnecting C) eqn:Em; [|discriminate]. injection I1 as Hl. apply nil_length_inv in Hl as ->.
  specialize (I2 eq_refl). assert (Hi : m_isinitconncted C = true) by (destruct (m_isinitconncted C); [done|by destruct (I3 eq_refl)]).
  unfold handle_connect. change (is_connected (set_connecting false _ _)) with (is_connected C). rewrite I2.
  destruct error; eapply quiet_inv; try apply quiet_add_cb; split; cbn; try done; by rewrite Hi.
Qed.
Lemma run_reconnect_inv now C : inv C -> inv (run_reconnect now C).
Proof.
  intros I. unfold run_reconnect. destruct (_ && _) eqn:E; [|done]. apply andb_true_iff in E as [_ Hi]. case_match; [by apply reconnect_inv|done].
Qed.
Lemma run_reconnect_phase now C : phase (run_reconnect now C) = phase C /\ m_queue_recv_msg (run_reconnect now C) = m_queue_recv_msg C /\
  link (run_reconnect now C) = link C.
Proof. unfold run_reconnect, reconnect. by repeat case_match. Qed.

Lemma client_step_inv ev C o C' : inv C -> Step ev C = Some (o, C') -> inv C'.
Proof.
  intros I E. destruct ev as [hptr port|ep|now error|now| | | | |e ms last|e|data b| |error| |]; cbn [step] in E.
  - injection E as <- <-. eapply quiet_inv; [|exact I]. by destruct hptr.
  - case_decide; [|discriminate]. injection E as <- <-. apply connect_inv. destruct I; by split.
  - destruct (connects C) as [|ep l] eqn:Hc; [discriminate|]. injection E as <- <-. by eapply handle_connect_inv.
  - destruct (phase C) eqn:Hp; try discriminate. injection E as <- <-. destruct (run_reconnect_phase now C) as [Hr _].
    eapply quiet_inv; [|by apply (run_reconnect_inv now)]. apply quiet_phase. unfold queues_ok. cbn. by rewrite Hr, Hp.
  - destruct (phase C) eqn:Hp; try discriminate. injection E as <- <-. eapply quiet_inv; [by apply quiet_poll|done].
  - destruct (phase C) as [| |i| |] eqn:Hp; try discriminate. destruct (pop i (m_cb_mgr C)) as [[c|] q] eqn:Eq; injection E as <- <-.
    + eapply quiet_inv; [by eapply quiet_pop_cb|done].
    + eapply quiet_inv; [apply quiet_phase|done]. unfold queues_ok. cbn. rewrite Hp. intros [H1 H2]. split; [by eapply pop_rest|done].
  - destruct (phase C) eqn:Hp; try discriminate. injection E as <- <-. eapply quiet_inv; [by apply quiet_swap|done].
  - destruct (phase C) as [| | | |i] eqn:Hp; try discriminate. destruct (pop i (m_queue_recv_msg C)) as [[m|] q] eqn:Eq; injection E as <- <-.
    + eapply quiet_inv; [by eapply quiet_pop_msg|done].
    + eapply quiet_inv; [apply quiet_phase|done]. unfold queues_ok. cbn. rewrite Hp. intros [H1 H2]. split; [done|by eapply pop_rest].
  - case_decide; [|discriminate]. injection E as <- <-. eapply quiet_inv; [|exact I]. eapply quiet_trans; [apply quiet_reads|apply quiet_read].
  - case_decide; [|discriminate]. injection E as <- <-. eapply quiet_inv; [|exact I]. eapply quiet_trans; [apply quiet_reads|apply quiet_close].
  - injection E as <- <-. eapply quiet_inv; [apply quiet_link|exact I]. by rewrite send_connected.
  - case_decide; [|discriminate]. injection E as <- <-. eapply quiet_inv; [apply quiet_link|exact I]. destruct (link C). unfold run_posted. by rewrite write_connected.
  - destruct (in_flight (link C)) as [n|]; [|discriminate]. injection E as <- <-. eapply quiet_inv; [|exact I].
    assert (Hq : quiet C (set_link (handle_write error n (link C)) C)).
    { apply quiet_link. destruct (link C). unfold handle_write. destruct error; [done|]. by rewrite write_connected. }
    destruct error; [|done]. eapply quiet_trans; [exact Hq|apply quiet_add_cb].
  - injection E as <- <-. eapply quiet_inv; [apply quiet_link|exact I]. by destruct (link C).
  - destruct (close_posted (link C)); [|discriminate]. injection E as <- <-. eapply quiet_inv; [apply quiet_link|exact I]. by destruct (link C).
Qed.
Lemma new_inv b : inv (new_client b : Client).
Proof. by split. Qed.

(** ** What was received and what was handled *)
Definition pushed o : list Msg := omap (fun x => match x with Pushed m => Some m | _ => None end) o.
Definition handled o : list Msg := omap (fun x => match x with Handled m => Some m | _ => None end) o.
Definition in_queue C : list Msg := pending (m_queue_recv_msg C).
Lemma pushed_map ms : pushed (map Pushed ms) = ms /\ handled (map Pushed ms) = [].
Proof. unfold pushed, handled. induction ms as [|m ms [IH1 IH2]]; [done|]. cbn. by rewrite IH1, IH2. Qed.
Lemma client_pushes_queue ms : forall C, in_queue (foldl (fun C m => push_message m C) C ms) = in_queue C ++ ms.
Proof. induction ms as [|m ms IH]; intros C; cbn; [by rewrite app_nil_r|]. rewrite IH. unfold in_queue. cbn. by rewrite push_pending, <- app_assoc. Qed.
Lemma client_read_queue ms last C : in_queue (handle_read_some ms last C) = in_queue C ++ ms.
Proof. rewrite <- client_pushes_queue. unfold handle_read_some. by destruct last. Qed.

Lemma client_step_queue ev C o C' : inv C -> Step ev C = Some (o, C') -> in_queue C ++ pushed o = handled o ++ in_queue C'.
Proof.
  intros [_ _ _ I] E. unfold queues_ok in I. destruct ev as [hptr port|ep|now error|now| | | | |e ms last|e|data b| |error| |]; cbn [step] in E.
  - injection E as <- <-. rewrite app_nil_r. by destruct hptr.
  - case_decide; [|discriminate]. injection E as <- <-. rewrite app_nil_r. unfold _connect, reconnect. by repeat case_match.
  - destruct (connects C) as [|ep l]; [discriminate|]. injection E as <- <-. rewrite app_nil_r. unfold handle_connect. by repeat case_match.
  - destruct (phase C); try discriminate. injection E as <- <-. rewrite app_nil_r. unfold in_queue. cbn. by destruct (run_reconnect_phase now C) as (_ & -> & _).
  - destruct (phase C); try discriminate. injection E as <- <-. rewrite app_nil_r. by destruct (swap (m_cb_mgr C)) as [[]|].
  - destruct (phase C) as [| |i| |]; try discriminate. destruct (pop i (m_cb_mgr C)) as [[[]|] q]; injection E as <- <-; by rewrite app_nil_r.
  - destruct (phase C); try discriminate. injection E as <- <-. rewrite app_nil_r. destruct (swap (m_queue_recv_msg C)) as [[i q]|] eqn:Eq; [|done].
    symmetry. by apply (swap_pending _ _ _ (proj2 I) Eq).
  - destruct (phase C) as [| | | |i]; try discriminate. destruct I as [_ Hi]. unfold at_work in Hi.
    destruct (pop i (m_queue_recv_msg C)) as [[m|] q] eqn:Eq; injection E as <- <-; rewrite app_nil_r; [|done].
    rewrite Hi in Eq. destruct (pop_pending _ _ _ Eq) as [Hq _]. exact Hq.
  - case_decide; [|discriminate]. injection E as <- <-. rewrite client_read_queue. by destruct (pushed_map ms) as [-> ->].
  - case_decide; [|discriminate]. injection E as <- <-. by rewrite app_nil_r.
  - injection E as <- <-. by rewrite app_nil_r.
  - case_decide; [|discriminate]. injection E as <- <-. by rewrite app_nil_r.
  - destruct (in_flight (link C)) as [n|]; [|discriminate]. injection E as <- <-. by destruct error; rewrite app_nil_r.
  - injection E as <- <-. by rewrite app_nil_r.
  - destruct (close_posted (link C)); [|discriminate]. injection E as <- <-. by rewrite app_nil_r.
Qed.
End Invariant.

(** ** Sending *)
Section Sending.
Context {Msg : Type} (s_compress_interface : option CompressStrategy).
Abbreviation Client := (tcp_client Msg).
Abbreviation Step := (step s_compress_interface).
Implicit Types (C : Client) (o : list (Out Msg)) (s : Sender).

(** A session that says it is sending has a write that will end, or has none
    and never will. *)
Definition sound s : Prop := m_is_sending_data s = match in_flight s with Some _ => true | None => false end.
Definition mute s : Prop := m_is_sending_data s = true /\ in_flight s = None.
(** What a step does to the link when no write fails in it. *)
Definition moves s s' : Prop := (sound s -> sound s') /\ (mute s -> mute s' /\ wire s' = wire s).
Lemma moves_same s s' : m_is_sending_data s' = m_is_sending_data s -> in_flight s' = in_flight s -> wire s' = wire s -> moves s s'.
Proof. unfold moves, sound, mute. by intros -> -> ->. Qed.
Lemma moves_write sent s : moves s (_write_message sent s).
Proof.
  destruct s as [con queue size sending fl w po cl]. cbn [_write_message]. destruct con, sending, queue as [|m q]; try (by apply moves_same).
  destruct (take_batch 0 (m :: q)) as [batch rest]. split; [done|]. by intros [? _].
Qed.
Lemma moves_trans s1 s2 s3 : moves s1 s2 -> moves s2 s3 -> moves s1 s3.
Proof. intros [A1 A2] [B1 B2]. split; [auto|]. intros H. destruct (A2 H) as [H1 E1]. destruct (B2 H1) as [H2 E2]. split; [done|congruence]. Qed.
Lemma moves_done n s : in_flight s <> None -> moves s (handle_write false n s).
Proof.
  destruct s as [con queue size sending fl w po cl]. intros Hf. split; [|by intros [_ ?]; destruct Hf]. intros _.
  exact (proj1 (moves_write n (mkSender con queue size false None w po cl)) eq_refl).
Qed.
Lemma moves_send data b s : moves s (send_message s_compress_interface false false false data b s).
Proof. apply moves_same; unfold send_message, _send_message; destruct (_ || _); try done; by destruct s as [[]]. Qed.

Definition failed o : bool := existsb (fun x => match x with WriteFailed => true | _ => false end) o.
Lemma failed_app o o' : failed (o ++ o') = failed o || failed o'.
Proof. apply existsb_app. Qed.
Lemma failed_map ms : failed (map Pushed ms) = false.
Proof. by induction ms. Qed.
Lemma pushes_link ms : forall C, link (foldl (fun C m => push_message m C) C ms) = link C.
Proof. induction ms as [|m ms IH]; intros C; cbn; [done|]. by rewrite IH. Qed.

Lemma step_moves ev C o C' : Step ev C = Some (o, C') ->
  if failed o then sound (link C) -> mute (link C') else moves (link C) (link C').
Proof.
  intros E. destruct ev as [hptr port|ep|now error|now| | | | |e ms last|e|data b| |error| |]; cbn [step] in E.
  - injection E as <- <-. by destruct hptr; apply moves_same.
  - case_decide; [|discriminate]. injection E as <- <-. apply moves_same; unfold _connect, reconnect; by repeat case_match.
  - destruct (connects C) as [|ep l]; [discriminate|]. injection E as <- <-. apply moves_same; unfold handle_connect; by repeat case_match.
  - destruct (phase C); try discriminate. injection E as <- <-. destruct (run_reconnect_phase now C) as (_ & _ & Hl). by apply moves_same; cbn; rewrite Hl.
  - destruct (phase C); try discriminate. injection E as <- <-. by destruct (swap (m_cb_mgr C)) as [[]|]; apply moves_same.
  - destruct (phase C) as [| |i| |]; try discriminate. destruct (pop i (m_cb_mgr C)) as [[[]|] q]; injection E as <- <-; by apply moves_same.
  - destruct (phase C); try discriminate. injection E as <- <-. by destruct (swap (m_queue_recv_msg C)) as [[]|]; apply moves_same.
  - destruct (phase C) as [| | | |i]; try discriminate. destruct (pop i (m_queue_recv_msg C)) as [[m|] q]; injection E as <- <-; by apply moves_same.
  - case_decide; [|discriminate]. injection E as <- <-. rewrite failed_map. unfold handle_read_some.
    set (C1 := foldl _ _ _).
    assert (H1 : link C1 = link C) by exact (pushes_link ms (set_reads (remove_one e (reads C)) C)). destruct last; cbn; rewrite H1; destruct (link C); by apply moves_same.
  - case_decide; [|discriminate]. injection E as <- <-. destruct C as [[]]; by apply moves_same.
  - injection E as <- <-. apply moves_send.
  - case_decide; [|discriminate]. injection E as <- <-. destruct C as [[]]. unfold run_posted. eapply moves_trans; [|apply moves_write]. by apply moves_same.
  - destruct (in_flight (link C)) as [n|] eqn:Ef; [|discriminate]. injection E as <- <-. destruct error; cbn.
    + unfold sound, mute. rewrite Ef. destruct (link C). cbn. by intros ->.
    + apply moves_done. by rewrite Ef.
  - injection E as <- <-. destruct C as [[]]; by apply moves_same.
  - destruct (close_posted (link C)); [|discriminate]. injection E as <- <-. destruct C as [[]]; by apply moves_same.
Qed.
(** A mute link stays so. *)
Lemma mute_step ev C o C' : mute (link C) -> Step ev C = Some (o, C') -> mute (link C') /\ wire (link C') = wire (link C).
Proof.
  intros Hm E. pose proof (step_moves _ _ _ _ E) as H. destruct (failed o) eqn:Hf; [|by apply H]. destruct Hm as [_ Hn].
  destruct ev as [hptr port|ep|now error|now| | | | |e ms last|e|data b| |error| |]; cbn [step] in E; repeat case_match; try discriminate; injection E as <- <-; try discriminate Hf.
  by rewrite failed_map in Hf.
Qed.
Lemma mute_steps l : forall C o C', mute (link C) -> steps s_compress_interface l C = Some (o, C') -> mute (link C') /\ wire (link C') = wire (link C).
Proof.
  induction l as [|ev l IH]; intros C o C' Hm E; cbn in E; [by injection E as <- <-|].
  destruct (Step ev C) as [[o1 C1]|] eqn:E1; [|discriminate]. destruct (steps s_compress_interface l C1) as [[o2 C2]|] eqn:E2; [|discriminate]. injection E as <- <-.
  destruct (mute_step _ _ _ _ Hm E1) as [H1 W1]. destruct (IH _ _ _ H1 E2) as [H2 W2]. split; [done|congruence].
Qed.
Lemma runs_sending b o C : runs s_compress_interface b o C -> if failed o then mute (link C) else sound (link C).
Proof.
  induction 1 as [|o C ev o' C' _ IH E]; [done|]. pose proof (step_moves _ _ _ _ E) as H. rewrite failed_app. destruct (failed o); cbn.
  - by eapply mute_step.
  - destruct (failed o'); by apply H.
Qed.
End Sending.

(** ** Reconnecting *)
Section Reconnecting.
Context {Msg : Type} (s_compress_interface : option CompressStrategy).
Abbreviation Client := (tcp_client Msg).
Abbreviation Steps := (steps s_compress_interface).
Implicit Types (C : Client) (o : list (Out Msg)).

Lemma steps_app l1 l2 : forall C o1 C1 o2 C2, Steps l1 C = Some (o1, C1) -> Steps l2 C1 = Some (o2, C2) -> Steps (l1 ++ l2) C = Some (o1 ++ o2, C2).
Proof.
  induction l1 as [|ev l1 IH]; intros C o1 C1 o2 C2 E1 E2; cbn in *; [by injection E1 as <- <-|].
  destruct (step s_compress_interface ev C) as [[o C']|]; [|discriminate]. destruct (Steps l1 C') as [[o' C'']|] eqn:E; [|discriminate]. injection E1 as <- <-.
  by rewrite (IH _ _ _ _ _ E E2), app_assoc.
Qed.
Lemma steps_runs b l : forall o C o' C', runs s_compress_interface b o C -> Steps l C = Some (o', C') -> runs s_compress_interface b (o ++ o') C'.
Proof.
  induction l as [|ev l IH]; intros o C o' C' R E; cbn in E; [injection E as <- <-; by rewrite app_nil_r|].
  destruct (step s_compress_interface ev C) as [[o1 C1]|] eqn:E1; [|discriminate]. destruct (Steps l C1) as [[o2 C2]|] eqn:E2; [|discriminate]. injection E as <- <-.
  rewrite app_assoc. eapply IH; [|exact E2]. by eapply runs_step.
Qed.

(** The fields the main thread's callbacks and messages leave alone. *)
Definition same_link C C' : Prop :=
  link C' = link C /\ m_isconnecting C' = m_isconnecting C /\ m_isreconnect C' = m_isreconnect C /\ m_isinitconncted C' = m_isinitconncted C /\
  m_last_reconnect_time C' = m_last_reconnect_time C /\ m_endpoint C' = m_endpoint C /\ connects C' = connects C.
Definition reaches C C' : Prop := exists l o, Steps l C = Some (o, C').
Lemma reaches_refl C : reaches C C.
Proof. by exists [], []. Qed.
Lemma reaches_step C ev o C1 C2 : step s_compress_interface ev C = Some (o, C1) -> reaches C1 C2 -> reaches C C2.
Proof. intros E (l & o2 & E2). exists (ev :: l), (o ++ o2). cbn. by rewrite E, E2. Qed.
Lemma same_link_refl C : same_link C C.
Proof. by repeat split. Qed.
Lemma same_trans C1 C2 C3 : same_link C1 C2 -> same_link C2 C3 -> same_link C1 C3.
Proof. intros (?&?&?&?&?&?&?) (?&?&?&?&?&?&?). repeat split; congruence. Qed.

Lemma finish_messages n : forall C i, phase C = Processing i -> length (queue_at i (m_queue_recv_msg C)) = n -> exists C', reaches C C' /\ same_link C C' /\ phase C' = Idle.
Proof.
  induction n as [|n IH]; intros C i Hp Hn; destruct (queue_at i (m_queue_recv_msg C)) as [|m l] eqn:E; try discriminate.
  - exists (set_phase Idle C). split; [|by repeat split]. eapply (reaches_step _ Process); [|apply reaches_refl]. cbn. unfold pop. by rewrite Hp, E.
  - destruct (IH (set_messages (set_queue i l (m_queue_recv_msg C)) C) i) as (C' & H1 & H2 & H3); [done|cbn; rewrite queue_set; by injection Hn|].
    exists C'. split; [|done]. eapply (reaches_step _ Process); [|exact H1]. cbn. unfold pop. by rewrite Hp, E.
Qed.
Lemma finish_swap C : phase C = BeforeSwap -> exists C', reaches C C' /\ same_link C C' /\ phase C' = Idle.
Proof.
  intros Hp. destruct (swap (m_queue_recv_msg C)) as [[i q]|] eqn:E.
  - destruct (finish_messages _ (set_phase (Processing i) (set_messages q C)) i eq_refl eq_refl) as (C' & H1 & H2 & H3). exists C'. split; [|done].
    eapply (reaches_step _ Swap); [|exact H1]. cbn. by rewrite Hp, E.
  - exists (set_phase Idle C). split; [|by repeat split]. eapply (reaches_step _ Swap); [|apply reaches_refl]. cbn. by rewrite Hp, E.
Qed.
Lemma finish_callbacks n : forall C i, phase C = Polling i -> length (queue_at i (m_cb_mgr C)) = n -> exists C', reaches C C' /\ same_link C C' /\ phase C' = Idle.
Proof.
  induction n as [|n IH]; intros C i Hp Hn; destruct (queue_at i (m_cb_mgr C)) as [|c l] eqn:E; try discriminate.
  - destruct (finish_swap (set_phase BeforeSwap C) eq_refl) as (C' & H1 & H2 & H3). exists C'. split; [|done].
    eapply (reaches_step _ RunCallback); [|exact H1]. cbn. unfold pop. by rewrite Hp, E.
  - set (C1 := on_callback c (set_callbacks (set_queue i l (m_cb_mgr C)) C)).
    assert (H : phase C1 = Polling i /\ queue_at i (m_cb_mgr C1) = l /\ same_link C C1) by (unfold C1; destruct c; cbn; rewrite queue_set; by repeat split).
    destruct H as (P1 & Q1 & S1). destruct (IH C1 i) as (C' & H1 & H2 & H3); [done|rewrite Q1; by injection Hn|].
    exists C'. split; [|split; [by eapply same_trans|done]]. eapply (reaches_step _ RunCallback); [|exact H1]. cbn. unfold pop. by rewrite Hp, E.
Qed.
Lemma finish_pass C : exists C', reaches C C' /\ same_link C C' /\ phase C' = Idle.
Proof.
  destruct (phase C) as [| |i| |i] eqn:Hp.
  - exists C. split; [apply reaches_refl|by split; [apply same_link_refl|]].
  - destruct (swap (m_cb_mgr C)) as [[i q]|] eqn:E.
    + destruct (finish_callbacks _ (set_phase (Polling i) (set_callbacks q C)) i eq_refl eq_refl) as (C' & H1 & H2 & H3). exists C'. split; [|done].
      eapply (reaches_step _ Poll); [|exact H1]. cbn. by rewrite Hp, E.
    + destruct (finish_swap (set_phase BeforeSwap C) eq_refl) as (C' & H1 & H2 & H3). exists C'. split; [|done].
      eapply (reaches_step _ Poll); [|exact H1]. cbn. by rewrite Hp, E.
  - by eapply finish_callbacks.
  - by apply finish_swap.
  - by eapply finish_messages.
Qed.
Lemma reaches_trans C1 C2 C3 : reaches C1 C2 -> reaches C2 C3 -> reaches C1 C3.
Proof. intros (l1 & o1 & E1) (l2 & o2 & E2). exists (l1 ++ l2), (o1 ++ o2). by eapply steps_app. Qed.
End Reconnecting.

(** ** Properties *)
Section Properties.
Context {Msg : Type} (s_compress_interface : option CompressStrategy).
Implicit Types (C : tcp_client Msg) (o : list (Out Msg)).

Lemma runs_inv b o C : runs s_compress_interface b o C -> inv C /\ pushed o = handled o ++ in_queue C.
Proof.
  induction 1 as [|o C ev o' C' _ [I Hq] E]; [by split; [apply new_inv|]|]. split; [by eapply client_step_inv|].
  pose proof (client_step_queue _ _ _ _ _ I E) as Hs. unfold pushed, handled in *. rewrite !omap_app, Hq, <- !app_assoc. f_equal. exact Hs.
Qed.
Lemma step_keeps_flags ev C o C' : step s_compress_interface ev C = Some (o, C') ->
  m_isreconnect C' = m_isreconnect C.
Proof.
  intros E. destruct ev; cbn [step] in E; repeat (case_match; try discriminate); injection E as <- <-; try done.
  - by destruct hptr.
  - unfold _connect, reconnect. by repeat case_match.
  - unfold handle_connect. by repeat case_match.
  - unfold run_reconnect, reconnect. cbn. by repeat case_match.
  - by destruct c.
  - unfold handle_read_some. assert (H1 : forall C0, m_isreconnect (foldl (fun C m => push_message m C) C0 ms) = m_isreconnect C0) by (induction ms; intros; cbn; [done|by rewrite IHms]).
    case_match; cbn; by rewrite H1.
Qed.
Lemma runs_flags b o C : runs s_compress_interface b o C -> m_isreconnect C = b.
Proof. induction 1 as [|o C ev o' C' _ IH E]; [done|]. by rewrite (step_keeps_flags _ _ _ _ E). Qed.

Lemma reaches_inv C C' : reaches s_compress_interface C C' -> inv C -> inv C'.
Proof.
  intros (l & o & E). revert C o E. induction l as [|ev l IH]; intros C o E I; cbn in E; [by injection E as _ <-|].
  destruct (step s_compress_interface ev C) as [[o1 C1]|] eqn:E1; [|discriminate]. destruct (steps s_compress_interface l C1) as [[o2 C2]|] eqn:E2; [|discriminate].
  injection E as _ <-. eapply IH; [exact E2|]. by eapply client_step_inv.
Qed.
Lemma connects_again C : inv C -> m_isreconnect C = true -> m_isinitconncted C = true ->
  exists C', reaches s_compress_interface C C' /\ is_connected C' = true.
Proof.
  intros I Hr Hi. destruct (is_connected C) eqn:Hc; [exists C; split; [apply reaches_refl|done]|].
  assert (Hdone : forall C1, inv C1 -> m_isconnecting C1 = true -> exists C', reaches s_compress_interface C1 C' /\ is_connected C' = true).
  { intros C1 I1 Hm. pose proof (in_connects _ I1) as Hl. pose proof (in_apart _ I1 Hm) as Ha. rewrite Hm in Hl. destruct (connects C1) as [|ep [|]] eqn:El; try discriminate.
    eexists. split; [eapply (reaches_step _ _ (ConnectDone 0 false)); [cbn; rewrite El; reflexivity|apply reaches_refl]|].
    unfold handle_connect. change (is_connected (set_connecting false _ _)) with (is_connected C1). by rewrite Ha. }
  destruct (m_isconnecting C) eqn:Hm; [by apply Hdone|].
  destruct (finish_pass s_compress_interface C) as (C1 & R1 & (S1 & S2 & S3 & S4 & S5 & S6 & S7) & P1).
  set (now := m_last_reconnect_time C1 + 6). set (C2 := set_phase BeforePoll (set_connecting true (connects C1 ++ [m_endpoint C1]) C1)).
  assert (E : step s_compress_interface (Run now) C1 = Some ([], C2)).
  { cbn. rewrite P1. unfold run_reconnect, reconnect, is_connected in *. rewrite S1, Hc, S2, Hm, S3, Hr, S4, Hi. cbn.
    replace (u32 (u32 now - m_last_reconnect_time C1)) with 6; [done|]. unfold now, u32. rewrite Zminus_mod_idemp_l, Z.add_simpl_l. done. }
  destruct (Hdone C2) as (C3 & R3 & H3).
  - split; cbn.
    + rewrite length_app, S7, (in_connects _ I), Hm. done.
    + intros _. unfold is_connected in *. cbn. by rewrite S1.
    + by rewrite S4, Hi.
    + pose proof (in_queues _ (reaches_inv C C1 R1 I)) as Hq. unfold queues_ok in *. cbn. by rewrite P1 in Hq.
  - done.
  - exists C3. split; [|done]. eapply reaches_trans; [exact R1|]. by eapply reaches_step.
Qed.

(** C29: the link of a client, in any interleaving of its two threads: there is at
    most one connect under way, and none while it is connected; the main thread
    starts one just when the connection is lost, may be restored, none is under
    way and more than five seconds have passed since the last one ended; the
    messages are handled once each in the order in which they came in, those
    of a connection that has gone included; and a client that reconnects can,
    after whatever happened, be connected again. *)
Theorem client_link b o C : runs s_compress_interface b o C ->
  inv C /\ pushed o = handled o ++ in_queue C /\
  (forall now, phase C = Idle -> exists C', step s_compress_interface (Run now) C = Some ([], C') /\
     connects C' = connects C ++
       if negb (is_connected C) && b && negb (m_isconnecting C) && m_isinitconncted C && (u32 (u32 now - m_last_reconnect_time C) >? 5)
       then [m_endpoint C] else []) /\
  (b = true -> m_isinitconncted C = true -> exists C', reaches s_compress_interface C C' /\ is_connected C' = true).
Proof.
  intros R. destruct (runs_inv _ _ _ R) as [I Hq]. pose proof (runs_flags _ _ _ R) as Hb. split; [done|]. split; [done|]. split.
  - intros now Hp. cbn. rewrite Hp. eexists. split; [reflexivity|]. cbn. unfold run_reconnect, reconnect. rewrite Hb. unfold m_reconnect_time.
    destruct (is_connected C); cbn; [by rewrite app_nil_r|]. destruct b; cbn; [|by rewrite app_nil_r].
    destruct (m_isconnecting C); cbn; [by rewrite app_nil_r|]. destruct (m_isinitconncted C); cbn; [|by rewrite app_nil_r].
    destruct (_ >? 5); [done|by rewrite app_nil_r].
  - intros ->. by apply connects_again.
Qed.

(** A client that reconnects does not get its voice back. As long as no
    write has failed, it is sending exactly while a write is under way; after
    a write has failed, whatever happens, and however often it is connected
    again, it gives no further byte to a socket ([reset], which would clear
    [m_is_sending_data], is for the sessions of a server). *)
Theorem write_error_silences b o C : runs s_compress_interface b o C ->
  (failed o = false -> (m_is_sending_data (link C) = true <-> exists n, in_flight (link C) = Some n)) /\
  (failed o = true -> forall l o' C', steps s_compress_interface l C = Some (o', C') -> wire (link C') = wire (link C)).
Proof.
  intros R. pose proof (runs_sending _ _ _ _ R) as H. split; intros Hf; rewrite Hf in H.
  - rewrite H. destruct (in_flight (link C)); split; try done; [by eexists|by intros []].
  - intros l o' C' E. by eapply mute_steps.
Qed.
End Properties.

(** *** A run: a connect that fails, a wait, a connect that succeeds, a message *)
Definition main_pass (now : Z) (callbacks messages : nat) : list (Event string) :=
  [Run now; Poll] ++ replicate callbacks RunCallback ++ [Swap] ++ replicate messages Process.
Definition first_connection : list (Event string) :=
  [Connect (Some 7) 80; RunConnect (7, 80); ConnectDone 100 true] ++ main_pass 104 2 0 ++ main_pass 106 0 0 ++ [ConnectDone 107 false]
  ++ main_pass 108 2 0 ++ [ReadSome 1 ["hello"%string] Goes_on] ++ main_pass 109 0 2.
Definition demo_client : tcp_client string := new_client true.
Definition result (l : list (Event string)) : list (Out string) * tcp_client string := default ([], demo_client) (steps None l demo_client).
Lemma first_steps : steps None first_connection demo_client = Some ((result first_connection).1, (result first_connection).2).
Proof. vm_compute. reflexivity. Qed.
Lemma first_runs : runs None true (result first_connection).1 (result first_connection).2.
Proof. exact (steps_runs None true first_connection [] _ _ _ (runs_new None true) first_steps). Qed.
Lemma client_link_witness :
  (result first_connection).1 = [Called OnConnectFailed; Called OnConnect; Pushed "hello"%string; Handled "hello"%string] /\
  pushed (result first_connection).1 = handled (result first_connection).1 ++ in_queue (result first_connection).2 /\
  exists C', reaches None (result first_connection).2 C' /\ is_connected C' = true.
Proof.
  split; [vm_compute; reflexivity|]. destruct (client_link None true _ _ first_runs) as (_ & H1 & _ & H2). split; [exact H1|].
  apply H2; vm_compute; reflexivity.
Defined.

(** The connection breaks in a write; the next one carries nothing. *)
Definition broken_write : list (Event string) := first_connection ++ [Send [1; 2; 3] false; RunWrite; WriteDone true].
Definition next_connection : list (Event string) :=
  main_pass 120 2 0 ++ [ConnectDone 121 false] ++ main_pass 122 2 0 ++ [Send [4; 5; 6] false; RunWrite].
Lemma broken_steps : steps None broken_write demo_client = Some ((result broken_write).1, (result broken_write).2).
Proof. vm_compute. reflexivity. Qed.
Lemma broken_runs : runs None true (result broken_write).1 (result broken_write).2.
Proof. exact (steps_runs None true broken_write [] _ _ _ (runs_new None true) broken_steps). Qed.
Lemma next_steps : steps None next_connection (result broken_write).2 =
  Some ([Called OnClose; Called OnConnect], (result (broken_write ++ next_connection)).2).
Proof. vm_compute. reflexivity. Qed.
Lemma write_error_silences_witness :
  let C := (result (broken_write ++ next_connection)).2 in
  is_connected C = true /\ length (m_queue_send_msg (link C)) = 1%nat /\ wire (link C) = wire (link (result broken_write).2).
Proof.
  split; [vm_compute; reflexivity|]. split; [vm_compute; reflexivity|].
  apply (proj2 (write_error_silences None true _ _ broken_runs)) with (l := next_connection) (o' := [Called OnClose; Called OnConnect]).
  - vm_compute. reflexivity.
  - exact next_steps.
Defined.

(** A read that ends late takes the next connection down. *)
Example late_read_closes : (fun x => (is_connected x.2, pending (m_cb_mgr x.2))) <$> steps None
    (first_connection ++ [Send [1; 2; 3] false; RunWrite; WriteDone true] ++ main_pass 120 2 0 ++ [ConnectDone 121 false; ReadError 1]) demo_client
  = Some (false, [OnConnect; OnClose]).
Proof. vm_compute. reflexivity. Qed.
