(* ===== verification/Timers.v ===== *)
(** * common: timed events (event_manager.h, event_table_object.cpp)

    Objects own timed events; a holder ticks them.  An event is shared by the
    owner's multimap and by the holders' lists and freed by its reference
    count, while callbacks add, change and remove events of any object in the
    middle of a pass.  The heap of events is explicit, so that a use after
    free is a [Fault] of the model. *)
From stdpp Require Import gmap.
From S2P Require Import Prelude.

Definition EVENT_FLAG_DO_NOT_EXECUTE_IN_WORLD_CONTEXT : Z := 1.
Definition EVENT_FLAG_DELETES_OBJECT : Z := 2.
Definition EVENT_REMOVAL_FLAG_ALL : Z := 0xFFFFFFFF.
Definition WORLD_INSTANCE : Z := -1.

(** Addresses of events and of objects. *)
Abbreviation Addr := positive.

(** What goes wrong: a freed event or a destroyed object is used, the
    program's own callback names an object that does not exist, or no holder
    answers (an [assert]). *)
Inductive Fault := FreedEvent | FreedObject | BadCall | NoHolder.
Inductive Outcome (A : Type) := Done (a : A) | Faulty (f : Fault) | OutOfFuel.
Arguments Done {_}. Arguments Faulty {_}. Arguments OutOfFuel {_}.
Definition obind {A B} (m : Outcome A) (k : A -> Outcome B) : Outcome B :=
  match m with Done a => k a | Faulty f => Faulty f | OutOfFuel => OutOfFuel end.
Declare Scope outcome_scope.
Notation "'do' x <- m ; k" := (obind m (fun x => k)) (at level 10, x name, m at level 100, k at level 200) : outcome_scope.
Notation "'do' ' x <- m ; k" := (obind m (fun x => k)) (at level 10, x strict pattern, m at level 100, k at level 200) : outcome_scope.
#[local] Open Scope outcome_scope.

Section Events.
(** The program: a method with its arguments. *)
Context {Code : Type}.

(** [struct TimedEvent]; [cb] is the object and the method it was made for. *)
Record TimedEvent := mkEvent {
  cb : option (Addr * Code);
  eventType : Z;
  eventFlag : Z;
  msTime : Z;
  currTime : Z;
  repeats : Z;
  deleted : bool;
  instanceId : Z;
  ref : Z
}.

(** [class EventableObject]: [m_events] is a multimap, a list in the order of
    its keys; [instance] is what the virtual [eventGetInstanceID] answers. *)
Record EventableObject := mkObject {
  m_event_Instanceid : Z;
  m_events : list (Z * Addr);
  m_holder : option Z;
  instance : Z
}.

(** All of it: the heap, the objects, the lists of the holders [mHolders] by
    instance id (a holder is never destroyed while its program runs). *)
Record Timers := mkTimers {
  heap : gmap Addr TimedEvent;
  objects : gmap Addr EventableObject;
  mHolders : gmap Z (list Addr)
}.

Definition set_heap h (s : Timers) : Timers := mkTimers h (objects s) (mHolders s).
Definition set_object o x (s : Timers) : Timers := mkTimers (heap s) (<[o := x]> (objects s)) (mHolders s).
Definition set_holder i l (s : Timers) : Timers := mkTimers (heap s) (objects s) (<[i := l]> (mHolders s)).
Definition with_events (l : list (Z * Addr)) (x : EventableObject) : EventableObject :=
  mkObject (m_event_Instanceid x) l (m_holder x) (instance x).

(** ** TimedEvent *)
Definition new_event (o : Addr) (c : Code) (type time repeat flags : Z) : TimedEvent :=
  mkEvent (Some (o, c)) type (u16 flags) time time repeat false 0 0.

Definition get_event (p : Addr) (s : Timers) : Outcome TimedEvent :=
  match heap s !! p with Some e => Done e | None => Faulty FreedEvent end.
Definition put_event (p : Addr) (e : TimedEvent) (s : Timers) : Timers := set_heap (<[p := e]> (heap s)) s.

Definition incRef (p : Addr) (s : Timers) : Outcome Timers :=
  do e <- get_event p s;
  let '(mkEvent c ty fl ms cur rep del inst r) := e in
  Done (put_event p (mkEvent c ty fl ms cur rep del inst (r + 1)) s).

(** [decRef] marks the event deleted and frees it with its last reference. *)
Definition decRef (p : Addr) (s : Timers) : Outcome Timers :=
  do e <- get_event p s;
  let '(mkEvent c ty fl ms cur rep _ inst r) := e in
  if r - 1 <=? 0 then Done (set_heap (delete p (heap s)) s)
  else Done (put_event p (mkEvent c ty fl ms cur rep true inst (r - 1)) s).

Definition set_instance (p : Addr) (i : Z) (s : Timers) : Outcome Timers :=
  do e <- get_event p s;
  let '(mkEvent c ty fl ms cur rep del _ r) := e in
  Done (put_event p (mkEvent c ty fl ms cur rep del i r) s).

Fixpoint decRefs (ps : list Addr) (s : Timers) : Outcome Timers :=
  match ps with [] => Done s | p :: ps => do s <- decRef p s; decRefs ps s end.

(** ** EventableObject *)
Definition get_object (o : Addr) (s : Timers) : Outcome EventableObject :=
  match objects s !! o with Some x => Done x | None => Faulty BadCall end.

(** [multimap::insert]: behind the entries with the same key. *)
Fixpoint multimap_insert (k : Z) (p : Addr) (l : list (Z * Addr)) : list (Z * Addr) :=
  match l with
  | (k', p') :: l' => if k <? k' then (k, p) :: l else (k', p') :: multimap_insert k p l'
  | [] => [(k, p)]
  end.

(** [EventableObjectHolder::addEvent]. *)
Definition addEvent (i : Z) (p : Addr) (s : Timers) : Outcome Timers :=
  match mHolders s !! i with
  | Some l => do s <- incRef p s; Done (set_holder i (l ++ [p]) s)
  | None => Faulty NoHolder
  end.

Definition getEventHolder (i : Z) (s : Timers) : option Z :=
  match mHolders s !! i with Some _ => Some i | None => None end.

(** The destructor, and the constructor. *)
Definition destroy (o : Addr) (s : Timers) : Outcome Timers :=
  do x <- get_object o s;
  do s <- decRefs (map snd (m_events x)) s;
  Done (mkTimers (heap s) (delete o (objects s)) (mHolders s)).
Definition create (o : Addr) (inst : Z) (s : Timers) : Outcome Timers :=
  match objects s !! o with
  | Some _ => Faulty BadCall
  | None => Done (set_object o (mkObject (-1) [] None inst) s)
  end.

Definition eventAddEvent (o : Addr) (p : Addr) (s : Timers) : Outcome Timers :=
  do x <- get_object o s;
  let '(inst, holder) := match m_holder x with
                         | Some h => (m_event_Instanceid x, Some h)
                         | None => (instance x, getEventHolder (instance x) s)
                         end in
  do s <- incRef p s;
  do s <- set_instance p inst s;
  do e <- get_event p s;
  let events := multimap_insert (eventType e) p (m_events x) in
  let '(inst, holder) := match holder with
                         | Some h => (inst, Some h)
                         | None => (-1, getEventHolder (-1) s)
                         end in
  match holder with
  | None => Faulty NoHolder
  | Some h => addEvent h p (set_object o (mkObject inst events (Some h) (instance x)) s)
  end.

(** [EventMgr::addEvent]: a fresh event of [o]. *)
Definition mgr_addEvent (o : Addr) (c : Code) (type time repeat flags : Z) (s : Timers) : Outcome Timers :=
  let p := fresh (dom (heap s)) in
  eventAddEvent o p (put_event p (new_event o c type time repeat flags) s).

(** [eventRemoveEvents]: all events, or those of one type. *)
Definition of_type (type : Z) (entry : Z * Addr) : bool := fst entry =? type.
Definition eventRemoveEvents (o : Addr) (type : Z) (s : Timers) : Outcome Timers :=
  do x <- get_object o s;
  if type =? EVENT_REMOVAL_FLAG_ALL then
    do s <- decRefs (map snd (m_events x)) s;
    Done (set_object o (with_events [] x) s)
  else
    do s <- decRefs (map snd (List.filter (of_type type) (m_events x))) s;
    Done (set_object o (with_events (List.filter (fun en => negb (of_type type en)) (m_events x)) x) s).

(** The three [eventModify...]: a change of every event of one type. *)
Fixpoint modify_events (f : TimedEvent -> TimedEvent) (ps : list Addr) (s : Timers) : Outcome Timers :=
  match ps with
  | [] => Done s
  | p :: ps => do e <- get_event p s; modify_events f ps (put_event p (f e) s)
  end.
Definition set_times (ms cur : Z -> Z -> Z) (e : TimedEvent) : TimedEvent :=
  let '(mkEvent c ty fl m t rep del inst r) := e in mkEvent c ty fl (ms m t) (cur m t) rep del inst r.
Definition eventModify (f : TimedEvent -> TimedEvent) (o : Addr) (type : Z) (s : Timers) : Outcome Timers :=
  do x <- get_object o s;
  modify_events f (map snd (List.filter (of_type type) (m_events x))) s.
Definition eventModifyTimeLeft (o : Addr) (type TimeLeft : Z) (unconditioned : bool) : Timers -> Outcome Timers :=
  eventModify (set_times (fun m _ => m) (fun m _ => if unconditioned then TimeLeft else if TimeLeft >? m then m else TimeLeft)) o type.
Definition eventModifyTime (o : Addr) (type Time : Z) : Timers -> Outcome Timers :=
  eventModify (set_times (fun _ _ => Time) (fun _ t => t)) o type.
Definition eventModifyTimeAndTimeLeft (o : Addr) (type Time : Z) : Timers -> Outcome Timers :=
  eventModify (set_times (fun _ _ => Time) (fun _ _ => Time)) o type.

(** Queries.  They skip deleted events. *)
Definition live (p : Addr) (s : Timers) : bool :=
  match heap s !! p with Some e => negb (deleted e) | None => false end.
Definition eventHasEvent (o : Addr) (type : Z) (s : Timers) : bool :=
  match objects s !! o with
  | Some x => existsb (fun en => of_type type en && live (snd en) s) (m_events x)
  | None => false
  end.
Definition eventGetTimeLeft (o : Addr) (type : Z) (s : Timers) : option Z :=
  match objects s !! o with
  | Some x => match List.find (fun en => of_type type en && live (snd en) s) (m_events x) with
              | Some en => currTime <$> heap s !! snd en
              | None => None
              end
  | None => None
  end.
Definition eventGetEventPeriod (o : Addr) (type : Z) (s : Timers) : Z :=
  match objects s !! o with
  | Some x => match List.find (of_type type) (m_events x) with
              | Some en => match heap s !! snd en with Some e => msTime e | None => 0 end
              | None => 0
              end
  | None => 0
  end.

(** [eventRemoveByPointer]: the first entry of [ev] under its type. *)
Fixpoint erase_entry (k : Z) (p : Addr) (l : list (Z * Addr)) : list (Z * Addr) :=
  match l with
  | (k', p') :: l' => if (k' =? k) && Pos.eqb p' p then l' else (k', p') :: erase_entry k p l'
  | [] => []
  end.
Definition eventRemoveByPointer (o ev : Addr) (s : Timers) : Outcome Timers :=
  do x <- get_object o s;
  do e <- (match heap s !! ev with Some e => Done e | None => Faulty BadCall end);
  if existsb (fun en => (fst en =? eventType e) && Pos.eqb (snd en) ev) (m_events x) then
    do s <- decRef ev s;
    Done (set_object o (with_events (erase_entry (eventType e) ev (m_events x)) x) s)
  else Done s.

(** [EventableObjectHolder::addObject], [EventableObject::eventRelocate]. *)
Definition refused (i : Z) (e : TimedEvent) : bool :=
  (i =? WORLD_INSTANCE) && negb (Z.land (eventFlag e) EVENT_FLAG_DO_NOT_EXECUTE_IN_WORLD_CONTEXT =? 0).
Fixpoint addObject (i : Z) (ps : list Addr) (s : Timers) : Outcome Timers :=
  match ps with
  | [] => Done s
  | p :: ps =>
      do e <- get_event p s;
      if deleted e || refused i e then addObject i ps s
      else do s <- addEvent i p s; do s <- set_instance p i s; addObject i ps s
  end.
Definition eventRelocate (o : Addr) (s : Timers) : Outcome Timers :=
  do x <- get_object o s;
  let nh := getEventHolder (instance x) s in
  if bool_decide (nh = m_holder x) then Done s
  else
    match (match nh with Some h => Some h | None => getEventHolder (-1) s end) with
    | None => Faulty NoHolder
    | Some h =>
        do s <- addObject h (map snd (m_events x)) s;
        Done (set_object o (mkObject h (m_events x) (Some h) (instance x)) s)
    end.

(** ** EventableObjectHolder::update *)

(** What a callback may do to the events. *)
Inductive Call :=
  | CallAdd (o : Addr) (c : Code) (type time repeat flags : Z)
  | CallRemove (o : Addr) (type : Z)
  | CallRemovePointer (o ev : Addr)
  | CallTimeLeft (o : Addr) (type time : Z) (unconditioned : bool)
  | CallTime (o : Addr) (type time : Z)
  | CallTimeAndTimeLeft (o : Addr) (type time : Z)
  | CallRelocate (o : Addr)
  | CallCreate (o : Addr) (inst : Z)
  | CallDestroy (o : Addr).

Definition run_call (c : Call) : Timers -> Outcome Timers :=
  match c with
  | CallAdd o c type time repeat flags => mgr_addEvent o c type time repeat flags
  | CallRemove o type => eventRemoveEvents o type
  | CallRemovePointer o ev => eventRemoveByPointer o ev
  | CallTimeLeft o type time un => eventModifyTimeLeft o type time un
  | CallTime o type time => eventModifyTime o type time
  | CallTimeAndTimeLeft o type time => eventModifyTimeAndTimeLeft o type time
  | CallRelocate o => eventRelocate o
  | CallCreate o inst => create o inst
  | CallDestroy o => destroy o
  end.
Fixpoint run_calls (cs : list Call) (s : Timers) : Outcome Timers :=
  match cs with [] => Done s | c :: cs => do s <- run_call c s; run_calls cs s end.

Section Update.
(** The methods: what one does, from what it can see. *)
Context {World : Type} (execute : Addr -> Code -> Timers -> World -> list Call * World).
(** The holder and the time since its last update. *)
Context (mInstanceId time_difference : Z).

(** [ev->cb->execute()]: a method of an object that must still exist. *)
Definition run_cb (o : Addr) (c : Code) (s : Timers) (w : World) : Outcome (Timers * World) :=
  match objects s !! o with
  | None => Faulty FreedObject
  | Some _ => let '(calls, w) := execute o c s w in do s <- run_calls calls s; Done (s, w)
  end.

(** One turn of the loop for the event [p]: whether its entry stays in the
    list, and whether it fired. *)
Record Visit := mkVisit { keep : bool; fired : bool; after : Timers; world : World }.

Definition visit (p : Addr) (s : Timers) (w : World) : Outcome Visit :=
  do e <- get_event p s;
  if negb (instanceId e =? mInstanceId) || deleted e || refused mInstanceId e then
    do s <- decRef p s; Done (mkVisit false false s w)
  else if currTime e <=? time_difference then
    match cb e with
    | None => do s <- decRef p s; Done (mkVisit false false s w)
    | Some (o, c) =>
        do '(s, w) <- run_cb o c s w;
        if negb (Z.land (eventFlag e) EVENT_FLAG_DELETES_OBJECT =? 0) then
          do s <- decRef p s; Done (mkVisit false true s w)
        else
          do e <- get_event p s;
          let '(mkEvent c ty fl ms cur rep del inst r) := e in
          let rep' := if rep =? 0 then rep else i32 (rep - 1) in
          if (negb (rep =? 0) && (rep' =? 0)) || del then
            do s <- decRef p (put_event p (mkEvent c ty fl ms cur rep' del inst r) s); Done (mkVisit false true s w)
          else Done (mkVisit true true (put_event p (mkEvent c ty fl ms ms rep' del inst r) s) w)
    end
  else
    let '(mkEvent c ty fl ms cur rep del inst r) := e in
    Done (mkVisit true false (put_event p (mkEvent c ty fl ms (cur - time_difference) rep del inst r) s) w).

Definition holder_list (s : Timers) : list Addr := default [] (mHolders s !! mInstanceId).
Definition erase_at (n : nat) (s : Timers) : Timers :=
  let l := holder_list s in set_holder mInstanceId (firstn n l ++ skipn (S n) l) s.

(** The loop, from the entry with index [n].  [itr] moves on before the
    callback runs: behind the last entry it is [end()] already, and entries
    appended by this callback are not visited any more.  The result lists the
    events that fired. *)
Fixpoint update_from (fuel n : nat) (s : Timers) (w : World) : Outcome (list Addr * Timers * World) :=
  match fuel with
  | O => OutOfFuel
  | S fuel =>
      let l := holder_list s in
      match l !! n with
      | None => Done ([], s, w)
      | Some p =>
          let last := Nat.eqb (S n) (length l) in
          do v <- visit p s w;
          let s := if keep v then after v else erase_at n (after v) in
          let hit := if fired v then [p] else [] in
          if last then Done (hit, s, world v)
          else do '(hits, s, w) <- update_from fuel (if keep v then S n else n) s (world v); Done (hit ++ hits, s, w)
      end
  end.
Definition update (fuel : nat) (s : Timers) (w : World) : Outcome (list Addr * Timers * World) := update_from fuel 0 s w.
End Update.
End Events.
Arguments TimedEvent : clear implicits.
Arguments Timers : clear implicits.
Arguments Call : clear implicits.

(** ** References and their counts *)

(** All lists of a map in one. *)
Section Flat.
Context {K A : Type} `{Countable K}.
Implicit Types m : gmap K (list A).
Definition flat m : list A := concat (map snd (map_to_list m)).

Lemma flat_permute l1 l2 : Permutation l1 l2 -> Permutation (concat (map (@snd K (list A)) l1)) (concat (map snd l2)).
Proof. intros Hp. rewrite <- !flat_map_concat_map. by apply Permutation_flat_map. Qed.
Lemma flat_insert_fresh m k l : m !! k = None -> Permutation (flat (<[k := l]> m)) (l ++ flat m).
Proof. intros Hk. unfold flat. by rewrite (flat_permute _ _ (map_to_list_insert m k l Hk)). Qed.
Lemma flat_insert m k l : Permutation (flat (<[k := l]> m)) (l ++ flat (delete k m)).
Proof. rewrite <- insert_delete_eq. apply flat_insert_fresh. apply lookup_delete_eq. Qed.
Lemma flat_lookup m k l : m !! k = Some l -> Permutation (flat m) (l ++ flat (delete k m)).
Proof. intros Hk. rewrite <- (insert_delete_id m k l Hk) at 1. apply flat_insert_fresh, lookup_delete_eq. Qed.
End Flat.

Definition cnt (p : Addr) (l : list Addr) : Z := Z.of_nat (count_occ Pos.eq_dec l p).
Lemma cnt_app p l1 l2 : cnt p (l1 ++ l2) = cnt p l1 + cnt p l2.
Proof. unfold cnt. rewrite count_occ_app. lia. Qed.
Lemma cnt_perm p l1 l2 : Permutation l1 l2 -> cnt p l1 = cnt p l2.
Proof. intros Hp. unfold cnt. by rewrite (proj1 (Permutation_count_occ Pos.eq_dec _ _) Hp). Qed.
Lemma cnt_nonneg p l : 0 <= cnt p l.
Proof. unfold cnt. lia. Qed.
Lemma cnt_cons p q l : cnt p (q :: l) = (if Pos.eq_dec q p then 1 else 0) + cnt p l.
Proof. unfold cnt. destruct (Pos.eq_dec q p); [rewrite count_occ_cons_eq by done|rewrite count_occ_cons_neq by done]; lia. Qed.
Lemma cnt_nil p : cnt p [] = 0.
Proof. done. Qed.
Lemma cnt_in p l : p ∈ l <-> 0 < cnt p l.
Proof. unfold cnt. rewrite list_elem_of_In, (count_occ_In Pos.eq_dec). lia. Qed.
Lemma cnt_pair_lookup p l n q : l !! n = Some q -> cnt p l = cnt p [q] + cnt p (firstn n l ++ skipn (S n) l).
Proof.
  intros Hn. rewrite <- (take_drop_middle l n q Hn) at 1. rewrite !cnt_app, cnt_cons, cnt_cons, cnt_nil. lia.
Qed.

Section Facts.
Context {Code : Type}.
Implicit Types (s : Timers Code) (p : Addr).

(** The references to events: in the lists of the holders and in the
    multimaps of the objects. *)
Definition pointers (x : EventableObject) : list Addr := map snd (m_events x).
Definition refs s : list Addr := flat (mHolders s) ++ flat (pointers <$> objects s).
Definition ref_of p s : Z := match heap s !! p with Some e => ref e | None => 0 end.
(** [cb] may no longer run. *)
Definition dead p s : Prop := match heap s !! p with Some e => deleted e = true | None => True end.
Definition owned p (e : TimedEvent Code) s : Prop :=
  match cb e with Some (o, _) => exists x, objects s !! o = Some x /\ p ∈ pointers x | None => True end.

(** Well-formed but for [debt]: references already given back by [decRef] and
    still in the tables. *)
Record wf_but (debt : list Addr) s : Prop := {
  wf_count p : ref_of p s + cnt p debt = cnt p (refs s);
  wf_pos p e : heap s !! p = Some e -> 0 < ref e;
  wf_owned p e : heap s !! p = Some e -> deleted e = false -> owned p e s;
  wf_holder o x h : objects s !! o = Some x -> m_holder x = Some h -> is_Some (mHolders s !! h);
  wf_world : is_Some (mHolders s !! (-1))
}.
Definition wf s : Prop := wf_but [] s.

(** A holder's list only grows, at its end. *)
Definition grows s s' : Prop := forall i l, mHolders s !! i = Some l -> exists ext, mHolders s' !! i = Some (l ++ ext).
#[export] Instance grows_po : PreOrder grows.
Proof.
  split.
  - intros s i l Hl. exists []. by rewrite app_nil_r.
  - intros s1 s2 s3 H12 H23 i l Hl. destruct (H12 i l Hl) as [e1 H1], (H23 i _ H1) as [e2 H2].
    exists (e1 ++ e2). by rewrite app_assoc.
Qed.
Lemma grows_same s s' : mHolders s' = mHolders s -> grows s s'.
Proof. intros E i l Hl. exists []. by rewrite E, app_nil_r. Qed.

(** ** The operations, one by one *)
Lemma get_event_some p s e : heap s !! p = Some e -> get_event p s = Done e.
Proof. unfold get_event. by intros ->. Qed.

(** Everything counted exists. *)
Lemma wf_lookup debt s p : wf_but debt s -> cnt p debt < cnt p (refs s) -> exists e, heap s !! p = Some e.
Proof.
  intros Hwf Hlt. pose proof (wf_count _ _ Hwf p) as Hc. unfold ref_of in Hc.
  destruct (heap s !! p) as [e|]; [by exists e|lia].
Qed.

(** What [decRef] leaves alone: the tables, the other events, the dead. *)
Record same_tables s s' : Prop := {
  same_objects : objects s' = objects s;
  same_holders : mHolders s' = mHolders s;
  same_events q e : heap s' !! q = Some e -> exists e0, heap s !! q = Some e0 /\ cb e = cb e0 /\
    eventType e = eventType e0 /\ (deleted e = false -> deleted e0 = false);
  same_dead q : dead q s -> dead q s'
}.
#[export] Instance same_tables_po : PreOrder same_tables.
Proof.
  split.
  - intros s. constructor; [done|done| |done]. intros q e He. by exists e.
  - intros s1 s2 s3 [o1 h1 e1 d1] [o2 h2 e2 d2]. constructor; try congruence; [|eauto].
    intros q e He. destruct (e2 q e He) as (e' & He' & Hcb & Hty & Hd), (e1 q e' He') as (e'' & He'' & Hcb' & Hty' & Hd').
    exists e''. split; [done|]. split; [congruence|]. split; [congruence|auto].
Qed.
Lemma same_refs s s' : same_tables s s' -> refs s' = refs s.
Proof. intros [Ho Hh _ _]. unfold refs. by rewrite Ho, Hh. Qed.

(** A change of one event that keeps its count and its callback. *)
Lemma put_same p e e' s : heap s !! p = Some e -> cb e' = cb e -> eventType e' = eventType e ->
  (deleted e' = deleted e \/ deleted e' = true) -> same_tables s (put_event p e' s).
Proof.
  intros He Hcb Hty Hd. constructor; cbn; [done|done|..].
  - intros q e1. destruct (decide (q = p)) as [->|Hq]; [rewrite lookup_insert_eq|rewrite lookup_insert_ne by done; eauto].
    intros [= <-]. exists e. split_and!; [done..|]. destruct Hd; congruence.
  - intros q. unfold dead. cbn. destruct (decide (q = p)) as [->|Hq]; [|by rewrite lookup_insert_ne].
    rewrite lookup_insert_eq, He. destruct Hd; congruence.
Qed.
Lemma delete_same p s : same_tables s (set_heap (delete p (heap s)) s).
Proof.
  constructor; cbn; [done|done|..].
  - intros q e. rewrite lookup_delete_Some. intros [_ He]. eauto.
  - intros q. unfold dead. cbn. destruct (decide (q = p)) as [->|Hq]; [by rewrite lookup_delete_eq|by rewrite lookup_delete_ne].
Qed.
Lemma wf_same debt debt' s s' : wf_but debt s -> same_tables s s' ->
  (forall q, ref_of q s' + cnt q debt' = ref_of q s + cnt q debt) -> (forall q e, heap s' !! q = Some e -> 0 < ref e) ->
  wf_but debt' s'.
Proof.
  intros Hwf Hsame Hcount Hpos. pose proof (same_refs _ _ Hsame) as Hr. destruct Hwf as [Hc _ Hown Hh Hw].
  destruct Hsame as [Ho Hhold He _]. constructor; rewrite ?Ho, ?Hhold; eauto.
  - intros q. rewrite Hcount, Hr. apply Hc.
  - intros q e Hq Hd. destruct (He q e Hq) as (e0 & Hq0 & Hcb & _ & Hd0).
    specialize (Hown q e0 Hq0 (Hd0 Hd)). unfold owned in *. by rewrite Hcb, Ho.
Qed.

Lemma decRef_ok debt s p : wf_but debt s -> cnt p debt < cnt p (refs s) ->
  exists s', decRef p s = Done s' /\ wf_but (p :: debt) s' /\ same_tables s s' /\ dead p s'.
Proof.
  intros Hwf Hlt. destruct (wf_lookup _ _ _ Hwf Hlt) as [e He]. unfold decRef. rewrite (get_event_some _ _ _ He). cbn [obind].
  pose proof (wf_pos _ _ Hwf p e He) as Hpos. destruct e as [c ty fl ms cur rep del inst r]. cbn in Hpos.
  assert (Hc : forall q (e' : option (TimedEvent Code)), match e' with Some e' => ref e' | None => 0 end = r - 1 ->
    (if Pos.eq_dec p q then match e' with Some e' => ref e' | None => 0 end else ref_of q s) + cnt q (p :: debt) = ref_of q s + cnt q debt).
  { intros q e' Hr. rewrite cnt_cons. destruct (Pos.eq_dec p q) as [->|]; [|lia]. unfold ref_of. rewrite He, Hr. cbn. lia. }
  destruct (Z.leb_spec (r - 1) 0) as [Hz|Hz]; (eexists; split; [done|]); split_and!.
  - eapply wf_same; [done|apply delete_same|intros q; rewrite <- (Hc q None) by lia|].
    + f_equal. unfold ref_of. cbn. destruct (Pos.eq_dec p q) as [->|Hq]; [by rewrite lookup_delete_eq|by rewrite lookup_delete_ne].
    + cbn. intros q e [_ Hq]%lookup_delete_Some. by eapply wf_pos.
  - apply delete_same.
  - unfold dead. cbn. by rewrite lookup_delete_eq.
  - eapply wf_same; [done|by eapply put_same; eauto|intros q; rewrite <- (Hc q (Some (mkEvent c ty fl ms cur rep true inst (r - 1)))) by done|].
    + f_equal. unfold ref_of. cbn. destruct (Pos.eq_dec p q) as [->|Hq]; [by rewrite lookup_insert_eq|by rewrite lookup_insert_ne].
    + cbn. intros q e. rewrite lookup_insert_Some. intros [[_ <-]|[_ Hq]]; [cbn; lia|by eapply wf_pos].
  - by eapply put_same; eauto.
  - unfold dead. cbn. by rewrite lookup_insert_eq.
Qed.

Lemma decRefs_ok ps : forall debt s, wf_but debt s -> (forall q, cnt q (ps ++ debt) <= cnt q (refs s)) ->
  exists s', decRefs ps s = Done s' /\ wf_but (ps ++ debt) s' /\ same_tables s s' /\ forall q, q ∈ ps -> dead q s'.
Proof.
  induction ps as [|p ps IH]; intros debt s Hwf Hle; [exists s; split_and!; [done..|by intros q ?%elem_of_nil]|].
  cbn [decRefs]. destruct (decRef_ok debt s p Hwf) as (s1 & E1 & Hwf1 & Hsame1 & Hdead).
  { specialize (Hle p). cbn [app] in Hle. rewrite cnt_cons, cnt_app in Hle. pose proof (cnt_nonneg p ps).
    destruct (Pos.eq_dec p p); [lia|done]. }
  assert (Hp : Permutation ((p :: ps) ++ debt) (ps ++ p :: debt)) by apply Permutation_middle.
  destruct (IH (p :: debt) s1 Hwf1) as (s2 & E2 & Hwf2 & Hsame2 & Hdead2).
  { intros q. rewrite <- (cnt_perm q _ _ Hp), (same_refs _ _ Hsame1). apply Hle. }
  exists s2. rewrite E1. cbn [obind]. split; [done|]. split; [|split; [by etrans|]].
  - destruct Hwf2 as [Hc ? ? ? ?]. constructor; auto. intros q. rewrite (cnt_perm q _ _ Hp). apply Hc.
  - intros q [->|Hq]%elem_of_cons; [by eapply same_dead|auto].
Qed.

(** *** The tables *)
Lemma refs_set_object o x x' s q : objects s !! o = Some x ->
  cnt q (refs (set_object o x' s)) + cnt q (pointers x) = cnt q (refs s) + cnt q (pointers x').
Proof.
  intros Hx. unfold refs, set_object. cbn [mHolders objects]. rewrite !cnt_app, fmap_insert.
  assert (Hp : (pointers <$> objects s) !! o = Some (pointers x)) by by rewrite lookup_fmap, Hx.
  rewrite (cnt_perm q _ _ (flat_insert (pointers <$> objects s) o (pointers x'))), (cnt_perm q _ _ (flat_lookup _ _ _ Hp)), !cnt_app. lia.
Qed.
Lemma refs_delete_object o x s q : objects s !! o = Some x ->
  cnt q (refs (mkTimers (heap s) (delete o (objects s)) (mHolders s))) + cnt q (pointers x) = cnt q (refs s).
Proof.
  intros Hx. unfold refs. cbn [mHolders objects]. rewrite !cnt_app, fmap_delete.
  assert (Hp : (pointers <$> objects s) !! o = Some (pointers x)) by by rewrite lookup_fmap, Hx.
  rewrite (cnt_perm q _ _ (flat_lookup _ _ _ Hp)), !cnt_app. lia.
Qed.
Lemma refs_new_object o x s q : objects s !! o = None ->
  cnt q (refs (set_object o x s)) = cnt q (refs s) + cnt q (pointers x).
Proof.
  intros Hx. unfold refs, set_object. cbn [mHolders objects]. rewrite !cnt_app, fmap_insert.
  assert (Hp : (pointers <$> objects s) !! o = None) by by rewrite lookup_fmap, Hx.
  rewrite (cnt_perm q _ _ (flat_insert_fresh _ _ (pointers x) Hp)), !cnt_app. lia.
Qed.
Lemma refs_set_holder i l l' s q : mHolders s !! i = Some l ->
  cnt q (refs (set_holder i l' s)) + cnt q l = cnt q (refs s) + cnt q l'.
Proof.
  intros Hl. unfold refs, set_holder. cbn [mHolders objects]. rewrite !cnt_app.
  rewrite (cnt_perm q _ _ (flat_insert (mHolders s) i l')), (cnt_perm q _ _ (flat_lookup _ _ _ Hl)), !cnt_app. lia.
Qed.
Lemma refs_object o x s q : objects s !! o = Some x -> cnt q (pointers x) <= cnt q (refs s).
Proof. intros Hx. pose proof (refs_delete_object o x s q Hx). pose proof (cnt_nonneg q (refs (mkTimers (heap s) (delete o (objects s)) (mHolders s)))). lia. Qed.
Lemma refs_holder i l s q : mHolders s !! i = Some l -> cnt q l <= cnt q (refs s).
Proof. intros Hl. pose proof (refs_set_holder i l [] s q Hl). rewrite cnt_nil in *. pose proof (cnt_nonneg q (refs (set_holder i [] s))). lia. Qed.

(** An object gets other entries: those dropped were dead. *)
Lemma set_object_ok debt debt' o x x' s : wf_but debt s -> objects s !! o = Some x ->
  (forall q, cnt q (pointers x) + cnt q debt' = cnt q (pointers x') + cnt q debt) ->
  (forall q, q ∈ pointers x -> q ∈ pointers x' \/ dead q s) ->
  (forall h, m_holder x' = Some h -> is_Some (mHolders s !! h)) -> wf_but debt' (set_object o x' s).
Proof.
  intros [Hc Hpos Hown Hh Hw] Hx Hd Hkeep Hh'. constructor; [|done| |intros o' y h|done].
  - intros q. specialize (Hc q). specialize (Hd q). pose proof (refs_set_object o x x' s q Hx). unfold ref_of in *. cbn [set_object heap] in *. lia.
  - intros q e He Hdel. specialize (Hown q e He Hdel). unfold owned in *. destruct (cb e) as [[o' c]|]; [|done].
    destruct Hown as (y & Hy & Hq). cbn. destruct (decide (o' = o)) as [->|Ho]; [|rewrite lookup_insert_ne by done; eauto].
    rewrite lookup_insert_eq. exists x'. split; [done|]. rewrite Hx in Hy. injection Hy as <-.
    destruct (Hkeep q Hq) as [|Hdead]; [done|]. unfold dead in Hdead. cbn in He. rewrite He in Hdead. congruence.
  - cbn. destruct (decide (o' = o)) as [->|Ho]; [rewrite lookup_insert_eq; intros [= <-]; apply Hh'|rewrite lookup_insert_ne by done; eauto].
Qed.

(** A holder's list without an entry that was given back. *)
Lemma set_holder_ok debt debt' i l l' s : wf_but debt s -> mHolders s !! i = Some l ->
  (forall q, cnt q l + cnt q debt' = cnt q l' + cnt q debt) -> wf_but debt' (set_holder i l' s).
Proof.
  intros [Hc Hpos Hown Hh Hw] Hl Hd.
  assert (Hsome : forall h, is_Some (mHolders s !! h) -> is_Some (<[i := l']> (mHolders s) !! h)).
  { intros h Hs. destruct (decide (h = i)) as [->|]; [by rewrite lookup_insert_eq|by rewrite lookup_insert_ne]. }
  constructor; cbn [heap objects mHolders set_holder]; eauto.
  intros q. specialize (Hc q). specialize (Hd q). pose proof (refs_set_holder i l l' s q Hl). unfold ref_of in *. cbn [set_holder heap] in *. lia.
Qed.

(** *** Calls *)

(** What every call achieves: a well-formed state and longer lists, or a
    complaint about the caller. *)
Definition good s (r : Outcome (Timers Code)) : Prop :=
  match r with Done s' => wf s' /\ grows s s' | Faulty BadCall => True | _ => False end.
Lemma good_call o s k : (forall x, objects s !! o = Some x -> good s (k x)) -> good s (do x <- get_object o s; k x).
Proof. unfold get_object. destruct (objects s !! o); cbn; auto. Qed.

Lemma good_create o inst s : wf s -> good s (create o inst s).
Proof.
  intros [Hc Hpos Hown Hh Hw]. unfold create. destruct (objects s !! o) eqn:Eo; [done|]. split; [|by apply grows_same].
  constructor; cbn [heap mHolders set_object objects]; auto.
  - intros q. rewrite (refs_new_object _ _ _ _ Eo). change (pointers _) with (@nil Addr) at 1. specialize (Hc q).
    rewrite !cnt_nil in *. unfold ref_of in *. cbn [heap set_object]. lia.
  - intros q e He Hd. specialize (Hown q e He Hd). unfold owned in *. cbn. destruct (cb e) as [[o' c]|]; [|done].
    destruct Hown as (y & Hy & Hq). exists y. split; [|done]. rewrite lookup_insert_ne by congruence. done.
  - intros o' y h. destruct (decide (o' = o)) as [->|Ho]; [rewrite lookup_insert_eq; intros [= <-]; done|rewrite lookup_insert_ne by done; eauto].
Qed.

Lemma good_destroy o s : wf s -> good s (destroy o s).
Proof.
  intros Hwf. apply good_call. intros x Hx. fold (pointers x).
  destruct (decRefs_ok (pointers x) [] s Hwf) as (s' & -> & [Hc Hpos Hown Hh Hw] & Hsame & Hdead).
  { intros q. rewrite app_nil_r. by eapply refs_object. }
  cbn [obind]. destruct Hsame as [Ho Hhold _ _]. rewrite app_nil_r in Hc.
  assert (Hx' : objects s' !! o = Some x) by by rewrite Ho.
  split; [|apply grows_same; by cbn; rewrite Hhold]. constructor; cbn [heap mHolders objects]; auto.
  - intros q. pose proof (refs_delete_object o x s' q Hx'). specialize (Hc q). rewrite cnt_nil. unfold ref_of in *. cbn [heap] in *. lia.
  - intros q e He Hd. specialize (Hown q e He Hd). unfold owned in *. cbn. destruct (cb e) as [[o' c]|]; [|done].
    destruct Hown as (y & Hy & Hq). exists y. split; [|done]. rewrite lookup_delete_ne; [done|]. intros ->.
    rewrite Hx' in Hy. injection Hy as <-. specialize (Hdead q Hq). unfold dead in Hdead. rewrite He in Hdead. congruence.
  - intros o' y h [_ Hy]%lookup_delete_Some. eauto.
Qed.

(** [m_events] split by type. *)
Lemma filter_split (f : Z * Addr -> bool) l q :
  cnt q (map snd l) = cnt q (map snd (List.filter f l)) + cnt q (map snd (List.filter (fun en => negb (f en)) l)).
Proof.
  induction l as [|en l IH]; cbn; [done|]. destruct (f en); cbn; rewrite !cnt_cons, IH; lia.
Qed.
Lemma good_remove o type s : wf s -> good s (eventRemoveEvents o type s).
Proof.
  intros Hwf. unfold eventRemoveEvents. apply good_call. intros x Hx.
  (* the entries that go, and those that stay *)
  assert (Hgen : forall gone rest : list (Z * Addr), (forall q, cnt q (pointers x) = cnt q (map snd gone) + cnt q (map snd rest)) ->
    good s (do s <- decRefs (map snd gone) s; Done (set_object o (with_events rest x) s))).
  { intros gone rest Hsplit. destruct (decRefs_ok (map snd gone) [] s Hwf) as (s' & -> & Hwf' & Hsame & Hdead).
    { intros q. rewrite app_nil_r. pose proof (refs_object o x s q Hx). rewrite Hsplit in *. pose proof (cnt_nonneg q (map snd rest)). lia. }
    cbn [obind]. rewrite app_nil_r in Hwf'. destruct Hsame as [Ho Hhold _ _].
    split; [|apply grows_same; by cbn; rewrite Hhold].
    eapply set_object_ok; [exact Hwf'|by rewrite Ho|..]; cbn.
    - intros q. rewrite Hsplit. unfold pointers. cbn. rewrite cnt_nil. lia.
    - intros q Hq. apply cnt_in in Hq. rewrite Hsplit in Hq. unfold pointers. cbn. rewrite !cnt_in.
      destruct (decide (0 < cnt q (map snd rest))); [by left|]. right. apply Hdead, cnt_in. lia.
    - intros h. rewrite Hhold. by eapply wf_holder. }
  destruct (_ =? _); apply Hgen; [|apply filter_split]. intros q. cbn. rewrite cnt_nil. unfold pointers. lia.
Qed.

(** Changes of an event that keep its count and its callback. *)
Lemma put_ok debt p e e' s : wf_but debt s -> heap s !! p = Some e -> cb e' = cb e -> eventType e' = eventType e ->
  deleted e' = deleted e -> ref e' = ref e -> wf_but debt (put_event p e' s) /\ same_tables s (put_event p e' s).
Proof.
  intros Hwf He Hcb Hty Hd Hr. assert (Hsame : same_tables s (put_event p e' s)) by (eapply put_same; eauto).
  split; [|done]. eapply wf_same; [done..| |].
  - intros q. f_equal. unfold ref_of. cbn. destruct (decide (q = p)) as [->|]; [|by rewrite lookup_insert_ne].
    by rewrite lookup_insert_eq, He.
  - cbn. intros q e1. rewrite lookup_insert_Some. intros [[_ <-]|[_ Hq]]; [rewrite Hr|]; by eapply wf_pos.
Qed.

Lemma modify_ok ms cur ps : forall s, wf s -> (forall q, q ∈ ps -> 0 < cnt q (refs s)) ->
  exists s', modify_events (set_times ms cur) ps s = Done s' /\ wf s' /\ same_tables s s'.
Proof.
  induction ps as [|p ps IH]; intros s Hwf Hin; [by exists s|]. cbn [modify_events].
  destruct (wf_lookup [] s p Hwf) as [e He]; [rewrite cnt_nil; apply Hin; left|].
  rewrite (get_event_some _ _ _ He). cbn [obind].
  destruct (put_ok [] p e (set_times ms cur e) s) as [Hwf1 Hsame1]; [done|done|by destruct e..|].
  destruct (IH _ Hwf1) as (s' & E & Hwf' & Hsame'); [intros q Hq; rewrite (same_refs _ _ Hsame1); apply Hin; by right|].
  exists s'. split; [done|]. split; [done|]. by etrans.
Qed.
Lemma good_modify ms cur o type s : wf s -> good s (eventModify (set_times ms cur) o type s).
Proof.
  intros Hwf. apply good_call. intros x Hx.
  destruct (modify_ok ms cur (map snd (List.filter (of_type type) (m_events x))) s Hwf) as (s' & -> & Hwf' & Hsame).
  - intros q Hq%cnt_in. pose proof (refs_object o x s q Hx) as Hr. unfold pointers in Hr.
    rewrite (filter_split (of_type type)) in Hr. pose proof (cnt_nonneg q (map snd (List.filter (fun en => negb (of_type type en)) (m_events x)))). lia.
  - split; [done|]. by apply grows_same, same_holders.
Qed.

Lemma erase_entry_cnt k p l q : existsb (fun en => (fst en =? k) && Pos.eqb (snd en) p) l = true ->
  cnt q (map snd l) = cnt q [p] + cnt q (map snd (erase_entry k p l)).
Proof.
  induction l as [|[k' p'] l IH]; cbn [existsb erase_entry map snd fst]; [done|]. rewrite cnt_cons.
  destruct (_ && _) eqn:E; cbn [orb map snd]; [|intros Hl; rewrite !cnt_cons, IH, !cnt_cons by done; lia].
  intros _. apply andb_true_iff in E as [_ ->%Pos.eqb_eq]. rewrite cnt_cons, cnt_nil. lia.
Qed.
Lemma good_remove_pointer o ev s : wf s -> good s (eventRemoveByPointer o ev s).
Proof.
  intros Hwf. apply good_call. intros x Hx. destruct (heap s !! ev) as [e|]; [|done]. cbn [obind].
  destruct (existsb _ _) eqn:Ex; [|by split]. pose proof (fun q => erase_entry_cnt _ _ _ q Ex) as Hcnt.
  assert (Hin : cnt ev (refs s) > 0).
  { pose proof (refs_object o x s ev Hx) as Hr. unfold pointers in Hr. rewrite Hcnt, cnt_cons in Hr.
    pose proof (cnt_nonneg ev (map snd (erase_entry (eventType e) ev (m_events x)))). rewrite cnt_nil in Hr. destruct (Pos.eq_dec ev ev); [lia|done]. }
  destruct (decRef_ok [] s ev Hwf) as (s' & -> & Hwf' & [Ho Hhold _ _] & Hdead); [rewrite cnt_nil; lia|]. cbn [obind].
  split; [|apply grows_same; by cbn; rewrite Hhold]. eapply set_object_ok; [exact Hwf'|by rewrite Ho|..]; cbn [with_events m_holder].
  - intros q. unfold pointers. cbn [with_events m_events]. rewrite Hcnt, cnt_nil. lia.
  - intros q Hq. unfold pointers in *. cbn [with_events m_events]. rewrite cnt_in, Hcnt in Hq. rewrite cnt_in.
    destruct (decide (q = ev)) as [->|Hne]; [by right|]. left. rewrite cnt_cons, cnt_nil in Hq. destruct (Pos.eq_dec ev q); [congruence|lia].
  - intros h. rewrite Hhold. by eapply wf_holder.
Qed.

(** A new event in the multimap of [o] and in the list of a holder. *)
Lemma link_new s p e o x x' h l c : wf s -> heap s !! p = None -> ref e = 2 -> cb e = Some (o, c) ->
  objects s !! o = Some x -> mHolders s !! h = Some l -> m_holder x' = Some h ->
  (forall q, cnt q (pointers x') = cnt q [p] + cnt q (pointers x)) ->
  wf (set_holder h (l ++ [p]) (set_object o x' (put_event p e s))).
Proof.
  intros [Hc Hpos Hown Hh Hw] Hp Hr Hcb Hx Hl Hx' Hcnt. set (s1 := put_event p e s). set (s2 := set_object o x' s1).
  assert (Hsome : forall i, is_Some (mHolders s !! i) -> is_Some (<[h := l ++ [p]]> (mHolders s) !! i)).
  { intros i Hi. destruct (decide (i = h)) as [->|]; [by rewrite lookup_insert_eq|by rewrite lookup_insert_ne]. }
  constructor; cbn [heap objects mHolders s1 s2 set_holder set_object put_event set_heap]; auto.
  - intros q. pose proof (refs_set_holder h l (l ++ [p]) s2 q Hl) as H1. pose proof (refs_set_object o x x' s1 q Hx) as H2.
    specialize (Hc q). rewrite !cnt_nil in *. rewrite !cnt_app, Hcnt in *. change (refs s1) with (refs s) in H2. fold s2 in H2.
    assert (Href : ref_of q (set_holder h (l ++ [p]) s2) = if Pos.eq_dec p q then 2 else ref_of q s).
    { unfold ref_of, s2, s1. cbn. destruct (Pos.eq_dec p q) as [->|Hq]; [by rewrite lookup_insert_eq|by rewrite lookup_insert_ne]. }
    fold s1 s2. rewrite Href. rewrite !cnt_cons, !cnt_nil in *.
    assert (p = q -> ref_of q s = 0) by (intros <-; unfold ref_of; by rewrite Hp). destruct (Pos.eq_dec p q); intuition lia.
  - intros q e'. rewrite lookup_insert_Some. intros [[_ <-]|[_ Hq]]; [lia|eauto].
  - assert (Hkeep : forall q o' y, objects s !! o' = Some y -> q ∈ pointers y -> exists y', <[o := x']> (objects s) !! o' = Some y' /\ q ∈ pointers y').
    { intros q o' y Hy Hq. destruct (decide (o' = o)) as [->|]; [|exists y; by rewrite lookup_insert_ne].
      exists x'. rewrite lookup_insert_eq. split; [done|]. rewrite cnt_in, Hcnt. rewrite Hx in Hy. injection Hy as ->.
      apply cnt_in in Hq. pose proof (cnt_nonneg q [p]). lia. }
    intros q e'. rewrite lookup_insert_Some. unfold owned.
    change (objects (set_holder h (l ++ [p]) s2)) with (<[o := x']> (objects s)).
    intros [[<- <-]|[_ Hq]] Hd.
    + rewrite Hcb. exists x'. rewrite lookup_insert_eq. split; [done|]. rewrite cnt_in, Hcnt, cnt_cons, cnt_nil.
      pose proof (cnt_nonneg p (pointers x)). destruct (Pos.eq_dec p p); [lia|done].
    + specialize (Hown q e' Hq Hd). unfold owned in Hown. destruct (cb e') as [[o' c']|]; [|done]. destruct Hown as (y & Hy & Hyq). eauto.
  - intros o' y i. destruct (decide (o' = o)) as [->|Ho]; [|rewrite lookup_insert_ne by done; eauto].
    rewrite lookup_insert_eq. intros [= <-] Hi. rewrite Hx' in Hi. injection Hi as <-. apply Hsome. by eexists.
Qed.

Lemma multimap_insert_cnt k p l q : cnt q (map snd (multimap_insert k p l)) = cnt q [p] + cnt q (map snd l).
Proof.
  induction l as [|[k' p'] l IH]; cbn [multimap_insert]; [cbn [map snd]; rewrite cnt_nil; lia|]. destruct (_ <? _); cbn [map snd]; rewrite !cnt_cons, cnt_nil; [lia|].
  rewrite IH, cnt_cons, cnt_nil. lia.
Qed.

Lemma getEventHolder_some i h s : getEventHolder i s = Some h -> is_Some (mHolders s !! h).
Proof. unfold getEventHolder. destruct (mHolders s !! i) eqn:E; [|done]. intros [= <-]. by eexists. Qed.
Lemma getEventHolder_world s : wf s -> getEventHolder (-1) s = Some (-1).
Proof. intros Hwf. unfold getEventHolder. by destruct (wf_world _ _ Hwf) as [l ->]. Qed.

Lemma put_put p e e' s : put_event p e' (put_event p e s) = put_event p e' s.
Proof. unfold put_event, set_heap. cbn. by rewrite insert_insert_eq. Qed.
Lemma get_put p e s : get_event p (put_event p e s) = Done e.
Proof. unfold get_event. cbn. by rewrite lookup_insert_eq. Qed.

(** An object whose events the holder of the world runs: every object of the
    servers, none of which overrides [eventGetInstanceID]. *)
Definition on_world (x : EventableObject) : Prop :=
  (m_holder x = Some (-1) /\ m_event_Instanceid x = -1) \/ (m_holder x = None /\ instance x = -1).

(** The new event of [addEvent]: where it ends up. *)
Lemma mgr_addEvent_new o x c type time rep flags s : wf s -> objects s !! o = Some x ->
  let p := fresh (dom (heap s)) in
  exists h inst inst' l, mHolders s !! h = Some l /\ (on_world x -> h = -1 /\ inst' = -1 /\ inst = -1) /\
  mgr_addEvent o c type time rep flags s = Done
    (set_holder h (l ++ [p]) (set_object o (mkObject inst (multimap_insert type p (m_events x)) (Some h) (instance x))
       (put_event p (mkEvent (Some (o, c)) type (u16 flags) time time rep false inst' 2) s))).
Proof.
  intros Hwf Hx p.
  assert (Hh : exists i inst h inst' l, mHolders s !! h = Some l /\ (on_world x -> h = -1 /\ i = -1 /\ inst' = -1) /\
    (match m_holder x with Some h => (m_event_Instanceid x, Some h) | None => (instance x, getEventHolder (instance x) s) end) = (i, inst) /\
    (match inst with Some h => (i, Some h) | None => (-1, getEventHolder (-1) s) end) = (inst', Some h)).
  { unfold on_world. destruct (m_holder x) as [h|] eqn:Eh; [|destruct (getEventHolder (instance x) s) as [h|] eqn:Eg].
    - destruct (wf_holder _ _ Hwf o x h Hx Eh) as [l Hl]. exists (m_event_Instanceid x), (Some h), h, (m_event_Instanceid x), l.
      split_and!; [done|intros [[[= ->] ->]|[? _]]; done|done|done].
    - destruct (getEventHolder_some _ _ _ Eg) as [l Hl]. exists (instance x), (Some h), h, (instance x), l.
      split_and!; [done|intros [[? _]|[_ Hi]]; [done|]|done|done]. rewrite Hi in *. unfold getEventHolder in Eg. destruct (mHolders s !! (-1)); [|done]. by injection Eg as <-.
    - destruct (wf_world _ _ Hwf) as [l Hl]. exists (instance x), None, (-1), (-1), l. rewrite getEventHolder_world by done.
      split_and!; [done|intros [[? _]|[_ Hi]]; done|done|done]. }
  destruct Hh as (i & inst & h & inst' & l & Hl & Hworld & Ei & Eh).
  exists h, inst', i, l. split; [done|]. split; [done|].
  unfold mgr_addEvent, eventAddEvent. fold p. unfold get_object.
  change (objects (put_event p (new_event o c type time rep flags) s)) with (objects s). rewrite Hx. cbn [obind].
  change (getEventHolder (instance x) (put_event p (new_event o c type time rep flags) s)) with (getEventHolder (instance x) s). rewrite Ei.
  unfold incRef. rewrite get_put. cbn [obind new_event]. rewrite put_put.
  unfold set_instance. rewrite get_put. cbn [obind]. rewrite put_put, get_put. cbn [obind eventType].
  change (getEventHolder (-1) (put_event p _ s)) with (getEventHolder (-1) s). rewrite Eh.
  unfold addEvent, incRef, get_event. cbn. rewrite Hl, lookup_insert_eq. cbn. unfold set_holder, set_object, put_event, set_heap. cbn.
  by rewrite insert_insert_eq.
Qed.

Lemma good_add o c type time rep flags s : wf s -> good s (mgr_addEvent o c type time rep flags s).
Proof.
  intros Hwf. destruct (objects s !! o) as [x|] eqn:Hx.
  - destruct (mgr_addEvent_new o x c type time rep flags s Hwf Hx) as (h & inst & inst' & l & Hl & _ & ->).
    set (p := fresh (dom (heap s))). assert (Hp : heap s !! p = None) by apply not_elem_of_dom, is_fresh.
    split; [eapply link_new; eauto; intros q; apply multimap_insert_cnt|].
    intros i l' Hl'. cbn. destruct (decide (i = h)) as [->|Hi].
    + exists [p]. rewrite lookup_insert_eq. congruence.
    + exists []. by rewrite lookup_insert_ne, app_nil_r.
  - unfold mgr_addEvent, eventAddEvent, get_object. cbn. by rewrite Hx.
Qed.

(** *** Relocation *)
Lemma addEvent_ok h l p s : wf s -> mHolders s !! h = Some l -> 0 < cnt p (refs s) ->
  exists s', addEvent h p s = Done s' /\ wf s' /\ grows s s' /\ objects s' = objects s /\ is_Some (mHolders s' !! h) /\
    (forall q, 0 < cnt q (refs s) -> 0 < cnt q (refs s')).
Proof.
  intros Hwf Hl Hin. destruct (wf_lookup [] s p Hwf) as [e He]; [by rewrite cnt_nil|].
  destruct e as [c ty fl ms cur rep del inst r] eqn:Ee. unfold addEvent, incRef. rewrite Hl, (get_event_some _ _ _ He). cbn [obind].
  set (e' := mkEvent c ty fl ms cur rep del inst (r + 1)). set (s1 := put_event p e' s).
  exists (set_holder h (l ++ [p]) s1). split; [done|].
  assert (Hsame : same_tables s s1) by (eapply put_same; eauto).
  pose proof (fun q => refs_set_holder h l (l ++ [p]) s1 q Hl) as Hr. split; [|split; [|split; [done|split]]].
  - destruct Hwf as [Hc Hpos Hown Hh Hw]. constructor; cbn [heap mHolders objects set_holder]; auto.
    + intros q. specialize (Hr q). specialize (Hc q). rewrite cnt_app, cnt_cons, !cnt_nil in *. rewrite (same_refs _ _ Hsame) in Hr.
      assert (Href : ref_of q (set_holder h (l ++ [p]) s1) = ref_of q s + if Pos.eq_dec p q then 1 else 0).
      { unfold ref_of, s1. cbn. destruct (Pos.eq_dec p q) as [->|Hq]; [rewrite lookup_insert_eq, He; done|rewrite lookup_insert_ne by done; lia]. }
      lia.
    + intros q e1. cbn. rewrite lookup_insert_Some. intros [[_ <-]|[_ Hq]]; [|eauto]. cbn. specialize (Hpos p _ He). cbn in Hpos. lia.
    + intros q e1 Hq Hd. destruct (same_events _ _ Hsame q e1 Hq) as (e0 & Hq0 & Hcb & _ & Hd0).
      specialize (Hown q e0 Hq0 (Hd0 Hd)). unfold owned in *. rewrite Hcb. done.
    + intros o x i Ho Hx. cbn. destruct (decide (i = h)) as [->|]; [by rewrite lookup_insert_eq|rewrite lookup_insert_ne by done; eauto].
    + cbn. destruct (decide (-1 = h)) as [<-|]; [by rewrite lookup_insert_eq|by rewrite lookup_insert_ne].
  - intros i l' Hl'. cbn. destruct (decide (i = h)) as [->|Hi].
    + exists [p]. rewrite lookup_insert_eq. congruence.
    + exists []. by rewrite lookup_insert_ne, app_nil_r.
  - cbn. by rewrite lookup_insert_eq.
  - intros q Hq. specialize (Hr q). rewrite cnt_app, (same_refs _ _ Hsame) in Hr. pose proof (cnt_nonneg q [p]). lia.
Qed.
Lemma addObject_ok h ps : forall s, wf s -> is_Some (mHolders s !! h) -> (forall q, q ∈ ps -> 0 < cnt q (refs s)) ->
  exists s', addObject h ps s = Done s' /\ wf s' /\ grows s s' /\ objects s' = objects s /\ is_Some (mHolders s' !! h).
Proof.
  induction ps as [|p ps IH]; intros s Hwf [l Hl] Hin; [exists s; split_and!; eauto; reflexivity|]. cbn [addObject].
  assert (Hp : 0 < cnt p (refs s)) by (apply Hin; left).
  destruct (wf_lookup [] s p Hwf) as [e He]; [by rewrite cnt_nil|]. rewrite (get_event_some _ _ _ He). cbn [obind].
  destruct (_ || _); [apply IH; eauto; intros q Hq; apply Hin; by right|].
  destruct (addEvent_ok h l p s Hwf Hl Hp) as (s1 & -> & Hwf1 & Hg1 & Ho1 & Hh1 & Hin1). cbn [obind].
  destruct (wf_lookup [] s1 p Hwf1) as [e1 He1]; [rewrite cnt_nil; auto|].
  unfold set_instance at 1. rewrite (get_event_some _ _ _ He1). cbn [obind]. destruct e1 as [c ty fl ms cur rep del inst r].
  destruct (put_ok [] p _ (mkEvent c ty fl ms cur rep del h r) s1 Hwf1 He1) as [Hwf2 Hsame2]; [done..|].
  destruct (IH _ Hwf2) as (s3 & E & Hwf3 & Hg3 & Ho3 & Hh3); [done| |].
  { intros q Hq. rewrite (same_refs _ _ Hsame2). apply Hin1, Hin. by right. }
  exists s3. split; [done|]. split; [done|]. split; [|split; [by etrans; [exact Ho3|exact Ho1]|done]].
  etrans; [done|]. etrans; [|done]. by apply grows_same.
Qed.
Lemma good_relocate o s : wf s -> good s (eventRelocate o s).
Proof.
  intros Hwf. apply good_call. intros x Hx. destruct (bool_decide _); [by split|].
  assert (Hh : exists h, (match getEventHolder (instance x) s with Some h => Some h | None => getEventHolder (-1) s end) = Some h /\ is_Some (mHolders s !! h)).
  { destruct (getEventHolder (instance x) s) as [h|] eqn:Eg; [exists h; split; [done|by eapply getEventHolder_some]|].
    exists (-1). split; [by apply getEventHolder_world|by eapply wf_world]. }
  destruct Hh as (h & -> & Hh).
  destruct (addObject_ok h (map snd (m_events x)) s Hwf Hh) as (s' & -> & Hwf' & Hg & Ho & Hh').
  { intros q Hq%cnt_in. pose proof (refs_object o x s q Hx). unfold pointers in *. lia. }
  split; [|by etrans; [exact Hg|apply grows_same]]. eapply set_object_ok; [exact Hwf'|by rewrite Ho|done|by left|]. cbn. by intros i [= <-].
Qed.

Lemma run_call_good c s : wf s -> good s (run_call c s).
Proof.
  intros Hwf. destruct c; cbn [run_call];
    auto using good_add, good_remove, good_remove_pointer, good_relocate, good_create, good_destroy.
  all: apply good_modify, Hwf.
Qed.
Lemma run_calls_good cs : forall s, wf s -> good s (run_calls cs s).
Proof.
  induction cs as [|c cs IH]; intros s Hwf; [by split|]. cbn [run_calls].
  pose proof (run_call_good c s Hwf) as Hc. destruct (run_call c s) as [s1|[]|]; cbn in *; try done.
  destruct Hc as [Hwf1 Hg1]. specialize (IH s1 Hwf1). destruct (run_calls cs s1) as [s2|[]|]; cbn in *; try done.
  destruct IH. split; [done|by etrans].
Qed.

(** ** What a call leaves alone *)
Lemma obind_done {A B} (m : Outcome A) (k : A -> Outcome B) b : obind m k = Done b -> exists a, m = Done a /\ k a = Done b.
Proof. destruct m; cbn; [eauto|done..]. Qed.

Definition ptrs o s : list Addr := match objects s !! o with Some x => pointers x | None => [] end.

(** Only the events [ps] change. *)
Record local (ps : list Addr) s s' : Prop := {
  local_objects : objects s' = objects s;
  local_holders : mHolders s' = mHolders s;
  local_heap q : q ∉ ps -> heap s' !! q = heap s !! q
}.
Lemma local_trans ps1 ps2 s1 s2 s3 : local ps1 s1 s2 -> local ps2 s2 s3 -> local (ps1 ++ ps2) s1 s3.
Proof.
  intros [o1 h1 e1] [o2 h2 e2]. constructor; [congruence..|]. intros q Hq. rewrite elem_of_app in Hq.
  rewrite e2, e1 by tauto. done.
Qed.
Lemma local_put p e s : local [p] s (put_event p e s).
Proof. constructor; [done..|]. intros q Hq. rewrite list_elem_of_singleton in Hq. cbn. by rewrite lookup_insert_ne. Qed.
Lemma decRef_local p s s' : decRef p s = Done s' -> local [p] s s'.
Proof.
  unfold decRef. intros (e & _ & H)%obind_done. destruct e as [c ty fl ms cur rep del inst r].
  destruct (_ <=? _); injection H as <-; [|apply local_put].
  constructor; [done..|]. intros q Hq. rewrite list_elem_of_singleton in Hq. cbn. by rewrite lookup_delete_ne.
Qed.
Lemma decRefs_local ps : forall s s', decRefs ps s = Done s' -> local ps s s'.
Proof.
  induction ps as [|p ps IH]; cbn [decRefs]; intros s s'; [by intros [= <-]|].
  intros (s1 & H1%decRef_local & H2%IH)%obind_done. exact (local_trans [p] ps _ _ _ H1 H2).
Qed.
Lemma modify_local f ps : forall s s', modify_events f ps s = Done s' -> local ps s s'.
Proof.
  induction ps as [|p ps IH]; cbn [modify_events]; intros s s'; [by intros [= <-]|].
  intros (e & _ & H2%IH)%obind_done. exact (local_trans [p] ps _ _ _ (local_put _ _ _) H2).
Qed.

Definition target (c : Call Code) : Addr :=
  match c with
  | CallAdd o _ _ _ _ _ | CallRemove o _ | CallRemovePointer o _ | CallTimeLeft o _ _ _ | CallTime o _ _
  | CallTimeAndTimeLeft o _ _ | CallRelocate o | CallCreate o _ | CallDestroy o => o
  end.
Definition is_relocate (c : Call Code) : bool := match c with CallRelocate _ => true | _ => false end.
Definition adds (c : Call Code) : nat := match c with CallAdd _ _ _ _ _ _ => 1 | _ => 0 end.

(** A call on [o] changes events of [o], and new ones, only. *)
Record call_frame (o : Addr) (k : nat) s s' : Prop := {
  frame_objects o' : o' <> o -> objects s' !! o' = objects s !! o';
  frame_heap p : is_Some (heap s !! p) -> p ∉ ptrs o s -> heap s' !! p = heap s !! p;
  frame_ptrs p : p ∈ ptrs o s' -> p ∈ ptrs o s \/ heap s !! p = None;
  frame_holder i l : mHolders s !! i = Some l -> exists ext, mHolders s' !! i = Some (l ++ ext) /\ (length ext <= k)%nat /\
    forall p, p ∈ ext -> p ∈ ptrs o s \/ heap s !! p = None
}.

Lemma frame_same_holders o s s' : mHolders s' = mHolders s -> forall i l, mHolders s !! i = Some l ->
  exists ext, mHolders s' !! i = Some (l ++ ext) /\ (length ext <= 0)%nat /\ forall p, p ∈ ext -> p ∈ ptrs o s \/ heap s !! p = None.
Proof. intros -> i l Hl. exists []. rewrite app_nil_r. split_and!; [done|done|by intros q ?%elem_of_nil]. Qed.

(** The events [ps] of [o] change, then its entry becomes [x']. *)
Lemma local_frame o x x' ps s s1 : objects s !! o = Some x -> local ps s s1 ->
  (forall p, p ∈ ps -> p ∈ pointers x) -> (forall p, p ∈ pointers x' -> p ∈ pointers x) -> call_frame o 0 s (set_object o x' s1).
Proof.
  intros Hx [Ho Hh He] Hps Hx'. assert (Hp : ptrs o s = pointers x) by (unfold ptrs; by rewrite Hx).
  constructor; cbn; rewrite ?Hp.
  - intros o' Ho'. by rewrite lookup_insert_ne, Ho.
  - intros p _ Hpp. apply He. auto.
  - intros p. unfold ptrs. cbn. rewrite lookup_insert_eq. auto.
  - rewrite <- Hp. by apply frame_same_holders.
Qed.
Lemma local_frame_id o x ps s s1 : objects s !! o = Some x -> local ps s s1 -> (forall p, p ∈ ps -> p ∈ pointers x) -> call_frame o 0 s s1.
Proof.
  intros Hx Hl Hps. assert (E : s1 = set_object o x s1); [|rewrite E; by eapply local_frame].
  destruct Hl as [Ho _ _]. destruct s1 as [h ob m]. unfold set_object. cbn in *. subst. by rewrite insert_id.
Qed.
Lemma filter_pointers (f : Z * Addr -> bool) x p : p ∈ map snd (List.filter f (m_events x)) -> p ∈ pointers x.
Proof. unfold pointers. rewrite !cnt_in, (filter_split f (m_events x) p). pose proof (cnt_nonneg p (map snd (List.filter (fun en => negb (f en)) (m_events x)))). lia. Qed.

Lemma get_object_done o s x : get_object o s = Done x -> objects s !! o = Some x.
Proof. unfold get_object. destruct (objects s !! o); [|done]. by intros [= ->]. Qed.
Ltac on_object H x Hx := apply obind_done in H as (x & Hx%get_object_done & H).

Lemma modify_frame ms cur o type s s' : eventModify (set_times ms cur) o type s = Done s' -> call_frame o 0 s s'.
Proof.
  unfold eventModify. intros H. on_object H x Hx. apply modify_local in H. eapply local_frame_id; [done..|apply filter_pointers].
Qed.
Lemma remove_frame o type s s' : eventRemoveEvents o type s = Done s' -> call_frame o 0 s s'.
Proof.
  unfold eventRemoveEvents. intros H. on_object H x Hx. destruct (_ =? _); apply obind_done in H as (s1 & H1%decRefs_local & [= <-]).
  - eapply local_frame; [done..|]. by intros p ?%elem_of_nil.
  - eapply local_frame; [done|done|apply filter_pointers|]. intros p. apply filter_pointers.
Qed.
Lemma remove_pointer_frame o ev s s' : eventRemoveByPointer o ev s = Done s' -> call_frame o 0 s s'.
Proof.
  unfold eventRemoveByPointer. intros H. on_object H x Hx. apply obind_done in H as (e & _ & H).
  destruct (existsb _ _) eqn:Ex.
  - pose proof (fun q => erase_entry_cnt _ _ _ q Ex) as Hcnt. apply obind_done in H as (s1 & H1%decRef_local & [= <-]).
    eapply local_frame; [done..| |]; intros p; unfold pointers; cbn [with_events m_events].
    + rewrite list_elem_of_singleton. intros ->. rewrite cnt_in, Hcnt, cnt_cons, cnt_nil. destruct (Pos.eq_dec ev ev); [|done].
      pose proof (cnt_nonneg ev (map snd (erase_entry (eventType e) ev (m_events x)))). lia.
    + rewrite !cnt_in, Hcnt. pose proof (cnt_nonneg p [ev]). lia.
  - injection H as <-. apply (local_frame_id o x [] s s Hx); [done|by intros p ?%elem_of_nil].
Qed.
Lemma destroy_frame o s s' : destroy o s = Done s' -> call_frame o 0 s s'.
Proof.
  unfold destroy. intros H. on_object H x Hx. apply obind_done in H as (s1 & H1%decRefs_local & [= <-]).
  destruct H1 as [Ho Hh He]. assert (Hp : ptrs o s = pointers x) by (unfold ptrs; by rewrite Hx). constructor; cbn; rewrite ?Hp.
  - intros o' Ho'. by rewrite lookup_delete_ne, Ho.
  - intros p _ Hpp. by apply He.
  - intros p. unfold ptrs. cbn. rewrite lookup_delete_eq. by intros ?%elem_of_nil.
  - rewrite <- Hp. by apply frame_same_holders.
Qed.
Lemma create_frame o inst s s' : create o inst s = Done s' -> call_frame o 0 s s'.
Proof.
  unfold create. destruct (objects s !! o) eqn:Ho; [done|]. intros [= <-]. constructor; cbn.
  - intros o' Ho'. by rewrite lookup_insert_ne.
  - done.
  - intros p. unfold ptrs. cbn. rewrite lookup_insert_eq. by intros ?%elem_of_nil.
  - by apply frame_same_holders.
Qed.
Lemma add_frame o c type time rep flags s s' : wf s -> mgr_addEvent o c type time rep flags s = Done s' -> call_frame o 1 s s'.
Proof.
  intros Hwf. destruct (objects s !! o) as [x|] eqn:Hx.
  2:{ unfold mgr_addEvent, eventAddEvent, get_object. cbn. by rewrite Hx. }
  destruct (mgr_addEvent_new o x c type time rep flags s Hwf Hx) as (h & inst & inst' & l & Hl & _ & ->). intros [= <-].
  set (p := fresh (dom (heap s))). assert (Hp : heap s !! p = None) by apply not_elem_of_dom, is_fresh.
  constructor; cbn.
  - intros o' Ho'. by rewrite lookup_insert_ne.
  - intros q [e Hq] _. rewrite lookup_insert_ne; [done|]. intros ->. congruence.
  - intros q. unfold ptrs. cbn. rewrite lookup_insert_eq, Hx. unfold pointers. cbn.
    rewrite cnt_in, multimap_insert_cnt, cnt_in, cnt_cons, cnt_nil. destruct (Pos.eq_dec p q) as [<-|]; [by right|left; lia].
  - intros i l' Hl'. destruct (decide (i = h)) as [->|Hi].
    + exists [p]. rewrite lookup_insert_eq. split_and!; [congruence|done|]. intros q ->%list_elem_of_singleton. by right.
    + exists []. rewrite lookup_insert_ne, app_nil_r by done. split_and!; [done|cbn; lia|by intros q ?%elem_of_nil].
Qed.
Lemma addObject_frame h ps : forall s s', addObject h ps s = Done s' ->
  objects s' = objects s /\ (forall q, q ∉ ps -> heap s' !! q = heap s !! q) /\
  forall i l, mHolders s !! i = Some l -> exists ext, mHolders s' !! i = Some (l ++ ext) /\ (length ext <= length ps)%nat /\ forall q, q ∈ ext -> q ∈ ps.
Proof.
  induction ps as [|p ps IH]; cbn [addObject]; intros s s'.
  { intros [= <-]. split_and!; [done..|]. intros i l Hl. exists []. rewrite app_nil_r. by split_and!. }
  intros (e & _ & H)%obind_done. destruct (_ || _).
  { apply IH in H as (Ho & He & Hh). split_and!; [done|intros q [_ Hq]%not_elem_of_cons; by apply He|].
    intros i l Hl. destruct (Hh i l Hl) as (ext & E & Hlen & Hin). exists ext. split_and!; [done|cbn; lia|]. intros q Hq. right. auto. }
  apply obind_done in H as (s1 & H1 & H). apply obind_done in H as (s2 & H2 & (Ho & He & Hh)%IH).
  unfold addEvent in H1. destruct (mHolders s !! h) as [l0|] eqn:Hl0; [|done]. apply obind_done in H1 as (s0 & H0 & [= <-]).
  unfold incRef in H0. apply obind_done in H0 as (e0 & _ & H0). destruct e0. injection H0 as <-.
  unfold set_instance in H2. apply obind_done in H2 as (e2 & _ & H2). destruct e2. injection H2 as <-. cbn in *.
  split_and!; [done|..].
  - intros q [Hqp Hq]%not_elem_of_cons. rewrite He by done. cbn. by rewrite !lookup_insert_ne.
  - intros i l Hl. destruct (decide (i = h)) as [->|Hi].
    + destruct (Hh h (l0 ++ [p])) as (ext & E & Hlen & Hin); [by rewrite lookup_insert_eq|].
      exists (p :: ext). rewrite E. split_and!; [|cbn; lia|].
      * rewrite Hl0 in Hl. injection Hl as ->. by rewrite <- app_assoc.
      * intros q [->|Hq]%elem_of_cons; [left|right; auto].
    + destruct (Hh i l) as (ext & E & Hlen & Hin); [by rewrite lookup_insert_ne|].
      exists ext. split_and!; [done|lia|]. intros q Hq. right. auto.
Qed.
Lemma relocate_frame o s s' : eventRelocate o s = Done s' -> exists k, call_frame o k s s'.
Proof.
  unfold eventRelocate. intros H. on_object H x Hx. destruct (bool_decide _).
  { injection H as <-. exists 0%nat. apply (local_frame_id o x [] s s Hx); [done|by intros p ?%elem_of_nil]. }
  destruct (match getEventHolder _ _ with Some _ => _ | None => _ end) as [h|]; [|done].
  apply obind_done in H as (s1 & (Ho & He & Hh)%addObject_frame & [= <-]). exists (length (m_events x)).
  assert (Hp : ptrs o s = pointers x) by (unfold ptrs; by rewrite Hx). constructor; cbn; rewrite ?Hp.
  - intros o' Ho'. by rewrite lookup_insert_ne, Ho.
  - intros p _ Hpp. by apply He.
  - intros p. unfold ptrs. cbn. rewrite lookup_insert_eq. by left.
  - intros i l Hl. destruct (Hh i l Hl) as (ext & E & Hlen & Hin). rewrite length_map in Hlen. exists ext. split_and!; [done..|]. by left; auto.
Qed.
Lemma run_call_frame c s s' : wf s -> run_call c s = Done s' -> exists k, call_frame (target c) k s s' /\ (is_relocate c = false -> k = adds c).
Proof.
  intros Hwf. destruct c; cbn; intros H;
    [exists 1%nat; eapply add_frame in H|exists 0%nat; apply remove_frame in H|exists 0%nat; apply remove_pointer_frame in H
    |exists 0%nat; apply modify_frame in H..|apply relocate_frame in H as [k H]; by exists k
    |exists 0%nat; eapply create_frame in H|exists 0%nat; apply destroy_frame in H]; auto.
Qed.

(** [p] is an event of [o] only, and stays as it is under calls on others. *)
Definition quiet p (e : TimedEvent Code) o s : Prop := heap s !! p = Some e /\ forall o', o' <> o -> p ∉ ptrs o' s.
Definition appends (P : Addr -> Prop) (k : nat) s s' : Prop :=
  forall i l, mHolders s !! i = Some l -> exists ext, mHolders s' !! i = Some (l ++ ext) /\ (length ext <= k)%nat /\ forall p, p ∈ ext -> P p.
Lemma appends_same P k s s' : mHolders s' = mHolders s -> appends P k s s'.
Proof. intros E i l Hl. exists []. rewrite E, app_nil_r. split_and!; [done|cbn; lia|by intros q ?%elem_of_nil]. Qed.
Lemma appends_trans P k1 k2 s1 s2 s3 : appends P k1 s1 s2 -> appends P k2 s2 s3 -> appends P (k1 + k2) s1 s3.
Proof.
  intros H12 H23 i l Hl. destruct (H12 i l Hl) as (e1 & H1 & L1 & P1), (H23 i _ H1) as (e2 & H2 & L2 & P2).
  exists (e1 ++ e2). rewrite length_app, app_assoc. split_and!; [done|lia|]. intros q [|]%elem_of_app; auto.
Qed.

Lemma call_quiet o' k s s' p e o : call_frame o' k s s' -> o' <> o -> quiet p e o s -> quiet p e o s' /\ appends (fun q => q <> p) k s s'.
Proof.
  intros [Ho Hh Hp Hl] Hne [He Hq]. split; [split|].
  - rewrite Hh; [done|by eexists|auto].
  - intros o2 Ho2. destruct (decide (o2 = o')) as [->|Hne2].
    + intros [?|?]%Hp; [by apply (Hq o')|congruence].
    + unfold ptrs. rewrite Ho by done. apply Hq, Ho2.
  - intros i l Hi. destruct (Hl i l Hi) as (ext & E & Hlen & Hin). exists ext. split_and!; [done..|].
    intros q Hq' ->. destruct (Hin p Hq') as [?|?]; [by apply (Hq o')|congruence].
Qed.
Lemma run_calls_quiet p e o cs : forall s s', Forall (fun c => target c <> o) cs -> wf s -> run_calls cs s = Done s' ->
  quiet p e o s -> quiet p e o s' /\ exists k, appends (fun q => q <> p) k s s'.
Proof.
  induction cs as [|c cs IH]; cbn [run_calls]; intros s s' Hcs Hwf; [intros [= <-] Hq; split; [done|exists 0%nat; by apply appends_same]|].
  apply Forall_cons in Hcs as [Hc Hcs]. intros (s1 & H1 & H2)%obind_done Hq.
  destruct (run_call_frame c s s1 Hwf H1) as (k & Hf & _). destruct (call_quiet _ _ _ _ _ _ _ Hf Hc Hq) as [Hq1 Ha1].
  pose proof (run_call_good c s Hwf) as Hg. rewrite H1 in Hg. destruct Hg as [Hwf1 _].
  destruct (IH _ _ Hcs Hwf1 H2 Hq1) as [Hq2 [k2 Ha2]]. split; [done|]. exists (k + k2)%nat. by eapply appends_trans.
Qed.

Definition total_adds (cs : list (Call Code)) : nat := list_sum (map adds cs).
Lemma run_calls_adds cs : forall s s', Forall (fun c => is_relocate c = false) cs -> wf s -> run_calls cs s = Done s' ->
  appends (fun _ => True) (total_adds cs) s s'.
Proof.
  induction cs as [|c cs IH]; cbn [run_calls]; intros s s' Hcs Hwf; [intros [= <-]; by apply appends_same|].
  apply Forall_cons in Hcs as [Hc Hcs]. intros (s1 & H1 & H2)%obind_done.
  destruct (run_call_frame c s s1 Hwf H1) as (k & Hf & Hk). rewrite (Hk Hc) in Hf.
  pose proof (run_call_good c s Hwf) as Hg. rewrite H1 in Hg. destruct Hg as [Hwf1 _].
  unfold total_adds. cbn. eapply appends_trans; [|by apply IH].
  intros i l Hl. destruct (frame_holder _ _ _ _ Hf i l Hl) as (ext & E & Hlen & _). by exists ext.
Qed.

(** ** The pass *)
Section Pass.
Context {World : Type} (execute : Addr -> Code -> Timers Code -> World -> list (Call Code) * World).
Context (mInstanceId time_difference : Z).
Abbreviation visit := (visit execute mInstanceId time_difference).
Abbreviation update_from := (update_from execute mInstanceId time_difference).
Implicit Types w : World.

(** One turn keeps the books: a dropped entry is in debt until it is erased. *)
Definition visit_good p l (r : Outcome (Visit (World := World))) : Prop :=
  match r with
  | Done v => wf_but (if keep v then [] else [p]) (after v) /\ exists ext, mHolders (after v) !! mInstanceId = Some (l ++ ext)
  | Faulty BadCall => True
  | _ => False
  end.

Lemma drop_good p l s w hit : wf s -> p ∈ l -> (exists ext, mHolders s !! mInstanceId = Some (l ++ ext)) ->
  visit_good p l (do s <- decRef p s; Done (mkVisit false hit s w)).
Proof.
  intros Hwf Hp [ext Hl]. destruct (decRef_ok [] s p Hwf) as (s' & -> & Hwf' & Hsame & _).
  - rewrite cnt_nil. pose proof (refs_holder _ _ s p Hl) as Hr. rewrite cnt_app in Hr. apply cnt_in in Hp. pose proof (cnt_nonneg p ext). lia.
  - cbn. split; [done|]. exists ext. by rewrite (same_holders _ _ Hsame).
Qed.

Lemma run_cb_good o c s w : wf s -> (exists x, objects s !! o = Some x) ->
  match run_cb execute o c s w with Done (s', _) => wf s' /\ grows s s' | Faulty BadCall => True | _ => False end.
Proof.
  intros Hwf [x Hx]. unfold run_cb. rewrite Hx. destruct (execute o c s w) as [calls w'].
  pose proof (run_calls_good calls s Hwf) as Hg. by destruct (run_calls calls s) as [s'|[]|].
Qed.

Lemma visit_ok p l s w : wf s -> mHolders s !! mInstanceId = Some l -> p ∈ l -> visit_good p l (visit p s w).
Proof.
  intros Hwf Hl Hp.
  assert (Hcount : forall s', grows s s' -> cnt p [] < cnt p (refs s')).
  { intros s' Hg. destruct (Hg _ _ Hl) as [ext Hl']. rewrite cnt_nil. pose proof (refs_holder _ _ _ p Hl') as Hr.
    rewrite cnt_app in Hr. apply cnt_in in Hp. pose proof (cnt_nonneg p ext). lia. }
  destruct (wf_lookup [] s p Hwf (Hcount s (reflexivity s))) as [e He]. unfold Timers.visit. rewrite (get_event_some _ _ _ He). cbn [obind].
  assert (Hl0 : exists ext, mHolders s !! mInstanceId = Some (l ++ ext)) by (exists []; by rewrite app_nil_r).
  destruct (negb _ || _ || _) eqn:Estale; [by apply drop_good|].
  destruct (currTime e <=? time_difference) eqn:Edue.
  - destruct (cb e) as [[o c]|] eqn:Ecb; [|by apply drop_good].
    assert (Hown : exists x, objects s !! o = Some x).
    { apply orb_false_iff in Estale as [[_ Hd]%orb_false_iff _]. pose proof (wf_owned _ _ Hwf p e He Hd) as Ho.
      unfold owned in Ho. rewrite Ecb in Ho. destruct Ho as (x & Hx & _). by exists x. }
    clear Estale. pose proof (run_cb_good o c s w Hwf Hown) as Hcb. destruct (run_cb execute o c s w) as [[s1 w1]|[]|]; try done. cbn [obind].
    destruct Hcb as [Hwf1 Hg]. pose proof (Hg _ _ Hl) as Hl1. destruct (negb _); [by apply drop_good|].
    destruct (wf_lookup [] s1 p Hwf1 (Hcount s1 Hg)) as [e1 He1]. rewrite (get_event_some _ _ _ He1). cbn [obind].
    destruct e1 as [c1 ty fl ms cur rep del inst r]. destruct (_ || _).
    + apply drop_good; [|done|done]. by eapply put_ok; eauto.
    + split; [|done]. by eapply put_ok; eauto.
  - destruct e as [c ty fl ms cur rep del inst r]. split; [|done]. by eapply put_ok; eauto.
Qed.

Lemma holder_list_some s l : mHolders s !! mInstanceId = Some l -> holder_list mInstanceId s = l.
Proof. unfold holder_list. by intros ->. Qed.

(** The state after a turn, with the entry erased or kept. *)
Lemma turn_ok n p l s w v : wf s -> mHolders s !! mInstanceId = Some l -> l !! n = Some p -> visit p s w = Done v ->
  let s' := if keep v then after v else erase_at mInstanceId n (after v) in
  wf s' /\ exists ext, mHolders s' !! mInstanceId = Some ((if keep v then l else firstn n l ++ skipn (S n) l) ++ ext).
Proof.
  intros Hwf Hl Hn Ev. pose proof (visit_ok p l s w Hwf Hl (list_elem_of_lookup_2 _ _ _ Hn)) as Hg. rewrite Ev in Hg.
  destruct Hg as [Hwf' [ext Hl']]. cbn. destruct (keep v); [by split; [|exists ext]|].
  unfold erase_at. rewrite (holder_list_some _ _ Hl'). pose proof (lookup_lt_Some _ _ _ Hn) as Hlt.
  assert (Hn' : (l ++ ext) !! n = Some p) by by apply lookup_app_l_Some.
  split.
  - eapply set_holder_ok; [exact Hwf'|exact Hl'|]. intros q. rewrite (cnt_pair_lookup q _ _ _ Hn'), cnt_nil. lia.
  - exists ext. cbn. rewrite lookup_insert_eq, take_app_le, drop_app_le, app_assoc by lia. done.
Qed.

Definition safe {A} (r : Outcome (A * Timers Code * World)) : Prop :=
  match r with Done (_, s', _) => wf s' /\ is_Some (mHolders s' !! mInstanceId) | Faulty f => f = BadCall | OutOfFuel => True end.
Lemma update_from_safe fuel : forall n s w, wf s -> is_Some (mHolders s !! mInstanceId) -> safe (update_from fuel n s w).
Proof.
  induction fuel as [|fuel IH]; intros n s w Hwf [l Hl]; [done|]. cbn [Timers.update_from]. rewrite (holder_list_some _ _ Hl).
  destruct (l !! n) as [p|] eqn:Hn; [|by split; [|exists l]].
  pose proof (visit_ok p l s w Hwf Hl (list_elem_of_lookup_2 _ _ _ Hn)) as Hg.
  destruct (visit p s w) as [v|[]|] eqn:Ev; try done. cbn [obind].
  destruct (turn_ok n p l s w v Hwf Hl Hn Ev) as [Hwf' [ext Hl']].
  destruct (Nat.eqb _ _); [by split; [|eexists]|].
  specialize (IH (if keep v then S n else n) _ (world v) Hwf' ltac:(by eexists)).
  by destruct (update_from fuel _ _ _) as [[[hits s2] w2]|[]|].
Qed.

(** *** Termination *)
Section Termination.
Context (budget : World -> nat).
Context (Hbudget : forall o c s w, let '(calls, w') := execute o c s w in
  Forall (fun c => is_relocate c = false) calls /\ (total_adds calls + budget w' <= budget w)%nat).

Lemma run_cb_adds o c s w s' w' : wf s -> run_cb execute o c s w = Done (s', w') ->
  exists k, appends (fun _ => True) k s s' /\ (k + budget w' <= budget w)%nat.
Proof.
  intros Hwf. unfold run_cb. destruct (objects s !! o); [|done]. specialize (Hbudget o c s w).
  destruct (execute o c s w) as [calls w1], Hbudget as [Hrel Hle]. intros (s1 & H1 & [= <- <-])%obind_done.
  exists (total_adds calls). split; [by apply run_calls_adds|done].
Qed.

(** What [visit] does besides its callback. *)
Lemma visit_frame p s w v : visit p s w = Done v ->
  (local [p] s (after v) /\ world v = w) \/
  exists e o c s1 w1, heap s !! p = Some e /\ cb e = Some (o, c) /\ run_cb execute o c s w = Done (s1, w1) /\ local [p] s1 (after v) /\ world v = w1.
Proof.
  unfold Timers.visit. intros (e & He & H)%obind_done.
  assert (He' : heap s !! p = Some e) by (unfold get_event in He; destruct (heap s !! p); [congruence|done]).
  destruct (_ || _); [left; apply obind_done in H as (s1 & H1%decRef_local & [= <-]); done|].
  destruct (_ <=? _).
  - destruct (cb e) as [[o c]|] eqn:Ecb; [|left; apply obind_done in H as (s1 & H1%decRef_local & [= <-]); done].
    apply obind_done in H as ([s1 w1] & Hcb & H). right. exists e, o, c, s1, w1. do 3 (split; [done|]).
    destruct (negb (Z.land _ _ =? 0)); [apply obind_done in H as (s2 & H1%decRef_local & [= <-]); done|].
    apply obind_done in H as (e1 & _ & H). destruct e1. destruct (_ || _); [|injection H as <-; split; [apply local_put|done]].
    apply obind_done in H as (s2 & H1%decRef_local & [= <-]). split; [|done]. constructor; [apply H1|apply H1|].
    intros q Hq. etrans; [exact (local_heap _ _ _ H1 q Hq)|exact (local_heap _ _ _ (local_put p _ s1) q Hq)].
  - left. destruct e. injection H as <-. split; [apply local_put|done].
Qed.

Lemma visit_adds p s w v l : wf s -> visit p s w = Done v -> mHolders s !! mInstanceId = Some l ->
  exists ext, mHolders (after v) !! mInstanceId = Some (l ++ ext) /\ (length ext + budget (world v) <= budget w)%nat.
Proof.
  intros Hwf Hv Hl. destruct (visit_frame _ _ _ _ Hv) as [[[_ Hh _] Hw]|(e & o & c & s1 & w1 & _ & _ & Hcb & [_ Hh _] & Hw)].
  - exists []. rewrite Hh, Hw, app_nil_r. split; [done|cbn; lia].
  - destruct (run_cb_adds _ _ _ _ _ _ Hwf Hcb) as (k & Ha & Hk). destruct (Ha _ _ Hl) as (ext & E & Hlen & _).
    exists ext. rewrite Hh, Hw. split; [done|lia].
Qed.

Lemma update_from_fuel fuel : forall n s w l, wf s -> mHolders s !! mInstanceId = Some l -> (n <= length l)%nat ->
  (length l - n + budget w < fuel)%nat -> update_from fuel n s w <> OutOfFuel.
Proof.
  induction fuel as [|fuel IH]; intros n s w l Hwf Hl Hn Hf; [lia|]. cbn [Timers.update_from]. rewrite (holder_list_some _ _ Hl).
  destruct (l !! n) as [p|] eqn:Hp; [|done]. pose proof (lookup_lt_Some _ _ _ Hp) as Hlt.
  pose proof (visit_ok p l s w Hwf Hl (list_elem_of_lookup_2 _ _ _ Hp)) as Hg.
  destruct (visit p s w) as [v|f|] eqn:Ev; [|done|done]. cbn [obind].
  destruct (turn_ok n p l s w v Hwf Hl Hp Ev) as [Hwf' [ext Hl']].
  destruct (visit_adds p s w v l Hwf Ev Hl) as (ext' & El & Hadd).
  assert (Hext : ext = ext').
  { destruct (keep v); [rewrite El in Hl'; injection Hl' as Hl'%app_inv_head; done|].
    unfold erase_at in Hl'. rewrite (holder_list_some _ _ El) in Hl'. cbn in Hl'. rewrite lookup_insert_eq in Hl'.
    rewrite take_app_le, drop_app_le, app_assoc in Hl' by lia. injection Hl' as Hl'%app_inv_head. done. }
  subst ext'. destruct (Nat.eqb _ _); [done|].
  assert (Hrec : update_from fuel (if keep v then S n else n) (if keep v then after v else erase_at mInstanceId n (after v)) (world v) <> OutOfFuel).
  { eapply IH; [done|exact Hl'|..]; destruct (keep v); rewrite ?length_app, ?length_take, ?length_drop; lia. }
  by destruct (update_from fuel _ _ _) as [[[hits s2] w2]|f|].
Qed.
End Termination.

(** *** Firing *)
Section Firing.
Context (p o : Addr) (Hcalls : forall o' c s w, Forall (fun c => target c <> o) (fst (execute o' c s w))).

Lemma local_quiet q e s s' : local [q] s s' -> q <> p -> quiet p e o s -> quiet p e o s'.
Proof.
  intros [Ho _ He] Hq [Hp Hother]. split; [by rewrite He by (rewrite list_elem_of_singleton; congruence)|].
  intros o' Ho'. unfold ptrs. rewrite Ho. by apply Hother.
Qed.
Lemma visit_quiet q e s w v : wf s -> visit q s w = Done v -> q <> p -> quiet p e o s ->
  quiet p e o (after v) /\ exists k, appends (fun q => q <> p) k s (after v).
Proof.
  intros Hwf Hv Hq Hquiet. destruct (visit_frame _ _ _ _ Hv) as [[Hl _]|(eq & o' & c & s1 & w1 & _ & _ & Hcb & Hl & _)].
  - split; [by eapply local_quiet|]. exists 0%nat. by apply appends_same, (local_holders _ _ _ Hl).
  - unfold run_cb in Hcb. destruct (objects s !! o'); [|done]. specialize (Hcalls o' c s w). destruct (execute o' c s w) as [calls w2].
    apply obind_done in Hcb as (s2 & H2 & [= -> ->]). destruct (run_calls_quiet _ _ _ _ _ _ Hcalls Hwf H2 Hquiet) as [Hq2 [k Ha]].
    split; [by eapply local_quiet|]. exists k. intros i l Hi. destruct (Ha i l Hi) as (ext & E & Hx). exists ext. by rewrite (local_holders _ _ _ Hl).
Qed.

(** [p] with entry [e] is once in the holder's list, behind [l1]. *)
Definition tracked e l1 s : Prop :=
  quiet p e o s /\ (p ∉ l1) /\ exists l2, (p ∉ l2) /\ mHolders s !! mInstanceId = Some (l1 ++ p :: l2).
Lemma tracked_index e l1 s l n q : tracked e l1 s -> mHolders s !! mInstanceId = Some l -> l !! n = Some q ->
  (n = length l1 <-> q = p).
Proof.
  intros (_ & H1 & l2 & H2 & Hl) El Hn. rewrite Hl in El. injection El as <-. split.
  - intros ->. rewrite list_lookup_middle in Hn by done. congruence.
  - intros ->. destruct (decide (n < length l1)%nat) as [Hlt|Hge].
    + rewrite lookup_app_l in Hn by done. destruct H1. by eapply list_elem_of_lookup_2.
    + rewrite lookup_app_r in Hn by lia. destruct (n - length l1)%nat eqn:E; [lia|]. destruct H2. by eapply list_elem_of_lookup_2.
Qed.

Definition without n (l : list Addr) : list Addr := firstn n l ++ skipn (S n) l.
Lemma without_in n l q : q ∈ without n l -> q ∈ l.
Proof.
  unfold without. intros [H|H]%elem_of_app.
  - rewrite <- (take_drop n l). apply elem_of_app. by left.
  - rewrite <- (take_drop (S n) l). apply elem_of_app. by right.
Qed.
Lemma without_before n l1 l2 : (n < length l1)%nat -> without n (l1 ++ l2) = without n l1 ++ l2.
Proof. intros Hn. unfold without. rewrite take_app_le, drop_app_le, app_assoc by lia. done. Qed.
Lemma without_behind n l1 l2 : (length l1 < n)%nat -> without n (l1 ++ p :: l2) = l1 ++ p :: without (n - S (length l1)) l2.
Proof.
  intros Hn. unfold without. rewrite take_app_ge, drop_app_ge by lia.
  replace (n - length l1)%nat with (S (n - S (length l1))) by lia. replace (S n - length l1)%nat with (S (S (n - S (length l1)))) by lia.
  cbn [take drop]. by rewrite <- app_assoc.
Qed.

Definition next_index (v : Visit (Code := Code) (World := World)) n : nat := if keep v then S n else n.
Definition next_state (v : Visit (Code := Code) (World := World)) n : Timers Code := if keep v then after v else erase_at mInstanceId n (after v).

Lemma turn_other e l1 s l n q w v : wf s -> tracked e l1 s -> mHolders s !! mInstanceId = Some l -> l !! n = Some q -> q <> p ->
  visit q s w = Done v ->
  exists l1', tracked e l1' (next_state v n) /\
    ((n < length l1)%nat -> (next_index v n <= length l1')%nat) /\ ((length l1 < n)%nat -> (length l1' < next_index v n)%nat).
Proof.
  intros Hwf (Hquiet & H1 & l2 & H2 & Hl0) Hl Hn Hq Hv. rewrite Hl in Hl0. injection Hl0 as ->.
  destruct (visit_quiet q e s w v Hwf Hv Hq Hquiet) as [Hquiet' [k Ha]]. destruct (Ha _ _ Hl) as (ext & E & _ & Hext).
  assert (H2' : p ∉ l2 ++ ext) by (rewrite elem_of_app; intros [?|?%Hext]; done). rewrite <- app_assoc in E. cbn in E.
  unfold next_state, next_index. destruct (keep v); [exists l1; split; [split; [done|]; split; [done|]; by exists (l2 ++ ext)|lia]|].
  assert (Hn1 : n <> length l1) by (intros ->; rewrite list_lookup_middle in Hn; congruence).
  unfold erase_at. rewrite (holder_list_some _ _ E). fold (without n (l1 ++ p :: l2 ++ ext)).
  destruct (decide (n < length l1)%nat) as [Hlt|Hge].
  - exists (without n l1). split; [|unfold without; rewrite length_app, length_take, length_drop; lia].
    split; [done|]. split; [by intros ?%without_in|]. exists (l2 ++ ext). split; [done|]. cbn. by rewrite lookup_insert_eq, without_before.
  - exists l1. split; [|lia]. split; [done|]. split; [done|]. eexists. split; [by intros ?%without_in|]. cbn. rewrite lookup_insert_eq, without_behind by lia. done.
Qed.

(** An event that may run on this holder. *)
Definition runnable (e : TimedEvent Code) : Prop :=
  instanceId e = mInstanceId /\ deleted e = false /\ refused mInstanceId e = false /\ cb e <> None.
Definition aged (d : Z) (e : TimedEvent Code) : TimedEvent Code :=
  let '(mkEvent c ty fl ms cur rep del inst r) := e in mkEvent c ty fl ms (cur - d) rep del inst r.

Lemma visit_due e s w v : heap s !! p = Some e -> runnable e -> currTime e <= time_difference -> visit p s w = Done v -> fired v = true.
Proof.
  intros He (Hi & Hd & Hr & Hcb) Hdue. unfold Timers.visit. rewrite (get_event_some _ _ _ He). cbn [obind].
  rewrite Hi, Hd, Hr, Z.eqb_refl, (proj2 (Z.leb_le _ _) Hdue). cbn [negb orb]. destruct (cb e) as [[o' c]|]; [|done].
  intros ([s1 w1] & _ & H)%obind_done. destruct (negb _); [by apply obind_done in H as (s2 & _ & [= <-])|].
  apply obind_done in H as (e1 & _ & H). destruct e1. destruct (_ || _); [by apply obind_done in H as (s2 & _ & [= <-])|by injection H as <-].
Qed.
Lemma visit_waits e s w : heap s !! p = Some e -> runnable e -> time_difference < currTime e ->
  visit p s w = Done (mkVisit true false (put_event p (aged time_difference e) s) w).
Proof.
  intros He (Hi & Hd & Hr & Hcb) Hdue. unfold Timers.visit. rewrite (get_event_some _ _ _ He). cbn [obind].
  rewrite Hi, Hd, Hr, Z.eqb_refl, (proj2 (Z.leb_gt _ _) Hdue). cbn [negb orb]. by destruct e.
Qed.

(** The head of a pass over a tracked event, as cases. *)
Lemma update_from_step fuel n s w l hits s' w' : mHolders s !! mInstanceId = Some l -> update_from (S fuel) n s w = Done (hits, s', w') ->
  (l !! n = None /\ hits = [] /\ s' = s) \/
  exists q v hits', l !! n = Some q /\ visit q s w = Done v /\ hits = (if fired v then [q] else []) ++ hits' /\
    ((S n = length l /\ hits' = [] /\ s' = next_state v n) \/
     (S n <> length l /\ update_from fuel (next_index v n) (next_state v n) (world v) = Done (hits', s', w'))).
Proof.
  intros Hl. cbn [Timers.update_from]. rewrite (holder_list_some _ _ Hl). destruct (l !! n) as [q|]; [|intros [= <- <- _]; by left].
  intros (v & Hv & H)%obind_done. right. destruct (Nat.eqb_spec (S n) (length l)) as [E|E].
  - injection H as <- <- _. exists q, v, []. rewrite app_nil_r. split_and!; auto.
  - apply obind_done in H as ([[hits1 s1] w1] & H & [= <- <- <-]). exists q, v, hits1. split_and!; auto.
Qed.

Lemma tracked_lookup e l1 s : tracked e l1 s -> exists l, mHolders s !! mInstanceId = Some l /\ l !! length l1 = Some p /\ (length l1 < length l)%nat.
Proof.
  intros (_ & _ & l2 & _ & Hl). eexists. split; [done|]. split; [by apply list_lookup_middle|]. rewrite length_app. cbn. lia.
Qed.
Lemma turn_wf q e l1 s w v l n : wf s -> tracked e l1 s -> mHolders s !! mInstanceId = Some l -> l !! n = Some q -> visit q s w = Done v -> wf (next_state v n).
Proof. intros Hwf Ht Hl Hn Hv. by destruct (turn_ok n q l s w v Hwf Hl Hn Hv). Qed.

Lemma update_fires fuel : forall e l1 n s w hits s' w', wf s -> tracked e l1 s -> runnable e -> currTime e <= time_difference ->
  (n <= length l1)%nat -> update_from fuel n s w = Done (hits, s', w') -> p ∈ hits.
Proof.
  induction fuel as [|fuel IH]; intros e l1 n s w hits s' w' Hwf Ht Hrun Hdue Hn Hu; [done|].
  destruct (tracked_lookup _ _ _ Ht) as (l & Hl & Hp & Hlen).
  destruct (update_from_step _ _ _ _ _ _ _ _ Hl Hu) as [[Hnone _]|(q & v & hits' & Hq & Hv & -> & Hrest)].
  { apply lookup_ge_None in Hnone. lia. }
  pose proof (tracked_index _ _ _ _ _ _ Ht Hl Hq) as Hidx. apply elem_of_app.
  destruct (decide (q = p)) as [->|Hne].
  - left. rewrite (visit_due e s w v); [by apply list_elem_of_singleton|by destruct Ht as [[]]|done..].
  - right. assert (Hlt : (n < length l1)%nat) by (destruct (decide (n = length l1)) as [E|]; [by apply Hidx in E|lia]).
    destruct Hrest as [[Hlast _]|[_ Hu']]; [lia|].
    destruct (turn_other _ _ _ _ _ _ _ _ Hwf Ht Hl Hq Hne Hv) as (l1' & Ht' & Hle & _).
    eapply IH; [by eapply turn_wf|exact Ht'|done|done|auto|done].
Qed.

Lemma visited_stays fuel : forall e l1 n s w hits s' w', wf s -> tracked e l1 s -> (length l1 < n)%nat ->
  update_from fuel n s w = Done (hits, s', w') -> (p ∉ hits) /\ exists l1', tracked e l1' s'.
Proof.
  induction fuel as [|fuel IH]; intros e l1 n s w hits s' w' Hwf Ht Hn Hu; [done|].
  destruct (tracked_lookup _ _ _ Ht) as (l & Hl & Hp & Hlen).
  destruct (update_from_step _ _ _ _ _ _ _ _ Hl Hu) as [(_ & -> & ->)|(q & v & hits' & Hq & Hv & -> & Hrest)].
  { split; [by intros ?%elem_of_nil|eauto]. }
  pose proof (tracked_index _ _ _ _ _ _ Ht Hl Hq) as Hidx. assert (Hne : q <> p) by (intros E; apply Hidx in E; lia).
  destruct (turn_other _ _ _ _ _ _ _ _ Hwf Ht Hl Hq Hne Hv) as (l1' & Ht' & _ & Hgt).
  assert (Hhit : p ∉ if fired v then [q] else []) by (destruct (fired v); [by intros ->%list_elem_of_singleton|by intros ?%elem_of_nil]).
  destruct Hrest as [(_ & -> & ->)|[_ Hu']]; [rewrite app_nil_r; eauto|].
  destruct (IH _ _ _ _ _ _ _ _ (turn_wf _ _ _ _ _ _ _ _ Hwf Ht Hl Hq Hv) Ht' (Hgt Hn) Hu') as [Hnot Hlast].
  split; [|done]. rewrite elem_of_app. tauto.
Qed.

Lemma put_tracked e e' l1 s : tracked e l1 s -> tracked e' l1 (put_event p e' s).
Proof. intros [[He Hq] H]. split; [|done]. split; [cbn; by rewrite lookup_insert_eq|done]. Qed.

Lemma update_waits fuel : forall e l1 n s w hits s' w', wf s -> tracked e l1 s -> runnable e -> time_difference < currTime e ->
  (n <= length l1)%nat -> update_from fuel n s w = Done (hits, s', w') ->
  (p ∉ hits) /\ exists l1', tracked (aged time_difference e) l1' s'.
Proof.
  induction fuel as [|fuel IH]; intros e l1 n s w hits s' w' Hwf Ht Hrun Hdue Hn Hu; [done|].
  destruct (tracked_lookup _ _ _ Ht) as (l & Hl & Hp & Hlen).
  destruct (update_from_step _ _ _ _ _ _ _ _ Hl Hu) as [[Hnone _]|(q & v & hits' & Hq & Hv & -> & Hrest)].
  { apply lookup_ge_None in Hnone. lia. }
  pose proof (tracked_index _ _ _ _ _ _ Ht Hl Hq) as Hidx. pose proof (turn_wf _ _ _ _ _ _ _ _ Hwf Ht Hl Hq Hv) as Hwf'.
  destruct (decide (q = p)) as [->|Hne].
  - rewrite (visit_waits e s w) in Hv by (try done; by destruct Ht as [[]]). injection Hv as <-. cbn [fired app] in *.
    pose proof (put_tracked e (aged time_difference e) l1 s Ht) as Ht'. unfold next_state, next_index in *. cbn [keep after world] in *.
    destruct Hrest as [(_ & -> & ->)|[_ Hu']]; [split; [by intros ?%elem_of_nil|eauto]|].
    eapply visited_stays; [exact Hwf'|exact Ht'| |exact Hu']. pose proof (proj2 Hidx eq_refl). lia.
  - assert (Hlt : (n < length l1)%nat) by (destruct (decide (n = length l1)) as [E|]; [by apply Hidx in E|lia]).
    destruct (turn_other _ _ _ _ _ _ _ _ Hwf Ht Hl Hq Hne Hv) as (l1' & Ht' & Hle & _).
    assert (Hhit : p ∉ if fired v then [q] else []) by (destruct (fired v); [by intros ->%list_elem_of_singleton|by intros ?%elem_of_nil]).
    destruct Hrest as [[Hlast _]|[_ Hu']]; [lia|].
    destruct (IH _ _ _ _ _ _ _ _ Hwf' Ht' Hrun Hdue (Hle Hlt) Hu') as [Hnot Hend]. split; [|done]. rewrite elem_of_app. tauto.
Qed.
End Firing.
End Pass.
End Facts.

(** ** Programs

    A program starts with the holder of the world; it makes calls, adds
    holders and updates them. *)
Section Program.
Context {Code World : Type} (execute : Addr -> Code -> Timers Code -> World -> list (Call Code) * World).

Inductive reached : Timers Code -> World -> Prop :=
  | reached_start w : reached (mkTimers ∅ ∅ {[-1 := []]}) w
  | reached_holder s w i : reached s w -> mHolders s !! i = None -> reached (set_holder i [] s) w
  | reached_calls s w calls s' w' : reached s w -> run_calls calls s = Done s' -> reached s' w'
  | reached_update s w i d fuel hits s' w' : reached s w -> is_Some (mHolders s !! i) ->
      update execute i d fuel s w = Done (hits, s', w') -> reached s' w'.

Lemma new_holder_wf (s : Timers Code) i : wf s -> mHolders s !! i = None -> wf (set_holder i [] s).
Proof.
  intros [Hc Hpos Hown Hh Hw] Hi.
  assert (Hsome : forall j, is_Some (mHolders s !! j) -> is_Some (<[i := []]> (mHolders s) !! j)).
  { intros j Hj. destruct (decide (j = i)) as [->|]; [by rewrite lookup_insert_eq|by rewrite lookup_insert_ne]. }
  constructor; cbn [heap mHolders objects set_holder]; eauto.
  intros q. specialize (Hc q). unfold refs in *. cbn [mHolders objects set_holder]. rewrite cnt_app in *.
  rewrite (cnt_perm q _ _ (flat_insert_fresh (mHolders s) i [] Hi)). exact Hc.
Qed.
Lemma reached_wf s w : reached s w -> wf s.
Proof.
  induction 1 as [w|s w i _ IH Hi|s w calls s' w' _ IH Hc|s w i d fuel hits s' w' _ IH Hi Hu].
  - by constructor.
  - by apply new_holder_wf.
  - pose proof (run_calls_good calls s IH) as Hg. rewrite Hc in Hg. by destruct Hg.
  - pose proof (update_from_safe execute i d fuel 0 s w IH Hi) as Hg. unfold update in Hu. rewrite Hu in Hg. by destruct Hg.
Qed.

(** The passes of a holder for a sequence of time differences. *)
Fixpoint updates (i : Z) (fuel : nat) (ds : list Z) (s : Timers Code) (w : World) : Outcome (list (list Addr) * Timers Code * World) :=
  match ds with
  | [] => Done ([], s, w)
  | d :: ds => do '(hits, s, w) <- update execute i d fuel s w;
               do '(hitss, s, w) <- updates i fuel ds s w; Done (hits :: hitss, s, w)
  end.
Definition elapsed (ds : list Z) : Z := foldr Z.add 0 ds.

Lemma updates_fire p o fuel ds d : (forall o' c s w, Forall (fun c => target c <> o) (fst (execute o' c s w))) -> Forall (fun d => 0 <= d) ds ->
  forall e l1 s w hitss s' w', wf s -> tracked (-1) p o e l1 s -> runnable (-1) e -> elapsed ds < currTime e <= elapsed ds + d ->
  updates (-1) fuel (ds ++ [d]) s w = Done (hitss, s', w') ->
  exists early final, hitss = early ++ [final] /\ p ∈ final /\ Forall (fun hits => p ∉ hits) early.
Proof.
  intros Hcalls. induction 1 as [|d1 ds Hd1 Hds IH]; cbn [app updates elapsed foldr]; intros e l1 s w hitss s' w' Hwf Ht Hrun Hdue Hu;
    apply obind_done in Hu as ([[hits s1] w1] & Hu & Hrest); apply obind_done in Hrest as ([[hitss' s2] w2] & Hus & [= <- <- <-]).
  - injection Hus as <- <- <-. exists [], hits. split; [done|]. split; [|done].
    eapply (update_fires execute (-1) d p o Hcalls fuel e l1 0); [done|done|done|lia|lia|exact Hu].
  - fold (elapsed ds) in Hdue. assert (0 <= elapsed ds) by (clear -Hds; unfold elapsed; induction Hds; cbn [foldr]; lia).
    destruct (update_waits execute (-1) d1 p o Hcalls fuel e l1 0 s w hits s1 w1) as [Hnot [l1' Ht']]; [done..|lia|lia|done|].
    pose proof (update_from_safe execute (-1) d1 fuel 0 s w Hwf (wf_world _ _ Hwf)) as Hsafe. unfold update in Hu. rewrite Hu in Hsafe.
    destruct (IH (aged d1 e) l1' s1 w1 hitss' s2 w2 (proj1 Hsafe) Ht') as (early & final & -> & Hin & Hearly); [by destruct e|destruct e; cbn in *; lia|done|].
    exists (hits :: early), final. split; [done|]. split; [done|]. by constructor.
Qed.
End Program.

(** C34: no interleaving of calls and passes, and no callback that adds,
    changes, relocates or removes events and objects in the middle of a pass,
    makes the timers use a freed event, run a method of a destroyed object or
    lose a holder; each event's count is the number of references to it. *)
Theorem events_safe {Code World} (execute : Addr -> Code -> Timers Code -> World -> list (Call Code) * World) s w :
  reached execute s w ->
  (forall i d fuel f, is_Some (mHolders s !! i) -> update execute i d fuel s w = Faulty f -> f = BadCall) /\
  (forall calls f, run_calls calls s = Faulty f -> f = BadCall) /\
  (forall p e, heap s !! p = Some e -> ref e = cnt p (refs s) /\ 0 < ref e /\ (deleted e = false -> owned p e s)).
Proof.
  intros Hwf%reached_wf. split_and!.
  - intros i d fuel f Hi Hu. pose proof (update_from_safe execute i d fuel 0 s w Hwf Hi) as Hsafe. unfold update in Hu. by rewrite Hu in Hsafe.
  - intros calls f Hf. pose proof (run_calls_good calls s Hwf) as Hg. rewrite Hf in Hg. by destruct f.
  - intros p e He. split_and!; [|by eapply wf_pos|by eapply wf_owned].
    pose proof (wf_count _ _ Hwf p) as Hc. unfold ref_of in Hc. rewrite He, cnt_nil in Hc. lia.
Qed.



(** ** A program at work

    One method adds a one-shot event to object 2 while its budget lasts, the
    other does nothing. *)
Definition demo_execute (o : Addr) (c : bool) (s : Timers bool) (w : nat) : list (Call bool) * nat :=
  match c, w with true, S w => ([CallAdd 2 false 7 100 1 EVENT_FLAG_DELETES_OBJECT], w) | _, _ => ([], w) end.
Definition demo_calls : list (Call bool) := [CallCreate 1 (-1); CallCreate 2 (-1); CallCreate 3 (-1); CallAdd 1 true 3 50 (-1) 0].
Definition demo : Timers bool :=
  match run_calls demo_calls (mkTimers ∅ ∅ {[-1 := []]}) with
  | Done s => s
  | _ => mkTimers ∅ ∅ ∅
  end.
Lemma demo_reached : reached demo_execute demo 5%nat.
Proof. apply (reached_calls demo_execute (mkTimers ∅ ∅ {[-1 := []]}) 5%nat demo_calls); [apply reached_start|]. vm_compute. reflexivity. Qed.
Lemma demo_budget o c s w : let '(calls, w') := demo_execute o c s w in
  Forall (fun c => is_relocate c = false) calls /\ (total_adds calls + w' <= w)%nat.
Proof. destruct c, w; cbn; (split; [by repeat constructor|cbn; lia]). Qed.

Lemma events_safe_witness : update demo_execute (-1) 60 20 demo 5%nat <> Faulty FreedEvent.
Proof.
  intros H. assert (Hi : is_Some (mHolders demo !! (-1))) by (eexists; vm_compute; reflexivity).
  by pose proof (proj1 (events_safe demo_execute demo 5%nat demo_reached) (-1) 60 20%nat FreedEvent Hi H).
Defined.

(** A one-shot event that has fired stays in its owner's multimap, deleted. *)
Example fired_event_stays :
  match mgr_addEvent 3 false 8 100 1 EVENT_FLAG_DELETES_OBJECT demo with
  | Done s =>
      match update demo_execute WORLD_INSTANCE 100 20 s 5%nat with
      | Done (_, s, _) => (fun e => (deleted e, ref e)) <$> heap s !! fresh (dom (heap demo)) = Some (true, 1)
      | _ => False
      end
  | _ => False
  end.
Proof. vm_compute. reflexivity. Qed.
