(* ===== verification/Deadlines.v ===== *)
(** * common: what timed events promise to a program that only sets timers

    When the methods run by the events leave all events alone, and an object
    has at most one event of a type, the heap of counted events of Timers.v is
    a map from (object, method) to the time left: [tracks] is the simulation
    relation, each operation of [EventableObject] has its counterpart on the
    map, and a pass of the holder fires what is due and ages the rest
    ([pass_tracks]).  Clients (the sessions of a gate) reason on the map. *)
From stdpp Require Import gmap.
From S2P Require Import Prelude Timers.
#[local] Open Scope outcome_scope.

(** ** The specification *)

(** The methods of a program: the event type each is used with, and whether
    it is added with [EVENT_FLAG_DELETES_OBJECT]. *)
Class Methods (Code : Type) `{Countable Code} := {
  type_of : Code -> Z;
  one_shot : Code -> bool;
  type_of_inj c1 c2 : type_of c1 = type_of c2 -> c1 = c2;
  type_of_single c : type_of c <> EVENT_REMOVAL_FLAG_ALL
}.

Record Deadline := mkDeadline { left : Z; period : Z; times : Z }.
(** A new one, and one whose time is set anew. *)
Definition due_in (time times : Z) : Deadline := mkDeadline time time times.
Definition postpone (time : Z) (dl : Deadline) : Deadline := mkDeadline time time (times dl).
(** One that fires: [repeats] counts down, 0 is for ever. *)
Definition again (dl : Deadline) : option Deadline :=
  let times' := if times dl =? 0 then times dl else i32 (times dl - 1) in
  if negb (times dl =? 0) && (times' =? 0) then None else Some (mkDeadline (period dl) (period dl) times').

Section Deadlines.
Context {Code : Type} `{Methods Code}.
Abbreviation Key := (Addr * Code)%type.
Abbreviation Deadlines := (gmap (Addr * Code) Deadline).
Implicit Types (t : Timers Code) (a : Deadlines) (k : Key).

Definition tick (d : Z) k (dl : Deadline) : option Deadline :=
  if left dl <=? d then if one_shot k.2 then None else again dl else Some (mkDeadline (left dl - d) (period dl) (times dl)).
(** A pass, after the time [d]. *)
Definition pass (d : Z) a : Deadlines := map_imap (tick d) a.
Definition due (d : Z) a k : Prop := exists dl, a !! k = Some dl /\ left dl <= d.

(** ** The simulation *)
Definition flags_of (c : Code) : Z := if one_shot c then EVENT_FLAG_DELETES_OBJECT else 0.
Definition event_of k (dl : Deadline) : TimedEvent Code :=
  mkEvent (Some k) (type_of k.2) (flags_of k.2) (period dl) (left dl) (times dl) false (-1) 2.

(** [l] is the list of the world's holder. *)
Record tracks_list (l : list Addr) t a : Prop := {
  tr_wf : wf t;
  tr_holder : mHolders t !! (-1) = Some l;
  tr_once : NoDup l;
  tr_world o x : objects t !! o = Some x -> on_world x;
  tr_live p e : heap t !! p = Some e -> deleted e = false -> p ∈ l /\ exists k dl, a !! k = Some dl /\ e = event_of k dl;
  tr_key k dl : a !! k = Some dl -> exists p, heap t !! p = Some (event_of k dl);
  tr_one p1 p2 k dl1 dl2 : heap t !! p1 = Some (event_of k dl1) -> heap t !! p2 = Some (event_of k dl2) -> p1 = p2;
  tr_entry o x ty p e : objects t !! o = Some x -> (ty, p) ∈ m_events x -> heap t !! p = Some e -> deleted e = false ->
    eventType e = ty /\ exists c, cb e = Some (o, c)
}.
Definition tracks t a : Prop := exists l, tracks_list l t a.

Lemma event_of_inj k1 k2 dl1 dl2 : event_of k1 dl1 = event_of k2 dl2 -> k1 = k2 /\ dl1 = dl2.
Proof. destruct dl1, dl2. intros [=]. by subst. Qed.

Section Facts.
Context (l : list Addr) (t : Timers Code) (a : Deadlines) (Ht : tracks_list l t a).

(** A live event and its key know each other. *)
Lemma live_key p k dl : heap t !! p = Some (event_of k dl) -> a !! k = Some dl /\ p ∈ l.
Proof.
  intros Hp. destruct (tr_live _ _ _ Ht p _ Hp eq_refl) as [Hl (k' & dl' & Ha & E)].
  apply event_of_inj in E as [-> ->]. done.
Qed.
Lemma key_owner o c dl : a !! (o, c) = Some dl ->
  exists p x, heap t !! p = Some (event_of (o, c) dl) /\ objects t !! o = Some x /\ (type_of c, p) ∈ m_events x.
Proof.
  intros Ha. destruct (tr_key _ _ _ Ht _ _ Ha) as [p Hp]. exists p.
  pose proof (wf_owned _ _ (tr_wf _ _ _ Ht) p _ Hp eq_refl) as (x & Hx & Hin). exists x. split_and!; [done..|].
  unfold pointers in Hin. apply list_elem_of_fmap in Hin as ([ty q] & -> & Hin).
  destruct (tr_entry _ _ _ Ht o x ty q _ Hx Hin Hp eq_refl) as [E _]. cbn in E. by subst ty.
Qed.
Lemma entry_key o x c p e : objects t !! o = Some x -> (type_of c, p) ∈ m_events x -> heap t !! p = Some e -> deleted e = false ->
  exists dl, e = event_of (o, c) dl.
Proof.
  intros Hx Hin Hp Hd. destruct (tr_entry _ _ _ Ht o x _ p e Hx Hin Hp Hd) as [Ety [c' Ecb]].
  destruct (tr_live _ _ _ Ht p e Hp Hd) as [_ ([o1 c1] & dl & _ & ->)]. cbn in *. injection Ecb as -> ->.
  apply type_of_inj in Ety as ->. by exists dl.
Qed.

(** ** Queries *)
Lemma hasEvent_tracks o c : eventHasEvent o (type_of c) t = bool_decide (is_Some (a !! (o, c))).
Proof.
  apply eq_true_iff_eq. rewrite bool_decide_eq_true. unfold eventHasEvent. split.
  - destruct (objects t !! o) as [x|] eqn:Hx; [|done]. intros ([ty p] & Hin%list_elem_of_In & [Hty Hlive]%andb_true_iff)%existsb_exists.
    apply Z.eqb_eq in Hty. cbn in Hty, Hlive. subst ty. unfold live in Hlive. destruct (heap t !! p) as [e|] eqn:Hp; [|done].
    apply negb_true_iff in Hlive. destruct (entry_key o x c p e Hx Hin Hp Hlive) as [dl ->]. exists dl. by apply (live_key p).
  - intros [dl Ha]. destruct (key_owner o c dl Ha) as (p & x & Hp & -> & Hin). apply existsb_exists. exists (type_of c, p).
    split; [by apply list_elem_of_In|]. apply andb_true_iff. split; [by apply Z.eqb_eq|]. unfold live. cbn. by rewrite Hp.
Qed.
End Facts.

(** ** Operations *)
Lemma start_tracks : tracks (mkTimers ∅ ∅ {[-1 := []]}) ∅.
Proof.
  exists []. constructor; cbn; [|done|constructor|..].
  { apply (reached_wf (fun _ _ _ w => ([], w)) _ tt). apply reached_start. }
  all: intros *; by rewrite ?lookup_empty.
Qed.

Lemma create_tracks o t a : tracks t a -> objects t !! o = None ->
  exists t', create o (-1) t = Done t' /\ tracks t' a /\ objects t' = <[o := mkObject (-1) [] None (-1)]> (objects t).
Proof.
  intros [l Ht] Ho. unfold create. rewrite Ho. eexists. split; [done|]. split; [|done]. exists l.
  pose proof (good_create o (-1) t (tr_wf _ _ _ Ht)) as Hg. unfold create in Hg. rewrite Ho in Hg. destruct Hg as [Hwf _].
  destruct Ht. constructor; cbn; auto.
  - intros o' x. rewrite lookup_insert_Some. intros [[_ <-]|[_ Hx]]; [by right|eauto].
  - intros o' x ty p e. rewrite lookup_insert_Some. intros [[_ <-]|[_ Hx]]; [by intros ?%elem_of_nil|eauto].
Qed.

Lemma multimap_insert_elem ty p l en : en ∈ multimap_insert ty p l -> en = (ty, p) \/ en ∈ l.
Proof.
  induction l as [|[ty' p'] l IH]; cbn [multimap_insert]; [by intros ->%list_elem_of_singleton; left|].
  destruct (ty <? ty'); rewrite elem_of_cons; [tauto|]. rewrite elem_of_cons. tauto.
Qed.
(** A freed address is nowhere. *)
Lemma fresh_unknown l t a p : tracks_list l t a -> heap t !! p = None ->
  (p ∉ l) /\ forall o x ty, objects t !! o = Some x -> (ty, p) ∉ m_events x.
Proof.
  intros Ht Hp. pose proof (wf_count _ _ (tr_wf _ _ _ Ht) p) as Hc. unfold ref_of in Hc. rewrite Hp, cnt_nil in Hc. split.
  - intros Hin%cnt_in. pose proof (refs_holder _ _ t p (tr_holder _ _ _ Ht)). lia.
  - intros o x ty Hx Hin. assert (Hq : p ∈ pointers x) by (apply list_elem_of_fmap; by exists (ty, p)).
    apply cnt_in in Hq. pose proof (refs_object o x t p Hx). lia.
Qed.

(** [addEvent], of a type the object has no event of. *)
Lemma add_tracks o x c time times t a : tracks t a -> objects t !! o = Some x -> a !! (o, c) = None ->
  exists t', mgr_addEvent o c (type_of c) time times (flags_of c) t = Done t' /\ tracks t' (<[(o, c) := due_in time times]> a) /\
    dom (objects t') = dom (objects t).
Proof.
  intros [l Ht] Hx Ha. pose proof (tr_wf _ _ _ Ht) as Hwf.
  pose proof (good_add o c (type_of c) time times (flags_of c) t Hwf) as Hg.
  destruct (mgr_addEvent_new o x c (type_of c) time times (flags_of c) t Hwf Hx) as (h & inst & inst' & l' & Hl & Hworld & E).
  set (p := fresh (dom (heap t))) in *. destruct (Hworld (tr_world _ _ _ Ht o x Hx)) as (-> & -> & ->).
  rewrite (tr_holder _ _ _ Ht) in Hl. injection Hl as <-. rewrite E in *. destruct Hg as [Hwf' _].
  eexists. split; [done|]. split; [|cbn; rewrite dom_insert_lookup_L by (rewrite Hx; done); done].
  exists (l ++ [p]). assert (Hp : heap t !! p = None) by apply not_elem_of_dom, is_fresh. destruct (fresh_unknown l t a p Ht Hp) as [Hpl Hpx].
  assert (Hev : forall dl, mkEvent (Some (o, c)) (type_of c) (u16 (flags_of c)) time time times false (-1) 2 = event_of (o, c) dl <-> dl = due_in time times).
  { intros dl. replace (u16 (flags_of c)) with (flags_of c) by (unfold flags_of; by destruct (one_shot c)).
    change (mkEvent _ _ _ _ _ _ _ _ _) with (event_of (o, c) (due_in time times)). split; [by intros [_ <-]%event_of_inj|by intros ->]. }
  constructor; cbn [heap objects mHolders set_holder set_object put_event set_heap].
  - done.
  - by rewrite lookup_insert_eq.
  - apply NoDup_app. split_and!; [apply Ht| |apply NoDup_singleton]. by intros q Hq ->%list_elem_of_singleton.
  - intros o' y. rewrite lookup_insert_Some. intros [[_ <-]|[_ Hy]]; [by left|by apply (tr_world _ _ _ Ht o')].
  - intros q e. rewrite lookup_insert_Some, elem_of_app, list_elem_of_singleton. intros [[<- <-]|[_ Hq]] Hd.
    + split; [by right|]. exists (o, c), (due_in time times). rewrite lookup_insert_eq. split; [done|by apply Hev].
    + destruct (tr_live _ _ _ Ht q e Hq Hd) as [Hl (k & dl & Hk & ->)]. split; [by left|]. exists k, dl.
      split; [|done]. rewrite lookup_insert_ne; [done|]. intros <-. congruence.
  - intros k dl. rewrite lookup_insert_Some. intros [[<- <-]|[_ Hk]].
    + exists p. rewrite lookup_insert_eq. f_equal. by apply Hev.
    + destruct (tr_key _ _ _ Ht k dl Hk) as [q Hq]. exists q. rewrite lookup_insert_ne; [done|]. intros <-. congruence.
  - assert (Hnew : forall q k dl dl', Some (mkEvent (Some (o, c)) (type_of c) (u16 (flags_of c)) time time times false (-1) 2) = Some (event_of k dl) ->
      heap t !! q = Some (event_of k dl') -> False).
    { intros q k dl dl' [= <- _ _ _ _ _] Hq. apply (live_key l t a Ht) in Hq as [Hk _]. congruence. }
    intros p1 p2 k dl1 dl2. destruct (decide (p1 = p)) as [->|H1], (decide (p2 = p)) as [->|H2];
      rewrite ?lookup_insert_eq, ?lookup_insert_ne by done; [done| | |apply Ht].
    + intros E1 E2. by destruct (Hnew p2 k dl1 dl2).
    + intros E1 E2. by destruct (Hnew p1 k dl2 dl1).
  - intros o' y ty q e. rewrite !lookup_insert_Some. intros Hy Hin Hq Hd. destruct Hq as [[<- <-]|[Hne Hq]].
    + destruct Hy as [[<- <-]|[_ Hy]]; [|by destruct (Hpx _ _ _ Hy Hin)]. apply multimap_insert_elem in Hin as [[= ->]|Hin]; [|by destruct (Hpx _ _ _ Hx Hin)].
      split; [done|by exists c].
    + destruct Hy as [[<- <-]|[_ Hy]]; [|by apply (tr_entry _ _ _ Ht o' y ty q)]. apply multimap_insert_elem in Hin as [[= _ ->]|Hin]; [done|].
      by apply (tr_entry _ _ _ Ht o x ty q).
Qed.

Lemma type_entries o x c t p : objects t !! o = Some x ->
  p ∈ map snd (List.filter (of_type (type_of c)) (m_events x)) <-> (type_of c, p) ∈ m_events x.
Proof.
  intros Hx. rewrite list_elem_of_In, in_map_iff. setoid_rewrite filter_In. unfold of_type. split.
  - intros ([ty q] & <- & Hin & E). apply Z.eqb_eq in E. cbn in E. subst ty. by apply list_elem_of_In.
  - intros Hin%list_elem_of_In. exists (type_of c, p). split; [done|]. split; [done|]. by apply Z.eqb_eq.
Qed.

(** [removeEvents] of one type. *)
Lemma remove_tracks o c t a : tracks t a -> is_Some (objects t !! o) ->
  exists t', eventRemoveEvents o (type_of c) t = Done t' /\ tracks t' (delete (o, c) a) /\ dom (objects t') = dom (objects t).
Proof.
  intros [l Ht] [x Hx]. pose proof (tr_wf _ _ _ Ht) as Hwf. pose proof (good_remove o (type_of c) t Hwf) as Hg.
  unfold eventRemoveEvents, get_object in *. rewrite Hx in *. cbn [obind] in *. rewrite (proj2 (Z.eqb_neq _ _) (type_of_single c)) in *.
  set (ps := map snd (List.filter (of_type (type_of c)) (m_events x))) in *.
  assert (Hps : forall p, p ∈ ps <-> (type_of c, p) ∈ m_events x) by (intros p; by apply (type_entries o x c t)).
  destruct (decRefs_ok ps [] t Hwf) as (s & E & _ & _ & Hdead).
  { intros q. rewrite app_nil_r. pose proof (refs_object o x t q Hx) as Hr. unfold pointers in Hr. rewrite (filter_split (of_type (type_of c))) in Hr.
    fold ps in Hr. pose proof (cnt_nonneg q (map snd (List.filter (fun en => negb (of_type (type_of c) en)) (m_events x)))). lia. }
  destruct (decRefs_local _ _ _ E) as [Ho Hh He]. rewrite E in *. cbn [obind] in *. destruct Hg as [Hwf' _].
  eexists. split; [done|]. split; [|cbn; rewrite Ho, dom_insert_lookup_L by (by rewrite Hx); done]. exists l.
  assert (Hold : forall p e, heap s !! p = Some e -> deleted e = false -> heap t !! p = Some e /\ p ∉ ps).
  { intros p e Hp Hd. assert (Hnot : p ∉ ps) by (intros Hin%Hdead; unfold dead in Hin; rewrite Hp in Hin; congruence). by rewrite <- He. }
  assert (Hother : forall p k dl, heap t !! p = Some (event_of k dl) -> p ∉ ps <-> k <> (o, c)).
  { intros p k dl Hp. rewrite Hps. split.
    - intros Hnot ->. apply Hnot. destruct (live_key l t a Ht p _ dl Hp) as [Hk _].
      destruct (key_owner l t a Ht o c dl Hk) as (q & y & Hq & Hy & Hin). rewrite Hx in Hy. injection Hy as <-. by rewrite (tr_one _ _ _ Ht p q (o, c) dl dl Hp Hq).
    - intros Hne Hin. destruct (entry_key l t a Ht o x c p _ Hx Hin Hp eq_refl) as [dl' [-> _]%event_of_inj]. done. }
  constructor; cbn [heap objects mHolders set_object]; rewrite ?Ho, ?Hh; [done|apply Ht|apply Ht|..].
  - intros o' y. rewrite lookup_insert_Some. intros [[_ <-]|[_ Hy]]; [|by apply (tr_world _ _ _ Ht o')]. exact (tr_world _ _ _ Ht o x Hx).
  - intros p e Hp Hd. destruct (Hold p e Hp Hd) as [Hp' Hnot]. destruct (tr_live _ _ _ Ht p e Hp' Hd) as [Hl (k & dl & Hk & ->)].
    split; [done|]. exists k, dl. rewrite lookup_delete_ne; [done|]. apply not_eq_sym. by eapply Hother.
  - intros k dl [Hne Hk]%lookup_delete_Some. destruct (tr_key _ _ _ Ht k dl Hk) as [p Hp]. exists p.
    rewrite He; [done|]. apply (Hother p k dl Hp). congruence.
  - intros p1 p2 k dl1 dl2 H1 H2. apply (tr_one _ _ _ Ht p1 p2 k dl1 dl2); by apply Hold.
  - intros o' y ty p e. rewrite lookup_insert_Some. intros Hy Hin Hp Hd. destruct (Hold p e Hp Hd) as [Hp' _].
    destruct Hy as [[<- <-]|[_ Hy]]; [|by apply (tr_entry _ _ _ Ht o' y ty p)].
    apply list_elem_of_In, filter_In in Hin as [Hin%list_elem_of_In _]. by apply (tr_entry _ _ _ Ht o x ty p).
Qed.

(** [modifyEventTimeAndTimeLeft]. *)
Lemma modify_heap f ps : (forall e : TimedEvent Code, f (f e) = f e) -> forall s s' : Timers Code, modify_events f ps s = Done s' ->
  objects s' = objects s /\ mHolders s' = mHolders s /\
  forall q, (q ∈ ps -> heap s' !! q = f <$> heap s !! q) /\ (q ∉ ps -> heap s' !! q = heap s !! q).
Proof.
  intros Hf. induction ps as [|p ps IH]; cbn [modify_events]; intros s s'; [intros [= <-]; split_and!; [done..|]; intros q; split; [by intros ?%elem_of_nil|done]|].
  intros (e & He & (Ho & Hh & IHq)%IH)%obind_done. split_and!; [done..|]. unfold get_event in He.
  destruct (heap s !! p) as [e'|] eqn:Hp; [injection He as ->|done]. intros q. destruct (IHq q) as [Hin Hout]. cbn [heap put_event set_heap] in *.
  destruct (decide (q = p)) as [->|Hne]; [rewrite lookup_insert_eq in *|rewrite lookup_insert_ne in * by done].
  - split; [|intros []; by left]. intros _. rewrite Hp. destruct (decide (p ∈ ps)) as [H1|H1]; [rewrite (Hin H1); cbn; by rewrite Hf|by rewrite (Hout H1)].
  - split; intros Hq; [apply Hin|apply Hout]; [by apply elem_of_cons in Hq as [|]|by apply not_elem_of_cons in Hq as [_ ?]].
Qed.
Lemma modify_tracks o c time t a : tracks t a -> is_Some (objects t !! o) ->
  exists t', eventModifyTimeAndTimeLeft o (type_of c) time t = Done t' /\ tracks t' (alter (postpone time) (o, c) a) /\ dom (objects t') = dom (objects t).
Proof.
  intros [l Ht] [x Hx]. pose proof (tr_wf _ _ _ Ht) as Hwf. unfold eventModifyTimeAndTimeLeft, eventModify, get_object. rewrite Hx. cbn [obind].
  set (f := set_times _ _). set (ps := map snd (List.filter (of_type (type_of c)) (m_events x))).
  assert (Hps : forall p, p ∈ ps <-> (type_of c, p) ∈ m_events x) by (intros p; by apply (type_entries o x c t)).
  destruct (modify_ok (fun _ _ => time) (fun _ _ => time) ps t Hwf) as (t' & E & Hwf' & _).
  { intros q Hq%cnt_in. pose proof (refs_object o x t q Hx) as Hr. unfold pointers in Hr. rewrite (filter_split (of_type (type_of c))) in Hr.
    fold ps in Hr. pose proof (cnt_nonneg q (map snd (List.filter (fun en => negb (of_type (type_of c) en)) (m_events x)))). lia. }
  exists t'. split; [exact E|]. destruct (modify_heap f ps ltac:(by intros []) _ _ E) as (Ho & Hh & Hheap). split; [|by rewrite Ho]. exists l.
  assert (Hf : forall k dl, f (event_of k dl) = event_of k (postpone time dl)) by done.
  (* an event of the key is modified, one of another key is not *)
  assert (Hmod : forall p k dl, heap t !! p = Some (event_of k dl) ->
    heap t' !! p = Some (event_of k (if decide (k = (o, c)) then postpone time dl else dl))).
  { intros p k dl Hp. destruct (Hheap p) as [Hin Hout]. case_decide as Hk.
    - subst k. rewrite Hin, Hp; [done|]. apply Hps. destruct (live_key l t a Ht p _ dl Hp) as [Hk _].
      destruct (key_owner l t a Ht o c dl Hk) as (q & y & Hq & Hy & Hen). rewrite Hx in Hy. injection Hy as <-. by rewrite (tr_one _ _ _ Ht p q (o, c) dl dl Hp Hq).
    - rewrite Hout; [done|]. intros Hps'%Hps. destruct (entry_key l t a Ht o x c p _ Hx Hps' Hp eq_refl) as [dl' [-> _]%event_of_inj]. done. }
  assert (Hold : forall p e, heap t' !! p = Some e -> deleted e = false -> p ∈ l /\ exists k dl, heap t !! p = Some (event_of k dl) /\ a !! k = Some dl /\
    e = event_of k (if decide (k = (o, c)) then postpone time dl else dl)).
  { intros p e Hp Hd. assert (exists e0, heap t !! p = Some e0 /\ deleted e0 = false) as (e0 & He0 & Hd0).
    { destruct (Hheap p) as [Hin Hout]. destruct (decide (p ∈ ps)) as [H1|H1]; [rewrite (Hin H1) in Hp|rewrite (Hout H1) in Hp; eauto].
      destruct (heap t !! p) as [e0|]; [|done]. injection Hp as <-. exists e0. split; [done|]. by destruct e0. }
    destruct (tr_live _ _ _ Ht p e0 He0 Hd0) as [Hl (k & dl & Hk & ->)]. split; [done|]. exists k, dl. split_and!; [done..|].
    pose proof (Hmod p k dl He0) as Hm. congruence. }
  constructor; rewrite ?Ho, ?Hh; [done|apply Ht..| | | |].
  - intros p e Hp Hd. destruct (Hold p e Hp Hd) as [Hl (k & dl & Hp' & Hk & ->)]. split; [done|]. exists k, (if decide (k = (o, c)) then postpone time dl else dl).
    split; [|done]. case_decide; [subst; by rewrite lookup_alter_eq, Hk|by rewrite lookup_alter_ne].
  - intros k dl Hk. destruct (decide (k = (o, c))) as [->|Hne].
    + rewrite lookup_alter_eq in Hk. destruct (a !! (o, c)) as [dl0|] eqn:Hk0; [|done]. injection Hk as <-.
      destruct (tr_key _ _ _ Ht _ _ Hk0) as [p Hp]. exists p. rewrite (Hmod p _ _ Hp). by rewrite decide_True.
    + rewrite lookup_alter_ne in Hk by done. destruct (tr_key _ _ _ Ht _ _ Hk) as [p Hp]. exists p. rewrite (Hmod p _ _ Hp). by rewrite decide_False.
  - intros p1 p2 k dl1 dl2 H1 H2. destruct (Hold p1 _ H1 eq_refl) as [_ (k1 & d1 & Hp1 & _ & [-> _]%event_of_inj)].
    destruct (Hold p2 _ H2 eq_refl) as [_ (k2 & d2 & Hp2 & _ & [-> _]%event_of_inj)]. by apply (tr_one _ _ _ Ht p1 p2 k2 d1 d2).
  - intros o' y ty p e Hy Hin Hp Hd. destruct (Hold p e Hp Hd) as [_ (k & dl & Hp' & _ & ->)]. by apply (tr_entry _ _ _ Ht o' y ty p _ Hy Hin Hp').
Qed.

(** ** A pass over the events *)

(** The key of a live event. *)
Definition live_of t (p : Addr) : option Key :=
  match heap t !! p with Some e => if deleted e then None else cb e | None => None end.
Lemma live_of_event l t a p k : tracks_list l t a -> live_of t p = Some k <-> exists dl, heap t !! p = Some (event_of k dl) /\ a !! k = Some dl.
Proof.
  intros Ht. unfold live_of. split.
  - destruct (heap t !! p) as [e|] eqn:Hp; [|done]. destruct (deleted e) eqn:Hd; [done|]. intros Hk.
    destruct (tr_live _ _ _ Ht p e Hp Hd) as [_ (k' & dl & Ha & ->)]. injection Hk as ->. by exists dl.
  - by intros (dl & -> & _).
Qed.

(** The event [p] is put anew. *)
Lemma tracks_put l t a p k dl dl' : tracks_list l t a -> heap t !! p = Some (event_of k dl) ->
  tracks_list l (put_event p (event_of k dl') t) (<[k := dl']> a).
Proof.
  intros Ht Hp. destruct (put_ok [] p (event_of k dl) (event_of k dl') t (tr_wf _ _ _ Ht) Hp) as [Hwf _]; [done..|].
  pose proof (live_key l t a Ht p k dl Hp) as [Hk Hl].
  constructor; cbn [heap objects mHolders put_event set_heap]; [done|apply Ht..| | | |].
  - intros q e. rewrite lookup_insert_Some. intros [[<- <-]|[Hne Hq]] Hd; [split; [done|]; exists k, dl'; by rewrite lookup_insert_eq|].
    destruct (tr_live _ _ _ Ht q e Hq Hd) as [Hql (k' & dl1 & Hk' & ->)]. split; [done|]. exists k', dl1. rewrite lookup_insert_ne; [done|].
    intros <-. by destruct Hne; apply (tr_one _ _ _ Ht p q k dl dl1).
  - intros k' dl1. rewrite lookup_insert_Some. intros [[<- <-]|[Hne Hk']]; [exists p; by rewrite lookup_insert_eq|].
    destruct (tr_key _ _ _ Ht k' dl1 Hk') as [q Hq]. exists q. rewrite lookup_insert_ne; [done|]. intros <-. rewrite Hp in Hq. by injection Hq.
  - assert (Hback : forall q k' dl1, <[p := event_of k dl']> (heap t) !! q = Some (event_of k' dl1) -> exists dl2, heap t !! q = Some (event_of k' dl2)).
    { intros q k' dl1. rewrite lookup_insert_Some. intros [[<- E]|[_ Hq]]; [|eauto]. apply event_of_inj in E as [<- _]. by exists dl. }
    intros p1 p2 k' d1 d2 [d3 H1]%Hback [d4 H2]%Hback. by apply (tr_one _ _ _ Ht p1 p2 k' d3 d4).
  - intros o x ty q e Hx Hin. rewrite lookup_insert_Some. intros [[<- <-]|[_ Hq]] Hd; [|by apply (tr_entry _ _ _ Ht o x ty q)].
    by apply (tr_entry _ _ _ Ht o x ty p (event_of k dl)).
Qed.

Lemma without_nodup n (l : list Addr) p : NoDup l -> l !! n = Some p -> NoDup (without n l) /\ forall q, q ∈ without n l <-> q ∈ l /\ q <> p.
Proof.
  intros Hnd Hn. unfold without. rewrite <- (take_drop_middle l n p Hn) in Hnd. pose proof (take_drop_middle l n p Hn) as E.
  apply NoDup_app in Hnd as (H1 & H2 & H3). apply NoDup_cons in H3 as [H3 H4]. split.
  - apply NoDup_app. split_and!; [done| |done]. intros q Hq Hq'. apply (H2 q Hq). by right.
  - intros q. rewrite <- E at 3. rewrite !elem_of_app, elem_of_cons. split.
    + intros [Hq|Hq]; (split; [tauto|]); intros ->; [apply (H2 p Hq); by left|done].
    + intros [[Hq|[->|Hq]] Hne]; tauto.
Qed.
(** The event [p] is dropped and its entry erased. *)
Lemma tracks_drop l t a n p s : tracks_list l t a -> l !! n = Some p -> local [p] t s -> dead p s -> wf (erase_at (-1) n s) ->
  tracks_list (without n l) (erase_at (-1) n s) (match live_of t p with Some k => delete k a | None => a end).
Proof.
  intros Ht Hn [Ho Hh He] Hdead Hwf. destruct (without_nodup n l p (tr_once _ _ _ Ht) Hn) as [Hnd Hin].
  assert (Hother : forall q, q <> p -> heap s !! q = heap t !! q) by (intros q Hq; apply He; by rewrite list_elem_of_singleton).
  assert (Hold : forall q e, heap s !! q = Some e -> deleted e = false -> heap t !! q = Some e /\ q <> p).
  { intros q e Hq Hd. assert (Hne : q <> p) by (intros ->; unfold dead in Hdead; rewrite Hq in Hdead; congruence). by rewrite <- Hother. }
  set (a' := match live_of t p with Some _ => _ | None => _ end).
  assert (Ha' : forall k dl, a' !! k = Some dl <-> a !! k = Some dl /\ live_of t p <> Some k).
  { intros k dl. unfold a'. destruct (live_of t p) as [k0|]; [rewrite lookup_delete_Some|]; intuition congruence. }
  assert (Hl : holder_list (-1) s = l) by (apply holder_list_some; rewrite Hh; apply Ht).
  unfold erase_at in *. rewrite Hl in *. fold (without n l) in *. constructor; cbn [heap objects mHolders set_holder]; rewrite ?Ho, ?Hh; [done| |done|apply Ht|..].
  - by rewrite lookup_insert_eq.
  - intros q e Hq Hd. destruct (Hold q e Hq Hd) as [Hq' Hne]. destruct (tr_live _ _ _ Ht q e Hq' Hd) as [Hql (k & dl & Hk & ->)].
    split; [by apply Hin|]. exists k, dl. split; [|done]. apply Ha'. split; [done|].
    intros (dl' & Hp & _)%(live_of_event l t a p k Ht). by apply Hne, (tr_one _ _ _ Ht q p k dl dl').
  - intros k dl [Hk Hne]%Ha'. destruct (tr_key _ _ _ Ht k dl Hk) as [q Hq]. exists q. rewrite Hother; [done|]. intros ->.
    apply Hne, (live_of_event l t a p k Ht). by exists dl.
  - intros p1 p2 k d1 d2 H1 H2. apply (tr_one _ _ _ Ht p1 p2 k d1 d2); by apply Hold.
  - intros o x ty q e Hx Hen Hq Hd. apply (tr_entry _ _ _ Ht o x ty q); [done..| |done]. by apply Hold.
Qed.

(** A program whose methods change its own state only. *)
Section Pass.
Context {World : Type} (method : Addr -> Code -> World -> World) (d : Z).
Implicit Types w : World.
Definition only_runs (o : Addr) (c : Code) (_ : Timers Code) w : list (Call Code) * World := ([], method o c w).
Definition run_key w k : World := method k.1 k.2 w.
Abbreviation visit := (visit only_runs (-1) d).
Abbreviation update_from := (update_from only_runs (-1) d).
Definition tick_key k a : Deadlines := partial_alter (fun v => v ≫= tick d k) k a.

Lemma tick_key_some k dl a : a !! k = Some dl -> tick_key k a = match tick d k dl with Some dl' => <[k := dl']> a | None => delete k a end.
Proof.
  intros Hk. unfold tick_key. apply map_eq. intros k'. destruct (decide (k' = k)) as [->|Hne].
  - rewrite lookup_partial_alter_eq, Hk. cbn. destruct (tick d k dl); [by rewrite lookup_insert_eq|by rewrite lookup_delete_eq].
  - rewrite lookup_partial_alter_ne by done. destruct (tick d k dl); [by rewrite lookup_insert_ne|by rewrite lookup_delete_ne].
Qed.

Lemma refused_event k dl : refused (-1) (event_of k dl) = false.
Proof. unfold refused, event_of, flags_of. cbn [eventFlag]. by destruct (one_shot k.2). Qed.
(** What the turn for [p] does to its key. *)
Definition turned (p : Addr) t a w fired a' w' : Prop :=
  match live_of t p with
  | Some k => exists dl, a !! k = Some dl /\ a' = tick_key k a /\ fired = (left dl <=? d) /\ w' = if fired : bool then run_key w k else w
  | None => a' = a /\ fired = false /\ w' = w
  end.

Lemma visit_live l t a p k dl w : tracks_list l t a -> heap t !! p = Some (event_of k dl) ->
  exists v, visit p t w = Done v /\ fired v = (left dl <=? d) /\ world v = (if left dl <=? d then run_key w k else w) /\
    match tick d k dl with
    | Some dl' => keep v = true /\ after v = put_event p (event_of k dl') t
    | None => keep v = false /\ local [p] t (after v) /\ dead p (after v)
    end.
Proof.
  intros Ht Hp. destruct k as [o c]. unfold Timers.visit. rewrite (get_event_some _ _ _ Hp). cbn [obind]. rewrite refused_event.
  cbn [event_of instanceId deleted negb orb Z.eqb Pos.eqb currTime cb eventFlag].
  unfold tick. destruct (left dl <=? d) eqn:Ed; cbn [snd]; [|eexists; split; [done|]; by split_and!].
  destruct (key_owner l t a Ht o c dl) as (_ & x & _ & Hx & _); [by apply (live_key l t a Ht p)|].
  unfold run_cb. rewrite Hx. cbn [only_runs run_calls obind]. unfold flags_of.
  assert (Hdrop : forall e s, ref e = 2 -> local [p] t s -> heap s !! p = Some e -> exists s', decRef p s = Done s' /\ local [p] t s' /\ dead p s').
  { intros e s He Hl Hs. unfold decRef. rewrite (get_event_some _ _ _ Hs). destruct e. cbn in *. subst. eexists. split; [done|]. split.
    - destruct Hl as [H1 H2 H3]. constructor; [done..|]. intros q Hq. cbn. rewrite lookup_insert_ne; [by apply H3|]. intros <-. apply Hq. left.
    - unfold dead. cbn. by rewrite lookup_insert_eq. }
  destruct (one_shot c);
    [change (negb (Z.land EVENT_FLAG_DELETES_OBJECT EVENT_FLAG_DELETES_OBJECT =? 0)) with true|change (negb (Z.land 0 EVENT_FLAG_DELETES_OBJECT =? 0)) with false]; cbn beta iota.
  - destruct (Hdrop (event_of (o, c) dl) t) as (s' & Es & Hs1 & Hs2); [done|by constructor|done|]. cbn in Es. rewrite Es. cbn [obind].
    eexists. split; [done|]. by split_and!.
  - rewrite (get_event_some _ _ _ Hp). cbn [obind event_of]. unfold again. rewrite orb_false_r.
    destruct (_ && _) eqn:E.
    + set (e := mkEvent _ _ _ _ _ _ _ _ _) in *.
      destruct (Hdrop e (put_event p e t)) as (s' & Es & Hs1 & Hs2); [done|apply local_put|by cbn; rewrite lookup_insert_eq|]. rewrite Es. cbn [obind].
      eexists. split; [done|]. by split_and!.
    + eexists. split; [done|]. by split_and!.
Qed.

Lemma visit_dead l t a p w : tracks_list l t a -> p ∈ l -> live_of t p = None ->
  exists s, visit p t w = Done (mkVisit false false s w) /\ local [p] t s /\ dead p s.
Proof.
  intros Ht Hl Hnone. pose proof (tr_wf _ _ _ Ht) as Hwf.
  assert (Hcnt : cnt p [] < cnt p (refs t)).
  { rewrite cnt_nil. pose proof (refs_holder _ _ t p (tr_holder _ _ _ Ht)). apply cnt_in in Hl. lia. }
  destruct (wf_lookup [] t p Hwf Hcnt) as [e He]. destruct (decRef_ok [] t p Hwf Hcnt) as (s & Es & _ & _ & Hdead).
  exists s. split_and!; [|by eapply decRef_local|done]. unfold Timers.visit. rewrite (get_event_some _ _ _ He). cbn [obind].
  unfold live_of in Hnone. rewrite He in Hnone. destruct (deleted e) eqn:Hd.
  - rewrite orb_true_r. cbn [orb]. by rewrite Es.
  - destruct (tr_live _ _ _ Ht p e He Hd) as [_ (k & dl & _ & ->)]. done.
Qed.

Lemma visit_objects p t w v : visit p t w = Done v -> objects (after v) = objects t.
Proof.
  intros Hv. destruct (visit_frame _ _ _ _ _ _ _ Hv) as [[Hl _]|(e & o & c & s1 & w1 & _ & _ & Hcb & Hl & _)]; rewrite (local_objects _ _ _ Hl); [done|].
  unfold run_cb in Hcb. destruct (objects t !! o); [|done]. by injection Hcb as <- _.
Qed.

(** One turn of the loop. *)
Lemma turn_tracks l t a n p w : tracks_list l t a -> l !! n = Some p ->
  exists v a', visit p t w = Done v /\ turned p t a w (fired v) a' (world v) /\
    tracks_list (if keep v then l else without n l) (next_state (-1) v n) a' /\ objects (next_state (-1) v n) = objects t /\
    forall q, q <> p -> live_of (next_state (-1) v n) q = live_of t q.
Proof.
  intros Ht Hn. enough (Hcore : exists v a', visit p t w = Done v /\ turned p t a w (fired v) a' (world v) /\
    tracks_list (if keep v then l else without n l) (next_state (-1) v n) a' /\ forall q, q <> p -> live_of (next_state (-1) v n) q = live_of t q).
  { destruct Hcore as (v & a' & Hv & H1 & H2 & H3). exists v, a'. split_and!; [done..| |done]. apply visit_objects in Hv.
    unfold next_state. by destruct (keep v). }
  pose proof (list_elem_of_lookup_2 _ _ _ Hn) as Hl.
  assert (Hdrop : forall s w0 fired, visit p t w = Done (mkVisit false fired s w0) -> local [p] t s -> dead p s -> tracks_list (without n l) (erase_at (-1) n s) (match live_of t p with Some k => delete k a | None => a end) /\
      forall q, q <> p -> live_of (erase_at (-1) n s) q = live_of t q).
  { intros s w0 f Hv Hlocal Hdead. split.
    - apply (tracks_drop l t a n p s); try done. by destruct (turn_ok only_runs (-1) d n p l t _ _ (tr_wf _ _ _ Ht) (tr_holder _ _ _ Ht) Hn Hv).
    - intros q Hq. unfold live_of. cbn. by rewrite (local_heap _ _ _ Hlocal) by (by rewrite list_elem_of_singleton). }
  unfold turned. destruct (live_of t p) as [k|] eqn:Hk.
  - apply (live_of_event l t a p k Ht) in Hk as (dl & Hp & Ha). destruct (visit_live l t a p k dl w Ht Hp) as ([kp f s w'] & Hv & Hf & Hw & Hs).
    cbn [keep fired after world] in *. unfold next_state. cbn [keep after]. exists (mkVisit kp f s w'), (tick_key k a). split; [done|]. cbn [keep fired after world].
    split; [exists dl; by subst|]. rewrite (tick_key_some k dl a Ha). destruct (tick d k dl) as [dl'|].
    + destruct Hs as [-> ->]. split; [by eapply tracks_put|]. intros q Hq. unfold live_of. cbn. by rewrite lookup_insert_ne.
    + destruct Hs as (-> & Hs1 & Hs2). apply (Hdrop s w' f); eauto.
  - destruct (visit_dead l t a p w Ht Hl Hk) as (s & Hv & Hs1 & Hs2). eexists _, a. split; [exact Hv|]. split; [done|].
    apply (Hdrop s w false); auto.
Qed.

(** The rest of the loop: the keys of the events from index [n] on are
    visited in this order. *)
Definition keys t (l : list Addr) : list Key := omap (live_of t) l.
Definition due_now a k : bool := match a !! k with Some dl => left dl <=? d | None => false end.

Lemma keys_nodup l t a l' : tracks_list l t a -> NoDup l' -> NoDup (keys t l').
Proof.
  intros Ht. unfold keys. induction 1 as [|p l' Hp Hnd IH]; [constructor|]. cbn.
  destruct (live_of t p) as [k|] eqn:Hk; [|done]. constructor; [|done].
  intros (q & Hq & Hqk)%list_elem_of_omap. apply (live_of_event l t a p k Ht) in Hk as (dl1 & H1 & _).
  apply (live_of_event l t a q k Ht) in Hqk as (dl2 & H2 & _). by rewrite (tr_one _ _ _ Ht p q k dl1 dl2 H1 H2) in Hp.
Qed.
Lemma keys_same t t' l : (forall p, p ∈ l -> live_of t' p = live_of t p) -> keys t' l = keys t l.
Proof.
  unfold keys. induction l as [|p l IH]; [done|]. intros Hl. cbn. rewrite (Hl p) by left. rewrite IH; [done|]. intros q Hq. apply Hl. by right.
Qed.
Lemma keys_app t l1 l2 : keys t (l1 ++ l2) = keys t l1 ++ keys t l2.
Proof. apply omap_app. Qed.
Lemma tick_key_ne k k' a : k' <> k -> tick_key k a !! k' = a !! k'.
Proof. intros Hne. unfold tick_key. by rewrite lookup_partial_alter_ne. Qed.

Lemma drop_without n (l : list Addr) (kp : bool) : (n < length l)%nat ->
  drop (if kp then S n else n) (if kp then l else without n l) = drop (S n) l.
Proof.
  intros Hn. destruct kp; [done|]. unfold without. rewrite drop_app_ge; rewrite length_take_le by lia; [|lia]. by rewrite Nat.sub_diag.
Qed.

Lemma loop_tracks fuel : forall n t a w l, tracks_list l t a -> (n <= length l)%nat -> (length l - n < fuel)%nat ->
  exists hits t' l', update_from fuel n t w = Done (hits, t', fold_left run_key (List.filter (due_now a) (keys t (drop n l))) w) /\
    tracks_list l' t' (fold_left (fun a k => tick_key k a) (keys t (drop n l)) a) /\ objects t' = objects t.
Proof.
  induction fuel as [|fuel IH]; intros n t a w l Ht Hn Hf; [lia|]. cbn [Timers.update_from]. rewrite (holder_list_some _ _ _ (tr_holder _ _ _ Ht)).
  destruct (l !! n) as [p|] eqn:Hp; cycle 1.
  { apply lookup_ge_None in Hp. rewrite drop_ge by lia. cbn. by exists [], t, l. }
  destruct (turn_tracks l t a n p w Ht Hp) as (v & a' & Hv & Hturn & Ht' & Hobj & Hsame). rewrite Hv. cbn [obind]. fold (next_state (-1) v n).
  pose proof (lookup_lt_Some _ _ _ Hp) as Hlt. rewrite (drop_S l p n Hp). change (p :: drop (S n) l) with ([p] ++ drop (S n) l).
  rewrite keys_app. pose proof (tr_once _ _ _ Ht) as Hnd.
  rewrite <- (take_drop_middle l n p Hp) in Hnd. apply NoDup_app in Hnd as (_ & _ & [Hpn Hnd']%NoDup_cons).
  (* the turn, in terms of the keys *)
  assert (Hhead : a' = fold_left (fun a k => tick_key k a) (keys t [p]) a /\
    world v = fold_left run_key (List.filter (due_now a) (keys t [p])) w /\
    forall k, k ∈ keys t (drop (S n) l) -> due_now a' k = due_now a k).
  { unfold turned in Hturn. unfold keys at 1 2. cbn. destruct (live_of t p) as [k|] eqn:Hk; [|by destruct Hturn as (-> & _ & ->)].
    destruct Hturn as (dl & Ha & -> & Hfired & ->). split; [done|]. split; [cbn; unfold due_now; rewrite Ha, <- Hfired; by destruct (fired v)|].
    intros k' Hk'. unfold due_now. rewrite tick_key_ne; [done|]. intros ->. apply (live_of_event l t a p k Ht) in Hk as (dl1 & H1 & _).
    apply list_elem_of_omap in Hk' as (q & Hq & Hqk). apply (live_of_event l t a q k Ht) in Hqk as (dl2 & H2 & _).
    by rewrite (tr_one _ _ _ Ht p q k dl1 dl2 H1 H2) in Hpn. }
  destruct Hhead as (Ha' & Hw' & Hdue). rewrite List.filter_app, !fold_left_app, <- Ha', <- Hw'.
  destruct (Nat.eqb_spec (S n) (length l)) as [Elast|Elast]; [rewrite drop_ge by lia; cbn; eauto 10|].
  pose proof (drop_without n l (keep v) Hlt) as Hdrop. set (l2 := if keep v then l else _) in *. set (m := if keep v then S n else n) in *.
  assert (Hlen : (m <= length l2)%nat /\ (length l2 - m < fuel)%nat).
  { unfold l2, m, without. destruct (keep v); rewrite ?length_app, ?length_take, ?length_drop; lia. }
  destruct (IH m (next_state (-1) v n) a' (world v) l2 Ht' (proj1 Hlen) (proj2 Hlen)) as (hits & t' & l' & Hu & Hl' & Hobj').
  rewrite Hdrop in *. assert (Hkeys : keys (next_state (-1) v n) (drop (S n) l) = keys t (drop (S n) l)).
  { apply keys_same. intros q Hq. apply Hsame. intros ->. done. }
  rewrite Hkeys in *. rewrite Hu. cbn [obind]. eexists _, t', l'. split; [|split; [done|congruence]].
  rewrite (List.filter_ext_in (due_now a') (due_now a)); [done|]. intros k Hk%list_elem_of_In. auto.
Qed.

Lemma ticks_lookup ks : NoDup ks -> forall a k, fold_left (fun a k => tick_key k a) ks a !! k = if decide (k ∈ ks) then a !! k ≫= tick d k else a !! k.
Proof.
  induction 1 as [|k0 ks Hk0 _ IH]; intros a k; cbn [fold_left]; [by rewrite decide_False by apply not_elem_of_nil|].
  rewrite IH. destruct (decide (k = k0)) as [->|Hne].
  - rewrite decide_False, decide_True by (done || left). unfold tick_key. by rewrite lookup_partial_alter_eq.
  - rewrite tick_key_ne by done. destruct (decide (k ∈ ks)); [rewrite decide_True by (by right)|rewrite decide_False by (rewrite elem_of_cons; tauto)]; done.
Qed.

(** A pass does not fail, fires each method that is due once, and leaves the
    rest with less time. *)
Theorem pass_tracks fuel t a w : tracks t a -> (length (holder_list (-1) t) < fuel)%nat ->
  exists hits t' ks, update only_runs (-1) d fuel t w = Done (hits, t', fold_left run_key ks w) /\
    NoDup ks /\ (forall k, k ∈ ks <-> due d a k) /\ tracks t' (pass d a) /\ objects t' = objects t.
Proof.
  intros [l Ht] Hf. rewrite (holder_list_some _ _ _ (tr_holder _ _ _ Ht)) in Hf.
  destruct (loop_tracks fuel 0 t a w l Ht) as (hits & t' & l' & Hu & Ht' & Hobj); [lia..|]. rewrite drop_0 in *.
  pose proof (keys_nodup l t a l Ht (tr_once _ _ _ Ht)) as Hnd.
  assert (Hkeys : forall k, k ∈ keys t l <-> is_Some (a !! k)).
  { intros k. unfold keys. rewrite list_elem_of_omap. split.
    - intros (p & _ & (dl & _ & Ha)%(live_of_event l t a p k Ht)). by exists dl.
    - intros [dl Ha]. destruct (tr_key _ _ _ Ht k dl Ha) as [p Hp]. exists p.
      split; [by apply (live_key l t a Ht p k dl)|]. apply (live_of_event l t a p k Ht). by exists dl. }
  eexists hits, t', _. split; [exact Hu|]. split_and!; [by apply NoDup_ListNoDup, List.NoDup_filter, NoDup_ListNoDup| | |done].
  - intros k. rewrite list_elem_of_In, filter_In, <- list_elem_of_In, Hkeys. unfold due, due_now.
    destruct (a !! k) as [dl|]; [rewrite Z.leb_le|]; split; [intros [_ Hd]; eauto|intros (dl' & [= ->] & Hd); eauto|by intros [[? ?] _]|by intros (? & ? & _)].
  - exists l'. replace (pass d a) with (fold_left (fun a k => tick_key k a) (keys t l) a); [done|].
    apply map_eq. intros k. rewrite ticks_lookup by done. unfold pass. rewrite map_lookup_imap.
    case_decide as Hk; [done|]. rewrite Hkeys in Hk. by destruct (a !! k); [destruct Hk|].
Qed.
End Pass.
End Deadlines.
