(* ===== verification/GateServer.v ===== *)
(** * gateserver: admission and routing of users

    [UserManager] (user_manager.cpp), the states of a [UserSession]
    (user_session.cpp), the game servers of a gate (game_manager.cpp,
    game_client.cpp) and the messages of the login server (login_client.cpp).
    What the gate sends is a list of [Out]. *)
From stdpp Require Import gmap.
From S2P Require Import Prelude.

Definition INVALID_ACCOUNT : Z := 0.
Definition INVALID_GAME_ID : Z := 0.
Definition INVALID_TRANS_ID : Z := 0.
Definition MAX_GAME_ID : Z := 255.

(** Sessions and connections to game servers, by address.  A session object
    comes from a pool and is never deleted. *)
Abbreviation SessId := positive.
Abbreviation Conn := positive.

Inductive State := _disable_ | _wait_account_ | _connect_ | _wait_close_.
#[export] Instance State_eq_dec : EqDecision State.
Proof. solve_decision. Defined.

Record UserSession := mkUserSession { m_tranid : Z; m_gs_id : Z; m_state : State; _channel : Z }.

(** [GateGameClient::GameInfo]. *)
Record GameInfo := mkGameInfo { game_id : Z; onlines : Z }.

(** Events of the manager that wait for their time. *)
Inductive Pending := eventCallRemoveWait (t : Z) | eventCallRemoveReconn (t : Z).
#[export] Instance Pending_eq_dec : EqDecision Pending.
Proof. solve_decision. Defined.

Record Gate := mkGate {
  sessions : gmap SessId UserSession;
  m_onlines : gmap Z SessId;
  m_onlineaccs : gmap Z Z;
  m_wait_map : gmap Z Z;
  m_wait_map_channel : gmap Z Z;
  m_recon_map : gmap Z Z;
  games : gmap Conn GameInfo;
  m_activeGames : gmap Z Conn;
  pending : list Pending
}.

Definition set_sessions v (g : Gate) := mkGate v (m_onlines g) (m_onlineaccs g) (m_wait_map g) (m_wait_map_channel g) (m_recon_map g) (games g) (m_activeGames g) (pending g).
Definition set_onlines v (g : Gate) := mkGate (sessions g) v (m_onlineaccs g) (m_wait_map g) (m_wait_map_channel g) (m_recon_map g) (games g) (m_activeGames g) (pending g).
Definition set_onlineaccs v (g : Gate) := mkGate (sessions g) (m_onlines g) v (m_wait_map g) (m_wait_map_channel g) (m_recon_map g) (games g) (m_activeGames g) (pending g).
Definition set_wait_map v (g : Gate) := mkGate (sessions g) (m_onlines g) (m_onlineaccs g) v (m_wait_map_channel g) (m_recon_map g) (games g) (m_activeGames g) (pending g).
Definition set_wait_map_channel v (g : Gate) := mkGate (sessions g) (m_onlines g) (m_onlineaccs g) (m_wait_map g) v (m_recon_map g) (games g) (m_activeGames g) (pending g).
Definition set_recon_map v (g : Gate) := mkGate (sessions g) (m_onlines g) (m_onlineaccs g) (m_wait_map g) (m_wait_map_channel g) v (games g) (m_activeGames g) (pending g).
Definition set_games v (g : Gate) := mkGate (sessions g) (m_onlines g) (m_onlineaccs g) (m_wait_map g) (m_wait_map_channel g) (m_recon_map g) v (m_activeGames g) (pending g).
Definition set_activeGames v (g : Gate) := mkGate (sessions g) (m_onlines g) (m_onlineaccs g) (m_wait_map g) (m_wait_map_channel g) (m_recon_map g) (games g) v (pending g).
Definition set_pending v (g : Gate) := mkGate (sessions g) (m_onlines g) (m_onlineaccs g) (m_wait_map g) (m_wait_map_channel g) (m_recon_map g) (games g) (m_activeGames g) v.

(** Messages to a game server, to the login server and to a client; the
    payload of a client's own messages is left open. *)
Inductive GameMsg := AddUser (t a channel : Z) | RemoveUser (t : Z) | OfflineUser (t : Z) | Forward (t payload : Z).
Inductive LoginMsg := Prepar (t : Z) | Onlines (n : Z) | Register (accounts : gmap Z Z).
Inductive Out := ToGame (c : Conn) (m : GameMsg) | ToLogin (m : LoginMsg) | ToClient (s : SessId) (payload : Z).

(** ** obj_map *)

(** [addData] keeps an entry that is there. *)
Definition addData {V} (k : Z) (v : V) (m : gmap Z V) : gmap Z V :=
  match m !! k with Some _ => m | None => <[k := v]> m end.
Definition eraseValue (v : Z) (m : gmap Z Z) : gmap Z Z := filter (fun kv => kv.2 <> v) m.
(** [getKey]: the first key, in ascending order, with this value. *)
Definition getKey (v : Z) (m : gmap Z Z) : option Z :=
  foldr (fun kv acc => if kv.2 =? v then Some (match acc with Some k => Z.min kv.1 k | None => kv.1 end) else acc) None (map_to_list m).

Section Gate.
(** [gGateServer.getGSIdleMax()]. *)
Context (GSIdleMax : Z).

(** ** GameManager *)
Definition valid_game (id : Z) : bool := (id >? INVALID_GAME_ID) && (id <? MAX_GAME_ID).
Definition getGameClient (gs : Z) (g : Gate) : option Conn := if valid_game gs then m_activeGames g !! gs else None.
Definition getOnlines (c : Conn) (g : Gate) : Z := match games g !! c with Some i => onlines i | None => 0 end.

Fixpoint idle_loop (ids : list Z) (pkConn : option Conn) (g : Gate) : option Conn :=
  match ids with
  | [] => pkConn
  | i :: ids =>
      match m_activeGames g !! i, pkConn with
      | Some c, None => if getOnlines c g <? GSIdleMax then Some c else idle_loop ids (Some c) g
      | Some c, Some p =>
          if getOnlines p g >? getOnlines c g then
            if getOnlines c g <? GSIdleMax then Some c else idle_loop ids (Some c) g
          else idle_loop ids pkConn g
      | None, _ => idle_loop ids pkConn g
      end
  end.
Definition getIdleGameClient (g : Gate) : option Conn := idle_loop (seqZ 0 MAX_GAME_ID) None g.

Definition isGamesStop (g : Gate) : bool := forallb (fun i => bool_decide (m_activeGames g !! i = None)) (seqZ 0 MAX_GAME_ID).

(** Sends to the game server with an id, if it is there. *)
Definition to_game (gs : Z) (m : GameMsg) (g : Gate) : list Out :=
  match getGameClient gs g with Some c => [ToGame c m] | None => [] end.

(** ** UserSession *)
Definition no_session : UserSession := mkUserSession INVALID_TRANS_ID INVALID_GAME_ID _disable_ 0.
Definition session (s : SessId) (g : Gate) : UserSession := default no_session (sessions g !! s).
Definition on_session (s : SessId) (f : UserSession -> UserSession) (g : Gate) : Gate :=
  set_sessions (<[s := f (session s g)]> (sessions g)) g.
Definition setState (st : State) (u : UserSession) : UserSession :=
  match st with
  | _disable_ => mkUserSession INVALID_TRANS_ID INVALID_GAME_ID st (_channel u)
  | _ => mkUserSession (m_tranid u) (m_gs_id u) st (_channel u)
  end.
Definition setGSid (gs : Z) (u : UserSession) : UserSession := mkUserSession (m_tranid u) gs (m_state u) (_channel u).
Definition setTrans (t : Z) (u : UserSession) : UserSession := mkUserSession t (m_gs_id u) (m_state u) (_channel u).
Definition set_channel (c : Z) (u : UserSession) : UserSession := mkUserSession (m_tranid u) (m_gs_id u) (m_state u) c.
Definition is_open (u : UserSession) : Prop := m_state u <> _disable_.

(** ** UserManager *)

(** [p->close()] in here only posts the close, which comes as [Closed]. *)
Definition kickUser (t a : Z) (g : Gate) : Gate * list Out :=
  match m_onlines g !! t with
  | Some p =>
      (set_onlineaccs (delete a (m_onlineaccs g)) (set_onlines (delete t (m_onlines g)) g),
       to_game (m_gs_id (session p g)) (RemoveUser t) g)
  | None =>
      let g1 := set_wait_map_channel (delete t (m_wait_map_channel g)) (set_wait_map (delete t (m_wait_map g)) g) in
      let g2 := match m_wait_map g !! t with
                | Some v => if v =? INVALID_ACCOUNT then g1 else set_onlineaccs (delete v (m_onlineaccs g1)) g1
                | None => g1
                end in
      match m_recon_map g2 !! t with
      | Some gs => (set_recon_map (delete t (m_recon_map g2)) g2, to_game gs (RemoveUser t) g2)
      | None => (g2, [])
      end
  end.

Definition addToWait (t a c : Z) (g : Gate) : Gate * list Out :=
  let '(g, out) := match m_onlines g !! t with
                   | Some p => kickUser t a (on_session p (set_channel c) g)
                   | None => (g, [])
                   end in
  let g := set_wait_map_channel (addData t c (m_wait_map_channel g)) (set_wait_map (addData t a (m_wait_map g)) g) in
  (set_pending (eventCallRemoveWait t :: pending g) g, out ++ [ToLogin (Prepar t)]).

Definition removeWait (t : Z) (g : Gate) : Gate :=
  set_wait_map_channel (delete t (m_wait_map_channel g)) (set_wait_map (delete t (m_wait_map g)) g).
Definition removeReconn (t : Z) (g : Gate) : Gate * list Out :=
  let gsid := default INVALID_GAME_ID (m_recon_map g !! t) in
  let g := set_onlineaccs (eraseValue t (m_onlineaccs g)) (set_recon_map (delete t (m_recon_map g)) g) in
  (g, if gsid =? INVALID_GAME_ID then [] else to_game gsid (RemoveUser t) g).

(** [removeUsers]: the users of a game server that has gone.  The loop walks
    over a copy of [m_onlines], which itself stays as it is. *)
Definition removeUser_of (gs : Z) (p : SessId) (g : Gate) : Gate :=
  if m_gs_id (session p g) =? gs then on_session p (setState _wait_close_) g else g.
Definition removeUsers (gs : Z) (g : Gate) : Gate :=
  let g := foldr (fun tp g => removeUser_of gs tp.2 g) g (map_to_list (m_onlines g)) in
  set_recon_map (eraseValue gs (m_recon_map g)) g.

Definition checkClose (p : SessId) (g : Gate) : Gate * list Out :=
  let tranid := m_tranid (session p g) in
  let gsid := m_gs_id (session p g) in
  let g := set_onlines (delete tranid (m_onlines g)) g in
  let '(g, out) :=
    match getGameClient gsid g with
    | Some gs => if decide (m_state (session p g) = _connect_)
                 then (set_recon_map (addData tranid gsid (m_recon_map g)) g, [ToGame gs (OfflineUser tranid)])
                 else (set_onlineaccs (eraseValue tranid (m_onlineaccs g)) g, [ToGame gs (RemoveUser tranid)])
    | None => (set_onlineaccs (eraseValue tranid (m_onlineaccs g)) g, [])
    end in
  (set_pending (eventCallRemoveReconn tranid :: pending g) g, out).

Definition checkConn (t : Z) (p : SessId) (g : Gate) : bool * Gate * list Out :=
  match m_wait_map g !! t with
  | Some v =>
      let channel := default 0 (m_wait_map_channel g !! t) in
      let g := set_wait_map_channel (delete t (m_wait_map_channel g)) (set_wait_map (delete t (m_wait_map g)) g) in
      match getIdleGameClient g with
      | None => (false, on_session p (setState _wait_close_) g, [])
      | Some c =>
          let id := match games g !! c with Some i => game_id i | None => 0 end in
          let g := on_session p (fun u => setState _connect_ (setGSid id u)) g in
          (true, set_onlineaccs (addData v t (m_onlineaccs g)) (set_onlines (addData t p (m_onlines g)) g),
           [ToGame c (AddUser t v channel)])
      end
  | None =>
      match m_recon_map g !! t with
      | Some gs =>
          let g := on_session p (fun u => setState _connect_ (setGSid gs u)) (set_recon_map (delete t (m_recon_map g)) g) in
          (true, set_onlines (addData t p (m_onlines g)) g, [])
      | None => (false, on_session p (setState _wait_close_) g, [])
      end
  end.

Definition getAccount (t : Z) (g : Gate) : Z := default INVALID_ACCOUNT (getKey t (m_onlineaccs g)).

(** ** Handlers *)

(** [UserSession::parseLoginGame], without its ping timers. *)
Definition parseLoginGame (s : SessId) (t : Z) (g : Gate) : Gate * list Out :=
  if decide (m_state (session s g) = _connect_) then (g, [])
  else let '(ok, g, out) := checkConn t s g in
       (if ok : bool then on_session s (setTrans t) g else g, out).
Definition user_parseGameMsg (s : SessId) (payload : Z) (g : Gate) : list Out :=
  to_game (m_gs_id (session s g)) (Forward (m_tranid (session s g)) payload) g.
Definition on_accept (s : SessId) (g : Gate) : Gate := on_session s (setState _wait_account_) g.
Definition on_close (s : SessId) (g : Gate) : Gate * list Out :=
  let '(g, out) := checkClose s g in (on_session s (setState _disable_) g, out).

(** [GateGameClient]. *)
Definition game_parseGameMsg (t payload : Z) (g : Gate) : list Out :=
  match m_onlines g !! t with Some p => [ToClient p payload] | None => [] end.
Definition parseChangeGS (c : Conn) (t gs : Z) (g : Gate) : Gate * list Out :=
  match m_onlines g !! t with
  | None => (g, [])
  | Some p =>
      let gs := u16 gs in
      match getGameClient gs g with
      | None => (g, [])
      | Some new =>
          let u := session p g in
          let a := getAccount (m_tranid u) g in
          if a =? INVALID_ACCOUNT then (g, [ToGame c (RemoveUser (m_tranid u))])
          else (on_session p (setGSid gs) g,
                [ToGame c (RemoveUser (m_tranid u)); ToGame new (AddUser (m_tranid u) a (_channel u))])
      end
  end.
Definition addActiveGameClient (c : Conn) (id : Z) (g : Gate) : Gate :=
  if valid_game id then set_activeGames (<[id := c]> (m_activeGames g)) g else g.
Definition parseGameRegister (c : Conn) (serverid : Z) (g : Gate) : Gate :=
  let id := u8 serverid in
  let n := getOnlines c g in
  addActiveGameClient c id (set_games (<[c := mkGameInfo id n]> (games g)) g).
Definition parseGameOnlines (c : Conn) (n : Z) (g : Gate) : Gate :=
  let id := match games g !! c with Some i => game_id i | None => 0 end in
  set_games (<[c := mkGameInfo id n]> (games g)) g.
Definition removeActiveGameClient (c : Conn) (g : Gate) : Gate :=
  let id := match games g !! c with Some i => game_id i | None => 0 end in
  if valid_game id && bool_decide (m_activeGames g !! id = Some c)
  then let g := removeUsers id g in set_activeGames (delete id (m_activeGames g)) g
  else g.

(** ** Events

    What reaches a gate, in any order: messages of the login server, of
    clients and of game servers, connections that open and close (by the
    client, by a timer or by the gate itself), and timers. *)
Inductive Event :=
  | LoginUser (t a c : Z)
  | LoginKick (t a : Z)
  | LoginConnected
  | Accept (s : SessId)
  | Login (s : SessId) (t : Z)
  | ClientMsg (s : SessId) (payload : Z)
  | Closed (s : SessId)
  | Timer (e : Pending)
  | TellLogin
  | GameUp (c : Conn) (serverid : Z)
  | GameOnlines (c : Conn) (n : Z)
  | GameDown (c : Conn)
  | GameMessage (c : Conn) (t payload : Z)
  | ChangeGS (c : Conn) (t gs : Z).

(** When an event can happen: sessions are accepted closed, speak and close
    open; a timer fires once. *)
Definition possible (e : Event) (g : Gate) : Prop :=
  match e with
  | Accept s => m_state (session s g) = _disable_
  | Login s _ | ClientMsg s _ | Closed s => is_open (session s g)
  | Timer e => e ∈ pending g
  | _ => True
  end.
#[export] Instance possible_dec e g : Decision (possible e g).
Proof. unfold possible, is_open. destruct e; apply _. Defined.

Fixpoint remove_one (e : Pending) (l : list Pending) : list Pending :=
  match l with [] => [] | e' :: l' => if decide (e = e') then l' else e' :: remove_one e l' end.

Definition handle (e : Event) (g : Gate) : Gate * list Out :=
  match e with
  | LoginUser t a c => addToWait t a c g
  | LoginKick t a => kickUser t a g
  | LoginConnected => (g, [ToLogin (Register (m_onlineaccs g))])
  | Accept s => (on_accept s g, [])
  | Login s t => parseLoginGame s t g
  | ClientMsg s payload => (g, user_parseGameMsg s payload g)
  | Closed s => on_close s g
  | Timer e =>
      let g := set_pending (remove_one e (pending g)) g in
      match e with
      | eventCallRemoveWait t => (removeWait t g, [])
      | eventCallRemoveReconn t => removeReconn t g
      end
  | TellLogin => (g, [ToLogin (Onlines (Z.of_nat (size (m_onlineaccs g))))])
  | GameUp c id => (parseGameRegister c id g, [])
  | GameOnlines c n => (parseGameOnlines c n g, [])
  | GameDown c => (removeActiveGameClient c g, [])
  | GameMessage _ t payload => (g, game_parseGameMsg t payload g)
  | ChangeGS c t gs => parseChangeGS c t gs g
  end.

Definition empty_gate : Gate := mkGate ∅ ∅ ∅ ∅ ∅ ∅ ∅ ∅ [].

(** Histories: the events so far and what was sent; [orderly] restricts
    what may happen further. *)
Section History.
Context (orderly : Event -> Gate -> Prop).
Inductive history : list Event -> list Out -> Gate -> Prop :=
  | history_start : history [] [] empty_gate
  | history_event es outs g e g' out : history es outs g -> possible e g -> orderly e g -> handle e g = (g', out) ->
      history (es ++ [e]) (outs ++ out) g'.
End History.

(** ** Facts *)
Lemma session_on s f g s' : session s' (on_session s f g) = if decide (s' = s) then f (session s g) else session s' g.
Proof.
  unfold session at 1, on_session. cbn. destruct (decide (s' = s)) as [->|Hne]; [by rewrite lookup_insert_eq|by rewrite lookup_insert_ne].
Qed.
Lemma addData_some (m : gmap Z Z) k v k' v' : addData k v m !! k' = Some v' -> (k' = k /\ v' = v /\ m !! k = None) \/ m !! k' = Some v'.
Proof.
  unfold addData. destruct (m !! k) eqn:E; [by right|]. rewrite lookup_insert_Some. intros [[<- <-]|[_ H]]; [by left|by right].
Qed.
Lemma eraseValue_some v m k v' : eraseValue v m !! k = Some v' -> m !! k = Some v'.
Proof. unfold eraseValue. rewrite map_lookup_filter_Some. tauto. Qed.
Lemma getKey_some v m k : getKey v m = Some k -> m !! k = Some v.
Proof.
  unfold getKey. enough (H : forall l, (forall kv, kv ∈ l -> m !! kv.1 = Some kv.2) ->
    foldr (fun kv acc => if kv.2 =? v then Some (match acc with Some k => Z.min kv.1 k | None => kv.1 end) else acc) None l = Some k -> m !! k = Some v).
  { apply H. intros [k' v'] Hin. by apply elem_of_map_to_list in Hin. }
  intros l. revert k. induction l as [|[k' v'] l IH]; cbn [foldr]; intros k Hl; [done|].
  assert (Hl' : forall kv, kv ∈ l -> m !! kv.1 = Some kv.2) by (intros kv Hkv; apply Hl; by right).
  cbn [fst snd]. destruct (Z.eqb_spec v' v) as [->|]; [|exact (IH k Hl')]. intros [= <-].
  assert (Hk : m !! k' = Some v) by (apply (Hl (k', v)); left).
  destruct (foldr _ None l) as [k2|]; [|done]. cbn [fst]. destruct (Z.min_spec k' k2) as [[_ ->]|[_ ->]]; [done|]. exact (IH k2 Hl' eq_refl).
Qed.

(** [removeUsers] only moves sessions from any state to [_wait_close_]. *)
Lemma removeUsers_loop gs (l : list (Z * SessId)) g : let g' := foldr (fun tp g => removeUser_of gs tp.2 g) g l in
  m_onlines g' = m_onlines g /\ m_onlineaccs g' = m_onlineaccs g /\ m_wait_map g' = m_wait_map g /\ m_recon_map g' = m_recon_map g /\
  forall s : SessId, session s g' = session s g \/ (s ∈ l.*2 /\ m_gs_id (session s g) = gs /\ session s g' = setState _wait_close_ (session s g)).
Proof.
  induction l as [|[t p] l (Ho & Ha & Hw & Hr & IH)]; cbn [foldr]; [by repeat split; auto|].
  set (g1 := foldr _ g l) in *. unfold removeUser_of. cbn [snd]. destruct (Z.eqb_spec (m_gs_id (session p g1)) gs) as [E|E].
  - split_and!; [done..|]. intros s. rewrite session_on. cbn [fmap list_fmap]. destruct (decide (s = p)) as [->|Hne].
    + right. destruct (IH p) as [Hs|(Hin & Hgs & Hs)]; rewrite Hs in *; (split; [left|done]).
    + destruct (IH s) as [Hs|(Hin & Hgs & Hs)]; [by left|right]. split; [by right|done].
  - split_and!; [done..|]. intros s. destruct (IH s) as [Hs|(Hin & Hgs & Hs)]; [by left|right]. split; [by right|done].
Qed.

(** ** Nobody gets in unannounced

    [K t a]: the login server has announced user [t] of account [a]. *)
Section Known.
Context (K : Z -> Z -> Prop).
Definition announced (t : Z) : Prop := exists a, K t a.
Record known (g : Gate) : Prop := {
  known_wait t a : m_wait_map g !! t = Some a -> K t a;
  known_accs a t : m_onlineaccs g !! a = Some t -> K t a;
  known_recon t gs : m_recon_map g !! t = Some gs -> announced t;
  known_online t p : m_onlines g !! t = Some p -> announced t;
  known_seat s : m_state (session s g) = _connect_ -> announced (m_tranid (session s g));
  known_game s : m_gs_id (session s g) <> INVALID_GAME_ID -> announced (m_tranid (session s g))
}.

(** What may be said to a game server. *)
Definition authorised (o : Out) : Prop :=
  match o with
  | ToGame _ (AddUser t a _) => K t a
  | ToGame _ (OfflineUser t) | ToGame _ (Forward t _) => announced t
  | _ => True
  end.
Definition kept (r : Gate * list Out) : Prop := known r.1 /\ Forall authorised r.2.

Lemma known_sub g g' : known g -> (forall s, session s g' = session s g) ->
  (forall t a, m_wait_map g' !! t = Some a -> m_wait_map g !! t = Some a) ->
  (forall a t, m_onlineaccs g' !! a = Some t -> m_onlineaccs g !! a = Some t) ->
  (forall t gs, m_recon_map g' !! t = Some gs -> m_recon_map g !! t = Some gs) ->
  (forall t p, m_onlines g' !! t = Some p -> m_onlines g !! t = Some p) -> known g'.
Proof. intros [] Hs Hw Ha Hr Ho. constructor; intros; rewrite ?Hs in *; eauto. Qed.

Lemma known_session s f g : known g -> (m_state (f (session s g)) = _connect_ \/ m_gs_id (f (session s g)) <> INVALID_GAME_ID -> announced (m_tranid (f (session s g)))) ->
  known (on_session s f g).
Proof.
  intros [] Hf. constructor; auto; intros s'; rewrite session_on; case_decide as E; auto.
Qed.
Lemma known_close_state s g : known g -> known (on_session s (setState _wait_close_) g).
Proof. intros Hk. apply known_session; [done|]. intros [|Hgs]; [done|]. by apply known_game in Hgs. Qed.

(** Lookups in maps that were cut or filled by [addData]. *)
Ltac lookups := repeat match goal with
  | H : delete _ _ !! _ = Some _ |- _ => apply lookup_delete_Some in H as [_ H]
  | H : addData _ _ _ !! _ = Some _ |- _ => apply addData_some in H as [(? & ? & _)|H]; [subst|]
  | H : eraseValue _ _ !! _ = Some _ |- _ => apply eraseValue_some in H
  end.
Ltac sub Hk := apply (known_sub _ _ Hk); [done|cbn; intros; (assumption || (lookups; eauto))..].

Lemma authorised_remove gs t g : Forall authorised (to_game gs (RemoveUser t) g).
Proof. unfold to_game. destruct (getGameClient gs g); by repeat constructor. Qed.

Lemma kick_kept t a g : known g -> kept (kickUser t a g).
Proof.
  intros Hk. unfold kickUser. destruct (m_onlines g !! t) as [p|].
  { split; [|apply authorised_remove]. sub Hk. }
  set (g2 := match m_wait_map g !! t with Some _ => _ | None => _ end).
  assert (Hk2 : known g2) by (subst g2; repeat case_match; sub Hk).
  destruct (m_recon_map g2 !! t); [|by split]. split; [sub Hk2|apply authorised_remove].
Qed.
Lemma known_wait_add t a g : known g -> K t a -> known (set_wait_map (addData t a (m_wait_map g)) g).
Proof. intros [] HK. constructor; cbn; auto. intros t' a' H. lookups; eauto. Qed.
Lemma wait_kept t a c g : known g -> K t a -> kept (addToWait t a c g).
Proof.
  intros Hk HK. unfold addToWait. destruct (m_onlines g !! t) as [p|].
  - assert (Hk1 : known (on_session p (set_channel c) g)).
    { apply known_session; [done|]. intros [H|H]; [by apply (known_seat _ Hk)|by apply (known_game _ Hk)]. }
    pose proof (kick_kept t a _ Hk1) as [Hk2 Ho]. destruct (kickUser t a _) as [g2 out]. cbn in *. split; cbn.
    + apply (known_sub _ _ (known_wait_add t a g2 Hk2 HK)); cbn; auto.
    + apply Forall_app_2; [done|by repeat constructor].
  - split; cbn; [|by repeat constructor]. apply (known_sub _ _ (known_wait_add t a g Hk HK)); cbn; auto.
Qed.
Lemma removeReconn_kept t g : known g -> kept (removeReconn t g).
Proof.
  intros Hk. unfold removeReconn. split; cbn [fst snd]; [sub Hk|]. case_match; [done|apply authorised_remove].
Qed.
Lemma known_removeUsers gs g : known g -> known (removeUsers gs g).
Proof.
  intros Hk. unfold removeUsers. pose proof (removeUsers_loop gs (map_to_list (m_onlines g)) g) as (Ho & Ha & Hw & Hr & Hs).
  set (g1 := foldr _ _ _) in *. constructor; cbn [set_recon_map m_wait_map m_onlineaccs m_recon_map m_onlines]; rewrite ?Ho, ?Ha, ?Hw, ?Hr.
  - apply known_wait, Hk.
  - apply known_accs, Hk.
  - intros t gs' H. lookups. by eapply known_recon.
  - apply known_online, Hk.
  - intros s. change (session s _) with (session s g1). destruct (Hs s) as [->|(_ & _ & ->)]; [apply known_seat, Hk|done].
  - intros s. change (session s _) with (session s g1). destruct (Hs s) as [->|(_ & _ & ->)]; apply known_game, Hk.
Qed.
Lemma known_removeActive c g : known g -> known (removeActiveGameClient c g).
Proof.
  intros Hk. unfold removeActiveGameClient. set (id := match games g !! c with Some _ => _ | None => _ end).
  case_match; [|done]. apply (known_sub _ _ (known_removeUsers id _ Hk)); cbn; auto.
Qed.

Lemma close_kept s g : known g -> is_open (session s g) -> kept (on_close s g).
Proof.
  intros Hk Hopen. unfold on_close, checkClose.
  set (g1 := set_onlines _ g). assert (Hk1 : known g1) by (unfold g1; sub Hk).
  assert (Hd : forall g2, known g2 -> known (on_session s (setState _disable_) g2)).
  { intros g2 Hk2. apply known_session; [done|]. by intros [|]. }
  destruct (getGameClient _ g1) as [c|]; [case_decide as E|]; cbn.
  - split; cbn; [|apply Forall_singleton; exact (known_seat _ Hk s E)]. apply Hd.
    destruct Hk1. constructor; cbn; auto. intros t gs H. lookups; [|eauto]. by apply (known_seat _ Hk s).
  - split; cbn; [|by repeat constructor]. apply Hd. sub Hk1.
  - split; cbn; [|done]. apply Hd. sub Hk1.
Qed.

Lemma login_kept s t g : known g -> kept (parseLoginGame s t g).
Proof.
  intros Hk. unfold parseLoginGame. case_decide as Hst; [by split|]. unfold checkConn.
  destruct (m_wait_map g !! t) as [v|] eqn:Ew.
  - pose proof (known_wait _ Hk _ _ Ew) as HK. set (g1 := set_wait_map_channel _ _). assert (Hk1 : known g1) by (unfold g1; sub Hk).
    destruct (getIdleGameClient g1) as [c|]; [|by split; [apply known_close_state|]].
    split; cbn; [|by repeat constructor].
    set (id := match _ with Some _ => _ | None => _ end). clearbody id.
    destruct Hk1. constructor; cbn [on_session set_sessions set_onlineaccs set_onlines m_wait_map m_onlineaccs m_recon_map m_onlines]; auto.
    + intros a t' H. lookups; eauto.
    + intros t' p H. unfold addData in H. repeat case_match; try rewrite lookup_insert_Some in H; [eauto|]. destruct H as [[<- _]|[_ H]]; [by exists v|eauto].
    + intros s'. rewrite session_on. case_decide; [subst; intros _; cbn; by exists v|].
      change (session s' _) with (session s' (on_session s (fun u => setState _connect_ (setGSid id u)) g1)). rewrite session_on, decide_False by done. apply known_seat0.
    + intros s'. rewrite session_on. case_decide; [subst; intros _; cbn; by exists v|].
      change (session s' _) with (session s' (on_session s (fun u => setState _connect_ (setGSid id u)) g1)). rewrite session_on, decide_False by done. apply known_game0.
  - destruct (m_recon_map g !! t) as [gs|] eqn:Er; [|by split; [apply known_close_state|]].
    pose proof (known_recon _ Hk _ _ Er) as HK. split; cbn; [|done].
    set (g1 := set_recon_map _ g). assert (Hk1 : known g1) by (unfold g1; sub Hk).
    destruct Hk1. constructor; cbn [on_session set_sessions set_onlineaccs set_onlines m_wait_map m_onlineaccs m_recon_map m_onlines]; auto.
    + intros t' p H. unfold addData in H. repeat case_match; try rewrite lookup_insert_Some in H; [eauto|]. destruct H as [[<- _]|[_ H]]; [done|eauto].
    + intros s'. rewrite session_on. case_decide; [subst; intros _; done|].
      change (session s' _) with (session s' (on_session s (fun u => setState _connect_ (setGSid gs u)) g1)). rewrite session_on, decide_False by done. apply known_seat0.
    + intros s'. rewrite session_on. case_decide; [subst; intros _; done|].
      change (session s' _) with (session s' (on_session s (fun u => setState _connect_ (setGSid gs u)) g1)). rewrite session_on, decide_False by done. apply known_game0.
Qed.

Lemma change_kept c t gs g : known g -> kept (parseChangeGS c t gs g).
Proof.
  intros Hk. unfold parseChangeGS. destruct (m_onlines g !! t) as [p|]; [|by split]. cbn zeta; destruct (getGameClient (u16 gs) g) as [new|]; [|by split].
  unfold getAccount. destruct (getKey (m_tranid (session p g)) (m_onlineaccs g)) as [a|] eqn:Ea; cbn [default id]; [|split; [done|cbn; by repeat constructor]].
  apply getKey_some, (known_accs _ Hk) in Ea. destruct (Z.eqb_spec a INVALID_ACCOUNT); [split; [exact Hk|cbn; by repeat constructor]|].
  split; cbn; [|by repeat constructor]. apply known_session; [done|]. intros _. by exists a.
Qed.
Lemma handle_kept e g : known g -> possible e g -> (forall t a c, e = LoginUser t a c -> K t a) -> kept (handle e g).
Proof.
  intros Hk Hp HK. destruct e as [t a c|t a| |s|s t|s payload|s|e| |c id|c n|c|c t payload|c t gs]; cbn [handle].
  - by eapply wait_kept, HK.
  - by apply kick_kept.
  - by split; [|repeat constructor].
  - split; [|done]. apply known_session; [done|]. intros [|Hgs]; [done|]. by apply known_game in Hgs.
  - by apply login_kept.
  - split; [done|]. unfold user_parseGameMsg, to_game, getGameClient. cbn [snd].
    destruct (valid_game _) eqn:Ev; [|done]. destruct (m_activeGames g !! _); [|done]. apply Forall_singleton.
    cbn. apply (known_game _ Hk). intros E. rewrite E in Ev. done.
  - by apply close_kept.
  - assert (Hk1 : known (set_pending (remove_one e (pending g)) g)) by sub Hk.
    destruct e as [t|t]; [split; [unfold removeWait; sub Hk1|done]|by apply removeReconn_kept].
  - by split; [|repeat constructor].
  - split; [|done]. unfold parseGameRegister, addActiveGameClient. cbn [fst]. destruct (valid_game _); sub Hk.
  - split; [|done]. sub Hk.
  - split; [by apply known_removeActive|done].
  - split; [done|]. unfold game_parseGameMsg. cbn [snd]. destruct (m_onlines g !! t); by repeat constructor.
  - by apply change_kept.
Qed.
End Known.

Lemma known_mono (K K' : Z -> Z -> Prop) g : (forall t a, K t a -> K' t a) -> known K g -> known K' g.
Proof.
  intros HK. assert (Ha : forall t, announced K t -> announced K' t) by (intros t [a Ht]; exists a; auto).
  intros []. constructor; eauto.
Qed.
Lemma authorised_mono (K K' : Z -> Z -> Prop) o : (forall t a, K t a -> K' t a) -> authorised K o -> authorised K' o.
Proof. intros HK. destruct o as [c []| |]; cbn; auto; intros [a Ha]; exists a; auto. Qed.

(** The login server's announcements in a history. *)
Definition logins (es : list Event) (t a : Z) : Prop := exists c, LoginUser t a c ∈ es.
Lemma logins_app es e t a : logins es t a -> logins (es ++ [e]) t a.
Proof. intros [c Hc]. exists c. apply elem_of_app. by left. Qed.

Lemma history_kept orderly es outs g : history orderly es outs g -> known (logins es) g /\ Forall (authorised (logins es)) outs.
Proof.
  induction 1 as [|es outs g e g' out _ [Hk Ho] Hp _ Hh].
  - split; [constructor; cbn; done|done].
  - assert (Hk' : known (logins (es ++ [e])) g) by (eapply known_mono; [apply logins_app|done]).
    assert (Hkept : kept (logins (es ++ [e])) (handle e g)).
    { apply handle_kept; [done|done|]. intros t a c ->. exists c. apply elem_of_app. right. by apply list_elem_of_singleton. }
    rewrite Hh in Hkept. destruct Hkept as [Hk2 Ho2]. split; [done|]. apply Forall_app_2; [|done].
    eapply Forall_impl; [exact Ho|]. intros o. apply authorised_mono, logins_app.
Qed.

(** ** One user, one session *)
Definition seated (s : SessId) (t : Z) (g : Gate) : Prop := m_state (session s g) = _connect_ /\ m_tranid (session s g) = t.

(** A user waits, may reconnect, or sits in one session: one of the three. *)
Record exclusive (g : Gate) : Prop := {
  ex_wait t a : m_wait_map g !! t = Some a -> m_recon_map g !! t = None /\ m_onlines g !! t = None /\ forall s, ~ seated s t g;
  ex_recon t gs : m_recon_map g !! t = Some gs -> m_onlines g !! t = None /\ forall s, ~ seated s t g;
  ex_seat s1 s2 t : seated s1 t g -> seated s2 t g -> s1 = s2
}.

Lemma exclusive_sub g g' : exclusive g -> (forall s t, seated s t g' -> seated s t g) ->
  (forall t a, m_wait_map g' !! t = Some a -> m_wait_map g !! t = Some a) ->
  (forall t gs, m_recon_map g' !! t = Some gs -> m_recon_map g !! t = Some gs) ->
  (forall t p, m_onlines g' !! t = Some p -> m_onlines g !! t = Some p) -> exclusive g'.
Proof.
  intros [Hw Hr Hs] Hseat Hwait Hrecon Hon.
  assert (Hnone : forall (m m' : gmap Z Z) t, (forall t v, m' !! t = Some v -> m !! t = Some v) -> m !! t = None -> m' !! t = None).
  { intros m m' t H E. destruct (m' !! t) eqn:E'; [|done]. apply H in E'. congruence. }
  assert (Hnon : forall t, m_onlines g !! t = None -> m_onlines g' !! t = None).
  { intros t E. destruct (m_onlines g' !! t) eqn:E'; [|done]. apply Hon in E'. congruence. }
  constructor.
  - intros t a H%Hwait. destruct (Hw t a H) as (H1 & H2 & H3). split_and!; [by eapply Hnone|auto|]. intros s Hst. by apply (H3 s), Hseat.
  - intros t gs H%Hrecon. destruct (Hr t gs H) as (H2 & H3). split; [auto|]. intros s Hst. by apply (H3 s), Hseat.
  - eauto.
Qed.
Ltac lookups := repeat match goal with
  | H : delete _ _ !! _ = Some _ |- _ => apply lookup_delete_Some in H as [_ H]
  | H : eraseValue _ _ !! _ = Some _ |- _ => apply eraseValue_some in H
  end.
Ltac exsub Hex := apply (exclusive_sub _ _ Hex); [auto|cbn; intros; (assumption || (lookups; eauto))..].

(** A session changes state: nobody new sits down. *)
Lemma seated_on s f g s' t : seated s' t (on_session s f g) <->
  (s' = s /\ m_state (f (session s g)) = _connect_ /\ m_tranid (f (session s g)) = t) \/ (s' <> s /\ seated s' t g).
Proof.
  unfold seated. rewrite session_on. case_decide as E; split.
  - intros H. by left.
  - by intros [(_ & H)|[H _]].
  - intros H. by right.
  - by intros [(-> & _)|[_ H]].
Qed.
Lemma exclusive_session s f g : exclusive g ->
  (m_state (f (session s g)) = _connect_ -> m_state (session s g) = _connect_ /\ m_tranid (f (session s g)) = m_tranid (session s g)) ->
  exclusive (on_session s f g).
Proof.
  intros Hex Hf. apply (exclusive_sub _ _ Hex); [|auto..]. intros s' t [(-> & Hst & Ht)|[_ H]]%seated_on; [|done].
  destruct (Hf Hst) as [H1 H2]. split; [done|]. congruence.
Qed.

Lemma kick_exclusive t a g : exclusive g -> exclusive (kickUser t a g).1.
Proof.
  intros Hex. unfold kickUser. destruct (m_onlines g !! t); [exsub Hex|].
  set (g2 := match m_wait_map g !! t with Some _ => _ | None => _ end).
  assert (Hex2 : exclusive g2) by (subst g2; repeat case_match; exsub Hex).
  destruct (m_recon_map g2 !! t); [exsub Hex2|done].
Qed.
Lemma removeUsers_exclusive gs g : exclusive g -> exclusive (removeUsers gs g).
Proof.
  intros Hex. unfold removeUsers. pose proof (removeUsers_loop gs (map_to_list (m_onlines g)) g) as (Ho & Ha & Hw & Hr & Hs).
  set (g1 := foldr _ _ _) in *. apply (exclusive_sub _ _ Hex); [|cbn; rewrite ?Ho, ?Hw, ?Hr..]; [|auto| |auto].
  - intros s t. unfold seated. change (session s (set_recon_map ?v g1)) with (session s g1). destruct (Hs s) as [->|(_ & _ & ->)]; [done|by intros [? _]].
  - intros t gs' H. by lookups.
Qed.

(** A user nobody has heard of waits. *)
Lemma wait_exclusive t a c g : exclusive g -> m_wait_map g !! t = None -> m_recon_map g !! t = None -> m_onlines g !! t = None ->
  (forall s, ~ seated s t g) -> exclusive (addToWait t a c g).1.
Proof.
  intros [Hw Hr Hs] Et Er Eo Hno. unfold addToWait. rewrite Eo. cbn. constructor; cbn; [|done|done].
  intros t' a'. unfold addData. rewrite Et, lookup_insert_Some. intros [[<- _]|[_ H]]; [done|]. by apply (Hw t' a').
Qed.

Lemma close_exclusive s g : exclusive g -> exclusive (on_close s g).1.
Proof.
  intros Hex. unfold on_close, checkClose. set (t := m_tranid (session s g)). set (g1 := set_onlines _ g).
  assert (Hex1 : exclusive g1) by (unfold g1; exsub Hex).
  assert (Hd : forall g2, exclusive g2 -> exclusive (on_session s (setState _disable_) g2)).
  { intros g2 Hex2. by apply exclusive_session. }
  destruct (getGameClient _ g1) as [c|]; [case_decide as E|]; cbn.
  - (* the seat becomes a right to reconnect *)
    assert (Hseat : seated s t g) by done. destruct Hex as [Hw Hr Hs].
    assert (Hfree : forall s', ~ seated s' t (on_session s (setState _disable_) g)).
    { intros s' [(-> & ? & _)|[Hne Hs']]%seated_on; [done|]. by apply Hne, (Hs s' s t). }
    assert (Hold : forall s' t', seated s' t' (on_session s (setState _disable_) g) -> seated s' t' g).
    { intros s' t' [(-> & ? & _)|[_ H]]%seated_on; [done|done]. }
    constructor; cbn.
    + intros t' a H. destruct (Hw t' a H) as (H1 & H2 & H3).
      assert (t' <> t) by (intros ->; by apply (H3 s)). split_and!; [|by rewrite lookup_delete_ne|].
      * unfold addData. case_match; [done|]. by rewrite lookup_insert_ne.
      * intros s' Hs'. by apply (H3 s'), Hold.
    + intros t' gs' [(-> & _ & _)|H]%addData_some.
      * split; [apply lookup_delete_eq|exact Hfree].
      * destruct (Hr t' gs' H) as [H2 H3]. assert (t' <> t) by (intros ->; by apply (H3 s)).
        split; [by rewrite lookup_delete_ne|]. intros s' Hs'. by apply (H3 s'), Hold.
    + intros s1 s2 t' H1 H2. apply (Hs s1 s2 t'); by apply Hold.
  - apply Hd. exsub Hex1.
  - apply Hd. exsub Hex1.
Qed.

(** Who logs in had a right to: no one else sits there. *)
Definition sit (s : SessId) (gs t : Z) : UserSession -> UserSession := fun u => setTrans t (setState _connect_ (setGSid gs u)).
Lemma parseLoginGame_spec s t g : m_state (session s g) <> _connect_ ->
  (exists a ch c id, m_wait_map g !! t = Some a /\
    handle (Login s t) g = (on_session s (sit s id t) (set_onlineaccs (addData a t (m_onlineaccs g)) (set_onlines (addData t s (m_onlines g)) (removeWait t g))), [ToGame c (AddUser t a ch)])) \/
  (exists gs, m_wait_map g !! t = None /\ m_recon_map g !! t = Some gs /\
    handle (Login s t) g = (on_session s (sit s gs t) (set_onlines (addData t s (m_onlines g)) (set_recon_map (delete t (m_recon_map g)) g)), [])) \/
  (exists a, m_wait_map g !! t = Some a /\ handle (Login s t) g = (on_session s (setState _wait_close_) (removeWait t g), [])) \/
  (m_wait_map g !! t = None /\ m_recon_map g !! t = None /\ handle (Login s t) g = (on_session s (setState _wait_close_) g, [])).
Proof.
  intros Hst. cbn [handle]. unfold parseLoginGame. rewrite decide_False by done. unfold checkConn.
  assert (Htwice : forall id g1, on_session s (setTrans t) (on_session s (fun u => setState _connect_ (setGSid id u)) g1) = on_session s (sit s id t) g1).
  { intros id g1. unfold on_session at 1. rewrite session_on, decide_True by done. unfold on_session, set_sessions. cbn. by rewrite insert_insert_eq. }
  destruct (m_wait_map g !! t) as [a|] eqn:Ew.
  - destruct (getIdleGameClient _) as [c|] eqn:Ei; [left|do 2 right; left; by exists a].
    eexists a, _, c, _. split; [done|]. rewrite <- Htwice. reflexivity.
  - destruct (m_recon_map g !! t) as [gs|] eqn:Er; [|by do 3 right].
    right; left. exists gs. split_and!; [done..|]. rewrite <- Htwice. reflexivity.
Qed.

Lemma sit_exclusive s gs t g g' : exclusive g -> m_state (session s g) <> _connect_ ->
  m_onlines g !! t = None -> (forall s', ~ seated s' t g) -> m_wait_map g' !! t = None -> m_recon_map g' !! t = None ->
  (forall s', session s' g' = session s' g) ->
  (forall t a, m_wait_map g' !! t = Some a -> m_wait_map g !! t = Some a) ->
  (forall t gs, m_recon_map g' !! t = Some gs -> m_recon_map g !! t = Some gs) ->
  m_onlines g' = addData t s (m_onlines g) -> exclusive (on_session s (sit s gs t) g').
Proof.
  intros [Hw Hr Hs] Hst Hon Hfree Hwt Hrt Hsess Hwait Hrecon Honl.
  assert (Hold : forall s' t', seated s' t' (on_session s (sit s gs t) g') -> (s' = s /\ t' = t) \/ (s' <> s /\ t' <> t /\ seated s' t' g)).
  { intros s' t' [(-> & _ & <-)|[Hne H]]%seated_on; [by left|right]. unfold seated in H. rewrite Hsess in H.
    split_and!; [done| |exact H]. intros ->. by apply (Hfree s'). }
  assert (Honl' : forall t', t' <> t -> m_onlines g !! t' = None -> m_onlines g' !! t' = None).
  { intros t' Hne E. rewrite Honl. unfold addData. rewrite Hon. by rewrite lookup_insert_ne. }
  constructor; cbn [on_session set_sessions m_wait_map m_recon_map m_onlines].
  - intros t' a H. assert (t' <> t) by congruence. destruct (Hw t' a (Hwait _ _ H)) as (H1 & H2 & H3). split_and!; [|auto|].
    + destruct (m_recon_map g' !! t') eqn:E; [|done]. apply Hrecon in E. congruence.
    + intros s' [[_ ?]|(_ & _ & Hs')]%Hold; [done|]. by apply (H3 s').
  - intros t' gs' H. assert (t' <> t) by congruence. destruct (Hr t' gs' (Hrecon _ _ H)) as (H2 & H3). split; [auto|].
    intros s' [[_ ?]|(_ & _ & Hs')]%Hold; [done|]. by apply (H3 s').
  - intros s1 s2 t' [[-> ->]|(N1 & M1 & H1)]%Hold [[-> E]|(N2 & M2 & H2)]%Hold; try done. by apply (Hs s1 s2 t').
Qed.
Lemma login_exclusive s t g : exclusive g -> exclusive (handle (Login s t) g).1.
Proof.
  intros Hex. destruct (decide (m_state (session s g) = _connect_)) as [E|Hst].
  { cbn [handle]. unfold parseLoginGame. by rewrite decide_True. }
  destruct (parseLoginGame_spec s t g Hst) as [(a & ch & c & id & Ew & ->)|[(gs & Ew & Er & ->)|[(a & Ew & ->)|(Ew & Er & ->)]]]; cbn [fst].
  - destruct (ex_wait _ Hex _ _ Ew) as (H1 & H2 & H3). apply (sit_exclusive _ _ _ g); try done; cbn; [apply lookup_delete_eq|]. intros. by lookups.
  - destruct (ex_recon _ Hex _ _ Er) as (H2 & H3). apply (sit_exclusive _ _ _ g); try done; cbn; [apply lookup_delete_eq|]. intros. by lookups.
  - apply exclusive_session; [|done]. unfold removeWait. exsub Hex.
  - by apply exclusive_session.
Qed.

Lemma exclusive_fields g g' : exclusive g -> (forall s, session s g' = session s g) -> m_wait_map g' = m_wait_map g ->
  m_recon_map g' = m_recon_map g -> m_onlines g' = m_onlines g -> exclusive g'.
Proof.
  intros Hex Hs Hw Hr Ho. apply (exclusive_sub _ _ Hex); rewrite ?Hw, ?Hr, ?Ho; auto. intros s t. unfold seated. by rewrite Hs.
Qed.
Lemma handle_exclusive e g : exclusive g -> possible e g ->
  (forall t a c, e = LoginUser t a c -> m_wait_map g !! t = None /\ m_recon_map g !! t = None /\ m_onlines g !! t = None /\ forall s, ~ seated s t g) ->
  exclusive (handle e g).1.
Proof.
  intros Hex Hp Hnew. destruct e as [t a c|t a| |s|s t|s payload|s|e| |c id|c n|c|c t payload|c t gs]; try exact Hex; [..|cbn [handle]].
  - destruct (Hnew t a c eq_refl) as (? & ? & ? & ?). by apply wait_exclusive.
  - by apply kick_exclusive.
  - cbn. by apply exclusive_session.
  - by apply login_exclusive.
  - by apply close_exclusive.
  - cbn [handle]. assert (Hex1 : exclusive (set_pending (remove_one e (pending g)) g)) by exsub Hex.
    destruct e as [t|t]; cbn; [unfold removeWait|]; exsub Hex1.
  - cbn. unfold parseGameRegister, addActiveGameClient. destruct (valid_game _); by apply (exclusive_fields g).
  - by apply (exclusive_fields g).
  - cbn. unfold removeActiveGameClient. set (id := match games g !! c with Some _ => _ | None => _ end).
    case_match; [|done]. apply (exclusive_fields (removeUsers id g)); [by apply removeUsers_exclusive|done..].
  - unfold parseChangeGS. repeat case_match; try done. cbn. by apply exclusive_session.
Qed.

(** The login server never announces a user's id twice. *)
Definition announcement (e : Event) : option Z := match e with LoginUser t _ _ => Some t | _ => None end.
Definition unique (es : list Event) : Prop := NoDup (omap announcement es).
Lemma unique_app es e : unique (es ++ [e]) -> unique es.
Proof. unfold unique. rewrite omap_app. intros H. by apply NoDup_app in H as [? _]. Qed.
Lemma unique_new es t a c : unique (es ++ [LoginUser t a c]) -> ~ announced (logins es) t.
Proof.
  unfold unique. rewrite omap_app. intros (_ & H & _)%NoDup_app (a' & c' & Hin). apply (H t); [|by left].
  apply list_elem_of_omap. by exists (LoginUser t a' c').
Qed.

Lemma history_exclusive orderly es outs g : history orderly es outs g -> unique es -> exclusive g.
Proof.
  induction 1 as [|es outs g e g' out Hrun IH Hp _ Hh]; intros Hu.
  - constructor; cbn; [done..|]. intros s1 s2 t [H _]. done.
  - specialize (IH (unique_app _ _ Hu)). apply (f_equal fst) in Hh. cbn in Hh. rewrite <- Hh. apply handle_exclusive; [done..|].
    intros t a c ->. apply unique_new in Hu. destruct (history_kept _ _ _ _ Hrun) as [[] _].
    split_and!.
    + destruct (m_wait_map g !! t) eqn:E; [|done]. destruct Hu. eexists. eauto.
    + destruct (m_recon_map g !! t) eqn:E; [|done]. destruct Hu. eauto.
    + destruct (m_onlines g !! t) eqn:E; [|done]. destruct Hu. eauto.
    + intros s [H1 H2]. destruct Hu. rewrite <- H2. eauto.
Qed.

(** ** Messages of a game server reach the right user *)

(** Clients ask to log in once, after they have connected. *)
Definition one_login (e : Event) (g : Gate) : Prop :=
  match e with Login s _ => m_state (session s g) = _wait_account_ | _ => True end.
Definition well_routed (g : Gate) : Prop :=
  forall t p, m_onlines g !! t = Some p -> is_open (session p g) /\ m_state (session p g) <> _wait_account_ /\ m_tranid (session p g) = t.

Lemma routed_sub g g' : well_routed g -> (forall t p, m_onlines g' !! t = Some p -> m_onlines g !! t = Some p) ->
  (forall t p, m_onlines g' !! t = Some p -> m_state (session p g') = m_state (session p g) \/ m_state (session p g') = _wait_close_) ->
  (forall t p, m_onlines g' !! t = Some p -> m_tranid (session p g') = m_tranid (session p g)) -> well_routed g'.
Proof.
  intros Hr Ho Hs Ht t p H. destruct (Hr t p (Ho t p H)) as (H1 & H2 & H3). unfold is_open in *. rewrite (Ht t p H).
  destruct (Hs t p H) as [->| ->]; done.
Qed.
Lemma kick_sub t a g : (forall t' p, m_onlines (kickUser t a g).1 !! t' = Some p -> m_onlines g !! t' = Some p) /\
  sessions (kickUser t a g).1 = sessions g.
Proof.
  unfold kickUser. destruct (m_onlines g !! t) as [p|]; [split; [cbn; intros; by lookups|done]|]. repeat case_match; done.
Qed.
Lemma login_routed s t g : exclusive g -> well_routed g -> m_state (session s g) = _wait_account_ -> well_routed (handle (Login s t) g).1.
Proof.
  intros Hex Hr Hst.
  assert (Hnot : forall t' p, m_onlines g !! t' = Some p -> p <> s) by (intros t' p H ->; by destruct (Hr t' s H) as (_ & ? & _)).
  assert (Hsit : forall gs g', m_onlines g !! t = None -> (forall s', session s' g' = session s' g) -> m_onlines g' = addData t s (m_onlines g) ->
    well_routed (on_session s (sit s gs t) g')).
  { intros gs g' Hon Hs Ho t' p H. cbn in H. unfold is_open. rewrite Ho in H. unfold addData in H. rewrite Hon, lookup_insert_Some in H.
    rewrite session_on. destruct H as [[<- <-]|[_ H]].
    - rewrite decide_True by done. by split_and!.
    - rewrite decide_False by (by eapply Hnot). rewrite Hs. by apply Hr. }
  destruct (parseLoginGame_spec s t g) as [(a & ch & c & id & Ew & ->)|[(gs & Ew & Er & ->)|[(a & Ew & ->)|(Ew & Er & ->)]]]; cbn [fst]; [congruence|..].
  - apply Hsit; [apply (ex_wait _ Hex _ _ Ew)|done..].
  - apply Hsit; [apply (ex_recon _ Hex _ _ Er)|done..].
  - apply (routed_sub _ _ Hr); [done|..]; cbn; intros t' p H; rewrite session_on, decide_False by (by eapply Hnot); by try left.
  - apply (routed_sub _ _ Hr); [done|..]; cbn; intros t' p H; rewrite session_on, decide_False by (by eapply Hnot); by try left.
Qed.
Lemma on_session_routed s f g : well_routed g -> m_state (f (session s g)) = m_state (session s g) \/ m_state (f (session s g)) = _wait_close_ ->
  m_tranid (f (session s g)) = m_tranid (session s g) -> well_routed (on_session s f g).
Proof.
  intros Hr Hf Ht. apply (routed_sub _ _ Hr); [done|..]; intros t p _; rewrite session_on; case_decide; subst; auto.
Qed.
Lemma off_session_routed s f g : well_routed g -> (forall t, m_onlines g !! t <> Some s) -> well_routed (on_session s f g).
Proof.
  intros Hr Hno. apply (routed_sub _ _ Hr); [done|..]; intros t p H; rewrite session_on, decide_False by (intros ->; by apply (Hno t)); auto.
Qed.
Lemma close_routed s g : well_routed g -> well_routed (on_close s g).1.
Proof.
  intros Hr. unfold on_close, checkClose. set (t := m_tranid (session s g)). set (g1 := set_onlines _ g).
  assert (Hr1 : well_routed g1) by (apply (routed_sub _ _ Hr); cbn; intros; lookups; auto).
  assert (Hno : forall t', m_onlines g1 !! t' <> Some s).
  { intros t' H. change (delete t (m_onlines g) !! t' = Some s) in H. apply lookup_delete_Some in H as [Hne H]. apply Hne. by destruct (Hr t' s H) as (_ & _ & <-). }
  destruct (getGameClient _ g1) as [c|]; [case_decide|]; by apply off_session_routed.
Qed.
Lemma removeUsers_routed gs g : well_routed g -> well_routed (removeUsers gs g).
Proof.
  intros Hr. unfold removeUsers. pose proof (removeUsers_loop gs (map_to_list (m_onlines g)) g) as (Ho & _ & _ & _ & Hs).
  set (g1 := foldr _ _ _) in *. apply (routed_sub _ _ Hr).
  - cbn. by rewrite Ho.
  - intros t p _. change (session p (set_recon_map ?v g1)) with (session p g1). destruct (Hs p) as [->|(_ & _ & ->)]; auto.
  - intros t p _. change (session p (set_recon_map ?v g1)) with (session p g1). destruct (Hs p) as [->|(_ & _ & ->)]; auto.
Qed.
Lemma handle_routed e g : exclusive g -> well_routed g -> possible e g -> one_login e g -> well_routed (handle e g).1.
Proof.
  intros Hex Hr Hp Ho. destruct e as [t a c|t a| |s|s t|s payload|s|e| |c id|c n|c|c t payload|c t gs]; try exact Hr; [..|cbn [handle]].
  - cbn [handle]. unfold addToWait. destruct (m_onlines g !! t) as [p|] eqn:E; [|exact Hr].
    destruct (kick_sub t a (on_session p (set_channel c) g)) as [H1 H2]. destruct (kickUser t a _) as [g2 out]. cbn [fst snd] in *.
    assert (Hr1 : well_routed (on_session p (set_channel c) g)) by (apply on_session_routed; auto).
    apply (routed_sub _ _ Hr1); [exact H1|..]; intros t' p' _; unfold session; cbn; rewrite H2; auto.
  - destruct (kick_sub t a g) as [H1 H2]. cbn [handle]. apply (routed_sub _ _ Hr); [exact H1|..]; intros t' p' _; unfold session; rewrite H2; auto.
  - cbn. apply off_session_routed; [done|]. intros t H. by destruct (Hr t s H) as (? & _).
  - by apply login_routed.
  - by apply close_routed.
  - cbn [handle]. destruct e as [t|t]; exact Hr.
  - cbn. unfold parseGameRegister, addActiveGameClient. destruct (valid_game _); exact Hr.
  - cbn. unfold removeActiveGameClient. set (id := match games g !! c with Some _ => _ | None => _ end).
    case_match; [|done]. exact (removeUsers_routed id g Hr).
  - unfold parseChangeGS. repeat case_match; try done. cbn. apply on_session_routed; auto.
Qed.

(** ** The gate *)

(** C4: The gate admits only users the login server has announced: in every
    history, whatever a game server is told about a user ([AddUser] with its
    account, a message of the user, its going offline) concerns an announced
    one; and while no user's id is announced twice, a user waits, or may
    reconnect, or sits in one session, and never in two. *)
Theorem gate_admission orderly es outs g : history orderly es outs g ->
  Forall (authorised (logins es)) outs /\
  (unique es -> exclusive g /\ forall s1 s2 t, seated s1 t g -> seated s2 t g -> s1 = s2).
Proof.
  intros H. split; [by apply (history_kept _ _ _ _ H)|]. intros Hu. pose proof (history_exclusive _ _ _ _ H Hu) as Hex.
  split; [done|]. apply (ex_seat _ Hex).
Qed.


(** Runs of a list of events, each checked. *)
Section Play.
Context (orderly : Event -> Gate -> Prop) {Hdec : forall e g, Decision (orderly e g)}.
Fixpoint play (es : list Event) (outs : list Out) (g : Gate) : option (list Out * Gate) :=
  match es with
  | [] => Some (outs, g)
  | e :: es => if decide (possible e g /\ orderly e g) then let '(g', out) := handle e g in play es (outs ++ out) g' else None
  end.
Lemma play_history' es : forall past outs g outs' g', history orderly past outs g -> play es outs g = Some (outs', g') ->
  history orderly (past ++ es) outs' g'.
Proof.
  induction es as [|e es IH]; cbn [play]; intros past outs g outs' g' H Hp.
  - injection Hp as <- <-. by rewrite app_nil_r.
  - case_decide as Hd; [|done]. destruct Hd. destruct (handle e g) as [g1 out] eqn:E. rewrite cons_middle, app_assoc. eapply IH; [|exact Hp].
    by eapply history_event.
Qed.
Lemma play_history es outs g : play es [] empty_gate = Some (outs, g) -> history orderly es outs g.
Proof. apply (play_history' es []). constructor. Qed.
End Play.
End Gate.
#[export] Instance one_login_dec e g : Decision (one_login e g).
Proof. unfold one_login. destruct e; apply _. Defined.

(** Two users with two game servers. *)
Definition a_morning : list Event :=
  [GameUp 1 1; LoginUser 11 100 7; LoginUser 22 200 7; Accept 1; Login 1 11; GameUp 2 2; ClientMsg 1 5; Closed 1;
   Accept 2; Login 2 11; Login 2 22; GameMessage 1 11 6].
Definition anyhow (e : Event) (g : Gate) : Prop := True.
#[export] Instance anyhow_dec e g : Decision (anyhow e g).
Proof. by left. Defined.

(** The user comes back to its session's game server; the log in of a
    session that is in is ignored. *)
Example a_morning_outs : option_map fst (play 100 anyhow a_morning [] empty_gate) =
  Some [ToLogin (Prepar 11); ToLogin (Prepar 22); ToGame 1 (AddUser 11 100 7); ToGame 1 (Forward 11 5); ToGame 1 (OfflineUser 11); ToClient 2 6].
Proof. vm_compute. reflexivity. Qed.

Lemma gate_admission_witness : match play 100 anyhow a_morning [] empty_gate with
  | Some (outs, g) => Forall (authorised (logins a_morning)) outs /\ exclusive g /\ seated 2 11 g /\ ~ seated 1 11 g
  | None => False
  end.
Proof.
  destruct (play 100 anyhow a_morning [] empty_gate) as [[outs g]|] eqn:E; [|by vm_compute in E].
  destruct (gate_admission 100 anyhow a_morning outs g) as [Ho Hx]; [by apply play_history with anyhow_dec|].
  destruct Hx as [Hex Hone]; [apply (bool_decide_unpack _); vm_compute; done|].
  assert (Hs : seated 2 11 g) by (vm_compute in E; injection E as _ <-; vm_compute; by split).
  split_and!; [done..|]. intros H1. by specialize (Hone _ _ _ H1 Hs).
Defined.


(** A session whose game server has gone logs in again as another user: the
    first user's entry stays, and its messages reach the second. *)
Definition relogin : list Event :=
  [GameUp 1 1; GameUp 2 2; LoginUser 11 100 0; Accept 1; Login 1 11; GameDown 1; LoginUser 22 200 0; Login 1 22; GameMessage 2 11 9].
Example relogin_misroutes : match play 100 anyhow relogin [] empty_gate with
  | Some (outs, g) => last outs = Some (ToClient 1 9) /\ m_tranid (session 1 g) = 22 /\ m_onlines g !! 11 = Some 1%positive
  | None => False
  end.
Proof. vm_compute. done. Qed.
