(* ===== verification/Keepalive.v ===== *)
(** * gateserver: the timers of client sessions (user_session.cpp)

    GateServer.v with the timed events of its sessions (Timers.v, through the
    interface of Deadlines.v): a client that does not log in is closed after
    twenty seconds, one that falls silent after a minute, and a logged in one
    is sent a ping every two seconds.  Session objects are pooled: a timer
    belongs to the object and outlives the connection. *)
From stdpp Require Import gmap.
From S2P Require Import Prelude Timers Deadlines GateServer.
#[local] Open Scope outcome_scope.

Definition _WAIT_ACCOUNT_DATA_TIME_ : Z := 20 * 1000.
Definition _WAIT_CLOSE_TIME_ : Z := 1 * 1000.
Definition _PING_TIME_ : Z := 2 * 1000.
Definition _NOPING_TIME_ : Z := 60 * 1000.
Definition EVENT_USER_SESSION_CLOSE : Z := 1.
Definition EVENT_WAIT_PING_INFO : Z := 6.
Definition EVENT_PING_TIME_INFO : Z := 7.

(** The methods of [UserSession] that events run. *)
Inductive Method := setClose | noPing | pingNotify.
#[export] Instance Method_eq_dec : EqDecision Method.
Proof. solve_decision. Defined.
#[export] Instance Method_countable : Countable Method.
Proof.
  by refine (inj_countable' (fun m => match m with setClose => 0 | noPing => 1 | pingNotify => 2 end)%nat
                            (fun n => match n with 0 => setClose | 1 => noPing | _ => pingNotify end)%nat _); intros [].
Defined.
#[export] Program Instance UserSession_methods : Methods Method := {
  type_of m := match m with setClose => EVENT_USER_SESSION_CLOSE | noPing => EVENT_WAIT_PING_INFO | pingNotify => EVENT_PING_TIME_INFO end;
  one_shot m := match m with setClose | noPing => true | pingNotify => false end
}.
Next Obligation. by intros [] []. Qed.
Next Obligation. by intros []. Qed.

(** What the methods do: the calls of [close()], with the method that made
    them, the messages [MsgS2CPingNotify] and the counts of the sessions. *)
Record PingNotify := mkPingNotify { to : SessId; time : Z; ping_count : Z }.
Record Sent := mkSent {
  g_server_time : Z;
  _ping_count : gmap SessId Z;
  closes : list (SessId * Method);
  pings : list PingNotify
}.
Definition call_close (s : SessId) (m : Method) (w : Sent) : Sent :=
  mkSent (g_server_time w) (_ping_count w) (closes w ++ [(s, m)]) (pings w).
Definition send_ping (s : SessId) (w : Sent) : Sent :=
  let n := i32 (default 0 (_ping_count w !! s) + 1) in
  mkSent (g_server_time w) (<[s := n]> (_ping_count w)) (closes w) (pings w ++ [mkPingNotify s (g_server_time w) n]).
Definition run_method (s : SessId) (m : Method) (w : Sent) : Sent :=
  match m with setClose | noPing => call_close s m w | pingNotify => send_ping s w end.

Record Keep := mkKeep { gate : Gate; timers : Timers Method; sent : Sent }.

(** ** The code *)

(** [setState]: what it does besides the state, which is in GateServer.v. *)
Definition setState_events (s : SessId) (st : State) (t : Timers Method) : Outcome (Timers Method) :=
  match st with
  | _disable_ => eventRemoveEvents s EVENT_USER_SESSION_CLOSE t
  | _wait_account_ => mgr_addEvent s setClose EVENT_USER_SESSION_CLOSE _WAIT_ACCOUNT_DATA_TIME_ 1 EVENT_FLAG_DELETES_OBJECT t
  | _connect_ => if eventHasEvent s EVENT_USER_SESSION_CLOSE t then eventRemoveEvents s EVENT_USER_SESSION_CLOSE t else Done t
  | _wait_close_ =>
      if eventHasEvent s EVENT_USER_SESSION_CLOSE t
      then eventModifyTimeAndTimeLeft s EVENT_USER_SESSION_CLOSE _WAIT_CLOSE_TIME_ t
      else mgr_addEvent s setClose EVENT_USER_SESSION_CLOSE _WAIT_CLOSE_TIME_ 1 EVENT_FLAG_DELETES_OBJECT t
  end.
Definition parsePingMsg (s : SessId) (t : Timers Method) : Outcome (Timers Method) :=
  do t <- (if eventHasEvent s EVENT_WAIT_PING_INFO t then eventRemoveEvents s EVENT_WAIT_PING_INFO t else Done t);
  mgr_addEvent s noPing EVENT_WAIT_PING_INFO _NOPING_TIME_ 1 EVENT_FLAG_DELETES_OBJECT t.
(** [parseLoginGame] of a session that is not in: [checkConn] has called
    [setState] with [st]; the rest is the code of [parsePingMsg] and the pings. *)
Definition login_events (s : SessId) (st : State) (t : Timers Method) : Outcome (Timers Method) :=
  do t <- setState_events s st t;
  do t <- parsePingMsg s t;
  if eventHasEvent s EVENT_PING_TIME_INFO t then Done t
  else mgr_addEvent s pingNotify EVENT_PING_TIME_INFO _PING_TIME_ (-1) 0 t.

(** The sessions that [removeUsers] moves to [_wait_close_] when a game server goes. *)
Definition gone_users (c : Conn) (g : Gate) : list SessId :=
  let id := match games g !! c with Some i => game_id i | None => 0 end in
  if valid_game id && bool_decide (m_activeGames g !! id = Some c)
  then map snd (List.filter (fun tp => m_gs_id (session tp.2 g) =? id) (map_to_list (m_onlines g))) else [].
Fixpoint close_all (ss : list SessId) (t : Timers Method) : Outcome (Timers Method) :=
  match ss with [] => Done t | s :: ss => do t <- setState_events s _wait_close_ t; close_all ss t end.

(** The timers in a handler of the gate, from [g] to [g']. *)
Definition gate_events (e : Event) (g g' : Gate) (t : Timers Method) : Outcome (Timers Method) :=
  match e with
  | Accept s => setState_events s _wait_account_ t
  | Login s _ => if decide (m_state (session s g) = _connect_) then Done t else login_events s (m_state (session s g')) t
  | Closed s => setState_events s _disable_ t
  | GameDown c => close_all (gone_users c g) t
  | _ => Done t
  end.

Section Keepalive.
Context (GSIdleMax : Z).
Abbreviation handle := (handle GSIdleMax).

(** What happens: session objects are made for the pool, the gate's own
    events, the answers to pings, and the passes of the main loop. *)
Inductive KEvent := Construct (s : SessId) | On (e : Event) | PingMsg (s : SessId) | Pass (d now : Z).

Definition set_time (now : Z) (w : Sent) : Sent := mkSent now (_ping_count w) (closes w) (pings w).
Definition step (e : KEvent) (k : Keep) : Outcome (Keep * list Out) :=
  match e with
  | Construct s => do t <- create s (-1) (timers k); Done (mkKeep (gate k) t (sent k), [])
  | On e => let '(g, out) := handle e (gate k) in
            do t <- gate_events e (gate k) g (timers k); Done (mkKeep g t (sent k), out)
  | PingMsg s => do t <- parsePingMsg s (timers k); Done (mkKeep (gate k) t (sent k), [])
  | Pass d now =>
      do '(_, t, w) <- update (only_runs run_method) WORLD_INSTANCE d (S (length (holder_list WORLD_INSTANCE (timers k)))) (timers k) (set_time now (sent k));
      Done (mkKeep (gate k) t w, [])
  end.

Definition may (e : KEvent) (k : Keep) : Prop :=
  match e with
  | Construct s => objects (timers k) !! s = None
  | On (Accept s as e) => possible e (gate k) /\ is_Some (objects (timers k) !! s)
  | On e => possible e (gate k)
  | PingMsg s => is_open (session s (gate k))
  | Pass d _ => 0 <= d
  end.
Definition new_keep : Keep := mkKeep empty_gate (mkTimers ∅ ∅ {[-1 := []]}) (mkSent 0 ∅ [] []).

(** A run of events, each from a state to the next as [P] allows. *)
Section Runs.
Context (P : KEvent -> Keep -> Keep -> Prop).
Inductive runs : list KEvent -> Keep -> Keep -> Prop :=
  | runs_nil k : runs [] k k
  | runs_cons e es k k' out k'' : may e k -> step e k = Done (k', out) -> P e k k' -> runs es k' k'' -> runs (e :: es) k k''.
End Runs.
Definition anything (e : KEvent) (k k' : Keep) : Prop := True.
Definition reachable (k : Keep) : Prop := exists es, runs anything es new_keep k.
Definition elapsed (es : list KEvent) : Z := foldr (fun e n => match e with Pass d _ => d + n | _ => n end) 0 es.
End Keepalive.

(** ** The time left, as a map

    What the code makes of the map of Deadlines.v. *)
Abbreviation Left := (@gmap (SessId * Method) (@prod_eq_dec _ Pos.eq_dec _ Method_eq_dec) (@prod_countable _ Pos.eq_dec pos_countable _ Method_eq_dec Method_countable) Deadline).
Definition setState_left (s : SessId) (st : State) (a : Left) : Left :=
  match st with
  | _disable_ | _connect_ => delete (s, setClose) a
  | _wait_account_ => <[(s, setClose) := due_in _WAIT_ACCOUNT_DATA_TIME_ 1]> a
  | _wait_close_ => <[(s, setClose) := match a !! (s, setClose) with Some dl => postpone _WAIT_CLOSE_TIME_ dl | None => due_in _WAIT_CLOSE_TIME_ 1 end]> a
  end.
Definition ping_left (s : SessId) (a : Left) : Left := <[(s, noPing) := due_in _NOPING_TIME_ 1]> a.
Definition login_left (s : SessId) (st : State) (a : Left) : Left :=
  let a := ping_left s (setState_left s st a) in
  match a !! (s, pingNotify) with Some _ => a | None => <[(s, pingNotify) := due_in _PING_TIME_ (-1)]> a end.
Definition gate_left (e : Event) (g g' : Gate) (a : Left) : Left :=
  match e with
  | Accept s => setState_left s _wait_account_ a
  | Login s _ => if decide (m_state (session s g) = _connect_) then a else login_left s (m_state (session s g')) a
  | Closed s => setState_left s _disable_ a
  | GameDown c => foldl (fun a s => setState_left s _wait_close_ a) a (gone_users c g)
  | _ => a
  end.

Implicit Types (t : Timers Method) (a : Left).

(** Each piece of the code keeps the simulation. *)
Definition refines (s : SessId) (f : Timers Method -> Outcome (Timers Method)) (h : Left -> Left) (pre : Left -> Prop) : Prop :=
  forall t a, tracks t a -> is_Some (objects t !! s) -> pre a ->
  exists t', f t = Done t' /\ tracks t' (h a) /\ dom (objects t') = dom (objects t).

Lemma known_object t t' s : dom (objects t') = dom (objects t) -> is_Some (objects t !! s) -> is_Some (objects t' !! s).
Proof. intros Hd Hs. by rewrite <- elem_of_dom, Hd, elem_of_dom. Qed.
Lemma refines_bind s f g (h h' : Left -> Left) (pre : Left -> Prop) : refines s f h pre -> refines s g h' (fun _ => True) ->
  refines s (fun t => do t <- f t; g t) (fun a => h' (h a)) pre.
Proof.
  intros Hf Hg t a Ht Hs Hp. destruct (Hf t a Ht Hs Hp) as (t1 & E1 & Ht1 & D1).
  destruct (Hg t1 (h a) Ht1 (known_object _ _ _ D1 Hs) I) as (t2 & E2 & Ht2 & D2). exists t2. rewrite E1, <- D1. done.
Qed.
Lemma refines_add s m time times : refines s (mgr_addEvent s m (type_of m) time times (flags_of m)) (fun a => <[(s, m) := due_in time times]> a) (fun a => a !! (s, m) = None).
Proof. intros t a Ht [x Hx] Ha. by eapply add_tracks. Qed.
Lemma refines_remove s m (pre : Left -> Prop) : refines s (eventRemoveEvents s (type_of m)) (delete (s, m)) pre.
Proof. intros t a Ht Hs _. by apply remove_tracks. Qed.
(** [if (hasEvent) removeEvents]. *)
Lemma refines_clear s m (pre : Left -> Prop) : refines s (fun t => if eventHasEvent s (type_of m) t then eventRemoveEvents s (type_of m) t else Done t) (delete (s, m)) pre.
Proof.
  intros t a Ht Hs _. destruct (Ht) as [l Hl]. rewrite (hasEvent_tracks l t a Hl). case_bool_decide as Ha; [by apply remove_tracks|].
  exists t. split_and!; [done| |done]. rewrite delete_id; [done|]. by apply eq_None_not_Some.
Qed.

Lemma setState_refines s st : refines s (setState_events s st) (setState_left s st) (fun a => st = _wait_account_ -> a !! (s, setClose) = None).
Proof.
  destruct st; cbn [setState_events setState_left].
  - apply (refines_remove s setClose).
  - intros t a Ht Hs Ha. by apply (refines_add s setClose); [..|apply Ha].
  - apply (refines_clear s setClose).
  - intros t a Ht Hs _. destruct (Ht) as [l Hl]. unfold setState_events, setState_left. change EVENT_USER_SESSION_CLOSE with (type_of setClose). rewrite (hasEvent_tracks l t a Hl).
    case_bool_decide as Ha.
    + destruct (modify_tracks s setClose _WAIT_CLOSE_TIME_ t a Ht Hs) as (t' & E & Ht' & D). exists t'. split_and!; [done| |done].
      destruct Ha as [dl Ha]. rewrite Ha. replace (<[_ := _]> a) with (alter (postpone _WAIT_CLOSE_TIME_) (s, setClose) a); [done|].
      apply map_eq. intros k. destruct (decide (k = (s, setClose))) as [->|Hne]; [by rewrite lookup_alter_eq, lookup_insert_eq, Ha|by rewrite lookup_alter_ne, lookup_insert_ne].
    + apply eq_None_not_Some in Ha. rewrite Ha. by apply (refines_add s setClose).
Qed.
Lemma ping_refines s (pre : Left -> Prop) : refines s (parsePingMsg s) (ping_left s) pre.
Proof.
  intros t a Ht Hs _. unfold parsePingMsg. destruct (refines_clear s noPing (fun _ => True) t a Ht Hs I) as (t1 & E1 & Ht1 & D1).
  change EVENT_WAIT_PING_INFO with (type_of noPing). rewrite E1. cbn [obind].
  destruct (refines_add s noPing _NOPING_TIME_ 1 t1 _ Ht1 (known_object _ _ _ D1 Hs)) as (t2 & E2 & Ht2 & D2); [by rewrite lookup_delete_eq|].
  exists t2. split_and!; [exact E2| |congruence]. by rewrite insert_delete_eq in Ht2.
Qed.
Lemma login_refines s st : st <> _wait_account_ -> refines s (login_events s st) (login_left s st) (fun _ => True).
Proof.
  intros Hst t a Ht Hs _. unfold login_events, login_left.
  destruct (refines_bind s _ _ _ _ _ (setState_refines s st) (ping_refines s _) t a Ht Hs) as (t1 & E1 & Ht1 & D1); [done|].
  apply obind_done in E1 as (t0 & E0 & E1). rewrite E0. cbn [obind]. rewrite E1. cbn [obind].
  set (a1 := ping_left s _) in *. destruct (Ht1) as [l Hl]. change EVENT_PING_TIME_INFO with (type_of pingNotify). rewrite (hasEvent_tracks l t1 a1 Hl).
  case_bool_decide as Ha; [destruct Ha as [dl ->]; eauto|]. apply eq_None_not_Some in Ha. rewrite Ha.
  destruct (refines_add s pingNotify _PING_TIME_ (-1) t1 a1 Ht1 (known_object _ _ _ D1 Hs) Ha) as (t2 & E2 & Ht2 & D2).
  exists t2. split_and!; [exact E2|done|congruence].
Qed.

(** ** The gate and its timers *)
Section Facts.
Context (GSIdleMax : Z).
Abbreviation handle := (GateServer.handle GSIdleMax).
Abbreviation step := (step GSIdleMax).
Abbreviation runs := (Keepalive.runs GSIdleMax).
Implicit Types (g : Gate) (k : Keep).

Definition same_states g g' : Prop := forall s, m_state (session s g') = m_state (session s g).
Lemma on_session_state s f g s' : m_state (session s' (on_session s f g)) = if decide (s' = s) then m_state (f (session s g)) else m_state (session s' g).
Proof. rewrite session_on. by case_decide. Qed.
Lemma same_states_on s f g : (forall u, m_state (f u) = m_state u) -> same_states g (on_session s f g).
Proof. intros Hf s'. rewrite on_session_state. case_decide; [by subst|done]. Qed.
Lemma sessions_same g g' : sessions g' = sessions g -> same_states g g'.
Proof. intros E s. unfold session. by rewrite E. Qed.
Lemma kick_states (u n : Z) g : same_states g (kickUser u n g).1.
Proof. apply sessions_same. unfold kickUser. repeat case_match; done. Qed.

(** The states after an event. *)
Lemma removed_states id (us : list (Z * SessId)) g s : let g' := foldr (fun tp g => removeUser_of id tp.2 g) g us in
  m_state (session s g') = if decide (s ∈ map snd (List.filter (fun tp => m_gs_id (session tp.2 g) =? id) us)) then _wait_close_ else m_state (session s g).
Proof.
  induction us as [|[u p] us IH]; cbn [foldr List.filter map]; [by rewrite decide_False by apply not_elem_of_nil|].
  set (g1 := foldr _ g us) in *. unfold removeUser_of. cbn [snd].
  assert (Hid : m_gs_id (session p g1) = m_gs_id (session p g)).
  { destruct (removeUsers_loop id us g) as (_ & _ & _ & _ & Hs). fold g1 in Hs. destruct (Hs p) as [->|(_ & _ & ->)]; done. }
  rewrite Hid. destruct (m_gs_id (session p g) =? id); [|exact IH]. cbn [map snd]. rewrite on_session_state.
  destruct (decide (s = p)) as [->|Hne]; [by rewrite decide_True by left|]. rewrite IH. apply decide_ext. rewrite elem_of_cons. tauto.
Qed.
Lemma gone_states c g s : m_state (session s (removeActiveGameClient c g)) = if decide (s ∈ gone_users c g) then _wait_close_ else m_state (session s g).
Proof.
  unfold removeActiveGameClient, gone_users. set (id := match games g !! c with Some _ => _ | None => _ end).
  destruct (_ && _); [|by rewrite decide_False by apply not_elem_of_nil]. rewrite <- removed_states. done.
Qed.
Lemma handle_states e g s : m_state (session s (handle e g).1) =
  match e with
  | Accept s' => if decide (s = s') then _wait_account_ else m_state (session s g)
  | Closed s' => if decide (s = s') then _disable_ else m_state (session s g)
  | Login s' _ => if decide (s = s') then m_state (session s (handle e g).1) else m_state (session s g)
  | GameDown c => if decide (s ∈ gone_users c g) then _wait_close_ else m_state (session s g)
  | _ => m_state (session s g)
  end.
Proof.
  destruct e as [t a c|t a| |s'|s' t|s' m|s'|[t|t]| |c id|c n|c|c t m|c t gs]; cbn [GateServer.handle]; try done.
  - unfold addToWait. destruct (m_onlines g !! t) as [p|]; [|done].
    pose proof (kick_states t a (on_session p (set_channel c) g) s) as Hk. destruct (kickUser t a _) as [g' out]. cbn in *.
    change (m_state (session s (set_pending _ _))) with (m_state (session s g')). rewrite Hk. by apply same_states_on.
  - apply kick_states.
  - cbn [fst]. unfold on_accept. by rewrite on_session_state.
  - case_decide as E; [done|]. change (parseLoginGame GSIdleMax s' t g) with (handle (Login s' t) g).
    destruct (decide (m_state (session s' g) = _connect_)) as [Hst|Hst]; [cbn; unfold parseLoginGame; by rewrite decide_True|].
    destruct (parseLoginGame_spec GSIdleMax s' t g Hst) as [(a & ch & c & id & _ & ->)|[(gs & _ & _ & ->)|[(a & _ & ->)|(_ & _ & ->)]]];
      cbn [fst]; by rewrite on_session_state, decide_False.
  - unfold on_close, checkClose. set (g1 := set_onlines _ g).
    assert (H1 : same_states g g1) by by apply sessions_same. destruct (getGameClient _ g1); [case_decide|]; cbn; rewrite on_session_state; case_decide; auto; apply H1.
  - unfold parseGameRegister, addActiveGameClient. destruct (valid_game _); done.
  - apply gone_states.
  - unfold parseChangeGS. repeat case_match; try done. cbn. by apply same_states_on.
Qed.
Lemma login_state s (t : Z) g : m_state (session s g) <> _connect_ ->
  m_state (session s (handle (Login s t) g).1) = _connect_ \/ m_state (session s (handle (Login s t) g).1) = _wait_close_.
Proof.
  intros Hst. destruct (parseLoginGame_spec GSIdleMax s t g Hst) as [(a & ch & c & id & _ & ->)|[(gs & _ & _ & ->)|[(a & _ & ->)|(_ & _ & ->)]]];
    cbn [fst]; rewrite on_session_state, decide_True by done; auto.
Qed.
Lemma handle_onlines e g (u : Z) p : m_onlines (handle e g).1 !! u = Some p -> m_onlines g !! u = Some p \/ exists v : Z, e = Login p v.
Proof.
  assert (Hkick : forall (t n : Z) g, m_onlines (kickUser t n g).1 !! u = Some p -> m_onlines g !! u = Some p).
  { intros t n g0 H. by apply (kick_sub t n g0) in H. }
  destruct e as [t a c|t a| |s|s t|s m|s|[t|t]| |c id|c n|c|c t m|c t gs]; cbn [GateServer.handle]; try by left.
  - intros H. left. unfold addToWait in H. destruct (m_onlines g !! t) as [q|]; [|exact H].
    specialize (Hkick t a (on_session q (set_channel c) g)). destruct (kickUser t a _) as [g' out]. by apply Hkick.
  - intros H. left. by eapply Hkick.
  - change (parseLoginGame GSIdleMax s t g) with (handle (Login s t) g). destruct (decide (m_state (session s g) = _connect_)) as [Hst|Hst].
    { cbn. unfold parseLoginGame. rewrite decide_True by done. by left. }
    destruct (parseLoginGame_spec GSIdleMax s t g Hst) as [(a & ch & c & id & _ & ->)|[(gs & _ & _ & ->)|[(a & _ & ->)|(_ & _ & ->)]]]; cbn [fst]; [| |by left..];
      change (m_onlines (on_session _ _ _)) with (addData t s (m_onlines g)); unfold addData;
      (destruct (m_onlines g !! t); [by left|]); rewrite lookup_insert_Some; intros [[_ <-]|[_ H]]; eauto.
  - unfold on_close, checkClose. intros H. left. destruct (getGameClient _ _); [case_decide|]; cbn in H; by apply lookup_delete_Some in H as [_ H].
  - cbn. unfold parseGameRegister, addActiveGameClient. destruct (valid_game _); by left.
  - cbn. intros H. left. unfold removeActiveGameClient in H. destruct (_ && _); [|done]. unfold removeUsers in H. cbn in H.
    by rewrite (proj1 (removeUsers_loop _ _ g)) in H.
  - unfold parseChangeGS. intros H. left. repeat case_match; done.
Qed.

(** The invariant, with the map of the times left. *)
Record inv k a : Prop := {
  inv_tracks : tracks (timers k) a;
  inv_open s : is_open (session s (gate k)) -> is_Some (objects (timers k) !! s);
  inv_online u p : m_onlines (gate k) !! u = Some p -> is_Some (objects (timers k) !! p);
  inv_close s : m_state (session s (gate k)) = _disable_ \/ m_state (session s (gate k)) = _connect_ -> a !! (s, setClose) = None
}.
Definition left_step (e : KEvent) k k' a : Left :=
  match e with
  | Construct _ => a
  | On e => gate_left e (gate k) (gate k') a
  | PingMsg s => ping_left s a
  | Pass d _ => pass d a
  end.
(** What a step runs: in a pass, each method that is due, once. *)
Definition ran (e : KEvent) k k' a : Prop :=
  match e with
  | Pass d now => exists ks, sent k' = fold_left (run_key run_method) ks (set_time now (sent k)) /\ NoDup ks /\ forall key, key ∈ ks <-> due d a key
  | _ => sent k' = sent k
  end.

Lemma gone_online c g s : s ∈ gone_users c g -> exists u, m_onlines g !! u = Some s.
Proof.
  unfold gone_users. destruct (_ && _); [|by intros ?%elem_of_nil].
  intros ([u p] & -> & [Hin _]%list_elem_of_In%filter_In)%list_elem_of_fmap. exists u. by apply elem_of_map_to_list, list_elem_of_In.
Qed.
Lemma close_all_refines (ss : list SessId) : forall t a, tracks t a -> (forall s, s ∈ ss -> is_Some (objects t !! s)) ->
  exists t', close_all ss t = Done t' /\ tracks t' (foldl (fun a s => setState_left s _wait_close_ a) a ss) /\ dom (objects t') = dom (objects t).
Proof.
  induction ss as [|s ss IH]; intros t a Ht Hss; [by exists t|]. cbn [close_all foldl].
  destruct (setState_refines s _wait_close_ t a Ht) as (t1 & E1 & Ht1 & D1); [apply Hss; left|done|].
  destruct (IH t1 _ Ht1) as (t2 & E2 & Ht2 & D2); [intros q Hq; apply (known_object t); [done|apply Hss; by right]|].
  exists t2. rewrite E1. split_and!; [done|done|congruence].
Qed.
Lemma gate_refines e k a : inv k a -> may (On e) k -> let g' := (handle e (gate k)).1 in
  exists t', gate_events e (gate k) g' (timers k) = Done t' /\ tracks t' (gate_left e (gate k) g' a) /\ dom (objects t') = dom (objects (timers k)).
Proof.
  intros [Ht Ho Hon Hc] Hmay g'. destruct e as [u n c|u n| |s|s u|s m|s|p| |c id|c n|c|c u m|c u gs]; cbn [gate_events gate_left]; try by exists (timers k).
  - destruct Hmay as [Hst Hs]. apply (setState_refines s _wait_account_); [done..|]. intros _. apply Hc. by left.
  - case_decide as Hst; [by exists (timers k)|]. apply login_refines; [|done|by apply Ho|done].
    destruct (login_state s u (gate k) Hst) as [E|E]; subst g'; by rewrite E.
  - apply (setState_refines s _disable_); [done|by apply Ho|done].
  - apply close_all_refines; [done|]. intros s [u Hu]%gone_online. by eapply Hon.
Qed.

(** Which times an event changes. *)
Lemma setState_left_ne s st a key : key <> (s, setClose) -> setState_left s st a !! key = a !! key.
Proof. intros Hne. destruct st; cbn; by rewrite ?lookup_delete_ne, ?lookup_insert_ne. Qed.
Lemma setState_left_none s st a : st = _disable_ \/ st = _connect_ -> setState_left s st a !! (s, setClose) = None.
Proof. intros [-> | ->]; cbn; by rewrite lookup_delete_eq. Qed.
Lemma close_all_left ss a key : (forall s, s ∈ ss -> key <> (s, setClose)) -> foldl (fun a s => setState_left s _wait_close_ a) a ss !! key = a !! key.
Proof.
  revert a. induction ss as [|s ss IH]; intros a Hne; [done|]. cbn [foldl].
  rewrite IH by (intros q Hq; apply Hne; by right). apply setState_left_ne, Hne. left.
Qed.
Definition logs_in e s g : Prop := match e with Login s' _ => s' = s /\ m_state (session s g) <> _connect_ | _ => False end.
#[export] Instance logs_in_dec e s g : Decision (logs_in e s g).
Proof. destruct e; cbn; apply _. Defined.
Lemma login_left_close s s' st a : login_left s' st a !! (s, setClose) = setState_left s' st a !! (s, setClose).
Proof. unfold login_left. cbn zeta. case_match; rewrite ?lookup_insert_ne by done; unfold ping_left; by rewrite lookup_insert_ne. Qed.
Lemma login_left_noPing s s' st a : login_left s' st a !! (s, noPing) = if decide (s' = s) then Some (due_in _NOPING_TIME_ 1) else a !! (s, noPing).
Proof.
  unfold login_left. cbn zeta. case_match; rewrite ?(lookup_insert_ne _ (s', pingNotify)) by done; unfold ping_left;
    (case_decide as E; [subst; by rewrite lookup_insert_eq|rewrite lookup_insert_ne by congruence; by apply setState_left_ne]).
Qed.
Lemma gate_left_noPing e g g' a s : gate_left e g g' a !! (s, noPing) = if decide (logs_in e s g) then Some (due_in _NOPING_TIME_ 1) else a !! (s, noPing).
Proof.
  destruct e; cbn [gate_left logs_in]; try by rewrite decide_False by tauto.
  - rewrite decide_False by tauto. by apply setState_left_ne.
  - destruct (decide (m_state (session s0 g) = _connect_)) as [Hst|Hst].
    + rewrite decide_False; [done|]. intros [-> ?]. done.
    + rewrite login_left_noPing. apply decide_ext. split; [intros ->; done|by intros []].
  - rewrite decide_False by tauto. by apply setState_left_ne.
  - rewrite decide_False by tauto. by apply close_all_left.
Qed.
Lemma gate_left_close e g a s : let g' := (handle e g).1 in
  m_state (session s g') = _disable_ \/ m_state (session s g') = _connect_ ->
  gate_left e g g' a !! (s, setClose) = None \/ (m_state (session s g') = m_state (session s g) /\ gate_left e g g' a !! (s, setClose) = a !! (s, setClose)).
Proof.
  intros g'. unfold g'. rewrite (handle_states e g s). intros Hst.
  destruct e as [u n c|u n| |s'|s' u|s' m|s'|p| |c id|c n|c|c u m|c u gs]; cbn [gate_left]; auto.
  - case_decide as E; [subst; by destruct Hst|]. right. split; [done|]. apply setState_left_ne. congruence.
  - destruct (decide (m_state (session s' g) = _connect_)) as [Hc|Hc].
    { right. split; [|done]. case_decide; [subst|done]. cbn. unfold parseLoginGame. by rewrite decide_True. }
    rewrite login_left_close. case_decide as E; [subst s'; left; by apply setState_left_none|].
    right. split; [done|]. apply setState_left_ne. congruence.
  - case_decide as E; [subst; left; apply setState_left_none; by left|]. right. split; [done|]. apply setState_left_ne. congruence.
  - case_decide as E; [by destruct Hst|]. right. split; [done|]. apply close_all_left. intros q Hq [= ->]. done.
Qed.

Lemma may_open e k a s : inv k a -> may (On e) k -> let g' := (handle e (gate k)).1 in is_open (session s g') -> is_Some (objects (timers k) !! s).
Proof.
  intros [_ Ho Hon _] Hmay g'. unfold is_open, g'. rewrite (handle_states e (gate k) s).
  destruct e as [u n c|u n| |s'|s' u|s' m|s'|p| |c id|c n|c|c u m|c u gs]; try apply Ho.
  - case_decide as E; [subst; by destruct Hmay|apply Ho].
  - case_decide as E; [subst; intros _; by apply Ho|apply Ho].
  - case_decide as E; [done|apply Ho].
  - case_decide as E; [|apply Ho]. intros _. apply gone_online in E as [u Hu]. by eapply Hon.
Qed.

(** Each step succeeds, keeps the invariant and runs what is due. *)
Lemma step_keeps e k a : inv k a -> may e k ->
  exists k' out, step e k = Done (k', out) /\ inv k' (left_step e k k' a) /\ ran e k k' a.
Proof.
  intros Hinv Hmay. destruct (Hinv) as [Ht Ho Hon Hc]. destruct e as [s|e|s|d now]; cbn [Keepalive.step].
  - destruct (create_tracks s (timers k) a Ht Hmay) as (t' & -> & Ht' & Hobj). eexists _, _. split; [done|]. split; [|done].
    assert (Hsome : forall q, is_Some (objects (timers k) !! q) -> is_Some (objects t' !! q)).
    { intros q Hq. rewrite Hobj. destruct (decide (q = s)) as [->|]; [by rewrite lookup_insert_eq|by rewrite lookup_insert_ne]. }
    constructor; cbn [gate timers left_step]; eauto.
  - destruct (gate_refines e k a Hinv Hmay) as (t' & E & Ht' & D). destruct (handle e (gate k)) as [g' out] eqn:Eh.
    cbn [fst] in E, Ht'. rewrite E. cbn [obind]. eexists _, _. split; [done|]. split; [|done].
    assert (Eg : g' = (handle e (gate k)).1) by by rewrite Eh. constructor; cbn [gate timers left_step]; [done|..].
    + intros s Hs. apply (known_object _ _ _ D). rewrite Eg in Hs. by apply (may_open e k a).
    + intros u p Hp. apply (known_object _ _ _ D). rewrite Eg in Hp. apply handle_onlines in Hp as [Hp|[v ->]]; [by eapply Hon|].
      by apply Ho.
    + intros s Hs. rewrite Eg in *. destruct (gate_left_close e (gate k) a s Hs) as [?|[Hst ->]]; [done|]. apply Hc. by rewrite <- Hst.
  - destruct (ping_refines s (fun _ => True) (timers k) a Ht (Ho s Hmay) I) as (t' & -> & Ht' & D). eexists _, _. split; [done|]. split; [|done].
    constructor; cbn [gate timers left_step]; [done|intros q Hq; apply (known_object _ _ _ D); auto|intros u p Hp; apply (known_object _ _ _ D); eauto|].
    intros q Hq. unfold ping_left. rewrite lookup_insert_ne by done. auto.
  - destruct (pass_tracks run_method d (S (length (holder_list WORLD_INSTANCE (timers k)))) (timers k) a (set_time now (sent k)) Ht) as (hits & t' & ks & Hu & Hnd & Hks & Ht' & Hobj); [apply Nat.lt_succ_diag_r|].
    change (-1) with WORLD_INSTANCE in Hu. rewrite Hu. cbn [obind]. eexists _, _. split; [done|]. split; [|by exists ks].
    constructor; cbn [gate timers left_step]; rewrite ?Hobj; auto. intros q Hq. unfold pass. rewrite map_lookup_imap, Hc; done.
Qed.

Lemma start_inv : inv new_keep ∅.
Proof. constructor; cbn; [apply start_tracks|done|by intros u p; rewrite lookup_empty|by intros; rewrite lookup_empty]. Qed.
Lemma runs_keep P es k k' : runs P es k k' -> forall a, inv k a -> exists a', inv k' a'.
Proof.
  induction 1 as [k|e es k k1 out k2 Hmay Hstep _ _ IH]; intros a Ha; [eauto|].
  destruct (step_keeps e k a Ha Hmay) as (k1' & out' & E & Hinv & _). rewrite Hstep in E. injection E as -> _. eauto.
Qed.
Lemma reachable_inv k : reachable GSIdleMax k -> exists a, inv k a.
Proof. intros [es Hr]. eapply runs_keep; [exact Hr|apply start_inv]. Qed.

(** ** What a run closes *)
Definition closing (key : SessId * Method) : bool := match key.2 with pingNotify => false | _ => true end.
Lemma closes_run ks w : closes (fold_left (run_key run_method) ks w) = closes w ++ List.filter closing ks.
Proof.
  revert w. induction ks as [|[s m] ks IH]; intros w; cbn [fold_left List.filter]; [by rewrite app_nil_r|].
  rewrite IH. unfold run_key, closing. by destruct m; cbn; rewrite <- ?app_assoc.
Qed.
(** What a step closes. *)
Lemma step_closes e k k' a out : inv k a -> may e k -> step e k = Done (k', out) ->
  inv k' (left_step e k k' a) /\ exists new, closes (sent k') = closes (sent k) ++ new /\ NoDup new /\
    forall key, key ∈ new <-> closing key = true /\ match e with Pass d _ => due d a key | _ => False end.
Proof.
  intros Hinv Hmay Hstep. destruct (step_keeps e k a Hinv Hmay) as (k1 & out' & E & Hinv' & Hran). rewrite Hstep in E. injection E as <- _.
  split; [done|]. destruct e as [s|e|s|d now]; cbn [ran] in Hran.
  1-3: exists []; rewrite Hran, app_nil_r; split_and!; [done|constructor|]; intros key; split; [by intros ?%elem_of_nil|tauto].
  destruct Hran as (ks & -> & Hnd & Hks). exists (List.filter closing ks). rewrite closes_run. split_and!; [done| |].
  - by apply NoDup_ListNoDup, List.NoDup_filter, NoDup_ListNoDup.
  - intros key. rewrite list_elem_of_In, filter_In, <- list_elem_of_In, Hks. tauto.
Qed.

Definition key_eq (k1 k2 : SessId * Method) : {k1 = k2} + {k1 <> k2} := decide (k1 = k2).
Definition times_closed (key : SessId * Method) (new : list (SessId * Method)) : nat := count_occ key_eq new key.
Lemma times_closed_once key new : NoDup new -> times_closed key new = if decide (key ∈ new) then 1%nat else 0%nat.
Proof.
  intros Hnd. unfold times_closed. case_decide as Hin.
  - apply NoDup_ListNoDup in Hnd. pose proof (proj1 (NoDup_count_occ key_eq _) Hnd key). apply list_elem_of_In, (count_occ_In key_eq) in Hin. lia.
  - apply count_occ_not_In. by rewrite <- list_elem_of_In.
Qed.

Lemma elapsed_cons e es : elapsed (e :: es) = match e with Pass d _ => d | _ => 0 end + elapsed es.
Proof. by destruct e. Qed.
Lemma runs_elapsed P es k k' : runs P es k k' -> 0 <= elapsed es.
Proof. induction 1 as [k|e es k k1 out k2 Hmay _ _ _ IH]; [done|]. rewrite elapsed_cons. destruct e; cbn in Hmay; lia. Qed.

(** How often a one-shot timer has run by the time [n]. *)
Definition done_by (n : Z) (v : option Deadline) : nat := match v with Some dl => if left dl <=? n then 1 else 0 | None => 0 end.

(** A one-shot timer that nothing but passes touches runs once, when its time is up. *)
Lemma watched P key : closing key = true -> one_shot key.2 = true ->
  (forall e k k' a out, inv k a -> may e k -> step e k = Done (k', out) -> P e k k' ->
     match e with Pass _ _ => True | _ => left_step e k k' a !! key = a !! key end) ->
  forall es k k', runs P es k k' -> forall a, inv k a -> (forall dl, a !! key = Some dl -> 0 < left dl) ->
  exists new, closes (sent k') = closes (sent k) ++ new /\
    times_closed key new = done_by (elapsed es) (a !! key).
Proof.
  intros Hc Hone Hkeep es k k'. induction 1 as [k|e es k k1 out k2 Hmay Hstep HP Hruns IH]; intros a Ha Hpos.
  { exists []. rewrite app_nil_r. split; [done|]. unfold done_by. cbn. destruct (a !! key) as [dl|] eqn:E; [|done]. specialize (Hpos dl eq_refl).
    by rewrite (proj2 (Z.leb_gt _ _)). }
  destruct (step_closes e k k1 a out Ha Hmay Hstep) as [Ha1 (new & En & Hnd & Hnew)].
  specialize (Hkeep e k k1 a out Ha Hmay Hstep HP). pose proof (runs_elapsed _ _ _ _ Hruns) as Hel. rewrite elapsed_cons.
  assert (Hnext : (forall dl, left_step e k k1 a !! key = Some dl -> 0 < left dl) /\
    (times_closed key new + done_by (elapsed es) (left_step e k k1 a !! key))%nat =
    done_by (match e with Pass d _ => d | _ => 0 end + elapsed es) (a !! key)).
  { rewrite (times_closed_once _ _ Hnd). unfold done_by. destruct e as [s|e|s|d now]; cycle 3.
    2-4: rewrite Hkeep, decide_False by (rewrite Hnew; tauto); done.
    cbn [left_step]. unfold pass. rewrite map_lookup_imap. destruct (a !! key) as [dl|] eqn:E; cycle 1.
    - split; [done|]. rewrite decide_False; [done|]. rewrite Hnew. intros [_ (dl & E' & _)]. congruence.
    - cbn [mbind option_bind]. unfold tick. rewrite Hone. destruct (Z.leb_spec (left dl) d) as [Hd|Hd].
      + split; [done|]. rewrite decide_True by (apply Hnew; split; [done|]; by exists dl). by rewrite (proj2 (Z.leb_le _ _)) by lia.
      + split; [intros dl' [= <-]; cbn; lia|]. rewrite decide_False by (rewrite Hnew; intros [_ (dl' & E' & Hle)]; rewrite E in E'; injection E' as <-; lia).
        cbn. destruct (Z.leb_spec (left dl - d) (elapsed es)), (Z.leb_spec (left dl) (d + elapsed es)); lia. }
  destruct Hnext as [Hpos1 Hsum]. destruct (IH _ Ha1 Hpos1) as (new' & En' & Hnew'). exists (new ++ new').
  split; [by rewrite En', En, app_assoc|]. unfold times_closed in *. rewrite count_occ_app, Hnew'. exact Hsum.
Qed.
End Facts.

(** ** Who is closed *)

(** The session pings, or logs in. *)
Definition arms (e : KEvent) (s : SessId) (k : Keep) : Prop :=
  match e with PingMsg s' => s' = s | On e => logs_in e s (gate k) | _ => False end.
Definition silent (s : SessId) (e : KEvent) (k k' : Keep) : Prop := ~ arms e s k.
Definition stays (s : SessId) (st : State) (e : KEvent) (k k' : Keep) : Prop :=
  m_state (session s (gate k)) = st /\ m_state (session s (gate k')) = st.
#[export] Instance arms_dec e s k : Decision (arms e s k).
Proof. destruct e; cbn; apply _. Defined.

Section Closed.
Context (GSIdleMax : Z).
Abbreviation step := (step GSIdleMax).
Abbreviation runs := (runs GSIdleMax).
Abbreviation reachable := (reachable GSIdleMax).

Lemma silent_keeps s e k k' a out : inv k a -> may e k -> step e k = Done (k', out) -> silent s e k k' ->
  match e with Pass _ _ => True | _ => left_step e k k' a !! (s, noPing) = a !! (s, noPing) end.
Proof.
  unfold silent. destruct e as [q|e|q|d now]; cbn [arms left_step]; intros _ _ _ Hs; [done| | |done].
  - rewrite gate_left_noPing. by rewrite decide_False.
  - unfold ping_left. rewrite lookup_insert_ne; [done|]. by intros [= ->].
Qed.
Lemma armed s e k k' a : arms e s k -> left_step e k k' a !! (s, noPing) = Some (due_in _NOPING_TIME_ 1).
Proof.
  destruct e as [q|e|q|d now]; cbn [arms left_step]; intros Hs; [done| | |done].
  - by rewrite gate_left_noPing, decide_True.
  - subst. unfold ping_left. by rewrite lookup_insert_eq.
Qed.
(** While a session is in, its time to log in is not running. *)
Lemma connected_spared s es k k' : runs (stays s _connect_) es k k' -> forall a, inv k a ->
  exists new, closes (sent k') = closes (sent k) ++ new /\ (s, setClose) ∉ new.
Proof.
  induction 1 as [k|e es k k1 out k2 Hmay Hstep [Hst _] _ IH]; intros a Ha; [exists []; rewrite app_nil_r; split; [done|by intros ?%elem_of_nil]|].
  destruct (step_closes GSIdleMax e k k1 a out Ha Hmay Hstep) as [Ha1 (new & En & _ & Hnew)]. destruct (IH _ Ha1) as (new' & En' & Hnew').
  exists (new ++ new'). split; [by rewrite En', En, app_assoc|]. rewrite elem_of_app. intros [Hin|]; [|done].
  apply Hnew in Hin as [_ Hdue]. destruct e; try done. destruct Hdue as (dl & E & _). rewrite (inv_close _ _ Ha) in E by (by right). done.
Qed.
Lemma runs_mono (P Q : KEvent -> Keep -> Keep -> Prop) es k k' : (forall e k k', P e k k' -> Q e k k') -> runs P es k k' -> runs Q es k k'.
Proof. intros HPQ. induction 1; econstructor; eauto. Qed.

(** The gate's timers never fail, and run what the map of times left says. *)
Theorem timers_refine k : reachable k -> exists a, tracks (timers k) a /\
  forall e, may e k -> exists k' out, step e k = Done (k', out) /\ tracks (timers k') (left_step e k k' a) /\ ran e k k' a.
Proof.
  intros [a Ha]%reachable_inv. exists a. split; [apply Ha|]. intros e Hmay.
  destruct (step_keeps GSIdleMax e k a Ha Hmay) as (k' & out & E & Hinv & Hran). exists k', out. split; [done|]. split; [apply Hinv|done].
Qed.

(** A client that connects and does not log in is closed after twenty seconds. *)
Theorem slow_login_closed s es k0 k out k' : reachable k0 -> may (On (Accept s)) k0 -> step (On (Accept s)) k0 = Done (k, out) ->
  runs (stays s _wait_account_) es k k' ->
  exists new, closes (sent k') = closes (sent k) ++ new /\ times_closed (s, setClose) new = if _WAIT_ACCOUNT_DATA_TIME_ <=? elapsed es then 1%nat else 0%nat.
Proof.
  intros [a0 Ha0]%reachable_inv Hmay Hstep Hruns. destruct (step_closes GSIdleMax _ _ _ _ _ Ha0 Hmay Hstep) as [Ha _].
  destruct (watched GSIdleMax (stays s _wait_account_) (s, setClose) eq_refl eq_refl) with (3 := Ha) (2 := Hruns) as (new & En & Hnew).
  - clear. intros e k k' a out Ha Hmay Hstep [Hst Hst']. destruct e as [q|e|q|d now]; cbn [left_step]; [done| | |done].
    + destruct (gate_refines GSIdleMax e k a Ha Hmay) as (t' & E & _). cbn [Keepalive.step] in Hstep.
      destruct (GateServer.handle GSIdleMax e (gate k)) as [g' o] eqn:Eh. cbn [fst] in E. rewrite E in Hstep. injection Hstep as <- _. cbn [gate] in *.
      pose proof (handle_states GSIdleMax e (gate k) s) as Hs. rewrite Eh in Hs. cbn [fst] in Hs. rewrite Hst' in Hs.
      destruct e as [u n c|u n| |q|q u|q m|q|p| |c id|c n|c|c u m|c u gs]; cbn [gate_left] in *; try done.
      * apply setState_left_ne. intros [= ->]. destruct Hmay as [Hd _]. cbn in Hd. congruence.
      * clear Hs. destruct (decide (m_state (session q (gate k)) = _connect_)) as [Hc|Hc]; [done|].
        destruct (decide (s = q)) as [->|Hne]; [|rewrite login_left_close; apply setState_left_ne; congruence].
        destruct (login_state GSIdleMax q u (gate k) Hc) as [E'|E']; rewrite Eh in E'; cbn [fst] in E'; congruence.
      * case_decide as E'; [done|]. apply setState_left_ne. congruence.
      * case_decide as E'; [done|]. apply close_all_left. intros q Hq [= ->]. done.
    + unfold ping_left. by rewrite lookup_insert_ne.
  - cbn [left_step gate_left setState_left]. rewrite lookup_insert_eq. by intros dl [= <-].
  - exists new. split; [done|]. rewrite Hnew. cbn [left_step gate_left setState_left]. by rewrite lookup_insert_eq.
Qed.

(** C6: A client that falls silent is closed by the gate, and no other is:
    since a session last logged in or answered a ping, whatever else has
    happened, the timer of silence calls [close()] on it once if a minute has
    gone by in the passes of the main loop, and never before; and while it is
    logged in no other timer closes it. *)
Theorem silent_clients_closed s e0 k0 k out es k' :
  reachable k0 -> may e0 k0 -> arms e0 s k0 -> step e0 k0 = Done (k, out) -> runs (silent s) es k k' ->
  exists new, closes (sent k') = closes (sent k) ++ new /\
    times_closed (s, noPing) new = (if _NOPING_TIME_ <=? elapsed es then 1%nat else 0%nat) /\
    (runs (stays s _connect_) es k k' -> (s, setClose) ∉ new).
Proof.
  intros [a0 Ha0]%reachable_inv Hmay Harms Hstep Hruns. destruct (step_closes GSIdleMax _ _ _ _ _ Ha0 Hmay Hstep) as [Ha _].
  pose proof (armed s e0 k0 k a0 Harms) as Hleft.
  destruct (watched GSIdleMax (silent s) (s, noPing) eq_refl eq_refl) with (3 := Ha) (2 := Hruns) as (new & En & Hnew).
  - intros e k1 k2 a1 out1. apply silent_keeps.
  - rewrite Hleft. by intros dl [= <-].
  - exists new. split; [done|]. rewrite Hleft in Hnew. split; [exact Hnew|]. intros Hin.
    destruct (connected_spared s es k k' Hin _ Ha) as (new' & En' & Hnot). rewrite En in En'. by apply app_inv_head in En' as ->.
Qed.
End Closed.

(** ** Runs, computed *)
#[export] Instance may_dec e k : Decision (may e k).
Proof. destruct e as [s|e|s|d now]; cbn; try apply _. destruct e; apply _. Defined.
#[export] Instance silent_dec s e k k' : Decision (silent s e k k').
Proof. unfold silent. apply _. Defined.
#[export] Instance stays_dec s st e k k' : Decision (stays s st e k k').
Proof. unfold stays. apply _. Defined.
#[export] Instance anything_dec e k k' : Decision (anything e k k').
Proof. by left. Defined.

Section Replay.
Context (P : KEvent -> Keep -> Keep -> Prop) {Hdec : forall e k k', Decision (P e k k')}.
Fixpoint replay (es : list KEvent) (k : Keep) : option Keep :=
  match es with
  | [] => Some k
  | e :: es =>
      if decide (may e k) then
        match step 100 e k with
        | Done (k', _) => if decide (P e k k') then replay es k' else None
        | _ => None
        end
      else None
  end.
Lemma replay_runs es : forall k k', replay es k = Some k' -> runs 100 P es k k'.
Proof.
  induction es as [|e es IH]; cbn [replay]; intros k k'; [intros [= <-]; constructor|].
  case_decide as Hm; [|done]. destruct (step 100 e k) as [[k1 out]|f|] eqn:E; [|done..]. case_decide as HP; [|done].
  intros H%IH. by econstructor.
Qed.
End Replay.

(** A user who comes, logs in and says no more. *)
Definition a_visit : list KEvent := [Construct 1; On (GameUp 1 1); On (LoginUser 11 100 0); On (Accept 1)].
Definition a_minute : list KEvent := [Pass 30000 30; On (ClientMsg 1 5); Pass 20000 50; Pass 10000 60; Pass 60000 120].
Lemma silent_clients_closed_witness :
  match replay anything a_visit new_keep with
  | Some k0 =>
      match step 100 (On (Login 1 11)) k0 with
      | Done (k, _) =>
          match replay (silent 1) a_minute k with
          | Some k' => exists new, closes (sent k') = closes (sent k) ++ new /\ times_closed (1%positive, noPing) new = 1%nat /\ (1%positive, setClose) ∉ new
          | None => False
          end
      | _ => False
      end
  | None => False
  end.
Proof.
  destruct (replay anything a_visit new_keep) as [k0|] eqn:E0; [|by vm_compute in E0].
  destruct (step 100 (On (Login 1 11)) k0) as [[k out]|f|] eqn:E; [|vm_compute in E0; injection E0 as <-; by vm_compute in E..].
  destruct (replay (silent 1) a_minute k) as [k'|] eqn:E1; [|vm_compute in E0; injection E0 as <-; vm_compute in E; injection E as <- _; by vm_compute in E1].
  destruct (silent_clients_closed 100 1 (On (Login 1 11)) k0 k out a_minute k') as (new & En & Hn & Hs); [| | |exact E| |].
  - exists a_visit. by apply replay_runs with anything_dec.
  - vm_compute in E0. injection E0 as <-. apply (bool_decide_unpack _). vm_compute. done.
  - vm_compute in E0. injection E0 as <-. apply (bool_decide_unpack _). vm_compute. done.
  - by apply replay_runs with (silent_dec 1).
  - exists new. split; [exact En|]. split; [exact Hn|]. apply Hs. apply replay_runs with (stays_dec 1 _connect_).
    vm_compute in E0. injection E0 as <-. vm_compute in E. injection E as <- _. vm_compute in E1. injection E1 as <-. vm_compute. reflexivity.
Defined.

(** The timers of a session survive it: the object goes back to the pool with
    them.  A client that gets it fifty seconds later is closed after ten, and
    is sent the pings of its predecessor before it has logged in. *)
Definition reused : list KEvent := a_visit ++ [On (Login 1 11); On (Closed 1); Pass 50000 50; On (Accept 1); Pass 10000 60].
Example newcomer_closed : option_map (fun k => (closes (sent k), map to (pings (sent k)), m_state (session 1 (gate k)))) (replay anything reused new_keep) =
  Some ([(1%positive, noPing)], [1%positive; 1%positive], _wait_account_).
Proof. vm_compute. reflexivity. Qed.
