(* ===== verification/LoginServer.v ===== *)
(** * login: accounts, sessions and the choice of a gate

    [UserLoginSession] (user_session.cpp), [AccountManager]
    (account_manager.cpp), [GateManager] (gate_manager.cpp), [GateSession]
    (gate_session.cpp), [LoginConfig] (login_config.cpp), [LoginHttpTask]
    (LGHttpManager.cpp).  What the server sends is a list of [Sent].  The
    answers of the database and of the platform are arguments of the events
    that bring them. *)
From stdpp Require Import gmap.
From S2P Require Import Prelude Text Crc.

Definition INVALID_ACCOUNT : Z := 0.
Definition INVALID_GATE_ID : Z := 0.
Definition INVALID_GAME_ID : Z := 0.
Definition MAX_GATE_ID : Z := 255.
Definition _BALENCE_TIME_ : Z := 2 * 1000.
Abbreviation UserId := positive.
Abbreviation GateId := positive.

Inductive UserState := _disable_ | _wait_data_ | _checking_data_ | _wait_gate_ | _wait_close_ | _wait_platform_ | _platform_success_.
#[export] Instance UserState_eq_dec : EqDecision UserState.
Proof. solve_decision. Defined.

(** [connected]: [is_valid] and [m_isconnected] of the pooled [tcp_session],
    which change together here. *)
Record UserLoginSession := mkUserLoginSession {
  m_accid : Z; m_state : UserState; _channel : Z; _platform_user_id : string; m_remote_ip_str : string; connected : bool
}.
Record Account := mkAccount { nGateId : Z; nId : Z; nTranId : Z }.

Inductive CheckType := _login_check_ | _new_acc_check_.
Definition _check_pass_ : Z := 0.
Record CheckAcct := mkCheckAcct {
  str : string; pwd : string; result : Z; ower : UserId; acct : Z; check_type : CheckType; channel : Z
}.

(** [GateSession::GateInfo] and [_balence_time]. *)
Record GateSession := mkGateSession { gate_id : Z; gate_onlines : Z; out_ip : string; out_port : Z; _balence_time : list Z }.

Record LoginHttpTask := mkLoginHttpTask {
  _user_id : string; _channel_id : Z; _app_id : string; _app_key : string; _token : string; _extra_data : string;
  _status : Z; _nick_name : string; _s_token : string; _session : UserId
}.

Record LoginConfig := mkLoginConfig {
  _version : Z * Z * Z; _channels : list Z; _need_platform_verify : bool; _platform_url : string
}.

Record Login := mkLogin {
  users : gmap UserId UserLoginSession;
  m_Accts : gmap Z Account;
  gate_sessions : gmap GateId GateSession;
  m_Gates : gmap Z GateId;
  m_WaitSessions : gmap Z UserId;
  db_tasks : list CheckAcct;
  _https : list LoginHttpTask;
  now : Z
}.
Definition set_users v L := mkLogin v (m_Accts L) (gate_sessions L) (m_Gates L) (m_WaitSessions L) (db_tasks L) (_https L) (now L).
Definition set_Accts v L := mkLogin (users L) v (gate_sessions L) (m_Gates L) (m_WaitSessions L) (db_tasks L) (_https L) (now L).
Definition set_gate_sessions v L := mkLogin (users L) (m_Accts L) v (m_Gates L) (m_WaitSessions L) (db_tasks L) (_https L) (now L).
Definition set_Gates v L := mkLogin (users L) (m_Accts L) (gate_sessions L) v (m_WaitSessions L) (db_tasks L) (_https L) (now L).
Definition set_WaitSessions v L := mkLogin (users L) (m_Accts L) (gate_sessions L) (m_Gates L) v (db_tasks L) (_https L) (now L).
Definition set_db_tasks v L := mkLogin (users L) (m_Accts L) (gate_sessions L) (m_Gates L) (m_WaitSessions L) v (_https L) (now L).
Definition set_https v L := mkLogin (users L) (m_Accts L) (gate_sessions L) (m_Gates L) (m_WaitSessions L) (db_tasks L) v (now L).
Definition set_now v L := mkLogin (users L) (m_Accts L) (gate_sessions L) (m_Gates L) (m_WaitSessions L) (db_tasks L) (_https L) v.

(** Messages to a client and to a gate. *)
Inductive Reply :=
  | Login_Fail | Login_NameFail | Login_ErrorNeedThirdVerify | Login_ErrorVersion (version : Z * Z * Z) | Login_ErrorChannel
  | Login_Success (user_account : Z) (gate_ip : string) (gate_port : Z)
  | RegisterAccountFaildACK
  | PlatformVerifyACK (nick user_id token : string) (success : bool).
Inductive ToGateMsg := UserLogin (a t channel : Z) | KickUser (a t : Z).
Inductive Sent := ToUser (s : UserId) (r : Reply) | ToGate (c : GateId) (m : ToGateMsg).

(** ** LoginConfig *)
Definition CompareVersion (cfg : LoginConfig) (number_1 number_2 number_3 : Z) : bool :=
  let '(v1, v2, _) := _version cfg in (v1 =? number_1) && (v2 =? number_2).
Definition CompareChannel (cfg : LoginConfig) (c : Z) : bool := existsb (Z.eqb c) (_channels cfg).
Definition SetVersion (n1 n2 n3 : Z) (cfg : LoginConfig) : LoginConfig := mkLoginConfig (n1, n2, n3) (_channels cfg) (_need_platform_verify cfg) (_platform_url cfg).
Definition SetChannels (c : string) (cfg : LoginConfig) : LoginConfig :=
  mkLoginConfig (_version cfg) (_channels cfg ++ map atoi (Text.split c ";")) (_need_platform_verify cfg) (_platform_url cfg).
Definition SetNeedPlatformVerify (b : bool) (cfg : LoginConfig) : LoginConfig := mkLoginConfig (_version cfg) (_channels cfg) b (_platform_url cfg).
Definition SetPlatform (u : string) (cfg : LoginConfig) : LoginConfig := mkLoginConfig (_version cfg) (_channels cfg) (_need_platform_verify cfg) u.

(** The row of [server_config], in [LoginServer::initDataFromDatabase]. *)
Record ServerConfigRow := mkServerConfigRow {
  version_number_1 : Z; version_number_2 : Z; version_number_3 : Z; channel_id : string; http_platform_url : string; need_third_platform : bool
}.
Definition init_config (r : option ServerConfigRow) (cfg : LoginConfig) : LoginConfig :=
  match r with
  | Some r => SetNeedPlatformVerify (need_third_platform r) (SetPlatform (http_platform_url r) (SetChannels (channel_id r)
                (SetVersion (version_number_1 r) (version_number_2 r) (version_number_3 r) cfg)))
  | None => cfg
  end.

(** ** Sessions of clients *)
Definition no_user : UserLoginSession := mkUserLoginSession 0 _disable_ 0 "" "" false.
Definition user (s : UserId) (L : Login) : UserLoginSession := default no_user (users L !! s).
Definition on_user (s : UserId) (f : UserLoginSession -> UserLoginSession) (L : Login) : Login := set_users (<[s := f (user s L)]> (users L)) L.
Definition setState (st : UserState) (u : UserLoginSession) := mkUserLoginSession (m_accid u) st (_channel u) (_platform_user_id u) (m_remote_ip_str u) (connected u).
Definition setAccount (a : Z) (u : UserLoginSession) := mkUserLoginSession a (m_state u) (_channel u) (_platform_user_id u) (m_remote_ip_str u) (connected u).
Definition set_channel (c : Z) (u : UserLoginSession) := mkUserLoginSession (m_accid u) (m_state u) c (_platform_user_id u) (m_remote_ip_str u) (connected u).
(** What is sent to a session that is not connected is dropped. *)
Definition reply (s : UserId) (r : Reply) (L : Login) : list Sent := if connected (user s L) then [ToUser s r] else [].

Definition on_accept (s : UserId) (ip : string) (L : Login) : Login :=
  on_user s (fun u => mkUserLoginSession (m_accid u) _wait_data_ (_channel u) (_platform_user_id u) ip true) L.
(** [on_close], and the [reset] of the session that goes back to its pool. *)
Definition on_close (s : UserId) (L : Login) : Login :=
  on_user s (fun u => mkUserLoginSession 0 _disable_ (_channel u) "" "" false) L.

(** ** Gates *)
Definition new_gate : GateSession := mkGateSession 0 0 "127.0.0.1" 0 [].
Definition gate (c : GateId) (L : Login) : GateSession := default new_gate (gate_sessions L !! c).
Definition on_gate (c : GateId) (f : GateSession -> GateSession) (L : Login) : Login := set_gate_sessions (<[c := f (gate c L)]> (gate_sessions L)) L.
Definition getBalenceCount (c : GateId) (L : Login) : Z := i32 (gate_onlines (gate c L) + Z.of_nat (length (_balence_time (gate c L)))).
Definition addBalenceTime (c : GateId) (L : Login) : Login :=
  on_gate c (fun g => mkGateSession (gate_id g) (gate_onlines g) (out_ip g) (out_port g) (_balence_time g ++ [now L])) L.
(** [_BALENCE_TIME_ * 20] expands to [2 * _TIME_SECOND_MSEL_ * 20]. *)
Definition balenceInfoEvent (c : GateId) (L : Login) : Login :=
  on_gate c (fun g => mkGateSession (gate_id g) (gate_onlines g) (out_ip g) (out_port g)
                        (List.filter (fun t => negb (now L >? _BALENCE_TIME_ * 20 + t)) (_balence_time g))) L.
Definition valid_gate (id : Z) : bool := (id >? INVALID_GATE_ID) && (id <? MAX_GATE_ID).
Definition addGate (id : Z) (c : GateId) (L : Login) : Login :=
  if valid_gate id then set_Gates (<[id := c]> (m_Gates L)) L else L.
Definition removeGate (c : GateId) (L : Login) : Login :=
  let id := gate_id (gate c L) in
  if valid_gate id && bool_decide (m_Gates L !! id = Some c) then set_Gates (delete id (m_Gates L)) L else L.

(** Gate id 0 passes the test, but no gate is ever there. *)
Definition kickUserFromGate (p : Account) (L : Login) : list Sent :=
  let id := nGateId p in
  if (id >=? INVALID_GATE_ID) && (id <? MAX_GATE_ID) then
    match m_Gates L !! id with Some c => [ToGate c (KickUser (nId p) (nTranId p))] | None => [] end
  else [].

Fixpoint idle_loop (ids : list Z) (pkGate : option GateId) (L : Login) : option GateId :=
  match ids with
  | [] => pkGate
  | i :: ids =>
      match m_Gates L !! i, pkGate with
      | Some c, None => idle_loop ids (Some c) L
      | Some c, Some p => idle_loop ids (if getBalenceCount p L >? getBalenceCount c L then Some c else Some p) L
      | None, _ => idle_loop ids pkGate L
      end
  end.
Definition getIdleGate (L : Login) : option GateId := idle_loop (seqZ 0 MAX_GATE_ID) None L.

Definition addWaitSession (t : Z) (s : UserId) (L : Login) : Login :=
  match m_WaitSessions L !! t with Some _ => L | None => set_WaitSessions (<[t := s]> (m_WaitSessions L)) L end.
Definition removeWaitSession (t : Z) (L : Login) : Login := set_WaitSessions (delete t (m_WaitSessions L)) L.

(** Gives the account [p] to the idlest gate; none is an error. *)
Definition giveUserToGate (p : Account) (s : UserId) (L : Login) : option (Login * list Sent) :=
  match getIdleGate L with
  | None => None
  | Some c =>
      let L := set_Accts (<[nId p := mkAccount (gate_id (gate c L)) (nId p) (nTranId p)]> (m_Accts L)) L in
      let msg := UserLogin (nId p) (nTranId p) (_channel (user s L)) in
      let L := on_user s (fun u => setState _wait_gate_ (setAccount (nId p) u)) L in
      let L := addWaitSession (nTranId p) s (addBalenceTime c L) in
      Some (L, [ToGate c msg])
  end.
(** [t] is 64 bits wide here, the key of the map 32. *)
Definition receiveUserPrepar (t : Z) (ip : string) (port : Z) (L : Login) : Login * list Sent :=
  match m_WaitSessions L !! u32 t with
  | Some s => (removeWaitSession (u32 t) (on_user s (setState _wait_close_) L), reply s (Login_Success t ip port) L)
  | None => (L, [])
  end.

(** ** AccountManager *)
Definition bytes (s : string) : list Z := map (fun a => Z.of_N (N_of_ascii a)) (list_ascii_of_string s).
Definition makeTransId (s : string) (L : Login) : Z := sslCrc32 (bytes (s +:+ print_d (now L))).
Definition addAccount (a t g : Z) (L : Login) : Login := set_Accts (<[a := mkAccount g a t]> (m_Accts L)) L.
Definition removeAccount (a : Z) (L : Login) : Login := set_Accts (delete a (m_Accts L)) L.
Definition add_task (d : CheckAcct) (L : Login) : Login := set_db_tasks (db_tasks L ++ [d]) L.
Definition checkAccount (name pwd : string) (channel : Z) (s : UserId) (t : CheckType) (L : Login) : Login :=
  add_task (mkCheckAcct name pwd _check_pass_ s INVALID_ACCOUNT t channel) (on_user s (setState _checking_data_) L).

(** [answer]: the account and the result of the stored procedure, if it
    gave a row. *)
Definition batchQuery (answer : option (Z * Z)) (d : CheckAcct) : CheckAcct :=
  match answer with
  | Some (a, r) => mkCheckAcct (str d) (pwd d) r (ower d) a (check_type d) (channel d)
  | None => d
  end.

Definition checkAccountCall (d : CheckAcct) (success : bool) (L : Login) : Login * list Sent :=
  let s := ower d in
  if connected (user s L) then
    if success then
      if acct d =? INVALID_ACCOUNT then (on_user s (setState _wait_close_) L, reply s Login_NameFail L)
      else
        let kick := match m_Accts L !! acct d with Some p => kickUserFromGate p L | None => [] end in
        let p := mkAccount INVALID_GAME_ID (acct d) (makeTransId (str d +:+ pwd d +:+ m_remote_ip_str (user s L)) L) in
        let L := set_Accts (<[acct d := p]> (m_Accts L)) L in
        match giveUserToGate p s L with
        | Some (L, out) => (L, kick ++ out)
        | None => (on_user s (setState _wait_close_) (removeAccount (nId p) L), kick ++ reply s Login_Fail L)
        end
    else (on_user s (setState _wait_close_) L, reply s Login_Fail L)
  else (L, []).

Definition CreateNewAccount (d : CheckAcct) (success : bool) (L : Login) : Login * list Sent :=
  let s := ower d in
  if connected (user s L) then
    if negb success || negb (result d =? _check_pass_) then (on_user s (setState _wait_close_) L, reply s RegisterAccountFaildACK L)
    else (add_task (mkCheckAcct (str d) (pwd d) _check_pass_ s INVALID_ACCOUNT _login_check_ 0) L, [])
  else (L, []).

(** ** Messages of clients *)
Section Config.
Context (cfg : LoginConfig).

(** [junk]: [_status] is not initialised. *)
Definition parsePlatformVerify (s : UserId) (user_id app_id app_key token_id extra : string) (channel junk : Z) (L : Login) : Login :=
  let own := _platform_user_id (user s L) in
  if String.eqb own "" || String.eqb own user_id then
    on_user s (setState _wait_platform_)
      (set_https (_https L ++ [mkLoginHttpTask user_id channel app_id app_key token_id extra junk "" "" s]) L)
  else L.

(** Who needs the platform's word and has it is not checked any further; who
    lacks it is told so and checked all the same. *)
Definition parseLoginGame (s : UserId) (name pwd : string) (channel number_1 number_2 number_3 : Z) (L : Login) : Login * list Sent :=
  let need := _need_platform_verify cfg && negb (channel =? 0) in
  let lacks := negb (bool_decide (m_state (user s L) = _platform_success_)) || negb (String.eqb name (_platform_user_id (user s L))) in
  let out := if need && lacks then reply s Login_ErrorNeedThirdVerify L else [] in
  if need && negb lacks then (L, [])
  else if negb (CompareVersion cfg number_1 number_2 number_3) then (L, out ++ reply s (Login_ErrorVersion (_version cfg)) L)
  else if negb (CompareChannel cfg channel) then (L, out ++ reply s Login_ErrorChannel L)
  else if (128 <=? String.length name)%nat || (128 <=? String.length pwd)%nat then (L, out ++ reply s Login_NameFail L)
  else (checkAccount name pwd channel s _login_check_ L, out).
Definition parseRegister (s : UserId) (name pwd : string) (L : Login) : Login := checkAccount name pwd 0 s _new_acc_check_ L.

(** ** The platform *)

(** What [jsoncpp] makes of an answer; a value that cannot be converted
    throws. *)
Record Json := mkJson { status_empty : bool; status_asInt : option Z; user_id_asString : option string; nick_name_asString : option string; token_asString : option string }.
Definition request_url (t : LoginHttpTask) : string :=
  sprintf "%s/logincheck/account_service.php?action=third_login_check&channel_id=%d&app_id=%s&app_key=%s&user_id=%s&token=%s&extra_data=%s"
    [AS (_platform_url cfg); AD (_channel_id t); AS (_app_id t); AS (_app_key t); AS (_user_id t); AS (_token t); AS (_extra_data t)].
End Config.
Definition set_status v (t : LoginHttpTask) := mkLoginHttpTask (_user_id t) (_channel_id t) (_app_id t) (_app_key t) (_token t) (_extra_data t) v (_nick_name t) (_s_token t) (_session t).
Definition set_user_id v (t : LoginHttpTask) := mkLoginHttpTask v (_channel_id t) (_app_id t) (_app_key t) (_token t) (_extra_data t) (_status t) (_nick_name t) (_s_token t) (_session t).
Definition set_nick_name v (t : LoginHttpTask) := mkLoginHttpTask (_user_id t) (_channel_id t) (_app_id t) (_app_key t) (_token t) (_extra_data t) (_status t) v (_s_token t) (_session t).
Definition set_s_token v (t : LoginHttpTask) := mkLoginHttpTask (_user_id t) (_channel_id t) (_app_id t) (_app_key t) (_token t) (_extra_data t) (_status t) (_nick_name t) v (_session t).
(** [None]: the answer is not JSON. *)
Definition excute (answer : option Json) (t : LoginHttpTask) : LoginHttpTask :=
  match answer with
  | None => t
  | Some j =>
      if status_empty j then t
      else match status_asInt j with
      | None => t
      | Some st =>
          let t := set_status st t in
          if st =? 0 then
            match user_id_asString j with None => t | Some u =>
            let t := set_user_id u t in
            match nick_name_asString j with None => t | Some n =>
            let t := set_nick_name n t in
            match token_asString j with None => t | Some k => set_s_token k t end end end
          else t
      end
  end.
Definition logicExcute (t : LoginHttpTask) (L : Login) : Login * list Sent :=
  let s := _session t in
  let success := bool_decide (m_state (user s L) = _wait_platform_) && (_status t =? 0) in
  (if success then on_user s (fun u => set_channel (_channel_id t) (setState _platform_success_ u)) L else L,
   reply s (PlatformVerifyACK (_nick_name t) (_user_id t) (_s_token t) success) L).

(** ** Messages of gates *)
Definition parseGateOnlines (c : GateId) (n : Z) (L : Login) : Login :=
  on_gate c (fun g => mkGateSession (gate_id g) n (out_ip g) (out_port g) (_balence_time g)) L.
Definition parseGateUserPrepar (c : GateId) (account : Z) (L : Login) : Login * list Sent :=
  receiveUserPrepar account (out_ip (gate c L)) (out_port (gate c L)) L.

(** The accounts of a gate that registers; [None]: the assertion that they
    are not on another gate fails and the server stops. *)
Fixpoint register_accounts (id : Z) (accounts : list (Z * Z)) (L : Login) : option Login :=
  match accounts with
  | [] => Some L
  | (a, t) :: l =>
      match m_Accts L !! a with
      | Some p => if nGateId p =? id then register_accounts id l (addAccount a t id L) else None
      | None => register_accounts id l (addAccount a t id L)
      end
  end.
(** A gate of another version is closed, and registered all the same. *)
Definition parseGateRegister (c : GateId) (serverid : Z) (ip : string) (port : Z) (accounts : list (Z * Z)) (L : Login) : option Login :=
  let id := u8 serverid in
  let L := on_gate c (fun g => mkGateSession id (Z.of_nat (length accounts)) ip (u16 port) (_balence_time g)) L in
  register_accounts id accounts (addGate id c L).

(** ** Events *)
Inductive Event :=
  | Accept (s : UserId) (ip : string)
  | Closed (s : UserId)
  | PlatformVerifyReq (s : UserId) (user_id app_id app_key token_id extra : string) (channel junk : Z)
  | LoginRequest (s : UserId) (name pwd : string) (channel number_1 number_2 number_3 : Z)
  | RegisterRequest (s : UserId) (name pwd : string)
  | TaskDone (d : CheckAcct) (answer : option (Z * Z)) (success : bool)
  | HttpDone (t : LoginHttpTask) (answer : option Json)
  | GateRegister (c : GateId) (serverid : Z) (ip : string) (port : Z) (accounts : list (Z * Z))
  | GateOnlines (c : GateId) (n : Z)
  | GatePrepar (c : GateId) (account : Z)
  | GateClosed (c : GateId)
  | BalenceTime (c : GateId)
  | Time (t : Z).
#[export] Instance CheckType_eq_dec : EqDecision CheckType.
Proof. solve_decision. Defined.
#[export] Instance CheckAcct_eq_dec : EqDecision CheckAcct.
Proof. solve_decision. Defined.
#[export] Instance LoginHttpTask_eq_dec : EqDecision LoginHttpTask.
Proof. solve_decision. Defined.

(** Clients speak while connected; the database and the platform answer what
    they were asked. *)
Definition possible (e : Event) (L : Login) : Prop :=
  match e with
  | Accept s _ => connected (user s L) = false
  | Closed s | PlatformVerifyReq s _ _ _ _ _ _ _ | LoginRequest s _ _ _ _ _ _ | RegisterRequest s _ _ => connected (user s L) = true
  | TaskDone d _ _ => d ∈ db_tasks L
  | HttpDone t _ => t ∈ _https L
  | _ => True
  end.
#[export] Instance possible_dec e L : Decision (possible e L).
Proof. unfold possible. destruct e; apply _. Defined.
Fixpoint remove_one {A} `{EqDecision A} (x : A) (l : list A) : list A :=
  match l with [] => [] | y :: l' => if decide (x = y) then l' else y :: remove_one x l' end.

Section Handle.
Context (cfg : LoginConfig).
Definition ok (r : Login * list Sent) : option (Login * list Sent) := Some r.
(** [None]: the server has stopped on an assertion. *)
Definition handle (e : Event) (L : Login) : option (Login * list Sent) :=
  match e with
  | Accept s ip => ok (on_accept s ip L, [])
  | Closed s => ok (on_close s L, [])
  | PlatformVerifyReq s u a k t x ch junk => ok (parsePlatformVerify s u a k t x ch junk L, [])
  | LoginRequest s name pwd ch n1 n2 n3 => ok (parseLoginGame cfg s name pwd ch n1 n2 n3 L)
  | RegisterRequest s name pwd => ok (parseRegister s name pwd L, [])
  | TaskDone d answer success =>
      let L := set_db_tasks (remove_one d (db_tasks L)) L in
      let d := batchQuery answer d in
      ok (match check_type d with _login_check_ => checkAccountCall d success L | _new_acc_check_ => CreateNewAccount d success L end)
  | HttpDone t answer => ok (logicExcute (excute answer t) (set_https (remove_one t (_https L)) L))
  | GateRegister c id ip port accounts => L ← parseGateRegister c id ip port accounts L; ok (L, [])
  | GateOnlines c n => ok (parseGateOnlines c n L, [])
  | GatePrepar c a => ok (parseGateUserPrepar c a L)
  | GateClosed c => ok (removeGate c L, [])
  | BalenceTime c => ok (balenceInfoEvent c L, [])
  | Time t => ok (set_now t L, [])
  end.

Definition empty_login : Login := mkLogin ∅ ∅ ∅ ∅ ∅ [] [] 0.
Inductive history : list Event -> list Sent -> Login -> Prop :=
  | history_start : history [] [] empty_login
  | history_event es outs L e L' out : history es outs L -> possible e L -> handle e L = Some (L', out) -> history (es ++ [e]) (outs ++ out) L'.

(** ** Who is let in *)

(** A log in the checks of [parseLoginGame] let through, or a new account. *)
Definition acceptable (name pwd : string) (channel number_1 number_2 number_3 : Z) : Prop :=
  CompareVersion cfg number_1 number_2 number_3 = true /\ channel ∈ _channels cfg /\ (String.length name < 128)%nat /\ (String.length pwd < 128)%nat.
Definition asked (es : list Event) (s : UserId) (name pwd : string) : Prop :=
  (exists ch n1 n2 n3, LoginRequest s name pwd ch n1 n2 n3 ∈ es /\ acceptable name pwd ch n1 n2 n3) \/ RegisterRequest s name pwd ∈ es.
(** The database has given account [a] for a name and a password asked for. *)
Definition accepted (es : list Event) (a : Z) : Prop :=
  a <> INVALID_ACCOUNT /\ exists d r, TaskDone d (Some (a, r)) true ∈ es /\ check_type d = _login_check_ /\ asked es (ower d) (str d) (pwd d).

Record admitted (es : list Event) (outs : list Sent) (L : Login) : Prop := {
  adm_tasks d : d ∈ db_tasks L -> acct d = INVALID_ACCOUNT /\ asked es (ower d) (str d) (pwd d);
  adm_told c a t ch : ToGate c (UserLogin a t ch) ∈ outs -> accepted es a;
  adm_wait t s : m_WaitSessions L !! t = Some s -> exists c a ch, ToGate c (UserLogin a t ch) ∈ outs;
  adm_success s t ip port : ToUser s (Login_Success t ip port) ∈ outs ->
    (exists c a ch, ToGate c (UserLogin a (u32 t) ch) ∈ outs) /\ exists c, GatePrepar c t ∈ es
}.

Lemma asked_app es e s name pwd : asked es s name pwd -> asked (es ++ [e]) s name pwd.
Proof.
  intros [(ch & n1 & n2 & n3 & Hin & H)|H]; [left; exists ch, n1, n2, n3; split; [|done]|right]; apply elem_of_app; by left.
Qed.
Lemma accepted_app es e a : accepted es a -> accepted (es ++ [e]) a.
Proof. intros (Hne & d & r & Hin & Ht & Ha). split; [done|]. exists d, r. split_and!; [apply elem_of_app; by left|done|by apply asked_app]. Qed.

(** Nothing is said that lets anybody in. *)
Definition quiet (o : Sent) : Prop :=
  match o with ToGate _ (UserLogin _ _ _) | ToUser _ (Login_Success _ _ _) => False | _ => True end.
Lemma quiet_reply s r L : quiet (ToUser s r) -> Forall quiet (reply s r L).
Proof. unfold reply. destruct (connected _); intros H; [by apply Forall_singleton|done]. Qed.
Lemma quiet_kick p L : Forall quiet (kickUserFromGate p L).
Proof. unfold kickUserFromGate. repeat case_match; try done. by apply Forall_singleton. Qed.

Lemma adm_quiet es outs L e out L' : admitted es outs L -> Forall quiet out ->
  (forall d, d ∈ db_tasks L' -> d ∈ db_tasks L \/ acct d = INVALID_ACCOUNT /\ asked (es ++ [e]) (ower d) (str d) (pwd d)) ->
  (forall t s, m_WaitSessions L' !! t = Some s -> m_WaitSessions L !! t = Some s) -> admitted (es ++ [e]) (outs ++ out) L'.
Proof.
  intros [Ht Hu Hw Hs] Hq Htasks Hwait. rewrite Forall_forall in Hq. constructor.
  - intros d [H|H]%Htasks; [|done]. destruct (Ht d H). split; [done|by apply asked_app].
  - intros c a t ch [H|H]%elem_of_app; [by eapply accepted_app, Hu|]. by destruct (Hq _ H).
  - intros t s H%Hwait. destruct (Hw t s H) as (c & a & ch & Hin). exists c, a, ch. apply elem_of_app. by left.
  - intros s t ip port [H|H]%elem_of_app; [|by destruct (Hq _ H)]. destruct (Hs _ _ _ _ H) as ((c & a & ch & Hin) & c' & Hc').
    split; [exists c, a, ch|exists c']; apply elem_of_app; by left.
Qed.

Lemma elem_of_remove_one {A} {Heq : EqDecision A} (x y : A) l : y ∈ remove_one x l -> y ∈ l.
Proof.
  induction l as [|z l IH]; cbn; [done|]. case_decide as E; [by right|]. intros [->|H]%elem_of_cons; [by left|right; auto].
Qed.

Lemma register_keeps id accounts : forall L L', register_accounts id accounts L = Some L' ->
  db_tasks L' = db_tasks L /\ m_WaitSessions L' = m_WaitSessions L.
Proof.
  induction accounts as [|[a t] l IH]; cbn; intros L L' H; [by injection H as <-|].
  destruct (m_Accts L !! a) as [p|]; [destruct (nGateId p =? id); [|done]|]; by apply (IH (addAccount a t id L)).
Qed.

(** A log in that the server's checks let through asks the database. *)
Lemma login_request s name pwd ch n1 n2 n3 L :
  let r := parseLoginGame cfg s name pwd ch n1 n2 n3 L in
  Forall quiet r.2 /\ (r.1 = L \/ acceptable name pwd ch n1 n2 n3 /\ r.1 = checkAccount name pwd ch s _login_check_ L).
Proof.
  unfold parseLoginGame. cbn zeta. set (out := if _ && _ then reply s Login_ErrorNeedThirdVerify L else []).
  assert (Hq : Forall quiet out) by (unfold out; case_match; [by apply quiet_reply|done]). clearbody out.
  case_match; [split; [done|by left]|].
  destruct (CompareVersion _ _ _ _) eqn:Ev; cbn [negb]; [|split; [by apply Forall_app_2, quiet_reply|by left]].
  destruct (CompareChannel cfg ch) eqn:Ec; cbn [negb]; [|split; [by apply Forall_app_2, quiet_reply|by left]].
  destruct ((128 <=? String.length name)%nat || (128 <=? String.length pwd)%nat) eqn:El; [split; [by apply Forall_app_2, quiet_reply|by left]|].
  split; [done|right]. split; [|done]. apply orb_false_iff in El as [H1 H2]. unfold acceptable. split_and!; [done| | |].
  - unfold CompareChannel in Ec. apply existsb_exists in Ec as (c & Hin & Heq). apply Z.eqb_eq in Heq as ->. by apply list_elem_of_In.
  - by apply Nat.leb_gt.
  - by apply Nat.leb_gt.
Qed.
Lemma task_kinds es outs L e out L' d : admitted es outs L -> Forall quiet out -> db_tasks L' = db_tasks L ++ [d] ->
  acct d = INVALID_ACCOUNT -> asked (es ++ [e]) (ower d) (str d) (pwd d) -> m_WaitSessions L' = m_WaitSessions L -> admitted (es ++ [e]) (outs ++ out) L'.
Proof.
  intros Ha Hq Ht Hacct Hask Hw. apply (adm_quiet _ _ L); [done|done| |by rewrite Hw].
  intros d'. rewrite Ht. intros [H| ->%list_elem_of_singleton]%elem_of_app; [by left|by right].
Qed.
Lemma adm_same es outs L e out L' : admitted es outs L -> Forall quiet out -> db_tasks L' = db_tasks L -> m_WaitSessions L' = m_WaitSessions L ->
  admitted (es ++ [e]) (outs ++ out) L'.
Proof. intros Ha Hq Ht Hw. apply (adm_quiet _ _ L); [done|done|rewrite Ht; auto|by rewrite Hw]. Qed.

(** The answer to a log in. *)
Lemma checkAccountCall_kept es outs L d r success e : admitted es outs L -> asked es (ower d) (str d) (pwd d) -> check_type d = _login_check_ ->
  e = TaskDone d r success -> acct d = INVALID_ACCOUNT ->
  let res := checkAccountCall (batchQuery r d) success L in admitted (es ++ [e]) (outs ++ res.2) res.1.
Proof.
  intros Ha Hask Hty -> Hinv. unfold checkAccountCall. set (b := batchQuery r d).
  destruct (connected (user (ower b) L)) eqn:Ec; [|by apply (adm_same _ _ L)].
  destruct success; [|apply (adm_same _ _ L); try done; by apply quiet_reply].
  destruct (Z.eqb_spec (acct b) INVALID_ACCOUNT) as [|Hne]; [apply (adm_same _ _ L); try done; by apply quiet_reply|].
  assert (Hb : exists res, r = Some (acct b, res)).
  { revert Hne. subst b. destruct r as [[a res]|]; [by exists res|done]. }
  destruct Hb as [res Hr].
  assert (Hacc : accepted (es ++ [TaskDone d r true]) (acct b)).
  { split; [done|]. exists d, res. split_and!; [rewrite <- Hr; apply elem_of_app; right; by left|done|by apply asked_app]. }
  set (kick := match m_Accts L !! acct b with Some _ => _ | None => _ end).
  assert (Hkick : Forall quiet kick) by (subst kick; case_match; [apply quiet_kick|done]).
  set (p := mkAccount _ (acct b) _). set (L1 := set_Accts _ L). cbn zeta. unfold giveUserToGate.
  destruct (getIdleGate L1) as [c|]; cbn [fst snd].
  - cbn zeta. set (msg := ToGate c (UserLogin _ _ _)). destruct Ha as [Ht Hu Hw Hs].
    assert (Hmsg : msg ∈ outs ++ kick ++ [msg]) by (apply elem_of_app; right; apply elem_of_app; right; by left).
    rewrite Forall_forall in Hkick. constructor.
    + intros d'. unfold addWaitSession. case_match; intros H'; destruct (Ht d' H'); (split; [done|by apply asked_app]).
    + intros c' a t ch [H|[H|H%list_elem_of_singleton]%elem_of_app]%elem_of_app; [by eapply accepted_app, Hu|by destruct (Hkick _ H)|].
      injection H as -> -> -> ->. exact Hacc.
    + intros t s H. assert (Hold : m_WaitSessions L !! t = Some s \/ t = nTranId p).
      { unfold addWaitSession in H. case_match; [by left|]. cbn in H. apply lookup_insert_Some in H as [[<- _]|[_ H]]; [by right|by left]. }
      destruct Hold as [Hold| ->]; [|by exists c, (nId p), (_channel (user (ower b) L1))]. destruct (Hw t s Hold) as (c' & a & ch & Hin).
      exists c', a, ch. apply elem_of_app. by left.
    + intros s t ip port [H|[H|H%list_elem_of_singleton]%elem_of_app]%elem_of_app; [|by destruct (Hkick _ H)|done].
      destruct (Hs _ _ _ _ H) as ((c' & a & ch & Hin) & c2 & Hc2). split; [exists c', a, ch|exists c2]; apply elem_of_app; by left.
  - apply (adm_same _ _ L); [done| |done|done]. apply Forall_app_2; [done|by apply quiet_reply].
Qed.

Lemma GatePrepar_kept es outs L c t : admitted es outs L ->
  let res := parseGateUserPrepar c t L in admitted (es ++ [GatePrepar c t]) (outs ++ res.2) res.1.
Proof.
  intros Ha. unfold parseGateUserPrepar, receiveUserPrepar. destruct (m_WaitSessions L !! u32 t) as [s|] eqn:Ew; [|by apply (adm_same _ _ L)].
  destruct (adm_wait _ _ _ Ha _ _ Ew) as (c0 & a0 & ch0 & Hin0). cbn [fst snd]. destruct Ha as [Ht Hu Hw Hs]. constructor.
  - intros d H. destruct (Ht d H). split; [done|by apply asked_app].
  - intros c' a t' ch [H|H]%elem_of_app; [by eapply accepted_app, Hu|]. unfold reply in H. destruct (connected _); [by apply list_elem_of_singleton in H|by apply elem_of_nil in H].
  - intros t' s' H. cbn in H. apply lookup_delete_Some in H as [_ H]. destruct (Hw _ _ H) as (c' & a & ch & Hin). exists c', a, ch. apply elem_of_app. by left.
  - intros s' t' ip port [H|H]%elem_of_app.
    + destruct (Hs _ _ _ _ H) as ((c' & a & ch & Hin) & c2 & Hc2). split; [exists c', a, ch|exists c2]; apply elem_of_app; by left.
    + unfold reply in H. destruct (connected _); [|by apply elem_of_nil in H]. apply list_elem_of_singleton in H. injection H as -> -> -> ->.
      split; [exists c0, a0, ch0; apply elem_of_app; by left|]. exists c. apply elem_of_app. right. by left.
Qed.

Lemma handle_admitted es outs L e L' out : admitted es outs L -> possible e L -> handle e L = Some (L', out) -> admitted (es ++ [e]) (outs ++ out) L'.
Proof.
  intros Ha Hp H.
  destruct e as [s ip|s|s u a k t x ch junk|s name pwd ch n1 n2 n3|s name pwd|d r success|t answer|c id ip port accounts|c n|c a|c|c|t]; cbn [handle] in H.
  - injection H as <- <-. by apply (adm_same _ _ L).
  - injection H as <- <-. by apply (adm_same _ _ L).
  - injection H as <- <-. apply (adm_same _ _ L); try done; unfold parsePlatformVerify; by case_match.
  - destruct (login_request s name pwd ch n1 n2 n3 L) as [Hq Hr]. unfold ok in H. apply (inj Some) in H. rewrite H in Hq, Hr. cbn in Hq, Hr.
    destruct Hr as [->|[Hacc ->]]; [by apply (adm_same _ _ L)|]. eapply (task_kinds _ _ L); [done|done|done|done| |done].
    left. exists ch, n1, n2, n3. split; [|done]. apply elem_of_app. right. by left.
  - injection H as <- <-. eapply (task_kinds _ _ L); try done. right. apply elem_of_app. right. by left.
  - destruct (adm_tasks _ _ _ Ha d Hp) as [Hinv Hask]. set (L1 := set_db_tasks _ L) in H.
    assert (Ha1 : admitted es outs L1).
    { destruct Ha as [Ht ? ? ?]. constructor; [|done..]. intros d' Hd'. apply Ht. exact (elem_of_remove_one d d' _ Hd'). }
    assert (Hty : check_type (batchQuery r d) = check_type d) by (destruct r as [[]|]; done). rewrite Hty in H. apply (inj Some) in H.
    destruct (check_type d) eqn:Ety.
    + pose proof (checkAccountCall_kept es outs L1 d r success _ Ha1 Hask Ety eq_refl Hinv) as Hres. cbn zeta in Hres. by rewrite H in Hres.
    + unfold CreateNewAccount in H. set (b := batchQuery r d) in *.
      assert (Hb : ower b = ower d /\ str b = str d /\ pwd b = pwd d) by (subst b; by destruct r as [[]|]). destruct Hb as (Hb1 & Hb2 & Hb3).
      destruct (connected _); [|injection H as <- <-; by apply (adm_same _ _ L1)].
      destruct (_ || _); injection H as <- <-; [apply (adm_same _ _ L1); [done|by apply quiet_reply|done..]|].
      eapply (task_kinds _ _ L1); try done. cbn. rewrite Hb1, Hb2, Hb3. by apply asked_app.
  - apply (inj Some) in H. apply (f_equal (fun r => (r.1, r.2))) in H. cbn in H. injection H as <- <-.
    apply (adm_same _ _ L); [done|by apply quiet_reply|by case_match..].
  - apply bind_Some in H as (L1 & HL1 & H). injection H as <- <-. unfold parseGateRegister in HL1. apply register_keeps in HL1 as [H1 H2].
    apply (adm_same _ _ L); [done|done|rewrite H1|rewrite H2]; unfold addGate; by case_match.
  - injection H as <- <-. by apply (adm_same _ _ L).
  - pose proof (GatePrepar_kept es outs L c a Ha) as Hres. apply (inj Some) in H. cbn zeta in Hres. by rewrite H in Hres.
  - injection H as <- <-. apply (adm_same _ _ L); try done; unfold removeGate; by case_match.
  - injection H as <- <-. by apply (adm_same _ _ L).
  - injection H as <- <-. by apply (adm_same _ _ L).
Qed.

(** ** The gate chosen *)
Lemma idle_loop_least ids : forall pk L,
  let r := idle_loop ids pk L in
  (r = None -> pk = None /\ forall i, i ∈ ids -> m_Gates L !! i = None) /\
  (forall c, r = Some c ->
     (pk = Some c \/ exists i, i ∈ ids /\ m_Gates L !! i = Some c) /\
     (forall p, pk = Some p -> getBalenceCount c L <= getBalenceCount p L) /\
     forall i c', i ∈ ids -> m_Gates L !! i = Some c' -> getBalenceCount c L <= getBalenceCount c' L).
Proof.
  induction ids as [|i ids IH]; intros pk L; cbn [idle_loop]; cbn zeta.
  - split; [intros ->; split; [done|by intros i ?%elem_of_nil]|]. intros c ->. split_and!; [by left|intros p [= ->]; lia|by intros i c' ?%elem_of_nil].
  - assert (Hnext : forall pk', (m_Gates L !! i = None /\ pk' = pk \/ exists c, m_Gates L !! i = Some c /\ (pk' = Some c \/ pk' = pk /\ pk <> None) /\
        forall q, pk' = Some q -> getBalenceCount q L <= getBalenceCount c L /\ forall p, pk = Some p -> getBalenceCount q L <= getBalenceCount p L) ->
      let r := idle_loop ids pk' L in
      (r = None -> pk = None /\ forall j, j ∈ i :: ids -> m_Gates L !! j = None) /\
      (forall c, r = Some c -> (pk = Some c \/ exists j, j ∈ i :: ids /\ m_Gates L !! j = Some c) /\
         (forall p, pk = Some p -> getBalenceCount c L <= getBalenceCount p L) /\
         forall j c', j ∈ i :: ids -> m_Gates L !! j = Some c' -> getBalenceCount c L <= getBalenceCount c' L)).
    { intros pk' Hpk. destruct (IH pk' L) as [Hn Hc]. cbn zeta. split.
      - intros E. destruct (Hn E) as [Epk Hnone]. destruct Hpk as [[Hi Hpk]|(c & _ & [Hpk|[Hpk Hpk2]] & _)]; [|congruence..].
        split; [congruence|]. by intros j [->|Hj]%elem_of_cons; [|apply Hnone].
      - intros c E. destruct (Hc c E) as (Hfrom & Hle & Hall). destruct Hpk as [[Hi ->]|(c0 & Hi & Hor & Hq)].
        + split_and!; [|done|].
          * destruct Hfrom as [?|(j & Hj & ?)]; [by left|right; exists j; by split; [right|]].
          * intros j c' [->|Hj]%elem_of_cons H; [congruence|by apply (Hall j)].
        + assert (Hboth : getBalenceCount c L <= getBalenceCount c0 L /\ forall p, pk = Some p -> getBalenceCount c L <= getBalenceCount p L).
          { destruct pk' as [q|]; [|by destruct Hor as [|[<- ?]]]. destruct (Hq q eq_refl) as [Hq1 Hq2]. pose proof (Hle q eq_refl).
            split; [lia|]. intros p Hp. specialize (Hq2 p Hp). lia. }
          destruct Hboth as [Hb1 Hb2]. split_and!; [|done|].
          * destruct Hfrom as [E2|(j & Hj & ?)]; [|right; exists j; by split; [right|]].
            destruct Hor as [Hor|[Hor _]]; [right; exists i; split; [left|congruence]|left; congruence].
          * intros j c' [->|Hj]%elem_of_cons H; [congruence|by apply (Hall j)]. }
    destruct (m_Gates L !! i) as [c0|] eqn:Hi; [|apply Hnext; by left].
    destruct pk as [p|]; apply Hnext; right; exists c0; (split; [done|]).
    + destruct (Z.gtb_spec (getBalenceCount p L) (getBalenceCount c0 L)); (split; [auto|]); intros q [= <-]; (split; [lia|]); intros ? [= <-]; lia.
    + split; [by left|]. intros q [= <-]. split; [lia|done].
Qed.
End Handle.

Lemma history_admitted cfg es outs L : history cfg es outs L -> admitted cfg es outs L.
Proof.
  induction 1 as [|es outs L e L' out _ IH Hp Hh]; [|by apply (handle_admitted cfg es outs L)].
  constructor; cbn; try done; intros; by match goal with H : _ ∈ [] |- _ => apply elem_of_nil in H end.
Qed.

(** ** Properties *)

(** Who gets in has an account: in every history of the login server, a
    gate is told of a user of account [a] only after the database has given
    [a] for a name and a password that the same client sent and the server's
    checks let through (or that it registered); and a client is told to go to
    a gate as user [t] only after a gate was told of [t] and has confirmed. *)
Theorem login_admission cfg es outs L : history cfg es outs L ->
  (forall c a t ch, ToGate c (UserLogin a t ch) ∈ outs -> accepted cfg es a) /\
  (forall s t ip port, ToUser s (Login_Success t ip port) ∈ outs ->
     (exists c a ch, ToGate c (UserLogin a (u32 t) ch) ∈ outs /\ accepted cfg es a) /\ exists c, GatePrepar c t ∈ es).
Proof.
  intros H. pose proof (history_admitted _ _ _ _ H) as Ha. split; [apply (adm_told _ _ _ _ Ha)|]. intros s t ip port Hin. destruct (adm_success _ _ _ _ Ha _ _ _ _ Hin) as ((c & a & ch & Hc) & Hg).
  split; [|done]. exists c, a, ch. split; [done|]. by apply (adm_told _ _ _ _ Ha c a (u32 t) ch).
Qed.

(** A user goes to the least busy gate: one whose users online, with those
    sent to it in the last 40000 seconds of [_balence_time], are fewest; there
    is none only when no gate is registered. *)
Theorem getIdleGate_least L :
  match getIdleGate L with
  | Some c => (exists id, 0 <= id < MAX_GATE_ID /\ m_Gates L !! id = Some c) /\
      forall id c', 0 <= id < MAX_GATE_ID -> m_Gates L !! id = Some c' -> getBalenceCount c L <= getBalenceCount c' L
  | None => forall id, 0 <= id < MAX_GATE_ID -> m_Gates L !! id = None
  end.
Proof.
  destruct (idle_loop_least (seqZ 0 MAX_GATE_ID) None L) as [Hn Hc]. fold (getIdleGate L) in Hn, Hc.
  destruct (getIdleGate L) as [c|].
  - destruct (Hc c eq_refl) as ([?|(i & Hi & Hg)] & _ & Hall); [done|]. split; [exists i; split; [apply elem_of_seqZ in Hi; lia|done]|].
    intros id c' Hid. apply Hall. apply elem_of_seqZ. lia.
  - intros id Hid. apply (proj2 (Hn eq_refl)). apply elem_of_seqZ. lia.
Qed.

(** ** A morning of the login server *)
Section Play.
Context (cfg : LoginConfig).
Fixpoint play (es : list Event) (outs : list Sent) (L : Login) : option (list Sent * Login) :=
  match es with
  | [] => Some (outs, L)
  | e :: es => if decide (possible e L) then match handle cfg e L with Some (L', out) => play es (outs ++ out) L' | None => None end else None
  end.
Lemma login_played' es : forall past outs L outs' L', history cfg past outs L -> play es outs L = Some (outs', L') -> history cfg (past ++ es) outs' L'.
Proof.
  induction es as [|e es IH]; cbn [play]; intros past outs L outs' L' H Hp.
  - injection Hp as <- <-. by rewrite app_nil_r.
  - case_decide as Hd; [|done]. destruct (handle cfg e L) as [[L1 out]|] eqn:E; [|done]. rewrite cons_middle, app_assoc. eapply IH; [|exact Hp].
    by eapply history_event.
Qed.
Lemma login_played es outs L : play es [] empty_login = Some (outs, L) -> history cfg es outs L.
Proof. apply (login_played' es []). constructor. Qed.
End Play.

Definition a_config : LoginConfig := init_config (Some (mkServerConfigRow 1 0 3 "0;7" "http://pay" false)) (mkLoginConfig (0, 0, 0) [] true "").
Definition asks (s : UserId) : CheckAcct := mkCheckAcct "ann" "secret" _check_pass_ s INVALID_ACCOUNT _login_check_ 7.
(** Two gates; the busier one is not chosen. *)
Definition a_login : list Event :=
  [Time 1000; GateRegister 1 1 "10.0.0.1" 900 [(5, 50); (6, 60)]; GateRegister 2 2 "10.0.0.2" 900 [(8, 80)];
   Accept 1 "1.2.3.4"; LoginRequest 1 "ann" "secret" 7 1 1 0; LoginRequest 1 "ann" "secret" 7 1 0 0; TaskDone (asks 1) (Some (100, 0)) true].
Definition a_trans : Z := sslCrc32 (bytes "annsecret1.2.3.41000").
Definition a_confirmed : list Event := a_login ++ [GatePrepar 2 a_trans].

Example a_confirmed_outs : option_map fst (play a_config a_confirmed [] empty_login) =
  Some [ToUser 1 (Login_ErrorVersion (1, 0, 3)); ToGate 2 (UserLogin 100 a_trans 0); ToUser 1 (Login_Success a_trans "10.0.0.2" 900)].
Proof. vm_compute. reflexivity. Qed.

Lemma login_admission_witness : match play a_config a_confirmed [] empty_login with
  | Some (outs, L) => ToUser 1 (Login_Success a_trans "10.0.0.2" 900) ∈ outs /\ exists a, accepted a_config a_confirmed a
  | None => False
  end.
Proof.
  destruct (play a_config a_confirmed [] empty_login) as [[outs L]|] eqn:E; [|by vm_compute in E].
  assert (Hin : ToUser 1 (Login_Success a_trans "10.0.0.2" 900) ∈ outs).
  { pose proof a_confirmed_outs as Ho. rewrite E in Ho. cbn in Ho. injection Ho as ->. right. right. left. }
  destruct (login_admission a_config a_confirmed outs L) as [_ Hs]; [by apply login_played|].
  split; [done|]. destruct (Hs _ _ _ _ Hin) as ((c & a & ch & _ & Hacc) & _). by exists a.
Defined.

(** A gate whose connection broke comes back with a user who has logged in
    through another gate since: the assertion in [parseGateRegister] stops
    the server before it could send the kick below it. *)
Definition gate_comes_back : list Event :=
  [GateRegister 1 1 "" 0 [(100, 50)]; GateClosed 1; GateRegister 2 2 "" 0 []; Accept 1 ""; LoginRequest 1 "ann" "secret" 7 1 0 0;
   TaskDone (asks 1) (Some (100, 0)) true].
Example gate_comes_back_stops : match play a_config gate_comes_back [] empty_login with
  | Some (outs, L) => handle a_config (GateRegister 1 1 "" 0 [(100, 50)]) L = None
  | None => False
  end.
Proof. vm_compute. reflexivity. Qed.

(** The client of a session that waits for its gate leaves, and the pooled
    session serves another: the newcomer gets the first one's way in. *)
Definition hijack : list Event :=
  a_login ++ [Closed 1; Accept 1 "6.6.6.6"; GatePrepar 2 a_trans].
Example hijack_succeeds : option_map (fun r => last r.1) (play a_config hijack [] empty_login) =
  Some (Some (ToUser 1 (Login_Success a_trans "10.0.0.2" 900))).
Proof. vm_compute. reflexivity. Qed.

(** With the platform's word needed, a client that has it is never checked
    (nothing is asked, nothing answered), and one without is. *)
Example verified_is_ignored (L : Login) (s : UserId) (name pwd : string) :
  m_state (user s L) = _platform_success_ -> _platform_user_id (user s L) = name ->
  parseLoginGame (SetNeedPlatformVerify true a_config) s name pwd 7 1 0 3 L = (L, []).
Proof. intros H1 <-. unfold parseLoginGame. rewrite bool_decide_true, String.eqb_refl by done. reflexivity. Qed.
