(* ===== verification/Admission.v ===== *)
(** * The login server and its gates together

    The login server, any number of gates, and between them the connections,
    in which messages wait in order.  What the gates answer (a user's place is
    prepared, how many are on line, the accounts on registering) is left
    arbitrary: these are events of the login server. *)
From stdpp Require Import gmap.
From S2P Require Import Prelude LoginServer GateServer.

Record System := mkSystem {
  login : LoginServer.Login;
  gates : gmap positive Gate;
  links : gmap GateId (list ToGateMsg)
}.
Definition gate_of (g : positive) (S : System) : Gate := default empty_gate (gates S !! g).
Definition link (c : GateId) (S : System) : list ToGateMsg := default [] (links S !! c).

(** [sendPBMessage] of the gate's session: at the end of its connection. *)
Fixpoint post (out : list Sent) (S : System) : System :=
  match out with
  | [] => S
  | ToGate c m :: out => post out (mkSystem (login S) (gates S) (<[c := link c S ++ [m]]> (links S)))
  | ToUser _ _ :: out => post out S
  end.

(** [GateLoginClient]: the message as the gate takes it. *)
Definition received (m : ToGateMsg) : GateServer.Event :=
  match m with UserLogin a t ch => LoginUser t a ch | KickUser a t => LoginKick t a end.
Definition from_login (e : GateServer.Event) : bool :=
  match e with LoginUser _ _ _ | LoginKick _ _ => true | _ => false end.

Section Run.
Context (cfg : LoginConfig) (GSIdleMax : Z).

(** The login server or a gate handles an event of its own; a message of a
    connection arrives at a gate, whichever is at its end; a connection
    breaks. *)
Inductive run : list LoginServer.Event -> list (positive * Out) -> System -> Prop :=
  | run_start : run [] [] (mkSystem empty_login ∅ ∅)
  | run_login es outs S e L out : run es outs S -> LoginServer.possible e (login S) -> LoginServer.handle cfg e (login S) = Some (L, out) ->
      run (es ++ [e]) outs (post out (mkSystem L (gates S) (links S)))
  | run_gate es outs S g e G out : run es outs S -> from_login e = false -> GateServer.possible e (gate_of g S) ->
      GateServer.handle GSIdleMax e (gate_of g S) = (G, out) ->
      run es (outs ++ map (pair g) out) (mkSystem (login S) (<[g := G]> (gates S)) (links S))
  | run_arrive es outs S c g m rest G out : run es outs S -> link c S = m :: rest ->
      GateServer.handle GSIdleMax (received m) (gate_of g S) = (G, out) ->
      run es (outs ++ map (pair g) out) (mkSystem (login S) (<[g := G]> (gates S)) (<[c := rest]> (links S)))
  | run_break es outs S c : run es outs S -> run es outs (mkSystem (login S) (gates S) (delete c (links S))).

(** ** Each part sees a history of its own *)
Record view (es : list LoginServer.Event) (outs : list (positive * Out)) (S : System) (louts : list Sent) : Prop := {
  view_login : LoginServer.history cfg es louts (login S);
  view_links c m : m ∈ link c S -> ToGate c m ∈ louts;
  view_gates g : exists ges gouts, GateServer.history GSIdleMax anyhow ges gouts (gate_of g S) /\
    (forall t a ch, LoginUser t a ch ∈ ges -> exists c, ToGate c (UserLogin a t ch) ∈ louts) /\
    (forall o, (g, o) ∈ outs -> o ∈ gouts)
}.

Lemma post_keeps out : forall S, login (post out S) = login S /\ gates (post out S) = gates S /\
  forall c m, m ∈ link c (post out S) -> m ∈ link c S \/ ToGate c m ∈ out.
Proof.
  induction out as [|[s r|c m] out IH]; intros S; cbn [post].
  - split_and!; [done..|auto].
  - destruct (IH S) as (H1 & H2 & H3). split_and!; [done..|]. intros c m [H|H]%H3; [by left|right; by right].
  - destruct (IH (mkSystem (login S) (gates S) (<[c := link c S ++ [m]]> (links S)))) as (H1 & H2 & H3).
    split_and!; [done..|]. intros c' m' [H|H]%H3; [|right; by right]. unfold link in H. cbn in H.
    destruct (decide (c' = c)) as [->|Hne]; [|rewrite lookup_insert_ne in H by done; by left].
    rewrite lookup_insert_eq in H. cbn in H. apply elem_of_app in H as [H| ->%list_elem_of_singleton]; [by left|right; by left].
Qed.

(** One gate handles one event. *)
Lemma view_step es outs S louts g e G out links' : view es outs S louts -> GateServer.possible e (gate_of g S) ->
  GateServer.handle GSIdleMax e (gate_of g S) = (G, out) -> (forall t a ch, e = LoginUser t a ch -> exists c, ToGate c (UserLogin a t ch) ∈ louts) ->
  (forall c m, m ∈ default [] (links' !! c) -> ToGate c m ∈ louts) ->
  view es (outs ++ map (pair g) out) (mkSystem (login S) (<[g := G]> (gates S)) links') louts.
Proof.
  intros [Hl Hk Hg] Hp Hh He Hlinks. constructor; [done|exact Hlinks|]. intros g'. unfold gate_of at 1. cbn [gates].
  assert (Hnew : forall o, (g', o) ∈ outs ++ map (pair g) out -> (g', o) ∈ outs \/ g' = g /\ o ∈ out).
  { intros o [H|H]%elem_of_app; [by left|right]. apply list_elem_of_fmap in H as (o' & [= -> ->] & H). done. }
  destruct (Hg g') as (ges & gouts & Hrun & Hann & Hout). destruct (decide (g' = g)) as [->|Hne].
  - rewrite lookup_insert_eq. exists (ges ++ [e]), (gouts ++ out). split_and!.
    + by eapply history_event.
    + intros t a ch [H|H]%elem_of_app; [by apply (Hann t a ch)|]. apply list_elem_of_singleton in H. by apply He.
    + intros o Ho. apply elem_of_app. destruct (Hnew o Ho) as [H|[_ H]]; [left; by apply Hout|by right].
  - rewrite lookup_insert_ne by done. exists ges, gouts. split_and!; [done..|].
    intros o Ho. destruct (Hnew o Ho) as [H|[? _]]; [by apply Hout|done].
Qed.

Lemma run_view es outs S : run es outs S -> exists louts, view es outs S louts.
Proof.
  induction 1 as [|es outs S e L out _ [louts [Hl Hk Hg]] Hp Hh|es outs S g e G out _ [louts Hv] Hne Hp Hh|
                   es outs S c g m rest G out _ [louts Hv] Hlink Hh|es outs S c _ [louts [Hl Hk Hg]]].
  - exists []. constructor; [constructor|by intros c m ?%elem_of_nil|]. intros g. exists [], []. split_and!; [constructor| |]; intros; by match goal with H : _ ∈ [] |- _ => apply elem_of_nil in H end.
  - exists (louts ++ out). destruct (post_keeps out (mkSystem L (gates S) (links S))) as (H1 & H2 & H3). constructor.
    + rewrite H1. by eapply LoginServer.history_event.
    + intros c m [H|H]%H3; apply elem_of_app; [left; by apply Hk|by right].
    + intros g. destruct (Hg g) as (ges & gouts & Hrun & Hann & Hout). exists ges, gouts. unfold gate_of. rewrite H2. split_and!; [done| |done].
      intros t a ch H. destruct (Hann t a ch H) as [c Hc]. exists c. apply elem_of_app. by left.
  - exists louts. apply (view_step es outs S louts g e); [done..| |apply (view_links _ _ _ _ Hv)]. by intros t a ch ->.
  - exists louts. apply (view_step es outs S louts g (received m)); [done|by destruct m|done| |].
    + intros t a ch H. exists c. apply (view_links _ _ _ _ Hv). rewrite Hlink. destruct m as [a' t' ch'|a' t']; [|done].
      cbn in H. injection H as -> -> ->. left.
    + intros c' m' H. apply (view_links _ _ _ _ Hv). destruct (decide (c' = c)) as [->|Hne].
      * rewrite lookup_insert_eq in H. rewrite Hlink. by right.
      * by rewrite lookup_insert_ne in H.
  - exists louts. constructor; [done| |done]. intros c' m H. apply Hk. unfold link in *. cbn in H.
    destruct (decide (c' = c)) as [->|Hne]; [rewrite lookup_delete_eq in H; by apply elem_of_nil in H|by rewrite lookup_delete_ne in H].
Qed.

(** C3: From the database to the game servers: whatever the login server, its
    gates and the clients do, and however messages travel and connections
    break, a gate adds a user of account [a] to a game server only if the
    database has given [a] for a name and a password a client sent; and every
    message it forwards, and every user it reports off line, is of a user the
    login server has announced for such an account. *)
Theorem admission_end_to_end es outs S : run es outs S ->
  (forall g c t a ch, (g, ToGame c (AddUser t a ch)) ∈ outs -> accepted cfg es a) /\
  (forall g c t payload, (g, ToGame c (Forward t payload)) ∈ outs \/ (g, ToGame c (OfflineUser t)) ∈ outs ->
     exists a, accepted cfg es a).
Proof.
  intros H. destruct (run_view _ _ _ H) as [louts [Hl _ Hg]]. apply history_admitted in Hl.
  assert (Hall : forall g o, (g, o) ∈ outs -> authorised (fun _ a => accepted cfg es a) o).
  { intros g o Ho. destruct (Hg g) as (ges & gouts & Hrun & Hann & Hout). apply history_kept in Hrun as [_ Hok].
    rewrite Forall_forall in Hok. eapply authorised_mono; [|apply Hok, Hout, Ho].
    intros t a [ch Hin]. destruct (Hann _ _ _ Hin) as [c Hc]. by apply (adm_told _ _ _ _ Hl c a t ch). }
  split; [intros g c t a ch Ho; exact (Hall _ _ Ho)|]. intros g c t payload [Ho|Ho]; exact (Hall _ _ Ho).
Qed.

(** ** Runs, executed *)
Inductive Step := LoginDoes (e : LoginServer.Event) | GateDoes (g : positive) (e : GateServer.Event) | Arrives (c : GateId) (g : positive) | Breaks (c : GateId).
Definition gate_does (g : positive) (e : GateServer.Event) (links' : gmap GateId (list ToGateMsg)) (S : System) : list (positive * Out) * System :=
  let '(G, out) := GateServer.handle GSIdleMax e (gate_of g S) in (map (pair g) out, mkSystem (login S) (<[g := G]> (gates S)) links').
Definition step (st : Step) (S : System) : option (list LoginServer.Event * (list (positive * Out) * System)) :=
  match st with
  | LoginDoes e => if decide (LoginServer.possible e (login S)) then
      match LoginServer.handle cfg e (login S) with Some (L, out) => Some ([e], ([], post out (mkSystem L (gates S) (links S)))) | None => None end else None
  | GateDoes g e => if decide (from_login e = false /\ GateServer.possible e (gate_of g S)) then Some ([], gate_does g e (links S) S) else None
  | Arrives c g => match link c S with m :: rest => Some ([], gate_does g (received m) (<[c := rest]> (links S)) S) | [] => None end
  | Breaks c => Some ([], ([], mkSystem (login S) (gates S) (delete c (links S))))
  end.
Lemma step_run es outs S st es' out S' : run es outs S -> step st S = Some (es', (out, S')) -> run (es ++ es') (outs ++ out) S'.
Proof.
  intros Hr. destruct st as [e|g e|c g|c]; cbn [step].
  - case_decide; [|done]. destruct (LoginServer.handle cfg e (login S)) as [[L o]|] eqn:E; [|done]. intros [= <- <- <-]. rewrite app_nil_r. by apply run_login.
  - case_decide as Hd; [|done]. destruct Hd. unfold gate_does. destruct (GateServer.handle GSIdleMax e (gate_of g S)) as [G o] eqn:E.
    intros [= <- <- <-]. rewrite app_nil_r. by eapply run_gate.
  - destruct (link c S) as [|m rest] eqn:El; [done|]. unfold gate_does. destruct (GateServer.handle GSIdleMax (received m) (gate_of g S)) as [G o] eqn:E.
    intros [= <- <- <-]. rewrite app_nil_r. by eapply run_arrive.
  - intros [= <- <- <-]. rewrite !app_nil_r. by apply run_break.
Qed.
Fixpoint steps (l : list Step) (es : list LoginServer.Event) (outs : list (positive * Out)) (S : System) : option (list LoginServer.Event * list (positive * Out) * System) :=
  match l with
  | [] => Some (es, outs, S)
  | st :: l => match step st S with Some (es', (out, S')) => steps l (es ++ es') (outs ++ out) S' | None => None end
  end.
Lemma steps_run l : forall es outs S es' outs' S', run es outs S -> steps l es outs S = Some (es', outs', S') -> run es' outs' S'.
Proof.
  induction l as [|st l IH]; cbn [steps]; intros es outs S es' outs' S' Hr H; [by injection H as <- <- <-|].
  destruct (step st S) as [[e1 [o1 S1]]|] eqn:E; [|done]. eapply IH; [|exact H]. by eapply step_run.
Qed.
End Run.

(** A user from its password to a message for its game server. *)
Definition a_way_in : list Step :=
  map LoginDoes a_login ++ [GateDoes 2 (GameUp 9 1); Arrives 2 2; LoginDoes (GatePrepar 2 a_trans);
    GateDoes 2 (GateServer.Accept 4); GateDoes 2 (GateServer.Login 4 a_trans); GateDoes 2 (ClientMsg 4 77)].
Definition start : System := mkSystem empty_login ∅ ∅.

Lemma admission_end_to_end_witness : match steps a_config 100 a_way_in [] [] start with
  | Some (es, outs, _) => (2%positive, ToGame 9 (AddUser a_trans 100 0)) ∈ outs /\ accepted a_config es 100 /\
      (2%positive, ToGame 9 (Forward a_trans 77)) ∈ outs /\ exists a, accepted a_config es a
  | None => False
  end.
Proof.
  destruct (steps a_config 100 a_way_in [] [] start) as [[[es outs] S]|] eqn:E; [|by vm_compute in E].
  assert (Ho : outs = [(2%positive, ToLogin (Prepar a_trans)); (2%positive, ToGame 9 (AddUser a_trans 100 0)); (2%positive, ToGame 9 (Forward a_trans 77))]).
  { vm_compute in E. injection E as _ <- _. vm_compute. reflexivity. }
  destruct (admission_end_to_end a_config 100 es outs S) as [Ha Hf]; [by eapply steps_run; [constructor|]|].
  assert (H1 : (2%positive, ToGame 9 (AddUser a_trans 100 0)) ∈ outs) by (rewrite Ho; right; left).
  assert (H2 : (2%positive, ToGame 9 (Forward a_trans 77)) ∈ outs) by (rewrite Ho; right; right; left).
  split_and!; [done|by apply (Ha 2%positive 9%positive a_trans 100 0)|done|by apply (Hf 2%positive 9%positive a_trans 77); left].
Defined.
