(* ===== verification/Database.v ===== *)
(** * The database service: task lanes and worker threads

    common/database.cpp and database.h: [Database] keeps a lane of tasks per
    thread type, worker threads [db_thread] execute them, and the main thread
    hands the results to callbacks in [run].  One step of the model is what one
    thread does between two accesses to data it shares with another; the
    answers of MySQL are arguments of the step that executes a task.

    A lane of the code is reached through a pointer; [initDatabase] runs once,
    on a new object, so a thread type never gets a second lane. *)
From stdpp Require Import gmap.
From S2P Require Import Prelude Calendar.

Definition _NORMAL_THREAD : Z := 0.
Definition _STORE_QUERY_ : Z := 0.
Definition _USE_QUERY_ : Z := 1.
Definition _TRANCE_QUERY : Z := 2.
Definition _BATCH_QUERY_ : Z := 3.

(** [RunObject]. *)
Inductive ObjState := _init_obj_ | _run_obj_ | _wait_stop_ | _stop_obj_.
#[export] Instance ObjState_eq_dec : EqDecision ObjState.
Proof. solve_decision. Defined.

Inductive TaskState := _doing_ | _done_ | _error_.
#[export] Instance TaskState_eq_dec : EqDecision TaskState.
Proof. solve_decision. Defined.

(** The times of the database. *)
Definition DBDateTime2U32 (tz year month day hour minute second : Z) : Z :=
  u32 (mktime tz (mkTm second minute hour day (month - 1) (year - 1900) 0 0)).
Definition DBTime2U32 (hour minute second : Z) : Z := u32 (hour * 3600 + minute * 60 + second).

Section Database.
Context {Callback Result : Type}.

(** [cb] is the callback object with its [parms]. *)
Record DBTask := mkDBTask { cb : Callback; str : string; store : Z; result : option Result; state : TaskState }.
Definition new_task (c : Callback) (st : string) (f : Z) : DBTask := mkDBTask c st f None _doing_.

(** Where a worker thread is.  [Head]: at the test of the loop of [run];
    [Connecting]: in [connetDatabase]; [Popped]: [getTask] has returned a task
    and [_task] is still NULL; [Working]: in the loop of [work]; [Handed]: the
    task is in the results and [_task] still points to it. *)
Inductive Pc :=
  | Head (held : option DBTask) | Connecting (held : option DBTask) | Popped (t : DBTask) | Working (t : DBTask) | Handed
  | Exited (held : option DBTask).
Record db_thread := mkThread { lane : Z; pc : Pc; _connect : bool; _stop : bool }.

(** Where the main thread is in [Database::run]. *)
Inductive MainPc := Outside | Checking (i : nat) | Joining (i : nat) | Taking | Handling (tem : list DBTask).

Record Database := mkDatabase {
  _obj_state : ObjState; _tasks : gmap Z (list DBTask); _dbthread_list : list db_thread; _results : list DBTask; main : MainPc
}.
Definition setObjState st D := mkDatabase st (_tasks D) (_dbthread_list D) (_results D) (main D).
Definition set_tasks v D := mkDatabase (_obj_state D) v (_dbthread_list D) (_results D) (main D).
Definition set_threads v D := mkDatabase (_obj_state D) (_tasks D) v (_results D) (main D).
Definition set_results v D := mkDatabase (_obj_state D) (_tasks D) (_dbthread_list D) v (main D).
Definition set_main v D := mkDatabase (_obj_state D) (_tasks D) (_dbthread_list D) (_results D) v.
Definition set_thread i w D := set_threads (<[i := w]> (_dbthread_list D)) D.
Definition at_pc p (w : db_thread) := mkThread (lane w) p (_connect w) (_stop w).
Definition set_connect b (w : db_thread) := mkThread (lane w) (pc w) b (_stop w).
Definition set_stop b (w : db_thread) := mkThread (lane w) (pc w) (_connect w) b.

(** ** Lanes *)
Definition queue (n : Z) (D : Database) : list DBTask := default [] (_tasks D !! n).
Definition addTask (n : Z) (t : DBTask) (D : Database) : Database := set_tasks (<[n := queue n D ++ [t]]> (_tasks D)) D.
Definition getTask (n : Z) (D : Database) : option DBTask * Database :=
  match queue n D with t :: q => (Some t, set_tasks (<[n := q]> (_tasks D)) D) | [] => (None, D) end.
Definition getTaskCount (n : Z) (D : Database) : Z := Z.of_nat (length (queue n D)).

Definition new_thread (n : Z) : db_thread := mkThread n (Head None) false false.
Definition addThread (ntype : Z) (count : nat) (D : Database) : Database :=
  set_threads (_dbthread_list D ++ (if ntype =? _NORMAL_THREAD then replicate count (new_thread ntype) else [new_thread ntype]))
    (set_tasks (<[ntype := []]> (_tasks D)) D).
Definition addRealTask (ntype : Z) (t : DBTask) (D : Database) : Database :=
  match _tasks D !! ntype with Some _ => addTask ntype t D | None => addTask ntype t (addThread ntype 1 D) end.
(** A service that is not running drops the task. *)
Definition add (f : Z) (c : Callback) (sql : string) (ntype : Z) (D : Database) : Database :=
  if decide (_obj_state D = _run_obj_) then addRealTask ntype (new_task c sql f) D else D.
Definition addSQueryTask := add _STORE_QUERY_.
Definition addUQueryTask := add _USE_QUERY_.
Definition addBatchTask := add _BATCH_QUERY_.

Definition new_database : Database := mkDatabase _init_obj_ ∅ [] [] Outside.
Definition initDatabase (thread_ : nat) (D : Database) : Database := setObjState _run_obj_ (addThread _NORMAL_THREAD thread_ D).
Definition shutDown (D : Database) : Database := set_threads [] (set_tasks ∅ D).

(** ** Worker threads *)

(** What the library answers: no connection; the query ends; or an exception
    after the result [r] was stored, or before ([None]). *)
Inductive Outcome :=
  | Disconnected | Ended (r : Result) | BadQuery (errnum : Z) (r : option Result) | BadConversion (r : option Result)
  | MysqlException (r : option Result) | OtherException (r : option Result).

(** [_task == NULL], and what the thread still has to do with its task. *)
Definition isDone (w : db_thread) : bool :=
  match pc w with Working _ | Handed | Head (Some _) | Connecting (Some _) | Exited (Some _) => false | _ => true end.
Definition in_hand (p : Pc) : list DBTask :=
  match p with Popped t | Working t | Head (Some t) | Connecting (Some t) | Exited (Some t) => [t] | _ => [] end.

(** [result.sr] and [result.ur] belong to the two kinds of queries. *)
Definition with_result (r : option Result) (t : DBTask) : DBTask :=
  if (store t =? _STORE_QUERY_) || (store t =? _USE_QUERY_)
  then mkDBTask (cb t) (str t) (store t) (match r with Some _ => r | None => result t end) (state t) else t.
Definition with_state (st : TaskState) (t : DBTask) : DBTask := mkDBTask (cb t) (str t) (store t) (result t) st.
Definition known_store (t : DBTask) : bool :=
  (store t =? _STORE_QUERY_) || (store t =? _USE_QUERY_) || (store t =? _TRANCE_QUERY) || (store t =? _BATCH_QUERY_).
(** MySQL went away, or lost the connection in the middle of a query. *)
Definition lost_connection (errnum : Z) : bool := (errnum =? 2013) || (errnum =? 2006).

(** One turn of the loop of [work]: what is handed to [addDone], where the
    thread goes, and [_connect]. *)
Definition turn (t : DBTask) (o : Outcome) (c : bool) : option DBTask * Pc * bool :=
  match o with
  | Disconnected => (None, Head (Some t), c)
  | _ =>
      if negb (known_store t) then (Some (with_state _error_ t), Handed, c)
      else match o with
           | Ended r => (Some (with_state _done_ (with_result (Some r) t)), Handed, c)
           | BadQuery n r =>
               if lost_connection n then (None, Head (Some (with_result r t)), false)
               else (Some (with_state _error_ (with_result r t)), Head None, false)
           | BadConversion r | MysqlException r => (Some (with_state _error_ (with_result r t)), Head None, c)
           | OtherException r => (None, Head (Some (with_result r t)), c)
           | Disconnected => (None, Head (Some t), c)
           end
  end.
Definition addDone (t : DBTask) (D : Database) : Database := set_results (_results D ++ [t]) D.

(** [run] of a thread: the loop, [connetDatabase] with [realConnect], and the
    parts of [work]. *)
Definition enter (w : db_thread) : option db_thread :=
  match pc w with Head h => Some (at_pc (if _stop w then Exited h else Connecting h) w) | _ => None end.
Definition connetDatabase (b : bool) (w : db_thread) : option db_thread :=
  match pc w with Connecting h => if negb (_connect w) && negb (_stop w) then Some (set_connect b w) else None | _ => None end.
Definition work_begin (w : db_thread) (D : Database) : option (db_thread * Database) :=
  match pc w with
  | Connecting h =>
      if _connect w || _stop w then
        match h with
        | Some t => Some (at_pc (Working t) w, D)
        | None => let '(t, D) := getTask (lane w) D in Some (at_pc (match t with Some t => Popped t | None => Head None end) w, D)
        end
      else None
  | Popped t => Some (at_pc (Working t) w, D)
  | _ => None
  end.
Definition work_query (o : Outcome) (w : db_thread) (D : Database) : option (option DBTask * db_thread * Database) :=
  match pc w with
  | Working t =>
      let '(fin, p, c) := turn t o (_connect w) in
      Some (fin, set_connect c (at_pc p w), match fin with Some t' => addDone t' D | None => D end)
  | _ => None
  end.
Definition work_next (w : db_thread) (D : Database) : option (db_thread * Database) :=
  match pc w with
  | Handed => let '(t, D) := getTask (lane w) D in Some (at_pc (match t with Some t => Working t | None => Head None end) w, D)
  | _ => None
  end.

(** ** The main thread *)

(** [checkStop] reads the lanes one after another; in [_wait_stop_] nothing is
    added, so a lane found empty stays empty. *)
Definition no_tasks (D : Database) : bool := forallb (fun it : Z * list DBTask => match it.2 with [] => true | _ => false end) (map_to_list (_tasks D)).
Definition checkStop (D : Database) : Database :=
  if decide (_obj_state D = _wait_stop_) then (if no_tasks D then set_main (Checking 0) D else set_main Taking D) else set_main Taking D.
Definition checkStop_thread (i : nat) (D : Database) : Database :=
  match _dbthread_list D !! i with
  | Some w => if isDone w then set_main (Joining i) (set_thread i (set_stop true w) D) else set_main Taking D
  | None => set_main Taking (setObjState _stop_obj_ D)
  end.
(** [join] returns when the thread has left [run]. *)
Definition checkStop_join (i : nat) (D : Database) : option Database :=
  match _dbthread_list D !! i with
  | Some w => match pc w with Exited _ => Some (set_main (Checking (S i)) D) | _ => None end
  | None => None
  end.
Definition take_results (D : Database) : Database :=
  if (bool_decide (_obj_state D = _wait_stop_) || bool_decide (_obj_state D = _run_obj_)) && negb (bool_decide (length (_results D) = 0%nat))
  then set_main (Handling (_results D)) (set_results [] D) else set_main Outside D.

(** What a callback is called with: nothing for an unknown kind of task. *)
Definition sucess (t : DBTask) : bool := bool_decide (state t = _done_).
Definition execute (t : DBTask) : option (Callback * option Result * bool) :=
  if known_store t then Some (cb t, if (store t =? _STORE_QUERY_) || (store t =? _USE_QUERY_) then result t else None, sucess t) else None.

(** ** Steps *)
Inductive Act :=
  | Enter (i : nat) | Connect (i : nat) (b : bool) | Work (i : nat) | Query (i : nat) (o : Outcome) | Next (i : nat)
  | Add (f : Z) (c : Callback) (sql : string) (ntype : Z) | WaitStop
  | Run | Check | Join | Take | Give.
(** A task is added to a lane, finished by a thread of a lane, or given to its callback. *)
Inductive Log := Added (n : Z) (t : DBTask) | Finished (n : Z) (t : DBTask) | Given (t : DBTask).

Definition outside (D : Database) : bool := match main D with Outside | Handling _ => true | _ => false end.
Definition on_thread {A} (i : nat) (D : Database) (f : db_thread -> option A) : option A := w ← _dbthread_list D !! i; f w.
Definition act (a : Act) (D : Database) : option (list Log * Database) :=
  match a with
  | Enter i => on_thread i D (fun w => w' ← enter w; Some ([], set_thread i w' D))
  | Connect i b => on_thread i D (fun w => w' ← connetDatabase b w; Some ([], set_thread i w' D))
  | Work i => on_thread i D (fun w => '(w', D') ← work_begin w D; Some ([], set_thread i w' D'))
  | Query i o => on_thread i D (fun w => '(fin, w', D') ← work_query o w D;
      Some (match fin with Some t => [Finished (lane w) t] | None => [] end, set_thread i w' D'))
  | Next i => on_thread i D (fun w => '(w', D') ← work_next w D; Some ([], set_thread i w' D'))
  | Add f c sql n =>
      if outside D then Some (if decide (_obj_state D = _run_obj_) then [Added n (new_task c sql f)] else [], add f c sql n D) else None
  | WaitStop => if outside D then Some ([], setObjState _wait_stop_ D) else None
  | Run => match main D with Outside => Some ([], checkStop D) | _ => None end
  | Check => match main D with Checking i => Some ([], checkStop_thread i D) | _ => None end
  | Join => match main D with Joining i => D' ← checkStop_join i D; Some ([], D') | _ => None end
  | Take => match main D with Taking => Some ([], take_results D) | _ => None end
  | Give => match main D with
            | Handling (t :: tem) => Some ([Given t], set_main (Handling tem) D)
            | Handling [] => Some ([], set_main Outside D)
            | _ => None
            end
  end.
Fixpoint acts (l : list Act) (D : Database) : option (list Log * Database) :=
  match l with
  | [] => Some ([], D)
  | a :: l => '(log, D) ← act a D; '(log', D) ← acts l D; Some (log ++ log', D)
  end.
End Database.
Arguments DBTask : clear implicits.
Arguments db_thread : clear implicits.
Arguments Database : clear implicits.
Arguments Pc : clear implicits.
Arguments MainPc : clear implicits.
Arguments Act : clear implicits.
Arguments Log : clear implicits.
Arguments Outcome : clear implicits.

(** ** What a run has done *)
Section Runs.
Context {Callback Result : Type}.
Abbreviation Task := (DBTask Callback Result).
Abbreviation Db := (Database Callback Result).
Abbreviation Logs := (list (Log Callback Result)).
Implicit Types (t : Task) (D : Db) (log : Logs).

(** The part of a task that execution leaves alone. *)
Definition job t : Callback * string * Z := (cb t, str t, store t).
Definition added (n : Z) log : list (Callback * string * Z) :=
  omap (fun e => match e with Added m t => if m =? n then Some (job t) else None | _ => None end) log.
Definition finished (n : Z) log : list (Callback * string * Z) :=
  omap (fun e => match e with Finished m t => if m =? n then Some (job t) else None | _ => None end) log.
Definition all_finished log : list Task := omap (fun e => match e with Finished _ t => Some t | _ => None end) log.
Definition given log : list Task := omap (fun e => match e with Given t => Some t | _ => None end) log.
Definition to_give D : list Task := match main D with Handling tem => tem | _ => [] end.

Definition held_by (n : Z) (w : db_thread Callback Result) : list (Callback * string * Z) :=
  if lane w =? n then map job (in_hand (pc w)) else [].
Definition held (n : Z) D : list (Callback * string * Z) := concat (map (held_by n) (_dbthread_list D)).
Definition waiting (n : Z) D : list (Callback * string * Z) := map job (queue n D).

(** The threads of the normal lane run beside each other; another lane has one. *)
Definition same (n : Z) (a b : list (Callback * string * Z)) : Prop := if n =? _NORMAL_THREAD then a ≡ₚ b else a = b.
Definition exited (w : db_thread Callback Result) : Prop := exists h, pc w = Exited h.

Record ok log D : Prop := {
  ok_given : all_finished log = given log ++ to_give D ++ _results D;
  ok_lanes n : same n (added n log) (finished n log ++ held n D ++ waiting n D);
  ok_one i j w w' : _dbthread_list D !! i = Some w -> _dbthread_list D !! j = Some w' ->
    lane w = lane w' -> lane w <> _NORMAL_THREAD -> i = j;
  ok_known i w : _dbthread_list D !! i = Some w -> is_Some (_tasks D !! lane w);
  ok_checking i : main D = Checking i \/ main D = Joining i ->
    _obj_state D = _wait_stop_ /\ (forall n, queue n D = []) /\
    (forall j w, (j < i)%nat -> _dbthread_list D !! j = Some w -> exited w);
  ok_stopped : _obj_state D = _stop_obj_ -> (forall n, queue n D = []) /\ Forall exited (_dbthread_list D)
}.

(** What a step of thread [i] does. *)
Record moved log D D' (i : nat) (w w' : db_thread Callback Result) (fin : list Task) : Prop := {
  mv_at : _dbthread_list D !! i = Some w;
  mv_threads : _dbthread_list D' = <[i := w']> (_dbthread_list D);
  mv_lane : lane w' = lane w;
  mv_alive : ~ exited w;
  mv_state : _obj_state D' = _obj_state D;
  mv_main : main D' = main D;
  mv_results : _results D' = _results D ++ fin;
  mv_log : log = map (Finished (lane w)) fin;
  mv_jobs : map job (in_hand (pc w)) ++ waiting (lane w) D = map job fin ++ map job (in_hand (pc w')) ++ waiting (lane w) D';
  mv_others n : n <> lane w -> queue n D' = queue n D;
  mv_empty : queue (lane w) D = [] -> queue (lane w) D' = [];
  mv_known n : is_Some (_tasks D !! n) -> is_Some (_tasks D' !! n)
}.

Lemma queue_insert n m q D : queue n (set_tasks (<[m := q]> (_tasks D)) D) = if decide (m = n) then q else queue n D.
Proof. unfold queue. cbn. rewrite lookup_insert. by case_decide. Qed.

Lemma getTask_moved D n : exists q, getTask n D = (hd_error (queue n D), q) /\
  _dbthread_list q = _dbthread_list D /\ _obj_state q = _obj_state D /\ main q = main D /\ _results q = _results D /\
  queue n q = tail (queue n D) /\ (forall m, m <> n -> queue m q = queue m D) /\ (forall m, is_Some (_tasks D !! m) -> is_Some (_tasks q !! m)).
Proof.
  unfold getTask. destruct (queue n D) as [|t l] eqn:E.
  - exists D. by rewrite E.
  - eexists. split; [done|]. repeat split; try done.
    + rewrite queue_insert. by rewrite decide_True.
    + intros m Hm. rewrite queue_insert. by rewrite decide_False.
    + intros m Hm. cbn. rewrite lookup_insert. by case_decide.
Qed.

Lemma set_thread_moved D i w p c s : _dbthread_list D !! i = Some w -> ~ exited w -> map job (in_hand p) = map job (in_hand (pc w)) ->
  moved [] D (set_thread i (mkThread (lane w) p c s) D) i w (mkThread (lane w) p c s) [].
Proof. intros Hi Hw Hp. split; try done; cbn; [by rewrite app_nil_r|by rewrite Hp]. Qed.

Lemma getTask_thread D i w (o : option Task) D' p : _dbthread_list D !! i = Some w -> ~ exited w -> in_hand (pc w) = [] ->
  getTask (lane w) D = (o, D') -> in_hand p = option_list o ->
  moved [] D (set_thread i (at_pc p w) D') i w (at_pc p w) [].
Proof.
  intros Hi Hw Hn E Hp. destruct (getTask_moved D (lane w)) as (D'' & E' & Ht & Hs & Hm & Hr & Hq & Ho & Hk).
  rewrite E in E'. injection E' as -> <-. split; cbn; try done; try by rewrite ?Ht.
  - by rewrite Hr, app_nil_r.
  - rewrite Hn, Hp. unfold waiting. change (queue (lane w) (set_thread i (at_pc p w) D')) with (queue (lane w) D').
    rewrite Hq. by destruct (queue (lane w) D).
  - change (queue (lane w) (set_thread i (at_pc p w) D')) with (queue (lane w) D'). rewrite Hq. intros ->. done.
Qed.

Lemma turn_job t o c fin p c' : turn t o c = (fin, p, c') -> [job t] = map job (option_list fin) ++ map job (in_hand p).
Proof.
  assert (Hr : forall r, job (with_result r t) = job t) by (intros r; unfold with_result; by case_match).
  unfold turn. destruct o; [by intros [= <- <- <-]|..]; case_match; try (by intros [= <- <- <-]).
  all: try (intros [= <- <- <-]; unfold with_state, job in *; cbn; f_equal; symmetry; apply Hr).
  case_match; intros [= <- <- <-]; cbn; f_equal; symmetry; apply Hr.
Qed.

Definition of_thread (a : Act Callback Result) : option nat :=
  match a with Enter i | Connect i _ | Work i | Query i _ | Next i => Some i | _ => None end.

Lemma act_moved a D log D' i : act a D = Some (log, D') -> of_thread a = Some i -> exists w w' fin, moved log D D' i w w' fin.
Proof.
  destruct a as [k|k b|k|k o|k|f c sql n| | | | | |]; cbn [of_thread act]; intros E [= ->]; unfold on_thread in E;
    destruct (_dbthread_list D !! i) as [w|] eqn:Hi; try discriminate; cbn in E.
  - unfold enter in E. destruct (pc w) as [h| | | | |] eqn:Hp; try discriminate. injection E as <- <-.
    exists w; eexists; exists []. apply set_thread_moved; [done|intros [h' Hx]; congruence|]. rewrite Hp. by destruct (_stop w), h.
  - unfold connetDatabase in E. destruct (pc w) as [|h| | | |] eqn:Hp; try discriminate.
    destruct (negb (_connect w) && negb (_stop w)) eqn:E1; [|discriminate]. injection E as <- <-.
    exists w; eexists; exists []. apply set_thread_moved; [done|intros [h' Hx]; congruence|done].
  - unfold work_begin in E. destruct (pc w) as [|h|t| | |] eqn:Hp; try discriminate.
    + destruct (_connect w || _stop w); [|discriminate]. destruct h as [t|].
      * injection E as <- <-. exists w; eexists; exists []. apply set_thread_moved; [done|intros [h' Hx]; congruence|by rewrite Hp].
      * destruct (getTask (lane w) D) as [t D1] eqn:Eg. injection E as <- <-. exists w; eexists; exists [].
        eapply getTask_thread; [done|intros [h' Hx]; congruence|by rewrite Hp|done|by destruct t].
    + injection E as <- <-. exists w; eexists; exists []. apply set_thread_moved; [done|intros [h' Hx]; congruence|by rewrite Hp].
  - unfold work_query in E. destruct (pc w) as [| | |t| |] eqn:Hp; try discriminate.
    destruct (turn t o (_connect w)) as [[fin p] c] eqn:Et. injection E as <- <-. exists w, (set_connect c (at_pc p w)), (option_list fin).
    apply turn_job in Et. split; try done; try (by destruct fin).
    + by intros [h' Hx]; congruence.
    + destruct fin; [done|]. cbn. by rewrite app_nil_r.
    + rewrite Hp. cbn in Et |- *. rewrite app_assoc, <- Et. by destruct fin.
  - unfold work_next in E. destruct (pc w) as [| | | | |] eqn:Hp; try discriminate.
    destruct (getTask (lane w) D) as [t D1] eqn:Eg. injection E as <- <-. exists w; eexists; exists [].
    eapply getTask_thread; [done|intros [h' Hx]; congruence|by rewrite Hp|done|by destruct t].
Qed.

Lemma added_app n l l' : added n (l ++ l') = added n l ++ added n l'.
Proof. apply omap_app. Qed.
Lemma finished_app n l l' : finished n (l ++ l') = finished n l ++ finished n l'.
Proof. apply omap_app. Qed.
Lemma all_finished_app l l' : all_finished (l ++ l') = all_finished l ++ all_finished l'.
Proof. apply omap_app. Qed.
Lemma given_app l l' : given (l ++ l') = given l ++ given l'.
Proof. apply omap_app. Qed.
Lemma fin_log m fin : let l := map (Finished m) fin : Logs in
  (forall n, added n l = []) /\ (forall n, finished n l = if m =? n then map job fin else []) /\ all_finished l = fin /\ given l = [].
Proof.
  cbn. induction fin as [|t fin (IH1 & IH2 & IH3 & IH4)]; cbn; [split_and!; try done; intros; by case_match|].
  split_and!; [done|intros n|by f_equal|done]. specialize (IH2 n). unfold finished in IH2. rewrite IH2. by case_match.
Qed.

Lemma same_refl n a : same n a a.
Proof. unfold same. by case_match. Qed.
Lemma same_snoc n a b c : same n a b -> same n (a ++ c) (b ++ c).
Proof. unfold same. case_match; by intros ->. Qed.
(** One thread of a lane goes from [x] in hand to [y], and finishes [f]. *)
Lemma same_step n A F a b x y f q q' : (n <> _NORMAL_THREAD -> a = [] /\ b = []) -> x ++ q = f ++ y ++ q' ->
  same n A (F ++ (a ++ x ++ b) ++ q) -> same n A ((F ++ f) ++ (a ++ y ++ b) ++ q').
Proof.
  unfold same. intros Hu Hx. destruct (Z.eqb_spec n _NORMAL_THREAD) as [->|Hn].
  - intros ->. transitivity (F ++ (a ++ b) ++ (x ++ q)); [solve_Permutation|]. rewrite Hx. solve_Permutation.
  - intros ->. destruct (Hu Hn) as [-> ->]. cbn. rewrite !app_nil_r, Hx, <- !app_assoc. done.
Qed.

Lemma held_split n D i w w' : _dbthread_list D !! i = Some w -> exists a b,
  held n D = a ++ held_by n w ++ b /\ concat (map (held_by n) (<[i := w']> (_dbthread_list D))) = a ++ held_by n w' ++ b /\
  ((forall j v, _dbthread_list D !! j = Some v -> lane v = n -> j = i) -> a = [] /\ b = []).
Proof.
  intros Hi. exists (concat (map (held_by n) (take i (_dbthread_list D)))), (concat (map (held_by n) (drop (S i) (_dbthread_list D)))).
  pose proof (lookup_lt_Some _ _ _ Hi) as Hl. unfold held. split_and!.
  - rewrite <- (take_drop_middle _ _ _ Hi) at 1. by rewrite map_app, concat_app.
  - rewrite insert_take_drop by done. by rewrite map_app, concat_app.
  - intros Hu.
    assert (Hnil : forall l, (forall v, v ∈ l -> exists j, j <> i /\ _dbthread_list D !! j = Some v) -> concat (map (held_by n) l) = []).
    { induction l as [|v l IH]; intros Hv; [done|]. cbn. rewrite IH by (intros u Hu'; apply Hv; by right).
      destruct (Hv v) as (j & Hj & Hv'); [by left|]. unfold held_by. destruct (Z.eqb_spec (lane v) n) as [E|]; [|done].
      by specialize (Hu j v Hv' E). }
    split; apply Hnil; intros v (j & Hj)%list_elem_of_lookup.
    + apply lookup_take_Some in Hj as [Hj ?]. exists j. split; [lia|done].
    + rewrite lookup_drop in Hj. exists (S i + j)%nat. split; [lia|done].
Qed.

Lemma ok_moved log log' D D' i w w' fin : ok log D -> moved log' D D' i w w' fin -> ok (log ++ log') D'.
Proof.
  intros [K1 K2 K3 K4 K5 K6] [Hi Ht Hl Ha Hs Hm Hr -> Hj Ho He Hk].
  destruct (fin_log (lane w) fin) as (L1 & L2 & L3 & L4). cbn in L1, L2, L3, L4.
  assert (Hthreads : forall j v, _dbthread_list D' !! j = Some v -> exists u, _dbthread_list D !! j = Some u /\ lane u = lane v /\
    (j <> i -> u = v)).
  { intros j v. rewrite Ht. destruct (decide (i = j)) as [<-|Hne].
    - rewrite list_lookup_insert_eq by (by eapply lookup_lt_Some). intros [= <-]. by exists w.
    - rewrite list_lookup_insert_ne by done. intros Hv. by exists v. }
  assert (Hq : forall n, (forall m, queue m D = []) -> queue n D' = []).
  { intros n H0. destruct (decide (n = lane w)) as [->|Hne]; [by apply He|]. by rewrite Ho. }
  split.
  - unfold to_give. rewrite all_finished_app, given_app, L3, L4, Hm, Hr, K1. unfold to_give. by rewrite app_nil_r, <- !app_assoc.
  - intros n. rewrite added_app, finished_app, L1, L2, app_nil_r. unfold held. rewrite Ht.
    destruct (held_split n D i w w' Hi) as (a & b & E1 & E2 & Hu). rewrite E2.
    specialize (K2 n). rewrite E1 in K2. unfold held_by in *. rewrite Hl in *. destruct (Z.eqb_spec (lane w) n) as [<-|Hne].
    + eapply same_step; [|exact Hj|exact K2]. intros Hn. apply Hu. intros j v Hv Hlv. apply (K3 j i v w); congruence.
    + rewrite app_nil_r. unfold waiting in *. by rewrite Ho.
  - intros j1 j2 v1 v2 H1 H2 Hv Hn. apply Hthreads in H1 as (u1 & H1 & E1 & _), H2 as (u2 & H2 & E2 & _).
    apply (K3 j1 j2 u1 u2); congruence.
  - intros j v Hv. apply Hthreads in Hv as (u & Hv & <- & _). apply Hk. by eapply K4.
  - intros k Hk'. rewrite Hm in Hk'. destruct (K5 k Hk') as (E1 & E2 & E3). rewrite Hs. split_and!; [done|by intros; apply Hq|].
    intros j v Hlt Hv. apply Hthreads in Hv as (u & Hv & _ & Hu). destruct (decide (j = i)) as [->|Hne]; [|rewrite <- Hu by done; by eapply E3].
    destruct Ha. rewrite Hi in Hv. injection Hv as <-. by eapply E3.
  - rewrite Hs. intros E. destruct (K6 E) as [E1 E2]. split; [by intros; apply Hq|]. destruct Ha. by eapply Forall_lookup_1 in E2.
Qed.

Lemma queue_none n D : _tasks D !! n = None -> queue n D = [].
Proof. unfold queue. by intros ->. Qed.

Lemma ok_addThread n k log D : _tasks D !! n = None -> outside D = true -> _obj_state D <> _stop_obj_ -> ok log D -> ok log (addThread n k D).
Proof.
  intros Hn Hm Hs [K1 K2 K3 K4 K5 K6].
  set (new := if n =? _NORMAL_THREAD then replicate k (new_thread n) else [new_thread n] : list (db_thread Callback Result)).
  assert (Hnew : forall w, w ∈ new -> w = new_thread n).
  { unfold new. intros w. case_match; [by intros [? _]%elem_of_replicate|by intros ?%list_elem_of_singleton]. }
  assert (Hold : forall i w, _dbthread_list D !! i = Some w -> lane w <> n).
  { intros i w Hw <-. apply K4 in Hw as [q Hq]. congruence. }
  assert (Hq : forall m, queue m (addThread n k D) = queue m D).
  { intros m. etransitivity; [exact (queue_insert m n [] D)|]. case_decide as E; [|done]. subst. symmetry. by apply queue_none. }
  split; try done.
  - intros m. replace (held m (addThread n k D)) with (held m D).
    { specialize (K2 m). unfold waiting in *. by rewrite Hq. }
    unfold held. cbn. fold new. rewrite map_app, concat_app.
    assert (Hnil : forall l, (forall w, w ∈ l -> w = new_thread n) -> concat (map (held_by m) l) = []).
    { induction l as [|w l IH]; intros Hw; [done|]. cbn. rewrite IH by (intros; apply Hw; by right).
      rewrite (Hw w) by (by left). unfold held_by. by case_match. }
    by rewrite (Hnil new Hnew), app_nil_r.
  - intros i j w w' Hi Hj E Hw. cbn in Hi, Hj. fold new in Hi, Hj. apply lookup_app_Some in Hi, Hj.
    destruct Hi as [Hi|[Hli Hi]], Hj as [Hj|[Hlj Hj]].
    + by eapply K3.
    + apply Hold in Hi. apply list_elem_of_lookup_2, Hnew in Hj as ->. by destruct Hi.
    + apply Hold in Hj. apply list_elem_of_lookup_2, Hnew in Hi as ->. by destruct Hj.
    + pose proof (list_elem_of_lookup_2 _ _ _ Hi) as ->%Hnew. cbn in Hw. unfold new in Hi, Hj.
      destruct (Z.eqb_spec n _NORMAL_THREAD); [done|]. apply lookup_lt_Some in Hi, Hj. cbn in Hi, Hj. lia.
  - intros i w Hi. cbn in Hi |- *. fold new in Hi. rewrite lookup_insert. case_decide; [by eexists|].
    apply lookup_app_Some in Hi as [Hi|[_ Hi]]; [by eapply K4|]. by apply list_elem_of_lookup_2, Hnew in Hi as ->.
  - intros i Hi. cbn in Hi. unfold outside in Hm. destruct Hi as [Hi|Hi]; by rewrite Hi in Hm.
Qed.

Lemma ok_addTask n t log D : is_Some (_tasks D !! n) -> outside D = true -> _obj_state D <> _stop_obj_ -> ok log D ->
  ok (log ++ [Added n t]) (addTask n t D).
Proof.
  intros Hn Hm Hs [K1 K2 K3 K4 K5 K6]. split; try done.
  - by rewrite all_finished_app, given_app, !app_nil_r.
  - intros m. rewrite added_app, finished_app, app_nil_r. change (held m (addTask n t D)) with (held m D).
    specialize (K2 m). unfold waiting in *. unfold addTask. rewrite queue_insert. cbn. case_decide as E.
    + subst m. rewrite Z.eqb_refl, map_app. rewrite (app_assoc (held n D)), (app_assoc (finished n log)). by apply same_snoc.
    + destruct (Z.eqb_spec n m); [done|]. by rewrite app_nil_r.
  - intros i w Hi. cbn in Hi |- *. rewrite lookup_insert. case_decide; [by eexists|]. by eapply K4.
  - intros i Hi. cbn in Hi. unfold outside in Hm. destruct Hi as [Hi|Hi]; by rewrite Hi in Hm.
Qed.

Lemma ok_add f c sql n log D : outside D = true -> ok log D ->
  ok (log ++ (if decide (_obj_state D = _run_obj_) then [Added n (new_task c sql f)] else [])) (add f c sql n D).
Proof.
  intros Hm K. unfold add. case_decide as Hs; [|by rewrite app_nil_r]. unfold addRealTask.
  destruct (_tasks D !! n) as [q|] eqn:E.
  - apply ok_addTask; [by rewrite E|done|congruence|done].
  - apply ok_addTask; [cbn; by rewrite lookup_insert_eq|done|cbn; congruence|]. apply ok_addThread; [done|done|congruence|done].
Qed.

Lemma no_tasks_queue D : no_tasks D = true -> forall n, queue n D = [].
Proof.
  unfold no_tasks. rewrite forallb_forall. intros H n. unfold queue. destruct (_tasks D !! n) as [q|] eqn:E; [|done].
  apply elem_of_map_to_list, list_elem_of_In in E. specialize (H _ E). by destruct q.
Qed.

(** Only the place of the main thread changes. *)
Lemma ok_set_main m log D : to_give (set_main m D) = to_give D ->
  (forall i, m = Checking i \/ m = Joining i -> _obj_state D = _wait_stop_ /\ (forall n, queue n D = []) /\
    (forall j w, (j < i)%nat -> _dbthread_list D !! j = Some w -> exited w)) ->
  ok log D -> ok log (set_main m D).
Proof. intros Hg Hc [K1 K2 K3 K4 K5 K6]. split; try done. by rewrite Hg. Qed.

Lemma ok_set_stop i w log D : _dbthread_list D !! i = Some w -> ok log D -> ok log (set_thread i (set_stop true w) D).
Proof.
  intros Hi [K1 K2 K3 K4 K5 K6].
  assert (Ht : forall j v, <[i := set_stop true w]> (_dbthread_list D) !! j = Some v -> exists u, _dbthread_list D !! j = Some u /\ lane v = lane u /\ pc v = pc u).
  { intros j v. destruct (decide (i = j)) as [<-|Hne].
    - rewrite list_lookup_insert_eq by (by eapply lookup_lt_Some). intros [= <-]. by exists w.
    - rewrite list_lookup_insert_ne by done. intros Hv. by exists v. }
  split; try done.
  - intros n. destruct (held_split n D i w (set_stop true w) Hi) as (a & b & E1 & E2 & _). specialize (K2 n).
    unfold held at 1. cbn. rewrite E2. by rewrite E1 in K2.
  - intros j1 j2 v1 v2 H1 H2 Hl Hn. apply Ht in H1 as (u1 & H1 & L1 & _), H2 as (u2 & H2 & L2 & _). apply (K3 j1 j2 u1 u2); congruence.
  - intros j v Hv. apply Ht in Hv as (u & Hv & -> & _). by eapply K4.
  - intros k Hk. destruct (K5 k Hk) as (E1 & E2 & E3). split_and!; try done. intros j v Hj Hv. apply Ht in Hv as (u & Hv & _ & Hp).
    unfold exited. rewrite Hp. by eapply E3.
  - intros E. destruct (K6 E) as [E1 E2]. split; [done|]. apply Forall_lookup_2. intros j v Hv. apply Ht in Hv as (u & Hv & _ & Hp).
    unfold exited. rewrite Hp. by eapply Forall_lookup_1 in E2.
Qed.

Lemma ok_act a log log' D D' : act a D = Some (log', D') -> ok log D -> ok (log ++ log') D'.
Proof.
  intros E K. destruct (of_thread a) as [i|] eqn:Ha.
  { destruct (act_moved a D log' D' i E Ha) as (w & w' & fin & Hm). by eapply ok_moved. }
  destruct a as [| | | | |f c sql n| | | | | |]; try discriminate Ha; cbn in E; clear Ha.
  - destruct (outside D) eqn:Ho; [|discriminate]. injection E as <- <-. by apply ok_add.
  - destruct (outside D) eqn:Ho; [|discriminate]. injection E as <- <-. rewrite app_nil_r.
    destruct K as [K1 K2 K3 K4 K5 K6]. split; try done. intros i Hi. cbn in Hi. unfold outside in Ho. destruct Hi as [Hi|Hi]; by rewrite Hi in Ho.
  - destruct (main D) eqn:Hm; try discriminate. injection E as <- <-. rewrite app_nil_r. unfold checkStop.
    case_decide as Hs; [destruct (no_tasks D) eqn:Hn|]; (apply ok_set_main; [unfold to_give; by rewrite Hm| |done]); intros i [[= <-]|[=]].
    split_and!; [done|by apply no_tasks_queue|lia].
  - destruct (main D) as [|i| | |] eqn:Hm; try discriminate. injection E as <- <-. rewrite app_nil_r. unfold checkStop_thread.
    destruct (ok_checking _ _ K i (or_introl Hm)) as (E1 & E2 & E3). destruct (_dbthread_list D !! i) as [w|] eqn:Hi.
    + destruct (isDone w); (apply ok_set_main; [unfold to_give; cbn; by rewrite Hm| |]).
      * intros j [[=]|[= <-]]. split_and!; [done..|]. intros j v Hj. cbn. rewrite list_lookup_insert_ne by lia. by apply E3.
      * by apply ok_set_stop.
      * by intros j [[=]|[=]].
      * done.
    + destruct K as [K1 K2 K3 K4 K5 K6]. split; try done.
      * rewrite K1. unfold to_give. cbn. by rewrite Hm.
      * by intros j [[=]|[=]].
      * intros _. split; [done|]. apply Forall_lookup_2. intros j v Hv. apply (E3 j); [|done].
        apply lookup_ge_None in Hi. apply lookup_lt_Some in Hv. cbn in Hv. lia.
  - destruct (main D) as [| |i| |] eqn:Hm; try discriminate. unfold checkStop_join in E. cbn in E.
    destruct (ok_checking _ _ K i (or_intror Hm)) as (E1 & E2 & E3). destruct (_dbthread_list D !! i) as [w|] eqn:Hi; [|discriminate].
    destruct (pc w) eqn:Hp; try discriminate. injection E as <- <-. rewrite app_nil_r. apply ok_set_main; [unfold to_give; cbn; by rewrite Hm| |done].
    intros j [[= <-]|[=]]. split_and!; [done..|]. intros k v Hk Hv. destruct (decide (k = i)) as [->|]; [|apply (E3 k); [lia|done]].
    rewrite Hi in Hv. injection Hv as <-. by eexists.
  - destruct (main D) eqn:Hm; try discriminate. injection E as <- <-. rewrite app_nil_r. unfold take_results. case_match.
    + destruct K as [K1 K2 K3 K4 K5 K6]. split; try done; [|by intros j [[=]|[=]]]. rewrite K1. unfold to_give. rewrite Hm. cbn. by rewrite app_nil_r.
    + apply ok_set_main; [unfold to_give; by rewrite Hm| |done]. by intros j [[=]|[=]].
  - destruct (main D) as [| | | |[|t tem]] eqn:Hm; try discriminate; injection E as <- <-.
    + rewrite app_nil_r. apply ok_set_main; [unfold to_give; by rewrite Hm| |done]. by intros j [[=]|[=]].
    + destruct K as [K1 K2 K3 K4 K5 K6]. split; try done; try (by intros j [[=]|[=]]).
      * rewrite all_finished_app, given_app, K1. unfold to_give. rewrite Hm. cbn. by rewrite app_nil_r, <- app_assoc.
      * intros n. rewrite added_app, finished_app, !app_nil_r. apply K2.
Qed.

Lemma ok_start thread_ : ok [] (initDatabase thread_ new_database : Db).
Proof.
  assert (K : ok [] (new_database : Db)).
  { split; try done; [intros n; by apply same_refl|by intros i [[=]|[=]]]. }
  apply (ok_addThread _NORMAL_THREAD thread_) in K as [K1 K2 K3 K4 K5 K6]; [|done..]. split; [exact K1|exact K2|exact K3|exact K4|by intros i [[=]|[=]]|done].
Qed.

Lemma ok_acts l : forall log log' D D', acts l D = Some (log', D') -> ok log D -> ok (log ++ log') D'.
Proof.
  induction l as [|a l IH]; intros log log' D D' E K; cbn in E; [injection E as <- <-; by rewrite app_nil_r|].
  destruct (act a D) as [[log1 D1]|] eqn:E1; [|discriminate]. cbn in E. destruct (acts l D1) as [[log2 D2]|] eqn:E2; [|discriminate].
  injection E as <- <-. rewrite app_assoc. eapply IH; [done|]. by eapply ok_act.
Qed.

(** ** Tasks that are interrupted

    [work] returns with its task, to try it again, when the connection is gone
    and after an exception that is not of the MySQL library. *)
Definition interrupting (o : Outcome Result) : bool :=
  match o with Disconnected | OtherException _ => true | BadQuery n _ => lost_connection n | _ => false end.
Definition uninterrupted (a : Act Callback Result) : Prop := match a with Query _ o => interrupting o = false | _ => True end.
Definition quiet (w : db_thread Callback Result) : Prop :=
  match pc w with Head (Some _) | Connecting (Some _) | Exited (Some _) => False | _ => True end.

Lemma turn_quiet t o c fin p c' s n : turn t o c = (fin, p, c') -> interrupting o = false -> quiet (mkThread n p c' s).
Proof.
  unfold turn. intros Et Ha. destruct o; try discriminate Ha; cbn in Ha; destruct (negb (known_store t)); try rewrite Ha in Et; by simplify_eq.
Qed.

Lemma quiet_thread a D log D' i w : act a D = Some (log, D') -> of_thread a = Some i -> uninterrupted a ->
  _dbthread_list D !! i = Some w -> quiet w -> exists w', _dbthread_list D' = <[i := w']> (_dbthread_list D) /\ quiet w'.
Proof.
  intros E Hi Ha Hw Hq. unfold quiet in Hq.
  destruct a as [k|k b|k|k o|k| | | | | | |]; try discriminate Hi; injection Hi as ->; cbn in E; unfold on_thread in E; rewrite Hw in E; cbn in E.
  - unfold enter in E. destruct (pc w) as [[?|]| | | | |]; try done. injection E as <- <-. eexists. split; [done|].
    unfold quiet. cbn. by destruct (_stop w).
  - unfold connetDatabase in E. destruct (pc w) as [|[?|]| | | |] eqn:Hp; try done. case_match; [|discriminate]. injection E as <- <-.
    eexists. split; [done|]. unfold quiet. cbn. by rewrite Hp.
  - unfold work_begin in E. destruct (pc w) as [|[?|]| | | |] eqn:Hp; try done.
    + case_match; [|discriminate]. destruct (getTask_moved D (lane w)) as (D1 & Eg & E1 & _). rewrite Eg in E.
      injection E as <- <-. eexists. cbn. rewrite E1. split; [done|]. unfold quiet. cbn. by destruct (hd_error _).
    + injection E as <- <-. by eexists.
  - unfold work_query in E. destruct (pc w) as [| | |t| |] eqn:Hp; try done.
    destruct (turn t o (_connect w)) as [[f p] c] eqn:Et. injection E as <- <-. eexists. split; [by destruct f|]. by eapply turn_quiet.
  - unfold work_next in E. destruct (pc w) as [| | | | |] eqn:Hp; try done.
    destruct (getTask_moved D (lane w)) as (D1 & Eg & E1 & _). rewrite Eg in E.
    injection E as <- <-. eexists. cbn. rewrite E1. split; [done|]. unfold quiet. cbn. by destruct (hd_error _).
Qed.

Lemma quiet_act a D log D' : act a D = Some (log, D') -> uninterrupted a -> Forall quiet (_dbthread_list D) -> Forall quiet (_dbthread_list D').
Proof.
  intros E Ha HD. destruct (of_thread a) as [i|] eqn:Hi.
  - destruct (act_moved a D log D' i E Hi) as (w & w' & fin & Hm). pose proof (mv_at _ _ _ _ _ _ _ Hm) as Hw.
    destruct (quiet_thread a D log D' i w E Hi Ha Hw) as (w1 & -> & H1); [by apply (Forall_lookup_1 _ _ _ _ HD Hw)|]. by apply Forall_insert.
  - destruct a as [| | | | |f c sql n| | | | | |]; try discriminate Hi; cbn in E.
    + destruct (outside D); [|discriminate]. injection E as <- <-. unfold add, addRealTask. case_decide; [|done]. case_match; [done|].
      unfold addTask, addThread. cbn. apply Forall_app. split; [done|]. case_match; by repeat constructor.
    + destruct (outside D); [|discriminate]. by injection E as <- <-.
    + destruct (main D); try discriminate. injection E as <- <-. unfold checkStop. case_decide; [by case_match|done].
    + destruct (main D) as [|i| | |]; try discriminate. injection E as <- <-. unfold checkStop_thread.
      destruct (_dbthread_list D !! i) as [w|] eqn:Hw; [|done]. case_match; [|done]. cbn.
      apply Forall_insert; [done|]. by apply (Forall_lookup_1 _ _ _ _ HD Hw).
    + destruct (main D) as [| |i| |]; try discriminate. unfold checkStop_join in E. destruct (_dbthread_list D !! i) as [w|]; [|discriminate].
      destruct (pc w); try discriminate. by injection E as <- <-.
    + destruct (main D); try discriminate. injection E as <- <-. unfold take_results. by case_match.
    + destruct (main D) as [| | | |[|t tem]]; try discriminate; by injection E as <- <-.
Qed.

Lemma quiet_acts l : forall D log D', acts l D = Some (log, D') -> Forall uninterrupted l -> Forall quiet (_dbthread_list D) -> Forall quiet (_dbthread_list D').
Proof.
  induction l as [|a l IH]; intros D log D' E Hl HD; cbn in E; [by injection E as <- <-|]. inversion_clear Hl as [|? ? Ha Hl'].
  destruct (act a D) as [[log1 D1]|] eqn:E1; [|discriminate]. cbn in E. destruct (acts l D1) as [[log2 D2]|] eqn:E2; [|discriminate].
  injection E as <- <-. eapply IH; [done..|]. by eapply quiet_act.
Qed.

Lemma nothing_held D n : Forall exited (_dbthread_list D) -> Forall quiet (_dbthread_list D) -> held n D = [].
Proof.
  intros He Hq. unfold held. induction He as [|w l [h Hw] _ IH]; [done|]. inversion_clear Hq as [|? ? H1 H2]. cbn. rewrite IH by done.
  unfold held_by, quiet in *. rewrite Hw in *. destruct h; [done|]. by destruct (lane w =? n).
Qed.

(** ** An invariant of the tasks

    [P] of the tasks that wait or are executed, [F] of the finished ones. *)
Section Tasks.
Variables P F : Task -> Prop.
Record all_tasks D : Prop := {
  at_queue n : Forall P (queue n D);
  at_hand i w : _dbthread_list D !! i = Some w -> Forall P (in_hand (pc w));
  at_finished : Forall F (to_give D ++ _results D)
}.
Definition turn_ok t (o : Outcome Result) : Prop :=
  forall c fin p c', turn t o c = (fin, p, c') -> Forall F (option_list fin) /\ Forall P (in_hand p).
(** What a step must respect. *)
Definition act_ok (a : Act Callback Result) D : Prop :=
  match a with
  | Add f c sql _ => P (new_task c sql f)
  | Query i o => forall w t, _dbthread_list D !! i = Some w -> pc w = Working t -> P t -> turn_ok t o
  | _ => True
  end.

Lemma at_thread D D' i w' : all_tasks D -> _dbthread_list D' = <[i := w']> (_dbthread_list D) ->
  (forall n, Forall P (queue n D')) -> Forall P (in_hand (pc w')) -> Forall F (to_give D' ++ _results D') -> all_tasks D'.
Proof.
  intros [A1 A2 A3] Ht Hq Hw Hr. split; [done| |done]. intros j v. rewrite Ht. intros [(<- & <- & _)|[_ ?]]%list_lookup_insert_Some; [done|by eapply A2].
Qed.

Lemma at_getTask n D o D' : all_tasks D -> getTask n D = (o, D') -> Forall P (option_list o) /\ all_tasks D'.
Proof.
  intros A. destruct (getTask_moved D n) as (D1 & -> & T1 & T2 & T3 & T4 & T5 & T6 & _). intros [= <- <-].
  pose proof (at_queue _ A n) as Hn. split; [by destruct Hn; repeat constructor|]. split.
  - intros m. destruct (decide (m = n)) as [->|Hne]; [rewrite T5; by destruct Hn|]. rewrite T6 by done. apply A.
  - rewrite T1. apply A.
  - unfold to_give. rewrite T3, T4. apply A.
Qed.

Lemma at_pick a i D log D' : of_thread a = Some i -> act a D = Some (log, D') -> all_tasks D -> act_ok a D -> all_tasks D'.
Proof.
  intros Hi E A Ha. destruct a as [k|k b|k|k o|k| | | | | | |]; try discriminate Hi; injection Hi as ->; cbn in E; unfold on_thread in E;
    destruct (_dbthread_list D !! i) as [w|] eqn:Hw; try discriminate; cbn in E; pose proof (at_hand _ A i w Hw) as Hp.
  - unfold enter in E. destruct (pc w) as [h| | | | |] eqn:Ep; try discriminate. injection E as <- <-.
    eapply at_thread; [done|done|apply A| |apply A]. cbn. by destruct (_stop w), h.
  - unfold connetDatabase in E. destruct (pc w) as [|h| | | |] eqn:Ep; try discriminate. destruct (negb (_connect w) && negb (_stop w)); [|discriminate]. injection E as <- <-.
    eapply at_thread; [done|done|apply A| |apply A]. cbn. by rewrite Ep.
  - unfold work_begin in E. destruct (pc w) as [|[t|]|t| | |] eqn:Ep; try discriminate.
    + destruct (_connect w || _stop w); [|discriminate]. injection E as <- <-. eapply at_thread; [done|done|apply A|done|apply A].
    + destruct (_connect w || _stop w); [|discriminate]. destruct (getTask (lane w) D) as [o D1] eqn:Eg. injection E as <- <-.
      apply at_getTask in Eg as [Ho A1]; [|done]. eapply at_thread; [exact A1|done|apply A1| |apply A1]. by destruct o.
    + injection E as <- <-. eapply at_thread; [done|done|apply A|done|apply A].
  - unfold work_query in E. destruct (pc w) as [| | |t| |] eqn:Ep; try discriminate.
    destruct (turn t o (_connect w)) as [[f p] c] eqn:Et. injection E as <- <-. inversion_clear Hp as [|? ? Ht _].
    destruct (Ha w t Hw Ep Ht _ _ _ _ Et) as [Hf Hpp].
    eapply at_thread; [exact A|by destruct f|intros n; destruct f; apply A|done|]. pose proof (at_finished _ A) as Hr. destruct f; [|done].
    cbn in Hf |- *. rewrite app_assoc. by apply Forall_app.
  - unfold work_next in E. destruct (pc w) as [| | | | |] eqn:Ep; try discriminate. destruct (getTask (lane w) D) as [o D1] eqn:Eg.
    injection E as <- <-. apply at_getTask in Eg as [Ho A1]; [|done]. eapply at_thread; [exact A1|done|apply A1| |apply A1]. by destruct o.
Qed.

Lemma at_new n k D : all_tasks D -> _tasks D !! n = None -> all_tasks (addThread n k D).
Proof.
  intros A Hn. split; [|intros i w|apply A].
  - intros m. unfold addThread. change (Forall P (queue m (set_tasks (<[n := []]> (_tasks D)) D))). rewrite queue_insert. case_decide; [done|apply A].
  - cbn. intros [Hw|[_ Hw]]%lookup_app_Some; [by eapply A|]. apply list_elem_of_lookup_2 in Hw. case_match.
    + by apply elem_of_replicate in Hw as [-> _].
    + by apply list_elem_of_singleton in Hw as ->.
Qed.
Lemma at_add n t D : all_tasks D -> P t -> all_tasks (addTask n t D).
Proof.
  intros A Ht. split; [|apply A|apply A]. intros m. unfold addTask. rewrite queue_insert. case_decide as E; [subst m|apply A].
  apply Forall_app. split; [apply A|by constructor].
Qed.
Lemma at_act a D log D' : act a D = Some (log, D') -> all_tasks D -> act_ok a D -> all_tasks D' /\ Forall F (given log).
Proof.
  intros E A Ha. destruct (of_thread a) as [i|] eqn:Hi.
  { split; [by eapply at_pick|]. destruct (act_moved a D log D' i E Hi) as (w & w' & fin & Hm). rewrite (mv_log _ _ _ _ _ _ _ Hm).
    destruct (fin_log (lane w) fin) as (_ & _ & _ & ->). done. }
  pose proof (at_finished _ A) as Hr.
  destruct a as [| | | | |f c sql n| | | | | |]; try discriminate Hi; cbn in E, Ha; clear Hi.
  - destruct (outside D); [|discriminate]. injection E as <- <-. split; [|by case_decide]. unfold add, addRealTask. case_decide; [|done].
    case_match; apply at_add; [done..| |done]. by apply at_new.
  - destruct (outside D); [|discriminate]. injection E as <- <-. split; [|done]. by destruct A.
  - destruct (main D) eqn:Em; try discriminate. injection E as <- <-. split; [|done]. unfold to_give in Hr. rewrite Em in Hr.
    unfold checkStop. repeat case_match; (split; [apply A|apply A|exact Hr]).
  - destruct (main D) as [|i| | |] eqn:Em; try discriminate. injection E as <- <-. split; [|done]. unfold to_give in Hr. rewrite Em in Hr.
    unfold checkStop_thread. destruct (_dbthread_list D !! i) as [w|] eqn:Hw; [|split; [apply A|apply A|exact Hr]].
    case_match; (split; [apply A| |exact Hr]); [|apply A]. cbn.
    intros j v [(<- & <- & _)|[_ Hv]]%list_lookup_insert_Some; [exact (at_hand _ A i w Hw)|exact (at_hand _ A j v Hv)].
  - destruct (main D) as [| |i| |] eqn:Em; try discriminate. unfold checkStop_join in E. destruct (_dbthread_list D !! i) as [w|]; [|discriminate].
    destruct (pc w); try discriminate. injection E as <- <-. split; [|done]. unfold to_give in Hr. rewrite Em in Hr. split; [apply A|apply A|exact Hr].
  - destruct (main D) eqn:Em; try discriminate. injection E as <- <-. split; [|done]. unfold to_give in Hr. rewrite Em in Hr.
    unfold take_results. case_match; (split; [apply A|apply A|]); cbn; [by rewrite app_nil_r|exact Hr].
  - destruct (main D) as [| | | |[|t tem]] eqn:Em; try discriminate; injection E as <- <-; unfold to_give in Hr; rewrite Em in Hr.
    + split; [|done]. split; [apply A|apply A|exact Hr].
    + cbn in Hr. inversion_clear Hr as [|? ? Ht Hr']. split; [split; [apply A|apply A|exact Hr']|by constructor].
Qed.
Lemma at_start thread_ : all_tasks (initDatabase thread_ new_database : Db).
Proof.
  assert (A : all_tasks (addThread _NORMAL_THREAD thread_ new_database)) by (apply at_new; [by split|done]). by destruct A.
Qed.
End Tasks.

(** ** A thread empties its lane *)

(** What a thread does with the tasks of its lane while MySQL answers [rs]. *)
Fixpoint drain (i : nat) (rs : list Result) : list (Act Callback Result) :=
  match rs with [] => [] | r :: rs => Query i (Ended r) :: Next i :: drain i rs end.
Definition work_through (i : nat) (rs : list Result) : list (Act Callback Result) := Enter i :: Work i :: Work i :: drain i rs.

Lemma drain_all i : forall rs D w t q, _dbthread_list D !! i = Some w -> pc w = Working t -> queue (lane w) D = q ->
  length rs = length (t :: q) -> Forall (fun t => known_store t = true) (t :: q) ->
  exists log D', acts (drain i rs) D = Some (log, D') /\ finished (lane w) log = map job (t :: q) /\ queue (lane w) D' = [] /\
    _dbthread_list D' !! i = Some (at_pc (Head None) w) /\ map state (_results D') = map state (_results D) ++ map (fun _ => _done_) (t :: q).
Proof.
  induction rs as [|r rs IH]; intros D w t q Hw Hp Hq Hl Hk; [done|]. inversion_clear Hk as [|? ? Hk1 Hk2].
  pose proof (lookup_lt_Some _ _ _ Hw) as Hlt.
  set (t' := with_state _done_ (with_result (Some r) t)).
  set (D1 := set_thread i (set_connect (_connect w) (at_pc Handed w)) (addDone t' D)).
  assert (E1 : act (Query i (Ended r)) D = Some ([Finished (lane w) t'], D1)).
  { cbn. unfold on_thread. rewrite Hw. cbn. unfold work_query. rewrite Hp. unfold turn. by rewrite Hk1. }
  assert (Hj : job t' = job t) by (unfold t', with_state, with_result; by case_match).
  destruct (getTask_moved D1 (lane w)) as (D2 & Eg & T1 & T2 & T3 & T4 & T5 & _).
  assert (Eq : queue (lane w) D1 = q) by exact Hq. rewrite Eq in Eg, T5.
  set (w2 := at_pc (match hd_error q with Some t => Working t | None => Head None end) w).
  assert (E2 : act (Next i) D1 = Some ([], set_thread i w2 D2)).
  { cbn. unfold on_thread. cbn. rewrite list_lookup_insert_eq by done. cbn. unfold work_next. cbn. by rewrite Eg. }
  assert (H2 : _dbthread_list (set_thread i w2 D2) !! i = Some w2).
  { cbn. rewrite T1. apply list_lookup_insert_eq. cbn. by rewrite length_insert. }
  cbn [drain acts]. rewrite E1. cbn [mbind option_bind]. rewrite E2. cbn [mbind option_bind].
  destruct q as [|t2 q].
  - destruct rs; [|done]. eexists _, _. split; [done|]. cbn. rewrite Z.eqb_refl, Hj. split_and!; try done.
    cbn in T4. by rewrite T4, map_app.
  - destruct (IH (set_thread i w2 D2) w2 t2 q H2 eq_refl T5) as (log & D' & E & F1 & F2 & F3 & F4); [by injection Hl|done|].
    rewrite E. eexists _, _. split; [done|]. cbn in F1 |- *. rewrite Z.eqb_refl, Hj. change (lane w2) with (lane w) in *.
    cbn in F4, T4. rewrite T4, map_app in F4. split_and!; [by f_equal|done|done|by rewrite F4, <- app_assoc].
Qed.
End Runs.

(** ** Properties *)


(** A connected thread that is not told to stop empties its lane: while
    MySQL answers, every waiting task is executed, successfully, in order. *)
Theorem thread_empties_lane {Callback Result : Type} (i : nat) (rs : list Result) (D : Database Callback Result) w :
  _dbthread_list D !! i = Some w -> pc w = Head None -> _connect w = true -> _stop w = false -> queue (lane w) D <> [] ->
  length rs = length (queue (lane w) D) -> Forall (fun t => known_store t = true) (queue (lane w) D) ->
  exists log D', acts (work_through i rs) D = Some (log, D') /\ finished (lane w) log = waiting (lane w) D /\ queue (lane w) D' = [] /\
    _dbthread_list D' !! i = Some w /\ map state (_results D') = map state (_results D) ++ map (fun _ => _done_) (queue (lane w) D).
Proof.
  intros Hw Hp Hc Hs Hq Hl Hk. pose proof (lookup_lt_Some _ _ _ Hw) as Hlt. destruct (queue (lane w) D) as [|t q] eqn:Eq; [done|].
  set (D1 := set_thread i (at_pc (Connecting None) w) D).
  set (D2 := set_thread i (at_pc (Popped t) w) (set_tasks (<[lane w := q]> (_tasks D1)) D1)).
  set (D3 := set_thread i (at_pc (Working t) w) D2).
  assert (H1 : _dbthread_list D1 !! i = Some (at_pc (Connecting None) w)) by (cbn; by rewrite list_lookup_insert_eq).
  assert (H2 : _dbthread_list D2 !! i = Some (at_pc (Popped t) w)) by (cbn; rewrite list_lookup_insert_eq; [done|by rewrite length_insert]).
  assert (H3 : _dbthread_list D3 !! i = Some (at_pc (Working t) w)) by (cbn; rewrite list_lookup_insert_eq; [done|by rewrite !length_insert]).
  assert (E1 : act (Enter i) D = Some ([], D1)) by (cbn; unfold on_thread; rewrite Hw; cbn; unfold enter; by rewrite Hp, Hs).
  assert (E2 : act (Work i) D1 = Some ([], D2)).
  { cbn -[D1]. unfold on_thread. rewrite H1. cbn -[D1]. unfold work_begin. cbn -[D1]. rewrite Hc. cbn -[D1].
    unfold getTask. change (queue (lane w) D1) with (queue (lane w) D). by rewrite Eq. }
  assert (E3 : act (Work i) D2 = Some ([], D3)) by (cbn -[D2]; unfold on_thread; by rewrite H2).
  destruct (drain_all i rs D3 (at_pc (Working t) w) t q H3 eq_refl) as (log & D' & E & F1 & F2 & F3 & F4); [|done..|].
  { etransitivity; [exact (queue_insert (lane w) (lane w) q D1)|]. by rewrite decide_True. }
  exists log, D'. unfold work_through. cbn [acts]. rewrite E1. cbn [mbind option_bind]. rewrite E2. cbn [mbind option_bind]. rewrite E3. cbn [mbind option_bind].
  rewrite E. split; [done|]. unfold waiting. rewrite Eq. split_and!; [exact F1|exact F2| |exact F4].
  rewrite F3. f_equal. destruct w as [n p c s]. cbn in *. by rewrite Hp.
Qed.

(** A save and a query of the same hero: lanes 3 and 1, threads 1 and 2; thread
    0 is the normal lane.  The query is answered before the save is done. *)
Definition sql_save : string := "replace into `character`".
Definition sql_query : string := "select * from `character`".
Definition thread_turn (i : nat) : list (Act string Z) := [Enter i; Work i; Work i; Query i (Ended 0); Next i].
Definition overtaking : list (Act string Z) :=
  [Add _STORE_QUERY_ "saved" sql_save 3; Add _STORE_QUERY_ "loaded" sql_query 1; Enter 1; Connect 1 true; Enter 2; Connect 2 true;
   Work 2; Work 2; Query 2 (Ended 7); Next 2; Work 1; Work 1; Query 1 (Ended 0); Next 1; Enter 0; Connect 0 true; Work 0].
Definition demo_database : Database string Z := initDatabase 1 new_database.
Definition stopping : list (Act string Z) :=
  [WaitStop; Run; Check; Enter 0; Join; Check; Enter 1; Join; Check; Enter 2; Join; Check; Take].
Definition after (l : list (Act string Z)) (D : Database string Z) : list (Log string Z) * Database string Z := default ([], D) (acts l D).

Definition demo_acts : list (Act string Z) := overtaking ++ [Run; Take; Give; Give; Give] ++ stopping.
Definition demo_log : list (Log string Z) := Eval vm_compute in (after demo_acts demo_database).1.
Definition demo_end : Database string Z := Eval vm_compute in (after demo_acts demo_database).2.
Lemma demo_run : acts demo_acts demo_database = Some (demo_log, demo_end).
Proof. vm_compute. reflexivity. Qed.


Example query_overtakes_save : let '(log, D) := after overtaking demo_database in
  map cb (_results D) = ["loaded"%string; "saved"%string].
Proof. vm_compute. reflexivity. Qed.

(** [getTask] has returned the task, [_task] is not set yet: the thread counts as
    done.  It is told to stop, and when the connection is lost in the query,
    the task is gone: no result, no callback. *)
Example task_lost_at_stop : let '(log, D) := after
  [Add _STORE_QUERY_ "saved" sql_save 3; Enter 0; Connect 0 true; Enter 1; Connect 1 true; Work 1; WaitStop;
   Run; Check; Work 0; Enter 0; Join; Check; Work 1; Query 1 (BadQuery 2013 None); Enter 1; Join; Check; Take] demo_database in
  _obj_state D = _stop_obj_ /\ length (added 3 log) = 1%nat /\ finished 3 log = [] /\ _results D = [].
Proof. vm_compute. split_and!; reflexivity. Qed.

(** Results that threads add while [checkStop] waits for them stay there. *)
Example results_left_at_stop : let '(log, D) := after
  [Add _STORE_QUERY_ "loaded" sql_query 1; Enter 0; Connect 0 true; Work 0; Enter 1; Connect 1 true; Work 1; Work 1; Query 1 (Ended 7); Next 1; WaitStop;
   Run; Check; Enter 0; Join; Check; Enter 1; Join; Check; Take; Run; Take] demo_database in
  _obj_state D = _stop_obj_ /\ given log = [] /\ length (_results D) = 1%nat.
Proof. vm_compute. split_and!; reflexivity. Qed.

Lemma thread_empties_lane_witness :
  let D := (after [Enter 0; Connect 0 true; Work 0; Add _STORE_QUERY_ "a" sql_save 0; Add _BATCH_QUERY_ "b" sql_save 0] demo_database).2 in
  exists log D', acts (work_through 0 [1; 2]) D = Some (log, D') /\ finished 0 log = waiting 0 D /\ queue 0 D' = [].
Proof.
  intros D. destruct (thread_empties_lane 0 [1; 2] D (mkThread 0 (Head None) true false)) as (log & D' & E & F & Q & _);
    [vm_compute; reflexivity..|vm_compute; discriminate|vm_compute; reflexivity|repeat constructor|]. by exists log, D'.
Defined.
