(* ===== verification/DbServer.v ===== *)
(** * databaseserver: hero queries and saves

    [GameSession] (game_session.cpp) takes the messages of the game servers,
    [GameManager] (game_manager.cpp) finds their sessions, [DBQuestManager]
    (db_quest.cpp) turns requests into tasks of the two databases (Database.v)
    and answers from the callbacks; server.cpp runs them.  The columns of the
    rows are read by HeroSave.v. *)
From stdpp Require Import gmap.
From S2P Require Import Prelude Text Config HeroSave Database.

Definition INVALID_GATE_ID : Z := 0.
Definition MAX_GATE_ID : Z := 255.
Definition _QUERY_HERO_INFO_ : Z := _NORMAL_THREAD + 1.
Definition _SAVE_HERO_INFO_ : Z := _NORMAL_THREAD + 3.
Definition _SAVE_RECORD_ : Z := _NORMAL_THREAD + 4.
Abbreviation GameId := positive.

Section DbServer.
Context {Row : Type} `{DBRow Row}.

(** [tgHeroData]; its [info] is in the second query's callback. *)
Record tgHeroData := mkHeroData { account : Z; tranid : Z; gsid : Z }.
Inductive Call := dbCallNothing | QueryHeroInfo (d : tgHeroData) | QueryHeroDeals (d : tgHeroData) (info : MsgHeroDataDB2GS).
Abbreviation Db := (Database Call (list Row)).

Record GameSession := mkGameSession { m_game_id : Z; connected : bool }.
Record DbServer := mkDbServer {
  chars : Db; records : Db; games : gmap GameId GameSession; m_Games : gmap Z GameId; _receive_cose_msg : bool; save_to_close : bool;
  _close_gs_id : Z
}.
Definition set_chars v S := mkDbServer v (records S) (games S) (m_Games S) (_receive_cose_msg S) (save_to_close S) (_close_gs_id S).
Definition set_records v S := mkDbServer (chars S) v (games S) (m_Games S) (_receive_cose_msg S) (save_to_close S) (_close_gs_id S).
Definition set_games v S := mkDbServer (chars S) (records S) v (m_Games S) (_receive_cose_msg S) (save_to_close S) (_close_gs_id S).
Definition set_Games v S := mkDbServer (chars S) (records S) (games S) v (_receive_cose_msg S) (save_to_close S) (_close_gs_id S).
Definition set_receive_cose v S := mkDbServer (chars S) (records S) (games S) (m_Games S) v (save_to_close S) (_close_gs_id S).
Definition set_save_to_close v S := mkDbServer (chars S) (records S) (games S) (m_Games S) (_receive_cose_msg S) v (_close_gs_id S).
Definition set_close_gs_id v S := mkDbServer (chars S) (records S) (games S) (m_Games S) (_receive_cose_msg S) (save_to_close S) v.

(** ** GameManager *)
Inductive Answer := MsgNeedCreateHeroDB2GS | MsgHeroData (info : MsgHeroDataDB2GS) | MsgSaveAllHeroesDB2GS.
Record Sent := mkSent { to : GameId; what : Answer; flag : Z }.
Definition valid_id (gs : Z) : bool := (INVALID_GATE_ID <? gs) && (gs <? MAX_GATE_ID).
Definition getGameClient (gs : Z) (S : DbServer) : option GameId := if valid_id gs then m_Games S !! gs else None.
Definition game (g : GameId) (S : DbServer) : GameSession := default (mkGameSession 0 false) (games S !! g).
Definition addGame (nId : Z) (g : GameId) (S : DbServer) : DbServer := if valid_id nId then set_Games (<[nId := g]> (m_Games S)) S else S.
Definition removeGame (g : GameId) (S : DbServer) : DbServer :=
  let nId := m_game_id (game g S) in
  if valid_id nId && bool_decide (m_Games S !! nId = Some g) then set_Games (delete nId (m_Games S)) S else S.
(** What is sent to a session that is not connected is dropped. *)
Definition sendPBMessage (m : Answer) (f : Z) (g : GameId) (S : DbServer) : list Sent := if connected (game g S) then [mkSent g m f] else [].
Definition sendMessage (m : Answer) (f gs : Z) (S : DbServer) : list Sent :=
  match getGameClient gs S with Some g => sendPBMessage m f g S | None => [] end.
Definition sendMsgToAll (m : Answer) (f : Z) (S : DbServer) : list Sent :=
  concat (map (fun i => match m_Games S !! Z.of_nat i with Some g => sendPBMessage m f g S | None => [] end) (seq 0 (Z.to_nat MAX_GATE_ID))).

(** ** DBQuestManager: requests *)
Definition hero_query (a : Z) : string := sprintf "select * ,UNIX_TIMESTAMP(`last_lottery_time`),UNIX_TIMESTAMP(`last_recover_spirit_time`),	 UNIX_TIMESTAMP(`last_buy_spirit_time`), UNIX_TIMESTAMP(`last_task_advertisement_time`), UNIX_TIMESTAMP(`daily_game_time`),	UNIX_TIMESTAMP(`daily_game_prize_time`), UNIX_TIMESTAMP(`last_daily_reset_game_time`) from `character` where `account_id`=%llu;" [AU a].
Definition deals_query (acc : Z) : string := sprintf "select * from `deal_wait_to_pay` where `account_id`=%llu and complete_status!=2" [AU acc].
Arguments hero_query : simpl never.
Arguments deals_query : simpl never.

(** What an event does besides changing the state: it asks for a hero, a task
    of a request is dropped by a service that is stopping, a request is
    answered, something else is sent, a session is to be closed.  [sent] is
    what really leaves. *)
Inductive Out := Asked (d : tgHeroData) | Dropped (d : tgHeroData) | Replied (d : tgHeroData) (m : Answer) (sent : list Sent) | Told (sent : list Sent) | Closing (g : GameId).

Definition running (D : Db) : bool := bool_decide (_obj_state D = _run_obj_).
Definition queryHeroInfo (a t gs : Z) (S : DbServer) : list Out * DbServer :=
  let d := mkHeroData a t gs in
  (Asked d :: (if running (chars S) then [] else [Dropped d]),
   set_chars (addSQueryTask (QueryHeroInfo d) (hero_query a) _QUERY_HERO_INFO_ (chars S)) S).
Definition saveSqlData (sql : string) (S : DbServer) : DbServer := set_chars (addSQueryTask dbCallNothing sql _SAVE_HERO_INFO_ (chars S)) S.
Definition saveSqlRecord (sql : string) (S : DbServer) : DbServer := set_records (addSQueryTask dbCallNothing sql _SAVE_RECORD_ (records S)) S.
Definition saveToClose (gsid : Z) (S : DbServer) : list Out * DbServer :=
  if _receive_cose_msg S then ([], S)
  else
    let S := if save_to_close S then S else set_save_to_close true (set_close_gs_id gsid S) in
    let S := set_receive_cose true S in
    ([Told (sendMessage MsgSaveAllHeroesDB2GS 0 gsid S)], S).
(** The event of [saveToClose], fifteen seconds later. *)
Definition onSaveToClose (S : DbServer) : DbServer :=
  set_records (setObjState _wait_stop_ (records S)) (set_chars (setObjState _wait_stop_ (chars S)) S).

(** ** DBQuestManager: callbacks *)
Definition reply (d : tgHeroData) (m : Answer) (S : DbServer) : list Out := [Replied d m (sendMessage m (tranid d) (gsid d) S)].
Definition found_hero (r : option (list Row)) : option MsgHeroDataDB2GS := rows ← r; dbDoQueryHeroInfo rows.
Definition with_deals (r : option (list Row)) (info : MsgHeroDataDB2GS) : MsgHeroDataDB2GS :=
  match r with Some rows => dbDoQueryHeroDeals rows info | None => info end.
Definition callback (c : Call) (r : option (list Row)) (s : bool) (S : DbServer) : list Out * DbServer :=
  match c with
  | dbCallNothing => ([], S)
  | QueryHeroInfo d =>
      match found_hero r with
      | Some info =>
          (if running (chars S) then [] else [Dropped d],
           set_chars (addSQueryTask (QueryHeroDeals d info) (deals_query (dbi_account info)) _QUERY_HERO_INFO_ (chars S)) S)
      | None => (reply d MsgNeedCreateHeroDB2GS S, S)
      end
  | QueryHeroDeals d info => (reply d (MsgHeroData (with_deals r info)) S, S)
  end.

(** ** GameSession *)
Definition on_accept (g : GameId) (S : DbServer) : DbServer := set_games (<[g := mkGameSession (m_game_id (game g S)) true]> (games S)) S.
(** A version that is too old closes the session ([close] only asks the network
    for it), and registers it all the same. *)
Definition parseGameRegister (g : GameId) (serverid : Z) (version : bool) (S : DbServer) : list Out * DbServer :=
  let id := u16 serverid in
  let S := set_games (<[g := mkGameSession id (connected (game g S))]> (games S)) S in
  (if version then [] else [Closing g], addGame id g S).
Definition parseMsgReqHeroDataGS2DB (g : GameId) (acc flag : Z) (S : DbServer) : list Out * DbServer := queryHeroInfo acc flag (m_game_id (game g S)) S.
Definition parseMsgSaveHeroData (sql : string) (S : DbServer) : DbServer := saveSqlData sql S.
Definition parseMsgSaveRecordGS2DB (sql : string) (S : DbServer) : DbServer := saveSqlRecord sql S.
Definition parseMsgSaveAllHeroesGS2DB (g : GameId) (S : DbServer) : list Out * DbServer := saveToClose (m_game_id (game g S)) S.
(** The network first marks the session ([tcp_session::_on_close]), and the main
    thread hears of it later. *)
Definition net_close (g : GameId) (S : DbServer) : DbServer := set_games (<[g := mkGameSession (m_game_id (game g S)) false]> (games S)) S.
Definition on_close (g : GameId) (S : DbServer) : DbServer := net_close g (removeGame g S).

(** ** DBServer *)
Inductive Event :=
  | Accept (g : GameId) | Register (g : GameId) (serverid : Z) (version : bool) | ReqHeroData (g : GameId) (acc flag : Z)
  | SaveData (sql : string) | SaveRecord (sql : string) | SaveAllHeroes (g : GameId) | NetClose (g : GameId) | Close (g : GameId) | SaveTimer
  | Chars (a : Act Call (list Row)) | Records (a : Act Call (list Row)) | CharsGive | RecordsGive.
(** The two databases by themselves: their threads, and [run] up to the callbacks. *)
Definition internal (a : Act Call (list Row)) : bool := match a with Add _ _ _ _ | WaitStop | Give => false | _ => true end.
(** Messages and timers are handled between two [run]s. *)
Definition idle (S : DbServer) : bool := match main (chars S), main (records S) with Outside, Outside => true | _, _ => false end.
Definition give (which : DbServer -> Db) (set : Db -> DbServer -> DbServer) (S : DbServer) : option (list Out * DbServer) :=
  '(log, D) ← act Give (which S);
  let S := set D S in
  Some (match log with
        | [Given t] => match execute t with Some (c, r, s) => callback c r s S | None => ([], S) end
        | _ => ([], S)
        end).
Definition step (ev : Event) (S : DbServer) : option (list Out * DbServer) :=
  let between (x : list Out * DbServer) := if idle S then Some x else None in
  match ev with
  | Accept g => between ([], on_accept g S)
  | Register g id v => between (parseGameRegister g id v S)
  | ReqHeroData g acc flag => between (parseMsgReqHeroDataGS2DB g acc flag S)
  | SaveData sql => between ([], parseMsgSaveHeroData sql S)
  | SaveRecord sql => between ([], parseMsgSaveRecordGS2DB sql S)
  | SaveAllHeroes g => between (parseMsgSaveAllHeroesGS2DB g S)
  | NetClose g => Some ([], net_close g S)
  | Close g => between ([], on_close g S)
  | SaveTimer => if save_to_close S then between ([], set_save_to_close false (onSaveToClose S)) else None
  | Chars a => if internal a then '(_, D) ← act a (chars S); Some ([], set_chars D S) else None
  | Records a => if internal a then '(_, D) ← act a (records S); Some ([], set_records D S) else None
  | CharsGive => give chars set_chars S
  | RecordsGive => give records set_records S
  end.
Fixpoint steps (l : list Event) (S : DbServer) : option (list Out * DbServer) :=
  match l with
  | [] => Some ([], S)
  | ev :: l => '(o, S) ← step ev S; '(o', S) ← steps l S; Some (o ++ o', S)
  end.

(** [initDataFromDatabase]: both databases, with the configured numbers of
    threads. *)
Definition start (chars_threads records_threads : nat) : DbServer :=
  mkDbServer (initDatabase chars_threads new_database) (initDatabase records_threads new_database) ∅ ∅ false false 0.
(** [DBServer::checkStop]. *)
Definition checkStop (S : DbServer) : bool := bool_decide (_obj_state (chars S) = _stop_obj_) && bool_decide (_obj_state (records S) = _stop_obj_).

(** ** Requests and answers *)
Definition request_of (c : Call) : option tgHeroData := match c with QueryHeroInfo d | QueryHeroDeals d _ => Some d | dbCallNothing => None end.
Definition asked (o : list Out) : list tgHeroData := omap (fun x => match x with Asked d => Some d | _ => None end) o.
Definition dropped (o : list Out) : list tgHeroData := omap (fun x => match x with Dropped d => Some d | _ => None end) o.
Definition replied (o : list Out) : list tgHeroData := omap (fun x => match x with Replied d _ _ => Some d | _ => None end) o.

Abbreviation Logs := (list (Log Call (list Row))).
Definition job_request (j : Call * string * Z) : option tgHeroData := request_of j.1.1.
Definition requests (l : list (DBTask Call (list Row))) : list tgHeroData := omap job_request (map job l).
(** Requests whose task is in the lane, with its thread, or finished. *)
Definition pending (S : DbServer) : list tgHeroData :=
  requests (to_give (chars S) ++ _results (chars S)) ++ omap job_request (held _QUERY_HERO_INFO_ (chars S) ++ waiting _QUERY_HERO_INFO_ (chars S)).

(** ** What MySQL answers

    [Q sql rows]: [rows] are a result of the query [sql].  In a [strict] run no
    query fails. *)
Section Answers.
#[local] Opaque hero_query deals_query.
Variables (Q : string -> list Row -> Prop) (strict : Prop).
Abbreviation Task := (DBTask Call (list Row)).
Definition answer (o : Outcome (list Row)) : option (list Row) :=
  match o with Ended r => Some r | BadQuery _ r | BadConversion r | MysqlException r | OtherException r => r | Disconnected => None end.
Definition outcome_ok (t : Task) (o : Outcome (list Row)) : Prop :=
  (forall r, answer o = Some r -> Q (str t) r) /\ (strict -> exists r, o = Ended r).
Definition event_ok (ev : Event) (S : DbServer) : Prop :=
  match ev with
  | Chars (Query i o) => forall w t, _dbthread_list (chars S) !! i = Some w -> pc w = Working t -> outcome_ok t o
  | _ => True
  end.
Inductive runs (ct rt : nat) : list Out -> DbServer -> Prop :=
  | runs_start : runs ct rt [] (start ct rt)
  | runs_step o S ev o' S' : runs ct rt o S -> event_ok ev S -> step ev S = Some (o', S') -> runs ct rt (o ++ o') S'.

(** A request is answered from the rows of its own queries, to one session at
    most and with the request's flag. *)
Definition answer_ok (d : tgHeroData) (m : Answer) : Prop :=
  match m with
  | MsgNeedCreateHeroDB2GS => strict -> exists rows, Q (hero_query (account d)) rows /\ dbDoQueryHeroInfo rows = None
  | MsgHeroData info' => exists rows info, Q (hero_query (account d)) rows /\ dbDoQueryHeroInfo rows = Some info /\
      ((info' = info /\ ~ strict) \/ exists deals, Q (deals_query (dbi_account info)) deals /\ info' = dbDoQueryHeroDeals deals info)
  | MsgSaveAllHeroesDB2GS => False
  end.
Definition reply_ok (o : Out) : Prop :=
  match o with
  | Replied d m sent => answer_ok d m /\ Forall (fun s => what s = m /\ flag s = tranid d) sent /\ (length sent <= 1)%nat
  | _ => True
  end.

(** The tasks of [chars]: the text of each query, and where the second query of
    a request comes from. *)
Definition task_ok (t : Task) : Prop :=
  store t = _STORE_QUERY_ /\ (forall r, result t = Some r -> Q (str t) r) /\
  match cb t with
  | dbCallNothing => True
  | QueryHeroInfo d => str t = hero_query (account d)
  | QueryHeroDeals d info => str t = deals_query (dbi_account info) /\
      exists rows, Q (hero_query (account d)) rows /\ dbDoQueryHeroInfo rows = Some info
  end.
Definition finished_ok (t : Task) : Prop := task_ok t /\ (strict -> is_Some (result t)).
Definition lane_ok (e : Log Call (list Row)) : Prop := match e with Added n t => request_of (cb t) <> None -> n = _QUERY_HERO_INFO_ | _ => True end.

Record server_ok (log : Logs) (o : list Out) (S : DbServer) : Prop := {
  so_chars : ok log (chars S);
  so_lanes : Forall lane_ok log;
  so_tasks : all_tasks task_ok finished_ok (chars S);
  so_replies : Forall reply_ok o;
  so_count : asked o ++ requests (given log) ≡ₚ replied o ++ dropped o ++ omap job_request (added _QUERY_HERO_INFO_ log)
}.

Lemma result_ok t r st : task_ok t -> (forall x, r = Some x -> Q (str t) x) -> task_ok (with_state st (with_result r t)).
Proof.
  intros (Hs & Hr & Hc) H0. unfold with_result. rewrite Hs. cbn. split; [done|]. split; [|done]. cbn. destruct r; [|done]. intros x [= <-]. by apply H0.
Qed.
Lemma result_ok' t r : task_ok t -> (forall x, r = Some x -> Q (str t) x) -> task_ok (with_result r t).
Proof. intros H1 H2. pose proof (result_ok t r (state t) H1 H2) as H3. by destruct (with_result r t). Qed.
Lemma outcome_turn t o : task_ok t -> outcome_ok t o -> turn_ok task_ok finished_ok t o.
Proof.
  intros Ht [Ho Hs] c fin p c'. assert (Hk : known_store t = true) by (unfold known_store; by rewrite (proj1 Ht)).
  assert (Hbad : forall r, (forall x, r = Some x -> Q (str t) x) -> (forall r, o <> Ended r) -> finished_ok (with_state _error_ (with_result r t))).
  { intros r Hr Hn. split; [by apply result_ok|]. intros [r' ->]%Hs. by destruct (Hn r'). }
  unfold turn. rewrite Hk. cbn. destruct o as [|r|n r|r|r|r]; cbn in Ho.
  - intros [= <- <- <-]. split; [done|by constructor].
  - intros [= <- <- <-]. split; [|done]. constructor; [|done]. split; [by apply result_ok|]. intros _. unfold with_result. rewrite (proj1 Ht). by eexists.
  - destruct (lost_connection n); intros [= <- <- <-]; [split; [done|]; constructor; [by apply result_ok'|done]|].
    split; [|done]. constructor; [by apply Hbad|done].
  - intros [= <- <- <-]. split; [|done]. constructor; [by apply Hbad|done].
  - intros [= <- <- <-]. split; [|done]. constructor; [by apply Hbad|done].
  - intros [= <- <- <-]. split; [done|]. constructor; [by apply result_ok'|done].
Qed.

Lemma asked_outs_app a b : asked (a ++ b) = asked a ++ asked b.
Proof. apply omap_app. Qed.
Lemma dropped_app a b : dropped (a ++ b) = dropped a ++ dropped b.
Proof. apply omap_app. Qed.
Lemma replied_app a b : replied (a ++ b) = replied a ++ replied b.
Proof. apply omap_app. Qed.
Lemma requests_app a b : requests (a ++ b) = requests a ++ requests b.
Proof. unfold requests. by rewrite map_app, omap_app. Qed.

Definition balanced (log : Logs) (o : list Out) : Prop :=
  asked o ++ requests (given log) ≡ₚ replied o ++ dropped o ++ omap job_request (added _QUERY_HERO_INFO_ log).
Lemma balanced_nil : balanced [] [].
Proof. unfold balanced. by cbn. Qed.
Lemma balanced_app log log' o o' : balanced log o -> balanced log' o' -> balanced (log ++ log') (o ++ o').
Proof.
  unfold balanced. rewrite asked_outs_app, dropped_app, replied_app, given_app, added_app, requests_app, omap_app. intros H1 H2.
  transitivity ((asked o ++ requests (given log)) ++ (asked o' ++ requests (given log'))); [solve_Permutation|].
  rewrite H1, H2. solve_Permutation.
Qed.

Lemma grow log o S log' o' S' : server_ok log o S -> ok (log ++ log') (chars S') -> all_tasks task_ok finished_ok (chars S') ->
  Forall lane_ok log' -> Forall reply_ok o' -> balanced log' o' -> server_ok (log ++ log') (o ++ o') S'.
Proof.
  intros [H1 H2 H3 H4 H5] K A Hl Hr Hb. split; [done|by apply Forall_app|done|by apply Forall_app|by apply balanced_app].
Qed.
Lemma keep log o S o' S' : server_ok log o S -> chars S' = chars S -> Forall reply_ok o' -> balanced [] o' -> server_ok log (o ++ o') S'.
Proof. intros Hs E Hr Hb. rewrite <- (app_nil_r log). eapply grow; rewrite ?app_nil_r, ?E; [done|apply Hs..|done|done|done]. Qed.

Lemma sent_keeps log o S o' S' : server_ok log o S -> chars S' = chars S -> Forall (fun x => match x with Told _ | Closing _ => True | _ => False end) o' ->
  server_ok log (o ++ o') S'.
Proof.
  intros Hs E Ho. apply (keep _ _ S); [done|done|by eapply Forall_impl; [exact Ho|]; intros []|].
  assert (Hz : asked o' = [] /\ replied o' = [] /\ dropped o' = []) by (induction Ho as [|[] l ? _ IH]; done).
  unfold balanced. by destruct Hz as (-> & -> & ->).
Qed.

(** A task is added outside of [run], or by a callback. *)
Lemma add_ok D f c sql n : outside D = true ->
  act (Add f c sql n) D = Some (if running D then [Added n (new_task c sql f)] else [], add f c sql n D).
Proof. intros Ho. cbn. rewrite Ho. unfold running. by case_bool_decide as E; case_decide. Qed.

Lemma internal_log a (D D' : Db) log : internal a = true -> act a D = Some (log, D') ->
  Forall (fun e : Log Call (list Row) => match e with Finished _ _ => True | _ => False end) log.
Proof.
  intros Hi E. destruct (of_thread a) as [i|] eqn:Ht.
  { destruct (act_moved a D log D' i E Ht) as (w & w' & fin & Hm). rewrite (mv_log _ _ _ _ _ _ _ Hm). by apply Forall_fmap, Forall_true. }
  destruct a; try discriminate Hi; try discriminate Ht; cbn in E.
  - destruct (main D); try discriminate. by injection E as <- <-.
  - destruct (main D); try discriminate. by injection E as <- <-.
  - destruct (main D); try discriminate. destruct (checkStop_join i D); [|discriminate]. by injection E as <- <-.
  - destruct (main D); try discriminate. by injection E as <- <-.
Qed.
Lemma finished_only (log : Logs) : Forall (fun e : Log Call (list Row) => match e with Finished _ _ => True | _ => False end) log ->
  given log = [] /\ (forall n, added n log = []) /\ Forall lane_ok log.
Proof. induction 1 as [|[] log He _ (I1 & I2 & I3)]; [done| |by split_and!; [| |constructor]|]; done. Qed.

Lemma adds_task log o S S' pre o' c sql n : server_ok log o S -> outside (chars S') = true ->
  ok (log ++ pre) (chars S') -> all_tasks task_ok finished_ok (chars S') -> Forall lane_ok pre ->
  task_ok (new_task c sql _STORE_QUERY_) -> (request_of c <> None -> n = _QUERY_HERO_INFO_) -> Forall reply_ok o' ->
  (forall log', log' = pre ++ (if running (chars S') then [Added n (new_task c sql _STORE_QUERY_)] else []) -> balanced log' o') ->
  exists log', server_ok (log ++ log') (o ++ o') (set_chars (addSQueryTask c sql n (chars S')) S').
Proof.
  intros Hs Ho K A Hp Ht Hn Hr Hb. eexists. pose proof (add_ok (chars S') _STORE_QUERY_ c sql n Ho) as E.
  eapply (grow _ _ _ _ _ _ Hs); [| | |done|by apply Hb].
  - rewrite app_assoc. exact (ok_act _ _ _ _ _ E K).
  - exact (proj1 (at_act _ _ _ _ _ _ E A Ht)).
  - apply Forall_app. split; [done|]. destruct (running _); by repeat constructor.
Qed.

Lemma idle_outside S : idle S = true -> outside (chars S) = true.
Proof. unfold idle, outside. by destruct (main (chars S)). Qed.

Lemma replied_ok d m S : answer_ok d m -> Forall reply_ok (reply d m S).
Proof.
  intros Ha. constructor; [|done]. split; [done|]. unfold sendMessage, sendPBMessage. destruct (getGameClient _ _); [|by split; [|cbn; lia]].
  case_match; [|by split; [|cbn; lia]]. split; [by repeat constructor|cbn; lia].
Qed.

Lemma give_ok log o S o' S' : server_ok log o S -> give chars set_chars S = Some (o', S') -> exists log', server_ok (log ++ log') (o ++ o') S'.
Proof.
  intros Hs E. unfold give in E. destruct (act Give (chars S)) as [[l D]|] eqn:Ea; [|discriminate]. cbn [mbind option_bind] in E.
  pose proof (ok_act _ _ _ _ _ Ea (so_chars _ _ _ Hs)) as K. destruct (at_act _ _ _ _ _ _ Ea (so_tasks _ _ _ Hs) I) as [A Hf].
  cbn in Ea. destruct (main (chars S)) as [| | | |[|t tem]] eqn:Em; try discriminate; injection Ea as <- <-.
  { injection E as <- <-. exists []. apply (grow _ _ _ _ _ _ Hs); [exact K|exact A|done|done|apply balanced_nil]. }
  cbn in Hf. inversion_clear Hf as [|? ? [(Ht1 & Ht2 & Ht3) Ht4] _]. cbn [set_chars chars] in E.
  unfold execute, known_store in E. rewrite Ht1 in E. cbn in E.
  assert (Ho : outside (set_main (Handling tem) (chars S)) = true) by done.
  unfold callback in E. destruct (cb t) as [|d|d info] eqn:Ec.
  - injection E as <- <-. exists [Given t]. apply (grow _ _ _ _ _ _ Hs); [done..|by repeat constructor|done|].
    unfold balanced, requests, job_request. cbn. by rewrite Ec.
  - unfold found_hero in E. destruct (result t) as [rows|] eqn:Er; cbn in E; [destruct (dbDoQueryHeroInfo rows) as [info|] eqn:Ei|].
    + injection E as <- <-.
      eapply (adds_task _ _ _ (set_chars (set_main (Handling tem) (chars S)) S) [Given t] _ _ _ _ Hs); [done..|by repeat constructor| |done| |].
      * split; [exact eq_refl|]. split; [intros ? [=]|]. split; [exact eq_refl|]. exists rows. rewrite <- Ht3. split; [apply Ht2, eq_refl|exact Ei].
      * cbn. by destruct (running _); repeat constructor.
      * intros ? ->. unfold balanced, requests, job_request. cbn. rewrite Ec. cbn. destruct (running _); by cbn.
    + injection E as <- <-. exists [Given t]. apply (grow _ _ _ _ _ _ Hs); [done..|by repeat constructor| |].
      * apply replied_ok. intros _. exists rows. rewrite <- Ht3. split; [apply Ht2, eq_refl|done].
      * unfold balanced, requests, job_request. cbn. by rewrite Ec.
    + injection E as <- <-. exists [Given t]. apply (grow _ _ _ _ _ _ Hs); [done..|by repeat constructor| |].
      * apply replied_ok. intros Hstrict. by destruct (Ht4 Hstrict).
      * unfold balanced, requests, job_request. cbn. by rewrite Ec.
  - injection E as <- <-. exists [Given t]. apply (grow _ _ _ _ _ _ Hs); [done..|by repeat constructor| |].
    + apply replied_ok. destruct Ht3 as (Eq & rows & Hq & Hi). exists rows, info. split; [done|]. split; [done|].
      destruct (result t) as [deals|] eqn:Er; [right; exists deals|left]; cbn.
      * rewrite <- Eq. split; [by apply Ht2|done].
      * split; [done|]. intros Hstrict. by destruct (Ht4 Hstrict).
    + unfold balanced, requests, job_request. cbn. by rewrite Ec.
Qed.

(** The database of records only gets tasks without an answer. *)
Definition silent (t : Task) : Prop := cb t = dbCallNothing.
Definition records_ok (S : DbServer) : Prop := all_tasks silent silent (records S).
Lemma silent_turn t o : silent t -> turn_ok silent silent t o.
Proof.
  intros Ht c fin p c' E. apply turn_job in E. unfold silent in *. destruct fin as [t'|]; cbn in *; destruct (in_hand p) as [|t1 [|t2 l]] eqn:Ep; try discriminate E.
  - injection E as E _ _. split; [|done]. constructor; [congruence|done].
  - injection E as E _ _. split; [done|]. constructor; [congruence|done].
Qed.
Lemma records_step S ev o S' : step ev S = Some (o, S') -> records_ok S -> records_ok S'.
Proof.
  intros E A.
  assert (Hact : forall a l D, act a (records S) = Some (l, D) -> act_ok silent silent a (records S) -> all_tasks silent silent D).
  { intros a l D Ea Ha. exact (proj1 (at_act _ _ _ _ _ _ Ea A Ha)). }
  destruct ev as [g|g id v|g acc flag|sql|sql|g|g|g| |a|a| |]; cbn [step] in E; try (destruct (idle S) eqn:Hi; [|discriminate]).
  - by injection E as <- <-.
  - unfold parseGameRegister, addGame in E. injection E as <- <-. by case_match.
  - by injection E as <- <-.
  - by injection E as <- <-.
  - injection E as <- <-. assert (Ho : outside (records S) = true) by (unfold idle, outside in *; by destruct (main (chars S)), (main (records S))).
    exact (Hact _ _ _ (add_ok _ _ dbCallNothing sql _SAVE_RECORD_ Ho) eq_refl).
  - unfold parseMsgSaveAllHeroesGS2DB, saveToClose in E. injection E as E. repeat case_match; by injection E as <- <-.
  - by injection E as <- <-.
  - injection E as <- <-. unfold on_close, removeGame. by case_match.
  - destruct (save_to_close S); [|discriminate]. destruct (idle S); [|discriminate]. injection E as <- <-. unfold records_ok. by destruct A.
  - destruct (internal a); [|discriminate]. destruct (act a (chars S)) as [[l D]|]; [|discriminate]. by injection E as <- <-.
  - destruct (internal a) eqn:Hin; [|discriminate]. destruct (act a (records S)) as [[l D]|] eqn:Ea; [|discriminate]. injection E as <- <-.
    apply (Hact _ _ _ Ea). destruct a; try discriminate Hin; try exact I. intros w t _ _ Ht. by apply silent_turn.
  - unfold give in E. destruct (act Give (chars S)) as [[l D]|]; [|discriminate]. injection E as E.
    repeat case_match; simplify_eq; unfold callback in *; repeat case_match; by simplify_eq.
  - unfold give in E. destruct (act Give (records S)) as [[l D]|] eqn:Ea; [|discriminate]. injection E as E.
    pose proof (Hact _ _ _ Ea I) as A1. repeat case_match; simplify_eq; unfold callback in *; repeat case_match; by simplify_eq.
Qed.

Lemma step_ok log o S ev o' S' : server_ok log o S -> records_ok S -> event_ok ev S -> step ev S = Some (o', S') -> exists log', server_ok (log ++ log') (o ++ o') S'.
Proof.
  intros Hs Hr He E.
  assert (Hsame : forall o1 S1, chars S1 = chars S -> Forall (fun x => match x with Told _ | Closing _ => True | _ => False end) o1 ->
    exists log', server_ok (log ++ log') (o ++ o1) S1).
  { intros o1 S1 Ec Ho. exists []. rewrite app_nil_r. by apply (sent_keeps _ _ S). }
  destruct ev as [g|g id v|g acc flag|sql|sql|g|g|g| |a|a| |]; cbn [step] in E; try (destruct (idle S) eqn:Hi; [|discriminate]; apply idle_outside in Hi).
  - injection E as <- <-. by apply Hsame.
  - unfold parseGameRegister, addGame in E. injection E as <- <-. apply Hsame; [by case_match|by destruct v; repeat constructor].
  - injection E as <- <-. eapply (adds_task log o S S [] _ (QueryHeroInfo (mkHeroData acc flag (m_game_id (game g S))))); [done|done| |apply Hs|done| |done| |].
    + rewrite app_nil_r. apply Hs.
    + split; [exact eq_refl|]. split; [intros ? [=]|exact eq_refl].
    + destruct (running _); by repeat constructor.
    + intros ? ->. unfold balanced. cbn. by destruct (running _).
  - injection E as <- <-. eapply (adds_task log o S S [] []); [done|done| |apply Hs|done| |done|done|].
    + rewrite app_nil_r. apply Hs.
    + split; [exact eq_refl|]. split; [intros ? [=]|exact I].
    + intros ? ->. destruct (running _); apply balanced_nil.
  - injection E as <- <-. by apply Hsame.
  - unfold parseMsgSaveAllHeroesGS2DB, saveToClose in E. injection E as E. destruct (_receive_cose_msg S); injection E as <- <-;
      (apply Hsame; [by repeat case_match|by repeat constructor]).
  - injection E as <- <-. by apply Hsame.
  - injection E as <- <-. apply Hsame; [|done]. unfold on_close, removeGame. by case_match.
  - destruct (save_to_close S); [|discriminate]. destruct (idle S) eqn:Hi; [|discriminate]. apply idle_outside in Hi. injection E as <- <-.
    assert (Ew : act WaitStop (chars S) = Some ([], setObjState _wait_stop_ (chars S))) by (cbn; by rewrite Hi).
    exists []. apply (grow _ _ _ _ _ _ Hs); [|exact (proj1 (at_act _ _ _ _ _ _ Ew (so_tasks _ _ _ Hs) I))|done|done|apply balanced_nil].
    exact (ok_act _ _ _ _ _ Ew (so_chars _ _ _ Hs)).
  - destruct (internal a) eqn:Hin; [|discriminate]. destruct (act a (chars S)) as [[l D]|] eqn:Ea; [|discriminate]. injection E as <- <-.
    assert (Ha : act_ok task_ok finished_ok a (chars S)).
    { destruct a; try discriminate Hin; try exact I. intros w t Hw Hp Ht. apply outcome_turn; [done|]. by apply (He w t). }
    destruct (finished_only l) as (G1 & G2 & G3); [by eapply internal_log|].
    exists l. apply (grow _ _ _ _ _ _ Hs); [exact (ok_act _ _ _ _ _ Ea (so_chars _ _ _ Hs))| |done|done|].
    + exact (proj1 (at_act _ _ _ _ _ _ Ea (so_tasks _ _ _ Hs) Ha)).
    + unfold balanced. by rewrite G1, G2.
  - destruct (internal a) eqn:Hin; [|discriminate]. destruct (act a (records S)) as [[l D]|] eqn:Ea; [|discriminate]. injection E as <- <-. by apply Hsame.
  - by eapply give_ok.
  - unfold give in E. destruct (act Give (records S)) as [[l D]|] eqn:Ea; [|discriminate]. injection E as E.
    pose proof (proj2 (at_act _ _ _ _ _ _ Ea Hr I)) as Hl. destruct l as [|[| |t] [|]]; try (injection E as <- <-; by apply Hsame).
    cbn in Hl. inversion_clear Hl as [|? ? Ht _]. unfold execute in E. destruct (known_store t); [|injection E as <- <-; by apply Hsame].
    rewrite Ht in E. injection E as <- <-. by apply Hsame.
Qed.

Lemma runs_ok ct rt o S : runs ct rt o S -> records_ok S /\ exists log, server_ok log o S.
Proof.
  induction 1 as [|o S ev o' S' _ [Hr (log & Hs)] He E].
  - split; [apply at_start|]. exists []. split; [apply ok_start|done|apply at_start|done|apply balanced_nil].
  - split; [by eapply records_step|]. destruct (step_ok _ _ _ _ _ _ Hs Hr He E) as (log' & Hs'). by exists (log ++ log').
Qed.

(** Every request in a lane is in the lane of the requests. *)
Lemma finished_requests log D : ok log D -> Forall lane_ok log -> omap job_request (finished _QUERY_HERO_INFO_ log) = requests (all_finished log).
Proof.
  intros K Hl.
  assert (Hother : forall n t, Finished n t ∈ log -> n <> _QUERY_HERO_INFO_ -> job_request (job t) = None).
  { intros n t Hf Hn. destruct (job_request (job t)) as [d|] eqn:Ej; [|done]. destruct Hn.
    assert (Ha : job t ∈ added n log).
    { assert (Hin : job t ∈ finished n log ++ held n D ++ waiting n D).
      { apply elem_of_app. left. apply list_elem_of_omap. exists (Finished n t). by rewrite Z.eqb_refl. }
      pose proof (ok_lanes _ _ K n) as Hs. unfold same in Hs. case_match; [by rewrite Hs|by rewrite Hs]. }
    apply list_elem_of_omap in Ha as ([m u0|m u0|u0] & H0 & E0); try discriminate E0. destruct (Z.eqb_spec m n) as [->|]; [|discriminate].
    assert (E1 : job u0 = job t) by congruence. rewrite <- E1 in Ej. change (request_of (cb u0) = Some d) in Ej.
    rewrite Forall_forall in Hl. apply (Hl _ H0). by rewrite Ej. }
  clear K Hl. induction log as [|e log IH]; [done|]. change (e :: log) with ([e] ++ log). rewrite finished_app, all_finished_app, omap_app, requests_app.
  rewrite IH by (intros; eapply Hother; [by right|done]). f_equal. destruct e as [|n t|]; try done.
  specialize (Hother n t ltac:(left)). cbn. destruct (Z.eqb_spec n _QUERY_HERO_INFO_); cbn; [done|]. unfold requests. cbn. by rewrite Hother.
Qed.

Lemma act_running a (D D' : Db) log : act a D = Some (log, D') -> running D' = true -> running D = true.
Proof.
  intros E Hr. destruct (of_thread a) as [i|] eqn:Ht.
  { destruct (act_moved a D log D' i E Ht) as (w & w' & fin & Hm). unfold running in *. by rewrite (mv_state _ _ _ _ _ _ _ Hm) in Hr. }
  destruct a as [| | | | |f c sql n| | | | | |]; try discriminate Ht; cbn in E.
  - destruct (outside D); [|discriminate]. injection E as <- <-. unfold add, addRealTask in Hr. repeat case_match; done.
  - destruct (outside D); [|discriminate]. by injection E as <- <-.
  - destruct (main D); try discriminate. injection E as <- <-. unfold Database.checkStop in Hr. repeat case_match; done.
  - destruct (main D); try discriminate. injection E as <- <-. unfold checkStop_thread in Hr. repeat case_match; done.
  - destruct (main D); try discriminate. unfold checkStop_join in E. repeat case_match; simplify_eq; try done.
    cbn in *. by simplify_eq.
  - destruct (main D); try discriminate. injection E as <- <-. unfold take_results in Hr. repeat case_match; done.
  - destruct (main D) as [| | | |[|]]; try discriminate; by injection E as <- <-.
Qed.

Lemma step_running ev S o S' : step ev S = Some (o, S') -> running (chars S') = true -> running (chars S) = true /\ dropped o = [].
Proof.
  intros E Hr. destruct ev as [g|g id v|g acc flag|sql|sql|g|g|g| |a|a| |]; cbn [step] in E; try (destruct (idle S) eqn:Hi; [|discriminate]).
  - by injection E as <- <-.
  - unfold parseGameRegister, addGame in E. injection E as <- <-. split; [by case_match|by destruct v].
  - injection E as <- <-. pose proof (act_running _ _ _ _ (add_ok _ _STORE_QUERY_ _ _ _ (idle_outside S Hi)) Hr) as H1. split; [done|]. by rewrite H1.
  - injection E as <- <-. split; [|done]. exact (act_running _ _ _ _ (add_ok _ _STORE_QUERY_ _ _ _ (idle_outside S Hi)) Hr).
  - by injection E as <- <-.
  - unfold parseMsgSaveAllHeroesGS2DB, saveToClose in E. injection E as E. repeat case_match; by injection E as <- <-.
  - by injection E as <- <-.
  - injection E as <- <-. unfold on_close, removeGame in Hr. split; [by case_match|done].
  - destruct (save_to_close S); [|discriminate]. destruct (idle S); [|discriminate]. by injection E as <- <-.
  - destruct (internal a); [|discriminate]. destruct (act a (chars S)) as [[l D]|] eqn:Ea; [|discriminate]. injection E as <- <-.
    split; [|done]. by eapply act_running.
  - destruct (internal a); [|discriminate]. destruct (act a (records S)) as [[l D]|] eqn:Ea; [|discriminate]. by injection E as <- <-.
  - unfold give in E. destruct (act Give (chars S)) as [[l D]|] eqn:Ea; [|discriminate]. injection E as E.
    assert (HD : running D = true -> running (chars S) = true) by (by eapply act_running).
    cbn in Ea. destruct (main (chars S)) as [| | | |[|t tem]] eqn:Em; try discriminate; injection Ea as <- <-; [injection E as <- <-; by split; [apply HD|]|].
    destruct (execute t) as [[[c r] s]|]; [|injection E as <- <-; by split; [apply HD|]].
    unfold callback in E. destruct c as [|d|d info]; [injection E as <- <-; by split; [apply HD|]| |injection E as <- <-; by split; [apply HD|]].
    destruct (found_hero r) as [info|]; injection E as <- <-; [|by split; [apply HD|]].
    assert (H1 : running (set_main (Handling tem) (chars S)) = true) by exact (act_running _ _ _ _ (add_ok (set_main (Handling tem) (chars S)) _STORE_QUERY_ _ _ _ eq_refl) Hr).
    split; [by apply HD|]. cbn [set_chars chars]. by rewrite H1.
  - unfold give in E. destruct (act Give (records S)) as [[l D]|] eqn:Ea; [|discriminate]. injection E as E.
    cbn in Ea. destruct (main (records S)) as [| | | |[|t tem]] eqn:Em; try discriminate; injection Ea as <- <-; [by injection E as <- <-|].
    destruct (execute t) as [[[c r] s]|]; [|by injection E as <- <-].
    unfold callback in E. destruct c as [|d|d info]; [by injection E as <- <-| |by injection E as <- <-].
    destruct (found_hero r) as [info|]; injection E as <- <-; [|done].
    assert (H1 : running (chars S) = true).
    { unfold running in *. cbn in Hr. unfold addSQueryTask, add, addRealTask in Hr. by repeat case_match. }
    split; [done|]. cbn [set_records set_chars chars]. by rewrite H1.
Qed.

Lemma runs_running ct rt o S : runs ct rt o S -> running (chars S) = true -> dropped o = [].
Proof.
  induction 1 as [|o S ev o' S' _ IH _ E]; intros Hr; [done|]. destruct (step_running _ _ _ _ E Hr) as [H1 H2]. by rewrite dropped_app, H2, app_nil_r, IH.
Qed.

End Answers.

(** ** Properties *)

(** C8: every request for a hero is answered once, unless its task is still on
    its way or was dropped by a service that was told to stop; an answer with
    a hero is made of rows of that account's queries, a request to create the
    hero, if no query failed, follows from a query without a row; and the
    answer leaves to one session at most, with the request's flag. *)
Theorem hero_requests_answered (Q : string -> list Row -> Prop) (strict : Prop) ct rt o S :
  runs Q strict ct rt o S ->
  asked o ≡ₚ replied o ++ dropped o ++ pending S /\ Forall (reply_ok Q strict) o /\ (_obj_state (chars S) = _run_obj_ -> dropped o = []).
Proof.
  intros Hr. destruct (runs_ok _ _ _ _ _ _ Hr) as (_ & log & Hs). pose proof (so_count _ _ _ _ _ Hs) as Hc.
  split_and!; [|apply Hs|intros E; eapply runs_running; [done|]; unfold running; by rewrite E].
  pose proof (ok_lanes _ _ (so_chars _ _ _ _ _ Hs) _QUERY_HERO_INFO_) as Hl. unfold same in Hl. cbn [Z.eqb] in Hl.
  assert (Hq : (_QUERY_HERO_INFO_ =? _NORMAL_THREAD) = false) by done. rewrite Hq in Hl. rewrite Hl, omap_app in Hc.
  rewrite (finished_requests _ _ (so_chars _ _ _ _ _ Hs) (so_lanes _ _ _ _ _ Hs)), (ok_given _ _ (so_chars _ _ _ _ _ Hs)), requests_app in Hc.
  unfold pending. apply (Permutation_app_inv_r (requests (given log))). rewrite Hc. solve_Permutation.
Qed.
End DbServer.

Arguments DbServer : clear implicits.
Arguments Event : clear implicits.

(** A run whose query results are checked as it goes. *)
Section Checked.
Context {Row : Type} `{DBRow Row} (q : string -> list Row -> bool).
Definition event_okb (ev : Event Row) (S : DbServer Row) : bool :=
  match ev with
  | Chars (Query i o) =>
      match _dbthread_list (chars S) !! i with
      | Some w => match pc w, o with Working t, Ended r => q (str t) r | Working _, _ => false | _, _ => true end
      | None => true
      end
  | _ => true
  end.
Fixpoint check_run (l : list (Event Row)) (S : DbServer Row) : option (list Out * DbServer Row) :=
  match l with
  | [] => Some ([], S)
  | ev :: l => if event_okb ev S then '(o, S) ← step ev S; '(o', S) ← check_run l S; Some (o ++ o', S) else None
  end.
Lemma check_runs ct rt l : forall o S o' S', runs (fun sql r => q sql r = true) True ct rt o S -> check_run l S = Some (o', S') ->
  runs (fun sql r => q sql r = true) True ct rt (o ++ o') S'.
Proof.
  induction l as [|ev l IH]; intros o S o' S' Hr E; cbn in E; [injection E as <- <-; by rewrite app_nil_r|].
  destruct (event_okb ev S) eqn:Eb; [|discriminate]. destruct (step ev S) as [[o1 S1]|] eqn:E1; [|discriminate]. cbn in E.
  destruct (check_run l S1) as [[o2 S2]|] eqn:E2; [|discriminate]. injection E as <- <-. rewrite app_assoc. eapply IH; [|exact E2].
  eapply runs_step; [exact Hr| |exact E1]. destruct ev as [| | | | | | | | |a|a| |]; try exact I. destruct a; try exact I. intros w t Hw Hp.
  cbn in Eb. rewrite Hw, Hp in Eb. destruct o0 as [|rows| | | |]; try discriminate Eb. split; [by intros rows' [= <-]|by eexists].
Qed.
End Checked.

(** A game server asks for the heroes of accounts 42, which has a row, and 43;
    thread 1 is the lane of the queries. *)
Definition demo_rows (sql : string) (rows : list saved_row) : bool :=
  bool_decide (map (fun r => row_int r "account_id") rows = (if String.eqb sql (hero_query 42) then [42] else [])).
Definition demo_row : saved_row := [("account_id", AU 42); ("name", AS "bob"); ("gold", AD 7); ("record_his", AS "1,2;")]%string.
Definition to_main : list (Event saved_row) := [Chars Run; Chars Take].
Definition query_turn (i : nat) (rows : list saved_row) : list (Event saved_row) := [Chars (Query i (Ended rows)); Chars (Next i)].
Definition demo_dialogue : list (Event saved_row) :=
  [Accept 1; Register 1 3 true; ReqHeroData 1 42 100; ReqHeroData 1 43 101; Chars (Enter 1); Chars (Connect 1 true); Chars (Work 1); Chars (Work 1)]
  ++ query_turn 1 [demo_row] ++ query_turn 1 [] ++ to_main ++ [CharsGive; CharsGive; CharsGive; Chars (Enter 1); Chars (Work 1); Chars (Work 1)]
  ++ query_turn 1 [] ++ to_main ++ [CharsGive; CharsGive].
Definition demo_out : list Out := default [] (fst <$> check_run demo_rows demo_dialogue (start 1 1)).
Definition demo_state : DbServer saved_row := default (start 1 1) (snd <$> check_run demo_rows demo_dialogue (start 1 1)).
Lemma demo_dialogue_runs : check_run demo_rows demo_dialogue (start 1 1) = Some (demo_out, demo_state).
Proof. vm_compute. reflexivity. Qed.

Lemma hero_requests_answered_witness :
  replied demo_out = [mkHeroData 43 101 3; mkHeroData 42 100 3] /\
  asked demo_out ≡ₚ replied demo_out ++ dropped demo_out ++ pending demo_state /\ Forall (reply_ok (fun sql r => demo_rows sql r = true) True) demo_out.
Proof.
  split; [vm_compute; reflexivity|].
  destruct (hero_requests_answered (fun sql r => demo_rows sql r = true) True 1 1 demo_out demo_state
    (check_runs demo_rows 1 1 demo_dialogue [] (start 1 1) demo_out demo_state (runs_start _ _ 1 1) demo_dialogue_runs)) as (H1 & H2 & _).
  by split.
Defined.

(** A query that fails is answered like a query without a row, and the hero is created anew. *)
Definition failed_query : list (Event saved_row) :=
  [Accept 1; Register 1 3 true; ReqHeroData 1 42 100; Chars (Enter 1); Chars (Connect 1 true); Chars (Work 1); Chars (Work 1);
   Chars (Query 1 (BadQuery 1205 None))] ++ to_main ++ [CharsGive].
Example failed_query_creates : (fst <$> steps failed_query (start 1 1)) =
  Some [Asked (mkHeroData 42 100 3); Replied (mkHeroData 42 100 3) MsgNeedCreateHeroDB2GS [mkSent 1 MsgNeedCreateHeroDB2GS 100]].
Proof. vm_compute. reflexivity. Qed.

(** Once the service waits to stop, a request whose hero was found stays without
    an answer. *)
Example stopping_drops_request : (fun x => (dropped x.1, replied x.1)) <$>
  steps ([Accept 1; Register 1 3 true; ReqHeroData 1 42 100; SaveAllHeroes 1; SaveTimer; Chars (Enter 1); Chars (Connect 1 true); Chars (Work 1); Chars (Work 1)]
    ++ [Chars (Query 1 (Ended [demo_row])); Chars Run; Chars Check; Chars (Enter 0); Chars Join; Chars Check; Chars Take; CharsGive]) (start 1 1) = Some ([mkHeroData 42 100 3], []).
Proof. vm_compute. reflexivity. Qed.

(** A game server that registers under two numbers stays registered under the
    first after its session is closed. *)
Example old_number_stays : (fun x => m_Games x.2 !! 3) <$> steps [Accept 1; Register 1 3 true; Register 1 4 true; NetClose 1; Close 1] (start (Row := saved_row) 1 1)
  = Some (Some 1%positive).
Proof. vm_compute. reflexivity. Qed.
