(* ===== verification/Payments.v ===== *)
(** * common and gameserver: HTTP tasks, and payments through them

    [HttpManager] (HttpManager.cpp): tasks go through three queues, between
    the main thread and the one that executes them.  [CreateDealHttpTask] and
    [VerifyDealHttpTaskIOS] (GSHttpManager.cpp): what they ask the platform and
    what they make of its answers.  The answers, as jsoncpp reads them, are
    arguments. *)
From S2P Require Import Prelude StdMap Data Text Config Server HeroTask HeroDeal.

(** ** HttpManager *)
Section Queues.
Context {Task : Type} (executed : Task -> Task -> Prop).
Record HttpManager := mkHttpManager { _https : list Task; _execute_https : list Task; _complete_task : list Task }.
Definition addHttpTask (task : Task) (m : HttpManager) : HttpManager := mkHttpManager (_https m ++ [task]) (_execute_https m) (_complete_task m).

(** [update] takes the tasks under one lock and executes them under another;
    [results] are the tasks as execution leaves them.  [logicUpdate] takes the
    complete ones, and hands them to [logicExcute] in order. *)
Definition update_take (m : HttpManager) : HttpManager := mkHttpManager [] (_execute_https m ++ _https m) (_complete_task m).
Definition update_execute (results : list Task) (m : HttpManager) : HttpManager := mkHttpManager (_https m) [] (_complete_task m ++ results).
Definition logicUpdate (m : HttpManager) : HttpManager * list Task := (mkHttpManager (_https m) (_execute_https m) [], _complete_task m).

(** Runs of the two threads: the tasks added and the tasks handled. *)
Inductive http_runs : list Task -> list Task -> HttpManager -> Prop :=
  | http_runs_start : http_runs [] [] (mkHttpManager [] [] [])
  | http_runs_add added handled m t : http_runs added handled m -> http_runs (added ++ [t]) handled (addHttpTask t m)
  | http_runs_take added handled m : http_runs added handled m -> http_runs added handled (update_take m)
  | http_runs_execute added handled m results : http_runs added handled m -> Forall2 executed (_execute_https m) results ->
      http_runs added handled (update_execute results m)
  | http_runs_logic added handled m m' out : http_runs added handled m -> logicUpdate m = (m', out) -> http_runs added (handled ++ out) m'.

Lemma http_runs_fifo added handled m : http_runs added handled m ->
  exists begun, added = begun ++ _execute_https m ++ _https m /\ Forall2 executed begun (handled ++ _complete_task m).
Proof.
  induction 1 as [|added handled m t _ (begun & -> & H)|added handled m _ (begun & -> & H)|added handled m results _ (begun & -> & H) Hr|added handled m m' out _ (begun & -> & H) E].
  - by exists [].
  - exists begun. cbn. by rewrite <- !app_assoc.
  - exists begun. cbn. by rewrite app_nil_r.
  - exists (begun ++ _execute_https m). cbn. rewrite <- !app_assoc. split; [done|]. rewrite app_assoc. by apply Forall2_app.
  - injection E as <- <-. exists begun. cbn. by rewrite app_nil_r.
Qed.
End Queues.
Arguments HttpManager : clear implicits.

(** ** Answers of the platform *)
Record JsonValue := mkJsonValue { json_empty : bool; asInt : option Z; asString : option string }.
Definition null : JsonValue := mkJsonValue true (Some 0) (Some "").
(** Not JSON; JSON that is no object, whose members throw; an object. *)
Inductive Answer := NotJson | Throwing | Members (f : string -> JsonValue).
(** What [value] is after [reader.parse]; [None]: looking into it throws. *)
Definition parsed (a : Answer) : option (string -> JsonValue) :=
  match a with NotJson => Some (fun _ => null) | Throwing => None | Members f => Some f end.
Definition present (f : string -> JsonValue) (key : string) : bool := negb (json_empty (f key)).

Section Tasks.
(** [gGameConfig]'s url and title, [gHttpManager]'s channel and game id, and
    [Posts]. *)
Context (platform_url server_title : string) (http_channel game_id : Z) (Posts : string -> Answer).

(** ** CreateDealHttpTask *)
Record CreateDeal := mkCreateDeal {
  cd_acc : Z; cd_name : string; cd_key_code : string; cd_channel : Z;
  cd_secret_key : string; cd_call_back : string; cd_status : Z; cd_price : Z; cd_order_id : Z; cd_error : GameError
}.
Definition set_cd_error e t := mkCreateDeal (cd_acc t) (cd_name t) (cd_key_code t) (cd_channel t) (cd_secret_key t) (cd_call_back t) (cd_status t) (cd_price t) (cd_order_id t) e.
Definition set_cd_status v t := mkCreateDeal (cd_acc t) (cd_name t) (cd_key_code t) (cd_channel t) (cd_secret_key t) (cd_call_back t) v (cd_price t) (cd_order_id t) (cd_error t).
Definition set_cd_price v t := mkCreateDeal (cd_acc t) (cd_name t) (cd_key_code t) (cd_channel t) (cd_secret_key t) (cd_call_back t) (cd_status t) v (cd_order_id t) (cd_error t).
Definition set_cd_order_id v t := mkCreateDeal (cd_acc t) (cd_name t) (cd_key_code t) (cd_channel t) (cd_secret_key t) (cd_call_back t) (cd_status t) (cd_price t) v (cd_error t).
Definition set_cd_secret_key v t := mkCreateDeal (cd_acc t) (cd_name t) (cd_key_code t) (cd_channel t) v (cd_call_back t) (cd_status t) (cd_price t) (cd_order_id t) (cd_error t).
Definition set_cd_call_back v t := mkCreateDeal (cd_acc t) (cd_name t) (cd_key_code t) (cd_channel t) (cd_secret_key t) v (cd_status t) (cd_price t) (cd_order_id t) (cd_error t).
(** [junk]: status, price and order id are not initialised. *)
Definition create_init (acc : Z) (name key_code : string) (channel : Z) (junk : Z * Z * Z) : CreateDeal :=
  mkCreateDeal acc name key_code channel "" "" junk.1.1 junk.1.2 junk.2 Error_NO.
Definition preorder_url (t : CreateDeal) : string :=
  sprintf "%s/paycallback/index.php?action=third_preorder&channel_id=%d&game_id=%d&user_id=%llu&ud=%s&product_id=%s&extra_data=%s"
    [AS platform_url; AD (cd_channel t); AD game_id; AU (cd_acc t); AS (cd_name t); AS (cd_key_code t); AS server_title].

(** A member that is there is kept as a string. *)
Definition keep_string (f : string -> JsonValue) (key : string) (set : string -> CreateDeal -> CreateDeal) (t : CreateDeal) : CreateDeal * bool :=
  if present f key then match asString (f key) with Some v => (set v t, true) | None => (t, false) end else (t, true).
Definition create_read (f : string -> JsonValue) (t : CreateDeal) : CreateDeal :=
  let thrown := set_cd_error Error_Unknow in
  if present f "status" && present f "product_id" && present f "price" && present f "order_id" then
    match asInt (f "status") with None => thrown t | Some st =>
    let t := set_cd_status st t in
    if negb (st =? 0) then set_cd_error Error_CreateDealFailedTheHttpResponeFailed t
    else
      match asString (f "product_id") with None => thrown t | Some product_id =>
      match asInt (f "price") with None => thrown t | Some price =>
      let t := set_cd_price price t in
      match asInt (f "order_id") with None => thrown t | Some order_id =>
      let t := set_cd_order_id order_id t in
      let '(t, ok) := keep_string f "app_secret" set_cd_secret_key t in
      if negb ok then thrown t else
      let '(t, ok) := keep_string f "notify_url" set_cd_call_back t in
      if negb ok then thrown t else
      if String.eqb product_id (cd_key_code t) then t else set_cd_error Error_CreateDealDailedTheHttpResponeErrorProduct_id t
      end end end
    end
  else set_cd_error Error_CreateDealFailedTheHttpErrorRespone t.
(** [None]: the url overruns its buffer. *)
Definition create_excute (t : CreateDeal) : option CreateDeal :=
  let url := preorder_url t in
  if Z.of_nat (String.length url) <? 1024 then
    Some match Posts url with
         | NotJson => set_cd_error Error_CreateDealFailedTheHttpErrorRespone t
         | Throwing => set_cd_error Error_Unknow t
         | Members f => create_read f t
         end
  else None.

(** ** VerifyDealHttpTaskIOS *)
Record VerifyDeal := mkVerifyDeal {
  vd_acc : Z; vd_name : string; vd_receipt : string; vd_product_id : string; vd_status : Z; vd_order_id : Z; vd_error : GameError
}.
Definition set_vd_error e t := mkVerifyDeal (vd_acc t) (vd_name t) (vd_receipt t) (vd_product_id t) (vd_status t) (vd_order_id t) e.
Definition set_vd_status v t := mkVerifyDeal (vd_acc t) (vd_name t) (vd_receipt t) (vd_product_id t) v (vd_order_id t) (vd_error t).
Definition set_vd_product v t := mkVerifyDeal (vd_acc t) (vd_name t) (vd_receipt t) v (vd_status t) (vd_order_id t) (vd_error t).
Definition set_vd_order v t := mkVerifyDeal (vd_acc t) (vd_name t) (vd_receipt t) (vd_product_id t) (vd_status t) v (vd_error t).
Definition verify_init (acc : Z) (name receipt : string) (order_id junk : Z) : VerifyDeal := mkVerifyDeal acc name receipt "" junk order_id Error_NO.
Definition confirm_url (t : VerifyDeal) : string :=
  sprintf "%s/paycallback/index.php?action=third_confirm&channel_id=%d&game_id=%d&user_id=%llu&order_id=%d&receipt=%s"
    [AS platform_url; AD http_channel; AD game_id; AU (vd_acc t); AD (vd_order_id t); AS (vd_receipt t)].
Definition finish_url (t : VerifyDeal) : string :=
  sprintf "%s/paygateway/index.php?action=order_finish&channel_id=%d&game_id=%d&user_id=%llu&order_id=%d"
    [AS platform_url; AD http_channel; AD game_id; AU (vd_acc t); AD (vd_order_id t)].

(** The second question, for an order the platform has confirmed. *)
Definition verify_finish (t : VerifyDeal) : option VerifyDeal :=
  let url := finish_url t in
  if Z.of_nat (String.length url) <? 10240 then
    Some match parsed (Posts url) with
         | None => set_vd_error Error_Unknow t
         | Some g =>
             if present g "status" then
               match asInt (g "status") with
               | None => set_vd_error Error_Unknow t
               | Some e => if e =? 0 then t else set_vd_error Error_VerifyDealFailedTheHttpResponeFailed t
               end
             else set_vd_error Error_VerifyDealFailedTheHttpErrorRespone t
         end
  else None.
Definition verify_excute (t : VerifyDeal) : option VerifyDeal :=
  if Z.of_nat (String.length (vd_receipt t)) >? 10000 then Some (set_vd_error Error_Unknow t)
  else
    let url := confirm_url t in
    if Z.of_nat (String.length url) <? 10240 then
      match parsed (Posts url) with
      | None => Some (set_vd_error Error_Unknow t)
      | Some f =>
          if present f "status" && present f "product_id" && present f "order_id" then
            match asInt (f "status") with None => Some (set_vd_error Error_Unknow t) | Some st =>
            let t := set_vd_status st t in
            if st =? 0 then
              match asString (f "product_id") with None => Some (set_vd_error Error_Unknow t) | Some product_id =>
              let t := set_vd_product product_id t in
              match asInt (f "order_id") with None => Some (set_vd_error Error_Unknow t) | Some order_id =>
              verify_finish (set_vd_order order_id t)
              end end
            else Some t
            end
          else Some (set_vd_error Error_VerifyDealFailedTheHttpResponeFailed t)
      end
    else None.
(** [logicExcute] of a hero who is on line. *)
Definition verify_logic (t : VerifyDeal) : M HS unit := addDealPay (vd_product_id t) (vd_status t) (vd_order_id t) (vd_error t) true.

(** ** What it takes to be paid *)

(** The platform confirms the receipt, for a product and an order of its
    choice, and then that this order is finished. *)
Definition confirmed (t : VerifyDeal) (product_id : string) (order_id : Z) : Prop :=
  Z.of_nat (String.length (vd_receipt t)) <= 10000 /\ exists f g,
    parsed (Posts (confirm_url t)) = Some f /\ asInt (f "status") = Some 0 /\ asString (f "product_id") = Some product_id /\ asInt (f "order_id") = Some order_id /\
    (present f "status" && present f "product_id" && present f "order_id" = true) /\
    parsed (Posts (finish_url (set_vd_order order_id t))) = Some g /\ present g "status" = true /\ asInt (g "status") = Some 0.

Definition fresh_verify (t : VerifyDeal) : Prop := vd_product_id t = "" /\ vd_error t = Error_NO.

Lemma verify_finish_ok t t' : vd_error t = Error_NO -> verify_finish t = Some t' ->
  vd_product_id t' = vd_product_id t /\ vd_order_id t' = vd_order_id t /\ vd_status t' = vd_status t /\
  (vd_error t' = Error_NO -> exists g, parsed (Posts (finish_url t)) = Some g /\ present g "status" = true /\ asInt (g "status") = Some 0).
Proof.
  intros He. unfold verify_finish. destruct (_ <? 10240); [|done]. intros [= <-]. destruct (parsed (Posts (finish_url t))) as [g|]; [|done].
  destruct (present g "status") eqn:Ep; [|done]. destruct (asInt (g "status")) as [e|] eqn:Es; [|done].
  destruct (Z.eqb_spec e 0) as [->|]; [|done]. split_and!; [done..|]. intros _. by exists g.
Qed.
Lemma finish_url_same t1 t2 : vd_acc t1 = vd_acc t2 -> vd_order_id t1 = vd_order_id t2 -> finish_url t1 = finish_url t2.
Proof. unfold finish_url. by intros -> ->. Qed.
Lemma error_set e t t' : e <> Error_NO -> Some (set_vd_error e t) = Some t' -> vd_error t' <> Error_NO.
Proof. intros He H. apply (inj Some) in H. by rewrite <- H. Qed.
Lemma verify_excute_ok t t' : fresh_verify t -> verify_excute t = Some t' -> vd_error t' = Error_NO ->
  (vd_status t' = 0 /\ confirmed t (vd_product_id t') (vd_order_id t')) \/
  (vd_status t' <> 0 /\ vd_product_id t' = "" /\ vd_order_id t' = vd_order_id t).
Proof.
  intros [Hp He] Hx Herr. unfold verify_excute in Hx. cbn zeta in Hx.
  assert (Hno : forall e t1, e <> Error_NO -> Some (set_vd_error e t1) = Some t' -> False) by (intros e t1 Hne H; by apply error_set in H).
  destruct (Z.gtb_spec (Z.of_nat (String.length (vd_receipt t))) 10000) as [|Hr]; [by apply Hno in Hx|].
  destruct (_ <? 10240); [|discriminate Hx]. destruct (parsed (Posts (confirm_url t))) as [f|] eqn:Ef; [|by apply Hno in Hx].
  destruct (present f "status" && _ && _) eqn:Epr; [|by apply Hno in Hx].
  destruct (asInt (f "status")) as [st|] eqn:Est; [|by apply Hno in Hx].
  destruct (Z.eqb_spec st 0) as [->|Hst]; [|apply (inj Some) in Hx; right; rewrite <- Hx; done].
  destruct (asString (f "product_id")) as [product|] eqn:Ep; [|by apply Hno in Hx].
  destruct (asInt (f "order_id")) as [order|] eqn:Eo; [|by apply Hno in Hx].
  apply verify_finish_ok in Hx as (H1 & H2 & H3 & H4); [|done]. destruct (H4 Herr) as (g & Hg1 & Hg2 & Hg3).
  left. cbn in H1, H2, H3. rewrite H1, H2. split; [by rewrite H3|]. split; [lia|]. exists f, g.
  rewrite (finish_url_same (set_vd_order order (set_vd_product product (set_vd_status 0 t))) (set_vd_order order t) eq_refl eq_refl) in Hg1. split_and!; assumption.
Qed.
End Tasks.

(** An answer that reports no product on sale leaves the hero as it is. *)
Lemma addDealPay_quiet key status order error s : session_valid s ->
  err_ok error = false \/ getGoldShopConfigInfo_product (gGameConfig (srv s)) (_channel (this s)) key = None ->
  exists s', addDealPay key status order error true s = Some (tt, s') /\ this s' = this s.
Proof.
  intros Hs Hq. apply wp_unit. unfold addDealPay. apply wp_bind. unfold pay_deal. apply wp_bind, wp_gets, wp_bind, wp_gets, wp_bind, wp_gets.
  destruct (err_ok error) eqn:He.
  - destruct Hq as [|Hcfg]; [done|]. hs_run; try done; congruence.
  - hs_run; done.
Qed.

(** ** Properties *)

(** C39: Tasks are executed once, and handled in the order they were added: at
    any moment the handled ones are executions of the first ones added, with
    none left out and none twice; and from any moment one round of the two
    threads handles all. *)
Theorem http_tasks_in_order {Task} (executed : Task -> Task -> Prop) added handled m (H : http_runs executed added handled m) :
  (exists n, Forall2 executed (take n added) handled) /\
  forall results, Forall2 executed (_execute_https m ++ _https m) results ->
    let m' := update_execute results (update_take m) in
    Forall2 executed added (handled ++ (logicUpdate m').2) /\ (logicUpdate m').1 = mkHttpManager [] [] [].
Proof.
  apply http_runs_fifo in H as (begun & -> & H). split.
  - exists (length handled). apply Forall2_app_inv_r in H as (b1 & b2 & H1 & _ & ->). rewrite <- app_assoc.
    rewrite <- (Forall2_length _ _ _ H1), take_app_length. done.
  - intros results Hr. cbn. split; [|done]. rewrite (app_assoc handled). by apply Forall2_app.
Qed.

(** C15: A payment needs the platform's word twice: whatever it answers, gold
    and jewels of the hero change at the end of a verification only if it has
    confirmed the receipt for a product on sale and an order of this hero that
    is open, and then that the order is finished; what it confirmed is what is
    paid.  A verification it refuses changes nothing, the deal included. *)
Theorem payment_confirmed url channel game Posts t t' s :
  session_valid s -> amounts_fit s -> fresh_verify t -> verify_excute url channel game Posts t = Some t' ->
  exists s', verify_logic t' s = Some (tt, s') /\
    (_info (this s') = _info (this s) \/
     exists g j, confirmed url channel game Posts t (vd_product_id t') (vd_order_id t') /\
       payable (vd_product_id t') 0 (vd_order_id t') Error_NO s g j /\ this s' = paid (vd_order_id t') g j (this s)) /\
    ((forall product order, ~ confirmed url channel game Posts t product order) ->
     getGoldShopConfigInfo_product (gGameConfig (srv s)) (_channel (this s)) "" = None -> this s' = this s).
Proof.
  intros Hs Hfit Hfresh Hx.
  assert (Hquiet : (forall product order, ~ confirmed url channel game Posts t product order) ->
     getGoldShopConfigInfo_product (gGameConfig (srv s)) (_channel (this s)) "" = None ->
     forall s', verify_logic t' s = Some (tt, s') -> this s' = this s).
  { intros Hn Hcfg s' Hr. destruct (addDealPay_quiet (vd_product_id t') (vd_status t') (vd_order_id t') (vd_error t') s Hs) as (s2 & E & Ht).
    - destruct (err_ok (vd_error t')) eqn:He; [|by left]. apply err_ok_true in He.
      destruct (verify_excute_ok _ _ _ _ _ _ Hfresh Hx He) as [[_ Hc]|(_ & -> & _)]; [by destruct (Hn _ _ Hc)|by right].
    - unfold verify_logic in Hr. rewrite Hr in E. by injection E as ->. }
  cut (exists s', verify_logic t' s = Some (tt, s') /\ (_info (this s') = _info (this s) \/ exists g j,
       confirmed url channel game Posts t (vd_product_id t') (vd_order_id t') /\
       payable (vd_product_id t') 0 (vd_order_id t') Error_NO s g j /\ this s' = paid (vd_order_id t') g j (this s))).
  { intros (s' & Hr & H). exists s'. split_and!; [done..|]. intros Hn Hcfg. by apply Hquiet. }
  apply wp_unit, wp_addDealPay; [done|done| |].
  - intros g j s' Hpay Ht _ _. pose proof Hpay as (He & Hst & _). destruct (verify_excute_ok _ _ _ _ _ _ Hfresh Hx He) as [[_ Hc]|[? _]]; [|done].
    right. exists g, j. rewrite Hst, He in Hpay. done.
  - intros e deals s' He Hn Ht _ Hd _. left. by rewrite Ht.
Qed.

(** A platform that confirms everything. *)
Definition yes (key : string) : JsonValue :=
  if String.eqb key "product_id" then mkJsonValue false None (Some "gold.100")
  else if String.eqb key "order_id" then mkJsonValue false (Some 900) (Some "900")
  else if String.eqb key "status" then mkJsonValue false (Some 0) (Some "0") else null.
Definition a_receipt : VerifyDeal := verify_init 5 "ann" "receipt" 900 77.
Lemma payment_confirmed_witness :
  match verify_excute "http://pay" 7 1 (fun _ => Members yes) a_receipt with
  | Some t' => exists s', verify_logic t' demo = Some (tt, s') /\ hd_gold (_info (this s')) = 1000 /\
      confirmed "http://pay" 7 1 (fun _ => Members yes) a_receipt "gold.100" 900
  | None => False
  end.
Proof.
  destruct (verify_excute "http://pay" 7 1 (fun _ => Members yes) a_receipt) as [t'|] eqn:E; [|by vm_compute in E].
  destruct (payment_confirmed "http://pay" 7 1 (fun _ => Members yes) a_receipt t' demo) as (s' & Hr & Hpaid & _); [reflexivity|exact demo_amounts_fit|done|done|].
  assert (Ht : t' = mkVerifyDeal 5 "ann" "receipt" "gold.100" 0 900 Error_NO) by (vm_compute in E; by injection E as <-).
  assert (Hg : option_map (fun r => hd_gold (_info (this r.2))) (verify_logic t' demo) = Some 1000) by (rewrite Ht; vm_compute; reflexivity).
  rewrite Hr in Hg. cbn in Hg. injection Hg as Hg. exists s'. split; [done|]. split; [done|].
  destruct Hpaid as [Hsame|(g & j & Hc & _)]; [|by rewrite Ht in Hc]. rewrite Hsame in Hg. by vm_compute in Hg.
Defined.

Lemma http_tasks_in_order_witness :
  let m := update_execute [10] (addHttpTask 2 (update_take (addHttpTask 1 (mkHttpManager [] [] [])))) in
  Forall2 (fun a b => b = 10 * a) [1; 2] ([] ++ (logicUpdate (update_execute [20] (update_take m))).2) /\ _complete_task m = [10].
Proof.
  intros m. assert (H : http_runs (fun a b => b = 10 * a) [1; 2] [] m).
  { apply http_runs_execute; [|by constructor]. apply (http_runs_add _ [1]), http_runs_take, (http_runs_add _ []), http_runs_start. }
  split; [|reflexivity]. exact (proj1 (proj2 (http_tasks_in_order _ _ _ _ H) [20] ltac:(by repeat constructor))).
Defined.
