(* ===== verification/Platform.v ===== *)
(** * gameserver: the platform's own connection

    platform_client.cpp: the game server registers at the platform, which may
    then tell it that an order is paid; the notice runs in the process of
    World.v, on the hero if it is loaded and in the database if not. *)
From S2P Require Import Prelude StdMap Data Text Config Server HeroTask HeroDeal World Dispatch.

(** What goes to the platform, each message with the game id as its flag. *)
Inductive ToPlatform :=
  | MsgG2PRegisterReq (game_id server_id server_flag : Z)
  | MsgG2POrderNotifyRsp (order_id : Z) (ok : bool).
Inductive FromPlatform :=
  | MsgP2GOrderNotifyReq (user_id : Z) (product_id : string) (order_id : Z)
  | MsgP2GRegisterRsp (ok : bool)
  | MsgP2GKickOffAck.
(** [m_isreconnect], of the client of TcpClient.v. *)
Record PlatformClient := mkPlatformClient { m_isreconnect : bool }.
Definition new_PlatformClient : PlatformClient := mkPlatformClient true.
Definition sendPlatform (g : Server) (m : ToPlatform) : ToPlatform * Z := (m, _game_id (gGameConfig g)).

Definition on_connect (g : Server) : list (ToPlatform * Z) :=
  let c := gGameConfig g in [sendPlatform g (MsgG2PRegisterReq (_game_id c) (_server_char c) (_server_type c))].
(** The order is confirmed to the platform before anybody looks at it. *)
Definition parseClinchADealNotify (user_id : Z) (product_id : string) (order_id : Z) : W (list (ToPlatform * Z)) :=
  let* g := wgets globals in
  let acks := [sendPlatform g (MsgG2POrderNotifyRsp order_id true)] in
  clinch_deal user_id product_id order_id ;;;
  wret acks.
Definition parseKick (C : PlatformClient) : PlatformClient := mkPlatformClient false.
Definition platform_message (msg : FromPlatform) (C : PlatformClient) : W (list (ToPlatform * Z) * PlatformClient) :=
  match msg with
  | MsgP2GOrderNotifyReq user_id product_id order_id =>
      let* acks := parseClinchADealNotify user_id product_id order_id in wret (acks, C)
  | MsgP2GRegisterRsp _ => wret ([], C)
  | MsgP2GKickOffAck => wret ([], parseKick C)
  end.

(** ** What a notice does *)
Section Notice.
Context (w : World) (p user order : Z) (product : string) (h : DreamHero).
Context (Hreg : mfind user (_heroes w) = Some p) (Hp : mfind p (objects w) = Some h) (Hu : user <> 0).

(** It runs the same method as the answer of a verification, once. *)
Lemma notice_calls C s' : addDealPay product 0 order Error_NO true (mkHS h (globals w)) = Some (tt, s') ->
  platform_message (MsgP2GOrderNotifyReq user product order) C w =
    Ok ([sendPlatform (globals w) (MsgG2POrderNotifyRsp order true)], C) (set_objects (mput p (this s') (objects w)) (set_globals (srv s') w)).
Proof.
  intros E. unfold platform_message, parseClinchADealNotify, clinch_deal, VerifyDeal_logicExcute, wbind, wgets, GetHero, call_hero.
  rewrite (proj2 (Z.eqb_neq _ _) Hu). unfold mhas. rewrite Hreg, Hp. cbn beta iota. by rewrite Hp, E.
Qed.

(** A notice for a loaded hero pays the order if it is open and its product on
    sale, and else leaves gold and jewels alone; the platform gets the same
    answer in both cases.  Nobody else's hero changes. *)
Theorem notice_pays_open_order C : session_valid (mkHS h (globals w)) -> amounts_fit (mkHS h (globals w)) ->
  exists w' h', platform_message (MsgP2GOrderNotifyReq user product order) C w = Ok ([sendPlatform (globals w) (MsgG2POrderNotifyRsp order true)], C) w' /\
    mfind p (objects w') = Some h' /\
    ((exists g j, payable product 0 order Error_NO (mkHS h (globals w)) g j /\ h' = paid order g j h) \/
     ((forall g j, ~ payable product 0 order Error_NO (mkHS h (globals w)) g j) /\ _info h' = _info h)) /\
    (forall q, q <> p -> mfind q (objects w') = mfind q (objects w)).
Proof.
  intros Hs Hfit. cut (exists s', addDealPay product 0 order Error_NO true (mkHS h (globals w)) = Some (tt, s') /\
    ((exists g j, payable product 0 order Error_NO (mkHS h (globals w)) g j /\ this s' = paid order g j h) \/
     ((forall g j, ~ payable product 0 order Error_NO (mkHS h (globals w)) g j) /\ _info (this s') = _info h))).
  { intros (s' & E & K). exists (set_objects (mput p (this s') (objects w)) (set_globals (srv s') w)), (this s').
    split; [by apply notice_calls|]. cbn. split; [apply mfind_put_eq|]. split; [done|]. intros q Hq. by apply mfind_put_ne. }
  apply wp_unit, wp_addDealPay; [done|done| |].
  - intros g j s' Hpay Ht _ _. left. by exists g, j.
  - intros e deals s' _ Hn Ht _ _ _. right. split; [done|]. by rewrite Ht.
Qed.
End Notice.

(** The same notice twice: the platform is answered twice, the hero paid once. *)
Definition demo_shop : World := mkWorld demo_server [(1, demo_hero)] [(42, 1)] [] 2.
Definition notice : FromPlatform := MsgP2GOrderNotifyReq 42 "gold.100" 900.
Definition twice : option (list (ToPlatform * Z) * Z) :=
  match wbind (platform_message notice new_PlatformClient) (fun a => wbind (platform_message notice a.2) (fun b => wret (a.1 ++ b.1))) demo_shop with
  | Ok acks w => (fun h => (acks, hd_gold (_info h))) <$> mfind 1 (objects w)
  | _ => None
  end.
Example notice_twice : twice = Some ([(MsgG2POrderNotifyRsp 900 true, 1); (MsgG2POrderNotifyRsp 900 true, 1)], 1000).
Proof. vm_compute. reflexivity. Qed.
Lemma notice_pays_open_order_witness : exists w', platform_message notice new_PlatformClient demo_shop = Ok ([(MsgG2POrderNotifyRsp 900 true, 1)], new_PlatformClient) w'.
Proof.
  destruct (notice_pays_open_order demo_shop 1 42 900 "gold.100" demo_hero eq_refl eq_refl ltac:(done) new_PlatformClient demo_session_valid demo_amounts_fit)
    as (w' & h' & E & _). exists w'. exact E.
Defined.
