(* ===== verification/Loop.v ===== *)
(** * common: the main loop of a server, and how it stops

    [ServerFrame] (server_frame.cpp) runs every server: it measures the time,
    calls [runOnce], and after a signal [setStop] once and [checkStop] in every
    turn.  The servers are instances of one interface: gateserver, login and
    databaseserver here (each its server.cpp), gameserver in Stops.v. *)
From S2P Require Import Prelude Config Database DbServer.

(** ** The interface *)
(** What a server supplies. [None]: the process dies in the call; the boolean
    of [checkStop] is what it assigns to [_stop]. *)
Class ServerHooks (S : Type) := {
  hook_runOnce : Z -> S -> option S;
  hook_setStop : S -> option S;
  hook_checkStop : S -> option (S * bool)
}.

Section ServerFrame.
Context {S : Type} {hooks : ServerHooks S}.

Record ServerFrame := mkFrame {
  _stop : bool; _wait_stop : bool; _last_server_time : Z; frame_time : Z; g_wait_stop : bool; server : S
}.
(** The calls of one turn, in their order. *)
Inductive Hook := RunOnce (nDiff : Z) | SetStop | CheckStop (stops : bool).

Definition signal_handle (n : Z) (F : ServerFrame) : ServerFrame :=
  if n =? 3 then mkFrame (_stop F) (_wait_stop F) (_last_server_time F) (frame_time F) true (server F) else F.
(** [ServerFrame::init] and the first line of [run], with the clocks in
    milliseconds and in seconds. *)
Definition init (ms now : Z) (s : S) : ServerFrame := mkFrame false false (u32 ms) now false s.
Definition measure (ms now : Z) (F : ServerFrame) : option (list Hook * ServerFrame) :=
  let time_spawn := s64 (ms - _last_server_time F) in
  let F := mkFrame (_stop F) (_wait_stop F) (u32 ms) now (g_wait_stop F) (server F) in
  if time_spawn =? 0 then Some ([], F)
  else s ← hook_runOnce (u32 time_spawn) (server F);
       Some ([RunOnce (u32 time_spawn)], mkFrame (_stop F) (_wait_stop F) (_last_server_time F) (frame_time F) (g_wait_stop F) s).
Definition check (F : ServerFrame) : option (list Hook * ServerFrame) :=
  if _wait_stop F then
    '(s, stops) ← hook_checkStop (server F);
    Some ([CheckStop stops], mkFrame (_stop F || stops) (_wait_stop F) (_last_server_time F) (frame_time F) (g_wait_stop F) s)
  else Some ([], F).
Definition signalStop (F : ServerFrame) : option (list Hook * ServerFrame) :=
  if g_wait_stop F && negb (_wait_stop F) then
    s ← hook_setStop (server F);
    Some ([SetStop], mkFrame (_stop F) true (_last_server_time F) (frame_time F) (g_wait_stop F) s)
  else Some ([], F).
(** The body of the loop of [run]; [onKey] does nothing in any server. *)
Definition turn (ms now : Z) (F : ServerFrame) : option (list Hook * ServerFrame) :=
  '(o1, F) ← measure ms now F;
  '(o2, F) ← check F;
  '(o3, F) ← signalStop F;
  Some (o1 ++ o2 ++ o3, F).

Inductive Tick := Signal (n : Z) | Turn (ms now : Z).
(** [None] also when the loop has ended. *)
Definition tick (t : Tick) (F : ServerFrame) : option (list Hook * ServerFrame) :=
  match t with
  | Signal n => Some ([], signal_handle n F)
  | Turn ms now => if _stop F then None else turn ms now F
  end.
Fixpoint run (l : list Tick) (F : ServerFrame) : option (list Hook * ServerFrame) :=
  match l with
  | [] => Some ([], F)
  | t :: l => '(o, F) ← tick t F; '(o', F) ← run l F; Some (o ++ o', F)
  end.

(** ** Time and stop of any server *)
Definition passed (o : list Hook) : Z := foldr Z.add 0 (omap (fun h => match h with RunOnce d => Some d | _ => None end) o).
Definition stop_calls (o : list Hook) : list Hook := omap (fun h => match h with RunOnce _ => None | h => Some h end) o.
Lemma passed_app o o' : passed (o ++ o') = passed o + passed o'.
Proof. unfold passed. rewrite omap_app, foldr_app. induction (omap _ o) as [|d l IH]; cbn; lia. Qed.
Lemma stop_calls_app o o' : stop_calls (o ++ o') = stop_calls o ++ stop_calls o'.
Proof. apply omap_app. Qed.

Fixpoint last_turn (l : list Tick) (ms : Z) : Z :=
  match l with Turn ms' _ :: l => last_turn l ms' | _ :: l => last_turn l ms | [] => ms end.
Definition signalled (l : list Tick) : bool := existsb (fun t => match t with Signal n => n =? 3 | _ => false end) l.
(** The turns that begin when the server waits to stop. *)
Definition clock_ok (t : Tick) : Prop := match t with Turn ms _ => 0 <= ms < 2 ^ 62 | Signal _ => True end.

(** The calls that stop a server, in the order they come in. *)
Record frame_ok (ms : Z) (o : list Hook) (F : ServerFrame) : Prop := {
  fo_time : u32 (passed o) = u32 (_last_server_time F - ms);
  fo_last : is_u32 (_last_server_time F);
  fo_calls : exists n, stop_calls o = if _wait_stop F then SetStop :: replicate n (CheckStop false) ++ (if _stop F then [CheckStop true] else []) else [];
  fo_stop : _stop F = true -> _wait_stop F = true;
  fo_signal : _wait_stop F = true -> g_wait_stop F = true
}.

Lemma u32_add a b : u32 (u32 a + b) = u32 (a + b).
Proof. unfold u32. apply Zplus_mod_idemp_l. Qed.
Lemma s64_small z : 0 <= z < 2 ^ 63 -> s64 z = z.
Proof. intros H. unfold s64. rewrite Z.mod_small by lia. lia. Qed.

Lemma measure_ok ms0 o F ms now o' F' : frame_ok ms0 o F -> _stop F = false -> 0 <= ms < 2 ^ 62 -> measure ms now F = Some (o', F') ->
  frame_ok ms0 (o ++ o') F' /\ _stop F' = false /\ _last_server_time F' = u32 ms.
Proof.
  intros [H1 H2 [n H3] H4 H5] Hs Hm E. unfold measure in E.
  assert (Hsp : u32 (s64 (ms - _last_server_time F)) = u32 (ms - _last_server_time F)).
  { unfold u32, s64. rewrite Zminus_mod, Z.mod_mod_divide by (by exists (2 ^ 32)). rewrite <- Zminus_mod. f_equal. lia. }
  assert (Ht : u32 (passed o + u32 (s64 (ms - _last_server_time F))) = u32 (u32 ms - ms0)).
  { rewrite Hsp. unfold u32 in *. rewrite Zplus_mod_idemp_r, Zplus_mod, H1, <- Zplus_mod, Zminus_mod_idemp_l. f_equal. lia. }
  assert (Hu : is_u32 (u32 ms)) by (apply Z.mod_pos_bound; lia).
  destruct (s64 (ms - _last_server_time F) =? 0) eqn:Ez.
  - injection E as <- <-. rewrite app_nil_r. split; [|done]. split; cbn; try done; [|by exists n].
    apply Z.eqb_eq in Ez. rewrite Ez in Ht. change (u32 0) with 0 in Ht. by rewrite Z.add_0_r in Ht.
  - cbn in E. destruct (hook_runOnce _ (server F)) as [s|]; [|discriminate]. injection E as <- <-. split; [|done]. split; cbn; try done.
    + rewrite passed_app. unfold passed at 2. cbn. by rewrite Z.add_0_r.
    + exists n. rewrite stop_calls_app. unfold stop_calls at 2. cbn. by rewrite app_nil_r.
Qed.
Lemma check_ok ms0 o F o' F' : frame_ok ms0 o F -> _stop F = false -> check F = Some (o', F') ->
  frame_ok ms0 (o ++ o') F' /\ _last_server_time F' = _last_server_time F /\ (_stop F' = true -> _wait_stop F' = true).
Proof.
  intros [H1 H2 [n H3] H4 H5] Hs E. unfold check in E. rewrite Hs in H3. destruct (_wait_stop F) eqn:Hw.
  - destruct (hook_checkStop (server F)) as [[s stops]|]; [|discriminate]. injection E as <- <-. split; [|done]. split; cbn; try done.
    + rewrite passed_app. unfold passed at 2. cbn. by rewrite Z.add_0_r.
    + rewrite stop_calls_app, H3, Hs. unfold stop_calls. cbn. rewrite app_nil_r. destruct stops; cbn; [by exists n|].
      exists (n + 1)%nat. by rewrite replicate_add, app_nil_r.
  - injection E as <- <-. rewrite app_nil_r. split; [|by rewrite Hs]. split; rewrite ?Hw, ?Hs; try done.
Qed.
Lemma signalStop_ok ms0 o F o' F' : frame_ok ms0 o F -> signalStop F = Some (o', F') -> frame_ok ms0 (o ++ o') F' /\
  _last_server_time F' = _last_server_time F /\ _wait_stop F' = g_wait_stop F'.
Proof.
  intros [H1 H2 [n H3] H4 H5] E. unfold signalStop in E. destruct (_wait_stop F) eqn:Hw.
  - rewrite andb_false_r in E. injection E as <- <-. rewrite app_nil_r, Hw, H5 by done. split; [|done]. by split; rewrite ?Hw; [| |exists n| |].
  - destruct (g_wait_stop F) eqn:Hg; cbn in E.
    + destruct (hook_setStop (server F)) as [s|]; [|discriminate]. injection E as <- <-. split; [|done].
      assert (Hs : _stop F = false) by (destruct (_stop F); [by specialize (H4 eq_refl)|done]). split; cbn; try done.
      * rewrite passed_app. unfold passed at 2. cbn. by rewrite Z.add_0_r.
      * exists 0%nat. rewrite stop_calls_app, H3, Hs. done.
    + injection E as <- <-. rewrite app_nil_r, Hw, Hg. split; [|done]. by split; rewrite ?Hw; [| |exists n| |].
Qed.
Lemma signal_ok ms0 o F n : frame_ok ms0 o F -> frame_ok ms0 o (signal_handle n F).
Proof. intros []. unfold signal_handle. destruct (n =? 3); by split. Qed.

Lemma tick_ok ms0 o F t o' F' : frame_ok ms0 o F -> clock_ok t -> tick t F = Some (o', F') -> frame_ok ms0 (o ++ o') F' /\
  match t with
  | Turn ms _ => _last_server_time F' = u32 ms /\ _wait_stop F' = g_wait_stop F' /\ g_wait_stop F' = g_wait_stop F
  | Signal n => _last_server_time F' = _last_server_time F /\ g_wait_stop F' = (g_wait_stop F || (n =? 3)) /\ _wait_stop F' = _wait_stop F
  end.
Proof.
  intros H Hc E. destruct t as [n|ms now]; cbn [tick] in E.
  - injection E as <- <-. rewrite app_nil_r. split; [by apply signal_ok|]. unfold signal_handle. by destruct (n =? 3); rewrite ?orb_true_r, ?orb_false_r.
  - destruct (_stop F) eqn:Hs; [discriminate|]. unfold turn in E. destruct (measure ms now F) as [[o1 F1]|] eqn:E1; [|discriminate]. cbn in E.
    destruct (check F1) as [[o2 F2]|] eqn:E2; [|discriminate]. cbn in E. destruct (signalStop F2) as [[o3 F3]|] eqn:E3; [|discriminate]. injection E as <- <-.
    destruct (measure_ok _ _ _ _ _ _ _ H Hs Hc E1) as (K1 & S1 & L1). destruct (check_ok _ _ _ _ _ K1 S1 E2) as (K2 & L2 & _).
    destruct (signalStop_ok _ _ _ _ _ K2 E3) as (K3 & L3 & W3). rewrite <- !app_assoc in K3. split; [done|]. split; [congruence|]. split; [done|].
    assert (G1 : g_wait_stop F1 = g_wait_stop F).
    { unfold measure in E1. destruct (_ =? 0); [by injection E1 as <- <-|]. destruct (hook_runOnce _ _); [|discriminate]. by injection E1 as <- <-. }
    assert (G2 : g_wait_stop F2 = g_wait_stop F1).
    { unfold check in E2. destruct (_wait_stop F1); [|by injection E2 as <- <-]. destruct (hook_checkStop _) as [[]|]; [|discriminate]. by injection E2 as <- <-. }
    rewrite <- G1, <- G2. unfold signalStop in E3. destruct (_ && _); [|by injection E3 as <- <-]. destruct (hook_setStop _); [|discriminate]. by injection E3 as <- <-.
Qed.
Lemma init_ok ms now s : frame_ok ms [] (init ms now s).
Proof.
  split; cbn; try done; [|apply Z.mod_pos_bound; lia|by exists 0%nat]. unfold u32. rewrite Zminus_mod_idemp_l, Z.sub_diag. done.
Qed.

Lemma run_ok ms l : forall o1 F1 o2 F2, frame_ok ms o1 F1 -> Forall clock_ok l -> run l F1 = Some (o2, F2) -> frame_ok ms (o1 ++ o2) F2 /\
  (forall m, u32 m = _last_server_time F1 -> u32 (last_turn l m) = _last_server_time F2) /\ g_wait_stop F2 = (g_wait_stop F1 || signalled l).
Proof.
  induction l as [|t l IH]; intros o1 F1 o2 F2 H Hl E; cbn in E.
  - injection E as <- <-. rewrite app_nil_r, orb_false_r. by split.
  - inversion_clear Hl as [|? ? Hc Hl']. destruct (tick t F1) as [[o3 F3]|] eqn:E1; [|discriminate]. cbn in E.
    destruct (run l F3) as [[o4 F4]|] eqn:E2; [|discriminate]. injection E as <- <-. destruct (tick_ok _ _ _ _ _ _ H Hc E1) as [H3 Hk].
    destruct (IH _ _ _ _ H3 Hl' E2) as (K1 & K2 & K3). rewrite app_assoc. split; [done|]. cbn. destruct t as [n|ms' now'].
    + destruct Hk as (L & G & _). split; [intros m Hm; apply K2; congruence|]. by rewrite K3, G, orb_assoc.
    + destruct Hk as (L & _ & G). split; [intros m _; by apply K2|]. by rewrite K3, G.
Qed.

(** What [runOnce], [setStop] and [checkStop] keep, the loop keeps until it
    ends; then it is as the [checkStop] left it that ended it. *)
Section Keeps.
Context (I J : S -> Prop).
Context (Hrun : forall d s s', hook_runOnce d s = Some s' -> I s -> I s').
Context (Hset : forall s s', hook_setStop s = Some s' -> I s -> I s').
Context (Hcheck : forall s s' (b : bool), hook_checkStop s = Some (s', b) -> I s -> if b then J s' else I s').
Definition kept (F : ServerFrame) : Prop := if _stop F then J (server F) else I (server F).

Lemma measure_keeps ms now F o F' : measure ms now F = Some (o, F') -> I (server F) -> I (server F') /\ _stop F' = _stop F.
Proof.
  unfold measure. intros E H. destruct (_ =? 0); [by injection E as <- <-|]. cbn in E.
  destruct (hook_runOnce _ _) as [s|] eqn:Es; [|discriminate]. injection E as <- <-. cbn. split; [|done]. by eapply Hrun.
Qed.
Lemma check_keeps F o F' : check F = Some (o, F') -> _stop F = false -> I (server F) -> kept F' /\ (_stop F' = true -> _wait_stop F' = true).
Proof.
  unfold check, kept. intros E Hs H. destruct (_wait_stop F) eqn:Hw; [|injection E as <- <-; by rewrite Hs].
  destruct (hook_checkStop _) as [[s b]|] eqn:Es; [|discriminate]. injection E as <- <-. cbn. rewrite Hs. cbn.
  split; [exact (Hcheck _ _ _ Es H)|done].
Qed.
Lemma signalStop_keeps F o F' : signalStop F = Some (o, F') -> kept F -> (_stop F = true -> _wait_stop F = true) -> kept F'.
Proof.
  unfold signalStop, kept. intros E H HJ. destruct (g_wait_stop F && negb (_wait_stop F)) eqn:Hg; [|by injection E as <- <-].
  destruct (hook_setStop _) as [s|] eqn:Es; [|discriminate]. injection E as <- <-. cbn. destruct (_stop F); [|by eapply Hset].
  rewrite HJ in Hg by done. by destruct (g_wait_stop F).
Qed.
Lemma tick_keeps t F o F' : tick t F = Some (o, F') -> kept F -> kept F'.
Proof.
  intros E H. destruct t as [n|ms now]; cbn [tick] in E; [injection E as <- <-; unfold signal_handle; by destruct (n =? 3)|].
  unfold kept in H. destruct (_stop F) eqn:Hs; [discriminate|]. unfold turn in E. destruct (measure ms now F) as [[o1 F1]|] eqn:E1; [|discriminate]. cbn in E.
  destruct (check F1) as [[o2 F2]|] eqn:E2; [|discriminate]. cbn in E. destruct (signalStop F2) as [[o3 F3]|] eqn:E3; [|discriminate]. injection E as <- <-.
  destruct (measure_keeps _ _ _ _ _ E1 H) as (H1 & S1). rewrite Hs in S1. destruct (check_keeps _ _ _ E2 S1 H1) as [H2 J2].
  by eapply signalStop_keeps.
Qed.
Lemma run_keeps l : forall F o F', run l F = Some (o, F') -> kept F -> kept F'.
Proof.
  induction l as [|t l IH]; intros F o F' E H; cbn in E; [by injection E as <- <-|].
  destruct (tick t F) as [[o1 F1]|] eqn:E1; [|discriminate]. cbn in E. destruct (run l F1) as [[o2 F2]|] eqn:E2; [|discriminate].
  injection E as <- <-. eapply IH; [exact E2|]. by eapply tick_keeps.
Qed.
End Keeps.

End ServerFrame.

(** ** The servers *)
(** [GateServer]: [checkStop] shuts everything down and leaves [_stop]. *)
Record GateProcess (G : Type) := mkGateProcess { gate : G; gate_down : nat }.
Arguments mkGateProcess {G}.
Arguments gate {G}.
Arguments gate_down {G}.
Section Gate.
Context {G : Type} (net : Z -> G -> option G).
Definition gate_runOnce (nDiff : Z) (p : GateProcess G) : option (GateProcess G) := g ← net nDiff (gate p); Some (mkGateProcess g (gate_down p)).
Definition gate_setStop (p : GateProcess G) : option (GateProcess G) := Some p.
Definition gate_checkStop (p : GateProcess G) : option (GateProcess G * bool) := Some (mkGateProcess (gate p) (gate_down p + 1), false).
Definition gate_hooks : ServerHooks (GateProcess G) := Build_ServerHooks _ gate_runOnce gate_setStop gate_checkStop.
End Gate.

(** [LoginServer], as far as its database goes. *)
Section Login.
Context {Callback Result : Type} (net : Z -> Database Callback Result -> option (Database Callback Result)).
Definition login_setStop (D : Database Callback Result) : option (Database Callback Result) := Some (setObjState _wait_stop_ D).
Definition login_checkStop (D : Database Callback Result) : option (Database Callback Result * bool) := Some (D, bool_decide (_obj_state D = _stop_obj_)).
Definition login_hooks : ServerHooks (Database Callback Result) := Build_ServerHooks _ net login_setStop login_checkStop.
End Login.

(** [DBServer]: [setStop] does nothing; its databases are told to stop by
    [onSaveToClose], fifteen seconds after the message of a game server. *)
Section Db.
Context {Row : Type} `{DBRow Row} (net : Z -> DbServer Row -> option (DbServer Row)).
Definition db_setStop (S : DbServer Row) : option (DbServer Row) := Some S.
Definition db_checkStop (S : DbServer Row) : option (DbServer Row * bool) := Some (S, DbServer.checkStop S).
Definition db_hooks : ServerHooks (DbServer Row) := Build_ServerHooks _ net db_setStop db_checkStop.
End Db.

(** A gate that is told to stop does not end. *)
Lemma gate_never_stops {G : Type} (net : Z -> G -> option G) l F o F' : _stop F = false -> run (hooks := gate_hooks net) l F = Some (o, F') -> _stop F' = false.
Proof.
  intros Hs E. assert (K : kept (fun _ => True) (fun _ => False) F').
  { eapply (run_keeps (hooks := gate_hooks net)); [done|done| |exact E|]; unfold kept; [by intros s s' b [= <- <-]|by rewrite Hs]. }
  unfold kept in K. by destruct (_stop F').
Qed.

(** A login server whose database stops in the turn after it is told to. *)
Definition demo_net (nDiff : Z) (D : Database unit unit) : option (Database unit unit) :=
  Some (if decide (_obj_state D = _wait_stop_) then setObjState _stop_obj_ D else D).
Definition demo_ticks : list Tick := [Turn 5000000000005 5000000000; Turn 5000000000005 5000000000; Signal 2; Signal 3; Turn 5000000000007 5000000000; Turn 5000000000010 5000000000].
Definition demo_run : list Hook * ServerFrame := default ([], init 0 0 new_database) (run (hooks := login_hooks demo_net) demo_ticks (init 5000000000000 5000000000 new_database)).
Lemma demo_run_ok : run (hooks := login_hooks demo_net) demo_ticks (init 5000000000000 5000000000 new_database) = Some (demo_run.1, demo_run.2).
Proof. vm_compute. reflexivity. Qed.
Lemma demo_clock : Forall clock_ok demo_ticks.
Proof. unfold demo_ticks. repeat constructor; vm_compute; congruence. Qed.
