(* ===== verification/Stops.v ===== *)
(** * gameserver: how a game server stops

    gameserver/server.cpp as an instance of the main loop of Loop.v: after the
    signal it saves its heroes and waits until the database server has
    answered that all of them are saved; databaseserver/db_quest.cpp gives
    that answer to one game server. *)
From S2P Require Import Prelude StdMap Data Text Config Record Rank Promotion Names Server HeroTask HeroPlay HeroShop HeroDeal HeroDaily HeroSave HeroLoad World Dispatch Manager Database DbServer Loop Frames Process NoDangling.

(** ** Only the database server says that all heroes are saved *)
Definition quiet {A} (m : W A) : Prop := forall w a w', m w = Ok a w' -> all_saved (globals w') = all_saved (globals w).

Lemma quiet_ret {A} (a : A) : quiet (wret a).
Proof. by intros w a' w' [= _ <-]. Qed.
Lemma quiet_dangling {A} : quiet (@dangling A).
Proof. done. Qed.
Lemma quiet_undefined {A} : quiet (@undefined A).
Proof. done. Qed.
Lemma quiet_gets {A} (f : World -> A) : quiet (wgets f).
Proof. by intros w a w' [= _ <-]. Qed.
Lemma quiet_bind {A B} (m : W A) (f : A -> W B) : quiet m -> (forall a, quiet (f a)) -> quiet (wbind m f).
Proof.
  intros Hm Hf w b w''. unfold wbind. destruct (m w) as [a w'| |] eqn:E; [|done|done]. intros H. rewrite (Hf _ _ _ _ H). by eapply Hm.
Qed.
Lemma quiet_when b (m : W unit) : quiet m -> quiet (wwhen b m).
Proof. destruct b; [done|intros; apply quiet_ret]. Qed.
Lemma quiet_for {A} (l : list A) f : (forall x, quiet (f x)) -> quiet (wfor l f).
Proof. intros Hf. induction l as [|x l IH]; [apply quiet_ret|]. cbn. by apply quiet_bind. Qed.
Lemma quiet_modify f : (forall w, globals (f w) = globals w) -> quiet (wmodify f).
Proof. intros Hf w [] w' [= <-]. by rewrite Hf. Qed.
Lemma quiet_globals f : (forall g, all_saved (f g) = all_saved g) -> quiet (on_globals f).
Proof. intros Hf w [] w' [= <-]. apply Hf. Qed.
Lemma quiet_call {A} p (m : M HS A) : Frame m -> quiet (call_hero p m).
Proof.
  intros Hm w a w'. unfold call_hero. destruct (mfind p (objects w)) as [h|]; [|done]. destruct (m _) as [[b s]|] eqn:E; [|done].
  intros [= _ <-]. by apply Hm in E as (_ & _ & _ & E).
Qed.
Lemma quiet_call_on_hero p f g h : quiet (call_hero p (on_hero f ;;; on_hero g ;;; on_hero h)%monad).
Proof. intros w a w'. unfold call_hero. destruct (mfind p (objects w)) as [x|]; [|done]. by intros [= _ <-]. Qed.
Lemma quiet_call_session p t : quiet (call_hero p (on_hero (set__session t))).
Proof. intros w a w'. unfold call_hero. destruct (mfind p (objects w)) as [x|]; [|done]. by intros [= _ <-]. Qed.
Lemma quiet_call_leave p f t : quiet (call_hero p (on_hero f ;;; on_hero (set__session t))%monad).
Proof. intros w a w'. unfold call_hero. destruct (mfind p (objects w)) as [x|]; [|done]. by intros [= _ <-]. Qed.
Lemma quiet_set_info p m c : quiet (call_hero p (set_info m c)).
Proof.
  intros w a w'. unfold call_hero. destruct (mfind p (objects w)) as [h|]; [|done]. destruct (set_info _ _ _) as [[[] s]|] eqn:E; [|done].
  intros [= _ <-]. by apply set_info_links in E as (_ & _ & _ & E).
Qed.
Lemma quiet_deref p : quiet (deref_hero p).
Proof. intros w a w'. unfold deref_hero. destruct (mfind p (objects w)); [|done]. by intros [= _ <-]. Qed.
Lemma quiet_new h : quiet (new_object h).
Proof. by intros w a w' [= _ <-]. Qed.
Lemma quiet_delete p : quiet (delete_object p).
Proof. intros w a w'. unfold delete_object. destruct (mhas p (objects w)); [|done]. by intros [= _ <-]. Qed.
Lemma quiet_session t : quiet (get_session t).
Proof. intros w a w'. unfold get_session. destruct (mfind t _); [|done]. by intros [= _ <-]. Qed.
Lemma quiet_GetHero acc : quiet (GetHero acc).
Proof. intros w a w'. unfold GetHero. destruct (mfind acc _) as [p|]; [destruct (mhas p _)|]; try done; by intros [= _ <-]. Qed.

Create HintDb quiet.
#[export] Hint Resolve quiet_ret quiet_dangling quiet_undefined quiet_gets quiet_set_info quiet_call_on_hero quiet_call_session quiet_call_leave quiet_deref quiet_new quiet_delete
  quiet_session quiet_GetHero : quiet.
Ltac quiet_step :=
  lazymatch goal with
  | |- quiet (wbind _ _) => apply quiet_bind
  | |- quiet (wwhen _ _) => apply quiet_when
  | |- quiet (wfor _ _) => apply quiet_for
  | |- quiet (on_globals _) => apply quiet_globals; reflexivity
  | |- quiet (wmodify _) => apply quiet_modify; reflexivity
  | |- quiet (call_hero _ _) => first [solve [eauto 1 with quiet] | apply quiet_call; solve [eauto with frame | frame]]
  | |- quiet (match ?x with _ => _ end) => destruct x
  | |- forall _, _ => intros ?
  | |- quiet _ => solve [eauto with quiet]
  end; cbv beta zeta.
Ltac quiet := cbv beta zeta; repeat quiet_step.

(** *** Sessions and heroes *)
Lemma quiet_on_session t f : quiet (on_session t f).
Proof. unfold on_session. quiet. Qed.
Lemma quiet_setDreamHero p t : quiet (setDreamHero p t).
Proof. apply quiet_on_session. Qed.
Lemma quiet_register p : quiet (register p).
Proof. unfold register. quiet. Qed.
#[export] Hint Resolve quiet_on_session quiet_setDreamHero quiet_register : quiet.

Lemma quiet_CreateHero_info m acc t : quiet (CreateHero_info m acc t).
Proof. unfold CreateHero_info. quiet. Qed.
Lemma quiet_CreateHero acc t : quiet (CreateHero acc t).
Proof. unfold CreateHero. quiet. Qed.
Lemma quiet_DestroyHero p : quiet (DestroyHero p).
Proof. unfold DestroyHero. quiet. Qed.
#[export] Hint Resolve quiet_CreateHero_info quiet_CreateHero quiet_DestroyHero : quiet.
Lemma quiet_Destroy p : quiet (Destroy p).
Proof. unfold Destroy. quiet. Qed.
Lemma quiet_GetHeroByName name : quiet (GetHeroByName name).
Proof.
  unfold GetHeroByName. apply quiet_bind; [quiet|]. intros l. induction l as [|[acc p] l IH]; [quiet|]. cbn. quiet.
Qed.
Lemma quiet_session_send t msg : quiet (session_sendPBMessage t msg).
Proof. unfold session_sendPBMessage. quiet. apply quiet_globals. intros g. unfold session_send. by destruct (m_online _). Qed.
Lemma quiet_on_session_hero t m : Frame m -> quiet (on_session_hero t m).
Proof. intros Hm. unfold on_session_hero. quiet. Qed.
#[export] Hint Resolve quiet_Destroy quiet_GetHeroByName quiet_session_send : quiet.
#[export] Hint Extern 2 (quiet (on_session_hero _ _)) => apply quiet_on_session_hero; solve [eauto with frame | frame] : quiet.
Lemma quiet_Session_Session t acc gate c : quiet (Session_Session t acc gate c).
Proof. unfold Session_Session. quiet. Qed.
Lemma quiet_release_session t : quiet (release_session t).
Proof. unfold release_session, Session_close, Session_destroy, on_session_hero. quiet. Qed.
#[export] Hint Resolve quiet_Session_Session quiet_release_session : quiet.
Lemma quiet_removeGate nId gate : quiet (removeGate nId gate).
Proof. unfold removeGate, removeUserByGate. quiet. Qed.
Lemma quiet_parseAddUser gate t acc c unset : quiet (parseAddUser gate t acc c unset).
Proof. unfold parseAddUser, addUser, setReconnet. quiet. Qed.
#[export] Hint Resolve quiet_removeGate quiet_parseAddUser : quiet.

(** *** Messages *)
Lemma quiet_gm_level t name level : quiet (parseCmdReqMdodifyGMLevel t name level).
Proof. unfold parseCmdReqMdodifyGMLevel, SetGMLevel. quiet. Qed.
#[export] Hint Resolve quiet_gm_level : quiet.
Lemma quiet_parsePBMessage win32 t msg : quiet (parsePBMessage win32 t msg).
Proof.
  unfold parsePBMessage. apply quiet_bind; [quiet|]. intros ss. destruct (hero_request win32 msg) as [m|] eqn:Eh.
  { apply quiet_on_session_hero. by eapply frame_hero_request. }
  destruct (gm_command ss msg) as [[[] m]|] eqn:Eg.
  - apply quiet_on_session_hero. by eapply frame_gm_command.
  - unfold on_hero_unchecked. quiet. apply quiet_call. by eapply frame_gm_command.
  - clear Eh Eg. unfold parseReqGameGlobalConfig, parseReqShopConfig, parseReqDailyGameRankList, parseReqActivityAnnouncement. quiet.
Qed.
#[export] Hint Resolve quiet_parsePBMessage : quiet.

(** *** Periodic work *)
Lemma quiet_each_hero m : Frame m -> quiet (each_hero m).
Proof. intros Hm. unfold each_hero. quiet. Qed.
#[export] Hint Extern 2 (quiet (each_hero _)) => apply quiet_each_hero; solve [eauto with frame | frame] : quiet.
Lemma quiet_world_sql sql : quiet (world_sql sql).
Proof. by apply quiet_globals. Qed.
#[export] Hint Resolve quiet_world_sql : quiet.
Lemma quiet_settle_loop b l : forall n i s1 s2, quiet (settle_loop b l n i s1 s2).
Proof. induction l as [|e l IH]; intros; cbn; quiet. Qed.
#[export] Hint Resolve quiet_settle_loop : quiet.
Lemma quiet_DailyGameUpdate : quiet DailyGameUpdate.
Proof. unfold DailyGameUpdate. quiet. Qed.
#[export] Hint Resolve quiet_DailyGameUpdate : quiet.
Lemma quiet_dayRefresh : quiet DreamHeroManager_dayRefresh.
Proof. unfold DreamHeroManager_dayRefresh. quiet. Qed.
Lemma quiet_save : quiet DreamHeroManager_save.
Proof. intros w [] w' [= <-]. done. Qed.
#[export] Hint Resolve quiet_dayRefresh quiet_save : quiet.
Lemma refreshHeroTitle_saved tz now opened g g' : refreshHeroTitle tz now opened g = Some g' -> _save_all_heroes_ok g' = _save_all_heroes_ok g.
Proof.
  unfold refreshHeroTitle. destruct (_ >? _); [|by intros [= <-]]. cbv zeta beta. intros E. do 3 apply bind_Some in E as (? & _ & E). by injection E as <-.
Qed.
Lemma quiet_refreshDayNumber shuffles : quiet (DreamHeroManager_refreshDayNumber shuffles).
Proof.
  intros w [] w'. unfold DreamHeroManager_refreshDayNumber, wbind at 1, wgets. destruct (refreshDayNumber _ _ _ _ _) as [names|] eqn:E; [|done].
  unfold wbind at 1. unfold on_globals at 1, wmodify. intros H. apply quiet_save in H. rewrite H. cbn. unfold all_saved. cbn.
  by apply refreshHeroTitle_saved in E.
Qed.
Lemma quiet_world_DayPass : quiet world_DayPass.
Proof. unfold world_DayPass. quiet. Qed.
#[export] Hint Resolve quiet_refreshDayNumber quiet_world_DayPass : quiet.
Lemma quiet_eventPerMin shuffles p2 : quiet (eventPerMin shuffles p2).
Proof. unfold eventPerMin. quiet. Qed.
Lemma quiet_SaveDreamHeroes : quiet SaveDreamHeroes.
Proof. unfold SaveDreamHeroes. quiet. Qed.
Lemma quiet_CollectInfo : quiet CollectInfo.
Proof.
  unfold CollectInfo. apply quiet_bind; [quiet|]. intros l. apply quiet_bind; [|quiet].
  enough (K : forall a b, quiet (count_online l a b)) by done. induction l as [|[acc p] l IH]; intros a b; [quiet|]. cbn. quiet.
Qed.
#[export] Hint Resolve quiet_eventPerMin quiet_SaveDreamHeroes quiet_CollectInfo : quiet.

Lemma quiet_VerifyDeal acc product status order e : quiet (VerifyDeal_logicExcute acc product status order e).
Proof. unfold VerifyDeal_logicExcute, OfflineHeroDealWaitToPay. quiet. Qed.
#[export] Hint Resolve quiet_VerifyDeal : quiet.

Definition is_answer (ev : Event) : bool := match ev with SavedAllHeroes => true | _ => false end.

(** The answer of the database server sets the flag, and nothing else does. *)
Lemma step_saved win32 ev w w' : step win32 ev w = Ok tt w' -> all_saved (globals w') = all_saved (globals w) || is_answer ev.
Proof.
  intros E. assert (K : quiet (step win32 ev) -> is_answer ev = false -> all_saved (globals w') = all_saved (globals w) || is_answer ev).
  { intros Hq ->. rewrite orb_false_r. by eapply Hq. }
  destruct ev; cbn [step] in *; try (apply K; [|done]); clear K.
  - unfold addGate. quiet.
  - quiet.
  - quiet.
  - unfold removeUser. quiet.
  - unfold offlineUser, setWaitReconnet. quiet.
  - unfold parseUserMsg. quiet.
  - unfold parseNeedCreateHero, when_user, parseDBQueryNeedCreateHero. quiet.
  - unfold parseQueryHeroInfo, when_user, praseDBQueryHeroInfo. quiet.
  - injection E as <-. cbn. by rewrite orb_true_r.
  - unfold CreateDeal_logicExcute. quiet.
  - quiet.
  - quiet.
  - quiet.
  - quiet.
  - quiet.
  - unfold DreamHeroManager_recoverSpirit. quiet.
  - quiet.
  - quiet.
  - quiet.
  - unfold clinch_deal. quiet.
Qed.

(** ** The game server in the main loop *)
(** What reaches [runOnce]: an event of Process.v, or one of the timers that
    log the time that has passed. *)
Inductive GameEvent := GameStep (ev : Event) | MinuteCollect | TenMinuteCollect.
(** [inbox]: what the network, the timers and the HTTP thread hold ready for
    each [runOnce] to come; [game_down]: how often [shutDown] ran. *)
Record GameProcess := mkGameProcess {
  world : World; inbox : list (list GameEvent); _time_pass : Z; _last_pass : Z; _last_ten_pass : Z; game_down : nat
}.
Definition set_world (w : World) (p : GameProcess) : GameProcess :=
  mkGameProcess w (inbox p) (_time_pass p) (_last_pass p) (_last_ten_pass p) (game_down p).
Definition run_world (m : W unit) (p : GameProcess) : option GameProcess :=
  match m (world p) with Ok _ w => Some (set_world w p) | _ => None end.

Section Game.
Context (win32 : bool).
Definition game_event (ev : GameEvent) (p : GameProcess) : option GameProcess :=
  match ev with
  | GameStep ev => run_world (Process.step win32 ev) p
  | MinuteCollect => Some (mkGameProcess (world p) (inbox p) (_time_pass p) (_time_pass p) (_last_ten_pass p) (game_down p))
  | TenMinuteCollect => Some (mkGameProcess (world p) (inbox p) (_time_pass p) (_last_pass p) (_time_pass p) (game_down p))
  end.
Fixpoint game_events (l : list GameEvent) (p : GameProcess) : option GameProcess :=
  match l with [] => Some p | ev :: l => p ← game_event ev p; game_events l p end.
Definition game_runOnce (nDiff : Z) (p : GameProcess) : option GameProcess :=
  p ← game_events (hd [] (inbox p)) p;
  Some (mkGameProcess (world p) (tl (inbox p)) (u64 (_time_pass p + nDiff)) (_last_pass p) (_last_ten_pass p) (game_down p)).
Definition game_setStop : GameProcess -> option GameProcess := run_world SaveDreamHeroes.
Definition shutDown (p : GameProcess) : GameProcess :=
  mkGameProcess (world p) (inbox p) (_time_pass p) (_last_pass p) (_last_ten_pass p) (S (game_down p)).
Definition game_checkStop (p : GameProcess) : option (GameProcess * bool) :=
  if all_saved (globals (world p)) then p ← run_world SaveDreamHeroes p; Some (shutDown p, true)
  else Some (p, false).
#[local] Instance game_hooks : ServerHooks GameProcess := Build_ServerHooks _ game_runOnce game_setStop game_checkStop.

Definition answers (l : list GameEvent) : bool := existsb (fun ev => match ev with GameStep ev => is_answer ev | _ => false end) l.

Lemma run_world_keeps m p p' : quiet m -> run_world m p = Some p' ->
  all_saved (globals (world p')) = all_saved (globals (world p)) /\ inbox p' = inbox p /\ game_down p' = game_down p.
Proof.
  unfold run_world. intros Hm E. destruct (m (world p)) as [[] w| |] eqn:Em; try discriminate. injection E as <-.
  split; [by eapply Hm|done].
Qed.
Lemma game_events_saved l : forall p p', game_events l p = Some p' ->
  all_saved (globals (world p')) = all_saved (globals (world p)) || answers l /\ inbox p' = inbox p /\ game_down p' = game_down p.
Proof.
  induction l as [|ev l IH]; intros p p' E; cbn in E; [injection E as <-; by rewrite orb_false_r|].
  destruct (game_event ev p) as [p1|] eqn:E1; [|discriminate]. cbn in E. destruct (IH _ _ E) as (-> & -> & ->). cbn. rewrite orb_assoc.
  destruct ev as [ev| |]; cbn in E1; [|injection E1 as <-; by rewrite orb_false_r..].
  unfold run_world in E1. destruct (Process.step win32 ev (world p)) as [[] w| |] eqn:Ew; try discriminate. injection E1 as <-. cbn.
  by rewrite (step_saved _ _ _ _ Ew).
Qed.
Lemma game_runOnce_saved d p p' : game_runOnce d p = Some p' ->
  all_saved (globals (world p')) = all_saved (globals (world p)) || answers (hd [] (inbox p)) /\ inbox p' = tl (inbox p) /\ game_down p' = game_down p.
Proof.
  unfold game_runOnce. intros E. destruct (game_events _ p) as [p1|] eqn:E1; [|discriminate]. injection E as <-.
  destruct (game_events_saved _ _ _ E1) as (H1 & H2 & H3). by rewrite H2.
Qed.

(** What the loop keeps: the flag is up when the answer was among the events
    handled so far. *)
Definition handled (p0 p : GameProcess) : Prop := exists k, inbox p = drop k (inbox p0) /\
  all_saved (globals (world p)) = answers (concat (take k (inbox p0))).
Definition going (p0 p : GameProcess) : Prop := handled p0 p /\ game_down p = game_down p0.
(** A server that has ended: shut down once, its heroes just saved again. *)
Definition ended (p0 p : GameProcess) : Prop := handled p0 p /\ game_down p = S (game_down p0) /\
  all_saved (globals (world p)) = true /\ exists w, SaveDreamHeroes w = Ok tt (world p).

Lemma handled_run p0 d p p' : game_runOnce d p = Some p' -> handled p0 p -> handled p0 p'.
Proof.
  intros E (k & H1 & H2). destruct (game_runOnce_saved _ _ _ E) as (E1 & E2 & _). rewrite H1 in E1, E2. unfold handled. rewrite E1, E2, H2.
  destruct (decide (k < length (inbox p0))%nat) as [Hk|Hk].
  - destruct (lookup_lt_is_Some_2 _ _ Hk) as [b Hb]. exists (S k). rewrite (drop_S _ _ _ Hb), (take_S_r _ _ _ Hb), concat_app. cbn.
    rewrite app_nil_r. unfold answers. by rewrite existsb_app.
  - exists k. rewrite drop_ge by lia. cbn. by rewrite orb_false_r.
Qed.
Lemma going_run p0 d p p' : game_runOnce d p = Some p' -> going p0 p -> going p0 p'.
Proof. intros E [H1 H2]. split; [by eapply handled_run|]. destruct (game_runOnce_saved _ _ _ E) as (_ & _ & ->). done. Qed.
Lemma handled_world m p0 p p' : quiet m -> run_world m p = Some p' -> going p0 p -> going p0 p'.
Proof.
  intros Hm E [(k & H1 & H2) H3]. destruct (run_world_keeps _ _ _ Hm E) as (E1 & E2 & E3). split; [exists k; by rewrite E1, E2|by rewrite E3].
Qed.
Lemma game_check p0 p p' (b : bool) : game_checkStop p = Some (p', b) -> going p0 p -> if b then ended p0 p' else going p0 p'.
Proof.
  unfold game_checkStop. intros E H. destruct (all_saved _) eqn:Hs; [|by injection E as <- <-].
  destruct (run_world _ p) as [p1|] eqn:E1; [|discriminate]. injection E as <- <-.
  destruct (run_world_keeps _ _ _ quiet_SaveDreamHeroes E1) as (H1 & H2 & H3).
  destruct (handled_world _ _ _ _ quiet_SaveDreamHeroes E1 H) as [H4 H5].
  split; [done|]. split; [by rewrite <- H5|]. split; [by rewrite <- Hs|]. exists (world p). clear -E1. unfold run_world in E1.
  destruct (SaveDreamHeroes (world p)) as [[] w| |]; [by injection E1 as <-|discriminate..].
Qed.
Lemma game_run l F o F' p0 : run l F = Some (o, F') -> kept (going p0) (ended p0) F -> kept (going p0) (ended p0) F'.
Proof.
  apply run_keeps; [apply going_run|intros s s'; apply handled_world, quiet_SaveDreamHeroes|apply game_check].
Qed.

Lemma game_next_turn F ms now o F' : _wait_stop F = true -> all_saved (globals (world (server F))) = true ->
  tick (Turn ms now) F = Some (o, F') -> _stop F' = true.
Proof.
  intros Hw Hs E. cbn [tick] in E. destruct (_stop F); [discriminate|]. unfold turn in E.
  destruct (measure ms now F) as [[o1 F1]|] eqn:E1; [|discriminate]. cbn [mbind option_bind] in E.
  assert (H1 : _wait_stop F1 = true /\ all_saved (globals (world (server F1))) = true).
  { unfold measure in E1. destruct (_ =? 0); [by injection E1 as <- <-|]. cbn [mbind option_bind] in E1.
    destruct (hook_runOnce _ _) as [s|] eqn:Es; [|discriminate]. injection E1 as <- <-. cbn. split; [done|].
    destruct (game_runOnce_saved _ _ _ Es) as (Ha & _). cbn in Ha. by rewrite Ha, Hs. }
  destruct H1 as [W1 S1]. destruct (check F1) as [[o2 F2]|] eqn:E2; [|discriminate]. cbn [mbind option_bind] in E.
  assert (H2 : _stop F2 = true /\ _wait_stop F2 = true).
  { unfold check in E2. rewrite W1 in E2. destruct (hook_checkStop _) as [[s b]|] eqn:Es; [|discriminate]. injection E2 as <- <-. cbn.
    unfold hook_checkStop, game_hooks, game_checkStop in Es. rewrite S1 in Es. destruct (run_world _ _); [|discriminate]. injection Es as <- <-.
    by rewrite orb_true_r. }
  destruct H2 as [S2 W2]. unfold signalStop in E. rewrite W2, andb_false_r in E. by injection E as <- <-.
Qed.

Lemma game_run_ok ms now p l o F : Forall clock_ok l -> all_saved (globals (world p)) = false -> run l (init ms now p) = Some (o, F) ->
  handled p (server F) /\ (if _stop F then ended p (server F) /\ signalled l = true else game_down (server F) = game_down p).
Proof.
  intros Hl Hp E.
  assert (K : kept (going p) (ended p) F) by (eapply game_run; [exact E|]; split; [by exists 0%nat|done]).
  destruct (run_ok ms l [] _ o F (init_ok ms now p) Hl E) as ([_ _ _ K4 K5] & _ & G). cbn in G. unfold kept in K.
  destruct (_stop F); destruct K as [H K]; [|done]. split; [done|]. split; [done|]. rewrite <- G. by apply K5, K4.
Qed.

End Game.

(** ** The answer that lets a game server stop *)
Section Answer.
Context {Row : Type} `{DBRow Row}.
Definition told (o : list Out) : list (list Sent) := omap (fun x => match x with Told s => Some s | _ => None end) o.
Lemma told_app o o' : told (o ++ o') = told o ++ told o'.
Proof. apply omap_app. Qed.
Lemma callback_told c r s (S : DbServer Row) : told (callback c r s S).1 = [] /\ _receive_cose_msg (callback c r s S).2 = _receive_cose_msg S.
Proof. unfold callback, found_hero. destruct c; cbn; [done| |done]. case_match; cbn; [|done]. by destruct (running (chars S)). Qed.
Lemma give_told which set (S : DbServer Row) o S' : (forall D S, _receive_cose_msg (set D S) = _receive_cose_msg S) -> give which set S = Some (o, S') ->
  told o = [] /\ _receive_cose_msg S' = _receive_cose_msg S.
Proof.
  intros Hset E. unfold give in E. destruct (act Give (which S)) as [[log D]|]; [|discriminate]. cbn in E. injection E as E.
  destruct log as [|[] []]; try (injection E as <- <-; split; [done|apply Hset]).
  destruct (execute t) as [[[c r] s]|]; [|injection E as <- <-; split; [done|apply Hset]].
  pose proof (callback_told c r s (set D S)) as [H1 H2]. rewrite E in H1, H2. cbn in H1, H2. by rewrite H2, Hset.
Qed.
Lemma step_told ev (S : DbServer Row) o S' : DbServer.step ev S = Some (o, S') ->
  (told o = [] /\ _receive_cose_msg S' = _receive_cose_msg S) \/
  ((exists s, told o = [s] /\ (length s <= 1)%nat) /\ _receive_cose_msg S = false /\ _receive_cose_msg S' = true).
Proof.
  intros E. destruct ev as [g|g id v|g acc flag|sql|sql|g|g|g| |a|a| |]; cbn [DbServer.step] in E.
  1-6,8: destruct (idle S); [|discriminate].
  - injection E as <- <-. by left.
  - injection E as <- <-. left. unfold addGame. by destruct v, (valid_id _).
  - injection E as <- <-. left. by destruct (running (chars S)).
  - injection E as <- <-. by left.
  - injection E as <- <-. by left.
  - injection E as E. unfold parseMsgSaveAllHeroesGS2DB, saveToClose in E. destruct (_receive_cose_msg S) eqn:Hr; injection E as <- <-; [by left|right].
    split; [|by destruct (save_to_close S)]. eexists. split; [reflexivity|]. unfold sendMessage, sendPBMessage. repeat case_match; cbn; lia.
  - injection E as <- <-. left. unfold on_close, removeGame. by case_match.
  - injection E as <- <-. by left.
  - destruct (save_to_close S); [|discriminate]. destruct (idle S); [|discriminate]. injection E as <- <-. by left.
  - destruct (internal a); [|discriminate]. destruct (act a (chars S)) as [[l D]|]; [|discriminate]. injection E as <- <-. by left.
  - destruct (internal a); [|discriminate]. destruct (act a (records S)) as [[l D]|]; [|discriminate]. injection E as <- <-. by left.
  - left. eapply give_told; [|exact E]. done.
  - left. eapply give_told; [|exact E]. done.
Qed.

(** However many game servers ask to stop, however often, one message at most
    ever tells one of them that it may. *)
Lemma one_game_may_stop Q strict ct rt o (S : DbServer Row) : DbServer.runs Q strict ct rt o S -> (length (concat (told o)) <= 1)%nat.
Proof.
  intros R. assert (K : if _receive_cose_msg S then (length (concat (told o)) <= 1)%nat else told o = []).
  { induction R as [|o S ev o' S' _ IH _ E]; [done|]. rewrite told_app. destruct (step_told _ _ _ _ E) as [[-> ->]|((s & -> & Hs) & H1 & ->)].
    - by rewrite app_nil_r.
    - rewrite H1 in IH. rewrite IH. cbn. by rewrite app_nil_r. }
  destruct (_receive_cose_msg S); [done|]. rewrite K. cbn. lia.
Qed.
End Answer.

(** Two game servers stop at the same time: the second is not answered, and
    waits for ever. *)
Example second_game_waits : (fun x => told x.1) <$>
  DbServer.steps [DbServer.Accept 1; DbServer.Register 1 3 true; DbServer.Accept 2; DbServer.Register 2 4 true;
    DbServer.SaveAllHeroes 1; DbServer.SaveAllHeroes 2; DbServer.SaveTimer; DbServer.SaveAllHeroes 2] (DbServer.start (Row := saved_row) 1 1)
  = Some [[mkSent 1 MsgSaveAllHeroesDB2GS 0]].
Proof. vm_compute. reflexivity. Qed.

(** ** Both together *)
(** The answers a game server handles come from the database server. *)
Definition from_database (o : list Out) (g : GameId) (p : GameProcess) : Prop :=
  answers (concat (inbox p)) = true -> exists m, m ∈ concat (told o) /\ to m = g.
Definition game_started (p : GameProcess) : Prop := all_saved (globals (world p)) = false.
Lemma answers_take k (l : list (list GameEvent)) : answers (concat (take k l)) = true -> answers (concat l) = true.
Proof.
  intros H. rewrite <- (take_drop k l), concat_app. unfold answers in *. by rewrite existsb_app, H.
Qed.
Lemma ended_told win32 o g ms now p l o' F : from_database o g p -> game_started p -> Forall clock_ok l ->
  run (hooks := game_hooks win32) l (init ms now p) = Some (o', F) -> _stop F = true -> exists m, m ∈ concat (told o) /\ to m = g.
Proof.
  intros Hd Hp Hl E Hs. apply Hd. destruct (game_run_ok _ _ _ _ _ _ _ Hl Hp E) as [(k & _ & H2) K]. rewrite Hs in K.
  destruct K as [(_ & _ & Ha & _) _]. eapply answers_take. by rewrite <- H2.
Qed.

(** However the game servers of one database server are stopped, and whatever
    else happens in them, no two of them end in the life of that database
    server. *)
Theorem one_game_server_ends {Row : Type} `{DBRow Row} win32 Q strict ct rt o (S : DbServer Row)
    g1 ms1 now1 p1 l1 o1 F1 g2 ms2 now2 p2 l2 o2 F2 :
  DbServer.runs Q strict ct rt o S ->
  from_database o g1 p1 -> game_started p1 -> Forall clock_ok l1 -> run (hooks := game_hooks win32) l1 (init ms1 now1 p1) = Some (o1, F1) ->
  from_database o g2 p2 -> game_started p2 -> Forall clock_ok l2 -> run (hooks := game_hooks win32) l2 (init ms2 now2 p2) = Some (o2, F2) ->
  _stop F1 = true -> _stop F2 = true -> g1 = g2.
Proof.
  intros R D1 P1 L1 E1 D2 P2 L2 E2 S1 S2. pose proof (one_game_may_stop _ _ _ _ _ _ R) as K.
  destruct (ended_told _ _ _ _ _ _ _ _ _ D1 P1 L1 E1 S1) as (m1 & M1 & <-). destruct (ended_told _ _ _ _ _ _ _ _ _ D2 P2 L2 E2 S2) as (m2 & M2 & <-).
  destruct (concat (told o)) as [|m [|m' ms]]; cbn in K; [by apply elem_of_nil in M1| |lia].
  apply list_elem_of_singleton in M1, M2. by subst.
Qed.

(** A game server with one player, told to stop while it runs. *)
Definition demo_game : GameProcess :=
  mkGameProcess (started demo_server) [[GameStep (GateRegister 1 77); GameStep (AddUser 1 9 42 7 0); GameStep (NeedCreateHero 9)]; [MinuteCollect]; []; [GameStep SavedAllHeroes]] 0 0 0 0.
Definition demo_ticks : list Tick := [Turn 1010 1; Turn 1020 1; Signal 3; Turn 1030 1; Turn 1040 1].
Definition demo_run : list Hook * ServerFrame :=
  default ([], init 0 0 demo_game) (run (hooks := game_hooks false) demo_ticks (init 1000 1 demo_game)).
Lemma stop_runs : run (hooks := game_hooks false) demo_ticks (init 1000 1 demo_game) = Some (demo_run.1, demo_run.2).
Proof. vm_compute. reflexivity. Qed.
Lemma stop_clock : Forall clock_ok demo_ticks.
Proof. repeat constructor; vm_compute; congruence. Qed.
Lemma demo_ends : _stop demo_run.2 = true.
Proof. vm_compute. reflexivity. Qed.

(** It is the only one that asks. *)
Definition demo_closing : list (DbServer.Event saved_row) := [DbServer.Accept 1; DbServer.Register 1 3 true; DbServer.SaveAllHeroes 1].
Definition demo_told : list Out := default [] (fst <$> check_run demo_rows demo_closing (DbServer.start 1 1)).
Definition demo_closed : DbServer saved_row := default (DbServer.start 1 1) (snd <$> check_run demo_rows demo_closing (DbServer.start 1 1)).
Lemma demo_closing_runs : check_run demo_rows demo_closing (DbServer.start 1 1) = Some (demo_told, demo_closed).
Proof. vm_compute. reflexivity. Qed.
Lemma demo_from_database : from_database demo_told 1 demo_game.
Proof. intros _. exists (mkSent 1 MsgSaveAllHeroesDB2GS 0). split; [vm_compute; left|done]. Qed.
Lemma one_game_server_ends_witness : _stop demo_run.2 = true /\ 1%positive = 1%positive.
Proof.
  split; [vm_compute; reflexivity|].
  exact (one_game_server_ends false _ _ _ _ demo_told demo_closed 1 _ _ _ _ _ _ 1 _ _ _ _ _ _
    (check_runs demo_rows 1 1 demo_closing [] (DbServer.start 1 1) demo_told demo_closed (DbServer.runs_start _ _ 1 1) demo_closing_runs)
    demo_from_database eq_refl stop_clock stop_runs demo_from_database eq_refl stop_clock stop_runs demo_ends demo_ends).
Defined.
