(* ===== verification/Startup.v ===== *)
(** * common, login, gateserver, databaseserver: how the servers start

    The configuration files and tables (server_frame.cpp, net_type.h,
    database.h) and the [init] of three servers (their server.cpp); the game
    server's is in GameStart.v.  jsoncpp, the resolver and MySQL answer through
    [Env]; what a start does to the outside is a list of [Did]. *)
From S2P Require Import Prelude Text LoginServer Config.

(** ** Configuration data *)
Record net_info := mkNetInfo {
  _id : Z; _ip : string; _port : Z; _time_out : Z; _max_connect : Z; _thread_count : Z; _ipv4 : bool
}.
Definition new_net_info : net_info := mkNetInfo 0 "10.1.1.115" 10104 0 2000 0 true.
Record service_config := mkServiceConfig {
  id : Z; limit_player : Z; thread_count : Z; proc_interval : Z; speed_ : bool; msg_pool_size : Z
}.
Definition new_service_config : service_config := mkServiceConfig 0 0 0 0 true 0.
Record DataBaseConfig := mkDataBaseConfig {
  conf_id : Z; _db : string; _adrs : string; _user : string; _pwd : string; conf_port : Z; _thread_ : Z
}.
Definition new_DataBaseConfig : DataBaseConfig := mkDataBaseConfig 0 "db" "127.0.0.1" "" "" 0 0.

(** What jsoncpp says of a value; an absent member is its null value. *)
Record Json := mkJson { isIntegral : bool; asUInt : Z; asInt : Z; isString : bool; asString : string }.
Definition getUInt_Value (key : string) (root : string -> Json) : Z := if isIntegral (root key) then asUInt (root key) else 0.
Definition getInt_Value (key : string) (root : string -> Json) : Z := if isIntegral (root key) then asInt (root key) else 0.
Definition getString_Value (key : string) (root : string -> Json) : string := if isString (root key) then asString (root key) else "".

(** [ServerFrame]'s categories of [net_config] and [database_config]. *)
Definition _LOGIN_LISTEN_USER_ : Z := 0.
Definition _LOGIN_LISTEN_GATE_ : Z := 1.
Definition _GATE_LISTEN_USER_ : Z := 2.
Definition _GAME_LISTEN_GATE_ : Z := 3.
Definition _DB_LISNEN_GAME_ : Z := 4.
Definition _FU_CHARACTER_DATABASE_ : Z := 0.
Definition _FU_WORLD_DATABASE_ : Z := 1.
Definition _FU_RECORD_DATABASE_ : Z := 2.

Inductive Listener := UserServer | GateListener | GameListener.
Inductive Client := LoginClient | DBClient | PlatformClient | GameClient.
#[export] Instance Listener_eq_dec : EqDecision Listener.
Proof. solve_decision. Defined.
#[export] Instance Client_eq_dec : EqDecision Client.
Proof. solve_decision. Defined.
Inductive Db := CharDatabase | WorldDatabase | RecordDatabase | CenterDatabase.
Inductive TimerEvent :=
  | EVENT_PER_TEN_MIN_COLLECT_ | EVENT_PER_MIN_COLLECT_ | EVENT_COLLECT_INFO_ | EVENT_RECOVER_SPIRIT_ | EVENT_PER_MIN | EVENT_SAVE_HEROES_STATU
  | EVENT_SAVE_DAILY_GAME_RANK_.
Inductive Did :=
  | InitService (c : service_config)
  | Listen (l : Listener) (port max_connect thread_count : Z)
  | Connect (c : Client) (ip : string) (port : Z)
  | InitDatabase (d : Db) (c : DataBaseConfig)
  | AddEvent (e : TimerEvent) (period : Z)
  | StartHttp.

(** The outside. [file]: a configuration file, when it can be opened and
    parsed; [gethostbyname]: the four bytes of the first address, as [char]s;
    [reachable]: MySQL lets us in; [answer]: its rows, when it does not throw. *)
Record Env (Row : Type) := mkEnv {
  file : string -> option (string -> Json);
  gethostbyname : string -> option (Z * Z * Z * Z);
  reachable : DataBaseConfig -> bool;
  answer : DataBaseConfig -> string -> option (list Row);
  create : Listener -> Z -> Z -> Z -> bool
}.
Arguments file {Row}.
Arguments gethostbyname {Row}.
Arguments reachable {Row}.
Arguments answer {Row}.
Arguments create {Row}.

(** ** A start as a program: what it did, its state, and how it ended.
    [Refused]: [init] returns false, by itself or for an exception caught in
    [addBlockTask]; [Dies]: undefined behaviour. *)
Inductive Ended (A : Type) := Done (a : A) | Refused | Dies.
Arguments Done {A}.
Arguments Refused {A}.
Arguments Dies {A}.
Section Program.
Context {St : Type}.
Definition I (A : Type) : Type := list Did * St -> Ended A * (list Did * St).
Definition iret {A} (a : A) : I A := fun s => (Done a, s).
Definition refuse {A} : I A := fun s => (Refused, s).
Definition ibind {A B} (m : I A) (f : A -> I B) : I B := fun s =>
  match m s with (Done a, s) => f a s | (Refused, s) => (Refused, s) | (Dies, s) => (Dies, s) end.
Definition did (d : Did) : I unit := fun s => (Done tt, (s.1 ++ [d], s.2)).
Definition on_state (f : St -> St) : I unit := fun s => (Done tt, (s.1, f s.2)).
Definition get_state {A} (f : St -> A) : I A := fun s => (Done (f s.2), s).
Definition need {A} (o : option A) : I A := match o with Some a => iret a | None => refuse end.
Definition defined {A} (o : option A) : I A := fun s => (match o with Some a => Done a | None => Dies end, s).
Definition require (b : bool) : I unit := if b then iret tt else refuse.
End Program.
Declare Scope start_scope.
Delimit Scope start_scope with start.
Notation "'let*' x := m 'in' k" := (ibind m (fun x => k)) (at level 10, x name, m at level 100, k at level 200) : start_scope.
Notation "m ;;; k" := (ibind m (fun _ => k)) (at level 100, k at level 200, right associativity) : start_scope.
#[local] Open Scope start_scope.

Definition CENTER_DATABASE_CONFIG : string := "../server_conf/database.json".
Definition SERVER_CONFIG : string := "conf/server.json".

Create HintDb adds.
Section Startup.
Context {Row : Type} `{DBRow Row} (E : Env Row).

(** ** ServerFrame *)
Definition getIpByname (address : string) : option string :=
  '(a, b, c, d) ← gethostbyname E address;
  Some (sprintf "%u.%u.%u.%u" [AU (Z.land a 255); AU (Z.land b 255); AU (Z.land c 255); AU (Z.land d 255)]).
(** A name that does not resolve leaves the name in [_ip]. *)
Definition loadNetConfig (str : string) : option net_info :=
  root ← file E str;
  let ip := getString_Value "ip" root in
  Some (mkNetInfo 0 (default ip (getIpByname ip)) (u16 (getUInt_Value "port" root)) (getUInt_Value "time_out" root)
    (getUInt_Value "max_connect" root) (u16 (getUInt_Value "thread_count" root)) true).
Definition loadDBConfig (str : string) : option DataBaseConfig :=
  root ← file E str;
  adrs ← getIpByname (getString_Value "ip" root);
  Some (mkDataBaseConfig 0 (getString_Value "db" root) adrs (getString_Value "user" root) (getString_Value "password" root)
    (getUInt_Value "port" root) (getUInt_Value "thread_count" root)).
Definition loadServiceConfig (str : string) : option service_config :=
  root ← file E str;
  Some (mkServiceConfig (u8 (getUInt_Value "serviceid" root)) (getUInt_Value "limit" root) (u16 (getUInt_Value "thread_count" root))
    (u16 (getUInt_Value "proc_interval" root)) (negb (getUInt_Value "max_speed" root =? 0)) (getUInt_Value "msg_pool_size" root)).

(** The row of a listener or client, its name not yet resolved. *)
Definition net_row (row : Row) : net_info :=
  mkNetInfo (u8 (row_int row "ServerId")) (row_str row "Ip") (u16 (row_int row "Port")) (u32 (row_int row "OutTime"))
    (u32 (row_int row "MaxConnect")) (u16 (row_int row "ThreadCount")) true.
Definition set_ip (ip : string) (c : net_info) : net_info :=
  mkNetInfo (_id c) ip (_port c) (_time_out c) (_max_connect c) (_thread_count c) (_ipv4 c).
(** Only the first row counts. *)
Definition getNetConfig (rows : list Row) : option net_info :=
  match rows with
  | row :: _ => ip ← getIpByname (row_str row "Ip"); Some (set_ip ip (net_row row))
  | [] => None
  end.
Definition getDatabaseConfig (rows : list Row) : option DataBaseConfig :=
  match rows with
  | row :: _ => Some (mkDataBaseConfig (u8 (row_int row "Id")) (row_str row "DBName") (row_str row "DBIp") (row_str row "User") (row_str row "Password")
      (u32 (row_int row "Port")) (u32 (row_int row "Thread")))
  | [] => None
  end.

(** The statements, with MySQL++'s [%0] and [%1] filled in. *)
Definition net_query (category : Z) : string := "SELECT * FROM `net_config` WHERE `Category` = " +:+ print_d category.
Definition game_query (category server : Z) : string :=
  "SELECT * FROM `net_config` WHERE `Category` = " +:+ print_d category +:+ " AND `ServerId` = " +:+ print_d server.
Definition gate_query (server category : Z) : string :=
  "SELECT * FROM `net_config` WHERE `ServerId` = " +:+ print_d server +:+ " AND `Category` = " +:+ print_d category.
Definition database_query (category : Z) : string := "SELECT * FROM `database_config` WHERE `Category` = " +:+ print_d category.

Section Steps.
Context {St : Type}.
Definition store (conf : DataBaseConfig) (sql : string) : I (St := St) (list Row) := need (answer E conf sql).
Definition listen (l : Listener) (c : net_info) : I (St := St) unit :=
  require (create E l (_port c) (_max_connect c) (_thread_count c)) ;;;
  did (Listen l (_port c) (_max_connect c) (_thread_count c)).
Definition connect (c : Client) (n : net_info) : I (St := St) unit := did (Connect c (_ip n) (_port n)).
Definition net_config (conf : DataBaseConfig) (sql : string) : I (St := St) net_info :=
  let* rows := store conf sql in need (getNetConfig rows).
Definition database_config (conf : DataBaseConfig) (category : Z) : I (St := St) DataBaseConfig :=
  let* rows := store conf (database_query category) in need (getDatabaseConfig rows).
Definition addBlockTask (conf : DataBaseConfig) (m : I (St := St) unit) : I (St := St) unit := require (reachable E conf) ;;; m.
(** [Database::initDatabase] succeeds always. *)
Definition initDatabase (d : Db) (conf : DataBaseConfig) : I (St := St) unit := did (InitDatabase d conf).

(** ** [DBServer]: both methods that get a connection of their own do nothing
    with it, and the world database is never used. *)
Definition DBServer_initDataFromDatabase (center : DataBaseConfig) : I (St := St) unit :=
  let* user_net := net_config center (net_query _DB_LISNEN_GAME_) in
  listen GameListener user_net ;;;
  let* db_config := database_config center _FU_CHARACTER_DATABASE_ in
  addBlockTask db_config (iret tt) ;;;
  initDatabase CharDatabase db_config ;;;
  let* db_record := database_config center _FU_RECORD_DATABASE_ in
  initDatabase RecordDatabase db_record ;;;
  let* db_world_config := database_config center _FU_WORLD_DATABASE_ in
  addBlockTask db_world_config (iret tt) ;;;
  initDatabase WorldDatabase db_world_config.
Definition DBServer_init : I (St := St) unit :=
  let* dbconfig := need (loadDBConfig CENTER_DATABASE_CONFIG) in
  addBlockTask dbconfig (DBServer_initDataFromDatabase dbconfig).

(** ** [GateServer] *)
(** [GameManager::addClientByConfig]: the name is resolved by the client. *)
Definition addClientByConfig (c : net_info) : I (St := St) unit := connect GameClient c.
Fixpoint add_games (rows : list Row) : I (St := St) unit :=
  match rows with [] => iret tt | row :: rows => addClientByConfig (net_row row) ;;; add_games rows end.
Definition GateServer_initDataFromDatabase (conf : service_config) (center : DataBaseConfig) : I (St := St) unit :=
  let* login_net := net_config center (net_query _LOGIN_LISTEN_GATE_) in
  connect LoginClient login_net ;;;
  let* user_net := net_config center (gate_query (id conf) _GATE_LISTEN_USER_) in
  listen UserServer user_net ;;;
  let* rows := store center (net_query _GAME_LISTEN_GATE_) in
  add_games rows.
Definition GateServer_init (conf : service_config) : I (St := St) unit :=
  let* dbconfig := need (loadDBConfig CENTER_DATABASE_CONFIG) in
  addBlockTask dbconfig (GateServer_initDataFromDatabase conf dbconfig).

(** The first lines of [main]: the service's own file. *)
Definition main_init (server : service_config -> I (St := St) unit) : I (St := St) unit :=
  let* conf := need (loadServiceConfig SERVER_CONFIG) in
  did (InitService conf) ;;;
  server conf.
End Steps.

(** ** [LoginServer] *)
Definition read_login_row (row : Row) : ServerConfigRow :=
  mkServerConfigRow (row_int row "version_number_1") (row_int row "version_number_2") (row_int row "version_number_3")
    (row_str row "channel_id") (row_str row "http_platform_url") (negb (row_int row "need_third_platform" =? 0)).
Definition LoginServer_initDataFromDatabase (center : DataBaseConfig) : I (St := LoginConfig) unit :=
  let* rows := store center "SELECT * FROM `server_config`" in
  on_state (init_config (read_login_row <$> head rows)) ;;;
  let* user_net := net_config center (net_query _LOGIN_LISTEN_USER_) in
  listen UserServer user_net ;;;
  let* gate_net := net_config center (net_query _LOGIN_LISTEN_GATE_) in
  listen GateListener gate_net.
Definition LoginServer_init : I (St := LoginConfig) unit :=
  let* dbconfig := need (loadDBConfig CENTER_DATABASE_CONFIG) in
  addBlockTask dbconfig (LoginServer_initDataFromDatabase dbconfig) ;;;
  initDatabase CenterDatabase dbconfig ;;;
  did StartHttp.

(** ** Running a start *)
Section Run.
Context {St : Type}.
Implicit Types s : list Did * St.
Lemma ibind_done {A B} (m : I A) (f : A -> I B) s b s'' : ibind m f s = (Done b, s'') ->
  exists a s', m s = (Done a, s') /\ f a s' = (Done b, s'').
Proof. unfold ibind. destruct (m s) as [[a| |] s'] eqn:E1; [|done..]. intros E2. by exists a, s'. Qed.
Lemma need_done {A} (o : option A) s a s' : need o s = (Done a, s') -> o = Some a /\ s' = s.
Proof. destruct o; by intros [= <- <-]. Qed.
Lemma require_done b s u s' : require b s = (Done u, s') -> b = true /\ s' = s.
Proof. destruct b; by intros [= <-]. Qed.
Lemma did_done d s u s' : did d s = (Done u, s') -> s' = (s.1 ++ [d], s.2).
Proof. by intros [= _ <-]. Qed.

(** What a part of a start adds to what was done. *)
Definition adds {A} (P : Did -> Prop) (m : I A) : Prop := forall s, exists l, (m s).2.1 = s.1 ++ l /\ Forall P l.
Lemma adds_none {A} P (m : I A) : (forall s, (m s).2.1 = s.1) -> adds P m.
Proof. intros Hm s. exists []. by rewrite Hm, app_nil_r. Qed.
Lemma adds_ret {A} P (a : A) : adds P (iret a).
Proof. by apply adds_none. Qed.
Lemma adds_need {A} P (o : option A) : adds P (need o).
Proof. apply adds_none. by destruct o. Qed.
Lemma adds_defined {A} P (o : option A) : adds P (defined o).
Proof. by apply adds_none. Qed.
Lemma adds_require P b : adds P (require b).
Proof. apply adds_none. by destruct b. Qed.
Lemma adds_state P f : adds P (on_state f).
Proof. by apply adds_none. Qed.
Lemma adds_get {A} P (f : St -> A) : adds P (get_state f).
Proof. by apply adds_none. Qed.
Lemma adds_did (P : Did -> Prop) d : P d -> adds P (did d).
Proof. intros Hd s. exists [d]. split; [done|]. by constructor. Qed.
Lemma adds_bind {A B} P (m : I A) (f : A -> I B) : adds P m -> (forall a, adds P (f a)) -> adds P (ibind m f).
Proof.
  intros Hm Hf s. unfold ibind. destruct (Hm s) as (l & E1 & H1). destruct (m s) as [[a| |] s1] eqn:Em; cbn in E1; [|by exists l..].
  destruct (Hf a s1) as (l' & E2 & H2). exists (l ++ l'). rewrite E2, E1, app_assoc. split; [done|]. by apply Forall_app.
Qed.
Lemma adds_done {A} P (m : I A) s a s' : adds P m -> m s = (Done a, s') -> exists l, s'.1 = s.1 ++ l /\ Forall P l.
Proof. intros Hm E1. destruct (Hm s) as (l & H1 & H2). rewrite E1 in H1. by exists l. Qed.

Lemma net_config_done conf sql s c s' : net_config conf sql s = (Done c, s') ->
  s' = s /\ exists rows, answer E conf sql = Some rows /\ getNetConfig rows = Some c.
Proof.
  intros E1. apply ibind_done in E1 as (rows & s1 & E1 & E2). apply need_done in E1 as [E1 ->]. apply need_done in E2 as [E2 ->].
  split; [done|]. by exists rows.
Qed.
Lemma listen_done l c s u s' : listen l c s = (Done u, s') -> s' = (s.1 ++ [Listen l (_port c) (_max_connect c) (_thread_count c)], s.2).
Proof. intros E1. apply ibind_done in E1 as (? & s1 & E1 & E2). apply require_done in E1 as [_ ->]. by apply did_done in E2. Qed.
Lemma getNetConfig_port rows c : getNetConfig rows = Some c -> exists row rest, rows = row :: rest /\ _port c = u16 (row_int row "Port").
Proof.
  destruct rows as [|row rest]; [done|]. cbn. destruct (getIpByname _) as [ip|]; [|done]. intros [= <-]. by exists row, rest.
Qed.
End Run.
#[local] Hint Resolve adds_ret adds_need adds_defined adds_require adds_state adds_get : adds.

(** ** Who listens, and who calls *)
Definition listens (l : Listener) (t : list Did) : list Z :=
  omap (fun d => match d with Listen l' port _ _ => if decide (l' = l) then Some port else None | _ => None end) t.
Definition ports (c : Client) (t : list Did) : list Z :=
  omap (fun d => match d with Connect c' _ port => if decide (c' = c) then Some port else None | _ => None end) t.
Lemma listens_app l t t' : listens l (t ++ t') = listens l t ++ listens l t'.
Proof. apply omap_app. Qed.
Lemma ports_app c t t' : ports c (t ++ t') = ports c t ++ ports c t'.
Proof. apply omap_app. Qed.
Definition center_rows (sql : string) : option (list Row) := c ← loadDBConfig CENTER_DATABASE_CONFIG; answer E c sql.
Definition port_of (row : Row) : Z := u16 (row_int row "Port").

Lemma center_done {St} (m : DataBaseConfig -> I (St := St) unit) s s' :
  (let* c := need (loadDBConfig CENTER_DATABASE_CONFIG) in m c) s = (Done tt, s') ->
  exists c, loadDBConfig CENTER_DATABASE_CONFIG = Some c /\ m c s = (Done tt, s').
Proof. intros E1. apply ibind_done in E1 as (c & s1 & E1 & E2). apply need_done in E1 as [E1 ->]. by exists c. Qed.
Lemma block_done {St} conf (m : I (St := St) unit) s s' : addBlockTask conf m s = (Done tt, s') -> m s = (Done tt, s').
Proof. intros E1. apply ibind_done in E1 as ([] & s1 & E1 & E2). by apply require_done in E1 as [_ ->]. Qed.
Lemma net_config_row {St} conf sql (s : list Did * St) c s' : loadDBConfig CENTER_DATABASE_CONFIG = Some conf ->
  net_config conf sql s = (Done c, s') -> s' = s /\ exists row rest, center_rows sql = Some (row :: rest) /\ _port c = port_of row.
Proof.
  intros Hc E1. apply net_config_done in E1 as (-> & rows & E1 & E2). split; [done|].
  apply getNetConfig_port in E2 as (row & rest & -> & Hp). exists row, rest. unfold center_rows. by rewrite Hc.
Qed.

Lemma LoginServer_listens cfg t cfg' : LoginServer_init ([], cfg) = (Done tt, (t, cfg')) ->
  exists row rest, center_rows (net_query _LOGIN_LISTEN_GATE_) = Some (row :: rest) /\ listens GateListener t = [port_of row].
Proof.
  intros E1. apply center_done in E1 as (c & Hc & E1). apply ibind_done in E1 as ([] & s1 & E1 & E2). apply block_done in E1.
  apply ibind_done in E1 as (rows & s2 & E1 & E3). apply need_done in E1 as [_ ->]. apply ibind_done in E3 as ([] & s2 & E1 & E3). injection E1 as <-.
  apply ibind_done in E3 as (user & s2 & E1 & E3). apply (net_config_row _ _ _ _ _ Hc) in E1 as [-> _].
  apply ibind_done in E3 as ([] & s2 & E1 & E3). apply listen_done in E1 as ->.
  apply ibind_done in E3 as (gate & s2 & E1 & E3). apply (net_config_row _ _ _ _ _ Hc) in E1 as (-> & row & rest & Hr & Hp).
  apply listen_done in E3 as ->. apply ibind_done in E2 as ([] & s2 & E1 & E2). injection E1 as <-. injection E2 as <- <-.
  exists row, rest. split; [done|]. cbn. by rewrite Hp.
Qed.
Lemma add_games_did {St} rows : forall (s : list Did * St) s', add_games rows s = (Done tt, s') ->
  s'.1 = s.1 ++ map (fun row => Connect GameClient (row_str row "Ip") (port_of row)) rows.
Proof.
  induction rows as [|row rows IH]; intros s s' E1; cbn in E1; [injection E1 as <-; by rewrite app_nil_r|].
  rewrite (IH _ _ E1). cbn. by rewrite <- app_assoc.
Qed.
Lemma ports_games c rows : ports c (map (fun row => Connect GameClient (row_str row "Ip") (port_of row)) rows) = if decide (GameClient = c) then map port_of rows else [].
Proof. induction rows as [|row rows IH]; cbn; [by destruct (decide _)|]. unfold ports in IH. rewrite IH. by destruct (decide (GameClient = c)). Qed.
Lemma GateServer_calls {St} conf st t st' : GateServer_init conf ([], st : St) = (Done tt, (t, st')) ->
  (exists row rest, center_rows (net_query _LOGIN_LISTEN_GATE_) = Some (row :: rest) /\ ports LoginClient t = [port_of row]) /\
  (exists rows, center_rows (net_query _GAME_LISTEN_GATE_) = Some rows /\ ports GameClient t = map port_of rows).
Proof.
  intros E1. apply center_done in E1 as (c & Hc & E1). apply block_done in E1. apply ibind_done in E1 as (login & s2 & E1 & E2).
  apply (net_config_row _ _ _ _ _ Hc) in E1 as (-> & row & rest & Hr & Hp). apply ibind_done in E2 as ([] & s2 & E1 & E2). apply did_done in E1 as ->.
  apply ibind_done in E2 as (user & s2 & E1 & E2). apply (net_config_row _ _ _ _ _ Hc) in E1 as [-> _].
  apply ibind_done in E2 as ([] & s2 & E1 & E2). apply listen_done in E1 as ->. apply ibind_done in E2 as (rows & s2 & E1 & E2).
  apply need_done in E1 as [E1 ->]. apply add_games_did in E2. cbn in E2. subst t. split.
  - exists row, rest. split; [done|]. pose proof (ports_games LoginClient rows) as K. unfold ports in *. cbn. by rewrite K, Hp.
  - exists rows. unfold center_rows. rewrite Hc. split; [done|]. pose proof (ports_games GameClient rows) as K. unfold ports in *. cbn. by rewrite K.
Qed.
Lemma DBServer_listens {St} st t st' : DBServer_init ([], st : St) = (Done tt, (t, st')) ->
  exists row rest, center_rows (net_query _DB_LISNEN_GAME_) = Some (row :: rest) /\ listens GameListener t = [port_of row].
Proof.
  intros E1. apply center_done in E1 as (c & Hc & E1). apply block_done in E1. apply ibind_done in E1 as (user & s2 & E1 & E2).
  apply (net_config_row _ _ _ _ _ Hc) in E1 as (-> & row & rest & Hr & Hp). apply ibind_done in E2 as ([] & s2 & E1 & E2). apply listen_done in E1 as ->.
  exists row, rest. split; [done|]. eapply (adds_done (fun d => match d with InitDatabase _ _ => True | _ => False end)) in E2 as (l & El & Hl).
  - cbn in El. subst t. cbn. rewrite Hp. f_equal. induction Hl as [|d l Hd _ IH]; [done|]. by destruct d.
  - unfold database_config, store, addBlockTask, initDatabase. repeat (apply adds_bind; [|intros ?]); try (by apply adds_did); eauto with adds.
Qed.
End Startup.
#[export] Hint Resolve adds_ret adds_need adds_defined adds_require adds_state adds_get : adds.
