(* ===== verification/GameStart.v ===== *)
(** * gameserver: how the game server starts

    gameserver/server.cpp ([init] and what it loads from the three databases),
    [DreamHeroManager::init] and [RankManager::Init]; and what the servers of
    one centre database agree on. *)
From S2P Require Import Prelude StdMap Data Text LoginServer Calendar Config Record Rank Promotion Names Server HeroSave HeroLoad World Manager Frames Process NoDangling Stops Startup.
#[local] Open Scope start_scope.

(** The process: [server_config] also has what only the platform's client and
    the HTTP tasks read. *)
Record Game := mkGame {
  game_world : World; _platform_http_url : string; _platform_server_ip : string; _platform_server_port : Z; http_game_id : Z
}.
Definition set_game_world (w : World) (G : Game) : Game :=
  mkGame w (_platform_http_url G) (_platform_server_ip G) (_platform_server_port G) (http_game_id G).
Definition on_game_config (f : GameConfig -> GameConfig) (g : Server) : Server := set_gGameConfig (f (gGameConfig g)) g.
Definition on_server (f : Server -> Server) : I (St := Game) unit :=
  on_state (fun G => set_game_world (set_globals (f (globals (game_world G))) (game_world G)) G).
Definition get_server : I (St := Game) Server := get_state (fun G => globals (game_world G)).
Definition in_world (m : W unit) : I (St := Game) unit := fun s =>
  match m (game_world s.2) with
  | Ok _ w => (Done tt, (s.1, set_game_world w s.2))
  | _ => (Dies, s)
  end.

(** [gEventMgr.addEvent] under its test of [hasEvent]. *)
Definition event_eqb (e e' : TimerEvent) : bool :=
  match e, e' with
  | EVENT_PER_TEN_MIN_COLLECT_, EVENT_PER_TEN_MIN_COLLECT_ | EVENT_PER_MIN_COLLECT_, EVENT_PER_MIN_COLLECT_
  | EVENT_COLLECT_INFO_, EVENT_COLLECT_INFO_ | EVENT_RECOVER_SPIRIT_, EVENT_RECOVER_SPIRIT_ | EVENT_PER_MIN, EVENT_PER_MIN
  | EVENT_SAVE_HEROES_STATU, EVENT_SAVE_HEROES_STATU | EVENT_SAVE_DAILY_GAME_RANK_, EVENT_SAVE_DAILY_GAME_RANK_ => true
  | _, _ => false
  end.
Definition hasEvent (e : TimerEvent) (l : list Did) : bool := existsb (fun d => match d with AddEvent e' _ => event_eqb e e' | _ => false end) l.
Definition addEvent_once (e : TimerEvent) (period : Z) : I (St := Game) unit := fun s =>
  if hasEvent e s.1 then (Done tt, s) else did (AddEvent e period) s.

(** ** DreamHeroManager and RankManager *)
Definition _SAVE_COLLECT_TIME_ : Z := 10 * 60 * 1000.
Definition RankManager_Init : I (St := Game) unit :=
  let* g := get_server in
  (if _daily_game_begin_time (gRankManager g) =? 0 then in_world DailyGameUpdate else iret tt) ;;;
  addEvent_once EVENT_SAVE_DAILY_GAME_RANK_ (5 * 60 * 1000).
(** The recovery per period is [_recover_spirit], which [recoverSpirit] reads
    from the configuration. *)
Definition DreamHeroManager_init (shuffles : list (list Z)) : I (St := Game) unit :=
  let* g := get_server in
  let c := getGlobalConfig (gGameConfig g) in
  on_server (fun g => set_gNames (set__save_all_heroes_ok false (gNames g)) g) ;;;
  addEvent_once EVENT_COLLECT_INFO_ _SAVE_COLLECT_TIME_ ;;;
  (if negb (config_recover_spirit_ c =? 0) && negb (config_recover_spirit_minute_ c =? 0)
   then addEvent_once EVENT_RECOVER_SPIRIT_ (i32 (i32 (config_recover_spirit_minute_ c * 60) * 1000)) else iret tt) ;;;
  addEvent_once EVENT_PER_MIN ((60 - tm_sec (localtime (timezone g) (g_server_time g))) * 1000) ;;;
  addEvent_once EVENT_SAVE_HEROES_STATU (60 * 1000) ;;;
  let* g := get_server in
  let* names := defined (refreshHeroTitle (timezone g) (g_server_time g) (_server_open_time (gGameConfig g)) (gNames g)) in
  on_server (set_gNames names) ;;;
  (if same_day (timezone g) (_last_save_time names) (g_server_time g) then iret tt else in_world (DreamHeroManager_refreshDayNumber shuffles)) ;;;
  RankManager_Init.
(** [ShopSalesPromotionManager::init] *)
Definition promotions_init : I (St := Game) unit :=
  let* g := get_server in
  let* s := defined (ShopSalesPromotionManager_init (timezone g) (g_server_time g) (mkPMState (gShopSalesPromotionManager g) (gGameConfig g))) in
  on_server (fun g => set_gGameConfig (pm_config s) (set_gShopSalesPromotionManager (pm_mgr s) g)).

(** ** What the start loads *)
Section Start.
Context {Row : Type} `{DBRow Row} (E : Env Row).
(** The statements of [GameConfig::Load]. *)
Definition Load_queries : list string :=
  [ "select * from `dream_heroes_task_config`;";
    "select * from `hero_shop_config`;";
    "select * from `chapter_unlock_config`;";
    "select * from `global_config`;";
    "select * , UNIX_TIMESTAMP(`show_time`), UNIX_TIMESTAMP(`begin_time`), UNIX_TIMESTAMP(`end_time`) from `time_shop_sales_promotion`;";
    "select * from gold_shop_config_info;";
    "select * from drop_box;";
    "select * from map_obj_count;";
    "select * from random_object;";
    "select * from `spirit_shop_config`;";
    "select * from `lotion_shop_config`;";
    "select * from `lottery_draw_box_config`;";
    "select * from daily_game_prize;";
    "select * from daily_game_record_config ORDER by daily_game_record_progress ASC;";
    "select * from daily_game_reset_config ORDER by reset_jewel ASC;" ].
Definition initDataFromWorldDB (conf : DataBaseConfig) : I (St := Game) unit :=
  require (forallb (fun sql => match answer E conf sql with Some _ => true | None => false end) Load_queries) ;;;
  let* g := get_server in
  let c_rank := Load (fun sql => default [] (answer E conf sql)) (gGameConfig g) in
  on_server (fun g => set_http_channel (channel_id_ (_global_config c_rank.1)) (set_gGameConfig c_rank.1 (match c_rank.2 with
    | Some (size, progress) => set_gRankManager (setMaxDailyProgress progress (setDailyMaxRankSize size (gRankManager g))) g
    | None => g
    end))) ;;;
  on_state (fun G => mkGame (game_world G) (_platform_http_url G) (_platform_server_ip G) (_platform_server_port G) (game_id_ (_global_config c_rank.1))).

Definition status_query : string := "select *  ,UNIX_TIMESTAMP(`save_time`),UNIX_TIMESTAMP(`daily_game_begin_time`) from `heroes_status`;".
Definition names_query : string := "select `name` from `character`".
Definition rank_query : string := "select *, UNIX_TIMESTAMP(`time`) from `hero_daily_game_rank` ORDER BY `score` DESC;".
Definition initDataFromCharacterDB (conf : DataBaseConfig) : I (St := Game) unit :=
  let* status := store E conf status_query in
  let* names := (match status with [] => iret [] | _ => store E conf names_query end) in
  let* g := get_server in
  let* loaded := defined (manager_Load status names (gNames g)) in
  on_server (fun g => set_gNames loaded.1 (match loaded.2 with
    | Some t => set_gRankManager (setDailyGameBeginTime t (gRankManager g)) g
    | None => g
    end)) ;;;
  let* rows := store E conf rank_query in
  on_server (fun g => set_gRankManager (RankManager_Load (timezone g) (g_server_time g)
    (day_Refresh_time_ (getGlobalConfig (gGameConfig g))) rows (gRankManager g)) g).

(** The row of [server_config]; [char] is signed. *)
Definition char_value (s : string) : Z :=
  match s with
  | EmptyString => 97
  | String a _ => let n := Z.of_N (N_of_ascii a) in if n <? 128 then n else n - 256
  end.
Definition read_server_config (row : Row) : I (St := Game) unit :=
  on_server (on_game_config (fun c =>
    generateTitle (set__server_type (row_int row "server_type") (set__game_id (row_int row "game_id")
      (set__can_concern_weixin (negb (row_int row "concern_weixin" =? 0)) (set__need_connect_platform (negb (row_int row "need_connect_platform" =? 0))
      (set__server_open_time (u64 (row_int row "UNIX_TIMESTAMP(`server_open_time`)")) (set__server_char (char_value (row_str row "server_id")) c)))))))) ;;;
  on_state (fun G => mkGame (game_world G) (row_str row "http_platform_url") (row_str row "platform_ip") (row_int row "platform_port") (http_game_id G)).
Definition server_query : string := "SELECT * , UNIX_TIMESTAMP(`server_open_time`) FROM `server_config`".

(** ** [GameServer] *)
Definition GameServer_initDataFromDatabase (conf : service_config) (center : DataBaseConfig) : I (St := Game) unit :=
  let* user_net := net_config E center (game_query _GAME_LISTEN_GATE_ (Startup.id conf)) in
  listen E GateListener user_net ;;;
  let* db_net := net_config E center (net_query _DB_LISNEN_GAME_) in
  Startup.connect DBClient db_net ;;;
  let* m_world_db_conf := database_config E center _FU_WORLD_DATABASE_ in
  initDatabase WorldDatabase m_world_db_conf ;;;
  addBlockTask E m_world_db_conf (initDataFromWorldDB m_world_db_conf) ;;;
  let* m_character_conf := database_config E center _FU_CHARACTER_DATABASE_ in
  addBlockTask E m_character_conf (initDataFromCharacterDB m_character_conf) ;;;
  initDatabase CharDatabase m_character_conf ;;;
  let* rows := store E center server_query in
  (match rows with row :: _ => read_server_config row | [] => iret tt end) ;;;
  let* G := get_state (fun G => G) in
  if _need_connect_platform (gGameConfig (globals (game_world G)))
  then did (Connect PlatformClient (_platform_server_ip G) (u16 (_platform_server_port G))) else iret tt.
(** [now] is what [ServerFrame::init] reads from the clock. *)
Definition GameServer_init (now : Z) (shuffles : list (list Z)) (conf : service_config) : I (St := Game) unit :=
  on_server (set_g_server_time now) ;;;
  let* dbconfig := need (loadDBConfig E CENTER_DATABASE_CONFIG) in
  addEvent_once EVENT_PER_TEN_MIN_COLLECT_ (60 * 1000 * 10) ;;;
  addEvent_once EVENT_PER_MIN_COLLECT_ (60 * 1000) ;;;
  addBlockTask E dbconfig (GameServer_initDataFromDatabase conf dbconfig) ;;;
  initDatabase CenterDatabase dbconfig ;;;
  DreamHeroManager_init shuffles ;;;
  promotions_init ;;;
  did StartHttp.
End Start.

(** ** The servers of one centre meet *)
Definition quiet_did (d : Did) : Prop := match d with Listen _ _ _ _ | Connect DBClient _ _ => False | _ => True end.
Lemma adds_once P e period : P (AddEvent e period) -> adds P (addEvent_once e period).
Proof. intros He s. unfold addEvent_once. destruct (hasEvent e s.1); [exists []; by rewrite app_nil_r|]. by apply (adds_did P). Qed.
Lemma adds_world P m : adds P (in_world m).
Proof. apply adds_none. intros s. unfold in_world. by destruct (m (game_world s.2)). Qed.
Lemma quiet_listens l t : Forall quiet_did t -> listens l t = [].
Proof. induction 1 as [|d t Hd _ IH]; [done|]. by destruct d. Qed.
Lemma quiet_ports t : Forall quiet_did t -> ports DBClient t = [].
Proof. induction 1 as [|d t Hd _ IH]; [done|]. cbn. destruct d as [| |c ip port| | |]; try done. by destruct c. Qed.
Ltac start_adds := repeat first [ apply adds_bind; [|intros ?] | apply adds_world | by apply adds_once | by apply adds_did | solve [eauto with adds] | progress cbv zeta
  | match goal with |- adds _ (match ?x with _ => _ end) => destruct x end ].
Lemma DreamHeroManager_init_quiet shuffles : adds quiet_did (DreamHeroManager_init shuffles).
Proof. unfold DreamHeroManager_init, RankManager_Init, on_server, get_server. start_adds. Qed.
Lemma promotions_init_quiet : adds quiet_did promotions_init.
Proof. unfold promotions_init, on_server, get_server. start_adds. Qed.
#[export] Hint Resolve DreamHeroManager_init_quiet promotions_init_quiet : adds.

Section Meet.
Context {Row : Type} `{DBRow Row}.
Lemma initDataFromWorldDB_quiet (E : Env Row) conf : adds quiet_did (initDataFromWorldDB E conf).
Proof. unfold initDataFromWorldDB, on_server, get_server. start_adds. Qed.
Lemma initDataFromCharacterDB_quiet (E : Env Row) conf : adds quiet_did (initDataFromCharacterDB E conf).
Proof. unfold initDataFromCharacterDB, store, on_server, get_server. start_adds. Qed.
#[local] Hint Resolve initDataFromWorldDB_quiet initDataFromCharacterDB_quiet : adds.

Lemma once_split e period s u s' : addEvent_once e period s = (Done u, s') -> exists l, s' = (s.1 ++ l, s.2) /\ Forall quiet_did l.
Proof.
  unfold addEvent_once. destruct (hasEvent e s.1); intros [= _ <-].
  - exists []. rewrite app_nil_r. by destruct s.
  - exists [AddEvent e period]. split; [done|]. by constructor.
Qed.
Lemma GameServer_calls (E : Env Row) now shuffles conf G t G' : GameServer_init E now shuffles conf ([], G) = (Done tt, (t, G')) ->
  (exists row rest, center_rows E (game_query _GAME_LISTEN_GATE_ (Startup.id conf)) = Some (row :: rest) /\ listens GateListener t = [port_of row]) /\
  (exists row rest, center_rows E (net_query _DB_LISNEN_GAME_) = Some (row :: rest) /\ ports DBClient t = [port_of row]).
Proof.
  intros E1. apply ibind_done in E1 as ([] & s1 & E1 & E2). injection E1 as <-. apply center_done in E2 as (c & Hc & E1).
  apply ibind_done in E1 as ([] & s1 & E1 & E2). apply once_split in E1 as (l1 & -> & Q1).
  apply ibind_done in E2 as ([] & s1 & E1 & E2). apply once_split in E1 as (l2 & -> & Q2).
  apply ibind_done in E2 as ([] & s1 & E1 & E2). apply block_done in E1.
  eapply (adds_done quiet_did) in E2 as (l3 & El & Q3); [|unfold initDatabase; start_adds].
  apply ibind_done in E1 as (user & s2 & E1 & E3). apply (net_config_row E _ _ _ _ _ Hc) in E1 as (-> & row & rest & Hr & Hp).
  apply ibind_done in E3 as ([] & s2 & E1 & E3). apply listen_done in E1 as ->.
  apply ibind_done in E3 as (db & s2 & E1 & E3). apply (net_config_row E _ _ _ _ _ Hc) in E1 as (-> & row' & rest' & Hr' & Hp').
  apply ibind_done in E3 as ([] & s2 & E1 & E3). apply did_done in E1 as ->.
  eapply (adds_done quiet_did) in E3 as (l4 & El4 & Q4).
  2: { unfold database_config, store, addBlockTask, initDatabase, read_server_config, on_server, get_server. start_adds. }
  cbn in El, El4. subst t. rewrite El4. split; [exists row, rest|exists row', rest']; (split; [done|]);
    rewrite ?listens_app, ?ports_app.
  - rewrite !(quiet_listens _ l1), !(quiet_listens _ l2), !(quiet_listens _ l3), !(quiet_listens _ l4) by done. cbn. by rewrite Hp.
  - rewrite !(quiet_ports l1), !(quiet_ports l2), !(quiet_ports l3), !(quiet_ports l4) by done. cbn. by rewrite Hp'.
Qed.

(** The table [net_config], of which MySQL answers the rows that are asked
    for: those of a category, and those of game server [n]. *)
Definition net_table (E : Env Row) (table : list Row) : Prop := forall c rows, 0 <= c < 5 ->
  center_rows E (net_query c) = Some rows -> rows = filter (fun r => row_int r "Category" = c) table.
Definition game_table (E : Env Row) (n : Z) (table : list Row) : Prop := forall rows,
  center_rows E (game_query _GAME_LISTEN_GATE_ n) = Some rows ->
  rows = filter (fun r => row_int r "Category" = _GAME_LISTEN_GATE_ /\ row_int r "ServerId" = n) table.

(** C7: four servers that have started against the same table [net_config] find
    each other: the gate calls the login server at the port where it waits for
    gates, the game server calls the database server where it waits for games,
    and the gate calls the game server where that waits for gates. *)
Theorem servers_meet (El Eg Ed Es : Env Row) table cfg tl cfg' (sg : unit) conf_g tg sg' (sd : unit) td sd' now shuffles conf_s G ts G' :
  net_table El table -> net_table Eg table -> net_table Ed table -> net_table Es table -> game_table Es (Startup.id conf_s) table ->
  LoginServer_init El ([], cfg) = (Done tt, (tl, cfg')) -> GateServer_init Eg conf_g ([], sg) = (Done tt, (tg, sg')) ->
  DBServer_init Ed ([], sd) = (Done tt, (td, sd')) -> GameServer_init Es now shuffles conf_s ([], G) = (Done tt, (ts, G')) ->
  (exists port, ports LoginClient tg = [port] /\ listens GateListener tl = [port]) /\
  (exists port, ports DBClient ts = [port] /\ listens GameListener td = [port]) /\
  (exists port, port ∈ ports GameClient tg /\ listens GateListener ts = [port]).
Proof.
  intros Tl Tg Td Ts Tn Hl Hg Hd Hs. apply LoginServer_listens in Hl as (r1 & l1 & R1 & ->). apply GateServer_calls in Hg as [(r2 & l2 & R2 & ->) (rows & R3 & ->)].
  apply DBServer_listens in Hd as (r4 & l4 & R4 & ->). apply GameServer_calls in Hs as [(r5 & l5 & R5 & ->) (r6 & l6 & R6 & ->)].
  apply Tl in R1; [|done]. apply Tg in R2, R3; [|done..]. apply Td in R4; [|done]. apply Tn in R5. apply Ts in R6; [|done]. split; [|split].
  - rewrite <- R1 in R2. injection R2 as -> _. by exists (port_of r1).
  - rewrite <- R4 in R6. injection R6 as -> _. by exists (port_of r4).
  - exists (port_of r5). split; [|done]. apply list_elem_of_fmap. exists r5. split; [done|]. subst rows.
    assert (K : r5 ∈ filter (fun r => row_int r "Category" = _GAME_LISTEN_GATE_ /\ row_int r "ServerId" = Startup.id conf_s) table) by (rewrite <- R5; left).
    apply list_elem_of_filter in K as [[K1 _] K2]. by apply list_elem_of_filter.
Qed.
End Meet.

(** ** What a started game server is *)
(** Nobody is connected, no hero is loaded, and the tables are well formed. *)
Record bare (w : World) : Prop := {
  bare_heroes : _heroes w = []; bare_objects : objects w = []; bare_sessions : sessions (globals w) = [];
  bare_config : config_wf (gGameConfig (globals w))
}.
Lemma bare_globals w g : bare w -> sessions g = [] -> config_wf (gGameConfig g) -> bare (set_globals g w).
Proof. by intros [] ? ?. Qed.
Lemma bare_linked w : bare w -> linked w.
Proof.
  intros [H1 H2 H3 _]. constructor; rewrite ?H1, ?H2, ?H3; try done. split; [constructor|split; constructor].
Qed.

(** *** The parts that run in the world *)
Definition keeps_bare (m : W unit) : Prop := forall w, bare w -> wwp m (fun _ => bare) w.
Lemma bare_sql sql : keeps_bare (world_sql sql).
Proof. intros w Hw. by apply wwp_globals, bare_globals; [|apply Hw..]. Qed.
Lemma bare_ret : keeps_bare (wret tt).
Proof. by intros w Hw. Qed.
Lemma bare_bind m m' : keeps_bare m -> keeps_bare m' -> keeps_bare (m ;;; m')%world.
Proof. intros Hm Hm' w Hw. apply wwp_bind. eapply wwp_mono; [by apply Hm|]. intros [] w'. apply Hm'. Qed.
Lemma bare_when b m : keeps_bare m -> keeps_bare (wwhen b m).
Proof. intros Hm. destruct b; [done|exact bare_ret]. Qed.
Lemma bare_each m : keeps_bare (each_hero m).
Proof. intros w Hw. apply wwp_bind, wwp_gets. by rewrite (bare_heroes _ Hw). Qed.
Lemma bare_settle b l : forall number i s1 s2 w, bare w -> wwp (settle_loop b l number i s1 s2) (fun _ => bare) w.
Proof.
  induction l as [|e l IH]; intros number i s1 s2 w Hw; cbn [settle_loop]; [done|].
  apply wwp_bind, wwp_gets. cbv zeta. apply wwp_bind. unfold wwp at 1, GetHero. rewrite (bare_heroes _ Hw). cbn [mfind].
  apply wwp_bind. apply wwp_mono with (Q := fun _ => bare).
  - destruct (number >=? 20); [|done]. apply wwp_bind. eapply wwp_mono; [by apply bare_sql|]. by intros [] w' Hw'.
  - intros [n' s'] w1 Hw1. apply wwp_bind. apply wwp_mono with (Q := fun _ => bare); [|intros [i' s2'] w2 Hw2; by apply IH].
    destruct (i + 1 >=? 20); [|done]. apply wwp_bind. eapply wwp_mono; [by apply bare_sql|]. by intros [] w' Hw'.
Qed.
Lemma bare_DailyGameUpdate : keeps_bare DailyGameUpdate.
Proof.
  intros w Hw. apply wwp_bind, wwp_gets. cbv zeta. apply wwp_bind. eapply wwp_mono; [by apply bare_sql|]. intros [] w1 Hw1.
  apply wwp_bind. eapply wwp_mono; [by apply bare_settle|]. intros [s1 s2] w2 Hw2.
  revert w2 Hw2. apply bare_bind; [apply bare_when, bare_sql|]. apply bare_bind; [apply bare_when, bare_sql|]. apply bare_bind; [apply bare_each|].
  intros w3 Hw3. by apply wwp_globals, bare_globals; [|apply Hw3..].
Qed.
Lemma bare_refreshDayNumber shuffles : keeps_bare (DreamHeroManager_refreshDayNumber shuffles).
Proof.
  intros w Hw. apply wwp_bind, wwp_gets. destruct (refreshDayNumber _ _ _ _ _) as [names|]; [|done]. apply wwp_bind, wwp_globals.
  unfold DreamHeroManager_save. apply wwp_bind, wwp_gets. cbv zeta.
  match goal with |- context [manager_save ?a ?b ?c ?d ?e ?f] => destruct (manager_save a b c d e f) as [names' sql] end.
  apply wwp_bind, wwp_globals. apply bare_sql. apply bare_globals; [|apply Hw..]. by apply bare_globals; [|apply Hw..].
Qed.

(** *** The promotions change the configuration of heroes on sale only *)
Definition tame {A} (m : M PState A) : Prop := forall s a s', m s = Some (a, s') -> config_wf (ps_config s) -> config_wf (ps_config s').
Lemma tame_ret {A} (a : A) : tame (ret a).
Proof. by intros s a' s' [= _ <-]. Qed.
Lemma tame_deref {A} (o : option A) : tame (deref o).
Proof. destruct o; [apply tame_ret|done]. Qed.
Lemma tame_gets {A} (f : PState -> A) : tame (gets f).
Proof. by intros s a' s' [= _ <-]. Qed.
Lemma tame_bind {A B} (m : M PState A) (f : A -> M PState B) : tame m -> (forall a, tame (f a)) -> tame (bind m f).
Proof.
  intros Hm Hf s b s''. unfold bind. destruct (m s) as [[a s']|] eqn:E; [|done]. intros Hb Hs. eapply Hf; [exact Hb|]. by eapply Hm.
Qed.
Lemma tame_when b (m : M PState unit) : tame m -> tame (when b m).
Proof. destruct b; [done|intros; apply tame_ret]. Qed.
Lemma tame_mfor {A} (l : list A) f : (forall x, tame (f x)) -> tame (mfor l f).
Proof. intros Hf. induction l as [|x l IH]; [apply tame_ret|]. cbn. by apply tame_bind. Qed.
Lemma tame_this f : tame (on_this f).
Proof. by intros s a' s' [= _ <-]. Qed.
Lemma tame_mgr f : tame (on_mgr f).
Proof. by intros s a' s' [= _ <-]. Qed.
Lemma setHeroShopConfig_wf g b c : config_wf c -> config_wf (setHeroShopConfig g b c).
Proof.
  intros Hc. unfold setHeroShopConfig. destruct (mfind g (_shop_heroes c)) as [sh|] eqn:Eg; [|done].
  destruct Hc as [H1 H2 H3 H4 H5 H6 H7 H8 H9]. constructor; try done. cbn. apply keyed_put; [done|]. destruct H2 as [_ K]. exact (K _ _ Eg).
Qed.
Lemma tame_open g b : tame (on_config (setHeroShopConfig g b)).
Proof. intros s a' s' [= _ <-]. apply setHeroShopConfig_wf. Qed.
Create HintDb tame.
#[export] Hint Resolve tame_ret tame_deref tame_gets tame_this tame_mgr tame_open : tame.
Ltac tame := cbv beta zeta; repeat (lazymatch goal with
  | |- tame (bind _ _) => apply tame_bind
  | |- tame (when _ _) => apply tame_when
  | |- tame (mfor _ _) => apply tame_mfor
  | |- tame (match ?x with _ => _ end) => destruct x
  | |- forall _, _ => intros ?
  | |- tame _ => solve [eauto with tame]
  end; cbv beta zeta).
Lemma tame_cur_time : tame cur_time.
Proof. unfold cur_time, config_entry. tame. Qed.
Lemma tame_excute_b b : tame (excute_b b).
Proof. unfold excute_b, config_entry, set_type. tame. Qed.
#[export] Hint Resolve tame_cur_time tame_excute_b : tame.
Lemma tame_exit : tame promotion_exit.
Proof. unfold promotion_exit, removeEvents, set_type. tame. Qed.
#[export] Hint Resolve tame_exit : tame.
Lemma tame_call tz now fuel : forall m, tame (call tz now fuel m).
Proof.
  induction fuel as [|fuel IH]; intros m; [done|]. destruct m; cbn [call]; unfold apply_body, excute_body, DayPass_body, removeEvents, set_type, addEvent, type_is; tame.
Qed.
#[export] Hint Resolve tame_call : tame.
Lemma tame_init tz now i : tame (promotion_init tz now i).
Proof. unfold promotion_init, config_entry, addEvent. tame. Qed.
Lemma promotions_wf tz now ids : forall s s', init_all tz now ids s = Some s' -> config_wf (pm_config s) -> config_wf (pm_config s').
Proof.
  induction ids as [|i ids IH]; intros s s' E Hs; cbn [init_all] in E; [by injection E as <-|].
  unfold run_promotion in E. destruct (promotion_init tz now i _) as [[ok s1]|] eqn:E1; [|discriminate].
  pose proof (tame_init _ _ _ _ _ _ E1 Hs) as K. eapply IH; [exact E|]. by destruct ok.
Qed.

(** *** What the parts of the start keep *)
Definition holds {A} (P P' : Game -> Prop) (m : I (St := Game) A) : Prop := forall s a s', m s = (Done a, s') -> P s.2 -> P' s'.2.
Lemma holds_same {A} P (m : I (St := Game) A) : (forall s, (m s).2.2 = s.2) -> holds P P m.
Proof. intros Hm s a s' E. specialize (Hm s). rewrite E in Hm. cbn in Hm. by rewrite Hm. Qed.
Lemma holds_bind {A B} P Q R (m : I (St := Game) A) (f : A -> I B) : holds P Q m -> (forall a, holds Q R (f a)) -> holds P R (ibind m f).
Proof. intros Hm Hf s b s'' E Hs. apply ibind_done in E as (a & s' & E1 & E2). eapply Hf; [exact E2|]. by eapply Hm. Qed.
Lemma holds_weaken {A} (P Q : Game -> Prop) R (m : I (St := Game) A) : (forall G, P G -> Q G) -> holds Q R m -> holds P R m.
Proof. intros HPQ Hm s a s' E Hs. eapply Hm; [exact E|]. by apply HPQ. Qed.
Lemma holds_server P P' f : (forall G, P G -> P' (set_game_world (set_globals (f (globals (game_world G))) (game_world G)) G)) -> holds P P' (on_server f).
Proof. intros Hf s a s' [= _ <-]. apply Hf. Qed.
Lemma holds_state P P' f : (forall G, P G -> P' (f G)) -> holds P P' (on_state f).
Proof. intros Hf s a s' [= _ <-]. apply Hf. Qed.
Lemma holds_need {A} P (o : option A) : holds P P (need o).
Proof. apply holds_same. by destruct o. Qed.
Lemma holds_ret {A} P (a : A) : holds P P (iret a).
Proof. by apply holds_same. Qed.
Lemma holds_did P d : holds P P (did d).
Proof. by apply holds_same. Qed.
Lemma holds_get {A} P (f : Game -> A) : holds P P (get_state f).
Proof. by apply holds_same. Qed.
Lemma holds_require P b : holds P P (require b).
Proof. apply holds_same. by destruct b. Qed.
Lemma holds_once P e period : holds P P (addEvent_once e period).
Proof. apply holds_same. intros s. unfold addEvent_once. by destruct (hasEvent e s.1). Qed.

(** Before the tables are loaded, after, and with the flag of the stop down. *)
Definition unloaded (G : Game) : Prop := bare (game_world G) /\ _map_drop_box_configs (gGameConfig (globals (game_world G))) = [].
Definition loaded (G : Game) : Prop := bare (game_world G).
Definition ready (G : Game) : Prop := bare (game_world G) /\ all_saved (globals (game_world G)) = false.
Lemma holds_world m : keeps_bare m -> quiet m -> holds ready ready (in_world m).
Proof.
  intros Hb Hq s a s' E [H1 H2]. unfold in_world in E. specialize (Hb _ H1). unfold wwp in Hb.
  destruct (m (game_world s.2)) as [[] w| |] eqn:Em; try discriminate. injection E as _ <-. split; [exact Hb|]. cbn. by rewrite (Hq _ _ _ Em).
Qed.
Lemma ready_globals f : (forall g, sessions (f g) = sessions g /\ gGameConfig (f g) = gGameConfig g /\ all_saved (f g) = all_saved g) -> holds ready ready (on_server f).
Proof.
  intros Hf. apply holds_server. intros G [[H1 H2 H3 H4] H5]. destruct (Hf (globals (game_world G))) as (F1 & F2 & F3).
  split; [|cbn; by rewrite F3]. constructor; cbn; [done|done|by rewrite F1|by rewrite F2].
Qed.
Create HintDb holds.
#[export] Hint Resolve holds_need holds_ret holds_did holds_get holds_require holds_once : holds.

Lemma RankManager_Init_ready : holds ready ready RankManager_Init.
Proof.
  unfold RankManager_Init, get_server. eapply holds_bind; [eauto with holds|]. intros g. eapply holds_bind; [|eauto with holds].
  destruct (_ =? 0); [|eauto with holds]. apply holds_world; [apply bare_DailyGameUpdate|eauto with quiet].
Qed.
Lemma DreamHeroManager_init_ready shuffles : holds loaded ready (DreamHeroManager_init shuffles).
Proof.
  unfold DreamHeroManager_init, get_server. eapply holds_bind; [apply (holds_get loaded)|]. intros g0. cbv zeta.
  apply holds_bind with (Q := ready). { apply holds_server. intros G [H1 H2 H3 H4]. split; [by constructor|done]. } intros [].
  eapply holds_bind; [apply (holds_once ready)|]. intros [].
  eapply holds_bind. { instantiate (1 := ready). destruct (_ && _); eauto with holds. } intros [].
  eapply holds_bind; [apply (holds_once ready)|]. intros []. eapply holds_bind; [apply (holds_once ready)|]. intros [].
  intros s a s' E Hs. apply ibind_done in E as (g & s1 & E1 & E). injection E1 as <- <-.
  apply ibind_done in E as (names & s1 & E1 & E). unfold defined in E1. destruct (refreshHeroTitle _ _ _ _) as [names'|] eqn:Et; [|discriminate].
  injection E1 as <- <-. apply refreshHeroTitle_saved in Et. apply ibind_done in E as ([] & s1 & E1 & E). injection E1 as <-.
  refine (holds_bind ready ready ready _ _ _ _ _ _ _ E _).
  - destruct (same_day _ _ _); [eauto with holds|]. apply holds_world; [apply bare_refreshDayNumber|eauto with quiet].
  - intros []. apply RankManager_Init_ready.
  - destruct Hs as [[H1 H2 H3 H4] H5]. split; [by constructor|]. cbn. unfold all_saved in *. cbn. by rewrite Et.
Qed.
Lemma promotions_init_ready : holds ready ready promotions_init.
Proof.
  intros s a s' E [[H1 H2 H3 H4] H5]. apply ibind_done in E as (g & s1 & E1 & E). injection E1 as <- <-.
  apply ibind_done in E as (p & s1 & E1 & E). unfold defined in E1. destruct (ShopSalesPromotionManager_init _ _ _) as [p'|] eqn:Ep; [|discriminate].
  injection E1 as <- <-. injection E as _ <-. apply promotions_wf in Ep; [|done]. split; [by constructor|done].
Qed.

Section Starts.
Context {Row : Type} `{DBRow Row} (E : Env Row).
Lemma Load_bare conf G : unloaded G -> config_wf (Load (fun sql => default [] (answer E conf sql)) (gGameConfig (globals (game_world G)))).1.
Proof. intros [[_ _ _ H4] Hd]. by apply Load_wf. Qed.
Lemma initDataFromWorldDB_loaded conf : holds unloaded loaded (initDataFromWorldDB E conf).
Proof.
  intros s a s' E1 Hs. apply ibind_done in E1 as ([] & s1 & E1 & E2). apply require_done in E1 as [_ ->].
  apply ibind_done in E2 as (g & s1 & E1 & E2). injection E1 as <- <-. cbv zeta in E2. pose proof (Load_bare conf _ Hs) as K.
  destruct (Load _ _) as [c rank]. apply ibind_done in E2 as ([] & s1 & E1 & E2). injection E1 as <-. injection E2 as _ <-.
  destruct Hs as [[H1 H2 H3 H4] _]. by destruct rank as [[size progress]|]; constructor.
Qed.
Lemma initDataFromCharacterDB_loaded conf : holds loaded loaded (initDataFromCharacterDB E conf).
Proof.
  unfold initDataFromCharacterDB, store, get_server. eapply holds_bind; [apply (holds_need loaded)|]. intros status.
  eapply holds_bind. { instantiate (1 := loaded). destruct status; eauto with holds. } intros names.
  eapply holds_bind; [apply (holds_get loaded)|]. intros g. eapply holds_bind. { apply (holds_same loaded). done. } intros [n begin].
  eapply holds_bind. { apply (holds_server loaded loaded). intros G [H1 H2 H3 H4]. by destruct begin; constructor. } intros [].
  eapply holds_bind; [apply (holds_need loaded)|]. intros rows. apply holds_server. intros G [H1 H2 H3 H4]. by constructor.
Qed.
Lemma read_server_config_loaded row : holds loaded loaded (read_server_config row).
Proof.
  unfold read_server_config. eapply holds_bind. { apply (holds_server loaded loaded). intros G [H1 H2 H3 H4]. constructor; cbn; [done..|]. by destruct H4. }
  intros []. by apply holds_state.
Qed.
Lemma holds_store P conf sql : holds P P (store E conf sql).
Proof. apply holds_need. Qed.
Lemma holds_net P conf sql : holds P P (net_config E conf sql).
Proof. eapply holds_bind; [apply holds_store|intros rows; apply holds_need]. Qed.
Lemma holds_database P conf c : holds P P (database_config E conf c).
Proof. eapply holds_bind; [apply holds_store|intros rows; apply holds_need]. Qed.
Lemma holds_listen P l c : holds P P (listen E l c).
Proof. eapply holds_bind; [apply holds_require|intros ?; apply holds_did]. Qed.
Lemma holds_block P P' conf m : holds P P' m -> holds P P' (addBlockTask E conf m).
Proof. intros Hm. eapply holds_bind; [apply holds_require|by intros ?]. Qed.
#[local] Hint Resolve holds_store holds_net holds_database holds_listen holds_block : holds.
Ltac holds_step P := apply holds_bind with (Q := P); [solve [eauto with holds]|intros ?].
Lemma initDataFromDatabase_loaded conf center : holds unloaded loaded (GameServer_initDataFromDatabase E conf center).
Proof.
  unfold GameServer_initDataFromDatabase, Startup.connect, initDatabase. do 6 holds_step unloaded.
  apply holds_bind with (Q := loaded); [apply holds_block, initDataFromWorldDB_loaded|intros _]. holds_step loaded.
  apply holds_bind with (Q := loaded); [apply holds_block, initDataFromCharacterDB_loaded|intros _]. do 2 holds_step loaded.
  apply holds_bind with (Q := loaded). { destruct a7; [eauto with holds|apply read_server_config_loaded]. } intros _.
  holds_step loaded. destruct (_need_connect_platform _); eauto with holds.
Qed.
Lemma GameServer_init_ready now shuffles conf : holds unloaded ready (GameServer_init E now shuffles conf).
Proof.
  unfold GameServer_init, initDatabase. apply holds_bind with (Q := unloaded). { apply holds_server. by intros G [[H1 H2 H3 H4] H5]. } intros _.
  do 3 holds_step unloaded. apply holds_bind with (Q := loaded); [apply holds_block, initDataFromDatabase_loaded|intros _]. holds_step loaded.
  apply holds_bind with (Q := ready); [apply DreamHeroManager_init_ready|intros _].
  apply holds_bind with (Q := ready); [apply promotions_init_ready|intros _]. eauto with holds.
Qed.

(** *** The timers *)
Definition sets {A} (e : TimerEvent) (m : I (St := Game) A) : Prop := forall s a s', m s = (Done a, s') -> hasEvent e s'.1 = true.
Lemma hasEvent_app e l l' : hasEvent e (l ++ l') = hasEvent e l || hasEvent e l'.
Proof. apply existsb_app. Qed.
Lemma sets_left {A B} e (m : I A) (f : A -> I B) : sets e m -> (forall a, adds (fun _ => True) (f a)) -> sets e (ibind m f).
Proof.
  intros Hm Hf s b s'' E1. apply ibind_done in E1 as (a & s' & E1 & E2). apply (adds_done (fun _ => True)) in E2 as (l & -> & _); [|apply Hf].
  by rewrite hasEvent_app, (Hm _ _ _ E1).
Qed.
Lemma sets_right {A B} e (m : I A) (f : A -> I B) : (forall a, sets e (f a)) -> sets e (ibind m f).
Proof. intros Hf s b s'' E1. apply ibind_done in E1 as (a & s' & E1 & E2). by eapply Hf. Qed.
Lemma sets_once e period : sets e (addEvent_once e period).
Proof.
  intros s a s'. unfold addEvent_once. destruct (hasEvent e s.1) eqn:Es; intros [= _ <-]; [done|]. cbn [fst]. rewrite hasEvent_app.
  by destruct e; rewrite orb_true_r.
Qed.
Lemma adds_weaken {St A} (P Q : Did -> Prop) (m : I (St := St) A) : adds P m -> (forall d, P d -> Q d) -> adds Q m.
Proof. intros Hm HPQ s. destruct (Hm s) as (l & E1 & Hl). exists l. split; [done|]. by eapply Forall_impl. Qed.
Lemma adds_any {St A} P (m : I (St := St) A) : adds P m -> adds (fun _ => True) m.
Proof. intros Hm. by eapply adds_weaken. Qed.
#[local] Hint Resolve initDataFromWorldDB_quiet initDataFromCharacterDB_quiet : adds.
Lemma initDataFromDatabase_adds conf center : adds (fun _ => True) (GameServer_initDataFromDatabase E conf center).
Proof.
  unfold GameServer_initDataFromDatabase, net_config, listen, database_config, addBlockTask, store, initDatabase, read_server_config, on_server, get_server.
  repeat (first [apply (adds_any quiet_did); solve [eauto with adds]|progress start_adds]).
Qed.
Definition timers : list TimerEvent :=
  [EVENT_PER_TEN_MIN_COLLECT_; EVENT_PER_MIN_COLLECT_; EVENT_COLLECT_INFO_; EVENT_PER_MIN; EVENT_SAVE_HEROES_STATU; EVENT_SAVE_DAILY_GAME_RANK_].
Lemma DreamHeroManager_init_sets e shuffles : e ∈ [EVENT_COLLECT_INFO_; EVENT_PER_MIN; EVENT_SAVE_HEROES_STATU; EVENT_SAVE_DAILY_GAME_RANK_] ->
  sets e (DreamHeroManager_init shuffles).
Proof.
  intros He. unfold DreamHeroManager_init, RankManager_Init, on_server, get_server.
  repeat (apply elem_of_cons in He as [->|He]); [..|by apply elem_of_nil in He];
    repeat first [apply sets_left; [apply sets_once|intros ?; start_adds] | apply sets_once | apply sets_right; intros ?].
Qed.
Lemma GameServer_init_sets e now shuffles conf : e ∈ timers -> sets e (GameServer_init E now shuffles conf).
Proof.
  intros He. assert (K : forall c, adds (fun _ => True) (addBlockTask E c (GameServer_initDataFromDatabase E conf c))).
  { intros c. apply adds_bind; [eauto with adds|intros _; apply initDataFromDatabase_adds]. }
  assert (Kd : adds (fun _ => True) (DreamHeroManager_init shuffles)) by (eapply adds_any; eauto with adds).
  assert (Kp : adds (fun _ => True) promotions_init) by (eapply adds_any; eauto with adds).
  unfold GameServer_init, initDatabase. do 2 (apply sets_right; intros ?). unfold timers in He.
  do 2 (apply elem_of_cons in He as [->|He]; [apply sets_left; [apply sets_once|intros _; start_adds; solve [apply K|done|start_adds]]|apply sets_right; intros _]).
  do 2 (apply sets_right; intros _). apply sets_left; [by apply DreamHeroManager_init_sets|intros _; start_adds; done].
Qed.
Definition ends_in {A} (d : Did) (m : I (St := Game) A) : Prop := forall s a s', m s = (Done a, s') -> exists l, s'.1 = l ++ [d].
Lemma ends_right {A B} d (m : I A) (f : A -> I B) : (forall a, ends_in d (f a)) -> ends_in d (ibind m f).
Proof. intros Hf s b s'' E1. apply ibind_done in E1 as (a & s' & E1 & E2). by eapply Hf. Qed.
Lemma ends_did d : ends_in d (did d).
Proof. intros s a s' [= _ <-]. by exists s.1. Qed.

End Starts.

(** ** A centre with one server of each kind *)
Definition net (category server : Z) (ip : string) (port : Z) : saved_row :=
  [("Category", AD category); ("ServerId", AD server); ("Ip", AS ip); ("Port", AD port); ("MaxConnect", AD 100); ("ThreadCount", AD 2); ("OutTime", AD 30)]%string.
Definition demo_table : list saved_row :=
  [net 0 1 "login" 7000; net 1 1 "login" 7001; net 2 1 "gate" 7002; net 3 3 "game" 7003; net 3 4 "game" 7004; net 4 1 "db" 7005].
Definition demo_conf : service_config := mkServiceConfig 4 1000 2 10 true 0.
Definition demo_answers : list (string * list saved_row) :=
  (game_query _GAME_LISTEN_GATE_ 4, filter (fun r => row_int r "Category" = _GAME_LISTEN_GATE_ /\ row_int r "ServerId" = 4) demo_table) ::
  (gate_query 1 _GATE_LISTEN_USER_, [net 2 1 "gate" 7002]) ::
  map (fun c => (net_query c, filter (fun r => row_int r "Category" = c) demo_table)) [0; 1; 2; 3; 4] ++
  map (fun c => (database_query c, [[("Id", AD c)]%string])) [0; 1; 2].
Definition demo_env : Env saved_row :=
  mkEnv saved_row (fun f => if String.eqb f CENTER_DATABASE_CONFIG then Some (fun _ => mkJson false 0 0 true "center") else None)
    (fun _ => Some (127, 0, 0, 1)) (fun _ => true)
    (fun _ sql => Some (match find (fun a => String.eqb a.1 sql) demo_answers with Some (_, rows) => rows | None => [] end)) (fun _ _ _ _ => true).
Definition demo_boot : Game := mkGame (started (set_gGameConfig empty_config (set_gRankManager (mkRankManager [] [] 0 0 0 0) demo_server))) "" "" 0 0.
Definition game_run : list Did * Game := (GameServer_init demo_env 1500010000 (repeat (seqZ 0 10) 6) demo_conf ([], demo_boot)).2.
Definition login_run : list Did * LoginConfig := (LoginServer_init demo_env ([], mkLoginConfig (0, 0, 0) [] false "")).2.
Definition gate_run : list Did * unit := (GateServer_init demo_env (mkServiceConfig 1 0 0 0 true 0) ([], tt)).2.
Definition db_run : list Did * unit := (DBServer_init demo_env ([], tt)).2.
Lemma game_run_done : GameServer_init demo_env 1500010000 (repeat (seqZ 0 10) 6) demo_conf ([], demo_boot) = (Done tt, (game_run.1, game_run.2)).
Proof. vm_compute. reflexivity. Qed.
Lemma login_run_done : LoginServer_init demo_env ([], mkLoginConfig (0, 0, 0) [] false "") = (Done tt, (login_run.1, login_run.2)).
Proof. vm_compute. reflexivity. Qed.
Lemma gate_run_done : GateServer_init demo_env (mkServiceConfig 1 0 0 0 true 0) ([], tt) = (Done tt, (gate_run.1, gate_run.2)).
Proof. vm_compute. reflexivity. Qed.
Lemma db_run_done : DBServer_init demo_env ([], tt) = (Done tt, (db_run.1, db_run.2)).
Proof. vm_compute. reflexivity. Qed.
Lemma demo_net_table : net_table demo_env demo_table.
Proof.
  intros c rows Hc. assert (Hn : c = 0 \/ c = 1 \/ c = 2 \/ c = 3 \/ c = 4) by lia.
  repeat (destruct Hn as [->|Hn]; [vm_compute; by intros [= <-]|]). subst c. vm_compute. by intros [= <-].
Qed.
Lemma demo_game_table : game_table demo_env (Startup.id demo_conf) demo_table.
Proof. intros rows. vm_compute. by intros [= <-]. Qed.
Lemma demo_boot_unloaded : unloaded demo_boot.
Proof. split; [constructor; try reflexivity; exact empty_config_wf|reflexivity]. Qed.

Lemma servers_meet_witness :
  ports LoginClient gate_run.1 = [7001] /\ ports DBClient game_run.1 = [7005] /\ ports GameClient gate_run.1 = [7003; 7004] /\
  exists port, port ∈ ports GameClient gate_run.1 /\ listens GateListener game_run.1 = [port].
Proof.
  split; [vm_compute; reflexivity|]. split; [vm_compute; reflexivity|]. split; [vm_compute; reflexivity|].
  exact (proj2 (proj2 (servers_meet demo_env demo_env demo_env demo_env demo_table _ _ _ _ _ _ _ _ _ _ _ _ _ _ _ _
    demo_net_table demo_net_table demo_net_table demo_net_table demo_game_table login_run_done gate_run_done db_run_done game_run_done))).
Defined.
