(* ===== verification/VirtualClient.v ===== *)
(** * virtualclient: the robots of the test client

    client.cpp [Client] is a robot: it asks the login server for a gate, leaves
    it and goes to the gate.  client_manager.cpp [ClientTest] makes the robots,
    lets them connect a few at a time, and keeps who is on line and who is not;
    VirtualConfig.cpp holds the accounts; two list boxes of virtualclientDlg.cpp
    show the two lists.  Each robot has a whole [tcp_client] of TcpClient.v,
    whose callbacks and messages it answers.  What [gethostbyname] resolves and
    how protobuf writes a message are left open. *)
From stdpp Require Import gmap strings.
From S2P Require Startup.
From S2P Require Import Prelude Text Wire Queues TcpClient.

(** ** Data *)
Inductive client_state := _client_init_ | _client_wait_login_ | _client_conn_login_ | _client_wait_gate_ | _client_connet_gate_ | _client_close_.
#[export] Instance client_state_eq_dec : EqDecision client_state.
Proof. solve_decision. Defined.
Inductive Request :=
  | LoginRequest (name pwd : string) (channel : Z) (version : Z * Z * Z)
  | LoginGame (user_account : Z)
  | PingNotify (ping_count time : Z).
(** [Unregistered]: a message without a handler ([registerSDFun] gives no default). *)
Inductive Response :=
  | LoginResponse (result : Z) (gate_ip : string) (gate_port user_account : Z)
  | HeroesInit | Ping (ping_count time : Z) | Unregistered.
Definition enumLoginResult_Success : Z := 0.
Definition INVALID_TRANS_ID : Z := 0.

(** The robot's part of [Client]; [m_info] is the address it would connect to. *)
Record Client := mkRobot {
  net : tcp_client Response; m_client_state : client_state; m_transid : Z; m_info : string * Z;
  _acc : string; m_ready_connect_gate : bool; m_MoveStateEnable : bool
}.
Definition set_net v c := mkRobot v (m_client_state c) (m_transid c) (m_info c) (_acc c) (m_ready_connect_gate c) (m_MoveStateEnable c).
Definition set_client_state v c := mkRobot (net c) v (m_transid c) (m_info c) (_acc c) (m_ready_connect_gate c) (m_MoveStateEnable c).
Definition told_gate t info c := mkRobot (net c) (m_client_state c) t info (_acc c) true (m_MoveStateEnable c).
Definition IsOK (c : Client) : bool := m_MoveStateEnable c.
Definition IsGetTrans (c : Client) : bool := m_transid c >? 0.

(** [ClientTest]; a robot is its index in [m_Clients]. The two last fields are
    the list boxes of the dialog. *)
Record ClientTest := mkClientTest {
  m_Clients : list Client; m_WaitReconnet : list nat; m_Reconns : gset nat;
  _online_clients : gmap string nat; _offline_clients : gmap string nat;
  m_onceCount : Z; m_onceTime : Z; m_curCount : Z; m_maxCount : Z; m_accountBegin : Z; server_info : string * Z; _client_init : bool;
  _list_online : list string; _list_offline : list string
}.
Definition set_clients v F := mkClientTest v (m_WaitReconnet F) (m_Reconns F) (_online_clients F) (_offline_clients F) (m_onceCount F) (m_onceTime F) (m_curCount F) (m_maxCount F) (m_accountBegin F) (server_info F) (_client_init F) (_list_online F) (_list_offline F).
Definition set_waiting v F := mkClientTest (m_Clients F) v (m_Reconns F) (_online_clients F) (_offline_clients F) (m_onceCount F) (m_onceTime F) (m_curCount F) (m_maxCount F) (m_accountBegin F) (server_info F) (_client_init F) (_list_online F) (_list_offline F).
Definition set_reconns v F := mkClientTest (m_Clients F) (m_WaitReconnet F) v (_online_clients F) (_offline_clients F) (m_onceCount F) (m_onceTime F) (m_curCount F) (m_maxCount F) (m_accountBegin F) (server_info F) (_client_init F) (_list_online F) (_list_offline F).
Definition set_online m l F := mkClientTest (m_Clients F) (m_WaitReconnet F) (m_Reconns F) m (_offline_clients F) (m_onceCount F) (m_onceTime F) (m_curCount F) (m_maxCount F) (m_accountBegin F) (server_info F) (_client_init F) l (_list_offline F).
Definition set_offline m l F := mkClientTest (m_Clients F) (m_WaitReconnet F) (m_Reconns F) (_online_clients F) m (m_onceCount F) (m_onceTime F) (m_curCount F) (m_maxCount F) (m_accountBegin F) (server_info F) (_client_init F) (_list_online F) l.
Definition set_curCount v F := mkClientTest (m_Clients F) (m_WaitReconnet F) (m_Reconns F) (_online_clients F) (_offline_clients F) (m_onceCount F) (m_onceTime F) v (m_maxCount F) (m_accountBegin F) (server_info F) (_client_init F) (_list_online F) (_list_offline F).
Definition set_init_done F := mkClientTest (m_Clients F) (m_WaitReconnet F) (m_Reconns F) (_online_clients F) (_offline_clients F) (m_onceCount F) (m_onceTime F) (m_curCount F) (m_maxCount F) (m_accountBegin F) (server_info F) true (_list_online F) (_list_offline F).
Definition set_accounts begin count F := mkClientTest (m_Clients F) (m_WaitReconnet F) (m_Reconns F) (_online_clients F) (_offline_clients F) (m_onceCount F) (m_onceTime F) (m_curCount F) count begin (server_info F) (_client_init F) (_list_online F) (_list_offline F).
Definition set_config once time info F := mkClientTest (m_Clients F) (m_WaitReconnet F) (m_Reconns F) (_online_clients F) (_offline_clients F) once time (m_curCount F) (m_maxCount F) (m_accountBegin F) info (_client_init F) (_list_online F) (_list_offline F).
(** [ClientTest::ClientTest]; [net_info]'s own constructor gives the address. *)
Definition new_ClientTest : ClientTest :=
  mkClientTest [] [] ∅ ∅ ∅ 0 1000 0 0 1 (Startup._ip Startup.new_net_info, Startup._port Startup.new_net_info) false [] [].

(** ** The lists of accounts *)
Inductive enClientType := offline_client | online_client.
(** [CvirtualclientDlg::ClientListModify]: a deletion takes the first match. *)
Definition ClientListModify (s : string) (add : bool) (l : list string) : list string :=
  if add then l ++ [s] else remove_one s l.
Definition put_in (acc : string) (i : nat) (x : gmap string nat * list string) : gmap string nat * list string :=
  match x.1 !! acc with None => (<[acc := i]> x.1, ClientListModify acc true x.2) | Some _ => x end.
Definition take_out (acc : string) (x : gmap string nat * list string) : gmap string nat * list string :=
  match x.1 !! acc with Some _ => (delete acc x.1, ClientListModify acc false x.2) | None => x end.
Definition on_online (f : gmap string nat * list string -> gmap string nat * list string) (F : ClientTest) : ClientTest :=
  let x := f (_online_clients F, _list_online F) in set_online x.1 x.2 F.
Definition on_offline (f : gmap string nat * list string -> gmap string nat * list string) (F : ClientTest) : ClientTest :=
  let x := f (_offline_clients F, _list_offline F) in set_offline x.1 x.2 F.
Definition addOnlineClient (acc : string) (i : nat) (F : ClientTest) : ClientTest := on_online (put_in acc i) (on_offline (take_out acc) F).
Definition addOfflineClient (acc : string) (i : nat) (F : ClientTest) : ClientTest := on_offline (put_in acc i) (on_online (take_out acc) F).

Definition addToReconn (i : nat) (F : ClientTest) : ClientTest := set_waiting (m_WaitReconnet F ++ [i]) F.
Definition removeFromReconn (i : nat) (F : ClientTest) : ClientTest := set_reconns (m_Reconns F ∖ {[i]}) F.

Section Robots.
Context (s_compress_interface : option CompressStrategy) (gethostbyname : string -> option Z) (encode : Request -> list Z).

(** ** A robot *)
(** A call into the robot's own connection. *)
Definition act (ev : Event Response) (C : tcp_client Response) : tcp_client Response :=
  match step s_compress_interface ev C with Some (_, C) => C | None => C end.
Definition connect_to (info : string * Z) (c : Client) : Client := set_net (act (Connect (gethostbyname info.1) (u16 info.2)) (net c)) c.
Definition reConnect (c : Client) : Client := connect_to (m_info c) c.
Definition sendPBMessage (r : Request) (c : Client) : Client := set_net (act (Send (encode r) false) (net c)) c.

(** What the robots do, for the statements: what each says, and the messages
    it handles. *)
Inductive Did := Said (i : nat) (r : Request) | Took (i : nat) (m : Response).
Definition at_client (i : nat) (f : Client -> Client) (F : ClientTest) : ClientTest := set_clients (alter f i (m_Clients F)) F.
Definition say (i : nat) (r : Request) (F : ClientTest) : list Did * ClientTest := ([Said i r], at_client i (sendPBMessage r) F).

(** [Client::on_connect]; [tcp_client::on_connect] is in [RunCallback]. *)
Definition on_connect (i : nat) (c : Client) (F : ClientTest) : list Did * ClientTest :=
  let F := removeFromReconn i F in
  match m_client_state c with
  | _client_init_ | _client_wait_login_ =>
      say i (LoginRequest (_acc c) "123456" 0 (3, 2, 0)) (at_client i (set_client_state _client_conn_login_) F)
  | _client_wait_gate_ => say i (LoginGame (m_transid c)) (at_client i (set_client_state _client_connet_gate_) F)
  | _ => ([], F)
  end.
Definition on_close (i : nat) (c : Client) (F : ClientTest) : list Did * ClientTest :=
  let F := addOfflineClient (_acc c) i F in
  let F := match m_client_state c with
           | _client_conn_login_ =>
               if m_ready_connect_gate c then at_client i (fun c => connect_to (m_info c) (set_client_state _client_wait_gate_ c)) F else F
           | _ => F
           end in
  ([], addOfflineClient (_acc c) i F).
Definition on_connect_failed (i : nat) (c : Client) (F : ClientTest) : list Did * ClientTest :=
  ([], if decide (m_client_state c = _client_connet_gate_) then addToReconn i F else F).
Definition parseLoginResult (i : nat) (result : Z) (gate_ip : string) (gate_port user_account : Z) (F : ClientTest) : ClientTest :=
  if result =? enumLoginResult_Success
  then at_client i (fun c => let c := told_gate user_account (gate_ip, u16 gate_port) c in set_net (act CloseLink (net c)) c) F
  else F.
Definition parseClientInit (i : nat) (c : Client) (F : ClientTest) : ClientTest := addOnlineClient (_acc c) i F.
Definition parseMsgPing (i : nat) (ping_count time : Z) (F : ClientTest) : list Did * ClientTest := say i (PingNotify ping_count time) F.
(** [proc_message]: the handlers of [initPBModule]. *)
Definition proc_message (i : nat) (c : Client) (m : Response) (F : ClientTest) : list Did * ClientTest :=
  match m with
  | LoginResponse result ip port user => ([], parseLoginResult i result ip port user F)
  | HeroesInit => ([], parseClientInit i c F)
  | Ping count time => parseMsgPing i count time F
  | Unregistered => ([], F)
  end.

(** ** The fleet *)
(** [while (!m_WaitReconnet.empty() && m_Reconns.size() < m_onceCount)], each
    turn of which takes the front of the queue. *)
Fixpoint connect_waiting (wait : list nat) (F : ClientTest) : ClientTest :=
  match wait with
  | [] => F
  | i :: wait =>
      if Z.of_nat (size (m_Reconns F)) <? m_onceCount F
      then connect_waiting wait (set_waiting wait (set_reconns ({[i]} ∪ m_Reconns F) (at_client i reConnect F)))
      else F
  end.
Definition reConnetClient (F : ClientTest) : ClientTest :=
  let F := set_curCount (u32 (m_curCount F + 1)) F in connect_waiting (m_WaitReconnet F) F.

(** [Client::Client], with the account of [VirtualConfig]. *)
Definition account (prefix : string) (index : Z) : string := prefix +:+ "_" +:+ print_u (u32 index).
Definition new_robot (prefix : string) (index : Z) (info : string * Z) : Client :=
  mkRobot (new_client false) _client_init_ INVALID_TRANS_ID info (account prefix index) false false.
(** One turn of [addRobot]. *)
Definition add_robot (prefix : string) (F : ClientTest) (i : nat) : ClientTest :=
  let c := new_robot prefix (Z.of_nat i + m_accountBegin F) (server_info F) in
  let F := addOfflineClient (_acc c) (length (m_Clients F)) F in
  let F := set_clients (m_Clients F ++ [c]) F in
  addToReconn (length (m_Clients F) - 1) F.
Definition addRobot (prefix : string) (F : ClientTest) : ClientTest := foldl (add_robot prefix) F (seq 0 (Z.to_nat (m_maxCount F))).
(** [ClientTest::init]; [robot_json]: server_conf/robot.json, when it can be read. *)
Definition init (prefix : string) (robot_json : option (string -> Startup.Json)) (accountBegin accountEnd : Z) (F : ClientTest) : bool * ClientTest :=
  if _client_init F then (true, set_init_done F)
  else
    let count := i32 (accountEnd - accountBegin) in
    let F := set_accounts (u32 accountBegin) (if count <? 0 then 0 else count) F in
    match robot_json with
    | None => (false, F)
    | Some Root =>
        let time := Startup.getUInt_Value "once_time" Root in
        let F := set_config (Startup.getUInt_Value "once_count" Root) (if time <? 10 then 100 else time)
                   (Startup.getString_Value "ip" Root, u16 (Startup.getUInt_Value "port" Root)) F in
        (true, set_init_done (addRobot prefix F))
    end.
(** The counters of [runOnce]: on line, and with an account from the login server. *)
Definition counts (F : ClientTest) : Z * Z :=
  foldl (fun n c => (if IsOK c then u32 (n.1 + 1) else n.1, if IsGetTrans c then u32 (n.2 + 1) else n.2)) (0, 0) (m_Clients F).

(** ** Steps *)
(** What happens in the connection of a robot, or the timer of [reConnetClient]. *)
Inductive FleetEvent := Net (i : nat) (ev : Event Response) | ReConnet.
Definition from_outside (ev : Event Response) : bool :=
  match ev with Connect _ _ | Send _ _ | CloseLink => false | _ => true end.
Definition react (i : nat) (o : Out Response) (F : ClientTest) : list Did * ClientTest :=
  match m_Clients F !! i, o with
  | Some c, Called OnConnect => on_connect i c F
  | Some c, Called OnClose => on_close i c F
  | Some c, Called OnConnectFailed => on_connect_failed i c F
  | Some c, Handled m => let '(d, F) := proc_message i c m F in (Took i m :: d, F)
  | _, _ => ([], F)
  end.
Fixpoint reacts (i : nat) (os : list (Out Response)) (F : ClientTest) : list Did * ClientTest :=
  match os with
  | [] => ([], F)
  | o :: os => let '(d, F) := react i o F in let '(d', F) := reacts i os F in (d ++ d', F)
  end.
Definition fleet_step (e : FleetEvent) (F : ClientTest) : option (list Did * ClientTest) :=
  match e with
  | ReConnet => Some ([], reConnetClient F)
  | Net i ev =>
      if from_outside ev then
        match m_Clients F !! i with
        | Some c => match step s_compress_interface ev (net c) with
                    | Some (os, C) => Some (reacts i os (at_client i (set_net C) F))
                    | None => None
                    end
        | None => None
        end
      else None
  end.
Inductive fleet_runs (start : ClientTest) : list Did -> ClientTest -> Prop :=
  | fleet_start : fleet_runs start [] start
  | fleet_event o F e o' F' : fleet_runs start o F -> fleet_step e F = Some (o', F') -> fleet_runs start (o ++ o') F'.
Fixpoint fleet_steps (l : list FleetEvent) (F : ClientTest) : option (list Did * ClientTest) :=
  match l with
  | [] => Some ([], F)
  | e :: l => match fleet_step e F with
              | Some (o, F) => match fleet_steps l F with Some (o', F) => Some (o ++ o', F) | None => None end
              | None => None
              end
  end.
End Robots.

(** ** VirtualConfig *)
(** The accounts that [VirtualConfig::GenerateAccount] collects. *)
Fixpoint generated (str_temp : string) (l : list Z) : list string :=
  match l with [] => [] | i :: l => let str_temp := str_temp +:+ "_" +:+ print_d i in str_temp :: generated str_temp l end.
Definition GenerateAccount (_account_begin _account_end : Z) : list string := generated "" (seqZ _account_begin (_account_end - _account_begin)).
Example generated_accounts_grow : GenerateAccount 0 3 = ["_0"; "_0_1"; "_0_1_2"]%string.
Proof. vm_compute. reflexivity. Qed.

(** ** How often a robot can still be connected *)
Definition ends_connect (c : Callback) : bool := match c with OnConnect | OnConnectFailed => true | OnClose => false end.
Definition connect_calls (q : TwoQueues Callback) : nat := length (List.filter ends_connect (pending q)).
(** The connects that have been asked for and of which the program has not
    heard the end. *)
Definition tokens (C : tcp_client Response) : nat := length (connect_posts C) + length (connects C) + connect_calls (m_cb_mgr C).
Definition ends (o : Out Response) : bool := match o with Called c => ends_connect c | _ => false end.
Definition goals (C : tcp_client Response) : list (Z * Z) := connect_posts C ++ connects C.

Section Link.
Context (s_compress_interface : option CompressStrategy).
Abbreviation Step := (step s_compress_interface).
Implicit Types (C : tcp_client Response).

(** A step that asks for no connect and ends none. *)
Record idle C C' : Prop := {
  i_posts : connect_posts C' = connect_posts C; i_connects : connects C' = connects C;
  i_calls : connect_calls (m_cb_mgr C') = connect_calls (m_cb_mgr C)
}.
Lemma idle_trans C1 C2 C3 : idle C1 C2 -> idle C2 C3 -> idle C1 C3.
Proof. intros [] []. split; congruence. Qed.
Lemma connect_calls_push c q : connect_calls (push c q) = (connect_calls q + if ends_connect c then 1 else 0)%nat.
Proof. unfold connect_calls. rewrite push_pending, List.filter_app, length_app. by destruct c. Qed.
Lemma idle_close C : idle C (_on_close C).
Proof. split; [done..|]. cbn. rewrite connect_calls_push. cbn. lia. Qed.
Lemma idle_read ms last C : idle C (handle_read_some ms last C).
Proof.
  unfold handle_read_some. set (C1 := foldl _ _ _).
  assert (H : idle C C1).
  { unfold C1. clear C1. revert C. induction ms as [|m ms IH]; intros C; [done|]. cbn. by eapply idle_trans; [|apply IH]. }
  eapply idle_trans; [exact H|]. destruct last; [by split..|]. by eapply idle_trans; [|apply idle_close].
Qed.
Lemma idle_le C C' : idle C C' -> (tokens C' <= tokens C)%nat /\ goals C' ⊆ goals C.
Proof. intros [H1 H2 H3]. unfold tokens, goals. rewrite H1, H2, H3. done. Qed.

Lemma remove_one_length (ep : Z * Z) l : ep ∈ l -> length l = S (length (remove_one ep l)) /\ remove_one ep l ⊆ l.
Proof.
  intros H%remove_one_perm. split; [by rewrite H at 1|]. intros x Hx. rewrite H. by right.
Qed.
Ltac in_lists := intros ?x; rewrite ?elem_of_app, ?elem_of_cons; tauto.
Lemma reconnect_tokens C : (tokens (reconnect C) <= tokens C + 1)%nat /\ goals (reconnect C) ⊆ goals C ++ [m_endpoint C].
Proof.
  unfold reconnect. destruct (is_connected C); [split; [lia|in_lists]|]. destruct (m_isconnecting C); [split; [lia|in_lists]|].
  unfold tokens, goals. cbn. rewrite length_app. cbn. split; [lia|in_lists].
Qed.

Lemma ends_pushed (ms : list Response) : List.filter ends (map Pushed ms) = [].
Proof. induction ms as [|m ms IH]; [done|exact IH]. Qed.

(** Nothing outside the program makes a robot connect. *)
Lemma step_tokens ev C os C' : inv C -> m_isreconnect C = false -> from_outside ev = true -> Step ev C = Some (os, C') ->
  (tokens C' + length (List.filter ends os) <= tokens C)%nat /\ goals C' ⊆ goals C.
Proof.
  intros [_ _ _ I] Hr Ho E. unfold queues_ok in I.
  assert (Hnil : forall C', idle C C' -> (tokens C' + 0 <= tokens C)%nat /\ goals C' ⊆ goals C) by (intros C'' H%idle_le; by rewrite Nat.add_0_r).
  destruct ev as [hptr port|ep|now error|now| | | | |e ms last|e|data b| |error| |]; try discriminate; cbn [step] in E.
  - case_decide as Hep; [|discriminate]. injection E as <- <-. destruct (remove_one_length _ _ Hep) as [Hl Hs].
    set (C1 := set_endpoint ep (set_posts (remove_one ep (connect_posts C)) C)). destruct (reconnect_tokens C1) as [H1 H2].
    assert (H3 : (tokens C1 + 1 = tokens C)%nat) by (unfold tokens; cbn; lia).
    split; [change (tokens (reconnect C1) + 0 <= tokens C)%nat; lia|]. change (goals (reconnect C1) ⊆ goals C).
    revert H2. unfold goals. cbn. intros H2 x Hx%H2. revert Hx. rewrite !elem_of_app, list_elem_of_singleton. intros [[Hx|Hx]| ->]; [left; by apply Hs|by right|by left].
  - destruct (connects C) as [|ep l] eqn:Hc; [discriminate|]. injection E as <- <-.
    unfold handle_connect, tokens, goals. change (is_connected (set_connecting _ _ _)) with (is_connected C). rewrite Hc.
    destruct (is_connected C), error; cbn; rewrite ?connect_calls_push; cbn; (split; [lia|in_lists]).
  - destruct (phase C); try discriminate. injection E as <- <-. apply Hnil. unfold run_reconnect. by rewrite Hr, andb_false_r.
  - destruct (phase C); try discriminate. injection E as <- <-. apply Hnil. destruct (swap (m_cb_mgr C)) as [[i q]|] eqn:Eq; [|done].
    split; try done. unfold connect_calls. cbn. by destruct (swap_pending _ _ _ (proj1 I) Eq) as [-> _].
  - destruct (phase C) as [| |i| |]; try discriminate. destruct I as [Hi _]. unfold at_work in Hi.
    destruct (pop i (m_cb_mgr C)) as [[c|] q] eqn:Eq; injection E as <- <-; [|by apply Hnil].
    rewrite Hi in Eq. destruct (pop_pending _ _ _ Eq) as [Hq _]. unfold tokens, connect_calls. rewrite Hq. destruct c; cbn; (split; [lia|done]).
  - destruct (phase C); try discriminate. injection E as <- <-. apply Hnil. by destruct (swap (m_queue_recv_msg C)) as [[]|].
  - destruct (phase C) as [| | | |i]; try discriminate. destruct (pop i (m_queue_recv_msg C)) as [[m|] q]; injection E as <- <-; by apply Hnil.
  - case_decide; [|discriminate]. injection E as <- <-. rewrite ends_pushed.
    apply Hnil. by eapply idle_trans; [|apply idle_read].
  - case_decide; [|discriminate]. injection E as <- <-. apply Hnil. by eapply idle_trans; [|apply idle_close].
  - case_decide; [|discriminate]. injection E as <- <-. by apply Hnil.
  - destruct (in_flight (link C)) as [n|]; [|discriminate]. injection E as <- <-. destruct error; apply Hnil; [|done].
    split; [done..|]. cbn. rewrite connect_calls_push. cbn. lia.
  - destruct (close_posted (link C)); [|discriminate]. injection E as <- <-. by apply Hnil.
Qed.
End Link.

(** ** What a robot says, and when *)
Definition is_ping (r : Request) : bool := match r with PingNotify _ _ => true | _ => false end.
(** What robot [i] has said, the answers to pings apart. *)
Definition said_by (i : nat) (o : list Did) : list Request :=
  omap (fun d => match d with Said j r => if decide (i = j) then if is_ping r then None else Some r else None | Took _ _ => None end) o.
(** The login server has told robot [i] this account and this gate. *)
Definition told (i : nat) (o : list Did) (t : Z) (info : string * Z) : Prop :=
  exists port, Took i (LoginResponse enumLoginResult_Success info.1 port t) ∈ o /\ info.2 = u16 port.
Definition login_request (c : Client) : Request := LoginRequest (_acc c) "123456" 0 (3, 2, 0).
Definition of_robot (i : nat) (d : Did) : Prop := match d with Said j _ | Took j _ => j = i end.
(** The connects a robot may still make. *)
Definition allowance (s : client_state) : nat := match s with _client_init_ | _client_wait_gate_ => 1 | _ => 0 end.
Definition waits (i : nat) (F : ClientTest) : nat := count_occ Nat.eq_dec (m_WaitReconnet F) i.

Section Robot.
Context (s_compress_interface : option CompressStrategy) (gethostbyname : string -> option Z) (encode : Request -> list Z).
Implicit Types (F : ClientTest) (c : Client) (o : list Did).

(** [w]: how often the robot is in the queue; [r]: it holds a place; [b]: ends
    of connects that it is about to hear of. *)
Record robot_ok o (i w : nat) (r : Prop) (b : nat) c : Prop := {
  r_inv : inv (net c); r_flag : m_isreconnect (net c) = false;
  r_tokens : (tokens (net c) + w + b <= allowance (m_client_state c))%nat;
  r_waits : (0 < w)%nat -> m_client_state c = _client_init_;
  r_place : r -> m_client_state c = _client_init_;
  r_said : match m_client_state c with
           | _client_init_ => said_by i o = []
           | _client_conn_login_ | _client_wait_gate_ => said_by i o = [login_request c]
           | _client_connet_gate_ => exists t info, said_by i o = [login_request c; LoginGame t] /\ told i o t info
           | _ => False
           end;
  r_told : m_ready_connect_gate c = true -> told i o (m_transid c) (m_info c);
  r_gate : m_client_state c = _client_wait_gate_ -> m_ready_connect_gate c = true /\
    forall ep, ep ∈ goals (net c) -> exists t info, told i o t info /\ gethostbyname info.1 = Some ep.1 /\ ep.2 = info.2
}.

Lemma said_by_app i o o' : said_by i (o ++ o') = said_by i o ++ said_by i o'.
Proof. apply omap_app. Qed.
Lemma said_by_other i j o : Forall (of_robot j) o -> i <> j -> said_by i o = [].
Proof. intros H Hne. induction H as [|[k r|k m] o Hd _ IH]; [done|..]; cbn in *; subst; [|exact IH]. by rewrite decide_False. Qed.
Lemma told_longer i o o' t info : told i o t info -> told i (o ++ o') t info.
Proof. intros (port & H & E). exists port. split; [|done]. apply elem_of_app. by left. Qed.
(** What says nothing new leaves a robot as it is. *)
Lemma robot_ok_app o o' i w r b c : robot_ok o i w r b c -> said_by i o' = [] -> robot_ok (o ++ o') i w r b c.
Proof.
  intros [H1 H2 H3 H4 H5 H6 H7 H8] Ho. split; [done..| | |].
  - rewrite said_by_app, Ho, app_nil_r. destruct (m_client_state c); try done. destruct H6 as (t & info & E & H). exists t, info. split; [done|]. by apply told_longer.
  - intros E. by apply told_longer, H7.
  - intros E. destruct (H8 E) as [Hr Hg]. split; [done|]. intros ep He. destruct (Hg ep He) as (t & info & H & Hx). exists t, info. split; [by apply told_longer|done].
Qed.

(** Calls of the robot into its connection. *)
Lemma act_inv ev C : inv C -> inv (act s_compress_interface ev C).
Proof. intros I. unfold act. destruct (step _ ev C) as [[o C']|] eqn:E; [|done]. by eapply client_step_inv. Qed.
Lemma act_flag ev C : m_isreconnect (act s_compress_interface ev C) = m_isreconnect C.
Proof. unfold act. destruct (step _ ev C) as [[o C']|] eqn:E; [|done]. by eapply step_keeps_flags. Qed.
Lemma robot_ok_link o i w r b c ev : robot_ok o i w r b c -> match ev with Send _ _ | CloseLink => True | _ => False end ->
  robot_ok o i w r b (set_net (act s_compress_interface ev (net c)) c).
Proof.
  intros [H1 H2 H3 H4 H5 H6 H7 H8] Hev. split; try done; cbn [net set_net m_client_state].
  - by apply act_inv.
  - by rewrite act_flag.
  - by destruct ev.
  - intros E. destruct (H8 E) as [Hr Hg]. split; [done|]. by destruct ev.
Qed.
Lemma connect_tokens info c : (tokens (net (connect_to s_compress_interface gethostbyname info c)) <= tokens (net c) + 1)%nat.
Proof. unfold tokens. cbn. destruct (gethostbyname info.1); cbn; rewrite ?length_app; cbn; lia. Qed.
Lemma connect_goals info c ep : ep ∈ goals (net (connect_to s_compress_interface gethostbyname info c)) ->
  ep ∈ goals (net c) \/ gethostbyname info.1 = Some ep.1 /\ ep.2 = u16 info.2.
Proof.
  unfold goals. cbn. destruct (gethostbyname info.1) as [ip|]; cbn; [|by left]. rewrite !elem_of_app, list_elem_of_singleton.
  intros [[H| ->]|H]; auto.
Qed.

(** *** The callbacks and the messages of one robot

    [res]: connects that a robot keeps in reserve, and so will never make. *)
Context (res : nat -> nat).
Definition robots_ok o (i b : nat) F : Prop :=
  forall j c, m_Clients F !! j = Some c -> robot_ok o j (waits j F) (j ∈ m_Reconns F) (if decide (j = i) then b else res j) c.
Lemma robots_update o d i b b' c c' F F' : robots_ok o i b F -> m_Clients F !! i = Some c -> m_Clients F' = <[i := c']> (m_Clients F) ->
  m_WaitReconnet F' = m_WaitReconnet F -> (forall j, j <> i -> j ∈ m_Reconns F' -> j ∈ m_Reconns F) -> Forall (of_robot i) d ->
  (robot_ok o i (waits i F) (i ∈ m_Reconns F) b c -> robot_ok (o ++ d) i (waits i F) (i ∈ m_Reconns F') b' c') -> robots_ok (o ++ d) i b' F'.
Proof.
  intros H Hi Hc Hw Hr Hd Hnew j c0 Hj. unfold waits. rewrite Hw. rewrite Hc in Hj. destruct (decide (j = i)) as [->|Hne].
  - rewrite list_lookup_insert_eq in Hj by (by eapply lookup_lt_Some). injection Hj as <-. apply Hnew. specialize (H i c Hi). by rewrite decide_True in H.
  - rewrite list_lookup_insert_ne in Hj by done. specialize (H j c0 Hj). rewrite decide_False in H by done.
    apply robot_ok_app; [|by eapply said_by_other]. destruct H. split; try done. auto.
Qed.
Lemma insert_alter i c f F : m_Clients F !! i = Some c -> alter f i (m_Clients F) = <[i := f c]> (m_Clients F).
Proof. intros H. rewrite list_insert_alter. revert H. generalize (m_Clients F) as l. induction i as [|i IH]; intros [|x l]; try done; cbn; [by intros [= ->]|]. intros H. f_equal. by apply IH. Qed.

Lemma removed i j F : j ∈ m_Reconns (removeFromReconn i F) <-> j ∈ m_Reconns F /\ j <> i.
Proof. cbn. by rewrite elem_of_difference, elem_of_singleton. Qed.

Abbreviation React := (react s_compress_interface gethostbyname encode).
Lemma on_connect_ok o i b c F d F' : robots_ok o i (1 + b) F -> m_Clients F !! i = Some c ->
  on_connect s_compress_interface encode i c F = (d, F') -> robots_ok (o ++ d) i b F'.
Proof.
  intros H Hi E. assert (Hs : m_client_state c = _client_init_ \/ m_client_state c = _client_wait_gate_).
  { pose proof (H i c Hi) as K. rewrite decide_True in K by done. pose proof (r_tokens _ _ _ _ _ _ K) as Ht. destruct (m_client_state c); cbn in Ht; auto; lia. }
  unfold on_connect in E. destruct Hs as [Hs|Hs]; rewrite Hs in E; injection E as <- <-.
  all: eapply (robots_update o _ i (1 + b) b c _ F);
    [done|done|cbn; rewrite list_alter_alter_eq; by apply insert_alter|done|by intros j _ [? _]%(removed i j F)|by repeat constructor|].
  all: intros K; apply robot_ok_link; [|done]; destruct K as [H1 H2 H3 H4 H5 H6 H7 H8]; rewrite Hs in *; cbn in H3.
  all: split; cbn [net m_client_state set_client_state m_ready_connect_gate allowance]; try done; try lia; try (intros Hx; by apply told_longer, H7); try (by intros [_ ?]%(removed i i F)).
  - rewrite said_by_app, H6. cbn. by rewrite decide_True.
  - destruct (H8 eq_refl) as [Hr _]. exists (m_transid c), (m_info c). split; [|by apply told_longer, H7]. rewrite said_by_app, H6. cbn. by rewrite decide_True.
Qed.
(** The lists of accounts are nothing to a robot. *)
Lemma robots_same o i b F F' : m_Clients F' = m_Clients F -> m_WaitReconnet F' = m_WaitReconnet F -> m_Reconns F' = m_Reconns F ->
  robots_ok o i b F -> robots_ok o i b F'.
Proof. unfold robots_ok, waits. by intros -> -> ->. Qed.
Lemma on_close_ok o i b c F d F' : robots_ok o i b F -> m_Clients F !! i = Some c ->
  on_close s_compress_interface gethostbyname i c F = (d, F') -> robots_ok (o ++ d) i b F'.
Proof.
  intros H Hi E. unfold on_close in E. injection E as <- <-. rewrite app_nil_r.
  destruct (decide (m_client_state c = _client_conn_login_ /\ m_ready_connect_gate c = true)) as [[Hs Hr]|Hno].
  - rewrite Hs, Hr. rewrite <- (app_nil_r o).
    eapply (robots_update o [] i b b c _ F); [done|done|cbn; by apply insert_alter|done|done|done|]. rewrite app_nil_r.
    intros [H1 H2 H3 H4 H5 H6 H7 H8]. rewrite Hs in *. cbn in H3. set (c1 := set_client_state _client_wait_gate_ c).
    change (set_client_state _client_wait_gate_ c) with c1. split; try done.
    + by apply act_inv.
    + pose proof (act_flag (Connect (gethostbyname (m_info c).1) (u16 (m_info c).2)) (net c)) as K. by rewrite H2 in K.
    + pose proof (connect_tokens (m_info c) c1) as K. change (net c1) with (net c) in K. change (allowance _) with 1%nat. lia.
    + intros Hw. lia.
    + intros Hx. specialize (H5 Hx). discriminate.
    + intros _. split; [done|]. intros ep [Hg|[Hg Hp]]%(connect_goals (m_info c) c1).
      * assert (Ht : tokens (net c) = 0%nat) by lia. unfold tokens in Ht. unfold goals in Hg.
        assert (Hn : length (connect_posts (net c) ++ connects (net c)) = 0%nat) by (rewrite length_app; lia). apply nil_length_inv in Hn.
        change (net c1) with (net c) in Hg. rewrite Hn in Hg. by apply elem_of_nil in Hg.
      * exists (m_transid c), (m_info c). pose proof (H7 Hr) as Ht. split_and!; [done..|]. destruct Ht as (port & _ & Hport). rewrite Hp, Hport. apply Zmod_mod.
  - eapply robots_same; [| | |exact H]; destruct (m_client_state c); try done; destruct (m_ready_connect_gate c); try done; by destruct Hno.
Qed.
Lemma on_connect_failed_ok o i b c F d F' : robots_ok o i (1 + b) F -> m_Clients F !! i = Some c -> on_connect_failed i c F = (d, F') ->
  F' = F /\ robots_ok (o ++ d) i b F'.
Proof.
  intros H Hi E. unfold on_connect_failed in E. pose proof (H i c Hi) as K. rewrite decide_True in K by done.
  rewrite decide_False in E; [|intros Hs; pose proof (r_tokens _ _ _ _ _ _ K) as Ht; rewrite Hs in Ht; cbn in Ht; lia].
  injection E as <- <-. split; [done|]. intros j c0 Hj. rewrite app_nil_r. pose proof (H j c0 Hj) as [H1 H2 H3 H4 H5 H6 H7 H8]. split; try done. case_decide; lia.
Qed.
Lemma proc_message_ok o i b c m F d F' : robots_ok o i b F -> m_Clients F !! i = Some c ->
  proc_message s_compress_interface encode i c m F = (d, F') -> robots_ok (o ++ Took i m :: d) i b F'.
Proof.
  intros H Hi E. assert (Htook : forall F1, m_Clients F1 = m_Clients F -> m_WaitReconnet F1 = m_WaitReconnet F -> m_Reconns F1 = m_Reconns F -> robots_ok (o ++ [Took i m]) i b F1).
  { intros F1 E1 E2 E3. eapply robots_same; [done..|]. intros j c0 Hj. apply robot_ok_app; [by apply H|done]. }
  destruct m as [result ip port t| |n time|]; cbn in E; try (injection E as <- <-; by apply Htook).
  - injection E as <- <-. unfold parseLoginResult. destruct (result =? enumLoginResult_Success) eqn:Er; [|by apply Htook]. apply Z.eqb_eq in Er as ->.
    eapply (robots_update o _ i b b c _ F); [done|done|cbn; by apply insert_alter|done|done|by repeat constructor|].
    intros K. apply (robot_ok_link _ i _ _ _ (told_gate t (ip, u16 port) c) CloseLink); [|done].
    apply (robot_ok_app _ [Took i (LoginResponse enumLoginResult_Success ip port t)]) in K; [|done]. destruct K as [H1 H2 H3 H4 H5 H6 H7 H8].
    split; try done; cbn [m_ready_connect_gate told_gate m_transid m_info].
    + intros _. exists port. split; [|done]. apply elem_of_app. right. by left.
    + intros Hs. split; [done|]. by destruct (H8 Hs).
  - injection E as <- <-. eapply (robots_update o _ i b b c _ F); [done|done|cbn; by apply insert_alter|done|done|by repeat constructor|].
    intros K. apply robot_ok_link; [|done]. apply robot_ok_app; [done|]. cbn. by rewrite decide_True.
Qed.

Lemma react_ok o i b x F d F' : robots_ok o i ((if ends x then 1 else 0) + b) F -> React i x F = (d, F') -> robots_ok (o ++ d) i b F'.
Proof.
  intros H E. unfold react in E. destruct (m_Clients F !! i) as [c|] eqn:Hi.
  - destruct x as [m|[]|m|]; cbn in H; try (injection E as <- <-; by rewrite app_nil_r).
    + by eapply on_connect_ok.
    + by eapply on_connect_failed_ok.
    + by eapply on_close_ok.
    + destruct (proc_message _ _ i c m F) as [d0 F0] eqn:Em. injection E as <- <-. by eapply proc_message_ok.
  - injection E as <- <-. rewrite app_nil_r. intros j c Hj. pose proof (H j c Hj) as K. destruct (decide (j = i)) as [->|Hne]; [congruence|done].
Qed.
(** What the reactions do not touch. *)
Definition same_queue F F' : Prop :=
  m_WaitReconnet F' = m_WaitReconnet F /\ m_Reconns F' ⊆ m_Reconns F /\ m_onceCount F' = m_onceCount F.
Lemma react_queue o i b x F d F' : robots_ok o i ((if ends x then 1 else 0) + b) F -> React i x F = (d, F') -> same_queue F F'.
Proof.
  intros H E. unfold react in E. destruct (m_Clients F !! i) as [c|] eqn:Hi; [|by injection E as <- <-].
  destruct x as [m|[]|m|]; try (by injection E as <- <-).
  - unfold on_connect in E. assert (K : same_queue F (removeFromReconn i F)) by (split_and!; [done|by intros j [? _]%removed|done]).
    destruct (m_client_state c); injection E as <- <-; exact K.
  - by destruct (on_connect_failed_ok o i b c F d F' H Hi E) as [-> _].
  - unfold on_close in E. injection E as <- <-. destruct (m_client_state c); try done. by destruct (m_ready_connect_gate c).
  - destruct m as [result ip port t| |n time|]; cbn in E; injection E as <- <-; try done. unfold parseLoginResult. by destruct (result =? _).
Qed.
Lemma reacts_ok i b os : forall o F d F', robots_ok o i (length (List.filter ends os) + b) F ->
  reacts s_compress_interface gethostbyname encode i os F = (d, F') -> robots_ok (o ++ d) i b F' /\ same_queue F F'.
Proof.
  induction os as [|x os IH]; intros o F d F' H E; cbn [reacts] in E.
  - injection E as <- <-. by rewrite app_nil_r.
  - destruct (React i x F) as [d1 F1] eqn:E1. destruct (reacts _ _ _ i os F1) as [d2 F2] eqn:E2. injection E as <- <-. rewrite app_assoc.
    assert (Hx : robots_ok o i ((if ends x then 1 else 0) + (length (List.filter ends os) + b)) F) by (revert H; cbn; by destruct (ends x)).
    destruct (IH (o ++ d1) F1 d2 F2) as [H1 (Q1 & Q2 & Q3)]; [by eapply react_ok|done|]. split; [exact H1|].
    destruct (react_queue _ _ _ _ _ _ _ Hx E1) as (P1 & P2 & P3). split_and!; [congruence|by transitivity (m_Reconns F1)|congruence].
Qed.

(** A robot that will make no connect keeps its place. *)
Lemma react_held o i b x F d F' j : robots_ok o i ((if ends x then 1 else 0) + b) F -> React i x F = (d, F') ->
  (j = i -> (0 < b)%nat) -> j ∈ m_Reconns F -> j ∈ m_Reconns F'.
Proof.
  intros H E Hb Hj. unfold react in E. destruct (m_Clients F !! i) as [c|] eqn:Hi; [|by injection E as <- <-].
  destruct x as [m|[]|m|]; try (by injection E as <- <-).
  - pose proof (H i c Hi) as K. rewrite decide_True in K by done. pose proof (r_tokens _ _ _ _ _ _ K) as Ht. cbn in Ht.
    assert (Ha : (allowance (m_client_state c) <= 1)%nat) by (destruct (m_client_state c); cbn; lia).
    assert (Hj' : j ∈ m_Reconns (removeFromReconn i F)) by (apply removed; split; [done|]; intros Heq; specialize (Hb Heq); lia).
    unfold on_connect in E. destruct (m_client_state c); injection E as <- <-; exact Hj'.
  - unfold on_connect_failed in E. case_decide; by injection E as <- <-.
  - unfold on_close in E. injection E as <- <-. destruct (m_client_state c); try done. by destruct (m_ready_connect_gate c).
  - destruct m as [result ip port t| |n time|]; cbn in E; injection E as <- <-; try done. unfold parseLoginResult. by destruct (result =? _).
Qed.
Lemma reacts_held i b os j : (j = i -> (0 < b)%nat) -> forall o F d F', robots_ok o i (length (List.filter ends os) + b) F ->
  reacts s_compress_interface gethostbyname encode i os F = (d, F') -> j ∈ m_Reconns F -> j ∈ m_Reconns F'.
Proof.
  intros Hb. induction os as [|x os IH]; intros o F d F' H E Hj; cbn [reacts] in E; [by injection E as <- <-|].
  destruct (React i x F) as [d1 F1] eqn:E1. destruct (reacts _ _ _ i os F1) as [d2 F2] eqn:E2. injection E as <- <-.
  assert (Hx : robots_ok o i ((if ends x then 1 else 0) + (length (List.filter ends os) + b)) F) by (revert H; cbn; by destruct (ends x)).
  eapply (IH (o ++ d1)); [by eapply react_ok|done|]. eapply react_held; [done|done| |done]. intros Heq. specialize (Hb Heq). lia.
Qed.

(** *** The fleet *)
Definition all_ok o F : Prop := forall j c, m_Clients F !! j = Some c -> robot_ok o j (waits j F) (j ∈ m_Reconns F) (res j) c.
Lemma robots_all o i F : robots_ok o i (res i) F -> all_ok o F.
Proof. intros H j c Hj. specialize (H j c Hj). by destruct (decide (j = i)) as [->|]. Qed.

Lemma connect_waiting_ok o wait : forall F, m_WaitReconnet F = wait -> all_ok o F ->
  all_ok o (connect_waiting s_compress_interface gethostbyname wait F).
Proof.
  induction wait as [|i wait IH]; intros F Hw H; cbn [connect_waiting]; [done|]. destruct (_ <? _); [|done]. apply IH; [done|].
  intros j c Hj. cbn in Hj. unfold waits. cbn [m_WaitReconnet set_waiting]. destruct (decide (j = i)) as [->|Hne].
  - rewrite list_lookup_alter_eq in Hj. destruct (m_Clients F !! i) as [c0|] eqn:Hi; [|done]. injection Hj as <-.
    pose proof (H i c0 Hi) as [H1 H2 H3 H4 H5 H6 H7 H8]. unfold waits in *. rewrite Hw in *. cbn in H3, H4. destruct (Nat.eq_dec i i); [|done].
    assert (Hs : m_client_state c0 = _client_init_) by (apply H4; lia). rewrite Hs in *. cbn in H3.
    pose proof (connect_tokens (m_info c0) c0) as K. unfold reConnect. split; try done.
    + by apply act_inv.
    + pose proof (act_flag (Connect (gethostbyname (m_info c0).1) (u16 (m_info c0).2)) (net c0)) as Kf. by rewrite H2 in Kf.
    + change (m_client_state _) with (m_client_state c0). rewrite Hs. change (allowance _) with 1%nat. lia.
    + change (m_client_state _) with (m_client_state c0). by rewrite Hs.
    + change (m_client_state _) with (m_client_state c0). rewrite Hs. discriminate.
  - rewrite list_lookup_alter_ne in Hj by done. pose proof (H j c Hj) as [H1 H2 H3 H4 H5 H6 H7 H8]. unfold waits in *. rewrite Hw in *. cbn in H3, H4.
    destruct (Nat.eq_dec i j); [congruence|]. split; try done. cbn. rewrite elem_of_union, elem_of_singleton. intros [->|?]; [done|auto].
Qed.
Lemma connect_waiting_queue wait : forall F, m_WaitReconnet F = wait ->
  let F' := connect_waiting s_compress_interface gethostbyname wait F in
  (exists k, m_WaitReconnet F' = drop k wait) /\ m_onceCount F' = m_onceCount F /\
  (Z.of_nat (size (m_Reconns F)) <= Z.max 0 (m_onceCount F) -> Z.of_nat (size (m_Reconns F')) <= Z.max 0 (m_onceCount F)) /\
  (m_WaitReconnet F' = [] \/ m_onceCount F <= Z.of_nat (size (m_Reconns F'))).
Proof.
  induction wait as [|i wait IH]; intros F Hw; cbn [connect_waiting]; [by split_and!; try (by exists 0%nat); auto|].
  destruct (_ <? _) eqn:E; [|split_and!; [by exists 0%nat|done|done|right; lia]]. apply Z.ltb_lt in E.
  set (F1 := set_waiting wait _). destruct (IH F1 eq_refl) as ([k Hk] & Ho & Hs & Hd). split_and!; [by exists (S k)|done| |done].
  intros _. apply Hs. cbn.
  assert (Hu' : (size ({[i]} ∪ m_Reconns F) <= 1 + size (m_Reconns F))%nat).
  { rewrite size_union_alt, size_singleton. pose proof (subseteq_size (m_Reconns F ∖ {[i]}) (m_Reconns F)) as Hz. apply Nat.add_le_mono_l, Hz. by intros j [? _]%elem_of_difference. }
  change (m_onceCount F1) with (m_onceCount F). lia.
Qed.
End Robot.

(** ** Who is on line *)
Definition accounts (F : ClientTest) : list string := _acc <$> m_Clients F.
(** A list box shows the keys of its map. *)
Definition shown (x : gmap string nat * list string) : Prop := x.2 ≡ₚ (map_to_list x.1).*1.
Lemma shown_put acc i x : shown x -> shown (put_in acc i x).
Proof.
  unfold shown, put_in. intros H. destruct (x.1 !! acc) eqn:E; [done|]. cbn. by rewrite map_to_list_insert, H, fmap_cons, Permutation_app_comm by done.
Qed.
Lemma shown_take acc x : shown x -> shown (take_out acc x).
Proof.
  unfold shown, take_out. intros H. destruct (x.1 !! acc) as [i|] eqn:E; [|done]. cbn.
  assert (Hm : (map_to_list x.1).*1 ≡ₚ acc :: (map_to_list (delete acc x.1)).*1) by (by rewrite <- (map_to_list_delete x.1 acc i E)).
  assert (Hin : acc ∈ x.2) by (rewrite H, Hm; left). apply remove_one_perm in Hin.
  apply (Permutation_cons_inv (a := acc)). by rewrite <- Hin, H, Hm.
Qed.

Record lists_ok F : Prop := {
  l_accounts : NoDup (accounts F);
  l_online s i : _online_clients F !! s = Some i -> accounts F !! i = Some s;
  l_offline s i : _offline_clients F !! s = Some i -> accounts F !! i = Some s;
  l_one i s : accounts F !! i = Some s ->
    (_online_clients F !! s = Some i /\ _offline_clients F !! s = None) \/ (_online_clients F !! s = None /\ _offline_clients F !! s = Some i);
  l_shown : shown (_online_clients F, _list_online F) /\ shown (_offline_clients F, _list_offline F)
}.
Lemma lists_same F F' : accounts F' = accounts F -> _online_clients F' = _online_clients F -> _offline_clients F' = _offline_clients F ->
  _list_online F' = _list_online F -> _list_offline F' = _list_offline F -> lists_ok F -> lists_ok F'.
Proof. intros E1 E2 E3 E4 E5 [H1 H2 H3 H4 H5]. split; unfold shown; rewrite ?E1, ?E2, ?E3, ?E4, ?E5; done. Qed.

(** The maps after [take_out] and [put_in]. *)
Lemma put_lookup acc i x s : (put_in acc i x).1 !! s = if decide (s = acc) then Some (default i (x.1 !! acc)) else x.1 !! s.
Proof.
  unfold put_in. destruct (x.1 !! acc) as [j|] eqn:E; cbn; case_decide as Hs; subst; rewrite ?lookup_insert_eq, ?lookup_insert_ne; done.
Qed.
Lemma take_lookup acc x s : (take_out acc x).1 !! s = if decide (s = acc) then None else x.1 !! s.
Proof.
  unfold take_out. destruct (x.1 !! acc) as [j|] eqn:E; cbn; case_decide as Hs; subst; rewrite ?lookup_delete_eq, ?lookup_delete_ne; done.
Qed.
Lemma account_index F acc i j : lists_ok F -> accounts F !! i = Some acc -> accounts F !! j = Some acc -> j = i.
Proof. intros [H _ _ _ _] Hi Hj. by eapply NoDup_lookup. Qed.
Lemma online_ok F acc i : lists_ok F -> accounts F !! i = Some acc -> lists_ok (addOnlineClient acc i F).
Proof.
  intros L Hi. pose proof L as [H1 H2 H3 H4 [H5 H6]].
  split; [exact H1|..]; unfold addOnlineClient, on_online, on_offline; cbn [_online_clients _offline_clients _list_online _list_offline set_online set_offline].
  - intros s j. rewrite put_lookup. cbn. case_decide as E; [subst|by apply H2]. destruct (_online_clients F !! acc) as [k|] eqn:Ek; cbn; intros [= <-]; [by apply H2|done].
  - intros s j. rewrite take_lookup. cbn. case_decide; [done|]. by apply H3.
  - intros j s Hj. rewrite put_lookup, take_lookup. cbn. change (accounts F !! j = Some s) in Hj. case_decide as E; [|by apply H4]. subst. left. split; [|done].
    rewrite (account_index F acc i j L Hi Hj). destruct (_online_clients F !! acc) as [k|] eqn:Ek; [|done]. cbn. f_equal. eapply account_index; [done..|]. by apply H2.
  - split; rewrite <- surjective_pairing; [by apply shown_put|by apply shown_take].
Qed.
Lemma offline_ok F acc i : lists_ok F -> accounts F !! i = Some acc -> lists_ok (addOfflineClient acc i F).
Proof.
  intros L Hi. pose proof L as [H1 H2 H3 H4 [H5 H6]].
  split; [exact H1|..]; unfold addOfflineClient, on_online, on_offline; cbn [_online_clients _offline_clients _list_online _list_offline set_online set_offline].
  - intros s j. rewrite take_lookup. cbn. case_decide; [done|]. by apply H2.
  - intros s j. rewrite put_lookup. cbn. case_decide as E; [subst|by apply H3]. destruct (_offline_clients F !! acc) as [k|] eqn:Ek; cbn; intros [= <-]; [by apply H3|done].
  - intros j s Hj. rewrite put_lookup, take_lookup. cbn. change (accounts F !! j = Some s) in Hj. case_decide as E; [|by apply H4]. subst. right. split; [done|].
    rewrite (account_index F acc i j L Hi Hj). destruct (_offline_clients F !! acc) as [k|] eqn:Ek; [|done]. cbn. f_equal. eapply account_index; [done..|]. by apply H3.
  - split; rewrite <- surjective_pairing; [by apply shown_take|by apply shown_put].
Qed.

Section Fleet.
Context (s_compress_interface : option CompressStrategy) (gethostbyname : string -> option Z) (encode : Request -> list Z).
Implicit Types (F : ClientTest) (o : list Did).
Abbreviation FleetStep := (fleet_step s_compress_interface gethostbyname encode).
Abbreviation FleetRuns := (fleet_runs s_compress_interface gethostbyname encode).

Lemma accounts_at i f F : (forall c, _acc (f c) = _acc c) -> accounts (at_client i f F) = accounts F.
Proof.
  intros Hf. unfold accounts, at_client. cbn. generalize (m_Clients F) as l. induction i as [|i IH]; intros [|c l]; try done; cbn; [by rewrite Hf|].
  f_equal. apply IH.
Qed.
Lemma at_lists i f F : (forall c, _acc (f c) = _acc c) -> lists_ok F -> lists_ok (at_client i f F).
Proof. intros Hf. by apply lists_same; [apply accounts_at|..]. Qed.
Lemma say_lists i r F d F' : say s_compress_interface encode i r F = (d, F') -> lists_ok F -> lists_ok F'.
Proof. intros [= <- <-]. by apply at_lists. Qed.
Lemma account_of i c F : m_Clients F !! i = Some c -> accounts F !! i = Some (_acc c).
Proof. intros H. unfold accounts. by rewrite list_lookup_fmap, H. Qed.
Lemma react_lists i x F d F' : react s_compress_interface gethostbyname encode i x F = (d, F') -> lists_ok F -> lists_ok F'.
Proof.
  intros E L. unfold react in E. destruct (m_Clients F !! i) as [c|] eqn:Hi; [|by injection E as <- <-]. apply account_of in Hi.
  destruct x as [m|[]|m|]; try (by injection E as <- <-).
  - unfold on_connect in E. assert (L1 : lists_ok (removeFromReconn i F)) by by apply (lists_same F).
    destruct (m_client_state c); (by injection E as <- <-) || (eapply say_lists; [exact E|]; by apply at_lists).
  - unfold on_connect_failed in E. case_decide; injection E as <- <-; [by apply (lists_same F)|done].
  - unfold on_close in E. injection E as <- <-. pose proof (offline_ok F (_acc c) i L Hi) as L1.
    destruct (m_client_state c); try (by apply offline_ok). destruct (m_ready_connect_gate c); [|by apply offline_ok].
    apply offline_ok; [by apply at_lists|]. by rewrite accounts_at.
  - destruct m as [result ip port t| |n time|]; cbn in E; injection E as <- <-; try done.
    + unfold parseLoginResult. destruct (result =? _); [|done]. by apply at_lists.
    + by apply online_ok.
    + by apply at_lists.
Qed.
Lemma reacts_lists i os : forall F d F', reacts s_compress_interface gethostbyname encode i os F = (d, F') -> lists_ok F -> lists_ok F'.
Proof.
  induction os as [|x os IH]; intros F d F' E L; cbn [reacts] in E; [by injection E as <- <-|].
  destruct (react _ _ _ i x F) as [d1 F1] eqn:E1. destruct (reacts _ _ _ i os F1) as [d2 F2] eqn:E2. injection E as <- <-.
  eapply IH; [exact E2|]. by eapply react_lists.
Qed.
Lemma connect_waiting_lists wait : forall F, lists_ok F -> lists_ok (connect_waiting s_compress_interface gethostbyname wait F).
Proof.
  induction wait as [|i wait IH]; intros F L; cbn [connect_waiting]; [done|]. destruct (_ <? _); [|done]. apply IH.
  apply (lists_same (at_client i (reConnect s_compress_interface gethostbyname) F)); [done..|]. by apply at_lists.
Qed.

(** *** One step *)
(** [q0]: the queue when the robots were made. *)
Context (res : nat -> nat).
Record fleet_ok (q0 : list nat) (limit : Z) o F : Prop := {
  f_robots : all_ok gethostbyname res o F;
  f_lists : lists_ok F;
  f_queue : exists k, m_WaitReconnet F = drop k q0;
  f_limit : m_onceCount F = limit;
  f_places : Z.of_nat (size (m_Reconns F)) <= Z.max 0 limit
}.
(** The connection of robot [i] moves; its callbacks have still to be heard. *)
Lemma net_step_ok o i c ev os C F : all_ok gethostbyname res o F -> m_Clients F !! i = Some c -> from_outside ev = true ->
  step s_compress_interface ev (net c) = Some (os, C) -> robots_ok gethostbyname res o i (length (List.filter ends os) + res i) (at_client i (set_net C) F).
Proof.
  intros H Hi Ho E. pose proof (H i c Hi) as [H1 H2 H3 H4 H5 H6 H7 H8]. destruct (step_tokens _ _ _ _ _ H1 H2 Ho E) as [Ht Hg].
  intros j c' Hj. cbn in Hj. rewrite (insert_alter i c) in Hj by done. destruct (decide (j = i)) as [->|Hne].
  - rewrite list_lookup_insert_eq in Hj by (by eapply lookup_lt_Some). injection Hj as <-. split; try done; cbn [net set_net m_client_state].
    + by eapply client_step_inv.
    + by rewrite (step_keeps_flags _ _ _ _ _ E).
    + change (waits i (at_client i (set_net C) F)) with (waits i F). lia.
    + intros Hs. destruct (H8 Hs) as [Hr Hgoal]. split; [done|]. intros ep Hep. by apply Hgoal, Hg.
  - rewrite list_lookup_insert_ne in Hj by done. exact (H j c' Hj).
Qed.
Lemma fleet_step_ok q0 limit o F e d F' : fleet_ok q0 limit o F -> FleetStep e F = Some (d, F') -> fleet_ok q0 limit (o ++ d) F'.
Proof.
  intros [Hr Hl [k Hq] Ho Hp] E. destruct e as [i ev|]; cbn [fleet_step] in E.
  - destruct (from_outside ev) eqn:Hout; [|discriminate]. destruct (m_Clients F !! i) as [c|] eqn:Hi; [|discriminate].
    destruct (step _ ev (net c)) as [[os C]|] eqn:Es; [|discriminate]. injection E as E.
    pose proof (net_step_ok _ _ _ _ _ _ _ Hr Hi Hout Es) as H1. destruct (reacts_ok _ _ _ _ _ _ _ _ _ _ _ H1 E) as [H2 (Q1 & Q2 & Q3)].
    split; [by eapply robots_all| |exists k; by rewrite Q1|by rewrite Q3|].
    + eapply reacts_lists; [exact E|]. by apply at_lists.
    + apply subseteq_size in Q2. cbn in Q2. lia.
  - injection E as <- <-. rewrite app_nil_r. unfold reConnetClient. set (F1 := set_curCount _ F).
    destruct (connect_waiting_queue s_compress_interface gethostbyname (m_WaitReconnet F1) F1 eq_refl) as ([k' Hk] & Hlim & Hs & _).
    split; [by apply connect_waiting_ok|by apply connect_waiting_lists, (lists_same F)| |by rewrite Hlim|].
    + exists (k + k')%nat. rewrite Hk. change (m_WaitReconnet F1) with (m_WaitReconnet F). by rewrite Hq, drop_drop.
    + rewrite <- Ho. apply Hs. change (size (m_Reconns F1)) with (size (m_Reconns F)). change (m_onceCount F1) with (m_onceCount F). by rewrite Ho.
Qed.
Lemma fleet_runs_ok q0 limit start o F : fleet_ok q0 limit [] start -> FleetRuns start o F -> fleet_ok q0 limit o F.
Proof. intros H R. induction R as [|o F e o' F' _ IH E]; [done|]. by eapply fleet_step_ok. Qed.
(** When every place is held by a robot that will make no connect. *)
Lemma held_step q0 limit o F e d F' : fleet_ok q0 limit o F -> limit <= Z.of_nat (size (m_Reconns F)) ->
  (forall j, j ∈ m_Reconns F -> res j = 1%nat) -> FleetStep e F = Some (d, F') ->
  m_WaitReconnet F' = m_WaitReconnet F /\ m_Reconns F' = m_Reconns F.
Proof.
  intros [Hr _ _ Ho _] Hfull Hres E. destruct e as [i ev|]; cbn [fleet_step] in E.
  - destruct (from_outside ev) eqn:Hout; [|discriminate]. destruct (m_Clients F !! i) as [c|] eqn:Hi; [|discriminate].
    destruct (step _ ev (net c)) as [[os C]|] eqn:Es; [|discriminate]. injection E as E.
    pose proof (net_step_ok _ _ _ _ _ _ _ Hr Hi Hout Es) as H1. destruct (reacts_ok _ _ _ _ _ _ _ _ _ _ _ H1 E) as [_ (Q1 & Q2 & _)].
    split; [exact Q1|]. apply set_eq. intros j. split; [apply Q2|]. intros Hj. eapply (reacts_held _ _ _ _ i _ os j); [|exact H1|exact E|exact Hj].
    intros ->. rewrite Hres; [lia|exact Hj].
  - injection E as <- <-. unfold reConnetClient. set (F1 := set_curCount _ F). change (m_WaitReconnet F1) with (m_WaitReconnet F).
    destruct (m_WaitReconnet F) as [|i wait] eqn:Hw; [done|]. cbn [connect_waiting].
    rewrite (proj2 (Z.ltb_ge _ _)); [done|]. change (m_onceCount F <= Z.of_nat (size (m_Reconns F))). by rewrite Ho.
Qed.
End Fleet.

(** ** The robots when they are made *)
Section Made.
Context (gethostbyname : string -> option Z) (prefix : string).
Lemma print_u_inj m n : 0 <= m -> 0 <= n -> print_u m = print_u n -> m = n.
Proof. intros Hm Hn E. rewrite <- (atoi_digits_print_u m Hm), <- (atoi_digits_print_u n Hn). by rewrite E. Qed.
Lemma account_inj m n : account prefix m = account prefix n -> u32 m = u32 n.
Proof.
  unfold account. intros H. apply (inj (String.append _)), (inj (String.append _)) in H. apply print_u_inj; [apply Z.mod_pos_bound; lia..|done].
Qed.
Lemma lists_new F c : lists_ok F -> _acc c ∉ accounts F ->
  lists_ok (set_clients (m_Clients F ++ [c]) (addOfflineClient (_acc c) (length (m_Clients F)) F)).
Proof.
  intros [H1 H2 H3 H4 [H5 H6]] Hn.
  assert (Hon : _online_clients F !! _acc c = None) by (destruct (_online_clients F !! _acc c) eqn:E; [|done]; destruct Hn; by eapply list_elem_of_lookup_2, H2).
  assert (Hoff : _offline_clients F !! _acc c = None) by (destruct (_offline_clients F !! _acc c) eqn:E; [|done]; destruct Hn; by eapply list_elem_of_lookup_2, H3).
  assert (Ha : accounts (set_clients (m_Clients F ++ [c]) F) = accounts F ++ [_acc c]) by (unfold accounts; cbn; by rewrite fmap_app).
  split; change (accounts (set_clients _ _)) with (accounts (set_clients (m_Clients F ++ [c]) F)); rewrite ?Ha;
    unfold addOfflineClient, on_online, on_offline; cbn [_online_clients _offline_clients _list_online _list_offline set_online set_offline set_clients].
  - apply NoDup_app. split_and!; [done| |apply NoDup_singleton]. by intros x Hx ->%list_elem_of_singleton.
  - intros s i. rewrite take_lookup. cbn. case_decide; [done|]. intros Hs. rewrite lookup_app_l; [by apply H2|]. by eapply lookup_lt_Some, H2.
  - intros s i. rewrite put_lookup. cbn. rewrite Hoff. cbn. case_decide as E; [subst; intros [= <-]|].
    + rewrite lookup_app_r; unfold accounts; rewrite length_fmap; [by rewrite Nat.sub_diag|done].
    + intros Hs. rewrite lookup_app_l; [by apply H3|]. by eapply lookup_lt_Some, H3.
  - intros i s Hi. rewrite put_lookup, take_lookup. cbn. rewrite Hoff. cbn. apply lookup_app_Some in Hi as [Hi|[Hi Hs]].
    + case_decide as E; [subst; by destruct Hn; eapply list_elem_of_lookup_2|]. by apply H4.
    + apply list_lookup_singleton_Some in Hs as [Hz <-]. rewrite !decide_True by done. right. split; [done|]. do 2 f_equal.
      unfold accounts in *. rewrite length_fmap in *. lia.
  - split; rewrite <- surjective_pairing; [by apply shown_take|by apply shown_put].
Qed.

(** After [k] turns of [addRobot]. *)
Record made_ok (b : Z) (info : string * Z) (limit : Z) (k : nat) F : Prop := {
  m_begin : m_accountBegin F = b; m_server : server_info F = info; m_limit : m_onceCount F = limit;
  m_robots : m_Clients F = (fun i => new_robot prefix (Z.of_nat i + b) info) <$> seq 0 k;
  m_queue : m_WaitReconnet F = seq 0 k; m_no_places : m_Reconns F = ∅; m_lists : lists_ok F
}.
Lemma add_robot_ok b info limit k F : Z.of_nat k < 2 ^ 32 -> made_ok b info limit k F -> made_ok b info limit (S k) (add_robot prefix F k).
Proof.
  intros Hk [H1 H2 H3 H4 H5 H6 H7]. assert (Hlen : length (m_Clients F) = k) by (rewrite H4, length_fmap; apply length_seq).
  unfold add_robot. rewrite H1, H2. set (c := new_robot prefix (Z.of_nat k + b) info).
  assert (Hc : m_Clients F ++ [c] = (fun i => new_robot prefix (Z.of_nat i + b) info) <$> seq 0 (S k)) by (by rewrite H4, seq_S, fmap_app).
  split; try done; cbn [m_Clients m_WaitReconnet set_clients set_waiting addToReconn].
  - change (m_WaitReconnet _) with (m_WaitReconnet F). rewrite H5, seq_S. do 2 f_equal. cbn. rewrite length_app, Hlen. cbn. lia.
  - apply (lists_same (set_clients (m_Clients F ++ [c]) (addOfflineClient (_acc c) (length (m_Clients F)) F))); [done..|]. apply lists_new; [done|].
    unfold accounts. rewrite H4, <- list_fmap_compose. intros (i & Hi & Hin)%list_elem_of_fmap. apply elem_of_seq in Hin. cbn in Hi.
    apply account_inj in Hi. unfold u32 in Hi. apply (f_equal (fun z => (z - b) mod 2 ^ 32)) in Hi. rewrite !Zminus_mod_idemp_l in Hi.
    replace (Z.of_nat k + b - b) with (Z.of_nat k) in Hi by lia. replace (Z.of_nat i + b - b) with (Z.of_nat i) in Hi by lia.
    rewrite !Z.mod_small in Hi by lia. lia.
Qed.
Lemma addRobot_ok b info limit n F : Z.of_nat n < 2 ^ 32 -> made_ok b info limit 0 F -> made_ok b info limit n (foldl (add_robot prefix) F (seq 0 n)).
Proof.
  induction n as [|n IH]; intros Hn H; [done|]. rewrite seq_S, foldl_app. cbn. apply add_robot_ok; [lia|]. apply IH; [lia|done].
Qed.

(** [init] of a new [ClientTest]. *)
Definition made (Root : string -> Startup.Json) (b e : Z) : ClientTest := (init prefix (Some Root) b e new_ClientTest).2.
Definition robot_count (b e : Z) : nat := Z.to_nat (i32 (e - b)).
Definition once_count (Root : string -> Startup.Json) : Z := Startup.getUInt_Value "once_count" Root.
Lemma lists_fresh : lists_ok new_ClientTest.
Proof. split; [apply NoDup_nil_2|done..|split; unfold shown; cbn; by rewrite map_to_list_empty]. Qed.
Lemma made_made Root b e : exists info, made_ok (u32 b) info (once_count Root) (robot_count b e) (made Root b e).
Proof.
  unfold made, init. cbn [_client_init new_ClientTest snd]. eexists.
  set (F0 := set_config _ _ _ _). assert (Hn : Z.to_nat (m_maxCount F0) = robot_count b e).
  { unfold robot_count. cbn. destruct (_ <? 0) eqn:E; lia. }
  assert (H : forall info, info = server_info F0 -> made_ok (u32 b) info (once_count Root) (robot_count b e) (addRobot prefix F0)).
  { intros info ->. unfold addRobot. rewrite Hn. apply addRobot_ok; [unfold robot_count, i32; pose proof (Z.mod_pos_bound (e - b + 2 ^ 31) (2 ^ 32)); lia|]. split; try done. by apply (lists_same new_ClientTest); [..|apply lists_fresh]. }
  destruct (H _ eq_refl) as [H1 H2 H3 H4 H5 H6 H7]. split; try done. by apply (lists_same (addRobot prefix F0)).
Qed.
Lemma made_fleet Root b e : fleet_ok gethostbyname (fun _ => 0%nat) (seq 0 (robot_count b e)) (once_count Root) [] (made Root b e).
Proof.
  destruct (made_made Root b e) as [info [H1 H2 H3 H4 H5 H6 H7]]. split; [|done|by exists 0%nat|done|rewrite H6, size_empty; lia].
  intros j c Hj. rewrite H4 in Hj. rewrite list_lookup_fmap in Hj. destruct (seq 0 _ !! j) as [i|] eqn:Ei; [|done]. injection Hj as <-.
  unfold waits. rewrite H5, H6. assert (Hw : (count_occ Nat.eq_dec (seq 0 (robot_count b e)) j <= 1)%nat).
  { apply NoDup_count_occ, NoDup_ListNoDup, NoDup_seq. }
  split; [apply new_inv|done|cbn; lia|done..].
Qed.
End Made.

(** ** Properties *)
Section Theorems.
Context (s_compress_interface : option CompressStrategy) (gethostbyname : string -> option Z) (encode : Request -> list Z).
Abbreviation FleetRuns := (fleet_runs s_compress_interface gethostbyname encode).
Lemma runs_made prefix Root b e o F : FleetRuns (made prefix Root b e) o F ->
  fleet_ok gethostbyname (fun _ => 0%nat) (seq 0 (robot_count b e)) (once_count Root) o F.
Proof. apply fleet_runs_ok, made_fleet. Qed.


(** Every robot is in one of the two lists, under an account of its own, and
    the dialog shows these lists; no more than [once_count] robots hold a place. *)
Theorem fleet_lists prefix Root b e o F : FleetRuns (made prefix Root b e) o F ->
  lists_ok F /\ Z.of_nat (size (m_Reconns F)) <= Z.max 0 (once_count Root).
Proof. intros R. by destruct (runs_made _ _ _ _ _ _ R). Qed.

(** A robot whose connect fails keeps its place for ever. Once all places
    are held by robots that no longer have a connect under way, no further
    robot is ever connected: the queue and the places stay as they are,
    whatever happens. *)
Theorem failed_robots_block prefix Root b e o F o' F' : FleetRuns (made prefix Root b e) o F ->
  once_count Root <= Z.of_nat (size (m_Reconns F)) ->
  (forall i c, i ∈ m_Reconns F -> m_Clients F !! i = Some c -> (tokens (net c) + waits i F = 0)%nat) ->
  FleetRuns F o' F' -> m_WaitReconnet F' = m_WaitReconnet F /\ m_Reconns F' = m_Reconns F.
Proof.
  intros R Hfull Hidle R'. set (res := fun j => if decide (j ∈ m_Reconns F) then 1%nat else 0%nat).
  assert (H0 : fleet_ok gethostbyname res (seq 0 (robot_count b e)) (once_count Root) o F).
  { destruct (runs_made _ _ _ _ _ _ R) as [Hr Hl Hq Ho Hp]. split; try done. intros j c Hj. destruct (Hr j c Hj) as [H1 H2 H3 H4 H5 H6 H7 H8].
    split; try done. unfold res. case_decide as Hd; [|done]. rewrite (Hidle j c Hd Hj), (H5 Hd). done. }
  assert (H : fleet_ok gethostbyname res (seq 0 (robot_count b e)) (once_count Root) (o ++ o') F' /\ m_WaitReconnet F' = m_WaitReconnet F /\ m_Reconns F' = m_Reconns F); [|apply H].
  induction R' as [|o1 F1 ev d F2 _ [IH [Q1 Q2]] E]; [by rewrite app_nil_r|]. rewrite app_assoc.
  assert (Hh : forall j, j ∈ m_Reconns F1 -> res j = 1%nat) by (intros j Hj; unfold res; rewrite Q2 in Hj; by rewrite decide_True).
  assert (Hf : once_count Root <= Z.of_nat (size (m_Reconns F1))) by (by rewrite Q2).
  split; [by eapply fleet_step_ok|]. destruct (held_step _ _ _ _ _ _ _ _ _ _ _ IH Hf Hh E) as [P1 P2]. by rewrite P1, P2.
Qed.
End Theorems.

(** *** Runs *)
Lemma fleet_steps_runs sc gh enc start l : forall o F o' F', fleet_runs sc gh enc start o F -> fleet_steps sc gh enc l F = Some (o', F') ->
  fleet_runs sc gh enc start (o ++ o') F'.
Proof.
  induction l as [|e l IH]; intros o F o' F' R E; cbn in E; [injection E as <- <-; by rewrite app_nil_r|].
  destruct (fleet_step sc gh enc e F) as [[o1 F1]|] eqn:E1; [|discriminate]. destruct (fleet_steps sc gh enc l F1) as [[o2 F2]|] eqn:E2; [|discriminate]. injection E as <- <-.
  rewrite app_assoc. eapply IH; [|exact E2]. by eapply fleet_event.
Qed.
Lemma steps_from sc gh enc start l o F : fleet_steps sc gh enc l start = Some (o, F) -> fleet_runs sc gh enc start o F.
Proof. intros E. rewrite <- (app_nil_l o). eapply fleet_steps_runs; [constructor|exact E]. Qed.
Definition demo_json (key : string) : Startup.Json :=
  if decide (key = "once_count")%string then Startup.mkJson true 1 1 false ""
  else if decide (key = "port")%string then Startup.mkJson true 7000 7000 false ""
  else if decide (key = "once_time")%string then Startup.mkJson true 50 50 false ""
  else Startup.mkJson false 0 0 true "login".
Definition demo_resolve (name : string) : option Z := if decide (name = "login")%string then Some 1 else if decide (name = "gate")%string then Some 2 else None.
Definition demo_encode (r : Request) : list Z := [1; 2; 3].
Abbreviation demo_fleet := (made "robot" demo_json 5 7).
Definition robot_pass (i : nat) (callbacks messages : nat) : list FleetEvent :=
  map (Net i) ([Run 100; Poll] ++ replicate callbacks RunCallback ++ [Swap] ++ replicate messages Process).
Definition to_login (i : nat) : list FleetEvent :=
  [ReConnet; Net i (RunConnect (1, 7000)); Net i (ConnectDone 100 false)] ++ robot_pass i 2 0 ++ [Net i RunWrite; Net i (WriteDone false)].
Definition to_gate (i : nat) : list FleetEvent :=
  [Net i (ReadSome 1 [LoginResponse 0 "gate" 9000 42] Goes_on)] ++ robot_pass i 0 2 ++ [Net i RunClose; Net i (ReadError 1)] ++ robot_pass i 2 0 ++
  [Net i (RunConnect (2, 9000)); Net i (ConnectDone 101 false)] ++ robot_pass i 2 0 ++ [Net i (ReadSome 2 [HeroesInit; Ping 3 4] Goes_on)] ++ robot_pass i 0 3.
Definition demo_fleet_run (l : list FleetEvent) (F : ClientTest) : list Did * ClientTest := default ([], F) (fleet_steps None demo_resolve demo_encode l F).
Definition demo_way : list FleetEvent := to_login 0 ++ to_gate 0.
Example demo_way_said : (demo_fleet_run demo_way demo_fleet).1 =
  [Said 0 (LoginRequest "robot_5" "123456" 0 (3, 2, 0)); Took 0 (LoginResponse 0 "gate" 9000 42); Said 0 (LoginGame 42);
   Took 0 HeroesInit; Took 0 (Ping 3 4); Said 0 (PingNotify 3 4)] /\
  _list_online (demo_fleet_run demo_way demo_fleet).2 = ["robot_5"]%string /\ _list_offline (demo_fleet_run demo_way demo_fleet).2 = ["robot_6"]%string /\
  m_WaitReconnet (demo_fleet_run demo_way demo_fleet).2 = [1%nat] /\ counts (demo_fleet_run demo_way demo_fleet).2 = (0, 1).
Proof. split_and!; vm_compute; reflexivity. Qed.
Definition demo_robot (i : nat) (F : ClientTest) : Client := default (new_robot "" 0 ("", 0)%string) (m_Clients F !! i).
Lemma demo_way_steps : fleet_steps None demo_resolve demo_encode demo_way demo_fleet =
  Some ((demo_fleet_run demo_way demo_fleet).1, (demo_fleet_run demo_way demo_fleet).2).
Proof. vm_compute. reflexivity. Qed.
Lemma demo_way_robot : m_Clients (demo_fleet_run demo_way demo_fleet).2 !! 0%nat = Some (demo_robot 0 (demo_fleet_run demo_way demo_fleet).2).
Proof. vm_compute. reflexivity. Qed.
Lemma demo_way_runs : fleet_runs None demo_resolve demo_encode (made "robot" demo_json 5 7) (demo_fleet_run demo_way demo_fleet).1 (demo_fleet_run demo_way demo_fleet).2.
Proof. exact (steps_from _ _ _ _ _ _ _ demo_way_steps). Qed.

(** The login server cannot be reached: the only place is taken, and the other
    robot never connects. *)
Definition demo_failed : list FleetEvent :=
  [ReConnet; Net 0 (RunConnect (1, 7000)); Net 0 (ConnectDone 100 true)] ++ robot_pass 0 2 0.
Definition failed_fleet : ClientTest := (demo_fleet_run demo_failed demo_fleet).2.
Lemma demo_failed_steps : fleet_steps None demo_resolve demo_encode demo_failed demo_fleet = Some ([], failed_fleet).
Proof. vm_compute. reflexivity. Qed.
Lemma demo_failed_runs : fleet_runs None demo_resolve demo_encode (made "robot" demo_json 5 7) [] failed_fleet.
Proof. exact (steps_from _ _ _ _ _ _ _ demo_failed_steps). Qed.
Lemma failed_places : elements (m_Reconns failed_fleet) = [0%nat].
Proof. vm_compute. reflexivity. Qed.
Lemma failed_idle i c : i ∈ m_Reconns failed_fleet -> m_Clients failed_fleet !! i = Some c -> (tokens (net c) + waits i failed_fleet = 0)%nat.
Proof.
  rewrite <- elem_of_elements, failed_places, list_elem_of_singleton. intros -> H.
  assert (E : (fun c => tokens (net c)) <$> m_Clients failed_fleet !! 0%nat = Some 0%nat) by (vm_compute; reflexivity).
  rewrite H in E. injection E as ->. vm_compute. reflexivity.
Qed.
Lemma again_steps : fleet_steps None demo_resolve demo_encode [ReConnet; ReConnet] failed_fleet =
  Some ([], (demo_fleet_run [ReConnet; ReConnet] failed_fleet).2).
Proof. vm_compute. reflexivity. Qed.
Lemma failed_robots_block_witness :
  m_WaitReconnet failed_fleet = [1%nat] /\ m_WaitReconnet (demo_fleet_run [ReConnet; ReConnet] failed_fleet).2 = m_WaitReconnet failed_fleet.
Proof.
  split; [vm_compute; reflexivity|].
  apply (failed_robots_block _ _ _ _ _ _ _ _ _ _ _ demo_failed_runs ltac:(vm_compute; discriminate) failed_idle
    (steps_from _ _ _ _ _ _ _ again_steps)).
Defined.

(** Callbacks are run before messages: if the login server closes before the
    robot has handled its answer, the robot stays where it is, with the gate
    in its hands. *)
Definition late_answer : list FleetEvent :=
  to_login 0 ++ [Net 0 (ReadSome 1 [LoginResponse 0 "gate" 9000 42] Goes_on); Net 0 (ReadError 1)] ++ robot_pass 0 2 2.
Example late_answer_lost : let c := demo_robot 0 (demo_fleet_run late_answer demo_fleet).2 in
  (m_client_state c, m_ready_connect_gate c, m_transid c, tokens (net c)) = (_client_conn_login_, true, 42, 0%nat).
Proof. vm_compute. reflexivity. Qed.
