(* ===== verification/WebSocket.v ===== *)
(** * common: the chat room over WebSockets (http_client.cpp, http_server.cpp)

    [HttpServer] accepts connections, each an [HttpClient] that answers one
    handshake and then sends every message it reads to all clients.  No
    program of the repository starts it (CurlTest.cpp has it commented out). *)
From stdpp Require Import gmap.
From S2P Require Import Prelude Bytes.

Definition text (s : string) : list Z := map (fun a => Z.of_N (N_of_ascii a)) (list_ascii_of_string s).

(** ** Reading from a socket

    What has arrived is cut into the pieces that one read can return;
    [closed] is whether the other side has shut down.  [Blocked]: the read
    waits for more; [Threw]: it throws [system_error]. *)
Record Socket := mkSocket { arrived : list (list Z); closed : bool }.
Inductive Result (A : Type) := Got (a : A) | Blocked | Threw.
Arguments Got {_}. Arguments Blocked {_}. Arguments Threw {_}.
Definition rbind {A B} (m : Result A) (k : A -> Result B) : Result B :=
  match m with Got a => k a | Blocked => Blocked | Threw => Threw end.
Declare Scope socket_scope.
Notation "'get' x <- m ; k" := (rbind m (fun x => k)) (at level 10, x strict pattern, m at level 100, k at level 200) : socket_scope.
#[local] Open Scope socket_scope.

(** [_socket.receive(buffer(old))]: at least one byte and at most the buffer;
    the rest of the buffer stays as it was. *)
Definition receive (old : list Z) (s : Socket) : Result (list Z * Socket) :=
  match arrived s with
  | [] => if closed s then Threw else Blocked
  | piece :: more =>
      let n := length old in
      Got (take n piece ++ drop (length piece) old,
           mkSocket (match drop n piece with [] => more | rest => rest :: more end) (closed s))
  end.

Section Client.
(** Memory that is read before it is written: [junk n] is what a fresh array
    of [n] bytes holds. *)
Context (junk : nat -> list Z).
(** Boost's SHA-1 (five words) and the iterators that encode Base64 without padding. *)
Context (sha1 : list Z -> list Z) (base64_digits : list Z -> list Z).

(** ** HttpClient: messages *)

(** The two bytes at the front, as [ntohs] of what they are in memory. *)
Definition ntohs (b : list Z) : Z := nth 0 b 0 * 256 + nth 1 b 0.
(** [data[i] = data[i] ^ mask[i % 4]]. *)
Definition unmask (mask data : list Z) : list Z := imap (fun i b => Z.lxor b (nth (i mod 4) mask 0)) data.

Definition receive_length (payload_len : Z) (s : Socket) : Result (Z * Socket) :=
  let tmp := Z.land payload_len 0x7f in
  if tmp =? 126 then get (len, s) <- receive (junk 2) s; Got (ntohs len, s)
  else if tmp =? 127 then get (tmp, s) <- receive (le_bytes 8 tmp) s; Got (ntohs tmp, s)
  else Got (tmp, s).
Definition retrieve_message (s : Socket) : Result (list Z * Socket) :=
  get (fin_opcode, s) <- receive (junk 1) s;
  let fin := Z.shiftr (nth 0 fin_opcode 0) 7 in
  let opcode := Z.land (nth 0 fin_opcode 0) 0x7f in
  if fin =? 0 then Got ([], s)
  else if negb ((opcode =? 0x01) || (opcode =? 0x02)) then Got ([], s)
  else
    get (payload_len, s) <- receive (junk 1) s;
    let is_mask := Z.shiftr (nth 0 payload_len 0) 7 in
    get (length, s) <- receive_length (nth 0 payload_len 0) s;
    get (mask, s) <- (if is_mask =? 0 then Got (junk 4, s) else receive (junk 4) s);
    if length =? 0 then Got ([], s)
    else
      get (data, s) <- receive (junk (Z.to_nat length)) s;
      Got (if is_mask =? 0 then data else unmask mask data, s).

(** The bytes that [do_send] hands to the socket. *)
Definition frame (content : list Z) : list Z :=
  let n := Z.of_nat (length content) in
  [0x81] ++ (if 126 <=? n then let l := u16 n in [126; l / 256; l mod 256] else [n]) ++ content.

(** ** HttpClient: the handshake *)
Fixpoint starts_with (p l : list Z) : bool :=
  match p, l with [], _ => true | a :: p, b :: l => (a =? b) && starts_with p l | _, [] => false end.
(** [std::string::find] from the position [i]. *)
Fixpoint find_from (p l : list Z) (i : nat) : option nat :=
  match l with
  | [] => if starts_with p l then Some i else None
  | _ :: l' => if starts_with p l then Some i else find_from p l' (S i)
  end.
Definition CRLF : list Z := [13; 10].

(** The key in the request.  [end - pos - 19] wraps around when the line ends
    early: [substr] then takes everything up to the end. *)
Definition find_key (lines : list Z) : option (list Z) :=
  pos ← find_from (text "Sec-WebSocket-Key") lines 0;
  let line_end := match find_from CRLF (drop pos lines) pos with Some e => Z.of_nat e | None => 2 ^ 64 - 1 end in
  Some (take (Z.to_nat (Z.min (u64 (line_end - Z.of_nat pos - 19)) (Z.of_nat (length lines)))) (drop (pos + 19) lines)).

(** The words of the digest, most significant byte first. *)
Definition digest_bytes (digest : list Z) : list Z := flat_map (fun w => rev (le_bytes 4 w)) digest.
Definition base64_encode (input : list Z) : list Z :=
  base64_digits input ++ repeat 61 ((3 - length input mod 3) mod 3).
Definition response (key : list Z) : list Z :=
  text "HTTP/1.1 101 WebSocket Protocol Handshake" ++ CRLF ++ text "Upgrade: websocket" ++ CRLF ++ text "Connection: Upgrade" ++ CRLF ++
  text "Sec-WebSocket-Accept: " ++ base64_encode (digest_bytes (sha1 (key ++ text "258EAFA5-E914-47DA-95CA-C5AB0DC85B11"))) ++ CRLF ++
  text "Sec-WebSocket-Version: 13" ++ CRLF ++ CRLF.

(** [read_until]: pieces are taken until the delimiter is there, and what came
    with it is taken too.  [None]: the end, which is an error code. *)
Fixpoint read_until (pieces : list (list Z)) (content : list Z) (shut : bool) : Result (option (list Z) * Socket) :=
  match find_from (CRLF ++ CRLF) content 0 with
  | Some i => Got (Some (take (i + 4) content), mkSocket pieces shut)
  | None =>
      match pieces with
      | piece :: pieces => read_until pieces (content ++ piece) shut
      | [] => if shut then Got (None, mkSocket [] shut) else Blocked
      end
  end.

Record HttpClient := mkClient { _socket : Socket; _hand_shake : bool }.
Definition do_hand_shake (c : HttpClient) : Result (HttpClient * list (list Z)) :=
  get (lines, s) <- read_until (arrived (_socket c)) [] (closed (_socket c));
  match lines ≫= find_key with
  | Some key => Got (mkClient s true, [response key])
  | None => Got (mkClient s (_hand_shake c), [])
  end.

(** ** The room *)

(** Whether [_socket.send] throws: the connection is gone. *)
Context (send_fails : HttpClient -> bool).
Abbreviation ClientId := positive.
(** [objects]: the clients that exist (their shared pointers are held), [_clients]
    the room, [waiting] those whose read handler is posted. *)
Record Room := mkRoom { objects : gmap ClientId HttpClient; _clients : gset ClientId; waiting : gset ClientId }.
Inductive Sent := Send (to : ClientId) (data : list Z).

Definition set_client (i : ClientId) (c : HttpClient) (r : Room) : Room := mkRoom (<[i := c]> (objects r)) (_clients r) (waiting r).
Definition add_client (i : ClientId) (r : Room) : Room := mkRoom (objects r) ({[i]} ∪ _clients r) (waiting r).
Definition del_client (i : ClientId) (r : Room) : Room := mkRoom (objects r) (_clients r ∖ {[i]}) (waiting r).
Definition start (i : ClientId) (r : Room) : Room := mkRoom (objects r) (_clients r) ({[i]} ∪ waiting r).

(** [broadcast], in some order of the pointers: after a send that throws the
    rest get nothing. *)
Fixpoint send_all (ids : list ClientId) (data : list Z) (r : Room) : list Sent * bool :=
  match ids with
  | [] => ([], false)
  | i :: ids =>
      match objects r !! i with
      | Some c => if send_fails c then ([], true) else let '(out, threw) := send_all ids data r in (Send i data :: out, threw)
      | None => send_all ids data r
      end
  end.
Definition broadcast (content : list Z) (r : Room) : list Sent * bool := send_all (elements (_clients r)) (frame content) r.

(** [HttpServer::accept_handler], with the error code [ec] and the new client's socket. *)
Definition accept_handler (ec : bool) (i : ClientId) (s : Socket) (r : Room) : Room :=
  if ec then r else start i (add_client i (set_client i (mkClient s false) r)).

(** [do_receive]: what it returns, [None] when an exception leaves it. *)
Definition do_receive (i : ClientId) (c : HttpClient) (r : Room) : Result (Room * list Sent * option bool) :=
  match retrieve_message (_socket c) with
  | Blocked => Blocked
  | Threw => Got (r, [], None)
  | Got (result, s) =>
      let r := set_client i (mkClient s (_hand_shake c)) r in
      match result with
      | [] => Got (r, [], Some false)
      | _ => let '(out, threw) := broadcast result r in Got (r, out, if threw then None else Some true)
      end
  end.

(** [read_handler] of [i], posted by [start]; also whether an exception leaves it. *)
Definition available (s : Socket) : bool := match arrived s with [] => false | _ => true end.
Definition read_handler (i : ClientId) (c : HttpClient) (ec : bool) (r : Room) : Result (Room * list Sent * bool) :=
  let r := mkRoom (objects r) (_clients r) (waiting r ∖ {[i]}) in
  if ec then Got (r, [], false)
  else if available (_socket c) then
    if negb (_hand_shake c) then
      get (c, out) <- do_hand_shake c; Got (start i (set_client i c r), map (Send i) out, false)
    else
      get (r, out, flag) <- do_receive i c r;
      match flag with
      | Some true => Got (start i r, out, false)
      | Some false => Got (del_client i r, out, false)
      | None => Got (r, out, true)
      end
  else Got (del_client i r, [], false).
End Client.

(** ** Messages, against the protocol

    A text or binary frame of RFC 6455, masked or not. *)
Definition rfc_length (masked : bool) (n : Z) : list Z :=
  let m := if masked then 128 else 0 in
  if n <? 126 then [m + n] else if n <? 65536 then [m + 126; n / 256; n mod 256] else (m + 127) :: rev (le_bytes 8 n).
Definition rfc_frame (opcode : Z) (mask : option (list Z)) (content : list Z) : list Z :=
  [128 + opcode] ++ rfc_length (bool_decide (is_Some mask)) (Z.of_nat (length content)) ++
  match mask with Some mask => mask ++ unmask mask content | None => content end.

(** What is left of a piece, in front of the others. *)
Definition push (rest : list Z) (more : list (list Z)) : list (list Z) := match rest with [] => more | _ => rest :: more end.
Lemma receive_push old pre rest more shut : pre <> [] -> length old = length pre ->
  receive old (mkSocket (push (pre ++ rest) more) shut) = Got (pre, mkSocket (push rest more) shut).
Proof.
  intros Hpre Hlen. destruct pre as [|b pre]; [done|]. unfold receive, push at 1. cbn [app arrived closed]. rewrite Hlen.
  change (b :: pre ++ rest) with ((b :: pre) ++ rest). rewrite take_app_length, drop_app_length, drop_ge, app_nil_r; [by destruct rest|].
  rewrite Hlen, length_app. lia.
Qed.
Lemma length_unmask mask data : length (unmask mask data) = length data.
Proof. apply length_imap. Qed.
Lemma unmask_unmask mask data : unmask mask (unmask mask data) = data.
Proof.
  unfold unmask. apply list_eq. intros i. rewrite !list_lookup_imap. destruct (data !! i); [|done]. cbn.
  by rewrite Z.lxor_assoc, Z.lxor_nilpotent, Z.lxor_0_r.
Qed.

Section Protocol.
Context (junk : nat -> list Z) (Hjunk : forall n, length (junk n) = n).
Abbreviation retrieve_message := (retrieve_message junk).

(** The head of a frame is read, up to the mask. *)
Lemma header_bits op (masked : bool) v : op = 1 \/ op = 2 -> 0 <= v < 128 ->
  Z.shiftr (128 + op) 7 = 1 /\ Z.land (128 + op) 0x7f = op /\
  Z.shiftr ((if masked then 128 else 0) + v) 7 = (if masked then 1 else 0) /\ Z.land ((if masked then 128 else 0) + v) 0x7f = v.
Proof.
  intros Hop Hv. change 0x7f with (Z.ones 7). rewrite !Z.land_ones, !Z.shiftr_div_pow2 by lia. change (2 ^ 7) with 128.
  split_and!; destruct Hop as [-> | ->], masked; try done; Z.div_mod_to_equations; lia.
Qed.

(** How the length is read: [v] is the second byte without its top bit, [n] what
    is understood. *)
Definition length_as (v : Z) (ext : list Z) (n : Z) : Prop :=
  (v < 126 /\ ext = [] /\ n = v) \/ (v = 126 /\ length ext = 2%nat /\ n = ntohs ext) \/ (v = 127 /\ length ext = 8%nat /\ n = ntohs ext).
Lemma message_read op mask v ext n body rest shut : op = 1 \/ op = 2 -> 0 <= v < 128 -> length_as v ext n -> 0 <= n ->
  (forall m, mask = Some m -> length m = 4%nat) -> Z.to_nat n = length body ->
  retrieve_message (mkSocket [[128 + op] ++ ([(if bool_decide (is_Some mask) then 128 else 0) + v] ++ ext) ++ default [] mask ++ body ++ rest] shut) =
    Got (match mask with Some m => unmask m body | None => body end, mkSocket (push rest []) shut).
Proof.
  intros Hop Hv Hlen Hn Hmask Hbody. set (masked := bool_decide (is_Some mask)).
  destruct (header_bits op masked v Hop Hv) as (H1 & H2 & H3 & H4).
  unfold WebSocket.retrieve_message.
  change (mkSocket [[128 + op] ++ ?x] shut) with (mkSocket (push ([128 + op] ++ x) []) shut). rewrite receive_push by (done || apply Hjunk). cbn [rbind nth].
  rewrite H1, H2. replace (negb _) with false by (by destruct Hop as [-> | ->]). cbn [Z.eqb].
  rewrite <- !app_assoc. rewrite receive_push by (done || apply Hjunk). cbn [rbind nth]. rewrite H3.
  assert (Hext : receive_length junk ((if masked then 128 else 0) + v) (mkSocket (push (ext ++ default [] mask ++ body ++ rest) []) shut) =
    Got (n, mkSocket (push (default [] mask ++ body ++ rest) []) shut)).
  { unfold receive_length. rewrite H4. destruct Hlen as [(Hlt & -> & ->)|[(-> & He & ->)|(-> & He & ->)]].
    - rewrite !(proj2 (Z.eqb_neq _ _)) by lia. done.
    - cbn [Z.eqb Pos.eqb]. rewrite receive_push; [done|by destruct ext|by rewrite Hjunk].
    - cbn [Z.eqb Pos.eqb]. rewrite receive_push; [done|by destruct ext|by rewrite He]. }
  rewrite Hext. cbn [rbind].
  assert (Hbody' : forall f : list Z -> list Z, f [] = [] ->
    (if n =? 0 then Got ([], mkSocket (push (body ++ rest) []) shut)
     else get (data, s) <- receive (junk (Z.to_nat n)) (mkSocket (push (body ++ rest) []) shut); Got (f data, s)) =
    Got (f body, mkSocket (push rest []) shut)).
  { intros f Hf. destruct (Z.eqb_spec n 0) as [->|Hn0]; [by destruct body; [rewrite Hf|]|].
    rewrite receive_push; [done|by destruct body; [cbn in Hbody; lia|]|by rewrite Hjunk]. }
  destruct mask as [m|]; cbn [default].
  - change masked with true. cbn [Z.eqb]. rewrite receive_push; [|specialize (Hmask m eq_refl); by destruct m|by rewrite Hjunk, Hmask].
    cbn [rbind]. by apply Hbody'.
  - change masked with false. cbn [Z.eqb rbind app]. by apply (Hbody' (fun data => data)).
Qed.

Lemma ntohs_pair n : 0 <= n < 65536 -> ntohs [n / 256; n mod 256] = n.
Proof. intros Hn. unfold ntohs. cbn [nth]. pose proof (Z.div_mod n 256). lia. Qed.

(** A frame of a client is read, if it is not longer than 65535 bytes. *)
Theorem frames_read op mask content rest shut : op = 1 \/ op = 2 -> (forall m, mask = Some m -> length m = 4%nat) ->
  Z.of_nat (length content) < 65536 ->
  retrieve_message (mkSocket [rfc_frame op mask content ++ rest] shut) = Got (content, mkSocket (push rest []) shut).
Proof.
  intros Hop Hmask Hlen. set (n := Z.of_nat (length content)) in *.
  assert (Hwire : exists v ext, rfc_length (bool_decide (is_Some mask)) n = [(if bool_decide (is_Some mask) then 128 else 0) + v] ++ ext /\
    0 <= v < 128 /\ length_as v ext n).
  { unfold rfc_length, length_as. destruct (Z.ltb_spec n 126); [exists n, []; split_and!; [done|lia|lia|by left]|].
    rewrite (proj2 (Z.ltb_lt n 65536)) by done. exists 126, [n / 256; n mod 256]. split_and!; [done|lia|lia|].
    right. left. split_and!; [done|done|]. rewrite ntohs_pair; lia. }
  destruct Hwire as (v & ext & Hw & Hv & Hl). unfold rfc_frame. fold n. rewrite Hw.
  set (body := match mask with Some m => unmask m content | None => content end).
  assert (Hbody : length body = length content) by (unfold body; destruct mask; [apply length_unmask|done]).
  replace (match mask with Some _ => _ | None => _ end) with (default [] mask ++ body) by (unfold body; by destruct mask).
  rewrite <- !app_assoc. pose proof (message_read op mask v ext n body rest shut Hop Hv Hl ltac:(lia) Hmask ltac:(lia)) as Hm.
  rewrite <- !app_assoc in Hm. cbn [app] in *. rewrite Hm. unfold body. destruct mask; [by rewrite unmask_unmask|done].
Qed.

(** A longer one is taken for an empty one: of its eight bytes of length the
    code looks at the first two, and the sender is dropped. *)
Theorem long_frames_dropped op mask content rest shut : op = 1 \/ op = 2 -> (forall m, mask = Some m -> length m = 4%nat) ->
  65536 <= Z.of_nat (length content) < 2 ^ 48 ->
  exists s, retrieve_message (mkSocket [rfc_frame op mask content ++ rest] shut) = Got ([], s).
Proof.
  intros Hop Hmask Hlen. set (n := Z.of_nat (length content)) in *. unfold rfc_frame, rfc_length. fold n.
  rewrite (proj2 (Z.ltb_ge n 126)), (proj2 (Z.ltb_ge n 65536)) by lia.
  set (body := match mask with Some m => unmask m content | None => content end).
  replace (match mask with Some _ => _ | None => _ end) with (default [] mask ++ body) by (unfold body; by destruct mask).
  assert (Hzero : ntohs (rev (le_bytes 8 n)) = 0).
  { unfold ntohs. cbn [le_bytes rev app nth]. rewrite !Z.div_div by lia. rewrite !(Z.div_small n) by lia. done. }
  pose proof (message_read op mask 127 (rev (le_bytes 8 n)) 0 [] (body ++ rest) shut Hop ltac:(lia)) as Hm.
  eexists. rewrite <- !app_assoc in *. cbn [app] in *. rewrite Hm; [by destruct mask| |lia|done|done].
  do 2 right. split_and!; [done|by rewrite length_rev, length_le_bytes|done].
Qed.

(** What the server sends follows the protocol up to that length; then the
    length in the frame is the one of the message modulo 65536. *)
Theorem frame_rfc content : Z.of_nat (length content) < 65536 -> frame content = rfc_frame 1 None content.
Proof.
  intros Hlen. unfold frame, rfc_frame, rfc_length. cbn [bool_decide]. replace (bool_decide _) with false by done.
  rewrite Z.leb_antisym. destruct (Z.of_nat (length content) <? 126); [done|]. cbn [negb]. rewrite (proj2 (Z.ltb_lt _ 65536)) by done.
  unfold u16. by rewrite Z.mod_small by lia.
Qed.
Theorem frame_wraps content rest shut : 65536 <= Z.of_nat (length content) ->
  let n := Z.to_nat (u16 (Z.of_nat (length content))) in
  retrieve_message (mkSocket [frame content ++ rest] shut) = Got (take n content, mkSocket (push (drop n content ++ rest) []) shut).
Proof.
  intros Hlen n. unfold frame. rewrite (proj2 (Z.leb_le 126 _)) by lia. set (l := u16 _) in *.
  assert (Hl : 0 <= l < 65536) by (unfold l, u16; by apply Z.mod_pos_bound). assert (Hn : (n < length content)%nat) by (subst n; lia).
  pose proof (message_read 1 None 126 [l / 256; l mod 256] l (take n content) (drop n content ++ rest) shut) as Hm.
  cbn [default bool_decide app] in *. rewrite app_assoc, take_drop in Hm. apply Hm; [by left|lia| |lia|done|rewrite length_take; lia].
  right. left. by rewrite ntohs_pair.
Qed.
End Protocol.

(** ** The room *)
Section RoomFacts.
Context (junk : nat -> list Z) (Hjunk : forall n, length (junk n) = n) (sha1 base64_digits : list Z -> list Z) (send_fails : HttpClient -> bool).
Abbreviation read_handler := (read_handler junk sha1 base64_digits send_fails).

Lemma send_all_reaches ids data r : (forall j, j ∈ ids -> exists c, objects r !! j = Some c /\ send_fails c = false) ->
  send_all send_fails ids data r = (map (fun j => Send j data) ids, false).
Proof.
  induction ids as [|j ids IH]; intros Hids; [done|]. cbn [send_all map]. destruct (Hids j) as (c & -> & ->); [left|].
  rewrite IH; [done|]. intros q Hq. apply Hids. by right.
Qed.

(** A message of a client reaches everyone in the room, in a frame of its own,
    and the client is read on. *)
Theorem message_to_all i c op mask content rest r : _hand_shake c = true -> _socket c = mkSocket [rfc_frame op mask content ++ rest] false ->
  op = 1 \/ op = 2 -> (forall m, mask = Some m -> length m = 4%nat) -> 0 < Z.of_nat (length content) < 65536 -> i ∈ _clients r ->
  (forall j c', j ∈ _clients r -> (if decide (j = i) then Some (mkClient (mkSocket (push rest []) false) true) else objects r !! j) = Some c' -> send_fails c' = false) ->
  (forall j, j ∈ _clients r -> is_Some (objects r !! j)) ->
  exists r' out, read_handler i c false r = Got (r', out, false) /\ i ∈ waiting r' /\ _clients r' = _clients r /\
    forall j data, Send j data ∈ out <-> j ∈ _clients r /\ data = rfc_frame 1 None content.
Proof.
  intros Hshake Hsock Hop Hmask Hlen Hi Hsend Hobj. unfold WebSocket.read_handler, do_receive. rewrite Hsock, Hshake.
  cbn [available arrived negb]. rewrite (frames_read junk Hjunk op mask content rest false Hop Hmask) by lia.
  set (r1 := set_client i _ _). destruct content as [|b content]; [cbn in Hlen; lia|].
  unfold broadcast. rewrite send_all_reaches; cycle 1.
  { intros j Hj%elem_of_elements. change (_clients r1) with (_clients r) in Hj. specialize (Hsend j). unfold r1. cbn. destruct (decide (j = i)) as [->|Hne].
    - rewrite lookup_insert_eq. eexists. split; [done|]. by apply Hsend.
    - rewrite lookup_insert_ne by done. destruct (Hobj j Hj) as [c' Hc']. exists c'. split; [done|]. by apply Hsend. }
  eexists _, _. split; [done|]. split_and!; [cbn; apply elem_of_union_l; by apply elem_of_singleton|done|]. rewrite <- frame_rfc by lia. intros j data.
  rewrite list_elem_of_fmap. split.
  - intros (q & [= -> ->] & Hq%elem_of_elements). done.
  - intros [Hj ->]. exists j. split; [done|]. by apply elem_of_elements.
Qed.
End RoomFacts.

(** Two clients after their handshakes, client 1 with what it has sent. *)
Definition zeros (n : nat) : list Z := repeat 0 n.
Definition two (pieces : list (list Z)) : HttpClient * Room :=
  let c := mkClient (mkSocket pieces false) true in
  (c, mkRoom {[1%positive := c; 2%positive := mkClient (mkSocket [] false) true]} {[1%positive; 2%positive]} {[1%positive; 2%positive]}).
Definition outcome (ec : bool) (fails : HttpClient -> bool) (cr : HttpClient * Room) : Result (list positive * list Sent * bool) :=
  match read_handler zeros (fun _ => []) (fun l => l) fails 1 cr.1 ec cr.2 with
  | Got (r, out, threw) => Got (elements (_clients r), out, threw) | Blocked => Blocked | Threw => Threw
  end.
Definition reliable (c : HttpClient) : bool := false.

(** A ping ends the connection, and so does an empty message. *)
Example ping_dropped : outcome false reliable (two [rfc_frame 9 (Some [1; 2; 3; 4]) []]) = Got ([2%positive], [], false).
Proof. vm_compute. reflexivity. Qed.
Example empty_dropped : outcome false reliable (two [rfc_frame 1 (Some [1; 2; 3; 4]) []]) = Got ([2%positive], [], false).
Proof. vm_compute. reflexivity. Qed.
(** One byte of a frame stops the thread of the service until more comes; what
    is cut between two packets is read with memory that was never written. *)
Example partial_frame_blocks : outcome false reliable (two [[0x81]]) = Blocked.
Proof. vm_compute. reflexivity. Qed.
Example cut_frame : outcome false reliable (two [[0x81; 3; 65]; [66; 67]]) =
  Got ([2%positive; 1%positive], [Send 2 [0x81; 3; 65; 0; 0]; Send 1 [0x81; 3; 65; 0; 0]], false).
Proof. vm_compute. reflexivity. Qed.
(** A client whose connection fails stays in the room, and the next message
    makes [send] throw out of the handler, here before anybody has got it. *)
Example error_stays : outcome true reliable (two []) = Got ([2%positive; 1%positive], [], false).
Proof. vm_compute. reflexivity. Qed.
Example broadcast_throws :
  outcome false (fun c => negb (available (_socket c))) (two [[0x81; 1; 65]; [0]]) = Got ([2%positive; 1%positive], [], true).
Proof. vm_compute. reflexivity. Qed.
(** The handshake: what came in the same piece behind the request is lost. *)
Definition request : list Z := text "GET /" ++ CRLF ++ text "Sec-WebSocket-Key: dGVzdA==" ++ CRLF ++ CRLF.
Example frame_behind_request :
  match do_hand_shake (fun k => [Z.of_nat (length k)]) (fun l => l) (mkClient (mkSocket [request ++ [0x81; 1; 65]] false) false) with
  | Got (c, out) => (_hand_shake c, arrived (_socket c), length out) = (true, [], 1%nat)
  | _ => False
  end.
Proof. vm_compute. reflexivity. Qed.
Example key_found : find_key request = Some (text "dGVzdA==").
Proof. vm_compute. reflexivity. Qed.
